(* ===== verification/_CoqProject ===== *)
-Q . S2P
Prelude.v
Text.v
Mcp.v
McpGovernance.v
McpPlan.v
McpPreflight.v
McpBundle.v
McpApply.v
Protocol.v
Queue.v
Watchdog.v
Recovery.v
Working.v
Metrics.v
ForkReason.v
AgentWorkspace.v
Router.v
Actor.v
StoreTypes.v
SkillGovernanceTypes.v
McpRows.v
StoreDb.v
StoreSchema.v
StoreAgents.v
StoreMessages.v
StoreDeliveries.v
StoreTasks.v
StoreWorkspaces.v
StoreMemory.v
StoreHistory.v
StoreSkills.v
StoreMcp.v
StoreMcpApply.v
StoreMcpBundle.v
StoreSkillPlans.v
StoreSkillRuns.v
StoreSkillArtifacts.v
Store.v
StoreGovernance.v
Coordinator.v
Api.v
McpApi.v
McpApiBundle.v
Sha256.v
SkillGovernance.v
SkillApi.v
