(* ===== verification/Prelude.v ===== *)
(** * cocli: a verification development of the local agent environment

    cocli runs AI coding agents as local subprocesses and lets people and agents talk in
    channels. Its Rust workspace ([src/crates], [src/bin]) has a durable store on SQLite, an
    HTTP server with a delivery worker on top of it, and an agent runtime daemon that starts
    the agents, feeds them messages and reports what they do. This library models the code
    that decides who receives which message, when and how often, and what survives failures,
    and proves that it does what it promises; where it does not, a theorem exhibits the run.

    ** The program's parts and their models

    The daemon, crate [cocli-agent]:
    - [Protocol]: the wire messages of [cocli-protocol] that the daemon exchanges with the
      server, field for field.
    - [Queue] ([queue.rs], [DeliveryQueue]): the per-agent buffer of deliveries. The class
      [DeliveryBuffer] with [DeliveryBufferLaws] is what the router relies on; the module
      [DeliveryQueue] is the implementation and [DeliveryQueue_laws] discharges the laws.
    - [Watchdog] ([watchdog.rs], [WatchdogStore]), [Recovery] ([recovery.rs],
      [RecoveryStore]), [Working] ([working.rs], [WorkingMemoryStore]) and [Metrics]
      ([metrics.rs], [AgentMetrics]): the daemon's bookkeeping. A store is the finite map it
      is in the source; a metrics object is its cells, each an atomic 64-bit counter.
    - [ForkReason] ([fork_reason.rs]): the classification of an agent's reason for a fork.
    - [AgentWorkspace] ([workspace.rs] and the workspace handlers of [router.rs]): the path
      gate [resolve_within], listing, reading and clearing, over a file system given as the
      class [FileSystem]; [FileSystemLaws] states that [canonicalize] yields a canonical path
      and that canonical paths canonicalize to themselves.
    - [Router] ([router.rs], [AgentRouter]): all handlers of the select loop as functions on
      the router's state, on top of the four components above. What the agent tasks do with
      their mailboxes between two operations of the router is an environment.
    - [Actor] ([actor.rs] from [run_loop] on, [format.rs]): the loop of a running agent as a
      step function on commands and driver events in any order, over an environment that says
      how writes to the subprocess and respawns end.

    The store, crate [cocli-store]:
    - [StoreTypes]: entities, rows, the enums persisted as strings with their decoders.
    - [StoreDb]: the tables as lists of rows, the SQL statements the operations issue with
      the constraints of [migrations/*.sql] that SQLite enforces (keys, foreign keys with
      their [ON DELETE] actions, [CHECK]s), and the monad [M] of operations: state passing
      with errors, transactions that roll back, and an environment that answers the clock,
      fresh identifiers, whether each statement fails, the JSON codec and the file system.
    - [StoreSchema]: the well-formedness [schema_ok] of a database and the rules by which
      programs of the monad preserve it.
    - [StoreAgents], [StoreMessages], [StoreDeliveries], [StoreTasks], [StoreWorkspaces],
      [StoreMemory], [StoreHistory], [StoreSkills]: the operations of [Store] ([lib.rs],
      [workspace.rs], [memory.rs], [skills.rs]) on channels, agents and memberships; messages,
      inbox cursors and working state; the delivery queue; tasks and dependencies; workspaces,
      attachments and bindings; memory documents with their front matter and indexes; sessions,
      turns, activity, bridge tokens and audited operations; the skill library. One definition
      per method, with its statements, transaction boundaries and error returns in order.
    - [Store]: all these operations together, and what holds in every reachable database.
    - [McpRows], [StoreMcp], [StoreMcpApply], [StoreMcpBundle] ([mcp_governance.rs],
      [mcp_apply.rs], [mcp_bundle.rs]): MCP profiles, bindings, plans and decisions; apply runs
      with their journals; imports of bundles. [SkillGovernanceTypes], [StoreSkillPlans],
      [StoreSkillRuns], [StoreSkillArtifacts] ([skill_governance.rs]): skill profiles and plans;
      leases and apply runs; artifacts, materializations, lockfiles and what may be collected.
    - [StoreGovernance]: the governance operations together, in any history.

    The server, crate [cocli-api]:
    - [Coordinator] ([lib.rs], [DeliveryCoordinator]): reservation, attempts, settlement and
      backoff over the store's operations; the runtime is the parameter [RuntimeService].
    - [Api] ([lib.rs]): the errors of a request and the monad of handlers, in which every call
      of the runtime is recorded with the database it is made on.
    - [McpApi], [McpApiBundle] ([mcp_http.rs]): the handlers of plans, approvals, applies,
      rollbacks, profiles and bindings, and of the export and import of bundles.
    - [Sha256], [SkillGovernance] ([skill_governance.rs]): the hash, written out in the source,
      and the skill resolver and planner that name their values by it: profiles, effective
      desired state, lockfile, observation, drift, dry-run plan.
    - [SkillApi] ([skill_governance_http.rs]): the handlers of skill profiles, bindings, desired
      states, lockfiles, drift and plans over the resolver and the store.

    The governance of MCP servers, crates [cocli-driver-core] and [cocli-server]:
    - [Mcp] ([mcp.rs], the types of [mcp_governance.rs]): observations, profiles, desired states
      and plans, with the JSON serde derives for what is hashed.
    - [McpGovernance] ([mcp_governance.rs]): validation of profiles and their resolution to a
      desired state with machine < workspace < agent precedence.
    - [McpPlan] ([mcp_governance.rs]): the hashes and the plan that a desired state and an
      inventory give.
    - [McpApply] ([mcp_governance.rs]): the data that crosses the adapter boundary.
    - [McpPreflight] ([cocli-server/src/mcp.rs]): the preflight of a plan's actions, the recovery
      of an interrupted run from its journal, the verification of its results.
    - [McpBundle] ([mcp_bundle.rs]): the export of profiles to a portable bundle and the
      validation of one.

    This file is the prelude: results with their notations, machine integers, orders, sorting,
    list and string functions with the lemmas the components share. [Text] adds what the store
    and the governance code do with text: lines, splitting, trimming, SQL's [LIKE].

    ** What the theorems show

    The theorems with an id (C1, C2, ...) are the main ones; those named here carry it at their
    statement.

    - Well-formedness: every database and router state that any history reaches satisfies its
      invariant ([reachable_database_wellformed], [router_reachable_ok]), faults and failing
      statements included; memory namespaces stay within their quotas with true indexes
      ([memory_reachable_ok]), messages are numbered without gaps, metrics keep their widths; an
      actor's session and delivery messages follow their protocol ([session_announced_first]).
    - Refinement: the delivery queue and the tasks implement abstract state machines
      ([delivery_lifecycle_refined], [task_lifecycle_refined]), with a bounded number of attempts.
    - Functional behaviour on every branch: reservation, completion, fan-out, inbox
      consumption, the recursive cycle query, claims, trajectories, memory topics as a round trip.
    - Conservation and containment: deliveries are neither lost nor duplicated by the router
      ([deliver_conserves]), the worker settles all it holds ([process_settles_batch]), paths stay
      in the workspace and the search for an existing ancestor ends.
    - Governance, planning: resolution is the declared precedence rule for MCP servers
      ([resolve_follows_precedence]) and for skills ([resolution_by_precedence]), and keeps
      validated profiles clean in any history ([desired_state_reachable_clean]); an unblocked
      action of a plan is justified by evidence and policy ([plan_unblocked_justified],
      [plan_actions_allowed]); skills drift exactly when they are not what the lockfile says
      ([no_drift_iff_as_locked]); hashes are those of the standard ([sha256_standard]) and do not
      depend on order or time ([snapshot_hash_stable]).
    - Governance, acting: the runtime is asked to change something only under a valid approval of
      the plan at hand ([apply_needs_approval]), for a finished run ([rollback_needs_run]), after a
      clean preview ([import_commit_needs_preview]); a skill plan is recorded as it was computed
      ([generated_plan_is_recorded]) and approved only while the state it was computed from is
      current ([approval_needs_current_state]); preflight authorises only proven writes,
      resuming repeats none, leases fence earlier holders ([lease_takeover_fences]), foreign
      materializations stay ([foreign_materialization_kept]), runs and imports only move on.
    - What goes wrong: [released_last_attempt_is_stranded] is a run of the model in which the code
      does not do what its design says. Others are stated with their components:
      [concurrent_dependencies_cycle], [settle_failure_strands_batch], [delivery_overtakes_buffer],
      [late_stop_unregisters_successor], [direct_channel_deletion_orphans_attachments],
      [reset_escapes_workspace_root], [turn_without_launch_duplicates], [preflight_report_flag],
      [classify_fork_reason_panics], [bare_runtime_key_refused], [weaker_capability_accepted],
      [unsupported_reported_as_manual], [plan_with_other_scope_refused],
      [padded_scope_has_no_skills].

    ** Bounds, fuel and assumptions

    Integers are [Z] with the wrapping, saturating or truncating operation of the source
    written out. Attempt counts and sequence numbers of rows are unbounded in [StoreDb]: SQLite
    would need 2^63 rows or attempts to overflow, and the theorems on reservation assume 64-bit
    attempts where the code saturates. The recursive query of the cycle check runs as many rounds
    as there are dependencies, which [add_dependency_exact] shows to be its fixed point; [climb]
    has the length of the path as fuel and pops a component per round; [trim] has the length of
    the string. The search for a free reference in a bundle has a round per reference in use,
    which [free_ref_terminates] shows to be enough; the replacement of placeholders and their
    collection have the length of the string; the padding of the hash pushes at most 63 zeros and
    has 64 rounds ([zeros_least]). Instants are compared as numbers: the RFC 3339 text that the
    database stores has a fixed offset and orders as the instants do. Statements run one at a
    time, and an operation's statements are not interleaved with another's, except where a
    theorem interleaves them. Outbound messages are those handed to the channel of the
    connection. SQLite's sum of REAL columns, the hash of the [sha2] crate, the text of a JSON
    value, the [url] crate and the text of identifiers and instants are parameters; the memory
    theorems ask that identifiers print injectively, in lower-case hexadecimal digits and hyphens
    ([UuidDisplay]).

    ** What is not modelled

    Migrations and the portable export of the database; the decoding of requests and the handlers
    of channels, agents, tasks, messages and the skill library, which pass arguments to the store
    operations above and encode what they return; the scan of the runtimes' skills, whose result
    is a parameter of [SkillApi]; the apply engine of skills and the fetching of sources, which
    copy, link and download; the polling loop and live events of the worker; the probes of
    the runtimes and the edits of their configuration files; the parsing of bundles and the
    adapter SDK; the drivers, subprocess start-up and signals; the connection layer, the bridge,
    the command line, process utilities and the web front end. They are input and output around
    the code above: what the modelled code relies on of them is a parameter with stated laws. *)
From stdpp Require Export base gmap strings list fin_maps sorting.
From Stdlib Require Export ZArith Lia.

#[global] Open Scope string_scope.
#[global] Open Scope Z_scope.

(** ** Notation scope of the development *)

Declare Scope cocli_scope.
Delimit Scope cocli_scope with cocli.
#[global] Open Scope cocli_scope.

(** ** Identifiers and instants *)

(** A [Uuid] is its 128-bit value; its column order (big-endian bytes) is that of [N]. *)
Abbreviation Uuid := N.
(** A [DateTime<Utc>] is the number of nanoseconds since the epoch. *)
Abbreviation Time := Z.

(** ** JSON values *)

(** [serde_json::Value]: a number is kept as its text. *)
Inductive Json : Type :=
  | JNull
  | JBool (b : bool)
  | JNumber (text : string)
  | JString (s : string)
  | JArray (items : list Json)
  | JObject (fields : list (string * Json)).

(** Induction through the lists of arrays and objects. *)
Lemma Json_nested_ind (P : Json → Prop) :
  P JNull → (∀ b, P (JBool b)) → (∀ t, P (JNumber t)) → (∀ s, P (JString s)) →
  (∀ l, Forall P l → P (JArray l)) → (∀ l, Forall (λ kv, P kv.2) l → P (JObject l)) →
  ∀ v, P v.
Proof.
  intros Hn Hb Hnum Hs Ha Ho. fix IH 1. intros [|b|t|s|l|l]; [exact Hn|apply Hb|apply Hnum|apply Hs|..].
  - apply Ha. induction l as [|x l IHl]; constructor; [apply IH|apply IHl].
  - apply Ho. induction l as [|[k x] l IHl]; constructor; [apply IH|apply IHl].
Qed.

(** [PartialEq] of [serde_json::Value]: the fields of an object are kept in key order. *)
Fixpoint json_eqb (x y : Json) : bool :=
  match x, y with
  | JNull, JNull => true
  | JBool a, JBool b => Bool.eqb a b
  | JNumber a, JNumber b => bool_decide (a = b)
  | JString a, JString b => bool_decide (a = b)
  | JArray a, JArray b =>
      (fix go (a b : list Json) : bool :=
         match a, b with
         | [], [] => true
         | x :: a', y :: b' => json_eqb x y && go a' b'
         | _, _ => false
         end) a b
  | JObject a, JObject b =>
      (fix go (a b : list (string * Json)) : bool :=
         match a, b with
         | [], [] => true
         | (k, x) :: a', (k', y) :: b' => bool_decide (k = k') && json_eqb x y && go a' b'
         | _, _ => false
         end) a b
  | _, _ => false
  end.

Lemma json_eqb_true (x y : Json) : json_eqb x y = true ↔ x = y.
Proof.
  revert y. induction x as [|b|t|s|l IH|l IH] using Json_nested_ind; intros [|b'|t'|s'|l'|l'];
    try done; simpl.
  - rewrite Bool.eqb_true_iff. split; congruence.
  - rewrite bool_decide_eq_true. split; congruence.
  - rewrite bool_decide_eq_true. split; congruence.
  - revert l'. induction IH as [|x l Hx _ IHl]; intros [|y l']; try done.
    rewrite andb_true_iff, Hx, IHl. split; [by intros [-> [= ->]]|by intros [= -> ->]].
  - revert l'. induction IH as [|[k x] l Hx _ IHl]; intros [|[k' y] l']; try done. simpl in Hx.
    rewrite !andb_true_iff, bool_decide_eq_true, Hx, IHl.
    split; [by intros [[-> ->] [= ->]]|by intros [= -> -> ->]].
Qed.

#[export] Instance Json_eq_dec : EqDecision Json.
Proof.
  intros x y. destruct (json_eqb x y) eqn:E.
  - left. by apply json_eqb_true.
  - right. intros H%json_eqb_true. congruence.
Defined.

(** ** Results: Rust's [Result<T, E>] *)

Inductive result (A E : Type) : Type :=
  | Ok (a : A)
  | Err (e : E).
Arguments Ok {A E} a.
Arguments Err {A E} e.

Definition rbind {A B E} (r : result A E) (k : A → result B E) : result B E :=
  match r with Ok a => k a | Err e => Err e end.

Definition is_ok {A E} (r : result A E) : bool :=
  match r with Ok _ => true | Err _ => false end.

(** [Option::ok_or]. *)
Definition ok_or {A E} (o : option A) (e : E) : result A E :=
  match o with Some a => Ok a | None => Err e end.

(** [iter.map(f).collect::<Result<Vec<_>, _>>()]: the first error wins. *)
Fixpoint collect_results {A B E} (f : A → result B E) (l : list A) : result (list B) E :=
  match l with
  | [] => Ok []
  | x :: l' => rbind (f x) (λ y, rbind (collect_results f l') (λ ys, Ok (y :: ys)))
  end.

Notation "'try!' x <- r ; k" := (rbind r (λ x, k))
  (at level 10, x name, r at level 100, k at level 200) : cocli_scope.

Lemma collect_results_ok {A B E} (f : A → result B E) (g : A → B) (l : list A) :
  (∀ x, x ∈ l → f x = Ok (g x)) → collect_results f l = Ok (map g l).
Proof.
  induction l as [|x l IH]; intros H; [done|]; simpl.
  rewrite (H x) by set_solver; simpl.
  rewrite IH; [done|]. intros y Hy. apply H. set_solver.
Qed.

Lemma collect_results_Forall2 {A B E} (f : A → result B E) (l : list A) (ys : list B) :
  collect_results f l = Ok ys ↔ Forall2 (λ x y, f x = Ok y) l ys.
Proof.
  revert ys. induction l as [|x l IH]; intros ys; simpl.
  - split; [intros [= <-]; constructor | inversion 1; done].
  - destruct (f x) as [y|e] eqn:Hf; simpl.
    + destruct (collect_results f l) as [zs|e] eqn:Hc; simpl.
      * split.
        -- intros [= <-]. constructor; [done|]. by apply IH.
        -- inversion 1 as [|? y' ? zs' Hy Hzs]; subst. apply IH in Hzs. congruence.
      * split; [done|]. inversion 1 as [|? y' ? zs' Hy Hzs]; subst.
        apply IH in Hzs. congruence.
    + split; [done|]. inversion 1 as [|? y' ? zs' Hy Hzs]; subst. congruence.
Qed.

(** ** Machine integers *)

Definition i32_min : Z := - 2 ^ 31.
Definition i32_max : Z := 2 ^ 31 - 1.
Definition i64_min : Z := - 2 ^ 63.
Definition i64_max : Z := 2 ^ 63 - 1.
Definition u32_max : Z := 2 ^ 32 - 1.
Definition u64_max : Z := 2 ^ 64 - 1.

Definition in_i32 (z : Z) : Prop := i32_min ≤ z ≤ i32_max.
Definition in_i64 (z : Z) : Prop := i64_min ≤ z ≤ i64_max.
Definition in_u32 (z : Z) : Prop := 0 ≤ z ≤ u32_max.
Definition in_u64 (z : Z) : Prop := 0 ≤ z ≤ u64_max.

(** [x as i32] for an integer of any width: keep the low 32 bits, two's complement. *)
Definition as_i32 (z : Z) : Z :=
  let m := z mod 2 ^ 32 in if m <? 2 ^ 31 then m else m - 2 ^ 32.

(** [x as i64]. *)
Definition as_i64 (z : Z) : Z :=
  let m := z mod 2 ^ 64 in if m <? 2 ^ 63 then m else m - 2 ^ 64.

(** [x as u32]. *)
Definition as_u32 (z : Z) : Z := z mod 2 ^ 32.

(** [u64] addition of the atomics: [fetch_add] wraps. *)
Definition wrap_u64 (z : Z) : Z := z mod 2 ^ 64.

Definition u32_saturating_add (x y : Z) : Z := Z.min u32_max (x + y).
Definition i32_saturating_add (x y : Z) : Z := Z.max i32_min (Z.min i32_max (x + y)).
Definition i64_saturating_add (x y : Z) : Z := Z.max i64_min (Z.min i64_max (x + y)).
Definition i64_saturating_sub (x y : Z) : Z := Z.max i64_min (Z.min i64_max (x - y)).
Definition u64_saturating_sub (x y : Z) : Z := Z.max 0 (x - y).

(** [i64::clamp(lo, hi)]. *)
Definition clamp (lo hi x : Z) : Z := if x <? lo then lo else if hi <? x then hi else x.

Lemma as_i32_id (z : Z) : in_i32 z → as_i32 z = z.
Proof.
  unfold in_i32, i32_min, i32_max, as_i32. intros H.
  destruct (decide (0 ≤ z)).
  - rewrite Z.mod_small by lia. destruct (Z.ltb_spec z (2 ^ 31)); lia.
  - assert (z mod 2 ^ 32 = z + 2 ^ 32) as ->.
    { rewrite <- (Z.mod_add z 1) by lia. rewrite Z.mod_small; lia. }
    destruct (Z.ltb_spec (z + 2 ^ 32) (2 ^ 31)); lia.
Qed.

Lemma as_i32_range (z : Z) : in_i32 (as_i32 z).
Proof.
  unfold in_i32, i32_min, i32_max, as_i32.
  pose proof (Z.mod_pos_bound z (2 ^ 32) ltac:(lia)).
  destruct (Z.ltb_spec (z mod 2 ^ 32) (2 ^ 31)); lia.
Qed.

Lemma clamp_range (lo hi x : Z) : lo ≤ hi → lo ≤ clamp lo hi x ≤ hi.
Proof.
  unfold clamp. intros.
  destruct (Z.ltb_spec x lo); [lia|]. destruct (Z.ltb_spec hi x); lia.
Qed.

Ltac unfold_ints :=
  unfold in_i32, in_i64, in_u32, in_u64, u32_saturating_add, i32_saturating_add,
    i64_saturating_add, i64_saturating_sub, u64_saturating_sub,
    i32_min, i32_max, i64_min, i64_max, u32_max, u64_max in *.

(** [lia] on machine-width goals. *)
Ltac ilia := unfold_ints; lia.

(** ** Comparison functions: [Ord::cmp], tuples and [sort_by] *)

(** A total preorder presented, as Rust's [Ord], by a three-way comparison. *)
Class TotalCmp {A} (cmp : A → A → comparison) : Prop := {
  tc_sym x y : cmp y x = CompOpp (cmp x y);
  tc_trans x y z : cmp x y ≠ Gt → cmp y z ≠ Gt → cmp x z ≠ Gt;
}.

Arguments tc_sym {A} cmp {_} x y.
Arguments tc_trans {A} cmp {_} x y z.

(** A comparison that identifies only equal values. *)
Class StrictCmp {A} (cmp : A → A → comparison) : Prop := {
  sc_total :: TotalCmp cmp;
  sc_eq x y : cmp x y = Eq → x = y;
}.

Definition cmp_le {A} (cmp : A → A → comparison) (x y : A) : bool :=
  match cmp x y with Gt => false | _ => true end.

(** [Ordering::then_with] and the lexicographic order of tuples. *)
Definition then_cmp (c d : comparison) : comparison :=
  match c with Eq => d | _ => c end.

Definition pair_cmp {A B} (ca : A → A → comparison) (cb : B → B → comparison)
    (x y : A * B) : comparison :=
  then_cmp (ca x.1 y.1) (cb x.2 y.2).

Definition on_cmp {A K} (key : A → K) (ck : K → K → comparison) (x y : A) : comparison :=
  ck (key x) (key y).

(** [Option]'s derived order: [None] first. *)
Definition option_cmp {A} (c : A → A → comparison) (x y : option A) : comparison :=
  match x, y with
  | None, None => Eq | None, Some _ => Lt | Some _, None => Gt
  | Some a, Some b => c a b
  end.

(** [bool]'s order: [false < true]. *)
Definition bool_cmp (x y : bool) : comparison :=
  match x, y with true, false => Gt | false, true => Lt | _, _ => Eq end.

Section TotalCmpFacts.
Context {A} (cmp : A → A → comparison) `{!TotalCmp cmp}.

Lemma cmp_refl x : cmp x x = Eq.
Proof. pose proof (tc_sym cmp x x). by destruct (cmp x x). Qed.

Lemma cmp_le_refl x : cmp_le cmp x x = true.
Proof. unfold cmp_le. by rewrite cmp_refl. Qed.

Lemma cmp_le_true x y : cmp_le cmp x y = true ↔ cmp x y ≠ Gt.
Proof. unfold cmp_le. by destruct (cmp x y). Qed.

Lemma cmp_le_trans x y z :
  cmp_le cmp x y = true → cmp_le cmp y z = true → cmp_le cmp x z = true.
Proof. rewrite !cmp_le_true. apply (tc_trans cmp). Qed.

Lemma cmp_le_false x y : cmp_le cmp x y = false → cmp_le cmp y x = true.
Proof. unfold cmp_le. rewrite (tc_sym cmp x y). by destruct (cmp x y). Qed.

Lemma cmp_eq_le x y : cmp x y = Eq ↔ cmp_le cmp x y = true ∧ cmp_le cmp y x = true.
Proof. unfold cmp_le. rewrite (tc_sym cmp x y). destruct (cmp x y); simpl; intuition congruence. Qed.

Lemma cmp_eq_l x y z : cmp x y = Eq → cmp x z = cmp y z.
Proof.
  intros [Hxy Hyx]%cmp_eq_le.
  destruct (cmp_le cmp x z) eqn:E1, (cmp_le cmp y z) eqn:E2.
  - assert (cmp_le cmp z x = cmp_le cmp z y) as Hz.
    { destruct (cmp_le cmp z x) eqn:F1, (cmp_le cmp z y) eqn:F2; try done.
      - by rewrite (cmp_le_trans z x y) in F2.
      - by rewrite (cmp_le_trans z y x) in F1. }
    unfold cmp_le in *. rewrite (tc_sym cmp x z), (tc_sym cmp y z) in Hz.
    by destruct (cmp x z), (cmp y z).
  - by rewrite (cmp_le_trans y x z) in E2.
  - by rewrite (cmp_le_trans x y z) in E1.
  - unfold cmp_le in *. by destruct (cmp x z), (cmp y z).
Qed.
End TotalCmpFacts.

#[export] Instance on_cmp_total {A K} (key : A → K) ck :
  TotalCmp ck → TotalCmp (on_cmp key ck).
Proof.
  intros H. split; unfold on_cmp.
  - intros x y. apply tc_sym, H.
  - intros x y z. apply tc_trans, H.
Qed.

#[export] Instance pair_cmp_total {A B} (ca : A → A → comparison) (cb : B → B → comparison) :
  TotalCmp ca → TotalCmp cb → TotalCmp (pair_cmp ca cb).
Proof.
  intros Ha Hb. split; unfold pair_cmp.
  - intros x y. rewrite (tc_sym ca x.1 y.1), (tc_sym cb x.2 y.2). by destruct (ca x.1 y.1).
  - intros x y z. unfold then_cmp.
    destruct (ca x.1 y.1) eqn:E1; [| |done].
    + rewrite (cmp_eq_l ca _ _ z.1 E1). destruct (ca y.1 z.1); [apply tc_trans, Hb | done | done].
    + intros _. destruct (ca y.1 z.1) eqn:E2; [| |done].
      * intros _. assert (ca x.1 z.1 = Lt) as ->; [|done].
        assert (ca z.1 y.1 = Eq) as E3 by (rewrite (tc_sym ca y.1 z.1), E2; done).
        pose proof (cmp_eq_l ca _ _ x.1 E3) as E4.
        rewrite (tc_sym ca x.1 z.1), (tc_sym ca x.1 y.1), E1 in E4.
        by destruct (ca x.1 z.1).
      * intros _.
        assert (ca x.1 z.1 ≠ Gt) as Hn by (apply (tc_trans ca x.1 y.1 z.1); [by rewrite E1|by rewrite E2]).
        destruct (ca x.1 z.1) eqn:E3; try done.
        exfalso. rewrite (cmp_eq_l ca _ _ y.1 E3), (tc_sym ca y.1 z.1), E2 in E1. done.
Qed.

#[export] Instance option_cmp_total {A} (c : A → A → comparison) :
  TotalCmp c → TotalCmp (option_cmp c).
Proof.
  intros H. split.
  - intros [x|] [y|]; simpl; try done. apply tc_sym, H.
  - intros [x|] [y|] [z|]; simpl; try done. apply tc_trans, H.
Qed.

#[export] Instance bool_cmp_total : TotalCmp bool_cmp.
Proof. split; [by intros [] [] | by intros [] [] []]. Qed.

#[export] Instance Z_cmp_strict : StrictCmp Z.compare.
Proof.
  split; [split|].
  - intros x y. apply Z.compare_antisym.
  - intros x y z. rewrite !Z.compare_le_iff. lia.
  - intros x y. apply Z.compare_eq.
Qed.

#[export] Instance N_cmp_strict : StrictCmp N.compare.
Proof.
  split; [split|].
  - intros x y. apply N.compare_antisym.
  - intros x y z. rewrite !N.compare_le_iff. lia.
  - intros x y. apply N.compare_eq.
Qed.

#[export] Instance ascii_cmp_strict : StrictCmp Ascii.compare.
Proof.
  split; [split|].
  - intros x y. apply Ascii.compare_antisym.
  - intros x y z. unfold Ascii.compare. rewrite !N.compare_le_iff. lia.
  - intros x y. apply Ascii.compare_eq_iff.
Qed.

#[export] Instance pair_cmp_strict {A B} (ca : A → A → comparison) (cb : B → B → comparison) :
  StrictCmp ca → StrictCmp cb → StrictCmp (pair_cmp ca cb).
Proof.
  intros Ha Hb. split; [apply _|]. intros [a b] [a' b']. unfold pair_cmp, then_cmp. cbn.
  destruct (ca a a') eqn:E; try done. apply sc_eq in E as ->. by intros ->%sc_eq.
Qed.

(** Byte-wise lexicographic order of strings: [str::cmp]. *)
#[export] Instance string_cmp_strict : StrictCmp String.compare.
Proof.
  split; [split|].
  - intros x y. apply String.compare_antisym.
  - intros x. induction x as [|a x IH]; intros [|b y] [|c z]; simpl; try done.
    destruct (Ascii.compare a b) eqn:E1; [| |done].
    + apply Ascii.compare_eq_iff in E1 as ->. destruct (Ascii.compare b c); try done. apply IH.
    + destruct (Ascii.compare b c) eqn:E2; [| |done]; intros _ _.
      * apply Ascii.compare_eq_iff in E2 as ->. by rewrite E1.
      * assert (Ascii.compare a c ≠ Gt) as Hn.
        { eapply (tc_trans Ascii.compare a b c); [by rewrite E1|by rewrite E2]. }
        destruct (Ascii.compare a c) eqn:E3; try done.
        exfalso. apply Ascii.compare_eq_iff in E3 as ->.
        rewrite (tc_sym Ascii.compare b c), E2 in E1. done.
  - intros x y. apply String.compare_eq_iff.
Qed.

(** ** Stable sorting: [slice::sort_by], [Vec::dedup] *)

Section Sorting.
Context {A : Type} (cmp : A → A → comparison).

(** Insert before the first element that is not smaller; folding from the right keeps
    equal elements in their original order, as Rust's stable sort does. *)
Fixpoint insert_by (x : A) (l : list A) : list A :=
  match l with
  | [] => [x]
  | y :: l' => if cmp_le cmp x y then x :: l else y :: insert_by x l'
  end.

Fixpoint sort_by (l : list A) : list A :=
  match l with
  | [] => []
  | x :: l' => insert_by x (sort_by l')
  end.

Definition sorted_by (l : list A) : Prop :=
  StronglySorted (λ x y, cmp_le cmp x y = true) l.

Lemma insert_by_perm x l : insert_by x l ≡ₚ x :: l.
Proof.
  induction l as [|y l IH]; simpl; [done|].
  destruct (cmp_le cmp x y); [done|]. rewrite IH. apply Permutation_swap.
Qed.

Lemma sort_by_perm l : sort_by l ≡ₚ l.
Proof. induction l as [|x l IH]; simpl; [done|]. by rewrite insert_by_perm, IH. Qed.

Lemma elem_of_sort_by x l : x ∈ sort_by l ↔ x ∈ l.
Proof. by rewrite sort_by_perm. Qed.

Lemma length_sort_by l : length (sort_by l) = length l.
Proof. by rewrite sort_by_perm. Qed.

Lemma sort_by_nil l : sort_by l = [] ↔ l = [].
Proof.
  split; [|by intros ->]. intros H. apply length_zero_iff_nil.
  by rewrite <- length_sort_by, H.
Qed.

Lemma NoDup_sort_by l : NoDup l → NoDup (sort_by l).
Proof. by rewrite sort_by_perm. Qed.

Lemma sort_by_sorted_id l : sorted_by l → sort_by l = l.
Proof.
  induction 1 as [|x l Hs IH Hall]; simpl; [done|]. rewrite IH.
  destruct l as [|y l]; simpl; [done|]. inversion_clear Hall as [|? ? Hy]. by rewrite Hy.
Qed.

Context `{!TotalCmp cmp}.

Lemma insert_by_sorted x l : sorted_by l → sorted_by (insert_by x l).
Proof.
  unfold sorted_by.
  induction 1 as [|y l Hs IH Hall]; simpl; [by repeat constructor|].
  destruct (cmp_le cmp x y) eqn:E.
  - constructor; [by constructor|]. constructor; [done|].
    eapply Forall_impl; [exact Hall|]. intros z Hz. by eapply cmp_le_trans.
  - constructor; [done|]. rewrite insert_by_perm. constructor; [|done].
    by apply cmp_le_false.
Qed.

Lemma sort_by_sorted l : sorted_by (sort_by l).
Proof. induction l; simpl; [constructor | by apply insert_by_sorted]. Qed.

Lemma sort_by_idemp l : sort_by (sort_by l) = sort_by l.
Proof. apply sort_by_sorted_id, sort_by_sorted. Qed.

(** [ORDER BY .. LIMIT 1]: the first of the sorted elements precedes them all. *)
Lemma sort_by_head l x :
  head (sort_by l) = Some x → x ∈ l ∧ ∀ y, y ∈ l → cmp_le cmp x y = true.
Proof.
  intros Hx. split; [by apply elem_of_sort_by, head_Some_elem_of|].
  intros y Hy%elem_of_sort_by. pose proof (sort_by_sorted l) as Hs.
  destruct (sort_by l) as [|z l']; [done|]. injection Hx as ->.
  apply elem_of_cons in Hy as [->|Hy]; [by apply cmp_le_refl|].
  inversion_clear Hs as [|? ? _ Hall]. by eapply Forall_forall in Hall.
Qed.
End Sorting.

(** When only equal elements compare equal, the sorted list is determined by the multiset of
    its elements: hashing a sorted vector forgets the input order, and a query with a
    unique [ORDER BY] key has one answer. *)
Lemma sorted_by_unique_on {A} (cmp : A → A → comparison) `{!TotalCmp cmp} (l1 l2 : list A) :
  (∀ x y, x ∈ l1 → y ∈ l1 → cmp x y = Eq → x = y) →
  sorted_by cmp l1 → sorted_by cmp l2 → l1 ≡ₚ l2 → l1 = l2.
Proof.
  intros Heq H1. revert l2 Heq. induction H1 as [|x l1 Hs1 IH Hall1]; intros l2 Heq H2 Hp.
  { by apply Permutation_nil_l in Hp. }
  destruct H2 as [|y l2 Hs2 Hall2].
  { symmetry in Hp. by apply Permutation_nil_cons in Hp. }
  rewrite Forall_forall in Hall1, Hall2.
  assert (y ∈ x :: l1) as Hy by (rewrite Hp; set_solver).
  assert (x = y) as ->.
  { apply Heq; [set_solver|done|]. apply cmp_eq_le; [apply _|]. split.
    - apply elem_of_cons in Hy as [->|Hy]; [apply cmp_le_refl; apply _|by apply Hall1].
    - assert (x ∈ y :: l2) as Hx by (rewrite <- Hp; set_solver).
      apply elem_of_cons in Hx as [->|Hx]; [apply cmp_le_refl; apply _|by apply Hall2]. }
  f_equal. apply IH; [set_solver|done|]. by eapply Permutation_cons_inv.
Qed.

Lemma sorted_by_unique {A} (cmp : A → A → comparison) `{!StrictCmp cmp} (l1 l2 : list A) :
  sorted_by cmp l1 → sorted_by cmp l2 → l1 ≡ₚ l2 → l1 = l2.
Proof. apply sorted_by_unique_on; [apply _|]. intros x y _ _. apply (sc_eq (cmp := cmp)). Qed.

Lemma StronglySorted_impl {A} (R S : A → A → Prop) (l : list A) :
  (∀ x y, R x y → S x y) → StronglySorted R l → StronglySorted S l.
Proof.
  intros HRS. induction 1 as [|x l Hs IH Hall]; constructor; [done|].
  eapply Forall_impl; [exact Hall|]. eauto.
Qed.

Lemma sort_by_strict_id {A} (cmp : A → A → comparison) `{!TotalCmp cmp} (l : list A) :
  StronglySorted (λ x y, cmp x y = Lt) l → sort_by cmp l = l.
Proof.
  intros Hs. apply sort_by_sorted_id. eapply StronglySorted_impl; [|exact Hs].
  intros x y H. apply (cmp_le_true cmp). by rewrite H.
Qed.

Lemma last_sorted_max {A} (cmp : A → A → comparison) `{!TotalCmp cmp} (l : list A) (x : A) :
  last (sort_by cmp l) = Some x → x ∈ l ∧ ∀ y, y ∈ l → cmp_le cmp y x = true.
Proof.
  intros Hl. destruct (last_Some (sort_by cmp l) x) as [[l' Heq] _]; [done|].
  pose proof (sort_by_sorted cmp l) as Hs. rewrite Heq in Hs.
  assert (∀ y, y ∈ l ↔ y ∈ (l' ++ [x])%list) as Hel.
  { intros y. by rewrite <- Heq, elem_of_sort_by. }
  split; [apply Hel; set_solver|]. intros y [Hy | ->%list_elem_of_singleton]%Hel%elem_of_app.
  - apply StronglySorted_app in Hs as (Hs & _ & _). apply Hs; set_solver.
  - by apply cmp_le_refl.
Qed.

Lemma flip_cmp_total {A} (cmp : A → A → comparison) :
  TotalCmp cmp → TotalCmp (λ x y, cmp y x).
Proof.
  intros H. split.
  - intros x y. apply (tc_sym cmp).
  - intros x y z Hxy Hyz. by eapply (tc_trans cmp).
Qed.

Lemma StronglySorted_snoc {A} (R : A → A → Prop) (l : list A) (x : A) :
  StronglySorted R l → (∀ y, y ∈ l → R y x) → StronglySorted R (l ++ [x]).
Proof.
  induction 1 as [|y l Hs IH Hall]; intros Hx; simpl; [repeat constructor|].
  constructor; [apply IH; set_solver|]. apply Forall_app. split; [done|].
  constructor; [apply Hx; set_solver|done].
Qed.

Lemma StronglySorted_reverse {A} (R : A → A → Prop) (l : list A) :
  StronglySorted R l → StronglySorted (flip R) (reverse l).
Proof.
  induction 1 as [|y l Hs IH Hall]; [constructor|]. rewrite reverse_cons.
  apply StronglySorted_snoc; [done|]. intros z Hz. rewrite elem_of_reverse in Hz.
  rewrite Forall_forall in Hall. exact (Hall z Hz).
Qed.

(** Under a separating key, [ORDER BY key DESC] is the reverse of [ORDER BY key]. *)
Lemma sort_by_flip {A} (cmp : A → A → comparison) `{!TotalCmp cmp} (l : list A) :
  (∀ x y, x ∈ l → y ∈ l → cmp x y = Eq → x = y) →
  sort_by (λ x y, cmp y x) l = reverse (sort_by cmp l).
Proof.
  intros Heq. pose proof (flip_cmp_total cmp _) as Hflip.
  apply (sorted_by_unique_on (λ x y, cmp y x)).
  - intros x y Hx%elem_of_sort_by Hy%elem_of_sort_by E. symmetry. auto.
  - apply sort_by_sorted, Hflip.
  - apply (StronglySorted_reverse _ _ (sort_by_sorted cmp l)).
  - by rewrite reverse_Permutation, !sort_by_perm.
Qed.

Lemma sort_by_permutation {A} (cmp : A → A → comparison) `{!StrictCmp cmp} (l1 l2 : list A) :
  l1 ≡ₚ l2 → sort_by cmp l1 = sort_by cmp l2.
Proof.
  intros H. apply (sorted_by_unique cmp); [apply sort_by_sorted, _ .. |].
  by rewrite !sort_by_perm.
Qed.

(** [Vec::dedup]: drop elements equal to their predecessor. *)
Fixpoint dedup `{EqDecision A} (l : list A) : list A :=
  match l with
  | x :: ((y :: _) as l') => if decide (x = y) then dedup l' else x :: dedup l'
  | _ => l
  end.

Lemma dedup_cons2 `{EqDecision A} (x y : A) (l : list A) :
  dedup (x :: y :: l) = if decide (x = y) then dedup (y :: l) else x :: dedup (y :: l).
Proof. done. Qed.

Lemma elem_of_dedup `{EqDecision A} (z : A) (l : list A) : z ∈ dedup l ↔ z ∈ l.
Proof.
  induction l as [|x [|y l] IH]; [done | done |].
  rewrite dedup_cons2. case_decide as E; [subst|]; rewrite ?elem_of_cons, IH; set_solver.
Qed.

(** ** Lists: first match, in-place update of the first match *)

(** [iter().find(p)]. *)
Fixpoint find {A} (p : A → bool) (l : list A) : option A :=
  match l with
  | [] => None
  | x :: l' => if p x then Some x else find p l'
  end.

(** [if let Some(x) = iter_mut().find(p) { *x = f(x) }]; [None] when nothing matches. *)
Fixpoint update_first {A} (p : A → bool) (f : A → A) (l : list A) : option (list A) :=
  match l with
  | [] => None
  | x :: l' => if p x then Some (f x :: l') else cons x <$> update_first p f l'
  end.

Lemma find_Some {A} (p : A → bool) (l : list A) (x : A) :
  find p l = Some x → x ∈ l ∧ p x = true.
Proof.
  induction l as [|y l IH]; simpl; [done|].
  destruct (p y) eqn:E; [intros [= ->]; set_solver | naive_solver set_solver].
Qed.

Lemma find_None {A} (p : A → bool) (l : list A) :
  find p l = None ↔ ∀ x, x ∈ l → p x = false.
Proof.
  induction l as [|y l IH]; simpl; [set_solver|].
  destruct (p y) eqn:E.
  - split; [done|]. intros H. rewrite (H y) in E by set_solver. done.
  - rewrite IH. set_solver.
Qed.

Lemma find_is_Some {A} (p : A → bool) (l : list A) :
  is_Some (find p l) ↔ ∃ x, x ∈ l ∧ p x = true.
Proof.
  split.
  - intros [x Hx]. exists x. by apply find_Some.
  - intros (x & Hx & Hp). destruct (find p l) eqn:E; [by eexists|].
    rewrite find_None in E. by rewrite E in Hp.
Qed.

Lemma update_first_None {A} (p : A → bool) (f : A → A) (l : list A) :
  update_first p f l = None ↔ ∀ x, x ∈ l → p x = false.
Proof.
  induction l as [|y l IH]; simpl; [set_solver|]. destruct (p y) eqn:E.
  - split; [done|]. intros H. rewrite (H y) in E by set_solver. done.
  - rewrite fmap_None, IH. set_solver.
Qed.

Lemma update_first_Some {A} (p : A → bool) (f : A → A) (l l' : list A) :
  update_first p f l = Some l' →
  ∃ l1 x l2, l = (l1 ++ x :: l2)%list ∧ l' = (l1 ++ f x :: l2)%list ∧ p x = true ∧
             ∀ y, y ∈ l1 → p y = false.
Proof.
  revert l'. induction l as [|y l IH]; intros l'; simpl; [done|].
  destruct (p y) eqn:E.
  - intros [= <-]. exists [], y, l. set_solver.
  - intros (l'' & (l1 & x & l2 & -> & -> & Hp & Hl1)%IH & ->)%fmap_Some.
    exists (y :: l1), x, l2. set_solver.
Qed.

Lemma update_first_length {A} (p : A → bool) (f : A → A) (l l' : list A) :
  update_first p f l = Some l' → length l' = length l.
Proof.
  intros (l1 & x & l2 & -> & -> & _)%update_first_Some. by rewrite !length_app.
Qed.

(** [slice::iter().filter(p)] with a boolean test, and sums of lengths. *)
Fixpoint bfilter {A} (p : A → bool) (l : list A) : list A :=
  match l with
  | [] => []
  | x :: l' => if p x then x :: bfilter p l' else bfilter p l'
  end.

Lemma elem_of_bfilter {A} (p : A → bool) (l : list A) (x : A) :
  x ∈ bfilter p l ↔ x ∈ l ∧ p x = true.
Proof.
  induction l as [|y l IH]; simpl; [set_solver|].
  destruct (p y) eqn:E; rewrite !elem_of_cons, IH || rewrite elem_of_cons, IH.
  - split; [intros [->|[??]]; auto | intros [[->|?] ?]; auto].
  - split; [intros [??]; auto | intros [[->|?] ?]; [congruence | auto]].
Qed.

Lemma bfilter_length {A} (p : A → bool) (l : list A) : (length (bfilter p l) ≤ length l)%nat.
Proof. induction l as [|y l IH]; simpl; [done|]. destruct (p y); simpl; lia. Qed.

Lemma bfilter_app {A} (p : A → bool) (l1 l2 : list A) :
  bfilter p (l1 ++ l2) = (bfilter p l1 ++ bfilter p l2)%list.
Proof. induction l1 as [|y l IH]; simpl; [done|]. rewrite IH. by destruct (p y). Qed.

Lemma bfilter_sublist {A} (p : A → bool) (l : list A) : bfilter p l `sublist_of` l.
Proof.
  induction l as [|y l IH]; simpl; [constructor|]. destruct (p y); by constructor.
Qed.

Lemma sublist_map {A B} (f : A → B) (l k : list A) :
  l `sublist_of` k → map f l `sublist_of` map f k.
Proof. induction 1; simpl; by constructor. Qed.

Lemma bfilter_NoDup {A} (p : A → bool) (l : list A) : NoDup l → NoDup (bfilter p l).
Proof. intros H. eapply sublist_NoDup; [exact H|]. apply bfilter_sublist. Qed.

Lemma bfilter_all {A} (p : A → bool) (l : list A) :
  (∀ x, x ∈ l → p x = true) → bfilter p l = l.
Proof.
  induction l as [|y l IH]; simpl; [done|]. intros H.
  rewrite (H y) by set_solver. f_equal. apply IH. set_solver.
Qed.

Lemma bfilter_none {A} (p : A → bool) (l : list A) :
  (∀ x, x ∈ l → p x = false) → bfilter p l = [].
Proof.
  induction l as [|y l IH]; simpl; [done|]. intros H.
  rewrite (H y) by set_solver. apply IH. set_solver.
Qed.

Lemma StronglySorted_bfilter {A} (R : A → A → Prop) (p : A → bool) (l : list A) :
  StronglySorted R l → StronglySorted R (bfilter p l).
Proof.
  induction 1 as [|y l Hs IH Hall]; simpl; [constructor|]. destruct (p y); [|done].
  constructor; [done|]. rewrite Forall_forall in *. intros z Hz%elem_of_bfilter. naive_solver.
Qed.

Lemma bfilter_perm {A} (p : A → bool) (l k : list A) : l ≡ₚ k → bfilter p l ≡ₚ bfilter p k.
Proof.
  induction 1 as [|x l k _ IH|x y l|l1 l2 l3 _ IH1 _ IH2]; simpl; [done| | |by rewrite IH1].
  - destruct (p x); by rewrite ?IH.
  - destruct (p x), (p y); try done. apply Permutation_swap.
Qed.

Lemma bfilter_andb {A} (p q : A → bool) (l : list A) :
  bfilter (λ x, p x && q x) l = bfilter q (bfilter p l).
Proof.
  induction l as [|x l IH]; simpl; [done|]. destruct (p x); simpl; [|done].
  by destruct (q x); rewrite IH.
Qed.

(** Sorting a permutation, when the order tells the elements apart. *)
Lemma sort_by_perm_on {A} (cmp : A → A → comparison) `{!TotalCmp cmp} l1 l2 :
  (∀ x y, x ∈ l1 → y ∈ l1 → cmp x y = Eq → x = y) → l1 ≡ₚ l2 → sort_by cmp l1 = sort_by cmp l2.
Proof.
  intros Heq Hp. apply (sorted_by_unique_on cmp); [|apply sort_by_sorted, _..|by rewrite !sort_by_perm].
  intros x y. rewrite !elem_of_sort_by. apply Heq.
Qed.

Lemma elem_of_concat_map {A B} (f : A → list B) l x : x ∈ concat (map f l) ↔ ∃ y, y ∈ l ∧ x ∈ f y.
Proof.
  rewrite list_elem_of_In, in_concat. split.
  - intros (k & Hk%list_elem_of_In & Hx%list_elem_of_In). apply list_elem_of_fmap in Hk as (y & -> & Hy). eauto.
  - intros (y & Hy & Hx). exists (f y). rewrite <- !list_elem_of_In. split; [apply list_elem_of_fmap; eauto|done].
Qed.

(** Sorting commutes with a map that keeps the order. *)
Lemma sort_by_map {A B} (ca : A → A → comparison) (cb : B → B → comparison) (f : A → B) (l : list A) :
  (∀ x y, cb (f x) (f y) = ca x y) → sort_by cb (map f l) = map f (sort_by ca l).
Proof.
  intros Hf. assert (∀ x k, insert_by cb (f x) (map f k) = map f (insert_by ca x k)) as Hi.
  { intros x. induction k as [|y k IH]; simpl; [done|].
    unfold cmp_le. rewrite Hf. fold (cmp_le ca x y). destruct (cmp_le ca x y); [done|].
    simpl. by rewrite IH. }
  induction l as [|x l IH]; simpl; [done|]. by rewrite IH, Hi.
Qed.

Lemma bfilter_map_keeps {A} (p : A → bool) (f : A → A) (l : list A) :
  (∀ x, p (f x) = p x) → bfilter p (map f l) = map f (bfilter p l).
Proof.
  intros Hf. induction l as [|x l IH]; simpl; [done|]. rewrite Hf, IH. by destruct (p x).
Qed.

(** [WHERE] commutes with [ORDER BY]. *)
Lemma NoDup_key_eq {A K} (key : A → K) (l : list A) (x y : A) :
  NoDup (map key l) → x ∈ l → y ∈ l → key x = key y → x = y.
Proof.
  induction l as [|z l IH]; simpl; [set_solver|].
  intros [Hz Hl]%NoDup_cons Hx Hy Hk.
  apply elem_of_cons in Hx as [->|Hx], Hy as [->|Hy]; [done| | |by apply IH].
  - destruct Hz. apply list_elem_of_fmap. by exists y.
  - destruct Hz. apply list_elem_of_fmap. by exists x.
Qed.

Lemma elem_of_concat {A} (x : A) (ls : list (list A)) : x ∈ concat ls ↔ ∃ l, l ∈ ls ∧ x ∈ l.
Proof.
  rewrite list_elem_of_In, in_concat. by setoid_rewrite list_elem_of_In.
Qed.

Lemma sort_by_bfilter {A} (cmp : A → A → comparison) `{!TotalCmp cmp} (p : A → bool) (l : list A) :
  (∀ x y, x ∈ l → y ∈ l → cmp x y = Eq → x = y) →
  sort_by cmp (bfilter p l) = bfilter p (sort_by cmp l).
Proof.
  intros Heq. apply (sorted_by_unique_on cmp).
  - intros x y [Hx _]%elem_of_sort_by%elem_of_bfilter [Hy _]%elem_of_sort_by%elem_of_bfilter. auto.
  - apply sort_by_sorted, _.
  - apply StronglySorted_bfilter, sort_by_sorted, _.
  - rewrite sort_by_perm. apply bfilter_perm. by rewrite sort_by_perm.
Qed.

(** ** Strings: byte sequences, as Rust's UTF-8 [str] *)

Definition str_is_empty (s : string) : bool :=
  match s with "" => true | _ => false end.

Definition str_eqb (a b : string) : bool := bool_decide (a = b).

(** [str::strip_prefix]. *)
Fixpoint strip_prefix (p s : string) : option string :=
  match p, s with
  | "", _ => Some s
  | String a p', String b s' => if Ascii.eqb a b then strip_prefix p' s' else None
  | String _ _, "" => None
  end.

Definition starts_with (p s : string) : bool :=
  match strip_prefix p s with Some _ => true | None => false end.

(** [str::contains]. *)
Fixpoint contains (needle s : string) : bool :=
  starts_with needle s ||
  match s with "" => false | String _ s' => contains needle s' end.

(** [str::split_once]: around the first occurrence. *)
Fixpoint split_once (needle s : string) : option (string * string) :=
  match strip_prefix needle s with
  | Some rest => Some ("", rest)
  | None =>
      match s with
      | "" => None
      | String c s' =>
          match split_once needle s' with
          | Some (pre, post) => Some (String c pre, post)
          | None => None
          end
      end
  end.

Definition ascii_lower (c : Ascii.ascii) : Ascii.ascii :=
  let n := Ascii.N_of_ascii c in
  if (65 <=? n)%N && (n <=? 90)%N then Ascii.ascii_of_N (n + 32) else c.

(** [str::to_ascii_lowercase]. *)
Fixpoint to_ascii_lowercase (s : string) : string :=
  match s with "" => "" | String c s' => String (ascii_lower c) (to_ascii_lowercase s') end.

Fixpoint str_rev_onto (s acc : string) : string :=
  match s with "" => acc | String c s' => str_rev_onto s' (String c acc) end.
Definition str_rev (s : string) : string := str_rev_onto s "".

(** Byte strings given by their code values. *)
Fixpoint bytes (l : list N) : string :=
  match l with [] => "" | n :: l' => String (Ascii.ascii_of_N n) (bytes l') end.

(** The UTF-8 encodings of the code points with the Unicode property White_Space, which
    is what [str::trim] strips. *)
Definition whitespace : list string :=
  (map (λ n, bytes [n]) [9; 10; 11; 12; 13; 32]%N ++
   [bytes [194; 133]; bytes [194; 160]; bytes [225; 154; 128]] ++
   map (λ n, bytes [226; 128; n]) [128; 129; 130; 131; 132; 133; 134; 135; 136; 137; 138]%N ++
   [bytes [226; 128; 168]; bytes [226; 128; 169]; bytes [226; 128; 175];
    bytes [226; 129; 159]; bytes [227; 128; 128]])%N%list.

(** The rest of the string after one leading white space of the table, if there is one. *)
Fixpoint strip_any (ps : list string) (s : string) : option string :=
  match ps with
  | [] => None
  | p :: ps' => match strip_prefix p s with Some r => Some r | None => strip_any ps' s end
  end.

(** A white space is at least one byte long, so the length bounds the iterations. *)
Fixpoint trim_start_fuel (ws : list string) (n : nat) (s : string) : string :=
  match n with
  | O => s
  | S n' => match strip_any ws s with Some r => trim_start_fuel ws n' r | None => s end
  end.

Definition trim_start_with (ws : list string) (s : string) : string :=
  trim_start_fuel ws (String.length s) s.

(** [str::trim]: white space is stripped at the front, then at the back (on the reversed
    string against the reversed encodings; UTF-8 is self-synchronising, so a byte suffix
    that is the encoding of a code point is that code point). *)
Definition trim (s : string) : string :=
  str_rev (trim_start_with (map str_rev whitespace) (str_rev (trim_start_with whitespace s))).

Definition trim_is_empty (s : string) : bool := str_is_empty (trim s).

(** [str::from_utf8]: the well-formed byte sequences of the Unicode standard (no overlong
    forms, no surrogates, nothing above U+10FFFF). The state is the list of the ranges the
    next bytes have to fall in. *)
Definition in_range (lo hi : N) (c : Ascii.ascii) : bool :=
  (lo <=? Ascii.N_of_ascii c)%N && (Ascii.N_of_ascii c <=? hi)%N.
Definition utf8_lead (c : Ascii.ascii) : option (list (N * N)) :=
  let tail := (128, 191)%N in
  if in_range 0 127 c then Some []
  else if in_range 194 223 c then Some [tail]
  else if in_range 224 224 c then Some [(160, 191)%N; tail]
  else if in_range 237 237 c then Some [(128, 159)%N; tail]
  else if in_range 225 239 c then Some [tail; tail]
  else if in_range 240 240 c then Some [(144, 191)%N; tail; tail]
  else if in_range 241 243 c then Some [tail; tail; tail]
  else if in_range 244 244 c then Some [(128, 143)%N; tail; tail]
  else None.
Fixpoint utf8_run (expect : list (N * N)) (s : string) : bool :=
  match s, expect with
  | "", [] => true
  | "", _ :: _ => false
  | String c s', [] => match utf8_lead c with Some e => utf8_run e s' | None => false end
  | String c s', (lo, hi) :: e => in_range lo hi c && utf8_run e s'
  end.
Definition utf8_valid (s : string) : bool := utf8_run [] s.

Lemma str_eqb_eq (a b : string) : str_eqb a b = true ↔ a = b.
Proof. apply bool_decide_eq_true. Qed.

Lemma str_eqb_refl (a : string) : str_eqb a a = true.
Proof. by apply str_eqb_eq. Qed.

Lemma str_is_empty_true (s : string) : str_is_empty s = true ↔ s = "".
Proof. by destruct s. Qed.

Lemma append_nil_l (r : string) : "" +:+ r = r.
Proof. reflexivity. Qed.

Lemma append_cons (c : Ascii.ascii) (p r : string) : String c p +:+ r = String c (p +:+ r).
Proof. reflexivity. Qed.

Lemma strip_prefix_Some (p s r : string) : strip_prefix p s = Some r ↔ s = p +:+ r.
Proof.
  revert s. induction p as [|a p IH]; intros s; simpl;
    rewrite ?append_nil_l, ?append_cons; [split; intros; congruence|].
  destruct s as [|b s]; [done|].
  destruct (Ascii.eqb_spec a b) as [->|Hne]; [rewrite IH; split; intros; congruence|].
  split; intros; congruence.
Qed.

Lemma starts_with_true (p s : string) : starts_with p s = true ↔ ∃ r, s = p +:+ r.
Proof.
  unfold starts_with. destruct (strip_prefix p s) as [r|] eqn:E.
  - apply strip_prefix_Some in E. naive_solver.
  - split; [done|]. intros [r Hr%strip_prefix_Some]. congruence.
Qed.

Lemma strip_any_Some (ps : list string) (s r : string) :
  strip_any ps s = Some r → ∃ p, p ∈ ps ∧ s = p +:+ r.
Proof.
  induction ps as [|p ps IH]; simpl; [done|].
  destruct (strip_prefix p s) eqn:E.
  - intros [= ->]. apply strip_prefix_Some in E. set_solver.
  - set_solver.
Qed.

Lemma length_append (a b : string) :
  String.length (a +:+ b) = (String.length a + String.length b)%nat.
Proof. induction a as [|c a IH]; [done|]. rewrite append_cons. simpl. by rewrite IH. Qed.

(** Every white space of a table of non-empty encodings is removed: the fuel suffices. *)
Lemma trim_start_fuel_done (ws : list string) (n : nat) (s : string) :
  (∀ w, w ∈ ws → w ≠ "") → (String.length s ≤ n)%nat →
  strip_any ws (trim_start_fuel ws n s) = None.
Proof.
  intros Hws. revert s. induction n as [|n IH]; intros s Hn; simpl.
  - destruct s; [|simpl in Hn; lia].
    destruct (strip_any ws "") as [r|] eqn:E; [|done].
    apply strip_any_Some in E as (w & Hw & He). destruct w; [by apply Hws in Hw|done].
  - destruct (strip_any ws s) as [r|] eqn:E; [|done]. apply IH.
    apply strip_any_Some in E as (w & Hw & ->). rewrite length_append in Hn.
    destruct w; [by apply Hws in Hw|]. simpl in Hn. lia.
Qed.

Lemma whitespace_nonempty (w : string) : w ∈ whitespace → w ≠ "".
Proof.
  revert w. apply (proj1 (Forall_forall (λ w, w ≠ "") whitespace)).
  repeat constructor; done.
Qed.

Lemma trim_start_done (s : string) :
  strip_any whitespace (trim_start_with whitespace s) = None.
Proof. apply trim_start_fuel_done; [apply whitespace_nonempty|done]. Qed.

(** ** Automation *)

Create HintDb cocli.
Create Rewrite HintDb cocli.
#[export] Hint Resolve cmp_le_refl sort_by_sorted clamp_range as_i32_range bfilter_NoDup
  NoDup_sort_by : cocli.
#[export] Hint Rewrite @length_sort_by @elem_of_sort_by @elem_of_bfilter @elem_of_dedup : cocli.

(** Split the boolean connectives and reflect the integer and decidable tests. *)
Ltac bsimp :=
  repeat match goal with
  | H : _ && _ = true |- _ => apply andb_true_iff in H as [? ?]
  | H : _ || _ = false |- _ => apply orb_false_iff in H as [? ?]
  | H : negb _ = true |- _ => apply negb_true_iff in H
  | H : negb _ = false |- _ => apply negb_false_iff in H
  | H : bool_decide _ = true |- _ => apply bool_decide_eq_true in H
  | H : bool_decide _ = false |- _ => apply bool_decide_eq_false in H
  | H : (_ =? _) = true |- _ => apply Z.eqb_eq in H
  | H : (_ =? _) = false |- _ => apply Z.eqb_neq in H
  | H : (_ <? _) = true |- _ => apply Z.ltb_lt in H
  | H : (_ <? _) = false |- _ => apply Z.ltb_ge in H
  | H : (_ <=? _) = true |- _ => apply Z.leb_le in H
  | H : (_ <=? _) = false |- _ => apply Z.leb_gt in H
  end.

(** Destruct every scrutinised term of the goal, then of the hypotheses. *)
Ltac dmatch := repeat (case_match; simplify_eq/=).

(** Discharge a closed decidable goal by evaluating its decision procedure. *)
Ltac compute_decide :=
  lazymatch goal with
  | |- ?P => refine (bool_decide_unpack P _); vm_compute; exact I
  end.
