(* ===== verification/Text.v ===== *)
(** * Strings of the standard library and of SQL

    The operations on [str] beyond those of [Prelude] that the memory documents and the
    MCP profiles use ([split], [lines], [find], [trim_matches], [chars]), SQLite's [LIKE],
    and the lemmas that let line-oriented text be built and taken apart. *)
From Stdlib Require Import Ascii.
From S2P Require Import Prelude.

Definition LF : Ascii.ascii := Ascii.ascii_of_N 10.
Definition CR : Ascii.ascii := Ascii.ascii_of_N 13.
(** The strings of one line feed and one carriage return. *)
Definition lf : string := String LF "".
Definition cr : string := String CR "".

(** ** Searching *)

(** [s.chars().any(|c| c == ..)] for an ASCII character. *)
Fixpoint has_char (c : Ascii.ascii) (s : string) : bool :=
  match s with "" => false | String d s' => Ascii.eqb d c || has_char c s' end.

(** [s.bytes().all(p)]. *)
Fixpoint all_bytes (p : Ascii.ascii → bool) (s : string) : bool :=
  match s with "" => true | String c s' => p c && all_bytes p s' end.

Definition is_ascii_lowercase (c : Ascii.ascii) : bool := in_range 97 122 c.
Definition is_ascii_uppercase (c : Ascii.ascii) : bool := in_range 65 90 c.
Definition is_ascii_digit (c : Ascii.ascii) : bool := in_range 48 57 c.
Definition is_ascii_alphanumeric (c : Ascii.ascii) : bool :=
  is_ascii_lowercase c || is_ascii_uppercase c || is_ascii_digit c.

(** [s.chars().count()] of well-formed UTF-8: the bytes that start a character. *)
Fixpoint char_count (s : string) : nat :=
  match s with
  | "" => 0
  | String c s' => (if in_range 128 191 c then 0 else 1) + char_count s'
  end.

(** [str::strip_suffix] and [str::ends_with]. *)
Definition strip_suffix (p s : string) : option string :=
  str_rev <$> strip_prefix (str_rev p) (str_rev s).
Definition ends_with (p s : string) : bool :=
  match strip_suffix p s with Some _ => true | None => false end.

(** ** Splitting *)

(** [str::split] at an ASCII character. *)
Fixpoint split_char (c : Ascii.ascii) (s : string) : list string :=
  match s with
  | "" => [""]
  | String d s' =>
      if Ascii.eqb d c then "" :: split_char c s'
      else match split_char c s' with
           | [] => [String d ""]
           | x :: l => String d x :: l
           end
  end.

(** A line loses the carriage return in front of its line feed. *)
Definition strip_cr (s : string) : string :=
  match strip_suffix cr s with Some r => r | None => s end.

Fixpoint terminated_lines (parts : list string) : list string :=
  match parts with
  | [] => []
  | [last] => if str_is_empty last then [] else [last]
  | p :: parts' => strip_cr p :: terminated_lines parts'
  end.

(** [str::lines]. *)
Definition lines (s : string) : list string := terminated_lines (split_char LF s).

(** ** Trimming a given character or string *)

(** [trim_start_matches('\n')]. *)
Fixpoint trim_start_char (c : Ascii.ascii) (s : string) : string :=
  match s with
  | "" => ""
  | String d s' => if Ascii.eqb d c then trim_start_char c s' else s
  end.

(** [trim_end_matches(p)] for a non-empty [p]. *)
Definition trim_end_matches (p s : string) : string :=
  str_rev (trim_start_with [str_rev p] (str_rev s)).

(** ** SQLite's [LIKE] *)

(** The rest of a string after its first character of one or more bytes. *)
Fixpoint skip_continuation (s : string) : string :=
  match s with
  | "" => ""
  | String c s' => if in_range 128 191 c then skip_continuation s' else s
  end.

(** [%] matches any characters, [_] one character, and letters match without regard to
    ASCII case. *)
Fixpoint like (pattern : string) : string → bool :=
  match pattern with
  | "" => str_is_empty
  | String c pattern' =>
      if Ascii.eqb c "%"%char then
        fix any (s : string) : bool :=
          like pattern' s || match s with "" => false | String _ s' => any s' end
      else if Ascii.eqb c "_"%char then
        λ s, match s with "" => false | String _ s' => like pattern' (skip_continuation s') end
      else
        λ s, match s with
             | "" => false
             | String d s' => Ascii.eqb (ascii_lower c) (ascii_lower d) && like pattern' s'
             end
  end.

(** ** Lemmas *)

Lemma append_assoc (a b c : string) : (a +:+ b) +:+ c = a +:+ (b +:+ c).
Proof. induction a as [|x a IH]; [done|]. by rewrite !append_cons, IH. Qed.

Lemma append_nil_r (a : string) : a +:+ "" = a.
Proof. induction a as [|x a IH]; [done|]. by rewrite append_cons, IH. Qed.

Lemma append_inj_l (a b c : string) : a +:+ b = a +:+ c → b = c.
Proof. induction a as [|x a IH]; [done|]. rewrite !append_cons. intros [= H]. auto. Qed.

Lemma has_char_app c a b : has_char c (a +:+ b) = has_char c a || has_char c b.
Proof. induction a as [|x a IH]; [done|]. rewrite append_cons. simpl. by rewrite IH, orb_assoc. Qed.

Lemma all_bytes_app p a b : all_bytes p (a +:+ b) = all_bytes p a && all_bytes p b.
Proof. induction a as [|x a IH]; [done|]. rewrite append_cons. simpl. by rewrite IH, andb_assoc. Qed.

Lemma all_bytes_impl (p q : Ascii.ascii → bool) s :
  (∀ c, p c = true → q c = true) → all_bytes p s = true → all_bytes q s = true.
Proof.
  intros H. induction s as [|c s IH]; [done|]. simpl. rewrite !andb_true_iff. intros [? ?]. auto.
Qed.

Lemma all_bytes_no_char p c s : p c = false → all_bytes p s = true → has_char c s = false.
Proof.
  intros Hc. induction s as [|d s IH]; [done|]. simpl. intros [Hd Hs]%andb_true_iff.
  rewrite (IH Hs), orb_false_r. destruct (Ascii.eqb_spec d c) as [->|]; congruence.
Qed.

(** Two texts with the same separator after parts free of it are equal part by part. *)
Lemma append_sep_inj (c : Ascii.ascii) (a b a' b' : string) :
  has_char c a = false → has_char c a' = false →
  a +:+ String c b = a' +:+ String c b' → a = a' ∧ b = b'.
Proof.
  revert a'. induction a as [|x a IH]; intros [|y a']; rewrite ?append_nil_l, ?append_cons; simpl.
  - by intros _ _ [= ->].
  - intros _ [Hy _]%orb_false_iff [= -> _]. by rewrite Ascii.eqb_refl in Hy.
  - intros [Hx _]%orb_false_iff _ [= -> _]. by rewrite Ascii.eqb_refl in Hx.
  - intros [_ Ha]%orb_false_iff [_ Ha']%orb_false_iff [= -> H].
    destruct (IH a' Ha Ha' H) as [-> ->]. done.
Qed.

Lemma split_char_free c s : has_char c s = false → split_char c s = [s].
Proof.
  induction s as [|d s IH]; [done|]. simpl. intros [-> Hs]%orb_false_iff. by rewrite IH.
Qed.

Lemma split_char_sep c a b :
  has_char c a = false → split_char c (a +:+ String c b) = a :: split_char c b.
Proof.
  induction a as [|d a IH]; rewrite ?append_nil_l, ?append_cons.
  - intros _. simpl. by rewrite Ascii.eqb_refl.
  - simpl. intros [-> Ha]%orb_false_iff. by rewrite IH.
Qed.

Lemma split_char_nonempty c s : split_char c s ≠ [].
Proof. destruct s as [|d s]; [done|]. simpl. destruct (Ascii.eqb d c), (split_char c s); done. Qed.

Lemma str_rev_onto_spec s acc : str_rev_onto s acc = str_rev s +:+ acc.
Proof.
  unfold str_rev. revert acc. induction s as [|c s IH]; intros acc; [done|]. simpl.
  rewrite (IH (String c acc)), (IH (String c "")), append_assoc. done.
Qed.

Lemma str_rev_cons c s : str_rev (String c s) = str_rev s +:+ String c "".
Proof. unfold str_rev at 1. simpl. apply str_rev_onto_spec. Qed.

Lemma str_rev_app a b : str_rev (a +:+ b) = str_rev b +:+ str_rev a.
Proof.
  induction a as [|c a IH]; [by rewrite append_nil_l, append_nil_r|].
  by rewrite append_cons, !str_rev_cons, IH, append_assoc.
Qed.

Lemma str_rev_involutive s : str_rev (str_rev s) = s.
Proof. induction s as [|c s IH]; [done|]. by rewrite str_rev_cons, str_rev_app, IH. Qed.

Lemma has_char_rev c s : has_char c (str_rev s) = has_char c s.
Proof.
  induction s as [|d s IH]; [done|]. rewrite str_rev_cons, has_char_app, IH. simpl.
  by rewrite orb_false_r, orb_comm.
Qed.

Lemma strip_suffix_Some p s r : strip_suffix p s = Some r ↔ s = r +:+ p.
Proof.
  unfold strip_suffix. rewrite fmap_Some. setoid_rewrite strip_prefix_Some. split.
  - intros (q & Hq & ->). apply (f_equal str_rev) in Hq.
    by rewrite str_rev_app, !str_rev_involutive in Hq.
  - intros ->. exists (str_rev r). by rewrite str_rev_app, str_rev_involutive.
Qed.

Lemma strip_cr_free s : has_char CR s = false → strip_cr s = s.
Proof.
  unfold strip_cr. destruct (strip_suffix cr s) as [r|] eqn:E; [|done].
  apply strip_suffix_Some in E as ->. rewrite has_char_app. simpl.
  by rewrite orb_true_r.
Qed.

Lemma lines_cons a b :
  has_char LF a = false → has_char CR a = false → lines (a +:+ String LF b) = a :: lines b.
Proof.
  intros Ha Hr. unfold lines. rewrite split_char_sep by done.
  destruct (split_char LF b) as [|x l] eqn:E; [by apply split_char_nonempty in E|].
  cbn [terminated_lines]. by rewrite strip_cr_free.
Qed.

Lemma lines_last a : has_char LF a = false → a ≠ "" → lines a = [a].
Proof. intros Ha Hn. unfold lines. rewrite split_char_free by done. by destruct a. Qed.

(** A needle that starts with a line feed is not found inside a line. *)
Lemma split_once_line (needle line rest : string) :
  has_char LF line = false →
  split_once (String LF needle) (line +:+ rest) =
  match split_once (String LF needle) rest with
  | Some (pre, post) => Some (line +:+ pre, post)
  | None => None
  end.
Proof.
  induction line as [|c line IH]; intros Hl.
  - rewrite append_nil_l. by destruct (split_once _ rest) as [[]|].
  - simpl in Hl. apply orb_false_iff in Hl as [Hc Hl].
    rewrite append_cons. cbn [split_once strip_prefix].
    assert (Ascii.eqb LF c = false) as ->.
    { destruct (Ascii.eqb_spec LF c) as [<-|]; [by rewrite Ascii.eqb_refl in Hc|done]. }
    rewrite IH by done. by destruct (split_once _ rest) as [[]|].
Qed.

Lemma split_once_skip (needle : string) (c : Ascii.ascii) (s : string) :
  strip_prefix needle (String c s) = None →
  split_once needle (String c s) =
  match split_once needle s with Some (pre, post) => Some (String c pre, post) | None => None end.
Proof. intros H. cbn [split_once]. by rewrite H. Qed.

Lemma split_once_here (needle s : string) : split_once needle (needle +:+ s) = Some ("", s).
Proof.
  assert (strip_prefix needle (needle +:+ s) = Some s) as H by by apply strip_prefix_Some.
  unfold split_once. destruct (needle +:+ s); by rewrite H.
Qed.

(** *** [LIKE] with a literal prefix *)

Definition like_literal (c : Ascii.ascii) : bool := negb (Ascii.eqb c "%"%char) && negb (Ascii.eqb c "_"%char).

Lemma like_any s : like "%" s = true.
Proof. induction s as [|c s IH]; [done|]. exact IH. Qed.

Lemma like_prefix (p s : string) :
  all_bytes like_literal p = true →
  like (p +:+ "%") s =
  match strip_prefix (to_ascii_lowercase p) (to_ascii_lowercase s) with Some _ => true | None => false end.
Proof.
  revert s. induction p as [|c p IH]; intros s; rewrite ?append_nil_l, ?append_cons.
  - intros _. by rewrite like_any.
  - cbn [all_bytes]. intros [Hc Hp]%andb_true_iff. unfold like_literal in Hc.
    apply andb_true_iff in Hc as [H1%negb_true_iff H2%negb_true_iff].
    cbn [like]. rewrite H1, H2. destruct s as [|d s]; [done|].
    cbn [to_ascii_lowercase strip_prefix].
    destruct (Ascii.eqb (ascii_lower c) (ascii_lower d)); [|done]. simpl. by apply IH.
Qed.

Lemma to_ascii_lowercase_id s :
  all_bytes (λ c, negb (is_ascii_uppercase c)) s = true → to_ascii_lowercase s = s.
Proof.
  induction s as [|c s IH]; [done|]. simpl. intros [Hc Hs]%andb_true_iff.
  rewrite IH by done. f_equal. unfold ascii_lower, is_ascii_uppercase, in_range in *.
  by destruct (_ && _).
Qed.

Lemma to_ascii_lowercase_app a b :
  to_ascii_lowercase (a +:+ b) = to_ascii_lowercase a +:+ to_ascii_lowercase b.
Proof. induction a as [|c a IH]; [done|]. rewrite !append_cons. simpl. by rewrite IH. Qed.



(** *** Counting lines *)

Fixpoint count_char (c : Ascii.ascii) (s : string) : nat :=
  match s with "" => 0 | String d s' => (if Ascii.eqb d c then 1 else 0) + count_char c s' end.

Lemma count_char_app c a b : count_char c (a +:+ b) = (count_char c a + count_char c b)%nat.
Proof. induction a as [|x a IH]; [done|]. rewrite append_cons. simpl. rewrite IH. lia. Qed.

Lemma length_split_char c s : length (split_char c s) = S (count_char c s).
Proof.
  induction s as [|d s IH]; [done|]. simpl. destruct (Ascii.eqb d c); simpl; [by rewrite IH|].
  destruct (split_char c s); simpl in *; [lia|done].
Qed.

Lemma length_terminated_lines l : (length l ≤ S (length (terminated_lines l)))%nat.
Proof. induction l as [|x [|y l] IH]; simpl in *; [lia|destruct x; simpl; lia|lia]. Qed.

Lemma count_lf_le_lines s : (count_char LF s ≤ length (lines s))%nat.
Proof.
  unfold lines. pose proof (length_terminated_lines (split_char LF s)) as H.
  rewrite length_split_char in H. lia.
Qed.

(** *** Trimming twice is trimming once *)

Lemma trim_start_fuel_suffix ws n s : ∃ p, s = p +:+ trim_start_fuel ws n s.
Proof.
  revert s. induction n as [|n IH]; intros s; simpl; [by exists ""|].
  destruct (strip_any ws s) as [r|] eqn:E; [|by exists ""].
  apply strip_any_Some in E as (w & _ & ->). destruct (IH r) as [p Hp].
  exists (w +:+ p). by rewrite append_assoc, <- Hp.
Qed.

Lemma trim_start_with_none ws s : strip_any ws s = None → trim_start_with ws s = s.
Proof. unfold trim_start_with. intros H. destruct s; [done|]. simpl. by rewrite H. Qed.

Lemma strip_any_prefix ws a b : strip_any ws (a +:+ b) = None → strip_any ws a = None.
Proof.
  induction ws as [|w ws IH]; simpl; [done|].
  destruct (strip_prefix w a) as [r|] eqn:E.
  - apply strip_prefix_Some in E as ->. rewrite append_assoc.
    by rewrite (proj2 (strip_prefix_Some w _ (r +:+ b)) eq_refl).
  - destruct (strip_prefix w (a +:+ b)); [done|]. exact IH.
Qed.

Lemma rev_whitespace_nonempty w : w ∈ map str_rev whitespace → w ≠ "".
Proof.
  intros (v & -> & Hv)%list_elem_of_fmap Hw. apply (f_equal str_rev) in Hw.
  rewrite str_rev_involutive in Hw. by apply whitespace_nonempty in Hv.
Qed.

Lemma trim_idemp s : trim (trim s) = trim s.
Proof.
  unfold trim at 2 3. set (a := trim_start_with whitespace s).
  assert (strip_any whitespace a = None) as Ha by apply trim_start_done.
  set (r := trim_start_with (map str_rev whitespace) (str_rev a)).
  assert (strip_any (map str_rev whitespace) r = None) as Hr.
  { apply trim_start_fuel_done; [apply rev_whitespace_nonempty|done]. }
  destruct (trim_start_fuel_suffix (map str_rev whitespace) (String.length (str_rev a)) (str_rev a))
    as [p Hp]. fold (trim_start_with (map str_rev whitespace) (str_rev a)) in Hp. fold r in Hp.
  assert (a = str_rev r +:+ str_rev p) as Ea.
  { by rewrite <- (str_rev_involutive a), Hp, str_rev_app. }
  unfold trim. rewrite (trim_start_with_none whitespace (str_rev r)).
  - by rewrite str_rev_involutive, trim_start_with_none.
  - apply (strip_any_prefix _ _ (str_rev p)). by rewrite <- Ea.
Qed.

(** Both ends of a trimmed string are trimmed, and such a string is not changed. *)
Lemma trim_ends s : strip_any whitespace (trim s) = None ∧ strip_any (map str_rev whitespace) (str_rev (trim s)) = None.
Proof.
  unfold trim. set (a := trim_start_with whitespace s). rewrite str_rev_involutive.
  set (r := trim_start_with (map str_rev whitespace) (str_rev a)).
  assert (strip_any (map str_rev whitespace) r = None) as Hr.
  { apply trim_start_fuel_done; [apply rev_whitespace_nonempty|done]. }
  split; [|done].
  destruct (trim_start_fuel_suffix (map str_rev whitespace) (String.length (str_rev a)) (str_rev a)) as [p Hp].
  fold (trim_start_with (map str_rev whitespace) (str_rev a)) in Hp. fold r in Hp.
  apply (strip_any_prefix _ _ (str_rev p)). rewrite <- str_rev_app, <- Hp, str_rev_involutive. apply trim_start_done.
Qed.

Lemma trim_fixed s :
  strip_any whitespace s = None → strip_any (map str_rev whitespace) (str_rev s) = None → trim s = s.
Proof.
  intros H1 H2. unfold trim. rewrite (trim_start_with_none whitespace s H1), trim_start_with_none by done.
  apply str_rev_involutive.
Qed.

(** A map of the bytes that neither makes nor changes a byte of a white space. *)
Fixpoint smap (f : Ascii.ascii → Ascii.ascii) (s : string) : string :=
  match s with "" => "" | String c s' => String (f c) (smap f s') end.

Lemma smap_append f a b : smap f (a +:+ b) = smap f a +:+ smap f b.
Proof. induction a as [|c a IH]; [done|]. rewrite append_cons. cbn [smap]. by rewrite IH, append_cons. Qed.

Lemma smap_rev f s : smap f (str_rev s) = str_rev (smap f s).
Proof.
  induction s as [|c s IH]; [done|]. cbn [smap]. by rewrite !str_rev_cons, smap_append, IH.
Qed.

Definition white_byte (c : Ascii.ascii) : bool :=
  in_range 9 13 c || in_range 32 32 c || in_range 128 255 c.
Fixpoint all_white (s : string) : bool :=
  match s with "" => true | String c s' => white_byte c && all_white s' end.
Definition keeps_white (f : Ascii.ascii → Ascii.ascii) : Prop := ∀ c, white_byte (f c) = true → f c = c.

Lemma strip_prefix_smap f w s :
  keeps_white f → all_white w = true → strip_prefix w s = None → strip_prefix w (smap f s) = None.
Proof.
  intros Hf. revert s. induction w as [|b w IH]; intros [|c s]; cbn; try done. intros [Hb Hw]%andb_true_iff.
  destruct (Ascii.eqb_spec b (f c)) as [E|E].
  - rewrite E in Hb. rewrite (Hf c Hb) in E. subst. rewrite Ascii.eqb_refl. by apply IH.
  - done.
Qed.

Lemma strip_any_smap f ws s :
  keeps_white f → forallb all_white ws = true → strip_any ws s = None → strip_any ws (smap f s) = None.
Proof.
  intros Hf. induction ws as [|w ws IH]; cbn; [done|]. intros [Hw Hws]%andb_true_iff.
  destruct (strip_prefix w s) eqn:E; [done|]. rewrite strip_prefix_smap; auto.
Qed.

Lemma trim_smap f s : keeps_white f → trim (smap f (trim s)) = smap f (trim s).
Proof.
  intros Hf. destruct (trim_ends s) as [H1 H2]. apply trim_fixed.
  - apply strip_any_smap; [done|reflexivity|done].
  - rewrite <- smap_rev. apply strip_any_smap; [done|reflexivity|done].
Qed.

Lemma trim_start_char_idemp c s : trim_start_char c (trim_start_char c s) = trim_start_char c s.
Proof.
  induction s as [|d s IH]; [done|]. simpl. destruct (Ascii.eqb d c) eqn:E; [done|].
  simpl. by rewrite E.
Qed.

Lemma trim_infix s : ∃ p q, s = p +:+ trim s +:+ q.
Proof.
  unfold trim. set (a := trim_start_with whitespace s).
  destruct (trim_start_fuel_suffix whitespace (String.length s) s) as [p Hp].
  destruct (trim_start_fuel_suffix (map str_rev whitespace) (String.length (str_rev a)) (str_rev a))
    as [q Hq].
  exists p, (str_rev q). rewrite Hp at 1. f_equal. fold (trim_start_with whitespace s). fold a.
  by rewrite <- (str_rev_involutive a), Hq at 1; rewrite str_rev_app.
Qed.

Lemma trim_no_char c s : has_char c s = false → has_char c (trim s) = false.
Proof.
  destruct (trim_infix s) as (p & q & H). rewrite H at 1. rewrite !has_char_app.
  intros (_ & [? _]%orb_false_iff)%orb_false_iff. done.
Qed.
