(* ===== verification/Mcp.v ===== *)
(** * The MCP contract: inventories, profiles, plans

    [crates/cocli-driver-core/src/mcp.rs] and the types of [mcp_governance.rs]: what a runtime
    was observed to have configured, what profiles want, and what a plan consists of, with the
    JSON that serde derives from them (field names, omitted fields and variant names are those
    of the attributes in the source). *)
From stdpp Require Import pretty.
From S2P Require Import Prelude Text.

(** ** Observations: [mcp.rs] *)

Inductive McpTransport : Type := Stdio | Sse | StreamableHttp | Http | UnknownTransport.

Record McpCanonicalDefinition := mkDefinition {
  def_transport : McpTransport;
  def_command : option string;
  def_args : list string;
  def_endpoint : option string;
}.

Record McpEvidence := mkEvidence {
  ev_source : string;
  ev_detail : string;
  ev_source_path : option string;
  ev_proves_runtime_loaded : bool;
  ev_proves_current_session_visibility : bool;
}.

Record McpSecretRef := mkSecretRef {
  sr_location : string;
  sr_kind : string;
  sr_reference : string;
}.

Record McpServer := mkMcpServer {
  ms_id : string;
  ms_canonical_name : string;
  ms_definition : McpCanonicalDefinition;
  ms_endpoint_fingerprint : string;
  ms_aliases : list string;
  ms_provenance : list McpEvidence;
  ms_secret_refs : list McpSecretRef;
}.

Inductive McpStartupState : Type :=
  | NotAttempted | Starting | StartupReady | StartupFailed | StartupUnknown.

Record ObservedMcpInstance := mkObserved {
  ob_runtime : string;
  ob_server_id : string;
  ob_alias : string;
  ob_source_path : option string;
  ob_discoverable : bool;
  ob_configured : bool;
  ob_loaded : option bool;
  ob_enabled : option bool;
  ob_approved : option bool;
  ob_authenticated : option bool;
  ob_healthy : option bool;
  ob_startup : option McpStartupState;
  ob_current_session_visible : option bool;
  ob_invoked : option bool;
  ob_tool_count : option Z;
  ob_schema_hash : option string;
  ob_evidence : list McpEvidence;
  ob_observed_at : string;
}.

Inductive McpDiagnosticSeverity : Type := SeverityInfo | SeverityWarning | SeverityError.

Record McpDiagnostic := mkDiagnostic {
  dg_code : string;
  dg_severity : McpDiagnosticSeverity;
  dg_runtime : string;
  dg_server_id : option string;
  dg_message : string;
  dg_evidence : list McpEvidence;
  dg_observed_at : string;
}.

Record McpBinding := mkMcpBinding {
  mb_server_id : string;
  mb_runtime : string;
  mb_agent_id : option string;
  mb_workspace : option string;
  mb_profile : option string;
  mb_desired_enabled : option bool;
  mb_policy : option string;
}.

Record McpInventory := mkInventory {
  inv_servers : list McpServer;
  inv_bindings : list McpBinding;
  inv_observations : list ObservedMcpInstance;
  inv_diagnostics : list McpDiagnostic;
  inv_observed_at : string;
}.

(** ** Desired state: [mcp_governance.rs] *)

Inductive McpApprovalMode : Type := Manual | PerTool | PreApproved.
Inductive McpRiskLevel : Type := Low | Medium | High | Critical.
Inductive McpBindingTargetType : Type := Machine | Workspace | AgentTarget.

#[export] Instance McpTransport_eq_dec : EqDecision McpTransport.
Proof. solve_decision. Defined.
#[export] Instance McpApprovalMode_eq_dec : EqDecision McpApprovalMode.
Proof. solve_decision. Defined.
#[export] Instance McpRiskLevel_eq_dec : EqDecision McpRiskLevel.
Proof. solve_decision. Defined.
#[export] Instance McpBindingTargetType_eq_dec : EqDecision McpBindingTargetType.
Proof. solve_decision. Defined.
#[export] Instance McpCanonicalDefinition_eq_dec : EqDecision McpCanonicalDefinition.
Proof. solve_decision. Defined.
#[export] Instance McpSecretRef_eq_dec : EqDecision McpSecretRef.
Proof. solve_decision. Defined.

Definition precedence (self : McpBindingTargetType) : Z :=
  match self with Machine => 0 | Workspace => 1 | AgentTarget => 2 end.

Definition precedence_label (value : McpBindingTargetType) : string :=
  match value with Machine => "machine" | Workspace => "workspace" | AgentTarget => "agent" end.

(** The derived order of the levels. *)
Definition risk_level (r : McpRiskLevel) : Z :=
  match r with Low => 0 | Medium => 1 | High => 2 | Critical => 3 end.
Definition risk_max (a b : McpRiskLevel) : McpRiskLevel :=
  if risk_level a <=? risk_level b then b else a.

(** The derived order of the target types. *)
Definition type_cmp : McpBindingTargetType → McpBindingTargetType → comparison :=
  on_cmp precedence Z.compare.

#[export] Instance type_cmp_strict : StrictCmp type_cmp.
Proof. split; [apply _|]. by intros [] []. Qed.

Record McpBindingTarget := mkTarget {
  bt_target_type : McpBindingTargetType;
  bt_target_id : string;
}.

Record McpDesiredTarget := mkDesiredTarget {
  dt_machine_id : string;
  dt_workspace_id : option string;
  dt_agent_id : option string;
}.

(** [McpDesiredTarget::contains]. *)
Definition target_contains (self : McpDesiredTarget) (target : McpBindingTarget) : bool :=
  match bt_target_type target with
  | Machine => str_eqb (bt_target_id target) (dt_machine_id self)
  | Workspace => bool_decide (dt_workspace_id self = Some (bt_target_id target))
  | AgentTarget => bool_decide (dt_agent_id self = Some (bt_target_id target))
  end.

(** [parts.join(sep)]. *)
Fixpoint join_strings (sep : string) (parts : list string) : string :=
  match parts with
  | [] => ""
  | [p] => p
  | p :: parts' => p +:+ sep +:+ join_strings sep parts'
  end.

(** [McpDesiredTarget::label]. *)
Definition target_label (self : McpDesiredTarget) : string :=
  join_strings "/"
    (["machine:" +:+ dt_machine_id self] ++
     match dt_workspace_id self with Some w => ["workspace:" +:+ w] | None => [] end ++
     match dt_agent_id self with Some a => ["agent:" +:+ a] | None => [] end)%list.

Record McpDesiredServer := mkDesiredServer {
  ds_server_id : string;
  ds_runtime : string;
  ds_alias : string;
  ds_definition : option McpCanonicalDefinition;
  ds_desired_enabled : bool;
  ds_allow_tools : list string;
  ds_deny_tools : list string;
  ds_approval_mode : McpApprovalMode;
  ds_risk_override : option McpRiskLevel;
  ds_secret_refs : list McpSecretRef;
}.

#[export] Instance McpDesiredServer_eq_dec : EqDecision McpDesiredServer.
Proof. solve_decision. Defined.

Record McpProfile := mkProfile {
  pf_id : string;
  pf_name : string;
  pf_description : option string;
  pf_version : Z;
  pf_servers : list McpDesiredServer;
  pf_created_at : string;
  pf_updated_at : string;
}.

Record McpProfileBinding := mkProfileBinding {
  pb_id : string;
  pb_profile_id : string;
  pb_target : McpBindingTarget;
  pb_version : Z;
  pb_created_at : string;
  pb_updated_at : string;
}.

Record McpEffectiveServer := mkEffective {
  es_desired : McpDesiredServer;
  es_source_profile_ids : list string;
  es_source_profile_names : list string;
  es_inherited_from : McpBindingTargetType;
  es_high_risk_context : bool;
}.

Record McpProfileConflict := mkConflict {
  cf_runtime : string;
  cf_server_id : string;
  cf_precedence : McpBindingTargetType;
  cf_profile_ids : list string;
  cf_reason : string;
}.

Record McpProfileResolution := mkResolution {
  rs_profile_id : string;
  rs_profile_name : string;
  rs_binding_id : string;
  rs_target : McpBindingTarget;
  rs_applied : bool;
  rs_reason : string;
}.

Record McpEffectiveDesiredState := mkDesiredState {
  st_target : McpDesiredTarget;
  st_servers : list McpEffectiveServer;
  st_conflicts : list McpProfileConflict;
  st_resolution : list McpProfileResolution;
}.

(** ** Plans *)

Inductive McpPlanActionKind : Type :=
  | AddConfigure | Enable | Disable | Update | Remove
  | ApprovalRequired | AuthenticationRequired | ManualUnsupported.

#[export] Instance McpPlanActionKind_eq_dec : EqDecision McpPlanActionKind.
Proof. solve_decision. Defined.

Definition kind_rank (k : McpPlanActionKind) : Z :=
  match k with
  | AddConfigure => 0 | Enable => 1 | Disable => 2 | Update => 3 | Remove => 4
  | ApprovalRequired => 5 | AuthenticationRequired => 6 | ManualUnsupported => 7
  end.

Record McpStateSummary := mkSummary {
  ss_configured : option bool;
  ss_enabled : option bool;
  ss_endpoint_fingerprint : option string;
  ss_allow_tools : list string;
  ss_deny_tools : list string;
  ss_approval_mode : option McpApprovalMode;
  ss_secret_ref_count : Z;
}.

Record McpPlanAction := mkAction {
  pa_kind : McpPlanActionKind;
  pa_runtime : string;
  pa_scope : string;
  pa_target : string;
  pa_server_id : string;
  pa_server_fingerprint : string;
  pa_before : McpStateSummary;
  pa_after : McpStateSummary;
  pa_risk : McpRiskLevel;
  pa_reason : string;
  pa_evidence : list McpEvidence;
  pa_expected_source_hash : option string;
  pa_expected_schema_hash : option string;
  pa_blocked : bool;
}.

Record McpPlan := mkPlan {
  pl_id : string;
  pl_target : McpDesiredTarget;
  pl_effective_desired_state : McpEffectiveDesiredState;
  pl_actions : list McpPlanAction;
  pl_observation_hash : string;
  pl_config_hash : string;
  pl_capability_hash : string;
  pl_plan_hash : string;
  pl_generated_at : string;
  pl_dry_run : bool;
  pl_applied : bool;
}.

(** ** Serialisation: [#[derive(Serialize)]] *)

Definition JInt (n : Z) : Json := JNumber (pretty n).
Definition json_option {A} (f : A → Json) (o : option A) : Json :=
  match o with Some a => f a | None => JNull end.
Definition json_list {A} (f : A → Json) (l : list A) : Json := JArray (map f l).

(** A field, one that is skipped when [None], and one that is skipped when empty. *)
Definition field (name : string) (v : Json) : list (string * Json) := [(name, v)].
Definition field_some {A} (name : string) (f : A → Json) (o : option A) : list (string * Json) :=
  match o with Some a => [(name, f a)] | None => [] end.
Definition field_nonempty {A} (name : string) (f : A → Json) (l : list A) : list (string * Json) :=
  match l with [] => [] | _ => [(name, json_list f l)] end.

Definition transport_json (t : McpTransport) : Json :=
  JString match t with
  | Stdio => "stdio" | Sse => "sse" | StreamableHttp => "streamableHttp" | Http => "http"
  | UnknownTransport => "unknown"
  end.
Definition startup_json (s : McpStartupState) : Json :=
  JString match s with
  | NotAttempted => "not_attempted" | Starting => "starting" | StartupReady => "ready"
  | StartupFailed => "failed" | StartupUnknown => "unknown"
  end.
Definition severity_json (s : McpDiagnosticSeverity) : Json :=
  JString match s with
  | SeverityInfo => "info" | SeverityWarning => "warning" | SeverityError => "error"
  end.
Definition approval_json (m : McpApprovalMode) : Json :=
  JString match m with
  | Manual => "manual" | PerTool => "per_tool" | PreApproved => "pre_approved"
  end.
Definition risk_json (r : McpRiskLevel) : Json :=
  JString match r with
  | Low => "low" | Medium => "medium" | High => "high" | Critical => "critical"
  end.
Definition target_type_json (t : McpBindingTargetType) : Json := JString (precedence_label t).
Definition kind_json (k : McpPlanActionKind) : Json :=
  JString match k with
  | AddConfigure => "add_configure" | Enable => "enable" | Disable => "disable"
  | Update => "update" | Remove => "remove" | ApprovalRequired => "approval_required"
  | AuthenticationRequired => "authentication_required"
  | ManualUnsupported => "manual_unsupported"
  end.

Definition definition_json (d : McpCanonicalDefinition) : Json :=
  JObject (field "transport" (transport_json (def_transport d)) ++
    field_some "command" JString (def_command d) ++
    field_nonempty "args" JString (def_args d) ++
    field_some "endpoint" JString (def_endpoint d))%list.

Definition evidence_json (e : McpEvidence) : Json :=
  JObject (field "source" (JString (ev_source e)) ++ field "detail" (JString (ev_detail e)) ++
    field_some "sourcePath" JString (ev_source_path e) ++
    field "provesRuntimeLoaded" (JBool (ev_proves_runtime_loaded e)) ++
    field "provesCurrentSessionVisibility" (JBool (ev_proves_current_session_visibility e)))%list.

Definition secret_ref_json (r : McpSecretRef) : Json :=
  JObject [("location", JString (sr_location r)); ("kind", JString (sr_kind r));
           ("reference", JString (sr_reference r))].

Definition desired_server_fields (d : McpDesiredServer) : list (string * Json) :=
  (field "serverId" (JString (ds_server_id d)) ++ field "runtime" (JString (ds_runtime d)) ++
   field "alias" (JString (ds_alias d)) ++
   field_some "definition" definition_json (ds_definition d) ++
   field "desiredEnabled" (JBool (ds_desired_enabled d)) ++
   field "allowTools" (json_list JString (ds_allow_tools d)) ++
   field "denyTools" (json_list JString (ds_deny_tools d)) ++
   field "approvalMode" (approval_json (ds_approval_mode d)) ++
   field_some "riskOverride" risk_json (ds_risk_override d) ++
   field "secretRefs" (json_list secret_ref_json (ds_secret_refs d)))%list.

(** [#[serde(flatten)] desired]. *)
Definition effective_server_json (e : McpEffectiveServer) : Json :=
  JObject (desired_server_fields (es_desired e) ++
    field "sourceProfileIds" (json_list JString (es_source_profile_ids e)) ++
    field "sourceProfileNames" (json_list JString (es_source_profile_names e)) ++
    field "inheritedFrom" (target_type_json (es_inherited_from e)) ++
    field "highRiskContext" (JBool (es_high_risk_context e)))%list.

Definition conflict_json (c : McpProfileConflict) : Json :=
  JObject [("runtime", JString (cf_runtime c)); ("serverId", JString (cf_server_id c));
           ("precedence", target_type_json (cf_precedence c));
           ("profileIds", json_list JString (cf_profile_ids c)); ("reason", JString (cf_reason c))].

Definition binding_target_json (t : McpBindingTarget) : Json :=
  JObject [("targetType", target_type_json (bt_target_type t)); ("targetId", JString (bt_target_id t))].

Definition resolution_json (r : McpProfileResolution) : Json :=
  JObject [("profileId", JString (rs_profile_id r)); ("profileName", JString (rs_profile_name r));
           ("bindingId", JString (rs_binding_id r)); ("target", binding_target_json (rs_target r));
           ("applied", JBool (rs_applied r)); ("reason", JString (rs_reason r))].

Definition desired_target_json (t : McpDesiredTarget) : Json :=
  JObject (field "machineId" (JString (dt_machine_id t)) ++
    field_some "workspaceId" JString (dt_workspace_id t) ++
    field_some "agentId" JString (dt_agent_id t))%list.

Definition desired_state_json (s : McpEffectiveDesiredState) : Json :=
  JObject [("target", desired_target_json (st_target s));
           ("servers", json_list effective_server_json (st_servers s));
           ("conflicts", json_list conflict_json (st_conflicts s));
           ("resolution", json_list resolution_json (st_resolution s))].

Definition summary_json (s : McpStateSummary) : Json :=
  JObject (field_some "configured" JBool (ss_configured s) ++
    field_some "enabled" JBool (ss_enabled s) ++
    field_some "endpointFingerprint" JString (ss_endpoint_fingerprint s) ++
    field_nonempty "allowTools" JString (ss_allow_tools s) ++
    field_nonempty "denyTools" JString (ss_deny_tools s) ++
    field_some "approvalMode" approval_json (ss_approval_mode s) ++
    field "secretRefCount" (JInt (ss_secret_ref_count s)))%list.

Definition action_json (a : McpPlanAction) : Json :=
  JObject (field "kind" (kind_json (pa_kind a)) ++ field "runtime" (JString (pa_runtime a)) ++
    field "scope" (JString (pa_scope a)) ++ field "target" (JString (pa_target a)) ++
    field "serverId" (JString (pa_server_id a)) ++
    field "serverFingerprint" (JString (pa_server_fingerprint a)) ++
    field "before" (summary_json (pa_before a)) ++ field "after" (summary_json (pa_after a)) ++
    field "risk" (risk_json (pa_risk a)) ++ field "reason" (JString (pa_reason a)) ++
    field "evidence" (json_list evidence_json (pa_evidence a)) ++
    field_some "expectedSourceHash" JString (pa_expected_source_hash a) ++
    field_some "expectedSchemaHash" JString (pa_expected_schema_hash a) ++
    field "blocked" (JBool (pa_blocked a)))%list.

(** ** Grouping by key: [BTreeMap<K, Vec<V>>] filled with [entry(k).or_default().push(v)] *)

Section Group.
Context {K V : Type} (cmp : K → K → comparison).

Fixpoint btree_push (k : K) (v : V) (m : list (K * list V)) : list (K * list V) :=
  match m with
  | [] => [(k, [v])]
  | (k', vs) :: m' =>
      match cmp k k' with
      | Lt => (k, [v]) :: m
      | Eq => (k', vs ++ [v])%list :: m'
      | Gt => (k', vs) :: btree_push k v m'
      end
  end.

Definition group_by (l : list (K * V)) : list (K * list V) :=
  fold_left (λ m '(k, v), btree_push k v m) l [].

(** The values under a key, in order. *)
Definition values_of (k : K) (l : list (K * V)) : list V :=
  map snd (bfilter (λ x, match cmp k x.1 with Eq => true | _ => false end) l).

Context `{!StrictCmp cmp}.

Definition key_lt (x y : K * list V) : Prop := cmp x.1 y.1 = Lt.

Lemma cmp_eq_iff (x y : K) : cmp x y = Eq ↔ x = y.
Proof. split; [apply sc_eq|intros ->; apply (cmp_refl cmp)]. Qed.

Lemma cmp_lt_trans (x y z : K) : cmp x y = Lt → cmp y z = Lt → cmp x z = Lt.
Proof.
  intros H1 H2. destruct (cmp x z) eqn:E; [ |done| ].
  - apply sc_eq in E as ->. rewrite (tc_sym cmp) in H2. by rewrite H1 in H2.
  - exfalso. eapply (tc_trans cmp x y z); [by rewrite H1|by rewrite H2|done].
Qed.

Lemma values_of_snoc k k' v l :
  values_of k (l ++ [(k', v)]) =
  (values_of k l ++ match cmp k k' with Eq => [v] | _ => [] end)%list.
Proof.
  unfold values_of. rewrite bfilter_app, map_app. cbn. by destruct (cmp k k').
Qed.

Lemma elem_of_values_of k v l : v ∈ values_of k l ↔ (k, v) ∈ l.
Proof.
  unfold values_of. rewrite list_elem_of_fmap. split.
  - intros ([k' v'] & -> & [Hp Hin]%elem_of_bfilter). cbn in *.
    destruct (cmp k k') eqn:E; try done. by apply sc_eq in E as ->.
  - intros Hin. exists (k, v). split; [done|]. apply elem_of_bfilter. cbn.
    by rewrite (cmp_refl cmp).
Qed.

Lemma btree_push_head k v k0 vs0 m :
  Forall (key_lt (k0, vs0)) m → cmp k0 k = Lt → Forall (key_lt (k0, vs0)) (btree_push k v m).
Proof.
  intros Hall Hlt. induction Hall as [|[j js] m Hj Hall IH]; cbn; [by repeat constructor|].
  unfold key_lt in *. cbn in *. destruct (cmp k j) eqn:E; repeat constructor; eauto.
Qed.

Lemma btree_push_sorted k v m : StronglySorted key_lt m → StronglySorted key_lt (btree_push k v m).
Proof.
  induction 1 as [|[j js] m Hs IH Hall]; cbn; [by repeat constructor|].
  destruct (cmp k j) eqn:E.
  - constructor; [done|]. eapply Forall_impl; [exact Hall|]. by intros [].
  - constructor; [by constructor|]. constructor; [done|].
    eapply Forall_impl; [exact Hall|]. intros [j' js'] Hj. by eapply cmp_lt_trans.
  - constructor; [done|]. apply btree_push_head; [done|].
    by rewrite (tc_sym cmp), E.
Qed.

(** A map describes an input when it lists its keys in order, each with its values. *)
Definition groups (m : list (K * list V)) (l : list (K * V)) : Prop :=
  StronglySorted key_lt m ∧ ∀ k vs, (k, vs) ∈ m ↔ vs = values_of k l ∧ vs ≠ [].

Lemma btree_push_elem k v m k' vs :
  StronglySorted key_lt m →
  (k', vs) ∈ btree_push k v m ↔
  (k' ≠ k ∧ (k', vs) ∈ m) ∨
  (k' = k ∧ ((∃ old, (k, old) ∈ m ∧ vs = old ++ [v]) ∨ ((∀ old, (k, old) ∉ m) ∧ vs = [v])))%list.
Proof.
  induction 1 as [|[j js] m Hs IH Hall]; cbn [btree_push].
  { rewrite list_elem_of_singleton. set_unfold. naive_solver. }
  assert (∀ i ys, (i, ys) ∈ m → cmp j i = Lt) as Hlt.
  { intros i ys Hin. by apply (proj1 (Forall_forall _ _) Hall (i, ys)). }
  destruct (cmp k j) eqn:E.
  - apply sc_eq in E as ->. rewrite !elem_of_cons. split.
    + intros [Heq | Hin]; [injection Heq as -> ->; right; split; [done|left; exists js; split; [left|]; done] |].
      left. split; [|by right]. intros ->. apply Hlt in Hin. by rewrite (cmp_refl cmp) in Hin.
    + intros [(Hne & [Heq | Hin]) | (-> & [(old & [Heq | Hin]%elem_of_cons & ->) | [Hno _] ])];
        [congruence|by right|left; congruence| |exfalso; apply (Hno js); left].
      apply Hlt in Hin. by rewrite (cmp_refl cmp) in Hin.
  - assert (∀ old, (k, old) ∉ (j, js) :: m) as Hno.
    { intros old [[= -> ->] | Hin]%elem_of_cons; [by rewrite (cmp_refl cmp) in E|].
      apply Hlt in Hin. by rewrite (tc_sym cmp), E in Hin. }
    rewrite elem_of_cons. split.
    + intros [[= -> ->] | Hin]; [right; split; [done|by right] |].
      left. split; [|done]. intros ->. by apply Hno in Hin.
    + intros [[_ Hin] | [-> [(old & Hin & _) | [_ ->] ] ] ]; [by right|by apply Hno in Hin|by left].
  - assert (k ≠ j) as Hne by (intros ->; by rewrite (cmp_refl cmp) in E).
    rewrite !elem_of_cons, IH. set_unfold. naive_solver.
Qed.

Lemma group_by_groups l : groups (group_by l) l.
Proof.
  unfold group_by. induction l as [|[k v] l [Hs IH] ] using rev_ind.
  { split; [constructor|]. intros k vs. unfold values_of. cbn. set_unfold. naive_solver. }
  rewrite fold_left_app. cbn. split; [by apply btree_push_sorted|].
  intros k' vs. rewrite btree_push_elem; [|done]. rewrite values_of_snoc.
  destruct (cmp k' k) eqn:E.
  - apply sc_eq in E as ->. split.
    + intros [[? _] | [_ [(old & [-> _]%IH & ->) | [Hno ->] ] ] ]; [done|split; [done|] |split; [|done] ].
      * intros [_ [=] ]%app_nil.
      * destruct (values_of k l) eqn:Ev; [done|]. exfalso. apply (Hno (v0 :: l0)). by rewrite IH, Ev.
    + intros [-> _]. right. split; [done|].
      destruct (values_of k l) eqn:Ev; [right; split; [|done] |left; exists (v0 :: l0); by rewrite IH, Ev].
      intros old [-> Hne]%IH. by rewrite Ev in Hne.
  - rewrite app_nil_r, <- IH. split; [intros [[_ ?] | [-> _] ]|]; [done|by rewrite (cmp_refl cmp) in E|].
    intros Hin. left. split; [intros ->; by rewrite (cmp_refl cmp) in E|done].
  - rewrite app_nil_r, <- IH. split; [intros [[_ ?] | [-> _] ]|]; [done|by rewrite (cmp_refl cmp) in E|].
    intros Hin. left. split; [intros ->; by rewrite (cmp_refl cmp) in E|done].
Qed.
End Group.
