(* ===== verification/McpGovernance.v ===== *)
(** * MCP governance: profile validation and desired-state resolution

    [crates/cocli-driver-core/src/mcp_governance.rs]: the check of a profile for inline
    credentials, and the resolution of the profiles bound to a target with machine < workspace <
    agent precedence. The theorems relate the two grouping passes, the sorting and the marking of
    the resolution trail to the rule they implement. *)
From Stdlib Require Import Ascii.
From S2P Require Import Prelude Text Mcp.

(** ** Secrets in profiles *)

Definition any_marker (markers : list string) (s : string) : bool :=
  existsb (λ marker, contains marker s) markers.

Definition looks_like_secret_value (value : string) : bool :=
  let lower := to_ascii_lowercase value in
  starts_with "sk-" lower || starts_with "sk_" lower || starts_with "ghp_" lower ||
  starts_with "github_pat_" lower || starts_with "xox" lower || starts_with "eyj" lower ||
  starts_with "bearer " lower.

Definition mcp_value_contains_plaintext_secret (value : string) : bool :=
  let lower := to_ascii_lowercase value in
  any_marker ["token="; "access_token="; "password="; "secret="; "client_secret="; "api_key=";
              "api-key="; "authorization="; "authorization:"; "oauth_token="; "oauth_state="] lower
  || contains "bearer " lower || looks_like_secret_value lower.

Definition contains_plaintext_secret (value : string) : bool :=
  mcp_value_contains_plaintext_secret value.

Definition is_valid_mcp_opaque_secret_reference (reference : string) : bool :=
  match split_once "://" reference with
  | None => false
  | Some (scheme, value) =>
      bool_decide (scheme ∈ ["env"; "keychain"; "secret"; "vault"]) &&
      negb (trim_is_empty value) && negb (looks_like_secret_value value) &&
      negb (mcp_value_contains_plaintext_secret value)
  end.

Definition secret_identifier (value : string) : bool :=
  any_marker ["token"; "secret"; "api_key"; "api-key"; "apikey"; "access_key"; "access-key";
              "client-secret"; "password"; "authorization"; "bearer"] (to_ascii_lowercase value).

(** [args.windows(2).any(p)]. *)
Fixpoint windows2_any {A} (p : A → A → bool) (l : list A) : bool :=
  match l with
  | x :: (y :: _) as l' => p x y || windows2_any p l'
  | _ => false
  end.

Definition args_contain_plaintext_secret (args : list string) : bool :=
  existsb contains_plaintext_secret args ||
  windows2_any (λ a b, secret_identifier a && negb (contains "://" b)) args.

Definition endpoint_contains_secret (value : string) : bool :=
  let lower := to_ascii_lowercase value in
  let rest := match split_once "://" lower with Some (_, rest) => rest | None => lower end in
  let authority := match split_char "/"%char rest with a :: _ => a | [] => "" end in
  contains "@" authority ||
  any_marker ["token="; "access_token="; "password="; "secret="; "client_secret="; "api_key=";
              "api-key="] lower ||
  match split_once "?" lower with
  | Some (_, query) =>
      existsb (λ part, match split_once "=" part with
                       | Some (key, _) => secret_identifier key
                       | None => false
                       end) (split_char "&"%char query)
  | None => false
  end.

Definition option_any {A} (p : A → bool) (o : option A) : bool :=
  match o with Some a => p a | None => false end.

(** The loop's body: the first error of a server. *)
Definition validate_secret_ref (r : McpSecretRef) : result unit string :=
  if trim_is_empty (sr_location r) || trim_is_empty (sr_kind r) ||
     contains_plaintext_secret (sr_location r) || contains_plaintext_secret (sr_kind r) ||
     negb (is_valid_mcp_opaque_secret_reference (sr_reference r))
  then Err "secretRefs must use an approved opaque reference scheme"
  else Ok tt.

Fixpoint validate_all {A} (check : A → result unit string) (l : list A) : result unit string :=
  match l with
  | [] => Ok tt
  | a :: l' => match check a with Ok _ => validate_all check l' | Err e => Err e end
  end.

Definition definition_contains_secret (d : McpCanonicalDefinition) : bool :=
  option_any contains_plaintext_secret (def_command d) ||
  args_contain_plaintext_secret (def_args d) ||
  option_any endpoint_contains_secret (def_endpoint d).

Definition validate_server (server : McpDesiredServer) : result unit string :=
  if trim_is_empty (ds_server_id server) || trim_is_empty (ds_runtime server) ||
     trim_is_empty (ds_alias server)
  then Err "profile server identity is required"
  else if existsb contains_plaintext_secret
       ([ds_server_id server; ds_runtime server; ds_alias server] ++
        ds_allow_tools server ++ ds_deny_tools server)%list
  then Err "profile contains suspected plaintext secret"
  else if existsb (λ tool, bool_decide (tool ∈ ds_deny_tools server)) (ds_allow_tools server)
  then Err "a tool cannot be both allowed and denied"
  else if option_any definition_contains_secret (ds_definition server)
  then Err "profile contains suspected plaintext secret"
  else validate_all validate_secret_ref (ds_secret_refs server).

Definition validate_mcp_profile (profile : McpProfile) : result unit string :=
  if trim_is_empty (pf_name profile) then Err "profile name is required"
  else if contains_plaintext_secret (pf_name profile) ||
          option_any contains_plaintext_secret (pf_description profile)
  then Err "profile contains suspected plaintext secret"
  else validate_all validate_server (pf_servers profile).

(** ** Resolution *)

Definition secret_ref_cmp : McpSecretRef → McpSecretRef → comparison :=
  on_cmp (λ r, (sr_location r, (sr_kind r, sr_reference r)))
    (pair_cmp String.compare (pair_cmp String.compare String.compare)).

Definition sorted_set (l : list string) : list string := dedup (sort_by String.compare l).

Definition normalize (s : McpDesiredServer) : McpDesiredServer :=
  {| ds_server_id := ds_server_id s; ds_runtime := ds_runtime s; ds_alias := ds_alias s;
     ds_definition := ds_definition s; ds_desired_enabled := ds_desired_enabled s;
     ds_allow_tools := sorted_set (ds_allow_tools s);
     ds_deny_tools := sorted_set (ds_deny_tools s);
     ds_approval_mode := ds_approval_mode s; ds_risk_override := ds_risk_override s;
     ds_secret_refs := sort_by secret_ref_cmp (ds_secret_refs s) |}.

(** [ProfileCandidate]: a profile, the binding that applies it, one of its servers. *)
Definition ProfileCandidate : Type := McpProfile * McpProfileBinding * McpDesiredServer.
Definition candidate_profile (c : ProfileCandidate) : McpProfile := c.1.1.
Definition candidate_binding (c : ProfileCandidate) : McpProfileBinding := c.1.2.
Definition candidate_desired (c : ProfileCandidate) : McpDesiredServer := c.2.

Definition ServerKey : Type := string * string.
Definition server_key_cmp : ServerKey → ServerKey → comparison :=
  pair_cmp String.compare String.compare.
Definition candidate_key_cmp : ServerKey * McpBindingTargetType → ServerKey * McpBindingTargetType → comparison :=
  pair_cmp server_key_cmp type_cmp.

(** [collect::<BTreeMap>] then [get]: the last profile with the id. *)
Definition profile_by_id (profiles : list McpProfile) (id : string) : option McpProfile :=
  find (λ p, str_eqb (pf_id p) id) (reverse profiles).

Definition binding_order : McpProfileBinding * McpProfile → McpProfileBinding * McpProfile → comparison :=
  on_cmp (λ x, (precedence (bt_target_type (pb_target x.1)), (pf_id x.2, pb_id x.1)))
    (pair_cmp Z.compare (pair_cmp String.compare String.compare)).

Definition applicable (profiles : list McpProfile) (bindings : list McpProfileBinding)
    (target : McpDesiredTarget) : list (McpProfileBinding * McpProfile) :=
  sort_by binding_order
    (omap (λ b, match profile_by_id profiles (pb_profile_id b) with
                | Some p => Some (b, p)
                | None => None
                end)
      (bfilter (λ b, target_contains target (pb_target b)) bindings)).

Definition server_key (s : McpDesiredServer) : ServerKey := (ds_runtime s, ds_server_id s).

(** What the loops over the bindings and their servers push, in order. *)
Definition offers (apps : list (McpProfileBinding * McpProfile))
    : list ((ServerKey * McpBindingTargetType) * ProfileCandidate) :=
  concat (map (λ '(b, p), map (λ s, let s' := normalize s in
                                    ((server_key s', bt_target_type (pb_target b)), (p, b, s')))
                            (pf_servers p)) apps).

Definition initial_resolution (x : McpProfileBinding * McpProfile) : McpProfileResolution :=
  {| rs_profile_id := pf_id x.2; rs_profile_name := pf_name x.2; rs_binding_id := pb_id x.1;
     rs_target := pb_target x.1; rs_applied := false;
     rs_reason := "applicable profile; server-level precedence is resolved below" |}.

Definition Level : Type := McpBindingTargetType * list ProfileCandidate.
Definition level_order : Level → Level → comparison := on_cmp (λ l, precedence l.1) Z.compare.

Definition candidates_of (apps : list (McpProfileBinding * McpProfile))
    : list ((ServerKey * McpBindingTargetType) * list ProfileCandidate) :=
  group_by candidate_key_cmp (offers apps).

Definition by_server (candidates : list ((ServerKey * McpBindingTargetType) * list ProfileCandidate))
    : list (ServerKey * list Level) :=
  group_by server_key_cmp (map (λ '((k, t), es), (k, (t, es))) candidates).

Definition disagree (first : McpDesiredServer) (entries : list ProfileCandidate) : bool :=
  existsb (λ c, negb (bool_decide (candidate_desired c = first))) (tail entries).

Definition conflict_of (k : ServerKey) (t : McpBindingTargetType) (entries : list ProfileCandidate)
    : McpProfileConflict :=
  {| cf_runtime := k.1; cf_server_id := k.2; cf_precedence := t;
     cf_profile_ids := sorted_set (map (λ c, pf_id (candidate_profile c)) entries);
     cf_reason := "same-precedence profiles define different desired state" |}.

Definition high_risk_name (name : string) : bool :=
  let lower := to_ascii_lowercase name in
  contains "production" lower || contains "prod" lower || contains "ops" lower.

Definition effective_of (first : McpDesiredServer) (t : McpBindingTargetType)
    (entries : list ProfileCandidate) : McpEffectiveServer :=
  let names := sorted_set (map (λ c, pf_name (candidate_profile c)) entries) in
  {| es_desired := first;
     es_source_profile_ids := sorted_set (map (λ c, pf_id (candidate_profile c)) entries);
     es_source_profile_names := names;
     es_inherited_from := t;
     es_high_risk_context := existsb high_risk_name names |}.

Definition won (reason : string) (item : McpProfileResolution) : McpProfileResolution :=
  {| rs_profile_id := rs_profile_id item; rs_profile_name := rs_profile_name item;
     rs_binding_id := rs_binding_id item; rs_target := rs_target item;
     rs_applied := true; rs_reason := reason |}.

(** The winning entries mark the first resolution item of their binding. *)
Definition mark_won (reason : string) (resolution : list McpProfileResolution)
    (entry : ProfileCandidate) : list McpProfileResolution :=
  default resolution
    (update_first (λ item, str_eqb (rs_binding_id item) (pb_id (candidate_binding entry)))
       (won reason) resolution).

Record Resolving := mkResolving {
  rg_servers : list McpEffectiveServer;
  rg_conflicts : list McpProfileConflict;
  rg_resolution : list McpProfileResolution;
}.

Definition win_reason (t : McpBindingTargetType) (k : ServerKey) : string :=
  "won " +:+ precedence_label t +:+ " precedence for " +:+ k.1 +:+ "/" +:+ k.2.

(** One server of [by_server]; [None] is the panic of [expect] or of [entries[0]]. *)
Definition resolve_server (acc : Resolving) (x : ServerKey * list Level) : option Resolving :=
  let '(k, levels) := x in
  '(t, entries) ← last (sort_by level_order levels);
  first ← candidate_desired <$> head entries;
  Some (if disagree first entries
        then mkResolving (rg_servers acc) (rg_conflicts acc ++ [conflict_of k t entries])
               (rg_resolution acc)
        else mkResolving (rg_servers acc ++ [effective_of first t entries]) (rg_conflicts acc)
               (fold_left (mark_won (win_reason t k)) entries (rg_resolution acc)))%list.

Fixpoint resolve_servers (acc : Resolving) (l : list (ServerKey * list Level)) : option Resolving :=
  match l with
  | [] => Some acc
  | x :: l' => acc' ← resolve_server acc x; resolve_servers acc' l'
  end.

Definition server_order : McpEffectiveServer → McpEffectiveServer → comparison :=
  on_cmp (λ e, server_key (es_desired e)) server_key_cmp.
Definition conflict_order : McpProfileConflict → McpProfileConflict → comparison :=
  on_cmp (λ c, ((cf_runtime c, cf_server_id c), cf_precedence c)) candidate_key_cmp.
Definition resolution_order : McpProfileResolution → McpProfileResolution → comparison :=
  on_cmp (λ r, (precedence (bt_target_type (rs_target r)), (rs_profile_id r, rs_binding_id r)))
    (pair_cmp Z.compare (pair_cmp String.compare String.compare)).

Definition resolve_mcp_desired_state (profiles : list McpProfile)
    (bindings : list McpProfileBinding) (target : McpDesiredTarget)
    : option McpEffectiveDesiredState :=
  let apps := applicable profiles bindings target in
  done ← resolve_servers (mkResolving [] [] (map initial_resolution apps))
           (by_server (candidates_of apps));
  Some {| st_target := target;
          st_servers := sort_by server_order (rg_servers done);
          st_conflicts := sort_by conflict_order (rg_conflicts done);
          st_resolution := sort_by resolution_order (rg_resolution done) |}.

(** ** What resolution decides, per server

    The highest level with an offer wins; it yields an effective server when its offers agree
    and a conflict otherwise. *)

Definition entries_at (os : list ((ServerKey * McpBindingTargetType) * ProfileCandidate))
    (k : ServerKey) (t : McpBindingTargetType) : list ProfileCandidate :=
  values_of candidate_key_cmp (k, t) os.

Definition winning_level os (k : ServerKey) : option Level :=
  head (bfilter (λ l, negb (bool_decide (length l.2 = 0%nat)))
          (map (λ t, (t, entries_at os k t)) [AgentTarget; Workspace; Machine])).

Definition outcome os (k : ServerKey) : option (McpEffectiveServer + McpProfileConflict) :=
  '(t, entries) ← winning_level os k;
  first ← candidate_desired <$> head entries;
  Some (if disagree first entries then inr (conflict_of k t entries)
        else inl (effective_of first t entries)).

#[export] Instance server_key_cmp_strict : StrictCmp server_key_cmp.
Proof. apply _. Qed.
#[export] Instance candidate_key_cmp_strict : StrictCmp candidate_key_cmp.
Proof. apply _. Qed.

Lemma winning_level_Some os k t es :
  winning_level os k = Some (t, es) ↔
  es = entries_at os k t ∧ es ≠ [] ∧ ∀ t', entries_at os k t' ≠ [] → precedence t' ≤ precedence t.
Proof.
  unfold winning_level. cbn [map bfilter].
  assert (∀ t', bool_decide (length (entries_at os k t') = 0%nat) = true ↔ entries_at os k t' = []) as H0.
  { intros t'. rewrite bool_decide_eq_true. destruct (entries_at os k t'); cbn; naive_solver lia. }
  cbn. pose proof (H0 AgentTarget) as Ha. pose proof (H0 Workspace) as Hw. pose proof (H0 Machine) as Hm.
  split.
  - intros Hh. repeat case_bool_decide; cbn in Hh; try done; injection Hh as <- <-.
    all: split_and!; [done|naive_solver|]; intros []; cbn; naive_solver lia.
  - intros (-> & Hne & Hmax).
    pose proof (Hmax AgentTarget) as Ma. pose proof (Hmax Workspace) as Mw.
    pose proof (Hmax Machine) as Mm.
    repeat case_bool_decide; destruct t; cbn in *; naive_solver lia.
Qed.


Lemma offers_key apps k t c : ((k, t), c) ∈ offers apps → server_key (candidate_desired c) = k.
Proof.
  unfold offers. intros (l & ([b p] & -> & _)%list_elem_of_fmap & Hl)%elem_of_concat.
  apply list_elem_of_fmap in Hl as (s & Heq & _). by simplify_eq.
Qed.

(** What the two grouping passes leave for a server. *)
Lemma by_server_elem apps k levels :
  (k, levels) ∈ by_server (candidates_of apps) →
  levels ≠ [] ∧ ∀ t es, (t, es) ∈ levels ↔ es = entries_at (offers apps) k t ∧ es ≠ [].
Proof.
  intros Hin. destruct (group_by_groups server_key_cmp
    (map (λ '((k, t), es), (k, (t, es))) (candidates_of apps))) as [_ Hg].
  apply Hg in Hin as [-> Hne]. split; [done|]. intros t es. rewrite (elem_of_values_of server_key_cmp).
  destruct (group_by_groups candidate_key_cmp (offers apps)) as [_ Hc].
  unfold entries_at. rewrite <- Hc, list_elem_of_fmap. split.
  - by intros ([[k' t'] es'] & [= -> -> ->] & H).
  - intros H. by exists ((k, t), es).
Qed.

Lemma by_server_winner apps k levels :
  (k, levels) ∈ by_server (candidates_of apps) →
  ∃ t es, last (sort_by level_order levels) = Some (t, es) ∧
    winning_level (offers apps) k = Some (t, es).
Proof.
  intros [Hne Hlv]%by_server_elem.
  destruct (last (sort_by level_order levels)) as [[t es]|] eqn:Hl.
  2:{ by apply last_None, sort_by_nil in Hl. }
  exists t, es. split; [done|]. apply last_sorted_max in Hl as [Hin Hmax]; [|apply _].
  apply Hlv in Hin as [-> Hes]. apply winning_level_Some. split_and!; [done|done|].
  intros t' Ht'. specialize (Hmax (t', entries_at (offers apps) k t')).
  rewrite Hlv, cmp_le_true in Hmax. unfold level_order, on_cmp in Hmax. cbn in Hmax.
  apply Z.compare_le_iff. by apply Hmax.
Qed.

Lemma by_server_keys apps k :
  (∃ levels, (k, levels) ∈ by_server (candidates_of apps)) ↔ is_Some (outcome (offers apps) k).
Proof.
  split.
  - intros [levels (t & es & _ & Hw)%by_server_winner]. unfold outcome. rewrite Hw. cbn.
    apply winning_level_Some in Hw as (_ & Hne & _). destruct es; [done|]. cbn. by eexists.
  - intros [o Ho]. unfold outcome in Ho.
    destruct (winning_level (offers apps) k) as [[t es]|] eqn:Hw; [|done].
    apply winning_level_Some in Hw as (-> & Hne & _).
    destruct (group_by_groups server_key_cmp
      (map (λ '((k, t), es), (k, (t, es))) (candidates_of apps))) as [_ Hg].
    eexists. apply Hg. split; [reflexivity|].
    assert ((t, entries_at (offers apps) k t) ∈ values_of server_key_cmp k
      (map (λ '((k, t), es), (k, (t, es))) (candidates_of apps))) as Hin.
    { apply elem_of_values_of; [apply _|]. apply list_elem_of_fmap.
      exists ((k, t), entries_at (offers apps) k t). split; [done|].
      by apply (group_by_groups candidate_key_cmp (offers apps)). }
    intros Hnil. rewrite Hnil in Hin. set_solver.
Qed.

(** The loop appends what each server's outcome is. *)
Definition outcome_servers os (l : list (ServerKey * list Level)) : list McpEffectiveServer :=
  omap (λ x, match outcome os x.1 with Some (inl e) => Some e | _ => None end) l.
Definition outcome_conflicts os (l : list (ServerKey * list Level)) : list McpProfileConflict :=
  omap (λ x, match outcome os x.1 with Some (inr c) => Some c | _ => None end) l.

(** The entries that mark resolution items, server by server. *)
Definition winning_marks os (k : ServerKey) : list (string * ProfileCandidate) :=
  match outcome os k, winning_level os k with
  | Some (inl _), Some (t, es) => map (λ c, (win_reason t k, c)) es
  | _, _ => []
  end.
Definition all_marks os (l : list (ServerKey * list Level)) : list (string * ProfileCandidate) :=
  concat (map (λ x, winning_marks os x.1) l).

Lemma resolve_servers_outcome apps l acc :
  (∀ x, x ∈ l → x ∈ by_server (candidates_of apps)) →
  resolve_servers acc l =
  Some {| rg_servers := rg_servers acc ++ outcome_servers (offers apps) l;
          rg_conflicts := rg_conflicts acc ++ outcome_conflicts (offers apps) l;
          rg_resolution := fold_left (λ r m, mark_won m.1 r m.2) (all_marks (offers apps) l)
                             (rg_resolution acc) |}%list.
Proof.
  revert acc. induction l as [|[k levels] l IH]; intros acc Hl; cbn [resolve_servers].
  { cbn. rewrite !app_nil_r. by destruct acc. }
  destruct (by_server_winner apps k levels) as (t & es & Hlast & Hw); [apply Hl; set_solver|].
  pose proof Hw as (_ & Hne & _)%winning_level_Some. destruct es as [|c es]; [done|].
  assert (outcome (offers apps) k = Some (if disagree (candidate_desired c) (c :: es)
    then inr (conflict_of k t (c :: es))
    else inl (effective_of (candidate_desired c) t (c :: es)))) as Ho.
  { unfold outcome. by rewrite Hw. }
  unfold resolve_server. rewrite Hlast.
  unfold outcome_servers, outcome_conflicts, all_marks, winning_marks.
  cbn [omap list_omap map concat fst]. rewrite Ho, Hw.
  cbn [head fmap option_fmap option_map mbind option_bind].
  rewrite IH by (intros x Hx; apply Hl; set_solver).
  destruct (disagree _ _); cbn [rg_servers rg_conflicts rg_resolution app].
  - by rewrite <- app_assoc.
  - rewrite <- app_assoc. do 2 f_equal. rewrite fold_left_app. f_equal.
    generalize (c :: es) as cs. intros cs. generalize (rg_resolution acc).
    induction cs as [|c' cs IHc]; intros r; [done|]. cbn. apply IHc.
Qed.

Lemma outcome_key apps k o :
  outcome (offers apps) k = Some o →
  match o with
  | inl e => server_key (es_desired e) = k
  | inr c => (cf_runtime c, cf_server_id c) = k
  end.
Proof.
  unfold outcome. destruct (winning_level _ _) as [[t es]|] eqn:Hw; [|done].
  cbn [mbind option_bind].
  apply winning_level_Some in Hw as (-> & _ & _).
  destruct (entries_at (offers apps) k t) as [|c es] eqn:He; [done|].
  cbn [head fmap option_fmap option_map mbind option_bind]. intros [= <-].
  destruct (disagree (candidate_desired c) (c :: es)); [symmetry; apply surjective_pairing|].
  apply (offers_key apps k t). apply (elem_of_values_of candidate_key_cmp).
  unfold entries_at in He. rewrite He. set_solver.
Qed.

Lemma elem_of_outcome_servers apps e :
  e ∈ outcome_servers (offers apps) (by_server (candidates_of apps)) ↔
  outcome (offers apps) (server_key (es_desired e)) = Some (inl e).
Proof.
  unfold outcome_servers. rewrite list_elem_of_omap. split.
  - intros ([k levels] & _ & H). cbn in H. destruct (outcome (offers apps) k) as [[]|] eqn:Ho; simplify_eq.
    pose proof (outcome_key _ _ _ Ho) as Hk. cbn in Hk. by rewrite Hk.
  - intros Ho. destruct (proj2 (by_server_keys apps (server_key (es_desired e)))) as [levels Hin]; [by eexists|].
    exists (server_key (es_desired e), levels). split; [done|]. cbn. by rewrite Ho.
Qed.

Lemma elem_of_outcome_conflicts apps c :
  c ∈ outcome_conflicts (offers apps) (by_server (candidates_of apps)) ↔
  outcome (offers apps) (cf_runtime c, cf_server_id c) = Some (inr c).
Proof.
  unfold outcome_conflicts. rewrite list_elem_of_omap. split.
  - intros ([k levels] & _ & H). cbn in H. destruct (outcome (offers apps) k) as [[]|] eqn:Ho; simplify_eq.
    pose proof (outcome_key _ _ _ Ho) as Hk. cbn in Hk. by rewrite Hk.
  - intros Ho. destruct (proj2 (by_server_keys apps (cf_runtime c, cf_server_id c))) as [levels Hin]; [by eexists|].
    exists (cf_runtime c, cf_server_id c, levels). split; [done|]. cbn. by rewrite Ho.
Qed.

(** Picking, in order of strictly increasing keys, one item per key keeps the order strict. *)
Lemma omap_keys_sorted {A B K} (R : K → K → Prop) (f : A → option B) (ka : A → K) (kb : B → K) (l : list A) :
  (∀ a b, a ∈ l → f a = Some b → kb b = ka a) →
  StronglySorted (λ x y, R (ka x) (ka y)) l → StronglySorted (λ x y, R (kb x) (kb y)) (omap f l).
Proof.
  intros Hk Hs. induction Hs as [|a l Hs IH Hall]; [constructor|]. cbn.
  assert (StronglySorted (λ x y, R (kb x) (kb y)) (omap f l)) as Hs' by (apply IH; set_solver).
  destruct (f a) as [b|] eqn:Hf; [|done]. constructor; [done|].
  apply Forall_forall. intros b' (a' & Ha' & Hf')%list_elem_of_omap.
  rewrite (Hk a b), (Hk a' b'); [|set_solver..|done]. by apply (proj1 (Forall_forall _ _) Hall).
Qed.

Lemma by_server_sorted cs : StronglySorted (key_lt server_key_cmp) (by_server cs).
Proof. apply (group_by_groups server_key_cmp). Qed.

Lemma outcome_servers_sorted apps :
  StronglySorted (λ x y, server_order x y = Lt)
    (outcome_servers (offers apps) (by_server (candidates_of apps))).
Proof.
  apply (omap_keys_sorted (λ x y, server_key_cmp x y = Lt) _ fst (λ e, server_key (es_desired e))).
  - intros [k levels] e _. cbn. destruct (outcome (offers apps) k) as [[]|] eqn:Ho; [|done..].
    intros [= ->]. by apply (outcome_key _ _ _ Ho).
  - apply by_server_sorted.
Qed.

Lemma outcome_conflicts_sorted apps :
  StronglySorted (λ x y, conflict_order x y = Lt)
    (outcome_conflicts (offers apps) (by_server (candidates_of apps))).
Proof.
  apply (StronglySorted_impl (λ x y, server_key_cmp (cf_runtime x, cf_server_id x) (cf_runtime y, cf_server_id y) = Lt)).
  { intros x y H. unfold conflict_order, on_cmp, candidate_key_cmp. unfold pair_cmp at 1. cbn [fst snd].
    by rewrite H. }
  apply (omap_keys_sorted (λ x y, server_key_cmp x y = Lt) _ fst (λ c, (cf_runtime c, cf_server_id c))).
  - intros [k levels] c _. cbn. destruct (outcome (offers apps) k) as [[]|] eqn:Ho; [done| |done].
    intros [= ->]. by apply (outcome_key _ _ _ Ho).
  - apply by_server_sorted.
Qed.

(** Resolution never panics; its value in closed form. *)
Lemma resolve_mcp_desired_state_eq profiles bindings target :
  let apps := applicable profiles bindings target in
  resolve_mcp_desired_state profiles bindings target =
  Some {| st_target := target;
          st_servers := outcome_servers (offers apps) (by_server (candidates_of apps));
          st_conflicts := outcome_conflicts (offers apps) (by_server (candidates_of apps));
          st_resolution := sort_by resolution_order
            (fold_left (λ r m, mark_won m.1 r m.2) (all_marks (offers apps) (by_server (candidates_of apps)))
               (map initial_resolution apps)) |}.
Proof.
  intros apps. unfold resolve_mcp_desired_state. fold apps.
  rewrite (resolve_servers_outcome apps) by done. cbn [mbind option_bind rg_servers rg_conflicts rg_resolution app].
  rewrite (sort_by_strict_id server_order), (sort_by_strict_id conflict_order); [done| |].
  - apply outcome_conflicts_sorted.
  - apply outcome_servers_sorted.
Qed.


(** ** Order independence *)

Lemma profile_by_id_Some profiles id p :
  NoDup (map pf_id profiles) →
  profile_by_id profiles id = Some p ↔ p ∈ profiles ∧ pf_id p = id.
Proof.
  intros Hnd. unfold profile_by_id. split.
  - intros [Hin ->%str_eqb_eq]%find_Some. by rewrite elem_of_reverse in Hin.
  - intros [Hin Hid]. destruct (find _ (reverse profiles)) as [q|] eqn:Hf.
    + apply find_Some in Hf as [Hq Hqid%str_eqb_eq]. rewrite elem_of_reverse in Hq.
      f_equal. apply (NoDup_key_eq pf_id profiles); [done..|congruence].
    + exfalso. assert (str_eqb (pf_id p) id = false) as Hne.
      { apply (proj1 (find_None (λ p, str_eqb (pf_id p) id) _) Hf). by apply elem_of_reverse. }
      by rewrite Hid, str_eqb_refl in Hne.
Qed.

Lemma profile_by_id_perm ps ps' id :
  ps ≡ₚ ps' → NoDup (map pf_id ps) → profile_by_id ps id = profile_by_id ps' id.
Proof.
  intros Hp Hnd. assert (NoDup (map pf_id ps')) as Hnd' by (by rewrite <- Hp).
  apply option_eq. intros p. rewrite !profile_by_id_Some by done. by rewrite Hp.
Qed.

Lemma applicable_elem profiles bindings target b p :
  (b, p) ∈ applicable profiles bindings target ↔
  b ∈ bindings ∧ target_contains target (pb_target b) = true ∧
  profile_by_id profiles (pb_profile_id b) = Some p.
Proof.
  unfold applicable. rewrite elem_of_sort_by, list_elem_of_omap. split.
  - intros (b' & [Hc Hb]%elem_of_bfilter & H). destruct (profile_by_id _ _) eqn:E; by simplify_eq.
  - intros (Hb & Hc & Hp). exists b. rewrite elem_of_bfilter, Hp. done.
Qed.

Lemma applicable_perm ps ps' bs bs' target :
  ps ≡ₚ ps' → NoDup (map pf_id ps) → bs ≡ₚ bs' → NoDup (map pb_id bs) →
  applicable ps bs target = applicable ps' bs' target.
Proof.
  intros Hp Hnp Hb Hnb. unfold applicable.
  apply (sorted_by_unique_on binding_order); [|apply sort_by_sorted; apply _..|].
  - intros [b p] [b' p'] Hx Hy Heq.
    apply (applicable_elem ps bs target) in Hx as (Hbin & _ & Hpp).
    apply (applicable_elem ps bs target) in Hy as (Hbin' & _ & Hpp').
    unfold binding_order, on_cmp in Heq. apply (sc_eq (cmp := pair_cmp _ _)) in Heq. cbn in Heq. injection Heq as _ _ Hid.
    assert (b = b') as -> by (by apply (NoDup_key_eq pb_id bs)). congruence.
  - rewrite !sort_by_perm. erewrite bfilter_perm by exact Hb.
    apply reflexive_eq. generalize (bfilter (λ b, target_contains target (pb_target b)) bs') as l.
    intros l. induction l as [|b l IH]; [done|]. cbn. by rewrite (profile_by_id_perm ps ps'), IH.
Qed.

(** The outcome does not depend on the order in which the store lists
    profiles and bindings: with unique ids, resolving any rearrangement of them gives the same
    desired state, conflicts and resolution trail included. *)
Theorem resolve_order_independent ps ps' bs bs' target :
  ps ≡ₚ ps' → NoDup (map pf_id ps) → bs ≡ₚ bs' → NoDup (map pb_id bs) →
  resolve_mcp_desired_state ps bs target = resolve_mcp_desired_state ps' bs' target.
Proof.
  intros Hp Hnp Hb Hnb. unfold resolve_mcp_desired_state.
  by rewrite (applicable_perm ps ps' bs bs' target).
Qed.

(** ** Validated profiles stay valid *)

Lemma elem_of_sorted_set x l : x ∈ sorted_set l ↔ x ∈ l.
Proof. unfold sorted_set. by rewrite elem_of_dedup, elem_of_sort_by. Qed.

Lemma existsb_false {A} (p : A → bool) (l : list A) :
  existsb p l = false ↔ ∀ x, x ∈ l → p x = false.
Proof.
  induction l as [|a l IH]; cbn; [set_solver|]. rewrite orb_false_iff, IH. set_solver.
Qed.

Lemma validate_all_Ok {A} (check : A → result unit string) (l : list A) :
  validate_all check l = Ok tt ↔ ∀ x, x ∈ l → check x = Ok tt.
Proof.
  induction l as [|a l IH]; cbn; [set_solver|].
  destruct (check a) as [[]|e] eqn:E.
  - rewrite IH. set_solver.
  - split; [done|]. intros H. rewrite H in E by set_solver. done.
Qed.

(** What an accepted server satisfies. *)
Record server_clean (s : McpDesiredServer) : Prop := {
  sc_identity x : x ∈ [ds_server_id s; ds_runtime s; ds_alias s] → trim_is_empty x = false;
  sc_names x : x ∈ ([ds_server_id s; ds_runtime s; ds_alias s] ++ ds_allow_tools s ++ ds_deny_tools s)%list →
    contains_plaintext_secret x = false;
  sc_tools x : x ∈ ds_allow_tools s → x ∉ ds_deny_tools s;
  sc_definition : option_any definition_contains_secret (ds_definition s) = false;
  sc_refs r : r ∈ ds_secret_refs s → is_valid_mcp_opaque_secret_reference (sr_reference r) = true ∧
    contains_plaintext_secret (sr_location r) = false ∧ contains_plaintext_secret (sr_kind r) = false;
}.

Lemma validate_server_clean s : validate_server s = Ok tt → server_clean s.
Proof.
  unfold validate_server. intros H.
  destruct (_ || _ || _) eqn:Hid; [done|]. destruct (existsb contains_plaintext_secret _) eqn:Hn; [done|].
  destruct (existsb _ (ds_allow_tools s)) eqn:Ht; [done|]. destruct (option_any _ _) eqn:Hd; [done|].
  apply orb_false_iff in Hid as [[Hi1 Hi2]%orb_false_iff Hi3].
  split; [set_solver| by apply existsb_false| |done|].
  - intros x Hx. apply (proj1 (existsb_false _ _) Ht) in Hx. by apply bool_decide_eq_false in Hx.
  - intros r Hr. apply (proj1 (validate_all_Ok _ _) H) in Hr. unfold validate_secret_ref in Hr.
    destruct (_ || _) eqn:Hv in Hr; [done|]. rewrite !orb_false_iff, negb_false_iff in Hv. tauto.
Qed.

Lemma normalize_clean s : server_clean s → server_clean (normalize s).
Proof.
  intros [H1 H2 H3 H4 H5]. split; cbn; [done| | |done|].
  - intros x Hx. apply H2. revert Hx. rewrite !elem_of_cons, !elem_of_app, !elem_of_sorted_set. set_solver.
  - intros x. rewrite !elem_of_sorted_set. apply H3.
  - intros r. rewrite elem_of_sort_by. apply H5.
Qed.

Lemma offers_elem apps k t c :
  ((k, t), c) ∈ offers apps →
  ∃ s, (candidate_binding c, candidate_profile c) ∈ apps ∧ s ∈ pf_servers (candidate_profile c) ∧
    candidate_desired c = normalize s ∧ t = bt_target_type (pb_target (candidate_binding c)).
Proof.
  unfold offers. intros (l & ([b p] & -> & Hin)%list_elem_of_fmap & Hl)%elem_of_concat.
  apply list_elem_of_fmap in Hl as (s & [= -> -> ->] & Hs). by exists s.
Qed.

(** An effective server is the normalised server of a bound profile. *)
Lemma outcome_from_profile apps k e :
  outcome (offers apps) k = Some (inl e) →
  ∃ b p s, (b, p) ∈ apps ∧ s ∈ pf_servers p ∧ es_desired e = normalize s ∧
    es_inherited_from e = bt_target_type (pb_target b) ∧ pf_id p ∈ es_source_profile_ids e.
Proof.
  unfold outcome. destruct (winning_level _ _) as [[t es]|] eqn:Hw; [|done].
  apply winning_level_Some in Hw as (He & Hne & _). cbn [mbind option_bind].
  destruct es as [|c es]; [done|]. cbn [head fmap option_fmap option_map mbind option_bind].
  destruct (disagree (candidate_desired c) (c :: es)); [done|]. intros [= <-].
  assert (((k, t), c) ∈ offers apps) as Hc.
  { apply (elem_of_values_of candidate_key_cmp). unfold entries_at in He. rewrite <- He. set_solver. }
  apply offers_elem in Hc as (s & Ha & Hs & Hd & Ht).
  exists (candidate_binding c), (candidate_profile c), s. split_and!; [done..|].
  cbn [effective_of es_source_profile_ids]. apply elem_of_sorted_set. set_solver.
Qed.

Lemma applicable_profile profiles bindings target b p :
  (b, p) ∈ applicable profiles bindings target → p ∈ profiles.
Proof.
  intros (_ & _ & Hp)%applicable_elem. apply find_Some in Hp as [Hp _]. by apply elem_of_reverse.
Qed.

(** Resolution cannot bring back what validation rejects: when every profile was
    accepted, every effective server carries no text that looks like a credential in its
    identity, tools or definition, only approved opaque secret references, and no tool that is
    both allowed and denied, and it comes from one of the profiles. *)
Theorem effective_servers_clean profiles bindings target state e :
  (∀ p, p ∈ profiles → validate_mcp_profile p = Ok tt) →
  resolve_mcp_desired_state profiles bindings target = Some state →
  e ∈ st_servers state →
  server_clean (es_desired e) ∧ ∃ p, p ∈ profiles ∧ pf_id p ∈ es_source_profile_ids e.
Proof.
  intros Hval. rewrite resolve_mcp_desired_state_eq. intros [= <-] He%elem_of_outcome_servers.
  apply outcome_from_profile in He as (b & p & s & Ha%applicable_profile & Hs & -> & _ & Hp).
  split; [|by exists p]. apply normalize_clean, validate_server_clean.
  specialize (Hval p Ha). unfold validate_mcp_profile in Hval.
  destruct (trim_is_empty _); [done|]. destruct (_ || _); [done|].
  by apply (proj1 (validate_all_Ok _ _) Hval).
Qed.

(** ** The resolution trail *)

Lemma update_first_unique {A} (p : A → bool) (f : A → A) (l : list A) :
  (∀ l1 x l2, l = (l1 ++ x :: l2)%list → p x = true → ∀ y, y ∈ l2 → p y = false) →
  default l (update_first p f l) = map (λ x, if p x then f x else x) l.
Proof.
  induction l as [|x l IH]; intros Hu; [done|]. cbn. destruct (p x) eqn:E.
  - cbn. f_equal. symmetry. rewrite <- (map_id l) at 2. apply map_ext_in. intros y Hy.
    rewrite (Hu [] x l); [done..|by apply list_elem_of_In].
  - rewrite <- IH.
    + by destruct (update_first p f l).
    + intros l1 y l2 -> Hy. by apply (Hu (x :: l1) y l2).
Qed.

Lemma mark_won_map reason res c :
  NoDup (map rs_binding_id res) →
  mark_won reason res c =
  map (λ r, if str_eqb (rs_binding_id r) (pb_id (candidate_binding c)) then won reason r else r) res.
Proof.
  intros Hnd. apply update_first_unique. intros l1 x l2 -> Hx%str_eqb_eq y Hy.
  apply bool_decide_eq_false. intros Hy'. rewrite map_app in Hnd. cbn in Hnd.
  apply NoDup_app in Hnd as (_ & _ & [Hnx _]%NoDup_cons). apply Hnx, list_elem_of_fmap.
  exists y. split; [congruence|done].
Qed.

Lemma marks_spec (marks : list (string * ProfileCandidate)) (items : list McpProfileResolution) :
  NoDup (map rs_binding_id items) →
  let res := fold_left (λ r m, mark_won m.1 r m.2) marks items in
  map rs_binding_id res = map rs_binding_id items ∧
  ∀ r, r ∈ res → rs_applied r = true ↔
    (∃ r0, r0 ∈ items ∧ rs_binding_id r0 = rs_binding_id r ∧ rs_applied r0 = true) ∨
    (∃ m, m ∈ marks ∧ pb_id (candidate_binding m.2) = rs_binding_id r).
Proof.
  intros Hnd. induction marks as [|m marks [IHid IH]] using rev_ind; cbn.
  { split; [done|]. intros r Hr. split.
    - intros Ha. left. by exists r.
    - intros [(r0 & Hr0 & Hid & Ha) | (m & Hm & _)]; [|set_solver].
      by rewrite (NoDup_key_eq rs_binding_id items r r0). }
  rewrite fold_left_app. cbn. set (res := fold_left _ marks items) in *.
  rewrite mark_won_map by (by rewrite IHid). split.
  - rewrite <- IHid, map_map. apply map_ext. intros r. by destruct (str_eqb _ _).
  - intros r (r1 & -> & Hr1)%list_elem_of_fmap.
    destruct (str_eqb (rs_binding_id r1) _) eqn:E.
    + cbn. split; [intros _|done]. right. exists m. apply str_eqb_eq in E. set_solver.
    + rewrite IH by done. apply bool_decide_eq_false in E. set_unfold. naive_solver.
Qed.

Lemma applicable_binding_ids profiles bindings target :
  NoDup (map pb_id bindings) → NoDup (map (λ x, pb_id x.1) (applicable profiles bindings target)).
Proof.
  intros Hnd. unfold applicable. rewrite sort_by_perm.
  assert (NoDup (map pb_id (bfilter (λ b, target_contains target (pb_target b)) bindings))) as Hf.
  { eapply sublist_NoDup; [exact Hnd|]. apply sublist_map, bfilter_sublist. }
  revert Hf. generalize (bfilter (λ b, target_contains target (pb_target b)) bindings) as l.
  induction l as [|b l IH]; cbn; [done|]. intros [Hb Hl]%NoDup_cons.
  destruct (profile_by_id _ _) as [p|]; [|by apply IH]. cbn. apply NoDup_cons. split; [|by apply IH].
  intros ([b' p'] & Hid & (b2 & Hb2 & H)%list_elem_of_omap)%list_elem_of_fmap. apply Hb. cbn in Hid.
  destruct (profile_by_id _ _); simplify_eq. apply list_elem_of_fmap. by exists b'.
Qed.

Lemma outcome_winning os k e :
  outcome os k = Some (inl e) → ∃ es, winning_level os k = Some (es_inherited_from e, es).
Proof.
  unfold outcome. destruct (winning_level _ _) as [[t es]|]; [|done]. cbn [mbind option_bind].
  destruct es as [|c es]; [done|]. cbn [head fmap option_fmap option_map mbind option_bind].
  destruct (disagree (candidate_desired c) (c :: es)); [done|]. intros [= <-]. by exists (c :: es).
Qed.

Lemma elem_of_all_marks apps reason c :
  (reason, c) ∈ all_marks (offers apps) (by_server (candidates_of apps)) ↔
  ∃ k es e, outcome (offers apps) k = Some (inl e) ∧
    winning_level (offers apps) k = Some (es_inherited_from e, es) ∧ c ∈ es ∧
    reason = win_reason (es_inherited_from e) k.
Proof.
  unfold all_marks. rewrite elem_of_concat. setoid_rewrite list_elem_of_fmap. split.
  - intros (l & ([k levels] & -> & _) & Hm). unfold winning_marks in Hm. cbn in Hm.
    destruct (outcome (offers apps) k) as [[e|]|] eqn:Ho; [|set_solver..].
    destruct (outcome_winning _ _ _ Ho) as [es Hw]. rewrite Hw in Hm.
    apply list_elem_of_fmap in Hm as (c' & [= -> ->] & Hc). by exists k, es, e.
  - intros (k & es & e & Ho & Hw & Hc & ->).
    destruct (proj2 (by_server_keys apps k)) as [levels Hin]; [by eexists|].
    exists (winning_marks (offers apps) k). split; [by exists (k, levels)|].
    unfold winning_marks. rewrite Ho, Hw. apply list_elem_of_fmap. by exists c.
Qed.

(** The trail explains the state: with unique binding ids there is exactly one
    item for each applicable binding, and an item says "applied" precisely when its binding
    offered a server at the level that won it and that level had no conflict. *)
Theorem resolution_trail_exact profiles bindings target state :
  NoDup (map pb_id bindings) →
  resolve_mcp_desired_state profiles bindings target = Some state →
  map rs_binding_id (st_resolution state) ≡ₚ
    map (λ x, pb_id x.1) (applicable profiles bindings target) ∧
  ∀ r, r ∈ st_resolution state →
    rs_applied r = true ↔
    ∃ e c, e ∈ st_servers state ∧
      c ∈ entries_at (offers (applicable profiles bindings target))
            (server_key (es_desired e)) (es_inherited_from e) ∧
      pb_id (candidate_binding c) = rs_binding_id r.
Proof.
  intros Hnd. rewrite resolve_mcp_desired_state_eq. set (apps := applicable _ _ _). intros [= <-].
  cbn [st_resolution st_servers].
  destruct (marks_spec (all_marks (offers apps) (by_server (candidates_of apps)))
    (map initial_resolution apps)) as [Hids Happ].
  { rewrite map_map. cbn. by apply applicable_binding_ids. }
  split.
  { rewrite sort_by_perm, Hids, map_map. done. }
  intros r Hr%elem_of_sort_by. rewrite (Happ r Hr). split.
  - intros [(r0 & (x & -> & _)%list_elem_of_fmap & _ & Ha) | ([reason c] & Hm & Hid)]; [done|].
    apply elem_of_all_marks in Hm as (k & es & e & Ho & (-> & _)%winning_level_Some & Hc & _).
    exists e, c. pose proof (outcome_key _ _ _ Ho) as Hk. cbn in Hk. subst k.
    by rewrite elem_of_outcome_servers.
  - intros (e & c & He%elem_of_outcome_servers & Hc & Hid). right.
    destruct (outcome_winning _ _ _ He) as [es Hw].
    exists (win_reason (es_inherited_from e) (server_key (es_desired e)), c). split; [|done].
    apply elem_of_all_marks. exists (server_key (es_desired e)), es, e.
    pose proof Hw as (-> & _)%winning_level_Some. done.
Qed.

(** ** A worked target *)

Module DesiredDemo.
Definition definition : McpCanonicalDefinition :=
  {| def_transport := Stdio; def_command := Some "npx"; def_args := ["-y"; "server-github"];
     def_endpoint := None |}.
Definition github (enabled : bool) : McpDesiredServer :=
  {| ds_server_id := "github"; ds_runtime := "codex"; ds_alias := "gh";
     ds_definition := Some definition; ds_desired_enabled := enabled;
     ds_allow_tools := ["search"; "list"; "search"]; ds_deny_tools := ["delete"];
     ds_approval_mode := Manual; ds_risk_override := None;
     ds_secret_refs := [mkSecretRef "env" "token" "env://GITHUB_AUTH"] |}.
Definition profile (id name : string) (servers : list McpDesiredServer) : McpProfile :=
  mkProfile id name None 1 servers "t0" "t0".
Definition base := profile "p1" "base" [github false].
Definition ops := profile "p2" "prod-ops" [github true].
Definition bind (id p : string) (t : McpBindingTargetType) (target : string) : McpProfileBinding :=
  mkProfileBinding id p (mkTarget t target) 1 "t0" "t0".
Definition target : McpDesiredTarget := mkDesiredTarget "m1" (Some "w1") (Some "a1").
Definition profiles := [base; ops].
Definition bindings := [bind "b1" "p1" Machine "m1"; bind "b2" "p2" AgentTarget "a1"].
(** The same two profiles, both bound to the machine. *)
Definition clashing := [bind "b1" "p1" Machine "m1"; bind "b2" "p2" Machine "m1"].

Definition resolved (bs : list McpProfileBinding) : McpEffectiveDesiredState :=
  default (mkDesiredState target [] [] []) (resolve_mcp_desired_state profiles bs target).
End DesiredDemo.

(** The agent's profile wins over the machine's; its tools are sorted and deduplicated. *)
Example agent_profile_wins :
  map (λ e, (es_source_profile_ids e, ds_desired_enabled (es_desired e),
             ds_allow_tools (es_desired e), es_high_risk_context e))
    (st_servers (DesiredDemo.resolved DesiredDemo.bindings)) =
    [(["p2"], true, ["list"; "search"], true)] ∧
  map rs_applied (st_resolution (DesiredDemo.resolved DesiredDemo.bindings)) = [false; true].
Proof. by vm_compute. Qed.

(** At one level the two differ, and nothing is effective. *)
Example machine_profiles_clash :
  st_servers (DesiredDemo.resolved DesiredDemo.clashing) = [] ∧
  map cf_profile_ids (st_conflicts (DesiredDemo.resolved DesiredDemo.clashing)) = [["p1"; "p2"]].
Proof. by vm_compute. Qed.

Lemma resolve_order_independent_witness :
  resolve_mcp_desired_state DesiredDemo.profiles DesiredDemo.bindings DesiredDemo.target =
  resolve_mcp_desired_state (reverse DesiredDemo.profiles) (reverse DesiredDemo.bindings) DesiredDemo.target.
Proof.
  apply (resolve_order_independent DesiredDemo.profiles (reverse DesiredDemo.profiles)
    DesiredDemo.bindings (reverse DesiredDemo.bindings)).
  - symmetry. apply reverse_Permutation.
  - by compute_decide.
  - symmetry. apply reverse_Permutation.
  - by compute_decide.
Defined.

Lemma effective_servers_clean_witness :
  ∃ e,
  e ∈ st_servers (DesiredDemo.resolved DesiredDemo.bindings) ∧ server_clean (es_desired e).
Proof.
  destruct (st_servers (DesiredDemo.resolved DesiredDemo.bindings)) as [|e l] eqn:Hs.
  { by vm_compute in Hs. }
  exists e. split; [set_solver|].
  apply (effective_servers_clean DesiredDemo.profiles DesiredDemo.bindings DesiredDemo.target
    (DesiredDemo.resolved DesiredDemo.bindings)).
  - intros p Hp. apply elem_of_cons in Hp as [-> | Hp]; [by vm_compute|].
    apply list_elem_of_singleton in Hp as ->. by vm_compute.
  - by vm_compute.
  - rewrite Hs. set_solver.
Defined.

Lemma resolution_trail_exact_witness :
  map rs_binding_id (st_resolution (DesiredDemo.resolved DesiredDemo.bindings)) ≡ₚ ["b1"; "b2"].
Proof.
  apply (resolution_trail_exact DesiredDemo.profiles DesiredDemo.bindings DesiredDemo.target
    (DesiredDemo.resolved DesiredDemo.bindings)).
  - by compute_decide.
  - by vm_compute.
Defined.
