(* ===== verification/McpPlan.v ===== *)
(** * MCP dry-run plans

    The second half of [crates/cocli-driver-core/src/mcp_governance.rs]: the hashes a plan is
    bound to, and the comparison of a desired state with an inventory that yields its actions.
    [sha256] (the [sha2] crate) and [to_string] (what serde_json writes for a value) are
    parameters. *)
From S2P Require Import Prelude Text Mcp McpGovernance.

(** [{byte:02x}]. *)
Definition hex_char (n : N) : Ascii.ascii :=
  Ascii.ascii_of_N (if (n <? 10)%N then 48 + n else 87 + n).
Fixpoint hex_digest (digest : string) : string :=
  match digest with
  | "" => ""
  | String c rest =>
      let n := Ascii.N_of_ascii c in
      String (hex_char (n / 16)) (String (hex_char (n mod 16)) (hex_digest rest))
  end.

Definition is_ascii_hexdigit (c : Ascii.ascii) : bool :=
  in_range 48 57 c || in_range 65 70 c || in_range 97 102 c.

(** The text up to the first whitespace. *)
Fixpoint take_word (s : string) : string :=
  match s with
  | "" => ""
  | String c s' =>
      match strip_any whitespace s with Some _ => "" | None => String c (take_word s') end
  end.

(** [value.split_whitespace().next()]. *)
Definition first_word (s : string) : option string :=
  let s' := trim_start_with whitespace s in
  if str_is_empty s' then None else Some (take_word s').

(** [s.split(needle).nth(1)]. *)
Definition split_second (needle s : string) : option string :=
  match split_once needle s with
  | Some (_, rest) =>
      Some match split_once needle rest with Some (part, _) => part | None => rest end
  | None => None
  end.

(** The hash an evidence item names in its detail. *)
Definition evidence_source_hash (item : McpEvidence) : option string :=
  value ← split_second "source_sha256=" (ev_detail item);
  word ← first_word value;
  if (String.length word =? 64)%nat && all_bytes is_ascii_hexdigit word then Some word else None.

Definition evidence_order : McpEvidence → McpEvidence → comparison :=
  on_cmp (λ e, (ev_source e, (ev_detail e, (ev_source_path e,
                 (ev_proves_runtime_loaded e, ev_proves_current_session_visibility e)))))
    (pair_cmp String.compare (pair_cmp String.compare (pair_cmp (option_cmp String.compare)
      (pair_cmp bool_cmp bool_cmp)))).

Definition stable_evidence_items (evidence : list McpEvidence) : list McpEvidence :=
  sort_by evidence_order evidence.

Definition empty_summary : McpStateSummary := mkSummary None None None [] [] None 0.

Definition before_summary (observation : ObservedMcpInstance) (server : option McpServer) : McpStateSummary :=
  {| ss_configured := Some (ob_configured observation);
     ss_enabled := ob_enabled observation;
     ss_endpoint_fingerprint := ms_endpoint_fingerprint <$> server;
     ss_allow_tools := []; ss_deny_tools := []; ss_approval_mode := None;
     ss_secret_ref_count := match server with Some v => Z.of_nat (length (ms_secret_refs v)) | None => 0 end |}.

Definition action_order : McpPlanAction → McpPlanAction → comparison :=
  on_cmp (λ a, (pa_runtime a, (pa_scope a, (pa_target a, (pa_server_fingerprint a,
                 (kind_rank (pa_kind a), (pa_server_id a, pa_reason a)))))))
    (pair_cmp String.compare (pair_cmp String.compare (pair_cmp String.compare (pair_cmp String.compare
      (pair_cmp Z.compare (pair_cmp String.compare String.compare)))))).

(** [json!] of an item of evidence: absent fields are written as [null]. *)
Definition stable_evidence_json (item : McpEvidence) : Json :=
  JObject [("source", JString (ev_source item)); ("detail", JString (ev_detail item));
           ("sourcePath", json_option JString (ev_source_path item));
           ("provesRuntimeLoaded", JBool (ev_proves_runtime_loaded item));
           ("provesCurrentSessionVisibility", JBool (ev_proves_current_session_visibility item))].

Section Plan.
Variable sha256 : string → string.
Variable to_string : Json → string.

Definition stable_json (value : Json) : string := to_string value.
Definition hash_value (value : Json) : string := hex_digest (sha256 (to_string value)).

(** [values.sort_by_key(stable_json)]. *)
Definition sort_json (values : list Json) : list Json := sort_by (on_cmp stable_json String.compare) values.

Definition stable_evidence (evidence : list McpEvidence) : list Json :=
  sort_json (map stable_evidence_json evidence).

Definition stable_server (server : McpServer) : Json :=
  JObject [("id", JString (ms_id server)); ("canonicalName", JString (ms_canonical_name server));
           ("definition", definition_json (ms_definition server));
           ("endpointFingerprint", JString (ms_endpoint_fingerprint server));
           ("aliases", json_list JString (sort_by String.compare (ms_aliases server)));
           ("provenance", JArray (stable_evidence (ms_provenance server)));
           ("secretRefs", json_list secret_ref_json (ms_secret_refs server))].

Definition stable_observation (o : ObservedMcpInstance) : Json :=
  JObject [("runtime", JString (ob_runtime o)); ("serverId", JString (ob_server_id o));
           ("alias", JString (ob_alias o)); ("sourcePath", json_option JString (ob_source_path o));
           ("discoverable", JBool (ob_discoverable o)); ("configured", JBool (ob_configured o));
           ("loaded", json_option JBool (ob_loaded o)); ("enabled", json_option JBool (ob_enabled o));
           ("approved", json_option JBool (ob_approved o));
           ("authenticated", json_option JBool (ob_authenticated o));
           ("healthy", json_option JBool (ob_healthy o));
           ("startup", json_option startup_json (ob_startup o));
           ("currentSessionVisible", json_option JBool (ob_current_session_visible o));
           ("invoked", json_option JBool (ob_invoked o));
           ("toolCount", json_option JInt (ob_tool_count o));
           ("schemaHash", json_option JString (ob_schema_hash o));
           ("evidence", JArray (stable_evidence (ob_evidence o)))].

Definition stable_diagnostic (item : McpDiagnostic) : Json :=
  JObject [("code", JString (dg_code item)); ("severity", severity_json (dg_severity item));
           ("runtime", JString (dg_runtime item)); ("serverId", json_option JString (dg_server_id item));
           ("message", JString (dg_message item));
           ("evidence", JArray (stable_evidence (dg_evidence item)))].

Definition hash_mcp_observation (inventory : McpInventory) : string :=
  hash_value (JObject
    [("servers", JArray (sort_json (map stable_server (inv_servers inventory))));
     ("observations", JArray (sort_json (map stable_observation (inv_observations inventory))));
     ("diagnostics", JArray (sort_json (map stable_diagnostic (inv_diagnostics inventory))))]).

Definition hash_mcp_config (state : McpEffectiveDesiredState) : string :=
  hash_value (desired_state_json
    {| st_target := st_target state;
       st_servers := sort_by server_order (st_servers state);
       st_conflicts := sort_by conflict_order (st_conflicts state);
       st_resolution := sort_by (on_cmp (λ r, (rs_profile_id r, rs_binding_id r))
                                   (pair_cmp String.compare String.compare)) (st_resolution state) |}).

Definition mcp_definition_fingerprint (definition : McpCanonicalDefinition) : string :=
  hash_value (definition_json definition).

Definition source_hash (observation : ObservedMcpInstance) : option string :=
  match head (omap evidence_source_hash (ob_evidence observation)) with
  | Some hash => Some hash
  | None =>
      match ob_evidence observation with
      | [] => None
      | _ => Some (hash_value (JArray (stable_evidence (ob_evidence observation))))
      end
  end.

Definition after_summary (desired : McpDesiredServer) : McpStateSummary :=
  {| ss_configured := Some (ds_desired_enabled desired);
     ss_enabled := Some (ds_desired_enabled desired);
     ss_endpoint_fingerprint := mcp_definition_fingerprint <$> ds_definition desired;
     ss_allow_tools := ds_allow_tools desired; ss_deny_tools := ds_deny_tools desired;
     ss_approval_mode := Some (ds_approval_mode desired);
     ss_secret_ref_count := Z.of_nat (length (ds_secret_refs desired)) |}.

Definition desired_fingerprint (desired : McpDesiredServer) : string :=
  match ds_definition desired with
  | Some d => mcp_definition_fingerprint d
  | None => ds_server_id desired
  end.

Definition action (kind : McpPlanActionKind) (target : string) (desired : McpEffectiveServer)
    (reason : string) (observation : ObservedMcpInstance) (observed_server : option McpServer)
    (base_risk : McpRiskLevel) : McpPlanAction :=
  let item := es_desired desired in
  let requested_risk := default Low (ds_risk_override item) in
  let context_risk :=
    if es_high_risk_context desired || negb (bool_decide (ds_allow_tools item = [])) then High else Low in
  {| pa_kind := kind; pa_runtime := ds_runtime item;
     pa_scope := precedence_label (es_inherited_from desired);
     pa_target := target; pa_server_id := ds_server_id item;
     pa_server_fingerprint := desired_fingerprint item;
     pa_before := before_summary observation observed_server;
     pa_after := after_summary item;
     pa_risk := risk_max (risk_max base_risk requested_risk) context_risk;
     pa_reason := reason;
     pa_evidence := stable_evidence_items (ob_evidence observation);
     pa_expected_source_hash := source_hash observation;
     pa_expected_schema_hash := ob_schema_hash observation;
     pa_blocked := bool_decide (kind = ApprovalRequired) || bool_decide (kind = AuthenticationRequired) |}.

Definition manual_action (target runtime server_id reason : string) (evidence : list McpEvidence)
    (expected_source_hash expected_schema_hash : option string) : McpPlanAction :=
  {| pa_kind := ManualUnsupported; pa_runtime := runtime; pa_scope := "effective_target";
     pa_target := target; pa_server_id := server_id; pa_server_fingerprint := server_id;
     pa_before := empty_summary; pa_after := empty_summary; pa_risk := High; pa_reason := reason;
     pa_evidence := stable_evidence_items evidence;
     pa_expected_source_hash := expected_source_hash;
     pa_expected_schema_hash := expected_schema_hash; pa_blocked := true |}.

Definition manual_desired_action (target : string) (desired : McpEffectiveServer) (reason : string)
    (observation : option ObservedMcpInstance) (observed_server : option McpServer) : McpPlanAction :=
  let item := es_desired desired in
  {| pa_kind := ManualUnsupported; pa_runtime := ds_runtime item;
     pa_scope := precedence_label (es_inherited_from desired);
     pa_target := target; pa_server_id := ds_server_id item;
     pa_server_fingerprint := desired_fingerprint item;
     pa_before := match observation with Some v => before_summary v observed_server | None => empty_summary end;
     pa_after := after_summary item; pa_risk := High; pa_reason := reason;
     pa_evidence := match observation with Some v => stable_evidence_items (ob_evidence v) | None => [] end;
     pa_expected_source_hash := observation ≫= source_hash;
     pa_expected_schema_hash := observation ≫= ob_schema_hash;
     pa_blocked := true |}.

(** [observed_servers.get(id)]: the last server with the id. *)
Definition observed_server_by_id (inventory : McpInventory) (id : string) : option McpServer :=
  find (λ s, str_eqb (ms_id s) id) (reverse (inv_servers inventory)).

Definition observation_for (inventory : McpInventory) (runtime server_id : string)
    : option ObservedMcpInstance :=
  find (λ o, str_eqb (ob_runtime o) runtime && str_eqb (ob_server_id o) server_id)
    (inv_observations inventory).

(** [if condition { actions.push(a) }]. *)
Definition when (b : bool) (a : McpPlanAction) : list McpPlanAction := if b then [a] else [].

Definition supported_runtime (runtime : string) : bool :=
  bool_decide (runtime ∈ ["codex"; "cursor"; "claude"; "grok"]).

Definition definition_differs (item : McpDesiredServer) (observed_server : option McpServer) : bool :=
  match mcp_definition_fingerprint <$> ds_definition item with
  | Some fp => negb (bool_decide ((ms_endpoint_fingerprint <$> observed_server) = Some fp))
  | None => false
  end.

(** The [if]/[else if] of a desired server with an observation: configuration and enablement. *)
Definition configuration_actions (target_label : string) (desired : McpEffectiveServer)
    (observation : ObservedMcpInstance) (observed_server : option McpServer) : list McpPlanAction :=
  let item := es_desired desired in
  if negb (ob_configured observation) && ds_desired_enabled item then
    [action AddConfigure target_label desired "desired server is discovered but not configured"
       observation observed_server Medium]
  else if ob_configured observation then
    when (definition_differs item observed_server)
      (action Update target_label desired "desired definition fingerprint differs from observation"
         observation observed_server Medium) ++
    match ob_enabled observation with
    | Some enabled =>
        when (negb (Bool.eqb enabled (ds_desired_enabled item)))
          (action (if ds_desired_enabled item then Enable else Disable) target_label desired
             "desired enabled state differs from observation" observation observed_server
             (if ds_desired_enabled item then Low else Medium))
    | None =>
        [manual_desired_action target_label desired "enabled state is unknown" (Some observation) observed_server]
    end
  else [].

(** Approval, credentials and tool policy, in the order of the code. *)
Definition policy_actions (target_label : string) (desired : McpEffectiveServer)
    (observation : ObservedMcpInstance) (observed_server : option McpServer) : list McpPlanAction :=
  let item := es_desired desired in
  let enabled := ds_desired_enabled item in
  let unknown reason := manual_desired_action target_label desired reason (Some observation) observed_server in
  when (enabled && bool_decide (ob_approved observation = Some false))
    (action ApprovalRequired target_label desired "Runtime reports approval is required"
       observation observed_server High) ++
  when (enabled && (bool_decide (ob_authenticated observation = Some false) ||
                    negb (bool_decide (ds_secret_refs item = [])) &&
                    negb (bool_decide (ob_authenticated observation = Some true))))
    (action AuthenticationRequired target_label desired
       "credentials must be supplied through secret references by a future apply flow"
       observation observed_server High) ++
  when (enabled && bool_decide (ob_approved observation = None)) (unknown "approval state is unknown") ++
  when (enabled && bool_decide (ob_authenticated observation = None)) (unknown "authentication state is unknown") ++
  when (negb (bool_decide (ds_allow_tools item = [])) || negb (bool_decide (ds_deny_tools item = [])) ||
        negb (bool_decide (ds_approval_mode item = Manual)))
    (unknown "observed tool policy is unavailable; policy change requires manual verification").

(** One pass of the loop over [state.servers]. *)
Definition desired_actions (inventory : McpInventory) (target_label : string)
    (desired : McpEffectiveServer) : list McpPlanAction :=
  let item := es_desired desired in
  let observation := observation_for inventory (ds_runtime item) (ds_server_id item) in
  let observed_server := observed_server_by_id inventory (ds_server_id item) in
  if negb (supported_runtime (ds_runtime item)) then
    [manual_desired_action target_label desired "Runtime has no Phase 2A planning contract"
       observation observed_server]
  else
    match observation with
    | None =>
        when (ds_desired_enabled item)
          (manual_desired_action target_label desired
             "no observation exists; add/configure cannot be represented as safely automatable" None None)
    | Some observation =>
        if bool_decide (ob_evidence observation = []) then
          [manual_desired_action target_label desired "observation has no evidence"
             (Some observation) observed_server]
        else
          configuration_actions target_label desired observation observed_server ++
          policy_actions target_label desired observation observed_server
    end.

Definition desired_keys (state : McpEffectiveDesiredState) : list ServerKey :=
  map (λ e, server_key (es_desired e)) (st_servers state).

Definition undesired (state : McpEffectiveDesiredState) (observation : ObservedMcpInstance) : bool :=
  negb (bool_decide (st_resolution state = [])) && ob_configured observation &&
  negb (bool_decide ((ob_runtime observation, ob_server_id observation) ∈ desired_keys state)).

(** One pass of the loop over the observations that no desired server accounts for. *)
Definition removal_action (inventory : McpInventory) (target_label : string)
    (observation : ObservedMcpInstance) : McpPlanAction :=
  if bool_decide (ob_evidence observation = []) then
    manual_action target_label (ob_runtime observation) (ob_server_id observation)
      "configured server is absent from desired state, but removal evidence is missing" [] None
      (ob_schema_hash observation)
  else
    let observed_server := observed_server_by_id inventory (ob_server_id observation) in
    {| pa_kind := Remove; pa_runtime := ob_runtime observation; pa_scope := "effective_target";
       pa_target := target_label; pa_server_id := ob_server_id observation;
       pa_server_fingerprint :=
         match observed_server with Some s => ms_endpoint_fingerprint s | None => ob_server_id observation end;
       pa_before := before_summary observation observed_server;
       pa_after := mkSummary (Some false) (Some false) None [] [] None 0;
       pa_risk := Critical;
       pa_reason := "observed configured server is absent from effective desired state";
       pa_evidence := stable_evidence_items (ob_evidence observation);
       pa_expected_source_hash := source_hash observation;
       pa_expected_schema_hash := ob_schema_hash observation;
       pa_blocked := false |}.

(** What the three loops push, in order. *)
Definition plan_actions (state : McpEffectiveDesiredState) (inventory : McpInventory) : list McpPlanAction :=
  let label := target_label (st_target state) in
  map (λ c, manual_action label (cf_runtime c) (cf_server_id c)
              "profile conflict blocks deterministic planning" [] None None) (st_conflicts state) ++
  concat (map (desired_actions inventory label) (st_servers state)) ++
  map (removal_action inventory label) (bfilter (undesired state) (inv_observations inventory)).

Definition generate_mcp_plan (id generated_at : string) (state : McpEffectiveDesiredState)
    (inventory : McpInventory) : McpPlan :=
  let observation_hash := hash_mcp_observation inventory in
  let config_hash := hash_mcp_config state in
  let actions := sort_by action_order (plan_actions state inventory) in
  {| pl_id := id; pl_target := st_target state; pl_effective_desired_state := state;
     pl_actions := actions; pl_observation_hash := observation_hash; pl_config_hash := config_hash;
     pl_capability_hash := "";
     pl_plan_hash := hash_value (JObject [("observationHash", JString observation_hash);
                                          ("configHash", JString config_hash);
                                          ("actions", json_list action_json actions)]);
     pl_generated_at := generated_at; pl_dry_run := true; pl_applied := false |}.
End Plan.

(** ** What a plan's actions rest on *)

Section PlanFacts.
Variable sha256 : string → string.
Variable to_string : Json → string.
#[local] Abbreviation generate := (generate_mcp_plan sha256 to_string).
#[local] Abbreviation planned := (plan_actions sha256 to_string).

Lemma elem_of_plan_actions id at_ state inventory a :
  a ∈ pl_actions (generate id at_ state inventory) ↔ a ∈ planned state inventory.
Proof. cbn [generate_mcp_plan pl_actions]. by rewrite elem_of_sort_by. Qed.

Lemma elem_of_when b x a : a ∈ when b x ↔ b = true ∧ a = x.
Proof. destruct b; cbn; [rewrite list_elem_of_singleton; naive_solver|set_solver]. Qed.

(** The ways a desired server can call for an unblocked change. *)
Definition change_justified (inventory : McpInventory) (e : McpEffectiveServer) (o : ObservedMcpInstance)
    (kind : McpPlanActionKind) : Prop :=
  let item := es_desired e in
  match kind with
  | AddConfigure => ob_configured o = false ∧ ds_desired_enabled item = true
  | Update => ob_configured o = true ∧
      definition_differs sha256 to_string item (observed_server_by_id inventory (ds_server_id item)) = true
  | Enable => ob_configured o = true ∧ ob_enabled o = Some false ∧ ds_desired_enabled item = true
  | Disable => ob_configured o = true ∧ ob_enabled o = Some true ∧ ds_desired_enabled item = false
  | _ => False
  end.

(** An action built from a desired server and its observation. *)
Definition built_from (e : McpEffectiveServer) (o : ObservedMcpInstance) (a : McpPlanAction) : Prop :=
  pa_runtime a = ds_runtime (es_desired e) ∧ pa_server_id a = ds_server_id (es_desired e) ∧
  pa_evidence a ≡ₚ ob_evidence o ∧ pa_expected_source_hash a = source_hash sha256 to_string o ∧
  risk_level (default Low (ds_risk_override (es_desired e))) ≤ risk_level (pa_risk a) ∧
  (es_high_risk_context e = true → risk_level High ≤ risk_level (pa_risk a)).

Lemma risk_max_l a b : risk_level a ≤ risk_level (risk_max a b).
Proof. by destruct a, b. Qed.
Lemma risk_max_r a b : risk_level b ≤ risk_level (risk_max a b).
Proof. by destruct a, b. Qed.

Lemma action_built_from kind target e reason o s base :
  built_from e o (action sha256 to_string kind target e reason o s base).
Proof.
  unfold built_from. cbn. split_and!; try done.
  - unfold stable_evidence_items. apply sort_by_perm.
  - etrans; [apply risk_max_r|apply risk_max_l].
  - intros ->. apply (risk_max_r _ High).
Qed.

Lemma configuration_actions_unblocked inventory label e o a :
  a ∈ configuration_actions sha256 to_string label e o
        (observed_server_by_id inventory (ds_server_id (es_desired e))) →
  pa_blocked a = false →
  change_justified inventory e o (pa_kind a) ∧ built_from e o a.
Proof.
  unfold configuration_actions. destruct (ob_configured o) eqn:Hc; cbn [negb andb].
  - rewrite elem_of_app, elem_of_when. intros [[Hd ->] | Hin] Hb.
    + split; [|apply action_built_from]. cbn. by rewrite Hc.
    + destruct (ob_enabled o) as [en|] eqn:Hen.
      * apply elem_of_when in Hin as [Hne ->]. split; [|apply action_built_from].
        destruct en, (ds_desired_enabled (es_desired e)) eqn:Hd; [done| | |done]; cbn; rewrite ?Hd; done.
      * by apply list_elem_of_singleton in Hin as ->.
  - destruct (ds_desired_enabled (es_desired e)) eqn:Hd; [|set_solver].
    intros ->%list_elem_of_singleton _. split; [|apply action_built_from]. cbn. done.
Qed.

Lemma policy_actions_blocked label e o s a :
  a ∈ policy_actions sha256 to_string label e o s → pa_blocked a = true.
Proof.
  unfold policy_actions. cbn zeta. rewrite !elem_of_app, !elem_of_when.
  by intros [[_ ->] | [[_ ->] | [[_ ->] | [[_ ->] | [_ ->] ] ] ] ].
Qed.

Lemma desired_actions_unblocked inventory label e a :
  a ∈ desired_actions sha256 to_string inventory label e → pa_blocked a = false →
  supported_runtime (ds_runtime (es_desired e)) = true ∧
  ∃ o, observation_for inventory (ds_runtime (es_desired e)) (ds_server_id (es_desired e)) = Some o ∧
    ob_evidence o ≠ [] ∧ change_justified inventory e o (pa_kind a) ∧ built_from e o a.
Proof.
  unfold desired_actions. destruct (supported_runtime _); cbn [negb].
  2:{ by intros ->%list_elem_of_singleton. }
  destruct (observation_for _ _ _) as [o|].
  2:{ rewrite elem_of_when. by intros [_ ->]. }
  case_bool_decide as He; [by intros ->%list_elem_of_singleton|].
  rewrite elem_of_app. intros [Hin | Hin%policy_actions_blocked] Hb; [|congruence].
  split; [done|]. exists o. split; [done|]. split; [done|].
  by eapply configuration_actions_unblocked.
Qed.


(** ** When a plan is empty *)

Definition settled (inventory : McpInventory) (item : McpDesiredServer) : Prop :=
  supported_runtime (ds_runtime item) = true ∧
  match observation_for inventory (ds_runtime item) (ds_server_id item) with
  | None => ds_desired_enabled item = false
  | Some o =>
      ob_evidence o ≠ [] ∧
      (ob_configured o = true →
        definition_differs sha256 to_string item (observed_server_by_id inventory (ds_server_id item)) = false ∧
        ob_enabled o = Some (ds_desired_enabled item)) ∧
      (ds_desired_enabled item = true →
        ob_configured o = true ∧ ob_approved o = Some true ∧ ob_authenticated o = Some true) ∧
      ds_allow_tools item = [] ∧ ds_deny_tools item = [] ∧ ds_approval_mode item = Manual
  end.

Definition converged (state : McpEffectiveDesiredState) (inventory : McpInventory) : Prop :=
  st_conflicts state = [] ∧
  (∀ e, e ∈ st_servers state → settled inventory (es_desired e)) ∧
  (∀ o, o ∈ inv_observations inventory → ob_configured o = true → st_resolution state ≠ [] →
     (ob_runtime o, ob_server_id o) ∈ desired_keys state).

Lemma when_nil b x : when b x = [] ↔ b = false.
Proof. by destruct b. Qed.

Lemma app_nil_iff {A} (l k : list A) : (l ++ k)%list = [] ↔ l = [] ∧ k = [].
Proof. split; [apply app_nil|by intros [-> ->] ]. Qed.

Lemma configuration_actions_nil label e o s :
  configuration_actions sha256 to_string label e o s = [] ↔
  (ob_configured o = true → definition_differs sha256 to_string (es_desired e) s = false ∧
     ob_enabled o = Some (ds_desired_enabled (es_desired e))) ∧
  (ds_desired_enabled (es_desired e) = true → ob_configured o = true).
Proof.
  unfold configuration_actions. destruct (ob_configured o), (ds_desired_enabled (es_desired e));
    cbn [negb andb]; rewrite ?app_nil_iff, ?when_nil.
  all: destruct (ob_enabled o) as [[]|]; cbn; naive_solver.
Qed.

Lemma policy_actions_nil label e o s :
  policy_actions sha256 to_string label e o s = [] ↔
  (ds_desired_enabled (es_desired e) = true → ob_approved o = Some true ∧ ob_authenticated o = Some true) ∧
  ds_allow_tools (es_desired e) = [] ∧ ds_deny_tools (es_desired e) = [] ∧
  ds_approval_mode (es_desired e) = Manual.
Proof.
  unfold policy_actions. cbn zeta. rewrite !app_nil_iff, !when_nil, !orb_false_iff, !negb_false_iff.
  rewrite !bool_decide_eq_true.
  destruct (ds_desired_enabled (es_desired e)); cbn [andb]; [|naive_solver].
  rewrite !orb_false_iff, !bool_decide_eq_false.
  destruct (ob_approved o) as [[]|], (ob_authenticated o) as [[]|]; cbn; try naive_solver.
  rewrite andb_false_iff, negb_false_iff. split; [naive_solver|]. intros (_ & Ha & Hd & Hm).
  split_and!; try done. by right.
Qed.

Lemma desired_actions_nil inventory label e :
  desired_actions sha256 to_string inventory label e = [] ↔ settled inventory (es_desired e).
Proof.
  unfold desired_actions, settled. destruct (supported_runtime _); cbn [negb]; [|naive_solver].
  destruct (observation_for _ _ _) as [o|]; [|rewrite when_nil; naive_solver].
  case_bool_decide as He; [naive_solver|].
  rewrite app_nil_iff, configuration_actions_nil, policy_actions_nil. naive_solver.
Qed.

Lemma removals_nil state inventory label :
  map (removal_action sha256 to_string inventory label)
    (bfilter (undesired state) (inv_observations inventory)) = [] ↔
  ∀ o, o ∈ inv_observations inventory → ob_configured o = true → st_resolution state ≠ [] →
    (ob_runtime o, ob_server_id o) ∈ desired_keys state.
Proof.
  assert (∀ o, undesired state o = false ↔
    (ob_configured o = true → st_resolution state ≠ [] →
      (ob_runtime o, ob_server_id o) ∈ desired_keys state)) as Hu.
  { intros o. unfold undesired. destruct (ob_configured o); repeat case_bool_decide; naive_solver. }
  split.
  - intros Hnil o Ho. apply Hu. destruct (undesired state o) eqn:E; [|done].
    apply map_eq_nil in Hnil. assert (o ∈ bfilter (undesired state) (inv_observations inventory)) as Hin
      by (by apply elem_of_bfilter). rewrite Hnil in Hin. set_solver.
  - intros H. rewrite bfilter_none; [done|]. intros o Ho. apply Hu. by apply H.
Qed.

(** A plan is empty exactly when there is nothing to reconcile: no conflict is
    open, every effective server is on a supported runtime and observed, with evidence, as the
    profiles want it (configuration, definition, enablement, approval and credentials), and every
    configured server is accounted for. *)
Theorem plan_empty_iff_converged id at_ state inventory :
  pl_actions (generate id at_ state inventory) = [] ↔ converged state inventory.
Proof.
  cbn [generate_mcp_plan pl_actions]. rewrite sort_by_nil. unfold plan_actions, converged. cbn zeta.
  rewrite !app_nil_iff. repeat f_equiv.
  - by destruct (st_conflicts state).
  - rewrite concat_nil_Forall, Forall_map, Forall_forall. by setoid_rewrite desired_actions_nil.
  - apply removals_nil.
Qed.
(** ** Conflicts and removals *)

Lemma conflict_not_desired profiles bindings target state c :
  resolve_mcp_desired_state profiles bindings target = Some state →
  c ∈ st_conflicts state →
  ((cf_runtime c, cf_server_id c) ∉ desired_keys state) ∧ st_resolution state ≠ [].
Proof.
  rewrite resolve_mcp_desired_state_eq. set (apps := applicable _ _ _).
  intros [= <-] Hc%elem_of_outcome_conflicts. cbn [st_resolution]. split.
  - intros (e & Hk & He%elem_of_outcome_servers)%list_elem_of_fmap. rewrite <- Hk in He. congruence.
  - intros Hnil. apply sort_by_nil, (f_equal length) in Hnil.
    assert (∀ ms rs, length (fold_left (λ r m, mark_won m.1 r m.2) ms rs) = length rs) as Hlen.
    { induction ms as [|m ms IH]; intros rs; [done|]. cbn. rewrite IH. unfold mark_won.
      destruct (update_first _ _ _) eqn:E; [|done]. by apply update_first_length in E. }
    rewrite Hlen, length_map in Hnil. destruct apps; [|done]. by vm_compute in Hc.
Qed.

(** A conflict does not protect the server it is about: when the profiles bound to
    a target disagree on a server that is configured, the plan holds, beside the blocked action
    that reports the conflict, an unblocked action of critical risk that removes the server, as
    if no profile wanted it. *)
Theorem conflicting_server_still_removed id at_ profiles bindings target state inventory c o :
  resolve_mcp_desired_state profiles bindings target = Some state →
  c ∈ st_conflicts state →
  o ∈ inv_observations inventory →
  ob_runtime o = cf_runtime c → ob_server_id o = cf_server_id c →
  ob_configured o = true → ob_evidence o ≠ [] →
  (∃ a, a ∈ pl_actions (generate id at_ state inventory) ∧ pa_kind a = ManualUnsupported ∧
     pa_server_id a = cf_server_id c ∧ pa_blocked a = true) ∧
  (∃ a, a ∈ pl_actions (generate id at_ state inventory) ∧ pa_kind a = Remove ∧
     pa_runtime a = cf_runtime c ∧ pa_server_id a = cf_server_id c ∧ pa_blocked a = false).
Proof.
  intros Hres Hc Ho Hr Hs Hconf Hev.
  destruct (conflict_not_desired _ _ _ _ _ Hres Hc) as [Hk Hne]. setoid_rewrite elem_of_plan_actions.
  unfold plan_actions. cbn zeta. split.
  - eexists. rewrite elem_of_app. split; [left; apply list_elem_of_fmap; by exists c|done].
  - exists (removal_action sha256 to_string inventory (target_label (st_target state)) o).
    rewrite !elem_of_app. unfold removal_action. rewrite bool_decide_false by done. cbn.
    split_and!; [|done..]. right. right. apply list_elem_of_fmap. exists o. split.
    + by rewrite bool_decide_false.
    + apply elem_of_bfilter. split; [done|]. unfold undesired. rewrite Hconf, Hr, Hs.
      by rewrite !bool_decide_false.
Qed.
End PlanFacts.

(** ** A worked plan *)

Module PlanDemo.
(** Stand-ins for the hash and the serialiser. *)
Definition sha256 (s : string) : string := str_rev s.
Definition to_string (_ : Json) : string := "value".
Definition evidence : McpEvidence :=
  mkEvidence "config" "read source_sha256=0123456789abcdef0123456789abcdef0123456789abcdef0123456789abcdef ok"
    (Some "/w/.codex/config.toml") false false.
Definition observed (configured : bool) (enabled : option bool) (ev : list McpEvidence) : ObservedMcpInstance :=
  mkObserved "codex" "github" "gh" None true configured None enabled (Some true) (Some true) None None
    None None None (Some "schema") ev "t1".
Definition inventory (o : ObservedMcpInstance) : McpInventory := mkInventory [] [] [o] [] "t1".
Definition plan (bs : list McpProfileBinding) (o : ObservedMcpInstance) : McpPlan :=
  generate_mcp_plan sha256 to_string "plan-1" "t2" (DesiredDemo.resolved bs) (inventory o).
End PlanDemo.

Example demo_plan_kinds :
  map (λ a, (pa_kind a, pa_risk a, pa_blocked a))
    (pl_actions (PlanDemo.plan DesiredDemo.bindings (PlanDemo.observed true (Some false) [PlanDemo.evidence]))) =
  [(Enable, High, false); (Update, High, false); (ManualUnsupported, High, true)].
Proof. by vm_compute. Qed.


Lemma conflicting_server_still_removed_witness :
  ∃ a, a ∈ pl_actions (PlanDemo.plan DesiredDemo.clashing (PlanDemo.observed true (Some true) [PlanDemo.evidence])) ∧
    pa_kind a = Remove ∧ pa_server_id a = "github" ∧ pa_blocked a = false.
Proof.
  set (o := PlanDemo.observed true (Some true) [PlanDemo.evidence]).
  destruct (st_conflicts (DesiredDemo.resolved DesiredDemo.clashing)) as [|c l] eqn:Hc; [by vm_compute in Hc|].
  assert (cf_runtime c = "codex" ∧ cf_server_id c = "github") as [Hr Hs].
  { vm_compute in Hc. by injection Hc as <- _. }
  destruct (conflicting_server_still_removed PlanDemo.sha256 PlanDemo.to_string "plan-1" "t2"
    DesiredDemo.profiles DesiredDemo.clashing DesiredDemo.target (DesiredDemo.resolved DesiredDemo.clashing)
    (PlanDemo.inventory o) c o) as [_ (a & Ha & Hk & _ & Hid & Hb)].
  - by vm_compute.
  - rewrite Hc. set_solver.
  - set_solver.
  - by rewrite Hr.
  - by rewrite Hs.
  - done.
  - done.
  - exists a. split_and!; [exact Ha|done|congruence|done].
Defined.
