(* ===== verification/McpPreflight.v ===== *)
(** * MCP preflight, resume and verification

    What surrounds the application of a plan: the capability snapshot a plan is bound to
    ([crates/cocli-driver-core/src/mcp_governance.rs]), and, from
    [crates/cocli-server/src/mcp.rs], the preflight of each action, the recovery of an
    interrupted run from its journal and the verification of the outcome. The probes that
    produce the snapshot and the inventory, and the contents of the file a journal entry names,
    are arguments. *)
From stdpp Require Import pretty gmap.
From S2P Require Import Prelude Text Mcp McpGovernance McpPlan.

Inductive McpCapabilitySupport : Type := Supported | ReadOnly | Unsupported | UnknownSupport.
Inductive McpCapabilityOperation : Type :=
  | ReadDiscover | OpAddConfigure | EnableDisable | OpRemove | SecretReference | Reload | Verify | Rollback.
Inductive McpReloadStrategy : Type := NativeReload | NewSessionOnly | DeferredReload | UnsupportedReload.

#[export] Instance McpCapabilitySupport_eq_dec : EqDecision McpCapabilitySupport.
Proof. solve_decision. Defined.
#[export] Instance McpCapabilityOperation_eq_dec : EqDecision McpCapabilityOperation.
Proof. solve_decision. Defined.

Record McpCapabilityDetail := mkDetail {
  cd_support : McpCapabilitySupport;
  cd_reason : string;
  cd_evidence : list McpEvidence;
}.

(** [operations] lists the entries of the [BTreeMap] in key order. *)
Record McpRuntimeCapability := mkCapability {
  rc_runtime : string;
  rc_adapter : string;
  rc_binary_path : option string;
  rc_binary_version : option string;
  rc_config_schema_version : string;
  rc_destination : string;
  rc_allowed_subtree : string;
  rc_reload_strategy : McpReloadStrategy;
  rc_operations : list (McpCapabilityOperation * McpCapabilityDetail);
}.

Record McpCapabilitySnapshot := mkSnapshot {
  cs_hash : string;
  cs_observed_at : string;
  cs_runtimes : list McpRuntimeCapability;
}.

Record McpPreflightAction := mkPreflightAction {
  pf_action_index : nat;
  pf_runtime : string;
  pf_server_id : string;
  pf_operation : McpCapabilityOperation;
  pf_support : McpCapabilitySupport;
  pf_executable : bool;
  pf_reason : string;
  pf_adapter : string;
  pf_destination : string;
  pf_allowed_subtree : string;
  pf_reload_strategy : McpReloadStrategy;
  pf_idempotency_key : string;
  pf_expected_source_hash : option string;
  pf_expected_schema_hash : option string;
}.

Record McpPreflightReport := mkReport {
  pr_plan_id : string;
  pr_plan_hash : string;
  pr_capability_hash : string;
  pr_observation_hash : string;
  pr_config_hash : string;
  pr_actions : list McpPreflightAction;
  pr_stale_reasons : list string;
  pr_executable : bool;
}.

Inductive McpApplyJournalPhase : Type :=
  | Preflight | Locked | BackedUp | Written | ReloadPending | Reloaded | PhaseVerified | PhaseFailed
  | RollingBack | PhaseRolledBack | RecoveryRequired.

#[export] Instance McpApplyJournalPhase_eq_dec : EqDecision McpApplyJournalPhase.
Proof. solve_decision. Defined.

Record McpBackupDescriptor := mkBackup {
  bk_id : string;
  bk_runtime : string;
  bk_source_path : string;
  bk_backup_path : string;
  bk_source_hash : string;
  bk_backup_hash : string;
  bk_applied_hash : string;
  bk_source_existed : bool;
}.

Record McpApplyJournalEntry := mkJournal {
  je_sequence : Z;
  je_action_index : nat;
  je_runtime : string;
  je_server_id : string;
  je_idempotency_key : string;
  je_phase : McpApplyJournalPhase;
  je_attempt : Z;
  je_expected_source_hash : option string;
  je_expected_schema_hash : option string;
  je_backup : option McpBackupDescriptor;
  je_reason : string;
  je_evidence : list McpEvidence;
}.

Inductive McpApplyActionStatus : Type := Applied | Skipped | Blocked | Failed | Verified | RolledBack.
#[export] Instance McpApplyActionStatus_eq_dec : EqDecision McpApplyActionStatus.
Proof. solve_decision. Defined.

Record McpApplyActionResult := mkActionResult {
  ar_action_index : nat;
  ar_runtime : string;
  ar_server_id : string;
  ar_status : McpApplyActionStatus;
  ar_reason : string;
  ar_backup : option McpBackupDescriptor;
  ar_before_source_hash : option string;
  ar_after_source_hash : option string;
}.

Inductive McpVerificationStatus : Type := Matched | Mismatched | VerificationBlocked | VerificationFailed.
Inductive McpSessionEffectiveStatus : Type := Effective | NewSessionRequired | UnknownEffect.

Record McpVerificationResult := mkVerification {
  vr_status : McpVerificationStatus;
  vr_observation_hash : string;
  vr_mismatches : list string;
  vr_written_config_hashes : gmap string string;
  vr_session_effective : McpSessionEffectiveStatus;
}.

(** ** JSON of a capability *)

Definition support_json (s : McpCapabilitySupport) : Json :=
  JString match s with
  | Supported => "supported" | ReadOnly => "read_only" | Unsupported => "unsupported"
  | UnknownSupport => "unknown"
  end.
Definition operation_name (o : McpCapabilityOperation) : string :=
  match o with
  | ReadDiscover => "read_discover" | OpAddConfigure => "add_configure"
  | EnableDisable => "enable_disable" | OpRemove => "remove" | SecretReference => "secret_reference"
  | Reload => "reload" | Verify => "verify" | Rollback => "rollback"
  end.
Definition reload_strategy_json (s : McpReloadStrategy) : Json :=
  JString match s with
  | NativeReload => "native_reload" | NewSessionOnly => "new_session_only"
  | DeferredReload => "deferred" | UnsupportedReload => "unsupported"
  end.
Definition detail_json (d : McpCapabilityDetail) : Json :=
  JObject [("support", support_json (cd_support d)); ("reason", JString (cd_reason d));
           ("evidence", json_list evidence_json (cd_evidence d))].
Definition capability_json (c : McpRuntimeCapability) : Json :=
  JObject (field "runtime" (JString (rc_runtime c)) ++ field "adapter" (JString (rc_adapter c)) ++
    field_some "binaryPath" JString (rc_binary_path c) ++
    field_some "binaryVersion" JString (rc_binary_version c) ++
    field "configSchemaVersion" (JString (rc_config_schema_version c)) ++
    field "destination" (JString (rc_destination c)) ++
    field "allowedSubtree" (JString (rc_allowed_subtree c)) ++
    field "reloadStrategy" (reload_strategy_json (rc_reload_strategy c)) ++
    field "operations" (JObject (map (λ '(o, d), (operation_name o, detail_json d)) (rc_operations c))))%list.

(** ** Preflight *)

(** [authoritative_source_hash]: the hash a [config] item of evidence names, in lower case. *)
Definition authoritative_source_hash (action : McpPlanAction) : option string :=
  to_ascii_lowercase <$>
    head (omap evidence_source_hash (bfilter (λ e, str_eqb (ev_source e) "config") (pa_evidence action))).

Definition operation_of (kind : McpPlanActionKind) : McpCapabilityOperation :=
  match kind with
  | AddConfigure | Update => OpAddConfigure
  | Enable | Disable => EnableDisable
  | Remove => OpRemove
  | AuthenticationRequired => SecretReference
  | ApprovalRequired | ManualUnsupported => Verify
  end.

Definition executable_kind (kind : McpPlanActionKind) : bool :=
  negb (bool_decide (kind ∈ [ApprovalRequired; AuthenticationRequired; ManualUnsupported])).
Definition write_requires_source (kind : McpPlanActionKind) : bool :=
  bool_decide (kind ∈ [AddConfigure; Enable; Disable; Update; Remove]).
(** The changes the Codex adapter does not offer. *)
Definition codex_unsupported (action : McpPlanAction) : bool :=
  str_eqb (pa_runtime action) "codex" && bool_decide (pa_kind action ∈ [Update; Enable; Disable]).

(** [BTreeMap::get]. *)
Definition operation_detail (c : McpRuntimeCapability) (op : McpCapabilityOperation) : option McpCapabilityDetail :=
  snd <$> find (λ x, bool_decide (x.1 = op)) (rc_operations c).

Definition source_proven (action : McpPlanAction) : bool :=
  match authoritative_source_hash action with
  | Some hash => bool_decide (pa_expected_source_hash action = Some hash)
  | None => false
  end.

Section Preflight.
Variable sha256 : string → string.
Variable to_string : Json → string.

Definition hash_mcp_capabilities (snapshot : McpCapabilitySnapshot) : string :=
  hash_value sha256 to_string
    (json_list capability_json (sort_by (on_cmp rc_runtime String.compare) (cs_runtimes snapshot))).

Definition bind_mcp_plan_capabilities (plan : McpPlan) (snapshot : McpCapabilitySnapshot) : McpPlan :=
  let capability_hash := hash_mcp_capabilities snapshot in
  {| pl_id := pl_id plan; pl_target := pl_target plan;
     pl_effective_desired_state := pl_effective_desired_state plan; pl_actions := pl_actions plan;
     pl_observation_hash := pl_observation_hash plan; pl_config_hash := pl_config_hash plan;
     pl_capability_hash := capability_hash;
     pl_plan_hash := hash_value sha256 to_string (JObject
       [("observationHash", JString (pl_observation_hash plan)); ("configHash", JString (pl_config_hash plan));
        ("capabilityHash", JString capability_hash); ("actions", json_list action_json (pl_actions plan))]);
     pl_generated_at := pl_generated_at plan; pl_dry_run := pl_dry_run plan; pl_applied := pl_applied plan |}.

Definition sha256_bytes (s : string) : string := hex_digest (sha256 s).

Definition preflight_action (plan : McpPlan) (snapshot : McpCapabilitySnapshot) (action_index : nat)
    (action : McpPlanAction) : McpPreflightAction :=
  let operation := operation_of (pa_kind action) in
  let capability := find (λ c, str_eqb (rc_runtime c) (pa_runtime action)) (cs_runtimes snapshot) in
  let detail := c ← capability; operation_detail c operation in
  let support :=
    if codex_unsupported action then Unsupported
    else match detail with Some d => cd_support d | None => UnknownSupport end in
  let unproven := write_requires_source (pa_kind action) && negb (source_proven action) in
  let executable :=
    executable_kind (pa_kind action) && negb (pa_blocked action) &&
    bool_decide (support = Supported) && str_eqb (cs_hash snapshot) (pl_capability_hash plan) &&
    (negb (write_requires_source (pa_kind action)) || source_proven action) in
  {| pf_action_index := action_index; pf_runtime := pa_runtime action; pf_server_id := pa_server_id action;
     pf_operation := operation; pf_support := support; pf_executable := executable;
     pf_reason :=
       if unproven then "no authoritative configuration source hash proves a safe write destination"
       else if codex_unsupported action then
         "Codex native adapter does not expose a transactionally safe update or enable/disable contract"
       else if negb (executable_kind (pa_kind action)) || pa_blocked action then
         "plan action requires manual handling"
       else match detail with Some d => cd_reason d | None => "adapter capability is unknown" end;
     pf_adapter := match capability with Some c => rc_adapter c | None => "unknown" end;
     pf_destination := match capability with Some c => rc_destination c | None => "" end;
     pf_allowed_subtree := match capability with Some c => rc_allowed_subtree c | None => "" end;
     pf_reload_strategy := match capability with Some c => rc_reload_strategy c | None => UnsupportedReload end;
     pf_idempotency_key := sha256_bytes (pl_plan_hash plan +:+ ":" +:+ pretty action_index +:+ ":" +:+
                             pa_runtime action +:+ ":" +:+ pa_server_id action);
     pf_expected_source_hash := pa_expected_source_hash action;
     pf_expected_schema_hash := pa_expected_schema_hash action |}.

(** [preflight], given the snapshot and the inventory its probes return. *)
Definition preflight (plan : McpPlan) (snapshot : McpCapabilitySnapshot) (inventory : McpInventory) : McpPreflightReport :=
  let observation_hash := hash_mcp_observation sha256 to_string inventory in
  let stale_reasons :=
    ((if str_eqb (cs_hash snapshot) (pl_capability_hash plan) then [] else ["adapter_capability_or_version_drift"]) ++
     (if str_eqb observation_hash (pl_observation_hash plan) then [] else ["observation_drift"]))%list in
  let actions :=
    sort_by (on_cmp (λ a, Z.of_nat (pf_action_index a)) Z.compare)
      (imap (preflight_action plan snapshot) (pl_actions plan)) in
  {| pr_plan_id := pl_id plan; pr_plan_hash := pl_plan_hash plan; pr_capability_hash := cs_hash snapshot;
     pr_observation_hash := observation_hash; pr_config_hash := pl_config_hash plan;
     pr_actions := actions; pr_stale_reasons := stale_reasons;
     pr_executable := bool_decide (stale_reasons = []) &&
       forallb (λ a, bool_decide (pf_support a = Supported)) (bfilter pf_executable actions) |}.

(** ** Resuming an interrupted run *)

(** The result of [tokio::fs::read]: the bytes, or whether the file was missing. *)
Inductive ReadOutcome : Type := ReadBytes (content : string) | ReadNotFound | ReadFailed.

Definition written_phase (p : McpApplyJournalPhase) : bool :=
  bool_decide (p ∈ [Written; ReloadPending; Reloaded; PhaseVerified]).

Definition backed_up (p : McpApplyJournalPhase) : bool := bool_decide (p = BackedUp).

(** [journal.iter().rev().find(..)]: the newest entry of an action in one of the phases. *)
Definition newest (phase : McpApplyJournalPhase → bool) (journal : list McpApplyJournalEntry) (key : string)
    : option McpApplyJournalEntry :=
  find (λ e, str_eqb (je_idempotency_key e) key && phase (je_phase e)) (reverse journal).

(** The comparison of the destination's contents with the two hashes of the backup. *)
Definition resume_from (entry : McpApplyJournalEntry) (backup : McpBackupDescriptor) (current : string)
    : result (option McpApplyJournalEntry) string :=
  let current_hash := sha256_bytes current in
  if str_eqb current_hash (bk_applied_hash backup) then Ok (Some entry)
  else if str_eqb current_hash (bk_source_hash backup) then Ok None
  else Err "interrupted destination differs from both backup and expected applied hashes; manual recovery is required".

Definition recover_resume_state (read : string → ReadOutcome) (journal : list McpApplyJournalEntry)
    (idempotency_key : string) : result (option McpApplyJournalEntry) string :=
  match newest written_phase journal idempotency_key with
  | Some entry => Ok (Some entry)
  | None =>
      match newest backed_up journal idempotency_key with
      | None => Ok None
      | Some entry =>
          match je_backup entry with
          | None => Err "interrupted backup checkpoint has no recovery descriptor"
          | Some backup =>
              if str_is_empty (bk_applied_hash backup)
              then Err "interrupted backup checkpoint has no expected applied hash"
              else
                match read (bk_source_path backup) with
                | ReadBytes current => resume_from entry backup current
                | ReadNotFound => resume_from entry backup ""
                | ReadFailed => Err "interrupted destination could not be read for recovery"
                end
          end
      end
  end.

(** ** Verification *)

Definition unapplied (r : McpApplyActionResult) : bool := bool_decide (ar_status r ∈ [Skipped; Blocked; Failed]).
Definition took_effect (r : McpApplyActionResult) : bool := bool_decide (ar_status r ∈ [Applied; Verified]).

Definition desired_for (plan : McpPlan) (action : McpPlanAction) : option McpEffectiveServer :=
  find (λ s, str_eqb (ds_runtime (es_desired s)) (pa_runtime action) &&
             str_eqb (ds_server_id (es_desired s)) (pa_server_id action))
    (st_servers (pl_effective_desired_state plan)).

Definition observed_for (plan : McpPlan) (inventory : McpInventory) (action : McpPlanAction)
    : option ObservedMcpInstance :=
  find (λ o, str_eqb (ob_runtime o) (pa_runtime action) &&
             (str_eqb (ob_server_id o) (pa_server_id action) ||
              match desired_for plan action with
              | Some s => str_eqb (ob_alias o) (ds_alias (es_desired s))
              | None => false
              end))
    (inv_observations inventory).

(** The mismatch an applied action leaves, if any. *)
Definition action_mismatch (plan : McpPlan) (inventory : McpInventory) (action : McpPlanAction) : option string :=
  let observation := observed_for plan inventory action in
  let name := pa_runtime action +:+ "/" +:+ pa_server_id action in
  match pa_kind action with
  | Remove =>
      match observation with
      | Some o => if ob_configured o then Some (name +:+ " remains configured") else None
      | None => None
      end
  | _ =>
      let expected := (λ s, ds_desired_enabled (es_desired s)) <$> desired_for plan action in
      let matches :=
        match observation with
        | None => false
        | Some o =>
            ob_configured o &&
            match expected with Some b => bool_decide (ob_enabled o = Some b) | None => true end
        end in
      if matches then None else Some (name +:+ " does not match desired configuration")
  end.

(** [verify_plan]; [None] is the panic of [plan.actions[index]]. *)
Definition verify_plan (plan : McpPlan) (results : list McpApplyActionResult) (inventory : McpInventory)
    : option McpVerificationResult :=
  effects ← mapM (λ r, action ← pl_actions plan !! ar_action_index r;
                      Some (action_mismatch plan inventory action)) (bfilter took_effect results);
  let mismatches :=
    (map (λ r, ar_runtime r +:+ "/" +:+ ar_server_id r +:+ " was not applied: " +:+ ar_reason r)
       (bfilter unapplied results) ++ omap id effects)%list in
  let applied := existsb took_effect results in
  let failed := existsb (λ r, bool_decide (ar_status r = Failed)) results in
  Some {| vr_status :=
            if failed then VerificationFailed
            else if negb applied && negb (bool_decide (mismatches = [])) then VerificationBlocked
            else if bool_decide (mismatches = []) then Matched else Mismatched;
          vr_observation_hash := hash_mcp_observation sha256 to_string inventory;
          vr_mismatches := mismatches;
          vr_written_config_hashes :=
            fold_left (λ m r, match ar_after_source_hash r with
                              | Some hash => <[ar_runtime r +:+ "/" +:+ ar_server_id r := hash]> m
                              | None => m
                              end) results ∅;
          vr_session_effective := if applied then NewSessionRequired else UnknownEffect |}.
End Preflight.

(** [action_with_chained_source_hash]. *)
Definition action_with_chained_source_hash (action : McpPlanAction) (current : option string) : McpPlanAction :=
  {| pa_kind := pa_kind action; pa_runtime := pa_runtime action; pa_scope := pa_scope action;
     pa_target := pa_target action; pa_server_id := pa_server_id action;
     pa_server_fingerprint := pa_server_fingerprint action; pa_before := pa_before action;
     pa_after := pa_after action; pa_risk := pa_risk action; pa_reason := pa_reason action;
     pa_evidence := pa_evidence action;
     pa_expected_source_hash := match current with Some h => Some h | None => pa_expected_source_hash action end;
     pa_expected_schema_hash := pa_expected_schema_hash action; pa_blocked := pa_blocked action |}.

(** ** What preflight, resume and verification guarantee *)

Section Guarantees.
Variable sha256 : string → string.
Variable to_string : Json → string.

Lemma executable_kind_writes kind : executable_kind kind = write_requires_source kind.
Proof. by destruct kind. Qed.

Lemma authoritative_source_hash_Some action hash :
  authoritative_source_hash action = Some hash →
  ∃ item h, item ∈ pa_evidence action ∧ ev_source item = "config" ∧
    evidence_source_hash item = Some h ∧ hash = to_ascii_lowercase h.
Proof.
  unfold authoritative_source_hash. destruct (head _) as [h|] eqn:Hh; [|done]. intros [= <-].
  assert (h ∈ omap evidence_source_hash (bfilter (λ e, str_eqb (ev_source e) "config") (pa_evidence action))) as Hin.
  { destruct (omap _ _); [done|]. cbn in Hh. set_solver. }
  apply list_elem_of_omap in Hin as (item & [Hi Hs%str_eqb_eq]%elem_of_bfilter & He). by exists item, h.
Qed.

Lemma elem_of_preflight plan snapshot inventory p :
  p ∈ pr_actions (preflight sha256 to_string plan snapshot inventory) →
  ∃ a, pl_actions plan !! pf_action_index p = Some a ∧
    p = preflight_action sha256 plan snapshot (pf_action_index p) a.
Proof.
  cbn [preflight pr_actions]. rewrite elem_of_sort_by, elem_of_lookup_imap.
  intros (i & a & -> & Ha). by exists a.
Qed.

(** C35 (safety). Preflight authorises an action only on proof: an executable action is an
    unblocked write of the plan, whose operation the snapshot reports as supported by the
    action's runtime, under the very snapshot the plan was bound to, and whose expected source
    hash is the one that a piece of configuration evidence names. *)
Theorem preflight_authorises_proven_writes plan snapshot inventory p :
  p ∈ pr_actions (preflight sha256 to_string plan snapshot inventory) →
  pf_executable p = true →
  ∃ a, pl_actions plan !! pf_action_index p = Some a ∧
    pa_blocked a = false ∧ write_requires_source (pa_kind a) = true ∧ codex_unsupported a = false ∧
    cs_hash snapshot = pl_capability_hash plan ∧
    (∃ c d, c ∈ cs_runtimes snapshot ∧ rc_runtime c = pa_runtime a ∧
       operation_detail c (operation_of (pa_kind a)) = Some d ∧ cd_support d = Supported) ∧
    (∃ item h, item ∈ pa_evidence a ∧ ev_source item = "config" ∧
       evidence_source_hash item = Some h ∧ pa_expected_source_hash a = Some (to_ascii_lowercase h)).
Proof.
  intros (a & Ha & ->)%elem_of_preflight. cbn [preflight_action pf_executable pf_action_index].
  rewrite !andb_true_iff, negb_true_iff, bool_decide_eq_true, str_eqb_eq, executable_kind_writes.
  intros [[[[Hk Hb] Hs] Hh] Hp]. rewrite Hk in Hp. cbn in Hp. exists a. split_and!; try done.
  - by destruct (codex_unsupported a).
  - destruct (codex_unsupported a); [done|].
    destruct (find _ (cs_runtimes snapshot)) as [c|] eqn:Hc; [|done]. cbn in Hs.
    apply find_Some in Hc as [Hc Hr%str_eqb_eq].
    destruct (operation_detail c _) as [d|] eqn:Hd; [|done]. by exists c, d.
  - unfold source_proven in Hp. destruct (authoritative_source_hash a) as [hash|] eqn:Hau; [|done].
    apply authoritative_source_hash_Some in Hau as (item & h & Hi & Hs' & He & ->).
    apply bool_decide_eq_true in Hp. by exists item, h.
Qed.

Lemma preflight_support plan snapshot inventory p :
  p ∈ pr_actions (preflight sha256 to_string plan snapshot inventory) →
  pf_executable p = true → pf_support p = Supported.
Proof.
  intros (a & _ & ->)%elem_of_preflight. cbn [preflight_action pf_executable pf_support].
  rewrite !andb_true_iff, bool_decide_eq_true. tauto.
Qed.

(** The report's [executable] flag says nothing about its actions: it is set
    exactly when no staleness was found, also for a plan none of whose actions can be executed. *)
Theorem preflight_report_flag plan snapshot inventory :
  pr_executable (preflight sha256 to_string plan snapshot inventory) = true ↔
  cs_hash snapshot = pl_capability_hash plan ∧
  hash_mcp_observation sha256 to_string inventory = pl_observation_hash plan.
Proof.
  cbn [preflight pr_executable]. rewrite andb_true_iff, bool_decide_eq_true, <- !str_eqb_eq. split.
  - intros [H _]. by destruct (str_eqb _ _), (str_eqb _ _).
  - intros [-> ->]. split; [done|]. apply forallb_forall. intros p Hp%list_elem_of_In.
    apply elem_of_bfilter in Hp as [Hp He]. apply bool_decide_eq_true.
    apply (preflight_support plan snapshot inventory); [exact Hp|done].
Qed.

Lemma newest_Some phase journal key e :
  newest phase journal key = Some e →
  e ∈ journal ∧ je_idempotency_key e = key ∧ phase (je_phase e) = true.
Proof.
  intros [He [Hk%str_eqb_eq Hp]%andb_true_iff]%find_Some. by rewrite elem_of_reverse in He.
Qed.

Lemma resume_from_None e b current :
  resume_from sha256 e b current = Ok None →
  sha256_bytes sha256 current = bk_source_hash b ∧ bk_source_hash b ≠ bk_applied_hash b.
Proof.
  unfold resume_from, str_eqb. repeat case_bool_decide; try done. intros _. split; congruence.
Qed.

Lemma resume_from_Some e b current e' :
  resume_from sha256 e b current = Ok (Some e') →
  e' = e ∧ sha256_bytes sha256 current = bk_applied_hash b.
Proof. unfold resume_from, str_eqb. repeat case_bool_decide; naive_solver. Qed.

(** C36 (safety). Resuming never repeats a write. When recovery says to perform an action, no
    journal entry of that action records a write, and the last backup checkpoint's file, if there
    is one, still has the contents it had before; when it says the action is done, a journal entry
    of that action records the write, or the file has the contents the write was to leave. *)
Theorem resume_never_repeats_write read journal key :
  (recover_resume_state sha256 read journal key = Ok None →
   (∀ e, e ∈ journal → je_idempotency_key e = key → written_phase (je_phase e) = false) ∧
   (∀ e b, newest backed_up journal key = Some e → je_backup e = Some b →
      ∃ current, sha256_bytes sha256 current = bk_source_hash b ∧
        bk_source_hash b ≠ bk_applied_hash b ∧
        (read (bk_source_path b) = ReadBytes current ∨ read (bk_source_path b) = ReadNotFound ∧ current = ""))) ∧
  (∀ e, recover_resume_state sha256 read journal key = Ok (Some e) →
   e ∈ journal ∧ je_idempotency_key e = key ∧
   (written_phase (je_phase e) = true ∨
    je_phase e = BackedUp ∧ ∃ b current, je_backup e = Some b ∧
      sha256_bytes sha256 current = bk_applied_hash b ∧
      (read (bk_source_path b) = ReadBytes current ∨ read (bk_source_path b) = ReadNotFound ∧ current = ""))).
Proof.
  unfold recover_resume_state. destruct (newest written_phase journal key) as [w|] eqn:Hw.
  { split; [done|]. intros e [= ->]. apply newest_Some in Hw. tauto. }
  assert (∀ e, e ∈ journal → je_idempotency_key e = key → written_phase (je_phase e) = false) as Hno.
  { intros e He%elem_of_reverse Hk. apply (proj1 (find_None _ _) Hw) in He.
    by rewrite Hk, str_eqb_refl in He. }
  destruct (newest backed_up journal key) as [e|] eqn:Hb; [|by split; [split|] ].
  apply newest_Some in Hb as (Hin & Hk & Hp%bool_decide_eq_true).
  destruct (je_backup e) as [b|] eqn:Hbk; [|by split]. destruct (str_is_empty _); [by split|].
  destruct (read (bk_source_path b)) as [current| |] eqn:Hr; [| |by split].
  all: split; [intros [Hs Hne]%resume_from_None; split; [done|]; intros ? ? ? ?; simplify_eq; eexists; split; [exact Hs|auto]|].
  all: intros e' [-> Ha]%resume_from_Some; split; [done|]; split; [done|right]; split; [done|]; exists b; eauto 6.
Qed.

(** An applied action left the state it was to leave. *)
Definition effect_visible (plan : McpPlan) (inventory : McpInventory) (a : McpPlanAction) : Prop :=
  match pa_kind a with
  | Remove => ∀ o, observed_for plan inventory a = Some o → ob_configured o = false
  | _ => ∃ o, observed_for plan inventory a = Some o ∧ ob_configured o = true ∧
      ∀ e, desired_for plan a = Some e → ob_enabled o = Some (ds_desired_enabled (es_desired e))
  end.

Lemma action_mismatch_None plan inventory a :
  action_mismatch plan inventory a = None ↔ effect_visible plan inventory a.
Proof.
  unfold action_mismatch, effect_visible. cbn zeta.
  assert (∀ (m : string) (o : option ObservedMcpInstance), match o with
      | Some o => if ob_configured o then Some m else None
      | None => None end = None ↔ ∀ o', o = Some o' → ob_configured o' = false) as Hremove.
  { intros m [o|]; [|naive_solver]. destruct (ob_configured o) eqn:Hc; [|naive_solver].
    split; [done|]. intros H. rewrite (H o) in Hc; done. }
  destruct (pa_kind a) eqn:Hk; try apply Hremove.
  all: destruct (observed_for plan inventory a) as [o|]; [|naive_solver].
  all: destruct (desired_for plan a) as [e|]; cbn; destruct (ob_configured o) eqn:Hc; cbn; try case_bool_decide.
  all: split; [try done; intros _; exists o; naive_solver|].
  all: intros (o' & [= <-] & Hc' & He); try done; try congruence; exfalso; by pose proof (He e eq_refl).
Qed.

Lemma omap_id_nil {A} (l : list (option A)) : omap id l = [] ↔ ∀ x, x ∈ l → x = None.
Proof.
  induction l as [|[a|] l IH]; cbn; [set_solver| |].
  - split; [done|]. intros H. by assert (Some a = None) by (apply H; set_solver).
  - rewrite IH. set_solver.
Qed.

(** A verification that says "matched" was earned: every result was applied,
    verified or rolled back, and for each one that took effect the new inventory shows the change;
    the server of a removal is not configured, and any other action's server is configured and
    enabled as the plan's desired state wants. *)
Theorem verify_matched_sound plan results inventory v :
  verify_plan sha256 to_string plan results inventory = Some v →
  vr_status v = Matched →
  ∀ r, r ∈ results →
    ar_status r = RolledBack ∨
    (took_effect r = true ∧ ∃ a, pl_actions plan !! ar_action_index r = Some a ∧ effect_visible plan inventory a).
Proof.
  unfold verify_plan. destruct (mapM _ _) as [effects|] eqn:Hm; [|done]. cbn. intros [= <-]. cbn.
  destruct (existsb _ results); [done|]. destruct (_ && _) eqn:Hb; [done|].
  case_bool_decide as Hnil; [|done]. intros _ r Hr. apply app_nil_iff in Hnil as [Hun Heff].
  apply map_eq_nil in Hun.
  assert (unapplied r = false) as Hu.
  { destruct (unapplied r) eqn:E; [|done]. assert (r ∈ bfilter unapplied results) as Hin
      by (by apply elem_of_bfilter). rewrite Hun in Hin. set_solver. }
  destruct (took_effect r) eqn:Ht.
  2:{ left. unfold unapplied, took_effect in Hu, Ht. apply bool_decide_eq_false in Hu, Ht.
      destruct (ar_status r); set_solver. }
  right. split; [done|]. apply mapM_Some in Hm.
  assert (r ∈ bfilter took_effect results) as [i Hi]%list_elem_of_lookup_1 by (by apply elem_of_bfilter).
  destruct (Forall2_lookup_l _ _ _ _ _ Hm Hi) as (eff & Hin%list_elem_of_lookup_2 & Heq).
  destruct (pl_actions plan !! ar_action_index r) as [a|]; [|done]. cbn in Heq. injection Heq as <-.
  exists a. split; [done|]. apply action_mismatch_None. by apply (proj1 (omap_id_nil _) Heff).
Qed.

(** With results for actions of the plan, verification always answers. *)
Lemma verify_plan_total plan results inventory :
  (∀ r, r ∈ results → (ar_action_index r < length (pl_actions plan))%nat) →
  is_Some (verify_plan sha256 to_string plan results inventory).
Proof.
  intros H. unfold verify_plan. destruct (mapM _ _) eqn:Hm; [by eexists|].
  apply mapM_None, Exists_exists in Hm as (r & [Hr _]%elem_of_bfilter & Hn).
  destruct (lookup_lt_is_Some_2 (pl_actions plan) (ar_action_index r)) as [a Ha]; [by apply H|].
  by rewrite Ha in Hn.
Qed.
End Guarantees.

(** ** A worked run *)

Module PreflightDemo.
Definition addable : ObservedMcpInstance := PlanDemo.observed false (Some true) [PlanDemo.evidence].
Definition plan0 : McpPlan := PlanDemo.plan DesiredDemo.bindings addable.
Definition capability : McpRuntimeCapability :=
  mkCapability "codex" "codex-native" None (Some "1.0") "1" "/w/.codex/config.toml" "mcp_servers" NewSessionOnly
    [(OpAddConfigure, mkDetail Supported "help lists add" [])].
Definition snapshot : McpCapabilitySnapshot :=
  let s := mkSnapshot "" "t3" [capability] in
  mkSnapshot (hash_mcp_capabilities PlanDemo.sha256 PlanDemo.to_string s) "t3" [capability].
Definition plan : McpPlan := bind_mcp_plan_capabilities PlanDemo.sha256 PlanDemo.to_string plan0 snapshot.
Definition report : McpPreflightReport :=
  preflight PlanDemo.sha256 PlanDemo.to_string plan snapshot (PlanDemo.inventory addable).
Definition applied : McpApplyActionResult := mkActionResult 0 "codex" "github" Applied "written" None None (Some "h").
Definition after : McpInventory := PlanDemo.inventory (PlanDemo.observed true (Some true) [PlanDemo.evidence]).
Definition verification : McpVerificationResult :=
  default (mkVerification VerificationFailed "" [] ∅ UnknownEffect)
    (verify_plan PlanDemo.sha256 PlanDemo.to_string plan [applied] after).
End PreflightDemo.

Example preflight_demo :
  map (λ p, (pf_operation p, pf_executable p)) (pr_actions PreflightDemo.report) =
  [(OpAddConfigure, true); (Verify, false)].
Proof. by vm_compute. Qed.

Lemma preflight_authorises_proven_writes_witness :
  ∃ a, pl_actions PreflightDemo.plan !! 0%nat = Some a ∧ pa_blocked a = false ∧
    pa_expected_source_hash a ≠ None.
Proof.
  destruct (pr_actions PreflightDemo.report) as [|p l] eqn:Hp; [by vm_compute in Hp|].
  assert (pf_executable p = true ∧ pf_action_index p = 0%nat) as [He Hi].
  { vm_compute in Hp. by injection Hp as <- _. }
  destruct (preflight_authorises_proven_writes PlanDemo.sha256 PlanDemo.to_string PreflightDemo.plan
    PreflightDemo.snapshot (PlanDemo.inventory PreflightDemo.addable) p)
    as (a & Ha & Hb & _ & _ & _ & _ & item & h & _ & _ & _ & Hh).
  - fold PreflightDemo.report. rewrite Hp. set_solver.
  - exact He.
  - exists a. rewrite <- Hi. split_and!; [done|done|]. by rewrite Hh.
Defined.

Lemma verify_matched_sound_witness :
  ∃ a, pl_actions PreflightDemo.plan !! 0%nat = Some a ∧
    effect_visible PreflightDemo.plan PreflightDemo.after a.
Proof.
  destruct (verify_matched_sound PlanDemo.sha256 PlanDemo.to_string PreflightDemo.plan [PreflightDemo.applied]
    PreflightDemo.after PreflightDemo.verification) with (r := PreflightDemo.applied) as [H | [_ H] ].
  - by vm_compute.
  - by vm_compute.
  - set_solver.
  - by vm_compute in H.
  - exact H.
Defined.

(** A run interrupted between its backup and its write, seen with the old and the new contents. *)
Example resume_demo :
  let backup := mkBackup "b" "codex" "/cfg" "/bak" (sha256_bytes PlanDemo.sha256 "old") "h"
                  (sha256_bytes PlanDemo.sha256 "new") true in
  let entry phase := mkJournal 1 0 "codex" "github" "k" phase 1 None None (Some backup) "" [] in
  recover_resume_state PlanDemo.sha256 (λ _, ReadBytes "old") [entry BackedUp] "k" = Ok None ∧
  recover_resume_state PlanDemo.sha256 (λ _, ReadBytes "new") [entry BackedUp] "k" = Ok (Some (entry BackedUp)) ∧
  recover_resume_state PlanDemo.sha256 (λ _, ReadBytes "old") [entry Written; entry BackedUp] "k" =
    Ok (Some (entry Written)) ∧
  recover_resume_state PlanDemo.sha256 (λ _, ReadBytes "other") [entry BackedUp] "k" =
    Err "interrupted destination differs from both backup and expected applied hashes; manual recovery is required".
Proof. by vm_compute. Qed.
