(* ===== verification/McpBundle.v ===== *)
(** * Portable governance bundles

    [crates/cocli-driver-core/src/mcp_bundle.rs]: the export of profiles and bindings to a
    document without machine-private values, its validation and its content hash, and the
    validation of the rebindings of an import. SHA-256, the text serde_json writes for a value
    and the bytes it writes for a bundle are parameters; parsing, which is serde's, is not
    modelled. *)
From Stdlib Require Import Ascii.
From stdpp Require Import pretty gmap.
From S2P Require Import Prelude Text Mcp McpGovernance McpPlan McpPreflight.

Definition MCP_GOVERNANCE_BUNDLE_SCHEMA_VERSION : Z := 2.
Definition MCP_GOVERNANCE_BUNDLE_MAX_PROFILES : Z := 256.
Definition MCP_GOVERNANCE_BUNDLE_MAX_SERVERS : Z := 2048.

Inductive McpPortabilityClass : Type := Portable | RequiresRebind | MachineLocal | PortabilityBlocked.

Record McpBundleDiagnostic := mkBundleDiagnostic {
  bd_code : string;
  bd_classification : McpPortabilityClass;
  bd_profile_ref : option string;
  bd_server_id : option string;
  bd_field : option string;
  bd_rebind_key : option string;
  bd_message : string;
}.

Record McpBundleProfile := mkBundleProfile {
  bp_profile_ref : string;
  bp_name : string;
  bp_description : option string;
  bp_source_version : Z;
  bp_servers : list McpDesiredServer;
}.

Record McpBundleBinding := mkBundleBinding {
  bb_profile_ref : string;
  bb_target_type : McpBindingTargetType;
  bb_target_ref : string;
}.

Record McpBundleCapabilityExpectation := mkExpectation {
  ce_runtime : string;
  ce_adapter : string;
  ce_binary_version : option string;
  ce_config_schema_version : string;
  ce_operations : list (McpCapabilityOperation * McpCapabilitySupport);
}.

(** The fingerprints are the entries of a [BTreeMap]. *)
Record McpBundleProvenance := mkProvenance {
  bv_producer : string;
  bv_source_schema : string;
  bv_profile_fingerprints : gmap string string;
}.

Record McpGovernanceBundle := mkBundle {
  gb_schema_version : Z;
  gb_created_by : string;
  gb_provenance : McpBundleProvenance;
  gb_profiles : list McpBundleProfile;
  gb_relative_bindings : list McpBundleBinding;
  gb_capability_expectations : list McpBundleCapabilityExpectation;
  gb_portability : list McpBundleDiagnostic;
  gb_content_hash : string;
}.

Record McpBundleProfileRebinding := mkProfileRebinding {
  prb_profile_id : string;
  prb_expected_version : Z;
}.

Record McpBundleRebindings := mkRebindings {
  rb_targets : list (string * string);
  rb_runtimes : list (string * string);
  rb_secret_refs : list (string * string);
  rb_machine_local_values : list (string * string);
  rb_profiles : list (string * McpBundleProfileRebinding);
}.

Inductive McpBundleError : Type :=
  | BundleInvalid (message : string)
  | UnsupportedVersion (version : Z)
  | HashMismatch
  | BundleTooLarge
  | TooDeep.

(** ** Text checks *)

(** [suspected_secret] of this file; the one of [mcp_governance.rs] has other markers. *)
Definition suspected_secret (value : string) : bool :=
  let lower := to_ascii_lowercase value in
  any_marker ["bearer "; "token="; "password="; "secret="; "api_key="; "api-key="; "authorization=";
              "client_secret="; "oauth"] lower ||
  starts_with "sk-" lower || starts_with "ghp_" lower || starts_with "xox" lower.

(** The second and third bytes of a drive path. *)
Definition drive_path (value : string) : bool :=
  match value with
  | String _ (String b (String c _)) =>
      Ascii.eqb b ":"%char && (Ascii.eqb c "\"%char || Ascii.eqb c "/"%char)
  | _ => false
  end.

(** [Path::is_absolute] is a leading slash on the platforms the server supports. *)
Definition is_absolute_private_path (value : string) : bool :=
  starts_with "/" value || starts_with "~/" value || starts_with "file://" value ||
  any_marker ["/Users/"; "/home/"; "/private/"; "\Users\"] value || drive_path value.

Fixpoint contains_private_path (value : Json) : bool :=
  match value with
  | JString value => is_absolute_private_path value
  | JArray values => existsb contains_private_path values
  | JObject values => existsb (λ x, contains_private_path (snd x)) values
  | _ => false
  end.

Fixpoint json_depth (value : Json) : nat :=
  match value with
  | JArray values => S (fold_right (λ v n, Nat.max (json_depth v) n) 0%nat values)
  | JObject values => S (fold_right (λ x n, Nat.max (json_depth (snd x)) n) 0%nat values)
  | _ => 1%nat
  end.

(** A character of the name: bytes 128 to 191 continue one that was already mapped. *)
Fixpoint slug_chars (s : string) : string :=
  match s with
  | "" => ""
  | String c s' =>
      if in_range 128 191 c then slug_chars s'
      else String (if is_ascii_alphanumeric c then ascii_lower c else "-"%char) (slug_chars s')
  end.

Definition slug (value : string) : string :=
  let s := trim_start_char "-"%char (slug_chars value) in
  let s := str_rev (trim_start_char "-"%char (str_rev s)) in
  if str_is_empty s then "profile" else s.

(** ** Sanitising a server: the value and the diagnostics pushed *)

Definition BundleResult (A : Type) : Type := result (A * list McpBundleDiagnostic) McpBundleError.

Definition machine_local_key (profile_ref server_id field : string) : string :=
  "machine-local:" +:+ profile_ref +:+ ":" +:+ server_id +:+ ":" +:+ field.
Definition rebind_placeholder (rebind_key : string) : string := "{{rebind:" +:+ rebind_key +:+ "}}".

Definition machine_local_diagnostic (profile_ref server_id field : string) : McpBundleDiagnostic :=
  {| bd_code := "machine_local_value_removed"; bd_classification := MachineLocal;
     bd_profile_ref := Some profile_ref; bd_server_id := Some server_id; bd_field := Some field;
     bd_rebind_key := Some (machine_local_key profile_ref server_id field);
     bd_message := "absolute machine-local value was replaced by a rebinding placeholder" |}.

Definition sanitize_machine_local_value (profile_ref server_id field value : string) : BundleResult string :=
  if suspected_secret value then Err (BundleInvalid "bundle source contains suspected secret material")
  else if is_absolute_private_path value
  then Ok (rebind_placeholder (machine_local_key profile_ref server_id field),
           [machine_local_diagnostic profile_ref server_id field])
  else Ok (value, []).

Fixpoint sanitize_args (profile_ref server_id : string) (index : nat) (args : list string)
    : BundleResult (list string) :=
  match args with
  | [] => Ok ([], [])
  | a :: args' =>
      match sanitize_machine_local_value profile_ref server_id ("args." +:+ pretty index) a with
      | Err e => Err e
      | Ok (a', d) =>
          match sanitize_args profile_ref server_id (S index) args' with
          | Err e => Err e
          | Ok (l, ds) => Ok (a' :: l, d ++ ds)%list
          end
      end
  end.

Definition sanitize_option (f : string → BundleResult string) (o : option string) : BundleResult (option string) :=
  match o with
  | None => Ok (None, [])
  | Some v => match f v with Ok (v', d) => Ok (Some v', d) | Err e => Err e end
  end.

Definition sanitize_endpoint (profile_ref server_id endpoint : string) : BundleResult string :=
  if starts_with "file://" endpoint then Err (BundleInvalid "file endpoints cannot be exported")
  else sanitize_machine_local_value profile_ref server_id "endpoint" endpoint.

Definition sanitize_definition (profile_ref server_id : string) (d : McpCanonicalDefinition)
    : BundleResult McpCanonicalDefinition :=
  match sanitize_option (sanitize_machine_local_value profile_ref server_id "command") (def_command d) with
  | Err e => Err e
  | Ok (command, d1) =>
      match sanitize_args profile_ref server_id 0 (def_args d) with
      | Err e => Err e
      | Ok (args, d2) =>
          match sanitize_option (sanitize_endpoint profile_ref server_id) (def_endpoint d) with
          | Err e => Err e
          | Ok (endpoint, d3) => Ok (mkDefinition (def_transport d) command args endpoint, d1 ++ d2 ++ d3)%list
          end
      end
  end.

Definition runtime_diagnostic (profile_ref : string) (s : McpDesiredServer) : McpBundleDiagnostic :=
  {| bd_code := "runtime_rebind_required"; bd_classification := RequiresRebind;
     bd_profile_ref := Some profile_ref; bd_server_id := Some (ds_server_id s); bd_field := Some "runtime";
     bd_rebind_key := Some ("runtime:" +:+ ds_runtime s);
     bd_message := "runtime installation must be explicitly rebound and re-probed" |}.

Definition secret_diagnostic (profile_ref : string) (s : McpDesiredServer) (r : McpSecretRef) : McpBundleDiagnostic :=
  {| bd_code := "secret_ref_rebind_required"; bd_classification := RequiresRebind;
     bd_profile_ref := Some profile_ref; bd_server_id := Some (ds_server_id s);
     bd_field := Some ("secretRefs." +:+ sr_location r); bd_rebind_key := Some (sr_reference r);
     bd_message := "opaque secret reference must be rebound without resolving its value" |}.

Definition with_definition (s : McpDesiredServer) (d : McpCanonicalDefinition) : McpDesiredServer :=
  {| ds_server_id := ds_server_id s; ds_runtime := ds_runtime s; ds_alias := ds_alias s;
     ds_definition := Some d; ds_desired_enabled := ds_desired_enabled s;
     ds_allow_tools := ds_allow_tools s; ds_deny_tools := ds_deny_tools s;
     ds_approval_mode := ds_approval_mode s; ds_risk_override := ds_risk_override s;
     ds_secret_refs := ds_secret_refs s |}.

Definition sanitize_server (profile_ref : string) (s : McpDesiredServer) : BundleResult McpDesiredServer :=
  let ds := runtime_diagnostic profile_ref s :: map (secret_diagnostic profile_ref s) (ds_secret_refs s) in
  match ds_definition s with
  | None => Ok (s, ds)
  | Some d =>
      match sanitize_definition profile_ref (ds_server_id s) d with
      | Err e => Err e
      | Ok (d', more) => Ok (with_definition s d', ds ++ more)%list
      end
  end.

Fixpoint sanitize_servers (profile_ref : string) (l : list McpDesiredServer) : BundleResult (list McpDesiredServer) :=
  match l with
  | [] => Ok ([], [])
  | s :: l' =>
      match sanitize_server profile_ref s with
      | Err e => Err e
      | Ok (s', d) =>
          match sanitize_servers profile_ref l' with
          | Err e => Err e
          | Ok (rest, ds) => Ok (s' :: rest, d ++ ds)%list
          end
      end
  end.

(** [while !used_refs.insert(..)]: the first free reference among [base], [base:2], ... [None] is
    running out of fuel. *)
Fixpoint free_ref (fuel : nat) (used : list string) (base candidate : string) (suffix : Z) : option string :=
  if bool_decide (candidate ∈ used) then
    match fuel with
    | O => None
    | S fuel' => free_ref fuel' used base (base +:+ ":" +:+ pretty suffix) (suffix + 1)
    end
  else Some candidate.

(** ** Orders *)

Definition class_rank (c : McpPortabilityClass) : Z :=
  match c with Portable => 0 | RequiresRebind => 1 | MachineLocal => 2 | PortabilityBlocked => 3 end.

Definition diagnostic_order : McpBundleDiagnostic → McpBundleDiagnostic → comparison :=
  on_cmp (λ d, (class_rank (bd_classification d), (bd_profile_ref d, (bd_server_id d, (bd_field d, bd_code d)))))
    (pair_cmp Z.compare (pair_cmp (option_cmp String.compare) (pair_cmp (option_cmp String.compare)
      (pair_cmp (option_cmp String.compare) String.compare)))).

Definition desired_order : McpDesiredServer → McpDesiredServer → comparison :=
  on_cmp (λ s, (ds_runtime s, (ds_server_id s, ds_alias s)))
    (pair_cmp String.compare (pair_cmp String.compare String.compare)).

Definition bundle_binding_order : McpBundleBinding → McpBundleBinding → comparison :=
  on_cmp (λ b, (bb_target_ref b, bb_profile_ref b)) (pair_cmp String.compare String.compare).

Definition source_profile_order : McpProfile → McpProfile → comparison :=
  on_cmp (λ p, (pf_name p, pf_id p)) (pair_cmp String.compare String.compare).

Definition target_cmp : McpBindingTargetType * string → McpBindingTargetType * string → comparison :=
  pair_cmp type_cmp String.compare.

(** ** JSON *)

Definition class_json (c : McpPortabilityClass) : Json :=
  JString match c with
  | Portable => "portable" | RequiresRebind => "requires_rebind" | MachineLocal => "machine_local"
  | PortabilityBlocked => "blocked"
  end.

Definition bundle_diagnostic_json (d : McpBundleDiagnostic) : Json :=
  JObject (field "code" (JString (bd_code d)) ++ field "classification" (class_json (bd_classification d)) ++
    field_some "profileRef" JString (bd_profile_ref d) ++ field_some "serverId" JString (bd_server_id d) ++
    field_some "field" JString (bd_field d) ++ field_some "rebindKey" JString (bd_rebind_key d) ++
    field "message" (JString (bd_message d)))%list.

Definition desired_server_json (s : McpDesiredServer) : Json := JObject (desired_server_fields s).

Definition bundle_profile_json (p : McpBundleProfile) : Json :=
  JObject (field "profileRef" (JString (bp_profile_ref p)) ++ field "name" (JString (bp_name p)) ++
    field_some "description" JString (bp_description p) ++ field "sourceVersion" (JInt (bp_source_version p)) ++
    field "servers" (json_list desired_server_json (bp_servers p)))%list.

Definition bundle_binding_json (b : McpBundleBinding) : Json :=
  JObject [("profileRef", JString (bb_profile_ref b)); ("targetType", target_type_json (bb_target_type b));
           ("targetRef", JString (bb_target_ref b))].

Definition expectation_json (e : McpBundleCapabilityExpectation) : Json :=
  JObject (field "runtime" (JString (ce_runtime e)) ++ field "adapter" (JString (ce_adapter e)) ++
    field_some "binaryVersion" JString (ce_binary_version e) ++
    field "configSchemaVersion" (JString (ce_config_schema_version e)) ++
    field "operations" (JObject (map (λ '(o, s), (operation_name o, support_json s)) (ce_operations e))))%list.

Definition provenance_json (p : McpBundleProvenance) : Json :=
  JObject [("producer", JString (bv_producer p)); ("sourceSchema", JString (bv_source_schema p));
           ("profileFingerprints",
             JObject (sort_by (on_cmp fst String.compare)
               (map (λ '(k, v), (k, JString v)) (map_to_list (bv_profile_fingerprints p)))))].

Definition bundle_json (b : McpGovernanceBundle) : Json :=
  JObject (field "schemaVersion" (JInt (gb_schema_version b)) ++ field "createdBy" (JString (gb_created_by b)) ++
    field "provenance" (provenance_json (gb_provenance b)) ++
    field "profiles" (json_list bundle_profile_json (gb_profiles b)) ++
    field "relativeBindings" (json_list bundle_binding_json (gb_relative_bindings b)) ++
    field_nonempty "capabilityExpectations" expectation_json (gb_capability_expectations b) ++
    field "portability" (json_list bundle_diagnostic_json (gb_portability b)) ++
    field "contentHash" (JString (gb_content_hash b)))%list.

Section Bundle.
Variable sha256 : string → string.
(** [serde_json::to_vec] of a value that serde serialises. *)
Variable to_vec : Json → string.

Definition hex_hash (bytes : string) : string := hex_digest (sha256 bytes).

Definition profile_fingerprint (profile : McpProfile) : string :=
  hex_hash (to_vec (JObject
    [("name", JString (pf_name profile)); ("description", json_option JString (pf_description profile));
     ("servers", json_list desired_server_json (sort_by desired_order (pf_servers profile)))])).

Definition with_hash (b : McpGovernanceBundle) (hash : string) : McpGovernanceBundle :=
  {| gb_schema_version := gb_schema_version b; gb_created_by := gb_created_by b;
     gb_provenance := gb_provenance b; gb_profiles := gb_profiles b;
     gb_relative_bindings := gb_relative_bindings b;
     gb_capability_expectations := gb_capability_expectations b;
     gb_portability := gb_portability b; gb_content_hash := hash |}.

Definition stable_bundle (b : McpGovernanceBundle) : McpGovernanceBundle :=
  {| gb_schema_version := gb_schema_version b; gb_created_by := gb_created_by b;
     gb_provenance := gb_provenance b;
     gb_profiles := sort_by (on_cmp bp_profile_ref String.compare) (gb_profiles b);
     gb_relative_bindings := sort_by bundle_binding_order (gb_relative_bindings b);
     gb_capability_expectations := sort_by (on_cmp ce_runtime String.compare) (gb_capability_expectations b);
     gb_portability := sort_by diagnostic_order (gb_portability b);
     gb_content_hash := "" |}.

Definition mcp_bundle_content_hash (b : McpGovernanceBundle) : string :=
  hex_hash (to_vec (bundle_json (stable_bundle b))).

(** *** Validation *)

Definition synthetic_profile (p : McpBundleProfile) : McpProfile :=
  mkProfile (bp_profile_ref p) (bp_name p) (bp_description p) (bp_source_version p) (bp_servers p) "" "".

Definition definition_values (d : McpCanonicalDefinition) : list string :=
  (option_list (def_command d) ++ def_args d ++ option_list (def_endpoint d))%list.

Definition server_values (s : McpDesiredServer) : list string :=
  match ds_definition s with Some d => definition_values d | None => [] end.

Definition validate_bundle_profile (p : McpBundleProfile) : result unit McpBundleError :=
  match validate_mcp_profile (synthetic_profile p) with
  | Err message => Err (BundleInvalid message)
  | Ok _ =>
      if existsb (λ s, existsb (λ v, is_absolute_private_path v || suspected_secret v) (server_values s))
           (bp_servers p)
      then Err (BundleInvalid "bundle contains non-portable or sensitive material")
      else Ok tt
  end.

Fixpoint validate_bundle_profiles (l : list McpBundleProfile) : result unit McpBundleError :=
  match l with
  | [] => Ok tt
  | p :: l' => match validate_bundle_profile p with Ok _ => validate_bundle_profiles l' | Err e => Err e end
  end.

Definition server_count (b : McpGovernanceBundle) : Z :=
  fold_right (λ p n, Z.of_nat (length (bp_servers p)) + n) 0 (gb_profiles b).

(** The set of references has as many elements as there are profiles. *)
Definition refs_valid (b : McpGovernanceBundle) : bool :=
  let refs := map bp_profile_ref (gb_profiles b) in
  bool_decide (NoDup refs) && forallb (λ x, bool_decide (bb_profile_ref x ∈ refs)) (gb_relative_bindings b).

Definition validate_mcp_governance_bundle (b : McpGovernanceBundle) : result unit McpBundleError :=
  if negb (gb_schema_version b =? MCP_GOVERNANCE_BUNDLE_SCHEMA_VERSION)
  then Err (UnsupportedVersion (gb_schema_version b))
  else if trim_is_empty (gb_created_by b) || suspected_secret (gb_created_by b)
  then Err (BundleInvalid "bundle metadata is invalid")
  else if (MCP_GOVERNANCE_BUNDLE_MAX_PROFILES <? Z.of_nat (length (gb_profiles b))) ||
          (MCP_GOVERNANCE_BUNDLE_MAX_SERVERS <? server_count b)
  then Err BundleTooLarge
  else if contains_private_path (bundle_json b)
  then Err (BundleInvalid "bundle contains an absolute machine-private path")
  else if negb (refs_valid b)
  then Err (BundleInvalid "bundle profile references are invalid")
  else
    match validate_bundle_profiles (gb_profiles b) with
    | Err e => Err e
    | Ok _ => if str_eqb (mcp_bundle_content_hash b) (gb_content_hash b) then Ok tt else Err HashMismatch
    end.

Definition validate_mcp_bundle_rebindings (r : McpBundleRebindings) : result unit McpBundleError :=
  if existsb (λ '(source, destination), negb (is_valid_mcp_opaque_secret_reference source) ||
                                        negb (is_valid_mcp_opaque_secret_reference destination))
       (rb_secret_refs r)
  then Err (BundleInvalid "secret rebindings must use approved opaque reference schemes")
  else if existsb (λ '(key, value), mcp_value_contains_plaintext_secret key ||
                                    mcp_value_contains_plaintext_secret value)
            (rb_targets r ++ rb_runtimes r ++ rb_machine_local_values r)%list ||
          existsb (λ '(key, value), mcp_value_contains_plaintext_secret key ||
                                    mcp_value_contains_plaintext_secret (prb_profile_id value))
            (rb_profiles r)
  then Err (BundleInvalid "bundle rebindings contain suspected secret material")
  else Ok tt.

(** *** Export *)

Record Exporting := mkExporting {
  xp_profile_refs : gmap string string;
  xp_profiles : list McpBundleProfile;
  xp_portability : list McpBundleDiagnostic;
  xp_fingerprints : gmap string string;
  xp_used_refs : list string;
}.

(** [&fingerprint[..12]]: the hexadecimal digest has 64 characters. *)
Definition base_ref (profile : McpProfile) : string :=
  "profile:" +:+ slug (pf_name profile) +:+ ":" +:+ String.substring 0 12 (profile_fingerprint profile).

(** One profile of the loop; the search for a free reference has a round per used one. *)
Definition export_profile (acc : Exporting) (profile : McpProfile) : result Exporting McpBundleError :=
  match validate_mcp_profile profile with
  | Err message => Err (BundleInvalid message)
  | Ok _ =>
      let base := base_ref profile in
      let profile_ref :=
        default base (free_ref (length (xp_used_refs acc)) (xp_used_refs acc) base base 2) in
      match sanitize_servers profile_ref (sort_by desired_order (pf_servers profile)) with
      | Err e => Err e
      | Ok (servers, ds) =>
          Ok {| xp_profile_refs := <[pf_id profile := profile_ref]> (xp_profile_refs acc);
                xp_profiles := xp_profiles acc ++
                  [mkBundleProfile profile_ref (pf_name profile) (pf_description profile)
                     (pf_version profile) servers];
                xp_portability := xp_portability acc ++ ds;
                xp_fingerprints := <[profile_ref := profile_fingerprint profile]> (xp_fingerprints acc);
                xp_used_refs := xp_used_refs acc ++ [profile_ref] |}%list
      end
  end.

Fixpoint export_profiles (acc : Exporting) (l : list McpProfile) : result Exporting McpBundleError :=
  match l with
  | [] => Ok acc
  | p :: l' => match export_profile acc p with Ok acc' => export_profiles acc' l' | Err e => Err e end
  end.

Definition target_refs (bindings : list McpProfileBinding)
    : list ((McpBindingTargetType * string) * string) :=
  let targets := dedup (sort_by target_cmp
    (map (λ b, (bt_target_type (pb_target b), bt_target_id (pb_target b))) bindings)) in
  imap (λ i t, (t, precedence_label t.1 +:+ ":" +:+ pretty (S i))) targets.

Definition relative_binding (refs : gmap string string) (targets : list ((McpBindingTargetType * string) * string))
    (b : McpProfileBinding) : option McpBundleBinding :=
  profile_ref ← refs !! pb_profile_id b;
  target ← find (λ x, bool_decide (x.1 = (bt_target_type (pb_target b), bt_target_id (pb_target b)))) targets;
  Some (mkBundleBinding profile_ref (bt_target_type (pb_target b)) target.2).

Definition target_diagnostic (b : McpBundleBinding) : McpBundleDiagnostic :=
  {| bd_code := "target_rebind_required"; bd_classification := RequiresRebind;
     bd_profile_ref := Some (bb_profile_ref b); bd_server_id := None; bd_field := Some "binding.target";
     bd_rebind_key := Some (bb_target_ref b);
     bd_message := "bundle target must be explicitly rebound on the destination machine" |}.

Definition expectation_of (c : McpRuntimeCapability) : McpBundleCapabilityExpectation :=
  mkExpectation (rc_runtime c) (rc_adapter c) (rc_binary_version c) (rc_config_schema_version c)
    (map (λ '(o, d), (o, cd_support d)) (rc_operations c)).

Definition export_mcp_governance_bundle (profiles : list McpProfile) (bindings : list McpProfileBinding)
    (capabilities : option McpCapabilitySnapshot) (created_by : string)
    : result McpGovernanceBundle McpBundleError :=
  if trim_is_empty created_by || suspected_secret created_by
  then Err (BundleInvalid "bundle createdBy is required and must be redacted")
  else
    match export_profiles (mkExporting ∅ [] [] ∅ []) (sort_by source_profile_order profiles) with
    | Err e => Err e
    | Ok x =>
        let relative :=
          sort_by bundle_binding_order (omap (relative_binding (xp_profile_refs x) (target_refs bindings)) bindings) in
        let bundle :=
          {| gb_schema_version := MCP_GOVERNANCE_BUNDLE_SCHEMA_VERSION;
             gb_created_by := trim created_by;
             gb_provenance := mkProvenance "cocli" "mcp-governance-phase-3a" (xp_fingerprints x);
             gb_profiles := xp_profiles x;
             gb_relative_bindings := relative;
             gb_capability_expectations :=
               sort_by (on_cmp ce_runtime String.compare)
                 match capabilities with Some s => map expectation_of (cs_runtimes s) | None => [] end;
             gb_portability := sort_by diagnostic_order (xp_portability x ++ map target_diagnostic relative)%list;
             gb_content_hash := "" |} in
        let bundle := with_hash bundle (mcp_bundle_content_hash bundle) in
        match validate_mcp_governance_bundle bundle with
        | Ok _ => Ok bundle
        | Err e => Err e
        end
    end.
End Bundle.

(** ** The search for a free reference ends *)

Definition candidate_ref (base : string) (k : nat) : string :=
  match k with O => base | S k' => base +:+ ":" +:+ pretty (Z.of_nat k + 1) end.

Lemma candidate_ref_inj base : Inj (=) (=) (candidate_ref base).
Proof.
  assert (∀ s c, base ≠ base +:+ String c s) as Hne.
  { intros s c H. rewrite <- (append_nil_r base) in H at 1. by apply append_inj_l in H. }
  intros [|i] [|j]; cbn [candidate_ref]; [done| | |].
  - by intros H%Hne.
  - by intros H%eq_sym%Hne.
  - intros H%append_inj_l%append_inj_l%(inj pretty). lia.
Qed.

Lemma free_ref_Some fuel used base k r :
  free_ref fuel used base (candidate_ref base k) (Z.of_nat k + 2) = Some r →
  (r ∉ used) ∧ ∃ k', r = candidate_ref base k'.
Proof.
  revert k. induction fuel as [|fuel IH]; intros k; cbn [free_ref]; case_bool_decide as Hin; try done.
  - intros [= <-]. eauto.
  - replace (base +:+ ":" +:+ pretty (Z.of_nat k + 2)) with (candidate_ref base (S k))
      by (cbn [candidate_ref]; do 3 f_equal; lia).
    replace (Z.of_nat k + 2 + 1) with (Z.of_nat (S k) + 2) by lia. apply IH.
  - intros [= <-]. eauto.
Qed.

Lemma free_ref_None fuel used base k :
  free_ref fuel used base (candidate_ref base k) (Z.of_nat k + 2) = None →
  ∀ i, (k ≤ i ≤ k + fuel)%nat → candidate_ref base i ∈ used.
Proof.
  revert k. induction fuel as [|fuel IH]; intros k; cbn [free_ref]; case_bool_decide as Hin; try done.
  - intros _ i Hi. by replace i with k by lia.
  - replace (base +:+ ":" +:+ pretty (Z.of_nat k + 2)) with (candidate_ref base (S k))
      by (cbn [candidate_ref]; do 3 f_equal; lia).
    replace (Z.of_nat k + 2 + 1) with (Z.of_nat (S k) + 2) by lia. intros Hn i Hi.
    destruct (decide (i = k)) as [->|]; [done|]. apply (IH (S k) Hn). lia.
Qed.

Lemma free_ref_within (used : list string) (base : string) :
  ∃ r, free_ref (length used) used base base 2 = Some r ∧ (r ∉ used) ∧ ∃ k, r = candidate_ref base k.
Proof.
  destruct (free_ref (length used) used base base 2) as [r|] eqn:Hf.
  { exists r. split; [done|]. by apply (free_ref_Some (length used) used base 0). }
  exfalso. pose proof (free_ref_None (length used) used base 0 Hf) as Hall.
  assert (length (map (candidate_ref base) (seq 0 (S (length used)))) ≤ length used)%nat as Hlen.
  { apply submseteq_length, NoDup_submseteq.
    - apply NoDup_fmap_2; [apply candidate_ref_inj|apply NoDup_seq].
    - intros x (i & -> & Hi%elem_of_seq)%list_elem_of_fmap. apply Hall. lia. }
  rewrite length_map, length_seq in Hlen. lia.
Qed.

Lemma free_ref_more fuel fuel' used base c n r :
  free_ref fuel used base c n = Some r → (fuel ≤ fuel')%nat → free_ref fuel' used base c n = Some r.
Proof.
  revert fuel' c n. induction fuel as [|fuel IH]; intros [|fuel'] c n; cbn [free_ref];
    case_bool_decide; try done; try lia. intros Hf Hle. apply IH; [done|lia].
Qed.

(** Naming a profile in a bundle always ends: among the base reference and its
    numbered variants, after at most as many rounds as there are references in use, the search
    reaches one that is free, and it is the same whatever more rounds are allowed. *)
Theorem free_ref_terminates (used : list string) (base : string) :
  ∃ r, (∀ fuel, (length used ≤ fuel)%nat → free_ref fuel used base base 2 = Some r) ∧
    (r ∉ used) ∧ ∃ k, r = candidate_ref base k.
Proof.
  destruct (free_ref_within used base) as (r & Hr & Hfresh & Hk). exists r. split; [|done].
  intros fuel. by apply free_ref_more.
Qed.

(** ** What an export keeps and what it replaces *)

(** A value of a definition, before and after: kept, or replaced by a placeholder whose key a
    diagnostic of the bundle names. *)
Definition value_exported (ds : list McpBundleDiagnostic) (v v' : string) : Prop :=
  (is_absolute_private_path v = false ∧ v' = v) ∨
  (is_absolute_private_path v = true ∧ ∃ d k, d ∈ ds ∧ bd_code d = "machine_local_value_removed" ∧
     bd_rebind_key d = Some k ∧ v' = rebind_placeholder k).

(** Everything of a server but the machine-local values of its definition is kept. *)
Definition server_exported (ds : list McpBundleDiagnostic) (s s' : McpDesiredServer) : Prop :=
  Forall2 (value_exported ds) (server_values s) (server_values s') ∧
  match ds_definition s' with
  | None => s' = s
  | Some d' => ∃ d, ds_definition s = Some d ∧ def_transport d' = def_transport d ∧ s' = with_definition s d'
  end.

Lemma value_exported_mono ds ds' v v' : ds ⊆ ds' → value_exported ds v v' → value_exported ds' v v'.
Proof. intros Hsub [H | (H & d & k & Hd & H')]; [by left|right]. split; [done|]. exists d, k. set_solver. Qed.

Lemma values_exported_mono ds ds' l l' :
  ds ⊆ ds' → Forall2 (value_exported ds) l l' → Forall2 (value_exported ds') l l'.
Proof. intros Hsub H. eapply Forall2_impl; [exact H|]. intros v v'. by apply value_exported_mono. Qed.

Lemma server_exported_mono ds ds' s s' : ds ⊆ ds' → server_exported ds s s' → server_exported ds' s s'.
Proof. intros Hsub [Hv Hd]. split; [by eapply values_exported_mono|done]. Qed.

Lemma sanitize_value_exported r i f v v' ds :
  sanitize_machine_local_value r i f v = Ok (v', ds) → value_exported ds v v'.
Proof.
  unfold sanitize_machine_local_value. destruct (suspected_secret v); [done|].
  destruct (is_absolute_private_path v) eqn:E; intros [= <- <-]; [right|by left].
  split; [done|]. exists (machine_local_diagnostic r i f). eexists. split; [set_solver|done].
Qed.

Lemma sanitize_args_exported r i n l l' ds :
  sanitize_args r i n l = Ok (l', ds) → Forall2 (value_exported ds) l l'.
Proof.
  revert n l' ds. induction l as [|v l IH]; intros n l' ds; cbn; [by intros [= <- <-]|].
  destruct (sanitize_machine_local_value _ _ _ v) as [[v' d]|] eqn:Hv; [|done].
  destruct (sanitize_args r i (S n) l) as [[rest more]|] eqn:Hl; [|done]. intros [= <- <-].
  constructor.
  - eapply value_exported_mono; [|by eapply sanitize_value_exported]. set_solver.
  - eapply values_exported_mono; [|by eapply IH]. set_solver.
Qed.

Lemma sanitize_option_exported f o o' ds :
  (∀ v v' ds, f v = Ok (v', ds) → value_exported ds v v') →
  sanitize_option f o = Ok (o', ds) → Forall2 (value_exported ds) (option_list o) (option_list o').
Proof.
  intros Hf. destruct o as [v|]; cbn; [|by intros [= <- <-]].
  destruct (f v) as [[v' d]|] eqn:Hv; [|done]. intros [= <- <-]. cbn. constructor; [|done]. by apply Hf.
Qed.

Lemma sanitize_definition_exported r i d d' ds :
  sanitize_definition r i d = Ok (d', ds) →
  Forall2 (value_exported ds) (definition_values d) (definition_values d') ∧ def_transport d' = def_transport d.
Proof.
  unfold sanitize_definition.
  destruct (sanitize_option _ (def_command d)) as [[c d1]|] eqn:Hc; [|done].
  destruct (sanitize_args _ _ _ _) as [[a d2]|] eqn:Ha; [|done].
  destruct (sanitize_option _ (def_endpoint d)) as [[e d3]|] eqn:He; [|done].
  intros [= <- <-]. split; [|done]. unfold definition_values. cbn [def_command def_args def_endpoint].
  repeat apply Forall2_app.
  - eapply values_exported_mono; [|eapply sanitize_option_exported; [|exact Hc]; apply sanitize_value_exported].
    set_solver.
  - eapply values_exported_mono; [|by eapply sanitize_args_exported]. set_solver.
  - eapply values_exported_mono; [|eapply sanitize_option_exported; [|exact He]]; [set_solver|].
    intros v v' ds. unfold sanitize_endpoint. destruct (starts_with _ _); [done|]. apply sanitize_value_exported.
Qed.

Lemma sanitize_server_exported r s s' ds : sanitize_server r s = Ok (s', ds) → server_exported ds s s'.
Proof.
  unfold sanitize_server, server_exported, server_values.
  destruct (ds_definition s) as [d|] eqn:Hd; [|by intros [= <- <-]; rewrite Hd; split].
  destruct (sanitize_definition _ _ d) as [[d' more]|] eqn:Hs; [|done]. intros [= <- <-].
  apply sanitize_definition_exported in Hs as [Hv Ht]. cbn [with_definition ds_definition]. split.
  - eapply values_exported_mono; [|exact Hv]. set_solver.
  - by exists d.
Qed.

Lemma sanitize_servers_exported r l l' ds :
  sanitize_servers r l = Ok (l', ds) → Forall2 (server_exported ds) l l'.
Proof.
  revert l' ds. induction l as [|s l IH]; intros l' ds; cbn; [by intros [= <- <-]|].
  destruct (sanitize_server r s) as [[s' d]|] eqn:Hs; [|done].
  destruct (sanitize_servers r l) as [[rest more]|]; [|done]. intros [= <- <-]. constructor.
  - eapply server_exported_mono; [|by eapply sanitize_server_exported]. set_solver.
  - eapply Forall2_impl; [by apply IH|]. intros x y. apply server_exported_mono. set_solver.
Qed.

Definition profile_exported (ds : list McpBundleDiagnostic) (p : McpProfile) (p' : McpBundleProfile) : Prop :=
  bp_name p' = pf_name p ∧ bp_description p' = pf_description p ∧ bp_source_version p' = pf_version p ∧
  Forall2 (server_exported ds) (sort_by desired_order (pf_servers p)) (bp_servers p').

Section ExportFacts.
Variable sha256 : string → string.
Variable to_vec : Json → string.

(** What the loop has built for the profiles it has seen. *)
Record exporting_ok (seen : list McpProfile) (x : Exporting) : Prop := {
  eo_profiles : Forall2 (profile_exported (xp_portability x)) seen (xp_profiles x);
  eo_used : map bp_profile_ref (xp_profiles x) = xp_used_refs x;
  eo_fresh : NoDup (xp_used_refs x);
}.

Lemma export_profile_ok seen x p x' :
  exporting_ok seen x → export_profile sha256 to_vec x p = Ok x' → exporting_ok (seen ++ [p])%list x'.
Proof.
  intros [H1 H2 H3]. unfold export_profile. destruct (validate_mcp_profile p); [|done].
  destruct (free_ref_within (xp_used_refs x) (base_ref sha256 to_vec p)) as (r & -> & Hr & _). cbn [from_option id].
  destruct (sanitize_servers r _) as [[servers ds]|] eqn:Hs; [|done]. intros [= <-].
  split; cbn [xp_portability xp_profiles xp_used_refs].
  - apply Forall2_app.
    + eapply Forall2_impl; [exact H1|]. intros q q' (Hn & Hd & Hv & Hq). split_and!; [done..|].
      eapply Forall2_impl; [exact Hq|]. intros s s'. apply server_exported_mono. set_solver.
    + constructor; [|done]. split_and!; [done..|]. apply sanitize_servers_exported in Hs.
      eapply Forall2_impl; [exact Hs|]. intros s s'. apply server_exported_mono. set_solver.
  - by rewrite map_app, H2.
  - apply NoDup_app. split_and!; [done| |apply NoDup_singleton]. set_solver.
Qed.

Lemma export_profiles_ok l seen x x' :
  exporting_ok seen x → export_profiles sha256 to_vec x l = Ok x' → exporting_ok (seen ++ l)%list x'.
Proof.
  revert seen x. induction l as [|p l IH]; intros seen x Hok; cbn.
  { intros [= <-]. by rewrite app_nil_r. }
  destruct (export_profile _ _ x p) as [x1|] eqn:Hp; [|done]. intros Hl.
  replace (seen ++ p :: l)%list with ((seen ++ [p]) ++ l)%list by (by rewrite <- app_assoc).
  eapply IH; [|exact Hl]. by eapply export_profile_ok.
Qed.

(** C37 (safety). An exported bundle is portable and complete: it passes the validation of an
    import, no string anywhere in it is a machine-private path, and it describes every profile,
    under a reference of its own, with every server unchanged except that each private value of
    a definition is replaced by a placeholder whose rebinding key the bundle lists. *)
Theorem exported_bundle_portable profiles bindings capabilities created_by b :
  export_mcp_governance_bundle sha256 to_vec profiles bindings capabilities created_by = Ok b →
  validate_mcp_governance_bundle sha256 to_vec b = Ok tt ∧
  contains_private_path (bundle_json b) = false ∧
  NoDup (map bp_profile_ref (gb_profiles b)) ∧
  Forall2 (profile_exported (gb_portability b)) (sort_by source_profile_order profiles) (gb_profiles b).
Proof.
  unfold export_mcp_governance_bundle. destruct (_ || _); [done|].
  destruct (export_profiles _ _ _ _) as [x|] eqn:Hx; [|done].
  set (bundle := with_hash _ _). destruct (validate_mcp_governance_bundle _ _ bundle) as [[]|] eqn:Hv; [|done].
  intros [= <-]. assert (exporting_ok (sort_by source_profile_order profiles) x) as [H1 H2 H3].
  { apply (export_profiles_ok (sort_by source_profile_order profiles) [] (mkExporting ∅ [] [] ∅ [])); [|done].
    split; cbn; constructor. }
  split_and!; [done| |by rewrite <- H2 in H3|].
  - unfold validate_mcp_governance_bundle in Hv. repeat (case_match; try done).
  - eapply Forall2_impl; [exact H1|]. intros p p' (Hn & Hd & Hver & Hs). split_and!; [done..|].
    eapply Forall2_impl; [exact Hs|]. intros s s'. apply server_exported_mono. cbn [bundle with_hash gb_portability].
    intros d Hd'. apply elem_of_sort_by. set_solver.
Qed.
End ExportFacts.

Module BundleDemo.
Definition local_definition : McpCanonicalDefinition :=
  mkDefinition Stdio (Some "/Users/me/bin/server") ["--root"; "/home/me"] None.
Definition profile : McpProfile :=
  DesiredDemo.profile "p1" "Dev tools" [with_definition (DesiredDemo.github true) local_definition].
Definition bundle : McpGovernanceBundle :=
  match export_mcp_governance_bundle PlanDemo.sha256 PlanDemo.to_string [profile] DesiredDemo.bindings None "alice" with
  | Ok b => b
  | Err _ => mkBundle 0 "" (mkProvenance "" "" ∅) [] [] [] [] ""
  end.
End BundleDemo.

Example bundle_demo :
  map (λ s, server_values s) (concat (map bp_servers (gb_profiles BundleDemo.bundle))) =
  [["{{rebind:machine-local:profile:dev-tools:65756c6176:github:command}}"; "--root";
    "{{rebind:machine-local:profile:dev-tools:65756c6176:github:args.1}}"]].
Proof. by vm_compute. Qed.

Lemma exported_bundle_portable_witness :
  contains_private_path (bundle_json BundleDemo.bundle) = false.
Proof.
  apply (exported_bundle_portable PlanDemo.sha256 PlanDemo.to_string [BundleDemo.profile] DesiredDemo.bindings
    None "alice" BundleDemo.bundle).
  by vm_compute.
Defined.
