(* ===== verification/McpApply.v ===== *)
(** * Apply runs: what crosses the adapter boundary

    [crates/cocli-driver-core/src/mcp_governance.rs], the types of an apply and of a rollback,
    and the JSON that serde derives for the results, which the store scans for secrets before
    it keeps them. *)
From S2P Require Import Prelude Text Mcp McpPreflight.

Inductive McpReloadStatus : Type :=
  | ReloadNotRequired | ReloadReloaded | ReloadDeferred | ReloadBlocked | ReloadFailed.

Record McpReloadResult := mkReload {
  rl_runtime : string;
  rl_status : McpReloadStatus;
  rl_reason : string;
}.

Record McpApplyExecutionRequest := mkExecutionRequest {
  xr_run_id : string;
  xr_plan : McpPlan;
  xr_actor : string;
  xr_confirm_high_risk : bool;
  xr_capability_hash : string;
  xr_resume_journal : list McpApplyJournalEntry;
}.

Record McpApplyExecutionResult := mkExecutionResult {
  xe_actions : list McpApplyActionResult;
  xe_reloads : list McpReloadResult;
  xe_verification : McpVerificationResult;
  xe_journal : list McpApplyJournalEntry;
}.

Record McpRollbackExecutionRequest := mkRollbackRequest {
  rr_run_id : string;
  rr_actor : string;
  rr_backups : list McpBackupDescriptor;
}.

Record McpRollbackExecutionResult := mkRollbackResult {
  rx_actions : list McpApplyActionResult;
  rx_verification : McpVerificationResult;
}.

#[export] Instance McpVerificationStatus_eq_dec : EqDecision McpVerificationStatus.
Proof. solve_decision. Defined.

(** ** Serialisation: [#[derive(Serialize)]] *)

Definition phase_json (p : McpApplyJournalPhase) : Json :=
  JString match p with
  | Preflight => "preflight" | Locked => "locked" | BackedUp => "backed_up" | Written => "written"
  | ReloadPending => "reload_pending" | Reloaded => "reloaded" | PhaseVerified => "verified"
  | PhaseFailed => "failed" | RollingBack => "rolling_back" | PhaseRolledBack => "rolled_back"
  | RecoveryRequired => "recovery_required"
  end.

Definition action_status_json (s : McpApplyActionStatus) : Json :=
  JString match s with
  | Applied => "applied" | Skipped => "skipped" | Blocked => "blocked" | Failed => "failed"
  | Verified => "verified" | RolledBack => "rolled_back"
  end.

Definition reload_status_json (s : McpReloadStatus) : Json :=
  JString match s with
  | ReloadNotRequired => "not_required" | ReloadReloaded => "reloaded"
  | ReloadDeferred => "deferred" | ReloadBlocked => "blocked" | ReloadFailed => "failed"
  end.

Definition verification_status_json (s : McpVerificationStatus) : Json :=
  JString match s with
  | Matched => "matched" | Mismatched => "mismatched" | VerificationBlocked => "blocked"
  | VerificationFailed => "failed"
  end.

Definition session_effective_json (s : McpSessionEffectiveStatus) : Json :=
  JString match s with
  | Effective => "effective" | NewSessionRequired => "new_session_required"
  | UnknownEffect => "unknown"
  end.

Definition backup_json (b : McpBackupDescriptor) : Json :=
  JObject [("id", JString (bk_id b)); ("runtime", JString (bk_runtime b));
    ("sourcePath", JString (bk_source_path b)); ("backupPath", JString (bk_backup_path b));
    ("sourceHash", JString (bk_source_hash b)); ("backupHash", JString (bk_backup_hash b));
    ("appliedHash", JString (bk_applied_hash b)); ("sourceExisted", JBool (bk_source_existed b))].

Definition journal_entry_json (e : McpApplyJournalEntry) : Json :=
  JObject ([("sequence", JInt (je_sequence e)); ("actionIndex", JInt (Z.of_nat (je_action_index e)));
      ("runtime", JString (je_runtime e)); ("serverId", JString (je_server_id e));
      ("idempotencyKey", JString (je_idempotency_key e)); ("phase", phase_json (je_phase e));
      ("attempt", JInt (je_attempt e))] ++
    field_some "expectedSourceHash" JString (je_expected_source_hash e) ++
    field_some "expectedSchemaHash" JString (je_expected_schema_hash e) ++
    field_some "backup" backup_json (je_backup e) ++
    [("reason", JString (je_reason e)); ("evidence", json_list evidence_json (je_evidence e))])%list.

Definition journal_json (l : list McpApplyJournalEntry) : Json := json_list journal_entry_json l.

Definition action_result_json (a : McpApplyActionResult) : Json :=
  JObject ([("actionIndex", JInt (Z.of_nat (ar_action_index a))); ("runtime", JString (ar_runtime a));
      ("serverId", JString (ar_server_id a)); ("status", action_status_json (ar_status a));
      ("reason", JString (ar_reason a))] ++
    field_some "backup" backup_json (ar_backup a) ++
    field_some "beforeSourceHash" JString (ar_before_source_hash a) ++
    field_some "afterSourceHash" JString (ar_after_source_hash a))%list.

Definition reload_json (r : McpReloadResult) : Json :=
  JObject [("runtime", JString (rl_runtime r)); ("status", reload_status_json (rl_status r));
    ("reason", JString (rl_reason r))].

(** A [BTreeMap] in key order. *)
Definition string_map_json (m : gmap string string) : Json :=
  JObject (map (λ kv, (kv.1, JString kv.2))
    (sort_by (on_cmp fst String.compare) (map_to_list m))).

Definition verification_json (v : McpVerificationResult) : Json :=
  JObject [("status", verification_status_json (vr_status v));
    ("observationHash", JString (vr_observation_hash v));
    ("mismatches", json_list JString (vr_mismatches v));
    ("writtenConfigHashes", string_map_json (vr_written_config_hashes v));
    ("sessionEffective", session_effective_json (vr_session_effective v))].

Definition execution_result_json (r : McpApplyExecutionResult) : Json :=
  JObject [("actions", json_list action_result_json (xe_actions r));
    ("reloads", json_list reload_json (xe_reloads r));
    ("verification", verification_json (xe_verification r)); ("journal", journal_json (xe_journal r))].

Definition rollback_result_json (r : McpRollbackExecutionResult) : Json :=
  JObject [("actions", json_list action_result_json (rx_actions r));
    ("verification", verification_json (rx_verification r))].

Definition preflight_action_json (p : McpPreflightAction) : Json :=
  JObject ([("actionIndex", JInt (Z.of_nat (pf_action_index p))); ("runtime", JString (pf_runtime p));
      ("serverId", JString (pf_server_id p)); ("operation", JString (operation_name (pf_operation p)));
      ("support", support_json (pf_support p)); ("executable", JBool (pf_executable p));
      ("reason", JString (pf_reason p)); ("adapter", JString (pf_adapter p));
      ("destination", JString (pf_destination p)); ("allowedSubtree", JString (pf_allowed_subtree p));
      ("reloadStrategy", reload_strategy_json (pf_reload_strategy p));
      ("idempotencyKey", JString (pf_idempotency_key p))] ++
    field_some "expectedSourceHash" JString (pf_expected_source_hash p) ++
    field_some "expectedSchemaHash" JString (pf_expected_schema_hash p))%list.

Definition preflight_report_json (r : McpPreflightReport) : Json :=
  JObject [("planId", JString (pr_plan_id r)); ("planHash", JString (pr_plan_hash r));
    ("capabilityHash", JString (pr_capability_hash r));
    ("observationHash", JString (pr_observation_hash r)); ("configHash", JString (pr_config_hash r));
    ("actions", json_list preflight_action_json (pr_actions r));
    ("staleReasons", json_list JString (pr_stale_reasons r)); ("executable", JBool (pr_executable r))].
