(* ===== verification/Protocol.v ===== *)
(** * Wire data exchanged between the server and the agent runtime daemon

    The message structures of [crates/cocli-protocol/src]: [types.rs] (shared payloads),
    [server_msg.rs] (what the router receives) and [daemon_msg.rs] (what the router and the
    agent actors emit), field for field. Only the messages the
    modelled components exchange are declared. A [Uuid] is its 128-bit value, an integer
    field a [Z], an [f64] the bit pattern of the value (it is only passed on), and a
    [HashMap] a finite map. *)
From S2P Require Import Prelude.

Abbreviation F64 := Z.

Record WorkingStatePayload := mk_WorkingStatePayload {
  wp_task_id : option Uuid;
  wp_task_number : Z;
  wp_channel_name : string;
  wp_summary : string;
  wp_next_step_hint : string;
  wp_started_at : string;
  wp_last_updated_at : string;
}.

Definition default_WorkingStatePayload : WorkingStatePayload :=
  {| wp_task_id := None; wp_task_number := 0; wp_channel_name := "";
     wp_summary := ""; wp_next_step_hint := ""; wp_started_at := "";
     wp_last_updated_at := "" |}.

Record AgentConfig := mk_AgentConfig {
  ac_runtime : string;
  ac_model : string;
  ac_working_runtime : string;
  ac_working_model : string;
  ac_chat_only : bool;
  ac_session_id : string;
  ac_server_url : string;
  ac_auth_token : string;
  ac_env_vars : option (gmap string string);
  ac_name : string;
  ac_display_name : string;
  ac_description : string;
  ac_onboarding : string;
}.

Definition default_AgentConfig : AgentConfig :=
  {| ac_runtime := ""; ac_model := ""; ac_working_runtime := "";
     ac_working_model := ""; ac_chat_only := false; ac_session_id := "";
     ac_server_url := ""; ac_auth_token := ""; ac_env_vars := None;
     ac_name := ""; ac_display_name := ""; ac_description := "";
     ac_onboarding := "" |}.

Inductive DeliveryMessage : Type := mk_DeliveryMessage {
  dm_channel_id : Uuid;
  dm_sender_name : string;
  dm_sender_type : string;
  dm_content : string;
  dm_channel_name : string;
  dm_channel_display_name : string;
  dm_channel_type : string;
  dm_parent_channel_name : string;
  dm_parent_channel_type : string;
  dm_seq : Z;
  dm_message_id : string;
  dm_timestamp : string;
  dm_created_at_unix_nano : Z;
  dm_task_status : string;
  dm_task_number : Z;
  dm_blocks : string;
  dm_source_message_id : string;
  dm_expected_reply_target : string;
  dm_requires_thread : bool;
  dm_reply_obligation_id : string;
  dm_reply_required : bool;
  dm_reply_owner_agent_id : string;
  dm_reply_deadline_at : string;
  dm_recent_context : list DeliveryMessage;
  dm_priority_class : string;
  dm_priority_reason : string;
  dm_relevance_class : string;
}.

Definition default_DeliveryMessage : DeliveryMessage :=
  {| dm_channel_id := 0%N; dm_sender_name := ""; dm_sender_type := "";
     dm_content := ""; dm_channel_name := ""; dm_channel_display_name := "";
     dm_channel_type := ""; dm_parent_channel_name := ""; dm_parent_channel_type := "";
     dm_seq := 0; dm_message_id := ""; dm_timestamp := "";
     dm_created_at_unix_nano := 0; dm_task_status := ""; dm_task_number := 0;
     dm_blocks := ""; dm_source_message_id := ""; dm_expected_reply_target := "";
     dm_requires_thread := false; dm_reply_obligation_id := ""; dm_reply_required := false;
     dm_reply_owner_agent_id := ""; dm_reply_deadline_at := ""; dm_recent_context := [];
     dm_priority_class := ""; dm_priority_reason := ""; dm_relevance_class := "" |}.

Record ChannelSession := mk_ChannelSession {
  cs_session_id : string;
  cs_channel_id : Uuid;
  cs_session_type : string;
  cs_scope : string;
}.

Record RecoverSession := mk_RecoverSession {
  rs_agent_id : string;
  rs_config : AgentConfig;
  rs_session_id : string;
  rs_launch_id : string;
  rs_turn_count : Z;
  rs_sessions : list ChannelSession;
}.

Record TrajectoryEntry := mk_TrajectoryEntry {
  te_kind : string;
  te_id : string;
  te_text : string;
  te_input : option Json;
  te_result : string;
  te_error : string;
  te_ts : Z;
}.

Record FileTreeEntry := mk_FileTreeEntry {
  fe_name : string;
  fe_is_dir : bool;
  fe_size : Z;
}.

Record AgentStartMsg := mk_AgentStartMsg {
  sm_agent_id : string;
  sm_config : AgentConfig;
  sm_wake_message : option DeliveryMessage;
  sm_unread_summary : option (gmap string Z);
  sm_resume_prompt : string;
  sm_launch_id : string;
  sm_turn_count : Z;
}.

Record AgentStopMsg := mk_AgentStopMsg {
  sp_agent_id : string;
  sp_force : bool;
}.

Record AgentDeliverMsg := mk_AgentDeliverMsg {
  ad_agent_id : string;
  ad_seq : Z;
  ad_attempt : Z;
  ad_priority_class : string;
  ad_priority_reason : string;
  ad_priority_source : string;
  ad_responder_role : string;
  ad_delivery_tier : string;
  ad_routing_reason : string;
  ad_message : DeliveryMessage;
  ad_context : list DeliveryMessage;
}.

Record AgentTurnCancelMsg := mk_AgentTurnCancelMsg {
  tc_agent_id : string;
}.

Record AgentRecoverSessionsMsg := mk_AgentRecoverSessionsMsg {
  rc_sessions : list RecoverSession;
}.

Record ServerShutdownMsg := mk_ServerShutdownMsg {
  ss_reason : string;
}.

Record AgentWorkspaceListMsg := mk_AgentWorkspaceListMsg {
  wl_agent_id : string;
  wl_dir_path : string;
  wl_request_id : string;
}.

Record AgentWorkspaceReadMsg := mk_AgentWorkspaceReadMsg {
  wr_agent_id : string;
  wr_path : string;
  wr_request_id : string;
}.

Record AgentResetWorkspaceMsg := mk_AgentResetWorkspaceMsg {
  rw_agent_id : string;
}.

Record AgentWorkingSetMsg := mk_AgentWorkingSetMsg {
  ws_agent_id : string;
  ws_request_id : string;
  ws_task_id : option Uuid;
  ws_task_number : Z;
  ws_channel_name : string;
  ws_summary : string;
  ws_next_step_hint : string;
}.

Record AgentWorkingGetMsg := mk_AgentWorkingGetMsg {
  wg_agent_id : string;
  wg_request_id : string;
}.

Record AgentWorkingClearMsg := mk_AgentWorkingClearMsg {
  wc_agent_id : string;
  wc_request_id : string;
}.

Record AgentStatusMsg := mk_AgentStatusMsg {
  st_agent_id : string;
  st_status : string;
  st_launch_id : string;
  st_error_detail : string;
}.

Record AgentDeliverAckMsg := mk_AgentDeliverAckMsg {
  da_agent_id : string;
  da_seq : Z;
  da_attempt : Z;
  da_channel_id : Uuid;
  da_route_action : string;
}.

Record AgentDeliverAcceptedMsg := mk_AgentDeliverAcceptedMsg {
  dc_agent_id : string;
  dc_seq : Z;
  dc_attempt : Z;
  dc_channel_id : Uuid;
  dc_route_action : string;
}.

Record AgentSessionMsg := mk_AgentSessionMsg {
  se_agent_id : string;
  se_session_id : string;
  se_channel_id : Uuid;
  se_is_new : bool;
  se_resumed_from : string;
  se_active_sessions : Z;
  se_queue_depth : Z;
  se_prompt_layer : string;
  se_prompt_tokens : Z;
  se_launch_id : string;
  se_launch_generation : Z;
  se_session_type : string;
  se_scope : string;
  se_parent_chat_session_id : string;
  se_execution_intent_id : string;
  se_execution_run_id : string;
}.

Record AgentActivityMsg := mk_AgentActivityMsg {
  aa_agent_id : string;
  aa_activity : string;
  aa_attention_state : string;
  aa_detail : string;
  aa_payload : option (gmap string Json);
  aa_trajectory : list string;
  aa_entries : list TrajectoryEntry;
  aa_launch_id : string;
  aa_launch_generation : Z;
  aa_focus_task_id : string;
  aa_focus_scope : string;
  aa_focus_since : Z;
  aa_priority_class : string;
  aa_preempted : bool;
  aa_last_input_tokens : Z;
  aa_total_output_tokens : Z;
  aa_context_window : Z;
  aa_total_cost_usd : F64;
  aa_turn_count : Z;
  aa_session_type : string;
  aa_scope : string;
  aa_channel_id : Uuid;
  aa_channel_name : string;
  aa_rate_limit_type : string;
  aa_rate_limit_status : string;
  aa_rate_limit_resets : Z;
  aa_overage_status : string;
  aa_overage_resets : Z;
  aa_is_using_overage : bool;
  aa_runtime_event : string;
  aa_runtime_stream : string;
  aa_runtime_gap_from : Z;
  aa_runtime_gap_oldest : Z;
  aa_runtime_gap_last : Z;
  aa_runtime_recover_strategy : string;
  aa_scheduler_event : string;
  aa_scheduler_decision : string;
  aa_scheduler_reason : string;
  aa_scheduler_queue_depth : Z;
  aa_scheduler_violation : bool;
}.

Record AgentTurnMsg := mk_AgentTurnMsg {
  at_agent_id : string;
  at_session_id : string;
  at_launch_id : string;
  at_launch_generation : Z;
  at_turn_number : Z;
  at_entries : list TrajectoryEntry;
  at_input_tokens : Z;
  at_output_tokens : Z;
  at_cost_usd : F64;
  at_context_window : Z;
  at_cache_creation_tokens : Z;
  at_cache_read_tokens : Z;
  at_session_type : string;
  at_channel_id : Uuid;
  at_channel_name : string;
  at_context_usage_pct : F64;
  at_notif_to_check_ms : Z;
  at_check_cadence_s : F64;
  at_nudges_sent : Z;
  at_nudges_effective : Z;
}.

Record AgentWorkspaceFileTreeMsg := mk_AgentWorkspaceFileTreeMsg {
  ft_agent_id : string;
  ft_request_id : string;
  ft_dir_path : string;
  ft_files : list FileTreeEntry;
}.

Record AgentWorkspaceFileContentMsg := mk_AgentWorkspaceFileContentMsg {
  fc_agent_id : string;
  fc_request_id : string;
  fc_content : string;
  fc_binary : bool;
}.

Record AgentWorkingResultMsg := mk_AgentWorkingResultMsg {
  wk_agent_id : string;
  wk_request_id : string;
  wk_op : string;
  wk_state : option WorkingStatePayload;
  wk_error : string;
  wk_error_code : string;
}.

Inductive ServerMsg : Type :=
  | AgentStart (m : AgentStartMsg)
  | AgentStop (m : AgentStopMsg)
  | AgentDeliver (m : AgentDeliverMsg)
  | AgentTurnCancel (m : AgentTurnCancelMsg)
  | AgentRecoverSessions (m : AgentRecoverSessionsMsg)
  | Ping
  | ServerShutdown (m : ServerShutdownMsg)
  | AgentWorkspaceList (m : AgentWorkspaceListMsg)
  | AgentWorkspaceRead (m : AgentWorkspaceReadMsg)
  | AgentResetWorkspace (m : AgentResetWorkspaceMsg)
  | AgentWorkingSet (m : AgentWorkingSetMsg)
  | AgentWorkingGet (m : AgentWorkingGetMsg)
  | AgentWorkingClear (m : AgentWorkingClearMsg)
  | UnknownServerMsg.

(** The daemon messages the modelled components emit. *)
Inductive DaemonMsg : Type :=
  | AgentStatus (m : AgentStatusMsg)
  | AgentActivity (m : AgentActivityMsg)
  | AgentTurn (m : AgentTurnMsg)
  | AgentSession (m : AgentSessionMsg)
  | AgentDeliverAck (m : AgentDeliverAckMsg)
  | AgentDeliverAccepted (m : AgentDeliverAcceptedMsg)
  | AgentWorkspaceFileTree (m : AgentWorkspaceFileTreeMsg)
  | AgentWorkspaceFileContent (m : AgentWorkspaceFileContentMsg)
  | AgentWorkingResult (m : AgentWorkingResultMsg).
