(* ===== verification/Queue.v ===== *)
(** * The router's in-memory delivery buffer

    [crates/cocli-agent/src/queue.rs]: a bounded first-in first-out queue per agent, in
    which a retried delivery (same positive [seq], same channel) replaces the pending copy.
    The file gives the implementation over a finite map, the interface the router is
    proved against ([DeliveryBuffer] with its laws), and the proof that the implementation
    satisfies it. *)
From S2P Require Import Prelude Protocol.

(** Matches the per-agent actor mailbox capacity of the router. *)
Definition MAX_PENDING_PER_AGENT : nat := 64.

Inductive EnqueueResult : Type := Queued | Updated | RejectedFull.

#[export] Instance EnqueueResult_eq_dec : EqDecision EnqueueResult.
Proof. solve_decision. Defined.

(** The key under which a delivery is recognised as a retry. *)
Definition delivery_key (m : AgentDeliverMsg) : Z * Uuid :=
  (ad_seq m, dm_channel_id (ad_message m)).

Definition same_delivery (msg pending : AgentDeliverMsg) : bool :=
  (ad_seq pending =? ad_seq msg) &&
  (dm_channel_id (ad_message pending) =? dm_channel_id (ad_message msg))%N.

(** The step of [enqueue] on one agent's queue. *)
Definition enqueue_one (queue : list AgentDeliverMsg) (msg : AgentDeliverMsg)
    : EnqueueResult * list AgentDeliverMsg :=
  match (if 0 <? ad_seq msg
         then update_first (same_delivery msg) (λ _, msg) queue else None) with
  | Some queue' => (Updated, queue')
  | None =>
      if (MAX_PENDING_PER_AGENT <=? length queue)%nat then (RejectedFull, queue)
      else (Queued, (queue ++ [msg])%list)
  end.

Module DeliveryQueue.

Record t := mk { per_agent : gmap string (list AgentDeliverMsg) }.

Definition new : t := {| per_agent := ∅ |}.

(** [self.per_agent.entry(agent_id).or_default()]. *)
Definition entry (q : t) (agent_id : string) : list AgentDeliverMsg :=
  default [] (per_agent q !! agent_id).

Definition enqueue (q : t) (agent_id : string) (msg : AgentDeliverMsg)
    : EnqueueResult * t :=
  let '(r, queue) := enqueue_one (entry q agent_id) msg in
  (r, {| per_agent := <[agent_id := queue]> (per_agent q) |}).

Definition drain (q : t) (agent_id : string) : list AgentDeliverMsg * t :=
  (entry q agent_id, {| per_agent := delete agent_id (per_agent q) |}).

(** [push_front] of the messages in reverse order, then [truncate]. *)
Definition prepend (q : t) (agent_id : string) (messages : list AgentDeliverMsg) : t :=
  match messages with
  | [] => q
  | _ =>
      let queue :=
        take MAX_PENDING_PER_AGENT
          (fold_left (λ acc m, m :: acc) (rev messages) (entry q agent_id)) in
      {| per_agent := <[agent_id := queue]> (per_agent q) |}
  end.

Definition forget (q : t) (agent_id : string) : t :=
  {| per_agent := delete agent_id (per_agent q) |}.

Definition total_len (q : t) : nat :=
  map_fold (λ _ l n, (length l + n)%nat) 0%nat (per_agent q).

End DeliveryQueue.

(** ** The buffer interface *)

Class DeliveryBuffer (Q : Type) := {
  buf_new : Q;
  buf_enqueue : Q → string → AgentDeliverMsg → EnqueueResult * Q;
  buf_drain : Q → string → list AgentDeliverMsg * Q;
  buf_prepend : Q → string → list AgentDeliverMsg → Q;
  buf_forget : Q → string → Q;
  buf_total_len : Q → nat;
  (** The pending deliveries of an agent, oldest first. *)
  pending : Q → string → list AgentDeliverMsg;
}.

(** What the buffer promises: each operation acts on the queue of its agent as on a list,
    and leaves every other agent's queue alone. *)
Class DeliveryBufferLaws (Q : Type) `{!DeliveryBuffer Q} : Prop := {
  law_new id : pending buf_new id = [];
  law_enqueue q id m :
    (buf_enqueue q id m).1 = (enqueue_one (pending q id) m).1 ∧
    pending (buf_enqueue q id m).2 id = (enqueue_one (pending q id) m).2;
  law_enqueue_ne q id id' m :
    id ≠ id' → pending (buf_enqueue q id m).2 id' = pending q id';
  law_drain q id :
    (buf_drain q id).1 = pending q id ∧ pending (buf_drain q id).2 id = [];
  law_drain_ne q id id' : id ≠ id' → pending (buf_drain q id).2 id' = pending q id';
  law_prepend q id ms :
    (length ms + length (pending q id) ≤ MAX_PENDING_PER_AGENT)%nat →
    pending (buf_prepend q id ms) id = (ms ++ pending q id)%list;
  law_prepend_ne q id id' ms :
    id ≠ id' → pending (buf_prepend q id ms) id' = pending q id';
  law_forget q id : pending (buf_forget q id) id = [];
  law_forget_ne q id id' : id ≠ id' → pending (buf_forget q id) id' = pending q id';
  law_total_len q : buf_total_len q = 0%nat ↔ ∀ id, pending q id = [];
  law_total_drain q id :
    buf_total_len q = (buf_total_len (buf_drain q id).2 + length (pending q id))%nat;
}.

#[export] Instance DeliveryQueue_buffer : DeliveryBuffer DeliveryQueue.t := {|
  buf_new := DeliveryQueue.new;
  buf_enqueue := DeliveryQueue.enqueue;
  buf_drain := DeliveryQueue.drain;
  buf_prepend := DeliveryQueue.prepend;
  buf_forget := DeliveryQueue.forget;
  buf_total_len := DeliveryQueue.total_len;
  pending := DeliveryQueue.entry;
|}.

(** ** Facts about one queue *)

(** Deliveries with a positive sequence number are pending at most once per key. *)
Definition retry_unique (l : list AgentDeliverMsg) : Prop :=
  NoDup (map delivery_key (bfilter (λ m, 0 <? ad_seq m) l)).

Definition queue_ok (l : list AgentDeliverMsg) : Prop :=
  (length l ≤ MAX_PENDING_PER_AGENT)%nat ∧ retry_unique l.

Lemma queue_ok_nil : queue_ok [].
Proof. split; [apply Nat.le_0_l | constructor]. Qed.

Lemma same_delivery_key m m' : same_delivery m m' = true ↔ delivery_key m' = delivery_key m.
Proof.
  unfold same_delivery, delivery_key. rewrite andb_true_iff, Z.eqb_eq, N.eqb_eq.
  split; [intros [-> ->]; done | by intros [= -> ->]].
Qed.

(** The three outcomes of [enqueue], with the shape of the queue they leave. *)
Lemma enqueue_one_cases l m :
  (∃ l1 x l2, enqueue_one l m = (Updated, l1 ++ m :: l2)%list ∧ l = (l1 ++ x :: l2)%list ∧
     delivery_key x = delivery_key m ∧ 0 < ad_seq m) ∨
  ((0 < ad_seq m → ∀ x, x ∈ l → delivery_key x ≠ delivery_key m) ∧
   (((length l < MAX_PENDING_PER_AGENT)%nat ∧ enqueue_one l m = (Queued, l ++ [m])%list) ∨
    ((MAX_PENDING_PER_AGENT ≤ length l)%nat ∧ enqueue_one l m = (RejectedFull, l)))).
Proof.
  unfold enqueue_one. destruct (Z.ltb_spec 0 (ad_seq m)) as [Hpos|Hneg].
  - destruct (update_first _ _ l) as [l'|] eqn:E.
    + apply update_first_Some in E as (l1 & x & l2 & -> & -> & Hx%same_delivery_key & _).
      left. by exists l1, x, l2.
    + right. split.
      * intros _ x Hx Hk. rewrite update_first_None in E.
        specialize (E x Hx). apply same_delivery_key in Hk. congruence.
      * destruct (Nat.leb_spec MAX_PENDING_PER_AGENT (length l)); [by right | by left].
  - right. split; [lia|].
    destruct (Nat.leb_spec MAX_PENDING_PER_AGENT (length l)); [by right | by left].
Qed.

Lemma retry_unique_app_replace l1 x m l2 :
  delivery_key x = delivery_key m → retry_unique (l1 ++ x :: l2) → retry_unique (l1 ++ m :: l2).
Proof.
  unfold retry_unique. rewrite !bfilter_app, !map_app; simpl. intros Hk.
  assert (ad_seq x = ad_seq m) as -> by (unfold delivery_key in Hk; congruence).
  destruct (0 <? ad_seq m); simpl; by rewrite ?Hk.
Qed.

Lemma retry_unique_snoc l m :
  (0 < ad_seq m → ∀ x, x ∈ l → delivery_key x ≠ delivery_key m) →
  retry_unique l → retry_unique (l ++ [m]).
Proof.
  unfold retry_unique. intros Hnew Hl. rewrite bfilter_app, map_app; simpl.
  destruct (Z.ltb_spec 0 (ad_seq m)) as [Hpos|]; simpl; [|by rewrite app_nil_r].
  apply NoDup_app. split; [done|]. split; [|apply NoDup_singleton].
  intros k Hk Hm. apply list_elem_of_singleton in Hm as ->.
  apply list_elem_of_fmap in Hk as (x & Hx & [Hin _]%elem_of_bfilter).
  by apply (Hnew Hpos x Hin).
Qed.

Lemma enqueue_one_ok l m : queue_ok l → queue_ok (enqueue_one l m).2.
Proof.
  intros [Hlen Hu].
  destruct (enqueue_one_cases l m)
    as [(l1 & x & l2 & -> & -> & Hk & _)|(Hnew & [[Hlt ->]|[_ ->]])]; simpl.
  - split; [|by eapply retry_unique_app_replace].
    rewrite !length_app in *; simpl in *. lia.
  - split; [|by apply retry_unique_snoc]. rewrite length_app; simpl. lia.
  - done.
Qed.

Lemma fold_cons_rev {A} (l acc : list A) : fold_left (λ a x, x :: a) (rev l) acc = (l ++ acc)%list.
Proof.
  revert acc. induction l as [|x l IH]; intros acc; simpl; [done|].
  by rewrite fold_left_app, IH.
Qed.

(** ** The implementation satisfies the interface *)

Module DeliveryQueueFacts.
Import DeliveryQueue.

Lemma total_len_zero (q : t) : total_len q = 0%nat ↔ ∀ id, entry q id = [].
Proof.
  unfold total_len, entry. destruct q as [m]; simpl.
  induction m as [|i l m Hi Hfirst IH] using map_first_key_ind.
  { rewrite map_fold_empty. split; [|done]. intros _ id. by rewrite lookup_empty. }
  rewrite map_fold_insert_first_key by done. split.
  - intros H id. rewrite lookup_insert. case_decide; simpl.
    + apply length_zero_iff_nil. lia.
    + apply IH. lia.
  - intros H. pose proof (H i) as Hl. rewrite lookup_insert_eq in Hl; simpl in Hl.
    subst l; simpl. apply IH. intros id. specialize (H id). rewrite lookup_insert in H.
    case_decide; [by subst; rewrite Hi | done].
Qed.

Lemma total_len_drain (q : t) (id : string) :
  total_len q = (total_len (drain q id).2 + length (entry q id))%nat.
Proof.
  unfold total_len, entry, drain. destruct q as [m]; simpl.
  destruct (m !! id) as [l|] eqn:E; simpl.
  - rewrite (map_fold_delete_L (λ _ l n, (length l + n)%nat) 0%nat id l m); [lia|intros; lia|done].
  - rewrite delete_id by done. lia.
Qed.

(** Lookups in one agent's queue after an update of a possibly different agent. *)
Lemma entry_insert m id id' l :
  entry (mk (<[id := l]> m)) id' = if decide (id = id') then l else entry (mk m) id'.
Proof. unfold entry; simpl. rewrite lookup_insert. by case_decide. Qed.

Lemma entry_delete m id id' :
  entry (mk (delete id m)) id' = if decide (id = id') then [] else entry (mk m) id'.
Proof. unfold entry; simpl. rewrite lookup_delete. by case_decide. Qed.

(** [prepend] restores an interrupted flush: the messages come back in front, in order,
    and the queue is cut at its capacity. *)
Lemma prepend_entry q id ms id' :
  entry (prepend q id ms) id' =
  if decide (id = id' ∧ ms ≠ [])
  then take MAX_PENDING_PER_AGENT (ms ++ entry q id') else entry q id'.
Proof.
  destruct q as [m]. destruct ms as [|x ms]; unfold prepend; [by case_decide; naive_solver|].
  rewrite fold_cons_rev, entry_insert.
  repeat case_decide; naive_solver.
Qed.
End DeliveryQueueFacts.

#[export] Instance DeliveryQueue_laws : DeliveryBufferLaws DeliveryQueue.t.
Proof.
  split; simpl; intros.
  - done.
  - unfold DeliveryQueue.enqueue. destruct (enqueue_one _ m) as [r l]; simpl.
    by rewrite DeliveryQueueFacts.entry_insert, decide_True.
  - unfold DeliveryQueue.enqueue. destruct (enqueue_one _ m) as [r l]; simpl.
    by rewrite DeliveryQueueFacts.entry_insert, decide_False.
  - by rewrite DeliveryQueueFacts.entry_delete, decide_True.
  - by rewrite DeliveryQueueFacts.entry_delete, decide_False.
  - rewrite DeliveryQueueFacts.prepend_entry. case_decide as Hd.
    + apply take_ge. rewrite length_app. lia.
    + destruct ms; naive_solver.
  - rewrite DeliveryQueueFacts.prepend_entry, decide_False; naive_solver.
  - unfold DeliveryQueue.forget. by rewrite DeliveryQueueFacts.entry_delete, decide_True.
  - unfold DeliveryQueue.forget. by rewrite DeliveryQueueFacts.entry_delete, decide_False.
  - apply DeliveryQueueFacts.total_len_zero.
  - apply DeliveryQueueFacts.total_len_drain.
Qed.

(** ** Properties of the buffer *)

Section Properties.
Import DeliveryQueue DeliveryQueueFacts.

(** The uses the router makes of the buffer: buffer a delivery, flush an agent's queue of
    which only the first [sent] messages are accepted by the mailbox, forget an agent. *)
Inductive buffer_op : Type :=
  | OpEnqueue (id : string) (m : AgentDeliverMsg)
  | OpFlush (id : string) (sent : nat)
  | OpForget (id : string).

Definition run_op (q : t) (op : buffer_op) : t :=
  match op with
  | OpEnqueue id m => (enqueue q id m).2
  | OpFlush id sent => let '(ms, q') := drain q id in prepend q' id (drop sent ms)
  | OpForget id => forget q id
  end.

Lemma retry_unique_drop n l : retry_unique l → retry_unique (drop n l).
Proof.
  unfold retry_unique. intros H. rewrite <- (take_drop n l), bfilter_app, map_app in H.
  by apply NoDup_app in H as (_ & _ & H).
Qed.

Lemma queue_ok_drop n l : queue_ok l → queue_ok (drop n l).
Proof.
  intros [Hl Hu]. split; [rewrite length_drop; lia | by apply retry_unique_drop].
Qed.

Lemma run_op_ok q op :
  (∀ id, queue_ok (entry q id)) → ∀ id, queue_ok (entry (run_op q op) id).
Proof.
  intros Hq id. destruct op as [id' m|id' n|id']; simpl.
  - unfold enqueue. pose proof (enqueue_one_ok _ m (Hq id')) as Hok.
    destruct (enqueue_one _ m) as [r l]; simpl in *.
    rewrite entry_insert. case_decide; [done | apply Hq].
  - rewrite prepend_entry, entry_delete. repeat case_decide; simpl; try naive_solver.
    + rewrite app_nil_r, take_ge.
      * apply queue_ok_drop, Hq.
      * destruct (queue_ok_drop n _ (Hq id')). lia.
    + apply queue_ok_nil.
  - unfold forget. rewrite entry_delete. case_decide; [|apply Hq].
    apply queue_ok_nil.
Qed.

(** Whatever sequence of buffering, interrupted flushing and forgetting
    the router performs on a new buffer, every agent's queue stays within the capacity of
    64 and holds at most one copy of each delivery with a positive sequence number. *)
Theorem buffer_reachable_ok (ops : list buffer_op) (id : string) :
  queue_ok (entry (fold_left run_op ops new) id).
Proof.
  revert id. assert (∀ id, queue_ok (entry new id)) as Hq.
  { intros id. apply queue_ok_nil. }
  revert Hq. generalize new as q.
  induction ops as [|op ops IH]; intros q Hq; simpl; [done|].
  apply IH. by apply run_op_ok.
Qed.

(** Every branch of [enqueue]: a delivery is appended when there is
    room and no pending copy, replaces the pending copy of the same sequence number and
    channel in place (keeping its position), or is rejected with the queue unchanged
    when it is full; the queues of the other agents never change. *)
Theorem enqueue_spec (q : t) (id : string) (m : AgentDeliverMsg) :
  let '(r, q') := enqueue q id m in
  match r with
  | Updated => ∃ l1 x l2, entry q id = (l1 ++ x :: l2)%list ∧
      entry q' id = (l1 ++ m :: l2)%list ∧ delivery_key x = delivery_key m ∧ 0 < ad_seq m
  | Queued => entry q' id = (entry q id ++ [m])%list ∧
      (length (entry q id) < MAX_PENDING_PER_AGENT)%nat ∧
      (0 < ad_seq m → ∀ x, x ∈ entry q id → delivery_key x ≠ delivery_key m)
  | RejectedFull => entry q' id = entry q id ∧
      (MAX_PENDING_PER_AGENT ≤ length (entry q id))%nat ∧
      (0 < ad_seq m → ∀ x, x ∈ entry q id → delivery_key x ≠ delivery_key m)
  end ∧ ∀ id', id' ≠ id → entry q' id' = entry q id'.
Proof.
  unfold enqueue.
  destruct (enqueue_one_cases (entry q id) m)
    as [(l1 & x & l2 & E & Hl & Hk & Hp)|(Hnew & [[Hlt E]|[Hge E]])];
    rewrite E; (split; [|intros id' Hne; rewrite entry_insert; by rewrite decide_False]);
    rewrite entry_insert, decide_True by done; [by exists l1, x, l2 | auto | auto].
Qed.

Definition enqueue_all (q : t) (id : string) (ms : list AgentDeliverMsg) : t :=
  fold_left (λ q m, (enqueue q id m).2) ms q.

(** Buffered deliveries come out in arrival order: deliveries with
    pairwise distinct keys that are not yet pending and fit into the queue are drained
    after what was already pending, in the order in which they were buffered. *)
Theorem enqueue_all_drain_fifo (q : t) (id : string) (ms : list AgentDeliverMsg) :
  NoDup (map delivery_key (entry q id ++ ms)) →
  (length (entry q id) + length ms ≤ MAX_PENDING_PER_AGENT)%nat →
  (drain (enqueue_all q id ms) id).1 = (entry q id ++ ms)%list.
Proof.
  unfold enqueue_all, drain; simpl. revert q. induction ms as [|m ms IH]; intros q Hd Hl.
  { simpl. by rewrite app_nil_r. }
  simpl in *. assert (enqueue_one (entry q id) m = (Queued, entry q id ++ [m])%list) as E.
  { destruct (enqueue_one_cases (entry q id) m)
      as [(l1 & x & l2 & _ & Hl' & Hk & _)|(_ & [[_ ->]|[? _]])]; [|done|lia].
    rewrite map_app in Hd. apply NoDup_app in Hd as (_ & Hd & _). exfalso.
    apply (Hd (delivery_key m)); [|by left].
    apply list_elem_of_fmap. exists x. rewrite Hl', elem_of_app, elem_of_cons. auto. }
  assert (entry (enqueue q id m).2 id = (entry q id ++ [m])%list) as E'.
  { unfold enqueue. rewrite E; simpl. by rewrite entry_insert, decide_True. }
  rewrite IH; rewrite E'; rewrite <- ?app_assoc; [done | done |].
  rewrite length_app; simpl; lia.
Qed.
End Properties.

Definition sample_delivery (seq : Z) : AgentDeliverMsg :=
  {| ad_agent_id := "a1"; ad_seq := seq; ad_attempt := 1; ad_priority_class := "";
     ad_priority_reason := ""; ad_priority_source := ""; ad_responder_role := "";
     ad_delivery_tier := ""; ad_routing_reason := ""; ad_message := default_DeliveryMessage;
     ad_context := [] |}.

(** Three buffered deliveries come back as 1, 2, 3. *)
Lemma enqueue_all_drain_fifo_witness :
  (DeliveryQueue.drain (enqueue_all DeliveryQueue.new "a1" (map sample_delivery [1; 2; 3])) "a1").1
  = map sample_delivery [1; 2; 3].
Proof.
  apply (enqueue_all_drain_fifo DeliveryQueue.new "a1" (map sample_delivery [1; 2; 3])).
  - compute_decide.
  - vm_compute. lia.
Defined.
