(* ===== verification/Watchdog.v ===== *)
(** * The restart watchdog

    [crates/cocli-agent/src/watchdog.rs]: per-agent restart bookkeeping. An agent enters the
    store once the automatic recovery has spent its [AUTO_RETRY_MAX] attempts; the watchdog
    then plans at most [WATCHDOG_MAX_RETRIES] restarts, one outstanding at a time, and
    afterwards only reports that manual intervention is required. *)
From S2P Require Import Prelude.

Definition AUTO_RETRY_MAX : Z := 3.
Definition WATCHDOG_MAX_RETRIES : Z := 5.
Definition WATCHDOG_TOTAL_MAX_RETRIES : Z := AUTO_RETRY_MAX + WATCHDOG_MAX_RETRIES.

Record WatchdogEvent := mk_WatchdogEvent {
  we_agent_id : string;
  we_agent_name : string;
  we_action : string;
  we_detail : string;
  we_attempt : Z;
  we_max_retries : Z;
}.

#[export] Instance WatchdogEvent_eq_dec : EqDecision WatchdogEvent.
Proof. solve_decision. Defined.

Module WatchdogStore.

Record WatchdogEntry := mk_entry {
  agent_name : string;
  retry_count : Z;
  pending : option WatchdogEvent;
}.

(** The store is the map [entries]. *)
Abbreviation t := (gmap string WatchdogEntry).

Definition new : t := ∅.

Definition register_down (s : t) (agent_id name : string) : t :=
  if trim_is_empty agent_id then s
  else
    let entry :=
      default {| agent_name := name; retry_count := AUTO_RETRY_MAX; pending := None |}
              (s !! agent_id) in
    <[agent_id := {| agent_name := name; retry_count := retry_count entry;
                     pending := pending entry |}]> s.

Definition clear (s : t) (agent_id : string) : t := delete agent_id s.

Definition tracked_agent_ids (s : t) : list string := map fst (map_to_list s).

Definition plan_restart (s : t) (agent_id name : string) : option WatchdogEvent * t :=
  match s !! agent_id with
  | None => (None, s)
  | Some entry =>
      match pending entry with
      | Some ev => (Some ev, s)
      | None =>
          let entry_name := if str_is_empty name then agent_name entry else name in
          if WATCHDOG_TOTAL_MAX_RETRIES <=? retry_count entry then
            (Some {| we_agent_id := agent_id; we_agent_name := entry_name;
                     we_action := "max_retries_exceeded";
                     we_detail :=
                       "agent exhausted all recovery attempts - manual intervention required";
                     we_attempt := WATCHDOG_TOTAL_MAX_RETRIES;
                     we_max_retries := WATCHDOG_TOTAL_MAX_RETRIES |},
             <[agent_id := {| agent_name := entry_name; retry_count := retry_count entry;
                              pending := None |}]> s)
          else
            let count := i32_saturating_add (retry_count entry) 1 in
            let event :=
              {| we_agent_id := agent_id; we_agent_name := entry_name;
                 we_action := "auto_restart";
                 we_detail := "watchdog is attempting to restart the agent";
                 we_attempt := count; we_max_retries := WATCHDOG_TOTAL_MAX_RETRIES |} in
            (Some event,
             <[agent_id := {| agent_name := entry_name; retry_count := count;
                              pending := Some event |}]> s)
      end
  end.

(** [WatchdogEvent { action, detail, ..pending }]. *)
Definition with_outcome (ev : WatchdogEvent) (action detail : string) : WatchdogEvent :=
  {| we_agent_id := we_agent_id ev; we_agent_name := we_agent_name ev; we_action := action;
     we_detail := detail; we_attempt := we_attempt ev; we_max_retries := we_max_retries ev |}.

(** The entry is removed even when no restart was pending. *)
Definition mark_recovered (s : t) (agent_id : string) : option WatchdogEvent * t :=
  match s !! agent_id with
  | None => (None, s)
  | Some entry =>
      ((λ ev, with_outcome ev "recovered" "agent successfully restarted by watchdog") <$>
         pending entry,
       delete agent_id s)
  end.

Definition mark_restart_failed (s : t) (agent_id detail : string)
    : option WatchdogEvent * t :=
  match s !! agent_id with
  | None => (None, s)
  | Some entry =>
      match pending entry with
      | None => (None, s)
      | Some ev =>
          (Some (with_outcome ev "restart_failed" detail),
           <[agent_id := {| agent_name := agent_name entry; retry_count := retry_count entry;
                            pending := None |}]> s)
      end
  end.

(** ** Operations as steps *)

Inductive op : Type :=
  | RegisterDown (agent_id name : string)
  | Clear (agent_id : string)
  | PlanRestart (agent_id name : string)
  | MarkRecovered (agent_id : string)
  | MarkRestartFailed (agent_id detail : string).

Definition apply_op (s : t) (o : op) : option WatchdogEvent * t :=
  match o with
  | RegisterDown a n => (None, register_down s a n)
  | Clear a => (None, clear s a)
  | PlanRestart a n => plan_restart s a n
  | MarkRecovered a => mark_recovered s a
  | MarkRestartFailed a d => mark_restart_failed s a d
  end.

(** The store and the events emitted so far. *)
Inductive reachable : t → list WatchdogEvent → Prop :=
  | reach_new : reachable new []
  | reach_step s evs o :
      reachable s evs →
      reachable (apply_op s o).2
        (evs ++ match (apply_op s o).1 with Some e => [e] | None => [] end)%list.

End WatchdogStore.

Module WatchdogFacts.
Import WatchdogStore.

(** A tracked agent has spent between the automatic and the total retry budget, and an
    outstanding restart carries the current attempt number. *)
Definition entry_ok (id : string) (e : WatchdogEntry) : Prop :=
  AUTO_RETRY_MAX ≤ retry_count e ≤ WATCHDOG_TOTAL_MAX_RETRIES ∧
  match pending e with
  | None => True
  | Some ev => we_agent_id ev = id ∧ we_action ev = "auto_restart" ∧
      we_attempt ev = retry_count e ∧ we_max_retries ev = WATCHDOG_TOTAL_MAX_RETRIES ∧
      AUTO_RETRY_MAX < retry_count e
  end.

Definition store_ok (s : t) : Prop := map_Forall entry_ok s.

Lemma retry_count_succ e :
  AUTO_RETRY_MAX ≤ retry_count e → retry_count e < WATCHDOG_TOTAL_MAX_RETRIES →
  i32_saturating_add (retry_count e) 1 = retry_count e + 1.
Proof.
  unfold WATCHDOG_TOTAL_MAX_RETRIES, WATCHDOG_MAX_RETRIES, AUTO_RETRY_MAX. ilia.
Qed.

Lemma entry_ok_register s id name :
  store_ok s → store_ok (register_down s id name).
Proof.
  intros Hs. unfold register_down. destruct (trim_is_empty id); [done|].
  apply map_Forall_insert_2; [|done].
  destruct (s !! id) as [e|] eqn:E; simpl; [exact (Hs id e E)|].
  split; [|done]. unfold WATCHDOG_TOTAL_MAX_RETRIES, WATCHDOG_MAX_RETRIES; simpl. lia.
Qed.

Lemma entry_ok_plan s id name : store_ok s → store_ok (plan_restart s id name).2.
Proof.
  intros Hs. unfold plan_restart. destruct (s !! id) as [e|] eqn:E; [|done].
  pose proof (Hs id e E) as [Hc _].
  destruct (pending e); [done|].
  destruct (Z.leb_spec WATCHDOG_TOTAL_MAX_RETRIES (retry_count e)); simpl;
    apply map_Forall_insert_2; try done.
  rewrite retry_count_succ by lia. split; simpl; [lia|].
  repeat split; lia.
Qed.

Lemma store_ok_apply s o : store_ok s → store_ok (apply_op s o).2.
Proof.
  intros Hs. destruct o as [a n|a|a n|a|a d]; simpl.
  - by apply entry_ok_register.
  - by apply map_Forall_delete.
  - by apply entry_ok_plan.
  - unfold mark_recovered. destruct (s !! a); [|done]. by apply map_Forall_delete.
  - unfold mark_restart_failed. destruct (s !! a) as [e|] eqn:E; [|done].
    pose proof (Hs a e E) as [Hc _]. destruct (pending e); [|done].
    by apply map_Forall_insert_2.
Qed.

Lemma reachable_ok s evs : reachable s evs → store_ok s.
Proof. induction 1; [apply map_Forall_empty | by apply store_ok_apply]. Qed.

(** Every event the watchdog ever emits carries an attempt number between 4
    and 8 out of 8: it never restarts an agent before the automatic retries are spent and
    never more than five times without a recovery or a clear. *)
Theorem watchdog_attempts_bounded (s : t) (evs : list WatchdogEvent) (e : WatchdogEvent) :
  reachable s evs → e ∈ evs →
  AUTO_RETRY_MAX < we_attempt e ≤ WATCHDOG_TOTAL_MAX_RETRIES ∧
  we_max_retries e = WATCHDOG_TOTAL_MAX_RETRIES.
Proof.
  induction 1 as [|s evs o Hr IH]; [set_solver|].
  intros [Hin|Hin]%elem_of_app; [by apply IH|].
  pose proof (reachable_ok _ _ Hr) as Hs.
  destruct o as [a n|a|a n|a|a d]; simpl in Hin; try set_solver;
    unfold plan_restart, mark_recovered, mark_restart_failed in Hin;
    destruct (s !! a) as [en|] eqn:E; simpl in Hin; try set_solver;
    pose proof (Hs a en E) as [Hc Hp];
    destruct (pending en) as [ev|] eqn:Ep; simpl in Hin;
    try (destruct (Z.leb_spec WATCHDOG_TOTAL_MAX_RETRIES (retry_count en));
         simpl in Hin);
    try (apply list_elem_of_singleton in Hin as ->); try set_solver; simpl;
    rewrite ?retry_count_succ by lia; destruct_and?;
    unfold WATCHDOG_TOTAL_MAX_RETRIES, WATCHDOG_MAX_RETRIES, AUTO_RETRY_MAX in *; lia.
Qed.

(** ** The restart budget *)

(** One failed restart: the watchdog plans, the caller reports the failure. *)
Definition failed_restart (s : t) (id name detail : string) : t :=
  (mark_restart_failed (plan_restart s id name).2 id detail).2.

Fixpoint failed_restarts (n : nat) (s : t) (id name detail : string) : t :=
  match n with
  | O => s
  | S n' => failed_restarts n' (failed_restart s id name detail) id name detail
  end.

Lemma failed_restart_entry s id name detail e :
  s !! id = Some e → pending e = None → AUTO_RETRY_MAX ≤ retry_count e →
  retry_count e < WATCHDOG_TOTAL_MAX_RETRIES →
  failed_restart s id name detail !! id =
    Some {| agent_name := if str_is_empty name then agent_name e else name;
            retry_count := retry_count e + 1; pending := None |}.
Proof.
  intros E Hp Hlo Hhi. unfold failed_restart, plan_restart, mark_restart_failed.
  rewrite E, Hp.
  destruct (Z.leb_spec WATCHDOG_TOTAL_MAX_RETRIES (retry_count e)); [lia|]; simpl.
  rewrite lookup_insert_eq; simpl. rewrite lookup_insert_eq.
  by rewrite retry_count_succ by lia.
Qed.

Lemma failed_restarts_count n s id name detail e :
  s !! id = Some e → pending e = None → AUTO_RETRY_MAX ≤ retry_count e →
  retry_count e + Z.of_nat n ≤ WATCHDOG_TOTAL_MAX_RETRIES →
  ∃ nm, failed_restarts n s id name detail !! id =
    Some {| agent_name := nm; retry_count := retry_count e + Z.of_nat n; pending := None |}.
Proof.
  revert s e. induction n as [|n IH]; intros s e E Hp Hlo Hhi; simpl.
  - exists (agent_name e). rewrite E, Z.add_0_r. destruct e; simpl in *. by subst.
  - edestruct (IH (failed_restart s id name detail)) as [nm Hnm].
    { apply failed_restart_entry; [done.. | lia]. }
    { done. }
    { simpl. lia. }
    { simpl. lia. }
    exists nm. rewrite Hnm. simpl. do 2 f_equal. lia.
Qed.

(** An agent registered as down and never recovering gets exactly five
    watchdog restarts: after [n <= 5] failed restarts the next plan is restart number
    [n + 1] when [n < 5], and the report that all attempts are exhausted when [n = 5],
    which every further plan repeats without consuming anything. *)
Theorem watchdog_restart_budget (id name detail : string) (n : nat) :
  trim_is_empty id = false → (n ≤ 5)%nat →
  let s := failed_restarts n (register_down new id name) id name detail in
  ∃ ev, (plan_restart s id name).1 = Some ev ∧
    (if (n <? 5)%nat
     then we_action ev = "auto_restart" ∧ we_attempt ev = AUTO_RETRY_MAX + Z.of_nat n + 1
     else we_action ev = "max_retries_exceeded" ∧
          ∀ e, (plan_restart s id name).2 !! id = Some e →
               retry_count e = WATCHDOG_TOTAL_MAX_RETRIES ∧ pending e = None).
Proof.
  intros Hid Hn s.
  assert (register_down new id name !! id =
          Some {| agent_name := name; retry_count := AUTO_RETRY_MAX; pending := None |}) as E.
  { unfold register_down, new. rewrite Hid, lookup_empty; simpl. apply lookup_insert_eq. }
  destruct (failed_restarts_count n _ id name detail _ E) as [nm Hnm]; try done.
  { simpl. unfold WATCHDOG_TOTAL_MAX_RETRIES, WATCHDOG_MAX_RETRIES, AUTO_RETRY_MAX. lia. }
  fold s in Hnm. simpl in Hnm. unfold plan_restart. rewrite Hnm; simpl.
  destruct (Nat.ltb_spec n 5);
    destruct (Z.leb_spec WATCHDOG_TOTAL_MAX_RETRIES (AUTO_RETRY_MAX + Z.of_nat n));
    unfold WATCHDOG_TOTAL_MAX_RETRIES, WATCHDOG_MAX_RETRIES, AUTO_RETRY_MAX in *; try lia;
    eexists; (split; [done|]); split; simpl; try done.
  - ilia.
  - intros e. rewrite lookup_insert_eq. intros [= <-]. simpl. split; [lia|done].
Qed.

(** At most one restart is outstanding per agent: while one is pending,
    planning again returns the very same event and changes nothing. *)
Theorem plan_restart_idempotent (s : t) (id name name' : string) :
  (plan_restart s id name).1 = None ∨
  (∃ ev, (plan_restart s id name).1 = Some ev ∧ we_action ev = "max_retries_exceeded") ∨
  (∃ ev, (plan_restart s id name).1 = Some ev ∧
     plan_restart (plan_restart s id name).2 id name' =
       (Some ev, (plan_restart s id name).2)).
Proof.
  unfold plan_restart. destruct (s !! id) as [e|] eqn:E; [|by left]. right.
  destruct (pending e) as [ev|] eqn:Ep.
  - right. exists ev. simpl. by rewrite E, Ep.
  - destruct (Z.leb_spec WATCHDOG_TOTAL_MAX_RETRIES (retry_count e)); simpl.
    + left. by eexists.
    + right. eexists. split; [done|]. by rewrite lookup_insert_eq.
Qed.

(** Two failed restarts of a concrete agent: the next attempt is the sixth of eight. *)
Lemma watchdog_restart_budget_witness :
  ∃ ev, (plan_restart (failed_restarts 2 (register_down new "agent-1" "Builder")
           "agent-1" "Builder" "spawn failed") "agent-1" "Builder").1 = Some ev ∧
    we_action ev = "auto_restart" ∧ we_attempt ev = 6.
Proof.
  exact (watchdog_restart_budget "agent-1" "Builder" "spawn failed" 2
           ltac:(vm_compute; reflexivity) ltac:(lia)).
Defined.

Lemma watchdog_attempts_bounded_witness :
  AUTO_RETRY_MAX < 4 ≤ WATCHDOG_TOTAL_MAX_RETRIES.
Proof.
  pose (s1 := (apply_op new (RegisterDown "agent-1" "Builder")).2).
  pose (e := {| we_agent_id := "agent-1"; we_agent_name := "Builder";
                we_action := "auto_restart";
                we_detail := "watchdog is attempting to restart the agent";
                we_attempt := 4; we_max_retries := 8 |}).
  assert (reachable (apply_op s1 (PlanRestart "agent-1" "Builder")).2 [e]) as Hr.
  { exact (reach_step s1 [] (PlanRestart "agent-1" "Builder")
             (reach_step new [] (RegisterDown "agent-1" "Builder") reach_new)). }
  exact (proj1 (watchdog_attempts_bounded _ _ e Hr ltac:(set_solver))).
Defined.
End WatchdogFacts.
