(* ===== verification/Recovery.v ===== *)
(** * Quota recovery probes

    [crates/cocli-agent/src/recovery.rs]: agents stopped by a provider limit are kept in a
    store and probed again, at the time the provider announced or on a widening backoff
    schedule, with at most one probe in flight per agent. Instants and durations are
    nanoseconds; [Instant::now()] is an argument. [HashMap] iteration order is unspecified
    in Rust: the list of due probes is used up to permutation. *)
From S2P Require Import Prelude.

Definition from_secs (s : Z) : Z := s * 1000000000.

Definition PROBE_BACKOFF_SCHEDULE : list Z :=
  [from_secs (5 * 60); from_secs (10 * 60); from_secs (30 * 60); from_secs (60 * 60);
   from_secs (120 * 60)].

(** [schedule.get(attempt).copied().unwrap_or(schedule[len - 1])]. *)
Definition probe_backoff_for (attempt : Z) : Z :=
  default (nth (length PROBE_BACKOFF_SCHEDULE - 1) PROBE_BACKOFF_SCHEDULE 0)
          (PROBE_BACKOFF_SCHEDULE !! Z.to_nat attempt).

Inductive ProbeResult : Type := Recovered | StillLimited | ProbeError | NoState.

#[export] Instance ProbeResult_eq_dec : EqDecision ProbeResult.
Proof. solve_decision. Defined.

Definition as_wire (r : ProbeResult) : string :=
  match r with
  | Recovered => "recovered"
  | StillLimited => "still_limited"
  | ProbeError => "error"
  | NoState => "no_state"
  end.

Record RecoveryEntry := mk_RecoveryEntry {
  provider : string;
  stop_reason : string;
  attempt_count : Z;
  expected_recovery_at : option Z;
  last_probe_at : option Z;
  probe_in_flight : bool;
}.

Record DueProbe := mk_DueProbe {
  dp_agent_id : string;
  dp_provider : string;
  dp_stop_reason : string;
  dp_attempt_count : Z;
}.

Record RecoveryStatus := mk_RecoveryStatus {
  rs_provider : string;
  rs_stop_reason : string;
  rs_attempt_count : Z;
}.

Module RecoveryStore.

Abbreviation t := (gmap string RecoveryEntry).

Definition new : t := ∅.

Definition register_with_expected_recovery_at (s : t) (agent_id prov reason : string)
    (expected : option Z) : t :=
  if trim_is_empty agent_id then s
  else
    let prior := s !! agent_id in
    <[agent_id :=
        {| provider := prov; stop_reason := reason;
           attempt_count := default 0 (attempt_count <$> prior);
           expected_recovery_at := expected;
           last_probe_at := e ← prior; last_probe_at e;
           probe_in_flight := default false (probe_in_flight <$> prior) |}]> s.

Definition register (s : t) (agent_id prov reason : string) : t :=
  register_with_expected_recovery_at s agent_id prov reason None.

Definition probe_now (s : t) (agent_id : string) (now : Z) : (ProbeResult * string) * t :=
  match s !! agent_id with
  | None => ((NoState, ""), s)
  | Some e =>
      if probe_in_flight e then
        ((StillLimited, "recovery probe already in flight for provider=" +:+ provider e +:+
            " stopReason=" +:+ stop_reason e), s)
      else
        ((StillLimited, "recovery probe pending for provider=" +:+ provider e +:+
            " stopReason=" +:+ stop_reason e),
         <[agent_id := {| provider := provider e; stop_reason := stop_reason e;
                          attempt_count := u32_saturating_add (attempt_count e) 1;
                          expected_recovery_at := expected_recovery_at e;
                          last_probe_at := Some now; probe_in_flight := false |}]> s)
  end.

Definition clear (s : t) (agent_id : string) : t := delete agent_id s.

Definition contains (s : t) (agent_id : string) : bool := bool_decide (is_Some (s !! agent_id)).

Definition len (s : t) : nat := size s.

Definition status (s : t) (agent_id : string) : option RecoveryStatus :=
  (λ e, {| rs_provider := provider e; rs_stop_reason := stop_reason e;
           rs_attempt_count := attempt_count e |}) <$> s !! agent_id.

(** The two [continue] guards of the loop: is this entry due at [now]?
    [Instant::duration_since] is zero when the other instant is later. *)
Definition is_due (now : Z) (e : RecoveryEntry) : bool :=
  negb (probe_in_flight e) &&
  match expected_recovery_at e with
  | Some expected => negb (now <? expected)
  | None =>
      match last_probe_at e with
      | Some last => negb (Z.max 0 (now - last) <? probe_backoff_for (attempt_count e))
      | None => true
      end
  end.

Definition set_in_flight (e : RecoveryEntry) : RecoveryEntry :=
  {| provider := provider e; stop_reason := stop_reason e; attempt_count := attempt_count e;
     expected_recovery_at := expected_recovery_at e; last_probe_at := last_probe_at e;
     probe_in_flight := true |}.

(** One pass over [entries.iter_mut()]: an entry that is not skipped is marked and pushed. *)
Definition due_probes (s : t) (now : Z) : list DueProbe * t :=
  (map (λ '(id, e), {| dp_agent_id := id; dp_provider := provider e;
                       dp_stop_reason := stop_reason e; dp_attempt_count := attempt_count e |})
     (bfilter (λ p, is_due now p.2) (map_to_list s)),
   (λ e, if is_due now e then set_in_flight e else e) <$> s).

Definition complete_probe (s : t) (agent_id : string) (now : Z) (r : ProbeResult) : t :=
  if decide (r = Recovered) then delete agent_id s
  else
    match s !! agent_id with
    | None => s
    | Some e =>
        if decide (r = NoState) then
          <[agent_id := {| provider := provider e; stop_reason := stop_reason e;
                           attempt_count := attempt_count e;
                           expected_recovery_at := expected_recovery_at e;
                           last_probe_at := last_probe_at e; probe_in_flight := false |}]> s
        else
          <[agent_id := {| provider := provider e; stop_reason := stop_reason e;
                           attempt_count := u32_saturating_add (attempt_count e) 1;
                           expected_recovery_at := None;
                           last_probe_at := Some now; probe_in_flight := false |}]> s
    end.

End RecoveryStore.

Module RecoveryFacts.
Import RecoveryStore.

Lemma probe_backoff_range (a : Z) :
  from_secs (5 * 60) ≤ probe_backoff_for a ≤ from_secs (120 * 60).
Proof.
  unfold probe_backoff_for, PROBE_BACKOFF_SCHEDULE, from_secs.
  destruct (Z.to_nat a) as [|[|[|[|[|n]]]]]; simpl; lia.
Qed.

(** The probe backoff widens with every attempt and stays between five
    minutes and two hours. *)
Theorem probe_backoff_monotone (a b : Z) :
  a ≤ b →
  probe_backoff_for a ≤ probe_backoff_for b ∧
  from_secs (5 * 60) ≤ probe_backoff_for a ∧ probe_backoff_for b ≤ from_secs (120 * 60).
Proof.
  intros Hab. pose proof (probe_backoff_range a). pose proof (probe_backoff_range b).
  split; [|lia]. assert (Z.to_nat a ≤ Z.to_nat b)%nat as Hn by lia.
  unfold probe_backoff_for, PROBE_BACKOFF_SCHEDULE, from_secs in *.
  destruct (Z.to_nat a) as [|[|[|[|[|n]]]]], (Z.to_nat b) as [|[|[|[|[|m]]]]];
    simpl in *; lia.
Qed.

Lemma probe_backoff_monotone_witness : probe_backoff_for 1 ≤ probe_backoff_for 99.
Proof. exact (proj1 (probe_backoff_monotone 1 99 ltac:(lia))). Defined.

Lemma elem_of_due_probes s now p :
  p ∈ (due_probes s now).1 ↔
  ∃ e, s !! dp_agent_id p = Some e ∧ is_due now e = true ∧
       p = {| dp_agent_id := dp_agent_id p; dp_provider := provider e;
              dp_stop_reason := stop_reason e; dp_attempt_count := attempt_count e |}.
Proof.
  unfold due_probes; simpl. rewrite list_elem_of_fmap. split.
  - intros ([id e] & -> & [Hin Hd]%elem_of_bfilter). exists e.
    apply elem_of_map_to_list in Hin. done.
  - intros (e & Hl & Hd & Hp). exists (dp_agent_id p, e). split; [done|].
    apply elem_of_bfilter. split; [by apply elem_of_map_to_list | done].
Qed.

Lemma due_probes_lookup s now id :
  (due_probes s now).2 !! id =
  (λ e, if is_due now e then set_in_flight e else e) <$> s !! id.
Proof. unfold due_probes; simpl. by rewrite lookup_fmap. Qed.

(** At most one probe per agent is in flight: every agent that a pass
    reports had none in flight, has one afterwards, is reported once, and no later pass
    reports it again, whatever the time, until its probe is completed. *)
Theorem due_probes_single_flight (s : t) (now : Z) :
  NoDup (map dp_agent_id (due_probes s now).1) ∧
  ∀ p, p ∈ (due_probes s now).1 →
    (∃ e, s !! dp_agent_id p = Some e ∧ probe_in_flight e = false) ∧
    (∃ e, (due_probes s now).2 !! dp_agent_id p = Some e ∧ probe_in_flight e = true) ∧
    ∀ later p', p' ∈ (due_probes (due_probes s now).2 later).1 →
                dp_agent_id p' ≠ dp_agent_id p.
Proof.
  split.
  - unfold due_probes; simpl. rewrite map_map.
    assert (map (λ x : string * RecoveryEntry, dp_agent_id (let '(id, e) := x in
      {| dp_agent_id := id; dp_provider := provider e; dp_stop_reason := stop_reason e;
         dp_attempt_count := attempt_count e |})) (bfilter (λ p, is_due now p.2) (map_to_list s))
      = map fst (bfilter (λ p, is_due now p.2) (map_to_list s))) as ->.
    { apply map_ext. by intros []. }
    eapply sublist_NoDup; [apply (NoDup_fst_map_to_list s)|].
    apply (fmap_sublist fst), bfilter_sublist.
  - intros p (e & Hl & Hd & _)%elem_of_due_probes.
    assert (probe_in_flight e = false) as Hf.
    { unfold is_due in Hd. bsimp. done. }
    split; [by exists e|]. split.
    + exists (set_in_flight e). rewrite due_probes_lookup, Hl; simpl. by rewrite Hd.
    + intros later p' (e' & Hl' & Hd' & _)%elem_of_due_probes Heq.
      rewrite Heq, due_probes_lookup, Hl in Hl'; simpl in Hl'. rewrite Hd in Hl'.
      simplify_eq.
Qed.

(** A probe that failed at time [at_] is retried: the agent is reported by
    the pass at [now] exactly when the backoff of its new attempt number has elapsed, so
    in particular by every pass two hours later. *)
Theorem failed_probe_retried (s : t) (id : string) (at_ now : Z) (r : ProbeResult)
    (e : RecoveryEntry) :
  s !! id = Some e → r = StillLimited ∨ r = ProbeError →
  let n := u32_saturating_add (attempt_count e) 1 in
  let s' := complete_probe s id at_ r in
  ((∃ p, p ∈ (due_probes s' now).1 ∧ dp_agent_id p = id) ↔
     probe_backoff_for n ≤ now - at_) ∧
  (from_secs (120 * 60) ≤ now - at_ → ∃ p, p ∈ (due_probes s' now).1 ∧ dp_agent_id p = id ∧
     dp_attempt_count p = n).
Proof.
  intros Hl Hr n s'.
  pose (e' := {| provider := provider e; stop_reason := stop_reason e; attempt_count := n;
                 expected_recovery_at := None; last_probe_at := Some at_;
                 probe_in_flight := false |}).
  assert (s' !! id = Some e') as Hs'.
  { unfold s', complete_probe. rewrite decide_False by (destruct Hr; congruence).
    rewrite Hl, decide_False by (destruct Hr; congruence). apply lookup_insert_eq. }
  pose proof (probe_backoff_range n).
  assert (is_due now e' = true ↔ probe_backoff_for n ≤ now - at_) as Hdue.
  { unfold is_due, e'; simpl. rewrite negb_true_iff, Z.ltb_ge.
    unfold from_secs in *. split; lia. }
  assert (∀ p, p ∈ (due_probes s' now).1 ∧ dp_agent_id p = id ↔ is_due now e' = true ∧
    p = {| dp_agent_id := id; dp_provider := provider e; dp_stop_reason := stop_reason e;
           dp_attempt_count := n |}) as Hp.
  { intros p. rewrite elem_of_due_probes. split.
    - intros [(e0 & Hl0 & Hd0 & Hp0) Hid]. rewrite Hid, Hs' in Hl0. injection Hl0 as <-.
      split; [done|]. by rewrite Hp0, Hid.
    - intros [Hd ->]. split; [|done]. by exists e'. }
  split.
  - rewrite <- Hdue. split.
    + intros [p Hp']. by apply Hp in Hp' as [Hd _].
    + intros Hd. eexists. by apply Hp.
  - intros Hlate. eexists. apply and_assoc. split; [|shelve].
    apply Hp. split; [apply Hdue; lia | reflexivity].
    Unshelve. done.
Qed.

(** Ten minutes after the first failed probe of an agent it is probed again. *)
Lemma failed_probe_retried_witness :
  ∃ p, p ∈ (due_probes (complete_probe (register new "agent-1" "gemini" "stopped_by_quota")
              "agent-1" 0 StillLimited) (from_secs 600)).1 ∧ dp_agent_id p = "agent-1".
Proof.
  apply (proj1 (failed_probe_retried (register new "agent-1" "gemini" "stopped_by_quota")
           "agent-1" 0 (from_secs 600) StillLimited
           {| provider := "gemini"; stop_reason := "stopped_by_quota"; attempt_count := 0;
              expected_recovery_at := None; last_probe_at := None; probe_in_flight := false |}
           ltac:(vm_compute; reflexivity) ltac:(left; reflexivity))).
  vm_compute. discriminate.
Defined.

(** Registering a stopped agent again keeps its attempt count, its last
    probe time and a probe in flight, and only a recovered probe or an explicit clear
    removes the agent: a limited agent is never forgotten. *)
Theorem registration_survives (s : t) (id prov reason : string) (expected : option Z)
    (now : Z) (r : ProbeResult) :
  trim_is_empty id = false →
  let s1 := register_with_expected_recovery_at s id prov reason expected in
  (∃ e, s1 !! id = Some e ∧ provider e = prov ∧ stop_reason e = reason ∧
     expected_recovery_at e = expected ∧
     attempt_count e = default 0 (attempt_count <$> s !! id) ∧
     last_probe_at e = (s !! id ≫= last_probe_at) ∧
     probe_in_flight e = default false (probe_in_flight <$> s !! id)) ∧
  (is_Some (complete_probe s1 id now r !! id) ↔ r ≠ Recovered) ∧
  is_Some ((due_probes s1 now).2 !! id) ∧
  is_Some ((probe_now s1 id now).2 !! id).
Proof.
  intros Hid s1.
  assert (∃ e, s1 !! id = Some e ∧ provider e = prov ∧ stop_reason e = reason ∧
     expected_recovery_at e = expected ∧
     attempt_count e = default 0 (attempt_count <$> s !! id) ∧
     last_probe_at e = (s !! id ≫= last_probe_at) ∧
     probe_in_flight e = default false (probe_in_flight <$> s !! id)) as Hex.
  { unfold s1, register_with_expected_recovery_at. rewrite Hid, lookup_insert_eq.
    eexists. split; [done|]. by destruct (s !! id). }
  split; [done|]. destruct Hex as (e & He & _). repeat split.
  - intros [x Hx] ->. unfold complete_probe in Hx. rewrite decide_True in Hx by done.
    by rewrite lookup_delete_eq in Hx.
  - intros Hne. unfold complete_probe. rewrite decide_False by done. rewrite He.
    case_decide; rewrite lookup_insert_eq; by eexists.
  - rewrite due_probes_lookup, He. by eexists.
  - unfold probe_now. rewrite He. destruct (probe_in_flight e); simpl;
      [rewrite He | rewrite lookup_insert_eq]; by eexists.
Qed.

Lemma registration_survives_witness :
  is_Some ((probe_now (register new "agent-1" "gemini" "quota") "agent-1" 7).2 !! "agent-1").
Proof.
  exact (proj2 (proj2 (proj2 (registration_survives new "agent-1" "gemini" "quota" None 7
           StillLimited ltac:(vm_compute; reflexivity))))).
Defined.
End RecoveryFacts.
