(* ===== verification/Working.v ===== *)
(** * The per-agent current-work anchor

    [crates/cocli-agent/src/working.rs]. Timestamps are stored as RFC 3339 strings produced
    and read back by the chrono crate; its formatter and parser are parameters here, with
    the round trip on the instants of the years 1970 to 9999 (in nanoseconds since the
    epoch) as the hypothesis the code relies on. *)
From S2P Require Import Prelude Protocol.

(** The instants whose RFC 3339 rendering has a four-digit year. *)
Definition instant_ok (t : Z) : Prop := 0 ≤ t < 253402300800 * 1000000000.

(** What [set_at] needs of [DateTime::to_rfc3339_opts] and of its [FromStr]. *)
Class Rfc3339 := {
  format_rfc3339_nanos : Z → string;
  parse_datetime : string → option Z;
}.

Class Rfc3339Laws `{!Rfc3339} : Prop := {
  parse_format t : instant_ok t → parse_datetime (format_rfc3339_nanos t) = Some t;
  format_nonempty t : instant_ok t → format_rfc3339_nanos t ≠ "";
}.

Module WorkingMemoryStore.

Abbreviation t := (gmap string WorkingStatePayload).

Section Store.
Context {TS : Rfc3339}.

Definition new : t := ∅.

Definition with_times (p : WorkingStatePayload) (started last : string)
    : WorkingStatePayload :=
  {| wp_task_id := wp_task_id p; wp_task_number := wp_task_number p;
     wp_channel_name := wp_channel_name p; wp_summary := wp_summary p;
     wp_next_step_hint := wp_next_step_hint p; wp_started_at := started;
     wp_last_updated_at := last |}.

Definition set_at (s : t) (agent_id : string) (payload : WorkingStatePayload) (now : Z)
    : WorkingStatePayload * t :=
  let now_str := format_rfc3339_nanos now in
  let '(started_at, last_updated_at) :=
    match s !! agent_id with
    | Some prev =>
        let started :=
          if str_is_empty (wp_started_at prev) then now_str else wp_started_at prev in
        let last :=
          match parse_datetime (wp_last_updated_at prev) with
          | Some prev_last =>
              if now <=? prev_last then format_rfc3339_nanos (prev_last + 1) else now_str
          | None => now_str
          end in
        (started, last)
    | None => (now_str, now_str)
    end in
  let payload' := with_times payload started_at last_updated_at in
  (payload', <[agent_id := payload']> s).

(** [set] reads the clock; the instant is an argument. *)
Definition set (s : t) (agent_id : string) (payload : WorkingStatePayload) (utc_now : Z)
    : WorkingStatePayload * t := set_at s agent_id payload utc_now.

Definition get (s : t) (agent_id : string) : option WorkingStatePayload := s !! agent_id.

Definition clear (s : t) (agent_id : string) : t := delete agent_id s.

Definition len (s : t) : nat := size s.

Definition is_empty (s : t) : bool := bool_decide (s = ∅).
End Store.
End WorkingMemoryStore.

Section Facts.
Context {TS : Rfc3339} {TSL : @Rfc3339Laws TS}.
Import WorkingMemoryStore.

(** The anchor of an agent: when the work started and when it was last updated. *)
Definition anchored (p : WorkingStatePayload) (started last : Z) : Prop :=
  wp_started_at p = format_rfc3339_nanos started ∧
  wp_last_updated_at p = format_rfc3339_nanos last ∧
  instant_ok started ∧ instant_ok last ∧ started ≤ last.

(** Setting the anchor of an agent: the first set stamps both times with
    the clock; a later set keeps the start time and advances the update time to the clock
    or, when the clock has not moved past it, by one nanosecond; the caller's fields are
    stored and returned, and no other agent is touched. *)
Theorem set_at_spec (s : WorkingMemoryStore.t) (id : string) (p : WorkingStatePayload) (now : Z) :
  instant_ok now →
  let '(p', s') := set_at s id p now in
  get s' id = Some p' ∧
  (wp_task_id p', wp_task_number p', wp_channel_name p', wp_summary p', wp_next_step_hint p') =
    (wp_task_id p, wp_task_number p, wp_channel_name p, wp_summary p, wp_next_step_hint p) ∧
  (get s id = None → anchored p' now now) ∧
  (∀ prev started last, get s id = Some prev → anchored prev started last →
     instant_ok (last + 1) → anchored p' started (Z.max now (last + 1))) ∧
  ∀ id', id' ≠ id → get s' id' = get s id'.
Proof.
  intros Hnow. unfold set_at, get.
  destruct (s !! id) as [prev|] eqn:E; split_and!; try done; try apply lookup_insert_eq;
    try (intros id' Hne; by apply lookup_insert_ne).
  intros prev' started last [= <-] (Hs & Hl & Hos & Hol & Hle) Hol1.
    rewrite Hs, Hl, parse_format by done.
    destruct (str_is_empty (format_rfc3339_nanos started)) eqn:He.
    { apply str_is_empty_true in He. by apply format_nonempty in He. }
    destruct (Z.leb_spec now last); unfold anchored; simpl;
      [rewrite Z.max_r by lia | rewrite Z.max_l by lia]; split_and!; try done; lia.
Qed.

(** A run of sets of one agent, at the given clock readings. *)
Fixpoint set_all (s : WorkingMemoryStore.t) (id : string) (sets : list (WorkingStatePayload * Z))
    : list WorkingStatePayload * WorkingMemoryStore.t :=
  match sets with
  | [] => ([], s)
  | (p, now) :: sets' =>
      let '(p', s') := set_at s id p now in
      let '(ps, s'') := set_all s' id sets' in
      (p' :: ps, s'')
  end.

Lemma set_at_anchored s id p now prev started last :
  s !! id = Some prev → anchored prev started last → instant_ok now → instant_ok (last + 1) →
  anchored (set_at s id p now).1 started (Z.max now (last + 1)) ∧
  (set_at s id p now).2 !! id = Some (set_at s id p now).1.
Proof.
  intros Hp Ha Hn Hl. pose proof (set_at_spec s id p now Hn) as Hspec.
  destruct (set_at s id p now) as [p' s']. destruct Hspec as (Hg & _ & _ & Hs & _).
  split; [by eapply Hs | done].
Qed.

Lemma set_all_increasing sets s id prev started last :
  s !! id = Some prev → anchored prev started last →
  0 ≤ last → (∀ p now, (p, now) ∈ sets → instant_ok now ∧
    instant_ok (Z.max now last + Z.of_nat (length sets))) →
  Forall (λ p, ∃ l, anchored p started l ∧ last < l) (set_all s id sets).1 ∧
  ∃ ls, Forall2 (λ p l, anchored p started l) (set_all s id sets).1 ls ∧
        StronglySorted Z.lt (last :: ls).
Proof.
  revert s prev last. induction sets as [|[p now] sets IH]; intros s prev last Hp Ha H0 Hok.
  { split; [constructor|]. exists []. split; [constructor|]. by repeat constructor. }
  simpl. destruct (Hok p now) as [Hnow Hbig]; [by left|].
  assert (instant_ok (last + 1)) as Hl1.
  { unfold instant_ok in *. simpl in Hbig. lia. }
  destruct (set_at_anchored s id p now prev started last Hp Ha Hnow Hl1) as [Ha' Hp'].
  destruct (set_at s id p now) as [p' s'] eqn:E; simpl in Ha', Hp'.
  edestruct (IH s' p' (Z.max now (last + 1)) Hp' Ha') as [Hall (ls & Hls & Hss)].
  { lia. }
  { intros q n' Hin. destruct (Hok q n') as [Hn' Hb']; [by right|]. split; [done|].
    unfold instant_ok in *. simpl in Hb', Hbig. lia. }
  destruct (set_all s' id sets) as [ps s'']; simpl in *. split.
  - constructor; [exists (Z.max now (last + 1)); split; [done|lia]|].
    eapply Forall_impl; [exact Hall|]. intros q (l & Hq & Hlt). exists l. split; [done|lia].
  - exists (Z.max now (last + 1) :: ls). split; [by constructor|].
    constructor; [done|]. constructor; [lia|].
    inversion_clear Hss as [|? ? _ Hf]. eapply Forall_impl; [exact Hf|]. intros; simpl in *. lia.
Qed.

(** After the first set of an agent, any sequence of further sets, at any
    clock readings (stalled or running backwards included), keeps the start time and
    produces strictly increasing update times. *)
Theorem set_sequence_monotone (s : WorkingMemoryStore.t) (id : string) (p0 : WorkingStatePayload)
    (t0 : Z) (sets : list (WorkingStatePayload * Z)) :
  s !! id = None → instant_ok t0 →
  (∀ p now, (p, now) ∈ sets →
     instant_ok now ∧ instant_ok (Z.max now t0 + Z.of_nat (length sets))) →
  ∃ ls, Forall2 (λ p l, anchored p t0 l)
                (set_all s id ((p0, t0) :: sets)).1 (t0 :: ls) ∧
        StronglySorted Z.lt (t0 :: ls).
Proof.
  intros Hnone Ht0 Hok. simpl. pose proof (set_at_spec s id p0 t0 Ht0) as Hspec.
  destruct (set_at s id p0 t0) as [p' s']. destruct Hspec as (Hg & _ & Hfirst & _).
  specialize (Hfirst Hnone).
  destruct (set_all_increasing sets s' id p' t0 t0 Hg Hfirst) as [_ (ls & Hls & Hss)].
  { unfold instant_ok in *. lia. }
  { done. }
  destruct (set_all s' id sets) as [ps s'']; simpl in *.
  exists ls. split; [by constructor | done].
Qed.
End Facts.

(** ** A concrete formatter, for the witnesses: binary digits of the instant *)

Fixpoint pos_to_string (p : positive) : string :=
  match p with xH => "H" | xO p' => "0" +:+ pos_to_string p' | xI p' => "1" +:+ pos_to_string p' end.

Fixpoint string_to_pos (s : string) : option positive :=
  match s with
  | String c s' =>
      if Ascii.eqb c (Ascii.ascii_of_N 72) then Some xH
      else if Ascii.eqb c (Ascii.ascii_of_N 48) then xO <$> string_to_pos s' else xI <$> string_to_pos s'
  | "" => None
  end.

Lemma string_to_pos_to_string p : string_to_pos (pos_to_string p) = Some p.
Proof.
  induction p as [p IH|p IH|]; simpl; rewrite ?append_cons, ?append_nil_l; simpl;
    by rewrite ?IH.
Qed.

#[local] Instance binary_rfc3339 : Rfc3339 := {|
  format_rfc3339_nanos := λ t, pos_to_string (Z.to_pos (t + 1));
  parse_datetime := λ s, (λ p, Z.pos p - 1) <$> string_to_pos s;
|}.

#[local] Instance binary_rfc3339_laws : Rfc3339Laws.
Proof.
  split; simpl; intros t Ht.
  - rewrite string_to_pos_to_string; simpl. rewrite Z2Pos.id; [f_equal; lia|].
    unfold instant_ok in Ht. lia.
  - by destruct (Z.to_pos (t + 1)).
Qed.

Lemma instant_ok_compute (t : Z) :
  (0 <=? t) && (t <? 253402300800 * 1000000000) = true → instant_ok t.
Proof. unfold instant_ok. intros H. bsimp. lia. Qed.

Lemma set_at_spec_witness :
  WorkingMemoryStore.get
    (WorkingMemoryStore.set_at ∅ "a1" default_WorkingStatePayload 7).2 "a1" =
  Some (WorkingMemoryStore.set_at ∅ "a1" default_WorkingStatePayload 7).1.
Proof.
  exact (proj1 (set_at_spec ∅ "a1" default_WorkingStatePayload 7
           (instant_ok_compute 7 eq_refl))).
Defined.

(** The same instant three times in a row, then an earlier one. *)
Lemma set_sequence_monotone_witness :
  ∃ ls, Forall2 (λ p l, anchored p 50 l)
          (set_all ∅ "a1" (map (λ t, (default_WorkingStatePayload, t)) [50; 50; 50; 9])).1
          (50 :: ls) ∧ StronglySorted Z.lt (50 :: ls).
Proof.
  apply (set_sequence_monotone ∅ "a1" default_WorkingStatePayload 50
           (map (λ t, (default_WorkingStatePayload, t)) [50; 50; 9])).
  - reflexivity.
  - by apply instant_ok_compute.
  - intros p now Hin. apply list_elem_of_fmap in Hin as (x & [= -> ->] & Hx).
    repeat (apply elem_of_cons in Hx as [->|Hx];
            [split; by apply instant_ok_compute|]); by apply elem_of_nil in Hx.
Defined.
