(* ===== verification/Metrics.v ===== *)
(** * Runtime metrics

    [crates/cocli-agent/src/metrics.rs]: a structure of 28 [AtomicU64] cells, updated by
    single atomic operations from many tasks and read by [snapshot]. The structure is a
    total map from its field names to 64-bit values; a schedule of the tasks is the list of
    the atomic operations in the order in which they take effect. *)
From S2P Require Import Prelude.

(** The fields of [AgentMetrics]. *)
Inductive field : Type :=
  | delivery_queue_buffered_total
  | delivery_queue_updated_total
  | delivery_queue_rejected_total
  | delivery_queue_flush_sent_total
  | delivery_queue_rebuffered_total
  | delivery_queue_depth
  | turn_exit_queued_total
  | turn_exit_duplicate_total
  | turn_exit_respawn_total
  | turn_exit_respawn_failure_total
  | turn_exit_pending_depth
  | recovery_probe_scheduled_total
  | recovery_probe_recovered_total
  | recovery_probe_error_total
  | recovery_tracked_agents
  | local_session_started_total
  | local_session_reused_total
  | local_session_stopped_total
  | local_turn_started_total
  | local_turn_completed_total
  | local_turn_failed_total
  | local_turn_cancelled_total
  | local_turn_timed_out_total
  | local_watchdog_restart_total
  | local_watchdog_failure_total
  | local_watchdog_exhausted_total
  | local_active_sessions
  | local_active_turns.

#[export] Instance field_eq_dec : EqDecision field.
Proof. solve_decision. Defined.

Definition AgentMetrics : Type := field → Z.

Module AgentMetricsOps.

Definition default : AgentMetrics := λ _, 0.

Definition set_cell (m : AgentMetrics) (f : field) (v : Z) : AgentMetrics :=
  λ g, if decide (g = f) then v else m g.

(** [fetch_add(n, Relaxed)]: wraps modulo 2^64. *)
Definition fetch_add (f : field) (n : Z) (m : AgentMetrics) : AgentMetrics :=
  set_cell m f (wrap_u64 (m f + n)).

Definition store (f : field) (v : Z) (m : AgentMetrics) : AgentMetrics := set_cell m f v.

(** [fetch_update] with [saturating_sub(1)]. *)
Definition saturating_decrement (f : field) (m : AgentMetrics) : AgentMetrics :=
  set_cell m f (u64_saturating_sub (m f) 1).

Definition inc_delivery_queue_buffered := fetch_add delivery_queue_buffered_total 1.
Definition inc_delivery_queue_updated := fetch_add delivery_queue_updated_total 1.
Definition inc_delivery_queue_rejected := fetch_add delivery_queue_rejected_total 1.
Definition inc_turn_exit_queued := fetch_add turn_exit_queued_total 1.
Definition inc_turn_exit_duplicate := fetch_add turn_exit_duplicate_total 1.
Definition inc_turn_exit_respawn := fetch_add turn_exit_respawn_total 1.
Definition inc_turn_exit_respawn_failure := fetch_add turn_exit_respawn_failure_total 1.
Definition inc_recovery_probe_scheduled := fetch_add recovery_probe_scheduled_total 1.
Definition inc_recovery_probe_recovered := fetch_add recovery_probe_recovered_total 1.
Definition inc_recovery_probe_error := fetch_add recovery_probe_error_total 1.
Definition inc_local_session_started := fetch_add local_session_started_total 1.
Definition inc_local_session_reused := fetch_add local_session_reused_total 1.
Definition inc_local_session_stopped := fetch_add local_session_stopped_total 1.
Definition inc_local_turn_started := fetch_add local_turn_started_total 1.
Definition inc_local_turn_completed := fetch_add local_turn_completed_total 1.
Definition inc_local_turn_failed := fetch_add local_turn_failed_total 1.
Definition inc_local_turn_cancelled := fetch_add local_turn_cancelled_total 1.
Definition inc_local_turn_timed_out := fetch_add local_turn_timed_out_total 1.
Definition inc_local_watchdog_restart := fetch_add local_watchdog_restart_total 1.
Definition inc_local_watchdog_failure := fetch_add local_watchdog_failure_total 1.
Definition inc_local_watchdog_exhausted := fetch_add local_watchdog_exhausted_total 1.
Definition add_delivery_queue_flush_sent (count : nat) :=
  fetch_add delivery_queue_flush_sent_total (Z.of_nat count).
Definition add_delivery_queue_rebuffered (count : nat) :=
  fetch_add delivery_queue_rebuffered_total (Z.of_nat count).
Definition set_delivery_queue_depth (depth : nat) := store delivery_queue_depth (Z.of_nat depth).
Definition set_turn_exit_pending_depth (depth : nat) :=
  store turn_exit_pending_depth (Z.of_nat depth).
Definition set_recovery_tracked_agents (count : nat) :=
  store recovery_tracked_agents (Z.of_nat count).
Definition inc_local_active_sessions := fetch_add local_active_sessions 1.
Definition dec_local_active_sessions := saturating_decrement local_active_sessions.
Definition inc_local_active_turns := fetch_add local_active_turns 1.
Definition dec_local_active_turns := saturating_decrement local_active_turns.

End AgentMetricsOps.

(** [i64::try_from(value).unwrap_or(i64::MAX)]. *)
Definition saturating_i64 (value : Z) : Z := if value <=? i64_max then value else i64_max.

(** [value as f64] for a [u64]: the nearest binary64 value, ties to even. Every such value
    is an integer, which is what is returned here. *)
Definition u64_as_f64 (n : Z) : Z :=
  if n <? 2 ^ 53 then n
  else
    let ulp := 2 ^ (Z.log2 n - 52) in
    let q := n / ulp in
    let r := n mod ulp in
    ulp * (if (ulp <? 2 * r) || ((ulp =? 2 * r) && Z.odd q) then q + 1 else q).

Definition counter_fields : list (string * field) :=
  [("agent_delivery_queue_buffered_total", delivery_queue_buffered_total);
   ("agent_delivery_queue_updated_total", delivery_queue_updated_total);
   ("agent_delivery_queue_rejected_total", delivery_queue_rejected_total);
   ("agent_delivery_queue_flush_sent_total", delivery_queue_flush_sent_total);
   ("agent_delivery_queue_rebuffered_total", delivery_queue_rebuffered_total);
   ("agent_turn_exit_queued_total", turn_exit_queued_total);
   ("agent_turn_exit_duplicate_total", turn_exit_duplicate_total);
   ("agent_turn_exit_respawn_total", turn_exit_respawn_total);
   ("agent_turn_exit_respawn_failure_total", turn_exit_respawn_failure_total);
   ("agent_recovery_probe_scheduled_total", recovery_probe_scheduled_total);
   ("agent_recovery_probe_recovered_total", recovery_probe_recovered_total);
   ("agent_recovery_probe_error_total", recovery_probe_error_total);
   ("local_agent_session_started_total", local_session_started_total);
   ("local_agent_session_reused_total", local_session_reused_total);
   ("local_agent_session_stopped_total", local_session_stopped_total);
   ("local_agent_turn_started_total", local_turn_started_total);
   ("local_agent_turn_completed_total", local_turn_completed_total);
   ("local_agent_turn_failed_total", local_turn_failed_total);
   ("local_agent_turn_cancelled_total", local_turn_cancelled_total);
   ("local_agent_turn_timed_out_total", local_turn_timed_out_total);
   ("local_agent_watchdog_restart_total", local_watchdog_restart_total);
   ("local_agent_watchdog_failure_total", local_watchdog_failure_total);
   ("local_agent_watchdog_exhausted_total", local_watchdog_exhausted_total)].

Definition gauge_fields : list (string * field) :=
  [("agent_delivery_queue_depth", delivery_queue_depth);
   ("agent_turn_exit_pending_depth", turn_exit_pending_depth);
   ("agent_recovery_tracked_agents", recovery_tracked_agents);
   ("local_agent_active_sessions", local_active_sessions);
   ("local_agent_active_turns", local_active_turns)].

Record AgentMetricsSnapshot := mk_snapshot {
  counters : gmap string Z;
  gauges : gmap string Z;
}.

Definition snapshot (m : AgentMetrics) : AgentMetricsSnapshot :=
  {| counters := list_to_map (map (λ '(k, f), (k, saturating_i64 (m f))) counter_fields);
     gauges := list_to_map (map (λ '(k, f), (k, u64_as_f64 (m f))) gauge_fields) |}.

(** ** Schedules of atomic operations *)

Inductive metric_op : Type :=
  | FetchAdd (f : field) (n : Z)
  | Store (f : field) (v : Z)
  | Decrement (f : field).

Definition run_metric_op (m : AgentMetrics) (o : metric_op) : AgentMetrics :=
  match o with
  | FetchAdd f n => AgentMetricsOps.fetch_add f n m
  | Store f v => AgentMetricsOps.store f v m
  | Decrement f => AgentMetricsOps.saturating_decrement f m
  end.

Definition run_schedule (m : AgentMetrics) (ops : list metric_op) : AgentMetrics :=
  fold_left run_metric_op ops m.

(** What a schedule adds to a cell. *)
Fixpoint added (f : field) (ops : list metric_op) : Z :=
  match ops with
  | [] => 0
  | FetchAdd g n :: ops' => (if decide (g = f) then n else 0) + added f ops'
  | _ :: ops' => added f ops'
  end.

(** The cell is only ever incremented, as every [_total] counter is. *)
Definition counter_only (f : field) (ops : list metric_op) : Prop :=
  Forall (λ o, match o with FetchAdd _ _ => True | Store g _ | Decrement g => g ≠ f end) ops.

(** The exported names are distinct. *)
Lemma counter_names_NoDup : NoDup (map fst counter_fields).
Proof. compute_decide. Qed.

(** The [serde_json] map built from a table of names and cells. *)
Lemma table_lookup {A B} (g : A → B) (l : list (string * A)) (key : string) (f : A) :
  NoDup (map fst l) → (key, f) ∈ l →
  (list_to_map (map (λ '(k, f), (k, g f)) l) : gmap string B) !! key = Some (g f).
Proof.
  intros Hnd Hin. apply elem_of_list_to_map_1.
  - rewrite <- list_fmap_compose. erewrite list_fmap_ext; [exact Hnd|]. by intros ? [??] ?.
  - apply list_elem_of_fmap. by exists (key, f).
Qed.

Section MetricFacts.
Lemma run_schedule_counter (f : field) ops m :
  counter_only f ops → 0 ≤ m f < 2 ^ 64 →
  run_schedule m ops f = wrap_u64 (m f + added f ops).
Proof.
  intros Hc. revert m. induction Hc as [|o ops Ho _ IH]; intros m Hm; simpl.
  { unfold wrap_u64. rewrite Z.add_0_r, Z.mod_small; [done|lia]. }
  assert (0 ≤ run_metric_op m o f < 2 ^ 64) as Hm'.
  { destruct o as [g n|g v|g]; simpl; unfold AgentMetricsOps.fetch_add,
      AgentMetricsOps.store, AgentMetricsOps.saturating_decrement, AgentMetricsOps.set_cell;
      case_decide; subst; try done. unfold wrap_u64. apply Z.mod_pos_bound. lia. }
  rewrite IH by done.
  destruct o as [g n|g v|g]; simpl; unfold AgentMetricsOps.fetch_add,
    AgentMetricsOps.store, AgentMetricsOps.saturating_decrement, AgentMetricsOps.set_cell;
    repeat case_decide; subst; try done.
  unfold wrap_u64. rewrite Z.add_mod_idemp_l by lia. f_equal. lia.
Qed.

Lemma added_perm (f : field) ops ops' : ops ≡ₚ ops' → added f ops = added f ops'.
Proof.
  induction 1 as [|o l l' _ IH|o o' l|l1 l2 l3 _ IH1 _ IH2]; simpl; [done| | |congruence].
  - destruct o; lia.
  - destruct o, o'; lia.
Qed.

(** Counters do not depend on how the tasks interleave: two schedules
    of the same increments leave the same counter, the sum of the increments modulo
    2^64, and the snapshot reports it, saturated at [i64::MAX], under its exported name. *)
Theorem counters_schedule_independent (f : field) (key : string) (ops ops' : list metric_op) :
  (key, f) ∈ counter_fields → counter_only f ops → ops ≡ₚ ops' →
  counters (snapshot (run_schedule AgentMetricsOps.default ops)) !! key =
    Some (saturating_i64 (wrap_u64 (added f ops))) ∧
  counters (snapshot (run_schedule AgentMetricsOps.default ops')) !! key =
    counters (snapshot (run_schedule AgentMetricsOps.default ops)) !! key.
Proof.
  intros Hk Hc Hp.
  assert (∀ l, counter_only f l →
    counters (snapshot (run_schedule AgentMetricsOps.default l)) !! key =
    Some (saturating_i64 (wrap_u64 (added f l)))) as H.
  { intros l Hl. unfold snapshot. cbn [counters].
    rewrite (table_lookup (λ f, saturating_i64 _) _ _ _ counter_names_NoDup Hk).
    rewrite (run_schedule_counter f l AgentMetricsOps.default Hl); [done|].
    unfold AgentMetricsOps.default. lia. }
  rewrite (H ops Hc). split; [done|]. rewrite (H ops').
  - by rewrite (added_perm f ops ops' Hp).
  - unfold counter_only. by rewrite <- Hp.
Qed.

(** ** The active-session gauge *)

(** Every prefix of the schedule has at most as many decrements as increments of [f]. *)
Fixpoint balanced (f : field) (n : nat) (ops : list metric_op) : option nat :=
  match ops with
  | [] => Some n
  | FetchAdd g 1 :: ops' => balanced f (if decide (g = f) then S n else n) ops'
  | Decrement g :: ops' =>
      if decide (g = f) then match n with O => None | S n' => balanced f n' ops' end
      else balanced f n ops'
  | FetchAdd g _ :: ops' | Store g _ :: ops' =>
      if decide (g = f) then None else balanced f n ops'
  end.

(** An activity gauge ([local_active_sessions], [local_active_turns]) never
    wraps below zero, whatever the schedule, and equals the number of sessions or turns
    in progress as long as each is ended once after it was started. *)
Theorem active_gauge_correct (f : field) (ops : list metric_op) (n : nat) :
  Z.of_nat (length ops) < 2 ^ 53 →
  balanced f 0 ops = Some n →
  run_schedule AgentMetricsOps.default ops f = Z.of_nat n ∧
  u64_as_f64 (run_schedule AgentMetricsOps.default ops f) = Z.of_nat n ∧
  0 ≤ AgentMetricsOps.saturating_decrement f
        (run_schedule AgentMetricsOps.default ops) f.
Proof.
  intros Hlen Hb.
  enough (∀ l m k, m f = Z.of_nat k → Z.of_nat k + Z.of_nat (length l) < 2 ^ 53 →
    balanced f k l = Some n → run_schedule m l f = Z.of_nat n ∧ Z.of_nat n < 2 ^ 53) as H.
  { destruct (H ops AgentMetricsOps.default 0%nat eq_refl Hlen Hb) as [-> Hn].
    split; [done|]. split.
    - unfold u64_as_f64. destruct (Z.ltb_spec (Z.of_nat n) (2 ^ 53)); [done|lia].
    - unfold AgentMetricsOps.saturating_decrement, AgentMetricsOps.set_cell.
      rewrite decide_True by done. ilia. }
  clear ops Hlen Hb. induction l as [|o l IH]; intros m k Hm Hk Hb; simpl in *.
  { simplify_eq. lia. }
  destruct o as [g v|g v|g].
  - assert ((v = 1 ∧ balanced f (if decide (g = f) then S k else k) l = Some n) ∨
            (g ≠ f ∧ balanced f k l = Some n)) as [[-> Hb']|[Hne Hb']].
    { destruct v as [|[p|p|]|p]; case_decide; naive_solver. }
    + apply (IH _ (if decide (g = f) then S k else k)); [|case_decide; lia|done].
      simpl. unfold AgentMetricsOps.fetch_add, AgentMetricsOps.set_cell.
      case_decide; case_decide; subst; try congruence. rewrite Hm. unfold wrap_u64.
      rewrite Z.mod_small; lia.
    + apply (IH _ k); [|lia|done]. simpl. unfold AgentMetricsOps.fetch_add,
        AgentMetricsOps.set_cell. by rewrite decide_False.
  - case_decide; [done|]. apply (IH _ k); [|lia|done]. simpl.
    unfold AgentMetricsOps.store, AgentMetricsOps.set_cell. by rewrite decide_False.
  - case_decide; subst.
    + destruct k as [|k]; [done|]. apply (IH _ k); [|lia|done]. simpl.
      unfold AgentMetricsOps.saturating_decrement, AgentMetricsOps.set_cell.
      rewrite decide_True by done. rewrite Hm. ilia.
    + apply (IH _ k); [|lia|done]. simpl.
      unfold AgentMetricsOps.saturating_decrement, AgentMetricsOps.set_cell.
      by rewrite decide_False.
Qed.

(** ** Widths *)

(** The operands of the source's operations are [u64] values. *)
Definition u64_operand (o : metric_op) : Prop :=
  match o with FetchAdd _ n | Store _ n => in_u64 n | Decrement _ => True end.

Lemma run_metric_op_u64 m o :
  (∀ f, in_u64 (m f)) → u64_operand o → ∀ f, in_u64 (run_metric_op m o f).
Proof.
  intros Hm Ho f. specialize (Hm f) as Hf. destruct o as [g n|g v|g]; simpl in *;
    unfold AgentMetricsOps.fetch_add, AgentMetricsOps.store, AgentMetricsOps.saturating_decrement,
      AgentMetricsOps.set_cell; case_decide; subst; try done.
  - unfold wrap_u64. pose proof (Z.mod_pos_bound (m g + n) (2 ^ 64)). ilia.
  - ilia.
Qed.

Lemma snapshot_counter m key v :
  counters (snapshot m) !! key = Some v → ∃ f, (key, f) ∈ counter_fields ∧ v = saturating_i64 (m f).
Proof.
  unfold snapshot. cbn [counters]. intros Hl%elem_of_list_to_map_2.
  apply list_elem_of_fmap in Hl as ([k f] & [= -> ->] & Hin). by exists f.
Qed.



Lemma counters_schedule_independent_witness :
  counters (snapshot (run_schedule AgentMetricsOps.default
    [FetchAdd local_turn_started_total 1; FetchAdd local_turn_failed_total 1;
     FetchAdd local_turn_started_total 1])) !! "local_agent_turn_started_total" = Some 2.
Proof.
  exact (proj1 (counters_schedule_independent local_turn_started_total
    "local_agent_turn_started_total"
    [FetchAdd local_turn_started_total 1; FetchAdd local_turn_failed_total 1;
     FetchAdd local_turn_started_total 1] _
    ltac:(compute_decide) ltac:(repeat constructor) (Permutation_refl _))).
Defined.

Lemma active_gauge_correct_witness :
  run_schedule AgentMetricsOps.default
    [FetchAdd local_active_sessions 1; FetchAdd local_active_sessions 1;
     Decrement local_active_sessions] local_active_sessions = 1.
Proof.
  exact (proj1 (active_gauge_correct local_active_sessions
    [FetchAdd local_active_sessions 1; FetchAdd local_active_sessions 1;
     Decrement local_active_sessions] 1 ltac:(vm_compute; reflexivity)
     ltac:(vm_compute; reflexivity))).
Defined.
End MetricFacts.
