(* ===== verification/ForkReason.v ===== *)
(** * Fork reasons

    [crates/cocli-agent/src/fork_reason.rs]: the classification of the reason an agent gives for
    a fork, with the byte slice it takes of the text. *)
From S2P Require Import Prelude Text.

Inductive ForkKind : Type := ForkManual | ContextReset.

Definition CONTEXT_RESET_PREFIX : string := "context_reset:".

(** [str::is_char_boundary]: the byte there, if any, does not continue a character. *)
Definition is_char_boundary (s : string) (n : nat) : bool :=
  match String.get n s with Some c => negb (in_range 128 191 c) | None => bool_decide (n = String.length s) end.

(** [classify_fork_reason]; [None] is the panic of the slice [trimmed[..14]]. *)
Definition classify_fork_reason (reason : string) : option ForkKind :=
  let trimmed := trim reason in
  let n := String.length CONTEXT_RESET_PREFIX in
  if (n <=? String.length trimmed)%nat then
    if is_char_boundary trimmed n then
      Some (if str_eqb (to_ascii_lowercase (String.substring 0 n trimmed)) CONTEXT_RESET_PREFIX
            then ContextReset else ForkManual)
    else None
  else Some ForkManual.

Lemma lowercase_length s : String.length (to_ascii_lowercase s) = String.length s.
Proof. induction s as [|c s IH]; cbn; [done|]. by rewrite IH. Qed.

Lemma substring_prefix n s :
  (n ≤ String.length s)%nat → ∃ rest, s = String.substring 0 n s +:+ rest ∧ String.length (String.substring 0 n s) = n.
Proof.
  revert s. induction n as [|n IH]; intros s Hn.
  { exists s. by destruct s. }
  destruct s as [|c s]; cbn in Hn; [lia|]. destruct (IH s) as (rest & Hs & Hl); [lia|].
  exists rest. cbn. rewrite append_cons, <- Hs, Hl. done.
Qed.

Lemma append_length_inj (a b a' b' : string) :
  String.length a = String.length a' → a +:+ b = a' +:+ b' → a = a' ∧ b = b'.
Proof.
  revert a'. induction a as [|c a IH]; intros [|c' a']; cbn; try lia; [done|].
  intros Hl [= -> H]. apply IH in H as [-> ->]; [done|lia].
Qed.

(** A lower-cased text starts with the prefix exactly when its first bytes lower-case to it. *)
Lemma starts_with_lowercase s :
  starts_with CONTEXT_RESET_PREFIX (to_ascii_lowercase s) = true ↔
  (String.length CONTEXT_RESET_PREFIX ≤ String.length s)%nat ∧
  to_ascii_lowercase (String.substring 0 (String.length CONTEXT_RESET_PREFIX) s) = CONTEXT_RESET_PREFIX.
Proof.
  rewrite starts_with_true. split.
  - intros [r Hr]. assert (String.length CONTEXT_RESET_PREFIX ≤ String.length s)%nat as Hn.
    { rewrite <- (lowercase_length s), Hr, length_append. lia. }
    split; [done|]. destruct (substring_prefix _ _ Hn) as (rest & Hs & Hl).
    rewrite Hs, to_ascii_lowercase_app in Hr. apply append_length_inj in Hr as [Hr _]; [done|].
    by rewrite lowercase_length, Hl.
  - intros [Hn Hp]. destruct (substring_prefix _ _ Hn) as (rest & Hs & _).
    rewrite Hs, to_ascii_lowercase_app, Hp. by eexists.
Qed.

(** The classification is the documented one whenever it returns: a context reset for reasons
    that start, in any case and after trimming, with the prefix, and a manual fork otherwise. *)
Theorem classify_fork_reason_spec reason :
  classify_fork_reason reason =
    (if (String.length CONTEXT_RESET_PREFIX <=? String.length (trim reason))%nat &&
        negb (is_char_boundary (trim reason) (String.length CONTEXT_RESET_PREFIX))
     then None
     else Some (if starts_with CONTEXT_RESET_PREFIX (to_ascii_lowercase (trim reason))
                then ContextReset else ForkManual)).
Proof.
  unfold classify_fork_reason.
  destruct (Nat.leb_spec (String.length CONTEXT_RESET_PREFIX) (String.length (trim reason))) as [Hn|Hn];
    cbn [andb negb].
  - destruct (is_char_boundary _ _); cbn [negb]; [|done].
    assert (str_eqb (to_ascii_lowercase (String.substring 0 (String.length CONTEXT_RESET_PREFIX) (trim reason)))
      CONTEXT_RESET_PREFIX = starts_with CONTEXT_RESET_PREFIX (to_ascii_lowercase (trim reason))) as ->; [|done].
    apply eq_true_iff_eq. rewrite starts_with_lowercase, str_eqb_eq. tauto.
  - f_equal. destruct (starts_with _ _) eqn:E; [|done]. apply starts_with_lowercase in E as [? _]. lia.
Qed.

(** A reason with a character of more than one byte across byte 14 is not classified
    at all: the slice panics, where the documentation has every other reason a manual fork. *)
Theorem classify_fork_reason_panics :
  classify_fork_reason ("thirteen long" +:+ bytes [195; 169]%N +:+ " reason") = None.
Proof. by vm_compute. Qed.
