(* ===== verification/AgentWorkspace.v ===== *)
(** * The workspace directory of an agent, and the gate in front of it

    [crates/cocli-agent/src/workspace.rs] and the file-system part of the router's
    [handle_workspace_list], [handle_workspace_read] and [handle_reset_workspace]
    ([router.rs]). The server names files of an agent's workspace; [resolve_within] decides
    which path, if any, is opened.

    A path is the list of its components, as Rust compares paths (Unix rules; a trailing
    slash is not represented). The file system is a state with the operations of [std::fs]
    that the code calls, given by a class: the containment theorem holds for every one of
    them whose [canonicalize] behaves as documented. *)
From S2P Require Import Prelude Protocol.

(** ** Paths *)

Inductive Component : Type := RootDir | CurDir | ParentDir | Normal (name : string).

#[export] Instance Component_eq_dec : EqDecision Component.
Proof. solve_decision. Defined.

Abbreviation path := (list Component).

(** The pieces of a string between slashes. *)
Fixpoint split_slash (s : string) : list string :=
  match s with
  | "" => [""]
  | String c s' =>
      if Ascii.eqb c (Ascii.ascii_of_N 47) then "" :: split_slash s'
      else match split_slash s' with
           | [] => [String c ""]
           | seg :: segs => String c seg :: segs
           end
  end.

Definition segment_component (seg : string) : list Component :=
  if str_is_empty seg || str_eqb seg "." then []
  else if str_eqb seg ".." then [ParentDir] else [Normal seg].

(** [Path::components]: repeated slashes collapse, and [.] survives only in front of a
    relative path. *)
Definition components (s : string) : path :=
  let segs := split_slash s in
  ((if starts_with "/" s then [RootDir]
    else match segs with seg :: _ => if str_eqb seg "." then [CurDir] else [] | [] => [] end) ++
   concat (map segment_component segs))%list.

Definition is_absolute_path (p : path) : bool :=
  match p with RootDir :: _ => true | _ => false end.

Definition is_cur_dir (c : Component) : bool := bool_decide (c = CurDir).

(** [Path::join]. *)
Definition join (p q : path) : path :=
  if is_absolute_path q then q
  else match p with
       | [] => q
       | _ => (p ++ bfilter (λ c, negb (is_cur_dir c)) q)%list
       end.

(** [PathBuf::pop]: the parent, if there is one. *)
Definition pop (p : path) : option path :=
  match last p with
  | None | Some RootDir => None
  | Some _ => Some (removelast p)
  end.

(** [Path::strip_prefix], component by component, and [Path::starts_with]. *)
Fixpoint strip_path_prefix (p base : path) {struct base} : option path :=
  match base, p with
  | [], _ => Some p
  | b :: base', c :: p' => if decide (b = c) then strip_path_prefix p' base' else None
  | _ :: _, [] => None
  end.
Definition path_starts_with (p base : path) : bool :=
  match strip_path_prefix p base with Some _ => true | None => false end.

(** ** The file system *)

Inductive ErrorKind : Type := PermissionDenied | NotFound | OtherKind.
#[export] Instance ErrorKind_eq_dec : EqDecision ErrorKind.
Proof. solve_decision. Defined.

(** [std::io::Error]: its kind and what its [Display] prints. *)
Record IoError := mkIoError { io_kind : ErrorKind; io_text : string }.

(** [Metadata], and a [DirEntry] with its name, the [to_string_lossy] of it, and the results of
    [metadata()] and [file_type()]. *)
Record Metadata := mkMetadata { md_is_dir : bool; md_len : Z }.
Record DirEntry := mkDirEntry {
  de_file_name : string;
  de_lossy_name : string;
  de_metadata : option Metadata;
  de_type_is_dir : option bool;
}.

(** The operations of [std::fs], and the [Debug] rendering of a path. *)
Class FileSystem (F : Type) := {
  canonicalize : F → path → result path IoError;
  read_dir : F → path → result (list (result DirEntry IoError)) IoError;
  read_file : F → path → result string IoError;
  path_exists : F → path → bool;
  remove_dir_all : F → path → F * result unit IoError;
  remove_file : F → path → F * result unit IoError;
  path_debug : path → string;
}.

(** [canonicalize] returns an absolute path without symbolic links or dots, which is its own
    canonical form. *)
Class FileSystemLaws (F : Type) `{!FileSystem F} : Prop := {
  canonicalize_form fs p r : canonicalize fs p = Ok r → ∃ names, r = RootDir :: map Normal names;
  canonicalize_idem fs p r : canonicalize fs p = Ok r → canonicalize fs r = Ok r;
}.

(** The third-party base64 encoder (RFC 4648, standard alphabet, padded). *)
Class Base64 := { base64_encode : string → string }.

Section Workspace.
Context {F : Type} `{!FileSystem F}.

Definition agent_workspace_dir (root : path) (agent_id : string) : path :=
  join root (components agent_id).

(** The component the loop over [rel_path.components()] rejects, if any. *)
Definition component_error (c : Component) : option IoError :=
  match c with
  | ParentDir => Some (mkIoError PermissionDenied "parent-dir traversal (`..`) not allowed")
  | RootDir => Some (mkIoError PermissionDenied "absolute/prefixed path not allowed")
  | CurDir | Normal _ => None
  end.
Fixpoint reject_component (p : path) : option IoError :=
  match p with
  | [] => None
  | c :: p' => match component_error c with Some e => Some e | None => reject_component p' end
  end.

(** The loop that climbs from [joined] to its deepest existing ancestor. *)
Fixpoint climb (fuel : nat) (fs : F) (root_real joined probe : path) : result path IoError :=
  match canonicalize fs probe with
  | Ok real =>
      if negb (path_starts_with real root_real)
      then Err (mkIoError PermissionDenied "resolved path escapes workspace root")
      else
        let tail := default [] (strip_path_prefix joined probe) in
        Ok (match tail with [] => real | _ => join real tail end)
  | Err _ =>
      match pop probe, fuel with
      | Some probe', S fuel' => climb fuel' fs root_real joined probe'
      | _, _ => Err (mkIoError NotFound "cannot resolve any ancestor of target")
      end
  end.

(** A pop removes a component, so the length of the path bounds the climb. *)
Definition resolve_within (fs : F) (root : path) (rel : string) : result path IoError :=
  let rel_path := components rel in
  if is_absolute_path rel_path then Err (mkIoError PermissionDenied "absolute path not allowed")
  else match reject_component rel_path with
  | Some e => Err e
  | None =>
      match canonicalize fs root with
      | Err e => Err (mkIoError (io_kind e)
                   ("canonicalize root " +:+ path_debug root +:+ ": " +:+ io_text e))
      | Ok root_real =>
          let joined := join root_real rel_path in
          climb (length joined) fs root_real joined joined
      end
  end.

(** ** What the router does with the path *)

Definition file_tree_entry (e : DirEntry) : FileTreeEntry :=
  let is_dir := match de_metadata e with Some md => md_is_dir md | None => false end in
  let size := if is_dir then 0
              else match de_metadata e with Some md => as_i64 (md_len md) | None => 0 end in
  mk_FileTreeEntry (de_lossy_name e) is_dir size.

(** [entries.filter_map(|e| e.ok())]. *)
Definition ok_entries (l : list (result DirEntry IoError)) : list DirEntry :=
  concat (map (λ r, match r with Ok e => [e] | Err _ => [] end) l).

(** The [files] of the reply to [agent:workspace:list]. *)
Definition workspace_list_files (fs : F) (root : path) (m : AgentWorkspaceListMsg)
    : list FileTreeEntry :=
  let work_dir := agent_workspace_dir root (wl_agent_id m) in
  match resolve_within fs work_dir (wl_dir_path m) with
  | Ok target =>
      match read_dir fs target with
      | Ok entries => map file_tree_entry (ok_entries entries)
      | Err _ => []
      end
  | Err _ => []
  end.

Definition MAX_FILE_BYTES : Z := 1024 * 1024.

(** [data[..check_len].contains(&0)] with [check_len = min(len, 512)]. *)
Fixpoint has_nul (n : nat) (s : string) : bool :=
  match n, s with
  | O, _ | _, "" => false
  | S n', String c s' => Ascii.eqb c (Ascii.ascii_of_N 0) || has_nul n' s'
  end.

Context `{!Base64}.

(** The [(content, binary)] of the reply to [agent:workspace:read]. *)
Definition workspace_read_content (fs : F) (root : path) (m : AgentWorkspaceReadMsg)
    : string * bool :=
  let work_dir := agent_workspace_dir root (wr_agent_id m) in
  match resolve_within fs work_dir (wr_path m) with
  | Err e =>
      if bool_decide (io_kind e = PermissionDenied) then ("access denied", false)
      else ("error: " +:+ io_text e, false)
  | Ok target =>
      match read_file fs target with
      | Err e => ("error: " +:+ io_text e, false)
      | Ok data =>
          if MAX_FILE_BYTES <? Z.of_nat (String.length data)
          then ("file too large (>1MB)", true)
          else if has_nul 512 data then (base64_encode data, true)
          else if utf8_valid data then (data, false)
          else (base64_encode data, true)
      end
  end.

(** One entry of [clear_dir_contents]; failures are logged. *)
Definition clear_entry (dir : path) (fs : F) (entry : result DirEntry IoError) : F :=
  match entry with
  | Err _ => fs
  | Ok e =>
      let p := join dir [Normal (de_file_name e)] in
      if default false (de_type_is_dir e) then (remove_dir_all fs p).1 else (remove_file fs p).1
  end.

Definition clear_dir_contents (fs : F) (dir : path) : F * result unit IoError :=
  match read_dir fs dir with
  | Err e => (fs, Err e)
  | Ok entries => (fold_left (clear_entry dir) entries fs, Ok tt)
  end.

(** The effect of [handle_reset_workspace] on the file system. *)
Definition reset_workspace (fs : F) (root : path) (m : AgentResetWorkspaceMsg) : F :=
  let work_dir := agent_workspace_dir root (rw_agent_id m) in
  if path_exists fs work_dir then (clear_dir_contents fs work_dir).1 else fs.
End Workspace.

(** ** The gate *)

Section Gate.
Context {F : Type} `{!FileSystem F, !FileSystemLaws F}.

Lemma strip_path_prefix_Some (p base q : path) :
  strip_path_prefix p base = Some q ↔ p = (base ++ q)%list.
Proof.
  revert p. induction base as [|b base IH]; intros p; simpl; [split; congruence|].
  destruct p as [|c p]; [done|]. case_decide as E; [subst; rewrite IH; simpl; split; congruence|].
  split; [done|]. intros [= -> _]. done.
Qed.

Lemma path_starts_with_true (p base : path) :
  path_starts_with p base = true ↔ ∃ q, p = (base ++ q)%list.
Proof.
  unfold path_starts_with. destruct (strip_path_prefix p base) as [q|] eqn:E.
  - apply strip_path_prefix_Some in E. naive_solver.
  - split; [done|]. intros [q Hq%strip_path_prefix_Some]. congruence.
Qed.

Definition is_normal (c : Component) : Prop := ∃ name, c = Normal name.

Lemma reject_component_None p :
  reject_component p = None → Forall (λ c, is_normal c ∨ c = CurDir) p.
Proof.
  induction p as [|c p IH]; simpl; [constructor|].
  destruct c; simpl; try done; intros H; constructor; auto. left. by eexists.
Qed.

(** What is joined to the canonical root: names only. *)
Lemma join_relative p q :
  p ≠ [] → is_absolute_path q = false → reject_component q = None →
  ∃ names, join p q = (p ++ map Normal names)%list.
Proof.
  intros Hp Hq Hr%reject_component_None. unfold join. rewrite Hq. destruct p as [|c p]; [done|].
  assert (∃ names, bfilter (λ c, negb (is_cur_dir c)) q = map Normal names) as [ns ->]; [|by exists ns].
  clear Hp Hq. induction Hr as [|x q [[n ->] | ->] Hq IH]; simpl; [by exists []| |done].
  destruct IH as [ns ->]. by exists (n :: ns).
Qed.

Lemma pop_snoc p c : c ≠ RootDir → pop (p ++ [c]) = Some p.
Proof.
  intros Hc. unfold pop. rewrite last_snoc. destruct c; try done; by rewrite removelast_last.
Qed.

Lemma pop_Some p p' : pop p = Some p' → ∃ c, p = (p' ++ [c])%list ∧ c ≠ RootDir.
Proof.
  unfold pop. destruct p as [|x p _] using rev_ind; [done|]. rewrite last_snoc, removelast_last.
  destruct x; intros [= <-]; by eexists.
Qed.

(** The climb answers for some ancestor of the target, which is an absolute path. *)
Lemma climb_ok fuel fs root_real names probe q p :
  RootDir :: map Normal names = ((RootDir :: probe) ++ q)%list →
  climb fuel fs root_real (RootDir :: map Normal names) (RootDir :: probe) = Ok p →
  ∃ real tail, (∃ probe', canonicalize fs probe' = Ok real) ∧
    path_starts_with real root_real = true ∧
    p = match map Normal tail with [] => real | _ => join real (map Normal tail) end.
Proof.
  revert probe q. induction fuel as [|fuel IH]; intros probe q Hq; cbn [climb];
    destruct (canonicalize fs (RootDir :: probe)) as [real|e] eqn:Ec.
  1,3: destruct (path_starts_with real root_real) eqn:Es; cbn [negb]; [|done];
       rewrite (proj2 (strip_path_prefix_Some _ _ q) Hq); intros [= <-];
       simpl in Hq; injection Hq as Hq; apply map_eq_app in Hq as (n1 & n2 & _ & _ & <-);
       exists real, n2; eauto.
  - by destruct (pop _).
  - destruct (pop _) as [probe'|] eqn:Ep; [|done].
    apply pop_Some in Ep as (c & Ep & Hc). destruct probe' as [|x probe']; simpl in Ep.
    { injection Ep as <- _. done. }
    injection Ep as <- ->. apply (IH probe' (c :: q)). rewrite Hq. simpl. by rewrite <- app_assoc.
Qed.

(** From the canonical root downwards the climb stops at the root at the latest. *)
Lemma climb_stops fs root_real names n fuel :
  canonicalize fs root_real = Ok root_real → (n ≤ length names)%nat → (n ≤ fuel)%nat →
  match climb fuel fs root_real (root_real ++ map Normal names)
          (root_real ++ map Normal (take n names)) with
  | Ok _ => True
  | Err e => io_kind e = PermissionDenied
  end.
Proof.
  intros Hroot. revert fuel. induction n as [|n IH]; intros fuel Hn Hf.
  - rewrite take_0, app_nil_r. destruct fuel; simpl; rewrite Hroot;
      rewrite (proj2 (path_starts_with_true root_real root_real)); simpl; try done;
      by exists []; rewrite app_nil_r.
  - destruct fuel as [|fuel]; [lia|]. cbn [climb].
    destruct (canonicalize fs (root_real ++ map Normal (take (S n) names))) as [real|e].
    { by destruct (path_starts_with _ _). }
    destruct (lookup_lt_is_Some_2 names n) as [x Hx]; [lia|].
    erewrite take_S_r by exact Hx. rewrite map_app, app_assoc. simpl. rewrite pop_snoc by done.
    apply IH; lia.
Qed.

(** C33 (safety). The gate contains what it lets through: whatever the server asks for and
    whatever symbolic links the workspace holds, a path that [resolve_within] returns is
    the canonical root of the workspace followed by plain names. *)
Theorem resolve_within_contained (fs : F) (root : path) (rel : string) (p : path) :
  resolve_within fs root rel = Ok p →
  ∃ root_real names, canonicalize fs root = Ok root_real ∧ p = (root_real ++ map Normal names)%list.
Proof.
  unfold resolve_within. destruct (is_absolute_path (components rel)) eqn:Habs; [done|].
  destruct (reject_component _) as [e|] eqn:Hrej; [done|].
  destruct (canonicalize fs root) as [root_real|e] eqn:Hroot; [|done].
  destruct (canonicalize_form fs root root_real Hroot) as [rn ->].
  destruct (join_relative (RootDir :: map Normal rn) (components rel)) as [names Hj]; try done.
  cbv zeta. rewrite Hj. rewrite <- app_comm_cons, <- map_app.
  intros (real & tail & [probe Hc] & [q Hq]%path_starts_with_true & ->)%(climb_ok _ _ _ _ _ []);
    [|by rewrite app_nil_r].
  destruct (canonicalize_form fs probe real Hc) as [realn ->].
  simpl in Hq. injection Hq as (n1 & n2 & -> & <- & <-)%map_eq_app.
  exists (RootDir :: map Normal n1), (n2 ++ tail)%list. split; [done|].
  rewrite !map_app. destruct tail as [|t tail]; simpl; [by rewrite app_nil_r|].
  unfold join. cbn [is_absolute_path]. rewrite bfilter_all.
  - simpl. by rewrite <- app_assoc.
  - intros c (x & -> & _)%(list_elem_of_fmap Normal (t :: tail)). done.
Qed.

(** C34 (termination). The gate always decides: for a relative path without [..] under a
    workspace that exists, the climb stops at the workspace root at the latest, so the
    answer is a path or, when a symbolic link leads out of the workspace, a refusal. *)
Theorem resolve_within_decides (fs : F) (root root_real : path) (rel : string) :
  is_absolute_path (components rel) = false → reject_component (components rel) = None →
  canonicalize fs root = Ok root_real →
  match resolve_within fs root rel with
  | Ok _ => True
  | Err e => io_kind e = PermissionDenied
  end.
Proof.
  intros Habs Hrej Hroot. unfold resolve_within. rewrite Habs, Hrej, Hroot.
  destruct (canonicalize_form fs root root_real Hroot) as [rn Hrn].
  destruct (join_relative root_real (components rel)) as [names Hj]; try done; [by subst|].
  rewrite Hj. pose proof (climb_stops fs root_real names (length names)
    (length (root_real ++ map Normal names)%list)) as H.
  rewrite take_ge in H by done. apply H; [by eapply canonicalize_idem|done|].
  rewrite length_app, length_map. lia.
Qed.
End Gate.

(** ** A concrete file system *)

(** [/w/a] is a workspace with a directory [src] and a link [out] to [/etc]. *)
Definition demo_reals : list path :=
  map components ["/"; "/etc"; "/w"; "/w/a"; "/w/a/src"].

#[local] Instance demo_fs : FileSystem unit := {|
  canonicalize _ p :=
    if bool_decide (p ∈ demo_reals) then Ok p
    else if bool_decide (p = components "/w/a/out") then Ok (components "/etc")
    else Err (mkIoError NotFound "No such file or directory (os error 2)");
  read_dir _ _ := Err (mkIoError NotFound "No such file or directory (os error 2)");
  read_file _ _ := Err (mkIoError NotFound "No such file or directory (os error 2)");
  path_exists _ p := bool_decide (p ∈ demo_reals);
  remove_dir_all fs _ := (fs, Ok tt);
  remove_file fs _ := (fs, Ok tt);
  path_debug _ := "path";
|}.

Lemma demo_canonicalize_ok fs p r :
  canonicalize (F := unit) fs p = Ok r → r ∈ demo_reals.
Proof.
  cbn [canonicalize demo_fs]. repeat case_bool_decide; intros [= <-]; [done|].
  compute_decide.
Qed.

#[local] Instance demo_fs_laws : FileSystemLaws unit.
Proof.
  split; intros fs p r H%demo_canonicalize_ok.
  - revert H. unfold demo_reals. simpl map. rewrite !elem_of_cons, elem_of_nil.
    intros [->|[->|[->|[->|[->|[]]]]]];
      [by exists []|by exists ["etc"]|by exists ["w"]|by exists ["w"; "a"]|by exists ["w"; "a"; "src"]].
  - cbn [canonicalize demo_fs]. by rewrite bool_decide_eq_true_2.
Qed.

Lemma resolve_within_contained_witness :
  resolve_within tt (components "/w/a") "./src//new.txt" = Ok (components "/w/a/src/new.txt") ∧
  ∃ root_real names, canonicalize tt (components "/w/a") = Ok root_real ∧
    components "/w/a/src/new.txt" = (root_real ++ map Normal names)%list.
Proof.
  assert (resolve_within tt (components "/w/a") "./src//new.txt"
          = Ok (components "/w/a/src/new.txt")) as H by (vm_compute; reflexivity).
  split; [exact H|]. exact (resolve_within_contained tt _ _ _ H).
Defined.

Lemma resolve_within_decides_witness :
  (resolve_within tt (components "/w/a") "out/passwd" =
     Err (mkIoError PermissionDenied "resolved path escapes workspace root")) ∧
  match resolve_within tt (components "/w/a") "out/passwd" with
  | Ok _ => True
  | Err e => io_kind e = PermissionDenied
  end.
Proof.
  split; [vm_compute; reflexivity|].
  apply (resolve_within_decides tt (components "/w/a") (components "/w/a")); vm_compute; reflexivity.
Defined.

(** The gate starts from a directory that the message chooses: [Path::join] with
    an absolute path replaces the root, and the agent identifier is not checked, so an
    [agent:reset-workspace] for the "agent" ["/etc"] empties [/etc] on every file system
    where it exists, whatever the workspace root is. *)
Theorem reset_escapes_workspace_root {F : Type} `{!FileSystem F} (fs : F) (root : path) :
  reset_workspace fs root (mk_AgentResetWorkspaceMsg "/etc") =
  if path_exists fs [RootDir; Normal "etc"]
  then (clear_dir_contents fs [RootDir; Normal "etc"]).1 else fs.
Proof. reflexivity. Qed.
