(* ===== verification/Router.v ===== *)
(** * The agent router

    [crates/cocli-agent/src/router.rs] with the command and state-change types of [types.rs]
    and [compose_session_bootstrap_prompt] of [prompt.rs]: the actor that owns the table of
    running agents, feeds their mailboxes from the server's messages, buffers what a mailbox
    cannot take and answers for working state and workspace files.

    The mailboxes are shared with the agent actors, which run concurrently: the state keeps
    a heap of channels, the router's table holds channel indices, and before every channel
    operation the environment says how many commands the receiving actor has taken since and
    whether it has dropped its end. A blocking [send] resumes when the receiver has made room.
    The outbound and state channels are the sequences of what was sent on them. The buffer is
    used through the interface of [Queue]. *)
From S2P Require Import Prelude Protocol Queue Working Metrics AgentWorkspace.

Inductive AgentCmd : Type :=
  | Deliver (m : AgentDeliverMsg)
  | TurnCancel
  | Stop (force : bool).

Inductive AgentStateChange : Type :=
  | Spawned (agent_id : string)
  | Running (agent_id session_id : string)
  | Stopping (agent_id : string)
  | Stopped (agent_id end_reason : string).

(** ** Prompts *)

Definition nl : string := bytes [10%N].
Definition quoted (s : string) : string := bytes [34%N] +:+ s +:+ bytes [34%N].

Definition build_bootstrap_prompt (config : AgentConfig) (today : string) : string :=
  let name := ac_name config in
  let display_name := if str_is_empty (ac_display_name config) then name else ac_display_name config in
  "You are " +:+ name +:+ " (" +:+ display_name +:+ "), an AI agent on the cocli platform." +:+ nl +:+
  nl +:+
  "# Current Date" +:+ nl +:+
  "Today is " +:+ today +:+ "." +:+ nl +:+
  nl +:+
  "# Chat Tools (prefix " +:+ quoted "mcp__chat__" +:+ ")" +:+ nl +:+
  "send_message, check_messages, read_history, list_tasks, create_tasks," +:+ nl +:+
  "claim_tasks, unclaim_task, update_task_status." +:+ nl +:+
  nl +:+
  "# Critical Rules" +:+ nl +:+
  "- ALL replies MUST go through mcp__chat__send_message — never output plain text as a reply." +:+ nl +:+
  "- Text you output as model text is NOT delivered to channel users. Only mcp__chat__send_message creates visible messages." +:+ nl +:+
  "- For every user message you receive, call mcp__chat__send_message with your reply.".

Definition build_initial_prompt : string :=
  "You have just started. Use mcp__chat__check_messages to see if there are any pending messages.".

Definition compose_session_bootstrap_prompt (system_prompt initial_prompt : string) : string :=
  let initial_prompt := trim initial_prompt in
  if str_is_empty initial_prompt then ""
  else
    let system_prompt := trim system_prompt in
    if str_is_empty system_prompt then initial_prompt
    else system_prompt +:+ nl +:+ nl +:+ "---" +:+ nl +:+ nl +:+ initial_prompt.

(** ** Channels *)

(** A mailbox: what is queued, what the actor has taken, whether the actor still holds the
    receiving end, and whether the receiving end has been handed to the actor's task. *)
Record Mailbox := mkMailbox {
  mb_queue : list AgentCmd;
  mb_taken : list AgentCmd;
  mb_open : bool;
  mb_started : bool;
}.

Inductive SendResult : Type := Sent | Full | Closed.

(** The concurrent world: how many commands the receiver takes, and whether it goes away,
    just before the [n]-th channel operation; the clock and the local date. *)
Record REnv := mkREnv {
  re_taken : nat → nat;
  re_closed : nat → bool;
  re_now : nat → Z;
  re_today : nat → string;
}.

(** The receiver moves: it takes commands in order, or drops the channel with its content. *)
Definition interfere (e : REnv) (n : nat) (b : Mailbox) : Mailbox :=
  if negb (mb_started b && mb_open b) then b
  else
    let taken := (mb_taken b ++ take (re_taken e n) (mb_queue b))%list in
    if re_closed e n then mkMailbox [] taken false true
    else mkMailbox (drop (re_taken e n) (mb_queue b)) taken true true.

Definition push (c : AgentCmd) (b : Mailbox) : Mailbox :=
  mkMailbox (mb_queue b ++ [c]) (mb_taken b) (mb_open b) (mb_started b).

(** [mpsc::Sender::try_send] on a channel of capacity [MAX_PENDING_PER_AGENT]. *)
Definition try_send_mailbox (c : AgentCmd) (b : Mailbox) : SendResult * Mailbox :=
  if negb (mb_open b) then (Closed, b)
  else if (MAX_PENDING_PER_AGENT <=? length (mb_queue b))%nat then (Full, b)
  else (Sent, push c b).

(** [mpsc::Sender::send(..).await]: with a full queue it completes once the receiver has
    taken enough commands to leave one slot. *)
Definition send_mailbox (c : AgentCmd) (b : Mailbox) : Mailbox :=
  if negb (mb_open b) then b
  else
    let excess := (S (length (mb_queue b)) - MAX_PENDING_PER_AGENT)%nat in
    push c (mkMailbox (drop excess (mb_queue b)) (mb_taken b ++ take excess (mb_queue b))
              (mb_open b) (mb_started b)).

(** ** State *)

Record DaemonConfig := mkDaemonConfig {
  dcfg_server_url : string;
  dcfg_machine_id : string;
  dcfg_api_key : string;
  dcfg_agent_workspace_root : path;
}.

(** The runtime registry, shared by reference, is not represented. *)
Record StartCfg := mkStartCfg {
  sc_runtime_name : string;
  sc_workspace_root : path;
  sc_server_url : string;
  sc_auth_token : string;
  sc_channel_id : Uuid;
  sc_channel_name : string;
  sc_model : string;
  sc_launch_id : string;
  sc_resume_session : option string;
  sc_system_prompt : string;
  sc_initial_prompt : string;
  sc_env_vars : gmap string string;
}.

Section Router.
Context {Q : Type} `{!DeliveryBuffer Q}.
Context {F : Type} `{!FileSystem F} {B64 : Base64}.
Context {TS : Rfc3339}.

Record AgentRouter := mkAgentRouter {
  rt_cfg : DaemonConfig;
  rt_agents : gmap string nat;
  rt_delivery_queue : Q;
  rt_running_registry : gset string;
  rt_working : WorkingMemoryStore.t;
  rt_metrics : AgentMetrics;
  rt_mailboxes : list Mailbox;
  rt_tasks : list (string * nat * StartCfg);
  rt_outbound : list DaemonMsg;
  rt_state_tx : list AgentStateChange;
  rt_fs : F;
  rt_ctr : nat;
}.

Definition set_agents (a : gmap string nat) (s : AgentRouter) : AgentRouter :=
  mkAgentRouter (rt_cfg s) a (rt_delivery_queue s) (rt_running_registry s) (rt_working s)
    (rt_metrics s) (rt_mailboxes s) (rt_tasks s) (rt_outbound s) (rt_state_tx s) (rt_fs s) (rt_ctr s).
Definition set_queue (q : Q) (s : AgentRouter) : AgentRouter :=
  mkAgentRouter (rt_cfg s) (rt_agents s) q (rt_running_registry s) (rt_working s)
    (rt_metrics s) (rt_mailboxes s) (rt_tasks s) (rt_outbound s) (rt_state_tx s) (rt_fs s) (rt_ctr s).
Definition set_registry (g : gset string) (s : AgentRouter) : AgentRouter :=
  mkAgentRouter (rt_cfg s) (rt_agents s) (rt_delivery_queue s) g (rt_working s)
    (rt_metrics s) (rt_mailboxes s) (rt_tasks s) (rt_outbound s) (rt_state_tx s) (rt_fs s) (rt_ctr s).
Definition set_working (w : WorkingMemoryStore.t) (s : AgentRouter) : AgentRouter :=
  mkAgentRouter (rt_cfg s) (rt_agents s) (rt_delivery_queue s) (rt_running_registry s) w
    (rt_metrics s) (rt_mailboxes s) (rt_tasks s) (rt_outbound s) (rt_state_tx s) (rt_fs s) (rt_ctr s).
Definition on_metrics (f : AgentMetrics → AgentMetrics) (s : AgentRouter) : AgentRouter :=
  mkAgentRouter (rt_cfg s) (rt_agents s) (rt_delivery_queue s) (rt_running_registry s) (rt_working s)
    (f (rt_metrics s)) (rt_mailboxes s) (rt_tasks s) (rt_outbound s) (rt_state_tx s) (rt_fs s) (rt_ctr s).
Definition set_mailboxes (b : list Mailbox) (s : AgentRouter) : AgentRouter :=
  mkAgentRouter (rt_cfg s) (rt_agents s) (rt_delivery_queue s) (rt_running_registry s) (rt_working s)
    (rt_metrics s) b (rt_tasks s) (rt_outbound s) (rt_state_tx s) (rt_fs s) (rt_ctr s).
Definition add_task (t : string * nat * StartCfg) (s : AgentRouter) : AgentRouter :=
  mkAgentRouter (rt_cfg s) (rt_agents s) (rt_delivery_queue s) (rt_running_registry s) (rt_working s)
    (rt_metrics s) (rt_mailboxes s) (rt_tasks s ++ [t]) (rt_outbound s) (rt_state_tx s) (rt_fs s)
    (rt_ctr s).
Definition set_fs (fs : F) (s : AgentRouter) : AgentRouter :=
  mkAgentRouter (rt_cfg s) (rt_agents s) (rt_delivery_queue s) (rt_running_registry s) (rt_working s)
    (rt_metrics s) (rt_mailboxes s) (rt_tasks s) (rt_outbound s) (rt_state_tx s) fs (rt_ctr s).
Definition tick (s : AgentRouter) : AgentRouter :=
  mkAgentRouter (rt_cfg s) (rt_agents s) (rt_delivery_queue s) (rt_running_registry s) (rt_working s)
    (rt_metrics s) (rt_mailboxes s) (rt_tasks s) (rt_outbound s) (rt_state_tx s) (rt_fs s)
    (S (rt_ctr s)).

(** [outbound_tx.send(..).await] and [state_tx.send(..).await]. *)
Definition send_outbound (m : DaemonMsg) (s : AgentRouter) : AgentRouter :=
  mkAgentRouter (rt_cfg s) (rt_agents s) (rt_delivery_queue s) (rt_running_registry s) (rt_working s)
    (rt_metrics s) (rt_mailboxes s) (rt_tasks s) (rt_outbound s ++ [m]) (rt_state_tx s) (rt_fs s)
    (rt_ctr s).
Definition send_state (c : AgentStateChange) (s : AgentRouter) : AgentRouter :=
  mkAgentRouter (rt_cfg s) (rt_agents s) (rt_delivery_queue s) (rt_running_registry s) (rt_working s)
    (rt_metrics s) (rt_mailboxes s) (rt_tasks s) (rt_outbound s) (rt_state_tx s ++ [c]) (rt_fs s)
    (rt_ctr s).

Definition new (cfg : DaemonConfig) (fs : F) : AgentRouter :=
  mkAgentRouter cfg ∅ buf_new ∅ WorkingMemoryStore.new AgentMetricsOps.default [] [] [] [] fs 0.

(** A channel operation: the receiver moves first. *)
Definition try_send (e : REnv) (tx : nat) (c : AgentCmd) (s : AgentRouter)
    : SendResult * AgentRouter :=
  match rt_mailboxes s !! tx with
  | None => (Closed, tick s)
  | Some b =>
      let '(r, b') := try_send_mailbox c (interfere e (rt_ctr s) b) in
      (r, tick (set_mailboxes (<[tx := b']> (rt_mailboxes s)) s))
  end.
Definition send (e : REnv) (tx : nat) (c : AgentCmd) (s : AgentRouter) : AgentRouter :=
  match rt_mailboxes s !! tx with
  | None => tick s
  | Some b =>
      tick (set_mailboxes (<[tx := send_mailbox c (interfere e (rt_ctr s) b)]> (rt_mailboxes s)) s)
  end.

(** ** Deliveries *)

Definition buffer_delivery (agent_id : string) (delivery : AgentDeliverMsg) (s : AgentRouter)
    : AgentRouter :=
  let '(r, q) := buf_enqueue (rt_delivery_queue s) agent_id delivery in
  let s := set_queue q s in
  let s := on_metrics
    match r with
    | Queued => AgentMetricsOps.inc_delivery_queue_buffered
    | Updated => AgentMetricsOps.inc_delivery_queue_updated
    | RejectedFull => AgentMetricsOps.inc_delivery_queue_rejected
    end s in
  on_metrics (AgentMetricsOps.set_delivery_queue_depth (buf_total_len (rt_delivery_queue s))) s.

(** The [while let Some(delivery) = pending.next()] loop: the number sent, and, when a send
    failed, how, with the delivery that failed and the ones after it. *)
Fixpoint flush_loop (e : REnv) (tx : nat) (pending : list AgentDeliverMsg) (sent : nat)
    (s : AgentRouter) : AgentRouter * nat * option (SendResult * list AgentDeliverMsg) :=
  match pending with
  | [] => (s, sent, None)
  | delivery :: rest =>
      match try_send e tx (Deliver delivery) s with
      | (Sent, s') => flush_loop e tx rest (S sent) s'
      | (r, s') => (s', sent, Some (r, delivery :: rest))
      end
  end.

Definition flush_delivery_queue_for_agent (e : REnv) (agent_id : string) (tx : nat)
    (s : AgentRouter) : AgentRouter :=
  let '(buffered, q) := buf_drain (rt_delivery_queue s) agent_id in
  let s := set_queue q s in
  match buffered with
  | [] => s
  | _ =>
      let s := on_metrics
        (AgentMetricsOps.set_delivery_queue_depth (buf_total_len (rt_delivery_queue s))) s in
      let '(s, sent, stopped) := flush_loop e tx buffered 0 s in
      let s :=
        match stopped with
        | None => s
        | Some (r, remaining) =>
            let s := set_queue (buf_prepend (rt_delivery_queue s) agent_id remaining) s in
            let s := on_metrics
              (AgentMetricsOps.add_delivery_queue_rebuffered (length remaining)) s in
            match r with
            | Closed => set_agents (delete agent_id (rt_agents s)) s
            | _ => s
            end
        end in
      let s := on_metrics (AgentMetricsOps.add_delivery_queue_flush_sent sent) s in
      on_metrics
        (AgentMetricsOps.set_delivery_queue_depth (buf_total_len (rt_delivery_queue s))) s
  end.

Definition handle_deliver (e : REnv) (m : AgentDeliverMsg) (s : AgentRouter) : AgentRouter :=
  let agent_id := ad_agent_id m in
  match rt_agents s !! agent_id with
  | Some tx =>
      let s := flush_delivery_queue_for_agent e agent_id tx s in
      match try_send e tx (Deliver m) s with
      | (Sent, s) => s
      | (Full, s) => buffer_delivery agent_id m s
      | (Closed, s) =>
          let s := buffer_delivery agent_id m s in
          set_agents (delete agent_id (rt_agents s)) s
      end
  | None => buffer_delivery agent_id m s
  end.

(** ** Life cycle of agents *)

(** The task spawned at the end runs the actor; what it reports comes back through
    [handle_state_change]. *)
Definition spawn_agent (e : REnv) (agent_id : string) (config : AgentConfig) (launch_id : string)
    (resume_session : option string) (s : AgentRouter) : AgentRouter :=
  match rt_agents s !! agent_id with
  | Some _ => s
  | None =>
      let tx := length (rt_mailboxes s) in
      let s := set_mailboxes (rt_mailboxes s ++ [mkMailbox [] [] true false]) s in
      let s := set_agents (<[agent_id := tx]> (rt_agents s)) s in
      let s := flush_delivery_queue_for_agent e agent_id tx s in
      let s := set_registry ({[agent_id]} ∪ rt_running_registry s) s in
      let s := send_state (Spawned agent_id) s in
      let system_prompt := build_bootstrap_prompt config (re_today e (rt_ctr s)) in
      let cfg := mkStartCfg
        (if str_is_empty (ac_runtime config) then "claude" else ac_runtime config)
        (dcfg_agent_workspace_root (rt_cfg s)) (dcfg_server_url (rt_cfg s))
        (dcfg_api_key (rt_cfg s)) 0%N "" (ac_model config) launch_id resume_session system_prompt
        (compose_session_bootstrap_prompt system_prompt build_initial_prompt)
        (default ∅ (ac_env_vars config)) in
      let s := set_mailboxes (alter (λ b, mkMailbox (mb_queue b) (mb_taken b) (mb_open b) true) tx
                                (rt_mailboxes s)) s in
      add_task (agent_id, tx, cfg) s
  end.

Definition handle_start (e : REnv) (m : AgentStartMsg) (s : AgentRouter) : AgentRouter :=
  spawn_agent e (sm_agent_id m) (sm_config m) (sm_launch_id m) None s.

Definition handle_stop (e : REnv) (m : AgentStopMsg) (s : AgentRouter) : AgentRouter :=
  match rt_agents s !! sp_agent_id m with
  | Some tx => send e tx (Stop (sp_force m)) s
  | None => s
  end.

Definition handle_turn_cancel (e : REnv) (m : AgentTurnCancelMsg) (s : AgentRouter) : AgentRouter :=
  match rt_agents s !! tc_agent_id m with
  | Some tx => send e tx TurnCancel s
  | None => s
  end.

Definition recover_session (e : REnv) (s : AgentRouter) (sess : RecoverSession) : AgentRouter :=
  match rt_agents s !! rs_agent_id sess with
  | Some _ => s
  | None => spawn_agent e (rs_agent_id sess) (rs_config sess) "" (Some (rs_session_id sess)) s
  end.
Definition handle_recover (e : REnv) (m : AgentRecoverSessionsMsg) (s : AgentRouter) : AgentRouter :=
  fold_left (recover_session e) (rc_sessions m) s.

Definition handle_state_change (change : AgentStateChange) (s : AgentRouter) : AgentRouter :=
  match change with
  | Spawned _ | Running _ _ | Stopping _ => s
  | Stopped agent_id _ =>
      let s := set_agents (delete agent_id (rt_agents s)) s in
      let s := set_queue (buf_forget (rt_delivery_queue s) agent_id) s in
      let s := on_metrics
        (AgentMetricsOps.set_delivery_queue_depth (buf_total_len (rt_delivery_queue s))) s in
      let s := set_registry (rt_running_registry s ∖ {[agent_id]}) s in
      let s := set_working (WorkingMemoryStore.clear (rt_working s) agent_id) s in
      send_outbound (AgentStatus (mk_AgentStatusMsg agent_id "inactive" "" "")) s
  end.

(** ** Workspace and working-state requests *)

Definition handle_workspace_list (m : AgentWorkspaceListMsg) (s : AgentRouter) : AgentRouter :=
  let files := workspace_list_files (rt_fs s) (dcfg_agent_workspace_root (rt_cfg s)) m in
  send_outbound (AgentWorkspaceFileTree
    (mk_AgentWorkspaceFileTreeMsg (wl_agent_id m) (wl_request_id m) (wl_dir_path m) files)) s.

Definition handle_workspace_read (m : AgentWorkspaceReadMsg) (s : AgentRouter) : AgentRouter :=
  let '(content, binary) :=
    workspace_read_content (rt_fs s) (dcfg_agent_workspace_root (rt_cfg s)) m in
  send_outbound (AgentWorkspaceFileContent
    (mk_AgentWorkspaceFileContentMsg (wr_agent_id m) (wr_request_id m) content binary)) s.

Definition handle_reset_workspace (m : AgentResetWorkspaceMsg) (s : AgentRouter) : AgentRouter :=
  set_fs (reset_workspace (rt_fs s) (dcfg_agent_workspace_root (rt_cfg s)) m) s.

Definition handle_working_set (e : REnv) (m : AgentWorkingSetMsg) (s : AgentRouter) : AgentRouter :=
  let incoming := mk_WorkingStatePayload (ws_task_id m) (ws_task_number m) (ws_channel_name m)
                    (ws_summary m) (ws_next_step_hint m) "" "" in
  let '(stored, w) :=
    WorkingMemoryStore.set (rt_working s) (ws_agent_id m) incoming (re_now e (rt_ctr s)) in
  send_outbound (AgentWorkingResult
    (mk_AgentWorkingResultMsg (ws_agent_id m) (ws_request_id m) "set" (Some stored) "" ""))
    (tick (set_working w s)).

Definition handle_working_get (m : AgentWorkingGetMsg) (s : AgentRouter) : AgentRouter :=
  send_outbound (AgentWorkingResult
    (mk_AgentWorkingResultMsg (wg_agent_id m) (wg_request_id m) "get"
       (WorkingMemoryStore.get (rt_working s) (wg_agent_id m)) "" "")) s.

Definition handle_working_clear (m : AgentWorkingClearMsg) (s : AgentRouter) : AgentRouter :=
  let s := set_working (WorkingMemoryStore.clear (rt_working s) (wc_agent_id m)) s in
  send_outbound (AgentWorkingResult
    (mk_AgentWorkingResultMsg (wc_agent_id m) (wc_request_id m) "clear" None "" "")) s.

(** The server going away keeps the agents alive: only a log line. *)
Definition handle_server_shutdown (m : ServerShutdownMsg) (s : AgentRouter) : AgentRouter := s.

(** ** The loop of [Actor::run] *)

(** One iteration of the [select!]: a server message or a state change. *)
Inductive Input : Type :=
  | FromServer (m : ServerMsg)
  | FromActor (c : AgentStateChange).

Definition step (e : REnv) (i : Input) (s : AgentRouter) : AgentRouter :=
  match i with
  | FromServer (AgentStart m) => handle_start e m s
  | FromServer (AgentStop m) => handle_stop e m s
  | FromServer (AgentDeliver m) => handle_deliver e m s
  | FromServer (AgentTurnCancel m) => handle_turn_cancel e m s
  | FromServer (AgentRecoverSessions m) => handle_recover e m s
  | FromServer (AgentWorkspaceList m) => handle_workspace_list m s
  | FromServer (AgentWorkspaceRead m) => handle_workspace_read m s
  | FromServer (AgentResetWorkspace m) => handle_reset_workspace m s
  | FromServer (AgentWorkingSet m) => handle_working_set e m s
  | FromServer (AgentWorkingGet m) => handle_working_get m s
  | FromServer (AgentWorkingClear m) => handle_working_clear m s
  | FromServer Ping => s
  | FromServer (ServerShutdown m) => handle_server_shutdown m s
  | FromServer UnknownServerMsg => s
  | FromActor c => handle_state_change c s
  end.

Definition run (e : REnv) (inputs : list Input) (s : AgentRouter) : AgentRouter :=
  fold_left (λ s i, step e i s) inputs s.

(** The shutdown at the end of [run]: a stop for every agent, in the table's order. *)
Definition shutdown (e : REnv) (s : AgentRouter) : AgentRouter :=
  set_agents ∅ (fold_left (λ s p, send e p.2 (Stop false) s) (map_to_list (rt_agents s)) s).
End Router.

(** ** Mailboxes *)

(** Everything a mailbox has accepted, in order. *)
Definition mb_log (b : Mailbox) : list AgentCmd := (mb_taken b ++ mb_queue b)%list.
Definition mb_ok (b : Mailbox) : Prop := (length (mb_queue b) ≤ MAX_PENDING_PER_AGENT)%nat.

Lemma interfere_ok e n b : mb_ok b → mb_ok (interfere e n b).
Proof.
  unfold mb_ok, interfere. intros H. destruct (negb _); [done|].
  destruct (re_closed e n); simpl; [lia|]. rewrite length_drop. lia.
Qed.

(** A receiver that does not go away only moves commands from the queue to what it took. *)
Lemma interfere_log e n b :
  re_closed e n = false →
  mb_log (interfere e n b) = mb_log b ∧ mb_open (interfere e n b) = mb_open b.
Proof.
  unfold interfere, mb_log. intros ->. destruct (mb_started b), (mb_open b) eqn:Ho; simpl; try done.
  by rewrite <- app_assoc, take_drop.
Qed.

(** A receiver that takes nothing leaves the queue alone. *)
Lemma interfere_idle e n b :
  re_closed e n = false → re_taken e n = 0%nat → mb_queue (interfere e n b) = mb_queue b.
Proof. unfold interfere. intros -> ->. by destruct (negb _). Qed.

Lemma try_send_mailbox_ok c b : mb_ok b → mb_ok (try_send_mailbox c b).2.
Proof.
  unfold mb_ok, try_send_mailbox. intros H. destruct (negb _); [done|].
  destruct (Nat.leb_spec MAX_PENDING_PER_AGENT (length (mb_queue b))); simpl; [done|].
  rewrite length_app. simpl. lia.
Qed.

Lemma try_send_mailbox_log c b :
  mb_open b = true →
  (try_send_mailbox c b).1 ≠ Closed ∧
  mb_open (try_send_mailbox c b).2 = true ∧
  mb_log (try_send_mailbox c b).2 =
    (mb_log b ++ match (try_send_mailbox c b).1 with Sent => [c] | _ => [] end)%list.
Proof.
  unfold try_send_mailbox, mb_log. intros Ho. rewrite Ho. cbn [negb].
  destruct (MAX_PENDING_PER_AGENT <=? length (mb_queue b))%nat; simpl; [by rewrite app_nil_r|].
  by rewrite app_assoc.
Qed.

Lemma send_mailbox_ok c b : mb_ok b → mb_ok (send_mailbox c b).
Proof.
  unfold mb_ok, send_mailbox, MAX_PENDING_PER_AGENT. intros H. destruct (negb _); [done|].
  cbn [mb_queue push]. rewrite length_app, length_drop. simpl. lia.
Qed.

Section RouterFacts.
Context {Q : Type} `{!DeliveryBuffer Q, !DeliveryBufferLaws Q}.
Context {F : Type} `{!FileSystem F} {B64 : Base64}.
Context {TS : Rfc3339}.
Implicit Types (s : AgentRouter (Q := Q) (F := F)) (e : REnv) (id : string) (tx : nat).

Definition log_of s tx : list AgentCmd := default [] (mb_log <$> rt_mailboxes s !! tx).
Definition is_open s tx : Prop := ∃ b, rt_mailboxes s !! tx = Some b ∧ mb_open b = true.

(** What a channel operation leaves alone. *)
Record same_but_mailbox tx s s' : Prop := {
  sb_agents : rt_agents s' = rt_agents s;
  sb_queue : rt_delivery_queue s' = rt_delivery_queue s;
  sb_registry : rt_running_registry s' = rt_running_registry s;
  sb_working : rt_working s' = rt_working s;
  sb_metrics : rt_metrics s' = rt_metrics s;
  sb_tasks : rt_tasks s' = rt_tasks s;
  sb_len : length (rt_mailboxes s') = length (rt_mailboxes s);
  sb_other tx' : tx' ≠ tx → rt_mailboxes s' !! tx' = rt_mailboxes s !! tx';
  sb_ok : Forall mb_ok (rt_mailboxes s) → Forall mb_ok (rt_mailboxes s');
}.

Lemma same_refl tx s : same_but_mailbox tx s s.
Proof. by split. Qed.
Lemma same_trans tx s1 s2 s3 :
  same_but_mailbox tx s1 s2 → same_but_mailbox tx s2 s3 → same_but_mailbox tx s1 s3.
Proof.
  intros [] []. split; try congruence; [|by auto]. intros tx' Hne. rewrite sb_other1 by done. auto.
Qed.

Lemma try_send_same e tx c s : same_but_mailbox tx s (try_send e tx c s).2.
Proof.
  unfold try_send. destruct (rt_mailboxes s !! tx) as [b|] eqn:Hb; [|by split].
  destruct (try_send_mailbox c (interfere e (rt_ctr s) b)) as [r b'] eqn:E. split; simpl; try done.
  - by rewrite length_insert.
  - intros tx' Hne. by rewrite list_lookup_insert_ne.
  - intros Hok. apply Forall_insert; [done|]. replace b' with (r, b').2 by done. rewrite <- E.
    apply try_send_mailbox_ok, interfere_ok. by eapply Forall_lookup_1.
Qed.

Lemma send_same e tx c s : same_but_mailbox tx s (send e tx c s).
Proof.
  unfold send. destruct (rt_mailboxes s !! tx) as [b|] eqn:Hb; [|by split].
  split; simpl; try done.
  - by rewrite length_insert.
  - intros tx' Hne. by rewrite list_lookup_insert_ne.
  - intros Hok. apply Forall_insert; [done|]. apply send_mailbox_ok, interfere_ok.
    by eapply Forall_lookup_1.
Qed.

(** On an open mailbox, with a receiver that stays, [try_send] appends or does nothing. *)
Lemma try_send_log e tx c s :
  (∀ n, re_closed e n = false) → is_open s tx →
  (try_send e tx c s).1 ≠ Closed ∧ is_open (try_send e tx c s).2 tx ∧
  log_of (try_send e tx c s).2 tx =
    (log_of s tx ++ match (try_send e tx c s).1 with Sent => [c] | _ => [] end)%list.
Proof.
  intros He (b & Hb & Ho). unfold try_send, log_of. rewrite Hb.
  destruct (interfere_log e (rt_ctr s) b (He _)) as [Hlog Hopen]. rewrite Ho in Hopen.
  destruct (try_send_mailbox_log c _ Hopen) as (Hr & Ho' & Hlog').
  destruct (try_send_mailbox c (interfere e (rt_ctr s) b)) as [r b'] eqn:E. simpl in *.
  assert (<[tx:=b']> (rt_mailboxes s) !! tx = Some b') as Hl.
  { apply list_lookup_insert_eq. by eapply lookup_lt_Some. }
  split_and!; [done| |].
  - exists b'. by split; [exact Hl|].
  - cbn [rt_mailboxes tick set_mailboxes]. rewrite Hl. simpl. by rewrite Hlog', Hlog.
Qed.

(** A refused [try_send] leaves a full mailbox, which refuses until something is taken. *)
Definition is_full s tx : Prop :=
  ∃ b, rt_mailboxes s !! tx = Some b ∧ mb_open b = true ∧
       (MAX_PENDING_PER_AGENT ≤ length (mb_queue b))%nat.

Lemma try_send_mailbox_full c b :
  (try_send_mailbox c b).1 = Full ↔
  mb_open b = true ∧ (MAX_PENDING_PER_AGENT ≤ length (mb_queue b))%nat.
Proof.
  unfold try_send_mailbox. destruct (mb_open b); cbn [negb]; [|by split; [|intros [? _]]].
  destruct (Nat.leb_spec MAX_PENDING_PER_AGENT (length (mb_queue b))); simpl; [done|].
  split; [done|]. intros [_ ?]. lia.
Qed.

Lemma try_send_full e tx c s : (try_send e tx c s).1 = Full → is_full (try_send e tx c s).2 tx.
Proof.
  unfold try_send. destruct (rt_mailboxes s !! tx) as [b|] eqn:Hb; [|done].
  pose proof (try_send_mailbox_full c (interfere e (rt_ctr s) b)) as Hfull.
  assert ((try_send_mailbox c (interfere e (rt_ctr s) b)).1 = Full →
          (try_send_mailbox c (interfere e (rt_ctr s) b)).2 = interfere e (rt_ctr s) b) as Hsame.
  { unfold try_send_mailbox. destruct (negb _); [done|]. by destruct (_ <=? length _)%nat. }
  destruct (try_send_mailbox c _) as [r b'] eqn:E. simpl in *. intros ->. rewrite Hsame by done.
  destruct (proj1 Hfull eq_refl) as [Ho Hl]. exists (interfere e (rt_ctr s) b).
  split; [|done]. simpl. apply list_lookup_insert_eq. by eapply lookup_lt_Some.
Qed.

Lemma try_send_still_full e tx c s :
  re_closed e (rt_ctr s) = false → re_taken e (rt_ctr s) = 0%nat → is_full s tx →
  (try_send e tx c s).1 = Full.
Proof.
  intros Hc Ht (b & Hb & Ho & Hl). unfold try_send. rewrite Hb.
  destruct (interfere_log e (rt_ctr s) b Hc) as [_ Ho']. rewrite Ho in Ho'.
  assert ((try_send_mailbox c (interfere e (rt_ctr s) b)).1 = Full) as H.
  { apply try_send_mailbox_full. by rewrite (interfere_idle _ _ _ Hc Ht). }
  by destruct (try_send_mailbox c _).
Qed.

(** The flush loop sends a prefix and hands back the rest. *)
Lemma flush_loop_same e tx l n s : same_but_mailbox tx s (flush_loop e tx l n s).1.1.
Proof.
  revert n s. induction l as [|m l IH]; intros n s; simpl; [by apply same_refl|].
  pose proof (try_send_same e tx (Deliver m) s) as H.
  destruct (try_send e tx (Deliver m) s) as [[] s']; simpl in *; try done.
  by eapply same_trans.
Qed.

Lemma flush_loop_rest e tx l n s :
  match (flush_loop e tx l n s).2 with
  | None => True
  | Some (r, rest) => ∃ k, rest = drop k l ∧ (k < length l)%nat
  end.
Proof.
  revert n s. induction l as [|m l IH]; intros n s; simpl; [done|].
  destruct (try_send e tx (Deliver m) s) as [[] s']; simpl; [|by exists 0%nat; split; [|lia]..].
  specialize (IH (S n) s'). destruct (flush_loop e tx l (S n) s') as [[? ?] [[r rest]|]]; [|done].
  destruct IH as (k & -> & Hk). exists (S k). simpl. split; [done|lia].
Qed.

Lemma flush_loop_log e tx l n s :
  (∀ n, re_closed e n = false) → is_open s tx →
  let '(s', _, stopped) := flush_loop e tx l n s in
  is_open s' tx ∧
  match stopped with
  | None => log_of s' tx = (log_of s tx ++ map Deliver l)%list
  | Some (r, rest) => r = Full ∧ is_full s' tx ∧ ∃ k, rest = drop k l ∧ (k < length l)%nat ∧
      log_of s' tx = (log_of s tx ++ map Deliver (take k l))%list
  end.
Proof.
  intros He. revert n s. induction l as [|m l IH]; intros n s Ho; simpl; [by rewrite app_nil_r|].
  destruct (try_send_log e tx (Deliver m) s He Ho) as (Hr & Ho' & Hlog).
  destruct (try_send e tx (Deliver m) s) as [r s'] eqn:E. simpl in *.
  destruct r; [| |done].
  - specialize (IH (S n) s' Ho'). destruct (flush_loop e tx l (S n) s') as [[s2 k] [[r rest]|]].
    + destruct IH as (Ho2 & -> & Hfull & j & -> & Hj & Hl). split_and!; [done..|].
      exists (S j). simpl. split_and!; [done|lia|]. by rewrite Hl, Hlog, <- app_assoc.
    + destruct IH as (Ho2 & Hl). split; [done|]. by rewrite Hl, Hlog, <- app_assoc.
  - split_and!; [done|done| |exists 0%nat; simpl; split_and!; [done|lia|done]].
    replace s' with (try_send e tx (Deliver m) s).2 by (by rewrite E).
    apply try_send_full; by rewrite E.
Qed.

(** ** The invariant *)

Definition depth_ok s : Prop :=
  rt_metrics s delivery_queue_depth = Z.of_nat (buf_total_len (rt_delivery_queue s)).

Record router_core s : Prop := {
  rc_tx id tx : rt_agents s !! id = Some tx → (tx < length (rt_mailboxes s))%nat;
  rc_inj id id' tx : rt_agents s !! id = Some tx → rt_agents s !! id' = Some tx → id = id';
  rc_mailboxes : Forall mb_ok (rt_mailboxes s);
  rc_pending id : queue_ok (pending (rt_delivery_queue s) id);
  rc_depth : depth_ok s;
}.

Record router_ok s : Prop := {
  ro_core : router_core s;
  ro_registry id : is_Some (rt_agents s !! id) → id ∈ rt_running_registry s;
  ro_tasks : map (λ t, t.1.2) (rt_tasks s) = seq 0 (length (rt_mailboxes s));
}.

(** What flushing the buffer of an agent into its mailbox does. *)
Record flush_rel id tx s s' : Prop := {
  fl_agents : rt_agents s' = rt_agents s ∨ rt_agents s' = delete id (rt_agents s);
  fl_registry : rt_running_registry s' = rt_running_registry s;
  fl_working : rt_working s' = rt_working s;
  fl_tasks : rt_tasks s' = rt_tasks s;
  fl_len : length (rt_mailboxes s') = length (rt_mailboxes s);
  fl_other tx' : tx' ≠ tx → rt_mailboxes s' !! tx' = rt_mailboxes s !! tx';
  fl_ok : Forall mb_ok (rt_mailboxes s) → Forall mb_ok (rt_mailboxes s');
  fl_pending : ∃ k, pending (rt_delivery_queue s') id = drop k (pending (rt_delivery_queue s) id);
  fl_pending_ne id' : id' ≠ id →
    pending (rt_delivery_queue s') id' = pending (rt_delivery_queue s) id';
  fl_depth : depth_ok s → depth_ok s';
}.

(** Putting back what was not sent restores the end of the drained queue. *)
Lemma prepend_drained q id k :
  (length (pending q id) ≤ MAX_PENDING_PER_AGENT)%nat →
  pending (buf_prepend (buf_drain q id).2 id (drop k (pending q id))) id = drop k (pending q id) ∧
  ∀ id', id' ≠ id →
    pending (buf_prepend (buf_drain q id).2 id (drop k (pending q id))) id' = pending q id'.
Proof.
  intros Hlen. split.
  - rewrite law_prepend; rewrite (proj2 (law_drain q id)); [by rewrite app_nil_r|].
    rewrite length_drop. simpl. lia.
  - intros id' Hne. by rewrite law_prepend_ne, law_drain_ne.
Qed.

Lemma flush_spec e id tx s :
  queue_ok (pending (rt_delivery_queue s) id) →
  flush_rel id tx s (flush_delivery_queue_for_agent e id tx s).
Proof.
  intros [Hlen _]. unfold flush_delivery_queue_for_agent.
  destruct (buf_drain (rt_delivery_queue s) id) as [l q] eqn:Ed.
  pose proof (law_drain (rt_delivery_queue s) id) as [Hl Hq].
  pose proof (law_drain_ne (rt_delivery_queue s) id) as Hne.
  pose proof (law_total_drain (rt_delivery_queue s) id) as Ht.
  pose proof (λ k, prepend_drained (rt_delivery_queue s) id k Hlen) as Hp.
  rewrite Ed in *. simpl in *. subst l.
  destruct (pending (rt_delivery_queue s) id) as [|m l] eqn:El.
  - split; simpl; try done; [by left|by exists 0%nat; rewrite El|by intros; rewrite Hne|].
    unfold depth_ok. simpl. intros ->. rewrite Ht. simpl. f_equal. lia.
  - rewrite <- El in *. set (s1 := on_metrics _ (set_queue q s)).
    pose proof (flush_loop_same e tx (pending (rt_delivery_queue s) id) 0 s1) as [].
    pose proof (flush_loop_rest e tx (pending (rt_delivery_queue s) id) 0 s1) as Hrest.
    destruct (flush_loop e tx _ 0 s1) as [[s2 sent] [[r rest]|]]; simpl in *.
    + destruct Hrest as (k & -> & _). rewrite sb_queue0. destruct (Hp k) as [Hp1 Hp2].
      destruct r; split; simpl; try done; rewrite ?sb_queue0, ?sb_agents0; auto;
        by exists k || (intros; by apply Hp2).
    + split; simpl; try done; rewrite ?sb_queue0, ?sb_agents0; simpl; auto.
      exists (length (pending (rt_delivery_queue s) id)). by rewrite drop_all.
Qed.

Lemma delete_agent_core id s :
  router_core s → router_core (set_agents (delete id (rt_agents s)) s).
Proof.
  intros []. split; simpl; try done.
  - intros id' tx [_ H]%lookup_delete_Some. eauto.
  - intros i1 i2 tx [_ H1]%lookup_delete_Some [_ H2]%lookup_delete_Some. eauto.
Qed.

Lemma delete_agent_ok id s : router_ok s → router_ok (set_agents (delete id (rt_agents s)) s).
Proof.
  intros []. split; simpl; [by apply delete_agent_core| |done].
  intros id' [tx [_ H]%lookup_delete_Some]. eauto.
Qed.

Lemma same_ok tx s s' : same_but_mailbox tx s s' → router_ok s → router_ok s'.
Proof.
  intros [] [[]]. split; [split|..]; unfold depth_ok in *;
    rewrite ?sb_agents0, ?sb_queue0, ?sb_registry0, ?sb_metrics0, ?sb_tasks0, ?sb_len0; auto.
Qed.

Lemma flush_core id tx s s' : flush_rel id tx s s' → router_core s → router_core s'.
Proof.
  intros [] []. split; auto.
  - intros id' tx'. rewrite fl_len0. destruct fl_agents0 as [-> | ->]; [eauto|].
    intros [_ H]%lookup_delete_Some. eauto.
  - destruct fl_agents0 as [-> | ->]; [eauto|].
    intros i1 i2 tx' [_ H1]%lookup_delete_Some [_ H2]%lookup_delete_Some. eauto.
  - intros id'. destruct (decide (id' = id)) as [->|Hne]; [|by rewrite fl_pending_ne0].
    destruct fl_pending0 as [k ->]. by apply queue_ok_drop.
Qed.

Lemma flush_ok id tx s s' : flush_rel id tx s s' → router_ok s → router_ok s'.
Proof.
  intros Hf [Hc Hr Ht]. split; [by eapply flush_core| |].
  - intros id'. rewrite (fl_registry _ _ _ _ Hf). destruct (fl_agents _ _ _ _ Hf) as [-> | ->]; [auto|].
    intros [tx' [_ H]%lookup_delete_Some]. eauto.
  - by rewrite (fl_tasks _ _ _ _ Hf), (fl_len _ _ _ _ Hf).
Qed.

Lemma buffer_delivery_ok id m s : router_ok s → router_ok (buffer_delivery id m s).
Proof.
  intros [[] Hr Ht]. unfold buffer_delivery.
  destruct (buf_enqueue (rt_delivery_queue s) id m) as [r q] eqn:E.
  split; [split|..]; simpl; try done.
  intros id'. destruct (decide (id' = id)) as [->|Hne].
  - destruct (law_enqueue (rt_delivery_queue s) id m) as [_ H]. rewrite E in H. simpl in H.
    rewrite H. by apply enqueue_one_ok.
  - pose proof (law_enqueue_ne (rt_delivery_queue s) id id' m) as H. rewrite E in H. simpl in H.
    by rewrite H.
Qed.

Lemma handle_deliver_ok e m s : router_ok s → router_ok (handle_deliver e m s).
Proof.
  intros Hs. unfold handle_deliver. destruct (rt_agents s !! ad_agent_id m) as [tx|];
    [|by apply buffer_delivery_ok].
  assert (router_ok (flush_delivery_queue_for_agent e (ad_agent_id m) tx s)) as Hf.
  { eapply flush_ok; [|done]. apply flush_spec, Hs. }
  pose proof (same_ok _ _ _ (try_send_same e tx (Deliver m) _) Hf) as Ht.
  destruct (try_send _ _ _ _) as [[] s']; simpl in Ht; [done| |].
  - by apply buffer_delivery_ok.
  - by apply delete_agent_ok, buffer_delivery_ok.
Qed.

Lemma register_core id s :
  router_core s → rt_agents s !! id = None →
  router_core (set_agents (<[id := length (rt_mailboxes s)]> (rt_agents s))
                 (set_mailboxes (rt_mailboxes s ++ [mkMailbox [] [] true false]) s)).
Proof.
  intros [] Hid. split; simpl; try done.
  - intros id' tx. rewrite length_app. simpl. rewrite lookup_insert_Some.
    intros [[-> <-]|[_ H%rc_tx0]]; lia.
  - intros i1 i2 tx. rewrite !lookup_insert_Some.
    intros [[<- <-]|[_ H1]] [[<- H2]|[_ H2]]; [done|apply rc_tx0 in H2; lia| |eauto].
    apply rc_tx0 in H1. lia.
  - apply Forall_app. split; [done|]. repeat constructor.
Qed.

Lemma spawn_agent_ok e id c l r s : router_ok s → router_ok (spawn_agent e id c l r s).
Proof.
  intros [Hc Hr Ht]. unfold spawn_agent. destruct (rt_agents s !! id) as [tx|] eqn:Hid; [done|].
  pose proof (register_core id s Hc Hid) as H1.
  set (s1 := set_agents _ _) in *. set (tx := length (rt_mailboxes s)) in *.
  pose proof (flush_spec e id tx s1 (rc_pending _ H1 id)) as Hf.
  pose proof (flush_core _ _ _ _ Hf H1) as H2.
  set (s2 := flush_delivery_queue_for_agent e id tx s1) in *.
  destruct Hf. destruct H2. split; [split|..]; simpl; try done.
  - intros id' tx'. rewrite length_alter. eauto.
  - apply Forall_alter; [done|]. done.
  - intros id' H. apply elem_of_union. destruct (decide (id' = id)) as [->|Hne]; [set_solver|].
    right. rewrite fl_registry0. simpl. apply Hr. destruct H as [tx' H].
    assert (rt_agents s1 !! id' = Some tx') as H'.
    { destruct fl_agents0 as [E|E]; rewrite E in H; [done|]. by apply lookup_delete_Some in H as [_ ?]. }
    simpl in H'. rewrite lookup_insert_ne in H' by done. by eexists.
  - rewrite length_alter, fl_len0, fl_tasks0. simpl. rewrite map_app, Ht, length_app, seq_app. done.
Qed.

Lemma handle_state_change_ok c s : router_ok s → router_ok (handle_state_change c s).
Proof.
  intros Hs. destruct c as [| | |id reason]; simpl; try done.
  pose proof (delete_agent_ok id s Hs) as [[] Hr Ht]. split; [split|..]; simpl in *; try done.
  - intros id'. destruct (decide (id' = id)) as [->|Hne].
    + rewrite law_forget. apply queue_ok_nil.
    + by rewrite law_forget_ne.
  - intros id' Hid. apply elem_of_difference. split; [by apply Hr|].
    intros ->%elem_of_singleton. rewrite lookup_delete_eq in Hid. by destruct Hid.
Qed.

Lemma step_ok e i s : router_ok s → router_ok (step e i s).
Proof.
  intros Hs. destruct i as [m|c]; [|by apply handle_state_change_ok].
  destruct m as [m|m|m|m|m| |m|m|m|m|m|m|m|]; simpl; try done.
  - by apply spawn_agent_ok.
  - unfold handle_stop. destruct (_ !! _); [|done]. eapply same_ok; [apply send_same|done].
  - by apply handle_deliver_ok.
  - unfold handle_turn_cancel. destruct (_ !! _); [|done]. eapply same_ok; [apply send_same|done].
  - unfold handle_recover. generalize (rc_sessions m) as l. intros l. revert s Hs.
    induction l as [|x l IH]; intros s Hs; simpl; [done|]. apply IH. unfold recover_session.
    destruct (_ !! _); [done|]. by apply spawn_agent_ok.
  - destruct Hs as [[]]. by split; [split|..].
  - unfold handle_workspace_read. destruct (workspace_read_content _ _ _).
    destruct Hs as [[]]. by split; [split|..].
  - destruct Hs as [[]]. by split; [split|..].
  - unfold handle_working_set. destruct (WorkingMemoryStore.set _ _ _ _).
    destruct Hs as [[]]. by split; [split|..].
  - destruct Hs as [[]]. by split; [split|..].
  - destruct Hs as [[]]. by split; [split|..].
Qed.

Lemma new_ok cfg fs : router_ok (new cfg fs).
Proof.
  split; [split|..]; simpl; try done.
  - intros id. rewrite law_new. apply queue_ok_nil.
  - unfold depth_ok. simpl. rewrite (proj2 (law_total_len buf_new)); [done|].
    intros id. apply law_new.
  - intros id [tx H]. by rewrite lookup_empty in H.
Qed.

Lemma run_ok e inputs s : router_ok s → router_ok (run e inputs s).
Proof.
  unfold run. revert s. induction inputs as [|i l IH]; intros s Hs; simpl; [done|].
  by apply IH, step_ok.
Qed.

(** The flush, towards a receiver that stays. *)
Lemma flush_log e id tx s :
  (∀ n, re_closed e n = false) → is_open s tx → queue_ok (pending (rt_delivery_queue s) id) →
  let s' := flush_delivery_queue_for_agent e id tx s in
  is_open s' tx ∧ ∃ sent held, pending (rt_delivery_queue s) id = (sent ++ held)%list ∧
    log_of s' tx = (log_of s tx ++ map Deliver sent)%list ∧
    pending (rt_delivery_queue s') id = held ∧ (held ≠ [] → is_full s' tx).
Proof.
  intros He Ho [Hlen _]. unfold flush_delivery_queue_for_agent.
  destruct (buf_drain (rt_delivery_queue s) id) as [l q] eqn:Ed.
  pose proof (law_drain (rt_delivery_queue s) id) as [Hl Hq].
  pose proof (λ k, proj1 (prepend_drained (rt_delivery_queue s) id k Hlen)) as Hp.
  rewrite Ed in *. simpl in *. subst l.
  destruct (pending (rt_delivery_queue s) id) as [|m l] eqn:El.
  - split; [done|]. exists [], []. split_and!; [done|simpl; by rewrite app_nil_r|exact Hq|done].
  - rewrite <- El in *. set (s1 := on_metrics _ (set_queue q s)).
    pose proof (sb_queue _ _ _ (flush_loop_same e tx (pending (rt_delivery_queue s) id) 0 s1)) as Hs.
    pose proof (flush_loop_log e tx (pending (rt_delivery_queue s) id) 0 s1 He Ho) as H.
    destruct (flush_loop e tx _ 0 s1) as [[s2 sent] [[r rest]|]]; simpl in *.
    + destruct H as (Ho2 & -> & Hfull & k & -> & Hk & Hlog). split; [done|].
      exists (take k (pending (rt_delivery_queue s) id)), (drop k (pending (rt_delivery_queue s) id)).
      rewrite take_drop. split_and!; [done|done| |done]. rewrite Hs. apply Hp.
    + destruct H as [Ho2 Hlog]. split; [done|]. exists (pending (rt_delivery_queue s) id), [].
      rewrite app_nil_r. split_and!; [done|done| |done]. by rewrite Hs.
Qed.

(** C4 (invariant). Every state the router reaches, from any inputs and under any behaviour
    of the agent actors, is consistent: an agent of the table has a mailbox of its own and
    is in the shared running registry, every mailbox and every buffered queue is within
    its capacity with retries pending at most once, one task was spawned per mailbox, and
    the depth gauge equals the number of buffered deliveries. *)
Theorem router_reachable_ok (e : REnv) (inputs : list Input) (cfg : DaemonConfig) (fs : F) :
  let s := run (Q := Q) e inputs (new cfg fs) in
  (∀ id tx, rt_agents s !! id = Some tx →
     (tx < length (rt_mailboxes s))%nat ∧ id ∈ rt_running_registry s ∧
     ∀ id', rt_agents s !! id' = Some tx → id' = id) ∧
  Forall mb_ok (rt_mailboxes s) ∧ (∀ id, queue_ok (pending (rt_delivery_queue s) id)) ∧
  map (λ t, t.1.2) (rt_tasks s) = seq 0 (length (rt_mailboxes s)) ∧
  rt_metrics s delivery_queue_depth = Z.of_nat (buf_total_len (rt_delivery_queue s)).
Proof.
  intros s. destruct (run_ok e inputs (new cfg fs) (new_ok cfg fs)) as [[] Hr Ht].
  split_and!; try done. intros id tx Hid. split_and!; [eauto|apply Hr; by eexists|].
  intros id' Hid'. by eapply rc_inj0.
Qed.

End RouterFacts.

(** ** Concrete runs *)

Section Runs.
#[local] Instance no_fs : FileSystem unit := {|
  canonicalize _ _ := Err (mkIoError NotFound "absent");
  read_dir _ _ := Err (mkIoError NotFound "absent");
  read_file _ _ := Err (mkIoError NotFound "absent");
  path_exists _ _ := false;
  remove_dir_all fs _ := (fs, Ok tt);
  remove_file fs _ := (fs, Ok tt);
  path_debug _ := "path";
|}.
#[local] Instance no_base64 : Base64 := {| base64_encode s := s |}.
#[local] Instance no_clock : Rfc3339 := {| format_rfc3339_nanos _ := ""; parse_datetime _ := None |}.

Definition demo_router : AgentRouter (Q := DeliveryQueue.t) (F := unit) :=
  new (mkDaemonConfig "ws://host" "machine" "key" (components "/w")) tt.

(** The actor takes [taken n] commands before the [n]-th channel operation and stays. *)
Definition staying (taken : nat → nat) : REnv :=
  mkREnv taken (λ _, false) (λ n, Z.of_nat n) (λ _, "2025-01-01").

Definition start_msg (id : string) : Input :=
  FromServer (AgentStart (mk_AgentStartMsg id default_AgentConfig None None "" "launch" 0)).
Definition deliver_msg (id : string) (seq : Z) : AgentDeliverMsg :=
  mk_AgentDeliverMsg id seq 1 "" "" "" "" "" "" default_DeliveryMessage [].
Definition deliver (id : string) (seq : Z) : Input :=
  FromServer (AgentDeliver (deliver_msg id seq)).

(** Deliveries 1 to 65 to an agent whose actor takes nothing: 64 in the mailbox, one
    buffered. *)
Definition congested : AgentRouter :=
  run (staying (λ _, 0%nat)) (start_msg "a" :: map (λ n, deliver "a" (Z.of_nat n)) (seq 1 65))
    demo_router.

Definition seq_of (c : AgentCmd) : Z := match c with Deliver m => ad_seq m | _ => 0 end.

Lemma congested_ok : router_ok congested ∧ rt_agents congested !! "a" = Some 0%nat ∧
  is_open congested 0.
Proof.
  split_and!; [apply run_ok, new_ok|vm_compute; reflexivity|].
  eexists. split; vm_compute; reflexivity.
Qed.

(** The gauge of the congested run shows its one buffered delivery. *)
Lemma router_reachable_ok_witness :
  rt_metrics congested delivery_queue_depth =
    Z.of_nat (buf_total_len (rt_delivery_queue congested)) ∧
  rt_metrics congested delivery_queue_depth = 1.
Proof.
  split; [|vm_compute; reflexivity].
  apply (router_reachable_ok (Q := DeliveryQueue.t) (F := unit) (staying (λ _, 0%nat))
    (start_msg "a" :: map (λ n, deliver "a" (Z.of_nat n)) (seq 1 65))
    (mkDaemonConfig "ws://host" "machine" "key" (components "/w")) tt).
Defined.


(** A delivery can overtake the buffered ones: the flush pauses on a full mailbox
    with delivery 65 buffered, the actor then takes one command, and delivery 66, sent
    right after, takes the free slot: the actor receives 66 before 65. *)
Theorem delivery_overtakes_buffer :
  let e := staying (λ n, if (n =? S (rt_ctr congested))%nat then 1%nat else 0%nat) in
  let s := handle_deliver e (deliver_msg "a" 66) congested in
  map seq_of (log_of s 0) = (map Z.of_nat (seq 1 64) ++ [66])%list ∧
  map ad_seq (pending (rt_delivery_queue s) "a") = [65].
Proof. vm_compute. by split. Qed.

(** The report of an agent's previous incarnation unregisters the next one: the
    first actor drops its mailbox, the router notices on a delivery and forgets it, the
    server starts the agent again (channel 1, which receives the delivery), and then the
    first actor's [Stopped] arrives and removes the new mailbox from the table and the
    agent from the registry, although its task runs. *)
Theorem late_stop_unregisters_successor :
  let e := mkREnv (λ _, 0%nat) (λ n, (n =? 0)%nat) (λ n, Z.of_nat n) (λ _, "2025-01-01") in
  let before := run e [start_msg "a"; deliver "a" 1; start_msg "a"] demo_router in
  let after := step e (FromActor (Stopped "a" "manual_stop")) before in
  rt_agents before !! "a" = Some 1%nat ∧ map seq_of (log_of before 1) = [1] ∧
  rt_agents after !! "a" = None ∧ bool_decide ("a" ∈ rt_running_registry after) = false ∧
  map (λ t, t.1) (rt_tasks after) = [("a", 0%nat); ("a", 1%nat)] ∧
  map mb_open (rt_mailboxes after) = [false; true].
Proof. vm_compute. by split_and!. Qed.
End Runs.
