(* ===== verification/Actor.v ===== *)
(** * The running agent actor

    [crates/cocli-agent/src/actor.rs], the [Running] part: the [run_loop] with its mailbox and
    event branches, [deliver], [emit_session], [handle_event], and the formatter of
    [format.rs]; the events of [cocli-driver-core/src/event.rs]. The subprocess is outside: an
    environment says how each stdin write or respawn ends and what the clocks read. Which
    branch of the [select!] is taken, and with what, is the input of a step, so a run is any
    interleaving of commands and events. *)
From S2P Require Import Prelude Protocol Router.

(** ** Driver events *)

Inductive TurnStatus : Type :=
  | Completed | Cancelled | Failed | MaxSteps | UnknownStatus (raw : string).
Inductive ErrorSeverity : Type := SeverityWarning | SeverityError.
Inductive SignalType : Type :=
  | SignalProgress | SignalQuestion | SignalComplete | SignalError | SignalOther (name : string).

Inductive DriverEvent : Type :=
  | SessionStarted (session_id : string)
  | MessageStart
  | ThinkingDelta (text : string)
  | TextDelta (text : string)
  | ToolCall (id name : string) (input : Json)
  | ToolResult (id output : string) (error : option string)
  | MessageStop (stop_reason : string)
  | UnknownEvent
  | TurnEnd (status : TurnStatus) (input_tokens output_tokens : Z) (cost_usd : F64)
      (cache_creation_tokens cache_read_tokens context_window_tokens : Z)
  | RateLimit (limit_type status : string) (resets_at : Z) (overage_status : option string)
      (overage_resets : option Z) (is_using_overage : bool)
  | DriverError (message : string) (code : option string) (severity : option ErrorSeverity)
      (http_status : option Z)
  | ToolDone (id result : string) (error : option string)
  | Signal (signal_type : SignalType) (data : Json)
  | Write (data : string)
  | CompactStarted
  | CompactFinished.

(** [AgentObservationChanged]. *)
Inductive Observation : Type :=
  | ObsStarted (agent_id session_id : string) (channel_id : Uuid) (channel_name : string)
  | ObsStdoutSeen (agent_id : string)
  | ObsTurnEnded (agent_id : string) (turn_count : Z)
  | ObsStopped (agent_id : string).

(** ** Pure helpers *)

Definition route_for_tier (tier : string) : string :=
  if str_eqb tier "digest" || str_eqb tier "tierDigest" then "tierDigest"
  else if str_eqb tier "delayed" || str_eqb tier "tierDelayed" then "tierDelayed"
  else "inbox".

Definition derive_http_base_url (server_url : string) : string :=
  match strip_prefix "ws://" server_url with
  | Some rest => "http://" +:+ rest
  | None =>
      match strip_prefix "wss://" server_url with
      | Some rest => "https://" +:+ rest
      | None => server_url
      end
  end.

(** [[{channel_name}] {sender_name}: {content}]. *)
Definition format_message (m : DeliveryMessage) : string :=
  "[" +:+ dm_channel_name m +:+ "] " +:+ dm_sender_name m +:+ ": " +:+ dm_content m.

Definition format_delivery_bundle (message : DeliveryMessage) (context : list DeliveryMessage)
    : string :=
  (match context with
   | [] => ""
   | _ => "<context>" +:+ nl +:+
          fold_left (λ out ctx, out +:+ format_message ctx +:+ nl) context "" +:+
          "</context>" +:+ nl +:+ nl
   end) +:+ format_message message.

(** ** State *)

(** The subprocess and the clocks, by the number of effects performed: how writing a payload
    to stdin ends, how respawning a turn-exit runtime with a message ends (with the session
    it reports), [now_unix_ms] and [Instant::now]. *)
Record AEnv := mkAEnv {
  ae_write : nat → string → result unit string;
  ae_respawn : nat → string → result string string;
  ae_unix_ms : nat → Z;
  ae_instant : nat → Z;
}.

Record ActorState := mkActorState {
  as_id : string;
  as_launch_id : string;
  as_is_respawn : bool;
  as_session_id : string;
  as_channel_id : Uuid;
  as_channel_name : string;
  as_turn_count : Z;
  as_last_stdout_at : Z;
  as_entries : list TrajectoryEntry;
  as_session_emitted : bool;
  as_event_rx_live : bool;
  as_outbound : list DaemonMsg;
  as_obs : list Observation;
  as_ctr : nat;
}.

Definition emit (ms : list DaemonMsg) (s : ActorState) : ActorState :=
  mkActorState (as_id s) (as_launch_id s) (as_is_respawn s) (as_session_id s) (as_channel_id s)
    (as_channel_name s) (as_turn_count s) (as_last_stdout_at s) (as_entries s)
    (as_session_emitted s) (as_event_rx_live s) (as_outbound s ++ ms) (as_obs s) (as_ctr s).
Definition observe (o : Observation) (s : ActorState) : ActorState :=
  mkActorState (as_id s) (as_launch_id s) (as_is_respawn s) (as_session_id s) (as_channel_id s)
    (as_channel_name s) (as_turn_count s) (as_last_stdout_at s) (as_entries s)
    (as_session_emitted s) (as_event_rx_live s) (as_outbound s) (as_obs s ++ [o]) (as_ctr s).
Definition set_session (session : string) (s : ActorState) : ActorState :=
  mkActorState (as_id s) (as_launch_id s) (as_is_respawn s) session (as_channel_id s)
    (as_channel_name s) (as_turn_count s) (as_last_stdout_at s) (as_entries s)
    (as_session_emitted s) (as_event_rx_live s) (as_outbound s) (as_obs s) (as_ctr s).
Definition set_channel (channel : Uuid) (name : string) (s : ActorState) : ActorState :=
  mkActorState (as_id s) (as_launch_id s) (as_is_respawn s) (as_session_id s) channel
    name (as_turn_count s) (as_last_stdout_at s) (as_entries s)
    (as_session_emitted s) (as_event_rx_live s) (as_outbound s) (as_obs s) (as_ctr s).
Definition set_turn (count : Z) (entries : list TrajectoryEntry) (s : ActorState) : ActorState :=
  mkActorState (as_id s) (as_launch_id s) (as_is_respawn s) (as_session_id s) (as_channel_id s)
    (as_channel_name s) count (as_last_stdout_at s) entries
    (as_session_emitted s) (as_event_rx_live s) (as_outbound s) (as_obs s) (as_ctr s).
Definition set_stdout_at (t : Z) (s : ActorState) : ActorState :=
  mkActorState (as_id s) (as_launch_id s) (as_is_respawn s) (as_session_id s) (as_channel_id s)
    (as_channel_name s) (as_turn_count s) t (as_entries s)
    (as_session_emitted s) (as_event_rx_live s) (as_outbound s) (as_obs s) (as_ctr s).
Definition set_flags (emitted live : bool) (s : ActorState) : ActorState :=
  mkActorState (as_id s) (as_launch_id s) (as_is_respawn s) (as_session_id s) (as_channel_id s)
    (as_channel_name s) (as_turn_count s) (as_last_stdout_at s) (as_entries s)
    emitted live (as_outbound s) (as_obs s) (as_ctr s).
Definition effect (s : ActorState) : ActorState :=
  mkActorState (as_id s) (as_launch_id s) (as_is_respawn s) (as_session_id s) (as_channel_id s)
    (as_channel_name s) (as_turn_count s) (as_last_stdout_at s) (as_entries s)
    (as_session_emitted s) (as_event_rx_live s) (as_outbound s) (as_obs s) (S (as_ctr s)).

(** ** Messages *)

Definition session_msg (s : ActorState) : DaemonMsg :=
  AgentSession {| se_agent_id := as_id s; se_session_id := as_session_id s;
    se_channel_id := as_channel_id s; se_is_new := true; se_resumed_from := "";
    se_active_sessions := 1; se_queue_depth := 0; se_prompt_layer := "basic";
    se_prompt_tokens := 0; se_launch_id := as_launch_id s; se_launch_generation := 0;
    se_session_type := ""; se_scope := ""; se_parent_chat_session_id := "";
    se_execution_intent_id := ""; se_execution_run_id := "" |}.

Definition emit_session (s : ActorState) : ActorState := emit [session_msg s] s.

(** The working ping that accompanies a tool entry. *)
Definition activity_msg (entry : TrajectoryEntry) (s : ActorState) : DaemonMsg :=
  AgentActivity {| aa_agent_id := as_id s; aa_activity := "working";
    aa_attention_state := "working"; aa_detail := ""; aa_payload := None; aa_trajectory := [];
    aa_entries := [entry]; aa_launch_id := as_launch_id s; aa_launch_generation := 0;
    aa_focus_task_id := ""; aa_focus_scope := ""; aa_focus_since := 0; aa_priority_class := "";
    aa_preempted := false; aa_last_input_tokens := 0; aa_total_output_tokens := 0;
    aa_context_window := 0; aa_total_cost_usd := 0; aa_turn_count := 0; aa_session_type := "";
    aa_scope := ""; aa_channel_id := as_channel_id s; aa_channel_name := as_channel_name s;
    aa_rate_limit_type := ""; aa_rate_limit_status := ""; aa_rate_limit_resets := 0;
    aa_overage_status := ""; aa_overage_resets := 0; aa_is_using_overage := false;
    aa_runtime_event := ""; aa_runtime_stream := ""; aa_runtime_gap_from := 0;
    aa_runtime_gap_oldest := 0; aa_runtime_gap_last := 0; aa_runtime_recover_strategy := "";
    aa_scheduler_event := ""; aa_scheduler_decision := ""; aa_scheduler_reason := "";
    aa_scheduler_queue_depth := 0; aa_scheduler_violation := false |}.

(** ** [handle_event] *)

(** A [TrajectoryEntry] with the other fields at their default. *)
Definition entry (kind id text : string) (input : option Json) (result error : string) (ts : Z)
    : TrajectoryEntry :=
  mk_TrajectoryEntry kind id text input result error ts.

Definition push_entry (x : TrajectoryEntry) (s : ActorState) : ActorState :=
  set_turn (as_turn_count s) (as_entries s ++ [x]) s.

Definition handle_event (e : AEnv) (event : DriverEvent) (s : ActorState) : ActorState :=
  let s := effect (set_stdout_at (ae_instant e (as_ctr s)) s) in
  let ts := ae_unix_ms e (as_ctr s) in
  match event with
  | SessionStarted _ | MessageStart | MessageStop _ | RateLimit _ _ _ _ _ _
  | CompactStarted | CompactFinished | Signal _ _ | Write _ | UnknownEvent => s
  | ThinkingDelta text => push_entry (entry "thinking" "" text None "" "" ts) s
  | TextDelta text => push_entry (entry "text" "" text None "" "" ts) s
  | ToolCall id name input =>
      let x := entry "tool_call" id name (Some input) "" "" ts in
      let s := push_entry x s in
      emit [activity_msg x s] s
  | ToolResult id output error | ToolDone id output error =>
      let x := entry "tool_result" id "" None output (default "" error) ts in
      let s := push_entry x s in
      emit [activity_msg x s] s
  | TurnEnd _ input_tokens output_tokens cost_usd cache_creation_tokens cache_read_tokens _ =>
      let turn_count := wrap_u64 (as_turn_count s + 1) in
      let turn_entries := as_entries s in
      let s := set_turn turn_count [] s in
      let s := emit [AgentTurn {| at_agent_id := as_id s; at_session_id := as_session_id s;
        at_launch_id := as_launch_id s; at_launch_generation := 0;
        at_turn_number := as_i32 turn_count; at_entries := turn_entries;
        at_input_tokens := as_i32 input_tokens; at_output_tokens := as_i32 output_tokens;
        at_cost_usd := cost_usd; at_context_window := 0;
        at_cache_creation_tokens := as_i32 cache_creation_tokens;
        at_cache_read_tokens := as_i32 cache_read_tokens; at_session_type := "";
        at_channel_id := as_channel_id s; at_channel_name := as_channel_name s;
        at_context_usage_pct := 0; at_notif_to_check_ms := 0; at_check_cadence_s := 0;
        at_nudges_sent := 0; at_nudges_effective := 0 |}] s in
      observe (ObsTurnEnded (as_id s) turn_count) s
  | DriverError message _ _ _ =>
      emit [AgentStatus (mk_AgentStatusMsg (as_id s) "error" (as_launch_id s) message)] s
  end.

(** ** [deliver] *)

(** The write through [write_encoded_message], or [respawn_and_deliver], which adopts the
    session of the new process when it reports one. *)
Definition write_body (e : AEnv) (body : string) (s : ActorState)
    : ActorState * result unit string :=
  if as_is_respawn s then
    match ae_respawn e (as_ctr s) body with
    | Ok session => (effect (if str_is_empty session then s else set_session session s), Ok tt)
    | Err x => (effect s, Err ("respawn_and_deliver: " +:+ x))
    end
  else (effect s, ae_write e (as_ctr s) body).

Definition deliver (e : AEnv) (msg : AgentDeliverMsg) (s : ActorState)
    : ActorState * result unit string :=
  let route := route_for_tier (ad_delivery_tier msg) in
  let s :=
    if (0 <? ad_seq msg) && (0 <? ad_attempt msg)
    then emit [AgentDeliverAccepted (mk_AgentDeliverAcceptedMsg (as_id s) (ad_seq msg)
                 (ad_attempt msg) (dm_channel_id (ad_message msg)) route)] s
    else s in
  let body := format_delivery_bundle (ad_message msg) (ad_context msg) in
  let '(s, write_result) := write_body e body s in
  let s :=
    if (0 <? ad_attempt msg) && is_ok write_result
    then emit [AgentDeliverAck (mk_AgentDeliverAckMsg (as_id s) (ad_seq msg)
                 (ad_attempt msg) (dm_channel_id (ad_message msg)) route)] s
    else s in
  (s, write_result).

(** ** [run_loop] *)

Inductive LoopInput : Type :=
  | FromMailbox (cmd : option AgentCmd)
  | FromEvents (ev : option DriverEvent).

Inductive Flow : Type := Continue | Break.

(** The [Deliver] arm. *)
Definition loop_deliver (e : AEnv) (m : AgentDeliverMsg) (s : ActorState) : ActorState :=
  let name := dm_channel_name (ad_message m) in
  let s := set_channel (dm_channel_id (ad_message m))
             (if str_is_empty name then as_channel_name s else name) s in
  let s := if as_session_emitted s then s
           else set_flags true (as_event_rx_live s) (emit_session s) in
  let '(s, _) := deliver e m s in
  if as_is_respawn s then set_flags (as_session_emitted s) true s else s.

(** One iteration; [None] when the branch is disabled ([if event_rx_live]). [turn_cancel],
    [stop] and the raw writes of the driver act on the subprocess only. *)
Definition loop_step (e : AEnv) (i : LoopInput) (s : ActorState) : option (ActorState * Flow) :=
  match i with
  | FromMailbox (Some (Deliver m)) => Some (loop_deliver e m s, Continue)
  | FromMailbox (Some TurnCancel) => Some (effect s, Continue)
  | FromMailbox (Some (Stop _)) => Some (effect s, Break)
  | FromMailbox None => Some (s, Break)
  | FromEvents ev =>
      if negb (as_event_rx_live s) then None
      else match ev with
      | Some (SessionStarted session_id) => Some (set_session session_id s, Continue)
      | Some (Write _) => Some (effect s, Continue)
      | Some event => Some (handle_event e event s, Continue)
      | None =>
          if as_is_respawn s then Some (set_flags (as_session_emitted s) false s, Continue)
          else Some (s, Break)
      end
  end.

(** The loop on a sequence of inputs: disabled ones are not received, [Break] ends it. *)
Fixpoint run_loop (e : AEnv) (inputs : list LoopInput) (s : ActorState) : ActorState :=
  match inputs with
  | [] => s
  | i :: rest =>
      match loop_step e i s with
      | None => run_loop e rest s
      | Some (s', Continue) => run_loop e rest s'
      | Some (s', Break) => s'
      end
  end.

(** The state [Idle::start] hands to the loop. *)
Definition running (id launch_id session_id : string) (is_respawn : bool) (now : Z) : ActorState :=
  mkActorState id launch_id is_respawn session_id 0 "" 0 now [] false true [] [] 0.

(** ** What a run leaves behind *)

Definition turns (out : list DaemonMsg) : list AgentTurnMsg :=
  omap (λ m, match m with AgentTurn t => Some t | _ => None end) out.
Definition pings (out : list DaemonMsg) : list TrajectoryEntry :=
  concat (map (λ m, match m with AgentActivity a => aa_entries a | _ => [] end) out).

(** The trajectory: the entries of the finished turns, then those of the current one. *)
Definition recorded (s : ActorState) : list TrajectoryEntry :=
  (concat (map at_entries (turns (as_outbound s))) ++ as_entries s)%list.

Definition is_tool (x : TrajectoryEntry) : bool :=
  str_eqb (te_kind x) "tool_call" || str_eqb (te_kind x) "tool_result".

Definition erase_ts (x : TrajectoryEntry) : TrajectoryEntry :=
  mk_TrajectoryEntry (te_kind x) (te_id x) (te_text x) (te_input x) (te_result x) (te_error x) 0.

(** What an event contributes to the trajectory. *)
Definition event_entry (ev : DriverEvent) : list TrajectoryEntry :=
  match ev with
  | ThinkingDelta text => [entry "thinking" "" text None "" "" 0]
  | TextDelta text => [entry "text" "" text None "" "" 0]
  | ToolCall id name input => [entry "tool_call" id name (Some input) "" "" 0]
  | ToolResult id output error | ToolDone id output error =>
      [entry "tool_result" id "" None output (default "" error) 0]
  | _ => []
  end.

(** The events a run receives. *)
Definition received (i : LoopInput) (s : ActorState) : list DriverEvent :=
  match i with
  | FromEvents (Some ev) => if as_event_rx_live s then [ev] else []
  | _ => []
  end.
Fixpoint run_events (e : AEnv) (inputs : list LoopInput) (s : ActorState) : list DriverEvent :=
  match inputs with
  | [] => []
  | i :: rest =>
      (received i s ++
       match loop_step e i s with
       | None => run_events e rest s
       | Some (s', Continue) => run_events e rest s'
       | Some (_, Break) => []
       end)%list
  end.

(** The trajectory invariant, with [evs] the events received so far. *)
Record traj_ok (evs : list DriverEvent) (s : ActorState) : Prop := {
  tj_recorded : map erase_ts (recorded s) = concat (map event_entry evs);
  tj_pings : pings (as_outbound s) = bfilter is_tool (recorded s);
  tj_count : as_turn_count s = wrap_u64 (Z.of_nat (length (turns (as_outbound s))));
  tj_numbers : map at_turn_number (turns (as_outbound s)) =
    map (λ n, as_i32 (Z.of_nat n)) (seq 1 (length (turns (as_outbound s))));
}.

(** The fields the invariant reads. *)
Definition same_traj (s s' : ActorState) : Prop :=
  turns (as_outbound s') = turns (as_outbound s) ∧ pings (as_outbound s') = pings (as_outbound s) ∧
  as_entries s' = as_entries s ∧ as_turn_count s' = as_turn_count s.

Lemma same_traj_ok evs s s' : same_traj s s' → traj_ok evs s → traj_ok evs s'.
Proof.
  intros (H1 & H2 & H3 & H4) []. split; unfold recorded in *; by rewrite ?H1, ?H2, ?H3, ?H4.
Qed.

Lemma turns_app l1 l2 : turns (l1 ++ l2) = (turns l1 ++ turns l2)%list.
Proof. apply omap_app. Qed.
Lemma pings_app l1 l2 : pings (l1 ++ l2) = (pings l1 ++ pings l2)%list.
Proof. unfold pings. by rewrite map_app, concat_app. Qed.

(** Messages that are neither turns nor pings. *)
Lemma same_traj_emit ms s : turns ms = [] → pings ms = [] → same_traj s (emit ms s).
Proof.
  intros H1 H2. unfold same_traj. simpl. rewrite turns_app, pings_app, H1, H2, !app_nil_r. done.
Qed.

Lemma same_traj_trans s1 s2 s3 : same_traj s1 s2 → same_traj s2 s3 → same_traj s1 s3.
Proof. unfold same_traj. intros (?&?&?&?) (?&?&?&?). split_and!; congruence. Qed.

Lemma write_body_traj e body s : same_traj s (write_body e body s).1.
Proof.
  unfold write_body. destruct (as_is_respawn s); [|done]. destruct (ae_respawn _ _ _) as [x|]; [|done].
  by destruct (str_is_empty x).
Qed.

Lemma deliver_traj e m s : same_traj s (deliver e m s).1.
Proof.
  unfold deliver. set (s1 := if _ && _ then _ else s).
  assert (same_traj s s1) as H1.
  { unfold s1. destruct (_ && _); [by apply same_traj_emit|done]. }
  clearbody s1. pose proof (write_body_traj e (format_delivery_bundle (ad_message m) (ad_context m)) s1) as H2.
  destruct (write_body e _ s1) as [s2 r]. simpl in *.
  eapply same_traj_trans; [exact H1|]. eapply same_traj_trans; [exact H2|].
  destruct (_ && _); [by apply same_traj_emit|done].
Qed.

Lemma loop_deliver_traj e m s : same_traj s (loop_deliver e m s).
Proof.
  unfold loop_deliver. set (s1 := set_channel _ _ s).
  set (s2 := if as_session_emitted s1 then s1 else _).
  assert (same_traj s s2) as H1.
  { unfold s2. destruct (as_session_emitted s1); [done|].
    eapply (same_traj_trans _ (emit_session s1)); [|done].
    eapply (same_traj_trans _ s1); [done|]. by apply same_traj_emit. }
  clearbody s2. pose proof (deliver_traj e m s2) as H2. destruct (deliver e m s2) as [s3 r]. simpl in *.
  eapply same_traj_trans; [exact H1|]. eapply same_traj_trans; [exact H2|].
  by destruct (as_is_respawn s3).
Qed.

(** Recording an entry, with the ping a tool entry comes with. *)
Lemma push_traj evs ev x s ms :
  traj_ok evs s → event_entry ev = [erase_ts x] → turns ms = [] →
  pings ms = (if is_tool x then [x] else []) →
  traj_ok (evs ++ [ev]) (emit ms (push_entry x s)).
Proof.
  intros [] Hev Ht Hp. split; unfold recorded in *; simpl;
    rewrite ?turns_app, ?pings_app, ?Ht, ?Hp, ?app_nil_r; try done.
  - rewrite app_assoc, map_app, tj_recorded0, map_app, concat_app. simpl.
    by rewrite Hev.
  - rewrite app_assoc, bfilter_app, tj_pings0. simpl. by destruct (is_tool x).
Qed.

Lemma no_entry_traj evs ev s s' :
  event_entry ev = [] → same_traj s s' → traj_ok evs s → traj_ok (evs ++ [ev]) s'.
Proof.
  intros Hev Hs H%(same_traj_ok _ _ _ Hs). destruct H. split; try done.
  by rewrite map_app, concat_app, tj_recorded0; simpl; rewrite Hev, app_nil_r.
Qed.

Lemma wrap_succ n : wrap_u64 (wrap_u64 n + 1) = wrap_u64 (n + 1).
Proof. unfold wrap_u64. by rewrite Zplus_mod_idemp_l. Qed.

Lemma as_i32_wrap n : as_i32 (wrap_u64 n) = as_i32 n.
Proof.
  unfold as_i32, wrap_u64.
  assert ((n mod 2 ^ 64) mod 2 ^ 32 = n mod 2 ^ 32) as ->; [|done].
  apply Z.mod_mod_divide. by exists (2 ^ 32).
Qed.

Lemma handle_event_traj e evs ev s :
  traj_ok evs s → traj_ok (evs ++ [ev]) (handle_event e ev s).
Proof.
  intros H. set (s1 := effect (set_stdout_at (ae_instant e (as_ctr s)) s)).
  assert (traj_ok evs s1) as H1 by (by apply (same_traj_ok _ s)).
  assert (∀ x, emit [] (push_entry x s1) = push_entry x s1) as Hnil.
  { intros x. unfold emit, push_entry, set_turn. simpl. by rewrite app_nil_r. }
  unfold handle_event. fold s1. clearbody s1.
  destruct ev as [| |text|text|id name input|id out err| | |st i o c cc cr cw| |msg| id out err| | | |];
    try (by apply (no_entry_traj _ _ s1)).
  - rewrite <- Hnil. by apply push_traj.
  - rewrite <- Hnil. by apply push_traj.
  - by apply push_traj.
  - by apply push_traj.
  - destruct H1. split; unfold recorded in *; simpl; rewrite ?turns_app, ?pings_app; simpl.
    + rewrite app_nil_r, !map_app, !concat_app. simpl. rewrite !app_nil_r.
      by rewrite <- tj_recorded0, !map_app.
    + rewrite map_app, concat_app. simpl. by rewrite !app_nil_r.
    + rewrite length_app, tj_count0, wrap_succ. simpl. f_equal. lia.
    + rewrite map_app, tj_numbers0, length_app, seq_app, map_app. simpl. do 2 f_equal.
      rewrite tj_count0, wrap_succ, as_i32_wrap. f_equal. lia.
  - apply (no_entry_traj _ _ s1); [done| |done]. by apply same_traj_emit.
  - by apply push_traj.
Qed.

Lemma loop_step_traj e evs i s :
  traj_ok evs s →
  match loop_step e i s with
  | None => received i s = []
  | Some (s', _) => traj_ok (evs ++ received i s) s'
  end.
Proof.
  intros H. destruct i as [[[m| |f]|]|ev]; simpl; rewrite ?app_nil_r;
    try (by apply (same_traj_ok _ s)).
  - by apply (same_traj_ok _ s); [apply loop_deliver_traj|].
  - destruct (as_event_rx_live s); simpl; [|by destruct ev].
    destruct ev as [ev|].
    + destruct ev; try (by apply handle_event_traj); by apply (no_entry_traj _ _ s).
    + rewrite app_nil_r. destruct (as_is_respawn s); by apply (same_traj_ok _ s).
Qed.

Lemma run_loop_traj e inputs evs s :
  traj_ok evs s → traj_ok (evs ++ run_events e inputs s) (run_loop e inputs s).
Proof.
  revert evs s. induction inputs as [|i l IH]; intros evs s H; simpl; [by rewrite app_nil_r|].
  pose proof (loop_step_traj e evs i s H) as Hs.
  destruct (loop_step e i s) as [[s' []]|].
  - rewrite app_assoc. by apply IH.
  - by rewrite app_nil_r.
  - rewrite Hs. by apply IH.
Qed.

(** The turns record the trajectory exactly: in every run, under any
    interleaving of commands and events, the entries of the emitted turns followed by those
    of the unfinished turn are what the received events contribute, once each and in order;
    the entries announced live in activity messages are the tool entries among them, in
    order; and the turns are numbered 1, 2, 3, ... (truncated to [i32] on the wire). *)
Theorem turns_record_trajectory (e : AEnv) (inputs : list LoopInput)
    (id launch_id session_id : string) (is_respawn : bool) (now : Z) :
  let s0 := running id launch_id session_id is_respawn now in
  let s := run_loop e inputs s0 in
  map erase_ts (recorded s) = concat (map event_entry (run_events e inputs s0)) ∧
  pings (as_outbound s) = bfilter is_tool (recorded s) ∧
  map at_turn_number (turns (as_outbound s)) =
    map (λ n, as_i32 (Z.of_nat n)) (seq 1 (length (turns (as_outbound s)))).
Proof.
  intros s0 s. destruct (run_loop_traj e inputs [] s0) as [H1 H2 _ H4]; [by split|]. done.
Qed.

(** ** The delivery protocol *)

Definition is_session (m : DaemonMsg) : bool := match m with AgentSession _ => true | _ => false end.
Definition is_delivery (m : DaemonMsg) : bool :=
  match m with
  | AgentSession _ | AgentDeliverAccepted _ | AgentDeliverAck _ => true
  | _ => false
  end.
(** What the server sees of sessions and deliveries. *)
Definition protocol (s : ActorState) : list DaemonMsg := bfilter is_delivery (as_outbound s).

(** The messages one delivery may emit. *)
Inductive delivery_block : list DaemonMsg → Prop :=
  | block_silent : delivery_block []
  | block_accepted acc : delivery_block [AgentDeliverAccepted acc]
  | block_acked ack : da_seq ack ≤ 0 → delivery_block [AgentDeliverAck ack]
  | block_both a q t c r :
      delivery_block [AgentDeliverAccepted (mk_AgentDeliverAcceptedMsg a q t c r);
                      AgentDeliverAck (mk_AgentDeliverAckMsg a q t c r)].

(** A session announcement followed by the blocks of the deliveries, or nothing yet. *)
Definition protocol_ok (s : ActorState) : Prop :=
  if as_session_emitted s
  then ∃ m blocks, protocol s = (AgentSession m :: concat blocks)%list ∧ Forall delivery_block blocks
  else protocol s = [].

Definition same_protocol (s s' : ActorState) : Prop :=
  protocol s' = protocol s ∧ as_session_emitted s' = as_session_emitted s.

Lemma same_protocol_ok s s' : same_protocol s s' → protocol_ok s → protocol_ok s'.
Proof. unfold protocol_ok. intros [-> ->]. done. Qed.

Lemma protocol_emit ms s : protocol (emit ms s) = (protocol s ++ bfilter is_delivery ms)%list.
Proof. unfold protocol. simpl. apply bfilter_app. Qed.

Lemma handle_event_protocol e ev s : same_protocol s (handle_event e ev s).
Proof.
  unfold same_protocol. destruct ev; try done; unfold handle_event; split; try done;
    unfold protocol; simpl; rewrite bfilter_app; simpl; by rewrite app_nil_r.
Qed.

Lemma write_body_protocol e body s :
  same_protocol s (write_body e body s).1 ∧ as_id (write_body e body s).1 = as_id s.
Proof.
  unfold write_body. destruct (as_is_respawn s); [|done]. destruct (ae_respawn _ _ _) as [x|]; [|done].
  by destruct (str_is_empty x).
Qed.

Lemma deliver_protocol e m s :
  ∃ block, delivery_block block ∧ protocol (deliver e m s).1 = (protocol s ++ block)%list ∧
    as_session_emitted (deliver e m s).1 = as_session_emitted s.
Proof.
  unfold deliver.
  destruct ((0 <? ad_seq m) && (0 <? ad_attempt m)) eqn:Ha; cbv zeta;
    match goal with |- context [write_body e ?b ?s1] =>
      pose proof (write_body_protocol e b s1) as [[Hp He] Hid];
      destruct (write_body e b s1) as [s2 r] end; simpl in Hp, He, Hid;
    destruct ((0 <? ad_attempt m) && is_ok r) eqn:Hb; cbn [fst]; bsimp;
    rewrite ?protocol_emit, ?Hp, ?protocol_emit; cbn [bfilter is_delivery].
  - eexists. split; [|split; [by rewrite <- app_assoc|done]]. rewrite Hid. apply block_both.
  - eexists. split; [|split; [done|done]]. constructor.
  - eexists. split; [|split; [done|done]]. apply block_acked. simpl.
    apply andb_false_iff in Ha as [Ha|Ha]; bsimp; lia.
  - exists []. split; [constructor|]. by rewrite app_nil_r.
Qed.

Lemma loop_deliver_protocol e m s : protocol_ok s → protocol_ok (loop_deliver e m s).
Proof.
  intros H. unfold loop_deliver. set (s1 := set_channel _ _ s).
  assert (protocol_ok s1) as H1 by done. clearbody s1.
  set (s2 := if as_session_emitted s1 then s1 else _).
  assert (as_session_emitted s2 = true ∧
    ∃ x blocks, protocol s2 = (AgentSession x :: concat blocks)%list ∧ Forall delivery_block blocks)
    as [He (x & blocks & Hp & Hb)].
  { unfold s2, protocol_ok in *. destruct (as_session_emitted s1) eqn:E; [done|].
    split; [done|]. eexists _, []. unfold protocol in *. simpl. rewrite bfilter_app, H1. done. }
  clearbody s2. destruct (deliver_protocol e m s2) as (block & Hblock & Hp3 & He3).
  destruct (deliver e m s2) as [s3 r]. simpl in *.
  assert (protocol_ok s3) as H3.
  { unfold protocol_ok. rewrite He3, He, Hp3, Hp. exists x, (blocks ++ [block])%list.
    rewrite concat_app. simpl. rewrite app_nil_r. split; [done|]. apply Forall_app. by repeat constructor. }
  by destruct (as_is_respawn s3).
Qed.

Lemma loop_step_protocol e i s s' f :
  loop_step e i s = Some (s', f) → protocol_ok s → protocol_ok s'.
Proof.
  destruct i as [[[m| |fl]|]|ev]; simpl; intros Hs H; simplify_eq; try done.
  - by apply loop_deliver_protocol.
  - destruct (as_event_rx_live s); simpl in Hs; [|done]. destruct ev as [ev|].
    + destruct ev; simplify_eq; try done; by eapply same_protocol_ok; [apply handle_event_protocol|].
    + destruct (as_is_respawn s); by simplify_eq.
Qed.

Lemma run_loop_protocol e inputs s : protocol_ok s → protocol_ok (run_loop e inputs s).
Proof.
  revert s. induction inputs as [|i l IH]; intros s H; simpl; [done|].
  destruct (loop_step e i s) as [[s' []]|] eqn:E; [apply IH| |by apply IH];
    by eapply loop_step_protocol.
Qed.

