(* ===== verification/StoreTypes.v ===== *)
(** * The persistent data of the local store

    [crates/cocli-store/src/lib.rs], the types: enumerations with the strings they are
    persisted as, the domain records, the rows as SQLite returns them, and the decoding of
    a row into a domain value. Enumerated columns are strings in a row, as they are in the
    database; reading one goes through [parse] and can fail. *)
From S2P Require Import Prelude.

(** ** Errors *)

(** The ways a statement fails: the constraints of the schema, a missing row for
    [fetch_one], and a fault of the connection or the disk. *)
Inductive SqlError : Type :=
  | UniqueViolation | ForeignKeyViolation | NotNullViolation | CheckViolation
  | RowNotFound | IoFault.

#[export] Instance SqlError_eq_dec : EqDecision SqlError.
Proof. solve_decision. Defined.

(** The variants raised by the modelled operations. *)
Inductive StoreError : Type :=
  | Sqlx (e : SqlError)
  | JsonFault
  | InvalidValue (kind value : string)
  | InvalidWorkspacePortableLocator (provider_key value : string)
  | DeliveryNotInFlight (id : Uuid)
  | TaskNotFound (task_number : Z)
  | TaskAlreadyClaimed (task_number : Z)
  | TaskUnmetDependencies (task_number : Z)
  | InvalidTaskTransition (from to : string)
  | TaskDependencySelf
  | TaskDependencyCycle
  | WorkspaceNotFound (id : Uuid)
  | SubjectNotFound (subject_type : string) (subject_id : Uuid)
  | WorkspaceBindingNotFound (id : Uuid)
  | InvalidMemoryType (value : string)
  | InvalidMemoryTopic (value : string)
  | InvalidMemoryDescription (reason : string)
  | MemoryTopicTooLarge (bytes limit : Z)
  | MemoryTopicNotFound (path : string)
  | MemoryVersionConflict (path : string) (current_version attempted_version : Z)
  | MemoryIndexFull (lines limit : Z)
  | MemoryNamespaceFull (bytes limit : Z)
  | MemoryMoveSameNamespace
  | InvalidSkillName (name : string)
  | InvalidSkillFilePath (path : string)
  | InvalidSkillFileSize (path : string) (declared actual : Z)
  | SkillLibraryTooLarge (bytes limit : Z)
  | SkillNameConflict (name : string)
  | SkillLibraryNotFound (id : Uuid)
  | SkillAlreadyInstalled (agent_id library_id : Uuid)
  | SkillInstallNotFound (id : Uuid)
  | SkillGovernanceVersionConflict (entity : string) (id : Uuid) (current_version attempted_version : Z)
  | SkillGovernanceTransitionConflict (id : Uuid) (from to : string)
  | SkillGovernanceNotFound (entity : string) (id : Uuid)
  | SkillGovernanceLockHeld (scope scope_id owner : string) (lease_expires_at : Time)
  | SkillGovernanceIdempotencyConflict (entity : string) (id : Uuid)
  | SkillGovernanceDeleteConflict (entity : string) (id : Uuid) (reason : string)
  | McpProfileNotFound (id : Uuid)
  | McpProfileVersionConflict (profile_id : Uuid) (current_version expected_version : Z)
  | McpProfileBindingVersionConflict (binding_id : Uuid) (current_version expected_version : Z)
  | InvalidMcpProfile (reason : string)
  | InvalidMcpBindingTarget (reason : string)
  | McpPlanNotFound (id : string)
  | InvalidMcpPlanDecision (reason : string)
  | InvalidMcpApplyRun (reason : string)
  | McpApplyRunNotFound (id : Uuid)
  | McpBundleImportNotFound (id : Uuid)
  | McpBundleImportConflict (reason : string)
  | InvalidMcpBundleImport (reason : string).

#[export] Instance StoreError_eq_dec : EqDecision StoreError.
Proof. solve_decision. Defined.

(** ** Enumerations persisted as strings *)

(** An enumeration with its [as_str] and [parse]: what the row decoders rely on. *)
Class PersistedEnum (A : Type) := {
  as_str : A → string;
  parse : string → result A StoreError;
}.

(** [parse] inverts [as_str], and accepts nothing else. *)
Class PersistedEnumLaws (A : Type) `{PersistedEnum A} : Prop := {
  parse_as_str (a : A) : parse (as_str a) = Ok a;
  as_str_parse (s : string) (a : A) : parse s = Ok a → as_str a = s;
}.

Inductive AgentLifecycleStatus : Type := Active | Paused | Archived.

#[export] Instance AgentLifecycleStatus_eq_dec : EqDecision AgentLifecycleStatus.
Proof. solve_decision. Defined.

#[export] Instance AgentLifecycleStatus_enum : PersistedEnum AgentLifecycleStatus := {
  as_str s := match s with Active => "active" | Paused => "paused" | Archived => "archived" end;
  parse value :=
    if str_eqb value "active" then Ok Active
    else if str_eqb value "paused" then Ok Paused
    else if str_eqb value "archived" then Ok Archived
    else Err (InvalidValue "agent lifecycle status" value);
}.

Inductive AgentStatus : Type := Running | Stopped.

#[export] Instance AgentStatus_eq_dec : EqDecision AgentStatus.
Proof. solve_decision. Defined.

#[export] Instance AgentStatus_enum : PersistedEnum AgentStatus := {
  as_str s := match s with Running => "running" | Stopped => "stopped" end;
  parse value :=
    if str_eqb value "running" then Ok Running
    else if str_eqb value "stopped" then Ok Stopped
    else Err (InvalidValue "agent status" value);
}.

Inductive MessageRole : Type := User | Assistant.

#[export] Instance MessageRole_eq_dec : EqDecision MessageRole.
Proof. solve_decision. Defined.

#[export] Instance MessageRole_enum : PersistedEnum MessageRole := {
  as_str s := match s with User => "user" | Assistant => "assistant" end;
  parse value :=
    if str_eqb value "user" then Ok User
    else if str_eqb value "assistant" then Ok Assistant
    else Err (InvalidValue "message role" value);
}.

Inductive DeliveryState : Type := Pending | InFlight | Exhausted.

#[export] Instance DeliveryState_eq_dec : EqDecision DeliveryState.
Proof. solve_decision. Defined.

#[export] Instance DeliveryState_enum : PersistedEnum DeliveryState := {
  as_str s := match s with
    | Pending => "pending" | InFlight => "in_flight" | Exhausted => "exhausted" end;
  parse value :=
    if str_eqb value "pending" then Ok Pending
    else if str_eqb value "in_flight" then Ok InFlight
    else if str_eqb value "exhausted" then Ok Exhausted
    else Err (InvalidValue "delivery state" value);
}.

Inductive TaskStatus : Type := Todo | InProgress | InReview | Done.

#[export] Instance TaskStatus_eq_dec : EqDecision TaskStatus.
Proof. solve_decision. Defined.

#[export] Instance TaskStatus_enum : PersistedEnum TaskStatus := {
  as_str s := match s with
    | Todo => "todo" | InProgress => "in_progress" | InReview => "in_review" | Done => "done"
    end;
  parse value :=
    if str_eqb value "todo" then Ok Todo
    else if str_eqb value "in_progress" then Ok InProgress
    else if str_eqb value "in_review" then Ok InReview
    else if str_eqb value "done" then Ok Done
    else Err (InvalidValue "task status" value);
}.

Definition can_transition_to (self next : TaskStatus) : bool :=
  bool_decide (self = next) ||
  match self, next with
  | Todo, InProgress
  | InProgress, InReview | InProgress, Done
  | InReview, InProgress | InReview, Done => true
  | _, _ => false
  end.

(** [workspace.rs]. *)
Inductive SubjectType : Type := SubjectAgent | SubjectChannel.

#[export] Instance SubjectType_eq_dec : EqDecision SubjectType.
Proof. solve_decision. Defined.

#[export] Instance SubjectType_enum : PersistedEnum SubjectType := {
  as_str s := match s with SubjectAgent => "agent" | SubjectChannel => "channel" end;
  parse value :=
    if str_eqb value "agent" then Ok SubjectAgent
    else if str_eqb value "channel" then Ok SubjectChannel
    else Err (InvalidValue "subject type" value);
}.

(** [workspace.rs]. *)
Inductive WorkspaceBindingState : Type :=
  | Unbound | Resolving | Ready | Unavailable | NeedsAttention.

#[export] Instance WorkspaceBindingState_eq_dec : EqDecision WorkspaceBindingState.
Proof. solve_decision. Defined.

#[export] Instance WorkspaceBindingState_enum : PersistedEnum WorkspaceBindingState := {
  as_str s := match s with
    | Unbound => "unbound" | Resolving => "resolving" | Ready => "ready"
    | Unavailable => "unavailable" | NeedsAttention => "needs_attention"
    end;
  parse value :=
    if str_eqb value "unbound" then Ok Unbound
    else if str_eqb value "resolving" then Ok Resolving
    else if str_eqb value "ready" then Ok Ready
    else if str_eqb value "unavailable" then Ok Unavailable
    else if str_eqb value "needs_attention" then Ok NeedsAttention
    else Err (InvalidValue "workspace binding state" value);
}.

(** ** Domain records *)

Record Channel := mkChannel {
  ch_id : Uuid;
  ch_name : string;
  ch_description : option string;
  ch_goal : option string;
  ch_kind : string;
  ch_is_system : bool;
  ch_direct_agent_id : option Uuid;
  ch_created_by_agent_id : option Uuid;
  ch_created_by_channel_id : option Uuid;
  ch_created_at : Time;
}.

Record Agent := mkAgent {
  ag_id : Uuid;
  ag_channel_id : Uuid;
  ag_name : string;
  ag_description : option string;
  ag_instructions : option string;
  ag_runtime : string;
  ag_model : option string;
  ag_status : AgentStatus;
  ag_lifecycle_status : AgentLifecycleStatus;
  ag_created_by_agent_id : option Uuid;
  ag_created_by_channel_id : option Uuid;
  ag_created_at : Time;
}.

Record AgentRow := mkAgentRow {
  ar_id : Uuid;
  ar_channel_id : Uuid;
  ar_name : string;
  ar_description : option string;
  ar_instructions : option string;
  ar_runtime : string;
  ar_model : option string;
  ar_status : string;
  ar_lifecycle_status : string;
  ar_created_by_agent_id : option Uuid;
  ar_created_by_channel_id : option Uuid;
  ar_created_at : Time;
}.

Record ChannelAgent := mkChannelAgent {
  ca_channel_id : Uuid;
  ca_agent_id : Uuid;
  ca_role : option string;
  ca_delivery_policy : string;
  ca_joined_at : Time;
  ca_created_by_agent_id : option Uuid;
  ca_created_by_channel_id : option Uuid;
}.

Record Message := mkMessage {
  msg_id : Uuid;
  msg_channel_id : Uuid;
  msg_seq : Z;
  msg_agent_id : option Uuid;
  msg_role : MessageRole;
  msg_content : string;
  msg_created_at : Time;
}.

Record MessageRow := mkMessageRow {
  mr_id : Uuid;
  mr_channel_id : Uuid;
  mr_seq : Z;
  mr_agent_id : option Uuid;
  mr_role : string;
  mr_content : string;
  mr_created_at : Time;
}.

Record Delivery := mkDelivery {
  dl_id : Uuid;
  dl_agent_id : Uuid;
  dl_channel_id : Uuid;
  dl_message_id : Uuid;
  dl_seq : Z;
  dl_state : DeliveryState;
  dl_attempts : Z;
  dl_next_attempt_at : Time;
  dl_last_error : option string;
  dl_created_at : Time;
  dl_updated_at : Time;
}.

Record DeliveryRow := mkDeliveryRow {
  dr_id : Uuid;
  dr_agent_id : Uuid;
  dr_channel_id : Uuid;
  dr_message_id : Uuid;
  dr_seq : Z;
  dr_state : string;
  dr_attempts : Z;
  dr_next_attempt_at : Time;
  dr_last_error : option string;
  dr_created_at : Time;
  dr_updated_at : Time;
}.

Record DeliveryStats := mkDeliveryStats {
  ds_pending : Z;
  ds_in_flight : Z;
  ds_exhausted : Z;
  ds_ready : Z;
  ds_max_attempts : Z;
}.

(** A row of [agent_inbox_state]. *)
Record InboxRow := mkInboxRow {
  ir_agent_id : Uuid;
  ir_last_read_seq : Z;
  ir_updated_at : Time;
}.

Record WorkingState := mkWorkingState {
  wst_agent_id : Uuid;
  wst_summary : string;
  wst_channel_name : option string;
  wst_task_number : option Z;
  wst_next_step_hint : option string;
  wst_started_at : Time;
  wst_updated_at : Time;
}.

Record Task := mkTask {
  tk_id : Uuid;
  tk_channel_id : Uuid;
  tk_message_id : option Uuid;
  tk_task_number : Z;
  tk_title : string;
  tk_status : TaskStatus;
  tk_progress : option string;
  tk_assignee_id : option Uuid;
  tk_assignee_type : option string;
  tk_assignee_name : option string;
  tk_created_by_id : option Uuid;
  tk_created_by_type : option string;
  tk_created_at : Time;
  tk_updated_at : Time;
}.

(** A task as the queries return it: the columns of [tasks] and the assignee's name of the
    left join. *)
Record TaskRow := mkTaskRow {
  tr_id : Uuid;
  tr_channel_id : Uuid;
  tr_message_id : option Uuid;
  tr_task_number : Z;
  tr_title : string;
  tr_status : string;
  tr_progress : option string;
  tr_assignee_id : option Uuid;
  tr_assignee_name : option string;
  tr_created_by_agent_id : option Uuid;
  tr_created_at : Time;
  tr_updated_at : Time;
}.

(** A row of [task_dependencies]. *)
Record DependencyRow := mkDependencyRow {
  dep_channel_id : Uuid;
  dep_task_number : Z;
  dep_depends_on : Z;
  dep_created_at : Time;
}.

(** A row of [workspaces]; [metadata_json] is the encoded metadata. *)
Record WorkspaceRow := mkWorkspaceRow {
  wsr_id : Uuid;
  wsr_provider_key : string;
  wsr_descriptor_version : Z;
  wsr_display_name : string;
  wsr_portable_locator : option string;
  wsr_metadata_json : string;
  wsr_created_at : Time;
  wsr_updated_at : Time;
}.

(** A row of [subject_workspaces]. *)
Record AttachmentRow := mkAttachmentRow {
  atr_workspace_id : Uuid;
  atr_subject_type : string;
  atr_subject_id : Uuid;
  atr_role : option string;
  atr_attached_at : Time;
}.

(** A row of [workspace_bindings]. *)
Record BindingRow := mkBindingRow {
  wbr_workspace_id : Uuid;
  wbr_installation_id : string;
  wbr_local_locator : option string;
  wbr_state : string;
  wbr_capabilities_json : string;
  wbr_secret_ref : option string;
  wbr_last_verified_at : option Time;
  wbr_error_code : option string;
  wbr_error_message : option string;
}.

(** A row of [memory_documents]. *)
Record MemoryRow := mkMemoryRow {
  md_id : Uuid;
  md_path : string;
  md_content_md : string;
  md_version : Z;
  md_created_at : Time;
  md_updated_at : Time;
  md_updated_by : option string;
}.

(** An [f64] is its bit pattern. *)
Abbreviation F64 := N (only parsing).

(** A row of [agent_sessions]; [files_changed] is encoded, [task_success] is an integer. *)
Record SessionRow := mkSessionRow {
  sn_id : Uuid;
  sn_agent_id : Uuid;
  sn_session_id : string;
  sn_launch_id : option string;
  sn_channel_id : option Uuid;
  sn_parent_session_id : option Uuid;
  sn_end_reason : option string;
  sn_turn_count : Z;
  sn_input_tokens : Z;
  sn_output_tokens : Z;
  sn_cost_usd : F64;
  sn_context_window : Z;
  sn_session_type : string;
  sn_scope : option string;
  sn_parent_chat_session_id : option Uuid;
  sn_task_summary : option string;
  sn_files_changed : option string;
  sn_task_success : option Z;
  sn_started_at : Time;
  sn_ended_at : option Time;
}.

(** A row of [agent_turns]; [entries] is encoded. *)
Record TurnRow := mkTurnRow {
  tn_id : Uuid;
  tn_agent_id : Uuid;
  tn_session_id : string;
  tn_launch_id : option string;
  tn_turn_number : Z;
  tn_started_at : Time;
  tn_ended_at : option Time;
  tn_input_tokens : Z;
  tn_output_tokens : Z;
  tn_cost_usd : F64;
  tn_context_window : Z;
  tn_entries : string;
  tn_session_type : string;
  tn_channel_id : option Uuid;
  tn_source_message_id : option Uuid;
}.

(** A row of [agent_activity]; [trajectory] is encoded. *)
Record ActivityRow := mkActivityRow {
  act_id : Uuid;
  act_agent_id : Uuid;
  act_session_row_id : option Uuid;
  act_session_id : option string;
  act_activity : string;
  act_detail : option string;
  act_trajectory : string;
  act_launch_id : option string;
  act_created_at : Time;
}.

(** A row of [agent_bridge_tokens]. *)
Record TokenRow := mkTokenRow {
  bt_agent_id : Uuid;
  bt_token : string;
  bt_created_at : Time;
  bt_rotated_at : Time;
}.

(** [AgentOperation], which is also the row of [agent_operations]. *)
Record AgentOperation := mkAgentOperation {
  aop_id : Uuid;
  aop_caller_agent_id : Uuid;
  aop_action : string;
  aop_idempotency_key : option string;
  aop_request_fingerprint : string;
  aop_result_type : string;
  aop_result_id : string;
  aop_source_channel_id : option Uuid;
  aop_source_session_id : option string;
  aop_created_at : Time;
}.

(** A row of [skill_library]. *)
Record SkillRow := mkSkillRow {
  sk_id : Uuid;
  sk_name : string;
  sk_display_name : string;
  sk_description : string;
  sk_user_invocable : bool;
  sk_source_kind : string;
  sk_source_url : string;
  sk_source_subpath : option string;
  sk_source_ref : option string;
  sk_total_bytes : Z;
  sk_file_count : Z;
  sk_imported_at : Time;
  sk_updated_at : Time;
}.

(** [SkillLibraryFile]; the content is its bytes. *)
Record SkillLibraryFile := mkSkillLibraryFile {
  slf_rel_path : string;
  slf_mode : Z;
  slf_content : string;
  slf_size : Z;
}.

(** A row of [skill_library_files]. *)
Record SkillFileRow := mkSkillFileRow {
  sfr_library_id : Uuid;
  sfr_file : SkillLibraryFile;
}.

(** A row of [agent_skill_installs]. *)
Record InstallRow := mkInstallRow {
  in_id : Uuid;
  in_agent_id : Uuid;
  in_library_id : Uuid;
  in_install_path : string;
  in_installed_at : Time;
}.

(** ** Decoding rows: [TryFrom<Row>] *)

Definition agent_try_from (row : AgentRow) : result Agent StoreError :=
  try! status <- parse (ar_status row);
  try! lifecycle <- parse (ar_lifecycle_status row);
  Ok {| ag_id := ar_id row; ag_channel_id := ar_channel_id row; ag_name := ar_name row;
        ag_description := ar_description row; ag_instructions := ar_instructions row;
        ag_runtime := ar_runtime row; ag_model := ar_model row; ag_status := status;
        ag_lifecycle_status := lifecycle;
        ag_created_by_agent_id := ar_created_by_agent_id row;
        ag_created_by_channel_id := ar_created_by_channel_id row;
        ag_created_at := ar_created_at row |}.

Definition message_try_from (row : MessageRow) : result Message StoreError :=
  try! role <- parse (mr_role row);
  Ok {| msg_id := mr_id row; msg_channel_id := mr_channel_id row; msg_seq := mr_seq row;
        msg_agent_id := mr_agent_id row; msg_role := role; msg_content := mr_content row;
        msg_created_at := mr_created_at row |}.

Definition delivery_try_from (row : DeliveryRow) : result Delivery StoreError :=
  try! state <- parse (dr_state row);
  Ok {| dl_id := dr_id row; dl_agent_id := dr_agent_id row;
        dl_channel_id := dr_channel_id row; dl_message_id := dr_message_id row;
        dl_seq := dr_seq row; dl_state := state; dl_attempts := dr_attempts row;
        dl_next_attempt_at := dr_next_attempt_at row; dl_last_error := dr_last_error row;
        dl_created_at := dr_created_at row; dl_updated_at := dr_updated_at row |}.

Definition task_try_from (row : TaskRow) : result Task StoreError :=
  try! status <- parse (tr_status row);
  Ok {| tk_id := tr_id row; tk_channel_id := tr_channel_id row;
        tk_message_id := tr_message_id row; tk_task_number := tr_task_number row;
        tk_title := tr_title row; tk_status := status; tk_progress := tr_progress row;
        tk_assignee_id := tr_assignee_id row;
        tk_assignee_type := (λ _, "agent") <$> tr_assignee_id row;
        tk_assignee_name := tr_assignee_name row;
        tk_created_by_id := tr_created_by_agent_id row;
        tk_created_by_type := (λ _, "agent") <$> tr_created_by_agent_id row;
        tk_created_at := tr_created_at row; tk_updated_at := tr_updated_at row |}.

(** ** The laws of the persisted enumerations *)

Ltac solve_enum :=
  split; [by intros [] |];
  intros s a; simpl; unfold str_eqb;
  repeat case_bool_decide; intros [= <-]; done || subst; done.

#[export] Instance AgentLifecycleStatus_laws : PersistedEnumLaws AgentLifecycleStatus.
Proof. solve_enum. Qed.
#[export] Instance AgentStatus_laws : PersistedEnumLaws AgentStatus.
Proof. solve_enum. Qed.
#[export] Instance MessageRole_laws : PersistedEnumLaws MessageRole.
Proof. solve_enum. Qed.
#[export] Instance DeliveryState_laws : PersistedEnumLaws DeliveryState.
Proof. solve_enum. Qed.
#[export] Instance TaskStatus_laws : PersistedEnumLaws TaskStatus.
Proof. solve_enum. Qed.

#[export] Instance SubjectType_laws : PersistedEnumLaws SubjectType.
Proof. solve_enum. Qed.
#[export] Instance WorkspaceBindingState_laws : PersistedEnumLaws WorkspaceBindingState.
Proof. solve_enum. Qed.

(** The strings a [CHECK (col IN (...))] constraint admits are those of the enumeration. *)
Definition persisted (A : Type) `{PersistedEnum A} (s : string) : Prop :=
  ∃ a : A, s = as_str a.

Lemma persisted_parse {A} `{PersistedEnumLaws A} (s : string) :
  persisted A s ↔ is_ok (parse (A := A) s) = true.
Proof.
  split.
  - intros [a ->]. by rewrite parse_as_str.
  - destruct (parse s) as [a|] eqn:E; [|done]. intros _. exists a.
    symmetry. by apply as_str_parse.
Qed.

Lemma persisted_as_str {A} `{PersistedEnum A} (a : A) : persisted A (as_str a).
Proof. by exists a. Qed.

#[export] Hint Resolve persisted_as_str : cocli.
