(* ===== verification/SkillGovernanceTypes.v ===== *)
(** * The persistent data of skill governance

    [crates/cocli-store/src/skill_governance.rs], the types: the enumerations with the strings
    they are persisted as, and the records of the tables of [migrations/0017-0019]. A record is
    parameterised by the types of its enumerated and JSON columns: a row has the text the
    database holds, the domain value has the decoded one. *)
From S2P Require Import Prelude StoreTypes.

(** ** Enumerations *)

Inductive SkillGovernanceScope : Type := ScopeMachine | ScopeWorkspace | ScopeAgent.
#[export] Instance SkillGovernanceScope_eq_dec : EqDecision SkillGovernanceScope.
Proof. solve_decision. Defined.
#[export] Instance SkillGovernanceScope_enum : PersistedEnum SkillGovernanceScope := {
  as_str s := match s with
    | ScopeMachine => "machine" | ScopeWorkspace => "workspace" | ScopeAgent => "agent" end;
  parse value :=
    if str_eqb value "machine" then Ok ScopeMachine
    else if str_eqb value "workspace" then Ok ScopeWorkspace
    else if str_eqb value "agent" then Ok ScopeAgent
    else Err (InvalidValue "skill governance scope" value);
}.

Inductive SkillGovernancePlanStatus : Type := PlanDraft | PlanApproved | PlanRejected | PlanStale.
#[export] Instance SkillGovernancePlanStatus_eq_dec : EqDecision SkillGovernancePlanStatus.
Proof. solve_decision. Defined.
#[export] Instance SkillGovernancePlanStatus_enum : PersistedEnum SkillGovernancePlanStatus := {
  as_str s := match s with
    | PlanDraft => "draft" | PlanApproved => "approved" | PlanRejected => "rejected"
    | PlanStale => "stale" end;
  parse value :=
    if str_eqb value "draft" then Ok PlanDraft
    else if str_eqb value "approved" then Ok PlanApproved
    else if str_eqb value "rejected" then Ok PlanRejected
    else if str_eqb value "stale" then Ok PlanStale
    else Err (InvalidValue "skill governance plan status" value);
}.

Inductive SkillGovernanceApplyRunStatus : Type :=
  | RunPending | RunRunning | RunSucceeded | RunFailed | RunRollingBack | RunRolledBack
  | RunRecoveryRequired.
#[export] Instance SkillGovernanceApplyRunStatus_eq_dec : EqDecision SkillGovernanceApplyRunStatus.
Proof. solve_decision. Defined.
#[export] Instance SkillGovernanceApplyRunStatus_enum : PersistedEnum SkillGovernanceApplyRunStatus := {
  as_str s := match s with
    | RunPending => "pending" | RunRunning => "running" | RunSucceeded => "succeeded"
    | RunFailed => "failed" | RunRollingBack => "rolling_back" | RunRolledBack => "rolled_back"
    | RunRecoveryRequired => "recovery_required" end;
  parse value :=
    if str_eqb value "pending" then Ok RunPending
    else if str_eqb value "running" then Ok RunRunning
    else if str_eqb value "succeeded" then Ok RunSucceeded
    else if str_eqb value "failed" then Ok RunFailed
    else if str_eqb value "rolling_back" then Ok RunRollingBack
    else if str_eqb value "rolled_back" then Ok RunRolledBack
    else if str_eqb value "recovery_required" then Ok RunRecoveryRequired
    else Err (InvalidValue "skill governance apply run status" value);
}.

Inductive SkillGovernanceRecoveryStatus : Type :=
  | RecoveryNotRequired | RecoveryPending | RecoveryInProgress | Recovered | RecoveryFailed
  | Quarantined.
#[export] Instance SkillGovernanceRecoveryStatus_eq_dec : EqDecision SkillGovernanceRecoveryStatus.
Proof. solve_decision. Defined.
#[export] Instance SkillGovernanceRecoveryStatus_enum : PersistedEnum SkillGovernanceRecoveryStatus := {
  as_str s := match s with
    | RecoveryNotRequired => "not_required" | RecoveryPending => "pending"
    | RecoveryInProgress => "in_progress" | Recovered => "recovered" | RecoveryFailed => "failed"
    | Quarantined => "quarantined" end;
  parse value :=
    if str_eqb value "not_required" then Ok RecoveryNotRequired
    else if str_eqb value "pending" then Ok RecoveryPending
    else if str_eqb value "in_progress" then Ok RecoveryInProgress
    else if str_eqb value "recovered" then Ok Recovered
    else if str_eqb value "failed" then Ok RecoveryFailed
    else if str_eqb value "quarantined" then Ok Quarantined
    else Err (InvalidValue "skill governance recovery status" value);
}.

Inductive SkillGovernanceApplyActionStatus : Type :=
  | ActionPending | ActionPreflight | ActionLocked | ActionBackedUp | ActionStaged | ActionWritten
  | LockfileWritten | Refreshing | ActionVerified | ActionFailed | ActionRollingBack
  | ActionRolledBack | ActionRecoveryRequired | ActionSkipped.
#[export] Instance SkillGovernanceApplyActionStatus_eq_dec : EqDecision SkillGovernanceApplyActionStatus.
Proof. solve_decision. Defined.
#[export] Instance SkillGovernanceApplyActionStatus_enum : PersistedEnum SkillGovernanceApplyActionStatus := {
  as_str s := match s with
    | ActionPending => "pending" | ActionPreflight => "preflight" | ActionLocked => "locked"
    | ActionBackedUp => "backed_up" | ActionStaged => "staged" | ActionWritten => "written"
    | LockfileWritten => "lockfile_written" | Refreshing => "refreshing"
    | ActionVerified => "verified" | ActionFailed => "failed" | ActionRollingBack => "rolling_back"
    | ActionRolledBack => "rolled_back" | ActionRecoveryRequired => "recovery_required"
    | ActionSkipped => "skipped" end;
  parse value :=
    if str_eqb value "pending" then Ok ActionPending
    else if str_eqb value "preflight" then Ok ActionPreflight
    else if str_eqb value "locked" then Ok ActionLocked
    else if str_eqb value "backed_up" then Ok ActionBackedUp
    else if str_eqb value "staged" then Ok ActionStaged
    else if str_eqb value "written" then Ok ActionWritten
    else if str_eqb value "lockfile_written" then Ok LockfileWritten
    else if str_eqb value "refreshing" then Ok Refreshing
    else if str_eqb value "verified" then Ok ActionVerified
    else if str_eqb value "failed" then Ok ActionFailed
    else if str_eqb value "rolling_back" then Ok ActionRollingBack
    else if str_eqb value "rolled_back" then Ok ActionRolledBack
    else if str_eqb value "recovery_required" then Ok ActionRecoveryRequired
    else if str_eqb value "skipped" then Ok ActionSkipped
    else Err (InvalidValue "skill governance apply action status" value);
}.

Inductive SkillGovernanceMaterializationOwnership : Type := Managed | Adopted | Foreign | Unmanaged.
#[export] Instance Ownership_eq_dec : EqDecision SkillGovernanceMaterializationOwnership.
Proof. solve_decision. Defined.
#[export] Instance Ownership_enum : PersistedEnum SkillGovernanceMaterializationOwnership := {
  as_str s := match s with
    | Managed => "managed" | Adopted => "adopted" | Foreign => "foreign" | Unmanaged => "unmanaged" end;
  parse value :=
    if str_eqb value "managed" then Ok Managed
    else if str_eqb value "adopted" then Ok Adopted
    else if str_eqb value "foreign" then Ok Foreign
    else if str_eqb value "unmanaged" then Ok Unmanaged
    else Err (InvalidValue "skill governance materialization ownership" value);
}.

Inductive SkillGovernanceMaterializationRootKind : Type := RootMachine | RootWorkspace | RootAgent.
#[export] Instance RootKind_eq_dec : EqDecision SkillGovernanceMaterializationRootKind.
Proof. solve_decision. Defined.
#[export] Instance RootKind_enum : PersistedEnum SkillGovernanceMaterializationRootKind := {
  as_str s := match s with
    | RootMachine => "machine" | RootWorkspace => "workspace" | RootAgent => "agent" end;
  parse value :=
    if str_eqb value "machine" then Ok RootMachine
    else if str_eqb value "workspace" then Ok RootWorkspace
    else if str_eqb value "agent" then Ok RootAgent
    else Err (InvalidValue "skill governance materialization root kind" value);
}.

Inductive SkillGovernanceInstallationMode : Type := CopyMode | SymlinkMode | InPlace.
#[export] Instance InstallationMode_eq_dec : EqDecision SkillGovernanceInstallationMode.
Proof. solve_decision. Defined.
#[export] Instance InstallationMode_enum : PersistedEnum SkillGovernanceInstallationMode := {
  as_str s := match s with
    | CopyMode => "copy" | SymlinkMode => "symlink" | InPlace => "in_place" end;
  parse value :=
    if str_eqb value "copy" then Ok CopyMode
    else if str_eqb value "symlink" then Ok SymlinkMode
    else if str_eqb value "in_place" then Ok InPlace
    else Err (InvalidValue "skill governance installation mode" value);
}.

Inductive SkillGovernanceVerifyStatus : Type := VerifyUnknown | VerifyVerified | Drifted | Missing.
#[export] Instance VerifyStatus_eq_dec : EqDecision SkillGovernanceVerifyStatus.
Proof. solve_decision. Defined.
#[export] Instance VerifyStatus_enum : PersistedEnum SkillGovernanceVerifyStatus := {
  as_str s := match s with
    | VerifyUnknown => "unknown" | VerifyVerified => "verified" | Drifted => "drifted"
    | Missing => "missing" end;
  parse value :=
    if str_eqb value "unknown" then Ok VerifyUnknown
    else if str_eqb value "verified" then Ok VerifyVerified
    else if str_eqb value "drifted" then Ok Drifted
    else if str_eqb value "missing" then Ok Missing
    else Err (InvalidValue "skill governance verify status" value);
}.

#[export] Instance SkillGovernanceScope_laws : PersistedEnumLaws SkillGovernanceScope.
Proof. solve_enum. Qed.
#[export] Instance SkillGovernancePlanStatus_laws : PersistedEnumLaws SkillGovernancePlanStatus.
Proof. solve_enum. Qed.
#[export] Instance SkillGovernanceApplyRunStatus_laws : PersistedEnumLaws SkillGovernanceApplyRunStatus.
Proof. solve_enum. Qed.
#[export] Instance SkillGovernanceRecoveryStatus_laws : PersistedEnumLaws SkillGovernanceRecoveryStatus.
Proof. solve_enum. Qed.
#[export] Instance SkillGovernanceApplyActionStatus_laws : PersistedEnumLaws SkillGovernanceApplyActionStatus.
Proof. solve_enum. Qed.
#[export] Instance Ownership_laws : PersistedEnumLaws SkillGovernanceMaterializationOwnership.
Proof. solve_enum. Qed.
#[export] Instance RootKind_laws : PersistedEnumLaws SkillGovernanceMaterializationRootKind.
Proof. solve_enum. Qed.
#[export] Instance InstallationMode_laws : PersistedEnumLaws SkillGovernanceInstallationMode.
Proof. solve_enum. Qed.
#[export] Instance VerifyStatus_laws : PersistedEnumLaws SkillGovernanceVerifyStatus.
Proof. solve_enum. Qed.

(** ** Tables and domain records *)

Record SkillProfileOf (J : Type) := mkSkillProfile {
  skp_id : Uuid;
  skp_document : J;
  skp_version : Z;
  skp_created_at : Time;
  skp_updated_at : Time;
}.

Record SkillProfileBindingOf (Sc : Type) := mkSkillProfileBinding {
  spb_id : Uuid;
  spb_scope : Sc;
  spb_scope_id : string;
  spb_profile_id : Uuid;
  spb_version : Z;
  spb_created_at : Time;
  spb_updated_at : Time;
}.

Record SkillLockSnapshotOf (Sc J : Type) := mkSkillLockSnapshot {
  sls_id : Uuid;
  sls_scope : Sc;
  sls_scope_id : string;
  sls_profile_id : option Uuid;
  sls_snapshot : J;
  sls_observation_hash : string;
  sls_desired_hash : string;
  sls_lock_hash : string;
  sls_created_at : Time;
}.

Record SkillGovernancePlanOf (Sc J St : Type) := mkSkillGovernancePlan {
  sgp_id : Uuid;
  sgp_scope : Sc;
  sgp_scope_id : string;
  sgp_plan : J;
  sgp_observation_hash : string;
  sgp_desired_hash : string;
  sgp_status : St;
  sgp_version : Z;
  sgp_created_at : Time;
  sgp_updated_at : Time;
}.

Record SkillGovernancePlanAuditOf (St : Type) := mkSkillGovernancePlanAudit {
  spa_id : Uuid;
  spa_plan_id : Uuid;
  spa_action : string;
  spa_from_status : St;
  spa_to_status : St;
  spa_from_version : Z;
  spa_to_version : Z;
  spa_created_at : Time;
}.

Record SkillGovernanceScopedLockOf (Sc : Type) := mkScopedLock {
  slk_id : Uuid;
  slk_scope : Sc;
  slk_scope_id : string;
  slk_owner : string;
  slk_process_id : option Z;
  slk_run_id : option Uuid;
  slk_lease_nonce : string;
  slk_lease_expires_at : Time;
  slk_acquired_at : Time;
  slk_renewed_at : Time;
  slk_released_at : option Time;
  slk_takeover_count : Z;
  slk_previous_owner : option string;
  slk_previous_run_id : option Uuid;
  slk_taken_over_at : option Time;
  slk_version : Z;
  slk_created_at : Time;
  slk_updated_at : Time;
}.

Record SkillGovernanceApplyRunOf (Sc St Rs J : Type) := mkApplyRun {
  sar_id : Uuid;
  sar_scope : Sc;
  sar_scope_id : string;
  sar_plan_id : option Uuid;
  sar_lock_id : option Uuid;
  sar_idempotency_key : string;
  sar_nonce : string;
  sar_status : St;
  sar_recovery_status : Rs;
  sar_attempts : Z;
  sar_observation_hash : string;
  sar_desired_hash : string;
  sar_lock_hash : string;
  sar_backup_path : option string;
  sar_quarantine_path : option string;
  sar_evidence : J;
  sar_last_error : option string;
  sar_version : Z;
  sar_started_at : option Time;
  sar_completed_at : option Time;
  sar_created_at : Time;
  sar_updated_at : Time;
}.

Record SkillGovernanceApplyActionOf (St J : Type) := mkApplyAction {
  saa_id : Uuid;
  saa_run_id : Uuid;
  saa_sequence : Z;
  saa_action_key : string;
  saa_status : St;
  saa_attempts : Z;
  saa_request_hash : string;
  saa_result_hash : option string;
  saa_backup_path : option string;
  saa_quarantine_path : option string;
  saa_evidence : J;
  saa_last_error : option string;
  saa_version : Z;
  saa_started_at : option Time;
  saa_completed_at : option Time;
  saa_created_at : Time;
  saa_updated_at : Time;
}.

Record SkillGovernanceApplyAuditOf (J : Type) := mkApplyAudit {
  sau_id : Uuid;
  sau_entity_type : string;
  sau_entity_id : Uuid;
  sau_action : string;
  sau_from_status : option string;
  sau_to_status : option string;
  sau_from_version : option Z;
  sau_to_version : option Z;
  sau_evidence : J;
  sau_created_at : Time;
}.

Record SkillGovernanceManagedArtifactOf (J : Type) := mkManagedArtifact {
  sma_id : Uuid;
  sma_artifact_key : string;
  sma_artifact_kind : string;
  sma_source_provenance : J;
  sma_content_digest : string;
  sma_manifest_digest : string;
  sma_schema_version : Z;
  sma_revision : string;
  sma_store_relative_path : string;
  sma_artifact : J;
  sma_metadata : J;
  sma_version : Z;
  sma_created_at : Time;
}.

Record SkillGovernanceMaterializationOf (Sc Rk Im Ow Vs J : Type) := mkMaterialization {
  smt_id : Uuid;
  smt_artifact_id : Uuid;
  smt_scope : Sc;
  smt_scope_id : string;
  smt_target_path : string;
  smt_target_runtime : string;
  smt_root_kind : Rk;
  smt_installation_mode : Im;
  smt_ownership : Ow;
  smt_content_digest : string;
  smt_expected_destination : string;
  smt_expected_fingerprint : string;
  smt_verify_status : Vs;
  smt_receipt : J;
  smt_version : Z;
  smt_adopted_at : option Time;
  smt_created_at : Time;
  smt_updated_at : Time;
}.

Record SkillGovernanceAdoptionAuditOf (Ow J : Type) := mkAdoptionAudit {
  sad_id : Uuid;
  sad_materialization_id : Uuid;
  sad_action : string;
  sad_from_ownership : Ow;
  sad_to_ownership : Ow;
  sad_from_version : Z;
  sad_to_version : Z;
  sad_receipt : J;
  sad_created_at : Time;
}.

Record SkillGovernanceWorkspaceLockfileOf (J : Type) := mkWorkspaceLockfile {
  swl_id : Uuid;
  swl_workspace_id : string;
  swl_lockfile_path : string;
  swl_lock_hash : string;
  swl_expected_disk_fingerprint : string;
  swl_expected_disk_hash : string;
  swl_document : J;
  swl_last_backup_path : option string;
  swl_last_backup_hash : option string;
  swl_last_receipt : J;
  swl_restore_metadata : J;
  swl_version : Z;
  swl_created_at : Time;
  swl_updated_at : Time;
}.

Record SkillGovernanceGcReferenceOf (J : Type) := mkGcReference {
  sgr_id : Uuid;
  sgr_source_type : string;
  sgr_source_id : Uuid;
  sgr_target_type : string;
  sgr_target_id : Uuid;
  sgr_reference_kind : string;
  sgr_metadata : J;
  sgr_created_at : Time;
}.

Record SkillGovernanceGcCandidate := mkGcCandidate {
  gcc_entity_type : string;
  gcc_entity_id : Uuid;
  gcc_reason : string;
}.

Record SkillGovernanceLeaseAcquireOf (Sc : Type) := mkLeaseAcquire {
  sla_lock : SkillGovernanceScopedLockOf Sc;
  sla_took_over_stale : bool;
}.

(** The columns of a record take their type arguments implicitly. *)
Arguments mkSkillProfile {J} _ _ _ _ _.
Arguments skp_id {J} _.
Arguments skp_document {J} _.
Arguments skp_version {J} _.
Arguments skp_created_at {J} _.
Arguments skp_updated_at {J} _.
Arguments mkSkillProfileBinding {Sc} _ _ _ _ _ _ _.
Arguments spb_id {Sc} _.
Arguments spb_scope {Sc} _.
Arguments spb_scope_id {Sc} _.
Arguments spb_profile_id {Sc} _.
Arguments spb_version {Sc} _.
Arguments spb_created_at {Sc} _.
Arguments spb_updated_at {Sc} _.
Arguments mkSkillLockSnapshot {Sc} {J} _ _ _ _ _ _ _ _ _.
Arguments sls_id {Sc} {J} _.
Arguments sls_scope {Sc} {J} _.
Arguments sls_scope_id {Sc} {J} _.
Arguments sls_profile_id {Sc} {J} _.
Arguments sls_snapshot {Sc} {J} _.
Arguments sls_observation_hash {Sc} {J} _.
Arguments sls_desired_hash {Sc} {J} _.
Arguments sls_lock_hash {Sc} {J} _.
Arguments sls_created_at {Sc} {J} _.
Arguments mkSkillGovernancePlan {Sc} {J} {St} _ _ _ _ _ _ _ _ _ _.
Arguments sgp_id {Sc} {J} {St} _.
Arguments sgp_scope {Sc} {J} {St} _.
Arguments sgp_scope_id {Sc} {J} {St} _.
Arguments sgp_plan {Sc} {J} {St} _.
Arguments sgp_observation_hash {Sc} {J} {St} _.
Arguments sgp_desired_hash {Sc} {J} {St} _.
Arguments sgp_status {Sc} {J} {St} _.
Arguments sgp_version {Sc} {J} {St} _.
Arguments sgp_created_at {Sc} {J} {St} _.
Arguments sgp_updated_at {Sc} {J} {St} _.
Arguments mkSkillGovernancePlanAudit {St} _ _ _ _ _ _ _ _.
Arguments spa_id {St} _.
Arguments spa_plan_id {St} _.
Arguments spa_action {St} _.
Arguments spa_from_status {St} _.
Arguments spa_to_status {St} _.
Arguments spa_from_version {St} _.
Arguments spa_to_version {St} _.
Arguments spa_created_at {St} _.
Arguments mkScopedLock {Sc} _ _ _ _ _ _ _ _ _ _ _ _ _ _ _ _ _ _.
Arguments slk_id {Sc} _.
Arguments slk_scope {Sc} _.
Arguments slk_scope_id {Sc} _.
Arguments slk_owner {Sc} _.
Arguments slk_process_id {Sc} _.
Arguments slk_run_id {Sc} _.
Arguments slk_lease_nonce {Sc} _.
Arguments slk_lease_expires_at {Sc} _.
Arguments slk_acquired_at {Sc} _.
Arguments slk_renewed_at {Sc} _.
Arguments slk_released_at {Sc} _.
Arguments slk_takeover_count {Sc} _.
Arguments slk_previous_owner {Sc} _.
Arguments slk_previous_run_id {Sc} _.
Arguments slk_taken_over_at {Sc} _.
Arguments slk_version {Sc} _.
Arguments slk_created_at {Sc} _.
Arguments slk_updated_at {Sc} _.
Arguments mkApplyRun {Sc} {St} {Rs} {J} _ _ _ _ _ _ _ _ _ _ _ _ _ _ _ _ _ _ _ _ _ _.
Arguments sar_id {Sc} {St} {Rs} {J} _.
Arguments sar_scope {Sc} {St} {Rs} {J} _.
Arguments sar_scope_id {Sc} {St} {Rs} {J} _.
Arguments sar_plan_id {Sc} {St} {Rs} {J} _.
Arguments sar_lock_id {Sc} {St} {Rs} {J} _.
Arguments sar_idempotency_key {Sc} {St} {Rs} {J} _.
Arguments sar_nonce {Sc} {St} {Rs} {J} _.
Arguments sar_status {Sc} {St} {Rs} {J} _.
Arguments sar_recovery_status {Sc} {St} {Rs} {J} _.
Arguments sar_attempts {Sc} {St} {Rs} {J} _.
Arguments sar_observation_hash {Sc} {St} {Rs} {J} _.
Arguments sar_desired_hash {Sc} {St} {Rs} {J} _.
Arguments sar_lock_hash {Sc} {St} {Rs} {J} _.
Arguments sar_backup_path {Sc} {St} {Rs} {J} _.
Arguments sar_quarantine_path {Sc} {St} {Rs} {J} _.
Arguments sar_evidence {Sc} {St} {Rs} {J} _.
Arguments sar_last_error {Sc} {St} {Rs} {J} _.
Arguments sar_version {Sc} {St} {Rs} {J} _.
Arguments sar_started_at {Sc} {St} {Rs} {J} _.
Arguments sar_completed_at {Sc} {St} {Rs} {J} _.
Arguments sar_created_at {Sc} {St} {Rs} {J} _.
Arguments sar_updated_at {Sc} {St} {Rs} {J} _.
Arguments mkApplyAction {St} {J} _ _ _ _ _ _ _ _ _ _ _ _ _ _ _ _ _.
Arguments saa_id {St} {J} _.
Arguments saa_run_id {St} {J} _.
Arguments saa_sequence {St} {J} _.
Arguments saa_action_key {St} {J} _.
Arguments saa_status {St} {J} _.
Arguments saa_attempts {St} {J} _.
Arguments saa_request_hash {St} {J} _.
Arguments saa_result_hash {St} {J} _.
Arguments saa_backup_path {St} {J} _.
Arguments saa_quarantine_path {St} {J} _.
Arguments saa_evidence {St} {J} _.
Arguments saa_last_error {St} {J} _.
Arguments saa_version {St} {J} _.
Arguments saa_started_at {St} {J} _.
Arguments saa_completed_at {St} {J} _.
Arguments saa_created_at {St} {J} _.
Arguments saa_updated_at {St} {J} _.
Arguments mkApplyAudit {J} _ _ _ _ _ _ _ _ _ _.
Arguments sau_id {J} _.
Arguments sau_entity_type {J} _.
Arguments sau_entity_id {J} _.
Arguments sau_action {J} _.
Arguments sau_from_status {J} _.
Arguments sau_to_status {J} _.
Arguments sau_from_version {J} _.
Arguments sau_to_version {J} _.
Arguments sau_evidence {J} _.
Arguments sau_created_at {J} _.
Arguments mkManagedArtifact {J} _ _ _ _ _ _ _ _ _ _ _ _ _.
Arguments sma_id {J} _.
Arguments sma_artifact_key {J} _.
Arguments sma_artifact_kind {J} _.
Arguments sma_source_provenance {J} _.
Arguments sma_content_digest {J} _.
Arguments sma_manifest_digest {J} _.
Arguments sma_schema_version {J} _.
Arguments sma_revision {J} _.
Arguments sma_store_relative_path {J} _.
Arguments sma_artifact {J} _.
Arguments sma_metadata {J} _.
Arguments sma_version {J} _.
Arguments sma_created_at {J} _.
Arguments mkMaterialization {Sc} {Rk} {Im} {Ow} {Vs} {J} _ _ _ _ _ _ _ _ _ _ _ _ _ _ _ _ _ _.
Arguments smt_id {Sc} {Rk} {Im} {Ow} {Vs} {J} _.
Arguments smt_artifact_id {Sc} {Rk} {Im} {Ow} {Vs} {J} _.
Arguments smt_scope {Sc} {Rk} {Im} {Ow} {Vs} {J} _.
Arguments smt_scope_id {Sc} {Rk} {Im} {Ow} {Vs} {J} _.
Arguments smt_target_path {Sc} {Rk} {Im} {Ow} {Vs} {J} _.
Arguments smt_target_runtime {Sc} {Rk} {Im} {Ow} {Vs} {J} _.
Arguments smt_root_kind {Sc} {Rk} {Im} {Ow} {Vs} {J} _.
Arguments smt_installation_mode {Sc} {Rk} {Im} {Ow} {Vs} {J} _.
Arguments smt_ownership {Sc} {Rk} {Im} {Ow} {Vs} {J} _.
Arguments smt_content_digest {Sc} {Rk} {Im} {Ow} {Vs} {J} _.
Arguments smt_expected_destination {Sc} {Rk} {Im} {Ow} {Vs} {J} _.
Arguments smt_expected_fingerprint {Sc} {Rk} {Im} {Ow} {Vs} {J} _.
Arguments smt_verify_status {Sc} {Rk} {Im} {Ow} {Vs} {J} _.
Arguments smt_receipt {Sc} {Rk} {Im} {Ow} {Vs} {J} _.
Arguments smt_version {Sc} {Rk} {Im} {Ow} {Vs} {J} _.
Arguments smt_adopted_at {Sc} {Rk} {Im} {Ow} {Vs} {J} _.
Arguments smt_created_at {Sc} {Rk} {Im} {Ow} {Vs} {J} _.
Arguments smt_updated_at {Sc} {Rk} {Im} {Ow} {Vs} {J} _.
Arguments mkAdoptionAudit {Ow} {J} _ _ _ _ _ _ _ _ _.
Arguments sad_id {Ow} {J} _.
Arguments sad_materialization_id {Ow} {J} _.
Arguments sad_action {Ow} {J} _.
Arguments sad_from_ownership {Ow} {J} _.
Arguments sad_to_ownership {Ow} {J} _.
Arguments sad_from_version {Ow} {J} _.
Arguments sad_to_version {Ow} {J} _.
Arguments sad_receipt {Ow} {J} _.
Arguments sad_created_at {Ow} {J} _.
Arguments mkWorkspaceLockfile {J} _ _ _ _ _ _ _ _ _ _ _ _ _ _.
Arguments swl_id {J} _.
Arguments swl_workspace_id {J} _.
Arguments swl_lockfile_path {J} _.
Arguments swl_lock_hash {J} _.
Arguments swl_expected_disk_fingerprint {J} _.
Arguments swl_expected_disk_hash {J} _.
Arguments swl_document {J} _.
Arguments swl_last_backup_path {J} _.
Arguments swl_last_backup_hash {J} _.
Arguments swl_last_receipt {J} _.
Arguments swl_restore_metadata {J} _.
Arguments swl_version {J} _.
Arguments swl_created_at {J} _.
Arguments swl_updated_at {J} _.
Arguments mkGcReference {J} _ _ _ _ _ _ _ _.
Arguments sgr_id {J} _.
Arguments sgr_source_type {J} _.
Arguments sgr_source_id {J} _.
Arguments sgr_target_type {J} _.
Arguments sgr_target_id {J} _.
Arguments sgr_reference_kind {J} _.
Arguments sgr_metadata {J} _.
Arguments sgr_created_at {J} _.
Arguments mkLeaseAcquire {Sc} _ _.
Arguments sla_lock {Sc} _.
Arguments sla_took_over_stale {Sc} _.

(** Domain values and rows. *)
Abbreviation SkillProfile := (SkillProfileOf Json).
Abbreviation SkillProfileRow := (SkillProfileOf string).
Abbreviation SkillProfileBinding := (SkillProfileBindingOf SkillGovernanceScope).
Abbreviation SkillProfileBindingRow := (SkillProfileBindingOf string).
Abbreviation SkillLockSnapshot := (SkillLockSnapshotOf SkillGovernanceScope Json).
Abbreviation SkillLockSnapshotRow := (SkillLockSnapshotOf string string).
Abbreviation SkillGovernancePlan :=
  (SkillGovernancePlanOf SkillGovernanceScope Json SkillGovernancePlanStatus).
Abbreviation SkillGovernancePlanRow := (SkillGovernancePlanOf string string string).
Abbreviation SkillGovernancePlanAudit := (SkillGovernancePlanAuditOf SkillGovernancePlanStatus).
Abbreviation SkillGovernancePlanAuditRow := (SkillGovernancePlanAuditOf string).
Abbreviation SkillGovernanceScopedLock := (SkillGovernanceScopedLockOf SkillGovernanceScope).
Abbreviation SkillGovernanceScopedLockRow := (SkillGovernanceScopedLockOf string).
Abbreviation SkillGovernanceLeaseAcquire := (SkillGovernanceLeaseAcquireOf SkillGovernanceScope).
Abbreviation SkillGovernanceApplyRun :=
  (SkillGovernanceApplyRunOf SkillGovernanceScope SkillGovernanceApplyRunStatus
     SkillGovernanceRecoveryStatus Json).
Abbreviation SkillGovernanceApplyRunRow := (SkillGovernanceApplyRunOf string string string string).
Abbreviation SkillGovernanceApplyAction :=
  (SkillGovernanceApplyActionOf SkillGovernanceApplyActionStatus Json).
Abbreviation SkillGovernanceApplyActionRow := (SkillGovernanceApplyActionOf string string).
Abbreviation SkillGovernanceApplyAudit := (SkillGovernanceApplyAuditOf Json).
Abbreviation SkillGovernanceApplyAuditRow := (SkillGovernanceApplyAuditOf string).
Abbreviation SkillGovernanceManagedArtifact := (SkillGovernanceManagedArtifactOf Json).
Abbreviation SkillGovernanceManagedArtifactRow := (SkillGovernanceManagedArtifactOf string).
Abbreviation SkillGovernanceMaterialization :=
  (SkillGovernanceMaterializationOf SkillGovernanceScope SkillGovernanceMaterializationRootKind
     SkillGovernanceInstallationMode SkillGovernanceMaterializationOwnership
     SkillGovernanceVerifyStatus Json).
Abbreviation SkillGovernanceMaterializationRow :=
  (SkillGovernanceMaterializationOf string string string string string string).
Abbreviation SkillGovernanceAdoptionAudit :=
  (SkillGovernanceAdoptionAuditOf SkillGovernanceMaterializationOwnership Json).
Abbreviation SkillGovernanceAdoptionAuditRow := (SkillGovernanceAdoptionAuditOf string string).
Abbreviation SkillGovernanceWorkspaceLockfile := (SkillGovernanceWorkspaceLockfileOf Json).
Abbreviation SkillGovernanceWorkspaceLockfileRow := (SkillGovernanceWorkspaceLockfileOf string).
Abbreviation SkillGovernanceGcReference := (SkillGovernanceGcReferenceOf Json).
Abbreviation SkillGovernanceGcReferenceRow := (SkillGovernanceGcReferenceOf string).

(** ** Inputs *)

Record NewSkillLockSnapshot := mkNewSkillLockSnapshot {
  nls_scope : SkillGovernanceScope;
  nls_scope_id : string;
  nls_profile_id : option Uuid;
  nls_snapshot : Json;
  nls_observation_hash : string;
  nls_desired_hash : string;
  nls_lock_hash : string;
}.

Record NewSkillGovernanceApplyRun := mkNewApplyRun {
  nar_scope : SkillGovernanceScope;
  nar_scope_id : string;
  nar_plan_id : option Uuid;
  nar_lock_id : option Uuid;
  nar_idempotency_key : string;
  nar_nonce : string;
  nar_observation_hash : string;
  nar_desired_hash : string;
  nar_lock_hash : string;
  nar_backup_path : option string;
  nar_quarantine_path : option string;
  nar_evidence : Json;
}.

Record NewSkillGovernanceApplyAction := mkNewApplyAction {
  naa_run_id : Uuid;
  naa_sequence : Z;
  naa_action_key : string;
  naa_request_hash : string;
  naa_backup_path : option string;
  naa_quarantine_path : option string;
  naa_evidence : Json;
}.

Record NewSkillGovernanceManagedArtifact := mkNewManagedArtifact {
  nma_artifact_key : string;
  nma_artifact_kind : string;
  nma_source_provenance : Json;
  nma_content_digest : string;
  nma_manifest_digest : string;
  nma_schema_version : Z;
  nma_revision : string;
  nma_store_relative_path : string;
  nma_artifact : Json;
  nma_metadata : Json;
}.

Record NewSkillGovernanceMaterialization := mkNewMaterialization {
  nmt_artifact_id : Uuid;
  nmt_scope : SkillGovernanceScope;
  nmt_scope_id : string;
  nmt_target_path : string;
  nmt_target_runtime : string;
  nmt_root_kind : SkillGovernanceMaterializationRootKind;
  nmt_installation_mode : SkillGovernanceInstallationMode;
  nmt_ownership : SkillGovernanceMaterializationOwnership;
  nmt_content_digest : string;
  nmt_expected_destination : string;
  nmt_expected_fingerprint : string;
  nmt_verify_status : SkillGovernanceVerifyStatus;
  nmt_receipt : Json;
}.

Record NewSkillGovernanceGcReference := mkNewGcReference {
  ngr_source_type : string;
  ngr_source_id : Uuid;
  ngr_target_type : string;
  ngr_target_id : Uuid;
  ngr_reference_kind : string;
  ngr_metadata : Json;
}.

(** The tables of [migrations/0017-0019]. *)
Record SkillGovernanceTables := mkSkillGovernanceTables {
  skill_profiles : list SkillProfileRow;
  skill_profile_bindings : list SkillProfileBindingRow;
  skill_lock_snapshots : list SkillLockSnapshotRow;
  skill_governance_plans : list SkillGovernancePlanRow;
  skill_governance_plan_audit : list SkillGovernancePlanAuditRow;
  skill_governance_scoped_locks : list SkillGovernanceScopedLockRow;
  skill_governance_apply_runs : list SkillGovernanceApplyRunRow;
  skill_governance_apply_actions : list SkillGovernanceApplyActionRow;
  skill_governance_apply_audit : list SkillGovernanceApplyAuditRow;
  skill_governance_managed_artifacts : list SkillGovernanceManagedArtifactRow;
  skill_governance_materializations : list SkillGovernanceMaterializationRow;
  skill_governance_adoption_audit : list SkillGovernanceAdoptionAuditRow;
  skill_governance_workspace_lockfiles : list SkillGovernanceWorkspaceLockfileRow;
  skill_governance_gc_references : list SkillGovernanceGcReferenceRow;
}.

(** ** The constraints of the tables *)

Definition skill_binding_key (b : SkillProfileBindingRow) : string * string * Uuid :=
  (spb_scope b, spb_scope_id b, spb_profile_id b).
(** The partial index of the locks that are not released. *)
Definition active_lock_key (l : SkillGovernanceScopedLockRow) : option (string * string) :=
  match slk_released_at l with Some _ => None | None => Some (slk_scope l, slk_scope_id l) end.
Definition idempotency_index (r : SkillGovernanceApplyRunRow) : string * string * string :=
  (sar_scope r, sar_scope_id r, sar_idempotency_key r).
Definition action_sequence_key (a : SkillGovernanceApplyActionRow) : Uuid * Z :=
  (saa_run_id a, saa_sequence a).
Definition action_name_key (a : SkillGovernanceApplyActionRow) : Uuid * string :=
  (saa_run_id a, saa_action_key a).
Definition target_key (m : SkillGovernanceMaterializationRow) : string * string * string :=
  (smt_scope m, smt_scope_id m, smt_target_path m).
Definition lockfile_key (l : SkillGovernanceWorkspaceLockfileRow) : string * string :=
  (swl_workspace_id l, swl_lockfile_path l).
Definition gc_key (r : SkillGovernanceGcReferenceRow) : string * Uuid * string * Uuid * string :=
  (sgr_source_type r, sgr_source_id r, sgr_target_type r, sgr_target_id r, sgr_reference_kind r).

Definition absent_or_in (ids : list Uuid) (o : option Uuid) : Prop :=
  match o with Some id => id ∈ ids | None => True end.

Record skill_governance_ok (t : SkillGovernanceTables) : Prop := {
  go_profiles : NoDup (map skp_id (skill_profiles t));
  go_bindings : NoDup (map spb_id (skill_profile_bindings t));
  go_binding_keys : NoDup (map skill_binding_key (skill_profile_bindings t));
  go_binding_rows : Forall (λ b, spb_profile_id b ∈ map skp_id (skill_profiles t) ∧
      persisted SkillGovernanceScope (spb_scope b)) (skill_profile_bindings t);
  go_snapshots : NoDup (map sls_id (skill_lock_snapshots t));
  go_snapshot_rows : Forall (λ s, absent_or_in (map skp_id (skill_profiles t)) (sls_profile_id s) ∧
      persisted SkillGovernanceScope (sls_scope s)) (skill_lock_snapshots t);
  go_plans : NoDup (map sgp_id (skill_governance_plans t));
  go_plan_rows : Forall (λ p, persisted SkillGovernanceScope (sgp_scope p) ∧
      persisted SkillGovernancePlanStatus (sgp_status p) ∧ 0 < sgp_version p) (skill_governance_plans t);
  go_plan_audits : NoDup (map spa_id (skill_governance_plan_audit t));
  go_plan_audit_rows : Forall (λ a, spa_plan_id a ∈ map sgp_id (skill_governance_plans t))
      (skill_governance_plan_audit t);
  go_locks : NoDup (map slk_id (skill_governance_scoped_locks t));
  go_active_locks : NoDup (omap active_lock_key (skill_governance_scoped_locks t));
  go_lock_rows : Forall (λ l, persisted SkillGovernanceScope (slk_scope l) ∧ 0 < slk_version l)
      (skill_governance_scoped_locks t);
  go_runs : NoDup (map sar_id (skill_governance_apply_runs t));
  go_run_keys : NoDup (map idempotency_index (skill_governance_apply_runs t));
  go_run_rows : Forall (λ r, persisted SkillGovernanceScope (sar_scope r) ∧
      persisted SkillGovernanceApplyRunStatus (sar_status r) ∧
      persisted SkillGovernanceRecoveryStatus (sar_recovery_status r) ∧
      absent_or_in (map sgp_id (skill_governance_plans t)) (sar_plan_id r) ∧
      absent_or_in (map slk_id (skill_governance_scoped_locks t)) (sar_lock_id r) ∧
      0 ≤ sar_attempts r ∧ 0 < sar_version r) (skill_governance_apply_runs t);
  go_actions : NoDup (map saa_id (skill_governance_apply_actions t));
  go_action_sequences : NoDup (map action_sequence_key (skill_governance_apply_actions t));
  go_action_keys : NoDup (map action_name_key (skill_governance_apply_actions t));
  go_action_rows : Forall (λ a, saa_run_id a ∈ map sar_id (skill_governance_apply_runs t) ∧
      persisted SkillGovernanceApplyActionStatus (saa_status a) ∧ 0 ≤ saa_attempts a ∧
      0 < saa_version a) (skill_governance_apply_actions t);
  go_audits : NoDup (map sau_id (skill_governance_apply_audit t));
  go_artifacts : NoDup (map sma_id (skill_governance_managed_artifacts t));
  go_artifact_keys : NoDup (map sma_artifact_key (skill_governance_managed_artifacts t));
  go_artifact_rows : Forall (λ a, sma_version a = 1) (skill_governance_managed_artifacts t);
  go_materializations : NoDup (map smt_id (skill_governance_materializations t));
  go_target_keys : NoDup (map target_key (skill_governance_materializations t));
  go_materialization_rows : Forall (λ m,
      smt_artifact_id m ∈ map sma_id (skill_governance_managed_artifacts t) ∧
      persisted SkillGovernanceScope (smt_scope m) ∧
      persisted SkillGovernanceMaterializationRootKind (smt_root_kind m) ∧
      persisted SkillGovernanceInstallationMode (smt_installation_mode m) ∧
      persisted SkillGovernanceMaterializationOwnership (smt_ownership m) ∧
      persisted SkillGovernanceVerifyStatus (smt_verify_status m) ∧ 0 < smt_version m)
      (skill_governance_materializations t);
  go_adoptions : NoDup (map sad_id (skill_governance_adoption_audit t));
  go_adoption_rows : Forall (λ a,
      sad_materialization_id a ∈ map smt_id (skill_governance_materializations t))
      (skill_governance_adoption_audit t);
  go_lockfiles : NoDup (map swl_id (skill_governance_workspace_lockfiles t));
  go_lockfile_keys : NoDup (map lockfile_key (skill_governance_workspace_lockfiles t));
  go_gc_references : NoDup (map sgr_id (skill_governance_gc_references t));
  go_gc_keys : NoDup (map gc_key (skill_governance_gc_references t));
}.
