(* ===== verification/McpRows.v ===== *)
(** * The persistent data of MCP governance

    [crates/cocli-store/src/mcp_governance.rs, mcp_apply.rs, mcp_bundle.rs], the types: statuses
    with the strings they are persisted as, the rows of the tables of [migrations/0013-0016] and
    the domain values read from them. A JSON column of these tables holds a value of a type with
    derived encoder and decoder, written by this code only; a row has that value. *)
From S2P Require Import Prelude Mcp McpPreflight McpApply McpBundle StoreTypes.

(** ** Enumerations *)

Inductive McpPlanDecisionStatus : Type := DecisionApproved | DecisionRejected.
#[export] Instance McpPlanDecisionStatus_eq_dec : EqDecision McpPlanDecisionStatus.
Proof. solve_decision. Defined.
#[export] Instance McpPlanDecisionStatus_enum : PersistedEnum McpPlanDecisionStatus := {
  as_str s := match s with DecisionApproved => "approved" | DecisionRejected => "rejected" end;
  parse value :=
    if str_eqb value "approved" then Ok DecisionApproved
    else if str_eqb value "rejected" then Ok DecisionRejected
    else Err (InvalidValue "MCP plan decision" value);
}.

Inductive McpApplyRunStatus : Type :=
  | ApplyPending | ApplyRunning | ApplyPreflight | ApplyLocked | ApplyBackedUp | ApplyWritten
  | ApplyReloadPending | ApplyReloaded | ApplyCompleted | ApplyBlocked | ApplyFailed
  | ApplyVerified | ApplyRolledBack | ApplyRollingBack | ApplyRecoveryRequired | ApplyPartial.
#[export] Instance McpApplyRunStatus_eq_dec : EqDecision McpApplyRunStatus.
Proof. solve_decision. Defined.
#[export] Instance McpApplyRunStatus_enum : PersistedEnum McpApplyRunStatus := {
  as_str s := match s with
    | ApplyPending => "pending" | ApplyRunning => "running" | ApplyPreflight => "preflight"
    | ApplyLocked => "locked" | ApplyBackedUp => "backed_up" | ApplyWritten => "written"
    | ApplyReloadPending => "reload_pending" | ApplyReloaded => "reloaded"
    | ApplyCompleted => "completed" | ApplyBlocked => "blocked" | ApplyFailed => "failed"
    | ApplyVerified => "verified" | ApplyRolledBack => "rolled_back"
    | ApplyRollingBack => "rolling_back" | ApplyRecoveryRequired => "recovery_required"
    | ApplyPartial => "partial" end;
  parse value :=
    if str_eqb value "pending" then Ok ApplyPending
    else if str_eqb value "running" then Ok ApplyRunning
    else if str_eqb value "preflight" then Ok ApplyPreflight
    else if str_eqb value "locked" then Ok ApplyLocked
    else if str_eqb value "backed_up" then Ok ApplyBackedUp
    else if str_eqb value "written" then Ok ApplyWritten
    else if str_eqb value "reload_pending" then Ok ApplyReloadPending
    else if str_eqb value "reloaded" then Ok ApplyReloaded
    else if str_eqb value "completed" then Ok ApplyCompleted
    else if str_eqb value "blocked" then Ok ApplyBlocked
    else if str_eqb value "failed" then Ok ApplyFailed
    else if str_eqb value "verified" then Ok ApplyVerified
    else if str_eqb value "rolled_back" then Ok ApplyRolledBack
    else if str_eqb value "rolling_back" then Ok ApplyRollingBack
    else if str_eqb value "recovery_required" then Ok ApplyRecoveryRequired
    else if str_eqb value "partial" then Ok ApplyPartial
    else Err (InvalidValue "MCP apply run status" value);
}.

Inductive McpBundleImportStatus : Type :=
  | ImportPreviewed | ImportCommitted | ImportCancelled | ImportFailed.
#[export] Instance McpBundleImportStatus_eq_dec : EqDecision McpBundleImportStatus.
Proof. solve_decision. Defined.
(** The statements name the statuses; only [parse] is a function of the source. *)
#[export] Instance McpBundleImportStatus_enum : PersistedEnum McpBundleImportStatus := {
  as_str s := match s with
    | ImportPreviewed => "previewed" | ImportCommitted => "committed"
    | ImportCancelled => "cancelled" | ImportFailed => "failed" end;
  parse value :=
    if str_eqb value "previewed" then Ok ImportPreviewed
    else if str_eqb value "committed" then Ok ImportCommitted
    else if str_eqb value "cancelled" then Ok ImportCancelled
    else if str_eqb value "failed" then Ok ImportFailed
    else Err (InvalidValue "MCP bundle import status" value);
}.

(** [target_type_label] and [parse_target_type]. *)
#[export] Instance McpBindingTargetType_enum : PersistedEnum McpBindingTargetType := {
  as_str s := match s with
    | Machine => "machine" | Workspace => "workspace" | AgentTarget => "agent" end;
  parse value :=
    if str_eqb value "machine" then Ok Machine
    else if str_eqb value "workspace" then Ok Workspace
    else if str_eqb value "agent" then Ok AgentTarget
    else Err (InvalidValue "MCP binding target type" value);
}.

#[export] Instance McpPlanDecisionStatus_laws : PersistedEnumLaws McpPlanDecisionStatus.
Proof. solve_enum. Qed.
#[export] Instance McpApplyRunStatus_laws : PersistedEnumLaws McpApplyRunStatus.
Proof. solve_enum. Qed.
#[export] Instance McpBundleImportStatus_laws : PersistedEnumLaws McpBundleImportStatus.
Proof. solve_enum. Qed.
#[export] Instance McpBindingTargetType_laws : PersistedEnumLaws McpBindingTargetType.
Proof. solve_enum. Qed.

#[export] Instance McpBundleProfileRebinding_eq_dec : EqDecision McpBundleProfileRebinding.
Proof. solve_decision. Defined.
#[export] Instance McpBundleRebindings_eq_dec : EqDecision McpBundleRebindings.
Proof. solve_decision. Defined.

(** ** Rows *)

Record McpProfileRow := mkProfileRow {
  mpr_id : Uuid;
  mpr_name : string;
  mpr_description : option string;
  mpr_version : Z;
  mpr_servers : list McpDesiredServer;
  mpr_created_at : Time;
  mpr_updated_at : Time;
}.

Record McpBindingRow := mkMcpBindingRow {
  mbr_id : Uuid;
  mbr_profile_id : Uuid;
  mbr_target_type : string;
  mbr_target_id : string;
  mbr_version : Z;
  mbr_created_at : Time;
  mbr_updated_at : Time;
}.

Record McpDecisionRow := mkDecisionRow {
  mdr_id : Uuid;
  mdr_plan_id : string;
  mdr_decision : string;
  mdr_plan_hash : string;
  mdr_observation_hash : string;
  mdr_config_hash : string;
  mdr_actor : string;
  mdr_reason : option string;
  mdr_decided_at : Time;
  mdr_expires_at : option Time;
}.

Record McpRunRow := mkRunRow {
  mrr_id : Uuid;
  mrr_plan_id : string;
  mrr_approval_id : Uuid;
  mrr_plan_hash : string;
  mrr_observation_hash : string;
  mrr_config_hash : string;
  mrr_capability_hash : string;
  mrr_actor : string;
  mrr_status : string;
  mrr_confirm_high_risk : bool;
  mrr_requested_at : Time;
  mrr_completed_at : option Time;
  mrr_actions : list McpApplyActionResult;
  mrr_reloads : list McpReloadResult;
  mrr_verification : McpVerificationResult;
  mrr_stale_reasons : list string;
  mrr_journal : list McpApplyJournalEntry;
  mrr_preflight : Json;
  mrr_recovery_reason : option string;
  mrr_attempt : Z;
  mrr_rollback_status : option string;
  mrr_rollback_actor : option string;
  mrr_rollback_actions : list McpApplyActionResult;
  mrr_rollback_at : option Time;
}.

Record McpImportRow := mkImportRow {
  mir_id : Uuid;
  mir_bundle_hash : string;
  mir_schema_version : Z;
  mir_actor : string;
  mir_status : string;
  mir_version : Z;
  mir_bundle : McpGovernanceBundle;
  mir_rebindings : McpBundleRebindings;
  mir_preview : Json;
  mir_result : option Json;
  mir_created_at : Time;
  mir_updated_at : Time;
  mir_committed_at : option Time;
}.

(** The tables of [migrations/0013-0016]; a plan is stored column for column. *)
Record McpTables := mkMcpTables {
  mcp_profiles : list McpProfileRow;
  mcp_profile_bindings : list McpBindingRow;
  mcp_plans : list McpPlan;
  mcp_plan_decisions : list McpDecisionRow;
  mcp_apply_runs : list McpRunRow;
  mcp_bundle_import_audits : list McpImportRow;
}.

(** ** Domain values *)

Record McpPlanDecision := mkPlanDecision {
  mpd_id : Uuid;
  mpd_plan_id : string;
  mpd_decision : McpPlanDecisionStatus;
  mpd_plan_hash : string;
  mpd_observation_hash : string;
  mpd_config_hash : string;
  mpd_actor : string;
  mpd_reason : option string;
  mpd_decided_at : Time;
  mpd_expires_at : option Time;
}.

(** The fields of an [McpApplyRun]: those of its row, with the statuses decoded. *)
Record McpApplyRun := mkMcpApplyRun {
  mar_row : McpRunRow;
  mar_status : McpApplyRunStatus;
  mar_rollback_status : option McpApplyRunStatus;
  mar_can_rollback : bool;
}.

Record McpBundleImportAudit := mkImportAudit {
  mia_row : McpImportRow;
  mia_status : McpBundleImportStatus;
}.

(** ** Inputs *)

Record NewMcpProfile := mkNewProfile {
  nmp_name : string;
  nmp_description : option string;
  nmp_servers : list McpDesiredServer;
}.

Record UpdateMcpProfile := mkUpdateProfile {
  ump_expected_version : Z;
  ump_name : string;
  ump_description : option string;
  ump_servers : list McpDesiredServer;
}.

Record NewMcpProfileBinding := mkNewBinding {
  nmb_profile_id : Uuid;
  nmb_target_type : McpBindingTargetType;
  nmb_target_id : string;
}.

Record NewMcpPlanDecision := mkNewDecision {
  npd_plan_id : string;
  npd_decision : McpPlanDecisionStatus;
  npd_plan_hash : string;
  npd_observation_hash : string;
  npd_config_hash : string;
  npd_actor : string;
  npd_reason : option string;
  npd_expires_at : option Time;
}.

Record NewMcpApplyRun := mkNewRun {
  nmr_plan_id : string;
  nmr_approval_id : Uuid;
  nmr_plan_hash : string;
  nmr_observation_hash : string;
  nmr_config_hash : string;
  nmr_capability_hash : string;
  nmr_actor : string;
  nmr_confirm_high_risk : bool;
}.

Record NewMcpBundleImportAudit := mkNewImport {
  nmi_bundle : McpGovernanceBundle;
  nmi_actor : string;
  nmi_rebindings : McpBundleRebindings;
  nmi_preview : Json;
}.

Record McpBundleImportProfileMutation := mkProfileMutation {
  pmu_profile_ref : string;
  pmu_profile_id : option Uuid;
  pmu_expected_version : option Z;
  pmu_name : string;
  pmu_description : option string;
  pmu_servers : list McpDesiredServer;
}.

Record McpBundleImportBindingMutation := mkBindingMutation {
  bmu_profile_ref : string;
  bmu_target_ref : string;
  bmu_target_type : McpBindingTargetType;
  bmu_target_id : string;
}.

Record McpBundleImportCommit := mkImportCommit {
  bic_profiles : list McpBundleImportProfileMutation;
  bic_bindings : list McpBundleImportBindingMutation;
}.

(** ** The constraints of the tables *)

Definition mcp_binding_key (b : McpBindingRow) : Uuid * string * string :=
  (mbr_profile_id b, mbr_target_type b, mbr_target_id b).
Definition mcp_run_key (r : McpRunRow) : string * Uuid := (mrr_plan_id r, mrr_approval_id r).
Definition mcp_import_key (r : McpImportRow) : string * McpBundleRebindings :=
  (mir_bundle_hash r, mir_rebindings r).

Definition persisted_option (A : Type) `{PersistedEnum A} (o : option string) : Prop :=
  match o with Some s => persisted A s | None => True end.

Record mcp_ok (t : McpTables) : Prop := {
  mo_profiles : NoDup (map mpr_id (mcp_profiles t));
  mo_bindings : NoDup (map mbr_id (mcp_profile_bindings t));
  mo_binding_keys : NoDup (map mcp_binding_key (mcp_profile_bindings t));
  mo_binding_rows : Forall (λ b, mbr_profile_id b ∈ map mpr_id (mcp_profiles t) ∧
      persisted McpBindingTargetType (mbr_target_type b)) (mcp_profile_bindings t);
  mo_plans : NoDup (map pl_id (mcp_plans t));
  mo_decisions : NoDup (map mdr_id (mcp_plan_decisions t));
  mo_decision_rows : Forall (λ d, mdr_plan_id d ∈ map pl_id (mcp_plans t) ∧
      persisted McpPlanDecisionStatus (mdr_decision d)) (mcp_plan_decisions t);
  mo_runs : NoDup (map mrr_id (mcp_apply_runs t));
  mo_run_keys : NoDup (map mcp_run_key (mcp_apply_runs t));
  mo_run_rows : Forall (λ r, mrr_plan_id r ∈ map pl_id (mcp_plans t) ∧
      mrr_approval_id r ∈ map mdr_id (mcp_plan_decisions t) ∧
      persisted McpApplyRunStatus (mrr_status r) ∧
      persisted_option McpApplyRunStatus (mrr_rollback_status r)) (mcp_apply_runs t);
  mo_imports : NoDup (map mir_id (mcp_bundle_import_audits t));
  mo_import_keys : NoDup (map mcp_import_key (mcp_bundle_import_audits t));
  mo_import_rows : Forall (λ r, persisted McpBundleImportStatus (mir_status r))
      (mcp_bundle_import_audits t);
}.
