(* ===== verification/StoreDb.v ===== *)
(** * The database: tables, statements, transactions

    [crates/cocli-store]: the tables of [migrations/0001-0005, 0007-0019] that the modelled
    operations use, the SQL statements those operations issue with the constraints SQLite
    enforces (primary and unique keys, foreign keys with their [ON DELETE] actions, [CHECK]
    and [NOT NULL]), and a monad for the operations themselves.

    A table is the list of its rows in insertion order. An operation runs in an environment
    that answers [Utc::now()], [Uuid::new_v4()] and, for every statement, whether the
    connection or the disk fails, that prints a [Uuid], that encodes and decodes JSON and that
    holds the file system: the theorems quantify over all of them. *)
From S2P Require Import Prelude McpRows SkillGovernanceTypes StoreTypes.

(** ** Tables *)

(** The columns of [tasks]. *)
Record TaskColumns := mkTaskColumns {
  tcol_id : Uuid;
  tcol_channel_id : Uuid;
  tcol_message_id : option Uuid;
  tcol_task_number : Z;
  tcol_title : string;
  tcol_status : string;
  tcol_progress : option string;
  tcol_assignee_id : option Uuid;
  tcol_created_by_agent_id : option Uuid;
  tcol_created_at : Time;
  tcol_updated_at : Time;
}.

(** The tables of [migrations/0012]. *)
Record WorkspaceTables := mkWorkspaceTables {
  workspaces : list WorkspaceRow;
  subject_workspaces : list AttachmentRow;
  workspace_bindings : list BindingRow;
}.

(** The tables of [migrations/0005, 0008, 0010]: what the runtime did. *)
Record HistoryTables := mkHistoryTables {
  agent_sessions : list SessionRow;
  agent_turns : list TurnRow;
  agent_activity : list ActivityRow;
  agent_bridge_tokens : list TokenRow;
  agent_operations : list AgentOperation;
}.

(** The tables of [migrations/0007]. *)
Record SkillTables := mkSkillTables {
  skill_library : list SkillRow;
  skill_library_files : list SkillFileRow;
  agent_skill_installs : list InstallRow;
}.

Record DB := mkDB {
  channels : list Channel;
  agents : list AgentRow;
  channel_agents : list ChannelAgent;
  messages : list MessageRow;
  delivery_queue : list DeliveryRow;
  agent_inbox_state : list InboxRow;
  agent_working_state : list WorkingState;
  tasks : list TaskColumns;
  task_dependencies : list DependencyRow;
  workspace_tables : WorkspaceTables;
  memory_documents : list MemoryRow;
  history_tables : HistoryTables;
  skill_tables : SkillTables;
  mcp_tables : McpTables;
  skill_governance_tables : SkillGovernanceTables;
}.

Definition empty_db : DB :=
  mkDB [] [] [] [] [] [] [] [] [] (mkWorkspaceTables [] [] []) []
    (mkHistoryTables [] [] [] [] []) (mkSkillTables [] [] []) (mkMcpTables [] [] [] [] [] [])
    (mkSkillGovernanceTables [] [] [] [] [] [] [] [] [] [] [] [] [] []).

Definition with_channels (f : list Channel → list Channel) (db : DB) : DB :=
  mkDB (f (channels db)) (agents db) (channel_agents db) (messages db) (delivery_queue db)
    (agent_inbox_state db) (agent_working_state db) (tasks db) (task_dependencies db) (workspace_tables db)
    (memory_documents db) (history_tables db) (skill_tables db) (mcp_tables db)
    (skill_governance_tables db).
Definition with_agents (f : list AgentRow → list AgentRow) (db : DB) : DB :=
  mkDB (channels db) (f (agents db)) (channel_agents db) (messages db) (delivery_queue db)
    (agent_inbox_state db) (agent_working_state db) (tasks db) (task_dependencies db) (workspace_tables db)
    (memory_documents db) (history_tables db) (skill_tables db) (mcp_tables db)
    (skill_governance_tables db).
Definition with_members (f : list ChannelAgent → list ChannelAgent) (db : DB) : DB :=
  mkDB (channels db) (agents db) (f (channel_agents db)) (messages db) (delivery_queue db)
    (agent_inbox_state db) (agent_working_state db) (tasks db) (task_dependencies db) (workspace_tables db)
    (memory_documents db) (history_tables db) (skill_tables db) (mcp_tables db)
    (skill_governance_tables db).
Definition with_messages (f : list MessageRow → list MessageRow) (db : DB) : DB :=
  mkDB (channels db) (agents db) (channel_agents db) (f (messages db)) (delivery_queue db)
    (agent_inbox_state db) (agent_working_state db) (tasks db) (task_dependencies db) (workspace_tables db)
    (memory_documents db) (history_tables db) (skill_tables db) (mcp_tables db)
    (skill_governance_tables db).
Definition with_deliveries (f : list DeliveryRow → list DeliveryRow) (db : DB) : DB :=
  mkDB (channels db) (agents db) (channel_agents db) (messages db) (f (delivery_queue db))
    (agent_inbox_state db) (agent_working_state db) (tasks db) (task_dependencies db) (workspace_tables db)
    (memory_documents db) (history_tables db) (skill_tables db) (mcp_tables db)
    (skill_governance_tables db).
Definition with_inbox (f : list InboxRow → list InboxRow) (db : DB) : DB :=
  mkDB (channels db) (agents db) (channel_agents db) (messages db) (delivery_queue db)
    (f (agent_inbox_state db)) (agent_working_state db) (tasks db) (task_dependencies db) (workspace_tables db)
    (memory_documents db) (history_tables db) (skill_tables db) (mcp_tables db)
    (skill_governance_tables db).
Definition with_working (f : list WorkingState → list WorkingState) (db : DB) : DB :=
  mkDB (channels db) (agents db) (channel_agents db) (messages db) (delivery_queue db)
    (agent_inbox_state db) (f (agent_working_state db)) (tasks db) (task_dependencies db) (workspace_tables db)
    (memory_documents db) (history_tables db) (skill_tables db) (mcp_tables db)
    (skill_governance_tables db).
Definition with_tasks (f : list TaskColumns → list TaskColumns) (db : DB) : DB :=
  mkDB (channels db) (agents db) (channel_agents db) (messages db) (delivery_queue db)
    (agent_inbox_state db) (agent_working_state db) (f (tasks db)) (task_dependencies db) (workspace_tables db)
    (memory_documents db) (history_tables db) (skill_tables db) (mcp_tables db)
    (skill_governance_tables db).
Definition with_dependencies (f : list DependencyRow → list DependencyRow) (db : DB) : DB :=
  mkDB (channels db) (agents db) (channel_agents db) (messages db) (delivery_queue db)
    (agent_inbox_state db) (agent_working_state db) (tasks db) (f (task_dependencies db)) (workspace_tables db)
    (memory_documents db) (history_tables db) (skill_tables db) (mcp_tables db)
    (skill_governance_tables db).

Definition with_workspace_tables (f : WorkspaceTables → WorkspaceTables) (db : DB) : DB :=
  mkDB (channels db) (agents db) (channel_agents db) (messages db) (delivery_queue db)
    (agent_inbox_state db) (agent_working_state db) (tasks db) (task_dependencies db)
    (f (workspace_tables db)) (memory_documents db) (history_tables db) (skill_tables db) (mcp_tables db)
    (skill_governance_tables db).
Definition with_workspaces (f : list WorkspaceRow → list WorkspaceRow) : DB → DB :=
  with_workspace_tables (λ t,
    mkWorkspaceTables (f (workspaces t)) (subject_workspaces t) (workspace_bindings t)).
Definition with_attachments (f : list AttachmentRow → list AttachmentRow) : DB → DB :=
  with_workspace_tables (λ t,
    mkWorkspaceTables (workspaces t) (f (subject_workspaces t)) (workspace_bindings t)).
Definition with_bindings (f : list BindingRow → list BindingRow) : DB → DB :=
  with_workspace_tables (λ t,
    mkWorkspaceTables (workspaces t) (subject_workspaces t) (f (workspace_bindings t))).

Definition with_memory (f : list MemoryRow → list MemoryRow) (db : DB) : DB :=
  mkDB (channels db) (agents db) (channel_agents db) (messages db) (delivery_queue db)
    (agent_inbox_state db) (agent_working_state db) (tasks db) (task_dependencies db)
    (workspace_tables db) (f (memory_documents db)) (history_tables db) (skill_tables db) (mcp_tables db)
    (skill_governance_tables db).

Definition with_history_tables (f : HistoryTables → HistoryTables) (db : DB) : DB :=
  mkDB (channels db) (agents db) (channel_agents db) (messages db) (delivery_queue db)
    (agent_inbox_state db) (agent_working_state db) (tasks db) (task_dependencies db)
    (workspace_tables db) (memory_documents db) (f (history_tables db)) (skill_tables db) (mcp_tables db)
    (skill_governance_tables db).
Definition with_sessions (f : list SessionRow → list SessionRow) : DB → DB :=
  with_history_tables (λ t, mkHistoryTables (f (agent_sessions t)) (agent_turns t)
    (agent_activity t) (agent_bridge_tokens t) (agent_operations t)).
Definition with_turns (f : list TurnRow → list TurnRow) : DB → DB :=
  with_history_tables (λ t, mkHistoryTables (agent_sessions t) (f (agent_turns t))
    (agent_activity t) (agent_bridge_tokens t) (agent_operations t)).
Definition with_activity (f : list ActivityRow → list ActivityRow) : DB → DB :=
  with_history_tables (λ t, mkHistoryTables (agent_sessions t) (agent_turns t)
    (f (agent_activity t)) (agent_bridge_tokens t) (agent_operations t)).
Definition with_tokens (f : list TokenRow → list TokenRow) : DB → DB :=
  with_history_tables (λ t, mkHistoryTables (agent_sessions t) (agent_turns t)
    (agent_activity t) (f (agent_bridge_tokens t)) (agent_operations t)).
Definition with_operations (f : list AgentOperation → list AgentOperation) : DB → DB :=
  with_history_tables (λ t, mkHistoryTables (agent_sessions t) (agent_turns t)
    (agent_activity t) (agent_bridge_tokens t) (f (agent_operations t))).

Definition with_skill_tables (f : SkillTables → SkillTables) (db : DB) : DB :=
  mkDB (channels db) (agents db) (channel_agents db) (messages db) (delivery_queue db)
    (agent_inbox_state db) (agent_working_state db) (tasks db) (task_dependencies db)
    (workspace_tables db) (memory_documents db) (history_tables db) (f (skill_tables db)) (mcp_tables db)
    (skill_governance_tables db).
Definition with_skills (f : list SkillRow → list SkillRow) : DB → DB :=
  with_skill_tables (λ t,
    mkSkillTables (f (skill_library t)) (skill_library_files t) (agent_skill_installs t)).
Definition with_skill_files (f : list SkillFileRow → list SkillFileRow) : DB → DB :=
  with_skill_tables (λ t,
    mkSkillTables (skill_library t) (f (skill_library_files t)) (agent_skill_installs t)).
Definition with_installs (f : list InstallRow → list InstallRow) : DB → DB :=
  with_skill_tables (λ t,
    mkSkillTables (skill_library t) (skill_library_files t) (f (agent_skill_installs t))).

Definition with_mcp_tables (f : McpTables → McpTables) (db : DB) : DB :=
  mkDB (channels db) (agents db) (channel_agents db) (messages db) (delivery_queue db)
    (agent_inbox_state db) (agent_working_state db) (tasks db) (task_dependencies db)
    (workspace_tables db) (memory_documents db) (history_tables db) (skill_tables db)
    (f (mcp_tables db)) (skill_governance_tables db).
Definition with_skill_governance_tables (f : SkillGovernanceTables → SkillGovernanceTables) (db : DB)
    : DB :=
  mkDB (channels db) (agents db) (channel_agents db) (messages db) (delivery_queue db)
    (agent_inbox_state db) (agent_working_state db) (tasks db) (task_dependencies db)
    (workspace_tables db) (memory_documents db) (history_tables db) (skill_tables db)
    (mcp_tables db) (f (skill_governance_tables db)).

Definition db_sessions (db : DB) : list SessionRow := agent_sessions (history_tables db).
Definition db_turns (db : DB) : list TurnRow := agent_turns (history_tables db).
Definition db_activity (db : DB) : list ActivityRow := agent_activity (history_tables db).
Definition db_tokens (db : DB) : list TokenRow := agent_bridge_tokens (history_tables db).
Definition db_operations (db : DB) : list AgentOperation := agent_operations (history_tables db).
Definition db_skills (db : DB) : list SkillRow := skill_library (skill_tables db).
Definition db_skill_files (db : DB) : list SkillFileRow := skill_library_files (skill_tables db).
Definition db_installs (db : DB) : list InstallRow := agent_skill_installs (skill_tables db).

Definition db_workspaces (db : DB) : list WorkspaceRow := workspaces (workspace_tables db).
Definition db_attachments (db : DB) : list AttachmentRow := subject_workspaces (workspace_tables db).
Definition db_bindings (db : DB) : list BindingRow := workspace_bindings (workspace_tables db).

(** ** The operations' monad *)

Record Env := mkEnv {
  env_now : nat → Time;
  env_uuid : nat → Uuid;
  env_fault : nat → bool;
  env_uuid_string : Uuid → string;
  env_is_dir : nat → string → bool;
  env_is_file : nat → string → bool;
  env_to_json : Json → string;
  env_from_json : string → option Json;
  env_uuid_simple : Uuid → string;
  env_date : Time → string;
  env_sum_f64 : list F64 → F64;
  env_rfc3339 : Time → string;
  env_parse_uuid : string → option Uuid;
  env_sha256 : string → string;
}.

(** The database and the number of effects performed, which indexes the environment. *)
Record World := mkWorld { w_db : DB; w_ctr : nat }.

Definition M (A : Type) : Type := Env → World → World * result A StoreError.

Definition tick (w : World) : World := mkWorld (w_db w) (S (w_ctr w)).

Definition ret {A} (a : A) : M A := λ _ w, (w, Ok a).
Definition throw {A} (e : StoreError) : M A := λ _ w, (w, Err e).
Definition bind {A B} (m : M A) (k : A → M B) : M B := λ e w,
  match m e w with
  | (w', Ok a) => k a e w'
  | (w', Err x) => (w', Err x)
  end.
Definition lift {A} (r : result A StoreError) : M A := λ _ w, (w, r).

Notation "'let!' x := m 'in' k" := (bind m (λ x, k))
  (at level 10, x name, m at level 100, k at level 200) : cocli_scope.
Notation "m ;; k" := (bind m (λ _, k)) (at level 100, right associativity) : cocli_scope.

(** [Utc::now()] and [Uuid::new_v4()]. *)
Definition utc_now : M Time := λ e w, (tick w, Ok (env_now e (w_ctr w))).
Definition new_v4 : M Uuid := λ e w, (tick w, Ok (env_uuid e (w_ctr w))).

(** [Uuid]'s [Display]. *)
Definition uuid_string (id : Uuid) : M string := λ e w, (w, Ok (env_uuid_string e id)).

(** [Path::is_dir] and [Path::is_file]: the file system of the moment. *)
Definition is_dir (path : string) : M bool := λ e w, (tick w, Ok (env_is_dir e (w_ctr w) path)).
Definition is_file (path : string) : M bool := λ e w, (tick w, Ok (env_is_file e (w_ctr w) path)).

(** [serde_json::to_string] of a [Value], which does not fail, and [serde_json::from_str]. *)
Definition json_to_string (v : Json) : M string := λ e w, (w, Ok (env_to_json e v)).
Definition json_from_str (s : string) : M Json := λ e w,
  (w, match env_from_json e s with Some v => Ok v | None => Err JsonFault end).

(** [Uuid::simple()]'s [Display], and [format("%Y-%m-%d")] of an instant. *)
Definition uuid_simple (id : Uuid) : M string := λ e w, (w, Ok (env_uuid_simple e id)).
Definition format_date (t : Time) : M string := λ e w, (w, Ok (env_date e t)).
(** [Uuid]'s [Display] as a function, and SQLite's [SUM] of a [REAL] column. *)
Definition uuid_display : M (Uuid → string) := λ e w, (w, Ok (env_uuid_string e)).
Definition sum_f64 : M (list F64 → F64) := λ e w, (w, Ok (env_sum_f64 e)).
(** [to_rfc3339] of an instant, [Uuid::parse_str], SHA-256 and the JSON text as functions. *)
Definition rfc3339 : M (Time → string) := λ e w, (w, Ok (env_rfc3339 e)).
Definition parse_uuid (s : string) : M (option Uuid) := λ e w, (w, Ok (env_parse_uuid e s)).
Definition sha256_digest : M (string → string) := λ e w, (w, Ok (env_sha256 e)).
Definition json_text : M (Json → string) := λ e w, (w, Ok (env_to_json e)).

(** One SQL statement: it takes effect entirely or fails without effect. *)
Definition execute {A} (stmt : DB → result (DB * A) SqlError) : M A := λ e w,
  if env_fault e (w_ctr w) then (tick w, Err (Sqlx IoFault))
  else match stmt (w_db w) with
       | Ok (db', a) => (mkWorld db' (S (w_ctr w)), Ok a)
       | Err x => (tick w, Err (Sqlx x))
       end.

(** A query: it reads the tables. *)
Definition fetch {A} (q : DB → A) : M A := execute (λ db, Ok (db, q db)).

(** [fetch_optional] of a query with a [LIMIT 1] or a key: the first row. *)
Definition fetch_optional {A} (q : DB → list A) : M (option A) :=
  fetch (λ db, head (q db)).

(** [pool.begin()], the body, [commit()]: when the body or the commit fails the
    transaction is dropped and the database is what it was. *)
Definition transaction {A} (body : M A) : M A := λ e w,
  if env_fault e (w_ctr w) then (tick w, Err (Sqlx IoFault))
  else match body e (tick w) with
       | (w', Ok a) =>
           if env_fault e (w_ctr w') then (mkWorld (w_db w) (S (w_ctr w')), Err (Sqlx IoFault))
           else (tick w', Ok a)
       | (w', Err x) => (mkWorld (w_db w) (w_ctr w'), Err x)
       end.

(** [for x in xs { body(x)?; }]. *)
Fixpoint for_each {A} (body : A → M unit) (l : list A) : M unit :=
  match l with
  | [] => ret tt
  | x :: l' => body x ;; for_each body l'
  end.

(** ** Statements on one table *)

Definition update_where {A} (p : A → bool) (f : A → A) (l : list A) : list A :=
  map (λ x, if p x then f x else x) l.
Definition count_where {A} (p : A → bool) (l : list A) : Z := Z.of_nat (length (bfilter p l)).
Definition delete_where {A} (p : A → bool) (l : list A) : list A := bfilter (λ x, negb (p x)) l.
Definition exists_row {A} (p : A → bool) (l : list A) : bool := existsb p l.

(** [UPDATE t SET f WHERE p] and [DELETE FROM t WHERE p], with [rows_affected]. *)
Definition sql_update {A} (get : DB → list A) (put : (list A → list A) → DB → DB)
    (p : DB → A → bool) (f : A → A) : DB → result (DB * Z) SqlError :=
  λ db, Ok (put (update_where (p db) f) db, count_where (p db) (get db)).
Definition sql_delete {A} (get : DB → list A) (put : (list A → list A) → DB → DB)
    (p : A → bool) : DB → result (DB * Z) SqlError :=
  λ db, Ok (put (delete_where p) db, count_where p (get db)).

(** [COALESCE(MAX(key), 0)]. *)
Definition max_key {A} (key : A → Z) (l : list A) : Z :=
  fold_right (λ x, Z.max (key x)) (match l with [] => 0 | x :: _ => key x end) l.

(** The checks SQLite makes before a row is accepted. *)
Definition guard (ok : bool) (e : SqlError) : result unit SqlError :=
  if ok then Ok tt else Err e.

Definition has_channel (db : DB) (id : Uuid) : bool :=
  exists_row (λ c, ch_id c =? id)%N (channels db).
Definition has_agent (db : DB) (id : Uuid) : bool :=
  exists_row (λ r, ar_id r =? id)%N (agents db).
Definition has_message (db : DB) (id : Uuid) : bool :=
  exists_row (λ r, mr_id r =? id)%N (messages db).
Definition has_task (db : DB) (channel_id : Uuid) (number : Z) : bool :=
  exists_row (λ t, (tcol_channel_id t =? channel_id)%N && (tcol_task_number t =? number)) (tasks db).

(** A nullable foreign key. *)
Definition null_or (p : Uuid → bool) (o : option Uuid) : bool :=
  match o with None => true | Some id => p id end.

Definition channel_kind_ok (k : string) : bool := str_eqb k "standard" || str_eqb k "direct".
Definition delivery_policy_ok (p : string) : bool := str_eqb p "subscribed" || str_eqb p "muted".

Definition insert_channel (c : Channel) (db : DB) : result (DB * unit) SqlError :=
  try! _ <- guard (channel_kind_ok (ch_kind c)) CheckViolation;
  try! _ <- guard (negb (has_channel db (ch_id c))) UniqueViolation;
  let db' := with_channels (λ l, l ++ [c])%list db in
  try! _ <- guard (null_or (has_agent db') (ch_direct_agent_id c) &&
                   null_or (has_agent db') (ch_created_by_agent_id c) &&
                   null_or (has_channel db') (ch_created_by_channel_id c)) ForeignKeyViolation;
  Ok (db', tt).

(** [... ON CONFLICT(id) DO NOTHING]. *)
Definition insert_channel_or_nothing (c : Channel) (db : DB) : result (DB * unit) SqlError :=
  if has_channel db (ch_id c) && channel_kind_ok (ch_kind c) then Ok (db, tt)
  else insert_channel c db.

Definition insert_agent (r : AgentRow) (db : DB) : result (DB * unit) SqlError :=
  try! _ <- guard (is_ok (parse (A := AgentStatus) (ar_status r)) &&
                   is_ok (parse (A := AgentLifecycleStatus) (ar_lifecycle_status r)))
                  CheckViolation;
  try! _ <- guard (negb (has_agent db (ar_id r))) UniqueViolation;
  let db' := with_agents (λ l, l ++ [r])%list db in
  try! _ <- guard (has_channel db' (ar_channel_id r) &&
                   null_or (has_agent db') (ar_created_by_agent_id r) &&
                   null_or (has_channel db') (ar_created_by_channel_id r)) ForeignKeyViolation;
  Ok (db', tt).

Definition is_member (channel_id agent_id : Uuid) (m : ChannelAgent) : bool :=
  (ca_channel_id m =? channel_id)%N && (ca_agent_id m =? agent_id)%N.

(** [COALESCE]. *)
Definition coalesce {A} (x y : option A) : option A :=
  match x with Some _ => x | None => y end.

(** [INSERT INTO channel_agents ... ON CONFLICT DO UPDATE SET role, delivery_policy]. *)
Definition upsert_member (m : ChannelAgent) (db : DB) : result (DB * unit) SqlError :=
  try! _ <- guard (delivery_policy_ok (ca_delivery_policy m)) CheckViolation;
  let p := is_member (ca_channel_id m) (ca_agent_id m) in
  if exists_row p (channel_agents db) then
    Ok (with_members (update_where p (λ old,
          mkChannelAgent (ca_channel_id old) (ca_agent_id old)
            (coalesce (ca_role m) (ca_role old)) (ca_delivery_policy m) (ca_joined_at old)
            (ca_created_by_agent_id old) (ca_created_by_channel_id old))) db, tt)
  else
    try! _ <- guard (has_channel db (ca_channel_id m) && has_agent db (ca_agent_id m) &&
                     null_or (has_agent db) (ca_created_by_agent_id m) &&
                     null_or (has_channel db) (ca_created_by_channel_id m)) ForeignKeyViolation;
    Ok (with_members (λ l, l ++ [m])%list db, tt).

(** [INSERT INTO messages ... SELECT ..., COALESCE(MAX(seq), 0) + 1, ... RETURNING *]. *)
Definition insert_message (id channel_id : Uuid) (agent_id : option Uuid) (role content : string)
    (created_at : Time) (db : DB) : result (DB * MessageRow) SqlError :=
  let mine := bfilter (λ r, mr_channel_id r =? channel_id)%N (messages db) in
  let row := mkMessageRow id channel_id (max_key mr_seq mine + 1) agent_id role content created_at in
  try! _ <- guard (is_ok (parse (A := MessageRole) role)) CheckViolation;
  try! _ <- guard (negb (has_message db id)) UniqueViolation;
  try! _ <- guard (has_channel db channel_id && null_or (has_agent db) agent_id)
                  ForeignKeyViolation;
  Ok (with_messages (λ l, l ++ [row])%list db, row).

Definition delivery_conflict (r : DeliveryRow) (old : DeliveryRow) : bool :=
  (dr_id old =? dr_id r)%N ||
  (dr_agent_id old =? dr_agent_id r)%N && (dr_message_id old =? dr_message_id r)%N.

Definition insert_delivery (r : DeliveryRow) (db : DB) : result (DB * unit) SqlError :=
  try! _ <- guard (is_ok (parse (A := DeliveryState) (dr_state r))) CheckViolation;
  try! _ <- guard (negb (exists_row (delivery_conflict r) (delivery_queue db))) UniqueViolation;
  try! _ <- guard (has_agent db (dr_agent_id r) && has_channel db (dr_channel_id r) &&
                   has_message db (dr_message_id r)) ForeignKeyViolation;
  Ok (with_deliveries (λ l, l ++ [r])%list db, tt).

(** [INSERT OR IGNORE]: a violated key or check skips the row, a foreign key still fails. *)
Definition insert_delivery_or_ignore (r : DeliveryRow) (db : DB) : result (DB * unit) SqlError :=
  if negb (is_ok (parse (A := DeliveryState) (dr_state r))) ||
     exists_row (delivery_conflict r) (delivery_queue db) then Ok (db, tt)
  else insert_delivery r db.

(** [INSERT INTO agent_inbox_state ... ON CONFLICT DO UPDATE SET last_read_seq = MAX(...)]. *)
Definition upsert_cursor (agent_id : Uuid) (seq : Z) (now : Time) (db : DB)
    : result (DB * unit) SqlError :=
  let p := λ r, (ir_agent_id r =? agent_id)%N in
  if exists_row p (agent_inbox_state db) then
    Ok (with_inbox (update_where p (λ old,
          mkInboxRow (ir_agent_id old) (Z.max (ir_last_read_seq old) seq) now)) db, tt)
  else
    try! _ <- guard (has_agent db agent_id) ForeignKeyViolation;
    Ok (with_inbox (λ l, l ++ [mkInboxRow agent_id seq now])%list db, tt).

(** [INSERT INTO agent_working_state ... ON CONFLICT DO UPDATE SET] all but [started_at]. *)
Definition upsert_working (s : WorkingState) (db : DB) : result (DB * unit) SqlError :=
  let p := λ r, (wst_agent_id r =? wst_agent_id s)%N in
  if exists_row p (agent_working_state db) then
    Ok (with_working (update_where p (λ old,
          mkWorkingState (wst_agent_id old) (wst_summary s) (wst_channel_name s)
            (wst_task_number s) (wst_next_step_hint s) (wst_started_at old) (wst_updated_at s))) db, tt)
  else
    try! _ <- guard (has_agent db (wst_agent_id s)) ForeignKeyViolation;
    Ok (with_working (λ l, l ++ [s])%list db, tt).

Definition in_channel (channel_id : Uuid) (t : TaskColumns) : bool :=
  (tcol_channel_id t =? channel_id)%N.

(** [INSERT INTO tasks ... SELECT ..., COALESCE(MAX(task_number), 0) + 1, ... RETURNING id]. *)
Definition insert_task (id channel_id : Uuid) (message_id : option Uuid) (title : string)
    (created_by : option Uuid) (created_at updated_at : Time) (db : DB)
    : result (DB * Uuid) SqlError :=
  let mine := bfilter (in_channel channel_id) (tasks db) in
  let row := mkTaskColumns id channel_id message_id (max_key tcol_task_number mine + 1) title
               "todo" None None created_by created_at updated_at in
  try! _ <- guard (negb (exists_row (λ t, (tcol_id t =? id)%N ||
                     match message_id with
                     | Some m => bool_decide (tcol_message_id t = Some m)
                     | None => false
                     end) (tasks db))) UniqueViolation;
  try! _ <- guard (has_channel db channel_id && null_or (has_message db) message_id &&
                   null_or (has_agent db) created_by) ForeignKeyViolation;
  Ok (with_tasks (λ l, l ++ [row])%list db, id).

Definition is_dependency (channel_id : Uuid) (task_number depends_on : Z) (d : DependencyRow) : bool :=
  (dep_channel_id d =? channel_id)%N && (dep_task_number d =? task_number) &&
  (dep_depends_on d =? depends_on).

(** [INSERT OR IGNORE INTO task_dependencies]. *)
Definition insert_dependency_or_ignore (d : DependencyRow) (db : DB) : result (DB * unit) SqlError :=
  if (dep_task_number d =? dep_depends_on d) ||
     exists_row (is_dependency (dep_channel_id d) (dep_task_number d) (dep_depends_on d))
       (task_dependencies db) then Ok (db, tt)
  else
    try! _ <- guard (has_task db (dep_channel_id d) (dep_task_number d) &&
                     has_task db (dep_channel_id d) (dep_depends_on d)) ForeignKeyViolation;
    Ok (with_dependencies (λ l, l ++ [d])%list db, tt).

Definition has_workspace (db : DB) (id : Uuid) : bool :=
  exists_row (λ r, wsr_id r =? id)%N (db_workspaces db).

Definition insert_workspace_row (r : WorkspaceRow) (db : DB) : result (DB * unit) SqlError :=
  try! _ <- guard (negb (has_workspace db (wsr_id r))) UniqueViolation;
  Ok (with_workspaces (λ l, l ++ [r])%list db, tt).

Definition is_attachment (workspace_id : Uuid) (subject_type : string) (subject_id : Uuid)
    (r : AttachmentRow) : bool :=
  (atr_workspace_id r =? workspace_id)%N && str_eqb (atr_subject_type r) subject_type &&
  (atr_subject_id r =? subject_id)%N.

(** [INSERT INTO subject_workspaces SELECT ... FROM workspaces JOIN agents (or channels) ...
    ON CONFLICT DO UPDATE SET role RETURNING *]: no row when either side of the join is
    missing. *)
Definition upsert_attachment (workspace_id : Uuid) (subject_type : SubjectType) (subject_id : Uuid)
    (role : option string) (attached_at : Time) (db : DB)
    : result (DB * option AttachmentRow) SqlError :=
  let subject_exists :=
    match subject_type with
    | SubjectAgent => has_agent db subject_id
    | SubjectChannel => has_channel db subject_id
    end in
  let p := is_attachment workspace_id (as_str subject_type) subject_id in
  if has_workspace db workspace_id && subject_exists then
    match bfilter p (db_attachments db) with
    | [] =>
        let row := mkAttachmentRow workspace_id (as_str subject_type) subject_id role attached_at in
        Ok (with_attachments (λ l, l ++ [row])%list db, Some row)
    | old :: _ =>
        let set_role r := mkAttachmentRow (atr_workspace_id r) (atr_subject_type r)
                            (atr_subject_id r) role (atr_attached_at r) in
        Ok (with_attachments (update_where p set_role) db, Some (set_role old))
    end
  else Ok (db, None).

Definition is_binding (workspace_id : Uuid) (installation_id : string) (r : BindingRow) : bool :=
  (wbr_workspace_id r =? workspace_id)%N && str_eqb (wbr_installation_id r) installation_id.

(** [INSERT INTO workspace_bindings ... ON CONFLICT DO UPDATE SET] all but
    [capabilities_json]. *)
Definition upsert_binding (workspace_id : Uuid) (installation_id local_locator : string)
    (secret_ref : option string) (db : DB) : result (DB * unit) SqlError :=
  let p := is_binding workspace_id installation_id in
  if exists_row p (db_bindings db) then
    Ok (with_bindings (update_where p (λ old,
          mkBindingRow (wbr_workspace_id old) (wbr_installation_id old) (Some local_locator)
            "resolving" (wbr_capabilities_json old) secret_ref None None None)) db, tt)
  else
    try! _ <- guard (has_workspace db workspace_id) ForeignKeyViolation;
    Ok (with_bindings (λ l, l ++ [mkBindingRow workspace_id installation_id (Some local_locator)
          "resolving" "{}" secret_ref None None None])%list db, tt).

(** [UPDATE agents SET channel_id = ? WHERE p]: the column is [NOT NULL] and references a
    channel, which SQLite checks only when a row is updated. *)
Definition update_agent_channel (channel_id : option Uuid) (p : AgentRow → bool) (db : DB)
    : result (DB * Z) SqlError :=
  if exists_row p (agents db) then
    match channel_id with
    | None => Err NotNullViolation
    | Some c =>
        try! _ <- guard (has_channel db c) ForeignKeyViolation;
        Ok (with_agents (update_where p (λ r,
              mkAgentRow (ar_id r) c (ar_name r) (ar_description r) (ar_instructions r)
                (ar_runtime r) (ar_model r) (ar_status r) (ar_lifecycle_status r)
                (ar_created_by_agent_id r) (ar_created_by_channel_id r) (ar_created_at r))) db,
            count_where p (agents db))
    end
  else Ok (db, 0).

(** ** Deletions with their [ON DELETE] actions *)

(** [SET NULL]. *)
Definition forget (dead : Uuid → bool) (o : option Uuid) : option Uuid :=
  match o with Some id => if dead id then None else o | None => None end.

Definition forget_agent_in_channel (dead : Uuid → bool) (c : Channel) : Channel :=
  mkChannel (ch_id c) (ch_name c) (ch_description c) (ch_goal c) (ch_kind c) (ch_is_system c)
    (forget dead (ch_direct_agent_id c)) (forget dead (ch_created_by_agent_id c))
    (ch_created_by_channel_id c) (ch_created_at c).
Definition forget_channel_in_channel (dead : Uuid → bool) (c : Channel) : Channel :=
  mkChannel (ch_id c) (ch_name c) (ch_description c) (ch_goal c) (ch_kind c) (ch_is_system c)
    (ch_direct_agent_id c) (ch_created_by_agent_id c)
    (forget dead (ch_created_by_channel_id c)) (ch_created_at c).
Definition forget_in_agent (dead_agent dead_channel : Uuid → bool) (r : AgentRow) : AgentRow :=
  mkAgentRow (ar_id r) (ar_channel_id r) (ar_name r) (ar_description r) (ar_instructions r)
    (ar_runtime r) (ar_model r) (ar_status r) (ar_lifecycle_status r)
    (forget dead_agent (ar_created_by_agent_id r))
    (forget dead_channel (ar_created_by_channel_id r)) (ar_created_at r).
Definition forget_in_member (dead_agent dead_channel : Uuid → bool) (m : ChannelAgent) : ChannelAgent :=
  mkChannelAgent (ca_channel_id m) (ca_agent_id m) (ca_role m) (ca_delivery_policy m)
    (ca_joined_at m) (forget dead_agent (ca_created_by_agent_id m))
    (forget dead_channel (ca_created_by_channel_id m)).
Definition forget_in_message (dead : Uuid → bool) (r : MessageRow) : MessageRow :=
  mkMessageRow (mr_id r) (mr_channel_id r) (mr_seq r) (forget dead (mr_agent_id r)) (mr_role r)
    (mr_content r) (mr_created_at r).
Definition forget_in_task (dead_agent dead_message : Uuid → bool) (t : TaskColumns) : TaskColumns :=
  mkTaskColumns (tcol_id t) (tcol_channel_id t) (forget dead_message (tcol_message_id t))
    (tcol_task_number t) (tcol_title t) (tcol_status t) (tcol_progress t)
    (forget dead_agent (tcol_assignee_id t)) (forget dead_agent (tcol_created_by_agent_id t))
    (tcol_created_at t) (tcol_updated_at t).

Definition forget_in_session (dead_channel dead_session : Uuid → bool) (r : SessionRow) : SessionRow :=
  mkSessionRow (sn_id r) (sn_agent_id r) (sn_session_id r) (sn_launch_id r)
    (forget dead_channel (sn_channel_id r)) (forget dead_session (sn_parent_session_id r))
    (sn_end_reason r) (sn_turn_count r) (sn_input_tokens r) (sn_output_tokens r) (sn_cost_usd r)
    (sn_context_window r) (sn_session_type r) (sn_scope r)
    (forget dead_session (sn_parent_chat_session_id r)) (sn_task_summary r) (sn_files_changed r)
    (sn_task_success r) (sn_started_at r) (sn_ended_at r).
Definition forget_in_turn (dead_channel dead_message : Uuid → bool) (r : TurnRow) : TurnRow :=
  mkTurnRow (tn_id r) (tn_agent_id r) (tn_session_id r) (tn_launch_id r) (tn_turn_number r)
    (tn_started_at r) (tn_ended_at r) (tn_input_tokens r) (tn_output_tokens r) (tn_cost_usd r)
    (tn_context_window r) (tn_entries r) (tn_session_type r)
    (forget dead_channel (tn_channel_id r)) (forget dead_message (tn_source_message_id r)).
Definition forget_in_activity (dead_session : Uuid → bool) (r : ActivityRow) : ActivityRow :=
  mkActivityRow (act_id r) (act_agent_id r) (forget dead_session (act_session_row_id r))
    (act_session_id r) (act_activity r) (act_detail r) (act_trajectory r) (act_launch_id r)
    (act_created_at r).
Definition forget_in_operation (dead_channel : Uuid → bool) (r : AgentOperation) : AgentOperation :=
  mkAgentOperation (aop_id r) (aop_caller_agent_id r) (aop_action r) (aop_idempotency_key r)
    (aop_request_fingerprint r) (aop_result_type r) (aop_result_id r)
    (forget dead_channel (aop_source_channel_id r)) (aop_source_session_id r) (aop_created_at r).

Definition none_dead : Uuid → bool := λ _, false.

(** The history of deleted agents goes with them; references to their sessions are nulled. *)
Definition delete_agent_history (dead : Uuid → bool) (t : HistoryTables) : HistoryTables :=
  let dead_session id :=
    exists_row (λ r, (sn_id r =? id)%N && dead (sn_agent_id r)) (agent_sessions t) in
  mkHistoryTables
    (map (forget_in_session none_dead dead_session)
       (delete_where (λ r, dead (sn_agent_id r)) (agent_sessions t)))
    (delete_where (λ r, dead (tn_agent_id r)) (agent_turns t))
    (map (forget_in_activity dead_session)
       (delete_where (λ r, dead (act_agent_id r)) (agent_activity t)))
    (delete_where (λ r, dead (bt_agent_id r)) (agent_bridge_tokens t))
    (delete_where (λ r, dead (aop_caller_agent_id r)) (agent_operations t)).

(** Deleted channels and messages are forgotten by the history. *)
Definition forget_channel_history (dead dead_message : Uuid → bool) (t : HistoryTables)
    : HistoryTables :=
  mkHistoryTables (map (forget_in_session dead none_dead) (agent_sessions t))
    (map (forget_in_turn dead dead_message) (agent_turns t)) (agent_activity t)
    (agent_bridge_tokens t) (map (forget_in_operation dead) (agent_operations t)).

Definition delete_agent_installs (dead : Uuid → bool) (t : SkillTables) : SkillTables :=
  mkSkillTables (skill_library t) (skill_library_files t)
    (delete_where (λ r, dead (in_agent_id r)) (agent_skill_installs t)).

(** [DELETE FROM agents WHERE dead(id)]. *)
Definition delete_agents (dead : Uuid → bool) (db : DB) : DB :=
  mkDB (map (forget_agent_in_channel dead) (channels db))
    (map (forget_in_agent dead none_dead) (delete_where (λ r, dead (ar_id r)) (agents db)))
    (map (forget_in_member dead none_dead)
       (delete_where (λ m, dead (ca_agent_id m)) (channel_agents db)))
    (map (forget_in_message dead) (messages db))
    (delete_where (λ r, dead (dr_agent_id r)) (delivery_queue db))
    (delete_where (λ r, dead (ir_agent_id r)) (agent_inbox_state db))
    (delete_where (λ r, dead (wst_agent_id r)) (agent_working_state db))
    (map (forget_in_task dead none_dead) (tasks db))
    (task_dependencies db) (workspace_tables db) (memory_documents db)
    (delete_agent_history dead (history_tables db)) (delete_agent_installs dead (skill_tables db)) (mcp_tables db)
    (skill_governance_tables db).

(** The messages a channel deletion removes. *)
Definition message_in (dead : Uuid → bool) (db : DB) (id : Uuid) : bool :=
  exists_row (λ r, (mr_id r =? id)%N && dead (mr_channel_id r)) (messages db).
(** The agents whose default channel a channel deletion removes. *)
Definition agent_in (dead : Uuid → bool) (db : DB) (id : Uuid) : bool :=
  exists_row (λ r, (ar_id r =? id)%N && dead (ar_channel_id r)) (agents db).

(** The channel-scoped rows, once the agents of the channels are gone. *)
Definition delete_channel_rows (dead : Uuid → bool) (db : DB) : DB :=
  mkDB (map (forget_channel_in_channel dead) (delete_where (λ c, dead (ch_id c)) (channels db)))
    (map (forget_in_agent none_dead dead) (agents db))
    (map (forget_in_member none_dead dead)
       (delete_where (λ m, dead (ca_channel_id m)) (channel_agents db)))
    (delete_where (λ r, dead (mr_channel_id r)) (messages db))
    (delete_where (λ r, dead (dr_channel_id r) || message_in dead db (dr_message_id r))
       (delivery_queue db))
    (agent_inbox_state db)
    (agent_working_state db)
    (map (forget_in_task none_dead (message_in dead db))
       (delete_where (λ t, dead (tcol_channel_id t)) (tasks db)))
    (delete_where (λ d, dead (dep_channel_id d)) (task_dependencies db))
    (workspace_tables db) (memory_documents db)
    (forget_channel_history dead (message_in dead db) (history_tables db)) (skill_tables db) (mcp_tables db)
    (skill_governance_tables db).

(** [DELETE FROM channels WHERE dead(id)]: [agents.channel_id] cascades to the agents. *)
Definition delete_channels (dead : Uuid → bool) (db : DB) : DB :=
  delete_channel_rows dead (delete_agents (agent_in dead db) db).

(** [DELETE FROM workspaces WHERE id = ?]: attachments and bindings cascade. *)
Definition delete_workspace_row (workspace_id : Uuid) (db : DB) : result (DB * Z) SqlError :=
  Ok (with_workspace_tables (λ t,
        mkWorkspaceTables
          (delete_where (λ r, wsr_id r =? workspace_id)%N (workspaces t))
          (delete_where (λ r, atr_workspace_id r =? workspace_id)%N (subject_workspaces t))
          (delete_where (λ r, wbr_workspace_id r =? workspace_id)%N (workspace_bindings t))) db,
      count_where (λ r, wsr_id r =? workspace_id)%N (db_workspaces db)).

(** ** A concrete environment *)

(** [serde_json] on the objects of boolean flags that the store writes itself. *)
Definition demo_to_json (v : Json) : string :=
  match v with
  | JObject [] => "{}"
  | JObject [("filesystem", JBool true)] => "{'filesystem':true}"
  | JObject [("filesystem", JBool true); ("git", JBool true)] => "{'filesystem':true,'git':true}"
  | _ => "null"
  end.
Definition demo_from_json (s : string) : option Json :=
  if str_eqb s "{}" then Some (JObject [])
  else if str_eqb s "{'filesystem':true}" then Some (JObject [("filesystem", JBool true)])
  else if str_eqb s "{'filesystem':true,'git':true}" then
    Some (JObject [("filesystem", JBool true); ("git", JBool true)])
  else if str_eqb s "null" then Some JNull
  else None.

(** Identifiers are printed in binary; a date is the day of a month of 10-tick days. *)
Fixpoint show_positive (p : positive) : string :=
  match p with xH => "1" | xO q => "0" +:+ show_positive q | xI q => "1" +:+ show_positive q end.
Definition show_uuid (id : Uuid) : string :=
  match id with N0 => "0" | Npos p => show_positive p end.
Fixpoint read_bits (s : string) : option positive :=
  match s with
  | String c EmptyString => if Ascii.eqb c (Ascii.ascii_of_N 49) then Some xH else None
  | String c s' => if Ascii.eqb c (Ascii.ascii_of_N 49) then xI <$> read_bits s'
                   else if Ascii.eqb c (Ascii.ascii_of_N 48) then xO <$> read_bits s' else None
  | EmptyString => None
  end.
Definition read_uuid (s : string) : option Uuid :=
  if str_eqb s "0" then Some 0%N else Npos <$> read_bits s.
Definition demo_rfc3339 (t : Time) : string := show_uuid (Z.to_N t).
Definition demo_date (t : Time) : string :=
  if t <? 10 then "2026-02-01" else if t <? 20 then "2026-02-02" else "2026-02-03".

(** A fault-free environment whose clock counts effects and whose identifiers are drawn
    from [base] upwards. *)
Definition demo_env (base : N) : Env :=
  mkEnv (λ n, Z.of_nat n) (λ n, (base + N.of_nat n)%N) (λ _, false) show_uuid
    (λ _ _, false) (λ _ _, false) demo_to_json demo_from_json show_uuid demo_date
    (fold_right N.add 0%N) demo_rfc3339 read_uuid str_rev.

Definition start : World := mkWorld empty_db 0.
