(* ===== verification/StoreSchema.v ===== *)
(** * The schema invariant

    What SQLite's constraints promise of a database of [crates/cocli-store], and that every
    statement of [StoreDb] keeps the promise, deletions with their cascades included. The
    rules for the monad lift statements to operations, so that an operation preserves the
    schema because its statements do. *)
From S2P Require Import Prelude McpRows SkillGovernanceTypes StoreTypes StoreDb.

(** ** Rules for the monad *)

Definition preserves {A} (P : DB → Prop) (m : M A) : Prop :=
  ∀ e w, P (w_db w) → P (w_db (m e w).1).

(** A statement keeps [P] whenever it succeeds. *)
Definition stmt_preserves {A} (P : DB → Prop) (s : DB → result (DB * A) SqlError) : Prop :=
  ∀ db db' a, P db → s db = Ok (db', a) → P db'.

(** A failing operation leaves the database as it was. *)
Definition atomic {A} (m : M A) : Prop :=
  ∀ e w w' x, m e w = (w', Err x) → w_db w' = w_db w.

(** An operation that only reads. *)
Definition readonly {A} (m : M A) : Prop := ∀ e w, w_db (m e w).1 = w_db w.

Section MonadRules.
Context (P : DB → Prop).

Lemma preserves_ret {A} (a : A) : preserves P (ret a).
Proof. by intros e w. Qed.
Lemma preserves_throw {A} (x : StoreError) : preserves P (throw (A := A) x).
Proof. by intros e w. Qed.
Lemma preserves_lift {A} (r : result A StoreError) : preserves P (lift r).
Proof. by intros e w. Qed.
Lemma preserves_utc_now : preserves P utc_now.
Proof. by intros e w. Qed.
Lemma preserves_new_v4 : preserves P new_v4.
Proof. by intros e w. Qed.

Lemma preserves_uuid_string id : preserves P (uuid_string id).
Proof. by intros e w. Qed.

Lemma preserves_uuid_simple id : preserves P (uuid_simple id).
Proof. by intros e w. Qed.
Lemma preserves_format_date t : preserves P (format_date t).
Proof. by intros e w. Qed.
Lemma preserves_uuid_display : preserves P uuid_display.
Proof. by intros e w. Qed.
Lemma preserves_sum_f64 : preserves P sum_f64.
Proof. by intros e w. Qed.

Lemma preserves_rfc3339 : preserves P rfc3339.
Proof. by intros e w. Qed.
Lemma preserves_parse_uuid s : preserves P (parse_uuid s).
Proof. by intros e w. Qed.
Lemma preserves_sha256_digest : preserves P sha256_digest.
Proof. by intros e w. Qed.
Lemma preserves_json_text : preserves P json_text.
Proof. by intros e w. Qed.

Lemma preserves_is_dir p : preserves P (is_dir p).
Proof. by intros e w. Qed.
Lemma preserves_is_file p : preserves P (is_file p).
Proof. by intros e w. Qed.

Lemma preserves_json_to_string v : preserves P (json_to_string v).
Proof. by intros e w. Qed.
Lemma preserves_json_from_str s : preserves P (json_from_str s).
Proof. by intros e w. Qed.

Lemma preserves_bind {A B} (m : M A) (k : A → M B) :
  preserves P m → (∀ a, preserves P (k a)) → preserves P (bind m k).
Proof.
  intros Hm Hk e w Hw. unfold bind. specialize (Hm e w Hw).
  destruct (m e w) as [w' [a|x]]; simpl in *; [by apply Hk|done].
Qed.

Lemma preserves_execute {A} (s : DB → result (DB * A) SqlError) :
  stmt_preserves P s → preserves P (execute s).
Proof.
  intros Hs e w Hw. unfold execute. destruct (env_fault e (w_ctr w)); [done|].
  destruct (s (w_db w)) as [[db' a]|x] eqn:E; simpl; [by eapply Hs|done].
Qed.

Lemma preserves_fetch {A} (q : DB → A) : preserves P (fetch q).
Proof. apply preserves_execute. intros db db' a H [= <- _]. done. Qed.

Lemma preserves_fetch_optional {A} (q : DB → list A) : preserves P (fetch_optional q).
Proof. apply preserves_fetch. Qed.

Lemma preserves_transaction {A} (m : M A) : preserves P m → preserves P (transaction m).
Proof.
  intros Hm e w Hw. unfold transaction. destruct (env_fault e (w_ctr w)); [done|].
  specialize (Hm e (tick w) Hw). destruct (m e (tick w)) as [w' [a|x]]; simpl in *; [|done].
  by destruct (env_fault e (w_ctr w')).
Qed.

(** A transaction keeps what its successful runs keep. *)
Lemma preserves_transaction_ok {A} (m : M A) :
  (∀ e w w' a, P (w_db w) → m e w = (w', Ok a) → P (w_db w')) → preserves P (transaction m).
Proof.
  intros Hm e w Hw. unfold transaction. destruct (env_fault e (w_ctr w)); [done|].
  destruct (m e (tick w)) as [w' [a|x]] eqn:H; [|done].
  destruct (env_fault e (w_ctr w')); [done|]. by eapply Hm in H.
Qed.

(** What follows a check may rely on it. *)
Lemma preserves_check {A B} (r : result A StoreError) (k : A → M B) :
  (∀ a, r = Ok a → preserves P (k a)) → preserves P (bind (lift r) k).
Proof. intros Hk e w Hw. unfold bind, lift. destruct r as [a|x]; [by apply Hk|done]. Qed.

Lemma preserves_for_each {A} (body : A → M unit) (l : list A) :
  (∀ x, preserves P (body x)) → preserves P (for_each body l).
Proof.
  intros Hb. induction l as [|x l IH]; simpl; [apply preserves_ret|].
  apply preserves_bind; [apply Hb|intros _; apply IH].
Qed.

Lemma preserves_readonly {A} (m : M A) : readonly m → preserves P m.
Proof. intros Hm e w Hw. by rewrite Hm. Qed.
End MonadRules.

#[export] Hint Resolve preserves_ret preserves_throw preserves_lift preserves_utc_now
  preserves_new_v4 preserves_fetch preserves_fetch_optional preserves_transaction
  preserves_for_each : cocli.
#[export] Hint Resolve preserves_bind | 5 : cocli.
#[export] Hint Resolve preserves_execute | 4 : cocli.

(** Decompose an operation into its statements. *)
Ltac preserves_tac :=
  repeat first
    [ progress intros
    | assumption
    | apply preserves_ret | apply preserves_throw | apply preserves_lift
    | apply preserves_utc_now | apply preserves_new_v4 | apply preserves_uuid_string
    | apply preserves_is_dir | apply preserves_is_file
    | apply preserves_uuid_simple | apply preserves_format_date
    | apply preserves_uuid_display | apply preserves_sum_f64 | apply preserves_rfc3339
    | apply preserves_parse_uuid | apply preserves_sha256_digest | apply preserves_json_text
    | apply preserves_json_to_string | apply preserves_json_from_str
    | apply preserves_fetch | apply preserves_fetch_optional
    | apply preserves_transaction | apply preserves_for_each
    | solve [auto 3 with cocli nocore]
    | apply preserves_bind
    | progress (case_match; simplify_eq)
    | apply preserves_execute ].

(** The same, stopping at the transactions. *)
Ltac preserves_outside :=
  repeat first
    [ progress intros
    | apply preserves_ret | apply preserves_utc_now | apply preserves_new_v4
    | apply preserves_uuid_string | apply preserves_fetch | apply preserves_fetch_optional
    | lazymatch goal with |- preserves _ (bind _ _) => apply preserves_bind end ].

Lemma transaction_atomic {A} (m : M A) : atomic (transaction m).
Proof.
  intros e w w' x. unfold transaction. destruct (env_fault e (w_ctr w)); [by intros [= <- _]|].
  destruct (m e (tick w)) as [w1 [a|y]]; [|by intros [= <- _]].
  destruct (env_fault e (w_ctr w1)); [by intros [= <- _]|done].
Qed.

Lemma execute_atomic {A} (s : DB → result (DB * A) SqlError) : atomic (execute s).
Proof.
  intros e w w' x. unfold execute. destruct (env_fault e (w_ctr w)); [by intros [= <- _]|].
  destruct (s (w_db w)) as [[db' a]|y]; [done|by intros [= <- _]].
Qed.

(** A failing operation whose writes are all in the last, atomic, part. *)
Lemma atomic_bind {A B} (m : M A) (k : A → M B) :
  readonly m → (∀ a, atomic (k a)) → atomic (bind m k).
Proof.
  intros Hm Hk e w w' x. unfold bind. pose proof (Hm e w) as Hw.
  destruct (m e w) as [w1 [a|y]]; simpl in Hw; [|by intros [= <- _]].
  intros H%Hk. congruence.
Qed.
Lemma readonly_atomic {A} (m : M A) : readonly m → atomic m.
Proof. intros Hm e w w' x H. pose proof (Hm e w) as Hw. by rewrite H in Hw. Qed.
Lemma readonly_ret {A} (a : A) : readonly (ret a).
Proof. by intros e w. Qed.
Lemma readonly_throw {A} (x : StoreError) : readonly (throw (A := A) x).
Proof. by intros e w. Qed.
Lemma readonly_lift {A} (r : result A StoreError) : readonly (lift r).
Proof. by intros e w. Qed.
Lemma readonly_utc_now : readonly utc_now.
Proof. by intros e w. Qed.
Lemma readonly_new_v4 : readonly new_v4.
Proof. by intros e w. Qed.
Lemma readonly_format_date t : readonly (format_date t).
Proof. by intros e w. Qed.
Lemma readonly_uuid_display : readonly uuid_display.
Proof. by intros e w. Qed.
Lemma readonly_uuid_simple id : readonly (uuid_simple id).
Proof. by intros e w. Qed.
Lemma readonly_json_to_string v : readonly (json_to_string v).
Proof. by intros e w. Qed.
Lemma readonly_rfc3339 : readonly rfc3339.
Proof. by intros e w. Qed.
Lemma readonly_parse_uuid s : readonly (parse_uuid s).
Proof. by intros e w. Qed.
Lemma readonly_sha256_digest : readonly sha256_digest.
Proof. by intros e w. Qed.
Lemma readonly_json_text : readonly json_text.
Proof. by intros e w. Qed.
Lemma readonly_json_from_str s : readonly (json_from_str s).
Proof. by intros e w. Qed.
Lemma readonly_uuid_string id : readonly (uuid_string id).
Proof. by intros e w. Qed.
Lemma readonly_fetch {A} (q : DB → A) : readonly (fetch q).
Proof. intros e w. unfold fetch, execute. by destruct (env_fault e (w_ctr w)). Qed.
Lemma readonly_bind {A B} (m : M A) (k : A → M B) :
  readonly m → (∀ a, readonly (k a)) → readonly (bind m k).
Proof.
  intros Hm Hk e w. unfold bind. pose proof (Hm e w) as Hw.
  destruct (m e w) as [w1 [a|y]]; simpl in *; [|done]. by rewrite Hk.
Qed.
#[export] Hint Resolve readonly_ret readonly_throw readonly_lift readonly_utc_now readonly_new_v4
  readonly_format_date readonly_uuid_display readonly_uuid_simple readonly_json_to_string
  readonly_rfc3339 readonly_parse_uuid readonly_sha256_digest readonly_json_text
  readonly_json_from_str readonly_uuid_string
  readonly_fetch transaction_atomic execute_atomic : cocli.

(** An operation that reads, then runs one statement or one transaction. *)
Ltac atomic_tac :=
  repeat first
    [ progress intros
    | solve [auto 2 with cocli nocore]
    | apply atomic_bind
    | apply readonly_bind
    | progress (case_match; simplify_eq)
    | apply readonly_atomic ].

(** *** Inverting successful runs *)

Lemma bind_ok {A B} (m : M A) (k : A → M B) e w w' b :
  bind m k e w = (w', Ok b) ↔ ∃ w1 a, m e w = (w1, Ok a) ∧ k a e w1 = (w', Ok b).
Proof.
  unfold bind. destruct (m e w) as [w1 [a|x]]; split.
  - intros H. by exists w1, a.
  - by intros (? & ? & [= <- <-] & ?).
  - done.
  - by intros (? & ? & ? & ?).
Qed.

Lemma bind_err {A B} (m : M A) (k : A → M B) e w w' x :
  bind m k e w = (w', Err x) →
  m e w = (w', Err x) ∨ ∃ w1 a, m e w = (w1, Ok a) ∧ k a e w1 = (w', Err x).
Proof.
  unfold bind. destruct (m e w) as [w1 [a|y]]; intros H; [right; eauto|left; congruence].
Qed.

Lemma execute_ok {A} (s : DB → result (DB * A) SqlError) e w w' a :
  execute s e w = (w', Ok a) ↔
  env_fault e (w_ctr w) = false ∧ s (w_db w) = Ok (w_db w', a) ∧ w_ctr w' = S (w_ctr w).
Proof.
  unfold execute. destruct (env_fault e (w_ctr w)); [naive_solver|].
  destruct (s (w_db w)) as [[db' a']|x]; [|naive_solver]. split.
  - by intros [= <- <-].
  - destruct w'; simpl. by intros (_ & [= <- <-] & ->).
Qed.

Lemma fetch_ok {A} (q : DB → A) e w w' a :
  fetch q e w = (w', Ok a) → w_db w' = w_db w ∧ a = q (w_db w).
Proof. unfold fetch. rewrite execute_ok. naive_solver. Qed.

Lemma fetch_optional_ok {A} (q : DB → list A) e w w' a :
  fetch_optional q e w = (w', Ok a) → w_db w' = w_db w ∧ a = head (q (w_db w)).
Proof. apply fetch_ok. Qed.

Lemma transaction_ok {A} (m : M A) e w w' a :
  transaction m e w = (w', Ok a) →
  ∃ w1, m e (tick w) = (w1, Ok a) ∧ w_db w' = w_db w1.
Proof.
  unfold transaction. destruct (env_fault e (w_ctr w)); [done|].
  destruct (m e (tick w)) as [w1 [b|x]]; [|done].
  destruct (env_fault e (w_ctr w1)); [done|]. intros [= <- <-]. by exists w1.
Qed.

Lemma lift_ok {A} (r : result A StoreError) e w w' a :
  lift r e w = (w', Ok a) → w' = w ∧ r = Ok a.
Proof. by intros [= -> ->]. Qed.

(** Open the run of a successful operation into the runs of its steps. *)
Ltac inv_run :=
  repeat match goal with
  | H : bind _ _ _ _ = (_, Ok _) |- _ =>
      apply bind_ok in H; destruct H as (? & ? & ? & ?)
  | H : ret _ _ _ = (_, Ok _) |- _ => unfold ret in H; simplify_eq
  | H : throw _ _ _ = (_, Ok _) |- _ => discriminate H
  | H : lift _ _ _ = (_, Ok _) |- _ => apply lift_ok in H; destruct H as [? ?]; simplify_eq
  | H : utc_now _ _ = (_, Ok _) |- _ => unfold utc_now in H; simplify_eq
  | H : new_v4 _ _ = (_, Ok _) |- _ => unfold new_v4 in H; simplify_eq
  | H : uuid_string _ _ _ = (_, Ok _) |- _ => unfold uuid_string in H; simplify_eq
  | H : uuid_simple _ _ _ = (_, Ok _) |- _ => unfold uuid_simple in H; simplify_eq
  | H : format_date _ _ _ = (_, Ok _) |- _ => unfold format_date in H; simplify_eq
  | H : uuid_display _ _ = (_, Ok _) |- _ => unfold uuid_display in H; simplify_eq
  | H : sum_f64 _ _ = (_, Ok _) |- _ => unfold sum_f64 in H; simplify_eq
  | H : json_to_string _ _ _ = (_, Ok _) |- _ => unfold json_to_string in H; simplify_eq
  | H : rfc3339 _ _ = (_, Ok _) |- _ => unfold rfc3339 in H; simplify_eq
  | H : parse_uuid _ _ _ = (_, Ok _) |- _ => unfold parse_uuid in H; simplify_eq
  | H : sha256_digest _ _ = (_, Ok _) |- _ => unfold sha256_digest in H; simplify_eq
  | H : json_text _ _ = (_, Ok _) |- _ => unfold json_text in H; simplify_eq
  | H : is_dir _ _ _ = (_, Ok _) |- _ => unfold is_dir in H; simplify_eq
  | H : is_file _ _ _ = (_, Ok _) |- _ => unfold is_file in H; simplify_eq
  | H : fetch_optional _ _ _ = (_, Ok _) |- _ => apply fetch_optional_ok in H; destruct H as [? ?]
  | H : fetch _ _ _ = (_, Ok _) |- _ => apply fetch_ok in H; destruct H as [? ?]
  | H : execute _ _ _ = (_, Ok _) |- _ => apply execute_ok in H; destruct H as (_ & ? & ?)
  | H : transaction _ _ _ = (_, Ok _) |- _ => apply transaction_ok in H; destruct H as (? & ? & ?)
  end.

(** Identify the databases of worlds that differ only by their counter. *)
Ltac same_db :=
  repeat match goal with
  | H : w_db ?a = w_db ?b |- _ => rewrite H in *; clear H
  | H : w_db ?a = ?d |- _ => is_var d; rewrite H in *; clear H
  end.

(** What a step that only reads yields holds in the database that its continuation starts from. *)
Lemma readonly_then {A B} (m : M A) (k : A → M B) (Q : DB → Prop) e w :
  readonly m → Q (w_db w) →
  (∀ w' a, w_db w' = w_db w → m e w = (w', Ok a) → Q (w_db (k a e w').1)) →
  Q (w_db (bind m k e w).1).
Proof.
  intros Hr HQ Hk. specialize (Hr e w). unfold bind. destruct (m e w) as [w' [a|x]] eqn:E; simpl in *.
  - by apply Hk.
  - by rewrite Hr.
Qed.

Lemma bind_assoc {A B C} (m : M A) (k : A → M B) (k' : B → M C) e w :
  bind (bind m k) k' e w = bind m (λ a, bind (k a) k') e w.
Proof. unfold bind. by destruct (m e w) as [w' [a|x]]. Qed.

(** What a statement does to the database, when it has an effect. *)
Lemma execute_then {A B} (s : DB → result (DB * A) SqlError) (k : A → M B) (Q : DB → Prop) e w :
  Q (w_db w) →
  (∀ db' a w', s (w_db w) = Ok (db', a) → w_db w' = db' → Q (w_db (k a e w').1)) →
  Q (w_db (bind (execute s) k e w).1).
Proof.
  intros HQ Hk. unfold bind, execute. destruct (env_fault e (w_ctr w)); [done|].
  destruct (s (w_db w)) as [[db' a]|x] eqn:E; simpl; [by eapply Hk|done].
Qed.

Lemma sql_update_ok {A} (get : DB → list A) put p f db db' n :
  sql_update get put p f db = Ok (db', n) →
  db' = put (update_where (p db) f) db ∧ n = count_where (p db) (get db).
Proof. by intros [= <- <-]. Qed.
Lemma sql_delete_ok {A} (get : DB → list A) put p db db' n :
  sql_delete get put p db = Ok (db', n) → db' = put (delete_where p) db ∧ n = count_where p (get db).
Proof. by intros [= <- <-]. Qed.

(** *** Runs without faults *)

Definition fault_free (e : Env) : Prop := ∀ n, env_fault e n = false.

Section FaultFree.
Context (e : Env) (Hff : fault_free e).

Lemma execute_run {A} (s : DB → result (DB * A) SqlError) w :
  execute s e w = match s (w_db w) with
                  | Ok (db', a) => (mkWorld db' (S (w_ctr w)), Ok a)
                  | Err x => (tick w, Err (Sqlx x))
                  end.
Proof. unfold execute. by rewrite Hff. Qed.

Lemma fetch_run {A} (q : DB → A) w : fetch q e w = (tick w, Ok (q (w_db w))).
Proof. unfold fetch. by rewrite execute_run. Qed.

Lemma transaction_run {A} (m : M A) w :
  transaction m e w = match m e (tick w) with
                      | (w', Ok a) => (tick w', Ok a)
                      | (w', Err x) => (mkWorld (w_db w) (w_ctr w'), Err x)
                      end.
Proof.
  unfold transaction. rewrite Hff. destruct (m e (tick w)) as [w' [a|x]]; [|done].
  by rewrite Hff.
Qed.
End FaultFree.

(** ** Rows and keys *)

Section RowLemmas.
Context {A : Type}.
Implicit Types (p : A → bool) (l : list A).

Lemma exists_row_true p l : exists_row p l = true ↔ ∃ x, x ∈ l ∧ p x = true.
Proof. unfold exists_row. rewrite existsb_exists. by setoid_rewrite list_elem_of_In. Qed.

Lemma exists_row_false p l : exists_row p l = false ↔ ∀ x, x ∈ l → p x = false.
Proof.
  rewrite <- not_true_iff_false, exists_row_true. split.
  - intros H x Hx. apply not_true_is_false. intros Hp. apply H. by exists x.
  - intros H (x & Hx & Hp). by rewrite (H x Hx) in Hp.
Qed.

Lemma exists_row_key {K} (key : A → K) `{EqDecision K} (p : K → bool) l k :
  (∀ j, p j = true ↔ j = k) → exists_row (λ x, p (key x)) l = true ↔ k ∈ map key l.
Proof.
  intros Hp. rewrite exists_row_true, list_elem_of_fmap. split.
  - intros (x & Hx & Hk%Hp). by exists x.
  - intros (x & Hk & Hx). exists x. split; [done|]. by apply Hp.
Qed.

Lemma map_update_where {K} (key : A → K) p f l :
  (∀ x, key (f x) = key x) → map key (update_where p f l) = map key l.
Proof.
  intros Hf. unfold update_where. rewrite map_map. apply map_ext. intros x.
  by destruct (p x).
Qed.

Lemma Forall_update_where (Q : A → Prop) p f l :
  Forall Q l → (∀ x, p x = true → Q x → Q (f x)) → Forall Q (update_where p f l).
Proof.
  intros Hl Hf. unfold update_where. apply Forall_map.
  eapply Forall_impl; [exact Hl|]. intros x Hx. destruct (p x) eqn:E; auto.
Qed.

Lemma elem_of_update_where p f l y :
  y ∈ update_where p f l ↔
  ∃ x, x ∈ l ∧ y = if p x then f x else x.
Proof. unfold update_where. rewrite list_elem_of_fmap. naive_solver. Qed.

Lemma elem_of_delete_where p l x : x ∈ delete_where p l ↔ x ∈ l ∧ p x = false.
Proof. unfold delete_where. by rewrite elem_of_bfilter, negb_true_iff. Qed.

Lemma delete_where_sublist p l : delete_where p l `sublist_of` l.
Proof. apply bfilter_sublist. Qed.

Lemma NoDup_delete_where {K} (key : A → K) p l :
  NoDup (map key l) → NoDup (map key (delete_where p l)).
Proof.
  intros H. eapply sublist_NoDup; [exact H|]. apply sublist_map, delete_where_sublist.
Qed.

Lemma NoDup_map_snoc {K} (key : A → K) l x :
  NoDup (map key l) → key x ∉ map key l → NoDup (map key (l ++ [x])).
Proof.
  intros Hl Hx. rewrite map_app. apply NoDup_app. split_and!; [done| |apply NoDup_singleton].
  intros k Hk ->%list_elem_of_singleton. done.
Qed.

Lemma max_key_ge (key : A → Z) l x : x ∈ l → key x ≤ max_key key l.
Proof.
  unfold max_key. generalize (match l with [] => 0 | y :: _ => key y end) as z.
  induction l as [|y l IH]; intros z; [set_solver|]. simpl.
  intros [->|Hx]%elem_of_cons; [lia|]. specialize (IH z Hx). lia.
Qed.
End RowLemmas.

#[export] Hint Resolve NoDup_delete_where delete_where_sublist : cocli.

Lemma Forall_snoc {A} (P : A → Prop) (l : list A) (x : A) :
  Forall P l → P x → Forall P (l ++ [x])%list.
Proof. intros Hl Hx. apply Forall_app. split; [done|]. by constructor. Qed.

Lemma exists_key_false {A K} (key : A → K) (p : A → bool) (l : list A) (k : K) :
  (∀ x, key x = k → p x = true) → exists_row p l = false → k ∉ map key l.
Proof.
  intros Hp He (x & -> & Hx)%list_elem_of_fmap. rewrite exists_row_false in He.
  specialize (He x Hx). by rewrite Hp in He.
Qed.

(** ** The invariant, table by table *)

Definition channel_ids (db : DB) : list Uuid := map ch_id (channels db).
Definition agent_ids (db : DB) : list Uuid := map ar_id (agents db).
Definition message_ids (db : DB) : list Uuid := map mr_id (messages db).
Definition task_key (t : TaskColumns) : Uuid * Z := (tcol_channel_id t, tcol_task_number t).
Definition task_keys (db : DB) : list (Uuid * Z) := map task_key (tasks db).
Definition member_key (m : ChannelAgent) : Uuid * Uuid := (ca_channel_id m, ca_agent_id m).
Definition seq_key (r : MessageRow) : Uuid * Z := (mr_channel_id r, mr_seq r).
Definition queue_key (r : DeliveryRow) : Uuid * Uuid := (dr_agent_id r, dr_message_id r).
Definition dep_key (d : DependencyRow) : Uuid * Z * Z :=
  (dep_channel_id d, dep_task_number d, dep_depends_on d).

Definition channels_ok (db : DB) : Prop :=
  NoDup (channel_ids db) ∧ Forall (λ c, channel_kind_ok (ch_kind c) = true) (channels db).

Definition agents_ok (db : DB) : Prop :=
  NoDup (agent_ids db) ∧
  Forall (λ r, ar_channel_id r ∈ channel_ids db ∧ persisted AgentStatus (ar_status r) ∧
               persisted AgentLifecycleStatus (ar_lifecycle_status r)) (agents db).

Definition members_ok (db : DB) : Prop :=
  NoDup (map member_key (channel_agents db)) ∧
  Forall (λ m, ca_channel_id m ∈ channel_ids db ∧ ca_agent_id m ∈ agent_ids db ∧
               delivery_policy_ok (ca_delivery_policy m) = true) (channel_agents db).

Definition messages_ok (db : DB) : Prop :=
  NoDup (message_ids db) ∧ NoDup (map seq_key (messages db)) ∧
  Forall (λ r, mr_channel_id r ∈ channel_ids db ∧ persisted MessageRole (mr_role r)) (messages db).

Definition deliveries_ok (db : DB) : Prop :=
  NoDup (map dr_id (delivery_queue db)) ∧ NoDup (map queue_key (delivery_queue db)) ∧
  Forall (λ r, dr_agent_id r ∈ agent_ids db ∧ dr_channel_id r ∈ channel_ids db ∧
               dr_message_id r ∈ message_ids db ∧ persisted DeliveryState (dr_state r))
         (delivery_queue db).

Definition inbox_ok (db : DB) : Prop :=
  NoDup (map ir_agent_id (agent_inbox_state db)) ∧
  Forall (λ r, ir_agent_id r ∈ agent_ids db) (agent_inbox_state db).

Definition working_ok (db : DB) : Prop :=
  NoDup (map wst_agent_id (agent_working_state db)) ∧
  Forall (λ r, wst_agent_id r ∈ agent_ids db) (agent_working_state db).

Definition tasks_ok (db : DB) : Prop :=
  NoDup (map tcol_id (tasks db)) ∧ NoDup (task_keys db) ∧
  Forall (λ t, tcol_channel_id t ∈ channel_ids db ∧ persisted TaskStatus (tcol_status t)) (tasks db).

Definition dependencies_ok (db : DB) : Prop :=
  NoDup (map dep_key (task_dependencies db)) ∧
  Forall (λ d, dep_task_number d ≠ dep_depends_on d ∧
               (dep_channel_id d, dep_task_number d) ∈ task_keys db ∧
               (dep_channel_id d, dep_depends_on d) ∈ task_keys db) (task_dependencies db).

Definition attachment_key (r : AttachmentRow) : Uuid * string * Uuid :=
  (atr_workspace_id r, atr_subject_type r, atr_subject_id r).
Definition binding_key (r : BindingRow) : Uuid * string :=
  (wbr_workspace_id r, wbr_installation_id r).

Definition workspaces_ok (t : WorkspaceTables) : Prop :=
  NoDup (map wsr_id (workspaces t)) ∧
  NoDup (map attachment_key (subject_workspaces t)) ∧
  NoDup (map binding_key (workspace_bindings t)) ∧
  Forall (λ r, atr_workspace_id r ∈ map wsr_id (workspaces t) ∧
               persisted SubjectType (atr_subject_type r)) (subject_workspaces t) ∧
  Forall (λ r, wbr_workspace_id r ∈ map wsr_id (workspaces t) ∧
               persisted WorkspaceBindingState (wbr_state r)) (workspace_bindings t).

Definition memory_ok (l : list MemoryRow) : Prop :=
  NoDup (map md_id l) ∧ NoDup (map md_path l).

(** [UNIQUE] keys with a nullable column: a row with [NULL] conflicts with nothing. *)
Definition turn_key (r : TurnRow) : option (Uuid * string * Z) :=
  (λ l, (tn_agent_id r, l, tn_turn_number r)) <$> tn_launch_id r.
Definition operation_key (r : AgentOperation) : option (Uuid * string * string) :=
  (λ k, (aop_caller_agent_id r, aop_action r, k)) <$> aop_idempotency_key r.

Definition null_or_in (ids : list Uuid) (o : option Uuid) : Prop :=
  ∀ id, o = Some id → id ∈ ids.

Definition session_ids (t : HistoryTables) : list Uuid := map sn_id (agent_sessions t).

(** The history tables of a database with the given agents. *)
Record history_ok (agents : list Uuid) (t : HistoryTables) : Prop := {
  ho_session_ids : NoDup (session_ids t);
  ho_sessions : Forall (λ r, sn_agent_id r ∈ agents ∧
    null_or_in (session_ids t) (sn_parent_session_id r) ∧
    null_or_in (session_ids t) (sn_parent_chat_session_id r)) (agent_sessions t);
  ho_turn_ids : NoDup (map tn_id (agent_turns t));
  ho_turn_keys : NoDup (omap turn_key (agent_turns t));
  ho_turns : Forall (λ r, tn_agent_id r ∈ agents) (agent_turns t);
  ho_activity_ids : NoDup (map act_id (agent_activity t));
  ho_activity : Forall (λ r, act_agent_id r ∈ agents ∧
    null_or_in (session_ids t) (act_session_row_id r)) (agent_activity t);
  ho_token_agents : NoDup (map bt_agent_id (agent_bridge_tokens t));
  ho_tokens_distinct : NoDup (map bt_token (agent_bridge_tokens t));
  ho_tokens : Forall (λ r, bt_agent_id r ∈ agents) (agent_bridge_tokens t);
  ho_operation_ids : NoDup (map aop_id (agent_operations t));
  ho_operation_keys : NoDup (omap operation_key (agent_operations t));
  ho_operations : Forall (λ r, aop_caller_agent_id r ∈ agents) (agent_operations t);
}.

Definition skill_ids (t : SkillTables) : list Uuid := map sk_id (skill_library t).
Definition skill_file_key (r : SkillFileRow) : Uuid * string :=
  (sfr_library_id r, slf_rel_path (sfr_file r)).
Definition install_key (r : InstallRow) : Uuid * Uuid := (in_agent_id r, in_library_id r).

Record skills_ok (agents : list Uuid) (t : SkillTables) : Prop := {
  ko_ids : NoDup (skill_ids t);
  ko_names : NoDup (map sk_name (skill_library t));
  ko_file_keys : NoDup (map skill_file_key (skill_library_files t));
  ko_files : Forall (λ r, sfr_library_id r ∈ skill_ids t) (skill_library_files t);
  ko_install_ids : NoDup (map in_id (agent_skill_installs t));
  ko_install_keys : NoDup (map install_key (agent_skill_installs t));
  ko_installs : Forall (λ r, in_agent_id r ∈ agents ∧ in_library_id r ∈ skill_ids t)
                  (agent_skill_installs t);
}.

Record schema_ok (db : DB) : Prop := {
  so_channels : channels_ok db;
  so_agents : agents_ok db;
  so_members : members_ok db;
  so_messages : messages_ok db;
  so_deliveries : deliveries_ok db;
  so_inbox : inbox_ok db;
  so_working : working_ok db;
  so_tasks : tasks_ok db;
  so_dependencies : dependencies_ok db;
  so_workspaces : workspaces_ok (workspace_tables db);
  so_memory : memory_ok (memory_documents db);
  so_history : history_ok (agent_ids db) (history_tables db);
  so_skills : skills_ok (agent_ids db) (skill_tables db);
  so_mcp : mcp_ok (mcp_tables db);
  so_skill_governance : skill_governance_ok (skill_governance_tables db);
}.

Lemma schema_ok_empty : schema_ok empty_db.
Proof. split; repeat split; constructor. Qed.

(** ** Lookups against the key columns *)

Lemma has_channel_true db id : has_channel db id = true ↔ id ∈ channel_ids db.
Proof. apply (exists_row_key ch_id (λ j, (j =? id)%N)). intros j. apply (N.eqb_eq j id). Qed.
Lemma has_agent_true db id : has_agent db id = true ↔ id ∈ agent_ids db.
Proof. apply (exists_row_key ar_id (λ j, (j =? id)%N)). intros j. apply (N.eqb_eq j id). Qed.
Lemma has_message_true db id : has_message db id = true ↔ id ∈ message_ids db.
Proof. apply (exists_row_key mr_id (λ j, (j =? id)%N)). intros j. apply (N.eqb_eq j id). Qed.
Lemma has_task_true db c n : has_task db c n = true ↔ (c, n) ∈ task_keys db.
Proof.
  apply (exists_row_key task_key (λ j, (j.1 =? c)%N && (j.2 =? n))).
  intros [a b]; simpl. rewrite andb_true_iff, N.eqb_eq, Z.eqb_eq. naive_solver.
Qed.

Lemma has_workspace_true db id :
  has_workspace db id = true ↔ id ∈ map wsr_id (db_workspaces db).
Proof. apply (exists_row_key wsr_id (λ j, (j =? id)%N)). intros j. apply (N.eqb_eq j id). Qed.

(** Open the guards of a successful statement. *)
Ltac inv_stmt :=
  repeat match goal with
  | H : rbind (guard ?b _) _ = Ok _ |- _ =>
      let E := fresh "Hguard" in destruct b eqn:E; simpl in H; [|discriminate H]
  | H : (if ?b then _ else _) = Ok _ |- _ => let E := fresh "Hif" in destruct b eqn:E
  | H : Ok _ = Ok _ |- _ => injection H as H; subst
  | H : (_, _) = (_, _) |- _ => injection H as ? ?; subst
  end;
  bsimp; simplify_eq.

(** ** Tables that a statement does not touch *)

Section Frame.
Context (db db' : DB).
Context (Hc : channel_ids db ⊆ channel_ids db') (Ha : agent_ids db ⊆ agent_ids db').

Lemma agents_mono : agents db' = agents db → agents_ok db → agents_ok db'.
Proof.
  unfold agents_ok, agent_ids. intros -> [H1 H2]. split; [done|].
  eapply Forall_impl; [exact H2|]. set_solver.
Qed.
Lemma members_mono : channel_agents db' = channel_agents db → members_ok db → members_ok db'.
Proof.
  unfold members_ok. intros -> [H1 H2]. split; [done|].
  eapply Forall_impl; [exact H2|]. set_solver.
Qed.
Lemma messages_mono : messages db' = messages db → messages_ok db → messages_ok db'.
Proof.
  unfold messages_ok, message_ids. intros -> (H1 & H2 & H3). split_and!; [done..|].
  eapply Forall_impl; [exact H3|]. set_solver.
Qed.
Lemma deliveries_mono : message_ids db ⊆ message_ids db' →
  delivery_queue db' = delivery_queue db → deliveries_ok db → deliveries_ok db'.
Proof.
  unfold deliveries_ok. intros Hm -> (H1 & H2 & H3). split_and!; [done..|].
  eapply Forall_impl; [exact H3|]. set_solver.
Qed.
Lemma inbox_mono : agent_inbox_state db' = agent_inbox_state db → inbox_ok db → inbox_ok db'.
Proof.
  unfold inbox_ok. intros -> [H1 H2]. split; [done|].
  eapply Forall_impl; [exact H2|]. set_solver.
Qed.
Lemma working_mono :
  agent_working_state db' = agent_working_state db → working_ok db → working_ok db'.
Proof.
  unfold working_ok. intros -> [H1 H2]. split; [done|].
  eapply Forall_impl; [exact H2|]. set_solver.
Qed.
Lemma tasks_mono : tasks db' = tasks db → tasks_ok db → tasks_ok db'.
Proof.
  unfold tasks_ok, task_keys. intros -> (H1 & H2 & H3). split_and!; [done..|].
  eapply Forall_impl; [exact H3|]. set_solver.
Qed.
Lemma dependencies_mono : task_keys db ⊆ task_keys db' →
  task_dependencies db' = task_dependencies db → dependencies_ok db → dependencies_ok db'.
Proof.
  unfold dependencies_ok. intros Ht -> [H1 H2]. split; [done|].
  eapply Forall_impl; [exact H2|]. set_solver.
Qed.
Lemma history_mono : history_tables db' = history_tables db →
  history_ok (agent_ids db) (history_tables db) → history_ok (agent_ids db') (history_tables db').
Proof.
  intros -> []. split; try done.
  all: match goal with H : Forall _ ?l |- Forall _ ?l => eapply Forall_impl; [exact H|] end.
  all: naive_solver.
Qed.
Lemma skills_mono : skill_tables db' = skill_tables db →
  skills_ok (agent_ids db) (skill_tables db) → skills_ok (agent_ids db') (skill_tables db').
Proof. intros -> []. split; try done. eapply Forall_impl; [done|]. naive_solver. Qed.
End Frame.

(** Key columns after an insertion or an update that keeps the keys. *)
Ltac keys_tac :=
  unfold channel_ids, agent_ids, message_ids, task_keys; simpl;
  rewrite ?map_app, ?(map_update_where ch_id), ?(map_update_where ar_id),
    ?(map_update_where task_key), ?(map_update_where mr_id) by done; set_solver.

(** Prove [schema_ok] of the result of a statement, leaving the tables it changes. *)
Ltac frame_tac Hok :=
  lazymatch type of Hok with schema_ok ?d =>
  let H := fresh in pose proof Hok as H; destruct H;
  split;
  first
    [ assumption
    | apply (agents_mono d); [keys_tac ..|reflexivity|assumption]
    | apply (members_mono d); [keys_tac ..|reflexivity|assumption]
    | apply (messages_mono d); [keys_tac ..|reflexivity|assumption]
    | apply (deliveries_mono d); [keys_tac ..|reflexivity|assumption]
    | apply (inbox_mono d); [keys_tac ..|reflexivity|assumption]
    | apply (working_mono d); [keys_tac ..|reflexivity|assumption]
    | apply (tasks_mono d); [keys_tac ..|reflexivity|assumption]
    | apply (dependencies_mono d); [keys_tac ..|reflexivity|assumption]
    | apply (history_mono d); [keys_tac ..|reflexivity|assumption]
    | apply (skills_mono d); [keys_tac ..|reflexivity|assumption]
    | idtac ]
  end.

(** ** Every statement keeps the schema *)

Lemma insert_channel_ok c : stmt_preserves schema_ok (insert_channel c).
Proof.
  intros db db' [] Hok H. unfold insert_channel in H. inv_stmt. frame_tac Hok.
  destruct so_channels0 as [K1 K2]. split.
  - apply NoDup_map_snoc; [done|]. intros Hin%has_channel_true. congruence.
  - simpl. apply Forall_app. auto.
Qed.

Lemma insert_channel_or_nothing_ok c : stmt_preserves schema_ok (insert_channel_or_nothing c).
Proof.
  intros db db' [] Hok H. unfold insert_channel_or_nothing in H.
  destruct (_ && _); [by simplify_eq|]. by eapply insert_channel_ok.
Qed.

Lemma insert_agent_ok r : stmt_preserves schema_ok (insert_agent r).
Proof.
  intros db db' [] Hok H. unfold insert_agent in H. inv_stmt. frame_tac Hok.
  destruct so_agents0 as [K1 K2]. split.
  - apply NoDup_map_snoc; [done|]. intros Hin%has_agent_true. congruence.
  - simpl. apply Forall_app. split; [done|]. constructor; [|done].
    rewrite !persisted_parse. split_and!; [by apply has_channel_true|done..].
Qed.

Lemma upsert_member_ok m : stmt_preserves schema_ok (upsert_member m).
Proof.
  intros db db' [] Hok H. unfold upsert_member in H. inv_stmt; frame_tac Hok;
    destruct so_members0 as [K1 K2]; split; simpl.
  - by rewrite (map_update_where member_key).
  - apply Forall_update_where; [done|]. intros x _ (? & ? & _). by split_and!.
  - apply NoDup_map_snoc; [done|]. intros (x & Hx & Hin)%list_elem_of_fmap.
    rewrite exists_row_false in Hif. specialize (Hif x Hin).
    unfold member_key in Hx. injection Hx as E1 E2. unfold is_member in Hif.
    by rewrite E1, E2, !N.eqb_refl in Hif.
  - apply Forall_app. split; [done|]. constructor; [|done].
    split_and!; [by apply has_channel_true|by apply has_agent_true|done].
Qed.

Lemma insert_message_ok id c a role content now :
  stmt_preserves schema_ok (insert_message id c a role content now).
Proof.
  intros db db' row Hok H. unfold insert_message in H. inv_stmt. frame_tac Hok.
  destruct so_messages0 as (K1 & K2 & K3). split_and!.
  - apply NoDup_map_snoc; [done|]. intros Hin%has_message_true. simpl in Hin. congruence.
  - simpl. apply NoDup_map_snoc; [done|]. intros (x & [= E1 E2] & Hin)%list_elem_of_fmap.
    assert (mr_seq x ≤ max_key mr_seq (bfilter (λ r, mr_channel_id r =? c)%N (messages db))) as Hle.
    { apply max_key_ge. apply elem_of_bfilter. split; [done|]. by rewrite <- E1, N.eqb_refl. }
    lia.
  - simpl. apply Forall_app. split; [done|]. constructor; [|done].
    split; [by apply has_channel_true|]. by apply persisted_parse.
Qed.

Lemma insert_delivery_ok r : stmt_preserves schema_ok (insert_delivery r).
Proof.
  intros db db' [] Hok H. unfold insert_delivery in H. inv_stmt. frame_tac Hok.
  destruct so_deliveries0 as (K1 & K2 & K3).
  rewrite exists_row_false in Hguard0. unfold delivery_conflict in Hguard0. split_and!; simpl.
  - apply NoDup_map_snoc; [done|]. intros (x & Hx & Hin)%list_elem_of_fmap.
    specialize (Hguard0 x Hin). bsimp. by rewrite <- Hx, N.eqb_refl in *.
  - apply NoDup_map_snoc; [done|]. intros (x & [= E1 E2] & Hin)%list_elem_of_fmap.
    specialize (Hguard0 x Hin). bsimp. by rewrite <- E1, <- E2, !N.eqb_refl in *.
  - apply Forall_app. split; [done|]. constructor; [|done].
    split_and!; [by apply has_agent_true|by apply has_channel_true|by apply has_message_true|].
    by apply persisted_parse.
Qed.

Lemma insert_delivery_or_ignore_ok r : stmt_preserves schema_ok (insert_delivery_or_ignore r).
Proof.
  intros db db' [] Hok H. unfold insert_delivery_or_ignore in H.
  destruct (_ || _); [by simplify_eq|]. by eapply insert_delivery_ok.
Qed.

Lemma upsert_cursor_ok a s now : stmt_preserves schema_ok (upsert_cursor a s now).
Proof.
  intros db db' [] Hok H. unfold upsert_cursor in H. inv_stmt; frame_tac Hok;
    destruct so_inbox0 as [K1 K2]; split; simpl.
  - by rewrite (map_update_where ir_agent_id).
  - by apply Forall_update_where.
  - apply NoDup_map_snoc; [done|].
    intros Hin%(exists_row_key ir_agent_id (λ j, (j =? a)%N) _ a (λ j, N.eqb_eq j a)).
    congruence.
  - apply Forall_app. split; [done|]. constructor; [|done]. by apply has_agent_true.
Qed.

Lemma upsert_working_ok s : stmt_preserves schema_ok (upsert_working s).
Proof.
  intros db db' [] Hok H. unfold upsert_working in H. inv_stmt; frame_tac Hok;
    destruct so_working0 as [K1 K2]; split; simpl.
  - by rewrite (map_update_where wst_agent_id).
  - by apply Forall_update_where.
  - apply NoDup_map_snoc; [done|].
    intros Hin%(exists_row_key wst_agent_id (λ j, (j =? wst_agent_id s)%N) _ _
                  (λ j, N.eqb_eq j (wst_agent_id s))).
    congruence.
  - apply Forall_app. split; [done|]. constructor; [|done]. by apply has_agent_true.
Qed.

Lemma insert_task_ok id c m title a t1 t2 :
  stmt_preserves schema_ok (insert_task id c m title a t1 t2).
Proof.
  intros db db' i Hok H. unfold insert_task in H. inv_stmt. frame_tac Hok.
  destruct so_tasks0 as (K1 & K2 & K3).
  rewrite exists_row_false in Hguard. split_and!; simpl.
  - apply NoDup_map_snoc; [done|]. intros (x & Hx & Hin)%list_elem_of_fmap. simpl in Hx.
    specialize (Hguard x Hin). bsimp. by rewrite <- Hx, N.eqb_refl in *.
  - apply NoDup_map_snoc; [done|]. intros (x & [= E1 E2] & Hin)%list_elem_of_fmap.
    assert (tcol_task_number x ≤
            max_key tcol_task_number (bfilter (in_channel c) (tasks db))) as Hle.
    { apply max_key_ge. apply elem_of_bfilter. split; [done|].
      unfold in_channel. by rewrite <- E1, N.eqb_refl. }
    lia.
  - apply Forall_app. split; [done|]. constructor; [|done].
    split; [by apply has_channel_true|]. by exists Todo.
Qed.

Lemma insert_dependency_or_ignore_ok d :
  stmt_preserves schema_ok (insert_dependency_or_ignore d).
Proof.
  intros db db' [] Hok H. unfold insert_dependency_or_ignore in H. inv_stmt; [done|].
  frame_tac Hok. destruct so_dependencies0 as [K1 K2]. split; simpl.
  - apply NoDup_map_snoc; [done|]. intros (x & [= E1 E2 E3] & Hin)%list_elem_of_fmap.
    match goal with H : exists_row _ _ = false |- _ =>
      rewrite exists_row_false in H; specialize (H x Hin) end.
    unfold is_dependency in *. by rewrite E1, E2, E3, N.eqb_refl, !Z.eqb_refl in *.
  - apply Forall_app. split; [done|]. constructor; [|done].
    split_and!; [done|by apply has_task_true..].
Qed.

#[export] Hint Resolve insert_channel_ok insert_channel_or_nothing_ok insert_agent_ok
  upsert_member_ok insert_message_ok insert_delivery_ok insert_delivery_or_ignore_ok
  upsert_cursor_ok upsert_working_ok insert_task_ok insert_dependency_or_ignore_ok : cocli.

(** ** Updates *)

Definition keeps {A K} (key : A → K) (f : A → A) : Prop := ∀ x, key (f x) = key x.

Lemma update_deliveries_ok (p : DB → DeliveryRow → bool) (f : DeliveryRow → DeliveryRow) :
  keeps dr_id f → keeps queue_key f → keeps dr_channel_id f →
  (∀ r, persisted DeliveryState (dr_state r) → persisted DeliveryState (dr_state (f r))) →
  stmt_preserves schema_ok (sql_update delivery_queue with_deliveries p f).
Proof.
  intros Hid Hkey Hch Hst db db' n Hok [= <- _]. frame_tac Hok.
  destruct so_deliveries0 as (K1 & K2 & K3). split_and!; simpl.
  - by rewrite (map_update_where dr_id).
  - by rewrite (map_update_where queue_key).
  - apply Forall_update_where; [done|]. intros r _ (Ha & Hc & Hm & Hs).
    specialize (Hkey r). injection Hkey as Ka Km. rewrite Ka, Km, (Hch r).
    split_and!; [done..|by apply Hst].
Qed.

Lemma update_channels_ok (p : DB → Channel → bool) (f : Channel → Channel) :
  keeps ch_id f → keeps ch_kind f → stmt_preserves schema_ok (sql_update channels with_channels p f).
Proof.
  intros Hid Hk db db' n Hok [= <- _]. frame_tac Hok.
  destruct so_channels0 as [K1 K2]. split.
  - unfold channel_ids in *. simpl. by rewrite (map_update_where ch_id).
  - simpl. apply Forall_update_where; [done|]. intros c _. by rewrite Hk.
Qed.

Lemma update_agents_ok (p : DB → AgentRow → bool) (f : AgentRow → AgentRow) :
  keeps ar_id f → keeps ar_channel_id f →
  (∀ r, persisted AgentStatus (ar_status r) → persisted AgentStatus (ar_status (f r))) →
  (∀ r, persisted AgentLifecycleStatus (ar_lifecycle_status r) →
        persisted AgentLifecycleStatus (ar_lifecycle_status (f r))) →
  stmt_preserves schema_ok (sql_update agents with_agents p f).
Proof.
  intros Hid Hch Hs Hl db db' n Hok [= <- _]. frame_tac Hok.
  destruct so_agents0 as [K1 K2]. split.
  - unfold agent_ids in *. simpl. by rewrite (map_update_where ar_id).
  - simpl. apply Forall_update_where; [done|]. intros r _ (? & ? & ?). rewrite Hch. auto.
Qed.

Lemma update_agent_channel_ok c p : stmt_preserves schema_ok (update_agent_channel c p).
Proof.
  intros db db' n Hok H. unfold update_agent_channel in H.
  destruct (exists_row p (agents db)); [|by simplify_eq].
  destruct c as [c|]; [|done]. inv_stmt. frame_tac Hok.
  destruct so_agents0 as [K1 K2]. split.
  - unfold agent_ids in *. simpl. by rewrite (map_update_where ar_id).
  - simpl. apply Forall_update_where; [done|]. intros r _ (_ & ? & ?). simpl.
    by split_and!; [apply has_channel_true| |].
Qed.

Lemma update_tasks_ok (p : DB → TaskColumns → bool) (f : TaskColumns → TaskColumns) :
  keeps tcol_id f → keeps task_key f →
  (∀ t, persisted TaskStatus (tcol_status t) → persisted TaskStatus (tcol_status (f t))) →
  stmt_preserves schema_ok (sql_update tasks with_tasks p f).
Proof.
  intros Hid Hk Hs db db' n Hok [= <- _]. frame_tac Hok.
  destruct so_tasks0 as (K1 & K2 & K3). split_and!.
  - simpl. by rewrite (map_update_where tcol_id).
  - unfold task_keys in *. simpl. by rewrite (map_update_where task_key).
  - simpl. apply Forall_update_where; [done|]. intros t _ [? ?].
    specialize (Hk t). injection Hk as -> _. auto.
Qed.

(** *** Workspaces *)

Lemma insert_workspace_row_ok r : stmt_preserves schema_ok (insert_workspace_row r).
Proof.
  intros db db' [] Hok H. unfold insert_workspace_row in H. inv_stmt. frame_tac Hok.
  destruct so_workspaces0 as (K1 & K2 & K3 & K4 & K5). split_and!; simpl; [|done|done|..].
  - apply NoDup_map_snoc; [done|]. intros Hin%(has_workspace_true db). congruence.
  - eapply Forall_impl; [exact K4|]. rewrite map_app. set_solver.
  - eapply Forall_impl; [exact K5|]. rewrite map_app. set_solver.
Qed.

Lemma is_attachment_true w t s r : is_attachment w t s r = true ↔ attachment_key r = (w, t, s).
Proof.
  unfold is_attachment, attachment_key. rewrite !andb_true_iff, !N.eqb_eq, str_eqb_eq.
  split; [by intros [[<- <-] <-]|by intros [= <- <- <-]].
Qed.

Lemma is_binding_true w i r : is_binding w i r = true ↔ binding_key r = (w, i).
Proof.
  unfold is_binding, binding_key. rewrite !andb_true_iff, !N.eqb_eq, str_eqb_eq.
  split; [by intros [<- <-]|by intros [= <- <-]].
Qed.

Lemma upsert_attachment_ok w t s role now :
  stmt_preserves schema_ok (upsert_attachment w t s role now).
Proof.
  intros db db' o Hok H. unfold upsert_attachment in H.
  destruct (_ && _) eqn:Hj in H; [|by simplify_eq].
  destruct (bfilter _ _) as [|old l] eqn:Hf; simplify_eq; frame_tac Hok;
    destruct so_workspaces0 as (K1 & K2 & K3 & K4 & K5);
    unfold workspaces_ok; split_and!; simpl; try done.
  - apply NoDup_map_snoc; [done|]. intros (x & Hx & Hin)%list_elem_of_fmap.
    assert (x ∈ bfilter (is_attachment w (as_str t) s) (db_attachments db)) as E.
    { apply elem_of_bfilter. split; [done|]. by apply is_attachment_true. }
    rewrite Hf in E. set_solver.
  - apply Forall_app. split; [done|]. constructor; [|constructor]. simpl.
    apply andb_true_iff in Hj as [Hw%has_workspace_true _]. split; [done|]. by exists t.
  - by rewrite (map_update_where attachment_key).
  - by apply Forall_update_where.
Qed.

Lemma upsert_binding_ok w i loc sec : stmt_preserves schema_ok (upsert_binding w i loc sec).
Proof.
  intros db db' [] Hok H. unfold upsert_binding in H. inv_stmt; frame_tac Hok;
    destruct so_workspaces0 as (K1 & K2 & K3 & K4 & K5);
    unfold workspaces_ok; split_and!; simpl; try done.
  - by rewrite (map_update_where binding_key).
  - apply Forall_update_where; [done|]. intros r _ [Hr _]. split; [done|]. by exists Resolving.
  - apply NoDup_map_snoc; [done|]. intros (x & Hx & Hin)%list_elem_of_fmap.
    apply (proj1 (exists_row_false _ _) Hif) in Hin.
    by rewrite (proj2 (is_binding_true w i x)) in Hin.
  - apply Forall_app. split; [done|]. constructor; [|constructor]. simpl.
    split; [by apply has_workspace_true|]. by exists Resolving.
Qed.

Lemma update_workspaces_ok p f :
  (∀ r, wsr_id (f r) = wsr_id r) →
  stmt_preserves schema_ok (sql_update db_workspaces with_workspaces p f).
Proof.
  intros Hid db db' n Hok [= <- _]. frame_tac Hok.
  destruct so_workspaces0 as (K1 & K2 & K3 & K4 & K5). unfold workspaces_ok. simpl.
  by rewrite (map_update_where wsr_id).
Qed.

Lemma update_bindings_ok p f :
  (∀ r, binding_key (f r) = binding_key r) →
  (∀ r, persisted WorkspaceBindingState (wbr_state (f r))) →
  stmt_preserves schema_ok (sql_update db_bindings with_bindings p f).
Proof.
  intros Hk Hs db db' n Hok [= <- _]. frame_tac Hok.
  destruct so_workspaces0 as (K1 & K2 & K3 & K4 & K5). unfold workspaces_ok. simpl.
  rewrite (map_update_where binding_key) by done. split_and!; try done.
  apply Forall_update_where; [done|]. intros r _ [? _]. specialize (Hk r).
  injection Hk as -> _. auto.
Qed.

(** ** Deletions *)

Lemma Forall_delete_where {A} (Q : A → Prop) p l : Forall Q l → Forall Q (delete_where p l).
Proof. rewrite !Forall_forall. intros H x [Hx _]%elem_of_delete_where. auto. Qed.

Lemma delete_deliveries_ok p :
  stmt_preserves schema_ok (sql_delete delivery_queue with_deliveries p).
Proof.
  intros db db' n Hok [= <- _]. frame_tac Hok. destruct so_deliveries0 as (K1 & K2 & K3).
  split_and!; simpl; [by apply NoDup_delete_where..|by apply Forall_delete_where].
Qed.

Lemma delete_members_ok p : stmt_preserves schema_ok (sql_delete channel_agents with_members p).
Proof.
  intros db db' n Hok [= <- _]. frame_tac Hok. destruct so_members0 as [K1 K2].
  split; simpl; [by apply NoDup_delete_where|by apply Forall_delete_where].
Qed.

Lemma delete_working_ok p : stmt_preserves schema_ok (sql_delete agent_working_state with_working p).
Proof.
  intros db db' n Hok [= <- _]. frame_tac Hok. destruct so_working0 as [K1 K2].
  split; simpl; [by apply NoDup_delete_where|by apply Forall_delete_where].
Qed.

Lemma delete_dependencies_ok p :
  stmt_preserves schema_ok (sql_delete task_dependencies with_dependencies p).
Proof.
  intros db db' n Hok [= <- _]. frame_tac Hok. destruct so_dependencies0 as [K1 K2].
  split; simpl; [by apply NoDup_delete_where|by apply Forall_delete_where].
Qed.

Lemma delete_attachments_ok p :
  stmt_preserves schema_ok (sql_delete db_attachments with_attachments p).
Proof.
  intros db db' n Hok [= <- _]. frame_tac Hok.
  destruct so_workspaces0 as (K1 & K2 & K3 & K4 & K5). unfold workspaces_ok. simpl.
  split_and!; try done; [by apply NoDup_delete_where|by apply Forall_delete_where].
Qed.

Lemma delete_workspace_row_ok w : stmt_preserves schema_ok (delete_workspace_row w).
Proof.
  intros db db' n Hok [= <- _]. frame_tac Hok.
  destruct so_workspaces0 as (K1 & K2 & K3 & K4 & K5). unfold workspaces_ok. simpl.
  assert (∀ id : Uuid, id ∈ map wsr_id (workspaces (workspace_tables db)) → (id =? w)%N = false →
    id ∈ map wsr_id (delete_where (λ r, wsr_id r =? w)%N (workspaces (workspace_tables db)))) as Hs.
  { intros id (r & -> & Hr)%list_elem_of_fmap Hn. apply list_elem_of_fmap. exists r.
    split; [done|]. by apply elem_of_delete_where. }
  split_and!; [by apply NoDup_delete_where..| |].
  - apply Forall_forall. intros r [Hr Hn]%elem_of_delete_where.
    rewrite Forall_forall in K4. destruct (K4 r Hr). auto.
  - apply Forall_forall. intros r [Hr Hn]%elem_of_delete_where.
    rewrite Forall_forall in K5. destruct (K5 r Hr). auto.
Qed.

#[export] Hint Resolve insert_workspace_row_ok upsert_attachment_ok upsert_binding_ok
  delete_attachments_ok delete_workspace_row_ok : cocli.
#[export] Hint Resolve delete_deliveries_ok delete_members_ok delete_working_ok
  delete_dependencies_ok update_agent_channel_ok : cocli.

(** A cascade keeps the rows that satisfy [p] and rewrites their nullable references. *)
Lemma map_keys_cascade {A K} (key : A → K) (g : A → A) (l : list A) :
  keeps key g → map key (map g l) = map key l.
Proof. intros H. rewrite map_map. apply map_ext, H. Qed.

Lemma NoDup_cascade {A K} (key : A → K) (g : A → A) p (l : list A) :
  keeps key g → NoDup (map key l) → NoDup (map key (map g (delete_where p l))).
Proof. intros Hg H. rewrite map_keys_cascade by done. by apply NoDup_delete_where. Qed.

Lemma Forall_cascade {A} (Q Q' : A → Prop) (g : A → A) p (l : list A) :
  Forall Q l → (∀ x, x ∈ l → p x = false → Q x → Q' (g x)) →
  Forall Q' (map g (delete_where p l)).
Proof.
  rewrite !Forall_forall. intros HQ Hg y (x & -> & [Hx Hp]%elem_of_delete_where)%list_elem_of_fmap.
  auto.
Qed.

Lemma Forall_kept {A} (Q Q' : A → Prop) p (l : list A) :
  Forall Q l → (∀ x, x ∈ l → p x = false → Q x → Q' x) → Forall Q' (delete_where p l).
Proof. rewrite !Forall_forall. intros HQ Hg x [Hx Hp]%elem_of_delete_where. auto. Qed.

(** A key survives a deletion that spares it. *)
Lemma key_survives {A K} (key : A → K) (g : A → A) (p : A → bool) (l : list A) (k : K) :
  keeps key g → k ∈ map key l → (∀ x, x ∈ l → key x = k → p x = false) →
  k ∈ map key (map g (delete_where p l)).
Proof.
  intros Hg (x & -> & Hx)%list_elem_of_fmap Hp. rewrite map_keys_cascade by done.
  apply list_elem_of_fmap. exists x. split; [done|]. apply elem_of_delete_where. auto.
Qed.

Lemma agent_survives dead db a :
  a ∈ agent_ids db → dead a = false → a ∈ agent_ids (delete_agents dead db).
Proof. intros Ha Hd. apply key_survives; [done|done|]. by intros x _ ->. Qed.

(** *** The history and the installs of deleted agents *)

Lemma sublist_omap {A B} (f : A → option B) (l k : list A) :
  l `sublist_of` k → omap f l `sublist_of` omap f k.
Proof. induction 1; simpl; [constructor| |]; destruct (f x); by try constructor. Qed.

Lemma NoDup_omap_delete_where {A B} (f : A → option B) p (l : list A) :
  NoDup (omap f l) → NoDup (omap f (delete_where p l)).
Proof. intros H. eapply sublist_NoDup; [exact H|]. apply sublist_omap, delete_where_sublist. Qed.

Lemma omap_map_keeps {A K} (key : A → option K) (g : A → A) (l : list A) :
  keeps key g → omap key (map g l) = omap key l.
Proof.
  intros Hg. induction l as [|x l IH]; [done|]. simpl. rewrite (Hg x).
  destruct (key x); [f_equal|]; exact IH.
Qed.

Lemma null_or_in_mono ids ids' o : ids ⊆ ids' → null_or_in ids o → null_or_in ids' o.
Proof. unfold null_or_in. set_solver. Qed.

Lemma null_or_in_forget (ids ids' : list Uuid) dead o :
  (∀ id, id ∈ ids → dead id = false → id ∈ ids') →
  null_or_in ids o → null_or_in ids' (forget dead o).
Proof.
  unfold null_or_in, forget. intros Hs Ho id. destruct o as [j|]; [|done].
  destruct (dead j) eqn:E; [done|]. intros [= <-]. auto.
Qed.

Lemma null_or_in_same (ids : list Uuid) dead o :
  null_or_in ids o → null_or_in ids (forget dead o).
Proof. by apply null_or_in_forget. Qed.

Lemma delete_agent_history_ok A A' dead t :
  (∀ a, a ∈ A → dead a = false → a ∈ A') →
  history_ok A t → history_ok A' (delete_agent_history dead t).
Proof.
  intros HA []. unfold delete_agent_history.
  set (dead_session := λ id : Uuid, exists_row _ _).
  assert (∀ id : Uuid, id ∈ session_ids t → dead_session id = false →
    id ∈ map sn_id (map (forget_in_session none_dead dead_session)
                      (delete_where (λ r, dead (sn_agent_id r)) (agent_sessions t)))) as Hs.
  { intros id Hid Hd. apply key_survives; [done|done|]. intros r Hr <-.
    apply (proj1 (exists_row_false _ _) Hd) in Hr. by rewrite N.eqb_refl in Hr. }
  clearbody dead_session. split; cbn [agent_sessions agent_turns agent_activity
    agent_bridge_tokens agent_operations]; try by apply NoDup_delete_where.
  - by apply NoDup_cascade.
  - eapply Forall_cascade; [exact ho_sessions0|]. intros r _ Hd (? & ? & ?).
    split_and!; [by apply HA|by eapply null_or_in_forget..].
  - by apply NoDup_omap_delete_where.
  - eapply Forall_kept; [exact ho_turns0|]. auto.
  - by apply NoDup_cascade.
  - eapply Forall_cascade; [exact ho_activity0|]. intros r _ Hd [? ?].
    split; [by apply HA|by eapply null_or_in_forget].
  - eapply Forall_kept; [exact ho_tokens0|]. auto.
  - by apply NoDup_omap_delete_where.
  - eapply Forall_kept; [exact ho_operations0|]. auto.
Qed.

Lemma forget_channel_history_ok A dead dead_message t :
  history_ok A t → history_ok A (forget_channel_history dead dead_message t).
Proof.
  intros []. unfold forget_channel_history.
  split; unfold session_ids in *; cbn [agent_sessions agent_turns agent_activity
    agent_bridge_tokens agent_operations];
    try (rewrite (map_keys_cascade sn_id) by done);
    try (by rewrite map_keys_cascade); try (by rewrite omap_map_keeps);
    try done; try by apply Forall_map.
  apply Forall_map. eapply Forall_impl; [exact ho_sessions0|]. intros r (? & ? & ?).
  split_and!; [done|by apply null_or_in_same..].
Qed.

Lemma delete_agent_installs_ok A A' dead t :
  (∀ a, a ∈ A → dead a = false → a ∈ A') →
  skills_ok A t → skills_ok A' (delete_agent_installs dead t).
Proof.
  intros HA []. split; try done; cbn [agent_skill_installs delete_agent_installs];
    try by apply NoDup_delete_where.
  eapply Forall_kept; [exact ko_installs0|]. intros r _ Hd [? ?]. auto.
Qed.

Lemma delete_agents_ok dead db : schema_ok db → schema_ok (delete_agents dead db).
Proof.
  intros []. split.
  - destruct so_channels0 as [K1 K2]. split.
    + unfold channel_ids. simpl. by rewrite (map_keys_cascade ch_id).
    + simpl. by apply Forall_map.
  - destruct so_agents0 as [K1 K2]. split.
    + by apply NoDup_cascade.
    + simpl. eapply Forall_cascade; [exact K2|]. intros r _ _ (? & ? & ?).
      split_and!; [|done..]. unfold channel_ids. simpl. by rewrite (map_keys_cascade ch_id).
  - destruct so_members0 as [K1 K2]. split; simpl.
    + by apply NoDup_cascade.
    + eapply Forall_cascade; [exact K2|]. intros m _ Hd (? & ? & ?).
      split_and!; [|by apply agent_survives|done].
      unfold channel_ids. simpl. by rewrite (map_keys_cascade ch_id).
  - destruct so_messages0 as (K1 & K2 & K3). split_and!.
    + unfold message_ids. simpl. by rewrite (map_keys_cascade mr_id).
    + simpl. by rewrite (map_keys_cascade seq_key).
    + simpl. apply Forall_map. unfold channel_ids. simpl. by rewrite (map_keys_cascade ch_id).
  - destruct so_deliveries0 as (K1 & K2 & K3). split_and!; simpl.
    + by apply NoDup_delete_where.
    + by apply NoDup_delete_where.
    + eapply Forall_kept; [exact K3|]. intros r _ Hd (? & ? & ? & ?).
      unfold channel_ids, message_ids. simpl.
      rewrite (map_keys_cascade ch_id), (map_keys_cascade mr_id) by done.
      by split_and!; [apply agent_survives|..].
  - destruct so_inbox0 as [K1 K2]. split; simpl; [by apply NoDup_delete_where|].
    eapply Forall_kept; [exact K2|]. intros r _ Hd Hr. by apply agent_survives.
  - destruct so_working0 as [K1 K2]. split; simpl; [by apply NoDup_delete_where|].
    eapply Forall_kept; [exact K2|]. intros r _ Hd Hr. by apply agent_survives.
  - destruct so_tasks0 as (K1 & K2 & K3). split_and!.
    + simpl. by rewrite (map_keys_cascade tcol_id).
    + unfold task_keys. simpl. by rewrite (map_keys_cascade task_key).
    + simpl. apply Forall_map. unfold channel_ids. simpl. by rewrite (map_keys_cascade ch_id).
  - destruct so_dependencies0 as [K1 K2]. split; [done|].
    unfold task_keys. simpl. by rewrite (map_keys_cascade task_key).
  - done.
  - done.
  - eapply delete_agent_history_ok; [|done]. by apply agent_survives.
  - eapply delete_agent_installs_ok; [|done]. by apply agent_survives.
  - done.
  - done.
Qed.

Lemma channel_survives dead db c :
  c ∈ channel_ids db → dead c = false → c ∈ channel_ids (delete_channel_rows dead db).
Proof. intros Hc Hd. apply key_survives; [done|done|]. by intros x _ ->. Qed.

Lemma message_in_true dead db id :
  message_in dead db id = false → ∀ r, r ∈ messages db → mr_id r = id → dead (mr_channel_id r) = false.
Proof.
  unfold message_in. rewrite exists_row_false. intros H r Hr <-. specialize (H r Hr).
  by rewrite N.eqb_refl in H.
Qed.

Lemma task_survives dead db c n :
  (c, n) ∈ task_keys db → dead c = false → (c, n) ∈ task_keys (delete_channel_rows dead db).
Proof.
  intros Hc Hd. apply key_survives; [done|done|]. by intros x _ [= -> _].
Qed.

(** No agent of the database has a deleted default channel. *)
Lemma delete_channel_rows_ok dead db :
  (∀ r, r ∈ agents db → dead (ar_channel_id r) = false) →
  schema_ok db → schema_ok (delete_channel_rows dead db).
Proof.
  intros Hspare []. split.
  - destruct so_channels0 as [K1 K2]. split.
    + by apply NoDup_cascade.
    + simpl. eapply Forall_cascade; [exact K2|]. done.
  - destruct so_agents0 as [K1 K2]. split.
    + unfold agent_ids. simpl. by rewrite (map_keys_cascade ar_id).
    + simpl. apply Forall_map, Forall_forall. intros r Hr. rewrite Forall_forall in K2.
      destruct (K2 r Hr) as (? & ? & ?).
      split_and!; [apply channel_survives; [done|exact (Hspare r Hr)]|done|done].
  - destruct so_members0 as [K1 K2]. split; simpl.
    + by apply NoDup_cascade.
    + eapply Forall_cascade; [exact K2|]. intros m _ Hd (? & ? & ?).
      split_and!; [by apply channel_survives| |done].
      unfold agent_ids. simpl. by rewrite (map_keys_cascade ar_id).
  - destruct so_messages0 as (K1 & K2 & K3). split_and!; simpl.
    + by apply NoDup_delete_where.
    + by apply NoDup_delete_where.
    + eapply Forall_kept; [exact K3|]. intros r _ Hd [? ?]. split; [|done].
      by apply channel_survives.
  - destruct so_deliveries0 as (K1 & K2 & K3). split_and!; simpl.
    + by apply NoDup_delete_where.
    + by apply NoDup_delete_where.
    + eapply Forall_kept; [exact K3|]. intros r _ Hd (? & ? & Hm & ?). bsimp. split_and!.
      * unfold agent_ids. simpl. by rewrite (map_keys_cascade ar_id).
      * by apply channel_survives.
      * apply list_elem_of_fmap in Hm as (x & Hx & Hin). apply list_elem_of_fmap. exists x.
        split; [done|]. apply elem_of_delete_where. split; [done|].
        by eapply message_in_true.
      * done.
  - destruct so_inbox0 as [K1 K2]. split; [done|]. simpl.
    unfold agent_ids. simpl. by rewrite (map_keys_cascade ar_id).
  - destruct so_working0 as [K1 K2]. split; [done|]. simpl.
    unfold agent_ids. simpl. by rewrite (map_keys_cascade ar_id).
  - destruct so_tasks0 as (K1 & K2 & K3). split_and!.
    + simpl. by apply NoDup_cascade.
    + by apply (NoDup_cascade task_key).
    + simpl. eapply Forall_cascade; [exact K3|]. intros t _ Hd [? ?]. split; [|done].
      by apply channel_survives.
  - destruct so_dependencies0 as [K1 K2]. split; simpl; [by apply NoDup_delete_where|].
    eapply Forall_kept; [exact K2|]. intros d _ Hd (? & ? & ?).
    split_and!; [done|by apply task_survives..].
  - done.
  - done.
  - unfold agent_ids. simpl. rewrite (map_keys_cascade ar_id) by done.
    by apply forget_channel_history_ok.
  - unfold agent_ids. simpl. by rewrite (map_keys_cascade ar_id).
  - done.
  - done.
Qed.

Lemma delete_channels_ok dead db : schema_ok db → schema_ok (delete_channels dead db).
Proof.
  intros H. apply delete_channel_rows_ok; [|by apply delete_agents_ok].
  intros r (x & -> & [Hx Hp]%elem_of_delete_where)%list_elem_of_fmap. simpl.
  unfold agent_in in Hp. rewrite exists_row_false in Hp. specialize (Hp x Hx).
  by rewrite N.eqb_refl in Hp.
Qed.
