(* ===== verification/StoreAgents.v ===== *)
(** * Channels, agents and memberships

    [crates/cocli-store/src/lib.rs]: the operations of [Store] on channels, agents and
    channel memberships, each a program of the [StoreDb] monad with the statements, the
    transactions and the errors of the source. *)
From S2P Require Import Prelude StoreTypes StoreDb StoreSchema.

(** [row.map(decode).transpose()]. *)
Definition transpose {A B} (decode : A → result B StoreError) (o : option A) : M (option B) :=
  match o with
  | None => ret None
  | Some row => lift (rbind (decode row) (λ b, Ok (Some b)))
  end.

(** [ORDER BY created_at, id] on channels and agents, [ORDER BY joined_at, channel_id] and
    [ORDER BY joined_at, agent_id] on memberships. *)
Definition channel_cmp : Channel → Channel → comparison :=
  on_cmp (λ c, (ch_created_at c, ch_id c)) (pair_cmp Z.compare N.compare).
Definition agent_cmp : AgentRow → AgentRow → comparison :=
  on_cmp (λ r, (ar_created_at r, ar_id r)) (pair_cmp Z.compare N.compare).
Definition joined_cmp : ChannelAgent → ChannelAgent → comparison :=
  on_cmp (λ m, (ca_joined_at m, ca_channel_id m)) (pair_cmp Z.compare N.compare).
Definition member_cmp : ChannelAgent → ChannelAgent → comparison :=
  on_cmp (λ m, (ca_joined_at m, ca_agent_id m)) (pair_cmp Z.compare N.compare).

(** ** Channels *)

Definition create_channel (name : string) : M Channel :=
  let! id := new_v4 in
  let! now := utc_now in
  let channel := mkChannel id name None None "standard" false None None None now in
  execute (insert_channel channel) ;;
  ret channel.

Definition get_channel (channel_id : Uuid) : M (option Channel) :=
  fetch_optional (λ db, bfilter (λ c, ch_id c =? channel_id)%N (channels db)).

Definition update_channel_profile (channel_id : Uuid) (description goal : option string)
    : M (option Channel) :=
  execute (sql_update channels with_channels (λ _ c, ch_id c =? channel_id)%N (λ c,
    mkChannel (ch_id c) (ch_name c) description goal (ch_kind c) (ch_is_system c)
      (ch_direct_agent_id c) (ch_created_by_agent_id c) (ch_created_by_channel_id c)
      (ch_created_at c))) ;;
  get_channel channel_id.

Definition list_channels : M (list Channel) :=
  fetch (λ db, sort_by channel_cmp (channels db)).

Definition get_channel_by_name (name : string) : M (option Channel) :=
  fetch_optional (λ db,
    sort_by channel_cmp (bfilter (λ c, str_eqb (ch_name c) name) (channels db))).

(** ** Memberships *)

Definition delivery_policy_for_status (status : AgentStatus) : string :=
  match status with Running => "subscribed" | Stopped => "muted" end.

(** [insert_channel_agent_membership] with its [MembershipInsert]. *)
Definition insert_channel_agent_membership (m : ChannelAgent) : M unit :=
  execute (upsert_member m).

Definition get_channel_agent (channel_id agent_id : Uuid) : M (option ChannelAgent) :=
  fetch_optional (λ db, bfilter (is_member channel_id agent_id) (channel_agents db)).

(** [UPDATE agents SET channel_id = COALESCE(channel_id, ?) WHERE id = ?]. *)
Definition default_agent_channel (channel_id agent_id : Uuid) : DB → result (DB * Z) SqlError :=
  sql_update agents with_agents (λ _ r, ar_id r =? agent_id)%N (λ r,
    mkAgentRow (ar_id r) (default channel_id (coalesce (Some (ar_channel_id r)) (Some channel_id)))
      (ar_name r) (ar_description r) (ar_instructions r) (ar_runtime r) (ar_model r) (ar_status r)
      (ar_lifecycle_status r) (ar_created_by_agent_id r) (ar_created_by_channel_id r)
      (ar_created_at r)).

Definition add_agent_to_channel (channel_id agent_id : Uuid) (role delivery_policy : option string)
    (created_by_agent_id created_by_channel_id : option Uuid) : M ChannelAgent :=
  let! now := utc_now in
  let policy := default "subscribed" delivery_policy in
  transaction (
    insert_channel_agent_membership
      (mkChannelAgent channel_id agent_id role policy now created_by_agent_id created_by_channel_id) ;;
    execute (default_agent_channel channel_id agent_id) ;;
    ret tt) ;;
  let! membership := get_channel_agent channel_id agent_id in
  match membership with
  | Some m => ret m
  | None =>
      let! c := uuid_string channel_id in
      let! a := uuid_string agent_id in
      throw (InvalidValue "channel agent membership" (c +:+ "/" +:+ a))
  end.

(** The agent's memberships that satisfy [p], oldest first. *)
Definition memberships_of (agent_id : Uuid) (p : Uuid → bool) (db : DB) : list Uuid :=
  map ca_channel_id (sort_by joined_cmp
    (bfilter (λ m, (ca_agent_id m =? agent_id)%N && p (ca_channel_id m)) (channel_agents db))).

Definition remove_agent_from_channel (channel_id agent_id : Uuid) : M unit :=
  transaction (
    execute (sql_delete channel_agents with_members (is_member channel_id agent_id)) ;;
    let! fallback := fetch_optional (memberships_of agent_id (λ _, true)) in
    execute (update_agent_channel fallback (λ r,
      (ar_id r =? agent_id)%N && (ar_channel_id r =? channel_id)%N)) ;;
    ret tt).

Definition list_agent_channels (agent_id : Uuid) : M (list Channel) :=
  fetch (λ db,
    concat (map (λ m, bfilter (λ c, ch_id c =? ca_channel_id m)%N (channels db))
      (sort_by joined_cmp (bfilter (λ m, ca_agent_id m =? agent_id)%N (channel_agents db))))).

(** ** Agents *)

Definition agent_row (a : Agent) : AgentRow :=
  mkAgentRow (ag_id a) (ag_channel_id a) (ag_name a) (ag_description a) (ag_instructions a)
    (ag_runtime a) (ag_model a) (as_str (ag_status a)) (as_str (ag_lifecycle_status a))
    (ag_created_by_agent_id a) (ag_created_by_channel_id a) (ag_created_at a).

Definition create_agent (channel_id : Uuid) (name runtime : string) (model : option string)
    (status : AgentStatus) : M Agent :=
  let! id := new_v4 in
  let! now := utc_now in
  let agent := mkAgent id channel_id name None None runtime model status Active None
                 (Some channel_id) now in
  transaction (
    execute (insert_agent (agent_row agent)) ;;
    insert_channel_agent_membership
      (mkChannelAgent channel_id (ag_id agent) None (delivery_policy_for_status status) now
         None (Some channel_id))) ;;
  ret agent.

Definition create_standalone_agent (name runtime : string) (model : option string)
    (status : AgentStatus) (created_by_agent_id created_by_channel_id : option Uuid) : M Agent :=
  let! direct_channel_id := new_v4 in
  let! now := utc_now in
  let! id := new_v4 in
  let agent := mkAgent id direct_channel_id name None None runtime model status Active
                 created_by_agent_id created_by_channel_id now in
  let! text := uuid_string id in
  transaction (
    execute (insert_channel (mkChannel direct_channel_id ("direct:" +:+ text) None None "direct"
      true None created_by_agent_id created_by_channel_id now)) ;;
    execute (insert_agent (agent_row agent)) ;;
    insert_channel_agent_membership
      (mkChannelAgent direct_channel_id id (Some "direct") (delivery_policy_for_status status) now
         created_by_agent_id created_by_channel_id) ;;
    execute (sql_update channels with_channels (λ _ c, ch_id c =? direct_channel_id)%N (λ c,
      mkChannel (ch_id c) (ch_name c) (ch_description c) (ch_goal c) (ch_kind c) (ch_is_system c)
        (Some id) (ch_created_by_agent_id c) (ch_created_by_channel_id c) (ch_created_at c))) ;;
    ret tt) ;;
  ret agent.

Definition get_agent (agent_id : Uuid) : M (option Agent) :=
  let! row := fetch_optional (λ db, bfilter (λ r, ar_id r =? agent_id)%N (agents db)) in
  transpose agent_try_from row.

Definition update_agent_profile (agent_id : Uuid) (description instructions : option string)
    : M (option Agent) :=
  execute (sql_update agents with_agents (λ _ r, ar_id r =? agent_id)%N (λ r,
    mkAgentRow (ar_id r) (ar_channel_id r) (ar_name r) description instructions (ar_runtime r)
      (ar_model r) (ar_status r) (ar_lifecycle_status r) (ar_created_by_agent_id r)
      (ar_created_by_channel_id r) (ar_created_at r))) ;;
  get_agent agent_id.

Definition set_agent_status (agent_id : Uuid) (status : AgentStatus) : M (option Agent) :=
  execute (sql_update agents with_agents (λ _ r, ar_id r =? agent_id)%N (λ r,
    mkAgentRow (ar_id r) (ar_channel_id r) (ar_name r) (ar_description r) (ar_instructions r)
      (ar_runtime r) (ar_model r) (as_str status) (ar_lifecycle_status r)
      (ar_created_by_agent_id r) (ar_created_by_channel_id r) (ar_created_at r))) ;;
  get_agent agent_id.

Definition set_agent_lifecycle_status (agent_id : Uuid) (lifecycle : AgentLifecycleStatus)
    : M (option Agent) :=
  execute (sql_update agents with_agents (λ _ r, ar_id r =? agent_id)%N (λ r,
    mkAgentRow (ar_id r) (ar_channel_id r) (ar_name r) (ar_description r) (ar_instructions r)
      (ar_runtime r) (ar_model r) (ar_status r) (as_str lifecycle)
      (ar_created_by_agent_id r) (ar_created_by_channel_id r) (ar_created_at r))) ;;
  get_agent agent_id.

Definition list_agents : M (list Agent) :=
  let! rows := fetch (λ db, sort_by agent_cmp (agents db)) in
  lift (collect_results agent_try_from rows).

Definition list_channel_agents (channel_id : Uuid) : M (list Agent) :=
  let! rows := fetch (λ db,
    concat (map (λ m, bfilter (λ r, ar_id r =? ca_agent_id m)%N (agents db))
      (sort_by member_cmp (bfilter (λ m, ca_channel_id m =? channel_id)%N (channel_agents db))))) in
  lift (collect_results agent_try_from rows).

(** The default channel column, else the oldest membership. *)
Definition default_channel (agent_id : Uuid) (db : DB) : option Uuid :=
  coalesce (ar_channel_id <$> head (bfilter (λ r, ar_id r =? agent_id)%N (agents db)))
    (head (memberships_of agent_id (λ _, true) db)).

Definition default_channel_for_agent (agent_id : Uuid) : M (option Uuid) :=
  fetch (default_channel agent_id).

(** [DELETE FROM subject_workspaces WHERE subject_type = ? AND subject_id = ?]. *)
Definition delete_subject_attachments (subject_type : SubjectType) (subject_id : Uuid) : M Z :=
  execute (sql_delete db_attachments with_attachments (λ r,
    str_eqb (atr_subject_type r) (as_str subject_type) && (atr_subject_id r =? subject_id)%N)).

Definition delete_agent (agent_id : Uuid) : M unit :=
  transaction (
    delete_subject_attachments SubjectAgent agent_id ;;
    execute (λ db, Ok (delete_agents (N.eqb agent_id) db, tt))).

(** ** Direct channels and channel deletion *)

Definition get_direct_channel_for_agent (agent_id : Uuid) : M (option Channel) :=
  fetch_optional (λ db, sort_by channel_cmp (bfilter (λ c,
    str_eqb (ch_kind c) "direct" && bool_decide (ch_direct_agent_id c = Some agent_id))
    (channels db))).

Definition ensure_direct_channel_for_agent (agent_id : Uuid) : M Channel :=
  let! existing := get_direct_channel_for_agent agent_id in
  match existing with
  | Some channel => ret channel
  | None =>
      let! now := utc_now in
      let! id := new_v4 in
      let! text := uuid_string agent_id in
      let channel := mkChannel id ("direct:" +:+ text) None None "direct" true (Some agent_id)
                       None None now in
      transaction (
        execute (insert_channel_or_nothing channel) ;;
        insert_channel_agent_membership
          (mkChannelAgent id agent_id (Some "direct") "subscribed" now None (Some id)) ;;
        execute (default_agent_channel id agent_id) ;;
        ret tt) ;;
      ret channel
  end.

Definition fallback_channel (agent_id channel_id : Uuid) (db : DB) : list Uuid :=
  memberships_of agent_id (λ c, negb (c =? channel_id)%N) db.

(** First loop of [delete_channel]: an agent with no other membership gets its direct channel. *)
Definition ensure_fallback (channel_id agent_id : Uuid) : M unit :=
  let! fallback := fetch_optional (fallback_channel agent_id channel_id) in
  match fallback with
  | None => ensure_direct_channel_for_agent agent_id ;; ret tt
  | Some _ => ret tt
  end.

(** Second loop: the default channel of an affected agent moves to its fallback. *)
Definition move_default (channel_id agent_id : Uuid) : M unit :=
  let! fallback := fetch_optional (fallback_channel agent_id channel_id) in
  match fallback with
  | Some f =>
      execute (update_agent_channel (Some f) (λ r,
        (ar_id r =? agent_id)%N && (ar_channel_id r =? channel_id)%N)) ;;
      ret tt
  | None => ret tt
  end.

Definition delete_channel (channel_id : Uuid) : M unit :=
  let! affected := fetch (λ db,
    map ca_agent_id (bfilter (λ m, ca_channel_id m =? channel_id)%N (channel_agents db))) in
  for_each (ensure_fallback channel_id) affected ;;
  transaction (
    delete_subject_attachments SubjectChannel channel_id ;;
    for_each (move_default channel_id) affected ;;
    execute (λ db, Ok (delete_channels (N.eqb channel_id) db, tt))).

(** ** The schema is preserved *)

Ltac op_preserves :=
  preserves_tac;
  first [ apply update_agents_ok | apply update_channels_ok ];
  first [ by intros [] | intros; assumption | intros; apply persisted_as_str ].

Lemma create_channel_schema name : preserves schema_ok (create_channel name).
Proof. unfold create_channel. preserves_tac. Qed.
Lemma update_channel_profile_schema c d g : preserves schema_ok (update_channel_profile c d g).
Proof. unfold update_channel_profile, get_channel. op_preserves. Qed.
Lemma membership_schema m : preserves schema_ok (insert_channel_agent_membership m).
Proof. unfold insert_channel_agent_membership. preserves_tac. Qed.
Lemma default_agent_channel_schema c a : stmt_preserves schema_ok (default_agent_channel c a).
Proof. apply update_agents_ok; [by intros []..| |]; intros r; simpl; auto. Qed.
#[export] Hint Resolve membership_schema default_agent_channel_schema : cocli.

Lemma add_agent_to_channel_schema c a r p ba bc :
  preserves schema_ok (add_agent_to_channel c a r p ba bc).
Proof. unfold add_agent_to_channel, get_channel_agent. preserves_tac. Qed.
Lemma remove_agent_from_channel_schema c a : preserves schema_ok (remove_agent_from_channel c a).
Proof. unfold remove_agent_from_channel. preserves_tac. Qed.
Lemma create_agent_schema c n r m s : preserves schema_ok (create_agent c n r m s).
Proof. unfold create_agent. preserves_tac. Qed.
Lemma create_standalone_agent_schema n r m s ba bc :
  preserves schema_ok (create_standalone_agent n r m s ba bc).
Proof. unfold create_standalone_agent. op_preserves. Qed.
Lemma get_agent_readonly a : readonly (get_agent a).
Proof.
  intros e w. unfold get_agent, bind, fetch_optional, fetch, execute.
  destruct (env_fault e (w_ctr w)); [done|]. simpl.
  by destruct (head (bfilter _ (agents (w_db w)))).
Qed.
Lemma get_agent_preserves P a : preserves P (get_agent a).
Proof. apply preserves_readonly, get_agent_readonly. Qed.
#[export] Hint Resolve get_agent_preserves : cocli.

Lemma update_agent_profile_schema a d i : preserves schema_ok (update_agent_profile a d i).
Proof. unfold update_agent_profile. op_preserves. Qed.
Lemma set_agent_status_schema a s : preserves schema_ok (set_agent_status a s).
Proof. unfold set_agent_status. op_preserves. Qed.
Lemma set_agent_lifecycle_status_schema a s :
  preserves schema_ok (set_agent_lifecycle_status a s).
Proof. unfold set_agent_lifecycle_status. op_preserves. Qed.
(** Detaching touches one table only. *)
Lemma detach_preserves (P : DB → Prop) t s :
  (∀ f db, P db → P (with_attachments f db)) → preserves P (delete_subject_attachments t s).
Proof. intros H. apply preserves_execute. intros db db' n Hd [= <- _]. auto. Qed.
Lemma detach_ok t s e w w' n :
  delete_subject_attachments t s e w = (w', Ok n) → ∃ f, w_db w' = with_attachments f (w_db w).
Proof. intros (_ & [= <- _] & _)%execute_ok. by eexists. Qed.
Lemma detach_schema t s : preserves schema_ok (delete_subject_attachments t s).
Proof. unfold delete_subject_attachments. preserves_tac. Qed.
#[export] Hint Resolve detach_schema : cocli.

Lemma delete_agent_schema a : preserves schema_ok (delete_agent a).
Proof.
  unfold delete_agent. preserves_tac. intros db db' n H [= <- _]. by apply delete_agents_ok.
Qed.
Lemma ensure_direct_schema a : preserves schema_ok (ensure_direct_channel_for_agent a).
Proof. unfold ensure_direct_channel_for_agent, get_direct_channel_for_agent. preserves_tac. Qed.
#[export] Hint Resolve ensure_direct_schema : cocli.
Lemma delete_channel_schema c : preserves schema_ok (delete_channel c).
Proof.
  unfold delete_channel, ensure_fallback, move_default. preserves_tac.
  intros db db' n H [= <- _]. by apply delete_channels_ok.
Qed.

#[export] Hint Resolve create_channel_schema update_channel_profile_schema
  add_agent_to_channel_schema remove_agent_from_channel_schema create_agent_schema
  create_standalone_agent_schema update_agent_profile_schema set_agent_status_schema
  set_agent_lifecycle_status_schema delete_agent_schema delete_channel_schema : cocli.

(** ** The default channel is one of the agent's channels *)

(** Doc comment of [Agent::channel_id]: "Membership is the source of truth". *)
Definition default_is_member (db : DB) : Prop :=
  ∀ r, r ∈ agents db → (ar_channel_id r, ar_id r) ∈ map member_key (channel_agents db).

Lemma member_key_iff c a db :
  (c, a) ∈ map member_key (channel_agents db) ↔
  exists_row (is_member c a) (channel_agents db) = true.
Proof.
  rewrite exists_row_true, list_elem_of_fmap. unfold member_key, is_member. split.
  - intros (m & [= -> ->] & Hm). exists m. by rewrite !N.eqb_refl.
  - intros (m & Hm & [Ec%N.eqb_eq Ea%N.eqb_eq]%andb_true_iff). exists m. by rewrite Ec, Ea.
Qed.

Lemma elem_of_memberships_of c a p db :
  c ∈ memberships_of a p db ↔ p c = true ∧ (c, a) ∈ map member_key (channel_agents db).
Proof.
  unfold memberships_of. rewrite !list_elem_of_fmap. split.
  - intros (m & -> & [Hm [Ea%N.eqb_eq Hp]%andb_true_iff]%elem_of_sort_by%elem_of_bfilter).
    split; [done|]. exists m. unfold member_key. by rewrite Ea.
  - intros (Hp & m & [= -> ->] & Hm). exists m. split; [done|].
    rewrite elem_of_sort_by, elem_of_bfilter, N.eqb_refl. by rewrite Hp.
Qed.

Lemma head_elem {A} (l : list A) x : head l = Some x → x ∈ l.
Proof. destruct l; [done|]. intros [= ->]. set_solver. Qed.

(** A transaction keeps [P] when its whole body does. *)
Lemma preserves_transaction_body {A} (P : DB → Prop) (m : M A) :
  (∀ e w w' a, P (w_db w) → m e w = (w', Ok a) → P (w_db w')) → preserves P (transaction m).
Proof.
  intros Hm e w Hw. destruct (transaction m e w) as [w' [a|x]] eqn:E; simpl.
  - apply transaction_ok in E as (w1 & E & ->). by eapply Hm in E.
  - by rewrite (transaction_atomic m e w w' x E).
Qed.

(** The effect of the statements on agents and memberships. *)
Lemma upsert_member_keys m db db' :
  upsert_member m db = Ok (db', tt) →
  agents db' = agents db ∧ channels db' = channels db ∧
  ∀ k, k ∈ map member_key (channel_agents db') ↔ k = member_key m ∨ k ∈ map member_key (channel_agents db).
Proof.
  unfold upsert_member. intros H. inv_stmt; split_and!; try done; intros k; simpl.
  - rewrite (map_update_where member_key) by done. split; [auto|]. intros [->|?]; [|done].
    by apply member_key_iff.
  - rewrite map_app. set_solver.
Qed.

Lemma insert_agent_agents r db db' :
  insert_agent r db = Ok (db', tt) →
  agents db' = (agents db ++ [r])%list ∧ channel_agents db' = channel_agents db.
Proof. unfold insert_agent. intros H. by inv_stmt. Qed.

Lemma insert_channel_members c db db' :
  insert_channel c db = Ok (db', tt) →
  agents db' = agents db ∧ channel_agents db' = channel_agents db ∧
  channels db' = (channels db ++ [c])%list.
Proof. unfold insert_channel. intros H. by inv_stmt. Qed.

Lemma update_where_id {A} (p : A → bool) (f : A → A) (l : list A) :
  (∀ x, f x = x) → update_where p f l = l.
Proof.
  intros Hf. unfold update_where. rewrite <- (map_id l) at 2. apply map_ext.
  intros x. rewrite Hf. by destruct (p x).
Qed.

(** [COALESCE(channel_id, ?)] of a [NOT NULL] column changes nothing. *)
Lemma default_agent_channel_id c a db db' n :
  default_agent_channel c a db = Ok (db', n) → db' = db.
Proof.
  unfold default_agent_channel, sql_update, with_agents. intros [= <- _].
  rewrite update_where_id by (by intros []). by destruct db.
Qed.

Lemma upsert_member_default m : stmt_preserves default_is_member (upsert_member m).
Proof.
  intros db db' [] Hd (Ha & _ & Hk)%upsert_member_keys r Hr.
  rewrite Ha in Hr. rewrite Hk. auto.
Qed.

Lemma insert_channel_default c : stmt_preserves default_is_member (insert_channel c).
Proof.
  intros db db' [] Hd (Ha & Hm & _)%insert_channel_members r Hr.
  rewrite Ha in Hr. rewrite Hm. auto.
Qed.

Lemma insert_channel_or_nothing_default c :
  stmt_preserves default_is_member (insert_channel_or_nothing c).
Proof.
  intros db db' [] Hd H. unfold insert_channel_or_nothing in H.
  destruct (_ && _); [by simplify_eq|]. by eapply insert_channel_default.
Qed.

Lemma update_channels_default p f :
  stmt_preserves default_is_member (sql_update channels with_channels p f).
Proof. by intros db db' n Hd [= <- _]. Qed.

Lemma update_agents_default p f :
  keeps ar_id f → keeps ar_channel_id f →
  stmt_preserves default_is_member (sql_update agents with_agents p f).
Proof.
  intros Hi Hc db db' n Hd [= <- _] r (x & Hx & ->)%elem_of_update_where. simpl.
  destruct (p db x); [rewrite Hi, Hc|]; auto.
Qed.

Lemma default_agent_channel_default c a :
  stmt_preserves default_is_member (default_agent_channel c a).
Proof. by intros db db' n Hd ->%default_agent_channel_id. Qed.

Lemma delete_agents_default dead db :
  default_is_member db → default_is_member (delete_agents dead db).
Proof.
  intros Hd r (x & -> & [Hx Hp]%elem_of_delete_where)%list_elem_of_fmap. simpl.
  apply key_survives; [done|by apply Hd|]. by intros m _ [= _ ->].
Qed.

Lemma delete_channels_default dead db :
  default_is_member db → default_is_member (delete_channels dead db).
Proof.
  intros Hd r (x & -> & Hx)%list_elem_of_fmap. simpl.
  pose proof (delete_agents_default (agent_in dead db) db Hd x Hx) as Hm.
  apply key_survives; [done|done|]. intros m _ [= -> _].
  apply list_elem_of_fmap in Hx as (y & -> & [Hy Hp]%elem_of_delete_where). simpl.
  unfold agent_in in Hp. rewrite exists_row_false in Hp. specialize (Hp y Hy).
  by rewrite N.eqb_refl in Hp.
Qed.

Lemma update_agent_channel_agents f p db db' n :
  update_agent_channel f p db = Ok (db', n) →
  channel_agents db' = channel_agents db ∧ channels db' = channels db ∧
  agent_ids db' = agent_ids db ∧
  ∀ r', r' ∈ agents db' ↔
    ∃ r, r ∈ agents db ∧
      if p r then ∃ c, f = Some c ∧ r' = mkAgentRow (ar_id r) c (ar_name r) (ar_description r)
        (ar_instructions r) (ar_runtime r) (ar_model r) (ar_status r) (ar_lifecycle_status r)
        (ar_created_by_agent_id r) (ar_created_by_channel_id r) (ar_created_at r)
      else r' = r.
Proof.
  unfold update_agent_channel. destruct (exists_row p (agents db)) eqn:E.
  - destruct f as [c|]; [|done]. intros H. inv_stmt. split_and!; [done..| |].
    + unfold agent_ids. simpl. by rewrite (map_update_where ar_id).
    + intros r'. simpl. rewrite elem_of_update_where. split.
      * intros (x & Hx & ->). exists x. split; [done|]. destruct (p x); [by exists c|done].
      * intros (x & Hx & H). exists x. split; [done|].
        destruct (p x); [by destruct H as (? & [= <-] & ->)|done].
  - intros [= <- <-]. split_and!; [done..|]. rewrite exists_row_false in E. intros r'. split.
    + intros Hr. exists r'. by rewrite (E r' Hr).
    + intros (r & Hr & H). rewrite (E r Hr) in H. by subst.
Qed.

(** Moving agents to a channel they are a member of keeps the invariant. *)
Lemma move_to_member f p db db' n :
  (∀ r, r ∈ agents db → p r = false →
    (ar_channel_id r, ar_id r) ∈ map member_key (channel_agents db)) →
  (∀ r c, r ∈ agents db → p r = true → f = Some c →
    (c, ar_id r) ∈ map member_key (channel_agents db)) →
  update_agent_channel f p db = Ok (db', n) → default_is_member db'.
Proof.
  intros Hfalse Htrue (Hm & _ & _ & Ha)%update_agent_channel_agents r' (r & Hr & H)%Ha.
  rewrite Hm. destruct (p r) eqn:E.
  - destruct H as (c & Hc & ->). exact (Htrue r c Hr E Hc).
  - subst. auto.
Qed.

#[export] Hint Resolve upsert_member_default insert_channel_default
  insert_channel_or_nothing_default update_channels_default default_agent_channel_default : cocli.

Lemma membership_default m : preserves default_is_member (insert_channel_agent_membership m).
Proof. unfold insert_channel_agent_membership. preserves_tac. Qed.
#[export] Hint Resolve membership_default : cocli.

Lemma add_agent_to_channel_default c a r p ba bc :
  preserves default_is_member (add_agent_to_channel c a r p ba bc).
Proof. unfold add_agent_to_channel, get_channel_agent. preserves_tac. Qed.

Lemma ensure_direct_default a : preserves default_is_member (ensure_direct_channel_for_agent a).
Proof. unfold ensure_direct_channel_for_agent, get_direct_channel_for_agent. preserves_tac. Qed.
#[export] Hint Resolve ensure_direct_default : cocli.

(** A new agent and its membership, inserted one after the other. *)
Lemma insert_agent_and_member r m db db1 db2 :
  default_is_member db → insert_agent r db = Ok (db1, tt) → upsert_member m db1 = Ok (db2, tt) →
  member_key m = (ar_channel_id r, ar_id r) → default_is_member db2.
Proof.
  intros Hd [Ha Hm]%insert_agent_agents (Ha2 & _ & Hk)%upsert_member_keys Heq x Hx.
  rewrite Hk, Hm. rewrite Ha2, Ha in Hx.
  apply elem_of_app in Hx as [Hx|Hx%list_elem_of_singleton]; [right; auto|left]. by subst.
Qed.

Lemma create_agent_default c n r m s : preserves default_is_member (create_agent c n r m s).
Proof.
  unfold create_agent, insert_channel_agent_membership. preserves_outside.
  apply preserves_transaction_body. intros e w w' [] Hw H. inv_run.
  destruct x0. by eapply insert_agent_and_member.
Qed.

Lemma create_standalone_agent_default n r m s ba bc :
  preserves default_is_member (create_standalone_agent n r m s ba bc).
Proof.
  unfold create_standalone_agent, insert_channel_agent_membership. preserves_outside.
  apply preserves_transaction_body. intros e w w' [] Hw H. inv_run.
  repeat match goal with u : () |- _ => destruct u end.
  eapply update_channels_default; [|eassumption].
  eapply insert_agent_and_member; [|eassumption|eassumption|done].
  by eapply insert_channel_default.
Qed.

Lemma remove_agent_from_channel_default c a :
  preserves default_is_member (remove_agent_from_channel c a).
Proof.
  unfold remove_agent_from_channel. apply preserves_transaction_body.
  intros e w w' [] Hw H. inv_run. subst. same_db.
  match goal with H : sql_delete _ _ _ _ = _ |- _ => injection H as Hdel _ end.
  rewrite <- Hdel in *. eapply move_to_member; [..|eassumption]; simpl.
  - intros r Hr Hp. specialize (Hw r Hr).
    apply list_elem_of_fmap in Hw as (m & Hk & Hm). apply list_elem_of_fmap. exists m.
    split; [done|]. apply elem_of_delete_where. split; [done|]. unfold is_member.
    injection Hk as <- <-. by rewrite andb_comm.
  - intros r f Hr [->%N.eqb_eq _]%andb_true_iff Hf%head_elem.
    by apply elem_of_memberships_of in Hf as [_ ?].
Qed.

Lemma move_default_default c a : preserves default_is_member (move_default c a).
Proof.
  intros e w Hw. unfold move_default, bind at 1.
  destruct (fetch_optional _ e w) as [w1 [f|x]] eqn:E; simpl.
  2:{ by rewrite (execute_atomic _ e w w1 x E). }
  apply fetch_optional_ok in E as [E1 ->]. rewrite <- E1 in Hw |- *.
  destruct (head _) as [f|] eqn:Hf; [|done]. unfold bind.
  destruct (execute _ e w1) as [w2 [n|x]] eqn:E2; simpl.
  2:{ by rewrite (execute_atomic _ e w1 w2 x E2). }
  apply execute_ok in E2 as (_ & E2 & _). eapply move_to_member; [| |exact E2]; [auto|].
  intros r g Hr [->%N.eqb_eq _]%andb_true_iff [= <-].
  by apply head_elem, elem_of_memberships_of in Hf as [_ ?].
Qed.
#[export] Hint Resolve move_default_default : cocli.

Lemma detach_default t s : preserves default_is_member (delete_subject_attachments t s).
Proof. by apply detach_preserves. Qed.
#[export] Hint Resolve detach_default : cocli.

Lemma delete_channel_default c : preserves default_is_member (delete_channel c).
Proof.
  unfold delete_channel, ensure_fallback. preserves_tac.
  intros db db' n H [= <- _]. by apply delete_channels_default.
Qed.

Lemma delete_agent_default a : preserves default_is_member (delete_agent a).
Proof.
  unfold delete_agent. preserves_tac. intros db db' n H [= <- _]. by apply delete_agents_default.
Qed.

Lemma create_channel_default n : preserves default_is_member (create_channel n).
Proof. unfold create_channel. preserves_tac. Qed.
Lemma update_channel_profile_default c d g : preserves default_is_member (update_channel_profile c d g).
Proof. unfold update_channel_profile, get_channel. preserves_tac. Qed.
Lemma update_agent_profile_default a d i : preserves default_is_member (update_agent_profile a d i).
Proof. unfold update_agent_profile. preserves_tac. by apply update_agents_default. Qed.
Lemma set_agent_status_default a s : preserves default_is_member (set_agent_status a s).
Proof. unfold set_agent_status. preserves_tac. by apply update_agents_default. Qed.
Lemma set_agent_lifecycle_status_default a s :
  preserves default_is_member (set_agent_lifecycle_status a s).
Proof. unfold set_agent_lifecycle_status. preserves_tac. by apply update_agents_default. Qed.

#[export] Hint Resolve add_agent_to_channel_default create_agent_default
  create_standalone_agent_default remove_agent_from_channel_default delete_channel_default
  delete_agent_default create_channel_default update_channel_profile_default
  update_agent_profile_default set_agent_status_default set_agent_lifecycle_status_default : cocli.

(** ** What channel deletion does to agents *)

Definition has_other (c a : Uuid) (db : DB) : Prop :=
  ∃ f, f ≠ c ∧ (f, a) ∈ map member_key (channel_agents db).
Definition no_direct (a : Uuid) (db : DB) : Prop :=
  ∀ x, x ∈ channels db → ch_kind x = "direct" → ch_direct_agent_id x ≠ Some a.

Lemma fallback_spec c a db :
  match head (fallback_channel a c db) with
  | Some f => f ≠ c ∧ (f, a) ∈ map member_key (channel_agents db)
  | None => ¬ has_other c a db
  end.
Proof.
  unfold fallback_channel. destruct (head _) as [f|] eqn:E.
  - apply head_elem, elem_of_memberships_of in E as [Hf ?]. bsimp.
    apply N.eqb_neq in Hf. done.
  - intros (f & Hf & Hin). destruct (memberships_of _ _ _) as [|x l] eqn:El; [|done].
    assert (f ∈ memberships_of a (λ c', negb (c' =? c)%N) db) as Hl; [|by rewrite El in Hl; set_solver].
    apply elem_of_memberships_of. split; [|done]. apply N.eqb_neq in Hf. by rewrite Hf.
Qed.

Lemma direct_lookup_None a db :
  no_direct a db →
  bfilter (λ c, str_eqb (ch_kind c) "direct" && bool_decide (ch_direct_agent_id c = Some a))
    (channels db) = [].
Proof.
  intros H. apply bfilter_none. intros x Hx.
  destruct (str_eqb (ch_kind x) "direct") eqn:E; [|done]. apply str_eqb_eq in E. simpl.
  apply bool_decide_eq_false. auto.
Qed.

(** What the first loop may change: memberships and direct channels are added. *)
Record adds_fallback (a : Uuid) (db db' : DB) : Prop := {
  af_agents : agents db' = agents db;
  af_members k : k ∈ map member_key (channel_agents db) → k ∈ map member_key (channel_agents db');
  af_direct b : b ≠ a → no_direct b db → no_direct b db';
}.

Lemma ensure_direct_spec c a e w w' ch :
  (∀ n, env_uuid e n ≠ c) → no_direct a (w_db w) →
  ensure_direct_channel_for_agent a e w = (w', Ok ch) →
  adds_fallback a (w_db w) (w_db w') ∧ has_other c a (w_db w').
Proof.
  intros Hfresh Hno H. unfold ensure_direct_channel_for_agent in H.
  apply bind_ok in H as (w1 & ex & [E1 ->]%fetch_optional_ok & H).
  rewrite direct_lookup_None in H by done. simpl in H.
  unfold insert_channel_agent_membership in H. inv_run. subst. simpl in *. same_db.
  repeat match goal with u : () |- _ => destruct u end.
  match goal with H : default_agent_channel _ _ _ = _ |- _ =>
    apply default_agent_channel_id in H end.
  match goal with H : upsert_member _ _ = _ |- _ =>
    apply upsert_member_keys in H as (Ha & Hc & Hk) end.
  match goal with H : insert_channel_or_nothing ?x ?d = Ok (?d', _) |- _ =>
    assert (agents d' = agents d ∧ channel_agents d' = channel_agents d ∧
            (channels d' = channels d ∨ channels d' = channels d ++ [x])%list) as (Hi1 & Hi2 & Hi3);
    [unfold insert_channel_or_nothing in H; destruct (_ && _);
      [injection H as <-; by auto|apply insert_channel_members in H as (? & ? & ?); auto]|] end.
  match goal with H : w_db _ = w_db _ |- _ => rewrite H in * | _ => idtac end.
  split; [split|].
  - congruence.
  - intros k. rewrite Hk, Hi2. auto.
  - intros b Hb Hnb y. rewrite Hc. destruct Hi3 as [->| ->]; [apply Hnb|].
    intros [Hy|Hy%list_elem_of_singleton]%elem_of_app; [by apply Hnb|]. subst. simpl. congruence.
  - eexists. split; [apply Hfresh|]. rewrite Hk. left. reflexivity.
Qed.

Lemma ensure_fallback_spec c a e w w' u :
  (∀ n, env_uuid e n ≠ c) → has_other c a (w_db w) ∨ no_direct a (w_db w) →
  ensure_fallback c a e w = (w', Ok u) →
  adds_fallback a (w_db w) (w_db w') ∧ has_other c a (w_db w').
Proof.
  intros Hfresh Hpre H. unfold ensure_fallback in H.
  apply bind_ok in H as (w1 & f & [E1 ->]%fetch_optional_ok & H).
  pose proof (fallback_spec c a (w_db w)) as Hf. destruct (head _) as [f|].
  - unfold ret in H. simplify_eq. rewrite E1. split; [by split|]. by exists f.
  - destruct Hpre as [?|Hno]; [done|]. apply bind_ok in H as (w2 & ch & H & H2).
    unfold ret in H2. simplify_eq. rewrite <- E1 in Hno |- *.
    by eapply ensure_direct_spec.
Qed.

Lemma ensure_fallbacks_spec c l e w w' u :
  (∀ n, env_uuid e n ≠ c) → (∀ a, a ∈ l → has_other c a (w_db w) ∨ no_direct a (w_db w)) →
  for_each (ensure_fallback c) l e w = (w', Ok u) →
  agents (w_db w') = agents (w_db w) ∧
  (∀ k, k ∈ map member_key (channel_agents (w_db w)) →
        k ∈ map member_key (channel_agents (w_db w'))) ∧
  ∀ a, a ∈ l → has_other c a (w_db w').
Proof.
  intros Hfresh. revert w. induction l as [|a l IH]; intros w Hpre H; simpl in H.
  { unfold ret in H. simplify_eq. set_solver. }
  apply bind_ok in H as (w1 & u1 & H1 & H2).
  apply ensure_fallback_spec in H1 as [[Ha Hm Hd] Ho]; [|done|apply Hpre; set_solver].
  apply IH in H2 as (Ha2 & Hm2 & Ho2).
  - split_and!; [congruence|auto|]. intros b [->|Hb]%elem_of_cons; [|auto].
    destruct Ho as (f & ? & ?). exists f. auto.
  - intros b Hb. destruct (decide (b = a)) as [->|Hne]; [by left|].
    destruct (Hpre b) as [(f & ? & ?)|?]; [set_solver|left; exists f; auto|right; auto].
Qed.

(** After the second loop no affected agent has the deleted channel as its default. *)
Lemma move_defaults_spec c l e w w' u :
  (∀ a, a ∈ l → has_other c a (w_db w)) →
  for_each (move_default c) l e w = (w', Ok u) →
  agent_ids (w_db w') = agent_ids (w_db w) ∧
  ∀ r', r' ∈ agents (w_db w') → ar_channel_id r' = c →
    r' ∈ agents (w_db w) ∧ ar_id r' ∉ l.
Proof.
  revert w. induction l as [|a l IH]; intros w Hpre H; simpl in H.
  { unfold ret in H. simplify_eq. set_solver. }
  apply bind_ok in H as (w1 & u1 & H1 & H2).
  unfold move_default in H1. apply bind_ok in H1 as (w0 & f & [E0 ->]%fetch_optional_ok & H1).
  pose proof (fallback_spec c a (w_db w)) as Hf. destruct (head _) as [f|].
  2:{ exfalso. apply Hf, Hpre. set_solver. }
  inv_run. rewrite E0 in *.
  match goal with H : update_agent_channel _ _ _ = _ |- _ =>
    apply update_agent_channel_agents in H as (Hm & _ & Hids & Ha) end.
  apply IH in H2 as [Hids2 Hr2].
  2:{ intros b Hb. unfold has_other. rewrite Hm. apply Hpre. set_solver. }
  split; [congruence|]. intros r' Hr' Hc.
  destruct (Hr2 r' Hr' Hc) as [(r & Hr & Hp)%Ha Hl].
  destruct ((ar_id r =? a)%N && (ar_channel_id r =? c)%N) eqn:E.
  { destruct Hp as (c' & [= <-] & ->). simpl in Hc. by destruct Hf. }
  subst r'. split; [done|]. rewrite Hc, N.eqb_refl, andb_true_r in E.
  apply N.eqb_neq in E. set_solver.
Qed.

(** Deleting a channel keeps every agent, as its documentation says, when
    each member has another channel or has no direct channel yet: the default channel of
    the members moves to another membership (or to a direct channel created for it) before
    the cascade of [agents.channel_id] can reach them. Holds under any interleaving of
    faults, provided the generated identifiers differ from the deleted one. *)
Theorem delete_channel_keeps_agents (e : Env) (w w' : World) (c : Uuid) :
  default_is_member (w_db w) → (∀ n, env_uuid e n ≠ c) →
  (∀ a, (c, a) ∈ map member_key (channel_agents (w_db w)) →
        has_other c a (w_db w) ∨ no_direct a (w_db w)) →
  delete_channel c e w = (w', Ok tt) →
  agent_ids (w_db w') = agent_ids (w_db w) ∧ c ∉ channel_ids (w_db w').
Proof.
  intros Hd Hfresh Hpre H. unfold delete_channel in H.
  apply bind_ok in H as (w1 & l & [E1 ->]%fetch_ok & H).
  apply bind_ok in H as (w2 & [] & H1 & H). apply transaction_ok in H as (w3 & H & E3).
  apply bind_ok in H as (w2' & n & [g Hg]%detach_ok & H).
  apply bind_ok in H as (w4 & [] & H2 & H). apply execute_ok in H as (_ & [= H] & _).
  set (l := map ca_agent_id _) in *.
  assert (∀ a, a ∈ l ↔ (c, a) ∈ map member_key (channel_agents (w_db w))) as Hl.
  { intros a. unfold l. rewrite !list_elem_of_fmap. split.
    - intros (m & -> & [Hm <-%N.eqb_eq]%elem_of_bfilter). by exists m.
    - intros (m & [= -> ->] & Hm). exists m. by rewrite elem_of_bfilter, N.eqb_refl. }
  rewrite <- E1 in Hpre, Hd.
  apply ensure_fallbacks_spec in H1 as (Ha & Hm & Ho); [|done|].
  2:{ intros a Hin%Hl. rewrite <- E1 in Hin. by apply Hpre. }
  apply move_defaults_spec in H2 as [Hids Hr]; [|by rewrite Hg].
  rewrite Hg in Hids, Hr. simpl in Hids, Hr.
  assert (∀ r, r ∈ agents (w_db w4) → agent_in (N.eqb c) (w_db w4) (ar_id r) = false) as Hsafe.
  { intros r _. apply exists_row_false. intros x Hx.
    destruct (ar_id x =? ar_id r)%N; [|done]. simpl. apply N.eqb_neq. intros Hc.
    destruct (Hr x Hx (eq_sym Hc)) as [Hx' Hnl]. rewrite Ha in Hx'. apply Hnl, Hl.
    rewrite <- E1. rewrite Hc. by apply Hd. }
  rewrite E3, <- H. split.
  - unfold agent_ids. simpl. rewrite !(map_keys_cascade ar_id) by done.
    unfold delete_where. rewrite bfilter_all.
    + fold (agent_ids (w_db w4)). rewrite Hids. unfold agent_ids. simpl. congruence.
    + intros r Hin. by rewrite Hsafe.
  - unfold channel_ids. simpl. rewrite (map_keys_cascade ch_id) by done.
    intros (x & Hx & [_ Hin]%elem_of_delete_where)%list_elem_of_fmap.
    subst. by rewrite N.eqb_refl in Hin.
Qed.

(** A channel with one agent, which has no other channel. *)
Definition one_agent_world : World :=
  (create_agent 100 "ada" "claude" None Running (demo_env 200)
     (create_channel "general" (demo_env 100) start).1).1.

Lemma delete_channel_keeps_agents_witness :
  agent_ids (w_db (delete_channel 100 (demo_env 1000) one_agent_world).1) = [203%N].
Proof.
  destruct (delete_channel 100 (demo_env 1000) one_agent_world) as [w' r] eqn:E.
  assert (r = Ok tt) as -> by (vm_compute in E; congruence).
  refine (eq_trans (proj1 (delete_channel_keeps_agents (demo_env 1000) one_agent_world w' 100
    _ _ _ E)) _).
  - apply create_agent_default, create_channel_default. intros r Hr. inversion Hr.
  - intros n. simpl. lia.
  - intros a _. right. intros x Hx. vm_compute in Hx. inversion Hx as [|? ? ? Hy]; subst; [done|].
    inversion Hy.
  - vm_compute. reflexivity.
Defined.

(** The documentation of [delete_channel] ("without deleting agents") fails for
    a standalone agent: deleting the direct channel that was created with the agent, its
    only channel, deletes the agent. [ensure_direct_channel_for_agent] returns that very
    channel, so the second loop finds no fallback, and the delete cascades to the agent. *)
Theorem delete_direct_channel_deletes_agent :
  ∃ a w w', create_standalone_agent "ada" "claude" None Running None None (demo_env 100) start
              = (w, Ok a) ∧
            agent_ids (w_db w) = [ag_id a] ∧
            delete_channel (ag_channel_id a) (demo_env 1000) w = (w', Ok tt) ∧
            agents (w_db w') = [] ∧ channels (w_db w') = [].
Proof. do 3 eexists. split_and!; vm_compute; reflexivity. Qed.

(** Removing an agent from its default channel when it is its last membership
    fails on the [NOT NULL] default channel and changes nothing, whatever the faults; with
    no fault the error is that constraint. An agent never loses its last channel. *)
Theorem remove_last_membership_rejected (e : Env) (w : World) (c a : Uuid) (r : AgentRow) :
  r ∈ agents (w_db w) → ar_id r = a → ar_channel_id r = c →
  ¬ has_other c a (w_db w) →
  w_db (remove_agent_from_channel c a e w).1 = w_db w ∧
  is_ok (remove_agent_from_channel c a e w).2 = false ∧
  (fault_free e → (remove_agent_from_channel c a e w).2 = Err (Sqlx NotNullViolation)).
Proof.
  intros Hr Ha Hc Hlast.
  assert (head (memberships_of a (λ _, true)
            (with_members (delete_where (is_member c a)) (w_db w))) = None) as Hnone.
  { destruct (head _) as [f|] eqn:E; [|done].
    apply head_elem, elem_of_memberships_of in E as [_ Hf].
    apply list_elem_of_fmap in Hf as (m & [= -> ->] & [Hm Hp]%elem_of_delete_where).
    destruct Hlast. exists (ca_channel_id m). split; [|apply list_elem_of_fmap; by exists m].
    intros E. unfold is_member in Hp. rewrite <- E in Hp. by rewrite !N.eqb_refl in Hp. }
  assert (exists_row (λ r, (ar_id r =? a)%N && (ar_channel_id r =? c)%N) (agents (w_db w)) = true)
    as Hex.
  { apply exists_row_true. exists r. by rewrite Ha, Hc, !N.eqb_refl. }
  destruct (remove_agent_from_channel c a e w) as [w' [u|x]] eqn:E; simpl.
  - exfalso. unfold remove_agent_from_channel in E. inv_run. subst. same_db.
    match goal with H : sql_delete _ _ _ _ = _ |- _ => injection H as Hdel _ end.
    rewrite <- Hdel, Hnone in *. unfold update_agent_channel in *. simpl in *.
    by rewrite Hex in *.
  - split_and!; [exact (transaction_atomic _ e w w' x E)|done|]. intros Hff.
    unfold remove_agent_from_channel in E. rewrite transaction_run in E by done.
    unfold bind, fetch_optional in E. rewrite execute_run in E by done. simpl in E.
    rewrite fetch_run in E by done. simpl in E. rewrite Hnone, execute_run in E by done.
    unfold update_agent_channel in E. simpl in E. rewrite Hex in E. congruence.
Qed.

Lemma remove_last_membership_rejected_witness :
  (remove_agent_from_channel 100 203 (demo_env 1000) one_agent_world).2 =
    Err (Sqlx NotNullViolation).
Proof.
  refine (proj2 (proj2 (remove_last_membership_rejected (demo_env 1000) one_agent_world 100 203
    (agent_row (mkAgent 203 100 "ada" None None "claude" None Running Active None (Some 100%N) 4))
    _ _ _ _)) _).
  - vm_compute. constructor.
  - reflexivity.
  - reflexivity.
  - intros (f & Hf & Hin). vm_compute in Hin. inversion Hin as [? ? Heq|? ? ? Hy]; subst.
    + by apply Hf.
    + inversion Hy.
  - intros n. reflexivity.
Defined.
