(* ===== verification/StoreMessages.v ===== *)
(** * Messages, inboxes and working state

    [crates/cocli-store/src/lib.rs]: appending messages with their channel-local sequence
    numbers, fanning a user message out to the eligible agents, reading pages of a channel,
    consuming an agent's inbox, and the durable current-work anchor. *)
From S2P Require Import Prelude StoreTypes StoreDb StoreSchema StoreAgents.

(** [row.and_then(T::try_from)] over the rows of a query. *)
Definition decode_messages (rows : list MessageRow) : M (list Message) :=
  lift (collect_results message_try_from rows).

Definition append_message (channel_id : Uuid) (agent_id : option Uuid) (role : MessageRole)
    (content : string) : M Message :=
  let! row := transaction (
    let! id := new_v4 in
    let! now := utc_now in
    execute (insert_message id channel_id agent_id (as_str role) content now)) in
  lift (message_try_from row).

(** The running, active, subscribed members of a channel, oldest membership first. *)
Definition eligible (channel_id : Uuid) (db : DB) (m : ChannelAgent) : bool :=
  (ca_channel_id m =? channel_id)%N && str_eqb (ca_delivery_policy m) "subscribed" &&
  exists_row (λ r, (ar_id r =? ca_agent_id m)%N && str_eqb (ar_status r) (as_str Running) &&
                   str_eqb (ar_lifecycle_status r) "active") (agents db).
Definition eligible_agents (channel_id : Uuid) (db : DB) : list Uuid :=
  map ca_agent_id (sort_by member_cmp (bfilter (eligible channel_id db) (channel_agents db))).

(** The row both enqueueing statements insert. *)
Definition new_delivery (id agent_id : Uuid) (message : Message) (now : Time) : DeliveryRow :=
  mkDeliveryRow id agent_id (msg_channel_id message) (msg_id message) (msg_seq message)
    (as_str Pending) 0 now None now now.

Definition append_user_message_with_deliveries (channel_id : Uuid) (content : string) : M Message :=
  let! now := utc_now in
  transaction (
    let! id := new_v4 in
    let! row := execute (insert_message id channel_id None (as_str User) content now) in
    let! message := lift (message_try_from row) in
    let! agent_ids := fetch (eligible_agents channel_id) in
    for_each (λ agent_id,
      let! delivery_id := new_v4 in
      execute (insert_delivery (new_delivery delivery_id agent_id message now))) agent_ids ;;
    ret message).

Definition seq_cmp : MessageRow → MessageRow → comparison := on_cmp mr_seq Z.compare.

Definition channel_messages (channel_id : Uuid) (db : DB) : list MessageRow :=
  sort_by seq_cmp (bfilter (λ r, mr_channel_id r =? channel_id)%N (messages db)).

Definition list_messages (channel_id : Uuid) : M (list Message) :=
  let! rows := fetch (channel_messages channel_id) in
  decode_messages rows.

(** [? IS NULL OR seq < ?] and [? IS NULL OR seq > ?]. *)
Definition in_page (before after : option Z) (r : MessageRow) : bool :=
  match before with None => true | Some b => mr_seq r <? b end &&
  match after with None => true | Some a => a <? mr_seq r end.

(** [ORDER BY seq DESC LIMIT ?], then [messages.reverse()]. *)
Definition list_message_page (channel_id : Uuid) (limit : Z) (before after : option Z)
    : M (list Message) :=
  let! rows := fetch (λ db,
    take (Z.to_nat (clamp 1 200 limit))
      (sort_by (λ x y, seq_cmp y x)
        (bfilter (λ r, (mr_channel_id r =? channel_id)%N && in_page before after r) (messages db)))) in
  let! messages := decode_messages rows in
  ret (reverse messages).

Definition get_message (message_id : Uuid) : M (option Message) :=
  let! row := fetch_optional (λ db, bfilter (λ r, mr_id r =? message_id)%N (messages db)) in
  transpose message_try_from row.

(** ** The inbox cursor *)

Definition upsert_inbox_cursor (agent_id : Uuid) (seq : Z) (now : Time) : M unit :=
  execute (upsert_cursor agent_id seq now).

(** [COALESCE((SELECT last_read_seq ...), 0)]. *)
Definition inbox_cursor (agent_id : Uuid) (db : DB) : Z :=
  match bfilter (λ r, ir_agent_id r =? agent_id)%N (agent_inbox_state db) with
  | [] => 0
  | r :: _ => ir_last_read_seq r
  end.

(** The messages of a channel after [cursor] that the agent did not write, in order. *)
Definition unread (agent_id channel_id : Uuid) (cursor : Z) (db : DB) : list MessageRow :=
  bfilter (λ r, (cursor <? mr_seq r) && bool_decide (mr_agent_id r ≠ Some agent_id))
    (channel_messages channel_id db).

Definition consume_agent_inbox (agent_id : Uuid) (limit : Z) : M (list Message) :=
  let! channel_id := default_channel_for_agent agent_id in
  match channel_id with
  | None => ret []
  | Some channel_id =>
      transaction (
        let! cursor := fetch (inbox_cursor agent_id) in
        let! rows := fetch (λ db,
          take (Z.to_nat (clamp 1 200 limit)) (unread agent_id channel_id cursor db)) in
        let! messages := decode_messages rows in
        match last messages with
        | Some m => let! now := utc_now in upsert_inbox_cursor agent_id (msg_seq m) now
        | None => ret tt
        end ;;
        ret messages)
  end.

(** ** Working state *)

Definition get_working_state (agent_id : Uuid) : M (option WorkingState) :=
  fetch_optional (λ db, bfilter (λ s, wst_agent_id s =? agent_id)%N (agent_working_state db)).

Definition set_working_state (agent_id : Uuid) (summary : string) (channel_name : option string)
    (task_number : option Z) (next_step_hint : option string) : M WorkingState :=
  let! now := utc_now in
  execute (upsert_working
    (mkWorkingState agent_id summary channel_name task_number next_step_hint now now)) ;;
  let! state := get_working_state agent_id in
  match state with
  | Some s => ret s
  | None => let! a := uuid_string agent_id in throw (InvalidValue "working state" a)
  end.

Definition clear_working_state (agent_id : Uuid) : M bool :=
  let! n := execute (sql_delete agent_working_state with_working
                       (λ s, wst_agent_id s =? agent_id)%N) in
  ret (0 <? n).

(** ** Invariants *)

Lemma append_message_schema c a r t : preserves schema_ok (append_message c a r t).
Proof. unfold append_message. preserves_tac. Qed.
Lemma append_user_message_schema c t :
  preserves schema_ok (append_user_message_with_deliveries c t).
Proof. unfold append_user_message_with_deliveries. preserves_tac. Qed.
Lemma consume_agent_inbox_schema a n : preserves schema_ok (consume_agent_inbox a n).
Proof.
  unfold consume_agent_inbox, default_channel_for_agent, decode_messages, upsert_inbox_cursor.
  preserves_tac.
Qed.
Lemma set_working_state_schema a s c t h : preserves schema_ok (set_working_state a s c t h).
Proof. unfold set_working_state, get_working_state. preserves_tac. Qed.
Lemma clear_working_state_schema a : preserves schema_ok (clear_working_state a).
Proof. unfold clear_working_state. preserves_tac. Qed.

#[export] Hint Resolve append_message_schema append_user_message_schema consume_agent_inbox_schema
  set_working_state_schema clear_working_state_schema : cocli.

Lemma insert_message_fields id c a role content now db db' row :
  insert_message id c a role content now db = Ok (db', row) →
  row = mkMessageRow id c
          (max_key mr_seq (bfilter (λ r, mr_channel_id r =? c)%N (messages db)) + 1)
          a role content now ∧
  db' = with_messages (λ l, l ++ [row])%list db.
Proof. unfold insert_message. intros H. by inv_stmt. Qed.

(** ** Fan-out of a user message *)

Definition enqueue_for (message : Message) (now : Time) (agent_id : Uuid) : M unit :=
  let! delivery_id := new_v4 in
  execute (insert_delivery (new_delivery delivery_id agent_id message now)).

Definition add_deliveries (rows : list DeliveryRow) (db : DB) : DB :=
  with_deliveries (λ l, l ++ rows)%list db.

Lemma add_deliveries_nil db : add_deliveries [] db = db.
Proof. unfold add_deliveries, with_deliveries. rewrite app_nil_r. by destruct db. Qed.

Lemma add_deliveries_app rs rs' db :
  add_deliveries rs' (add_deliveries rs db) = add_deliveries (rs ++ rs') db.
Proof. unfold add_deliveries, with_deliveries. simpl. by rewrite app_assoc. Qed.

Lemma insert_delivery_db r db db' :
  insert_delivery r db = Ok (db', tt) → db' = add_deliveries [r] db.
Proof. unfold insert_delivery. intros H. by inv_stmt. Qed.

Lemma enqueue_all_spec message now l e w w' u :
  for_each (enqueue_for message now) l e w = (w', Ok u) →
  ∃ rows, map dr_agent_id rows = l ∧ Forall (λ r, ∃ id a, r = new_delivery id a message now) rows ∧
    w_db w' = add_deliveries rows (w_db w).
Proof.
  revert w. induction l as [|a l IH]; intros w H; simpl in H.
  { unfold ret in H. simplify_eq. exists []. by rewrite add_deliveries_nil. }
  apply bind_ok in H as (w1 & [] & H1 & H2). unfold enqueue_for in H1. inv_run. simpl in *.
  match goal with H : insert_delivery _ _ = _ |- _ => apply insert_delivery_db in H as Hdb end.
  apply IH in H2 as (rows & <- & Hall & ->). rewrite Hdb, add_deliveries_app.
  eexists. split_and!; [|constructor; [|exact Hall]|simpl; reflexivity]; [done|by eexists _, _].
Qed.

(** The deliveries a user message creates: one per eligible agent, in membership order. *)
Definition fanned_out (c : Uuid) (db : DB) (message : Message) (now : Time)
    (rows : list DeliveryRow) : Prop :=
  map dr_agent_id rows = eligible_agents c db ∧
  Forall (λ r, ∃ id a, r = new_delivery id a message now) rows.

Lemma append_user_ok e w w' c content m :
  append_user_message_with_deliveries c content e w = (w', Ok m) →
  m = mkMessage (msg_id m) c
        (max_key mr_seq (bfilter (λ r, mr_channel_id r =? c)%N (messages (w_db w))) + 1)
        None User content (env_now e (w_ctr w)) ∧
  ∃ rows, fanned_out c (w_db w) m (env_now e (w_ctr w)) rows ∧
    w_db w' = add_deliveries rows (with_messages (λ l, l ++ [mkMessageRow (msg_id m) c
                (msg_seq m) None (as_str User) content (env_now e (w_ctr w))])%list (w_db w)).
Proof.
  intros E. unfold append_user_message_with_deliveries in E.
  apply bind_ok in E as (w0 & now & E0 & E). unfold utc_now in E0. simplify_eq.
  apply transaction_ok in E as (w1 & E & Edb).
  apply bind_ok in E as (w2 & id & E2 & E). unfold new_v4 in E2. simplify_eq.
  apply bind_ok in E as (w3 & row & (_ & [Hrow Hdb]%insert_message_fields & _)%execute_ok & E).
  simpl in Hrow, Hdb. subst row.
  apply bind_ok in E as (w4 & m' & [-> [= Hm]]%lift_ok & E).
  apply bind_ok in E as (w5 & ids & [E5 ->]%fetch_ok & E).
  apply bind_ok in E as (w6 & [] & E6 & E). unfold ret in E. simplify_eq.
  apply enqueue_all_spec in E6 as (rows & Hids & Hall & E6).
  split; [done|]. exists rows. rewrite Edb, E6, E5, Hdb. split; [|done]. split; [|done].
  by rewrite Hids, Hdb.
Qed.

Lemma append_user_atomic c content : atomic (append_user_message_with_deliveries c content).
Proof.
  intros e w w' x E. apply bind_err in E as [E|(w1 & now & E1 & E)]; [done|].
  unfold utc_now in E1. simplify_eq. exact (transaction_atomic _ _ _ _ _ E).
Qed.

(** C23 (functional). Appending a user message is all or nothing: on success the message
    has the next sequence number of its channel and exactly one pending, never attempted
    delivery is queued for each running, active, subscribed member, in the order they
    joined, and nothing else changes; on any error, a fault in the middle of the fan-out
    included, the database is unchanged. *)
Theorem append_user_message_fanout (e : Env) (w : World) (c : Uuid) (content : string) :
  match append_user_message_with_deliveries c content e w with
  | (w', Ok m) =>
      m = mkMessage (msg_id m) c
            (max_key mr_seq (bfilter (λ r, mr_channel_id r =? c)%N (messages (w_db w))) + 1)
            None User content (env_now e (w_ctr w)) ∧
      ∃ rows, fanned_out c (w_db w) m (env_now e (w_ctr w)) rows ∧
        w_db w' = add_deliveries rows (with_messages (λ l, l ++ [mkMessageRow (msg_id m) c
                    (msg_seq m) None (as_str User) content (env_now e (w_ctr w))])%list (w_db w))
  | (w', Err _) => w_db w' = w_db w
  end.
Proof.
  destruct (append_user_message_with_deliveries c content e w) as [w' [m|x]] eqn:E.
  - by apply append_user_ok.
  - by eapply append_user_atomic.
Qed.

(** Identifiers drawn from now on are new. *)
Definition fresh_ids (e : Env) (w : World) : Prop :=
  (∀ i j, env_uuid e i = env_uuid e j → i = j) ∧
  ∀ n, (w_ctr w ≤ n)%nat →
    (env_uuid e n ∉ message_ids (w_db w)) ∧ (env_uuid e n ∉ map dr_id (delivery_queue (w_db w))).

Lemma insert_delivery_total r db :
  persisted DeliveryState (dr_state r) → dr_id r ∉ map dr_id (delivery_queue db) →
  queue_key r ∉ map queue_key (delivery_queue db) → dr_agent_id r ∈ agent_ids db →
  dr_channel_id r ∈ channel_ids db → dr_message_id r ∈ message_ids db →
  insert_delivery r db = Ok (add_deliveries [r] db, tt).
Proof.
  intros Hp Hid Hk Ha%has_agent_true Hc%has_channel_true Hm%has_message_true.
  unfold insert_delivery. apply persisted_parse in Hp. rewrite Hp. simpl.
  assert (exists_row (delivery_conflict r) (delivery_queue db) = false) as ->.
  { apply exists_row_false. intros x Hx. unfold delivery_conflict.
    apply orb_false_iff. split; [apply N.eqb_neq; set_solver|].
    destruct (dr_agent_id x =? dr_agent_id r)%N eqn:E1; [|done].
    destruct (dr_message_id x =? dr_message_id r)%N eqn:E2; [|done].
    apply N.eqb_eq in E1, E2. destruct Hk. apply list_elem_of_fmap. exists x.
    unfold queue_key. by rewrite E1, E2. }
  simpl. by rewrite Ha, Hc, Hm.
Qed.

Lemma enqueue_all_total message now l e w :
  fault_free e → (∀ i j, env_uuid e i = env_uuid e j → i = j) →
  (∀ n, (w_ctr w ≤ n)%nat → env_uuid e n ∉ map dr_id (delivery_queue (w_db w))) →
  NoDup l → (∀ a, a ∈ l → a ∈ agent_ids (w_db w)) →
  msg_channel_id message ∈ channel_ids (w_db w) → msg_id message ∈ message_ids (w_db w) →
  (∀ a, a ∈ l → (a, msg_id message) ∉ map queue_key (delivery_queue (w_db w))) →
  is_ok (for_each (enqueue_for message now) l e w).2 = true.
Proof.
  intros Hff Hinj. revert w. induction l as [|a l IH]; intros w Hfresh Hnd Ha Hc Hm Hk; simpl; [done|].
  apply NoDup_cons in Hnd as [Hnotin Hnd].
  unfold bind at 1, enqueue_for at 1, bind at 1. simpl. rewrite execute_run by done. simpl.
  rewrite insert_delivery_total; simpl; [|by exists Pending|by apply Hfresh|by apply Hk; set_solver
    |by apply Ha; set_solver|done|done].
  apply IH; simpl; [|done|by intros b Hb; apply Ha; set_solver|done|done|].
  - intros n Hn. rewrite map_app. intros [Hin|Hin%list_elem_of_singleton]%elem_of_app.
    + eapply Hfresh; [|exact Hin]. lia.
    + simpl in Hin. apply Hinj in Hin. lia.
  - intros b Hb. rewrite map_app. intros [Hin|Heq%list_elem_of_singleton]%elem_of_app; [|injection Heq as ->; done].
    eapply Hk; [|exact Hin]. set_solver.
Qed.

Lemma eligible_NoDup c db : schema_ok db → NoDup (eligible_agents c db).
Proof.
  intros [_ _ [Hnd _] _ _ _ _ _ _]. unfold eligible_agents.
  rewrite (Permutation_map ca_agent_id (sort_by_perm member_cmp _)).
  assert (NoDup (map member_key (bfilter (eligible c db) (channel_agents db)))) as H.
  { eapply sublist_NoDup; [exact Hnd|]. apply sublist_map, bfilter_sublist. }
  assert (∀ m, m ∈ bfilter (eligible c db) (channel_agents db) → ca_channel_id m = c) as Hc.
  { intros m [_ Hm]%elem_of_bfilter. unfold eligible in Hm. bsimp. by apply N.eqb_eq. }
  induction (bfilter _ _) as [|m l IH]; simpl in *; [constructor|].
  apply NoDup_cons in H as [Hm H]. constructor; [|apply IH; set_solver].
  intros (m' & Heq & Hin)%list_elem_of_fmap. apply Hm, list_elem_of_fmap. exists m'.
  split; [|done]. unfold member_key. rewrite Heq, (Hc m), (Hc m'); set_solver.
Qed.

Lemma eligible_is_agent c db a : a ∈ eligible_agents c db → a ∈ agent_ids db.
Proof.
  intros (m & -> & [_ Hm]%elem_of_sort_by%elem_of_bfilter)%list_elem_of_fmap.
  unfold eligible in Hm. apply andb_true_iff in Hm as [_ Hm].
  apply exists_row_true in Hm as (r & Hr & Hp). bsimp.
  apply list_elem_of_fmap. exists r. split; [|done]. symmetry. by apply N.eqb_eq.
Qed.

(** Without faults, appending a user message to an existing channel of a
    well-formed database always succeeds: no key, check or foreign key can fail as long as
    generated identifiers are new. *)
Theorem append_user_message_total (e : Env) (w : World) (c : Uuid) (content : string) :
  fault_free e → schema_ok (w_db w) → fresh_ids e w → c ∈ channel_ids (w_db w) →
  is_ok (append_user_message_with_deliveries c content e w).2 = true.
Proof.
  intros Hff Hok [Hinj Hfresh] Hc. unfold append_user_message_with_deliveries, bind at 1. simpl.
  rewrite transaction_run by done. unfold bind at 1. simpl.
  set (row := mkMessageRow (env_uuid e (S (S (w_ctr w)))) c
    (max_key mr_seq (bfilter (λ r, mr_channel_id r =? c)%N (messages (w_db w))) + 1)
    None "user" content (env_now e (w_ctr w))).
  assert (insert_message (env_uuid e (S (S (w_ctr w)))) c None "user" content
    (env_now e (w_ctr w)) (w_db w) = Ok (with_messages (λ l, l ++ [row])%list (w_db w), row)) as Hins.
  { unfold insert_message. apply has_channel_true in Hc. rewrite Hc.
    destruct (has_message _ _) eqn:E; [|done]. apply has_message_true in E.
    by destruct (proj1 (Hfresh (S (S (w_ctr w))) ltac:(lia))). }
  unfold bind at 1. rewrite execute_run by done. simpl. rewrite Hins. simpl.
  unfold bind at 1, lift. simpl. unfold bind at 1. rewrite fetch_run by done. simpl.
  match goal with |- context [bind (for_each ?b ?l) _ _ ?w0] =>
    assert (is_ok (for_each b l e w0).2 = true) as Hloop;
    [|unfold bind at 1; revert Hloop; by destruct (for_each b l e w0) as [? [?|?]]] end.
  apply enqueue_all_total; simpl; [done|done| | | | | |].
  - intros n Hn. apply Hfresh. lia.
  - exact (eligible_NoDup c (w_db w) Hok).
  - intros a Ha. exact (eligible_is_agent c (w_db w) a Ha).
  - done.
  - unfold message_ids. simpl. rewrite map_app. set_solver.
  - intros a Ha (r & [= _ Heq] & Hr)%list_elem_of_fmap.
    destruct Hok as [_ _ _ _ (_ & _ & Hall) _ _ _ _]. rewrite Forall_forall in Hall.
    destruct (Hall r Hr) as (_ & _ & Hin & _). rewrite <- Heq in Hin.
    exact (proj1 (Hfresh (S (S (w_ctr w))) ltac:(lia)) Hin).
Qed.

Lemma append_user_message_total_witness :
  is_ok (append_user_message_with_deliveries 100 "hello" (demo_env 1000) one_agent_world).2 = true.
Proof.
  apply append_user_message_total.
  - by intros n.
  - apply create_agent_schema, create_channel_schema, schema_ok_empty.
  - split; [simpl; lia|]. intros n _. split; intros Hin; vm_compute in Hin; inversion Hin.
  - apply has_channel_true. vm_compute. reflexivity.
Defined.

(** ** Reading a channel page by page *)

#[export] Instance seq_cmp_total : TotalCmp seq_cmp.
Proof. unfold seq_cmp. apply _. Qed.

(** Within one channel the sequence number identifies the message. *)
Lemma seq_identifies c db x y :
  schema_ok db →
  x ∈ bfilter (λ r, mr_channel_id r =? c)%N (messages db) →
  y ∈ bfilter (λ r, mr_channel_id r =? c)%N (messages db) → seq_cmp x y = Eq → x = y.
Proof.
  intros [_ _ _ (_ & Hnd & _) _ _ _ _ _].
  intros [Hx Hcx%N.eqb_eq]%elem_of_bfilter [Hy Hcy%N.eqb_eq]%elem_of_bfilter He%Z.compare_eq.
  apply (NoDup_key_eq seq_key (messages db)); [done..|]. unfold seq_key. congruence.
Qed.

(** The rows of a page: the newest [limit] rows that the cursors admit, oldest first. *)
Definition page_rows (c : Uuid) (limit : Z) (before after : option Z) (db : DB) : list MessageRow :=
  reverse (take (Z.to_nat (clamp 1 200 limit))
    (reverse (bfilter (in_page before after) (channel_messages c db)))).

Lemma collect_results_reverse {A B E} (f : A → result B E) (l : list A) (ys : list B) :
  collect_results f l = Ok ys → collect_results f (reverse l) = Ok (reverse ys).
Proof. rewrite !collect_results_Forall2. apply Forall2_reverse. Qed.

Lemma list_message_page_rows c limit before after e w w' ms :
  schema_ok (w_db w) → list_message_page c limit before after e w = (w', Ok ms) →
  collect_results message_try_from (page_rows c limit before after (w_db w)) = Ok ms.
Proof.
  intros Hok H. unfold list_message_page, decode_messages in H. inv_run. subst.
  match goal with H : collect_results _ _ = _ |- _ => apply collect_results_reverse in H as Hc end.
  unfold page_rows. rewrite <- Hc. repeat f_equal.
  rewrite sort_by_flip, bfilter_andb; [|apply _|].
  - f_equal. symmetry. apply sort_by_bfilter; [apply _|]. intros y z Hy Hz. by apply (seq_identifies c (w_db w)).
  - rewrite bfilter_andb. intros y z [Hy _]%elem_of_bfilter [Hz _]%elem_of_bfilter.
    by apply (seq_identifies c (w_db w)).
Qed.

Lemma page_rows_suffix c limit before after db :
  ∃ older, bfilter (in_page before after) (channel_messages c db) =
             (older ++ page_rows c limit before after db)%list ∧
    length (page_rows c limit before after db) =
      Nat.min (Z.to_nat (clamp 1 200 limit))
        (length (bfilter (in_page before after) (channel_messages c db))).
Proof.
  unfold page_rows. set (l := bfilter _ _). set (n := Z.to_nat _). exists (reverse (drop n (reverse l))).
  split.
  - rewrite <- reverse_app, take_drop. by rewrite reverse_involutive.
  - by rewrite length_reverse, length_take, length_reverse.
Qed.

Lemma channel_messages_sorted c db :
  schema_ok db → StronglySorted (λ x y, mr_seq x < mr_seq y) (channel_messages c db).
Proof.
  intros Hok. unfold channel_messages.
  assert (∀ x y, x ∈ sort_by seq_cmp (bfilter (λ r, (mr_channel_id r =? c)%N) (messages db)) →
                 y ∈ sort_by seq_cmp (bfilter (λ r, (mr_channel_id r =? c)%N) (messages db)) →
                 seq_cmp x y = Eq → x = y) as Hid.
  { intros x y Hx%elem_of_sort_by Hy%elem_of_sort_by. by apply (seq_identifies c db). }
  assert (NoDup (sort_by seq_cmp (bfilter (λ r, (mr_channel_id r =? c)%N) (messages db)))) as Hnd.
  { apply NoDup_sort_by, bfilter_NoDup. destruct Hok as [_ _ _ (H & _) _ _ _ _ _].
    by apply NoDup_fmap_1 in H. }
  pose proof (sort_by_sorted seq_cmp (bfilter (λ r, (mr_channel_id r =? c)%N) (messages db))) as Hs.
  induction Hs as [|x l Hs IH Hall]; [constructor|]. apply NoDup_cons in Hnd as [Hx Hnd].
  constructor; [apply IH; [set_solver|done]|]. rewrite Forall_forall in *. intros y Hy.
  specialize (Hall y Hy). apply cmp_le_true in Hall. unfold seq_cmp, on_cmp in *.
  destruct (Z.compare_spec (mr_seq x) (mr_seq y)) as [E|E|E]; [|done|done].
  destruct Hx. rewrite (Hid x y); [done|set_solver|set_solver|]. by apply Z.compare_eq_iff.
Qed.

(** Splitting a strictly sorted list at one of its elements. *)
Lemma bfilter_before (older newer : list MessageRow) (r : MessageRow) :
  StronglySorted (λ x y, mr_seq x < mr_seq y) (older ++ r :: newer) →
  bfilter (in_page (Some (mr_seq r)) None) (older ++ r :: newer) = older.
Proof.
  induction older as [|x older IH]; simpl; intros Hs.
  - inversion_clear Hs as [|? ? _ Hall]. unfold in_page at 1. rewrite Z.ltb_irrefl. simpl.
    apply bfilter_none. intros y Hy. rewrite Forall_forall in Hall. specialize (Hall y Hy).
    unfold in_page. destruct (Z.ltb_spec (mr_seq y) (mr_seq r)); [lia|done].
  - inversion_clear Hs as [|? ? Hs' Hall]. rewrite Forall_forall in Hall.
    assert (mr_seq x < mr_seq r) as Hlt by (apply Hall; set_solver).
    unfold in_page at 1. destruct (Z.ltb_spec (mr_seq x) (mr_seq r)); [|lia]. simpl. f_equal. auto.
Qed.

(** Paging backwards through a channel loses and repeats nothing: a page
    is the newest block of the channel, at most [limit] (clamped to 1..200) long and in
    sequence order, and the page asked for with the first sequence number of a page as
    [before] is exactly the block in front of it. *)
Theorem message_pages_adjacent (c : Uuid) (limit limit' : Z) (e e' : Env) (w w1 w2 : World)
    (page1 page2 : list Message) (m : Message) (rest : list Message) :
  schema_ok (w_db w) →
  list_message_page c limit None None e w = (w1, Ok page1) → page1 = m :: rest →
  list_message_page c limit' (Some (msg_seq m)) None e' w = (w2, Ok page2) →
  ∃ older rows2 rows1,
    channel_messages c (w_db w) = (older ++ rows2 ++ rows1)%list ∧
    collect_results message_try_from rows1 = Ok page1 ∧
    collect_results message_try_from rows2 = Ok page2 ∧
    length page1 = Nat.min (Z.to_nat (clamp 1 200 limit)) (length (channel_messages c (w_db w))) ∧
    length page2 = Nat.min (Z.to_nat (clamp 1 200 limit')) (length older + length rows2).
Proof.
  intros Hok H1 -> H2.
  apply list_message_page_rows in H1; [|done]. apply list_message_page_rows in H2; [|done].
  destruct (page_rows_suffix c limit None None (w_db w)) as (older1 & E1 & L1).
  rewrite (bfilter_all (in_page None None)) in E1, L1 by done.
  pose proof (channel_messages_sorted c (w_db w) Hok) as Hs.
  apply collect_results_Forall2 in H1 as F1. apply collect_results_Forall2 in H2 as F2.
  destruct (page_rows c limit None None (w_db w)) as [|r rows] eqn:Ep; [by inversion F1|].
  assert (msg_seq m = mr_seq r) as Hseq.
  { inversion F1 as [|? ? ? ? Hr]; subst. unfold message_try_from, rbind in Hr.
    destruct (parse (mr_role r)); by simplify_eq. }
  destruct (page_rows_suffix c limit' (Some (msg_seq m)) None (w_db w)) as (older & E2 & L2).
  rewrite Hseq in E2, L2. rewrite E1 in Hs, E2, L2. rewrite bfilter_before in E2, L2 by done.
  exists older, (page_rows c limit' (Some (msg_seq m)) None (w_db w)), (r :: rows).
  rewrite E1 at 1. rewrite Hseq in H2, F2 |- *. rewrite E2 at 1. split_and!; [|done..| |].
  - by rewrite <- app_assoc.
  - rewrite <- (Forall2_length _ _ _ F1). exact L1.
  - rewrite <- (Forall2_length _ _ _ F2), L2 at 1. f_equal. by rewrite E2, length_app.
Qed.

(** Three messages in the channel of [one_agent_world]. *)
Definition chat_world : World :=
  let say t w := (append_message 100 None User t (demo_env 2000) w).1 in
  say "three" (say "two" (say "one" one_agent_world)).

Lemma chat_world_schema : schema_ok (w_db chat_world).
Proof.
  do 3 (apply append_message_schema). apply create_agent_schema, create_channel_schema,
    schema_ok_empty.
Qed.

Lemma message_pages_adjacent_witness :
  ∃ older rows2 rows1,
    channel_messages 100 (w_db chat_world) = (older ++ rows2 ++ rows1)%list ∧
    length rows1 = 1%nat ∧ length rows2 = 2%nat.
Proof.
  destruct (list_message_page 100 0 None None (demo_env 0) chat_world) as [w1 [p1|]] eqn:E1;
    [|vm_compute in E1; discriminate].
  destruct (list_message_page 100 5 (Some 3) None (demo_env 0) chat_world) as [w2 [p2|]] eqn:E2;
    [|vm_compute in E2; discriminate].
  pose proof E1 as F1. pose proof E2 as F2. vm_compute in F1, F2. injection F1 as _ F1.
  injection F2 as _ F2.
  edestruct (message_pages_adjacent 100 0 5 (demo_env 0) (demo_env 0) chat_world w1 w2 p1 p2)
    as (older & rows2 & rows1 & H1 & H2 & H3 & _).
  - apply chat_world_schema.
  - exact E1.
  - symmetry. exact F1.
  - exact E2.
  - exists older, rows2, rows1. split; [exact H1|].
    apply collect_results_Forall2, Forall2_length in H2, H3. rewrite H2, H3, <- F1, <- F2.
    clear. split; vm_compute; reflexivity.
Defined.

(** ** Consuming an inbox *)

Lemma bfilter_update_where {A} (p : A → bool) (f : A → A) (l : list A) :
  (∀ x, p x = true → p (f x) = true) → bfilter p (update_where p f l) = map f (bfilter p l).
Proof.
  intros Hf. induction l as [|x l IH]; simpl; [done|]. destruct (p x) eqn:E; simpl.
  - rewrite Hf by done. simpl. by f_equal.
  - by rewrite E.
Qed.

(** The cursor after a message beyond it was read. *)
Lemma upsert_cursor_advances a s now db db' :
  upsert_cursor a s now db = Ok (db', tt) → inbox_cursor a db < s → inbox_cursor a db' = s.
Proof.
  unfold upsert_cursor, inbox_cursor. intros H Hlt. inv_stmt; simpl.
  - rewrite (bfilter_update_where (λ r, (ir_agent_id r =? a)%N)) by done.
    destruct (bfilter _ _) as [|r l] eqn:E; simpl in *; [|lia].
    apply exists_row_true in Hif as (x & Hx & Hp).
    assert (x ∈ bfilter (λ r, (ir_agent_id r =? a)%N) (agent_inbox_state db)) as Hin
      by (by apply elem_of_bfilter). rewrite E in Hin. set_solver.
  - rewrite bfilter_app. rewrite exists_row_false in Hif.
    rewrite (bfilter_none (λ r, (ir_agent_id r =? a)%N) (agent_inbox_state db)) by done.
    simpl. by rewrite N.eqb_refl.
Qed.

Lemma upsert_cursor_messages a s now db db' :
  upsert_cursor a s now db = Ok (db', tt) → messages db' = messages db.
Proof. unfold upsert_cursor. intros H. by inv_stmt. Qed.

(** Splitting the unread messages at the last one read. *)
Lemma unread_after a k (l : list MessageRow) (rows rest : list MessageRow) (r : MessageRow) :
  StronglySorted (λ x y, mr_seq x < mr_seq y) l →
  bfilter (λ x, (k <? mr_seq x) && bool_decide (mr_agent_id x ≠ Some a)) l = (rows ++ r :: rest)%list →
  bfilter (λ x, (mr_seq r <? mr_seq x) && bool_decide (mr_agent_id x ≠ Some a)) l = rest ∧ k < mr_seq r.
Proof.
  intros Hs E.
  assert (StronglySorted (λ x y, mr_seq x < mr_seq y) (rows ++ r :: rest)) as Hs'.
  { rewrite <- E. by apply StronglySorted_bfilter. }
  assert (r ∈ bfilter (λ x, (k <? mr_seq x) && bool_decide (mr_agent_id x ≠ Some a)) l) as Hr
    by (rewrite E; set_solver).
  apply elem_of_bfilter in Hr as [_ Hr]. bsimp. split; [|done].
  transitivity (bfilter (λ x, mr_seq r <? mr_seq x) (rows ++ r :: rest)).
  - rewrite <- E. clear E Hs' Hs. induction l as [|x l IH]; simpl; [done|].
    destruct (Z.ltb_spec (mr_seq r) (mr_seq x)), (Z.ltb_spec k (mr_seq x)); simpl; try lia;
      try (destruct (bool_decide (mr_agent_id x ≠ Some a)); simpl); try done;
      destruct (Z.ltb_spec (mr_seq r) (mr_seq x)); try lia; first [done | by f_equal].
  - clear E. rewrite bfilter_app. simpl. rewrite Z.ltb_irrefl.
    rewrite bfilter_none, bfilter_all; [done| |].
    + intros x Hx. apply Z.ltb_lt. induction rows as [|y rows IH]; simpl in Hs';
        inversion_clear Hs' as [|? ? Hs1 Hall]; [|by apply IH].
      rewrite Forall_forall in Hall. auto.
    + intros x Hx. apply Z.ltb_ge. induction rows as [|y rows IH]; [set_solver|].
      simpl in Hs'. inversion_clear Hs' as [|? ? Hs1 Hall].
      apply elem_of_cons in Hx as [->|Hx]; [|by apply IH].
      rewrite Forall_forall in Hall. apply Z.lt_le_incl, Hall. set_solver.
Qed.

(** Consuming an inbox is exactly once and in order on the agent's default
    channel: a successful call returns the oldest unread messages of other authors (at most
    [limit], clamped to 1..200) and what is unread afterwards is exactly the remainder; a
    failed call consumes nothing. *)
Theorem consume_inbox_exactly_once (a : Uuid) (limit : Z) (e : Env) (w : World) (c : Uuid) :
  schema_ok (w_db w) → default_channel a (w_db w) = Some c →
  match consume_agent_inbox a limit e w with
  | (w', Ok ms) =>
      ∃ rows,
        unread a c (inbox_cursor a (w_db w)) (w_db w) =
          (rows ++ unread a c (inbox_cursor a (w_db w')) (w_db w'))%list ∧
        collect_results message_try_from rows = Ok ms ∧
        length ms = Nat.min (Z.to_nat (clamp 1 200 limit))
                      (length (unread a c (inbox_cursor a (w_db w)) (w_db w)))
  | (w', Err _) => w_db w' = w_db w
  end.
Proof.
  intros Hok Hc.
  destruct (consume_agent_inbox a limit e w) as [w' [ms|x]] eqn:E;
    unfold consume_agent_inbox, default_channel_for_agent, decode_messages in E.
  2:{ apply bind_err in E as [E|(w1 & o & E1 & E)]; [exact (execute_atomic _ _ _ _ _ E)|].
      apply fetch_ok in E1 as [E1 ->]. rewrite Hc in E. rewrite <- E1.
      exact (transaction_atomic _ _ _ _ _ E). }
  apply bind_ok in E as (w1 & o & [E1 ->]%fetch_ok & E). rewrite Hc in E.
  apply transaction_ok in E as (w2 & E & ->).
  apply bind_ok in E as (w3 & cur & [E3 ->]%fetch_ok & E). simpl in E3.
  apply bind_ok in E as (w4 & rows & [E4 ->]%fetch_ok & E).
  apply bind_ok in E as (w5 & ms' & [-> Hms]%lift_ok & E).
  apply bind_ok in E as (w6 & [] & E6 & E). unfold ret in E. simplify_eq.
  simpl in Hms. rewrite E3, E1 in Hms. assert (w_db w4 = w_db w) as Ew4 by congruence. clear E1 E3 E4.
  set (k := inbox_cursor a (w_db w)) in *. set (u := unread a c k (w_db w)) in *.
  set (n := Z.to_nat (clamp 1 200 limit)) in *.
  exists (take n u). rewrite Hms. apply collect_results_Forall2 in Hms as HF.
  assert (length ms = Nat.min n (length u)) as Hlen.
  { by rewrite <- (Forall2_length _ _ _ HF), length_take. }
  split_and!; [|done|done]. rewrite <- (take_drop n u) at 1. f_equal.
  destruct (last ms) as [m|] eqn:Hlast.
  - apply last_Some in Hlast as [ms1 ->].
    apply Forall2_app_inv_r in HF as (rows1 & rows2 & HF1 & HF2 & Hrows).
    inversion HF2 as [|r ? ? ? Hr HF3]; subst. inversion HF3; subst.
    assert (msg_seq m = mr_seq r) as Hseq.
    { unfold message_try_from, rbind in Hr. destruct (parse (mr_role r)); by simplify_eq. }
    destruct (unread_after a k (channel_messages c (w_db w)) rows1 (drop n u) r) as [Hrest Hlt].
    { by apply channel_messages_sorted. }
    { fold (unread a c k (w_db w)). fold u. rewrite <- (take_drop n u) at 1.
      by rewrite Hrows, <- app_assoc. }
    unfold upsert_inbox_cursor in E6. inv_run. simpl in *.
    match goal with H : upsert_cursor _ _ _ ?d = Ok (?d', _) |- _ =>
      replace d with (w_db w) in H by congruence;
      rewrite (upsert_cursor_advances _ _ _ _ _ H) by (fold k; lia);
      apply upsert_cursor_messages in H as Hm end.
    rewrite Hseq, <- Hrest. unfold unread, channel_messages. by rewrite Hm.
  - apply last_None in Hlast as ->. unfold ret in E6. simplify_eq. simpl in Hlen.
    assert (n ≠ 0)%nat as Hn by (unfold n; pose proof (clamp_range 1 200 limit); lia).
    assert (u = []) as Hu by (destruct u; [done|simpl in Hlen; lia]).
    rewrite Hu, drop_nil. symmetry. unfold unread, channel_messages.
    match goal with H : w_db _ = w_db w |- _ => rewrite H end. exact Hu.
Qed.

Lemma consume_inbox_exactly_once_witness :
  match consume_agent_inbox 203 2 (demo_env 5000) chat_world with
  | (w', Ok ms) => length ms = 2%nat
  | _ => False
  end.
Proof.
  pose proof (consume_inbox_exactly_once 203 2 (demo_env 5000) chat_world 100 chat_world_schema
    ltac:(vm_compute; reflexivity)) as H.
  destruct (consume_agent_inbox 203 2 (demo_env 5000) chat_world) as [w' [ms|x]] eqn:E.
  - destruct H as (rows & _ & _ & ->). vm_compute. reflexivity.
  - vm_compute in E. discriminate E.
Defined.
