(* ===== verification/StoreDeliveries.v ===== *)
(** * The durable delivery queue

    [crates/cocli-store/src/lib.rs]: one row of [delivery_queue] per user message and agent,
    with the states [pending], [in_flight] and [exhausted]. Reserving a due delivery counts an
    attempt; a failed attempt is deferred or exhausts the delivery; a reply completes it. *)
From S2P Require Import Prelude StoreTypes StoreDb StoreSchema StoreAgents StoreMessages.

Definition decode_deliveries (rows : list DeliveryRow) : M (list Delivery) :=
  lift (collect_results delivery_try_from rows).

(** [ORDER BY created_at, agent_id] and [ORDER BY next_attempt_at, created_at, id]. *)
Definition fanout_cmp : DeliveryRow → DeliveryRow → comparison :=
  on_cmp (λ r, (dr_created_at r, dr_agent_id r)) (pair_cmp Z.compare N.compare).
Definition due_cmp : DeliveryRow → DeliveryRow → comparison :=
  on_cmp (λ r, (dr_next_attempt_at r, (dr_created_at r, dr_id r)))
    (pair_cmp Z.compare (pair_cmp Z.compare N.compare)).

Definition list_message_deliveries (message_id : Uuid) : M (list Delivery) :=
  let! rows := fetch (λ db, sort_by fanout_cmp
    (bfilter (λ r, dr_message_id r =? message_id)%N (delivery_queue db))) in
  decode_deliveries rows.

Definition get_delivery (delivery_id : Uuid) : M (option Delivery) :=
  let! row := fetch_optional (λ db, bfilter (λ r, dr_id r =? delivery_id)%N (delivery_queue db)) in
  transpose delivery_try_from row.

Definition enqueue_deliveries (message : Message) (agent_ids : list Uuid) : M (list Delivery) :=
  let! now := utc_now in
  transaction (for_each (λ agent_id,
    let! id := new_v4 in
    execute (insert_delivery_or_ignore (new_delivery id agent_id message now))) agent_ids) ;;
  list_message_deliveries (msg_id message).

(** ** Reservation *)

Definition agent_running (db : DB) (agent_id : Uuid) : bool :=
  exists_row (λ a, (ar_id a =? agent_id)%N && str_eqb (ar_status a) "running") (agents db).

(** The [WHERE] clause of both reservations. *)
Definition due (max_attempts : Z) (now : Time) (db : DB) (r : DeliveryRow) : bool :=
  str_eqb (dr_state r) "pending" && (dr_next_attempt_at r <=? now) &&
  (dr_attempts r <? max_attempts) && agent_running db (dr_agent_id r).

(** [SET state = 'in_flight', attempts = attempts + 1, last_error = NULL, updated_at = ?]. *)
Definition reserve_row (now : Time) (r : DeliveryRow) : DeliveryRow :=
  mkDeliveryRow (dr_id r) (dr_agent_id r) (dr_channel_id r) (dr_message_id r) (dr_seq r)
    "in_flight" (dr_attempts r + 1) (dr_next_attempt_at r) None (dr_created_at r) now.

(** The copy of a candidate that is handed to the worker. *)
Definition reserve_delivery_value (now : Time) (d : Delivery) : Delivery :=
  mkDelivery (dl_id d) (dl_agent_id d) (dl_channel_id d) (dl_message_id d) (dl_seq d)
    InFlight (i64_saturating_add (dl_attempts d) 1) (dl_next_attempt_at d) None (dl_created_at d) now.

(** The loop over the candidates, with the [reserved] vector. *)
Fixpoint reserve_candidates (now : Time) (candidates : list Delivery) : M (list Delivery) :=
  match candidates with
  | [] => ret []
  | d :: rest =>
      let! n := execute (sql_update delivery_queue with_deliveries
        (λ _ r, (dr_id r =? dl_id d)%N && str_eqb (dr_state r) "pending") (reserve_row now)) in
      let! reserved := reserve_candidates now rest in
      ret (if n =? 1 then reserve_delivery_value now d :: reserved else reserved)
  end.

Definition reserve_due_deliveries (limit max_attempts : Z) (now : Time) : M (list Delivery) :=
  let limit := Z.max limit 1 in
  let max_attempts := Z.max max_attempts 1 in
  transaction (
    let! rows := fetch (λ db, take (Z.to_nat limit)
      (sort_by due_cmp (bfilter (due max_attempts now db) (delivery_queue db)))) in
    let! candidates := decode_deliveries rows in
    reserve_candidates now candidates).

Definition reserve_delivery (delivery_id : Uuid) (max_attempts : Z) (now : Time)
    : M (option Delivery) :=
  let! n := execute (sql_update delivery_queue with_deliveries
    (λ db r, (dr_id r =? delivery_id)%N && due (Z.max max_attempts 1) now db r)
    (reserve_row now)) in
  if negb (n =? 1) then ret None else get_delivery delivery_id.

(** ** Retry, release, completion *)

Definition nudge_agent_deliveries (agent_id : Uuid) : M Z :=
  let! now := utc_now in
  execute (sql_update delivery_queue with_deliveries
    (λ _ r, (dr_agent_id r =? agent_id)%N && str_eqb (dr_state r) "pending")
    (λ r, mkDeliveryRow (dr_id r) (dr_agent_id r) (dr_channel_id r) (dr_message_id r) (dr_seq r)
       (dr_state r) (dr_attempts r) now (dr_last_error r) (dr_created_at r) now)).

(** [state = CASE WHEN attempts >= ? THEN 'exhausted' ELSE 'pending' END]. *)
Definition defer_row (max_attempts : Z) (next_attempt_at : Time) (error : string) (now : Time)
    (r : DeliveryRow) : DeliveryRow :=
  mkDeliveryRow (dr_id r) (dr_agent_id r) (dr_channel_id r) (dr_message_id r) (dr_seq r)
    (if max_attempts <=? dr_attempts r then "exhausted" else "pending") (dr_attempts r)
    next_attempt_at (Some error) (dr_created_at r) now.

Definition defer_delivery (delivery_id : Uuid) (error : string) (next_attempt_at : Time)
    (max_attempts : Z) : M (option Delivery) :=
  let! now := utc_now in
  execute (sql_update delivery_queue with_deliveries
    (λ _ r, (dr_id r =? delivery_id)%N && str_eqb (dr_state r) "in_flight")
    (defer_row (Z.max max_attempts 1) next_attempt_at error now)) ;;
  get_delivery delivery_id.

Definition release_row (now : Time) (r : DeliveryRow) : DeliveryRow :=
  mkDeliveryRow (dr_id r) (dr_agent_id r) (dr_channel_id r) (dr_message_id r) (dr_seq r)
    "pending" (dr_attempts r) now (dr_last_error r) (dr_created_at r) now.

Definition release_in_flight_deliveries : M Z :=
  let! now := utc_now in
  execute (sql_update delivery_queue with_deliveries
    (λ _ r, str_eqb (dr_state r) "in_flight") (release_row now)).

Definition complete_delivery (delivery : Delivery) (content : string) : M Message :=
  let! row := transaction (
    let! deleted := execute (sql_delete delivery_queue with_deliveries
      (λ r, (dr_id r =? dl_id delivery)%N && str_eqb (dr_state r) "in_flight")) in
    if negb (deleted =? 1) then throw (DeliveryNotInFlight (dl_id delivery))
    else
      let! t1 := utc_now in
      upsert_inbox_cursor (dl_agent_id delivery) (dl_seq delivery) t1 ;;
      let! id := new_v4 in
      let! t2 := utc_now in
      execute (insert_message id (dl_channel_id delivery) (Some (dl_agent_id delivery))
        (as_str Assistant) content t2)) in
  lift (message_try_from row).

Definition delivery_stats (now : Time) : M DeliveryStats :=
  fetch (λ db,
    let rows := delivery_queue db in
    mkDeliveryStats
      (count_where (λ r, str_eqb (dr_state r) "pending") rows)
      (count_where (λ r, str_eqb (dr_state r) "in_flight") rows)
      (count_where (λ r, str_eqb (dr_state r) "exhausted") rows)
      (count_where (λ r, str_eqb (dr_state r) "pending" && (dr_next_attempt_at r <=? now)) rows)
      (max_key dr_attempts rows)).

(** ** The schema is preserved *)

Lemma reserve_row_ok p now :
  stmt_preserves schema_ok (sql_update delivery_queue with_deliveries p (reserve_row now)).
Proof. apply update_deliveries_ok; [done..|]. intros. by exists InFlight. Qed.
Lemma defer_row_ok p n t x now :
  stmt_preserves schema_ok (sql_update delivery_queue with_deliveries p (defer_row n t x now)).
Proof.
  apply update_deliveries_ok; [done..|]. intros r _. simpl.
  destruct (n <=? dr_attempts r); [by exists Exhausted|by exists Pending].
Qed.
Lemma release_row_ok p now :
  stmt_preserves schema_ok (sql_update delivery_queue with_deliveries p (release_row now)).
Proof. apply update_deliveries_ok; [done..|]. intros. by exists Pending. Qed.
#[export] Hint Resolve reserve_row_ok defer_row_ok release_row_ok : cocli.

Lemma get_delivery_readonly d : readonly (get_delivery d).
Proof.
  intros e w. unfold get_delivery, bind, fetch_optional, fetch, execute.
  destruct (env_fault e (w_ctr w)); [done|]. simpl. by destruct (head _).
Qed.
Lemma get_delivery_preserves P d : preserves P (get_delivery d).
Proof. apply preserves_readonly, get_delivery_readonly. Qed.
Lemma list_message_deliveries_preserves P m : preserves P (list_message_deliveries m).
Proof. unfold list_message_deliveries, decode_deliveries. preserves_tac. Qed.
#[export] Hint Resolve get_delivery_preserves list_message_deliveries_preserves : cocli.

Lemma enqueue_deliveries_schema m l : preserves schema_ok (enqueue_deliveries m l).
Proof. unfold enqueue_deliveries. preserves_tac. Qed.

(** Reserving keeps whatever its update keeps. *)
Lemma reserve_candidates_preserves P now l :
  (∀ id, stmt_preserves P (sql_update delivery_queue with_deliveries
     (λ _ r, (dr_id r =? id)%N && str_eqb (dr_state r) "pending") (reserve_row now))) →
  preserves P (reserve_candidates now l).
Proof. intros H. induction l as [|d l IH]; simpl; preserves_tac. Qed.

Lemma reserve_due_schema n m now : preserves schema_ok (reserve_due_deliveries n m now).
Proof.
  unfold reserve_due_deliveries, decode_deliveries. preserves_tac.
  apply reserve_candidates_preserves. intros id. apply reserve_row_ok.
Qed.
Lemma reserve_delivery_schema d n now : preserves schema_ok (reserve_delivery d n now).
Proof. unfold reserve_delivery. preserves_tac. Qed.
Lemma nudge_schema a : preserves schema_ok (nudge_agent_deliveries a).
Proof. unfold nudge_agent_deliveries. preserves_tac. by apply update_deliveries_ok. Qed.
Lemma defer_schema d x t n : preserves schema_ok (defer_delivery d x t n).
Proof. unfold defer_delivery. preserves_tac. Qed.
Lemma release_schema : preserves schema_ok release_in_flight_deliveries.
Proof. unfold release_in_flight_deliveries. preserves_tac. Qed.
Lemma complete_schema d t : preserves schema_ok (complete_delivery d t).
Proof. unfold complete_delivery, upsert_inbox_cursor. preserves_tac. Qed.

#[export] Hint Resolve enqueue_deliveries_schema reserve_due_schema reserve_delivery_schema
  nudge_schema defer_schema release_schema complete_schema : cocli.

(** ** Looking up one delivery *)

Definition delivery_at (db : DB) (id : Uuid) : option DeliveryRow :=
  head (bfilter (λ r, dr_id r =? id)%N (delivery_queue db)).

Lemma delivery_at_id db id r : delivery_at db id = Some r → dr_id r = id ∧ r ∈ delivery_queue db.
Proof. intros [? Hid%N.eqb_eq]%head_elem%elem_of_bfilter. done. Qed.

Lemma delivery_at_None db id : delivery_at db id = None → ∀ r, r ∈ delivery_queue db → dr_id r ≠ id.
Proof.
  unfold delivery_at. destruct (bfilter _ _) as [|x l] eqn:E; [|done]. intros _ r Hr Hid.
  assert (r ∈ bfilter (λ x, dr_id x =? id)%N (delivery_queue db)) as Hin.
  { apply elem_of_bfilter. by rewrite Hid, N.eqb_refl. }
  rewrite E in Hin. set_solver.
Qed.

Lemma delivery_at_elem db r :
  NoDup (map dr_id (delivery_queue db)) → r ∈ delivery_queue db → delivery_at db (dr_id r) = Some r.
Proof.
  intros Hnd Hr. destruct (delivery_at db (dr_id r)) as [r'|] eqn:E.
  - apply delivery_at_id in E as [Hid Hr']. f_equal. by eapply NoDup_key_eq.
  - by destruct (delivery_at_None _ _ E r Hr).
Qed.

Lemma bfilter_map_same {A} (p : A → bool) (g : A → A) (l : list A) :
  (∀ x, p (g x) = p x) → bfilter p (map g l) = map g (bfilter p l).
Proof.
  intros Hg. induction l as [|x l IH]; simpl; [done|]. rewrite Hg.
  destruct (p x); simpl; by rewrite IH.
Qed.

Lemma delivery_at_update p f db id :
  keeps dr_id f →
  delivery_at (with_deliveries (update_where p f) db) id =
    (λ r, if p r then f r else r) <$> delivery_at db id.
Proof.
  intros Hf. unfold delivery_at, update_where. simpl.
  rewrite bfilter_map_same; [by destruct (bfilter _ _)|].
  intros x. destruct (p x); [by rewrite Hf|done].
Qed.

Lemma delivery_at_delete p db id :
  NoDup (map dr_id (delivery_queue db)) →
  delivery_at (with_deliveries (delete_where p) db) id =
    match delivery_at db id with Some r => if p r then None else Some r | None => None end.
Proof.
  unfold delivery_at, delete_where. simpl.
  induction (delivery_queue db) as [|r l IH]; simpl; [done|]. intros [Hr Hnd]%NoDup_cons.
  destruct (N.eqb_spec (dr_id r) id) as [<-|Hne]; simpl.
  - destruct (p r); simpl; [|by rewrite N.eqb_refl].
    rewrite IH by done. rewrite bfilter_none; [done|].
    intros x Hx. apply N.eqb_neq. intros Heq. apply Hr, list_elem_of_fmap. by exists x.
  - destruct (p r); simpl; [by apply IH|]. rewrite (proj2 (N.eqb_neq _ _) Hne). by apply IH.
Qed.

Lemma delivery_at_add rows db id :
  delivery_at (add_deliveries rows db) id =
    match delivery_at db id with
    | Some r => Some r
    | None => head (bfilter (λ r, dr_id r =? id)%N rows)
    end.
Proof. unfold delivery_at. simpl. rewrite bfilter_app. by destruct (bfilter _ _). Qed.

(** An [UPDATE ... WHERE id = ?] on the primary key affects one row or none. *)
Lemma count_by_id (p : DeliveryRow → bool) db id r :
  NoDup (map dr_id (delivery_queue db)) → delivery_at db id = Some r → p r = true →
  count_where (λ x, (dr_id x =? id)%N && p x) (delivery_queue db) = 1.
Proof.
  unfold count_where, delivery_at. induction (delivery_queue db) as [|x l IH]; simpl; [done|].
  intros [Hx Hnd]%NoDup_cons. destruct (N.eqb_spec (dr_id x) id) as [<-|Hne]; simpl.
  - intros [= ->] ->. simpl. rewrite bfilter_none; [done|].
    intros y Hy. destruct (N.eqb_spec (dr_id y) (dr_id r)) as [Heq|]; [|done].
    destruct Hx. apply list_elem_of_fmap. by exists y.
  - by apply IH.
Qed.

Lemma count_by_id_inv (p : DeliveryRow → bool) db id :
  count_where (λ x, (dr_id x =? id)%N && p x) (delivery_queue db) = 1 →
  ∃ r, r ∈ delivery_queue db ∧ dr_id r = id ∧ p r = true.
Proof.
  unfold count_where. destruct (bfilter _ _) as [|r l] eqn:E; [done|]. intros _.
  assert (r ∈ bfilter (λ x, (dr_id x =? id)%N && p x) (delivery_queue db)) as Hr
    by (rewrite E; set_solver).
  apply elem_of_bfilter in Hr as [Hr [Hid%N.eqb_eq Hp]%andb_true_iff]. by exists r.
Qed.

(** ** What a reservation does *)

Definition chosen (ds : list Delivery) (r : DeliveryRow) : bool :=
  existsb (λ d, dl_id d =? dr_id r)%N ds && str_eqb (dr_state r) "pending".

Lemma reserve_candidates_spec now ds e w w' reserved :
  NoDup (map dr_id (delivery_queue (w_db w))) → NoDup (map dl_id ds) →
  (∀ d, d ∈ ds → ∃ r, delivery_at (w_db w) (dl_id d) = Some r ∧ dr_state r = "pending") →
  reserve_candidates now ds e w = (w', Ok reserved) →
  reserved = map (reserve_delivery_value now) ds ∧
  w_db w' = with_deliveries (update_where (chosen ds) (reserve_row now)) (w_db w).
Proof.
  revert w reserved. induction ds as [|d ds IH]; intros w reserved Hnd Hds Hpend H; simpl in H.
  { unfold ret in H. simplify_eq. split; [done|]. unfold with_deliveries, update_where.
    rewrite map_id. by destruct (w_db w'). }
  apply NoDup_cons in Hds as [Hd Hds].
  apply bind_ok in H as (w1 & n & (_ & Hupd & _)%execute_ok & H). injection Hupd as Hdb Hn.
  apply bind_ok in H as (w2 & res & H & Hret). unfold ret in Hret. simplify_eq.
  destruct (Hpend d) as (r & Hr & Hst); [set_solver|].
  rewrite (count_by_id _ _ _ r) by (done || by rewrite Hst).
  apply IH in H as [-> Hdb'].
  - split; [done|]. rewrite Hdb', <- Hdb. unfold with_deliveries. simpl. f_equal.
    unfold update_where. rewrite map_map. apply map_ext. intros x. unfold chosen. simpl.
    rewrite (N.eqb_sym (dl_id d)).
    destruct (dr_id x =? dl_id d)%N eqn:Ex, (str_eqb (dr_state x) "pending") eqn:Es; simpl;
      change (str_eqb "in_flight" "pending") with false;
      rewrite ?Es, ?andb_false_r, ?andb_true_r; done.
  - rewrite <- Hdb. simpl. by rewrite (map_update_where dr_id).
  - done.
  - intros d' Hd'. destruct (Hpend d') as (r' & Hr' & Hst'); [set_solver|].
    exists r'. rewrite <- Hdb, (delivery_at_update (λ x, (dr_id x =? dl_id d)%N && _)), Hr' by done.
    simpl. split; [|done]. apply delivery_at_id in Hr' as [Hid _].
    rewrite Hid. destruct (N.eqb_spec (dl_id d') (dl_id d)) as [Heq|]; [|done].
    destruct Hd. rewrite <- Heq. by apply list_elem_of_fmap_2.
Qed.

(** The deliveries a due reservation picks. *)
Definition due_rows (limit max_attempts : Z) (now : Time) (db : DB) : list DeliveryRow :=
  take (Z.to_nat (Z.max limit 1))
    (sort_by due_cmp (bfilter (due (Z.max max_attempts 1) now db) (delivery_queue db))).

Lemma delivery_try_from_fields r d :
  delivery_try_from r = Ok d →
  dl_id d = dr_id r ∧ dl_attempts d = dr_attempts r ∧ as_str (dl_state d) = dr_state r ∧
  dl_agent_id d = dr_agent_id r ∧ dl_message_id d = dr_message_id r.
Proof.
  unfold delivery_try_from, rbind. destruct (parse (dr_state r)) as [s|] eqn:E; [|done].
  intros [= <-]. split_and!; try done. exact (as_str_parse _ _ E).
Qed.

Lemma decode_ids rows ds :
  collect_results delivery_try_from rows = Ok ds → map dl_id ds = map dr_id rows.
Proof.
  intros HF%collect_results_Forall2. induction HF as [|r d rs ds Hd _ IH]; simpl; [done|].
  by destruct (delivery_try_from_fields r d Hd) as [-> _]; rewrite IH.
Qed.

Lemma due_rows_elem limit n now db r :
  r ∈ due_rows limit n now db → r ∈ delivery_queue db ∧ due (Z.max n 1) now db r = true.
Proof.
  intros Hr. apply (elem_of_bfilter (due (Z.max n 1) now db)), (elem_of_sort_by due_cmp).
  unfold due_rows in Hr. apply elem_of_take in Hr as (i & Hr & _). by eapply list_elem_of_lookup_2.
Qed.

Lemma due_pending n now db r : due n now db r = true → dr_state r = "pending".
Proof. unfold due. intros H. bsimp. by apply str_eqb_eq. Qed.

Lemma due_rows_NoDup limit n now db :
  NoDup (map dr_id (delivery_queue db)) → NoDup (map dr_id (due_rows limit n now db)).
Proof.
  intros Hnd. unfold due_rows. eapply sublist_NoDup; [|apply sublist_map, sublist_take].
  rewrite (Permutation_map dr_id (sort_by_perm due_cmp _)).
  eapply sublist_NoDup; [exact Hnd|]. apply sublist_map, bfilter_sublist.
Qed.

(** What a successful due reservation returns and changes. *)
Lemma reserve_due_spec limit n now e w w' reserved :
  schema_ok (w_db w) → reserve_due_deliveries limit n now e w = (w', Ok reserved) →
  ∃ ds, collect_results delivery_try_from (due_rows limit n now (w_db w)) = Ok ds ∧
    reserved = map (reserve_delivery_value now) ds ∧
    w_db w' = with_deliveries (update_where (chosen ds) (reserve_row now)) (w_db w).
Proof.
  intros Hok H. unfold reserve_due_deliveries, decode_deliveries in H.
  apply transaction_ok in H as (w1 & H & Hdb).
  apply bind_ok in H as (w2 & rows & [E2 ->]%fetch_ok & H).
  apply bind_ok in H as (w3 & ds & [-> Hds]%lift_ok & H). simpl in E2, Hds.
  fold (due_rows limit n now (w_db w)) in Hds.
  pose proof (so_deliveries _ Hok) as (Hnd & _ & _).
  apply collect_results_Forall2 in Hds as HF.
  assert (map dl_id ds = map dr_id (due_rows limit n now (w_db w))) as Hids.
  { by apply decode_ids. }
  apply reserve_candidates_spec in H as [Hres Hdb'].
  - exists ds. rewrite Hdb, Hdb', E2. by split_and!.
  - by rewrite E2.
  - rewrite Hids. by apply due_rows_NoDup.
  - intros d Hd. apply list_elem_of_lookup in Hd as [i Hi].
    destruct (Forall2_lookup_r _ _ _ _ _ HF Hi) as (r & Hr%list_elem_of_lookup_2 & Hdr).
    apply due_rows_elem in Hr as [Hin Hdue]. exists r. rewrite E2.
    destruct (delivery_try_from_fields r d Hdr) as [-> _]. split; [by apply delivery_at_elem|].
    unfold due in Hdue. bsimp. by apply str_eqb_eq.
Qed.

Lemma chosen_iff limit n now db ds r :
  NoDup (map dr_id (delivery_queue db)) →
  collect_results delivery_try_from (due_rows limit n now db) = Ok ds → r ∈ delivery_queue db →
  chosen ds r = bool_decide (dr_id r ∈ map dr_id (due_rows limit n now db)).
Proof.
  intros Hnd HF%collect_results_Forall2 Hr. apply eq_true_iff_eq.
  rewrite bool_decide_eq_true. unfold chosen. rewrite andb_true_iff, existsb_exists. split.
  - intros [(d & Hd%list_elem_of_In & Hid%N.eqb_eq) _]. apply list_elem_of_lookup in Hd as [i Hi].
    destruct (Forall2_lookup_r _ _ _ _ _ HF Hi) as (x & Hx%list_elem_of_lookup_2 & Hdx).
    apply list_elem_of_fmap. exists x. split; [|done].
    by destruct (delivery_try_from_fields x d Hdx) as [<- _].
  - intros (x & Hid & Hx)%list_elem_of_fmap.
    assert (r = x) as ->.
    { apply (NoDup_key_eq dr_id (delivery_queue db)); [done..| |done].
      by apply due_rows_elem in Hx as [? _]. }
    split; [|apply due_rows_elem in Hx as [_ Hdue]; unfold due in Hdue; by bsimp].
    apply list_elem_of_lookup in Hx as [i Hi].
    destruct (Forall2_lookup_l _ _ _ _ _ HF Hi) as (d & Hd%list_elem_of_lookup_2 & Hdx).
    exists d. split; [by apply list_elem_of_In|].
    destruct (delivery_try_from_fields x d Hdx) as [-> _]. apply N.eqb_refl.
Qed.

(** C5 (functional). A due reservation hands out exactly the due deliveries: it returns, in
    order of their due time, creation and identifier, the first [limit] pending deliveries
    whose time has come, whose attempts are below the maximum and whose agent is running,
    each marked in flight with one more attempt and no error, and it marks exactly those
    rows in the queue. A failed reservation, at whatever statement, reserves nothing. *)
Theorem reserve_due_hands_out_due (limit n : Z) (now : Time) (e : Env) (w : World) :
  schema_ok (w_db w) → in_i64 n →
  (∀ r, r ∈ delivery_queue (w_db w) → in_i64 (dr_attempts r)) →
  match reserve_due_deliveries limit n now e w with
  | (w', Ok reserved) =>
      collect_results delivery_try_from
        (map (reserve_row now) (due_rows limit n now (w_db w))) = Ok reserved ∧
      ∀ id, delivery_at (w_db w') id =
        (λ r, if bool_decide (dr_id r ∈ map dr_id (due_rows limit n now (w_db w)))
              then reserve_row now r else r) <$> delivery_at (w_db w) id
  | (w', Err _) => w_db w' = w_db w
  end.
Proof.
  intros Hok Hn Hatt.
  destruct (reserve_due_deliveries limit n now e w) as [w' [reserved|x]] eqn:E;
    [|exact (transaction_atomic _ e w w' x E)].
  apply reserve_due_spec in E as (ds & Hds & -> & ->); [|done].
  pose proof (so_deliveries _ Hok) as (Hnd & _ & _). split.
  - apply collect_results_Forall2 in Hds as HF. apply collect_results_Forall2.
    apply Forall2_fmap, Forall2_same_length_lookup_2;
      [by apply Forall2_length in HF|]. intros i r d Hi Hd.
    destruct (Forall2_lookup_l _ _ _ _ _ HF Hi) as (d' & Hd' & Hrd). simplify_eq.
    apply list_elem_of_lookup_2, due_rows_elem in Hi as [Hin Hdue].
    specialize (Hatt r Hin). unfold due in Hdue. bsimp.
    unfold delivery_try_from, rbind in Hrd. destruct (parse (dr_state r)); simplify_eq.
    unfold delivery_try_from, reserve_delivery_value. simpl. do 2 f_equal. ilia.
  - intros id. rewrite (delivery_at_update (chosen ds)) by done.
    destruct (delivery_at (w_db w) id) as [r|] eqn:Er; [|done]. simpl.
    apply delivery_at_id in Er as [_ Hr]. by rewrite (chosen_iff limit n now (w_db w) ds r).
Qed.

(** ** The life of a delivery *)

(** The abstract state of a delivery: absent (not queued, or completed), or its state and
    the number of attempts made. *)
Definition dview (db : DB) (id : Uuid) : option (DeliveryState * Z) :=
  match delivery_at db id with
  | Some r => match parse (dr_state r) with Ok s => Some (s, dr_attempts r) | Err _ => None end
  | None => None
  end.

(** The transitions of the specification, for a retry budget [n]. *)
Inductive dstep (n : Z) : option (DeliveryState * Z) → option (DeliveryState * Z) → Prop :=
  | dstep_enqueue : dstep n None (Some (Pending, 0))
  | dstep_reserve k : k < n → dstep n (Some (Pending, k)) (Some (InFlight, k + 1))
  | dstep_retry k : k < n → dstep n (Some (InFlight, k)) (Some (Pending, k))
  | dstep_exhaust k : dstep n (Some (InFlight, k)) (Some (Exhausted, k))
  | dstep_release k : dstep n (Some (InFlight, k)) (Some (Pending, k))
  | dstep_complete k : dstep n (Some (InFlight, k)) None.

Definition dsteps (n : Z) (x y : option (DeliveryState * Z)) : Prop := x = y ∨ dstep n x y.

(** The operations of the queue, with the worker's retry budget. A deferral uses the budget
    or, when the attempt's outcome is unknown, a smaller number that exhausts it. *)
Inductive DeliveryOp : Type :=
  | OpEnqueue (message : Message) (agent_ids : list Uuid)
  | OpAppendUser (channel_id : Uuid) (content : string)
  | OpReserveDue (limit : Z) (now : Time)
  | OpReserve (id : Uuid) (now : Time)
  | OpNudge (agent_id : Uuid)
  | OpDefer (id : Uuid) (error : string) (next : Time) (budget : Z)
  | OpRelease
  | OpComplete (delivery : Delivery) (content : string).

Definition run_delivery_op (n : Z) (op : DeliveryOp) : M unit :=
  match op with
  | OpEnqueue m l => enqueue_deliveries m l ;; ret tt
  | OpAppendUser c t => append_user_message_with_deliveries c t ;; ret tt
  | OpReserveDue limit now => reserve_due_deliveries limit n now ;; ret tt
  | OpReserve id now => reserve_delivery id n now ;; ret tt
  | OpNudge a => nudge_agent_deliveries a ;; ret tt
  | OpDefer id x t k => defer_delivery id x t (Z.min k n) ;; ret tt
  | OpRelease => release_in_flight_deliveries ;; ret tt
  | OpComplete d t => complete_delivery d t ;; ret tt
  end.

(** The result of an operation does not matter for its effect. *)
Lemma discard_db {A} (m : M A) e w : w_db ((m ;; ret tt) e w).1 = w_db (m e w).1.
Proof. unfold bind. by destruct (m e w) as [w' [a|x]]. Qed.

Lemma upsert_cursor_queue a s now db db' u :
  upsert_cursor a s now db = Ok (db', u) → delivery_queue db' = delivery_queue db.
Proof. unfold upsert_cursor. intros H. by inv_stmt. Qed.

Section Lifecycle.
Context (n : Z) (Hn : 1 ≤ n).

(** An operation moves every delivery by at most one step of the specification. *)
Definition follows {A} (m : M A) : Prop :=
  ∀ e w, schema_ok (w_db w) → ∀ id, dsteps n (dview (w_db w) id) (dview (w_db (m e w).1) id).

Definition stmt_follows {A} (s : DB → result (DB * A) SqlError) : Prop :=
  ∀ db db' a, schema_ok db → s db = Ok (db', a) → ∀ id, dsteps n (dview db id) (dview db' id).

Lemma dsteps_refl x : dsteps n x x.
Proof. by left. Qed.

Lemma follows_atomic {A} (m : M A) :
  atomic m → (∀ e w w' a, schema_ok (w_db w) → m e w = (w', Ok a) →
                ∀ id, dsteps n (dview (w_db w) id) (dview (w_db w') id)) → follows m.
Proof.
  intros Hat Hm e w Hok id. destruct (m e w) as [w' [a|x]] eqn:E; simpl; [by eapply Hm|].
  rewrite (Hat e w w' x E). apply dsteps_refl.
Qed.

Lemma follows_execute {A} (s : DB → result (DB * A) SqlError) : stmt_follows s → follows (execute s).
Proof.
  intros Hs. apply follows_atomic; [apply execute_atomic|].
  intros e w w' a Hok (_ & H & _)%execute_ok id. by eapply Hs.
Qed.

Lemma follows_then_readonly {A B} (m : M A) (k : A → M B) :
  follows m → (∀ a, readonly (k a)) → follows (bind m k).
Proof.
  intros Hm Hk e w Hok id. specialize (Hm e w Hok id). unfold bind.
  destruct (m e w) as [w' [a|x]]; simpl in *; [by rewrite Hk|done].
Qed.

Lemma follows_after_now {B} (k : Time → M B) : (∀ t, follows (k t)) → follows (bind utc_now k).
Proof. intros Hk e w Hok id. unfold bind, utc_now. by apply (Hk _ e (tick w)). Qed.

(** A row-wise update is a step when the row's view is. *)
Lemma update_follows p f :
  keeps dr_id f →
  (∀ db r s, schema_ok db → r ∈ delivery_queue db → parse (dr_state r) = Ok s → p db r = true →
     ∃ s', parse (dr_state (f r)) = Ok s' ∧
           dsteps n (Some (s, dr_attempts r)) (Some (s', dr_attempts (f r)))) →
  stmt_follows (sql_update delivery_queue with_deliveries p f).
Proof.
  intros Hf Hp db db' a Hok [= <- _] id. unfold dview.
  rewrite (delivery_at_update (p db)) by done.
  destruct (delivery_at db id) as [r|] eqn:Er; [|apply dsteps_refl].
  cbn [fmap option_fmap option_map].
  destruct (p db r) eqn:E; [|apply dsteps_refl].
  apply delivery_at_id in Er as [_ Hr].
  pose proof (so_deliveries _ Hok) as (_ & _ & Hall). rewrite Forall_forall in Hall.
  destruct (Hall r Hr) as (_ & _ & _ & s & Hs).
  destruct (Hp db r s) as (s' & Hs' & Hstep); [done|done|by rewrite Hs, parse_as_str|done|].
  by rewrite Hs, parse_as_str, Hs'.
Qed.

(** New rows appear as pending deliveries with no attempt. *)
Lemma add_follows rows db id :
  Forall (λ r, ∃ i a m t, r = new_delivery i a m t) rows →
  dsteps n (dview db id) (dview (add_deliveries rows db) id).
Proof.
  intros Hall. unfold dview. rewrite delivery_at_add.
  destruct (delivery_at db id) as [r|]; [apply dsteps_refl|].
  destruct (head (bfilter _ rows)) as [r|] eqn:E; [|apply dsteps_refl].
  apply head_elem, elem_of_bfilter in E as [Hr _]. rewrite Forall_forall in Hall.
  destruct (Hall r Hr) as (i & a & m & t & ->). right. apply dstep_enqueue.
Qed.

Lemma reserve_due_follows limit now : follows (reserve_due_deliveries limit n now).
Proof.
  apply follows_atomic; [apply transaction_atomic|].
  intros e w w' ds Hok (cs & Hcs & _ & ->)%reserve_due_spec id; [|done].
  pose proof (so_deliveries _ Hok) as (Hnd & _ & _). unfold dview.
  rewrite (delivery_at_update (chosen cs)) by done.
  destruct (delivery_at (w_db w) id) as [r|] eqn:Er; [|apply dsteps_refl].
  cbn [fmap option_fmap option_map].
  apply delivery_at_id in Er as [_ Hr]. rewrite (chosen_iff limit n now (w_db w) cs r) by done.
  case_bool_decide as Hin; [|apply dsteps_refl]. apply list_elem_of_fmap in Hin as (x & Hid & Hx).
  apply due_rows_elem in Hx as [Hx Hdue].
  rewrite (NoDup_key_eq dr_id (delivery_queue (w_db w)) r x) by done.
  unfold due in Hdue. bsimp.
  match goal with H : str_eqb _ _ = true |- _ => apply str_eqb_eq in H as -> end.
  right. apply dstep_reserve. lia.
Qed.

Lemma complete_follows d t : follows (complete_delivery d t).
Proof.
  apply follows_then_readonly; [|by intros row e w].
  apply follows_atomic; [apply transaction_atomic|].
  intros e w w' row Hok (w1 & H & ->)%transaction_ok id.
  apply bind_ok in H as (w2 & k & (_ & [= Hdb _] & _)%execute_ok & H).
  destruct (negb (k =? 1)); [done|]. unfold upsert_inbox_cursor in H. inv_run. simpl in *.
  match goal with H : insert_message _ _ _ _ _ _ _ = _ |- _ =>
    apply insert_message_fields in H as [_ Hm] end.
  match goal with H : upsert_cursor _ _ _ _ = Ok (_, _) |- _ =>
    apply upsert_cursor_queue in H as Hq end.
  assert (dview (w_db w1) id = dview (w_db w2) id) as ->.
  { unfold dview, delivery_at. rewrite Hm. simpl. by rewrite Hq. }
  pose proof (so_deliveries _ Hok) as (Hnd & _ & _). unfold dview.
  rewrite <- Hdb, delivery_at_delete by done.
  destruct (delivery_at (w_db w) id) as [r|] eqn:Er; [|apply dsteps_refl].
  destruct (_ && str_eqb (dr_state r) "in_flight") eqn:E; [|apply dsteps_refl].
  apply andb_true_iff in E as [_ ->%str_eqb_eq]. right. apply dstep_complete.
Qed.

Lemma reserve_follows id now : follows (reserve_delivery id n now).
Proof.
  apply follows_then_readonly.
  2:{ intros k e w. destruct (negb (k =? 1)); [done|apply get_delivery_readonly]. }
  apply follows_execute, update_follows; [done|].
  intros db r s _ _ Hs [_ Hdue]%andb_true_iff. unfold due in Hdue. bsimp.
  exists InFlight. split; [done|]. right.
  match goal with H : str_eqb _ _ = true |- _ => apply str_eqb_eq in H; rewrite H in Hs end.
  injection Hs as <-. apply dstep_reserve. lia.
Qed.

Lemma nudge_follows a : follows (nudge_agent_deliveries a).
Proof.
  apply follows_after_now. intros t. apply follows_execute, update_follows; [done|].
  intros db r s _ _ Hs _. exists s. split; [done|]. apply dsteps_refl.
Qed.

Lemma defer_follows id x t k : k ≤ n → follows (defer_delivery id x t k).
Proof.
  intros Hk. apply follows_after_now. intros now.
  apply follows_then_readonly; [|intros _; apply get_delivery_readonly].
  apply follows_execute, update_follows; [done|].
  intros db r s _ _ Hs [_ Hst%str_eqb_eq]%andb_true_iff. rewrite Hst in Hs. injection Hs as <-.
  simpl. destruct (Z.leb_spec (Z.max k 1) (dr_attempts r)).
  - exists Exhausted. split; [done|]. right. apply dstep_exhaust.
  - exists Pending. split; [done|]. right. apply dstep_retry. lia.
Qed.

Lemma release_follows : follows release_in_flight_deliveries.
Proof.
  apply follows_after_now. intros now. apply follows_execute, update_follows; [done|].
  intros db r s _ _ Hs Hst%str_eqb_eq. rewrite Hst in Hs. injection Hs as <-.
  exists Pending. split; [done|]. right. apply dstep_release.
Qed.

Lemma append_user_follows c t : follows (append_user_message_with_deliveries c t).
Proof.
  apply follows_atomic; [apply append_user_atomic|].
  intros e w w' m _ (_ & rows & [_ Hall] & ->)%append_user_ok id.
  change (dview (w_db w) id) with
    (dview (with_messages (λ l, l ++ [mkMessageRow (msg_id m) c (msg_seq m) None (as_str User) t
       (env_now e (w_ctr w))])%list (w_db w)) id).
  apply add_follows. eapply Forall_impl; [exact Hall|]. intros r (i & a & ->). by eexists _, _, _, _.
Qed.

(** Enqueueing adds rows for the agents that had none. *)
Lemma enqueue_loop_rows message now l e w w' u :
  for_each (λ agent_id, let! id := new_v4 in
    execute (insert_delivery_or_ignore (new_delivery id agent_id message now))) l e w = (w', Ok u) →
  ∃ rows, Forall (λ r, ∃ i a m t, r = new_delivery i a m t) rows ∧
    w_db w' = add_deliveries rows (w_db w).
Proof.
  revert w. induction l as [|a l IH]; intros w H; simpl in H.
  { unfold ret in H. simplify_eq. exists []. by rewrite add_deliveries_nil. }
  apply bind_ok in H as (w1 & [] & H1 & H2). inv_run. simpl in *.
  apply IH in H2 as (rows & Hall & ->).
  match goal with H : insert_delivery_or_ignore _ _ = _ |- _ =>
    unfold insert_delivery_or_ignore in H; destruct (_ || _) in H;
    [injection H as <-; by exists rows|apply insert_delivery_db in H as ->] end.
  rewrite add_deliveries_app. eexists. split; [|reflexivity].
  constructor; [by eexists _, _, _, _|done].
Qed.

Lemma enqueue_follows m l : follows (enqueue_deliveries m l).
Proof.
  apply follows_after_now. intros now. apply follows_then_readonly.
  - apply follows_atomic; [apply transaction_atomic|].
    intros e w w' u _ (w1 & (rows & Hall & Hdb)%enqueue_loop_rows & ->)%transaction_ok id.
    rewrite Hdb. by apply add_follows.
  - intros _ e w. unfold list_message_deliveries, decode_deliveries, bind, fetch, execute.
    by destruct (env_fault e (w_ctr w)).
Qed.

Lemma run_delivery_op_follows op : follows (run_delivery_op n op).
Proof.
  intros e w Hok id. destruct op; simpl; rewrite discard_db.
  - by apply enqueue_follows.
  - by apply append_user_follows.
  - by apply reserve_due_follows.
  - by apply reserve_follows.
  - by apply nudge_follows.
  - apply defer_follows; [lia|done].
  - by apply release_follows.
  - by apply complete_follows.
Qed.
End Lifecycle.

(** ** Histories of the queue *)

(** Operations run one after the other, each in its own environment: transactions of
    concurrent workers interleave in this way. *)
Definition run_delivery_ops (n : Z) (ops : list (Env * DeliveryOp)) (w : World) : World :=
  fold_left (λ w '(e, op), (run_delivery_op n op e w).1) ops w.

Lemma run_delivery_op_schema n op : preserves schema_ok (run_delivery_op n op).
Proof. destruct op; simpl; apply preserves_bind; auto with cocli. Qed.

Lemma run_delivery_ops_path n ops w :
  1 ≤ n → schema_ok (w_db w) →
  schema_ok (w_db (run_delivery_ops n ops w)) ∧
  ∀ id, rtc (dstep n) (dview (w_db w) id) (dview (w_db (run_delivery_ops n ops w)) id).
Proof.
  intros Hn. revert w. induction ops as [|[e op] ops IH]; intros w Hok; simpl; [by split|].
  destruct (IH (run_delivery_op n op e w).1) as [Hok' Hpath]; [by apply run_delivery_op_schema|].
  split; [done|]. intros id. etransitivity; [|apply Hpath].
  destruct (run_delivery_op_follows n Hn op e w Hok id) as [->|Hstep]; [done|by apply rtc_once].
Qed.


(** The budget as an invariant of the state machine. *)
Definition within_budget (n : Z) (v : option (DeliveryState * Z)) : Prop :=
  match v with
  | Some (s, k) => 0 ≤ k ≤ n ∧ (s = InFlight ∨ s = Exhausted → 1 ≤ k)
  | None => True
  end.

Lemma within_budget_step n x y : 1 ≤ n → within_budget n x → dstep n x y → within_budget n y.
Proof.
  intros Hn Hx Hs. destruct Hs; simpl in *; try done;
    try (split; [lia|intros [?|?]; (done || lia)]);
    destruct Hx as [? Hk]; (split; [lia|]); intros [?|?]; try done; apply Hk; auto.
Qed.

(** C20 (bounds). No delivery is ever attempted more than the budget allows: from an empty
    queue, in every history the attempts of a delivery stay between 0 and [n], and one that
    is in flight or exhausted was attempted at least once. *)
Theorem delivery_attempts_bounded (n : Z) (ops : list (Env * DeliveryOp)) (w : World)
    (id : Uuid) (s : DeliveryState) (k : Z) :
  1 ≤ n → schema_ok (w_db w) → delivery_queue (w_db w) = [] →
  dview (w_db (run_delivery_ops n ops w)) id = Some (s, k) →
  0 ≤ k ≤ n ∧ (s = InFlight ∨ s = Exhausted → 1 ≤ k).
Proof.
  intros Hn Hok Hq Hv. destruct (run_delivery_ops_path n ops w Hn Hok) as [_ Hpath].
  specialize (Hpath id). rewrite Hv in Hpath.
  assert (dview (w_db w) id = None) as H0 by (unfold dview, delivery_at; by rewrite Hq).
  rewrite H0 in Hpath. clear Hv H0.
  enough (within_budget n (Some (s, k))) as H by exact H.
  assert (within_budget n None) as Hb by exact I. revert Hb.
  induction Hpath as [x|x y z Hxy _ IH]; intros Hx; [done|]. apply IH. by eapply within_budget_step.
Qed.

(** A delivery is handed to one worker at a time: what one due reservation
    returned, no later reservation (of a batch or of one delivery) returns again until it
    was deferred, released or completed; and a batch never holds a delivery twice. *)
Theorem reservations_exclusive (limit limit' n n' : Z) (now now' : Time) (e e' : Env)
    (w w1 w2 : World) (r1 : list Delivery) :
  schema_ok (w_db w) → reserve_due_deliveries limit n now e w = (w1, Ok r1) →
  NoDup (map dl_id r1) ∧
  (∀ r2, reserve_due_deliveries limit' n' now' e' w1 = (w2, Ok r2) →
         ∀ d, d ∈ r2 → dl_id d ∉ map dl_id r1) ∧
  (∀ id d, reserve_delivery id n' now' e' w1 = (w2, Ok (Some d)) → id ∉ map dl_id r1).
Proof.
  intros Hok H1. pose proof (reserve_due_schema limit n now e w Hok) as Hok1. rewrite H1 in Hok1.
  apply reserve_due_spec in H1 as (ds & Hds & -> & Hdb); [|done].
  pose proof (so_deliveries _ Hok) as (Hnd & _ & _).
  pose proof (so_deliveries _ Hok1) as (Hnd1 & _ & _).
  assert (map dl_id (map (reserve_delivery_value now) ds) =
          map dr_id (due_rows limit n now (w_db w))) as Hids.
  { rewrite map_map. by apply decode_ids. }
  assert (∀ id r, id ∈ map dl_id (map (reserve_delivery_value now) ds) →
                  delivery_at (w_db w1) id = Some r → dr_state r = "in_flight") as Hfl.
  { intros id r Hin Hr. rewrite Hdb, (delivery_at_update (chosen ds)) in Hr by done.
    apply fmap_Some in Hr as (x & Hx & ->). apply delivery_at_id in Hx as [Hid Hx]. subst id.
    rewrite (chosen_iff limit n now (w_db w)), bool_decide_true by (done || by rewrite <- Hids).
    done. }
  split_and!.
  - rewrite Hids. by apply due_rows_NoDup.
  - intros r2 (ds2 & Hds2 & -> & _)%reserve_due_spec d Hd Hin; [|done].
    apply list_elem_of_fmap in Hd as (d2 & -> & Hd2). simpl in Hin.
    apply list_elem_of_lookup in Hd2 as [i Hi]. apply collect_results_Forall2 in Hds2.
    destruct (Forall2_lookup_r _ _ _ _ _ Hds2 Hi) as (r & Hr%list_elem_of_lookup_2 & Hrd).
    destruct (delivery_try_from_fields r d2 Hrd) as [Hid _]. rewrite Hid in Hin.
    apply due_rows_elem in Hr as [Hr Hdue]. apply due_pending in Hdue.
    rewrite (Hfl _ r Hin) in Hdue; [done|]. by apply delivery_at_elem.
  - intros id d H Hin. unfold reserve_delivery in H.
    apply bind_ok in H as (w3 & k & (_ & [= _ Hk] & _)%execute_ok & H).
    destruct (Z.eqb_spec k 1) as [->|]; [|done].
    apply count_by_id_inv in Hk as (r & Hr & Hid & Hdue). apply due_pending in Hdue.
    rewrite (Hfl id r Hin) in Hdue; [done|]. rewrite <- Hid. by apply delivery_at_elem.
Qed.

(** ** Completion *)

Lemma upsert_cursor_reaches a s now db db' u :
  upsert_cursor a s now db = Ok (db', u) → s ≤ inbox_cursor a db'.
Proof.
  unfold upsert_cursor, inbox_cursor. intros H. inv_stmt; simpl.
  - rewrite (bfilter_update_where (λ r, (ir_agent_id r =? a)%N)) by done.
    destruct (bfilter _ _) as [|r l] eqn:E; simpl in *; [|lia].
    apply exists_row_true in Hif as (x & Hx & Hp).
    assert (x ∈ bfilter (λ r, (ir_agent_id r =? a)%N) (agent_inbox_state db)) as Hin
      by (by apply elem_of_bfilter). rewrite E in Hin. set_solver.
  - rewrite bfilter_app. rewrite exists_row_false in Hif.
    rewrite (bfilter_none (λ r, (ir_agent_id r =? a)%N) (agent_inbox_state db)) by done.
    simpl. rewrite N.eqb_refl. simpl. lia.
Qed.

Lemma complete_atomic d t : atomic (complete_delivery d t).
Proof.
  intros e w w' x E. unfold complete_delivery in E.
  apply bind_err in E as [E|(w1 & row & E1 & E)]; [exact (transaction_atomic _ _ _ _ _ E)|].
  exfalso. apply transaction_ok in E1 as (w2 & H & _).
  apply bind_ok in H as (w3 & k & _ & H). destruct (negb (k =? 1)); [done|].
  unfold upsert_inbox_cursor in H. inv_run.
  match goal with H : insert_message _ _ _ _ _ _ _ = _ |- _ =>
    apply insert_message_fields in H as [-> _] end. done.
Qed.

(** The steps of a successful completion. *)
Lemma complete_ok d t e w w' m :
  complete_delivery d t e w = (w', Ok m) →
  ∃ db1 now,
    count_where (λ r, (dr_id r =? dl_id d)%N && str_eqb (dr_state r) "in_flight")
      (delivery_queue (w_db w)) = 1 ∧
    upsert_cursor (dl_agent_id d) (dl_seq d) now
      (with_deliveries (delete_where (λ r, (dr_id r =? dl_id d)%N && str_eqb (dr_state r) "in_flight"))
         (w_db w)) = Ok (db1, tt) ∧
    messages db1 = messages (w_db w) ∧
    m = mkMessage (msg_id m) (dl_channel_id d)
          (max_key mr_seq (bfilter (λ r, mr_channel_id r =? dl_channel_id d)%N (messages (w_db w))) + 1)
          (Some (dl_agent_id d)) Assistant t (msg_created_at m) ∧
    w_db w' = with_messages (λ l, l ++ [mkMessageRow (msg_id m) (dl_channel_id d) (msg_seq m)
                (Some (dl_agent_id d)) (as_str Assistant) t (msg_created_at m)])%list db1.
Proof.
  intros H. unfold complete_delivery in H. apply bind_ok in H as (w0 & row & H & Hrow).
  apply lift_ok in Hrow as [-> Hrow]. apply transaction_ok in H as (w1 & H & Hdb).
  apply bind_ok in H as (w2 & k & (_ & [= Hdel Hk] & _)%execute_ok & H). simpl in Hdel, Hk.
  destruct (Z.eqb_spec k 1) as [->|]; [|done]. unfold upsert_inbox_cursor in H. simpl in H.
  inv_run. simpl in *.
  match goal with H : insert_message _ _ _ _ _ _ _ = _ |- _ =>
    apply insert_message_fields in H as [-> Hins] end.
  match goal with H : upsert_cursor _ _ ?now _ = Ok (?db1, ?u) |- _ =>
    rewrite <- Hdel in H; destruct u; pose proof (upsert_cursor_messages _ _ _ _ _ H) as Hm;
    exists db1, now end.
  simpl in Hm. injection Hrow as <-. simpl. rewrite <- Hm. split_and!; try done.
  by rewrite Hdb, Hins.
Qed.


(** ** A delivery that no worker can reach *)

(** C40 (error). A restart during the last attempt strands the delivery: once
    [release_in_flight_deliveries] has made an in-flight delivery with no attempt left
    pending again, no operation of the queue reserves it, exhausts it or completes it; it
    stays pending for good, although the budget is spent. *)
Theorem released_last_attempt_is_stranded (n k : Z) (e : Env) (w : World) (id : Uuid)
    (ops : list (Env * DeliveryOp)) :
  1 ≤ n → n ≤ k → schema_ok (w_db w) → fault_free e →
  dview (w_db w) id = Some (InFlight, k) →
  dview (w_db (run_delivery_ops n ops (run_delivery_op n OpRelease e w).1)) id = Some (Pending, k).
Proof.
  intros Hn Hk Hok Hff Hv.
  pose proof (run_delivery_op_schema n OpRelease e w Hok) as Hok1.
  destruct (run_delivery_ops_path n ops _ Hn Hok1) as [_ Hpath]. specialize (Hpath id).
  assert (dview (w_db (run_delivery_op n OpRelease e w).1) id = Some (Pending, k)) as H1.
  { simpl. rewrite discard_db. unfold release_in_flight_deliveries, bind at 1, utc_now.
    rewrite (execute_run e Hff). simpl. unfold dview in *. rewrite (delivery_at_update _) by done.
    simpl. destruct (delivery_at (w_db w) id) as [r|]; [|done].
    cbn [fmap option_fmap option_map] in *.
    destruct (parse (dr_state r)) as [s|] eqn:Es; [|done]. injection Hv as -> <-.
    apply as_str_parse in Es as <-. done. }
  rewrite H1 in Hpath. inversion Hpath as [|x y z Hs _]; [done|].
  inversion Hs; lia.
Qed.

(** ** Concrete runs *)

(** One user message queued for the agent of [one_agent_world]. *)
Definition queued_world : World :=
  (append_user_message_with_deliveries 100 "hello" (demo_env 1000) one_agent_world).1.

Lemma one_agent_schema : schema_ok (w_db one_agent_world).
Proof. apply create_agent_schema, create_channel_schema, schema_ok_empty. Qed.

Lemma queued_schema : schema_ok (w_db queued_world).
Proof. apply append_user_message_schema, one_agent_schema. Qed.

(** The identifier of its delivery. *)
Definition queued_id : Uuid :=
  match delivery_queue (w_db queued_world) with r :: _ => dr_id r | [] => 0%N end.

Lemma reserve_due_hands_out_due_witness :
  match reserve_due_deliveries 5 3 1000 (demo_env 2000) queued_world with
  | (w', Ok reserved) => collect_results delivery_try_from
      (map (reserve_row 1000) (due_rows 5 3 1000 (w_db queued_world))) = Ok reserved
  | _ => False
  end.
Proof.
  pose proof (reserve_due_hands_out_due 5 3 1000 (demo_env 2000) queued_world queued_schema
    ltac:(ilia)) as H.
  destruct (reserve_due_deliveries 5 3 1000 (demo_env 2000) queued_world) as [w' [ds|x]] eqn:E.
  - apply H. intros r Hr. vm_compute in Hr. inversion Hr as [|? ? ? Hy]; subst; [simpl; ilia|].
    inversion Hy.
  - vm_compute in E. discriminate E.
Defined.

(** Reserve, then fail, then reserve again. *)
Definition retry_history : list (Env * DeliveryOp) :=
  [(demo_env 2000, OpReserveDue 5 1000); (demo_env 2000, OpDefer queued_id "boom" 2000 3);
   (demo_env 2000, OpReserve queued_id 3000)].


Lemma delivery_attempts_bounded_witness :
  0 ≤ 2 ≤ 3 ∧ (InFlight = InFlight ∨ InFlight = Exhausted → 1 ≤ 2).
Proof.
  refine (delivery_attempts_bounded 3
    ((demo_env 1000, OpAppendUser 100 "hello") :: retry_history) one_agent_world queued_id
    InFlight 2 _ one_agent_schema _ _); [lia|vm_compute; reflexivity..].
Defined.

Lemma reservations_exclusive_witness :
  ∃ w1 r1, reserve_due_deliveries 5 3 1000 (demo_env 2000) queued_world = (w1, Ok r1) ∧
    map dl_id r1 = [queued_id] ∧ NoDup (map dl_id r1).
Proof.
  destruct (reserve_due_deliveries 5 3 1000 (demo_env 2000) queued_world) as [w1 [r1|x]] eqn:E;
    [|vm_compute in E; discriminate E].
  exists w1, r1. split_and!; [reflexivity| |].
  - pose proof E as F. vm_compute in F. injection F as _ <-. vm_compute. reflexivity.
  - exact (proj1 (reservations_exclusive 5 5 3 3 1000 1000 (demo_env 2000) (demo_env 3000)
      queued_world w1 w1 r1 queued_schema E)).
Defined.

(** The delivery reserved, and the copy its worker holds. *)
Definition in_flight_world : World :=
  (reserve_due_deliveries 5 1 1000 (demo_env 2000) queued_world).1.
Definition in_flight_delivery : Delivery :=
  mkDelivery queued_id 203 100 1010 1 InFlight 1 0 None 0 0.

Lemma in_flight_schema : schema_ok (w_db in_flight_world).
Proof. apply reserve_due_schema, queued_schema. Qed.


Lemma released_last_attempt_is_stranded_witness :
  dview (w_db (run_delivery_ops 1 [(demo_env 4000, OpReserveDue 100 999999);
    (demo_env 4000, OpReserve queued_id 999999); (demo_env 4000, OpNudge 203)]
    (run_delivery_op 1 OpRelease (demo_env 3000) in_flight_world).1)) queued_id
  = Some (Pending, 1).
Proof.
  apply released_last_attempt_is_stranded; [lia|lia|apply in_flight_schema|by intros n|].
  vm_compute. reflexivity.
Defined.

(** ** One cursor for all channels *)

(** The agent of [one_agent_world] joins a second channel; another agent's message arrives
    in its default channel (number 1 there), and a user message in the second channel
    (number 1 there) is delivered and answered. *)
Definition two_channel_world : World :=
  let w1 := (create_channel "side" (demo_env 500) one_agent_world).1 in
  let side := match last (channels (w_db w1)) with Some c => ch_id c | None => 0%N end in
  let w2 := (add_agent_to_channel side 203 None None None None (demo_env 600) w1).1 in
  let w3 := (append_message 100 None Assistant "please read" (demo_env 700) w2).1 in
  let w4 := (append_user_message_with_deliveries side "question" (demo_env 800) w3).1 in
  match reserve_due_deliveries 5 3 99999 (demo_env 900) w4 with
  | (w5, Ok (d :: _)) => (complete_delivery d "answer" (demo_env 950) w5).1
  | (w5, _) => w5
  end.

(** The inbox cursor is one number per agent, but sequence numbers count per
    channel: completing a delivery of another channel moves the cursor past messages of
    the default channel, which [consume_agent_inbox] then never returns. *)
Theorem inbox_cursor_mixes_channels :
  default_channel 203 (w_db two_channel_world) = Some 100%N ∧
  map mr_content (unread 203 100 0 (w_db two_channel_world)) = ["please read"] ∧
  (consume_agent_inbox 203 200 (demo_env 9000) two_channel_world).2 = Ok [].
Proof. split_and!; vm_compute; reflexivity. Qed.
