(* ===== verification/StoreTasks.v ===== *)
(** * Tasks and their dependencies

    [crates/cocli-store/src/lib.rs]: channel-local tasks with their status machine, their
    assignee and the acyclic dependency relation, which the recursive query of
    [add_task_dependency] keeps acyclic. *)
From S2P Require Import Prelude StoreTypes StoreDb StoreSchema StoreAgents.

(** ** Reading tasks *)

(** The [LEFT JOIN agents a ON a.id = t.assignee_id] of the task queries. *)
Definition assignee_name (db : DB) (t : TaskColumns) : option string :=
  match tcol_assignee_id t with
  | None => None
  | Some a => ar_name <$> head (bfilter (λ r, ar_id r =? a)%N (agents db))
  end.

Definition task_row (db : DB) (t : TaskColumns) : TaskRow :=
  mkTaskRow (tcol_id t) (tcol_channel_id t) (tcol_message_id t) (tcol_task_number t) (tcol_title t)
    (tcol_status t) (tcol_progress t) (tcol_assignee_id t) (assignee_name db t)
    (tcol_created_by_agent_id t) (tcol_created_at t) (tcol_updated_at t).

Definition select_tasks (p : TaskColumns → bool) (db : DB) : list TaskRow :=
  map (task_row db) (bfilter p (tasks db)).

Definition is_task (channel_id : Uuid) (task_number : Z) (t : TaskColumns) : bool :=
  (tcol_channel_id t =? channel_id)%N && (tcol_task_number t =? task_number).

Definition task_number_cmp : TaskRow → TaskRow → comparison := on_cmp tr_task_number Z.compare.

Definition list_tasks (channel_id : Uuid) (status : option TaskStatus) : M (list Task) :=
  let! rows := fetch (λ db, sort_by task_number_cmp (select_tasks (λ t,
    (tcol_channel_id t =? channel_id)%N &&
    match status with Some s => str_eqb (tcol_status t) (as_str s) | None => true end) db)) in
  lift (collect_results task_try_from rows).

Definition get_task (channel_id : Uuid) (task_number : Z) : M (option Task) :=
  let! row := fetch_optional (select_tasks (is_task channel_id task_number)) in
  transpose task_try_from row.

Definition get_task_by_id (task_id : Uuid) : M (option Task) :=
  let! row := fetch_optional (select_tasks (λ t, tcol_id t =? task_id)%N) in
  transpose task_try_from row.

Definition get_task_by_message (channel_id message_id : Uuid) : M (option Task) :=
  let! row := fetch_optional (select_tasks (λ t,
    (tcol_channel_id t =? channel_id)%N && bool_decide (tcol_message_id t = Some message_id))) in
  transpose task_try_from row.

(** [.ok_or(e)?]. *)
Definition ok_or_throw {A} (o : option A) (e : StoreError) : M A :=
  match o with Some a => ret a | None => throw e end.

(** ** Creating tasks *)

(** A continuation byte of UTF-8. *)
Definition utf8_continuation (c : Ascii.ascii) : bool :=
  let n := Ascii.N_of_ascii c in (128 <=? n)%N && (n <? 192)%N.

(** [title.chars().take(n).collect::<String>()]. *)
Fixpoint take_chars (n : nat) (s : string) : string :=
  match s with
  | "" => ""
  | String c s' =>
      if utf8_continuation c then String c (take_chars n s')
      else match n with O => "" | S n' => String c (take_chars n' s') end
  end.

Definition create_task (channel_id : Uuid) (title : string) (message_id created_by : option Uuid)
    : M Task :=
  let title := take_chars 100 title in
  let! now := utc_now in
  let! id := new_v4 in
  let! task_id := execute (insert_task id channel_id message_id title created_by now now) in
  let! task := get_task_by_id task_id in
  match task with
  | Some t => ret t
  | None => let! text := uuid_string task_id in throw (InvalidValue "task" text)
  end.

(** ** Dependencies *)

Definition depends_on_rows (channel_id : Uuid) (task_number : Z) (db : DB) : list Z :=
  map dep_depends_on (bfilter (λ d, (dep_channel_id d =? channel_id)%N &&
    (dep_task_number d =? task_number)) (task_dependencies db)).

(** One round of the recursive query: [UNION] of what is known with its successors. *)
Definition expand (channel_id : Uuid) (db : DB) (known : gset Z) : gset Z :=
  known ∪ list_to_set (map dep_depends_on (bfilter (λ d, (dep_channel_id d =? channel_id)%N &&
    bool_decide (dep_task_number d ∈ known)) (task_dependencies db))).

(** [WITH RECURSIVE reachable]: rounds until nothing is new. Each round that adds a row adds
    the target of some dependency, so as many rounds as there are dependencies suffice. *)
Definition reachable (channel_id : Uuid) (start : Z) (db : DB) : gset Z :=
  Nat.iter (length (task_dependencies db)) (expand channel_id db)
    (list_to_set (depends_on_rows channel_id start db)).

(** The part of [add_task_dependency] that only reads: the guards and the cycle query. *)
Definition check_task_dependency (channel_id : Uuid) (task_number depends_on : Z) : M unit :=
  if task_number =? depends_on then throw TaskDependencySelf
  else
    for_each (λ number,
      let! t := get_task channel_id number in
      match t with None => throw (TaskNotFound number) | Some _ => ret tt end)
      [task_number; depends_on] ;;
    let! creates_cycle := fetch (λ db,
      bool_decide (task_number ∈ reachable channel_id depends_on db)) in
    if creates_cycle : bool then throw TaskDependencyCycle else ret tt.

(** Its insert. *)
Definition insert_task_dependency (channel_id : Uuid) (task_number depends_on : Z) : M unit :=
  let! now := utc_now in
  execute (insert_dependency_or_ignore (mkDependencyRow channel_id task_number depends_on now)).

Definition add_task_dependency (channel_id : Uuid) (task_number depends_on : Z) : M unit :=
  check_task_dependency channel_id task_number depends_on ;;
  insert_task_dependency channel_id task_number depends_on.

Definition remove_task_dependency (channel_id : Uuid) (task_number depends_on : Z) : M bool :=
  let! n := execute (sql_delete task_dependencies with_dependencies
                       (is_dependency channel_id task_number depends_on)) in
  ret (0 <? n).

Definition get_task_dependencies (channel_id : Uuid) (task_number : Z) : M (list Z) :=
  fetch (λ db, sort_by Z.compare (depends_on_rows channel_id task_number db)).

(** The join that counts prerequisites that are not done. *)
Definition unmet (channel_id : Uuid) (task_number : Z) (db : DB) : list TaskColumns :=
  concat (map (λ n, bfilter (λ t, is_task channel_id n t && negb (str_eqb (tcol_status t) "done"))
                      (tasks db)) (depends_on_rows channel_id task_number db)).

Definition dependencies_met (channel_id : Uuid) (task_number : Z) : M bool :=
  let! count := fetch (λ db, Z.of_nat (length (unmet channel_id task_number db))) in
  ret (count =? 0).

(** ** Working on tasks *)

(** [UPDATE tasks SET assignee_id = ?, status = CASE WHEN status = 'todo' THEN ...]: the
    assignee is a foreign key, checked when a row is updated. *)
Definition claim_row (agent_id : Uuid) (now : Time) (t : TaskColumns) : TaskColumns :=
  mkTaskColumns (tcol_id t) (tcol_channel_id t) (tcol_message_id t) (tcol_task_number t)
    (tcol_title t) (if str_eqb (tcol_status t) "todo" then "in_progress" else tcol_status t)
    (tcol_progress t) (Some agent_id) (tcol_created_by_agent_id t) (tcol_created_at t) now.

Definition update_claim (channel_id : Uuid) (task_number : Z) (agent_id : Uuid) (now : Time) (db : DB)
    : result (DB * Z) SqlError :=
  let p := λ t, is_task channel_id task_number t && bool_decide (tcol_assignee_id t = None) in
  try! _ <- guard (negb (exists_row p (tasks db)) || has_agent db agent_id) ForeignKeyViolation;
  sql_update tasks with_tasks (λ _, p) (claim_row agent_id now) db.

Definition claim_task (channel_id : Uuid) (task_number : Z) (agent_id : Uuid) : M Task :=
  let! task := get_task channel_id task_number in
  let! existing := ok_or_throw task (TaskNotFound task_number) in
  if bool_decide (tk_assignee_id existing = Some agent_id) then ret existing
  else if bool_decide (tk_assignee_id existing ≠ None) then throw (TaskAlreadyClaimed task_number)
  else
    let! met := dependencies_met channel_id task_number in
    if negb met then throw (TaskUnmetDependencies task_number)
    else
      let! now := utc_now in
      let! n := execute (update_claim channel_id task_number agent_id now) in
      if negb (n =? 1) then throw (TaskAlreadyClaimed task_number)
      else
        let! task' := get_task channel_id task_number in
        ok_or_throw task' (TaskNotFound task_number).

Definition unclaim_row (now : Time) (t : TaskColumns) : TaskColumns :=
  mkTaskColumns (tcol_id t) (tcol_channel_id t) (tcol_message_id t) (tcol_task_number t)
    (tcol_title t) (if str_eqb (tcol_status t) "in_progress" then "todo" else tcol_status t)
    (tcol_progress t) None (tcol_created_by_agent_id t) (tcol_created_at t) now.

Definition unclaim_task (channel_id : Uuid) (task_number : Z) : M Task :=
  let! now := utc_now in
  let! n := execute (sql_update tasks with_tasks (λ _, is_task channel_id task_number)
                       (unclaim_row now)) in
  if negb (n =? 1) then throw (TaskNotFound task_number)
  else
    let! task := get_task channel_id task_number in
    ok_or_throw task (TaskNotFound task_number).

(** [SET status = ?, progress = ?, updated_at = ?], with or without a new progress. *)
Definition status_row (status : TaskStatus) (progress : option string) (now : Time)
    (t : TaskColumns) : TaskColumns :=
  mkTaskColumns (tcol_id t) (tcol_channel_id t) (tcol_message_id t) (tcol_task_number t)
    (tcol_title t) (as_str status)
    (match progress with Some _ => progress | None => tcol_progress t end)
    (tcol_assignee_id t) (tcol_created_by_agent_id t) (tcol_created_at t) now.

Definition update_task_status (channel_id : Uuid) (task_number : Z) (status : TaskStatus)
    (progress : option string) : M Task :=
  let! task := get_task channel_id task_number in
  let! existing := ok_or_throw task (TaskNotFound task_number) in
  if negb (can_transition_to (tk_status existing) status) then
    throw (InvalidTaskTransition (as_str (tk_status existing)) (as_str status))
  else if bool_decide (tk_status existing = status) && bool_decide (progress = None) then
    ret existing
  else
    let! now := utc_now in
    execute (sql_update tasks with_tasks (λ _, is_task channel_id task_number)
      (status_row status progress now)) ;;
    let! task' := get_task channel_id task_number in
    ok_or_throw task' (TaskNotFound task_number).

(** ** The schema is preserved *)

Lemma get_task_readonly c n : readonly (get_task c n).
Proof.
  intros e w. unfold get_task, bind, fetch_optional, fetch, execute.
  destruct (env_fault e (w_ctr w)); [done|]. simpl. by destruct (head _).
Qed.
Lemma get_task_preserves P c n : preserves P (get_task c n).
Proof. apply preserves_readonly, get_task_readonly. Qed.
Lemma get_task_by_id_preserves P i : preserves P (get_task_by_id i).
Proof. unfold get_task_by_id, transpose. preserves_tac. Qed.
#[export] Hint Resolve get_task_preserves get_task_by_id_preserves : cocli.

(** The statements that update a task. *)
Lemma claim_row_ok p a now : stmt_preserves schema_ok (sql_update tasks with_tasks p (claim_row a now)).
Proof.
  apply update_tasks_ok; [done..|]. intros t Ht. simpl.
  destruct (str_eqb _ _); [by exists InProgress|done].
Qed.
Lemma update_claim_ok c n a now : stmt_preserves schema_ok (update_claim c n a now).
Proof.
  intros db db' k Hok H. unfold update_claim in H.
  destruct (negb _ || _); [|done]. exact (claim_row_ok _ a now db db' k Hok H).
Qed.
Lemma unclaim_row_ok p now : stmt_preserves schema_ok (sql_update tasks with_tasks p (unclaim_row now)).
Proof.
  apply update_tasks_ok; [done..|]. intros t Ht. simpl.
  destruct (str_eqb _ _); [by exists Todo|done].
Qed.
Lemma status_row_ok p s g now :
  stmt_preserves schema_ok (sql_update tasks with_tasks p (status_row s g now)).
Proof. apply update_tasks_ok; [done..|]. intros t _. apply persisted_as_str. Qed.
#[export] Hint Resolve update_claim_ok unclaim_row_ok status_row_ok : cocli.

Lemma check_dependency_preserves P c t d : preserves P (check_task_dependency c t d).
Proof. unfold check_task_dependency. preserves_tac. Qed.
#[export] Hint Resolve check_dependency_preserves : cocli.

(** An operation on tasks keeps any property its statements keep. *)
Section TaskOps.
Context (P : DB → Prop).
Context (Hinsert : ∀ id c m t a t1 t2, stmt_preserves P (insert_task id c m t a t1 t2)).
Context (Hclaim : ∀ c n a now, stmt_preserves P (update_claim c n a now)).
Context (Hunclaim : ∀ p now, stmt_preserves P (sql_update tasks with_tasks p (unclaim_row now))).
Context (Hstatus : ∀ p s g now,
  stmt_preserves P (sql_update tasks with_tasks p (status_row s g now))).
Context (Hremove : ∀ p, stmt_preserves P (sql_delete task_dependencies with_dependencies p)).

Lemma create_task_preserves c t m a : preserves P (create_task c t m a).
Proof. unfold create_task. preserves_tac. Qed.
Lemma claim_task_preserves c n a : preserves P (claim_task c n a).
Proof. unfold claim_task, ok_or_throw, dependencies_met. preserves_tac. Qed.
Lemma unclaim_task_preserves c n : preserves P (unclaim_task c n).
Proof. unfold unclaim_task, ok_or_throw. preserves_tac. Qed.
Lemma update_task_status_preserves c n s p : preserves P (update_task_status c n s p).
Proof. unfold update_task_status, ok_or_throw. preserves_tac. Qed.
Lemma remove_task_dependency_preserves c t d : preserves P (remove_task_dependency c t d).
Proof. unfold remove_task_dependency. preserves_tac. Qed.
End TaskOps.

Lemma add_task_dependency_schema c t d : preserves schema_ok (add_task_dependency c t d).
Proof. unfold add_task_dependency, insert_task_dependency. preserves_tac. Qed.

Lemma create_task_schema c t m a : preserves schema_ok (create_task c t m a).
Proof. apply create_task_preserves. auto with cocli. Qed.
Lemma claim_task_schema c n a : preserves schema_ok (claim_task c n a).
Proof. apply claim_task_preserves. auto with cocli. Qed.
Lemma unclaim_task_schema c n : preserves schema_ok (unclaim_task c n).
Proof. apply unclaim_task_preserves. auto with cocli. Qed.
Lemma update_task_status_schema c n s p : preserves schema_ok (update_task_status c n s p).
Proof. apply update_task_status_preserves. auto with cocli. Qed.
Lemma remove_task_dependency_schema c t d : preserves schema_ok (remove_task_dependency c t d).
Proof. apply remove_task_dependency_preserves. auto with cocli. Qed.

#[export] Hint Resolve add_task_dependency_schema create_task_schema claim_task_schema
  unclaim_task_schema update_task_status_schema remove_task_dependency_schema : cocli.

(** ** The recursive query computes reachability *)

Definition depends (db : DB) (c : Uuid) (t d : Z) : Prop :=
  ∃ row, row ∈ task_dependencies db ∧ dep_channel_id row = c ∧
         dep_task_number row = t ∧ dep_depends_on row = d.

Lemma elem_of_depends_on_rows c t d db : d ∈ depends_on_rows c t db ↔ depends db c t d.
Proof.
  unfold depends_on_rows, depends. rewrite list_elem_of_fmap. split.
  - intros (row & -> & [Hr [Hc%N.eqb_eq Ht%Z.eqb_eq]%andb_true_iff]%elem_of_bfilter). by exists row.
  - intros (row & Hr & <- & <- & <-). exists row. split; [done|].
    by rewrite elem_of_bfilter, N.eqb_refl, Z.eqb_refl.
Qed.

Lemma elem_of_expand c db known y :
  y ∈ expand c db known ↔ y ∈ known ∨ ∃ x, x ∈ known ∧ depends db c x y.
Proof.
  unfold expand. rewrite elem_of_union, elem_of_list_to_set, list_elem_of_fmap.
  apply or_iff_compat_l. split.
  - intros (row & -> & [Hr [Hc%N.eqb_eq Hk%bool_decide_eq_true]%andb_true_iff]%elem_of_bfilter).
    exists (dep_task_number row). split; [done|]. by exists row.
  - intros (x & Hx & row & Hr & <- & <- & <-). exists row. split; [done|].
    rewrite elem_of_bfilter, N.eqb_refl. split; [done|]. by rewrite bool_decide_true.
Qed.

Section Closure.
Context (c : Uuid) (db : DB) (S0 : gset Z).
Let F : gset Z → gset Z := expand c db.

Lemma expand_subseteq S : S ⊆ F S.
Proof. intros x Hx. apply elem_of_expand. by left. Qed.

Definition targets : gset Z := list_to_set (map dep_depends_on (task_dependencies db)).

Lemma iter_targets k : Nat.iter k F S0 ⊆ S0 ∪ targets.
Proof.
  induction k as [|k IH]; simpl; [set_solver|]. intros y [Hy|(x & _ & row & Hr & _ & _ & <-)]%elem_of_expand.
  - by apply IH.
  - apply elem_of_union_r. unfold targets. apply elem_of_list_to_set. by apply list_elem_of_fmap_2.
Qed.

Lemma size_targets : (size targets ≤ length (task_dependencies db))%nat.
Proof.
  unfold targets. induction (task_dependencies db) as [|d l IH].
  { change (size (∅ : gset Z) ≤ 0)%nat. by rewrite size_empty. }
  change (size ({[dep_depends_on d]} ∪ list_to_set (map dep_depends_on l) : gset Z) ≤
          S (length l))%nat.
  rewrite size_union_alt, size_singleton.
  assert (size (list_to_set (map dep_depends_on l) ∖ {[dep_depends_on d]} : gset Z) ≤
          size (list_to_set (map dep_depends_on l) : gset Z))%nat by (apply subseteq_size; set_solver).
  lia.
Qed.

(** Either a fixed point was reached, or every round added something. *)
Lemma iter_grows k : F (Nat.iter k F S0) = Nat.iter k F S0 ∨
  (size S0 + k < size (F (Nat.iter k F S0)))%nat.
Proof.
  induction k as [|k IH]; simpl.
  - destruct (decide (F S0 = S0)) as [->|Hne]; [by left|right].
    rewrite Nat.add_0_r. apply subset_size. pose proof (expand_subseteq S0). set_solver.
  - destruct IH as [IH|IH]; [left; by rewrite !IH|].
    destruct (decide (F (F (Nat.iter k F S0)) = F (Nat.iter k F S0))) as [->|Hne]; [by left|right].
    assert (size (F (Nat.iter k F S0)) < size (F (F (Nat.iter k F S0))))%nat; [|lia].
    apply subset_size. pose proof (expand_subseteq (F (Nat.iter k F S0))). set_solver.
Qed.

Lemma iter_closed :
  S0 ⊆ targets → F (Nat.iter (length (task_dependencies db)) F S0) =
                  Nat.iter (length (task_dependencies db)) F S0.
Proof.
  intros HS. destruct (iter_grows (length (task_dependencies db))) as [|Hbig]; [done|].
  pose proof (iter_targets (S (length (task_dependencies db)))) as Hsub. simpl in Hsub.
  apply subseteq_size in Hsub. pose proof size_targets.
  replace (S0 ∪ targets) with targets in Hsub by set_solver. lia.
Qed.
End Closure.

Lemma reachable_spec c start db y :
  y ∈ reachable c start db ↔ tc (depends db c) start y.
Proof.
  unfold reachable. set (S0 := list_to_set (depends_on_rows c start db) : gset Z).
  assert (∀ x, x ∈ S0 ↔ depends db c start x) as HS0.
  { intros x. unfold S0. by rewrite elem_of_list_to_set, elem_of_depends_on_rows. }
  split.
  - generalize (length (task_dependencies db)) as k. intros k. revert y.
    induction k as [|k IH]; intros y; simpl; [intros Hy%HS0; by apply tc_once|].
    intros [Hy|(x & Hx & Hd)]%elem_of_expand; [auto|]. eapply tc_r; [by apply IH|done].
  - assert (S0 ⊆ targets db) as Hsub.
    { intros x (row & Hr & _ & _ & <-)%HS0. unfold targets. apply elem_of_list_to_set.
      by apply list_elem_of_fmap_2. }
    pose proof (iter_closed c db S0 Hsub) as Hclosed.
    assert (∀ k, S0 ⊆ Nat.iter k (expand c db) S0) as Hmono.
    { induction k as [|k IH]; simpl; [done|]. etransitivity; [exact IH|apply expand_subseteq]. }
    revert y. apply tc_ind_r.
    + intros y Hy. by apply Hmono, HS0.
    + intros x y _ Hxy Hx. rewrite <- Hclosed. apply elem_of_expand. right. by exists x.
Qed.

(** ** Acyclicity *)

Definition acyclic (db : DB) : Prop := ∀ c t, ¬ tc (depends db c) t t.

(** Fewer dependencies, fewer cycles. *)
Lemma acyclic_mono db db' :
  (∀ c t d, depends db' c t d → depends db c t d) → acyclic db → acyclic db'.
Proof. intros H Hac c t Hc. apply (Hac c t). eapply (tc_congruence (λ x, x)); [|exact Hc]. intros x y. apply H. Qed.

Lemma acyclic_same db db' : task_dependencies db' = task_dependencies db → acyclic db → acyclic db'.
Proof. intros H. apply acyclic_mono. unfold depends. by rewrite H. Qed.

(** A new edge [t -> d] closes a cycle only if [t] was reachable from [d]. *)
Lemma acyclic_add_edge (R R' : Z → Z → Prop) (t d : Z) :
  (∀ x y, R' x y ↔ R x y ∨ (x = t ∧ y = d)) → t ≠ d → ¬ tc R d t →
  (∀ x, ¬ tc R x x) → ∀ x, ¬ tc R' x x.
Proof.
  intros HR' Hne Hnr Hac.
  assert (∀ x y, tc R' x y → tc R x y ∨ (rtc R x t ∧ rtc R d y)) as Hsplit.
  { intros x y H. induction H as [x y Hxy|x y z Hxy _ IH].
    - apply HR' in Hxy as [?|[-> ->]]; [left; by apply tc_once|right; by split].
    - apply HR' in Hxy as [Hxy|[-> ->]].
      + destruct IH as [IH|[IH1 IH2]]; [left; by eapply tc_l|right].
        split; [by eapply rtc_l|done].
      + right. split; [done|]. destruct IH as [IH|[_ IH]]; [by apply tc_rtc|done]. }
  intros x Hx. apply Hsplit in Hx as [?|[H1 H2]]; [by eapply Hac|].
  assert (rtc R d t) as [?|?]%rtc_tc by (by etransitivity); congruence.
Qed.

Lemma insert_dependency_depends row db db' u :
  insert_dependency_or_ignore row db = Ok (db', u) →
  db' = db ∨ task_dependencies db' = (task_dependencies db ++ [row])%list.
Proof.
  unfold insert_dependency_or_ignore. destruct (_ || _); [intros [= -> _]; by left|].
  intros H. inv_stmt. by right.
Qed.

Lemma check_dependency_ok c t d e w w' u :
  check_task_dependency c t d e w = (w', Ok u) →
  w_db w' = w_db w ∧ t ≠ d ∧ ¬ tc (depends (w_db w) c) d t.
Proof.
  intros H.
  assert (w_db w' = w_db w) as Hdb.
  { pose proof (check_dependency_preserves (λ db, db = w_db w) c t d e w eq_refl) as Hp.
    by rewrite H in Hp. }
  split; [done|]. unfold check_task_dependency in H.
  destruct (Z.eqb_spec t d) as [|Hne]; [done|]. split; [done|].
  apply bind_ok in H as (w1 & [] & Hguards & H).
  assert (w_db w1 = w_db w) as H1.
  { apply bind_ok in Hguards as (w2 & [] & Hg1 & Hg2).
    apply bind_ok in Hg2 as (w3 & [] & Hg2 & Hg3). unfold ret in Hg3. simplify_eq.
    apply bind_ok in Hg1 as (w4 & o1 & E1 & Hg1). apply bind_ok in Hg2 as (w5 & o2 & E2 & Hg2).
    pose proof (get_task_readonly c t e w) as R1. rewrite E1 in R1.
    pose proof (get_task_readonly c d e w2) as R2. rewrite E2 in R2. simpl in R1, R2.
    destruct o1, o2; unfold ret, throw in *; by simplify_eq; congruence. }
  apply bind_ok in H as (w2 & b & [_ ->]%fetch_ok & H). rewrite H1 in H.
  case_bool_decide as Hin; [done|]. by rewrite <- reachable_spec.
Qed.

Lemma add_task_dependency_acyclic c t d : preserves acyclic (add_task_dependency c t d).
Proof.
  intros e w Hac. destruct (add_task_dependency c t d e w) as [w' [u|x]] eqn:E; simpl;
    unfold add_task_dependency in E.
  - apply bind_ok in E as (w1 & [] & (Hdb & Hne & Hnr)%check_dependency_ok & E).
    unfold insert_task_dependency in E. inv_run. simpl in *.
    match goal with H : insert_dependency_or_ignore _ _ = _ |- _ =>
      apply insert_dependency_depends in H as [->|Hins] end; [by rewrite Hdb|].
    rewrite Hdb in Hins. intros c' x. destruct (decide (c' = c)) as [->|Hc].
    + apply (acyclic_add_edge (depends (w_db w) c) _ t d); [|done|done|apply Hac].
      intros y z. unfold depends. rewrite Hins. setoid_rewrite elem_of_app.
      setoid_rewrite list_elem_of_singleton. split.
      * intros (row & [Hr| ->] & Hk); [left; by exists row|right]. by destruct Hk as (_ & <- & <-).
      * intros [(row & Hr & Hk)|[-> ->]]; [exists row; auto|]. eexists. split; [by right|done].
    + intros Hx. apply (Hac c' x). eapply (tc_congruence (λ x, x)); [|exact Hx]. intros y z (row & Hr & Hk).
      rewrite Hins in Hr. apply elem_of_app in Hr as [Hr|Hr%list_elem_of_singleton]; [by exists row|]. subst row.
      simpl in Hk. by destruct Hk.
  - assert (w_db w' = w_db w) as ->; [|done].
    apply bind_err in E as [E|(w1 & [] & (Hdb & _)%check_dependency_ok & E)].
    + pose proof (check_dependency_preserves (λ db, db = w_db w) c t d e w eq_refl) as Hp.
      by rewrite E in Hp.
    + rewrite <- Hdb. unfold insert_task_dependency in E.
      apply bind_err in E as [E|(w2 & now & E2 & E)]; [done|]. unfold utc_now in E2. simplify_eq.
      exact (execute_atomic _ _ _ _ _ E).
Qed.

(** ** Adding a dependency *)

Definition task_at (db : DB) (c : Uuid) (n : Z) : option TaskColumns :=
  head (bfilter (is_task c n) (tasks db)).

Lemma is_task_key c n t : is_task c n t = true ↔ task_key t = (c, n).
Proof.
  unfold is_task, task_key. rewrite andb_true_iff, N.eqb_eq, Z.eqb_eq. split.
  - by intros [-> ->].
  - by intros [= -> ->].
Qed.

Lemma task_at_elem db c n t :
  schema_ok db → t ∈ tasks db → is_task c n t = true → task_at db c n = Some t.
Proof.
  intros Hok Ht Hk. unfold task_at.
  assert (t ∈ bfilter (is_task c n) (tasks db)) as Hin by (by apply elem_of_bfilter).
  destruct (bfilter _ _) as [|x l] eqn:E; [set_solver|]. simpl. f_equal.
  assert (x ∈ bfilter (is_task c n) (tasks db)) as Hx by (rewrite E; set_solver).
  apply elem_of_bfilter in Hx as [Hx Hkx]. apply is_task_key in Hk, Hkx.
  destruct (so_tasks _ Hok) as (_ & Hnd & _). by eapply (NoDup_key_eq task_key); [| | |congruence].
Qed.

Lemma task_at_Some db c n t : task_at db c n = Some t → t ∈ tasks db ∧ is_task c n t = true.
Proof. intros H%head_elem. by apply elem_of_bfilter. Qed.

Lemma head_map {A B} (f : A → B) (l : list A) : head (map f l) = f <$> head l.
Proof. by destruct l. Qed.

(** What [get_task] returns without faults on a well-formed database. *)
Lemma get_task_run e w c n :
  fault_free e → schema_ok (w_db w) →
  ∃ o, get_task c n e w = (tick w, Ok o) ∧
       match task_at (w_db w) c n with
       | Some t => ∃ k, o = Some k ∧ task_try_from (task_row (w_db w) t) = Ok k
       | None => o = None
       end.
Proof.
  intros Hff Hok. unfold get_task, bind, fetch_optional. rewrite fetch_run by done.
  unfold select_tasks. rewrite head_map. fold (task_at (w_db w) c n).
  destruct (task_at (w_db w) c n) as [t|] eqn:E; simpl; [|by eexists].
  apply task_at_Some in E as [Ht _].
  destruct (so_tasks _ Hok) as (_ & _ & Hall). rewrite Forall_forall in Hall.
  destruct (Hall t Ht) as [_ [s Hs]].
  eexists (Some _). split; [|eexists; split; [reflexivity|]].
  - unfold lift, task_try_from. cbn [tr_status task_row]. rewrite Hs, parse_as_str. reflexivity.
  - unfold task_try_from. cbn [tr_status task_row]. rewrite Hs, parse_as_str. reflexivity.
Qed.

(** C29 (equivalence). The cycle check is exact: without faults, between two existing
    distinct tasks, [add_task_dependency] is rejected as a cycle precisely when the
    prerequisite already depends (through any chain) on the task, and changes nothing;
    otherwise it succeeds and adds precisely the new edge. The recursive query stops after
    as many rounds as there are dependencies. *)
Theorem add_dependency_exact (e : Env) (w : World) (c : Uuid) (t d : Z) :
  fault_free e → schema_ok (w_db w) → t ≠ d →
  (c, t) ∈ task_keys (w_db w) → (c, d) ∈ task_keys (w_db w) →
  let '(w', r) := add_task_dependency c t d e w in
  (tc (depends (w_db w) c) d t → r = Err TaskDependencyCycle ∧ w_db w' = w_db w) ∧
  (¬ tc (depends (w_db w) c) d t → r = Ok tt ∧
     ∀ c' x y, depends (w_db w') c' x y ↔ depends (w_db w) c' x y ∨ (c' = c ∧ x = t ∧ y = d)).
Proof.
  intros Hff Hok Hne Ht Hd.
  assert (∀ w0 n, w_db w0 = w_db w → (c, n) ∈ task_keys (w_db w) →
    ∃ k, get_task c n e w0 = (tick w0, Ok (Some k))) as Hget.
  { intros w0 n Hw0 Hin. rewrite <- Hw0 in *.
    destruct (get_task_run e w0 c n Hff Hok) as (o & -> & Ho).
    apply list_elem_of_fmap in Hin as (x & Hx & Hin).
    rewrite (task_at_elem _ _ _ x) in Ho by (done || by apply is_task_key).
    destruct Ho as (k & -> & _). by exists k. }
  unfold add_task_dependency, check_task_dependency.
  destruct (Z.eqb_spec t d) as [|_]; [done|]. unfold bind at 1 2. cbn [for_each].
  destruct (Hget w t eq_refl Ht) as [k1 E1].
  destruct (Hget (tick w) d eq_refl Hd) as [k2 E2].
  unfold bind at 1 2. rewrite E1. unfold ret at 1, bind at 1 2. rewrite E2. unfold ret at 1.
  unfold ret at 1, bind at 1. rewrite fetch_run by done. simpl.
  case_bool_decide as Hin; rewrite reachable_spec in Hin; [by split; [|done]|].
  unfold insert_task_dependency, bind, utc_now, ret. rewrite execute_run by done. simpl.
  unfold insert_dependency_or_ignore. simpl. destruct (Z.eqb_spec t d) as [|_]; [done|]. simpl.
  destruct (exists_row _ _) eqn:Ex.
  - split; [done|]. intros _. split; [done|]. intros c' x y. split; [by left|]. intros [?|(-> & -> & ->)]; [done|].
    apply exists_row_true in Ex as (row & Hr & Hp). exists row. unfold is_dependency in Hp. bsimp.
    by match goal with H : (_ =? _)%N = true |- _ => apply N.eqb_eq in H end.
  - apply has_task_true in Ht, Hd. unfold has_task in *. simpl. rewrite Ht, Hd. simpl.
    split; [done|]. intros _. split; [done|]. intros c' x y. unfold depends. simpl.
    setoid_rewrite elem_of_app.
    setoid_rewrite list_elem_of_singleton. split.
    + intros (row & [Hr| ->] & Hk); [left; by exists row|right]. by destruct Hk as (<- & <- & <-).
    + intros [(row & Hr & Hk)|(-> & -> & ->)]; [exists row; auto|]. eexists. split; [by right|done].
Qed.

(** ** Claiming *)

Lemma get_task_ok e w w' c n o :
  get_task c n e w = (w', Ok o) →
  w_db w' = w_db w ∧
  match task_at (w_db w) c n with
  | Some t => ∃ k, o = Some k ∧ task_try_from (task_row (w_db w) t) = Ok k
  | None => o = None
  end.
Proof.
  intros H. unfold get_task in H. apply bind_ok in H as (w1 & row & [Hdb ->]%fetch_optional_ok & H).
  unfold select_tasks in H. rewrite head_map in H. fold (task_at (w_db w) c n) in H.
  destruct (task_at (w_db w) c n) as [t|].
  - cbn [fmap option_fmap option_map transpose] in H. apply lift_ok in H as [-> H].
    destruct (task_try_from _) as [k|] eqn:E; [|done]. injection H as <-. split; [done|]. by exists k.
  - simpl in H. unfold ret in H. by simplify_eq.
Qed.

Lemma task_try_from_fields db t k :
  task_try_from (task_row db t) = Ok k →
  tk_assignee_id k = tcol_assignee_id t ∧ as_str (tk_status k) = tcol_status t.
Proof.
  unfold task_try_from, rbind. cbn [tr_status task_row].
  destruct (parse (tcol_status t)) as [s|] eqn:E; [|done]. intros [= <-].
  split; [done|exact (as_str_parse _ _ E)].
Qed.

Lemma unmet_nil c n db :
  unmet c n db = [] → ∀ d p, depends db c n d → p ∈ tasks db → is_task c d p = true →
  tcol_status p = "done".
Proof.
  unfold unmet. intros H d p Hd Hp Hk. apply elem_of_depends_on_rows in Hd.
  destruct (str_eqb (tcol_status p) "done") eqn:E; [by apply str_eqb_eq|]. exfalso.
  assert (p ∈ concat (map (λ n, bfilter (λ t, is_task c n t && negb (str_eqb (tcol_status t) "done"))
    (tasks db)) (depends_on_rows c n db))) as Hin; [|rewrite H in Hin; set_solver].
  apply list_elem_of_In, in_concat. eexists. split; [apply in_map; by apply list_elem_of_In|].
  apply list_elem_of_In, elem_of_bfilter. by rewrite Hk, E.
Qed.

(** A task held by [a] is refused to everyone else. *)
Lemma claim_refused c n a b e w :
  schema_ok (w_db w) → (∃ t, t ∈ tasks (w_db w) ∧ is_task c n t = true ∧ tcol_assignee_id t = Some a) →
  b ≠ a → is_ok (claim_task c n b e w).2 = false.
Proof.
  intros Hok (t & Ht & Hk & Ha) Hb.
  destruct (claim_task c n b e w) as [w' [k|x]] eqn:E; [|done]. exfalso. unfold claim_task in E.
  apply bind_ok in E as (w1 & o & [Hdb Ho]%get_task_ok & E).
  rewrite (task_at_elem _ _ _ t) in Ho by done. destruct Ho as (k' & -> & Hk').
  apply task_try_from_fields in Hk' as [Hk' _]. rewrite Ha in Hk'.
  apply bind_ok in E as (w2 & k2 & E2 & E). unfold ok_or_throw, ret in E2. simplify_eq.
  rewrite Hk' in E. rewrite bool_decide_false in E by congruence.
  rewrite bool_decide_true in E by done. done.
Qed.

(** The claiming update touches the one unassigned task it is for. *)
Lemma update_claim_exact c n a now db db' m t :
  schema_ok db → t ∈ tasks db → is_task c n t = true → tcol_assignee_id t = None →
  update_claim c n a now db = Ok (db', m) →
  db' = with_tasks (update_where (is_task c n) (claim_row a now)) db.
Proof.
  intros Hok Ht Hkey Hnone Hupd. unfold update_claim in Hupd. destruct (negb _ || _); [|done].
  injection Hupd as <- _. unfold with_tasks. f_equal. apply map_ext_in. intros x Hx%list_elem_of_In.
  destruct (is_task c n x) eqn:Ex; [|done]. apply is_task_key in Ex, Hkey.
  rewrite (NoDup_key_eq task_key (tasks db) x t); [by rewrite bool_decide_true| |done..|congruence].
  by destruct (so_tasks _ Hok) as (_ & ? & _).
Qed.

(** C30 (safety). A claim is exclusive and respects dependencies: when [claim_task] succeeds
    the task exists and either the caller already held it and nothing changed, or nobody
    held it, every prerequisite task is done, and the only change is that the task is
    assigned to the caller and, if it was [todo], in progress. In both cases no other agent
    can claim it from there. *)
Theorem claim_task_exclusive (c : Uuid) (n : Z) (a : Uuid) (e : Env) (w w' : World) (k : Task) :
  schema_ok (w_db w) → claim_task c n a e w = (w', Ok k) →
  (∃ t, t ∈ tasks (w_db w) ∧ is_task c n t = true ∧
     (tcol_assignee_id t = Some a ∧ w_db w' = w_db w ∨
      tcol_assignee_id t = None ∧
      (∀ d p, depends (w_db w) c n d → p ∈ tasks (w_db w) → is_task c d p = true →
              tcol_status p = "done") ∧
      ∃ now, w_db w' = with_tasks (update_where (is_task c n) (claim_row a now)) (w_db w))) ∧
  tk_assignee_id k = Some a ∧
  ∀ b e', b ≠ a → is_ok (claim_task c n b e' w').2 = false.
Proof.
  intros Hok E. pose proof (claim_task_schema c n a e w Hok) as Hok'. rewrite E in Hok'.
  simpl in Hok'. unfold claim_task in E.
  apply bind_ok in E as (w1 & o & [Hdb Ho]%get_task_ok & E).
  apply bind_ok in E as (w2 & k1 & E1 & E). unfold ok_or_throw in E1.
  destruct (task_at (w_db w) c n) as [t|] eqn:Hat; [|by subst o].
  destruct Ho as (k1' & -> & Hk1). unfold ret in E1. simplify_eq.
  apply task_at_Some in Hat as [Ht Hkey]. apply task_try_from_fields in Hk1 as [Hka _].
  rewrite Hka in E. case_bool_decide as Hown.
  { unfold ret in E. simplify_eq. split_and!; [|congruence|].
    - exists t. auto.
    - intros b e' Hb. eapply claim_refused; [done| |done]. exists t. rewrite Hdb. by split_and!. }
  case_bool_decide as Hfree; [done|].
  assert (tcol_assignee_id t = None) as Hnone by (destruct (tcol_assignee_id t); naive_solver).
  apply bind_ok in E as (w3 & met & Emet & E). unfold dependencies_met in Emet.
  apply bind_ok in Emet as (w4 & cnt & [Hdb4 ->]%fetch_ok & Emet). unfold ret in Emet. simplify_eq.
  destruct (Z.eqb_spec (Z.of_nat (length (unmet c n (w_db w2)))) 0) as [Ez|]; [|done].
  rewrite Hdb in Ez, Hdb4. cbn [negb] in E.
  apply bind_ok in E as (w5 & now & E5 & E). unfold utc_now in E5. simplify_eq.
  apply bind_ok in E as (w6 & m & (_ & Hupd & _)%execute_ok & E).
  destruct (Z.eqb_spec m 1) as [->|]; [|done]. cbn [negb] in E. simpl in Hupd. rewrite Hdb4 in Hupd.
  apply bind_ok in E as (w7 & o & [Hdb7 Ho]%get_task_ok & E).
  assert (w_db w6 = with_tasks (update_where (is_task c n) (claim_row a (env_now e (w_ctr w3)))) (w_db w))
    as Hdb6.
  { by eapply update_claim_exact. }
  assert (∃ t', t' ∈ tasks (w_db w6) ∧ is_task c n t' = true ∧ tcol_assignee_id t' = Some a) as Hheld.
  { exists (claim_row a (env_now e (w_ctr w3)) t). rewrite Hdb6. split_and!; [|done|done].
    apply elem_of_update_where. exists t. by rewrite Hkey. }
  assert (w_db w' = w_db w6 ∧ o = Some k) as [Hdb' ->].
  { unfold ok_or_throw, ret in E. destruct o; by simplify_eq. }
  rewrite Hdb' in Hok'. split_and!.
  - exists t. split_and!; [done..|]. right. split_and!; [done| |].
    + apply unmet_nil. destruct (unmet c n (w_db w)); [done|simpl in Ez; lia].
    + exists (env_now e (w_ctr w3)). congruence.
  - destruct Hheld as (t' & Ht' & Hk' & Ha').
    rewrite (task_at_elem _ _ _ t') in Ho by done. destruct Ho as (k' & [= <-] & Hk).
    apply task_try_from_fields in Hk as [Hk _]. congruence.
  - intros b e' Hb. eapply claim_refused; rewrite ?Hdb'; done.
Qed.

(** ** The status machine *)

Definition task_by_id (db : DB) (id : Uuid) : option TaskColumns :=
  head (bfilter (λ t, tcol_id t =? id)%N (tasks db)).

Definition tview (db : DB) (id : Uuid) : option TaskStatus :=
  match task_by_id db id with
  | Some t => match parse (tcol_status t) with Ok s => Some s | Err _ => None end
  | None => None
  end.

(** The life of a task: [unclaim] returns active work to [todo]; [done] is final. *)
Inductive tstep : option TaskStatus → option TaskStatus → Prop :=
  | tstep_create : tstep None (Some Todo)
  | tstep_start : tstep (Some Todo) (Some InProgress)
  | tstep_unclaim : tstep (Some InProgress) (Some Todo)
  | tstep_review : tstep (Some InProgress) (Some InReview)
  | tstep_finish : tstep (Some InProgress) (Some Done)
  | tstep_rework : tstep (Some InReview) (Some InProgress)
  | tstep_accept : tstep (Some InReview) (Some Done).

Definition tsteps (x y : option TaskStatus) : Prop := x = y ∨ tstep x y.

Lemma can_transition_tsteps s s' :
  can_transition_to s s' = true → tsteps (Some s) (Some s').
Proof. destruct s, s'; simpl; try done; intros _; (by left) || (right; constructor). Qed.

Inductive TaskOp : Type :=
  | OpCreate (channel_id : Uuid) (title : string) (message_id created_by : option Uuid)
  | OpClaim (channel_id : Uuid) (number : Z) (agent_id : Uuid)
  | OpUnclaim (channel_id : Uuid) (number : Z)
  | OpStatus (channel_id : Uuid) (number : Z) (status : TaskStatus) (progress : option string)
  | OpAddDependency (channel_id : Uuid) (number depends_on : Z)
  | OpRemoveDependency (channel_id : Uuid) (number depends_on : Z).

Definition run_task_op (op : TaskOp) : M unit :=
  match op with
  | OpCreate c t m a => create_task c t m a ;; ret tt
  | OpClaim c n a => claim_task c n a ;; ret tt
  | OpUnclaim c n => unclaim_task c n ;; ret tt
  | OpStatus c n s p => update_task_status c n s p ;; ret tt
  | OpAddDependency c t d => add_task_dependency c t d
  | OpRemoveDependency c t d => remove_task_dependency c t d ;; ret tt
  end.

Definition run_task_ops (ops : list (Env * TaskOp)) (w : World) : World :=
  fold_left (λ w '(e, op), (run_task_op op e w).1) ops w.

Lemma head_bfilter_map {A} (p : A → bool) (g : A → A) (l : list A) :
  (∀ x, p (g x) = p x) → head (bfilter p (map g l)) = g <$> head (bfilter p l).
Proof.
  intros Hg. induction l as [|x l IH]; simpl; [done|]. rewrite Hg. by destruct (p x).
Qed.

(** A row-wise update moves a task by at most one step when it does so on its row. *)
Lemma update_tasks_tsteps (p : TaskColumns → bool) (f : TaskColumns → TaskColumns) db id :
  schema_ok db → keeps tcol_id f →
  (∀ t s, t ∈ tasks db → p t = true → tcol_status t = as_str s →
     ∃ s', tcol_status (f t) = as_str s' ∧ tsteps (Some s) (Some s')) →
  tsteps (tview db id) (tview (with_tasks (update_where p f) db) id).
Proof.
  intros Hok Hf Hp. unfold tview, task_by_id, update_where. cbn [tasks with_tasks].
  rewrite head_bfilter_map by (intros x; destruct (p x); [by rewrite Hf|done]).
  destruct (head _) as [t|] eqn:E; [|by left]. cbn [fmap option_fmap option_map].
  destruct (p t) eqn:Ep; [|by left]. apply head_elem, elem_of_bfilter in E as [Ht _].
  destruct (so_tasks _ Hok) as (_ & _ & Hall). rewrite Forall_forall in Hall.
  destruct (Hall t Ht) as [_ [s Hs]]. destruct (Hp t s Ht Ep Hs) as (s' & Hs' & Hstep).
  by rewrite Hs, Hs', !parse_as_str.
Qed.

(** The database before, or after the one update of an operation. *)
Lemma tview_same db db' id : tasks db' = tasks db → tview db' id = tview db id.
Proof. intros H. unfold tview, task_by_id. by rewrite H. Qed.

Definition moves (m : M unit) : Prop :=
  ∀ e w, schema_ok (w_db w) → ∀ id, tsteps (tview (w_db w) id) (tview (w_db (m e w).1) id).

Lemma discard_run {A} (m : M A) e w : w_db ((m ;; ret tt) e w).1 = w_db (m e w).1.
Proof. unfold bind. by destruct (m e w) as [w' [a|x]]. Qed.

(** Steps that leave the tasks alone around an update. *)
Lemma bind_readonly_db {A B} (m : M A) (k : A → M B) e w :
  readonly m → (∃ x w', w_db w' = w_db w ∧ bind m k e w = (w', Err x)) ∨
  ∃ a w1, w_db w1 = w_db w ∧ m e w = (w1, Ok a) ∧ bind m k e w = k a e w1.
Proof.
  intros Hm. unfold bind. specialize (Hm e w). destruct (m e w) as [w1 [a|x]]; simpl in Hm.
  - right. by exists a, w1.
  - left. by exists x, w1.
Qed.

Lemma execute_then_readonly {A B} (s : DB → result (DB * A) SqlError) (k : A → M B) e w :
  (∀ a, readonly (k a)) →
  w_db (bind (execute s) k e w).1 = w_db w ∨
  ∃ a, s (w_db w) = Ok (w_db (bind (execute s) k e w).1, a).
Proof.
  intros Hk. unfold bind, execute. destruct (env_fault e (w_ctr w)); [by left|].
  destruct (s (w_db w)) as [[db' a]|x]; [|by left]. right. exists a. by rewrite Hk.
Qed.

Lemma get_then_throw_readonly c n e0 : readonly (let! t := get_task c n in ok_or_throw t e0).
Proof.
  intros e w. destruct (bind_readonly_db (get_task c n) (λ t, ok_or_throw t e0) e w)
    as [(x & w' & Hdb & ->)|(o & w1 & Hdb & _ & ->)]; [apply get_task_readonly|done|].
  by destruct o.
Qed.

Lemma create_moves c t m a : moves (create_task c t m a ;; ret tt).
Proof.
  intros e w Hok id. rewrite discard_run. unfold create_task, bind at 1, utc_now, bind at 1, new_v4.
  match goal with |- context [bind (execute ?s) ?k e ?w0] =>
    destruct (execute_then_readonly s k e w0) as [->|[i Hi]] end; [|by left|].
  - intros i e0 w0. destruct (bind_readonly_db (get_task_by_id i) (λ task, match task with
      | Some t => ret t | None => let! text := uuid_string i in throw (InvalidValue "task" text)
      end) e0 w0) as [(x & w' & Hdb & ->)|(o & w1 & Hdb & _ & ->)]; [|done|by destruct o].
    intros e1 w1. by rewrite (get_task_by_id_preserves (λ db, db = w_db w1) i e1 w1).
  - match type of Hi with _ = Ok (?d, _) => revert Hi; generalize d as db' end.
    intros db' Hi. unfold insert_task in Hi. inv_stmt. unfold tview, task_by_id.
    cbn [tasks with_tasks]. rewrite bfilter_app.
    destruct (bfilter _ (tasks (w_db w))) as [|x l]; [|by left]. simpl.
    destruct (_ =? id)%N; [right; constructor|by left].
Qed.

Lemma unclaim_moves c n : moves (unclaim_task c n ;; ret tt).
Proof.
  intros e w Hok id. rewrite discard_run. unfold unclaim_task, bind at 1, utc_now.
  match goal with |- context [bind (execute ?s) ?k e ?w0] =>
    destruct (execute_then_readonly s k e w0) as [->|[i [= <- _]]] end; [|by left|].
  - intros i. destruct (negb (i =? 1)); [done|apply get_then_throw_readonly].
  - apply update_tasks_tsteps; [done|done|]. intros t s Ht Hk Hs. simpl. rewrite Hs.
    destruct s; simpl; [exists Todo|exists Todo|exists InReview|exists Done]; (split; [done|]);
      (by left) || (right; constructor).
Qed.

Lemma claim_moves c n a : moves (claim_task c n a ;; ret tt).
Proof.
  intros e w Hok id. rewrite discard_run. unfold claim_task.
  match goal with |- context [bind (get_task c n) ?k e w] =>
    destruct (bind_readonly_db (get_task c n) k e w) as [(x & w' & Hdb & ->)|(o & w1 & Hdb & _ & ->)] end;
    [apply get_task_readonly|by simpl; rewrite Hdb; left|]. rewrite <- Hdb in Hok |- *. clear Hdb w.
  destruct o as [k|]; simpl; [|by left]. unfold bind at 1, ret at 1.
  case_bool_decide; [by left|]. case_bool_decide; [by left|].
  match goal with |- context [bind (dependencies_met c n) ?k e w1] =>
    destruct (bind_readonly_db (dependencies_met c n) k e w1)
      as [(x & w' & Hdb & ->)|(met & w2 & Hdb & _ & ->)] end; [|by simpl; rewrite Hdb; left|].
  { intros e0 w0. unfold dependencies_met, bind, fetch, execute. by destruct (env_fault e0 (w_ctr w0)). }
  rewrite <- Hdb in Hok |- *. clear Hdb. destruct met; simpl; [|by left]. unfold bind at 1, utc_now.
  match goal with |- context [bind (execute ?s) ?k e ?w0] =>
    destruct (execute_then_readonly s k e w0) as [->|[i Hi]] end; [|by left|].
  { intros i. destruct (negb (i =? 1)); [done|apply get_then_throw_readonly]. }
  match type of Hi with _ = Ok (?d, _) => revert Hi; generalize d as db' end.
  intros db' Hi. unfold update_claim in Hi. destruct (negb _ || _); [|done]. injection Hi as <- _.
  apply update_tasks_tsteps; [done|done|]. intros t s Ht Hk Hs. simpl. rewrite Hs.
  destruct s; simpl; [exists InProgress|exists InProgress|exists InReview|exists Done];
    (split; [done|]); (by left) || (right; constructor).
Qed.

Lemma status_moves c n s p : moves (update_task_status c n s p ;; ret tt).
Proof.
  intros e w Hok id. rewrite discard_run. unfold update_task_status.
  match goal with |- context [bind (get_task c n) ?k e w] =>
    destruct (bind_readonly_db (get_task c n) k e w)
      as [(x & w' & Hdb & ->)|(o & w1 & Hdb & [_ Ho]%get_task_ok & ->)] end;
    [apply get_task_readonly|by simpl; rewrite Hdb; left|]. rewrite <- Hdb in Hok, Ho |- *. clear Hdb w.
  destruct (task_at (w_db w1) c n) as [t|] eqn:Hat; [|subst o; by left].
  destruct Ho as (k & -> & [_ Hk]%task_try_from_fields). simpl. unfold bind at 1, ret at 1.
  destruct (can_transition_to (tk_status k) s) eqn:Hcan; simpl; [|by left].
  destruct (_ && _); [by left|]. unfold bind at 1, utc_now.
  match goal with |- context [bind (execute ?s) ?k e ?w0] =>
    destruct (execute_then_readonly s k e w0) as [->|[i [= <- _]]] end; [|by left|].
  { intros _. apply get_then_throw_readonly. }
  apply update_tasks_tsteps; [done|done|]. intros t' s' Ht' Hk' Hs'. exists s. split; [done|].
  rewrite (task_at_elem _ _ _ t' Hok Ht' Hk') in Hat. injection Hat as ->.
  rewrite <- Hk in Hs'. assert (tk_status k = s') as <-.
  { apply (f_equal (parse (A := TaskStatus))) in Hs'. rewrite !parse_as_str in Hs'. congruence. }
  by apply can_transition_tsteps.
Qed.

Lemma preserves_tasks {A} (m : M A) : (∀ l, preserves (λ db, tasks db = l) m) →
  ∀ e w, tasks (w_db (m e w).1) = tasks (w_db w).
Proof. intros H e w. by apply H. Qed.

Lemma run_task_op_moves op : moves (run_task_op op).
Proof.
  destruct op; simpl.
  - apply create_moves.
  - apply claim_moves.
  - apply unclaim_moves.
  - apply status_moves.
  - intros e w Hok id. left. symmetry. apply tview_same, preserves_tasks. intros l.
    unfold add_task_dependency, insert_task_dependency. preserves_tac.
    intros db db' u Hl H. unfold insert_dependency_or_ignore in H. by inv_stmt.
  - intros e w Hok id. left. symmetry. apply tview_same, preserves_tasks. intros l.
    unfold remove_task_dependency. preserves_tac. by intros db db' u Hl [= <- _].
Qed.

Lemma run_task_op_schema op : preserves schema_ok (run_task_op op).
Proof. destruct op; simpl; auto with cocli. Qed.

Lemma run_task_ops_path ops w :
  schema_ok (w_db w) →
  schema_ok (w_db (run_task_ops ops w)) ∧
  ∀ id, rtc tstep (tview (w_db w) id) (tview (w_db (run_task_ops ops w)) id).
Proof.
  revert w. induction ops as [|[e op] ops IH]; intros w Hok; simpl; [by split|].
  destruct (IH (run_task_op op e w).1) as [Hok' Hpath]; [by apply run_task_op_schema|].
  split; [done|]. intros id. etransitivity; [|apply Hpath].
  destruct (run_task_op_moves op e w Hok id) as [->|Hstep]; [done|by apply rtc_once].
Qed.


(** ** Concrete tasks *)

(** Two tasks in the channel of [one_agent_world], the second depending on the first. *)
Definition two_tasks_world : World :=
  let w1 := (create_task 100 "design" None None (demo_env 3000) one_agent_world).1 in
  let w2 := (create_task 100 "build" None None (demo_env 4000) w1).1 in
  (add_task_dependency 100 2 1 (demo_env 5000) w2).1.

Lemma two_tasks_schema : schema_ok (w_db two_tasks_world).
Proof.
  apply add_task_dependency_schema. do 2 apply create_task_schema.
  apply create_agent_schema, create_channel_schema, schema_ok_empty.
Qed.

Lemma add_dependency_exact_witness :
  (add_task_dependency 100 1 2 (demo_env 6000) two_tasks_world).2 = Err TaskDependencyCycle.
Proof.
  pose proof (add_dependency_exact (demo_env 6000) two_tasks_world 100 1 2
    ltac:(by intros n) two_tasks_schema ltac:(lia)
    ltac:(apply has_task_true; vm_compute; reflexivity)
    ltac:(apply has_task_true; vm_compute; reflexivity)) as H.
  destruct (add_task_dependency 100 1 2 (demo_env 6000) two_tasks_world) as [w' r].
  apply H. apply tc_once. apply elem_of_depends_on_rows. vm_compute. constructor.
Defined.

Lemma claim_task_exclusive_witness :
  ∃ w' k, claim_task 100 1 203 (demo_env 6000) two_tasks_world = (w', Ok k) ∧
    is_ok (claim_task 100 1 77 (demo_env 7000) w').2 = false.
Proof.
  destruct (claim_task 100 1 203 (demo_env 6000) two_tasks_world) as [w' [k|x]] eqn:E;
    [|vm_compute in E; discriminate E].
  exists w', k. split; [reflexivity|].
  apply (claim_task_exclusive 100 1 203 (demo_env 6000) two_tasks_world w' k two_tasks_schema E).
  discriminate.
Defined.

Definition claim_finish_unclaim : list (Env * TaskOp) :=
  [(demo_env 6000, OpClaim 100 1 203); (demo_env 7000, OpStatus 100 1 Done None);
   (demo_env 8000, OpUnclaim 100 1)].


(** Replace a closed call by its result. *)
Ltac run_call call :=
  let r := eval vm_compute in call in
  assert (call = r) as -> by (vm_compute; reflexivity); cbv beta iota.

(** ** The check and the insert are not one transaction *)

(** Acyclicity does not survive concurrency: the cycle query and the insert of
    [add_task_dependency] are separate statements on pooled connections, so two calls that
    both check before either inserts close a cycle, and then neither task can ever be
    claimed. *)
Theorem concurrent_dependencies_cycle :
  let w0 := (create_task 100 "b" None None (demo_env 4000)
               (create_task 100 "a" None None (demo_env 3000) one_agent_world).1).1 in
  let '(w1, r1) := check_task_dependency 100 1 2 (demo_env 5000) w0 in
  let '(w2, r2) := check_task_dependency 100 2 1 (demo_env 5000) w1 in
  let '(w3, r3) := insert_task_dependency 100 1 2 (demo_env 5000) w2 in
  let '(w4, r4) := insert_task_dependency 100 2 1 (demo_env 5000) w3 in
  (r1, r2, r3, r4) = (Ok tt, Ok tt, Ok tt, Ok tt) ∧
  tc (depends (w_db w4) 100) 1 1 ∧
  (claim_task 100 1 203 (demo_env 6000) w4).2 = Err (TaskUnmetDependencies 1) ∧
  (claim_task 100 2 203 (demo_env 6000) w4).2 = Err (TaskUnmetDependencies 2).
Proof.
  cbv zeta.
  repeat match goal with |- match ?call with pair _ _ => _ end => run_call call end.
  split_and!; [reflexivity| |vm_compute; reflexivity..].
  eapply tc_l; [|apply tc_once]; apply elem_of_depends_on_rows; vm_compute; constructor.
Qed.
