(* ===== verification/StoreWorkspaces.v ===== *)
(** * Workspaces: descriptors, attachments, installation bindings

    [crates/cocli-store/src/workspace.rs] and the workspace operations of
    [crates/cocli-store/src/lib.rs]. A workspace is a portable descriptor; agents and
    channels attach to it; each installation binds it to a local path, which is validated
    against the file system before it is used. Paths follow the Unix rules. *)
From S2P Require Import Prelude StoreTypes StoreDb StoreSchema StoreAgents.

(** ** Data of [workspace.rs] *)

Record Workspace := mkWorkspace {
  ws_id : Uuid;
  ws_provider_key : string;
  ws_descriptor_version : Z;
  ws_display_name : string;
  ws_portable_locator : option string;
  ws_metadata : Json;
  ws_created_at : Time;
  ws_updated_at : Time;
}.

Record LegacyWorkspace := mkLegacyWorkspace {
  lw_descriptor : Workspace;
  lw_owner_type : string;
  lw_owner_id : Uuid;
  lw_kind : string;
  lw_locator : option string;
}.

Record SubjectWorkspace := mkSubjectWorkspace {
  sw_workspace_id : Uuid;
  sw_subject_type : SubjectType;
  sw_subject_id : Uuid;
  sw_role : option string;
  sw_attached_at : Time;
}.

Record WorkspaceBinding := mkWorkspaceBinding {
  wb_workspace_id : Uuid;
  wb_installation_id : string;
  wb_local_locator : option string;
  wb_state : WorkspaceBindingState;
  wb_capabilities : Json;
  wb_secret_ref : option string;
  wb_last_verified_at : option Time;
  wb_error_code : option string;
  wb_error_message : option string;
}.

Record WorkspaceBindingValidation := mkValidation {
  vd_state : WorkspaceBindingState;
  vd_capabilities : Json;
  vd_error_code : option string;
  vd_error_message : option string;
}.

(** [WorkspaceProviderKey::new]; the key is the string itself. *)
Definition provider_key_new (value : string) : result string StoreError :=
  if trim_is_empty value then Err (InvalidValue "workspace provider key" value) else Ok value.

(** [Path::is_absolute] and [Path::join] with a relative name. *)
Definition is_absolute (path : string) : bool := starts_with "/" path.
Fixpoint ends_with_slash (s : string) : bool :=
  match s with
  | "" => false
  | String c "" => Ascii.eqb c (Ascii.ascii_of_N 47)
  | String _ s' => ends_with_slash s'
  end.
Definition path_join (path name : string) : string :=
  if ends_with_slash path then path +:+ name else path +:+ "/" +:+ name.

(** ** Validation *)

(** [portable_locator.map(str::trim).filter(|value| !value.is_empty())], which is also
    [non_empty_locator]. *)
Definition non_empty_locator (locator : option string) : option string :=
  match locator with
  | None => None
  | Some value => let trimmed := trim value in if str_is_empty trimmed then None else Some trimmed
  end.

Definition validate_portable_locator (provider_key : string) (portable_locator : option string)
    : result unit StoreError :=
  let portable_locator := non_empty_locator portable_locator in
  if str_eqb provider_key "directory" &&
     match portable_locator with Some locator => is_absolute locator | None => false end
  then Err (InvalidWorkspacePortableLocator "directory" (default "" portable_locator))
  else if str_eqb provider_key "git" then
    match portable_locator with
    | None => Err (InvalidWorkspacePortableLocator "git" "<missing>")
    | Some locator =>
        let is_local := is_absolute locator || starts_with "file://" locator in
        let looks_like_remote :=
          contains "://" locator || (contains "@" locator && contains ":" locator) in
        if is_local || negb looks_like_remote
        then Err (InvalidWorkspacePortableLocator "git" locator)
        else Ok tt
    end
  else Ok tt.

Definition filesystem_only : Json := JObject [("filesystem", JBool true)].
Definition filesystem_git : Json := JObject [("filesystem", JBool true); ("git", JBool true)].

Definition ready (capabilities : Json) : WorkspaceBindingValidation :=
  mkValidation Ready capabilities None None.
Definition missing_locator : WorkspaceBindingValidation :=
  mkValidation Unbound (JObject []) (Some "binding_missing")
    (Some "workspace binding has no local locator").
Definition missing_path (local_locator : string) : WorkspaceBindingValidation :=
  mkValidation NeedsAttention (JObject []) (Some "path_not_found")
    (Some ("workspace path '" +:+ local_locator +:+ "' does not exist")).
Definition relative_path (local_locator : string) : WorkspaceBindingValidation :=
  mkValidation NeedsAttention (JObject []) (Some "path_must_be_absolute")
    (Some ("workspace path '" +:+ local_locator +:+ "' must be absolute")).

Definition validate_directory_binding (local_locator : option string)
    : M WorkspaceBindingValidation :=
  match non_empty_locator local_locator with
  | None => ret missing_locator
  | Some path =>
      if negb (is_absolute path) then ret (relative_path path)
      else let! present := is_dir path in
           ret (if present then ready filesystem_only else missing_path path)
  end.

Definition validate_git_binding (local_locator : option string) : M WorkspaceBindingValidation :=
  match non_empty_locator local_locator with
  | None => ret missing_locator
  | Some path =>
      if negb (is_absolute path) then ret (relative_path path)
      else
        let! present := is_dir path in
        if negb present then ret (missing_path path)
        else
          let git_path := path_join path ".git" in
          let! git_dir := is_dir git_path in
          let! git := if git_dir then ret true else is_file git_path in
          ret (if git then ready filesystem_git
               else mkValidation NeedsAttention filesystem_only (Some "git_metadata_not_found")
                      (Some ("workspace path '" +:+ path +:+ "' is not a Git checkout or worktree")))
  end.

Definition validate_workspace_binding (provider_key : string) (local_locator : option string)
    : M WorkspaceBindingValidation :=
  if str_eqb provider_key "directory" then validate_directory_binding local_locator
  else if str_eqb provider_key "managed" then
    ret (mkValidation Unavailable (JObject []) (Some "managed_materialization_unavailable")
      (Some "managed workspace materialization is not available in this milestone"))
  else if str_eqb provider_key "git" then validate_git_binding local_locator
  else
    ret (mkValidation Unavailable (JObject []) (Some "provider_unavailable")
      (Some ("workspace provider '" +:+ provider_key +:+
             "' is not available in this installation"))).

(** ** Decoding rows *)

Definition workspace_from_row (row : WorkspaceRow) : M Workspace :=
  let! provider_key := lift (provider_key_new (wsr_provider_key row)) in
  let! metadata := json_from_str (wsr_metadata_json row) in
  ret (mkWorkspace (wsr_id row) provider_key (wsr_descriptor_version row) (wsr_display_name row)
         (wsr_portable_locator row) metadata (wsr_created_at row) (wsr_updated_at row)).

(** A row of the join of [subject_workspaces], [workspaces] and the current binding. *)
Definition legacy_workspace_from_row (row : AttachmentRow * WorkspaceRow * option string)
    : M LegacyWorkspace :=
  let '(sw, w, locator) := row in
  let! descriptor := workspace_from_row w in
  ret (mkLegacyWorkspace descriptor (atr_subject_type sw) (atr_subject_id sw)
         (ws_provider_key descriptor) locator).

Definition subject_workspace_from_row (row : AttachmentRow) : result SubjectWorkspace StoreError :=
  try! subject_type <- parse (atr_subject_type row);
  Ok (mkSubjectWorkspace (atr_workspace_id row) subject_type (atr_subject_id row)
        (atr_role row) (atr_attached_at row)).

Definition workspace_binding_from_row (row : BindingRow) : M WorkspaceBinding :=
  let! state := lift (parse (wbr_state row)) in
  let! capabilities := json_from_str (wbr_capabilities_json row) in
  ret (mkWorkspaceBinding (wbr_workspace_id row) (wbr_installation_id row) (wbr_local_locator row)
         state capabilities (wbr_secret_ref row) (wbr_last_verified_at row) (wbr_error_code row)
         (wbr_error_message row)).

(** [rows.into_iter().map(decode).collect()] and [row.map(decode).transpose()]. *)
Fixpoint decode_rows {A B} (decode : A → M B) (rows : list A) : M (list B) :=
  match rows with
  | [] => ret []
  | r :: rows' =>
      let! b := decode r in
      let! bs := decode_rows decode rows' in
      ret (b :: bs)
  end.
Definition decode_row {A B} (decode : A → M B) (row : option A) : M (option B) :=
  match row with
  | None => ret None
  | Some r => let! b := decode r in ret (Some b)
  end.

(** ** Operations *)

Definition insert_workspace (provider_key display_name : string) (portable_locator : option string)
    (metadata : Json) : M Workspace :=
  let! now := utc_now in
  let! id := new_v4 in
  let workspace := mkWorkspace id provider_key 1 display_name (trim <$> portable_locator) metadata
                     now now in
  let! metadata_json := json_to_string metadata in
  execute (insert_workspace_row
    (mkWorkspaceRow id provider_key 1 display_name (ws_portable_locator workspace) metadata_json
       now now)) ;;
  ret workspace.

Definition create_workspace (provider_key display_name : string) (portable_locator : option string)
    (metadata : Json) : M Workspace :=
  lift (validate_portable_locator provider_key portable_locator) ;;
  insert_workspace provider_key display_name portable_locator metadata.

Definition get_workspace (workspace_id : Uuid) : M (option Workspace) :=
  let! row := fetch_optional (λ db, bfilter (λ r, wsr_id r =? workspace_id)%N (db_workspaces db)) in
  decode_row workspace_from_row row.

Definition attach_existing_workspace (workspace_id : Uuid) (subject_type : SubjectType)
    (subject_id : Uuid) (role : option string) : M SubjectWorkspace :=
  let! attached_at := utc_now in
  let! row := execute (upsert_attachment workspace_id subject_type subject_id role attached_at) in
  match row with
  | None =>
      let! workspace := get_workspace workspace_id in
      match workspace with
      | None => throw (WorkspaceNotFound workspace_id)
      | Some _ => throw (SubjectNotFound (as_str subject_type) subject_id)
      end
  | Some row => lift (subject_workspace_from_row row)
  end.

Definition detach_workspace (workspace_id : Uuid) (subject_type : SubjectType) (subject_id : Uuid)
    : M bool :=
  let! n := execute (sql_delete db_attachments with_attachments
                       (is_attachment workspace_id (as_str subject_type) subject_id)) in
  ret (0 <? n).

(** [ORDER BY attached_at, subject_type, subject_id]. *)
Definition attachment_cmp : AttachmentRow → AttachmentRow → comparison :=
  on_cmp (λ r, (atr_attached_at r, (atr_subject_type r, atr_subject_id r)))
    (pair_cmp Z.compare (pair_cmp String.compare N.compare)).

Definition list_workspace_attachments (workspace_id : Uuid) : M (list SubjectWorkspace) :=
  let! rows := fetch (λ db, sort_by attachment_cmp
    (bfilter (λ r, atr_workspace_id r =? workspace_id)%N (db_attachments db))) in
  lift (collect_results subject_workspace_from_row rows).

(** The two joins of the legacy queries: attachments with their workspace and with the local
    locator of the installation's binding, if there is one. *)
Definition legacy_join (installation_id : string) (p : AttachmentRow → bool) (db : DB)
    : list (AttachmentRow * WorkspaceRow * option string) :=
  concat (map (λ sw,
    concat (map (λ w,
      match bfilter (is_binding (wsr_id w) installation_id) (db_bindings db) with
      | [] => [(sw, w, None)]
      | bindings => map (λ b, (sw, w, wbr_local_locator b)) bindings
      end) (bfilter (λ w, wsr_id w =? atr_workspace_id sw)%N (db_workspaces db))))
    (bfilter p (db_attachments db))).

Definition legacy_cmp (x y : AttachmentRow * WorkspaceRow * option string) : comparison :=
  pair_cmp Z.compare N.compare (atr_attached_at x.1.1, wsr_id x.1.2)
    (atr_attached_at y.1.1, wsr_id y.1.2).

(** [validation.state] and the other columns that a verification rewrites. *)
Definition verified_row (validation : WorkspaceBindingValidation) (capabilities_json : string)
    (verified_at : Time) (r : BindingRow) : BindingRow :=
  mkBindingRow (wbr_workspace_id r) (wbr_installation_id r) (wbr_local_locator r)
    (as_str (vd_state validation)) capabilities_json (wbr_secret_ref r) (Some verified_at)
    (vd_error_code validation) (vd_error_message validation).

(** The operations that depend on [Store::installation_id]. *)
Section Installation.
Context (installation_id : string).

Definition list_workspaces (owner_type : string) (owner_id : Uuid) : M (list LegacyWorkspace) :=
  let! subject_type := lift (parse (A := SubjectType) owner_type) in
  let! rows := fetch (λ db, sort_by legacy_cmp (legacy_join installation_id (λ sw,
    str_eqb (atr_subject_type sw) (as_str subject_type) && (atr_subject_id sw =? owner_id)%N) db)) in
  decode_rows legacy_workspace_from_row rows.

Definition get_contextual_workspace (workspace_id : Uuid) (subject_type : SubjectType)
    (subject_id : Uuid) : M (option LegacyWorkspace) :=
  let! row := fetch_optional (legacy_join installation_id
                (is_attachment workspace_id (as_str subject_type) subject_id)) in
  decode_row legacy_workspace_from_row row.

Definition get_workspace_binding (workspace_id : Uuid) (installation : string)
    : M (option WorkspaceBinding) :=
  let! row := fetch_optional (λ db, bfilter (is_binding workspace_id installation) (db_bindings db)) in
  decode_row workspace_binding_from_row row.

Definition list_workspace_bindings (workspace_id : Uuid) : M (list WorkspaceBinding) :=
  let! rows := fetch (λ db, sort_by (on_cmp wbr_installation_id String.compare)
    (bfilter (λ r, wbr_workspace_id r =? workspace_id)%N (db_bindings db))) in
  decode_rows workspace_binding_from_row rows.

Definition current_workspace_binding (workspace_id : Uuid) : M (option WorkspaceBinding) :=
  let! binding := get_workspace_binding workspace_id installation_id in
  match binding with
  | Some b => ret (Some b)
  | None =>
      let! workspace := get_workspace workspace_id in
      match workspace with
      | None => ret None
      | Some _ =>
          ret (Some (mkWorkspaceBinding workspace_id installation_id None Unbound (JObject [])
            None None (Some "binding_missing") (Some "workspace binding has no local locator")))
      end
  end.

Definition verify_workspace_binding (workspace_id : Uuid) : M WorkspaceBinding :=
  let! found := get_workspace workspace_id in
  match found with
  | None => throw (WorkspaceNotFound workspace_id)
  | Some workspace =>
      let! current := current_workspace_binding workspace_id in
      match current with
      | None => throw (WorkspaceBindingNotFound workspace_id)
      | Some binding =>
          let! validation := validate_workspace_binding (ws_provider_key workspace)
                               (wb_local_locator binding) in
          let! verified_at := utc_now in
          let! capabilities_json := json_to_string (vd_capabilities validation) in
          execute (sql_update db_bindings with_bindings
            (λ _, is_binding workspace_id installation_id)
            (verified_row validation capabilities_json verified_at)) ;;
          let! verified := current_workspace_binding workspace_id in
          match verified with
          | None => throw (WorkspaceBindingNotFound workspace_id)
          | Some b => ret b
          end
      end
  end.

Definition bind_workspace_for_installation (workspace_id : Uuid) (installation local_locator : string)
    (secret_ref : option string) : M WorkspaceBinding :=
  let! workspace := get_workspace workspace_id in
  match workspace with
  | None => throw (WorkspaceNotFound workspace_id)
  | Some _ =>
      execute (upsert_binding workspace_id installation local_locator secret_ref) ;;
      let! binding := get_workspace_binding workspace_id installation in
      match binding with
      | None => throw (WorkspaceBindingNotFound workspace_id)
      | Some b => ret b
      end
  end.

Definition bind_workspace (workspace_id : Uuid) (local_locator : string)
    (secret_ref : option string) : M WorkspaceBinding :=
  bind_workspace_for_installation workspace_id installation_id local_locator secret_ref ;;
  verify_workspace_binding workspace_id.

Definition resolve_workspace (workspace_id : Uuid) : M (option string) :=
  let! binding := verify_workspace_binding workspace_id in
  ret (if bool_decide (wb_state binding = Ready) then wb_local_locator binding else None).

(** [metadata.get("label").and_then(Value::as_str)]. *)
Definition metadata_label (metadata : Json) : option string :=
  match metadata with
  | JObject fields =>
      match find (λ f, str_eqb f.1 "label") fields with
      | Some (_, JString s) => Some s
      | _ => None
      end
  | _ => None
  end.

Definition attach_workspace (owner_type : string) (owner_id : Uuid) (kind : string)
    (locator : option string) (metadata : Json) : M LegacyWorkspace :=
  let! subject_type := lift (parse (A := SubjectType) owner_type) in
  let! provider_key := lift (provider_key_new kind) in
  let display_name := default kind (metadata_label metadata) in
  let portable_locator := if str_eqb kind "external" then locator else None in
  let! workspace := insert_workspace provider_key display_name portable_locator metadata in
  attach_existing_workspace (ws_id workspace) subject_type owner_id None ;;
  match locator with
  | Some l => bind_workspace (ws_id workspace) l None ;; ret tt
  | None => ret tt
  end ;;
  let! contextual := get_contextual_workspace (ws_id workspace) subject_type owner_id in
  match contextual with
  | None => throw (WorkspaceNotFound (ws_id workspace))
  | Some w => ret w
  end.
End Installation.

Definition update_workspace (workspace_id : Uuid) (display_name : string)
    (portable_locator : option string) (metadata : Json) : M (option Workspace) :=
  let! existing := get_workspace workspace_id in
  match existing with
  | None => ret None
  | Some existing =>
      lift (validate_portable_locator (ws_provider_key existing) portable_locator) ;;
      let! metadata_json := json_to_string metadata in
      let! now := utc_now in
      let! n := execute (sql_update db_workspaces with_workspaces
        (λ _ r, wsr_id r =? workspace_id)%N (λ r,
        mkWorkspaceRow (wsr_id r) (wsr_provider_key r) (wsr_descriptor_version r) display_name
          (trim <$> portable_locator) metadata_json (wsr_created_at r) now)) in
      if n =? 0 then ret None else get_workspace workspace_id
  end.

Definition delete_workspace (workspace_id : Uuid) : M bool :=
  let! n := execute (delete_workspace_row workspace_id) in
  ret (0 <? n).

(** ** The schema is preserved *)

Lemma decode_row_preserves P {A B} (decode : A → M B) row :
  (∀ r, preserves P (decode r)) → preserves P (decode_row decode row).
Proof. intros H. destruct row; simpl; preserves_tac. Qed.

Lemma workspace_from_row_preserves P r : preserves P (workspace_from_row r).
Proof. unfold workspace_from_row. preserves_tac. Qed.
Lemma legacy_workspace_from_row_preserves P r : preserves P (legacy_workspace_from_row r).
Proof.
  destruct r as [[sw w] l]. simpl. apply preserves_bind; [apply workspace_from_row_preserves|].
  preserves_tac.
Qed.
Lemma workspace_binding_from_row_preserves P r : preserves P (workspace_binding_from_row r).
Proof. unfold workspace_binding_from_row. preserves_tac. Qed.
Lemma get_workspace_preserves P id : preserves P (get_workspace id).
Proof.
  unfold get_workspace. preserves_tac. apply decode_row_preserves, workspace_from_row_preserves.
Qed.
Lemma get_workspace_binding_preserves P id i : preserves P (get_workspace_binding id i).
Proof.
  unfold get_workspace_binding. preserves_tac.
  apply decode_row_preserves, workspace_binding_from_row_preserves.
Qed.
Lemma current_workspace_binding_preserves P i id : preserves P (current_workspace_binding i id).
Proof.
  unfold current_workspace_binding.
  apply preserves_bind; [apply get_workspace_binding_preserves|]. intros [b|]; [preserves_tac|].
  apply preserves_bind; [apply get_workspace_preserves|]. preserves_tac.
Qed.
Lemma get_contextual_workspace_preserves P i id t s : preserves P (get_contextual_workspace i id t s).
Proof.
  unfold get_contextual_workspace. preserves_tac.
  apply decode_row_preserves, legacy_workspace_from_row_preserves.
Qed.
Lemma validate_workspace_binding_preserves P k l : preserves P (validate_workspace_binding k l).
Proof.
  unfold validate_workspace_binding, validate_directory_binding, validate_git_binding.
  preserves_tac.
Qed.

#[export] Hint Resolve decode_row_preserves workspace_from_row_preserves
  legacy_workspace_from_row_preserves workspace_binding_from_row_preserves get_workspace_preserves
  get_workspace_binding_preserves current_workspace_binding_preserves
  get_contextual_workspace_preserves validate_workspace_binding_preserves : cocli.

(** The operations that change the workspace tables. *)
Inductive WorkspaceOp : Type :=
  | CreateWorkspace (provider_key display_name : string) (portable_locator : option string)
      (metadata : Json)
  | AttachWorkspace (owner_type : string) (owner_id : Uuid) (kind : string)
      (locator : option string) (metadata : Json)
  | AttachExisting (workspace_id : Uuid) (subject_type : SubjectType) (subject_id : Uuid)
      (role : option string)
  | Detach (workspace_id : Uuid) (subject_type : SubjectType) (subject_id : Uuid)
  | UpdateWorkspace (workspace_id : Uuid) (display_name : string)
      (portable_locator : option string) (metadata : Json)
  | DeleteWorkspace (workspace_id : Uuid)
  | BindWorkspace (workspace_id : Uuid) (local_locator : string) (secret_ref : option string)
  | BindForInstallation (workspace_id : Uuid) (installation local_locator : string)
      (secret_ref : option string)
  | VerifyBinding (workspace_id : Uuid)
  | ResolveWorkspace (workspace_id : Uuid).

Definition run_workspace_op (installation_id : string) (op : WorkspaceOp) : M unit :=
  match op with
  | CreateWorkspace k n l m => create_workspace k n l m ;; ret tt
  | AttachWorkspace t o k l m => attach_workspace installation_id t o k l m ;; ret tt
  | AttachExisting w t s r => attach_existing_workspace w t s r ;; ret tt
  | Detach w t s => detach_workspace w t s ;; ret tt
  | UpdateWorkspace w n l m => update_workspace w n l m ;; ret tt
  | DeleteWorkspace w => delete_workspace w ;; ret tt
  | BindWorkspace w l s => bind_workspace installation_id w l s ;; ret tt
  | BindForInstallation w i l s => bind_workspace_for_installation w i l s ;; ret tt
  | VerifyBinding w => verify_workspace_binding installation_id w ;; ret tt
  | ResolveWorkspace w => resolve_workspace installation_id w ;; ret tt
  end.

(** What a property of the database has to survive to survive every workspace operation. *)
Section Frame.
Context (P : DB → Prop).
Context (Hattach : ∀ w t s r now, stmt_preserves P (upsert_attachment w t s r now)).
Context (Hdetach : ∀ p, stmt_preserves P (sql_delete db_attachments with_attachments p)).
Context (Hdelete : ∀ w, stmt_preserves P (delete_workspace_row w)).
Context (Hbind : ∀ w i l s, stmt_preserves P (upsert_binding w i l s)).
Context (Hverify : ∀ i w v c t, stmt_preserves P
  (sql_update db_bindings with_bindings (λ _, is_binding w i) (verified_row v c t))).

Lemma attach_existing_preserves w t s r : preserves P (attach_existing_workspace w t s r).
Proof. unfold attach_existing_workspace. preserves_tac; auto. Qed.
Lemma verify_preserves i w : preserves P (verify_workspace_binding i w).
Proof. unfold verify_workspace_binding. preserves_tac; auto. Qed.
Lemma bind_for_preserves w i l s : preserves P (bind_workspace_for_installation w i l s).
Proof. unfold bind_workspace_for_installation. preserves_tac; auto. Qed.
Hint Resolve attach_existing_preserves verify_preserves bind_for_preserves : cocli.
Lemma bind_preserves i w l s : preserves P (bind_workspace i w l s).
Proof. unfold bind_workspace. preserves_tac. Qed.
Hint Resolve bind_preserves : cocli.

Context (Hattach_new : ∀ i t o k l m, preserves P (attach_workspace i t o k l m)).
Context (Hcreate : ∀ k n l m, preserves P (create_workspace k n l m)).
Context (Hupdate : ∀ w n l m, preserves P (update_workspace w n l m)).

Lemma run_workspace_op_preserves i op : preserves P (run_workspace_op i op).
Proof.
  destruct op; simpl; unfold detach_workspace, delete_workspace, resolve_workspace;
    preserves_tac; auto.
Qed.
End Frame.

(** A property of the other tables survives every workspace operation. *)
Section Outside.
Context (P : DB → Prop) (HP : ∀ f db, P db → P (with_workspace_tables f db)).

Lemma upsert_attachment_outside w t s r now : stmt_preserves P (upsert_attachment w t s r now).
Proof.
  intros db db' o Hdb H. unfold upsert_attachment in H. destruct (_ && _); [|by simplify_eq].
  destruct (bfilter _ _); simplify_eq; by apply HP.
Qed.
Lemma upsert_binding_outside w i l s : stmt_preserves P (upsert_binding w i l s).
Proof.
  intros db db' [] Hdb H. unfold upsert_binding in H.
  destruct (exists_row _ _); [simplify_eq; by apply HP|].
  destruct (has_workspace db w); simpl in H; simplify_eq; by apply HP.
Qed.
Lemma insert_workspace_outside k n l m : preserves P (insert_workspace k n l m).
Proof.
  unfold insert_workspace. preserves_tac. intros db db' u Hdb H. unfold insert_workspace_row in H.
  destruct (has_workspace db _); simpl in H; simplify_eq. by apply HP.
Qed.
Lemma workspace_update_outside {A} (get : DB → list A) put p f :
  (∀ g db, ∃ h, put g db = with_workspace_tables h db) → stmt_preserves P (sql_update get put p f).
Proof.
  intros Hput db db' n Hdb [= <- _].
  destruct (Hput (update_where (p db) f) db) as [h ->]. by apply HP.
Qed.

Lemma run_workspace_op_outside i op : preserves P (run_workspace_op i op).
Proof.
  pose proof upsert_attachment_outside. pose proof upsert_binding_outside.
  pose proof insert_workspace_outside.
  assert (∀ j w v c t, stmt_preserves P
    (sql_update db_bindings with_bindings (λ _, is_binding w j) (verified_row v c t))) as Hv.
  { intros. apply workspace_update_outside. by eexists. }
  apply run_workspace_op_preserves; auto.
  - intros p db db' n Hdb [= <- _]. by apply HP.
  - intros w db db' n Hdb [= <- _]. by apply HP.
  - intros. unfold attach_workspace. preserves_tac.
  - intros. unfold create_workspace. preserves_tac.
  - intros. unfold update_workspace. preserves_tac. apply workspace_update_outside. by eexists.
Qed.
End Outside.

(** ** Portable locators stay portable *)

(** A locator of the descriptor that means the same on every machine. *)
Definition portable_locator_ok (provider_key : string) (locator : option string) : Prop :=
  match locator with
  | None => True
  | Some l =>
      (provider_key = "directory" → is_absolute l = false) ∧
      (provider_key = "git" → is_absolute l = false ∧ starts_with "file://" l = false ∧
         (contains "://" l = true ∨ contains "@" l = true ∧ contains ":" l = true))
  end.

Definition portable (db : DB) : Prop :=
  Forall (λ r, portable_locator_ok (wsr_provider_key r) (wsr_portable_locator r)) (db_workspaces db).

Lemma validate_portable_locator_ok k l :
  validate_portable_locator k l = Ok tt → portable_locator_ok k (trim <$> l).
Proof.
  unfold validate_portable_locator, portable_locator_ok, non_empty_locator.
  destruct l as [l|]; simpl; [|done]. generalize (trim l) as t. intros t H.
  destruct (str_eqb k "directory") eqn:Hd, (str_eqb k "git") eqn:Hg;
    unfold str_eqb in *; bsimp; subst; try done; simpl in H.
  - split; [|done]. intros _. destruct (str_is_empty t) eqn:E; [by apply str_is_empty_true in E as ->|].
    by destruct (is_absolute t).
  - split; [done|]. intros _. destruct (str_is_empty t); [done|].
    destruct (is_absolute t); [done|]. destruct (starts_with _ t); [done|]. simpl in H.
    destruct (contains "://" t); [by auto|]. simpl in H.
    destruct (contains "@" t), (contains ":" t); simpl in H; try done. auto.
Qed.

Lemma insert_workspace_portable k n l m :
  portable_locator_ok k (trim <$> l) → preserves portable (insert_workspace k n l m).
Proof.
  intros Hl. unfold insert_workspace. preserves_tac. intros db db' u Hdb H.
  unfold insert_workspace_row in H. inv_stmt. unfold portable. simpl. apply Forall_app. auto.
Qed.

Lemma create_workspace_portable k n l m : preserves portable (create_workspace k n l m).
Proof.
  unfold create_workspace. intros e w Hw. unfold bind, lift.
  destruct (validate_portable_locator k l) as [[]|] eqn:E; [|done].
  by apply insert_workspace_portable; [apply validate_portable_locator_ok|].
Qed.

Lemma trim_external_portable k (l : option string) :
  portable_locator_ok k (trim <$> (if str_eqb k "external" then l else None)).
Proof.
  destruct (str_eqb k "external") eqn:E; [|done]. apply str_eqb_eq in E as ->.
  destruct l; simpl; [|done]. split; intros; congruence.
Qed.

Definition portable_schema (db : DB) : Prop := schema_ok db ∧ portable db.

Lemma stmt_preserves_and {A} (P Q : DB → Prop) (s : DB → result (DB * A) SqlError) :
  stmt_preserves P s → stmt_preserves Q s → stmt_preserves (λ db, P db ∧ Q db) s.
Proof. intros HP HQ db db' a [Hp Hq] H. split; [by eapply HP|by eapply HQ]. Qed.

Lemma preserves_and {A} (P Q : DB → Prop) (m : M A) :
  preserves P m → preserves Q m → preserves (λ db, P db ∧ Q db) m.
Proof. intros HP HQ e w [? ?]. split; [by apply HP|by apply HQ]. Qed.

Lemma verified_row_schema i w v c t :
  stmt_preserves schema_ok
    (sql_update db_bindings with_bindings (λ _, is_binding w i) (verified_row v c t)).
Proof. apply update_bindings_ok; [done|]. intros r. by exists (vd_state v). Qed.
#[export] Hint Resolve verified_row_schema : cocli.

Lemma insert_workspace_schema k n l m : preserves schema_ok (insert_workspace k n l m).
Proof. unfold insert_workspace. preserves_tac. Qed.
#[export] Hint Resolve insert_workspace_schema : cocli.

Lemma attach_existing_schema w t s r : preserves schema_ok (attach_existing_workspace w t s r).
Proof. apply attach_existing_preserves; auto with cocli. Qed.
Lemma bind_workspace_schema i w l s : preserves schema_ok (bind_workspace i w l s).
Proof. apply bind_preserves; auto with cocli. Qed.
#[export] Hint Resolve attach_existing_schema bind_workspace_schema : cocli.

Lemma attach_workspace_schema i t o k l m : preserves schema_ok (attach_workspace i t o k l m).
Proof. unfold attach_workspace. preserves_tac. Qed.
Lemma create_workspace_schema k n l m : preserves schema_ok (create_workspace k n l m).
Proof. unfold create_workspace. preserves_tac. Qed.
Lemma update_workspace_schema w n l m : preserves schema_ok (update_workspace w n l m).
Proof. unfold update_workspace. preserves_tac. by apply update_workspaces_ok. Qed.

Lemma run_workspace_op_schema i op : preserves schema_ok (run_workspace_op i op).
Proof.
  apply run_workspace_op_preserves; auto with cocli; auto using attach_workspace_schema,
    create_workspace_schema, update_workspace_schema.
Qed.

(** Statements on attachments and bindings leave the descriptors alone. *)
Lemma attachment_portable w t s r now : stmt_preserves portable (upsert_attachment w t s r now).
Proof.
  intros db db' o Hdb H. unfold upsert_attachment in H.
  destruct (_ && _); [|by simplify_eq]. by destruct (bfilter _ _); simplify_eq.
Qed.
Lemma detach_portable p : stmt_preserves portable (sql_delete db_attachments with_attachments p).
Proof. by intros db db' n Hdb [= <- _]. Qed.
Lemma delete_workspace_portable w : stmt_preserves portable (delete_workspace_row w).
Proof. intros db db' n Hdb [= <- _]. by apply Forall_delete_where. Qed.
Lemma binding_portable w i l s : stmt_preserves portable (upsert_binding w i l s).
Proof. intros db db' [] Hdb H. unfold upsert_binding in H. by inv_stmt. Qed.
Lemma verified_portable i w v c t :
  stmt_preserves portable
    (sql_update db_bindings with_bindings (λ _, is_binding w i) (verified_row v c t)).
Proof. by intros db db' n Hdb [= <- _]. Qed.

#[export] Hint Resolve attachment_portable detach_portable delete_workspace_portable
  binding_portable verified_portable : cocli.

Lemma attach_existing_portable w t s r : preserves portable (attach_existing_workspace w t s r).
Proof. apply attach_existing_preserves; auto with cocli. Qed.
Lemma bind_workspace_portable i w l s : preserves portable (bind_workspace i w l s).
Proof. apply bind_preserves; auto with cocli. Qed.
#[export] Hint Resolve attach_existing_portable bind_workspace_portable : cocli.

Lemma attach_workspace_portable i t o k l m : preserves portable (attach_workspace i t o k l m).
Proof.
  unfold attach_workspace. intros e w Hw. unfold bind at 1, lift.
  destruct (parse t) as [st|]; [|done]. unfold provider_key_new, bind at 1.
  destruct (trim_is_empty k); [done|]. revert e w Hw.
  apply (preserves_bind portable); [apply insert_workspace_portable, trim_external_portable|].
  intros ws. preserves_tac.
Qed.

Lemma get_workspace_found w e wd wd' ws :
  get_workspace w e wd = (wd', Ok (Some ws)) →
  w_db wd' = w_db wd ∧
  ∃ r, r ∈ db_workspaces (w_db wd) ∧ wsr_id r = w ∧ ws_provider_key ws = wsr_provider_key r ∧
       ws_id ws = w.
Proof.
  unfold get_workspace. intros (w1 & row & [E1 ->]%fetch_optional_ok & H)%bind_ok.
  destruct (head _) as [r|] eqn:Hr; [|done]. simpl in H.
  assert (r ∈ bfilter (λ r, wsr_id r =? w)%N (db_workspaces (w_db wd))) as Hin.
  { destruct (bfilter _ _); simplify_eq/=. set_solver. }
  apply elem_of_bfilter in Hin as [Hin Hid%N.eqb_eq]. unfold workspace_from_row, provider_key_new in H.
  apply bind_ok in H as (w2 & b & H & H2). unfold ret in H2. simplify_eq.
  apply bind_ok in H as (w3 & k & [-> Hk]%lift_ok & H). destruct (trim_is_empty _); [done|].
  apply bind_ok in H as (w4 & j & Hj & H). unfold json_from_str in Hj. unfold ret in H. simplify_eq.
  split; [done|]. by exists r.
Qed.

Lemma update_row_portable w n l j now k db r :
  schema_ok db → portable db → r ∈ db_workspaces db → wsr_id r = w → wsr_provider_key r = k →
  portable_locator_ok k (trim <$> l) →
  portable (with_workspaces (update_where (λ r, wsr_id r =? w)%N (λ r,
    mkWorkspaceRow (wsr_id r) (wsr_provider_key r) (wsr_descriptor_version r) n
      (trim <$> l) j (wsr_created_at r) now)) db).
Proof.
  intros Hs Hp Hr Hid Hk Hl. destruct (so_workspaces _ Hs) as (K1 & _). unfold portable. simpl.
  rewrite Forall_forall. intros r' (x & Hx & ->)%elem_of_update_where.
  destruct (wsr_id x =? w)%N eqn:E; [|unfold portable in Hp; rewrite Forall_forall in Hp; by apply Hp].
  apply N.eqb_eq in E. simpl. assert (x = r) as ->; [|by rewrite Hk].
  by eapply (NoDup_key_eq wsr_id); [exact K1|..|congruence].
Qed.

Lemma update_workspace_portable w n l m : preserves portable_schema (update_workspace w n l m).
Proof.
  intros e wd [Hs Hp]. split; [by apply update_workspace_schema|].
  unfold update_workspace, bind at 1.
  destruct (get_workspace w e wd) as [w1 [[ws|]|x]] eqn:E.
  2-3: pose proof (get_workspace_preserves portable w e wd Hp) as H; by rewrite E in H.
  apply get_workspace_found in E as [E1 (r & Hr & Hid & Hk & _)]. rewrite <- E1 in *.
  unfold bind at 1, lift. destruct (validate_portable_locator _ _) as [[]|] eqn:Hv; [|done].
  apply validate_portable_locator_ok in Hv. rewrite Hk in Hv.
  unfold bind, json_to_string, utc_now, execute. simpl.
  destruct (env_fault _ _); [done|]. simpl.
  destruct (_ =? 0); simpl; [|apply get_workspace_preserves; simpl];
    apply (update_row_portable _ _ _ _ _ (wsr_provider_key r) _ r); done.
Qed.

Definition run_workspaces (installation_id : string) (ops : list (Env * WorkspaceOp)) (w : World)
    : World :=
  fold_left (λ w '(e, op), (run_workspace_op installation_id op e w).1) ops w.

Lemma run_workspaces_portable i ops w :
  portable_schema (w_db w) → portable_schema (w_db (run_workspaces i ops w)).
Proof.
  revert w. induction ops as [|[e op] ops IH]; intros w Hw; simpl; [done|]. apply IH.
  apply run_workspace_op_preserves; try done; intros; unfold portable_schema;
    solve [apply stmt_preserves_and; auto with cocli
          |apply preserves_and; auto using attach_workspace_schema, attach_workspace_portable,
             create_workspace_schema, create_workspace_portable
          |apply update_workspace_portable].
Qed.

(** No machine-local path ever enters a portable descriptor: whatever the
    workspace operations, their arguments, faults and file systems, from any database that
    satisfies it, the portable locator of a directory workspace is never an absolute path and
    that of a Git workspace is a remote (neither an absolute path nor a [file://] URL). *)
Theorem portable_locators_stay_portable (installation_id : string)
    (ops : list (Env * WorkspaceOp)) (w : World) :
  schema_ok (w_db w) → portable (w_db w) →
  portable (w_db (run_workspaces installation_id ops w)).
Proof. intros Hs Hp. by apply run_workspaces_portable. Qed.

Lemma portable_locators_stay_portable_witness :
  portable (w_db (run_workspaces "here"
    [(demo_env 100, CreateWorkspace "git" "repo" (Some " git@host:team/repo ") (JObject []));
     (demo_env 200, CreateWorkspace "directory" "local" (Some "/home/me") (JObject []));
     (demo_env 300, UpdateWorkspace 101 "repo" (Some "/home/me/repo") (JObject []))] start)).
Proof. apply portable_locators_stay_portable; [apply schema_ok_empty|constructor]. Defined.

(** In the witness's history the first operation stores the trimmed remote and the two local
    paths are refused. *)
Example portable_history :
  map (λ r, (wsr_id r, wsr_portable_locator r)) (db_workspaces (w_db (run_workspaces "here"
    [(demo_env 100, CreateWorkspace "git" "repo" (Some " git@host:team/repo ") (JObject []));
     (demo_env 200, CreateWorkspace "directory" "local" (Some "/home/me") (JObject []));
     (demo_env 300, UpdateWorkspace 101 "repo" (Some "/home/me/repo") (JObject []))] start)))
  = [(101%N, Some "git@host:team/repo")].
Proof. vm_compute. reflexivity. Qed.

(** ** Resolution *)

(** A local path that a workspace of the provider can run in, with the file system given by
    its directories and files. *)
Definition usable (dirs files : string → bool) (provider_key local_locator : string) : bool :=
  match non_empty_locator (Some local_locator) with
  | None => false
  | Some path =>
      is_absolute path && dirs path &&
      (str_eqb provider_key "directory" ||
       str_eqb provider_key "git" &&
         (dirs (path_join path ".git") || files (path_join path ".git")))
  end.

(** The file system does not change during the operation. *)
Definition stable_fs (dirs files : string → bool) (e : Env) : Prop :=
  ∀ n p, env_is_dir e n p = dirs p ∧ env_is_file e n p = files p.

(** The capabilities the store writes are read back as they were written. *)
Definition capability_values : list Json := [JObject []; filesystem_only; filesystem_git].
Definition json_faithful (e : Env) : Prop :=
  ∀ c, c ∈ capability_values → env_from_json e (env_to_json e c) = Some c.

Lemma find_by_key {A K} (key : A → K) (p : A → bool) (l : list A) (x : A) :
  NoDup (map key l) → x ∈ l → (∀ y, p y = true ↔ key y = key x) → head (bfilter p l) = Some x.
Proof.
  intros Hn Hx Hp.
  assert (∀ y, y ∈ bfilter p l → y = x) as Hall.
  { intros y [Hy Hk%Hp]%elem_of_bfilter. by eapply (NoDup_key_eq key). }
  assert (x ∈ bfilter p l) as Hin by (apply elem_of_bfilter; split; [done|by apply Hp]).
  destruct (bfilter p l) as [|y l']; [set_solver|]. simpl. f_equal. apply Hall. set_solver.
Qed.

Section Resolution.
Context (e : Env) (Hff : fault_free e).

Lemma get_workspace_run w wd r j :
  schema_ok (w_db wd) → r ∈ db_workspaces (w_db wd) → wsr_id r = w →
  trim_is_empty (wsr_provider_key r) = false → env_from_json e (wsr_metadata_json r) = Some j →
  ∃ ws, get_workspace w e wd = (tick wd, Ok (Some ws)) ∧ ws_provider_key ws = wsr_provider_key r.
Proof.
  intros Hs Hr Hid Hk Hj. destruct (so_workspaces _ Hs) as (K & _).
  unfold get_workspace, fetch_optional, bind. rewrite fetch_run by done.
  rewrite (find_by_key wsr_id _ _ r); [|done|done|].
  2:{ intros y. rewrite Hid. apply N.eqb_eq. }
  simpl. unfold bind, workspace_from_row, provider_key_new, lift, bind, json_from_str.
  rewrite Hk, Hj. by eexists.
Qed.

Lemma get_binding_run w i wd b st j :
  NoDup (map binding_key (db_bindings (w_db wd))) → b ∈ db_bindings (w_db wd) →
  binding_key b = (w, i) → parse (wbr_state b) = Ok st →
  env_from_json e (wbr_capabilities_json b) = Some j →
  ∃ wb, get_workspace_binding w i e wd = (tick wd, Ok (Some wb)) ∧
        wb_state wb = st ∧ wb_local_locator wb = wbr_local_locator b.
Proof.
  intros K Hb Hk Hst Hj. unfold get_workspace_binding, fetch_optional, bind.
  rewrite fetch_run by done. rewrite (find_by_key binding_key _ _ b); [|done|done|].
  2:{ intros y. rewrite Hk. apply is_binding_true. }
  unfold decode_row, bind, workspace_binding_from_row, lift, bind, json_from_str.
  rewrite Hst, Hj. by eexists.
Qed.

Lemma validate_run dirs files k l wd :
  stable_fs dirs files e →
  ∃ wd' v, validate_workspace_binding k (Some l) e wd = (wd', Ok v) ∧ w_db wd' = w_db wd ∧
    vd_capabilities v ∈ capability_values ∧
    bool_decide (vd_state v = Ready) = usable dirs files k l.
Proof.
  intros Hfs. unfold validate_workspace_binding, validate_directory_binding, validate_git_binding,
    usable. destruct (str_eqb k "directory") eqn:Hd; [|destruct (str_eqb k "managed") eqn:Hm;
      [|destruct (str_eqb k "git") eqn:Hg]].
  - destruct (non_empty_locator (Some l)) as [p|]; [|by repeat eexists; set_solver].
    destruct (is_absolute p); simpl; [|by repeat eexists; set_solver].
    unfold bind, is_dir, ret. rewrite (proj1 (Hfs _ p)).
    destruct (dirs p); by repeat eexists; set_solver.
  - apply str_eqb_eq in Hm as ->.
    destruct (non_empty_locator (Some l)); [rewrite andb_false_r|]; by repeat eexists; set_solver.
  - destruct (non_empty_locator (Some l)) as [p|]; [|by repeat eexists; set_solver].
    destruct (is_absolute p); simpl; [|by repeat eexists; set_solver].
    unfold bind, is_dir, is_file, ret. rewrite (proj1 (Hfs _ p)).
    destruct (dirs p); simpl; [|by repeat eexists; set_solver].
    rewrite (proj1 (Hfs _ (path_join p ".git"))).
    destruct (dirs (path_join p ".git")); simpl; [by repeat eexists; set_solver|].
    rewrite (proj2 (Hfs _ (path_join p ".git"))).
    destruct (files (path_join p ".git")); by repeat eexists; set_solver.
  - destruct (non_empty_locator (Some l)); [rewrite andb_false_r|]; by repeat eexists; set_solver.
Qed.

(** The current binding of a workspace that has one. *)
Lemma current_binding_run w i wd b st j :
  NoDup (map binding_key (db_bindings (w_db wd))) → b ∈ db_bindings (w_db wd) →
  binding_key b = (w, i) → parse (wbr_state b) = Ok st →
  env_from_json e (wbr_capabilities_json b) = Some j →
  ∃ wb, current_workspace_binding i w e wd = (tick wd, Ok (Some wb)) ∧
        wb_state wb = st ∧ wb_local_locator wb = wbr_local_locator b.
Proof.
  intros K Hb Hk Hst Hj. destruct (get_binding_run w i wd b st j) as (wb & E & H); try done.
  exists wb. unfold current_workspace_binding, bind. by rewrite E.
Qed.

Lemma verify_run dirs files i w wd r b l jm jc :
  stable_fs dirs files e → json_faithful e → schema_ok (w_db wd) →
  r ∈ db_workspaces (w_db wd) → wsr_id r = w → trim_is_empty (wsr_provider_key r) = false →
  env_from_json e (wsr_metadata_json r) = Some jm →
  b ∈ db_bindings (w_db wd) → binding_key b = (w, i) → wbr_local_locator b = Some l →
  env_from_json e (wbr_capabilities_json b) = Some jc →
  ∃ wd' wb c t v, verify_workspace_binding i w e wd = (wd', Ok wb) ∧
    wb_local_locator wb = Some l ∧
    bool_decide (wb_state wb = Ready) = usable dirs files (wsr_provider_key r) l ∧
    w_db wd' = with_bindings (update_where (is_binding w i) (verified_row v c t)) (w_db wd).
Proof.
  intros Hfs Hjs Hs Hr Hid Hk Hjm Hb Hkb Hl Hjc.
  pose proof (so_workspaces _ Hs) as (_ & _ & K & _ & KF). rewrite Forall_forall in KF.
  destruct (KF b Hb) as [_ [st Hst]].
  destruct (get_workspace_run w wd r jm) as (ws & E1 & Hws); try done.
  destruct (current_binding_run w i (tick wd) b st jc) as (wb & E2 & _ & Hloc); try done.
  { rewrite Hst. apply parse_as_str. }
  rewrite Hl in Hloc.
  destruct (validate_run dirs files (wsr_provider_key r) l (tick (tick wd)) Hfs)
    as (w3 & v & E3 & Hdb & Hc & Hready).
  set (c := env_to_json e (vd_capabilities v)). set (t := env_now e (w_ctr w3)).
  set (db' := with_bindings (update_where (is_binding w i) (verified_row v c t)) (w_db wd)).
  destruct (current_binding_run w i (mkWorld db' (S (w_ctr (tick w3)))) (verified_row v c t b)
    (vd_state v) (vd_capabilities v)) as (wb' & E4 & Hst' & Hl').
  - unfold db', db_bindings. simpl. by rewrite (map_update_where binding_key).
  - unfold db', db_bindings. simpl. apply elem_of_update_where. exists b. split; [done|].
    by rewrite (proj2 (is_binding_true w i b)).
  - done.
  - apply (parse_as_str (vd_state v)).
  - by apply Hjs.
  - exists (tick (mkWorld db' (S (w_ctr (tick w3))))), wb', c, t, v. split_and!.
    + unfold verify_workspace_binding, bind. rewrite E1, E2, Hws, Hloc, E3.
      unfold utc_now, json_to_string. rewrite execute_run by done. simpl. rewrite Hdb.
      change (w_db (tick (tick wd))) with (w_db wd). fold t c. fold db'.
      change (mkWorld db' (S (S (w_ctr w3)))) with (mkWorld db' (S (w_ctr (tick w3)))).
      by rewrite E4.
    + by rewrite Hl'.
    + by rewrite Hst'.
    + done.
Qed.
End Resolution.

(** Resolution is exact: without faults, on a file system that does not
    change meanwhile, resolving a bound workspace returns the local locator when the path
    fits its provider (present, absolute, an existing directory and, for Git, holding a
    [.git]) and nothing otherwise. It consults and rewrites the current installation's
    binding only: the bindings of other installations are untouched. *)
Theorem resolve_workspace_exact (e : Env) (dirs files : string → bool) (installation_id : string)
    (wd : World) (r : WorkspaceRow) (b : BindingRow) (l : string) :
  fault_free e → stable_fs dirs files e → json_faithful e → schema_ok (w_db wd) →
  r ∈ db_workspaces (w_db wd) → trim_is_empty (wsr_provider_key r) = false →
  is_Some (env_from_json e (wsr_metadata_json r)) →
  b ∈ db_bindings (w_db wd) → binding_key b = (wsr_id r, installation_id) →
  wbr_local_locator b = Some l → is_Some (env_from_json e (wbr_capabilities_json b)) →
  ∃ wd', resolve_workspace installation_id (wsr_id r) e wd =
           (wd', Ok (if usable dirs files (wsr_provider_key r) l then Some l else None)) ∧
    bfilter (λ b', negb (is_binding (wsr_id r) installation_id b')) (db_bindings (w_db wd')) =
    bfilter (λ b', negb (is_binding (wsr_id r) installation_id b')) (db_bindings (w_db wd)).
Proof.
  intros Hff Hfs Hjs Hs Hr Hk [jm Hjm] Hb Hkb Hl [jc Hjc].
  destruct (verify_run e Hff dirs files installation_id (wsr_id r) wd r b l jm jc)
    as (wd' & wb & c & t & v & E & Hloc & Hready & Hdb); try done.
  exists wd'. split.
  - unfold resolve_workspace, bind. rewrite E, Hready, Hloc. done.
  - rewrite Hdb. unfold db_bindings. simpl. induction (workspace_bindings _) as [|x xs IH]; [done|].
    simpl. destruct (is_binding _ _ x) eqn:Ex; simpl.
    + assert (is_binding (wsr_id r) installation_id (verified_row v c t x) = true) as ->; done.
    + rewrite Ex. simpl. by f_equal.
Qed.

(** An environment with a file system of the given directories. *)
Definition fs_env (base : N) (dirs : string → bool) : Env :=
  mkEnv (env_now (demo_env base)) (env_uuid (demo_env base)) (λ _, false)
    (env_uuid_string (demo_env base)) (λ _, dirs) (λ _ _, false) demo_to_json demo_from_json
    (env_uuid_simple (demo_env base)) (env_date (demo_env base)) (env_sum_f64 (demo_env base))
    (env_rfc3339 (demo_env base)) (env_parse_uuid (demo_env base)) (env_sha256 (demo_env base)).

Lemma fs_env_ok base dirs :
  fault_free (fs_env base dirs) ∧ stable_fs dirs (λ _, false) (fs_env base dirs) ∧
  json_faithful (fs_env base dirs).
Proof.
  split_and!; [done|done|]. intros c Hc. unfold capability_values in Hc.
  repeat (apply elem_of_cons in Hc as [->|Hc]; [vm_compute; reflexivity|]). set_solver.
Qed.

Definition only_srv : string → bool := λ p, str_eqb p "/srv".

(** A directory workspace bound here and on another machine. *)
Definition bound_world : World :=
  run_workspaces "here"
    [(fs_env 100 only_srv, CreateWorkspace "directory" "srv" None (JObject []));
     (fs_env 200 only_srv, BindForInstallation 101 "there" "/opt/srv" None);
     (fs_env 300 only_srv, BindForInstallation 101 "here" " /srv" None)] start.

Definition bound_row : WorkspaceRow := mkWorkspaceRow 101 "directory" 1 "srv" None "{}" 0 0.
Definition bound_binding : BindingRow :=
  mkBindingRow 101 "here" (Some " /srv") "resolving" "{}" None None None None.

Lemma bound_world_ok : schema_ok (w_db bound_world).
Proof. apply run_workspaces_portable. split; [apply schema_ok_empty|constructor]. Qed.

Lemma resolve_workspace_exact_witness :
  ∃ wd', resolve_workspace "here" 101 (fs_env 400 only_srv) bound_world = (wd', Ok (Some " /srv")) ∧
    bfilter (λ b', negb (is_binding 101 "here" b')) (db_bindings (w_db wd')) =
    bfilter (λ b', negb (is_binding 101 "here" b')) (db_bindings (w_db bound_world)).
Proof.
  destruct (fs_env_ok 400 only_srv) as (H1 & H2 & H3).
  apply (resolve_workspace_exact (fs_env 400 only_srv) only_srv (λ _, false) "here" bound_world
    bound_row bound_binding " /srv");
    [assumption|assumption|assumption|apply bound_world_ok| |reflexivity| | |reflexivity
    |reflexivity|].
  - vm_compute. left.
  - by exists (JObject []).
  - vm_compute. right. left.
  - by exists (JObject []).
Defined.

(** The path that is validated is not the path that is returned: validation trims
    the stored locator, resolution returns it as stored. A binding to [" /srv"] is reported
    ready because the directory ["/srv"] exists, and resolves to a path that does not. *)
Theorem resolved_path_may_not_exist :
  ∃ wd' p, resolve_workspace "here" 101 (fs_env 400 only_srv) bound_world = (wd', Ok (Some p)) ∧
    only_srv p = false ∧ only_srv (trim p) = true.
Proof. eexists _, _. split_and!; vm_compute; reflexivity. Qed.

(** Deleting a standalone agent's direct channel leaves its workspace attachments
    behind: [delete_channel] removes the attachments of the channel, the cascade removes the
    agent, and nothing removes the attachments of the agent ([subject_workspaces] has no
    foreign key on its subject), which [delete_agent] does. *)
Theorem direct_channel_deletion_orphans_attachments :
  let w1 := (create_standalone_agent "ada" "claude" None Running None None (demo_env 100) start).1 in
  let w2 := run_workspaces "here"
    [(demo_env 200, AttachWorkspace "agent" 102 "directory" None (JObject []))] w1 in
  let deleted := (delete_channel 100 (demo_env 300) w2).1 in
  let direct := (delete_agent 102 (demo_env 300) w2).1 in
  map atr_subject_id (db_attachments (w_db w2)) = [102%N] ∧
  agent_ids (w_db deleted) = [] ∧ map atr_subject_id (db_attachments (w_db deleted)) = [102%N] ∧
  agent_ids (w_db direct) = [] ∧ db_attachments (w_db direct) = [].
Proof. vm_compute. by split_and!. Qed.
