(* ===== verification/StoreMemory.v ===== *)
(** * Memory documents

    [crates/cocli-store/src/memory.rs]: the notes an agent keeps for itself and the notes of
    a channel. A topic is a markdown document with a front matter; every namespace has an
    index that is regenerated with each change; sizes are limited. The file models every
    operation, and shows that what is written is read back, that each reachable database
    keeps its limits with its indexes in step, and what versions and moves guarantee. *)
From S2P Require Import Prelude Text StoreTypes StoreDb StoreSchema.

Definition MEMORY_INDEX_FILENAME : string := "MEMORY.md".
Definition MEMORY_INDEX_HEADER : string :=
  "<!-- auto-generated by memory_write — do not edit manually -->" +:+ lf.
Definition MAX_TOPIC_SLUG_LEN : Z := 60.
Definition MAX_DESCRIPTION_LEN : Z := 150.
Definition MAX_TOPIC_BODY_BYTES : Z := 64 * 1024.
Definition MAX_NAMESPACE_BYTES : Z := 1024 * 1024.
Definition MAX_INDEX_LINES : Z := 200.

(** ** Namespaces *)

Inductive MemoryScope : Type := ScopeAgent | ScopeChannel.

Inductive MemoryNamespace : Type := NsAgent (id : Uuid) | NsChannel (id : Uuid).

#[export] Instance MemoryNamespace_eq_dec : EqDecision MemoryNamespace.
Proof. solve_decision. Defined.

Definition scope (self : MemoryNamespace) : MemoryScope :=
  match self with NsAgent _ => ScopeAgent | NsChannel _ => ScopeChannel end.

Definition namespace_id (self : MemoryNamespace) : Uuid :=
  match self with NsAgent id | NsChannel id => id end.

(** [show] is [Uuid]'s [Display]. *)
Definition prefix (show : Uuid → string) (self : MemoryNamespace) : string :=
  match self with
  | NsAgent id => "agents/" +:+ show id +:+ "/memory/"
  | NsChannel id => "channels/" +:+ show id +:+ "/notes/"
  end.

Definition index_path (show : Uuid → string) (self : MemoryNamespace) : string :=
  prefix show self +:+ MEMORY_INDEX_FILENAME.

Definition topic_path (show : Uuid → string) (self : MemoryNamespace) (memory_type topic : string)
    : string :=
  prefix show self +:+ memory_type +:+ "_" +:+ topic +:+ ".md".

(** ** Results *)

Record MemoryDocument := mkMemoryDocument { mdoc_body : string; mdoc_version : Z }.

Record MemoryTopic := mkMemoryTopic {
  mt_memory_type : string;
  mt_topic : string;
  mt_description : string;
  mt_updated : string;
  mt_body : string;
  mt_path : string;
  mt_version : Z;
}.

Record MemoryMoveResult := mkMemoryMoveResult { mv_from : string; mv_to : string }.

Record MemoryDocumentEntry := mkMemoryDocumentEntry {
  mde_path : string;
  mde_body : string;
  mde_version : Z;
}.

Record MemoryRecord := mkMemoryRecord {
  mrec_path : string;
  mrec_content : string;
  mrec_version : Z;
}.

(** ** Validation *)

Definition validate_memory_type (memory_type : string) : result unit StoreError :=
  if str_eqb memory_type "user" || str_eqb memory_type "feedback" ||
     str_eqb memory_type "project" || str_eqb memory_type "reference"
  then Ok tt else Err (InvalidMemoryType memory_type).

Definition slug_byte (c : Ascii.ascii) : bool :=
  is_ascii_lowercase c || is_ascii_digit c || Ascii.eqb c (Ascii.ascii_of_N 95).

Definition validate_topic_slug (topic : string) : result unit StoreError :=
  if str_is_empty topic || (MAX_TOPIC_SLUG_LEN <? Z.of_nat (String.length topic)) ||
     negb (all_bytes slug_byte topic)
  then Err (InvalidMemoryTopic topic) else Ok tt.

Definition validate_description (description : string) : result unit StoreError :=
  if MAX_DESCRIPTION_LEN <? Z.of_nat (char_count description) then
    Err (InvalidMemoryDescription "description exceeds 150 characters")
  else if has_char CR description || has_char LF description then
    Err (InvalidMemoryDescription "description must be one line")
  else Ok tt.

(** ** Front matter *)

Definition render_topic_content (description memory_type updated body : string) : string :=
  "---" +:+ lf +:+ "description: " +:+ description +:+ lf +:+ "type: " +:+ memory_type +:+ lf +:+
  "updated: " +:+ updated +:+ lf +:+ "---" +:+ lf +:+ lf +:+ body.

Record ParsedMemory := mkParsedMemory {
  pm_description : string;
  pm_updated : string;
  pm_body : string;
}.

(** One line of the front matter. *)
Definition parse_line (parsed : ParsedMemory) (line : string) : ParsedMemory :=
  match strip_prefix "description:" line with
  | Some value => mkParsedMemory (trim value) (pm_updated parsed) (pm_body parsed)
  | None =>
      match strip_prefix "updated:" line with
      | Some value => mkParsedMemory (pm_description parsed) (trim value) (pm_body parsed)
      | None => parsed
      end
  end.

Definition parse_memory_frontmatter (content : string) : ParsedMemory :=
  let parsed := mkParsedMemory "(no description)" "" content in
  match strip_prefix ("---" +:+ lf) content with
  | None => parsed
  | Some rest =>
      match split_once (lf +:+ "---" +:+ lf) rest with
      | None => parsed
      | Some (head, tail) =>
          let parsed := fold_left parse_line (lines head) parsed in
          mkParsedMemory (pm_description parsed) (pm_updated parsed) (trim_start_char LF tail)
      end
  end.

(** ** Statements *)

Definition memory_record_from_row (r : MemoryRow) : MemoryRecord :=
  mkMemoryRecord (md_path r) (md_content_md r) (md_version r).

Definition at_path (path : string) (r : MemoryRow) : bool := str_eqb (md_path r) path.

(** [path LIKE '{prefix}%']. *)
Definition under (prefix : string) (r : MemoryRow) : bool := like (prefix +:+ "%") (md_path r).

Definition path_cmp : MemoryRow → MemoryRow → comparison := on_cmp md_path String.compare.

Definition insert_memory_document (r : MemoryRow) (db : DB) : result (DB * unit) SqlError :=
  try! _ <- guard (negb (exists_row (λ old, (md_id old =? md_id r)%N || at_path (md_path r) old)
                           (memory_documents db))) UniqueViolation;
  Ok (with_memory (λ l, l ++ [r])%list db, tt).

(** ** Operations *)

Definition get_memory_document (path : string) : M (option MemoryRecord) :=
  let! row := fetch_optional (λ db, bfilter (at_path path) (memory_documents db)) in
  ret (memory_record_from_row <$> row).

Definition list_memory_documents_by_prefix (prefix : string) : M (list MemoryRecord) :=
  let! rows := fetch (λ db, sort_by path_cmp (bfilter (under prefix) (memory_documents db))) in
  ret (map memory_record_from_row rows).

Definition get_memory_index (namespace : MemoryNamespace) : M MemoryDocument :=
  let! show := uuid_display in
  let! page := get_memory_document (index_path show namespace) in
  ret (match page with
       | Some page => mkMemoryDocument (mrec_content page) (mrec_version page)
       | None => mkMemoryDocument "" 0
       end).

Definition memory_topic_from_page (page : MemoryRecord) (memory_type topic : string) : MemoryTopic :=
  let frontmatter := parse_memory_frontmatter (mrec_content page) in
  mkMemoryTopic memory_type topic (pm_description frontmatter) (pm_updated frontmatter)
    (mrec_content page) (mrec_path page) (mrec_version page).

Definition get_memory_topic (namespace : MemoryNamespace) (memory_type topic : string)
    : M (option MemoryTopic) :=
  lift (validate_memory_type memory_type) ;;
  lift (validate_topic_slug topic) ;;
  let! show := uuid_display in
  let! page := get_memory_document (topic_path show namespace memory_type topic) in
  ret ((λ page, memory_topic_from_page page memory_type topic) <$> page).

Definition list_memory_namespace (namespace : MemoryNamespace) : M (list MemoryDocumentEntry) :=
  let! show := uuid_display in
  let! pages := list_memory_documents_by_prefix (prefix show namespace) in
  ret (map (λ page, mkMemoryDocumentEntry (mrec_path page) (mrec_content page)
                      (mrec_version page)) pages).

(** [if_version.filter(|version| *version > 0)]. *)
Definition expected_version (if_version : option Z) : option Z :=
  match if_version with Some v => if 0 <? v then Some v else None | None => None end.

Definition updated_row (content : string) (version : Z) (now : Time) (updated_by : option string)
    (old : MemoryRow) : MemoryRow :=
  mkMemoryRow (md_id old) (md_path old) content version (md_created_at old) now updated_by.

Definition upsert_memory_document_in_transaction (path content : string)
    (updated_by : option string) (if_version : option Z) : M MemoryRecord :=
  let! now := utc_now in
  let! existing := fetch_optional (λ db, bfilter (at_path path) (memory_documents db)) in
  let! version :=
    match existing with
    | Some old =>
        (match expected_version if_version with
         | Some attempted =>
             if attempted =? md_version old then ret tt
             else throw (MemoryVersionConflict path (md_version old) attempted)
         | None => ret tt
         end) ;;
        execute (sql_update memory_documents with_memory (λ _ r, md_id r =? md_id old)%N
                   (updated_row content (md_version old + 1) now updated_by)) ;;
        ret (md_version old + 1)
    | None =>
        let! id := new_v4 in
        execute (insert_memory_document (mkMemoryRow id path content 1 now now updated_by)) ;;
        ret 1
    end in
  ret (mkMemoryRecord path content version).

Record IndexEntry := mkIndexEntry {
  ie_filename : string;
  ie_description : string;
  ie_updated : string;
}.

Definition index_entry (prefix : string) (r : MemoryRow) : IndexEntry :=
  let frontmatter := parse_memory_frontmatter (md_content_md r) in
  mkIndexEntry (default (md_path r) (strip_prefix prefix (md_path r)))
    (pm_description frontmatter) (pm_updated frontmatter).

(** Newest first, then by name. *)
Definition index_cmp (left right : IndexEntry) : comparison :=
  then_cmp (String.compare (ie_updated right) (ie_updated left))
    (String.compare (ie_filename left) (ie_filename right)).

Definition index_line (entry : IndexEntry) : string :=
  "- [" +:+ trim_end_matches ".md" (ie_filename entry) +:+ "](" +:+ ie_filename entry +:+ ") — " +:+
  ie_description entry +:+ lf.

Definition concat_lines (l : list string) : string := fold_right String.append "" l.

(** The index of the given rows. *)
Definition index_body (prefix : string) (rows : list MemoryRow) : string :=
  MEMORY_INDEX_HEADER +:+
  concat_lines (map index_line (sort_by index_cmp (map (index_entry prefix) rows))).

Definition regenerate_memory_index (namespace : MemoryNamespace) (updated_by : option string)
    : M MemoryRecord :=
  let! show := uuid_display in
  let prefix := prefix show namespace in
  let index_path := index_path show namespace in
  let! rows := fetch (λ db, sort_by path_cmp
    (bfilter (λ r, under prefix r && negb (at_path index_path r)) (memory_documents db))) in
  let body := index_body prefix rows in
  let lines := Z.of_nat (length (lines body)) in
  if MAX_INDEX_LINES <? lines then throw (MemoryIndexFull lines MAX_INDEX_LINES)
  else upsert_memory_document_in_transaction index_path body updated_by None.

(** [SUM(LENGTH(CAST(content_md AS BLOB)))]. *)
Definition total_bytes (rows : list MemoryRow) : Z :=
  fold_right (λ r n, Z.of_nat (String.length (md_content_md r)) + n) 0 rows.

Definition enforce_namespace_size (prefix : string) : M unit :=
  let! bytes := fetch (λ db, total_bytes (bfilter (under prefix) (memory_documents db))) in
  if MAX_NAMESPACE_BYTES <? bytes then throw (MemoryNamespaceFull bytes MAX_NAMESPACE_BYTES)
  else ret tt.

Definition write_memory_topic (namespace : MemoryNamespace)
    (memory_type topic description body : string) (updated_by : option string)
    (if_version : option Z) : M MemoryTopic :=
  lift (validate_memory_type memory_type) ;;
  lift (validate_topic_slug topic) ;;
  lift (validate_description description) ;;
  let bytes := Z.of_nat (String.length body) in
  if MAX_TOPIC_BODY_BYTES <? bytes then throw (MemoryTopicTooLarge bytes MAX_TOPIC_BODY_BYTES)
  else
    let! now := utc_now in
    let! updated := format_date now in
    let content := render_topic_content description memory_type updated body in
    let! show := uuid_display in
    let topic_path := topic_path show namespace memory_type topic in
    let! page := transaction (
      let! page := upsert_memory_document_in_transaction topic_path content updated_by if_version in
      enforce_namespace_size (prefix show namespace) ;;
      regenerate_memory_index namespace updated_by ;;
      enforce_namespace_size (prefix show namespace) ;;
      ret page) in
    ret (mkMemoryTopic memory_type topic description updated content topic_path
           (mrec_version page)).

Definition move_memory_topic (from to : MemoryNamespace) (memory_type topic : string)
    (updated_by : option string) : M MemoryMoveResult :=
  lift (validate_memory_type memory_type) ;;
  lift (validate_topic_slug topic) ;;
  if decide (from = to) then throw MemoryMoveSameNamespace
  else
    let! show := uuid_display in
    let from_path := topic_path show from memory_type topic in
    let to_path := topic_path show to memory_type topic in
    transaction (
      let! source := fetch_optional (λ db, bfilter (at_path from_path) (memory_documents db)) in
      match source with
      | None => throw (MemoryTopicNotFound from_path)
      | Some source =>
          let frontmatter := parse_memory_frontmatter (md_content_md source) in
          let! now := utc_now in
          let! updated := format_date now in
          let content := render_topic_content (pm_description frontmatter) memory_type updated
                           (pm_body frontmatter) in
          upsert_memory_document_in_transaction to_path content updated_by None ;;
          execute (sql_delete memory_documents with_memory (at_path from_path)) ;;
          regenerate_memory_index from updated_by ;;
          regenerate_memory_index to updated_by ;;
          enforce_namespace_size (prefix show from) ;;
          enforce_namespace_size (prefix show to) ;;
          ret (mkMemoryMoveResult from_path to_path)
      end).

(** The operations that change the table. *)
Inductive MemoryOp : Type :=
  | WriteTopic (namespace : MemoryNamespace) (memory_type topic description body : string)
      (updated_by : option string) (if_version : option Z)
  | MoveTopic (from to : MemoryNamespace) (memory_type topic : string) (updated_by : option string).

Definition run_memory_op (op : MemoryOp) : M unit :=
  match op with
  | WriteTopic ns t s d b u v => write_memory_topic ns t s d b u v ;; ret tt
  | MoveTopic from to t s u => move_memory_topic from to t s u ;; ret tt
  end.

(** ** The front matter *)

Lemma trim_space (s : string) : trim (" " +:+ s) = trim s.
Proof. reflexivity. Qed.

Lemma parse_description_line d p :
  parse_line p ("description: " +:+ d) = mkParsedMemory (trim d) (pm_updated p) (pm_body p).
Proof. unfold parse_line. rewrite <- (trim_space d). reflexivity. Qed.
Lemma parse_type_line t p : parse_line p ("type: " +:+ t) = p.
Proof. reflexivity. Qed.
Lemma parse_updated_line u p :
  parse_line p ("updated: " +:+ u) = mkParsedMemory (pm_description p) (trim u) (pm_body p).
Proof. unfold parse_line. rewrite <- (trim_space u). reflexivity. Qed.

(** One line of text. *)
Definition one_line (s : string) : Prop := has_char LF s = false ∧ has_char CR s = false.

Lemma one_line_app a b : one_line a → one_line b → one_line (a +:+ b).
Proof. unfold one_line. rewrite !has_char_app. by intros [-> ->] [-> ->]. Qed.

Lemma validate_description_line d : validate_description d = Ok tt → one_line d.
Proof.
  unfold validate_description. destruct (_ <? _); [done|].
  destruct (has_char CR d) eqn:Hc; [done|]. simpl. by destruct (has_char LF d) eqn:Hl.
Qed.

Lemma validate_type_line t : validate_memory_type t = Ok tt → one_line t.
Proof.
  unfold validate_memory_type, str_eqb. repeat case_bool_decide; subst; done.
Qed.

Definition marker : string := lf +:+ "---" +:+ lf.

(** The marker is not found at a line that starts with something else. *)
Lemma split_line_step line rest :
  has_char LF line = false → strip_prefix "---" rest = None →
  split_once marker (line +:+ String LF rest) =
  match split_once marker rest with
  | Some (p, q) => Some (line +:+ String LF p, q)
  | None => None
  end.
Proof.
  intros Hl Hc. unfold marker, lf. rewrite append_cons, split_once_line by done.
  rewrite split_once_skip.
  - by destruct (split_once _ rest) as [[]|].
  - cbn [strip_prefix]. rewrite Ascii.eqb_refl, append_nil_l.
    match goal with |- ?x = _ => destruct x as [r|] eqn:E; [|reflexivity] end.
    apply strip_prefix_Some in E. rewrite append_assoc in E.
    rewrite (proj2 (strip_prefix_Some _ _ _) E) in Hc. done.
Qed.

Lemma split_line_end line tail :
  has_char LF line = false → split_once marker (line +:+ marker +:+ tail) = Some (line, tail).
Proof.
  intros Hl. assert (split_once marker (line +:+ marker +:+ tail) =
    match split_once marker (marker +:+ tail) with
    | Some (pre, post) => Some (line +:+ pre, post) | None => None end) as ->.
  { exact (split_once_line _ _ _ Hl). }
  by rewrite split_once_here, append_nil_r.
Qed.

Lemma render_shape d t u b :
  render_topic_content d t u b =
  ("---" +:+ lf) +:+ ("description: " +:+ d) +:+ String LF (("type: " +:+ t) +:+
    String LF (("updated: " +:+ u) +:+ marker +:+ (lf +:+ b))).
Proof.
  unfold render_topic_content, marker, lf. rewrite !append_assoc. by cbn [String.append].
Qed.

(** What a document says about itself is what it was rendered from: trimmed, and the body
    without leading line feeds. *)
Lemma frontmatter_of_render d t u b :
  one_line d → one_line t → one_line u →
  parse_memory_frontmatter (render_topic_content d t u b) =
  mkParsedMemory (trim d) (trim u) (trim_start_char LF b).
Proof.
  intros Hd Ht Hu. unfold parse_memory_frontmatter.
  rewrite render_shape, (proj2 (strip_prefix_Some _ _ _)) by done.
  assert (one_line ("description: " +:+ d)) as [Hd1 Hd2] by by apply one_line_app.
  assert (one_line ("type: " +:+ t)) as [Ht1 Ht2] by by apply one_line_app.
  assert (one_line ("updated: " +:+ u)) as [Hu1 Hu2] by by apply one_line_app.
  fold marker. rewrite (split_line_step ("description: " +:+ d)), (split_line_step ("type: " +:+ t)),
    (split_line_end ("updated: " +:+ u)) by done.
  rewrite lines_cons, lines_cons, lines_last by done. cbn [fold_left].
  rewrite parse_description_line, parse_type_line, parse_updated_line. done.
Qed.

(** ** Namespaces do not overlap *)

(** What [Uuid]'s [Display] prints: hexadecimal digits and hyphens, one text per value. *)
Definition uuid_byte (c : Ascii.ascii) : bool :=
  is_ascii_digit c || in_range 97 102 c || Ascii.eqb c (Ascii.ascii_of_N 45).

Class UuidDisplay (show : Uuid → string) : Prop := {
  show_inj (a b : Uuid) : show a = show b → a = b;
  show_bytes (id : Uuid) : all_bytes uuid_byte (show id) = true;
}.

Lemma uuid_byte_facts c : uuid_byte c = true →
  like_literal c = true ∧ negb (is_ascii_uppercase c) = true ∧
  negb (Ascii.eqb c (Ascii.ascii_of_N 47)) = true ∧
  negb (Ascii.eqb c LF) = true ∧ negb (Ascii.eqb c CR) = true.
Proof.
  destruct c as [[] [] [] [] [] [] [] []]; vm_compute; intros H;
    first [discriminate H | repeat split; reflexivity].
Qed.

Section Namespaces.
Context (show : Uuid → string) `{!UuidDisplay show}.

Lemma show_all (p : Ascii.ascii → bool) id :
  (∀ c, uuid_byte c = true → p c = true) → all_bytes p (show id) = true.
Proof. intros H. eapply all_bytes_impl; [exact H|apply show_bytes]. Qed.

Lemma show_no_slash id : has_char (Ascii.ascii_of_N 47) (show id) = false.
Proof.
  apply (all_bytes_no_char (λ c, negb (Ascii.eqb c (Ascii.ascii_of_N 47)))); [done|].
  apply show_all. intros c Hc. apply uuid_byte_facts in Hc; tauto.
Qed.

Lemma prefix_literal ns : all_bytes like_literal (prefix show ns) = true.
Proof.
  destruct ns as [id|id]; simpl; rewrite !all_bytes_app, show_all; try done;
    intros c Hc; apply uuid_byte_facts in Hc; tauto.
Qed.

Lemma prefix_lowercase ns : to_ascii_lowercase (prefix show ns) = prefix show ns.
Proof.
  apply to_ascii_lowercase_id.
  destruct ns as [id|id]; simpl; rewrite !all_bytes_app, show_all; try done;
    intros c Hc; apply uuid_byte_facts in Hc; tauto.
Qed.

(** The prefix of a namespace determines it. *)
Lemma prefix_inj ns ns' a b : prefix show ns +:+ a = prefix show ns' +:+ b → ns = ns'.
Proof.
  destruct ns as [id|id], ns' as [id'|id']; simpl; rewrite !append_assoc; intros H; try done.
  - apply append_inj_l in H.
    apply (append_sep_inj (Ascii.ascii_of_N 47)) in H as [H%show_inj _];
      [by subst|apply show_no_slash..].
  - apply append_inj_l in H.
    apply (append_sep_inj (Ascii.ascii_of_N 47)) in H as [H%show_inj _];
      [by subst|apply show_no_slash..].
Qed.

(** [path LIKE '{prefix}%'] finds the documents of the namespace and no other's. *)
Lemma like_namespace ns ns' name :
  like (prefix show ns +:+ "%") (prefix show ns' +:+ name) = bool_decide (ns = ns').
Proof.
  rewrite like_prefix by apply prefix_literal.
  rewrite to_ascii_lowercase_app, !prefix_lowercase.
  case_bool_decide as E.
  - subst. by rewrite (proj2 (strip_prefix_Some _ _ (to_ascii_lowercase name)) eq_refl).
  - destruct (strip_prefix _ _) as [r|] eqn:Hr; [|done].
    apply strip_prefix_Some in Hr. destruct E. symmetry. by eapply prefix_inj.
Qed.

Lemma under_topic ns ns' t s r :
  md_path r = topic_path show ns' t s → under (prefix show ns) r = bool_decide (ns = ns').
Proof. unfold under, topic_path. intros ->. apply like_namespace. Qed.

Lemma under_index ns ns' r :
  md_path r = index_path show ns' → under (prefix show ns) r = bool_decide (ns = ns').
Proof. unfold under, index_path. intros ->. apply like_namespace. Qed.
End Namespaces.

Lemma show_positive_nonempty p : show_positive p ≠ "".
Proof. by destruct p. Qed.

Lemma show_positive_inj p q : show_positive p = show_positive q → p = q.
Proof.
  revert q. induction p as [p IH|p IH|]; intros [q|q|] H; try done; injection H as H;
    try (f_equal; by apply IH); exfalso; by eapply show_positive_nonempty.
Qed.

#[export] Instance show_uuid_display : UuidDisplay show_uuid.
Proof.
  split.
  - intros [|p] [|q] H; try done; simpl in H; [..|f_equal; by apply show_positive_inj].
    + destruct q; try done. injection H as H. symmetry in H. by apply show_positive_nonempty in H.
    + destruct p; try done. injection H as H. by apply show_positive_nonempty in H.
  - intros [|p]; [done|]. simpl. induction p as [p IH|p IH|]; simpl; [..|done];
      rewrite all_bytes_app; by rewrite IH.
Qed.

(** ** The table as a set of documents *)

(** What an upsert does to the table. *)
Definition put_document (id : Uuid) (path content : string) (now : Time)
    (updated_by : option string) (rows : list MemoryRow) : list MemoryRow :=
  if exists_row (at_path path) rows then
    update_where (at_path path)
      (λ old, updated_row content (md_version old + 1) now updated_by old) rows
  else rows ++ [mkMemoryRow id path content 1 now now updated_by].

Definition version_at (path : string) (rows : list MemoryRow) : Z :=
  match bfilter (at_path path) rows with r :: _ => md_version r | [] => 0 end.

Lemma at_path_true p r : at_path p r = true ↔ md_path r = p.
Proof. apply str_eqb_eq. Qed.

Lemma with_memory_ext f g db :
  f (memory_documents db) = g (memory_documents db) → with_memory f db = with_memory g db.
Proof. unfold with_memory. by intros ->. Qed.

Lemma update_where_ext {A} (p q : A → bool) (f g : A → A) (l : list A) :
  (∀ x, x ∈ l → p x = q x ∧ (q x = true → f x = g x)) →
  update_where p f l = update_where q g l.
Proof.
  intros H. unfold update_where. apply map_ext_in. intros x Hx%list_elem_of_In.
  destruct (H x Hx) as [-> Hq]. destruct (q x); auto.
Qed.

Lemma bfilter_at_path path rows old l :
  NoDup (map md_path rows) → bfilter (at_path path) rows = old :: l →
  old ∈ rows ∧ md_path old = path ∧ l = [].
Proof.
  intros Hnd Hf. assert (old ∈ bfilter (at_path path) rows) as Ho by (rewrite Hf; set_solver).
  apply elem_of_bfilter in Ho as [Ho Hp%at_path_true]. split_and!; [done|done|].
  destruct l as [|x l]; [done|].
  assert (x ∈ bfilter (at_path path) rows) as Hx by (rewrite Hf; set_solver).
  apply elem_of_bfilter in Hx as [Hx Hpx%at_path_true].
  assert (x = old) as -> by (eapply (NoDup_key_eq md_path); eauto; congruence).
  assert (NoDup (bfilter (at_path path) rows)) as Hn.
  { apply bfilter_NoDup. by eapply NoDup_fmap_1. }
  rewrite Hf in Hn. apply NoDup_cons in Hn. set_solver.
Qed.

Lemma put_document_ok id path content now by_ rows :
  memory_ok rows → (exists_row (at_path path) rows = false → id ∉ map md_id rows) →
  memory_ok (put_document id path content now by_ rows).
Proof.
  intros [Hid Hp] Hfresh. unfold put_document. destruct (exists_row _ _) eqn:E.
  - split; by rewrite map_update_where.
  - split; apply NoDup_map_snoc; auto.
    intros (x & Hx & Hin)%list_elem_of_fmap.
    rewrite exists_row_false in E. specialize (E x Hin). by rewrite (proj2 (at_path_true _ _)) in E.
Qed.

(** The upsert, run to the end: one document is put, every key stays unique. *)
Lemma upsert_ok path content by_ v e w w' rec :
  memory_ok (memory_documents (w_db w)) →
  upsert_memory_document_in_transaction path content by_ v e w = (w', Ok rec) →
  ∃ id now, w_db w' = with_memory (put_document id path content now by_) (w_db w) ∧
    rec = mkMemoryRecord path content (version_at path (memory_documents (w_db w)) + 1) ∧
    memory_ok (memory_documents (w_db w')) ∧
    (∀ a, expected_version v = Some a → exists_row (at_path path) (memory_documents (w_db w)) = true →
          a = version_at path (memory_documents (w_db w))).
Proof.
  intros Hok H. unfold upsert_memory_document_in_transaction in H.
  apply bind_ok in H as (w1 & now & Hnow & H). injection Hnow as <- <-.
  apply bind_ok in H as (w2 & ex & [Hdb Hex]%fetch_optional_ok & H). simpl in Hdb, Hex.
  apply bind_ok in H as (w3 & version & Hv & [= <- <-]). unfold version_at.
  destruct (bfilter (at_path path) (memory_documents (w_db w))) as [|old l] eqn:Hf; subst ex;
    simpl in Hv.
  - assert (exists_row (at_path path) (memory_documents (w_db w)) = false) as E.
    { apply exists_row_false. intros x Hx. apply not_true_is_false. intros Hp.
      assert (x ∈ bfilter (at_path path) (memory_documents (w_db w))) as Hin by by apply elem_of_bfilter.
      rewrite Hf in Hin. set_solver. }
    inv_run. unfold insert_memory_document in *. inv_stmt.
    rename select (_ = w_db w3) into H3. simpl in *. rewrite Hdb in *.
    exists (env_uuid e (w_ctr w2)), (env_now e (w_ctr w)).
    assert (w_db w3 = with_memory (put_document (env_uuid e (w_ctr w2)) path content
              (env_now e (w_ctr w)) by_) (w_db w)) as Hw3.
    { rewrite <- H3. unfold put_document. apply with_memory_ext. by rewrite E. }
    split_and!; [done|done| |by rewrite E].
    rewrite Hw3. apply put_document_ok; [done|]. intros _ (x & Hx & Hin)%list_elem_of_fmap.
    rewrite exists_row_false in Hguard. specialize (Hguard x Hin). bsimp.
    by rewrite <- Hx, N.eqb_refl in *.
  - apply bind_ok in Hv as (w4 & [] & Hcheck & Hv). inv_run.
    destruct Hok as [Hid Hp]. destruct (bfilter_at_path _ _ _ _ Hp Hf) as (Hold & Hpo & ->).
    assert (exists_row (at_path path) (memory_documents (w_db w)) = true) as E.
    { apply exists_row_true. exists old. split; [done|]. by apply at_path_true. }
    rename select (sql_update _ _ _ _ _ = _) into H3. injection H3 as H3 _.
    assert (w_db w4 = w_db w ∧ (∀ a, expected_version v = Some a → a = md_version old)) as [Hw4 Hexp].
    { destruct (expected_version v) as [a|]; [|by injection Hcheck as <-].
      destruct (a =? md_version old) eqn:Ea; [|done]. injection Hcheck as <-. bsimp. naive_solver. }
    exists 0%N, (env_now e (w_ctr w)).
    assert (w_db w3 = with_memory (put_document 0 path content
              (env_now e (w_ctr w)) by_) (w_db w)) as Hw3.
    { rewrite <- H3, Hw4. unfold put_document. apply with_memory_ext. rewrite E.
      apply update_where_ext. intros x Hx. rewrite <- Hpo. split.
      - unfold at_path, str_eqb. apply eq_true_iff_eq. rewrite N.eqb_eq, bool_decide_eq_true.
        split; intros Hk; f_equal; [by eapply (NoDup_key_eq md_id)|by eapply (NoDup_key_eq md_path)].
      - intros Hpx%at_path_true.
        by rewrite (NoDup_key_eq md_path (memory_documents (w_db w)) x old). }
    split_and!; [done|done| |by intros a Ha _; apply Hexp].
    rewrite Hw3. apply put_document_ok; [done|]. by rewrite E.
Qed.

(** ** Limits and indexes *)

Section Invariant.
Context (show : Uuid → string) `{!UuidDisplay show}.

(** The documents of a namespace, and its topics. *)
Definition namespace_rows (ns : MemoryNamespace) (rows : list MemoryRow) : list MemoryRow :=
  bfilter (under (prefix show ns)) rows.
Definition is_topic (ns : MemoryNamespace) (r : MemoryRow) : bool :=
  under (prefix show ns) r && negb (at_path (index_path show ns) r).
Definition topics (ns : MemoryNamespace) (rows : list MemoryRow) : list MemoryRow :=
  bfilter (is_topic ns) rows.

(** The index document says what the topics are. *)
Definition indexed (ns : MemoryNamespace) (rows : list MemoryRow) : Prop :=
  ∃ r, r ∈ namespace_rows ns rows ∧ md_path r = index_path show ns ∧
    md_content_md r = index_body (prefix show ns) (sort_by path_cmp (topics ns rows)).

Record namespace_ok (ns : MemoryNamespace) (rows : list MemoryRow) : Prop := {
  no_bytes : total_bytes (namespace_rows ns rows) ≤ MAX_NAMESPACE_BYTES;
  no_topics : Z.of_nat (length (topics ns rows)) < MAX_INDEX_LINES;
  no_index : namespace_rows ns rows ≠ [] → indexed ns rows;
}.

(** *** Other documents *)

(** A selection by path. *)
Definition by_path (q : MemoryRow → bool) : Prop := ∀ r r', md_path r = md_path r' → q r = q r'.

Lemma bfilter_put q id path content now by_ rows :
  by_path q → (∀ r, md_path r = path → q r = false) →
  bfilter q (put_document id path content now by_ rows) = bfilter q rows.
Proof.
  intros Hq Hn. unfold put_document. destruct (exists_row _ _).
  - induction rows as [|r rows IH]; simpl; [done|]. destruct (at_path path r) eqn:E.
    + apply at_path_true in E. rewrite (Hn r E), (Hn (updated_row _ _ _ _ r)) by done. exact IH.
    + by rewrite IH.
  - rewrite bfilter_app. simpl. by rewrite Hn, app_nil_r.
Qed.

Lemma bfilter_delete q path rows :
  (∀ r, md_path r = path → q r = false) →
  bfilter q (delete_where (at_path path) rows) = bfilter q rows.
Proof.
  intros Hn. unfold delete_where. induction rows as [|r rows IH]; simpl; [done|].
  destruct (at_path path r) eqn:E; simpl; [|by rewrite IH].
  apply at_path_true in E. by rewrite (Hn r E), IH.
Qed.

Lemma under_by_path p : by_path (under p).
Proof. intros r r' H. unfold under. by rewrite H. Qed.
Lemma is_topic_by_path ns : by_path (is_topic ns).
Proof. intros r r' H. unfold is_topic, under, at_path. by rewrite H. Qed.

Lemma under_false_topic ns ns' t s :
  ns ≠ ns' → ∀ r, md_path r = topic_path show ns' t s → under (prefix show ns) r = false.
Proof. intros Hne r Hr. rewrite (under_topic show ns ns' t s) by done. by case_bool_decide. Qed.
Lemma under_false_index ns ns' :
  ns ≠ ns' → ∀ r, md_path r = index_path show ns' → under (prefix show ns) r = false.
Proof. intros Hne r Hr. rewrite (under_index show ns ns') by done. by case_bool_decide. Qed.

Lemma not_topic_outside ns path :
  (∀ r, md_path r = path → under (prefix show ns) r = false) →
  ∀ r, md_path r = path → is_topic ns r = false.
Proof. intros H r Hr. unfold is_topic. by rewrite H. Qed.

Lemma index_is_no_topic ns r : md_path r = index_path show ns → is_topic ns r = false.
Proof. intros Hr. unfold is_topic. by rewrite (proj2 (at_path_true _ _) Hr), andb_false_r. Qed.

(** A namespace is as it was when its documents are. *)
Lemma namespace_ok_frame ns rows rows' :
  bfilter (under (prefix show ns)) rows' = bfilter (under (prefix show ns)) rows →
  namespace_ok ns rows → namespace_ok ns rows'.
Proof.
  intros H. assert (topics ns rows' = topics ns rows) as Ht.
  { unfold topics, is_topic. rewrite (bfilter_andb (under (prefix show ns))), H.
    by rewrite <- bfilter_andb. }
  intros []. split; unfold indexed, namespace_rows in *; rewrite ?H, ?Ht; done.
Qed.

Lemma indexed_frame ns rows rows' :
  bfilter (under (prefix show ns)) rows' = bfilter (under (prefix show ns)) rows →
  indexed ns rows → indexed ns rows'.
Proof.
  intros H. assert (topics ns rows' = topics ns rows) as Ht.
  { unfold topics, is_topic. rewrite (bfilter_andb (under (prefix show ns))), H.
    by rewrite <- bfilter_andb. }
  unfold indexed, namespace_rows. by rewrite H, Ht.
Qed.

(** *** The index *)

Lemma index_body_lines p rows : (S (length rows) ≤ length (lines (index_body p rows)))%nat.
Proof.
  etrans; [|apply count_lf_le_lines]. unfold index_body. rewrite count_char_app.
  change (count_char LF MEMORY_INDEX_HEADER) with 1%nat.
  rewrite <- (length_map (index_entry p) rows), <- (length_sort_by index_cmp (map _ _)).
  induction (sort_by index_cmp _) as [|x l IH]; simpl; [lia|]. rewrite count_char_app.
  assert (1 ≤ count_char LF (index_line x))%nat; [|simpl in *; lia].
  unfold index_line. rewrite !count_char_app. simpl. lia.
Qed.

Lemma put_document_content id path content now by_ rows :
  ∃ r, r ∈ put_document id path content now by_ rows ∧ md_path r = path ∧
       md_content_md r = content.
Proof.
  unfold put_document. destruct (exists_row _ _) eqn:E.
  - apply exists_row_true in E as (x & Hx & Hp). eexists. split_and!.
    + apply elem_of_update_where. exists x. split; [done|]. by rewrite Hp.
    + by apply at_path_true.
    + done.
  - eexists. split_and!; [apply elem_of_app; right; by apply list_elem_of_singleton|done|done].
Qed.

Lemma regenerate_ok ns by_ e w w' rec :
  env_uuid_string e = show → memory_ok (memory_documents (w_db w)) →
  regenerate_memory_index ns by_ e w = (w', Ok rec) →
  let rows := memory_documents (w_db w) in
  ∃ id now content, w_db w' = with_memory (put_document id (index_path show ns) content now by_) (w_db w) ∧
    memory_ok (memory_documents (w_db w')) ∧
    Z.of_nat (length (topics ns (memory_documents (w_db w')))) < MAX_INDEX_LINES ∧
    topics ns (memory_documents (w_db w')) = topics ns rows ∧
    indexed ns (memory_documents (w_db w')).
Proof.
  intros Hshow Hok H rows. unfold regenerate_memory_index in H.
  apply bind_ok in H as (w1 & sh & [= <- <-] & H). rewrite Hshow in H.
  apply bind_ok in H as (w2 & trows & [Hdb ->]%fetch_ok & H).
  destruct (MAX_INDEX_LINES <? _) eqn:Hlen; [done|]. bsimp.
  apply upsert_ok in H as (id & now & Hw' & _ & Hok' & _); [|by rewrite Hdb].
  rewrite Hdb in Hw'. fold rows in Hw', Hlen.
  set (content := index_body _ _) in *.
  exists id, now, content.
  assert (topics ns (memory_documents (w_db w')) = topics ns rows) as Ht.
  { rewrite Hw'. apply bfilter_put; [apply is_topic_by_path|]. apply index_is_no_topic. }
  split_and!; [done|done| |done|].
  - rewrite Ht. unfold content in Hlen.
    pose proof (index_body_lines (prefix show ns) (sort_by path_cmp (topics ns rows))) as Hl.
    rewrite length_sort_by in Hl. unfold topics, is_topic in *. lia.
  - unfold indexed. rewrite Ht. rewrite Hw'. simpl. fold rows.
    destruct (put_document_content id (index_path show ns) content now by_ rows)
      as (r & Hr & Hp & Hc).
    exists r. split_and!; [|done|done]. apply elem_of_bfilter. split; [done|].
    rewrite (under_index _ ns ns) by done. by apply bool_decide_eq_true.
Qed.

Lemma enforce_ok p e w w' u :
  enforce_namespace_size p e w = (w', Ok u) →
  w_db w' = w_db w ∧ total_bytes (bfilter (under p) (memory_documents (w_db w))) ≤ MAX_NAMESPACE_BYTES.
Proof.
  intros H. unfold enforce_namespace_size in H. apply bind_ok in H as (w1 & n & [Hdb ->]%fetch_ok & H).
  destruct (MAX_NAMESPACE_BYTES <? _) eqn:E; [done|]. injection H as <- _. bsimp. split; [done|lia].
Qed.

(** *** The two operations *)

Definition memory_inv (db : DB) : Prop :=
  memory_ok (memory_documents db) ∧ ∀ ns, namespace_ok ns (memory_documents db).

Definition write_body (ns : MemoryNamespace) (path content : string) (by_ : option string)
    (v : option Z) : M MemoryRecord :=
  let! page := upsert_memory_document_in_transaction path content by_ v in
  enforce_namespace_size (prefix show ns) ;;
  regenerate_memory_index ns by_ ;;
  enforce_namespace_size (prefix show ns) ;;
  ret page.

(** What a write did, when it went through: two documents are put, the topic and its index. *)
Lemma write_body_ok ns t s content by_ v e w w' page :
  env_uuid_string e = show → memory_ok (memory_documents (w_db w)) →
  write_body ns (topic_path show ns t s) content by_ v e w = (w', Ok page) →
  let rows := memory_documents (w_db w) in
  ∃ id id' now now' index,
    w_db w' = with_memory (λ l, put_document id' (index_path show ns) index now' by_
                (put_document id (topic_path show ns t s) content now by_ l)) (w_db w) ∧
    page = mkMemoryRecord (topic_path show ns t s) content
             (version_at (topic_path show ns t s) rows + 1) ∧
    memory_ok (memory_documents (w_db w')) ∧ namespace_ok ns (memory_documents (w_db w')) ∧
    (∀ a, expected_version v = Some a → exists_row (at_path (topic_path show ns t s)) rows = true →
          a = version_at (topic_path show ns t s) rows).
Proof.
  intros Hshow Hok H rows. unfold write_body in H.
  apply bind_ok in H as (w1 & p & H1 & H).
  apply upsert_ok in H1 as (id & now & Hw1 & -> & Hok1 & Hver); [|done].
  apply bind_ok in H as (w2 & [] & [Hw2 _]%enforce_ok & H).
  apply bind_ok in H as (w3 & q & H3 & H).
  apply regenerate_ok in H3 as (id' & now' & index & Hw3 & Hok3 & Hlen & Ht & Hi);
    [|done|by rewrite Hw2].
  apply bind_ok in H as (w4 & [] & [Hw4 Hsize]%enforce_ok & [= <- <-]).
  exists id, id', now, now', index. rewrite Hw4. split_and!; [|done|done| |done].
  - by rewrite Hw3, Hw2, Hw1.
  - by split.
Qed.

Lemma put_outside ns ns' t s id content now by_ rows :
  ns ≠ ns' →
  bfilter (under (prefix show ns)) (put_document id (topic_path show ns' t s) content now by_ rows) =
  bfilter (under (prefix show ns)) rows.
Proof. intros Hne. apply bfilter_put; [apply under_by_path|]. by apply under_false_topic. Qed.
Lemma put_index_outside ns ns' id content now by_ rows :
  ns ≠ ns' →
  bfilter (under (prefix show ns)) (put_document id (index_path show ns') content now by_ rows) =
  bfilter (under (prefix show ns)) rows.
Proof. intros Hne. apply bfilter_put; [apply under_by_path|]. by apply under_false_index. Qed.

Lemma write_body_inv ns t s content by_ v e w w' page :
  env_uuid_string e = show → memory_inv (w_db w) →
  write_body ns (topic_path show ns t s) content by_ v e w = (w', Ok page) → memory_inv (w_db w').
Proof.
  intros Hshow [Hok Hns] H.
  apply write_body_ok in H as (id & id' & now & now' & index & Hw' & _ & Hok' & Hns' & _); [|done..].
  split; [done|]. intros n. destruct (decide (n = ns)) as [->|Hne]; [done|].
  apply (namespace_ok_frame n (memory_documents (w_db w))); [|done]. rewrite Hw'. simpl.
  by rewrite put_index_outside, put_outside.
Qed.

Definition move_body (from to : MemoryNamespace) (t s : string) (by_ : option string)
    : M MemoryMoveResult :=
  let from_path := topic_path show from t s in
  let to_path := topic_path show to t s in
  let! source := fetch_optional (λ db, bfilter (at_path from_path) (memory_documents db)) in
  match source with
  | None => throw (MemoryTopicNotFound from_path)
  | Some source =>
      let frontmatter := parse_memory_frontmatter (md_content_md source) in
      let! now := utc_now in
      let! updated := format_date now in
      let content := render_topic_content (pm_description frontmatter) t updated
                       (pm_body frontmatter) in
      upsert_memory_document_in_transaction to_path content by_ None ;;
      execute (sql_delete memory_documents with_memory (at_path from_path)) ;;
      regenerate_memory_index from by_ ;;
      regenerate_memory_index to by_ ;;
      enforce_namespace_size (prefix show from) ;;
      enforce_namespace_size (prefix show to) ;;
      ret (mkMemoryMoveResult from_path to_path)
  end.

(** The table after a move: the new topic, without the old one, and both indexes. *)
Lemma move_body_ok from to t s by_ e w w' m :
  env_uuid_string e = show → memory_ok (memory_documents (w_db w)) → from ≠ to →
  move_body from to t s by_ e w = (w', Ok m) →
  let rows := memory_documents (w_db w) in
  ∃ source date id ida idb now nowa nowb inda indb,
    head (bfilter (at_path (topic_path show from t s)) rows) = Some source ∧
    w_db w' = with_memory (λ l,
      put_document idb (index_path show to) indb nowb by_
        (put_document ida (index_path show from) inda nowa by_
          (delete_where (at_path (topic_path show from t s))
            (put_document id (topic_path show to t s)
              (render_topic_content (pm_description (parse_memory_frontmatter (md_content_md source)))
                t (env_date e date) (pm_body (parse_memory_frontmatter (md_content_md source))))
              now by_ l)))) (w_db w) ∧
    memory_ok (memory_documents (w_db w')) ∧
    namespace_ok from (memory_documents (w_db w')) ∧ namespace_ok to (memory_documents (w_db w')).
Proof.
  intros Hshow Hok Hne H rows. unfold move_body in H.
  apply bind_ok in H as (w0 & src & [Hw0 ->]%fetch_optional_ok & H).
  destruct (head _) as [source|] eqn:Hsrc; [|done].
  apply bind_ok in H as (w1 & now0 & [= <- <-] & H).
  apply bind_ok in H as (w2 & date & [= <- <-] & H).
  apply bind_ok in H as (w3 & p & H3 & H).
  apply upsert_ok in H3 as (id & now & Hw3 & _ & Hok3 & _); [|simpl; by rewrite Hw0].
  apply bind_ok in H as (w4 & n & (_ & [= Hw4 _] & _)%execute_ok & H).
  assert (memory_ok (memory_documents (w_db w4))) as Hok4.
  { rewrite <- Hw4. destruct Hok3. split; by apply NoDup_delete_where. }
  apply bind_ok in H as (w5 & q & H5 & H).
  apply regenerate_ok in H5 as (ida & nowa & inda & Hw5 & Hok5 & Hlen5 & Ht5 & Hi5); [|done..].
  apply bind_ok in H as (w6 & q' & H6 & H).
  apply regenerate_ok in H6 as (idb & nowb & indb & Hw6 & Hok6 & Hlen6 & Ht6 & Hi6); [|done..].
  apply bind_ok in H as (w7 & [] & [Hw7 Hs7]%enforce_ok & H).
  apply bind_ok in H as (w8 & [] & [Hw8 Hs8]%enforce_ok & [= <- <-]).
  eexists source, _, id, ida, idb, now, nowa, nowb, inda, indb.
  assert (bfilter (under (prefix show from)) (memory_documents (w_db w6)) =
          bfilter (under (prefix show from)) (memory_documents (w_db w5))) as Hf.
  { rewrite Hw6. by apply put_index_outside. }
  rewrite Hw8, Hw7 in *. split_and!; [done| |done| |by split].
  - rewrite Hw6, Hw5, <- Hw4, Hw3. simpl. by rewrite Hw0.
  - split; [done| |].
    + unfold topics, is_topic. rewrite (bfilter_andb (under (prefix show from))), Hf, <- bfilter_andb.
      exact Hlen5.
    + intros _. by apply (indexed_frame from (memory_documents (w_db w5))).
Qed.

Lemma move_body_inv from to t s by_ e w w' m :
  env_uuid_string e = show → memory_inv (w_db w) → from ≠ to →
  move_body from to t s by_ e w = (w', Ok m) → memory_inv (w_db w').
Proof.
  intros Hshow [Hok Hns] Hne H. apply move_body_ok in H
    as (src & d & id & ida & idb & now & nowa & nowb & inda & indb & _ & Hw' & Hok' & Hf & Ht); [|done..].
  split; [done|]. intros n.
  destruct (decide (n = from)) as [->|Hnf]; [done|]. destruct (decide (n = to)) as [->|Hnt]; [done|].
  apply (namespace_ok_frame n (memory_documents (w_db w))); [|done]. rewrite Hw'. simpl.
  rewrite !put_index_outside, bfilter_delete, put_outside; try done. by apply under_false_topic.
Qed.
End Invariant.

(** ** Reading *)

(** The document at a path. *)
Definition document_at (path : string) (rows : list MemoryRow) : option MemoryRow :=
  head (bfilter (at_path path) rows).

Lemma document_put_same id path content now by_ rows :
  memory_ok rows →
  ∃ r, document_at path (put_document id path content now by_ rows) = Some r ∧
    md_path r = path ∧ md_content_md r = content ∧ md_version r = version_at path rows + 1.
Proof.
  intros [_ Hp]. unfold document_at, put_document, version_at.
  destruct (exists_row _ _) eqn:E.
  - destruct (bfilter (at_path path) rows) as [|old l] eqn:Hf.
    + apply exists_row_true in E as (x & Hx & Hxp).
      assert (x ∈ bfilter (at_path path) rows) as Hin by by apply elem_of_bfilter.
      rewrite Hf in Hin. set_solver.
    + assert (∀ f, (∀ r, md_path (f r) = md_path r) →
        bfilter (at_path path) (update_where (at_path path) f rows) =
        map f (bfilter (at_path path) rows)) as Hmap.
      { intros f Hk. clear -Hk. induction rows as [|r rows IH]; simpl; [done|].
        destruct (at_path path r) eqn:Er; simpl; rewrite ?Er; [|done].
        unfold at_path. rewrite Hk. fold (at_path path r). rewrite Er. simpl. by f_equal. }
      rewrite Hmap by done. rewrite Hf. simpl.
      destruct (bfilter_at_path _ _ _ _ Hp Hf) as (_ & Hpo & _). eexists. by split_and!.
  - assert (bfilter (at_path path) rows = []) as Hf.
    { apply bfilter_none. by apply exists_row_false. }
    rewrite bfilter_app, Hf. simpl. unfold at_path. simpl. rewrite str_eqb_refl. eexists. by split_and!.
Qed.

Lemma document_put_other id path path' content now by_ rows :
  path ≠ path' → document_at path' (put_document id path content now by_ rows) = document_at path' rows.
Proof.
  intros Hne. unfold document_at. rewrite bfilter_put; [done| |].
  - intros r r' H. unfold at_path. by rewrite H.
  - intros r <-. unfold at_path, str_eqb. by case_bool_decide.
Qed.

Lemma document_delete path path' rows :
  document_at path' (delete_where (at_path path) rows) =
  if decide (path = path') then None else document_at path' rows.
Proof.
  unfold document_at. case_decide as E.
  - subst. rewrite bfilter_none; [done|]. intros r [_ H]%elem_of_delete_where. done.
  - rewrite bfilter_delete; [done|]. intros r <-. unfold at_path, str_eqb. by case_bool_decide.
Qed.

(** The topic that a read of a document returns. *)
Definition read_topic (t s : string) (r : MemoryRow) : MemoryTopic :=
  memory_topic_from_page (memory_record_from_row r) t s.

Lemma get_topic_run ns t s e w :
  fault_free e → validate_memory_type t = Ok tt → validate_topic_slug s = Ok tt →
  get_memory_topic ns t s e w =
  (tick w, Ok (read_topic t s <$> document_at (topic_path (env_uuid_string e) ns t s)
                                   (memory_documents (w_db w)))).
Proof.
  intros Hff Ht Hs. unfold get_memory_topic. rewrite Ht, Hs. unfold bind, lift, uuid_display.
  unfold get_memory_document, bind, fetch_optional. rewrite fetch_run by done. unfold ret, document_at.
  by destruct (head _).
Qed.

(** *** Paths *)

Lemma valid_type_cases t :
  validate_memory_type t = Ok tt → t = "user" ∨ t = "feedback" ∨ t = "project" ∨ t = "reference".
Proof. unfold validate_memory_type, str_eqb. repeat case_bool_decide; simpl; tauto || done. Qed.

Lemma append_inj_r (a b c : string) : a +:+ c = b +:+ c → a = b.
Proof.
  intros H. apply (f_equal str_rev) in H. rewrite !str_rev_app in H. apply append_inj_l in H.
  apply (f_equal str_rev) in H. by rewrite !str_rev_involutive in H.
Qed.

Section Paths.
Context (show : Uuid → string) `{!UuidDisplay show}.

Lemma topic_path_inj ns ns' t t' s s' :
  validate_memory_type t = Ok tt → validate_memory_type t' = Ok tt →
  topic_path show ns t s = topic_path show ns' t' s' → ns = ns' ∧ t = t' ∧ s = s'.
Proof.
  intros Ht Ht' H. unfold topic_path in H. pose proof (prefix_inj show _ _ _ _ H) as ->.
  apply append_inj_l in H.
  assert (∀ x, validate_memory_type x = Ok tt → has_char (Ascii.ascii_of_N 95) x = false) as Hn.
  { intros x [-> | [-> | [-> | ->] ] ]%valid_type_cases; done. }
  apply (append_sep_inj (Ascii.ascii_of_N 95)) in H as [-> H]; [|by apply Hn..].
  by apply append_inj_r in H as ->.
Qed.

Lemma topic_not_index ns ns' t s :
  validate_memory_type t = Ok tt → topic_path show ns t s ≠ index_path show ns'.
Proof.
  intros Ht H. unfold topic_path, index_path in H. pose proof (prefix_inj show _ _ _ _ H) as ->.
  apply append_inj_l in H. by apply valid_type_cases in Ht as [-> | [-> | [-> | ->] ] ].
Qed.
End Paths.

(** ** Theorems *)

(** The environments of a history print identifiers alike and dates on one line. *)
Record env_prints (show : Uuid → string) (e : Env) : Prop := {
  ep_uuid : env_uuid_string e = show;
  ep_date : ∀ t, one_line (env_date e t);
}.

Lemma write_run ns t s d b by_ v e w w' tp :
  write_memory_topic ns t s d b by_ v e w = (w', Ok tp) →
  let show := env_uuid_string e in
  validate_memory_type t = Ok tt ∧ validate_topic_slug s = Ok tt ∧ validate_description d = Ok tt ∧
  Z.of_nat (String.length b) ≤ MAX_TOPIC_BODY_BYTES ∧
  ∃ now w1 w2 page,
    let content := render_topic_content d t (env_date e now) b in
    w_db w1 = w_db w ∧ w_db w' = w_db w2 ∧
    write_body show ns (topic_path show ns t s) content by_ v e w1 = (w2, Ok page) ∧
    tp = mkMemoryTopic t s d (env_date e now) content (topic_path show ns t s) (mrec_version page).
Proof.
  intros H show. unfold write_memory_topic in H.
  apply bind_ok in H as (w1 & [] & [-> Ht]%lift_ok & H).
  apply bind_ok in H as (w2 & [] & [-> Hs]%lift_ok & H).
  apply bind_ok in H as (w3 & [] & [-> Hd]%lift_ok & H).
  destruct (MAX_TOPIC_BODY_BYTES <? _) eqn:Hb; [done|]. bsimp. split_and!; [done..|].
  apply bind_ok in H as (w4 & now & [= <- <-] & H).
  apply bind_ok in H as (w5 & date & [= <- <-] & H).
  apply bind_ok in H as (w6 & sh & [= <- <-] & H).
  apply bind_ok in H as (w7 & page & (w8 & Hbody & Hdb)%transaction_ok & [= <- <-]).
  exists (env_now e (w_ctr w)), (tick (tick w)), w8, page. by split_and!.
Qed.


(** A successful write leaves the topic at the next version. *)
Lemma write_version (show : Uuid → string) `{!UuidDisplay show} ns t s d b by_ v e w w' tp :
  env_uuid_string e = show → memory_ok (memory_documents (w_db w)) →
  write_memory_topic ns t s d b by_ v e w = (w', Ok tp) →
  ∃ r, document_at (topic_path show ns t s) (memory_documents (w_db w')) = Some r ∧
    md_version r = version_at (topic_path show ns t s) (memory_documents (w_db w)) + 1.
Proof.
  intros Hsh Hok H.
  apply write_run in H as (Ht & _ & _ & _ & now & w1 & w2 & page & Hw1 & Hw2 & Hbody & ->).
  rewrite Hsh in Hbody. apply write_body_ok in Hbody
    as (id & id' & n1 & n2 & index & Hdb & -> & _ & _ & _); [|done|done|by rewrite Hw1].
  rewrite Hw2, Hdb, Hw1. simpl.
  rewrite document_put_other by (by apply not_eq_sym, topic_not_index).
  destruct (document_put_same id (topic_path show ns t s) (render_topic_content d t (env_date e now) b)
              n1 by_ _ Hok) as (r & -> & _ & _ & Hv).
  by exists r.
Qed.

(** A write against another version than the current one is refused. *)
Lemma write_conflict ns t s d b by_ a r e w :
  fault_free e → validate_memory_type t = Ok tt → validate_topic_slug s = Ok tt →
  validate_description d = Ok tt → Z.of_nat (String.length b) ≤ MAX_TOPIC_BODY_BYTES →
  document_at (topic_path (env_uuid_string e) ns t s) (memory_documents (w_db w)) = Some r →
  0 < a → a ≠ md_version r →
  ∃ w', write_memory_topic ns t s d b by_ (Some a) e w =
    (w', Err (MemoryVersionConflict (topic_path (env_uuid_string e) ns t s) (md_version r) a)) ∧
    w_db w' = w_db w.
Proof.
  intros Hff Ht Hs Hd Hb Hr Ha Hne. unfold write_memory_topic.
  rewrite Ht, Hs, Hd. rewrite (proj2 (Z.ltb_ge _ _)) by done.
  unfold bind at 1 2 3 4 5 6 7, lift, utc_now, format_date, uuid_display.
  rewrite transaction_run by done. unfold bind at 1.
  unfold upsert_memory_document_in_transaction, bind at 1 2, utc_now, fetch_optional.
  rewrite fetch_run by done. unfold document_at in Hr. simpl. rewrite Hr. unfold bind at 1.
  unfold expected_version. rewrite (proj2 (Z.ltb_lt 0 a)), (proj2 (Z.eqb_neq a _)) by done.
  eexists. split; [reflexivity|]. done.
Qed.

(** No update is lost between writers that name the version they read: when
    one of them has written, the other, who read the same version of an existing topic, is
    refused and changes nothing. *)
Theorem concurrent_writes_conflict (show : Uuid → string) `{!UuidDisplay show}
    ns t s d b by_ e w w1 tp d' b' by_' e' r :
  env_uuid_string e = show → env_uuid_string e' = show → fault_free e' →
  memory_ok (memory_documents (w_db w)) →
  document_at (topic_path show ns t s) (memory_documents (w_db w)) = Some r → 0 < md_version r →
  write_memory_topic ns t s d b by_ (Some (md_version r)) e w = (w1, Ok tp) →
  validate_description d' = Ok tt → Z.of_nat (String.length b') ≤ MAX_TOPIC_BODY_BYTES →
  ∃ w2, write_memory_topic ns t s d' b' by_' (Some (md_version r)) e' w1 =
    (w2, Err (MemoryVersionConflict (topic_path show ns t s) (md_version r + 1) (md_version r))) ∧
    w_db w2 = w_db w1.
Proof.
  intros Hsh Hsh' Hff Hok Hr Hpos H Hd' Hb'. pose proof H as (Ht & Hs & _)%write_run.
  apply (write_version show) in H as (r1 & Hr1 & Hv1); [|done..].
  assert (version_at (topic_path show ns t s) (memory_documents (w_db w)) = md_version r) as Hv.
  { unfold version_at. unfold document_at in Hr. destruct (bfilter _ _); simplify_eq/=. done. }
  rewrite Hv in Hv1. rewrite <- Hv1, <- Hsh'. apply write_conflict; try done; [by rewrite Hsh'|lia].
Qed.

Lemma move_run from to t s by_ e w w' m :
  move_memory_topic from to t s by_ e w = (w', Ok m) →
  let show := env_uuid_string e in
  validate_memory_type t = Ok tt ∧ validate_topic_slug s = Ok tt ∧ from ≠ to ∧
  ∃ w1, move_body show from to t s by_ e (tick w) = (w1, Ok m) ∧ w_db w' = w_db w1.
Proof.
  intros H show. unfold move_memory_topic in H.
  apply bind_ok in H as (w1 & [] & [-> Ht]%lift_ok & H).
  apply bind_ok in H as (w2 & [] & [-> Hs]%lift_ok & H).
  case_decide as Hne; [done|]. apply bind_ok in H as (w3 & sh & [= <- <-] & H).
  by apply transaction_ok in H.
Qed.

(** Moving a topic keeps what it says: after a successful move the source is
    gone, the target reads as the description and the body of the source (the body without
    leading line feeds, under the date of the move), and every other topic of every namespace
    reads as before. *)
Theorem move_memory_topic_conserves (show : Uuid → string) `{!UuidDisplay show}
    from to t s by_ e e' w w' m src d u b :
  env_prints show e → env_prints show e' → fault_free e' →
  memory_ok (memory_documents (w_db w)) →
  document_at (topic_path show from t s) (memory_documents (w_db w)) = Some src →
  md_content_md src = render_topic_content d t u b → one_line d → one_line u →
  move_memory_topic from to t s by_ e w = (w', Ok m) →
  (get_memory_topic from t s e' w').2 = Ok None ∧
  (∃ tp, (get_memory_topic to t s e' w').2 = Ok (Some tp) ∧
    parse_memory_frontmatter (mt_body tp) =
      mkParsedMemory (trim d) (mt_updated tp) (trim_start_char LF b)) ∧
  ∀ ns' t' s', (ns', t', s') ≠ (from, t, s) → (ns', t', s') ≠ (to, t, s) →
    (get_memory_topic ns' t' s' e' w').2 = (get_memory_topic ns' t' s' e' w).2.
Proof.
  intros [Hsh Hdate] [Hsh' _] Hff Hok Hsrc Hc Hd Hu H.
  apply move_run in H as (Ht & Hs & Hne & w1 & Hbody & Hw'). rewrite Hsh in Hbody.
  apply move_body_ok in Hbody as (src' & date & id & ida & idb & n & na & nb & ia & ib & Hsrc' & Hdb & _);
    [|done..]. simpl in Hsrc', Hdb. unfold document_at in Hsrc. rewrite Hsrc in Hsrc'. injection Hsrc' as <-.
  rewrite Hc, frontmatter_of_render in Hdb by (done || by apply validate_type_line). simpl in Hdb.
  rewrite Hdb in Hw'. clear Hdb.
  assert (∀ ns, topic_path show ns t s ≠ index_path show from ∧
                topic_path show ns t s ≠ index_path show to) as Hni
    by (intros; split; by apply topic_not_index).
  assert (topic_path show from t s ≠ topic_path show to t s) as Hpp.
  { by intros (-> & _ & _)%topic_path_inj. }
  split_and!.
  - rewrite get_topic_run, Hw', Hsh' by done. simpl. destruct (Hni from).
    by rewrite !document_put_other, document_delete, decide_True.
  - rewrite get_topic_run, Hw', Hsh' by done. simpl. destruct (Hni to).
    rewrite !document_put_other, document_delete, decide_False by done.
    edestruct document_put_same as (r & -> & Hp & Hcr & _); [done|]. simpl. eexists. split; [done|].
    unfold read_topic, memory_topic_from_page. simpl. rewrite Hcr.
    rewrite frontmatter_of_render; [|by split; apply trim_no_char; apply Hd|by apply validate_type_line|apply Hdate].
    simpl. by rewrite trim_idemp, trim_start_char_idemp.
  - intros ns' t' s' Hnf Hnt. destruct (validate_memory_type t') as [[]|x] eqn:Ht'.
    2: { unfold get_memory_topic. by rewrite Ht'. }
    destruct (validate_topic_slug s') as [[]|x] eqn:Hs'.
    2: { unfold get_memory_topic. by rewrite Ht', Hs'. }
    rewrite !get_topic_run, Hw', Hsh' by done. simpl.
    rewrite !document_put_other, document_delete, decide_False, document_put_other; try done.
    + intros (-> & -> & ->)%topic_path_inj; done.
    + intros (-> & -> & ->)%topic_path_inj; done.
    + by apply not_eq_sym, topic_not_index.
    + by apply not_eq_sym, topic_not_index.
Qed.

(** *** Witnesses *)

Lemma demo_prints base : env_prints show_uuid (demo_env base).
Proof. split; [done|]. intros t. simpl. unfold demo_date. by repeat case_match. Qed.

Lemma demo_fault_free base : fault_free (demo_env base).
Proof. by intros n. Qed.

Definition memory_result {A} (m : World * result A StoreError) (d : A) : A :=
  match m.2 with Ok a => a | Err _ => d end.
Definition no_topic : MemoryTopic := mkMemoryTopic "" "" "" "" "" "" 0.

Definition demo_note (base : N) (v : option Z) (w : World) : World * result MemoryTopic StoreError :=
  write_memory_topic (NsAgent 5) "project" "build_notes" " how to build " (lf +:+ "cargo build") None v
    (demo_env base) w.
Definition noted : World := (demo_note 100 None start).1.

Lemma noted_ok : memory_ok (memory_documents (w_db noted)).
Proof. split; vm_compute; repeat constructor; set_solver. Qed.


Definition demo_row : MemoryRow :=
  match document_at (topic_path show_uuid (NsAgent 5) "project" "build_notes")
          (memory_documents (w_db noted)) with
  | Some r => r
  | None => mkMemoryRow 0 "" "" 0 0 0 None
  end.

Lemma concurrent_writes_conflict_witness :
  ∃ w2, (demo_note 300 (Some 1) (demo_note 200 (Some 1) noted).1) =
    (w2, Err (MemoryVersionConflict (topic_path show_uuid (NsAgent 5) "project" "build_notes") 2 1)).
Proof.
  destruct (concurrent_writes_conflict show_uuid (NsAgent 5) "project" "build_notes" " how to build "
    (lf +:+ "cargo build") None (demo_env 200) noted (demo_note 200 (Some 1) noted).1
    (memory_result (demo_note 200 (Some 1) noted) no_topic) " how to build "
    (lf +:+ "cargo build") None (demo_env 300) demo_row) as (w2 & H & _); try done.
  - apply noted_ok.
  - by exists w2.
Defined.

Definition demo_move : World * result MemoryMoveResult StoreError :=
  move_memory_topic (NsAgent 5) (NsChannel 7) "project" "build_notes" None (demo_env 400) noted.

Lemma move_memory_topic_conserves_witness :
  ∃ tp, (get_memory_topic (NsChannel 7) "project" "build_notes" (demo_env 500) demo_move.1).2 =
          Ok (Some tp) ∧
    parse_memory_frontmatter (mt_body tp) = mkParsedMemory "how to build" (mt_updated tp) "cargo build".
Proof.
  destruct (move_memory_topic_conserves show_uuid (NsAgent 5) (NsChannel 7) "project" "build_notes" None
    (demo_env 400) (demo_env 500) noted demo_move.1
    (memory_result demo_move (mkMemoryMoveResult "" "")) demo_row " how to build " "2026-02-01"
    (lf +:+ "cargo build")) as (_ & (tp & H1 & H2) & _).
  - apply demo_prints.
  - apply demo_prints.
  - apply demo_fault_free.
  - apply noted_ok.
  - vm_compute. reflexivity.
  - vm_compute. reflexivity.
  - done.
  - done.
  - vm_compute. reflexivity.
  - exists tp. split; [exact H1|]. rewrite H2. reflexivity.
Defined.

(** ** Within the store *)

Lemma insert_memory_document_ok r : stmt_preserves schema_ok (insert_memory_document r).
Proof.
  intros db db' [] Hok H. unfold insert_memory_document in H. inv_stmt. frame_tac Hok.
  destruct so_memory as [K1 K2]. rewrite exists_row_false in Hguard.
  split; apply NoDup_map_snoc; try done; intros (x & Hx & Hin)%list_elem_of_fmap;
    specialize (Hguard x Hin); bsimp; rewrite Hx in *.
  - by rewrite N.eqb_refl in *.
  - unfold at_path in *. by rewrite str_eqb_refl in *.
Qed.

Lemma update_memory_ok p f :
  keeps md_id f → keeps md_path f →
  stmt_preserves schema_ok (sql_update memory_documents with_memory p f).
Proof.
  intros Hi Hp db db' n Hok [= <- _]. frame_tac Hok. destruct so_memory as [K1 K2].
  split; simpl; by rewrite map_update_where.
Qed.

Lemma delete_memory_ok p : stmt_preserves schema_ok (sql_delete memory_documents with_memory p).
Proof.
  intros db db' n Hok [= <- _]. frame_tac Hok. destruct so_memory as [K1 K2].
  split; simpl; by apply NoDup_delete_where.
Qed.

(** What a property has to survive to survive every memory operation. *)
Lemma run_memory_op_preserves (P : DB → Prop) op :
  (∀ r, stmt_preserves P (insert_memory_document r)) →
  (∀ p c v n b, stmt_preserves P (sql_update memory_documents with_memory p (updated_row c v n b))) →
  (∀ p, stmt_preserves P (sql_delete memory_documents with_memory p)) →
  preserves P (run_memory_op op).
Proof.
  intros Hi Hu Hd.
  assert (∀ p c b v, preserves P (upsert_memory_document_in_transaction p c b v)) as Hup.
  { intros. unfold upsert_memory_document_in_transaction. preserves_tac; auto. }
  assert (∀ ns b, preserves P (regenerate_memory_index ns b)) as Hre.
  { intros. unfold regenerate_memory_index. preserves_tac; auto. }
  assert (∀ p, preserves P (enforce_namespace_size p)) as Hen.
  { intros. unfold enforce_namespace_size. preserves_tac. }
  destruct op; simpl; unfold write_memory_topic, move_memory_topic; preserves_tac; auto.
Qed.

Lemma run_memory_op_schema op : preserves schema_ok (run_memory_op op).
Proof.
  apply run_memory_op_preserves; intros;
    [apply insert_memory_document_ok|by apply update_memory_ok|apply delete_memory_ok].
Qed.

(** A property of the other tables survives every memory operation. *)
Lemma run_memory_op_outside (P : DB → Prop) op :
  (∀ f db, P db → P (with_memory f db)) → preserves P (run_memory_op op).
Proof.
  intros HP. apply run_memory_op_preserves.
  - intros r db db' [] Hdb H. unfold insert_memory_document in H. inv_stmt. by apply HP.
  - intros p c v n b db db' k Hdb [= <- _]. by apply HP.
  - intros p db db' k Hdb [= <- _]. by apply HP.
Qed.

Lemma write_atomic ns t s d b by_ v : atomic (write_memory_topic ns t s d b by_ v).
Proof.
  unfold write_memory_topic. do 3 (apply atomic_bind; [auto with cocli|intros []]).
  destruct (_ <? _); [atomic_tac|].
  do 3 (apply atomic_bind; [auto with cocli|intros ?]).
  intros e w w' x [H|(w1 & page & _ & H)]%bind_err; [|done]. by eapply transaction_atomic.
Qed.

Lemma move_atomic from to t s by_ : atomic (move_memory_topic from to t s by_).
Proof.
  unfold move_memory_topic. do 2 (apply atomic_bind; [auto with cocli|intros []]).
  case_decide; [atomic_tac|]. apply atomic_bind; [auto with cocli|intros ?]. apply transaction_atomic.
Qed.

(** Limits and indexes survive every operation, failing or not. *)
Lemma run_memory_op_inv (show : Uuid → string) `{!UuidDisplay show} op e w :
  env_uuid_string e = show → memory_inv show (w_db w) →
  memory_inv show (w_db (run_memory_op op e w).1).
Proof.
  intros Hsh Hinv. destruct op as [ns t s d b u v|from to t s u]; simpl; unfold bind.
  - destruct (write_memory_topic ns t s d b u v e w) as [w' [tp|x]] eqn:H; simpl.
    + apply write_run in H as (_ & _ & _ & _ & now & w1 & w2 & page & Hw1 & Hw2 & Hbody & _).
      rewrite Hsh in Hbody. rewrite Hw2. eapply (write_body_inv show); [done| |exact Hbody].
      by rewrite Hw1.
    + apply write_atomic in H. by rewrite H.
  - destruct (move_memory_topic from to t s u e w) as [w' [m|x]] eqn:H; simpl.
    + apply move_run in H as (_ & _ & Hne & w1 & Hbody & Hw1). rewrite Hsh in Hbody. rewrite Hw1.
      by eapply (move_body_inv show); [..|exact Hbody].
    + apply move_atomic in H. by rewrite H.
Qed.
