(* ===== verification/StoreHistory.v ===== *)
(** * Runtime history: sessions, turns, activity, tokens, operations

    [crates/cocli-store/src/lib.rs], what the store keeps of the runs of an agent: its
    sessions and their turns ([create_agent_session] to [get_agent_turn_by_generation]), its
    activity markers, its capability token of the bridge and the mutations it made through it.
    A query that orders by [started_at] alone returns ties in insertion order here. *)
From stdpp Require Import pretty.
From S2P Require Import Prelude Text StoreTypes StoreDb StoreSchema.

(** ** Domain records *)

Record AgentSession := mkAgentSession {
  as_id : Uuid;
  as_agent_id : Uuid;
  as_session_id : string;
  as_launch_id : option string;
  as_channel_id : option Uuid;
  as_parent_session_id : option Uuid;
  as_end_reason : option string;
  as_turn_count : Z;
  as_input_tokens : Z;
  as_output_tokens : Z;
  as_cost_usd : F64;
  as_context_window : Z;
  as_session_type : string;
  as_scope : option string;
  as_parent_chat_session_id : option Uuid;
  as_task_summary : option string;
  as_files_changed : option (list string);
  as_task_success : option bool;
  as_started_at : Time;
  as_ended_at : option Time;
}.

Record AgentSessionFinish := mkAgentSessionFinish {
  fin_end_reason : string;
  fin_turn_count : Z;
  fin_input_tokens : Z;
  fin_output_tokens : Z;
  fin_cost_usd : F64;
  fin_context_window : Z;
  fin_task_summary : option string;
  fin_files_changed : option (list string);
  fin_task_success : option bool;
  fin_ended_at : Time;
}.

Record TurnMessageRef := mkTurnMessageRef {
  tmr_channel_id : Uuid;
  tmr_message_id : Uuid;
  tmr_seq : option Z;
  tmr_created_at : option Time;
}.

Record AgentTurn := mkAgentTurn {
  atn_id : Uuid;
  atn_agent_id : Uuid;
  atn_session_id : string;
  atn_launch_id : option string;
  atn_turn_number : Z;
  atn_started_at : Time;
  atn_ended_at : option Time;
  atn_input_tokens : Z;
  atn_output_tokens : Z;
  atn_cost_usd : F64;
  atn_context_window : Z;
  atn_entries : Json;
  atn_session_type : string;
  atn_duration_ms : option Z;
  atn_message_ref : option TurnMessageRef;
}.

Record NewAgentTurn := mkNewAgentTurn {
  nt_agent_id : Uuid;
  nt_session_id : string;
  nt_launch_id : option string;
  nt_turn_number : Z;
  nt_started_at : Time;
  nt_ended_at : option Time;
  nt_input_tokens : Z;
  nt_output_tokens : Z;
  nt_cost_usd : F64;
  nt_context_window : Z;
  nt_entries : Json;
  nt_session_type : string;
  nt_channel_id : option Uuid;
  nt_source_message_id : option Uuid;
}.

Record AgentActivity := mkAgentActivity {
  aa_id : Uuid;
  aa_agent_id : Uuid;
  aa_activity : string;
  aa_detail : option string;
  aa_trajectory : list string;
  aa_launch_id : option string;
  aa_created_at : Time;
  aa_session_row_id : option Uuid;
  aa_session_id : option string;
}.

(** ** Decoding *)

Definition normalized_session_type (session_type : string) : string :=
  let session_type := trim session_type in
  if str_is_empty session_type then "chat" else session_type.

(** [serde_json] of a [Vec<String>]. *)
Definition strings_to_json (l : list string) : Json := JArray (map JString l).
Definition strings_of_json (v : Json) : option (list string) :=
  match v with
  | JArray items => mapM (λ v, match v with JString s => Some s | _ => None end) items
  | _ => None
  end.
Definition strings_from_str (s : string) : M (list string) :=
  let! v := json_from_str s in
  match strings_of_json v with Some l => ret l | None => throw JsonFault end.

(** [Option::map] of a fallible step, then [transpose]. *)
Definition map_option {A B} (f : A → M B) (o : option A) : M (option B) :=
  match o with None => ret None | Some a => let! b := f a in ret (Some b) end.

(** [iter.map(f).collect()] of a fallible step. *)
Fixpoint map_list {A B} (f : A → M B) (l : list A) : M (list B) :=
  match l with
  | [] => ret []
  | x :: l' => let! y := f x in let! ys := map_list f l' in ret (y :: ys)
  end.

Definition agent_session_from_row (r : SessionRow) : M AgentSession :=
  let! files := map_option strings_from_str (sn_files_changed r) in
  ret (mkAgentSession (sn_id r) (sn_agent_id r) (sn_session_id r) (sn_launch_id r)
    (sn_channel_id r) (sn_parent_session_id r) (sn_end_reason r) (sn_turn_count r)
    (sn_input_tokens r) (sn_output_tokens r) (sn_cost_usd r) (sn_context_window r)
    (sn_session_type r) (sn_scope r) (sn_parent_chat_session_id r) (sn_task_summary r) files
    ((λ n, negb (n =? 0)) <$> sn_task_success r) (sn_started_at r) (sn_ended_at r)).

(** A turn joined with its source message. *)
Definition agent_turn_select (db : DB) (r : TurnRow) : TurnRow * option MessageRow :=
  (r, match tn_source_message_id r with
      | Some id => find (λ m, mr_id m =? id)%N (messages db)
      | None => None
      end).

Definition message_ref (r : TurnRow) (m : option MessageRow) : option TurnMessageRef :=
  match tn_channel_id r, tn_source_message_id r with
  | Some channel_id, Some message_id =>
      Some (mkTurnMessageRef channel_id message_id (mr_seq <$> m) (mr_created_at <$> m))
  | _, _ => None
  end.

(** [(ended_at - started_at).num_milliseconds().max(0)]. *)
Definition duration_ms (started_at ended_at : Time) : Z :=
  Z.max 0 (Z.quot (ended_at - started_at) 1000000).

Definition agent_turn_from_row (row : TurnRow * option MessageRow) : M AgentTurn :=
  let '(r, m) := row in
  let! entries := json_from_str (tn_entries r) in
  ret (mkAgentTurn (tn_id r) (tn_agent_id r) (tn_session_id r) (tn_launch_id r)
    (tn_turn_number r) (tn_started_at r) (tn_ended_at r) (tn_input_tokens r)
    (tn_output_tokens r) (tn_cost_usd r) (tn_context_window r) entries (tn_session_type r)
    (duration_ms (tn_started_at r) <$> tn_ended_at r) (message_ref r m)).

Definition agent_activity_from_row (r : ActivityRow) : M AgentActivity :=
  let! trajectory := strings_from_str (act_trajectory r) in
  ret (mkAgentActivity (act_id r) (act_agent_id r) (act_activity r) (act_detail r) trajectory
    (act_launch_id r) (act_created_at r) (act_session_row_id r) (act_session_id r)).

(** ** Statements *)

Definition has_session (db : DB) (id : Uuid) : bool :=
  exists_row (λ r, sn_id r =? id)%N (db_sessions db).

Definition insert_session (r : SessionRow) (db : DB) : result (DB * SessionRow) SqlError :=
  try! _ <- guard (negb (has_session db (sn_id r))) UniqueViolation;
  let db' := with_sessions (λ l, l ++ [r])%list db in
  try! _ <- guard (has_agent db (sn_agent_id r) && null_or (has_channel db) (sn_channel_id r) &&
                   null_or (has_session db') (sn_parent_session_id r)) ForeignKeyViolation;
  Ok (db', r).

(** [ORDER BY started_at DESC]. *)
Definition newest_session : SessionRow → SessionRow → comparison :=
  on_cmp sn_started_at (λ a b, Z.compare b a).

(** [WHERE agent_id = ? AND launch_id = ?]. *)
Definition session_of_launch (agent_id : Uuid) (launch_id : string) (r : SessionRow) : bool :=
  (sn_agent_id r =? agent_id)%N && bool_decide (sn_launch_id r = Some launch_id).
Definition turn_of_launch (agent_id : Uuid) (launch_id : string) (r : TurnRow) : bool :=
  (tn_agent_id r =? agent_id)%N && bool_decide (tn_launch_id r = Some launch_id).
Definition is_open (r : SessionRow) : bool := bool_decide (sn_ended_at r = None).

(** [UPDATE agent_sessions SET f WHERE id = (SELECT id ... WHERE p ORDER BY started_at DESC
    LIMIT 1)]. *)
Definition update_newest_session (p : SessionRow → bool) (f : DB → SessionRow → SessionRow) (db : DB)
    : result (DB * Z) SqlError :=
  match sort_by newest_session (bfilter p (db_sessions db)) with
  | [] => Ok (db, 0)
  | s :: _ => sql_update db_sessions with_sessions (λ _ r, sn_id r =? sn_id s)%N (f db) db
  end.

Definition finished (fin : AgentSessionFinish) (files_changed : option string) (r : SessionRow)
    : SessionRow :=
  mkSessionRow (sn_id r) (sn_agent_id r) (sn_session_id r) (sn_launch_id r) (sn_channel_id r)
    (sn_parent_session_id r) (Some (fin_end_reason fin)) (fin_turn_count fin)
    (fin_input_tokens fin) (fin_output_tokens fin) (fin_cost_usd fin) (fin_context_window fin)
    (sn_session_type r) (sn_scope r) (sn_parent_chat_session_id r) (fin_task_summary fin)
    files_changed ((λ b : bool, if b then 1 else 0) <$> fin_task_success fin) (sn_started_at r)
    (Some (fin_ended_at fin)).

Definition closed (reason : string) (ended_at : Time) (r : SessionRow) : SessionRow :=
  mkSessionRow (sn_id r) (sn_agent_id r) (sn_session_id r) (sn_launch_id r) (sn_channel_id r)
    (sn_parent_session_id r) (Some reason) (sn_turn_count r) (sn_input_tokens r)
    (sn_output_tokens r) (sn_cost_usd r) (sn_context_window r) (sn_session_type r) (sn_scope r)
    (sn_parent_chat_session_id r) (sn_task_summary r) (sn_files_changed r) (sn_task_success r)
    (sn_started_at r) (Some ended_at).

Definition sum_of {A} (key : A → Z) (l : list A) : Z := fold_right (λ x n, key x + n) 0 l.

(** The aggregates of a launch's turns. *)
Definition aggregated (sum : list F64 → F64) (agent_id : Uuid) (launch_id : string) (db : DB)
    (r : SessionRow) : SessionRow :=
  let turns := bfilter (turn_of_launch agent_id launch_id) (db_turns db) in
  mkSessionRow (sn_id r) (sn_agent_id r) (sn_session_id r) (sn_launch_id r) (sn_channel_id r)
    (sn_parent_session_id r) (sn_end_reason r) (Z.of_nat (length turns))
    (sum_of tn_input_tokens turns) (sum_of tn_output_tokens turns) (sum (map tn_cost_usd turns))
    (max_key tn_context_window turns) (sn_session_type r) (sn_scope r)
    (sn_parent_chat_session_id r) (sn_task_summary r) (sn_files_changed r) (sn_task_success r)
    (sn_started_at r) (sn_ended_at r).

Definition same_generation (agent_id : Uuid) (launch_id : option string) (turn_number : Z)
    (r : TurnRow) : bool :=
  (tn_agent_id r =? agent_id)%N && bool_decide (tn_launch_id r = launch_id) &&
  (tn_turn_number r =? turn_number).

(** [DO UPDATE SET] everything but the key and the identifier. *)
Definition replaced_turn (new old : TurnRow) : TurnRow :=
  mkTurnRow (tn_id old) (tn_agent_id old) (tn_session_id new) (tn_launch_id old)
    (tn_turn_number old) (tn_started_at new) (tn_ended_at new) (tn_input_tokens new)
    (tn_output_tokens new) (tn_cost_usd new) (tn_context_window new) (tn_entries new)
    (tn_session_type new) (tn_channel_id new) (tn_source_message_id new).

(** [INSERT INTO agent_turns ... ON CONFLICT(agent_id, launch_id, turn_number) DO UPDATE]; a
    [NULL] launch conflicts with nothing. *)
Definition upsert_turn (r : TurnRow) (db : DB) : result (DB * unit) SqlError :=
  let conflict old :=
    match tn_launch_id r with
    | Some _ => same_generation (tn_agent_id r) (tn_launch_id r) (tn_turn_number r) old
    | None => false
    end in
  try! _ <- guard (negb (exists_row (λ old, tn_id old =? tn_id r)%N (db_turns db))) UniqueViolation;
  try! _ <- guard (null_or (has_channel db) (tn_channel_id r) &&
                   null_or (has_message db) (tn_source_message_id r)) ForeignKeyViolation;
  if exists_row conflict (db_turns db) then
    Ok (with_turns (update_where conflict (replaced_turn r)) db, tt)
  else
    try! _ <- guard (has_agent db (tn_agent_id r)) ForeignKeyViolation;
    Ok (with_turns (λ l, l ++ [r])%list db, tt).

Definition insert_activity (r : ActivityRow) (db : DB) : result (DB * unit) SqlError :=
  try! _ <- guard (negb (exists_row (λ old, act_id old =? act_id r)%N (db_activity db)))
                  UniqueViolation;
  try! _ <- guard (has_agent db (act_agent_id r) && null_or (has_session db) (act_session_row_id r))
                  ForeignKeyViolation;
  Ok (with_activity (λ l, l ++ [r])%list db, tt).

(** [INSERT INTO agent_bridge_tokens ... ON CONFLICT(agent_id) DO NOTHING]; the token is
    unique too. *)
Definition insert_token_or_nothing (r : TokenRow) (db : DB) : result (DB * unit) SqlError :=
  if exists_row (λ old, bt_agent_id old =? bt_agent_id r)%N (db_tokens db) then Ok (db, tt)
  else
    try! _ <- guard (negb (exists_row (λ old, str_eqb (bt_token old) (bt_token r)) (db_tokens db)))
                    UniqueViolation;
    try! _ <- guard (has_agent db (bt_agent_id r)) ForeignKeyViolation;
    Ok (with_tokens (λ l, l ++ [r])%list db, tt).

Definition is_operation (caller : Uuid) (action key : string) (r : AgentOperation) : bool :=
  (aop_caller_agent_id r =? caller)%N && str_eqb (aop_action r) action &&
  bool_decide (aop_idempotency_key r = Some key).

Definition result_type_ok (t : string) : bool :=
  str_eqb t "agent" || str_eqb t "channel" || str_eqb t "membership".

Definition insert_operation (r : AgentOperation) (db : DB) : result (DB * unit) SqlError :=
  try! _ <- guard (result_type_ok (aop_result_type r)) CheckViolation;
  try! _ <- guard (negb (exists_row (λ old, (aop_id old =? aop_id r)%N ||
                     match aop_idempotency_key r with
                     | Some key => is_operation (aop_caller_agent_id r) (aop_action r) key old
                     | None => false
                     end) (db_operations db))) UniqueViolation;
  try! _ <- guard (has_agent db (aop_caller_agent_id r) &&
                   null_or (has_channel db) (aop_source_channel_id r)) ForeignKeyViolation;
  Ok (with_operations (λ l, l ++ [r])%list db, tt).

(** ** Operations *)

Definition get_agent_operation (caller_agent_id : Uuid) (action idempotency_key : string)
    : M (option AgentOperation) :=
  fetch_optional (λ db, bfilter (is_operation caller_agent_id action idempotency_key)
                          (db_operations db)).

Definition record_agent_operation (caller_agent_id : Uuid) (action : string)
    (idempotency_key : option string) (request_fingerprint result_type result_id : string)
    (source_channel_id : option Uuid) (source_session_id : option string) : M AgentOperation :=
  let! id := new_v4 in
  let! created_at := utc_now in
  let operation := mkAgentOperation id caller_agent_id action idempotency_key
    request_fingerprint result_type result_id source_channel_id source_session_id created_at in
  execute (insert_operation operation) ;;
  ret operation.

(** [ORDER BY created_at DESC, id DESC]. *)
Definition newest_operation (a b : AgentOperation) : comparison :=
  then_cmp (Z.compare (aop_created_at b) (aop_created_at a)) (N.compare (aop_id b) (aop_id a)).

Definition list_agent_operations (caller_agent_id : Uuid) (limit : Z) : M (list AgentOperation) :=
  fetch (λ db, take (Z.to_nat (clamp 1 500 limit)) (sort_by newest_operation
    (bfilter (λ r, aop_caller_agent_id r =? caller_agent_id)%N (db_operations db)))).

(** [fetch_one]. *)
Definition fetch_one {A} (q : DB → list A) : M A :=
  execute (λ db, match q db with x :: _ => Ok (db, x) | [] => Err RowNotFound end).

Definition ensure_agent_bridge_token (agent_id : Uuid) : M string :=
  let! now := utc_now in
  let! a := new_v4 in
  let! b := new_v4 in
  let! sa := uuid_simple a in
  let! sb := uuid_simple b in
  let candidate := "cocli_bridge_" +:+ sa +:+ sb in
  transaction (
    execute (insert_token_or_nothing (mkTokenRow agent_id candidate now now)) ;;
    fetch_one (λ db, map bt_token (bfilter (λ r, bt_agent_id r =? agent_id)%N (db_tokens db)))).

Definition agent_bridge_token (agent_id : Uuid) : M (option string) :=
  fetch_optional (λ db, map bt_token (bfilter (λ r, bt_agent_id r =? agent_id)%N (db_tokens db))).

Definition create_agent_session (agent_id : Uuid) (channel_id : option Uuid) (session_id : string)
    (launch_id : option string) (parent_session_id : option Uuid) (session_type : string)
    (started_at : Time) : M AgentSession :=
  let! id := new_v4 in
  let! row := execute (insert_session (mkSessionRow id agent_id session_id launch_id channel_id
    parent_session_id None 0 0 0 0 0 (normalized_session_type session_type) None None None None
    None started_at None)) in
  agent_session_from_row row.

Definition finish_agent_session (agent_id : Uuid) (launch_id : string) (finish : AgentSessionFinish)
    : M bool :=
  let! files_changed := map_option (λ l, json_to_string (strings_to_json l))
                          (fin_files_changed finish) in
  let! rows_affected := execute (update_newest_session
    (λ r, session_of_launch agent_id launch_id r && is_open r)
    (λ _, finished finish files_changed)) in
  ret (rows_affected =? 1).

Definition close_stale_agent_sessions (reason : string) (ended_at : Time) : M Z :=
  execute (sql_update db_sessions with_sessions (λ _, is_open) (closed reason ended_at)).

Definition list_agent_sessions (agent_id : Uuid) (limit : Z) (session_type : option string)
    : M (list AgentSession) :=
  let! rows := fetch (λ db, take (Z.to_nat (clamp 1 100 limit)) (sort_by newest_session
    (bfilter (λ r, (sn_agent_id r =? agent_id)%N &&
       match session_type with
       | Some t => str_is_empty t || str_eqb (sn_session_type r) t
       | None => true
       end) (db_sessions db)))) in
  map_list agent_session_from_row rows.

Definition current_agent_session (agent_id : Uuid) : M (option AgentSession) :=
  let! row := fetch_optional (λ db, sort_by newest_session
    (bfilter (λ r, (sn_agent_id r =? agent_id)%N && is_open r) (db_sessions db))) in
  map_option agent_session_from_row row.

Definition get_agent_turn_by_generation (agent_id : Uuid) (launch_id : option string)
    (turn_number : Z) : M (option AgentTurn) :=
  let! row := fetch_optional (λ db, map (agent_turn_select db)
    (bfilter (same_generation agent_id launch_id turn_number) (db_turns db))) in
  map_option agent_turn_from_row row.

(** The row a turn is stored as. *)
Definition turn_row (id : Uuid) (entries : string) (turn : NewAgentTurn) : TurnRow :=
  mkTurnRow id (nt_agent_id turn) (nt_session_id turn) (nt_launch_id turn) (nt_turn_number turn)
    (nt_started_at turn) (nt_ended_at turn) (nt_input_tokens turn) (nt_output_tokens turn)
    (nt_cost_usd turn) (nt_context_window turn) entries
    (normalized_session_type (nt_session_type turn)) (nt_channel_id turn)
    (nt_source_message_id turn).

(** The transaction of [upsert_agent_turn]. *)
Definition store_turn (id : Uuid) (entries : string) (turn : NewAgentTurn) : M unit :=
  execute (upsert_turn (turn_row id entries turn)) ;;
  match nt_launch_id turn with
  | Some launch_id =>
      let! sum := sum_f64 in
      execute (update_newest_session (session_of_launch (nt_agent_id turn) launch_id)
                 (aggregated sum (nt_agent_id turn) launch_id)) ;;
      ret tt
  | None => ret tt
  end.

Definition upsert_agent_turn (turn : NewAgentTurn) : M AgentTurn :=
  let! id := new_v4 in
  let! entries := json_to_string (nt_entries turn) in
  transaction (store_turn id entries turn) ;;
  let! found := get_agent_turn_by_generation (nt_agent_id turn) (nt_launch_id turn)
                  (nt_turn_number turn) in
  match found with
  | Some t => ret t
  | None =>
      let! agent := uuid_string (nt_agent_id turn) in
      throw (InvalidValue "agent turn" (agent +:+ ":" +:+ pretty (nt_turn_number turn)))
  end.

Definition newest_turn : TurnRow → TurnRow → comparison :=
  on_cmp tn_started_at (λ a b, Z.compare b a).

Definition list_agent_turns (agent_id : Uuid) (session_id : option string) (limit offset : Z)
    : M (list AgentTurn) :=
  let page {A} (l : list A) := take (Z.to_nat (clamp 1 200 limit)) (drop (Z.to_nat (Z.max 0 offset)) l) in
  let mine r := (tn_agent_id r =? agent_id)%N in
  let! rows := fetch (λ db, map (agent_turn_select db)
    (match session_id with
     | Some s =>
         if str_is_empty s then page (sort_by newest_turn (bfilter mine (db_turns db)))
         else page (sort_by (on_cmp tn_turn_number Z.compare)
                (bfilter (λ r, mine r && str_eqb (tn_session_id r) s) (db_turns db)))
     | None => page (sort_by newest_turn (bfilter mine (db_turns db)))
     end)) in
  map_list agent_turn_from_row rows.

Definition get_agent_turn (agent_id turn_id : Uuid) : M (option AgentTurn) :=
  let! row := fetch_optional (λ db, map (agent_turn_select db)
    (bfilter (λ r, (tn_agent_id r =? agent_id)%N && (tn_id r =? turn_id)%N) (db_turns db))) in
  map_option agent_turn_from_row row.

Definition insert_agent_activity (agent_id : Uuid) (session_row_id : option Uuid)
    (session_id : option string) (activity : string) (detail : option string)
    (trajectory : list string) (launch_id : option string) (created_at : Time) : M AgentActivity :=
  let! id := new_v4 in
  let! encoded := json_to_string (strings_to_json trajectory) in
  execute (insert_activity (mkActivityRow id agent_id session_row_id session_id activity detail
    encoded launch_id created_at)) ;;
  ret (mkAgentActivity id agent_id activity detail trajectory launch_id created_at
         session_row_id session_id).

Definition list_agent_activity (agent_id : Uuid) (limit offset : Z) : M (list AgentActivity) :=
  let! rows := fetch (λ db, take (Z.to_nat (clamp 1 100 limit)) (drop (Z.to_nat (Z.max 0 offset))
    (sort_by (on_cmp act_created_at (λ a b, Z.compare b a))
      (bfilter (λ r, act_agent_id r =? agent_id)%N (db_activity db))))) in
  map_list agent_activity_from_row rows.

(** The operations that change the history. *)
Inductive HistoryOp : Type :=
  | RecordOperation (caller_agent_id : Uuid) (action : string) (idempotency_key : option string)
      (request_fingerprint result_type result_id : string) (source_channel_id : option Uuid)
      (source_session_id : option string)
  | EnsureToken (agent_id : Uuid)
  | CreateSession (agent_id : Uuid) (channel_id : option Uuid) (session_id : string)
      (launch_id : option string) (parent_session_id : option Uuid) (session_type : string)
      (started_at : Time)
  | FinishSession (agent_id : Uuid) (launch_id : string) (finish : AgentSessionFinish)
  | CloseStale (reason : string) (ended_at : Time)
  | UpsertTurn (turn : NewAgentTurn)
  | InsertActivity (agent_id : Uuid) (session_row_id : option Uuid) (session_id : option string)
      (activity : string) (detail : option string) (trajectory : list string)
      (launch_id : option string) (created_at : Time).

Definition run_history_op (op : HistoryOp) : M unit :=
  match op with
  | RecordOperation c a k f t i sc ss => record_agent_operation c a k f t i sc ss ;; ret tt
  | EnsureToken a => ensure_agent_bridge_token a ;; ret tt
  | CreateSession a c s l p t st => create_agent_session a c s l p t st ;; ret tt
  | FinishSession a l f => finish_agent_session a l f ;; ret tt
  | CloseStale r t => close_stale_agent_sessions r t ;; ret tt
  | UpsertTurn t => upsert_agent_turn t ;; ret tt
  | InsertActivity a r s x d tr l t => insert_agent_activity a r s x d tr l t ;; ret tt
  end.

(** ** The schema of the history *)

Lemma exists_okey_false {A K} (key : A → option K) (p : A → bool) (l : list A) (k : K) :
  (∀ x, key x = Some k → p x = true) → exists_row p l = false → k ∉ omap key l.
Proof.
  intros Hp He (x & Hx & Hk)%list_elem_of_omap. rewrite exists_row_false in He.
  specialize (He x Hx). by rewrite Hp in He.
Qed.

Lemma NoDup_omap_snoc {A K} (key : A → option K) (l : list A) (x : A) :
  NoDup (omap key l) → (∀ k, key x = Some k → k ∉ omap key l) → NoDup (omap key (l ++ [x])%list).
Proof.
  intros Hl Hx. rewrite omap_app. simpl. destruct (key x) as [k|]; [|by rewrite app_nil_r].
  apply NoDup_app. split_and!; [done| |apply NoDup_singleton].
  intros y Hy ->%list_elem_of_singleton. by apply (Hx k).
Qed.

Lemma omap_update_where {A K} (key : A → option K) p f (l : list A) :
  keeps key f → omap key (update_where p f l) = omap key l.
Proof.
  intros Hf. unfold update_where. apply omap_map_keeps. intros x. by destruct (p x).
Qed.

(** Open the history part of the schema, leaving the goals about the changed table. *)
Ltac history_frame Hok :=
  frame_tac Hok;
  let H := fresh in pose proof (so_history _ Hok) as H; destruct H; split;
  unfold session_ids, db_sessions, db_turns, db_activity, db_tokens, db_operations in *;
  cbn [history_tables with_history_tables with_sessions with_turns with_activity with_tokens
    with_operations agent_sessions agent_turns agent_activity agent_bridge_tokens
    agent_operations agent_ids agents] in *; try assumption.

Lemma null_or_in_true ids p o :
  (∀ id, p id = true ↔ id ∈ ids) → null_or p o = true → null_or_in ids o.
Proof. intros Hp Ho id ->. by apply Hp. Qed.

Lemma has_session_true db id : has_session db id = true ↔ id ∈ map sn_id (db_sessions db).
Proof. apply (exists_row_key sn_id (λ j, (j =? id)%N)). intros j. apply (N.eqb_eq j id). Qed.

Lemma insert_session_ok r :
  sn_parent_chat_session_id r = None → stmt_preserves schema_ok (insert_session r).
Proof.
  intros Hc db db' row Hok H. unfold insert_session in H. inv_stmt. history_frame Hok.
  - apply NoDup_map_snoc; [done|]. intros Hin%has_session_true. congruence.
  - rewrite map_app. apply Forall_app. split.
    + eapply Forall_impl; [exact ho_sessions|]. intros x (? & ? & ?).
      split_and!; [done|eapply null_or_in_mono; [|done]; set_solver..].
    + constructor; [|constructor]. split_and!.
      * by apply has_agent_true.
      * eapply null_or_in_true; [|eassumption]. intros id. rewrite has_session_true.
        unfold db_sessions. simpl. by rewrite map_app.
      * by rewrite Hc.
  - eapply Forall_impl; [exact ho_activity|]. intros x [? ?]. split; [done|].
    eapply null_or_in_mono; [|done]. rewrite map_app. set_solver.
Qed.

(** An update that leaves the keys and references of sessions alone. *)
Definition session_key (r : SessionRow) : Uuid * Uuid * option Uuid * option Uuid :=
  (sn_id r, sn_agent_id r, sn_parent_session_id r, sn_parent_chat_session_id r).

Lemma update_sessions_ok p f :
  keeps session_key f → stmt_preserves schema_ok (sql_update db_sessions with_sessions p f).
Proof.
  intros Hk db db' n Hok [= <- _].
  assert (keeps sn_id f) as Hid by (intros r; specialize (Hk r); unfold session_key in Hk; congruence).
  history_frame Hok; rewrite ?(map_update_where sn_id) by done; try done.
  apply Forall_update_where; [done|]. intros r _ H. specialize (Hk r). unfold session_key in Hk.
  by injection Hk as _ -> -> ->.
Qed.

Lemma update_newest_session_ok p f :
  (∀ db, keeps session_key (f db)) → stmt_preserves schema_ok (update_newest_session p f).
Proof.
  intros Hk db db' n Hok H. unfold update_newest_session in H.
  destruct (sort_by _ _); [by simplify_eq|]. by eapply (update_sessions_ok _ (f db)).
Qed.

Lemma same_generation_true a l n r :
  same_generation a l n r = true ↔ tn_agent_id r = a ∧ tn_launch_id r = l ∧ tn_turn_number r = n.
Proof.
  unfold same_generation. rewrite !andb_true_iff, N.eqb_eq, bool_decide_eq_true, Z.eqb_eq. tauto.
Qed.

Lemma upsert_turn_ok r : stmt_preserves schema_ok (upsert_turn r).
Proof.
  intros db db' [] Hok H. unfold upsert_turn in H. inv_stmt; history_frame Hok.
  - by rewrite (map_update_where tn_id).
  - by rewrite omap_update_where.
  - by apply Forall_update_where.
  - apply NoDup_map_snoc; [done|]. eapply exists_key_false; [|exact Hguard]. intros x Hx. by apply N.eqb_eq.
  - apply NoDup_omap_snoc; [done|]. intros k Hk. unfold turn_key in Hk.
    destruct (tn_launch_id r) as [l|] eqn:El; [|done]. injection Hk as <-.
    eapply exists_okey_false; [|exact Hif]. intros x Hx. unfold turn_key in Hx.
    destruct (tn_launch_id x) as [l'|] eqn:El'; simplify_eq/=. apply same_generation_true. by rewrite El'.
  - apply Forall_app. split; [done|]. constructor; [|constructor]. by apply has_agent_true.
Qed.

Lemma insert_activity_ok r : stmt_preserves schema_ok (insert_activity r).
Proof.
  intros db db' [] Hok H. unfold insert_activity in H. inv_stmt. history_frame Hok.
  - apply NoDup_map_snoc; [done|]. eapply exists_key_false; [|exact Hguard]. intros x Hx. by apply N.eqb_eq.
  - apply Forall_app. split; [done|]. constructor; [|constructor].
    split; [by apply has_agent_true|]. eapply null_or_in_true; [|done]. apply has_session_true.
Qed.

Lemma insert_token_ok r : stmt_preserves schema_ok (insert_token_or_nothing r).
Proof.
  intros db db' [] Hok H. unfold insert_token_or_nothing in H. inv_stmt; [done|]. history_frame Hok.
  - apply NoDup_map_snoc; [done|]. eapply exists_key_false; [|exact Hif]. intros x Hx. by apply N.eqb_eq.
  - apply NoDup_map_snoc; [done|]. eapply exists_key_false; [|exact Hguard]. intros x Hx. by apply str_eqb_eq.
  - apply Forall_app. split; [done|]. constructor; [|constructor]. by apply has_agent_true.
Qed.

Lemma is_operation_true c a k r :
  is_operation c a k r = true ↔ operation_key r = Some (c, a, k).
Proof.
  unfold is_operation, operation_key. rewrite !andb_true_iff, N.eqb_eq, str_eqb_eq, bool_decide_eq_true.
  destruct (aop_idempotency_key r); simpl; naive_solver.
Qed.

Lemma insert_operation_ok r : stmt_preserves schema_ok (insert_operation r).
Proof.
  intros db db' [] Hok H. unfold insert_operation in H. inv_stmt. history_frame Hok.
  - apply NoDup_map_snoc; [done|]. eapply exists_key_false; [|exact Hguard0]. intros x Hx. simpl. rewrite Hx.
    by rewrite N.eqb_refl.
  - apply NoDup_omap_snoc; [done|]. intros k Hk. unfold operation_key in Hk.
    destruct (aop_idempotency_key r) as [key|] eqn:Ek; [|done]. injection Hk as <-.
    eapply exists_okey_false; [|exact Hguard0]. intros x Hx. simpl.
    by rewrite (proj2 (is_operation_true _ _ _ _) Hx), orb_true_r.
  - apply Forall_app. split; [done|]. constructor; [|constructor]. by apply has_agent_true.
Qed.

#[export] Hint Resolve insert_activity_ok insert_token_ok insert_operation_ok upsert_turn_ok : cocli.

(** ** Operations and properties of the database *)

Lemma preserves_map_option {A B} (P : DB → Prop) (f : A → M B) o :
  (∀ a, preserves P (f a)) → preserves P (map_option f o).
Proof. intros Hf. destruct o; simpl; preserves_tac. Qed.
Lemma preserves_strings_from_str P s : preserves P (strings_from_str s).
Proof. unfold strings_from_str. preserves_tac. Qed.
Lemma preserves_session_from_row P r : preserves P (agent_session_from_row r).
Proof.
  unfold agent_session_from_row. apply preserves_bind; [|intros; apply preserves_ret].
  apply preserves_map_option. intros. apply preserves_strings_from_str.
Qed.
Lemma preserves_turn_from_row P r : preserves P (agent_turn_from_row r).
Proof. destruct r. unfold agent_turn_from_row. preserves_tac. Qed.
Lemma preserves_turn_by_generation P a l n : preserves P (get_agent_turn_by_generation a l n).
Proof.
  unfold get_agent_turn_by_generation. apply preserves_bind; [apply preserves_fetch_optional|].
  intros row. apply preserves_map_option. intros. apply preserves_turn_from_row.
Qed.
Lemma preserves_fetch_one {A} P (q : DB → list A) : preserves P (fetch_one q).
Proof. apply preserves_execute. intros db db' a H. destruct (q db); congruence. Qed.
#[export] Hint Resolve preserves_session_from_row preserves_turn_by_generation
  preserves_fetch_one : cocli.

(** What a property has to survive to survive every history operation. *)
Record history_stable (P : DB → Prop) : Prop := {
  hs_session r : sn_parent_chat_session_id r = None → sn_ended_at r = None →
    stmt_preserves P (insert_session r);
  hs_close reason t :
    stmt_preserves P (sql_update db_sessions with_sessions (λ _, is_open) (closed reason t));
  hs_finish a l fin files : stmt_preserves P (update_newest_session
    (λ r, session_of_launch a l r && is_open r) (λ _, finished fin files));
  hs_aggregate sum a l : stmt_preserves P (update_newest_session (session_of_launch a l)
    (aggregated sum a l));
  hs_turn r : stmt_preserves P (upsert_turn r);
  hs_activity r : stmt_preserves P (insert_activity r);
  hs_token r : stmt_preserves P (insert_token_or_nothing r);
  hs_operation r : stmt_preserves P (insert_operation r);
}.

Lemma run_history_op_preserves (P : DB → Prop) op :
  history_stable P → preserves P (run_history_op op).
Proof.
  intros [? ? ? ? ? ? ? ?]. destruct op; simpl; (apply preserves_bind; [|intros; apply preserves_ret]).
  - unfold record_agent_operation. preserves_tac; auto.
  - unfold ensure_agent_bridge_token. preserves_tac; auto.
  - unfold create_agent_session. preserves_tac; auto.
  - unfold finish_agent_session. apply preserves_bind.
    + apply preserves_map_option. intros. apply preserves_json_to_string.
    + intros. preserves_tac; auto.
  - unfold close_stale_agent_sessions. preserves_tac; auto.
  - unfold upsert_agent_turn, store_turn. preserves_tac; auto.
  - unfold insert_agent_activity. preserves_tac; auto.
Qed.

Lemma history_stable_schema : history_stable schema_ok.
Proof.
  split; intros; auto with cocli.
  - by apply insert_session_ok.
  - by apply update_sessions_ok.
  - by apply update_newest_session_ok.
  - by apply update_newest_session_ok.
Qed.

Lemma run_history_op_schema op : preserves schema_ok (run_history_op op).
Proof. apply run_history_op_preserves, history_stable_schema. Qed.

Lemma update_newest_cases p f db db' n :
  update_newest_session p f db = Ok (db', n) →
  db' = db ∨ ∃ s, s ∈ db_sessions db ∧ p s = true ∧
    db' = with_sessions (update_where (λ r, sn_id r =? sn_id s)%N (f db)) db.
Proof.
  unfold update_newest_session. destruct (sort_by _ _) as [|s l] eqn:E; [by intros [= <- _]; left|].
  intros [= <- _]. right. exists s.
  assert (s ∈ sort_by newest_session (bfilter p (db_sessions db))) as Hs by (rewrite E; set_solver).
  apply elem_of_sort_by, elem_of_bfilter in Hs as [? ?]. done.
Qed.

(** A property of the other tables survives every history operation. *)
Lemma history_stable_outside (P : DB → Prop) :
  (∀ f db, P db → P (with_history_tables f db)) → history_stable P.
Proof.
  intros HP. split; intros; intros db db' x Hdb E.
  - unfold insert_session in E. inv_stmt. by apply HP.
  - injection E as <- _. by apply HP.
  - apply update_newest_cases in E as [->|(s & _ & _ & ->)]; [done|by apply HP].
  - apply update_newest_cases in E as [->|(s & _ & _ & ->)]; [done|by apply HP].
  - unfold upsert_turn in E. inv_stmt; by apply HP.
  - unfold insert_activity in E. inv_stmt. by apply HP.
  - unfold insert_token_or_nothing in E. inv_stmt; [done|by apply HP].
  - unfold insert_operation in E. inv_stmt. by apply HP.
Qed.

Lemma run_history_op_outside (P : DB → Prop) op :
  (∀ f db, P db → P (with_history_tables f db)) → preserves P (run_history_op op).
Proof. intros HP. by apply run_history_op_preserves, history_stable_outside. Qed.

(** Any sequence of history operations, succeeding or not. *)
Definition run_history (ops : list (Env * HistoryOp)) (w : World) : World :=
  fold_left (λ w '(e, op), (run_history_op op e w).1) ops w.

Lemma run_history_preserves (P : DB → Prop) ops w :
  history_stable P → P (w_db w) → P (w_db (run_history ops w)).
Proof.
  intros HP. unfold run_history. revert w.
  induction ops as [|[e op] ops IH]; intros w Hw; simpl; [done|].
  apply IH. by apply run_history_op_preserves.
Qed.

(** ** Sessions end once *)

(** The session has ended, at this time and for this reason. *)
Definition ended_for (id : Uuid) (t : Time) (reason : option string) (db : DB) : Prop :=
  (∃ r, r ∈ db_sessions db ∧ sn_id r = id) ∧
  ∀ r, r ∈ db_sessions db → sn_id r = id → sn_ended_at r = Some t ∧ sn_end_reason r = reason.

Lemma ended_for_update id t reason db p f :
  (∀ r, r ∈ db_sessions db → p r = true → sn_id (f r) = sn_id r ∧
        (sn_id r = id → sn_ended_at (f r) = sn_ended_at r ∧ sn_end_reason (f r) = sn_end_reason r)) →
  ended_for id t reason db → ended_for id t reason (with_sessions (update_where p f) db).
Proof.
  intros Hf [(r & Hr & Hid) Hall]. split.
  - exists (if p r then f r else r). split; [apply elem_of_update_where; by exists r|].
    destruct (p r) eqn:E; [|done]. destruct (Hf r Hr E) as [-> _]. done.
  - intros r' (x & Hx & ->)%elem_of_update_where. destruct (p x) eqn:E; [|by apply Hall].
    destruct (Hf x Hx E) as [-> Hk]. intros <-. destruct (Hk eq_refl) as [-> ->]. by apply Hall.
Qed.

Lemma ended_for_stable id t reason : history_stable (ended_for id t reason).
Proof.
  split; intros; intros db db' x Hdb E.
  - unfold insert_session in E. inv_stmt. destruct Hdb as [(r0 & Hr0 & Hid) Hall]. split.
    + exists r0. split; [apply elem_of_app; by left|done].
    + intros y [Hy|Hy]%elem_of_app; [by apply Hall|]. apply list_elem_of_singleton in Hy as ->.
      intros Hy. exfalso. rewrite <- not_true_iff_false in Hguard. apply Hguard, has_session_true.
      apply list_elem_of_fmap. exists r0. split; [congruence|done].
  - injection E as <- _. apply ended_for_update; [|done]. intros y Hy Ho. split; [done|].
    intros Hid. apply bool_decide_eq_true in Ho. destruct Hdb as [_ Hall].
    destruct (Hall y Hy Hid). congruence.
  - apply update_newest_cases in E as [->|(s & Hs & Hp & ->)]; [done|].
    apply ended_for_update; [|done]. intros y Hy Hk%N.eqb_eq. split; [done|]. intros Hid.
    exfalso. bsimp. destruct Hdb as [_ Hall]. destruct (Hall s Hs) as [Hend _]; [congruence|].
    unfold is_open in *. bsimp. congruence.
  - apply update_newest_cases in E as [->|(s & Hs & Hp & ->)]; [done|].
    by apply ended_for_update.
  - unfold upsert_turn in E. by inv_stmt.
  - unfold insert_activity in E. by inv_stmt.
  - unfold insert_token_or_nothing in E. by inv_stmt.
  - unfold insert_operation in E. by inv_stmt.
Qed.

(** A session ends once: whatever runtime events are recorded afterwards, finishing,
    reconciling and late turns included, in any order and with any failures, a session that
    has ended keeps its end time and its reason. *)
Theorem session_end_is_final (ops : list (Env * HistoryOp)) (w : World) (r : SessionRow) (t : Time) :
  schema_ok (w_db w) → r ∈ db_sessions (w_db w) → sn_ended_at r = Some t →
  ∃ r', r' ∈ db_sessions (w_db (run_history ops w)) ∧ sn_id r' = sn_id r ∧
    sn_ended_at r' = Some t ∧ sn_end_reason r' = sn_end_reason r.
Proof.
  intros Hok Hr Ht.
  assert (ended_for (sn_id r) t (sn_end_reason r) (w_db w)) as H.
  { split; [by exists r|]. intros x Hx Hid.
    rewrite (NoDup_key_eq sn_id (db_sessions (w_db w)) x r); try done.
    exact (ho_session_ids _ _ (so_history _ Hok)). }
  apply (run_history_preserves _ ops) in H as [(r' & Hr' & Hid) Hall]; [|apply ended_for_stable].
  exists r'. destruct (Hall r' Hr' Hid). done.
Qed.

(** ** Operations are recorded once *)

Lemma recorded_stable c a k op : history_stable (λ db, bfilter (is_operation c a k) (db_operations db) = [op]).
Proof.
  split; intros; intros db db' x Hdb E.
  - unfold insert_session in E. by inv_stmt.
  - by injection E as <- _.
  - by apply update_newest_cases in E as [->|(s & _ & _ & ->)].
  - by apply update_newest_cases in E as [->|(s & _ & _ & ->)].
  - unfold upsert_turn in E. by inv_stmt.
  - unfold insert_activity in E. by inv_stmt.
  - unfold insert_token_or_nothing in E. by inv_stmt.
  - unfold insert_operation in E. inv_stmt. unfold db_operations in *. simpl.
    rewrite bfilter_app, Hdb. simpl. destruct (is_operation c a k r) eqn:Er; [|done].
    exfalso. rewrite exists_row_false in Hguard0.
    assert (op ∈ bfilter (is_operation c a k) (agent_operations (history_tables db))) as Hin
      by (rewrite Hdb; set_solver).
    apply elem_of_bfilter in Hin as [Hin Hop]. specialize (Hguard0 op Hin).
    apply is_operation_true in Er. unfold operation_key in Er.
    destruct (aop_idempotency_key r); simplify_eq/=. rewrite Hop, orb_true_r in Hguard0. done.
Qed.

(** A retried capability call is recognised: once an operation is recorded under an
    idempotency key, then after any further history the lookup of that key returns exactly
    that operation, and recording under the key again is refused and changes nothing. *)
Theorem recorded_operation_is_unique c a k f rt ri sc ss e w w1 op (ops : list (Env * HistoryOp)) :
  record_agent_operation c a (Some k) f rt ri sc ss e w = (w1, Ok op) →
  ∀ e', fault_free e' →
  (get_agent_operation c a k e' (run_history ops w1)).2 = Ok (Some op) ∧
  ∀ f' rt' ri' sc' ss', result_type_ok rt' = true →
    ∃ w2, record_agent_operation c a (Some k) f' rt' ri' sc' ss' e' (run_history ops w1) =
      (w2, Err (Sqlx UniqueViolation)) ∧ w_db w2 = w_db (run_history ops w1).
Proof.
  intros H e' Hff. unfold record_agent_operation in H. inv_run.
  rename select (insert_operation _ _ = _) into Hi. unfold insert_operation in Hi. inv_stmt.
  rename select (_ = w_db w1) into Hw1. simpl in *.
  match goal with |- context [Ok (Some ?o)] => set (op := o) in * end.
  assert (bfilter (is_operation c a k) (db_operations (w_db w1)) = [op]) as Hrec.
  { rewrite <- Hw1. unfold db_operations. simpl. rewrite bfilter_app. simpl.
    rewrite (proj2 (is_operation_true c a k op)) by done.
    rewrite bfilter_none; [done|]. intros y Hy. rewrite exists_row_false in Hguard0.
    specialize (Hguard0 y Hy). by bsimp. }
  apply (run_history_preserves (λ db, bfilter (is_operation c a k) (db_operations db) = [op]) ops)
    in Hrec; [|apply recorded_stable].
  set (w2 := run_history ops w1) in *. split.
  - unfold get_agent_operation, fetch_optional. rewrite fetch_run by done. simpl. by rewrite Hrec.
  - intros f' rt' ri' sc' ss' Hrt. unfold record_agent_operation, bind, new_v4, utc_now.
    rewrite execute_run by done. unfold insert_operation. simpl. rewrite Hrt. simpl.
    assert (op ∈ bfilter (is_operation c a k) (db_operations (w_db w2))) as Hin
      by (rewrite Hrec; set_solver).
    apply elem_of_bfilter in Hin as [Hin Hop].
    rewrite (proj2 (exists_row_true _ _)); [|exists op; by rewrite Hop, orb_true_r].
    simpl. by eexists.
Qed.

(** ** Turns are stored once per generation *)

Definition put_turn (row : TurnRow) (turns : list TurnRow) : list TurnRow :=
  let conflict := same_generation (tn_agent_id row) (tn_launch_id row) (tn_turn_number row) in
  if exists_row conflict turns then update_where conflict (replaced_turn row) turns
  else (turns ++ [row])%list.

(** The newest session of a launch with the aggregates of the launch's turns. *)
Definition aggregate_launch (sum : list F64 → F64) (a : Uuid) (l : string) (db : DB) : DB :=
  match sort_by newest_session (bfilter (session_of_launch a l) (db_sessions db)) with
  | [] => db
  | s :: _ =>
      with_sessions (update_where (λ r, sn_id r =? sn_id s)%N (aggregated sum a l db)) db
  end.

Definition stored_turn (sum : list F64 → F64) (row : TurnRow) (l : string) (db : DB) : DB :=
  aggregate_launch sum (tn_agent_id row) l (with_turns (put_turn row) db).

Lemma store_turn_ok id entries turn l e w w' :
  nt_launch_id turn = Some l → store_turn id entries turn e w = (w', Ok tt) →
  w_db w' = stored_turn (env_sum_f64 e) (turn_row id entries turn) l (w_db w).
Proof.
  intros Hl H. unfold store_turn in H. rewrite Hl in H.
  apply bind_ok in H as (x & [] & (_ & Hu & _)%execute_ok & H).
  apply bind_ok in H as (w2 & sum & [= <- <-] & H).
  apply bind_ok in H as (w3 & n & (_ & Hs & _)%execute_ok & [= <-]). unfold stored_turn.
  assert (w_db x = with_turns (put_turn (turn_row id entries turn)) (w_db w)) as Hx.
  { unfold upsert_turn in Hu. cbn [tn_launch_id turn_row] in Hu. rewrite Hl in Hu.
    unfold put_turn. cbn [tn_agent_id tn_launch_id tn_turn_number turn_row]. rewrite Hl.
    inv_stmt; rename select (_ = w_db x) into Hx; rewrite <- Hx;
      unfold with_turns, with_history_tables, db_turns in *;
      change (λ old, same_generation ?a ?b ?c old) with (same_generation a b c) in Hif;
      by rewrite Hif. }
  rewrite <- Hx. unfold update_newest_session in Hs. unfold aggregate_launch.
  cbn [tn_agent_id turn_row]. destruct (sort_by _ _); unfold sql_update in Hs; congruence.
Qed.

(** *** Storing again changes nothing *)

Lemma replaced_turn_same row row' old :
  (∀ x, replaced_turn row' x = replaced_turn row x) →
  replaced_turn row' (replaced_turn row old) = replaced_turn row old.
Proof. intros ->. by destruct old. Qed.

Lemma put_turn_again row row' turns :
  tn_agent_id row' = tn_agent_id row → tn_launch_id row' = tn_launch_id row →
  tn_turn_number row' = tn_turn_number row →
  (∀ x, replaced_turn row' x = replaced_turn row x) →
  put_turn row' (put_turn row turns) = put_turn row turns.
Proof.
  intros Ha Hl Hn Hr. unfold put_turn. rewrite Ha, Hl, Hn.
  set (conflict := same_generation _ _ _).
  assert (∀ x, conflict (replaced_turn row x) = conflict x) as Hc by done.
  destruct (exists_row conflict turns) eqn:E.
  - assert (exists_row conflict (update_where conflict (replaced_turn row) turns) = true) as ->.
    { apply exists_row_true in E as (x & Hx & Hp). apply exists_row_true.
      exists (replaced_turn row x). rewrite Hc, Hp. split; [|done].
      apply elem_of_update_where. exists x. by rewrite Hp. }
    unfold update_where. rewrite map_map. apply map_ext. intros x.
    destruct (conflict x) eqn:Ex; rewrite ?Hc, Ex; [by apply replaced_turn_same|done].
  - assert (conflict row = true) as Hrow by by apply same_generation_true.
    rewrite (proj2 (exists_row_true _ _)); [|exists row; split; [apply elem_of_app; right; set_solver|done]].
    unfold update_where. rewrite map_app. simpl. rewrite Hrow. f_equal.
    + transitivity (map (λ x, x) turns); [|by rewrite map_id]. apply map_ext_in.
      intros x Hx%list_elem_of_In. by rewrite (proj1 (exists_row_false _ _) E x Hx).
    + rewrite Hr. by destruct row.
Qed.

Lemma aggregate_again sum a l db :
  aggregate_launch sum a l (aggregate_launch sum a l db) = aggregate_launch sum a l db.
Proof.
  unfold aggregate_launch at 2 3.
  destruct (sort_by _ (bfilter _ (db_sessions db))) as [|s rest] eqn:E.
  { unfold aggregate_launch. by rewrite E. }
  set (g := λ r, if (sn_id r =? sn_id s)%N then aggregated sum a l db r else r).
  change (update_where _ _) with (map g). unfold aggregate_launch, db_sessions at 1. simpl.
  unfold db_sessions in E. rewrite bfilter_map_keeps, (sort_by_map newest_session newest_session), E.
  - simpl. assert (sn_id (g s) = sn_id s) as -> by (unfold g; by destruct (_ =? _)%N).
    unfold with_sessions, with_history_tables. simpl. f_equal. f_equal.
    unfold update_where. rewrite map_map. apply map_ext. intros r. unfold g.
    destruct (sn_id r =? sn_id s)%N eqn:Er; simpl; rewrite ?Er; done.
  - intros x y. unfold g. by destruct (_ =? _)%N, (_ =? _)%N.
  - intros x. unfold g. by destruct (_ =? _)%N.
Qed.

Lemma with_turns_aggregate f sum a l db :
  with_turns f db = db → with_turns f (aggregate_launch sum a l db) = aggregate_launch sum a l db.
Proof.
  unfold aggregate_launch. intros H. destruct (sort_by _ _); [done|].
  assert (f (agent_turns (history_tables db)) = agent_turns (history_tables db)) as Hf.
  { apply (f_equal db_turns) in H. done. }
  unfold with_turns, with_sessions, with_history_tables. simpl. by rewrite Hf.
Qed.

Lemma stored_turn_again sum row row' l db :
  tn_agent_id row' = tn_agent_id row → tn_launch_id row' = tn_launch_id row →
  tn_turn_number row' = tn_turn_number row →
  (∀ x, replaced_turn row' x = replaced_turn row x) →
  stored_turn sum row' l (stored_turn sum row l db) = stored_turn sum row l db.
Proof.
  intros Ha Hl Hn Hr. unfold stored_turn. rewrite Ha.
  rewrite with_turns_aggregate; [apply aggregate_again|].
  unfold with_turns, with_history_tables. simpl. by rewrite put_turn_again.
Qed.

Lemma upsert_turn_run turn l e w w' t :
  nt_launch_id turn = Some l → upsert_agent_turn turn e w = (w', Ok t) →
  w_db w' = stored_turn (env_sum_f64 e)
    (turn_row (env_uuid e (w_ctr w)) (env_to_json e (nt_entries turn)) turn) l (w_db w).
Proof.
  intros Hl H. unfold upsert_agent_turn in H.
  apply bind_ok in H as (w1 & id & [= <- <-] & H).
  apply bind_ok in H as (w2 & entries & [= <- <-] & H).
  apply bind_ok in H as (w3 & [] & (w4 & Hst & Hdb)%transaction_ok & H).
  apply (store_turn_ok _ _ _ l) in Hst; [|done]. simpl in Hst. rewrite <- Hst, <- Hdb.
  apply bind_ok in H as (w5 & found & Hf & H).
  pose proof (preserves_turn_by_generation (λ db, db = w_db w3) (nt_agent_id turn) (nt_launch_id turn)
    (nt_turn_number turn) e w3 eq_refl) as Hro. rewrite Hf in Hro. simpl in Hro.
  destruct found; [by injection H as <- _|]. by apply bind_ok in H as (? & ? & ? & ?).
Qed.

(** Reporting a turn of a launch is idempotent: after a success, reporting the
    same turn again, at any later time, leaves the database exactly as it is: one row per
    generation of the turn, and session totals that count it once. *)
Theorem upsert_agent_turn_idempotent (turn : NewAgentTurn) (l : string) e e' w w1 w2 t t' :
  nt_launch_id turn = Some l →
  env_sum_f64 e' = env_sum_f64 e → env_to_json e' = env_to_json e →
  upsert_agent_turn turn e w = (w1, Ok t) → upsert_agent_turn turn e' w1 = (w2, Ok t') →
  w_db w2 = w_db w1.
Proof.
  intros Hl Hsum Hjson H1%(upsert_turn_run _ l) H2%(upsert_turn_run _ l); [|done..].
  rewrite H2, H1, Hsum, Hjson. by apply stored_turn_again.
Qed.

Lemma aggregate_launch_turns sum a l db : db_turns (aggregate_launch sum a l db) = db_turns db.
Proof. unfold aggregate_launch. by destruct (sort_by _ _). Qed.

(** The newest session of the launch carries the aggregates. *)
Lemma aggregate_launch_head sum a l db s :
  head (sort_by newest_session (bfilter (session_of_launch a l)
          (db_sessions (aggregate_launch sum a l db)))) = Some s →
  ∃ s0, s = aggregated sum a l db s0.
Proof.
  unfold aggregate_launch. destruct (sort_by _ (bfilter _ (db_sessions db))) as [|s0 rest] eqn:E.
  { by rewrite E. }
  set (g := λ r, if (sn_id r =? sn_id s0)%N then aggregated sum a l db r else r).
  change (update_where _ _) with (map g). unfold db_sessions in *. simpl.
  rewrite bfilter_map_keeps, (sort_by_map newest_session newest_session), E.
  - simpl. intros [= <-]. exists s0. unfold g. by rewrite N.eqb_refl.
  - intros x y. unfold g. by destruct (_ =? _)%N, (_ =? _)%N.
  - intros x. unfold g. by destruct (_ =? _)%N.
Qed.

Lemma omap_cons {A B} (f : A → option B) (x : A) (l : list A) :
  omap f (x :: l) = match f x with Some y => y :: omap f l | None => omap f l end.
Proof. done. Qed.

Lemma generation_unique a l n turns r x :
  NoDup (omap turn_key turns) → r ∈ turns → x ∈ turns →
  same_generation a (Some l) n r = true → same_generation a (Some l) n x = true → r = x.
Proof.
  intros Hnd Hr Hx (Ha & Hl & Hn)%same_generation_true (Ha' & Hl' & Hn')%same_generation_true.
  assert (turn_key r = Some (a, l, n)) as Kr by (unfold turn_key; rewrite Hl; simpl; congruence).
  assert (turn_key x = Some (a, l, n)) as Kx by (unfold turn_key; rewrite Hl'; simpl; congruence).
  clear -Hnd Hr Hx Kr Kx. induction turns as [|y turns IH]; [set_solver|].
  assert (∀ z, z ∈ turns → turn_key z = Some (a, l, n) → (a, l, n) ∈ omap turn_key turns) as Hin.
  { intros z Hz Kz. apply list_elem_of_omap. by exists z. }
  assert (NoDup (omap turn_key turns)) as Hnd'.
  { rewrite omap_cons in Hnd. destruct (turn_key y); [by apply NoDup_cons in Hnd as [_ ?]|done]. }
  apply elem_of_cons in Hr as [->|Hr], Hx as [->|Hx]; [done| | |by apply IH].
  - exfalso. rewrite omap_cons, Kr in Hnd. apply NoDup_cons in Hnd as [Hn _]. by apply Hn, (Hin x).
  - exfalso. rewrite omap_cons, Kx in Hnd. apply NoDup_cons in Hnd as [Hn _]. by apply Hn, (Hin r).
Qed.

Lemma put_turn_one row l turns :
  tn_launch_id row = Some l → NoDup turns → NoDup (omap turn_key turns) →
  ∃ r, bfilter (same_generation (tn_agent_id row) (Some l) (tn_turn_number row)) (put_turn row turns) = [r] ∧
    ∀ x, replaced_turn r x = replaced_turn row x.
Proof.
  intros Hl Hnd Hk. unfold put_turn. rewrite Hl. set (p := same_generation _ _ _).
  destruct (exists_row p turns) eqn:E.
  - apply exists_row_true in E as (old & Ho & Hp).
    exists (replaced_turn row old). split; [|done].
    change (update_where p (replaced_turn row) turns) with
      (map (λ x, if p x then replaced_turn row x else x) turns).
    rewrite bfilter_map_keeps by (intros x; by destruct (p x) eqn:Ex; rewrite ?Ex).
    assert (bfilter p turns = [old]) as ->; [|simpl; by rewrite Hp].
    assert (old ∈ bfilter p turns) as Hin by by apply elem_of_bfilter.
    assert (∀ x, x ∈ bfilter p turns → x = old) as Hall.
    { intros x [Hx Hpx]%elem_of_bfilter. by eapply generation_unique. }
    pose proof (bfilter_NoDup p turns Hnd) as Hnb.
    destruct (bfilter p turns) as [|x [|y rest]]; [set_solver|by rewrite (Hall x) by set_solver|].
    exfalso. apply NoDup_cons in Hnb as [Hn _]. apply Hn.
    rewrite (Hall x), (Hall y) by set_solver. set_solver.
  - exists row. split; [|done]. rewrite bfilter_app. simpl.
    assert (p row = true) as -> by by apply same_generation_true.
    rewrite bfilter_none; [done|]. by apply exists_row_false.
Qed.

(** The totals of a session are those of its launch: after a successful report of
    a turn the newest session of the launch shows the number of the launch's turns, their
    tokens and their largest context window, and the turn is stored exactly once. *)
Theorem upsert_agent_turn_aggregates (turn : NewAgentTurn) (l : string) e w w1 t s :
  nt_launch_id turn = Some l → schema_ok (w_db w) →
  upsert_agent_turn turn e w = (w1, Ok t) →
  let a := nt_agent_id turn in
  let turns := bfilter (turn_of_launch a l) (db_turns (w_db w1)) in
  head (sort_by newest_session (bfilter (session_of_launch a l) (db_sessions (w_db w1)))) = Some s →
  sn_turn_count s = Z.of_nat (length turns) ∧
  sn_input_tokens s = sum_of tn_input_tokens turns ∧
  sn_output_tokens s = sum_of tn_output_tokens turns ∧
  sn_context_window s = max_key tn_context_window turns ∧
  ∃ r, bfilter (same_generation a (Some l) (nt_turn_number turn)) (db_turns (w_db w1)) = [r] ∧
    tn_input_tokens r = nt_input_tokens turn ∧ tn_output_tokens r = nt_output_tokens turn.
Proof.
  intros Hl Hok H a turns Hs. apply (upsert_turn_run _ l) in H; [|done].
  set (row := turn_row _ _ turn) in H. unfold stored_turn in H.
  assert (db_turns (w_db w1) = put_turn row (db_turns (w_db w))) as Hturns.
  { by rewrite H, aggregate_launch_turns. }
  assert (turns = bfilter (turn_of_launch a l) (db_turns (with_turns (put_turn row) (w_db w)))) as Ht
    by (unfold turns; by rewrite Hturns).
  rewrite H in Hs. apply aggregate_launch_head in Hs as [s0 ->]. simpl. fold a. rewrite <- Ht.
  split_and!; [done..|]. rewrite Hturns. pose proof (so_history _ Hok) as [].
  destruct (put_turn_one row l (db_turns (w_db w))) as (r & Hr & Hsame); [done| |done|].
  - by eapply NoDup_fmap_1.
  - exists r. specialize (Hsame r).
    split_and!; [exact Hr|exact (f_equal tn_input_tokens Hsame)|exact (f_equal tn_output_tokens Hsame)].
Qed.

(** ** Runs *)

(** A database with one agent. *)
Definition agent_world : World :=
  mkWorld (with_agents (λ _, [mkAgentRow 7 100 "ada" None None "claude" None "running" "active" None None 0])
    (with_channels (λ _, [mkChannel 100 "general" None None "standard" false None None None 0])
      empty_db)) 0.

Lemma agent_world_ok : schema_ok (w_db agent_world).
Proof.
  split; repeat split; try solve [constructor]; simpl;
    try solve [apply NoDup_singleton]; (constructor; [|constructor]); [done|].
  split_and!; [by constructor|by exists Running|by exists Active].
Qed.

Definition demo_turn (launch : option string) (tokens : Z) : NewAgentTurn :=
  mkNewAgentTurn 7 "s1" launch 1 5 (Some 9) tokens 2 0 200 JNull "" (Some 100%N) None.

(** A turn reported without a launch is not replaced but stored again, and the report
    returns the turn that was there before: SQL's [UNIQUE] does not identify [NULL]s. *)
Theorem turn_without_launch_duplicates :
  ∃ w1 t1 w2 t2,
    upsert_agent_turn (demo_turn None 10) (demo_env 300) agent_world = (w1, Ok t1) ∧
    upsert_agent_turn (demo_turn None 20) (demo_env 400) w1 = (w2, Ok t2) ∧
    map tn_turn_number (db_turns (w_db w2)) = [1; 1] ∧
    atn_input_tokens t2 = 10.
Proof. vm_compute. do 4 eexists. split_and!; reflexivity. Qed.

Definition session_world : World :=
  (create_agent_session 7 (Some 100%N) "s1" (Some "l1") None " " 4 (demo_env 200) agent_world).1.

Definition turn_result (r : World * result AgentTurn StoreError) : AgentTurn :=
  match r.2 with
  | Ok t => t
  | Err _ => mkAgentTurn 0 0 "" None 0 0 None 0 0 0 0 JNull "" None None
  end.

Lemma upsert_agent_turn_idempotent_witness :
  let w1 := (upsert_agent_turn (demo_turn (Some "l1") 10) (demo_env 300) session_world).1 in
  let w2 := (upsert_agent_turn (demo_turn (Some "l1") 10) (demo_env 400) w1).1 in
  w_db w2 = w_db w1 ∧ length (db_turns (w_db w2)) = 1%nat.
Proof.
  intros w1 w2. split; [|vm_compute; reflexivity].
  apply (upsert_agent_turn_idempotent (demo_turn (Some "l1") 10) "l1" (demo_env 300) (demo_env 400)
    session_world w1 w2
    (turn_result (upsert_agent_turn (demo_turn (Some "l1") 10) (demo_env 300) session_world))
    (turn_result (upsert_agent_turn (demo_turn (Some "l1") 10) (demo_env 400) w1)));
    vm_compute; reflexivity.
Defined.

Definition no_session : SessionRow :=
  mkSessionRow 0 0 "" None None None None 0 0 0 0 0 "" None None None None None 0 None.

Lemma session_world_ok : schema_ok (w_db session_world).
Proof.
  apply (run_history_op_schema (CreateSession 7 (Some 100%N) "s1" (Some "l1") None " " 4)
           (demo_env 200) agent_world), agent_world_ok.
Qed.

Lemma upsert_agent_turn_aggregates_witness :
  let w1 := (upsert_agent_turn (demo_turn (Some "l1") 10) (demo_env 300) session_world).1 in
  let s := default no_session (head (db_sessions (w_db w1))) in
  sn_turn_count s = 1 ∧ sn_input_tokens s = 10.
Proof.
  intros w1 s.
  destruct (upsert_agent_turn_aggregates (demo_turn (Some "l1") 10) "l1" (demo_env 300) session_world w1
    (turn_result (upsert_agent_turn (demo_turn (Some "l1") 10) (demo_env 300) session_world)) s)
    as (H1 & H2 & _).
  - reflexivity.
  - apply session_world_ok.
  - vm_compute. reflexivity.
  - vm_compute. reflexivity.
  - split; [rewrite H1|rewrite H2]; vm_compute; reflexivity.
Defined.

Definition ended_world : World := (close_stale_agent_sessions "restart" 50 (demo_env 0) session_world).1.

Lemma session_end_is_final_witness :
  ∃ r', r' ∈ db_sessions (w_db (run_history
      [(demo_env 500, CloseStale "again" 99); (demo_env 600, UpsertTurn (demo_turn (Some "l1") 10))]
      ended_world)) ∧ sn_ended_at r' = Some 50 ∧ sn_turn_count r' = 1.
Proof.
  destruct (session_end_is_final [(demo_env 500, CloseStale "again" 99);
      (demo_env 600, UpsertTurn (demo_turn (Some "l1") 10))] ended_world
    (default no_session (head (db_sessions (w_db ended_world)))) 50) as (r' & Hr' & _ & Ht & _).
  - apply (run_history_op_schema (CloseStale "restart" 50) (demo_env 0) session_world), session_world_ok.
  - vm_compute. left.
  - vm_compute. reflexivity.
  - exists r'. split_and!; [exact Hr'|exact Ht|]. revert Hr'. vm_compute.
    intros H. apply list_elem_of_singleton in H as ->. reflexivity.
Defined.

Definition demo_operation (e : Env) (w : World) : World * result AgentOperation StoreError :=
  record_agent_operation 7 "channel.create" (Some "k1") "f" "channel" "c1" None None e w.
Definition recorded_operation : AgentOperation :=
  match (demo_operation (demo_env 300) agent_world).2 with
  | Ok op => op
  | Err _ => mkAgentOperation 0 0 "" None "" "" "" None None 0
  end.

Lemma recorded_operation_is_unique_witness :
  (get_agent_operation 7 "channel.create" "k1" (demo_env 500)
     (run_history [(demo_env 400, EnsureToken 7)] (demo_operation (demo_env 300) agent_world).1)).2 =
  Ok (Some recorded_operation).
Proof.
  apply (recorded_operation_is_unique 7 "channel.create" "k1" "f" "channel" "c1" None None (demo_env 300)
    agent_world (demo_operation (demo_env 300) agent_world).1 recorded_operation
    [(demo_env 400, EnsureToken 7)]); [vm_compute; reflexivity|by intros n].
Defined.

(** ** The capability token *)

(** A token, once issued, is the one every later call returns. *)
Theorem bridge_token_stable a e w w1 token (ops : list (Env * HistoryOp)) :
  ensure_agent_bridge_token a e w = (w1, Ok token) →
  ∀ e', fault_free e' →
    (ensure_agent_bridge_token a e' (run_history ops w1)).2 = Ok token ∧
    (agent_bridge_token a e' (run_history ops w1)).2 = Ok (Some token).
Proof.
  intros H e' Hff.
  set (P := λ db, ∃ r l, bfilter (λ r, bt_agent_id r =? a)%N (db_tokens db) = r :: l ∧ bt_token r = token).
  assert (P (w_db w1)) as H1.
  { unfold ensure_agent_bridge_token in H. do 5 apply bind_ok in H as (? & ? & [= <- <-] & H).
    apply transaction_ok in H as (w2 & H & ->). apply bind_ok in H as (w3 & [] & _ & H).
    unfold fetch_one in H. apply execute_ok in H as (_ & H & _). unfold P.
    destruct (bfilter _ _) as [|r l] eqn:E in H; simplify_eq/=. exists r, l. split; [|done]. congruence. }
  apply (run_history_preserves P ops) in H1 as (r & l & Hf & Ht).
  - split.
    + unfold ensure_agent_bridge_token, bind, utc_now, new_v4, uuid_simple.
      rewrite transaction_run by done. rewrite execute_run by done. unfold insert_token_or_nothing. simpl.
      assert (exists_row (λ old, bt_agent_id old =? a)%N (db_tokens (w_db (run_history ops w1))) = true)
        as ->.
      { apply exists_row_true. exists r. apply (elem_of_bfilter (λ r, bt_agent_id r =? a)%N).
        rewrite Hf. set_solver. }
      unfold fetch_one. rewrite execute_run by done. simpl. rewrite Hf. simpl. by rewrite Ht.
    + unfold agent_bridge_token, fetch_optional. rewrite fetch_run by done. rewrite Hf. simpl. by rewrite Ht.
  - split; intros; intros db db' x Hdb E.
    + unfold insert_session in E. by inv_stmt.
    + by injection E as <- _.
    + by apply update_newest_cases in E as [->|(s & _ & _ & ->)].
    + by apply update_newest_cases in E as [->|(s & _ & _ & ->)].
    + unfold upsert_turn in E. by inv_stmt.
    + unfold insert_activity in E. by inv_stmt.
    + destruct Hdb as (r1 & l1 & Hf1 & Ht1). unfold insert_token_or_nothing in E. inv_stmt.
      * by exists r1, l1.
      * unfold P, db_tokens in *. simpl. rewrite bfilter_app, Hf1. simpl. by eexists r1, _.
    + unfold insert_operation in E. by inv_stmt.
Qed.
