(* ===== verification/StoreSkills.v ===== *)
(** * The skill library

    [crates/cocli-store/src/skills.rs]: imported skills with their files, and the installs of
    skills in agent workspaces. The file models every operation and shows that in every
    database the stored totals agree with the files, that every stored path stays inside the
    directory it is unpacked in, and that what is imported is what is loaded. *)
From S2P Require Import Prelude Text AgentWorkspace StoreTypes StoreDb StoreSchema StoreHistory.

Definition MAX_SKILL_NAME_LEN : Z := 80.
Definition MAX_SKILL_BYTES : Z := 50 * 1024 * 1024.
Definition usize_max : Z := 2 ^ 64 - 1.

(** ** Data *)

Record SkillLibraryFileMeta := mkSkillLibraryFileMeta {
  sfm_rel_path : string;
  sfm_mode : Z;
  sfm_size : Z;
}.

Record SkillLibraryEntry := mkSkillLibraryEntry {
  sle_row : SkillRow;
  sle_in_use_count : Z;
}.

Record NewSkillLibrary := mkNewSkillLibrary {
  ns_name : string;
  ns_display_name : string;
  ns_description : string;
  ns_user_invocable : bool;
  ns_source_kind : string;
  ns_source_url : string;
  ns_source_subpath : option string;
  ns_source_ref : option string;
  ns_files : list SkillLibraryFile;
}.

Record AgentSkillInstall := mkAgentSkillInstall {
  asi_install : InstallRow;
  asi_library_name : string;
  asi_source_url : string;
  asi_source_ref : option string;
}.

(** ** Validation *)

Definition skill_name_byte (c : Ascii.ascii) : bool :=
  is_ascii_lowercase c || is_ascii_digit c || Ascii.eqb c (Ascii.ascii_of_N 95) ||
  Ascii.eqb c (Ascii.ascii_of_N 45).

Definition validate_skill_name (name : string) : result unit StoreError :=
  if str_is_empty name || (MAX_SKILL_NAME_LEN <? Z.of_nat (String.length name)) ||
     negb (all_bytes skill_name_byte name)
  then Err (InvalidSkillName name) else Ok tt.

Definition validate_skill_file_path (path : string) : result unit StoreError :=
  if str_is_empty path || starts_with "/" path || ends_with "/" path ||
     existsb (λ part, str_is_empty part || str_eqb part "." || str_eqb part "..")
       (split_char (Ascii.ascii_of_N 47) path) ||
     has_char (Ascii.ascii_of_N 92) path
  then Err (InvalidSkillFilePath path) else Ok tt.

Definition validate_install_path (path : string) : result unit StoreError :=
  validate_skill_file_path path.

Definition content_len (f : SkillLibraryFile) : Z := Z.of_nat (String.length (slf_content f)).

Fixpoint validate_each (files : list SkillLibraryFile) : result unit StoreError :=
  match files with
  | [] => Ok tt
  | file :: files' =>
      try! _ <- validate_skill_file_path (slf_rel_path file);
      if slf_size file =? content_len file then validate_each files'
      else Err (InvalidSkillFileSize (slf_rel_path file) (slf_size file) (content_len file))
  end.

Definition validate_skill_files (files : list SkillLibraryFile) : result unit StoreError :=
  match files with
  | [] => Err (InvalidSkillFilePath "skill contains no files")
  | _ => validate_each files
  end.

(** [try_fold] with [checked_add] of [usize]. *)
Fixpoint checked_total (total : Z) (files : list SkillLibraryFile) : option Z :=
  match files with
  | [] => Some total
  | file :: files' =>
      let total := total + content_len file in
      if usize_max <? total then None else checked_total total files'
  end.

Definition skill_total_bytes (files : list SkillLibraryFile) : result Z StoreError :=
  match checked_total 0 files with
  | None => Err (SkillLibraryTooLarge usize_max MAX_SKILL_BYTES)
  | Some total =>
      if MAX_SKILL_BYTES <? total then Err (SkillLibraryTooLarge total MAX_SKILL_BYTES)
      else Ok total
  end.

(** ** Statements *)

Definition source_kind_ok (k : string) : bool :=
  str_eqb k "git" || str_eqb k "http" || str_eqb k "local".

Definition has_skill (db : DB) (id : Uuid) : bool :=
  exists_row (λ r, sk_id r =? id)%N (db_skills db).

Definition insert_skill (r : SkillRow) (db : DB) : result (DB * unit) SqlError :=
  try! _ <- guard (source_kind_ok (sk_source_kind r)) CheckViolation;
  try! _ <- guard (negb (exists_row (λ old, (sk_id old =? sk_id r)%N ||
                     str_eqb (sk_name old) (sk_name r)) (db_skills db))) UniqueViolation;
  Ok (with_skills (λ l, l ++ [r])%list db, tt).

Definition is_skill_file (library_id : Uuid) (rel_path : string) (r : SkillFileRow) : bool :=
  (sfr_library_id r =? library_id)%N && str_eqb (slf_rel_path (sfr_file r)) rel_path.

Definition insert_skill_file (r : SkillFileRow) (db : DB) : result (DB * unit) SqlError :=
  try! _ <- guard (negb (exists_row (is_skill_file (sfr_library_id r) (slf_rel_path (sfr_file r)))
                           (db_skill_files db))) UniqueViolation;
  try! _ <- guard (has_skill db (sfr_library_id r)) ForeignKeyViolation;
  Ok (with_skill_files (λ l, l ++ [r])%list db, tt).

Definition insert_install (r : InstallRow) (db : DB) : result (DB * unit) SqlError :=
  try! _ <- guard (negb (exists_row (λ old, (in_id old =? in_id r)%N ||
                     (in_agent_id old =? in_agent_id r)%N && (in_library_id old =? in_library_id r)%N)
                     (db_installs db))) UniqueViolation;
  try! _ <- guard (has_agent db (in_agent_id r) && has_skill db (in_library_id r))
                  ForeignKeyViolation;
  Ok (with_installs (λ l, l ++ [r])%list db, tt).

(** [DELETE FROM skill_library WHERE id = ?]: files and installs cascade. *)
Definition delete_skill (library_id : Uuid) (db : DB) : result (DB * Z) SqlError :=
  Ok (with_skill_tables (λ t, mkSkillTables
        (delete_where (λ r, sk_id r =? library_id)%N (skill_library t))
        (delete_where (λ r, sfr_library_id r =? library_id)%N (skill_library_files t))
        (delete_where (λ r, in_library_id r =? library_id)%N (agent_skill_installs t))) db,
      count_where (λ r, sk_id r =? library_id)%N (db_skills db)).

(** A library row with the number of its installs. *)
Definition skill_library_from_row (db : DB) (r : SkillRow) : SkillLibraryEntry :=
  mkSkillLibraryEntry r (count_where (λ i, in_library_id i =? sk_id r)%N (db_installs db)).

Definition skill_file_from_row (r : SkillFileRow) : SkillLibraryFile := sfr_file r.

(** An install joined with its library; [JOIN] drops it when there is none. *)
Definition agent_skill_install_select (db : DB) (i : InstallRow) : list AgentSkillInstall :=
  map (λ r, mkAgentSkillInstall i (sk_name r) (sk_source_url r) (sk_source_ref r))
    (bfilter (λ r, sk_id r =? in_library_id i)%N (db_skills db)).

(** ** Operations *)

Definition get_skill_library (library_id : Uuid) : M (option SkillLibraryEntry) :=
  fetch_optional (λ db, map (skill_library_from_row db)
    (bfilter (λ r, sk_id r =? library_id)%N (db_skills db))).

Definition get_skill_library_by_name (name : string) : M (option SkillLibraryEntry) :=
  fetch_optional (λ db, map (skill_library_from_row db)
    (bfilter (λ r, str_eqb (sk_name r) name) (db_skills db))).

Definition skill_cmp (a b : SkillRow) : comparison :=
  then_cmp (Z.compare (sk_updated_at b) (sk_updated_at a)) (String.compare (sk_name a) (sk_name b)).

Definition list_skill_library : M (list SkillLibraryEntry) :=
  fetch (λ db, map (skill_library_from_row db) (sort_by skill_cmp (db_skills db))).

Definition file_cmp : SkillFileRow → SkillFileRow → comparison :=
  on_cmp (λ r, slf_rel_path (sfr_file r)) String.compare.

(** The files of a library by path. *)
Definition files_of (library_id : Uuid) (db : DB) : list SkillFileRow :=
  sort_by file_cmp (bfilter (λ r, sfr_library_id r =? library_id)%N (db_skill_files db)).

Definition list_skill_library_files (library_id : Uuid) : M (list SkillLibraryFileMeta) :=
  fetch (λ db, map (λ r, mkSkillLibraryFileMeta (slf_rel_path (sfr_file r)) (slf_mode (sfr_file r))
                           (slf_size (sfr_file r))) (files_of library_id db)).

Definition load_skill_library_files (library_id : Uuid) : M (list SkillLibraryFile) :=
  fetch (λ db, map skill_file_from_row (files_of library_id db)).

Definition get_skill_library_file (library_id : Uuid) (rel_path : string)
    : M (option SkillLibraryFile) :=
  lift (validate_skill_file_path rel_path) ;;
  fetch_optional (λ db, map skill_file_from_row
    (bfilter (is_skill_file library_id rel_path) (db_skill_files db))).

Definition insert_skill_files (library_id : Uuid) (files : list SkillLibraryFile) : M unit :=
  for_each (λ file, execute (insert_skill_file (mkSkillFileRow library_id file))) files.

(** The library row of a draft. *)
Definition draft_row (id : Uuid) (now : Time) (total : Z) (draft : NewSkillLibrary) : SkillRow :=
  mkSkillRow id (ns_name draft) (ns_display_name draft) (ns_description draft)
    (ns_user_invocable draft) (ns_source_kind draft) (ns_source_url draft)
    (ns_source_subpath draft) (ns_source_ref draft) total (Z.of_nat (length (ns_files draft))) now now.

Definition create_skill_library (draft : NewSkillLibrary) : M SkillLibraryEntry :=
  lift (validate_skill_name (ns_name draft)) ;;
  lift (validate_skill_files (ns_files draft)) ;;
  let! exists_ := fetch (λ db, count_where (λ r, str_eqb (sk_name r) (ns_name draft)) (db_skills db)) in
  if negb (exists_ =? 0) then throw (SkillNameConflict (ns_name draft))
  else
    let! id := new_v4 in
    let! now := utc_now in
    let! total := lift (skill_total_bytes (ns_files draft)) in
    transaction (
      execute (insert_skill (draft_row id now total draft)) ;;
      insert_skill_files id (ns_files draft)) ;;
    let! entry := get_skill_library id in
    match entry with Some entry => ret entry | None => throw (SkillLibraryNotFound id) end.

Definition refreshed (source_ref : option string) (total count : Z) (now : Time) (r : SkillRow)
    : SkillRow :=
  mkSkillRow (sk_id r) (sk_name r) (sk_display_name r) (sk_description r) (sk_user_invocable r)
    (sk_source_kind r) (sk_source_url r) (sk_source_subpath r) source_ref total count
    (sk_imported_at r) now.

Definition replace_skill_library_files (library_id : Uuid) (source_ref : option string)
    (files : list SkillLibraryFile) : M SkillLibraryEntry :=
  lift (validate_skill_files files) ;;
  let! total := lift (skill_total_bytes files) in
  let! now := utc_now in
  transaction (
    let! rows_affected := execute (sql_update db_skills with_skills (λ _ r, sk_id r =? library_id)%N
      (refreshed source_ref total (Z.of_nat (length files)) now)) in
    if rows_affected =? 0 then throw (SkillLibraryNotFound library_id)
    else
      execute (sql_delete db_skill_files with_skill_files (λ r, sfr_library_id r =? library_id)%N) ;;
      insert_skill_files library_id files) ;;
  let! entry := get_skill_library library_id in
  match entry with Some entry => ret entry | None => throw (SkillLibraryNotFound library_id) end.

Definition delete_skill_library (library_id : Uuid) : M unit :=
  let! rows_affected := execute (delete_skill library_id) in
  if rows_affected =? 0 then throw (SkillLibraryNotFound library_id) else ret tt.

Definition get_agent_skill_install (install_id : Uuid) : M (option AgentSkillInstall) :=
  fetch_optional (λ db, concat (map (agent_skill_install_select db)
    (bfilter (λ i, in_id i =? install_id)%N (db_installs db)))).

Definition install_cmp (a b : InstallRow) : comparison :=
  then_cmp (Z.compare (in_installed_at a) (in_installed_at b)) (N.compare (in_id a) (in_id b)).

Definition list_agent_skill_installs (agent_id : Uuid) : M (list AgentSkillInstall) :=
  fetch (λ db, concat (map (agent_skill_install_select db)
    (sort_by install_cmp (bfilter (λ i, in_agent_id i =? agent_id)%N (db_installs db))))).

Definition list_skill_library_installs (library_id : Uuid) : M (list AgentSkillInstall) :=
  fetch (λ db, concat (map (agent_skill_install_select db)
    (sort_by install_cmp (bfilter (λ i, in_library_id i =? library_id)%N (db_installs db))))).

Definition create_agent_skill_install (agent_id library_id : Uuid) (install_path : string)
    : M AgentSkillInstall :=
  lift (validate_install_path install_path) ;;
  let! exists_ := fetch (λ db, count_where (λ i, (in_agent_id i =? agent_id)%N &&
                                 (in_library_id i =? library_id)%N) (db_installs db)) in
  if negb (exists_ =? 0) then throw (SkillAlreadyInstalled agent_id library_id)
  else
    let! id := new_v4 in
    let! now := utc_now in
    execute (insert_install (mkInstallRow id agent_id library_id install_path now)) ;;
    let! found := get_agent_skill_install id in
    match found with Some i => ret i | None => throw (SkillInstallNotFound id) end.

Definition delete_agent_skill_install (agent_id install_id : Uuid) : M unit :=
  let! rows_affected := execute (sql_delete db_installs with_installs
    (λ i, (in_id i =? install_id)%N && (in_agent_id i =? agent_id)%N)) in
  if rows_affected =? 0 then throw (SkillInstallNotFound install_id) else ret tt.

(** The operations that change the library. *)
Inductive SkillOp : Type :=
  | CreateSkill (draft : NewSkillLibrary)
  | ReplaceSkillFiles (library_id : Uuid) (source_ref : option string)
      (files : list SkillLibraryFile)
  | DeleteSkill (library_id : Uuid)
  | InstallSkill (agent_id library_id : Uuid) (install_path : string)
  | UninstallSkill (agent_id install_id : Uuid).

Definition run_skill_op (op : SkillOp) : M unit :=
  match op with
  | CreateSkill d => create_skill_library d ;; ret tt
  | ReplaceSkillFiles l r f => replace_skill_library_files l r f ;; ret tt
  | DeleteSkill l => delete_skill_library l
  | InstallSkill a l p => create_agent_skill_install a l p ;; ret tt
  | UninstallSkill a i => delete_agent_skill_install a i
  end.

(** ** The schema *)

Ltac skills_frame Hok :=
  frame_tac Hok;
  let H := fresh in pose proof (so_skills _ Hok) as H; destruct H; split;
  unfold skill_ids, db_skills, db_skill_files, db_installs in *;
  cbn [skill_tables with_skill_tables with_skills with_skill_files with_installs skill_library
    skill_library_files agent_skill_installs] in *; try assumption.

Lemma has_skill_true db id : has_skill db id = true ↔ id ∈ skill_ids (skill_tables db).
Proof. apply (exists_row_key sk_id (λ j, (j =? id)%N)). intros j. apply (N.eqb_eq j id). Qed.

Lemma insert_skill_ok r : stmt_preserves schema_ok (insert_skill r).
Proof.
  intros db db' [] Hok H. unfold insert_skill in H. inv_stmt. skills_frame Hok.
  - apply NoDup_map_snoc; [done|]. eapply exists_key_false; [|exact Hguard0].
    intros x Hx. simpl. by rewrite Hx, N.eqb_refl.
  - apply NoDup_map_snoc; [done|]. eapply exists_key_false; [|exact Hguard0].
    intros x Hx. simpl. by rewrite Hx, str_eqb_refl, orb_true_r.
  - eapply Forall_impl; [exact ko_files|]. rewrite map_app. set_solver.
  - eapply Forall_impl; [exact ko_installs|]. rewrite map_app. set_solver.
Qed.

Lemma insert_skill_file_ok r : stmt_preserves schema_ok (insert_skill_file r).
Proof.
  intros db db' [] Hok H. unfold insert_skill_file in H. inv_stmt. skills_frame Hok.
  - apply NoDup_map_snoc; [done|]. eapply exists_key_false; [|exact Hguard].
    intros x [= H1 H2]. unfold is_skill_file. by rewrite H1, H2, N.eqb_refl, str_eqb_refl.
  - apply Forall_app. split; [done|]. constructor; [|constructor]. by apply has_skill_true.
Qed.

Lemma insert_install_ok r : stmt_preserves schema_ok (insert_install r).
Proof.
  intros db db' [] Hok H. unfold insert_install in H. inv_stmt. skills_frame Hok.
  - apply NoDup_map_snoc; [done|]. eapply exists_key_false; [|exact Hguard].
    intros x Hx. simpl. by rewrite Hx, N.eqb_refl.
  - apply NoDup_map_snoc; [done|]. eapply exists_key_false; [|exact Hguard].
    intros x [= H1 H2]. simpl. by rewrite H1, H2, !N.eqb_refl, orb_true_r.
  - apply Forall_app. split; [done|]. constructor; [|constructor].
    split; [by apply has_agent_true|by apply has_skill_true].
Qed.

Lemma update_skills_ok p f :
  keeps sk_id f → keeps sk_name f → stmt_preserves schema_ok (sql_update db_skills with_skills p f).
Proof.
  intros Hi Hn db db' n Hok [= <- _]. skills_frame Hok;
    rewrite ?(map_update_where sk_id), ?(map_update_where sk_name) by done; done.
Qed.

Lemma delete_skill_files_ok p :
  stmt_preserves schema_ok (sql_delete db_skill_files with_skill_files p).
Proof.
  intros db db' n Hok [= <- _]. skills_frame Hok;
    [by apply NoDup_delete_where|by apply Forall_delete_where].
Qed.

Lemma delete_installs_ok p : stmt_preserves schema_ok (sql_delete db_installs with_installs p).
Proof.
  intros db db' n Hok [= <- _]. skills_frame Hok;
    [by apply NoDup_delete_where..|by apply Forall_delete_where].
Qed.

Lemma delete_skill_ok id : stmt_preserves schema_ok (delete_skill id).
Proof.
  intros db db' n Hok [= <- _]. skills_frame Hok; try by apply NoDup_delete_where.
  - eapply Forall_kept; [exact ko_files|]. intros r _ Hn Hr.
    rewrite <- (map_id (delete_where _ (skill_library _))). apply key_survives; [done|done|].
    by intros x _ ->.
  - eapply Forall_kept; [exact ko_installs|]. intros r _ Hn [? Hr]. split; [done|].
    rewrite <- (map_id (delete_where _ (skill_library _))). apply key_survives; [done|done|].
    by intros x _ ->.
Qed.

#[export] Hint Resolve insert_skill_ok insert_skill_file_ok insert_install_ok delete_skill_files_ok
  delete_installs_ok delete_skill_ok : cocli.

(** What a property has to survive to survive every skill operation. *)
Lemma run_skill_op_preserves (P : DB → Prop) op :
  (∀ r, stmt_preserves P (insert_skill r)) → (∀ r, stmt_preserves P (insert_skill_file r)) →
  (∀ r, stmt_preserves P (insert_install r)) → (∀ id, stmt_preserves P (delete_skill id)) →
  (∀ p a b c d, stmt_preserves P (sql_update db_skills with_skills p (refreshed a b c d))) →
  (∀ p, stmt_preserves P (sql_delete db_skill_files with_skill_files p)) →
  (∀ p, stmt_preserves P (sql_delete db_installs with_installs p)) →
  preserves P (run_skill_op op).
Proof.
  intros ? ? ? ? ? ? ?.
  destruct op; simpl; unfold create_skill_library, replace_skill_library_files,
    delete_skill_library, create_agent_skill_install, delete_agent_skill_install,
    insert_skill_files, get_skill_library, get_agent_skill_install; preserves_tac; auto.
Qed.

Lemma run_skill_op_schema op : preserves schema_ok (run_skill_op op).
Proof. apply run_skill_op_preserves; intros; auto with cocli. by apply update_skills_ok. Qed.

Lemma run_skill_op_outside (P : DB → Prop) op :
  (∀ f db, P db → P (with_skill_tables f db)) → preserves P (run_skill_op op).
Proof.
  intros HP. apply run_skill_op_preserves; intros; intros db db' x Hdb E.
  - unfold insert_skill in E. inv_stmt. by apply HP.
  - unfold insert_skill_file in E. inv_stmt. by apply HP.
  - unfold insert_install in E. inv_stmt. by apply HP.
  - injection E as <- _. by apply HP.
  - injection E as <- _. by apply HP.
  - injection E as <- _. by apply HP.
  - injection E as <- _. by apply HP.
Qed.

(** ** Totals and paths *)

Definition total_len (files : list SkillLibraryFile) : Z := sum_of content_len files.

Lemma checked_total_spec files t : checked_total t files = Some (t + total_len files) ∨
  checked_total t files = None ∧ usize_max < t + total_len files.
Proof.
  revert t. induction files as [|f files IH]; intros t; simpl.
  - left. f_equal. unfold total_len. simpl. lia.
  - unfold total_len in *. simpl. destruct (Z.ltb_spec usize_max (t + content_len f)).
    + right. split; [done|].
      assert (0 ≤ sum_of content_len files); [|lia]. clear. induction files as [|g l IH]; simpl; [lia|].
      assert (0 ≤ content_len g) by (unfold content_len; lia). lia.
    + destruct (IH (t + content_len f)) as [->|[-> ?]]; [left; f_equal; lia|right; split; [done|lia]].
Qed.

(** The check of the total is exact: overflow of the sum is refused like any other excess. *)
Lemma skill_total_bytes_spec files :
  match skill_total_bytes files with
  | Ok total => total = total_len files ∧ total ≤ MAX_SKILL_BYTES
  | Err _ => MAX_SKILL_BYTES < total_len files
  end.
Proof.
  unfold skill_total_bytes. destruct (checked_total_spec files 0) as [->|[-> H]].
  - destruct (Z.ltb_spec MAX_SKILL_BYTES (0 + total_len files)); cbn [is_ok]; lia.
  - unfold MAX_SKILL_BYTES, usize_max in *. lia.
Qed.

Lemma skill_total_ok files total :
  skill_total_bytes files = Ok total → total = total_len files ∧ total ≤ MAX_SKILL_BYTES.
Proof. intros H. pose proof (skill_total_bytes_spec files) as Hs. by rewrite H in Hs. Qed.

Definition file_ok (f : SkillLibraryFile) : Prop :=
  validate_skill_file_path (slf_rel_path f) = Ok tt ∧ slf_size f = content_len f.

Lemma validate_files_ok files : validate_skill_files files = Ok tt → Forall file_ok files.
Proof.
  assert (validate_each files = Ok tt → Forall file_ok files) as H.
  { induction files as [|f files IH]; simpl; [constructor|].
    destruct (validate_skill_file_path _) as [[]|] eqn:E; [|done]. simpl.
    destruct (slf_size f =? content_len f) eqn:Es; [|done]. bsimp. intros H. constructor; auto. by split. }
  destruct files; [done|exact H].
Qed.

Definition library_files (id : Uuid) (t : SkillTables) : list SkillLibraryFile :=
  map sfr_file (bfilter (λ r, sfr_library_id r =? id)%N (skill_library_files t)).

(** Every entry describes its files, and every stored path is one the validation accepts. *)
Record library_ok (t : SkillTables) : Prop := {
  lo_entries r : r ∈ skill_library t →
    sk_file_count r = Z.of_nat (length (library_files (sk_id r) t)) ∧
    sk_total_bytes r = total_len (library_files (sk_id r) t) ∧ sk_total_bytes r ≤ MAX_SKILL_BYTES;
  lo_files r : r ∈ skill_library_files t → file_ok (sfr_file r);
  lo_installs i : i ∈ agent_skill_installs t → validate_install_path (in_install_path i) = Ok tt;
}.

Lemma insert_files_ok id files e w w' :
  insert_skill_files id files e w = (w', Ok tt) →
  w_db w' = with_skill_files (λ l, l ++ map (mkSkillFileRow id) files)%list (w_db w).
Proof.
  unfold insert_skill_files. revert w. induction files as [|f files IH]; intros w; simpl.
  - intros [= <-]. unfold with_skill_files, with_skill_tables. rewrite app_nil_r.
    by destruct (w_db w) as [? ? ? ? ? ? ? ? ? ? ? ? []].
  - intros (w1 & [] & (_ & Hi & _)%execute_ok & ->%IH)%bind_ok.
    unfold insert_skill_file in Hi. inv_stmt. rename select (_ = w_db w1) into H1. rewrite <- H1.
    unfold with_skill_files, with_skill_tables. simpl. by rewrite <- app_assoc.
Qed.

Definition skills_inv (db : DB) : Prop := schema_ok db ∧ library_ok (skill_tables db).

Lemma library_files_app id id' (t : SkillTables) files lib ins :
  library_files id (mkSkillTables lib (skill_library_files t ++ map (mkSkillFileRow id') files)%list ins) =
  if (id' =? id)%N then (library_files id t ++ files)%list else library_files id t.
Proof.
  unfold library_files. simpl. rewrite bfilter_app, map_app.
  assert (map sfr_file (bfilter (λ r, sfr_library_id r =? id)%N (map (mkSkillFileRow id') files)) =
          if (id' =? id)%N then files else []) as ->.
  { induction files as [|f files IH]; simpl; [by destruct (_ =? _)%N|].
    destruct (id' =? id)%N; simpl; by rewrite IH. }
  destruct (id' =? id)%N; by rewrite ?app_nil_r.
Qed.

(** No file refers to a library that is not there. *)
Lemma library_files_absent db id :
  schema_ok db → id ∉ skill_ids (skill_tables db) → library_files id (skill_tables db) = [].
Proof.
  intros Hok Hid. unfold library_files. rewrite bfilter_none; [done|]. intros r Hr.
  destruct (N.eqb_spec (sfr_library_id r) id) as [<-|]; [|done]. destruct Hid.
  pose proof (ko_files _ _ (so_skills _ Hok)) as Hf. rewrite Forall_forall in Hf. by apply Hf.
Qed.

Lemma create_body_inv id now total draft e w w' :
  Forall file_ok (ns_files draft) → skill_total_bytes (ns_files draft) = Ok total →
  skills_inv (w_db w) →
  (execute (insert_skill (draft_row id now total draft)) ;; insert_skill_files id (ns_files draft)) e w =
    (w', Ok tt) → skills_inv (w_db w').
Proof.
  intros Hfiles [-> Hle]%skill_total_ok [Hok Hlib] H. split.
  { assert (preserves schema_ok (execute (insert_skill (draft_row id now (total_len (ns_files draft)) draft)) ;;
      insert_skill_files id (ns_files draft))) as Hp.
    { unfold insert_skill_files. preserves_tac. }
    specialize (Hp e w Hok). by rewrite H in Hp. }
  apply bind_ok in H as (w1 & [] & (_ & Hi & _)%execute_ok & Hf%insert_files_ok).
  unfold insert_skill in Hi. inv_stmt. rename select (_ = w_db w1) into H1. rewrite Hf, <- H1. clear Hf H1.
  assert (id ∉ skill_ids (skill_tables (w_db w))) as Hid.
  { eapply exists_key_false; [|exact Hguard0]. intros x Hx. simpl. by rewrite Hx, N.eqb_refl. }
  assert (∀ r, r ∈ skill_library (skill_tables (w_db w)) → (id =? sk_id r)%N = false) as Hne.
  { intros r Hr. apply N.eqb_neq. intros ->. destruct Hid. by apply list_elem_of_fmap_2. }
  destruct Hlib as [He Hf Hin]. unfold with_skill_files, with_skills, with_skill_tables. simpl. split; simpl.
  - intros r [Hr|Hr]%elem_of_app; rewrite (library_files_app _ _ (skill_tables (w_db w))).
    + rewrite (Hne r Hr). by apply He.
    + apply list_elem_of_singleton in Hr as ->. simpl. rewrite N.eqb_refl.
      by rewrite library_files_absent.
  - intros r [Hr|Hr]%elem_of_app; [by apply Hf|].
    apply list_elem_of_fmap in Hr as (f & -> & Hr). simpl. rewrite Forall_forall in Hfiles. auto.
  - done.
Qed.

Lemma library_files_deleted id p (t : SkillTables) lib ins :
  (∀ r, sfr_library_id r = id → p r = false) →
  library_files id (mkSkillTables lib (delete_where p (skill_library_files t)) ins) = library_files id t.
Proof.
  intros Hp. unfold library_files. simpl. f_equal. unfold delete_where.
  induction (skill_library_files t) as [|r l IH]; simpl; [done|].
  destruct (N.eqb_spec (sfr_library_id r) id) as [E|E].
  - rewrite (Hp r E). simpl. rewrite (proj2 (N.eqb_eq _ _) E). by rewrite IH.
  - destruct (p r); simpl; rewrite ?(proj2 (N.eqb_neq _ _) E); done.
Qed.

Lemma replace_body_inv id source_ref total now files e w w' :
  Forall file_ok files → skill_total_bytes files = Ok total → skills_inv (w_db w) →
  (let! n := execute (sql_update db_skills with_skills (λ _ r, sk_id r =? id)%N
      (refreshed source_ref total (Z.of_nat (length files)) now)) in
   if n =? 0 then throw (SkillLibraryNotFound id)
   else execute (sql_delete db_skill_files with_skill_files (λ r, sfr_library_id r =? id)%N) ;;
        insert_skill_files id files) e w = (w', Ok tt) → skills_inv (w_db w').
Proof.
  intros Hfiles [-> Hle]%skill_total_ok [Hok Hlib] H. split.
  { match type of H with ?m e w = _ => assert (preserves schema_ok m) as Hp end.
    { unfold insert_skill_files. preserves_tac. by apply update_skills_ok. }
    specialize (Hp e w Hok). by rewrite H in Hp. }
  apply bind_ok in H as (w1 & n & (_ & [= H1 _] & _)%execute_ok & H).
  destruct (n =? 0); [done|].
  apply bind_ok in H as (w2 & m & (_ & [= H2 _] & _)%execute_ok & Hf%insert_files_ok).
  rewrite Hf, <- H2, <- H1. clear Hf H1 H2.
  destruct Hlib as [He Hfs Hin]. unfold with_skill_files, with_skills, with_skill_tables. simpl.
  set (kept := delete_where _ _). set (rows := update_where _ _ _).
  split; simpl.
  - intros r Hr. rewrite (library_files_app _ _ (mkSkillTables [] kept [])).
    apply elem_of_update_where in Hr as (old & Hold & ->).
    destruct (N.eqb_spec (sk_id old) id) as [E|E].
    + simpl. rewrite E, N.eqb_refl.
      assert (library_files id (mkSkillTables [] kept []) = []) as ->; [|done].
      unfold library_files. simpl. rewrite bfilter_none; [done|].
      by intros x [_ Hx]%elem_of_delete_where.
    + rewrite (proj2 (N.eqb_neq id (sk_id old))) by congruence.
      unfold kept. rewrite (library_files_deleted _ _ (skill_tables (w_db w))); [by apply He|].
      intros x Hx. apply N.eqb_neq. congruence.
  - intros r [[Hr _]%elem_of_delete_where|Hr]%elem_of_app; [by apply Hfs|].
    apply list_elem_of_fmap in Hr as (f & -> & Hr). simpl. rewrite Forall_forall in Hfiles. auto.
  - done.
Qed.

Lemma skills_inv_statement {A} (s : DB → result (DB * A) SqlError) :
  stmt_preserves schema_ok s →
  (∀ db db' a, library_ok (skill_tables db) → s db = Ok (db', a) → library_ok (skill_tables db')) →
  stmt_preserves skills_inv s.
Proof. intros H1 H2 db db' a [Hok Hlib] E. split; [by eapply H1|by eapply H2]. Qed.

Lemma delete_skill_inv id : stmt_preserves skills_inv (delete_skill id).
Proof.
  apply skills_inv_statement; [apply delete_skill_ok|]. intros db db' n [He Hf Hin] [= <- _].
  split; simpl.
  - intros r [Hr Hn]%elem_of_delete_where.
    rewrite (library_files_deleted _ _ (skill_tables db)); [by apply He|]. by intros x ->.
  - intros r [Hr _]%elem_of_delete_where. by apply Hf.
  - intros i [Hi _]%elem_of_delete_where. by apply Hin.
Qed.

Lemma delete_installs_inv p : stmt_preserves skills_inv (sql_delete db_installs with_installs p).
Proof.
  apply skills_inv_statement; [apply delete_installs_ok|]. intros db db' n [He Hf Hin] [= <- _].
  split; simpl; [done|done|]. intros i [Hi _]%elem_of_delete_where. by apply Hin.
Qed.

Lemma insert_install_inv r :
  validate_install_path (in_install_path r) = Ok tt → stmt_preserves skills_inv (insert_install r).
Proof.
  intros Hp. apply skills_inv_statement; [apply insert_install_ok|].
  intros db db' [] [He Hf Hin] H. unfold insert_install in H. inv_stmt. split; simpl; [done|done|].
  intros i [Hi|Hi]%elem_of_app; [by apply Hin|]. by apply list_elem_of_singleton in Hi as ->.
Qed.

Lemma run_skill_op_inv op : preserves skills_inv (run_skill_op op).
Proof.
  destruct op as [draft|id r files|id|a l p|a i]; simpl.
  - apply preserves_bind; [|intros; apply preserves_ret]. unfold create_skill_library.
    apply preserves_check. intros _ _. apply preserves_check. intros [] Hv%validate_files_ok.
    apply preserves_bind; [apply preserves_fetch|]. intros n. destruct (negb _); [apply preserves_throw|].
    apply preserves_bind; [apply preserves_new_v4|]. intros id.
    apply preserves_bind; [apply preserves_utc_now|]. intros now.
    apply preserves_check. intros total Ht.
    apply preserves_bind; [|intros; unfold get_skill_library; preserves_tac].
    apply preserves_transaction_ok. intros e w w' [] Hw H. by eapply create_body_inv.
  - apply preserves_bind; [|intros; apply preserves_ret]. unfold replace_skill_library_files.
    apply preserves_check. intros [] Hv%validate_files_ok. apply preserves_check. intros total Ht.
    apply preserves_bind; [apply preserves_utc_now|]. intros now.
    apply preserves_bind; [|intros; unfold get_skill_library; preserves_tac].
    apply preserves_transaction_ok. intros e w w' [] Hw H. by eapply replace_body_inv.
  - unfold delete_skill_library. pose proof (delete_skill_inv id). preserves_tac.
  - apply preserves_bind; [|intros; apply preserves_ret]. unfold create_agent_skill_install.
    apply preserves_check. intros [] Hp. apply preserves_bind; [apply preserves_fetch|]. intros n.
    destruct (negb _); [apply preserves_throw|]. unfold get_agent_skill_install.
    preserves_tac. by apply insert_install_inv.
  - unfold delete_agent_skill_install. preserves_tac. apply delete_installs_inv.
Qed.

(** ** Stored paths stay inside *)

Lemma split_slash_char s : split_slash s = split_char (Ascii.ascii_of_N 47) s.
Proof. induction s as [|c s IH]; simpl; [done|]. by rewrite IH. Qed.

(** A path the validation accepts is a sequence of plain names, so that joining it to a
    directory names something inside that directory. *)
Theorem skill_path_contained (root : path) (p : string) :
  validate_skill_file_path p = Ok tt →
  ∃ names, names ≠ [] ∧ components p = map Normal names ∧
    (root ≠ [] → join root (components p) = (root ++ map Normal names)%list).
Proof.
  unfold validate_skill_file_path. intros H. destruct (_ || _) eqn:E; [done|]. bsimp.
  rename select (existsb _ _ = false) into Hparts. rename select (starts_with _ _ = false) into Hs.
  set (segs := split_char (Ascii.ascii_of_N 47) p) in *.
  assert (∀ seg, seg ∈ segs → segment_component seg = [Normal seg] ∧ seg ≠ ".") as Hseg.
  { intros seg Hin. apply (proj1 (exists_row_false _ _)) with (x := seg) in Hparts; [|done]. bsimp.
    unfold segment_component. rename select (str_eqb seg "." = false) into Hdot.
    rename select (str_eqb seg ".." = false) into Hdots. rename select (str_is_empty seg = false) into He.
    rewrite Hdot, Hdots, He. split; [done|]. intros ->. done. }
  exists segs.
  assert (components p = map Normal segs) as Hc.
  { unfold components. rewrite split_slash_char, Hs. fold segs.
    destruct segs as [|seg rest] eqn:Esegs; [done|]. rewrite <- Esegs in *.
    destruct (Hseg seg) as [_ Hd]; [rewrite Esegs; set_solver|].
    unfold str_eqb. rewrite bool_decide_false by done. simpl. clear -Hseg.
    induction segs as [|x l IH]; simpl; [done|].
    destruct (Hseg x) as [-> _]; [set_solver|]. simpl. rewrite IH; [done|]. set_solver. }
  split_and!; [apply split_char_nonempty|done|]. intros Hr. rewrite Hc. unfold join.
  assert (is_absolute_path (map Normal segs) = false) as -> by by destruct segs.
  destruct root as [|c root]; [done|]. f_equal. apply bfilter_all.
  by intros x (seg & -> & _)%list_elem_of_fmap.
Qed.

Lemma skill_path_contained_witness :
  ∃ names, components "scripts/run.sh" = map Normal names ∧ names = ["scripts"; "run.sh"].
Proof.
  destruct (skill_path_contained [RootDir] "scripts/run.sh") as (names & _ & Hc & _);
    [vm_compute; reflexivity|].
  exists names. split; [exact Hc|]. vm_compute in Hc. destruct names as [|a [|b [|c l]]]; simplify_eq/=. done.
Defined.

(** ** Importing *)

Lemma create_skill_run draft e w w' entry :
  create_skill_library draft e w = (w', Ok entry) →
  ∃ id now w1, (id ∉ map sk_id (db_skills (w_db w))) ∧ sk_id (sle_row entry) = id ∧
    skill_total_bytes (ns_files draft) = Ok (total_len (ns_files draft)) ∧
    w_db w1 = with_skills (λ l, l ++ [draft_row id now (total_len (ns_files draft)) draft])%list (w_db w) ∧
    w_db w' = with_skill_files (λ l, l ++ map (mkSkillFileRow id) (ns_files draft))%list (w_db w1).
Proof.
  intros H. unfold create_skill_library in H.
  apply bind_ok in H as (w1 & [] & [-> _]%lift_ok & H).
  apply bind_ok in H as (w2 & [] & [-> Hv]%lift_ok & H).
  apply bind_ok in H as (w3 & n & [Hw3 _]%fetch_ok & H). destruct (negb _); [done|].
  apply bind_ok in H as (w4 & id & [= <- <-] & H).
  apply bind_ok in H as (w5 & now & [= <- <-] & H).
  apply bind_ok in H as (w6 & total & [-> Ht]%lift_ok & H).
  apply bind_ok in H as (w7 & [] & (w8 & Hb & Hw7)%transaction_ok & H).
  apply bind_ok in Hb as (w9 & [] & (_ & Hi & _)%execute_ok & Hf%insert_files_ok).
  apply bind_ok in H as (w10 & found & [Hw10 Hfound]%fetch_optional_ok & H).
  destruct found as [entry'|]; [|done]. injection H as <- <-.
  destruct (skill_total_ok _ _ Ht) as [-> _].
  unfold insert_skill in Hi. inv_stmt. rename select (_ = w_db w9) into H9. simpl in *.
  eexists (env_uuid e (w_ctr w3)), _, w9. rewrite Hw3 in *. split_and!; [| |done|by rewrite <- H9|congruence].
  - eapply exists_key_false; [|exact Hguard0]. intros x Hx. simpl. by rewrite Hx, N.eqb_refl.
  - destruct (bfilter _ _) as [|r l] eqn:E in Hfound; [done|]. injection Hfound as ->. simpl.
    assert (r ∈ r :: l) as Hr by set_solver. rewrite <- E in Hr.
    apply elem_of_bfilter in Hr as [_ Hr%N.eqb_eq]. done.
Qed.

(** What is imported is what is loaded: the files of a skill that was created
    come back in full, by path, whatever order they were given in. *)
Theorem skill_import_roundtrip (draft : NewSkillLibrary) e e' w w' entry :
  schema_ok (w_db w) → fault_free e' →
  create_skill_library draft e w = (w', Ok entry) →
  load_skill_library_files (sk_id (sle_row entry)) e' w' =
    (tick w', Ok (sort_by (on_cmp slf_rel_path String.compare) (ns_files draft))).
Proof.
  intros Hok Hff (id & now & w1 & Hid & -> & _ & Hw1 & Hw')%create_skill_run.
  unfold load_skill_library_files. rewrite fetch_run by done. do 2 f_equal.
  unfold files_of, db_skill_files. rewrite Hw', Hw1. simpl. rewrite bfilter_app, bfilter_none, bfilter_all.
  - simpl. unfold skill_file_from_row, file_cmp.
    rewrite (sort_by_map (on_cmp slf_rel_path String.compare)) by done. rewrite map_map. apply map_id.
  - intros r (f & -> & _)%list_elem_of_fmap. apply N.eqb_refl.
  - intros r Hr. apply N.eqb_neq. intros <-. apply Hid.
    pose proof (ko_files _ _ (so_skills _ Hok)) as Hf. rewrite Forall_forall in Hf. by apply Hf.
Qed.

Definition demo_skill : NewSkillLibrary :=
  mkNewSkillLibrary "review" "Review" "" true "git" "https://example.org/review" None None
    [mkSkillLibraryFile "scripts/run.sh" 493 "echo" 4; mkSkillLibraryFile "SKILL.md" 420 "# Review" 8].

Lemma skill_import_roundtrip_witness :
  ∃ id w', load_skill_library_files id (demo_env 300) w' =
    (tick w', Ok [mkSkillLibraryFile "SKILL.md" 420 "# Review" 8;
                  mkSkillLibraryFile "scripts/run.sh" 493 "echo" 4]).
Proof.
  set (run := create_skill_library demo_skill (demo_env 200) agent_world).
  set (entry := match run.2 with
                | Ok en => en
                | Err _ => mkSkillLibraryEntry (draft_row 0 0 0 demo_skill) 0
                end).
  exists (sk_id (sle_row entry)), run.1.
  rewrite (skill_import_roundtrip demo_skill (demo_env 200) (demo_env 300) agent_world run.1 entry).
  - reflexivity.
  - apply agent_world_ok.
  - by intros n.
  - vm_compute. reflexivity.
Defined.
