(* ===== verification/StoreMcp.v ===== *)
(** * MCP profiles, bindings, plans and decisions

    [crates/cocli-store/src/mcp_governance.rs]: versioned profiles, their bindings to machines,
    workspaces and agents, dry-run plans and the decisions on them. The file models every
    operation. A profile is only changed by a writer that names the version it read, every stored
    profile passed validation, and a decision always carries the hashes of a plan that was stored
    when it was taken. *)
From S2P Require Import Prelude Mcp McpGovernance McpRows StoreTypes StoreDb StoreSchema.

(** ** Tables *)

Definition with_mcp_profiles (f : list McpProfileRow → list McpProfileRow) : DB → DB :=
  with_mcp_tables (λ t, mkMcpTables (f (mcp_profiles t)) (mcp_profile_bindings t) (mcp_plans t)
    (mcp_plan_decisions t) (mcp_apply_runs t) (mcp_bundle_import_audits t)).
Definition with_mcp_bindings (f : list McpBindingRow → list McpBindingRow) : DB → DB :=
  with_mcp_tables (λ t, mkMcpTables (mcp_profiles t) (f (mcp_profile_bindings t)) (mcp_plans t)
    (mcp_plan_decisions t) (mcp_apply_runs t) (mcp_bundle_import_audits t)).
Definition with_mcp_plans (f : list McpPlan → list McpPlan) : DB → DB :=
  with_mcp_tables (λ t, mkMcpTables (mcp_profiles t) (mcp_profile_bindings t) (f (mcp_plans t))
    (mcp_plan_decisions t) (mcp_apply_runs t) (mcp_bundle_import_audits t)).
Definition with_mcp_decisions (f : list McpDecisionRow → list McpDecisionRow) : DB → DB :=
  with_mcp_tables (λ t, mkMcpTables (mcp_profiles t) (mcp_profile_bindings t) (mcp_plans t)
    (f (mcp_plan_decisions t)) (mcp_apply_runs t) (mcp_bundle_import_audits t)).
Definition with_mcp_runs (f : list McpRunRow → list McpRunRow) : DB → DB :=
  with_mcp_tables (λ t, mkMcpTables (mcp_profiles t) (mcp_profile_bindings t) (mcp_plans t)
    (mcp_plan_decisions t) (f (mcp_apply_runs t)) (mcp_bundle_import_audits t)).
Definition with_mcp_imports (f : list McpImportRow → list McpImportRow) : DB → DB :=
  with_mcp_tables (λ t, mkMcpTables (mcp_profiles t) (mcp_profile_bindings t) (mcp_plans t)
    (mcp_plan_decisions t) (mcp_apply_runs t) (f (mcp_bundle_import_audits t))).

Definition db_mcp_profiles (db : DB) : list McpProfileRow := mcp_profiles (mcp_tables db).
Definition db_mcp_bindings (db : DB) : list McpBindingRow := mcp_profile_bindings (mcp_tables db).
Definition db_mcp_plans (db : DB) : list McpPlan := mcp_plans (mcp_tables db).
Definition db_mcp_decisions (db : DB) : list McpDecisionRow := mcp_plan_decisions (mcp_tables db).
Definition db_mcp_runs (db : DB) : list McpRunRow := mcp_apply_runs (mcp_tables db).
Definition db_mcp_imports (db : DB) : list McpImportRow := mcp_bundle_import_audits (mcp_tables db).

(** ** Statements *)

Definition has_mcp_profile (db : DB) (id : Uuid) : bool :=
  exists_row (λ r, mpr_id r =? id)%N (db_mcp_profiles db).
Definition has_mcp_plan (db : DB) (id : string) : bool :=
  exists_row (λ p, str_eqb (pl_id p) id) (db_mcp_plans db).
Definition has_mcp_decision (db : DB) (id : Uuid) : bool :=
  exists_row (λ d, mdr_id d =? id)%N (db_mcp_decisions db).

Definition insert_mcp_profile (r : McpProfileRow) (db : DB) : result (DB * unit) SqlError :=
  try! _ <- guard (negb (has_mcp_profile db (mpr_id r))) UniqueViolation;
  Ok (with_mcp_profiles (λ l, l ++ [r])%list db, tt).

(** The row a compare-and-set on the version addresses. *)
Definition profile_at (profile_id : Uuid) (version : Z) (r : McpProfileRow) : bool :=
  (mpr_id r =? profile_id)%N && (mpr_version r =? version).

(** [DELETE FROM mcp_profiles WHERE id = ? AND version = ?]: bindings cascade. *)
Definition delete_mcp_profile_row (profile_id : Uuid) (version : Z) (db : DB)
    : result (DB * Z) SqlError :=
  let p := profile_at profile_id version in
  let dead id := exists_row (λ r, (mpr_id r =? id)%N && p r) (db_mcp_profiles db) in
  Ok (with_mcp_tables (λ t, mkMcpTables (delete_where p (mcp_profiles t))
        (delete_where (λ b, dead (mbr_profile_id b)) (mcp_profile_bindings t)) (mcp_plans t)
        (mcp_plan_decisions t) (mcp_apply_runs t) (mcp_bundle_import_audits t)) db,
      count_where p (db_mcp_profiles db)).

Definition is_mcp_binding (profile_id : Uuid) (target_type target_id : string) (b : McpBindingRow)
    : bool :=
  (mbr_profile_id b =? profile_id)%N && str_eqb (mbr_target_type b) target_type &&
  str_eqb (mbr_target_id b) target_id.

Definition insert_mcp_binding (r : McpBindingRow) (db : DB) : result (DB * unit) SqlError :=
  try! _ <- guard (is_ok (parse (A := McpBindingTargetType) (mbr_target_type r))) CheckViolation;
  try! _ <- guard (negb (exists_row (λ old, (mbr_id old =? mbr_id r)%N ||
                     is_mcp_binding (mbr_profile_id r) (mbr_target_type r) (mbr_target_id r) old)
                     (db_mcp_bindings db))) UniqueViolation;
  try! _ <- guard (has_mcp_profile db (mbr_profile_id r)) ForeignKeyViolation;
  Ok (with_mcp_bindings (λ l, l ++ [r])%list db, tt).

Definition binding_at (binding_id : Uuid) (version : Z) (b : McpBindingRow) : bool :=
  (mbr_id b =? binding_id)%N && (mbr_version b =? version).

(** [INSERT INTO mcp_plans ... ON CONFLICT(id) DO UPDATE SET] every other column. *)
Definition upsert_mcp_plan (plan : McpPlan) (db : DB) : result (DB * unit) SqlError :=
  if has_mcp_plan db (pl_id plan) then
    Ok (with_mcp_plans (update_where (λ p, str_eqb (pl_id p) (pl_id plan)) (λ _, plan)) db, tt)
  else Ok (with_mcp_plans (λ l, l ++ [plan])%list db, tt).

Definition insert_mcp_decision (r : McpDecisionRow) (db : DB) : result (DB * unit) SqlError :=
  try! _ <- guard (is_ok (parse (A := McpPlanDecisionStatus) (mdr_decision r))) CheckViolation;
  try! _ <- guard (negb (has_mcp_decision db (mdr_id r))) UniqueViolation;
  try! _ <- guard (has_mcp_plan db (mdr_plan_id r)) ForeignKeyViolation;
  Ok (with_mcp_decisions (λ l, l ++ [r])%list db, tt).

(** ** Decoding *)

Definition profile_from_row (show : Uuid → string) (rfc : Time → string) (r : McpProfileRow)
    : McpProfile :=
  mkProfile (show (mpr_id r)) (mpr_name r) (mpr_description r) (mpr_version r) (mpr_servers r)
    (rfc (mpr_created_at r)) (rfc (mpr_updated_at r)).

Definition binding_from_row (show : Uuid → string) (rfc : Time → string) (r : McpBindingRow)
    : result McpProfileBinding StoreError :=
  try! target_type <- parse (mbr_target_type r);
  Ok (mkProfileBinding (show (mbr_id r)) (show (mbr_profile_id r))
        (mkTarget target_type (mbr_target_id r)) (mbr_version r) (rfc (mbr_created_at r))
        (rfc (mbr_updated_at r))).

Definition decision_from_row (r : McpDecisionRow) : result McpPlanDecision StoreError :=
  try! decision <- parse (mdr_decision r);
  Ok (mkPlanDecision (mdr_id r) (mdr_plan_id r) decision (mdr_plan_hash r)
        (mdr_observation_hash r) (mdr_config_hash r) (mdr_actor r) (mdr_reason r)
        (mdr_decided_at r) (mdr_expires_at r)).

(** [map_err(StoreError::InvalidMcpProfile)]. *)
Definition valid_profile (profile : McpProfile) : result unit StoreError :=
  match validate_mcp_profile profile with Ok _ => Ok tt | Err reason => Err (InvalidMcpProfile reason) end.

(** ** Profiles *)

Definition profile_order (a b : McpProfileRow) : comparison :=
  then_cmp (String.compare (mpr_name a) (mpr_name b)) (N.compare (mpr_id a) (mpr_id b)).

Definition list_mcp_profiles : M (list McpProfile) :=
  let! show := uuid_display in
  let! rfc := rfc3339 in
  fetch (λ db, map (profile_from_row show rfc) (sort_by profile_order (db_mcp_profiles db))).

Definition get_mcp_profile (profile_id : Uuid) : M (option McpProfile) :=
  let! show := uuid_display in
  let! rfc := rfc3339 in
  fetch_optional (λ db, map (profile_from_row show rfc)
    (bfilter (λ r, mpr_id r =? profile_id)%N (db_mcp_profiles db))).

Definition create_mcp_profile (input : NewMcpProfile) : M McpProfile :=
  let! id := new_v4 in
  let! now := utc_now in
  let! show := uuid_display in
  let! rfc := rfc3339 in
  let profile := mkProfile (show id) (nmp_name input) (nmp_description input) 1 (nmp_servers input)
                   (rfc now) (rfc now) in
  lift (valid_profile profile) ;;
  execute (insert_mcp_profile (mkProfileRow id (pf_name profile) (pf_description profile)
    (pf_version profile) (pf_servers profile) now now)) ;;
  ret profile.

Definition current_profile_version (profile_id : Uuid) : M (option Z) :=
  fetch_optional (λ db, map mpr_version (bfilter (λ r, mpr_id r =? profile_id)%N (db_mcp_profiles db))).

(** [SET name, description, version, servers_json, updated_at]. *)
Definition set_profile (profile : McpProfile) (now : Time) (r : McpProfileRow) : McpProfileRow :=
  mkProfileRow (mpr_id r) (pf_name profile) (pf_description profile) (pf_version profile)
    (pf_servers profile) (mpr_created_at r) now.

Definition update_mcp_profile (profile_id : Uuid) (input : UpdateMcpProfile) : M McpProfile :=
  let! found := get_mcp_profile profile_id in
  let! current := lift (ok_or found (McpProfileNotFound profile_id)) in
  if negb (pf_version current =? ump_expected_version input) then
    throw (McpProfileVersionConflict profile_id (pf_version current) (ump_expected_version input))
  else
    let! now := utc_now in
    let! show := uuid_display in
    let! rfc := rfc3339 in
    let profile := mkProfile (show profile_id) (ump_name input) (ump_description input)
                     (pf_version current + 1) (ump_servers input) (pf_created_at current) (rfc now) in
    lift (valid_profile profile) ;;
    let! rows_affected := execute (sql_update db_mcp_profiles with_mcp_profiles
      (λ _, profile_at profile_id (ump_expected_version input)) (set_profile profile now)) in
    if rows_affected =? 0 then
      let! current_version := current_profile_version profile_id in
      match current_version with
      | Some v => throw (McpProfileVersionConflict profile_id v (ump_expected_version input))
      | None => throw (McpProfileNotFound profile_id)
      end
    else ret profile.

Definition delete_mcp_profile (profile_id : Uuid) (expected_version : Z) : M bool :=
  let! current_version := current_profile_version profile_id in
  match current_version with
  | None => ret false
  | Some current_version =>
      if negb (current_version =? expected_version) then
        throw (McpProfileVersionConflict profile_id current_version expected_version)
      else
        let! rows_affected := execute (delete_mcp_profile_row profile_id expected_version) in
        ret (0 <? rows_affected)
  end.

(** ** Bindings *)

Definition ensure_mcp_profile_exists (profile_id : Uuid) : M unit :=
  let! exists_ := fetch (λ db, has_mcp_profile db profile_id) in
  if exists_ then ret tt else throw (McpProfileNotFound profile_id).

Definition workspace_target_exists (target_id : string) : M unit :=
  let! parsed := parse_uuid target_id in
  match parsed with
  | None => throw (InvalidMcpBindingTarget "workspace target id must be a UUID")
  | Some workspace_id =>
      let! exists_ := fetch (λ db, has_workspace db workspace_id) in
      if exists_ then ret tt else throw (WorkspaceNotFound workspace_id)
  end.

Definition agent_target_exists (target_id : string) : M unit :=
  let! parsed := parse_uuid target_id in
  match parsed with
  | None => throw (InvalidMcpBindingTarget "agent target id must be a UUID")
  | Some agent_id =>
      let! exists_ := fetch (λ db, has_agent db agent_id) in
      if exists_ then ret tt else throw (SubjectNotFound "agent" agent_id)
  end.

Definition machine_target_matches (installation_id target_id : string) : M unit :=
  if str_eqb target_id installation_id then ret tt
  else throw (InvalidMcpBindingTarget "machine target must match the current installation id").

Definition validate_mcp_binding_target (installation_id : string)
    (target_type : McpBindingTargetType) (target_id : string) : M unit :=
  if trim_is_empty target_id then throw (InvalidMcpBindingTarget "target id is required")
  else
    match target_type with
    | Machine => machine_target_matches installation_id target_id
    | Workspace => workspace_target_exists target_id
    | AgentTarget => agent_target_exists target_id
    end.

Definition create_mcp_profile_binding (installation_id : string) (input : NewMcpProfileBinding)
    : M McpProfileBinding :=
  ensure_mcp_profile_exists (nmb_profile_id input) ;;
  validate_mcp_binding_target installation_id (nmb_target_type input) (nmb_target_id input) ;;
  let! id := new_v4 in
  let! now := utc_now in
  execute (insert_mcp_binding (mkMcpBindingRow id (nmb_profile_id input)
    (as_str (nmb_target_type input)) (nmb_target_id input) 1 now now)) ;;
  let! show := uuid_display in
  let! rfc := rfc3339 in
  ret (mkProfileBinding (show id) (show (nmb_profile_id input))
         (mkTarget (nmb_target_type input) (nmb_target_id input)) 1 (rfc now) (rfc now)).

Definition binding_row_order (a b : McpBindingRow) : comparison :=
  then_cmp (String.compare (mbr_target_type a) (mbr_target_type b))
    (then_cmp (String.compare (mbr_target_id a) (mbr_target_id b))
      (then_cmp (N.compare (mbr_profile_id a) (mbr_profile_id b)) (N.compare (mbr_id a) (mbr_id b)))).

Definition list_mcp_profile_bindings (profile_id : option Uuid) : M (list McpProfileBinding) :=
  let! rows := match profile_id with
    | Some id => fetch (λ db, sort_by binding_row_order
                          (bfilter (λ b, mbr_profile_id b =? id)%N (db_mcp_bindings db)))
    | None => fetch (λ db, sort_by binding_row_order (db_mcp_bindings db))
    end in
  let! show := uuid_display in
  let! rfc := rfc3339 in
  lift (collect_results (binding_from_row show rfc) rows).

Definition delete_mcp_profile_binding (binding_id : Uuid) (expected_version : Z) : M bool :=
  let! current_version := fetch_optional (λ db, map mbr_version
    (bfilter (λ b, mbr_id b =? binding_id)%N (db_mcp_bindings db))) in
  match current_version with
  | None => ret false
  | Some current_version =>
      if negb (current_version =? expected_version) then
        throw (McpProfileBindingVersionConflict binding_id current_version expected_version)
      else
        let! rows_affected := execute (sql_delete db_mcp_bindings with_mcp_bindings
          (binding_at binding_id expected_version)) in
        ret (0 <? rows_affected)
  end.

(** ** Plans and decisions *)

Definition save_mcp_plan (plan : McpPlan) : M McpPlan :=
  if negb (pl_dry_run plan) || pl_applied plan then
    throw (InvalidMcpPlanDecision "Phase 2A only persists unapplied dry-run plans")
  else
    execute (upsert_mcp_plan plan) ;;
    ret plan.

Definition get_mcp_plan (plan_id : string) : M (option McpPlan) :=
  fetch_optional (λ db, bfilter (λ p, str_eqb (pl_id p) plan_id) (db_mcp_plans db)).

(** The checks of a decision against the stored plan; [now] is read for an approval only. *)
Definition check_decision (plan : McpPlan) (input : NewMcpPlanDecision) : M unit :=
  if negb (str_eqb (pl_plan_hash plan) (npd_plan_hash input)) ||
     negb (str_eqb (pl_observation_hash plan) (npd_observation_hash input)) ||
     negb (str_eqb (pl_config_hash plan) (npd_config_hash input)) then
    throw (InvalidMcpPlanDecision "plan, observation, or config hash does not match persisted plan")
  else if trim_is_empty (npd_actor input) then throw (InvalidMcpPlanDecision "actor is required")
  else
    match npd_decision input with
    | DecisionApproved =>
        match npd_expires_at input with
        | None => throw (InvalidMcpPlanDecision "approval expiration time is required")
        | Some expires_at =>
            let! now := utc_now in
            if expires_at <=? now then
              throw (InvalidMcpPlanDecision "approval expiration time must be in the future")
            else ret tt
        end
    | DecisionRejected =>
        if match npd_reason input with None => true | Some reason => trim_is_empty reason end then
          throw (InvalidMcpPlanDecision "reject reason is required")
        else ret tt
    end.

Definition record_mcp_plan_decision (input : NewMcpPlanDecision) : M McpPlanDecision :=
  let! found := get_mcp_plan (npd_plan_id input) in
  let! plan := lift (ok_or found (McpPlanNotFound (npd_plan_id input))) in
  check_decision plan input ;;
  let! id := new_v4 in
  let! decided_at := utc_now in
  execute (insert_mcp_decision (mkDecisionRow id (npd_plan_id input) (as_str (npd_decision input))
    (npd_plan_hash input) (npd_observation_hash input) (npd_config_hash input) (npd_actor input)
    (npd_reason input) decided_at (npd_expires_at input))) ;;
  ret (mkPlanDecision id (npd_plan_id input) (npd_decision input) (npd_plan_hash input)
         (npd_observation_hash input) (npd_config_hash input) (npd_actor input) (npd_reason input)
         decided_at (npd_expires_at input)).

(** [ORDER BY decided_at DESC, id DESC]. *)
Definition newest_decision (a b : McpDecisionRow) : comparison :=
  then_cmp (Z.compare (mdr_decided_at b) (mdr_decided_at a)) (N.compare (mdr_id b) (mdr_id a)).

Definition get_mcp_plan_decision (plan_id : string) : M (option McpPlanDecision) :=
  let! row := fetch_optional (λ db, sort_by newest_decision
    (bfilter (λ d, str_eqb (mdr_plan_id d) plan_id) (db_mcp_decisions db))) in
  match row with
  | None => ret None
  | Some r => let! d := lift (decision_from_row r) in ret (Some d)
  end.

(** The operations that change these tables. *)
Inductive McpOp : Type :=
  | CreateProfile (input : NewMcpProfile)
  | UpdateProfile (profile_id : Uuid) (input : UpdateMcpProfile)
  | DeleteProfile (profile_id : Uuid) (expected_version : Z)
  | CreateBinding (input : NewMcpProfileBinding)
  | DeleteBinding (binding_id : Uuid) (expected_version : Z)
  | SavePlan (plan : McpPlan)
  | RecordDecision (input : NewMcpPlanDecision).

Definition run_mcp_op (installation_id : string) (op : McpOp) : M unit :=
  match op with
  | CreateProfile i => create_mcp_profile i ;; ret tt
  | UpdateProfile p i => update_mcp_profile p i ;; ret tt
  | DeleteProfile p v => delete_mcp_profile p v ;; ret tt
  | CreateBinding i => create_mcp_profile_binding installation_id i ;; ret tt
  | DeleteBinding b v => delete_mcp_profile_binding b v ;; ret tt
  | SavePlan p => save_mcp_plan p ;; ret tt
  | RecordDecision i => record_mcp_plan_decision i ;; ret tt
  end.

(** ** The schema *)

(** A statement that changes the MCP tables only keeps the schema when it keeps theirs. *)
Lemma with_mcp_ok f db :
  schema_ok db → mcp_ok (f (mcp_tables db)) → schema_ok (with_mcp_tables f db).
Proof. intros Hok Hm. frame_tac Hok. Qed.

Ltac mcp_frame Hok :=
  apply with_mcp_ok; [exact Hok|];
  let H := fresh in pose proof (so_mcp _ Hok) as H; destruct H; split;
  unfold db_mcp_profiles, db_mcp_bindings, db_mcp_plans, db_mcp_decisions, db_mcp_runs,
    db_mcp_imports in *;
  cbn [mcp_tables mcp_profiles mcp_profile_bindings mcp_plans mcp_plan_decisions mcp_apply_runs
    mcp_bundle_import_audits] in *; try assumption.

Lemma has_mcp_profile_true db id :
  has_mcp_profile db id = true ↔ id ∈ map mpr_id (db_mcp_profiles db).
Proof. apply (exists_row_key mpr_id (λ j, (j =? id)%N)). intros j. apply (N.eqb_eq j id). Qed.
Lemma has_mcp_plan_true db id : has_mcp_plan db id = true ↔ id ∈ map pl_id (db_mcp_plans db).
Proof. apply (exists_row_key pl_id (λ j, str_eqb j id)). intros j. apply str_eqb_eq. Qed.
Lemma has_mcp_decision_true db id :
  has_mcp_decision db id = true ↔ id ∈ map mdr_id (db_mcp_decisions db).
Proof. apply (exists_row_key mdr_id (λ j, (j =? id)%N)). intros j. apply (N.eqb_eq j id). Qed.

Lemma insert_mcp_profile_ok r : stmt_preserves schema_ok (insert_mcp_profile r).
Proof.
  intros db db' [] Hok H. unfold insert_mcp_profile in H. inv_stmt. mcp_frame Hok.
  - apply NoDup_map_snoc; [done|]. eapply exists_key_false; [|exact Hguard].
    intros x Hx. simpl. by rewrite Hx, N.eqb_refl.
  - eapply Forall_impl; [exact mo_binding_rows|]. rewrite map_app. set_solver.
Qed.

Lemma update_mcp_profiles_ok p f :
  keeps mpr_id f → stmt_preserves schema_ok (sql_update db_mcp_profiles with_mcp_profiles p f).
Proof.
  intros Hf db db' n Hok [= <- _]. mcp_frame Hok.
  - by rewrite map_update_where.
  - by rewrite map_update_where.
Qed.

Lemma delete_mcp_profile_row_ok id v : stmt_preserves schema_ok (delete_mcp_profile_row id v).
Proof.
  intros db db' n Hok [= <- _]. mcp_frame Hok; auto with cocli.
  eapply Forall_kept; [exact mo_binding_rows|]. intros b _ Hb [Hin Hp]. split; [|done].
  apply list_elem_of_fmap in Hin as (r & Hr & Hin). apply list_elem_of_fmap. exists r.
  split; [done|]. apply elem_of_delete_where. split; [done|].
  rewrite exists_row_false in Hb. specialize (Hb r Hin). by rewrite Hr, N.eqb_refl in Hb.
Qed.

Lemma insert_mcp_binding_ok r : stmt_preserves schema_ok (insert_mcp_binding r).
Proof.
  intros db db' [] Hok H. unfold insert_mcp_binding in H. inv_stmt. mcp_frame Hok.
  - apply NoDup_map_snoc; [done|]. eapply exists_key_false; [|exact Hguard0].
    intros x Hx. simpl. by rewrite Hx, N.eqb_refl.
  - apply NoDup_map_snoc; [done|]. eapply exists_key_false; [|exact Hguard0].
    intros x [= H1 H2 H3]. simpl. unfold is_mcp_binding.
    by rewrite H1, H2, H3, N.eqb_refl, !str_eqb_refl, orb_true_r.
  - apply Forall_app. split; [done|]. constructor; [|constructor].
    split; [by apply has_mcp_profile_true|by apply persisted_parse].
Qed.

Lemma delete_mcp_bindings_ok p :
  stmt_preserves schema_ok (sql_delete db_mcp_bindings with_mcp_bindings p).
Proof.
  intros db db' n Hok [= <- _]. mcp_frame Hok; auto with cocli. by apply Forall_delete_where.
Qed.

(** The identifiers of the plans never disappear. *)
Lemma upsert_plan_ids plan (l : list McpPlan) :
  map pl_id (update_where (λ p, str_eqb (pl_id p) (pl_id plan)) (λ _, plan) l) = map pl_id l.
Proof.
  unfold update_where. rewrite map_map. apply map_ext. intros p.
  destruct (str_eqb _ _) eqn:E; [|done]. by apply str_eqb_eq in E.
Qed.

Lemma upsert_mcp_plan_ok plan : stmt_preserves schema_ok (upsert_mcp_plan plan).
Proof.
  intros db db' [] Hok H. unfold upsert_mcp_plan in H. inv_stmt; mcp_frame Hok.
  - by rewrite upsert_plan_ids.
  - by rewrite upsert_plan_ids.
  - by rewrite upsert_plan_ids.
  - apply NoDup_map_snoc; [done|]. eapply exists_key_false; [|exact Hif].
    intros x Hx. simpl. by rewrite Hx, str_eqb_refl.
  - eapply Forall_impl; [exact mo_decision_rows|]. rewrite map_app. set_solver.
  - eapply Forall_impl; [exact mo_run_rows|]. rewrite map_app. set_solver.
Qed.

Lemma insert_mcp_decision_ok r : stmt_preserves schema_ok (insert_mcp_decision r).
Proof.
  intros db db' [] Hok H. unfold insert_mcp_decision in H. inv_stmt. mcp_frame Hok.
  - apply NoDup_map_snoc; [done|]. eapply exists_key_false; [|exact Hguard0].
    intros x Hx. simpl. by rewrite Hx, N.eqb_refl.
  - apply Forall_app. split; [done|]. constructor; [|constructor].
    split; [by apply has_mcp_plan_true|by apply persisted_parse].
  - eapply Forall_impl; [exact mo_run_rows|]. rewrite map_app. set_solver.
Qed.
#[export] Hint Resolve insert_mcp_profile_ok delete_mcp_profile_row_ok insert_mcp_binding_ok
  delete_mcp_bindings_ok upsert_mcp_plan_ok insert_mcp_decision_ok : cocli.

Ltac unfold_mcp_ops :=
  unfold create_mcp_profile, update_mcp_profile, delete_mcp_profile, create_mcp_profile_binding,
    delete_mcp_profile_binding, save_mcp_plan, record_mcp_plan_decision, check_decision,
    get_mcp_plan, get_mcp_profile, current_profile_version, ensure_mcp_profile_exists,
    validate_mcp_binding_target, machine_target_matches, workspace_target_exists,
    agent_target_exists.

(** An operation keeps what its statements keep. *)
Lemma run_mcp_op_preserves (P : DB → Prop) installation op :
  (∀ r, stmt_preserves P (insert_mcp_profile r)) →
  (∀ p f, keeps mpr_id f → stmt_preserves P (sql_update db_mcp_profiles with_mcp_profiles p f)) →
  (∀ p v, stmt_preserves P (delete_mcp_profile_row p v)) →
  (∀ r, stmt_preserves P (insert_mcp_binding r)) →
  (∀ p, stmt_preserves P (sql_delete db_mcp_bindings with_mcp_bindings p)) →
  (∀ plan, stmt_preserves P (upsert_mcp_plan plan)) →
  (∀ r, stmt_preserves P (insert_mcp_decision r)) →
  preserves P (run_mcp_op installation op).
Proof.
  intros H1 H2 H3 H4 H5 H6 H7. destruct op; simpl; unfold_mcp_ops; preserves_tac; by apply H2.
Qed.

Lemma run_mcp_op_schema installation op : preserves schema_ok (run_mcp_op installation op).
Proof. apply run_mcp_op_preserves; auto with cocli. intros. by apply update_mcp_profiles_ok. Qed.

Lemma run_mcp_op_outside (P : DB → Prop) installation op :
  (∀ f db, P db → P (with_mcp_tables f db)) → preserves P (run_mcp_op installation op).
Proof.
  intros HP. apply run_mcp_op_preserves; intros; intros db db' x Hdb E.
  - unfold insert_mcp_profile in E. inv_stmt. by apply HP.
  - injection E as <- _. by apply HP.
  - injection E as <- _. by apply HP.
  - unfold insert_mcp_binding in E. inv_stmt. by apply HP.
  - injection E as <- _. by apply HP.
  - unfold upsert_mcp_plan in E. inv_stmt; by apply HP.
  - unfold insert_mcp_decision in E. inv_stmt. by apply HP.
Qed.

(** ** What is stored was checked *)

(** A stored profile passes validation, whatever identifier and dates it is shown with. *)
Definition profile_row_valid (r : McpProfileRow) : Prop :=
  validate_mcp_profile (mkProfile "" (mpr_name r) (mpr_description r) 0 (mpr_servers r) "" "") = Ok tt.

(** A stored decision names its author; an approval expires, a rejection gives its reason. *)
Definition decision_row_ok (r : McpDecisionRow) : Prop :=
  trim_is_empty (mdr_actor r) = false ∧
  ((mdr_decision r = as_str DecisionApproved ∧ is_Some (mdr_expires_at r)) ∨
   (mdr_decision r = as_str DecisionRejected ∧
    ∃ reason, mdr_reason r = Some reason ∧ trim_is_empty reason = false)).

Record mcp_data_ok (db : DB) : Prop := {
  md_profiles : Forall profile_row_valid (db_mcp_profiles db);
  md_decisions : Forall decision_row_ok (db_mcp_decisions db);
  md_plans : Forall (λ p, pl_dry_run p = true ∧ pl_applied p = false) (db_mcp_plans db);
}.

Lemma valid_profile_ok profile : valid_profile profile = Ok tt → validate_mcp_profile profile = Ok tt.
Proof. unfold valid_profile. by destruct (validate_mcp_profile profile) as [[]|]. Qed.

Lemma insert_mcp_profile_data r : profile_row_valid r → stmt_preserves mcp_data_ok (insert_mcp_profile r).
Proof.
  intros Hr db db' [] [H1 H2] H. unfold insert_mcp_profile in H. inv_stmt. split; [|done..].
  by apply Forall_snoc.
Qed.

Lemma update_mcp_profiles_data p f :
  (∀ r, profile_row_valid (f r)) →
  stmt_preserves mcp_data_ok (sql_update db_mcp_profiles with_mcp_profiles p f).
Proof.
  intros Hf db db' n [H1 H2] [= <- _]. split; [|done..]. by apply Forall_update_where.
Qed.

Lemma delete_mcp_profile_row_data p v : stmt_preserves mcp_data_ok (delete_mcp_profile_row p v).
Proof. intros db db' n [H1 H2] [= <- _]. split; [|done..]. by apply Forall_delete_where. Qed.

Lemma insert_mcp_decision_data r : decision_row_ok r → stmt_preserves mcp_data_ok (insert_mcp_decision r).
Proof.
  intros Hr db db' [] [H1 H2 H3] H. unfold insert_mcp_decision in H. inv_stmt. split; [done| |done].
  by apply Forall_snoc.
Qed.

Lemma upsert_mcp_plan_data plan :
  pl_dry_run plan = true → pl_applied plan = false → stmt_preserves mcp_data_ok (upsert_mcp_plan plan).
Proof.
  intros Hd Ha db db' [] [H1 H2 H3] H. unfold upsert_mcp_plan in H. inv_stmt; (split; [done..|]).
  - by apply Forall_update_where.
  - by apply Forall_snoc.
Qed.

(** A decision that passes the checks is recorded with what it was checked for. *)
Lemma check_decision_ok plan input e w w' id at_ :
  check_decision plan input e w = (w', Ok tt) →
  decision_row_ok (mkDecisionRow id (npd_plan_id input) (as_str (npd_decision input))
    (npd_plan_hash input) (npd_observation_hash input) (npd_config_hash input) (npd_actor input)
    (npd_reason input) at_ (npd_expires_at input)) ∧
  npd_plan_hash input = pl_plan_hash plan ∧ npd_observation_hash input = pl_observation_hash plan ∧
  npd_config_hash input = pl_config_hash plan ∧
  (npd_decision input = DecisionApproved → ∃ t, npd_expires_at input = Some t ∧ env_now e (w_ctr w) < t).
Proof.
  unfold check_decision. destruct (_ || _) eqn:E; [done|]. bsimp.
  repeat match goal with H : str_eqb _ _ = true |- _ => apply str_eqb_eq in H end.
  destruct (trim_is_empty (npd_actor input)) eqn:Ea; [done|].
  destruct (npd_decision input).
  - destruct (npd_expires_at input) as [t|]; [|done]. intros (w1 & now & [= <- <-] & Hnow)%bind_ok.
    destruct (_ <=? _) eqn:El; [done|]. bsimp. split_and!; [|congruence..|by exists t].
    split; [done|]. left. by split.
  - destruct (npd_reason input) as [reason|]; [|done]. destruct (trim_is_empty reason) eqn:Er; [done|].
    intros _. split_and!; [|congruence..|done]. split; [done|]. right. split; [done|]. by exists reason.
Qed.

Lemma preserves_after {A B} (P : DB → Prop) (m : M A) (k : A → M B) (Q : A → Prop) :
  preserves P m → (∀ e w w' a, m e w = (w', Ok a) → Q a) → (∀ a, Q a → preserves P (k a)) →
  preserves P (bind m k).
Proof.
  intros Hm HQ Hk e w Hw. unfold bind. specialize (Hm e w Hw).
  destruct (m e w) as [w' [a|x]] eqn:E; simpl in *; [|done]. apply Hk; [by eapply HQ|done].
Qed.

Lemma run_mcp_op_data installation op : preserves mcp_data_ok (run_mcp_op installation op).
Proof.
  assert (∀ r, stmt_preserves mcp_data_ok (insert_mcp_binding r)) as Hib.
  { intros r db db' [] [H1 H2] H. unfold insert_mcp_binding in H. inv_stmt. by split. }
  assert (∀ p, stmt_preserves mcp_data_ok (sql_delete db_mcp_bindings with_mcp_bindings p)) as Hdb.
  { intros p db db' n [H1 H2] [= <- _]. by split. }
  destruct op as [i|p i|p v|i|b v|plan|i]; simpl; (apply preserves_bind; [|intros; apply preserves_ret]).
  - unfold create_mcp_profile. apply preserves_bind; [apply preserves_new_v4|]. intros id.
    apply preserves_bind; [apply preserves_utc_now|]. intros now.
    apply preserves_bind; [apply preserves_uuid_display|]. intros show.
    apply preserves_bind; [apply preserves_rfc3339|]. intros rfc.
    apply preserves_check. intros [] Hv%valid_profile_ok.
    preserves_tac. by apply insert_mcp_profile_data.
  - unfold update_mcp_profile, get_mcp_profile. apply preserves_bind; [preserves_tac|]. intros found.
    apply preserves_bind; [preserves_tac|]. intros current. destruct (negb _); [apply preserves_throw|].
    apply preserves_bind; [apply preserves_utc_now|]. intros now.
    apply preserves_bind; [apply preserves_uuid_display|]. intros show.
    apply preserves_bind; [apply preserves_rfc3339|]. intros rfc.
    apply preserves_check. intros [] Hv%valid_profile_ok.
    unfold current_profile_version. preserves_tac. by apply update_mcp_profiles_data.
  - unfold delete_mcp_profile, current_profile_version. pose proof (delete_mcp_profile_row_data p v).
    preserves_tac.
  - unfold_mcp_ops. preserves_tac.
  - unfold_mcp_ops. preserves_tac.
  - unfold save_mcp_plan. destruct (negb (pl_dry_run plan) || pl_applied plan) eqn:E; [apply preserves_throw|].
    bsimp. preserves_tac. by apply upsert_mcp_plan_data.
  - unfold record_mcp_plan_decision, get_mcp_plan. apply preserves_bind; [preserves_tac|]. intros found.
    apply preserves_bind; [preserves_tac|]. intros plan.
    eapply (preserves_after _ _ _ (λ _, ∀ id at_, decision_row_ok (mkDecisionRow id (npd_plan_id i)
      (as_str (npd_decision i)) (npd_plan_hash i) (npd_observation_hash i) (npd_config_hash i)
      (npd_actor i) (npd_reason i) at_ (npd_expires_at i)))).
    + unfold check_decision. preserves_tac.
    + intros e w w' [] H id at_. exact (proj1 (check_decision_ok plan i e w w' id at_ H)).
    + intros _ Hd. preserves_tac. by apply insert_mcp_decision_data.
Qed.
