(* ===== verification/StoreMcpApply.v ===== *)
(** * MCP apply runs

    [crates/cocli-store/src/mcp_apply.rs]: the durable record of applying an approved plan: its
    status, the journal of what the adapters did, the backups a rollback needs. The file models
    every operation and shows what survives: who ran what is never rewritten, a completed run
    stays completed, and no operation loses a journal entry when operations run one after the
    other. Where the operations race or a completed run is reopened, a theorem gives the run. *)
From stdpp Require Import pretty.
From S2P Require Import Prelude StoreTypes StoreDb StoreSchema Mcp McpGovernance McpPreflight.
From S2P Require Import McpApply McpRows StoreMcp.

(** ** Text checks *)

Definition suspected_secret (value : string) : bool :=
  any_marker ["password="; "token="; "access_token="; "secret="; "client_secret="; "api_key=";
              "api-key="; "authorization="; "bearer "; "sk-"; "sk_"; "ghp_"; "github_pat_"; "xox";
              "eyj"] (to_ascii_lowercase value).

Definition ensure_redacted (value : Json) : M unit :=
  let! text := json_to_string value in
  if suspected_secret text then
    throw (InvalidMcpApplyRun "apply result contains suspected secret material")
  else ret tt.

(** ** Statuses *)

Definition status_for_phase (phase : McpApplyJournalPhase) : McpApplyRunStatus :=
  match phase with
  | Preflight => ApplyPreflight | Locked => ApplyLocked | BackedUp => ApplyBackedUp
  | Written => ApplyWritten | ReloadPending => ApplyReloadPending | Reloaded => ApplyReloaded
  | PhaseVerified => ApplyVerified | PhaseFailed => ApplyFailed | RollingBack => ApplyRollingBack
  | PhaseRolledBack => ApplyRolledBack | RecoveryRequired => ApplyRecoveryRequired
  end.

Definition recovery_text (a : McpApplyActionResult) : bool :=
  contains "recovery is required" (ar_reason a).

Definition apply_status (r : McpApplyExecutionResult) : McpApplyRunStatus :=
  if existsb (λ a, bool_decide (ar_status a = Failed) && recovery_text a) (xe_actions r) then
    ApplyRecoveryRequired
  else
    let applied := existsb (λ a, bool_decide (ar_status a ∈ [Applied; Verified])) (xe_actions r) in
    let failed := existsb (λ a, bool_decide (ar_status a = Failed)) (xe_actions r) in
    let blocked := existsb (λ a, bool_decide (ar_status a ∈ [Blocked; Skipped])) (xe_actions r) in
    let verified := vr_status (xe_verification r) in
    if bool_decide (verified = Matched) && negb failed && negb blocked then ApplyVerified
    else if applied && (failed || blocked || bool_decide (verified ≠ Matched)) then ApplyPartial
    else if failed || bool_decide (verified = VerificationFailed) then ApplyFailed
    else if blocked || bool_decide (verified = VerificationBlocked) then ApplyBlocked
    else ApplyCompleted.

(** ** Rows *)

Definition apply_run_from_row (r : McpRunRow) : result McpApplyRun StoreError :=
  try! rollback_status <- match mrr_rollback_status r with
                          | Some s => try! v <- parse s; Ok (Some v)
                          | None => Ok None
                          end;
  let can_rollback :=
    (existsb (λ a, bool_decide (is_Some (ar_backup a))) (mrr_actions r) ||
     existsb (λ j, bool_decide (is_Some (je_backup j))) (mrr_journal r)) &&
    bool_decide (rollback_status ≠ Some ApplyRolledBack) in
  try! status <- parse (mrr_status r);
  Ok (mkMcpApplyRun r status rollback_status can_rollback).

Definition run_is (run_id : Uuid) (r : McpRunRow) : bool := (mrr_id r =? run_id)%N.

Definition is_mcp_run_key (plan_id : string) (approval_id : Uuid) (r : McpRunRow) : bool :=
  str_eqb (mrr_plan_id r) plan_id && (mrr_approval_id r =? approval_id)%N.

Definition insert_mcp_run (r : McpRunRow) (db : DB) : result (DB * unit) SqlError :=
  try! _ <- guard (negb (exists_row (λ old, (mrr_id old =? mrr_id r)%N ||
                     is_mcp_run_key (mrr_plan_id r) (mrr_approval_id r) old) (db_mcp_runs db)))
                  UniqueViolation;
  try! _ <- guard (has_mcp_plan db (mrr_plan_id r) && has_mcp_decision db (mrr_approval_id r))
                  ForeignKeyViolation;
  Ok (with_mcp_runs (λ l, l ++ [r])%list db, tt).

(** The columns that the updates of a run set, the others kept. *)
Record RunColumns := mkRunColumns {
  rc_status : string;
  rc_completed_at : option Time;
  rc_actions : list McpApplyActionResult;
  rc_reloads : list McpReloadResult;
  rc_verification : McpVerificationResult;
  rc_stale_reasons : list string;
  rc_journal : list McpApplyJournalEntry;
  rc_preflight : Json;
  rc_recovery_reason : option string;
  rc_attempt : Z;
}.

Definition run_columns (r : McpRunRow) : RunColumns :=
  mkRunColumns (mrr_status r) (mrr_completed_at r) (mrr_actions r) (mrr_reloads r)
    (mrr_verification r) (mrr_stale_reasons r) (mrr_journal r) (mrr_preflight r)
    (mrr_recovery_reason r) (mrr_attempt r).

Definition set_run_columns (c : RunColumns) (r : McpRunRow) : McpRunRow :=
  mkRunRow (mrr_id r) (mrr_plan_id r) (mrr_approval_id r) (mrr_plan_hash r)
    (mrr_observation_hash r) (mrr_config_hash r) (mrr_capability_hash r) (mrr_actor r)
    (rc_status c) (mrr_confirm_high_risk r) (mrr_requested_at r) (rc_completed_at c)
    (rc_actions c) (rc_reloads c) (rc_verification c) (rc_stale_reasons c) (rc_journal c)
    (rc_preflight c) (rc_recovery_reason c) (rc_attempt c) (mrr_rollback_status r)
    (mrr_rollback_actor r) (mrr_rollback_actions r) (mrr_rollback_at r).

Definition status_in (statuses : list string) (r : McpRunRow) : bool :=
  bool_decide (mrr_status r ∈ statuses).

(** ** Reading *)

Definition decode_run (row : option McpRunRow) : M (option McpApplyRun) :=
  match row with
  | None => ret None
  | Some r => let! run := lift (apply_run_from_row r) in ret (Some run)
  end.

Definition get_mcp_apply_run (run_id : Uuid) : M (option McpApplyRun) :=
  let! row := fetch_optional (λ db, bfilter (run_is run_id) (db_mcp_runs db)) in
  decode_run row.

Definition get_mcp_apply_run_for_approval (plan_id : string) (approval_id : Uuid)
    : M (option McpApplyRun) :=
  let! row := fetch_optional (λ db, bfilter (is_mcp_run_key plan_id approval_id) (db_mcp_runs db)) in
  decode_run row.

(** [get_mcp_apply_run(id).await?.ok_or(McpApplyRunNotFound(id))]. *)
Definition require_run (run_id : Uuid) : M McpApplyRun :=
  let! run := get_mcp_apply_run run_id in
  lift (ok_or run (McpApplyRunNotFound run_id)).

(** ** Creating *)

Definition create_mcp_apply_run (input : NewMcpApplyRun) : M McpApplyRun :=
  if trim_is_empty (nmr_actor input) || suspected_secret (nmr_actor input) then
    throw (InvalidMcpApplyRun "apply actor is invalid")
  else
    let! existing := get_mcp_apply_run_for_approval (nmr_plan_id input) (nmr_approval_id input) in
    match existing with
    | Some existing => ret existing
    | None =>
        let! id := new_v4 in
        let! requested_at := utc_now in
        let verification := mkVerification VerificationBlocked (nmr_observation_hash input)
                              ["apply execution has not completed"] ∅ UnknownEffect in
        execute (insert_mcp_run (mkRunRow id (nmr_plan_id input) (nmr_approval_id input)
          (nmr_plan_hash input) (nmr_observation_hash input) (nmr_config_hash input)
          (nmr_capability_hash input) (nmr_actor input) (as_str ApplyRunning)
          (nmr_confirm_high_risk input) requested_at None [] [] verification [] []
          (JObject []) None 1 None None [] None)) ;;
        require_run id
    end.

(** ** Journals *)

Definition same_entry (a b : McpApplyJournalEntry) : bool :=
  str_eqb (je_idempotency_key a) (je_idempotency_key b) && bool_decide (je_phase a = je_phase b) &&
  (je_action_index a =? je_action_index b)%nat.

Definition journal_has (journal : list McpApplyJournalEntry) (entry : McpApplyJournalEntry) : bool :=
  existsb (λ existing, same_entry existing entry) journal.

(** [for entry in &result.journal { if !journal.iter().any(..) { journal.push(..) } }]. *)
Fixpoint merge_journal (journal entries : list McpApplyJournalEntry) : list McpApplyJournalEntry :=
  match entries with
  | [] => journal
  | entry :: entries' =>
      merge_journal (if journal_has journal entry then journal else (journal ++ [entry])%list) entries'
  end.

(** [journal.sort_by_key(|entry| entry.sequence)], a stable sort. *)
Definition sort_journal : list McpApplyJournalEntry → list McpApplyJournalEntry :=
  sort_by (on_cmp je_sequence Z.compare).

(** [journal.iter().map(|entry| entry.sequence).max().unwrap_or(0)]. *)
Definition last_sequence (journal : list McpApplyJournalEntry) : Z :=
  fold_right (λ e, Z.max (je_sequence e)) 0 journal.

(** ** Completing *)

Definition completable_statuses : list string :=
  ["running"; "preflight"; "locked"; "backed_up"; "written"; "reload_pending"; "reloaded";
   "recovery_required"; "failed"; "blocked"; "partial"; "verified"].

(** The merge and the [UPDATE] of one round, for the run it has read. *)
Definition complete_write (run_id : Uuid) (r : McpApplyExecutionResult) (status : McpApplyRunStatus)
    (completed_at : option Time) (recovery_reason : option string) (current : McpRunRow) : M Z :=
  let journal := sort_journal (merge_journal (mrr_journal current) (xe_journal r)) in
  ensure_redacted (journal_json journal) ;;
  execute (sql_update db_mcp_runs with_mcp_runs
    (λ _ row, run_is run_id row && (mrr_attempt row =? mrr_attempt current) &&
              status_in completable_statuses row && bool_decide (mrr_completed_at row = None))
    (λ row, set_run_columns (mkRunColumns (as_str status) completed_at (xe_actions r)
       (xe_reloads r) (xe_verification r) (mrr_stale_reasons row) journal (mrr_preflight row)
       recovery_reason (mrr_attempt row + 1)) row)).

(** A recovery that the journal recorded and the result does not know of. *)
Definition concurrent_recovery (journal returned : list McpApplyJournalEntry) : bool :=
  existsb (λ entry, bool_decide (je_phase entry = RecoveryRequired) &&
                    negb (journal_has returned entry)) journal.

Fixpoint complete_loop (rounds : nat) (run_id : Uuid) (r : McpApplyExecutionResult)
    (status : McpApplyRunStatus) (completed_at : option Time) (recovery_reason : option string)
    : M McpApplyRun :=
  match rounds with
  | O => throw (InvalidMcpApplyRun "apply run changed concurrently during completion")
  | S rounds' =>
      let! current := require_run run_id in
      if bool_decide (mar_status current ∈ [ApplyCompleted; ApplyRolledBack]) ||
         bool_decide (is_Some (mrr_completed_at (mar_row current))) then ret current
      else if concurrent_recovery (mrr_journal (mar_row current)) (xe_journal r) then ret current
      else
        let! changed := complete_write run_id r status completed_at recovery_reason (mar_row current) in
        if changed =? 1 then require_run run_id
        else complete_loop rounds' run_id r status completed_at recovery_reason
  end.

Definition complete_mcp_apply_run (run_id : Uuid) (r : McpApplyExecutionResult) : M McpApplyRun :=
  ensure_redacted (execution_result_json r) ;;
  let status := apply_status r in
  let recovery_reason :=
    if bool_decide (status = ApplyRecoveryRequired)
    then ar_reason <$> find recovery_text (xe_actions r) else None in
  let! completed_at := if bool_decide (status ≠ ApplyRecoveryRequired)
                       then (let! now := utc_now in ret (Some now)) else ret None in
  complete_loop 3 run_id r status completed_at recovery_reason.

Definition interruptible_statuses : list string :=
  ["running"; "preflight"; "locked"; "backed_up"; "written"; "reload_pending"; "reloaded";
   "recovery_required"].

(** [rows_affected() == 0 && get(..).is_none()], then [get(..).ok_or(..)]. *)
Definition reload_changed (run_id : Uuid) (changed : Z) : M McpApplyRun :=
  let! missing := if changed =? 0 then
      (let! run := get_mcp_apply_run run_id in ret (bool_decide (is_Some run) : bool))
    else ret true in
  if negb missing then throw (McpApplyRunNotFound run_id) else require_run run_id.

Definition fail_interrupted_mcp_apply_run (run_id : Uuid) (reason : string) : M McpApplyRun :=
  if suspected_secret reason then throw (InvalidMcpApplyRun "interrupted apply reason is invalid")
  else
    let! completed_at := utc_now in
    let verification := mkVerification VerificationFailed "" [reason] ∅ UnknownEffect in
    let! changed := execute (sql_update db_mcp_runs with_mcp_runs
      (λ _ row, run_is run_id row && status_in interruptible_statuses row)
      (λ row, set_run_columns (mkRunColumns "failed" (Some completed_at) (mrr_actions row)
         (mrr_reloads row) verification [reason] (mrr_journal row) (mrr_preflight row) (Some reason)
         (mrr_attempt row)) row)) in
    reload_changed run_id changed.

(** ** Rolling back *)

Definition rollback_outcome (r : McpRollbackExecutionResult) : McpApplyRunStatus :=
  if negb (bool_decide (rx_actions r = [])) &&
     forallb (λ a, bool_decide (ar_status a = RolledBack)) (rx_actions r)
  then ApplyRolledBack else ApplyFailed.

Definition rollback_entry (show : Uuid → string) (run_id : Uuid) (attempt sequence : Z)
    (offset : nat) (a : McpApplyActionResult) : McpApplyJournalEntry :=
  mkJournal (sequence + Z.of_nat offset + 1) (ar_action_index a) (ar_runtime a) (ar_server_id a)
    ("rollback:" +:+ show run_id +:+ ":" +:+ ar_runtime a +:+ ":" +:+ pretty (ar_action_index a))
    (if bool_decide (ar_status a = RolledBack) then PhaseRolledBack else RecoveryRequired)
    (as_u32 (Z.max attempt 1)) (ar_before_source_hash a) None (ar_backup a) (ar_reason a) [].

Definition complete_mcp_rollback (run_id : Uuid) (actor : string) (r : McpRollbackExecutionResult)
    : M McpApplyRun :=
  if trim_is_empty actor || suspected_secret actor then
    throw (InvalidMcpApplyRun "rollback actor is invalid")
  else
    ensure_redacted (rollback_result_json r) ;;
    let rollback_status := rollback_outcome r in
    let! run := require_run run_id in
    let! show := uuid_display in
    let row := mar_row run in
    let sequence := last_sequence (mrr_journal row) in
    let journal := (mrr_journal row ++
                    imap (rollback_entry show run_id (mrr_attempt row) sequence) (rx_actions r))%list in
    ensure_redacted (journal_json journal) ;;
    let! completed_at := utc_now in
    let! changed := execute (sql_update db_mcp_runs with_mcp_runs (λ _, run_is run_id)
      (λ row, mkRunRow (mrr_id row) (mrr_plan_id row) (mrr_approval_id row) (mrr_plan_hash row)
         (mrr_observation_hash row) (mrr_config_hash row) (mrr_capability_hash row) (mrr_actor row)
         (if bool_decide (rollback_status = ApplyRolledBack) then "rolled_back" else mrr_status row)
         (mrr_confirm_high_risk row) (mrr_requested_at row) (mrr_completed_at row) (mrr_actions row)
         (mrr_reloads row) (rx_verification r) (mrr_stale_reasons row) journal (mrr_preflight row)
         (mrr_recovery_reason row) (mrr_attempt row) (Some (as_str rollback_status)) (Some actor)
         (rx_actions r) (Some completed_at))) in
    if changed =? 0 then throw (McpApplyRunNotFound run_id) else require_run run_id.

(** ** Checkpoints *)

(** What follows the read of a checkpoint: the new journal and the [UPDATE]. *)
Definition checkpoint_write (run_id : Uuid) (phase : McpApplyJournalPhase)
    (entry : McpApplyJournalEntry) (preflight : option McpPreflightReport)
    (recovery_reason : option string) (run : McpRunRow) : M McpApplyRun :=
  let journal := if journal_has (mrr_journal run) entry then mrr_journal run
                 else sort_journal (mrr_journal run ++ [entry])%list in
  let next_status := status_for_phase phase in
  let preflight_value := match preflight with
                         | Some p => preflight_report_json p
                         | None => mrr_preflight run
                         end in
  execute (sql_update db_mcp_runs with_mcp_runs
    (λ _ row, run_is run_id row && negb (status_in ["completed"; "rolled_back"] row) &&
              (bool_decide (mrr_completed_at row = None) || bool_decide (phase = RollingBack)))
    (λ row, set_run_columns (mkRunColumns (as_str next_status) (mrr_completed_at row)
       (mrr_actions row) (mrr_reloads row) (mrr_verification row) (mrr_stale_reasons row) journal
       preflight_value (coalesce recovery_reason (mrr_recovery_reason row))
       (mrr_attempt row + 1)) row)) ;;
  require_run run_id.

Definition checkpoint_mcp_apply_run (run_id : Uuid) (phase : McpApplyJournalPhase)
    (entry : McpApplyJournalEntry) (preflight : option McpPreflightReport)
    (recovery_reason : option string) : M McpApplyRun :=
  ensure_redacted (journal_entry_json entry) ;;
  match preflight with Some p => ensure_redacted (preflight_report_json p) | None => ret tt end ;;
  if match recovery_reason with Some r => suspected_secret r | None => false end then
    throw (InvalidMcpApplyRun "apply recovery reason is invalid")
  else
    let! run := require_run run_id in
    if bool_decide (is_Some (mrr_completed_at (mar_row run))) && bool_decide (phase ≠ RollingBack) then
      throw (InvalidMcpApplyRun "completed apply run cannot accept new checkpoints")
    else checkpoint_write run_id phase entry preflight recovery_reason (mar_row run).

(** ** Recovery *)

Definition mark_mcp_apply_recovery_required (run_id : Uuid) (reason : string) : M McpApplyRun :=
  if trim_is_empty reason || suspected_secret reason then
    throw (InvalidMcpApplyRun "apply recovery reason is invalid")
  else
    let! changed := execute (sql_update db_mcp_runs with_mcp_runs
      (λ _ row, run_is run_id row && negb (status_in ["verified"; "completed"; "rolled_back"] row))
      (λ row, set_run_columns (mkRunColumns "recovery_required" (mrr_completed_at row)
         (mrr_actions row) (mrr_reloads row) (mrr_verification row) (mrr_stale_reasons row)
         (mrr_journal row) (mrr_preflight row) (Some reason) (mrr_attempt row)) row)) in
    reload_changed run_id changed.

Definition manual_entry (show : Uuid → string) (run : McpRunRow) (sequence : Z) (reason : string)
    : McpApplyJournalEntry :=
  mkJournal sequence 0 "manual" (mrr_plan_id run)
    ("manual-recovery:" +:+ show (mrr_id run) +:+ ":" +:+ pretty sequence) RecoveryRequired
    (as_u32 (Z.max (mrr_attempt run) 1)) None None None reason [].

Definition record_mcp_manual_recovery (run_id : Uuid) (actor reason : string) : M McpApplyRun :=
  if trim_is_empty actor || trim_is_empty reason then
    throw (InvalidMcpApplyRun "manual recovery actor and reason are required")
  else if suspected_secret actor || suspected_secret reason then
    throw (InvalidMcpApplyRun "manual recovery audit contains suspected secret material")
  else
    let! run := require_run run_id in
    let row := mar_row run in
    if bool_decide (is_Some (mrr_completed_at row)) then
      throw (InvalidMcpApplyRun "completed apply run cannot enter manual recovery")
    else
      let! show := uuid_display in
      let sequence := last_sequence (mrr_journal row) + 1 in
      let stale_reasons := dedup (sort_by String.compare
        (mrr_stale_reasons row ++ ["manual_recovery_recorded_by:" +:+ actor])%list) in
      let journal := (mrr_journal row ++ [manual_entry show row sequence reason])%list in
      ensure_redacted (journal_json journal) ;;
      let! changed := execute (sql_update db_mcp_runs with_mcp_runs
        (λ _ r, run_is run_id r && bool_decide (mrr_completed_at r = None))
        (λ r, set_run_columns (mkRunColumns "recovery_required" (mrr_completed_at r) (mrr_actions r)
           (mrr_reloads r) (mrr_verification r) stale_reasons journal (mrr_preflight r) (Some reason)
           (mrr_attempt r + 1)) r)) in
      if changed =? 0 then throw (McpApplyRunNotFound run_id) else require_run run_id.

(** The operations that change the runs. *)
Inductive McpRunOp : Type :=
  | CreateRun (input : NewMcpApplyRun)
  | CompleteRun (run_id : Uuid) (r : McpApplyExecutionResult)
  | FailInterrupted (run_id : Uuid) (reason : string)
  | CompleteRollback (run_id : Uuid) (actor : string) (r : McpRollbackExecutionResult)
  | Checkpoint (run_id : Uuid) (phase : McpApplyJournalPhase) (entry : McpApplyJournalEntry)
      (preflight : option McpPreflightReport) (recovery_reason : option string)
  | MarkRecoveryRequired (run_id : Uuid) (reason : string)
  | ManualRecovery (run_id : Uuid) (actor reason : string).

Definition run_mcp_run_op (op : McpRunOp) : M unit :=
  match op with
  | CreateRun i => create_mcp_apply_run i ;; ret tt
  | CompleteRun i r => complete_mcp_apply_run i r ;; ret tt
  | FailInterrupted i t => fail_interrupted_mcp_apply_run i t ;; ret tt
  | CompleteRollback i a r => complete_mcp_rollback i a r ;; ret tt
  | Checkpoint i p j pf t => checkpoint_mcp_apply_run i p j pf t ;; ret tt
  | MarkRecoveryRequired i t => mark_mcp_apply_recovery_required i t ;; ret tt
  | ManualRecovery i a t => record_mcp_manual_recovery i a t ;; ret tt
  end.

(** ** The schema *)

Lemma insert_mcp_run_ok r :
  persisted McpApplyRunStatus (mrr_status r) → persisted_option McpApplyRunStatus (mrr_rollback_status r) →
  stmt_preserves schema_ok (insert_mcp_run r).
Proof.
  intros Hs Hr db db' [] Hok H. unfold insert_mcp_run in H. inv_stmt. mcp_frame Hok.
  - apply NoDup_map_snoc; [done|]. eapply exists_key_false; [|exact Hguard].
    intros x Hx. simpl. by rewrite Hx, N.eqb_refl.
  - apply NoDup_map_snoc; [done|]. eapply exists_key_false; [|exact Hguard].
    intros x [= H1 H2]. simpl. unfold is_mcp_run_key. by rewrite H1, H2, N.eqb_refl, str_eqb_refl, orb_true_r.
  - apply Forall_snoc; [done|]. split_and!; [by apply has_mcp_plan_true|by apply has_mcp_decision_true|done..].
Qed.

Definition run_identity (r : McpRunRow) :=
  (mrr_id r, mrr_plan_id r, mrr_approval_id r, mrr_plan_hash r, mrr_observation_hash r,
   mrr_config_hash r, mrr_capability_hash r, mrr_actor r, mrr_confirm_high_risk r,
   mrr_requested_at r).

(** An update that writes statuses and leaves what identifies the run. *)
Definition run_update (f : McpRunRow → McpRunRow) : Prop :=
  keeps run_identity f ∧
  ∀ r, (persisted McpApplyRunStatus (mrr_status r) → persisted McpApplyRunStatus (mrr_status (f r))) ∧
       (persisted_option McpApplyRunStatus (mrr_rollback_status r) →
        persisted_option McpApplyRunStatus (mrr_rollback_status (f r))).

Lemma update_mcp_runs_ok p f :
  run_update f → stmt_preserves schema_ok (sql_update db_mcp_runs with_mcp_runs p f).
Proof.
  intros [Hid Hf] db db' n Hok [= <- _]. mcp_frame Hok.
  - rewrite map_update_where; [done|]. intros r. by injection (Hid r).
  - rewrite map_update_where; [done|]. intros r. unfold mcp_run_key. injection (Hid r). congruence.
  - apply Forall_update_where; [done|]. intros r _ (H1 & H2 & H3 & H4). injection (Hid r). intros.
    split_and!; [congruence|congruence|by apply Hf..].
Qed.

Lemma run_update_columns (c : McpRunRow → RunColumns) :
  (∀ r, persisted McpApplyRunStatus (mrr_status r) → persisted McpApplyRunStatus (rc_status (c r))) →
  run_update (λ r, set_run_columns (c r) r).
Proof. intros Hc. split; [done|]. intros r. split; [apply Hc|done]. Qed.

(** ** How a run may change *)

(** A run that nothing changes any more, except that a completed one may be rolled back. *)
Definition run_final (r : McpRunRow) : Prop :=
  is_Some (mrr_completed_at r) ∧ mrr_status r ∈ ["completed"; "rolled_back"].

Record run_evolves (r r' : McpRunRow) : Prop := {
  ev_identity : run_identity r' = run_identity r;
  ev_completed : is_Some (mrr_completed_at r) → is_Some (mrr_completed_at r');
  ev_attempt : mrr_attempt r ≤ mrr_attempt r';
  ev_journal : mrr_journal r ⊆+ mrr_journal r';
  ev_final : run_final r →
    mrr_status r' ∈ ["completed"; "rolled_back"] ∧
    (mrr_status r = "rolled_back" → mrr_status r' = "rolled_back");
}.

#[export] Instance run_evolves_preorder : PreOrder run_evolves.
Proof.
  split.
  - intros r. split; [done|done|lia|done|]. by intros [_ H].
  - intros r1 r2 r3 [I1 C1 A1 J1 F1] [I2 C2 A2 J2 F2]. split; [congruence|auto|lia|by etrans|].
    intros Hf. destruct (F1 Hf) as [H1 H1']. destruct Hf as [Hc _].
    destruct F2 as [H2 H2']; [by split; auto|]. split; auto.
Qed.

(** Every run of the first database is in the second, evolved. *)
Definition runs_evolve (db db' : DB) : Prop :=
  ∀ r, r ∈ db_mcp_runs db → ∃ r', r' ∈ db_mcp_runs db' ∧ run_evolves r r'.

#[export] Instance runs_evolve_preorder : PreOrder runs_evolve.
Proof.
  split.
  - intros db r Hr. by exists r.
  - intros db1 db2 db3 H1 H2 r Hr. destruct (H1 r Hr) as (r2 & Hr2 & He2).
    destruct (H2 r2 Hr2) as (r3 & Hr3 & He3). exists r3. split; [done|by etrans].
Qed.

Lemma runs_evolve_update p f db :
  (∀ r, r ∈ db_mcp_runs db → p r = true → run_evolves r (f r)) →
  runs_evolve db (with_mcp_runs (update_where p f) db).
Proof.
  intros Hf r Hr. exists (if p r then f r else r). split.
  - apply list_elem_of_fmap. by exists r.
  - destruct (p r) eqn:E; [by apply Hf|done].
Qed.

Lemma runs_evolve_columns c r :
  (is_Some (mrr_completed_at r) → is_Some (rc_completed_at c)) →
  mrr_attempt r ≤ rc_attempt c → mrr_journal r ⊆+ rc_journal c → ¬ run_final r →
  run_evolves r (set_run_columns c r).
Proof. intros Hc Ha Hj Hf. by split. Qed.

Lemma merge_journal_submseteq l1 l2 : l1 ⊆+ merge_journal l1 l2.
Proof.
  revert l1. induction l2 as [|x l2 IH]; intros l1; simpl; [done|].
  etrans; [|apply IH]. destruct (journal_has l1 x); [done|]. by apply submseteq_inserts_r.
Qed.

Lemma sort_journal_submseteq l1 l2 : l1 ⊆+ l2 → l1 ⊆+ sort_journal l2.
Proof. intros H. unfold sort_journal. by rewrite sort_by_perm. Qed.

(** Reading a run. *)
Lemma readonly_decode_run row : readonly (decode_run row).
Proof. unfold decode_run. destruct row; auto with cocli. apply readonly_bind; auto with cocli. Qed.
Lemma readonly_get_run run_id : readonly (get_mcp_apply_run run_id).
Proof. apply readonly_bind; [apply readonly_fetch|apply readonly_decode_run]. Qed.
Lemma readonly_require_run run_id : readonly (require_run run_id).
Proof. apply readonly_bind; [apply readonly_get_run|auto with cocli]. Qed.
Lemma readonly_ensure_redacted v : readonly (ensure_redacted v).
Proof. apply readonly_bind; [auto with cocli|]. intros t. destruct (suspected_secret t); auto with cocli. Qed.
Lemma readonly_reload_changed run_id n : readonly (reload_changed run_id n).
Proof.
  apply readonly_bind.
  - destruct (n =? 0); [|auto with cocli]. apply readonly_bind; [apply readonly_get_run|auto with cocli].
  - intros b. destruct (negb b); [auto with cocli|apply readonly_require_run].
Qed.
#[export] Hint Resolve readonly_decode_run readonly_get_run readonly_require_run
  readonly_ensure_redacted readonly_reload_changed : cocli.

Lemma apply_run_from_row_row r run : apply_run_from_row r = Ok run → mar_row run = r.
Proof.
  unfold apply_run_from_row, rbind. destruct (mrr_rollback_status r) as [s|]; repeat case_match; intros; by simplify_eq/=.
Qed.

Lemma require_run_row run_id e w w' run :
  require_run run_id e w = (w', Ok run) →
  w_db w' = w_db w ∧ mar_row run ∈ db_mcp_runs (w_db w) ∧ mrr_id (mar_row run) = run_id.
Proof.
  intros H. pose proof (readonly_require_run run_id e w) as Hw. rewrite H in Hw.
  split; [exact Hw|]. clear Hw. unfold require_run, get_mcp_apply_run in H. inv_run.
  unfold decode_run in *. case_match; inv_run.
  match goal with H : apply_run_from_row _ = Ok _ |- _ => apply apply_run_from_row_row in H as <- end.
  match goal with H : _ = head _ |- _ => symmetry in H; apply head_Some_elem_of in H end.
  simplify_eq/=.
  match goal with H : _ ∈ bfilter _ _ |- _ => apply elem_of_bfilter in H as [? Hid] end.
  unfold run_is in Hid. simpl in *. apply N.eqb_eq in Hid. by simplify_eq/=.
Qed.

Lemma read_run_unique db r run_id x :
  schema_ok db → x ∈ db_mcp_runs db → mrr_id x = run_id → r ∈ db_mcp_runs db →
  run_is run_id r = true → r = x.
Proof.
  intros Hok Hx <- Hr Hid. unfold run_is in Hid. apply N.eqb_eq in Hid.
  exact (NoDup_key_eq mrr_id _ r x (mo_runs _ (so_mcp _ Hok)) Hr Hx Hid).
Qed.

Section Evolution.
Context (db : DB).

(** The state of the argument: the database is well formed and evolved from [db]. *)
Definition evolved (db' : DB) : Prop := schema_ok db' ∧ runs_evolve db db'.

Lemma evolved_update p f db1 db2 n :
  evolved db1 → run_update f →
  (∀ r, r ∈ db_mcp_runs db1 → p db1 r = true → run_evolves r (f r)) →
  sql_update db_mcp_runs with_mcp_runs p f db1 = Ok (db2, n) → evolved db2.
Proof.
  intros [Hok He] Hu Hf E. split; [by eapply update_mcp_runs_ok|].
  injection E as <- _. etrans; [exact He|]. by apply runs_evolve_update.
Qed.

(** An update of the runs followed by reads. *)
Lemma evolved_execute {B} p f (k : Z → M B) e w :
  evolved (w_db w) → run_update f →
  (∀ r, r ∈ db_mcp_runs (w_db w) → p (w_db w) r = true → run_evolves r (f r)) →
  (∀ n, readonly (k n)) →
  evolved (w_db (bind (execute (sql_update db_mcp_runs with_mcp_runs p f)) k e w).1).
Proof.
  intros Hw Hu Hf Hk. apply execute_then; [done|]. intros db' n w' E <-. rewrite Hk.
  by eapply evolved_update.
Qed.

Lemma evolved_insert r db1 db2 u :
  evolved db1 → persisted McpApplyRunStatus (mrr_status r) →
  persisted_option McpApplyRunStatus (mrr_rollback_status r) →
  insert_mcp_run r db1 = Ok (db2, u) → evolved db2.
Proof.
  intros [Hok He] Hs Hr E. split; [by eapply insert_mcp_run_ok|].
  unfold insert_mcp_run in E. inv_stmt. etrans; [exact He|]. intros x Hx.
  exists x. split; [|done]. apply elem_of_app. by left.
Qed.

Lemma evolved_readonly {A} (m : M A) e w : readonly m → evolved (w_db w) → evolved (w_db (m e w).1).
Proof. intros Hm Hw. by rewrite Hm. Qed.

(** A reading step: [x] is what was read, [H] that it was read from this very database. *)
Tactic Notation "step" ident(x) "as" ident(H) :=
  lazymatch goal with Hd : evolved (w_db ?w0) |- evolved (w_db (bind _ _ _ ?w0).1) =>
    apply readonly_then; [solve [auto with cocli]|exact Hd|];
    let w' := fresh "w" in let Hw := fresh "Hw" in
    intros w' x Hw H;
    repeat match goal with K : context [w_db w0] |- _ =>
      lazymatch K with Hw => fail | _ => rewrite <- Hw in K end end; clear Hw
  end.
Ltac done_reading := apply evolved_readonly; [solve [auto with cocli]|assumption].

Lemma create_evolved input e w :
  evolved (w_db w) → evolved (w_db (create_mcp_apply_run input e w).1).
Proof.
  intros Hw. unfold create_mcp_apply_run. destruct (_ || _); [done|].
  apply readonly_then; [apply readonly_bind; [apply readonly_fetch|auto with cocli]|done|].
  intros w1 [run|] Hw1 _; [by rewrite <- Hw1 in Hw|]. rewrite <- Hw1 in Hw.
  step id as Hi. step at_ as Ha. apply execute_then; [done|]. intros db' u w' E <-.
  apply evolved_readonly; [auto with cocli|]. eapply evolved_insert; [|..|exact E]; [done| |done].
  apply persisted_as_str.
Qed.

Lemma not_final_completed r : mrr_completed_at r = None → ¬ run_final r.
Proof. intros H [[t Ht] _]. congruence. Qed.

Lemma not_final_status r (statuses : list string) :
  status_in statuses r = true → Forall (λ s, s ∉ ["completed"; "rolled_back"]) statuses → ¬ run_final r.
Proof.
  unfold status_in. intros Hs Hall [_ Hf]. bsimp. rewrite Forall_forall in Hall. by apply (Hall _ Hs).
Qed.

(** The columns of an update that leaves a final run alone. *)
Ltac by_columns :=
  lazymatch goal with
  | |- run_update (λ row, set_run_columns (@?c row) row) => apply (run_update_columns c); intros; cbn [rc_status]
  | |- run_evolves _ _ => apply runs_evolve_columns;
      cbn [rc_completed_at rc_attempt rc_journal]
  end; auto with cocli; try lia.

Lemma complete_loop_evolved n run_id r status at_ reason e w :
  evolved (w_db w) → evolved (w_db (complete_loop n run_id r status at_ reason e w).1).
Proof.
  revert w. induction n as [|n IH]; intros w Hw; simpl; [done|].
  step cur as Hcur. apply require_run_row in Hcur as (Hwc & Hin & Hid). rewrite <- Hwc in Hin.
  destruct (_ || _); [done|]. destruct (concurrent_recovery _ _); [done|].
  unfold complete_write. rewrite bind_assoc. step u as Hu. apply execute_then; [done|].
  intros db' k w' E <-.
  assert (evolved (w_db w')) as Hd'.
  { refine (evolved_update _ _ _ _ _ Hw _ _ E); [by_columns|].
    intros x Hx Hp. simpl in Hp. bsimp.
    rewrite (read_run_unique _ x run_id (mar_row cur) (proj1 Hw)) in * by done.
    by_columns; [intros [? ?]; congruence| |by apply not_final_completed].
    apply sort_journal_submseteq, merge_journal_submseteq. }
  destruct (k =? 1); [done_reading|by apply IH].
Qed.

Lemma complete_evolved run_id r e w :
  evolved (w_db w) → evolved (w_db (complete_mcp_apply_run run_id r e w).1).
Proof.
  intros Hw. unfold complete_mcp_apply_run. step u as Hu.
  destruct (bool_decide (apply_status r ≠ ApplyRecoveryRequired)).
  - rewrite bind_assoc. step now as Hn. by apply complete_loop_evolved.
  - by apply complete_loop_evolved.
Qed.

Lemma fail_interrupted_evolved run_id reason e w :
  evolved (w_db w) → evolved (w_db (fail_interrupted_mcp_apply_run run_id reason e w).1).
Proof.
  intros Hw. unfold fail_interrupted_mcp_apply_run. destruct (suspected_secret reason); [done|].
  step at_ as Ha. apply evolved_execute; [done| |intros x Hx Hp|auto with cocli].
  - by_columns. by exists ApplyFailed.
  - bsimp. by_columns. eapply not_final_status; [done|]. by repeat constructor; set_solver.
Qed.

Lemma rollback_evolved run_id actor r e w :
  evolved (w_db w) → evolved (w_db (complete_mcp_rollback run_id actor r e w).1).
Proof.
  intros Hw. unfold complete_mcp_rollback. destruct (_ || _); [done|]. step u as Hu.
  step run as Hrun. apply require_run_row in Hrun as (Hwc & Hin & Hid). rewrite <- Hwc in Hin. clear Hwc.
  step show as Hs. step u' as Hu'. step at_ as Ha.
  apply evolved_execute; [done| |intros x Hx Hp|].
  - split; [done|]. intros x. simpl. split; [|by intros; exists (rollback_outcome r)].
    case_bool_decide; [|done]. intros _. by exists ApplyRolledBack.
  - rewrite (read_run_unique _ x run_id (mar_row run) (proj1 Hw)) in * by done.
    split; simpl; [done|done|lia|by apply submseteq_inserts_r|].
    intros [_ Hf]. case_bool_decide; [|done]. split; [set_solver|done].
  - intros n. destruct (n =? 0); auto with cocli.
Qed.

Lemma checkpoint_evolved run_id phase entry pf reason e w :
  evolved (w_db w) → evolved (w_db (checkpoint_mcp_apply_run run_id phase entry pf reason e w).1).
Proof.
  intros Hw. unfold checkpoint_mcp_apply_run. step u as Hu.
  apply readonly_then; [destruct pf; auto with cocli|done|]. intros w1 u' Hw1 _. rewrite <- Hw1 in Hw.
  destruct (match reason with Some _ => _ | None => _ end); [done|].
  step run as Hrun. apply require_run_row in Hrun as (Hwc & Hin & Hid). rewrite <- Hwc in Hin. clear Hwc.
  destruct (_ && _); [done|]. unfold checkpoint_write.
  apply evolved_execute; [done|by_columns|intros x Hx Hp|auto with cocli].
  bsimp. rewrite (read_run_unique _ x run_id (mar_row run) (proj1 Hw)) in * by done.
  by_columns.
  - destruct (journal_has _ _); [done|]. apply sort_journal_submseteq. by apply submseteq_inserts_r.
  - intros [_ Hf]. unfold status_in in *. bsimp. done.
Qed.

Lemma mark_recovery_evolved run_id reason e w :
  evolved (w_db w) → evolved (w_db (mark_mcp_apply_recovery_required run_id reason e w).1).
Proof.
  intros Hw. unfold mark_mcp_apply_recovery_required. destruct (_ || _); [done|].
  apply evolved_execute; [done| |intros x Hx Hp|auto with cocli].
  - by_columns. by exists ApplyRecoveryRequired.
  - bsimp. by_columns. intros [_ Hf]. unfold status_in in *. bsimp. set_solver.
Qed.

Lemma manual_recovery_evolved run_id actor reason e w :
  evolved (w_db w) → evolved (w_db (record_mcp_manual_recovery run_id actor reason e w).1).
Proof.
  intros Hw. unfold record_mcp_manual_recovery. destruct (_ || _); [done|]. destruct (_ || _); [done|].
  step run as Hrun. apply require_run_row in Hrun as (Hwc & Hin & Hid). rewrite <- Hwc in Hin. clear Hwc.
  case_bool_decide; [done|]. step show as Hs. step u as Hu.
  apply evolved_execute; [done| |intros x Hx Hp|].
  - by_columns. by exists ApplyRecoveryRequired.
  - bsimp. rewrite (read_run_unique _ x run_id (mar_row run) (proj1 Hw)) in * by done.
    by_columns; [by apply submseteq_inserts_r|by apply not_final_completed].
  - intros n. destruct (n =? 0); auto with cocli.
Qed.

Lemma run_mcp_run_op_evolved op e w :
  evolved (w_db w) → evolved (w_db (run_mcp_run_op op e w).1).
Proof.
  intros Hw. destruct op; simpl; unfold bind;
    match goal with |- context [match ?m e w with _ => _ end] =>
      enough (evolved (w_db (m e w).1)) by (by destruct (m e w) as [? []]) end.
  - by apply create_evolved.
  - by apply complete_evolved.
  - by apply fail_interrupted_evolved.
  - by apply rollback_evolved.
  - by apply checkpoint_evolved.
  - by apply mark_recovery_evolved.
  - by apply manual_recovery_evolved.
Qed.
End Evolution.

Lemma run_mcp_run_op_schema op : preserves schema_ok (run_mcp_run_op op).
Proof. intros e w Hw. by apply (run_mcp_run_op_evolved (w_db w)). Qed.

(** An operation keeps what its statements keep. *)
Lemma run_mcp_run_op_preserves (P : DB → Prop) op :
  (∀ r, stmt_preserves P (insert_mcp_run r)) →
  (∀ p f, keeps run_identity f → stmt_preserves P (sql_update db_mcp_runs with_mcp_runs p f)) →
  preserves P (run_mcp_run_op op).
Proof.
  intros Hi Hu.
  assert (∀ run_id, preserves P (require_run run_id)) as Hr.
  { intros i. apply preserves_readonly. auto with cocli. }
  assert (∀ v, preserves P (ensure_redacted v)) as He.
  { intros v. apply preserves_readonly. auto with cocli. }
  assert (∀ i n, preserves P (reload_changed i n)) as Hc.
  { intros i n. apply preserves_readonly. auto with cocli. }
  assert (∀ n i r s t y, preserves P (complete_loop n i r s t y)) as Hl.
  { induction n as [|n IH]; intros; simpl; [apply preserves_throw|]. unfold complete_write.
    preserves_tac. by apply Hu. }
  destruct op; simpl; (apply preserves_bind; [|intros; apply preserves_ret]);
    unfold create_mcp_apply_run, get_mcp_apply_run_for_approval, decode_run, complete_mcp_apply_run,
      fail_interrupted_mcp_apply_run, complete_mcp_rollback, checkpoint_mcp_apply_run, checkpoint_write,
      mark_mcp_apply_recovery_required, record_mcp_manual_recovery;
    preserves_tac; by apply Hu.
Qed.

Lemma run_mcp_run_op_outside (P : DB → Prop) op :
  (∀ f db, P db → P (with_mcp_tables f db)) → preserves P (run_mcp_run_op op).
Proof.
  intros HP. apply run_mcp_run_op_preserves; intros; intros db db' x Hdb E.
  - unfold insert_mcp_run in E. inv_stmt. by apply HP.
  - injection E as <- _. by apply HP.
Qed.

(** ** One run per approval *)

Lemma get_run_for_approval_ok plan_id approval_id e w w' found :
  get_mcp_apply_run_for_approval plan_id approval_id e w = (w', Ok found) →
  w_db w' = w_db w ∧
  match found with
  | Some run => mar_row run ∈ db_mcp_runs (w_db w) ∧ mcp_run_key (mar_row run) = (plan_id, approval_id)
  | None => (plan_id, approval_id) ∉ map mcp_run_key (db_mcp_runs (w_db w))
  end.
Proof.
  intros H. unfold get_mcp_apply_run_for_approval, decode_run in H. inv_run.
  match goal with H : ?x = head _ |- _ => symmetry in H; rename H into Er end.
  case_match; inv_run; (split; [done|]).
  - apply head_Some_elem_of, elem_of_bfilter in Er as [Hin Hk]. unfold is_mcp_run_key in Hk. bsimp.
    match goal with H : apply_run_from_row _ = Ok _ |- _ => apply apply_run_from_row_row in H as -> end.
    split; [done|]. unfold mcp_run_key. f_equal; [by apply str_eqb_eq|by apply N.eqb_eq].
  - apply head_None in Er. intros (r & Hk & Hr)%list_elem_of_fmap.
    assert (r ∈ bfilter (is_mcp_run_key plan_id approval_id) (db_mcp_runs (w_db w))) as Hin.
    { apply elem_of_bfilter. split; [done|]. unfold is_mcp_run_key.
      injection Hk as -> ->. by rewrite str_eqb_refl, N.eqb_refl. }
    rewrite Er in Hin. by inversion Hin.
Qed.

Lemma insert_mcp_run_only r db db' u x :
  insert_mcp_run r db = Ok (db', u) → x ∈ db_mcp_runs db' → mrr_id x = mrr_id r → x = r.
Proof.
  unfold insert_mcp_run. intros E. inv_stmt. intros Hx Hid.
  apply elem_of_app in Hx as [Hx|Hx]; [|by apply list_elem_of_singleton in Hx].
  rewrite exists_row_false in Hguard. specialize (Hguard x Hx). by rewrite Hid, N.eqb_refl in Hguard.
Qed.

(** An approval is executed by at most one run: asking again for a run of the same plan and
    approval returns the one that exists and changes nothing. *)
Lemma create_run_once input e w w' run :
  schema_ok (w_db w) → create_mcp_apply_run input e w = (w', Ok run) →
  mar_row run ∈ db_mcp_runs (w_db w') ∧
  mcp_run_key (mar_row run) = (nmr_plan_id input, nmr_approval_id input) ∧
  (∀ r, r ∈ db_mcp_runs (w_db w) → mcp_run_key r = (nmr_plan_id input, nmr_approval_id input) →
    w_db w' = w_db w ∧ mar_row run = r).
Proof.
  intros Hok H. unfold create_mcp_apply_run in H. destruct (_ || _); [done|]. inv_run.
  match goal with H : get_mcp_apply_run_for_approval _ _ _ _ = _ |- _ =>
    apply get_run_for_approval_ok in H as [Hw1 Hfound] end.
  case_match; inv_run.
  - destruct Hfound as [Hin Hk]. rewrite Hw1. split_and!; [done..|]. intros r Hr Hkr. split; [done|].
    eapply NoDup_key_eq; [exact (mo_run_keys _ (so_mcp _ Hok))|done..|congruence].
  - match goal with H : require_run _ _ _ = _ |- _ => apply require_run_row in H as (Hw & Hin & Hid) end.
    match goal with H : insert_mcp_run _ _ = _ |- _ => pose proof (insert_mcp_run_only _ _ _ _ _ H Hin Hid) as Hr end.
    rewrite Hw, Hr in *. split_and!; [done..|]. intros r Hr' Hk. destruct Hfound. rewrite <- Hk.
    by apply list_elem_of_fmap_2.
Qed.

(** ** A run with its plan and approval *)

Definition demo_mcp_plan : McpPlan :=
  mkPlan "plan-1" (mkDesiredTarget "machine-1" None None)
    (mkDesiredState (mkDesiredTarget "machine-1" None None) [] [] []) [] "observed" "config"
    "capability" "plan-hash" "today" true false.

Definition demo_new_run (approval_id : Uuid) : NewMcpApplyRun :=
  mkNewRun "plan-1" approval_id "plan-hash" "observed" "config" "capability" "ada" false.

(** The plan is saved, approved for a long time and its run created. *)
Definition demo_mcp_run : M McpApplyRun :=
  save_mcp_plan demo_mcp_plan ;;
  let! approval := record_mcp_plan_decision (mkNewDecision "plan-1" DecisionApproved "plan-hash"
                     "observed" "config" "ada" None (Some 1000)) in
  create_mcp_apply_run (demo_new_run (mpd_id approval)).

Definition demo_entry (sequence : Z) (phase : McpApplyJournalPhase) : McpApplyJournalEntry :=
  mkJournal sequence 0 "codex" "server" "key" phase 1 None None None "" [].

(** ** A checkpoint overwrites what it did not read

    The journal is read, extended and written back without a check that it is still the one that
    was read; [record_mcp_manual_recovery] runs without the lock of the plan. *)

(** A checkpoint reads the run, an operator records a manual recovery, the checkpoint writes. *)
Definition checkpoint_race : M McpApplyRun :=
  let! run := demo_mcp_run in
  let run_id := mrr_id (mar_row run) in
  let! stale := require_run run_id in
  record_mcp_manual_recovery run_id "operator" "disk full" ;;
  checkpoint_write run_id Written (demo_entry 1 Written) None None (mar_row stale).

(** The recovery that an operator recorded while an apply was running is gone from the journal
    and from the status: the checkpoint of the apply puts back the journal it had read. *)
Theorem checkpoint_loses_recovery :
  match (checkpoint_race (demo_env 100) start).2 with
  | Ok run => mar_status run = ApplyWritten ∧
              existsb (λ entry, bool_decide (je_phase entry = RecoveryRequired)) (mrr_journal (mar_row run)) = false
  | Err _ => False
  end.
Proof. by vm_compute. Qed.

(** ** A rolled back run can be reopened

    A manual recovery checks [completed_at] only, which a rollback leaves as it is. *)
Definition rollback_reopened : M McpApplyRun :=
  let! run := demo_mcp_run in
  let run_id := mrr_id (mar_row run) in
  checkpoint_mcp_apply_run run_id Written (demo_entry 1 Written) None None ;;
  complete_mcp_rollback run_id "ada"
    (mkRollbackResult [mkActionResult 0 "codex" "server" RolledBack "restored" None None None]
       (mkVerification Matched "" [] ∅ UnknownEffect)) ;;
  record_mcp_manual_recovery run_id "operator" "checked".

Theorem rolled_back_run_reopens :
  match (rollback_reopened (demo_env 100) start).2 with
  | Ok run => mar_status run = ApplyRecoveryRequired ∧ mar_rollback_status run = Some ApplyRolledBack
  | Err _ => False
  end.
Proof. by vm_compute. Qed.
