(* ===== verification/StoreMcpBundle.v ===== *)
(** * Importing governance bundles

    [crates/cocli-store/src/mcp_bundle.rs]: an import is previewed, then committed in one
    transaction or cancelled. The file models every operation and shows that an import takes
    effect once and entirely, that it binds what was previewed, that it leaves plans, approvals
    and runs alone, and that what it stores passed the same validation as a profile written by
    hand. *)
From stdpp Require Import pretty.
From S2P Require Import Prelude Mcp McpGovernance McpBundle McpRows StoreTypes StoreDb StoreSchema.
From S2P Require Import StoreMcp.

(** ** Errors and redaction *)

(** [McpBundleError]'s [Display]. *)
Definition bundle_error_text (e : McpBundleError) : string :=
  match e with
  | BundleInvalid message => message
  | UnsupportedVersion version => "unsupported MCP governance bundle schema version " +:+ pretty version
  | HashMismatch => "MCP governance bundle content hash mismatch"
  | BundleTooLarge => "MCP governance bundle exceeds the size limit"
  | TooDeep => "MCP governance bundle exceeds the depth limit"
  end.

(** [map_err(|error| StoreError::InvalidMcpBundleImport(error.to_string()))]. *)
Definition import_checked (r : result unit McpBundleError) : result unit StoreError :=
  match r with Ok _ => Ok tt | Err e => Err (InvalidMcpBundleImport (bundle_error_text e)) end.

Fixpoint json_contains_plaintext_secret (value : Json) : bool :=
  match value with
  | JString s => mcp_value_contains_plaintext_secret s
  | JArray values => existsb json_contains_plaintext_secret values
  | JObject values =>
      existsb (λ '(key, v), mcp_value_contains_plaintext_secret key || json_contains_plaintext_secret v) values
  | _ => false
  end.

Definition string_map_json (l : list (string * string)) : Json :=
  JObject (map (λ '(key, v), (key, JString v)) l).

Definition rebindings_json (r : McpBundleRebindings) : Json :=
  JObject [("targets", string_map_json (rb_targets r)); ("runtimes", string_map_json (rb_runtimes r));
           ("secretRefs", string_map_json (rb_secret_refs r));
           ("machineLocalValues", string_map_json (rb_machine_local_values r));
           ("profiles", JObject (map (λ '(key, p), (key,
              JObject [("profileId", JString (prb_profile_id p));
                       ("expectedVersion", JInt (prb_expected_version p))])) (rb_profiles r)))].

(** [McpBundleRebindings::default()]. *)
Definition no_rebindings : McpBundleRebindings := mkRebindings [] [] [] [] [].

Definition suspected_import_secret : StoreError :=
  InvalidMcpBundleImport "bundle import audit contains suspected secret material".

Definition ensure_import_audit_redacted (actor : string) (rebindings : McpBundleRebindings)
    (preview : Json) : M unit :=
  lift (import_checked (validate_mcp_bundle_rebindings rebindings)) ;;
  if mcp_value_contains_plaintext_secret actor || json_contains_plaintext_secret preview then
    throw suspected_import_secret
  else
    let! serialized := json_to_string (JArray [JString actor; rebindings_json rebindings; preview]) in
    if any_marker ["bearer "; "token="; "password="; "secret="; "api_key="; "api-key=";
                   "authorization="; "client_secret="] (to_ascii_lowercase serialized)
    then throw suspected_import_secret else ret tt.

Definition validate_bundle (bundle : McpGovernanceBundle) : M unit :=
  let! sha256 := sha256_digest in
  let! to_vec := json_text in
  lift (import_checked (validate_mcp_governance_bundle sha256 to_vec bundle)).

(** ** Rows *)

Definition import_audit_from_row (r : McpImportRow) : result McpBundleImportAudit StoreError :=
  if negb ((0 <=? mir_schema_version r) && (mir_schema_version r <? 2 ^ 32)) then
    Err (InvalidMcpBundleImport "schema version is out of range")
  else
    try! status <- parse (mir_status r);
    Ok (mkImportAudit r status).

Definition import_is (id : Uuid) (r : McpImportRow) : bool := (mir_id r =? id)%N.

(** [WHERE id = ? AND version = ? AND status = 'previewed']. *)
Definition previewed_at (id : Uuid) (version : Z) (r : McpImportRow) : bool :=
  import_is id r && (mir_version r =? version) && str_eqb (mir_status r) "previewed".

Definition has_import_key (bundle_hash : string) (rebindings : McpBundleRebindings) (r : McpImportRow)
    : bool :=
  str_eqb (mir_bundle_hash r) bundle_hash && bool_decide (mir_rebindings r = rebindings).

Definition insert_import (r : McpImportRow) (db : DB) : result (DB * unit) SqlError :=
  try! _ <- guard (negb (exists_row (λ old, import_is (mir_id r) old ||
                     has_import_key (mir_bundle_hash r) (mir_rebindings r) old) (db_mcp_imports db)))
                  UniqueViolation;
  Ok (with_mcp_imports (λ l, l ++ [r])%list db, tt).

(** [UPDATE] of columns of which [rebindings_json] is part of a unique index. *)
Definition update_imports (p : McpImportRow → bool) (f : McpImportRow → McpImportRow) (db : DB)
    : result (DB * Z) SqlError :=
  try! _ <- guard (bool_decide (NoDup (map mcp_import_key (update_where p f (db_mcp_imports db)))))
                  UniqueViolation;
  Ok (with_mcp_imports (update_where p f) db, count_where p (db_mcp_imports db)).

(** ** Audits *)

Definition decode_import (row : option McpImportRow) : M (option McpBundleImportAudit) :=
  match row with
  | None => ret None
  | Some r => let! audit := lift (import_audit_from_row r) in ret (Some audit)
  end.

Definition get_mcp_bundle_import_audit (id : Uuid) : M (option McpBundleImportAudit) :=
  let! row := fetch_optional (λ db, bfilter (import_is id) (db_mcp_imports db)) in
  decode_import row.

Definition find_mcp_bundle_import_audit (bundle_hash : string) (rebindings : McpBundleRebindings)
    : M (option McpBundleImportAudit) :=
  let! row := fetch_optional (λ db, bfilter (has_import_key bundle_hash rebindings) (db_mcp_imports db)) in
  decode_import row.

(** [ORDER BY created_at DESC, id]. *)
Definition import_order (a b : McpImportRow) : comparison :=
  then_cmp (Z.compare (mir_created_at b) (mir_created_at a)) (N.compare (mir_id a) (mir_id b)).

Definition list_mcp_bundle_import_audits : M (list McpBundleImportAudit) :=
  let! rows := fetch (λ db, sort_by import_order (db_mcp_imports db)) in
  lift (collect_results import_audit_from_row rows).

Definition require_import (id : Uuid) : M McpBundleImportAudit :=
  let! audit := get_mcp_bundle_import_audit id in
  lift (ok_or audit (McpBundleImportNotFound id)).

Definition create_mcp_bundle_import_audit (input : NewMcpBundleImportAudit) : M McpBundleImportAudit :=
  if trim_is_empty (nmi_actor input) then throw (InvalidMcpBundleImport "import actor is required")
  else
    validate_bundle (nmi_bundle input) ;;
    ensure_import_audit_redacted (nmi_actor input) (nmi_rebindings input) (nmi_preview input) ;;
    let! existing := find_mcp_bundle_import_audit (gb_content_hash (nmi_bundle input)) (nmi_rebindings input) in
    match existing with
    | Some existing => ret existing
    | None =>
        let! id := new_v4 in
        let! now := utc_now in
        execute (insert_import (mkImportRow id (gb_content_hash (nmi_bundle input))
          (gb_schema_version (nmi_bundle input)) (trim (nmi_actor input)) "previewed" 1
          (nmi_bundle input) (nmi_rebindings input) (nmi_preview input) None now now None)) ;;
        require_import id
    end.

(** [SET rebindings_json, preview_json, version = version + 1, updated_at]. *)
Definition set_preview (rebindings : McpBundleRebindings) (preview : Json) (now : Time)
    (r : McpImportRow) : McpImportRow :=
  mkImportRow (mir_id r) (mir_bundle_hash r) (mir_schema_version r) (mir_actor r) (mir_status r)
    (mir_version r + 1) (mir_bundle r) rebindings preview (mir_result r) (mir_created_at r) now
    (mir_committed_at r).

(** [SET status = 'committed', version = version + 1, result_json, updated_at, committed_at]. *)
Definition set_committed (result_ : Json) (now : Time) (r : McpImportRow) : McpImportRow :=
  mkImportRow (mir_id r) (mir_bundle_hash r) (mir_schema_version r) (mir_actor r) "committed"
    (mir_version r + 1) (mir_bundle r) (mir_rebindings r) (mir_preview r) (Some result_)
    (mir_created_at r) now (Some now).

(** [SET status = 'cancelled', version = version + 1, updated_at]. *)
Definition set_cancelled (now : Time) (r : McpImportRow) : McpImportRow :=
  mkImportRow (mir_id r) (mir_bundle_hash r) (mir_schema_version r) (mir_actor r) "cancelled"
    (mir_version r + 1) (mir_bundle r) (mir_rebindings r) (mir_preview r) (mir_result r)
    (mir_created_at r) now (mir_committed_at r).

Definition update_mcp_bundle_import_preview (id : Uuid) (expected_version : Z)
    (rebindings : McpBundleRebindings) (preview : Json) : M McpBundleImportAudit :=
  ensure_import_audit_redacted "preview" rebindings preview ;;
  let! now := utc_now in
  let! changed := execute (update_imports (previewed_at id expected_version)
                             (set_preview rebindings preview now)) in
  if changed =? 0 then
    throw (McpBundleImportConflict "audit version changed or preview is no longer active")
  else require_import id.

Definition complete_mcp_bundle_import_audit (id : Uuid) (expected_version : Z) (result_ : Json)
    : M McpBundleImportAudit :=
  ensure_import_audit_redacted "result" no_rebindings result_ ;;
  let! current := get_mcp_bundle_import_audit id in
  if match current with Some c => bool_decide (mia_status c = ImportCommitted) | None => false end
  then lift (ok_or current (McpBundleImportNotFound id))
  else
    let! now := utc_now in
    let! changed := execute (update_imports (previewed_at id expected_version) (set_committed result_ now)) in
    if changed =? 0 then throw (McpBundleImportConflict "audit version changed before commit")
    else require_import id.

Definition cancel_mcp_bundle_import_audit (id : Uuid) (expected_version : Z) : M McpBundleImportAudit :=
  let! now := utc_now in
  let! changed := execute (update_imports (previewed_at id expected_version) (set_cancelled now)) in
  if changed =? 0 then
    throw (McpBundleImportConflict "audit version changed or preview is no longer active")
  else require_import id.

(** ** What a commit may do *)

(** [Uuid::nil()]. *)
Definition nil_uuid : Uuid := 0%N.

Definition synthetic_import_profile (show : Uuid → string) (p : McpBundleImportProfileMutation)
    : McpProfile :=
  mkProfile (show (default nil_uuid (pmu_profile_id p))) (pmu_name p) (pmu_description p)
    (default 0 (pmu_expected_version p) + 1) (pmu_servers p) "" "".

(** The references and the destinations seen so far are the two sets. *)
Fixpoint validate_import_profiles (show : Uuid → string) (refs : list string) (ids : list Uuid)
    (l : list McpBundleImportProfileMutation) : result unit StoreError :=
  match l with
  | [] => Ok tt
  | p :: l' =>
      if trim_is_empty (pmu_profile_ref p) || bool_decide (pmu_profile_ref p ∈ refs) then
        Err (InvalidMcpBundleImport "import profile references must be unique")
      else
        try! ids' <- match pmu_profile_id p, pmu_expected_version p with
                     | Some i, Some _ =>
                         if bool_decide (i ∈ ids) then
                           Err (InvalidMcpBundleImport
                                  "one destination profile cannot be rebound more than once")
                         else Ok (i :: ids)
                     | None, None => Ok ids
                     | _, _ => Err (InvalidMcpBundleImport
                                      "profile id and expectedVersion must be supplied together")
                     end;
        try! _ <- valid_profile (synthetic_import_profile show p);
        validate_import_profiles show (pmu_profile_ref p :: refs) ids' l'
  end.

Definition validate_bundle_commit_input (show : Uuid → string) (input : McpBundleImportCommit)
    : result unit StoreError :=
  try! _ <- validate_import_profiles show [] [] (bic_profiles input);
  if existsb (λ b, negb (bool_decide (bmu_profile_ref b ∈ map pmu_profile_ref (bic_profiles input))) ||
                   trim_is_empty (bmu_target_id b)) (bic_bindings input)
  then Err (InvalidMcpBundleImport "import bindings must reference an imported profile and explicit target")
  else Ok tt.

(** Equality of the sets of the elements. *)
Definition same_set {A} `{EqDecision A} (l1 l2 : list A) : bool :=
  forallb (λ x, bool_decide (x ∈ l2)) l1 && forallb (λ x, bool_decide (x ∈ l1)) l2.

(** [BTreeMap::get] in the entries of the map. *)
Definition map_get {A} (key : string) (l : list (string * A)) : option A :=
  snd <$> find (λ '(k, _), str_eqb k key) l.

Definition bundle_binding_key (b : McpBundleBinding) : string * string * McpBindingTargetType :=
  (bb_profile_ref b, bb_target_ref b, bb_target_type b).
Definition commit_binding_key (b : McpBundleImportBindingMutation) : string * string * McpBindingTargetType :=
  (bmu_profile_ref b, bmu_target_ref b, bmu_target_type b).

Definition validate_commit_matches_audit (audit : McpImportRow) (input : McpBundleImportCommit)
    : result unit StoreError :=
  if negb (same_set (map bp_profile_ref (gb_profiles (mir_bundle audit)))
                    (map pmu_profile_ref (bic_profiles input))) then
    Err (InvalidMcpBundleImport "commit profiles do not match the previewed bundle")
  else if negb (same_set (map bundle_binding_key (gb_relative_bindings (mir_bundle audit)))
                         (map commit_binding_key (bic_bindings input))) then
    Err (InvalidMcpBundleImport "commit bindings do not match the previewed bundle")
  else if existsb (λ b, negb (bool_decide
                     (map_get (bmu_target_ref b) (rb_targets (mir_rebindings audit)) = Some (bmu_target_id b))))
            (bic_bindings input) then
    Err (InvalidMcpBundleImport "commit binding target differs from the previewed rebinding")
  else Ok tt.

Definition validate_import_binding_target (installation_id : string)
    (target_type : McpBindingTargetType) (target_id : string) : M unit :=
  match target_type with
  | Machine => machine_target_matches installation_id target_id
  | Workspace => workspace_target_exists target_id
  | AgentTarget => agent_target_exists target_id
  end.

(** ** The transaction of a commit *)

(** The local variables of the loop over the profiles. *)
Record Imported := mkImported {
  im_profile_ids : gmap string Uuid;
  im_created : list string;
  im_updated : list string;
}.

(** [SET name, description, version = version + 1, servers_json, updated_at]. *)
Definition set_imported_profile (p : McpBundleImportProfileMutation) (now : Time) (r : McpProfileRow)
    : McpProfileRow :=
  mkProfileRow (mpr_id r) (pmu_name p) (pmu_description p) (mpr_version r + 1) (pmu_servers p)
    (mpr_created_at r) now.

Definition import_profile (show : Uuid → string) (now : Time) (acc : Imported)
    (p : McpBundleImportProfileMutation) : M Imported :=
  match pmu_profile_id p with
  | Some profile_id =>
      let! expected := lift (ok_or (pmu_expected_version p)
                         (InvalidMcpBundleImport "updated profile requires expectedVersion")) in
      let! changed := execute (sql_update db_mcp_profiles with_mcp_profiles
        (λ _, profile_at profile_id expected) (set_imported_profile p now)) in
      if changed =? 0 then
        throw (McpBundleImportConflict
                 ("profile " +:+ show profile_id +:+ " version changed before import commit"))
      else ret (mkImported (<[pmu_profile_ref p := profile_id]> (im_profile_ids acc)) (im_created acc)
                  (im_updated acc ++ [show profile_id])%list)
  | None =>
      let! profile_id := new_v4 in
      execute (insert_mcp_profile (mkProfileRow profile_id (pmu_name p) (pmu_description p) 1
        (pmu_servers p) now now)) ;;
      ret (mkImported (<[pmu_profile_ref p := profile_id]> (im_profile_ids acc))
             (im_created acc ++ [show profile_id])%list (im_updated acc))
  end.

Fixpoint import_profiles (show : Uuid → string) (now : Time) (acc : Imported)
    (l : list McpBundleImportProfileMutation) : M Imported :=
  match l with
  | [] => ret acc
  | p :: l' => let! acc' := import_profile show now acc p in import_profiles show now acc' l'
  end.

Definition import_binding (installation_id : string) (show : Uuid → string) (now : Time)
    (profile_ids : gmap string Uuid) (created : list string) (b : McpBundleImportBindingMutation)
    : M (list string) :=
  let! profile_id := lift (ok_or (profile_ids !! bmu_profile_ref b)
                       (InvalidMcpBundleImport "binding references unknown imported profile")) in
  validate_import_binding_target installation_id (bmu_target_type b) (bmu_target_id b) ;;
  let! exists_ := fetch (λ db, exists_row (is_mcp_binding profile_id (as_str (bmu_target_type b))
                                            (bmu_target_id b)) (db_mcp_bindings db)) in
  if exists_ then ret created
  else
    let! binding_id := new_v4 in
    execute (insert_mcp_binding (mkMcpBindingRow binding_id profile_id (as_str (bmu_target_type b))
      (bmu_target_id b) 1 now now)) ;;
    ret (created ++ [show binding_id])%list.

Fixpoint import_bindings (installation_id : string) (show : Uuid → string) (now : Time)
    (profile_ids : gmap string Uuid) (created : list string) (l : list McpBundleImportBindingMutation)
    : M (list string) :=
  match l with
  | [] => ret created
  | b :: l' =>
      let! created' := import_binding installation_id show now profile_ids created b in
      import_bindings installation_id show now profile_ids created' l'
  end.

Definition import_result (imported : Imported) (bindings : list string) : Json :=
  JObject [("applyImported", JBool false); ("approvalImported", JBool false);
           ("createdBindingIds", json_list JString bindings);
           ("createdProfileIds", json_list JString (im_created imported));
           ("updatedProfileIds", json_list JString (im_updated imported))].

Definition commit_body (installation_id : string) (id : Uuid) (expected_version : Z)
    (input : McpBundleImportCommit) : M unit :=
  let! reserved := execute (update_imports (previewed_at id expected_version) (λ r, r)) in
  if reserved =? 0 then throw (McpBundleImportConflict "audit version changed before commit")
  else
    let! now := utc_now in
    let! show := uuid_display in
    let! imported := import_profiles show now (mkImported ∅ [] []) (bic_profiles input) in
    let! bindings := import_bindings installation_id show now (im_profile_ids imported) []
                       (bic_bindings input) in
    let result_ := import_result imported bindings in
    ensure_import_audit_redacted "result" no_rebindings result_ ;;
    let! changed := execute (update_imports (previewed_at id expected_version) (set_committed result_ now)) in
    if changed =? 0 then throw (McpBundleImportConflict "audit version changed before commit")
    else ret tt.

Definition commit_mcp_bundle_import (installation_id : string) (id : Uuid) (expected_version : Z)
    (input : McpBundleImportCommit) : M McpBundleImportAudit :=
  let! current := require_import id in
  if bool_decide (mia_status current = ImportCommitted) then ret current
  else if bool_decide (mia_status current ≠ ImportPreviewed) ||
          negb (mir_version (mia_row current) =? expected_version) then
    throw (McpBundleImportConflict "audit version changed before commit")
  else
    let! show := uuid_display in
    lift (validate_bundle_commit_input show input) ;;
    lift (validate_commit_matches_audit (mia_row current) input) ;;
    transaction (commit_body installation_id id expected_version input) ;;
    require_import id.

(** The operations that change these tables. *)
Inductive McpImportOp : Type :=
  | CreateImport (input : NewMcpBundleImportAudit)
  | UpdateImportPreview (id : Uuid) (expected_version : Z) (rebindings : McpBundleRebindings) (preview : Json)
  | CompleteImport (id : Uuid) (expected_version : Z) (result_ : Json)
  | CommitImport (id : Uuid) (expected_version : Z) (input : McpBundleImportCommit)
  | CancelImport (id : Uuid) (expected_version : Z).

Definition run_mcp_import_op (installation_id : string) (op : McpImportOp) : M unit :=
  match op with
  | CreateImport i => create_mcp_bundle_import_audit i ;; ret tt
  | UpdateImportPreview i v r p => update_mcp_bundle_import_preview i v r p ;; ret tt
  | CompleteImport i v r => complete_mcp_bundle_import_audit i v r ;; ret tt
  | CommitImport i v c => commit_mcp_bundle_import installation_id i v c ;; ret tt
  | CancelImport i v => cancel_mcp_bundle_import_audit i v ;; ret tt
  end.

(** ** The schema *)

Lemma insert_import_ok r :
  persisted McpBundleImportStatus (mir_status r) → stmt_preserves schema_ok (insert_import r).
Proof.
  intros Hs db db' [] Hok H. unfold insert_import in H. inv_stmt. mcp_frame Hok.
  - apply NoDup_map_snoc; [done|]. eapply exists_key_false; [|exact Hguard].
    intros x Hx. unfold import_is. by rewrite Hx, N.eqb_refl.
  - apply NoDup_map_snoc; [done|]. eapply exists_key_false; [|exact Hguard].
    intros x [= H1 H2]. unfold has_import_key.
    by rewrite H1, str_eqb_refl, bool_decide_eq_true_2, orb_true_r.
  - by apply Forall_snoc.
Qed.

(** What an update of an import leaves, whatever it writes. *)
Definition import_identity (r : McpImportRow) :=
  (mir_id r, mir_bundle_hash r, mir_schema_version r, mir_actor r, mir_bundle r, mir_created_at r).

Definition import_update (f : McpImportRow → McpImportRow) : Prop :=
  keeps import_identity f ∧
  ∀ r, (f r = r ∨ mir_version r < mir_version (f r)) ∧
    (persisted McpBundleImportStatus (mir_status r) → persisted McpBundleImportStatus (mir_status (f r))).

Lemma update_imports_ok p f : import_update f → stmt_preserves schema_ok (update_imports p f).
Proof.
  intros [Hid Hf] db db' n Hok H. unfold update_imports in H. inv_stmt. mcp_frame Hok.
  - rewrite map_update_where; [done|]. intros r. by injection (Hid r).
  - apply Forall_update_where; [done|]. intros r _. apply Hf.
Qed.

Lemma set_preview_update rb pv now : import_update (set_preview rb pv now).
Proof. split; [done|]. intros r. simpl. split; [right; lia|done]. Qed.
Lemma set_committed_update v now : import_update (set_committed v now).
Proof. split; [done|]. intros r. simpl. split; [right; lia|]. intros _. by exists ImportCommitted. Qed.
Lemma set_cancelled_update now : import_update (set_cancelled now).
Proof. split; [done|]. intros r. simpl. split; [right; lia|]. intros _. by exists ImportCancelled. Qed.
Lemma same_update : import_update (λ r, r).
Proof. split; [done|]. intros r. split; [by left|done]. Qed.
#[export] Hint Resolve set_preview_update set_committed_update set_cancelled_update same_update : cocli.

(** An operation keeps what its statements keep; profiles are written only as validated. *)
Lemma import_profiles_preserves (P : DB → Prop) show now acc l :
  (∀ p i t v, p ∈ l → stmt_preserves P (insert_mcp_profile
     (mkProfileRow i (pmu_name p) (pmu_description p) v (pmu_servers p) t t))) →
  (∀ p q t, p ∈ l → stmt_preserves P
     (sql_update db_mcp_profiles with_mcp_profiles q (set_imported_profile p t))) →
  preserves P (import_profiles show now acc l).
Proof.
  intros Hi Hu. revert acc. induction l as [|p l IH]; intros acc; simpl; [apply preserves_ret|].
  apply preserves_bind; [|intros acc'; apply IH; intros; [apply Hi|apply Hu]; set_solver].
  unfold import_profile. preserves_tac; [apply Hu|apply Hi]; set_solver.
Qed.

Lemma import_bindings_preserves (P : DB → Prop) installation show now ids acc l :
  (∀ r, stmt_preserves P (insert_mcp_binding r)) →
  preserves P (import_bindings installation show now ids acc l).
Proof.
  intros Hi. revert acc. induction l as [|b l IH]; intros acc; simpl; [apply preserves_ret|].
  apply preserves_bind; [|done].
  unfold import_binding, validate_import_binding_target, machine_target_matches,
    workspace_target_exists, agent_target_exists. preserves_tac.
Qed.

Lemma readonly_ensure_import a r p : readonly (ensure_import_audit_redacted a r p).
Proof.
  unfold ensure_import_audit_redacted. apply readonly_bind; [auto with cocli|]. intros _.
  destruct (_ || _); [auto with cocli|]. apply readonly_bind; [auto with cocli|].
  intros s. destruct (any_marker _ _); auto with cocli.
Qed.
Lemma readonly_validate_bundle b : readonly (validate_bundle b).
Proof. unfold validate_bundle. repeat (apply readonly_bind; [auto with cocli|intros]). auto with cocli. Qed.
Lemma readonly_decode_import row : readonly (decode_import row).
Proof. destruct row; simpl; [apply readonly_bind|]; auto with cocli. Qed.
Lemma readonly_get_import id : readonly (get_mcp_bundle_import_audit id).
Proof. apply readonly_bind; [apply readonly_fetch|apply readonly_decode_import]. Qed.
Lemma readonly_find_import h r : readonly (find_mcp_bundle_import_audit h r).
Proof. apply readonly_bind; [apply readonly_fetch|apply readonly_decode_import]. Qed.
Lemma readonly_require_import id : readonly (require_import id).
Proof. apply readonly_bind; [apply readonly_get_import|auto with cocli]. Qed.
#[export] Hint Resolve readonly_ensure_import readonly_validate_bundle readonly_decode_import
  readonly_get_import readonly_find_import readonly_require_import : cocli.

Lemma rbind_ok {A B E} (r : result A E) (k : A → result B E) b :
  rbind r k = Ok b → ∃ a, r = Ok a ∧ k a = Ok b.
Proof. destruct r as [a|x]; [|done]. by exists a. Qed.

(** The profiles of a commit that passed the checks. *)
Definition mutation_valid (p : McpBundleImportProfileMutation) : Prop :=
  validate_mcp_profile (mkProfile "" (pmu_name p) (pmu_description p) 0 (pmu_servers p) "" "") = Ok tt.

Definition mutation_target (p : McpBundleImportProfileMutation) : list Uuid := option_list (pmu_profile_id p).

Lemma validate_import_profiles_ok show refs ids l :
  validate_import_profiles show refs ids l = Ok tt →
  Forall mutation_valid l ∧ NoDup (map pmu_profile_ref l) ∧ (∀ p, p ∈ l → pmu_profile_ref p ∉ refs) ∧
  NoDup (concat (map mutation_target l)) ∧ (∀ i, i ∈ concat (map mutation_target l) → i ∉ ids).
Proof.
  revert refs ids. induction l as [|p l IH]; intros refs ids H; simpl in *.
  { split_and!; try constructor; intros ? Hx; inversion Hx. }
  destruct (_ || _) eqn:Er; [done|]. apply orb_false_iff in Er as [_ Er]. bsimp.
  apply rbind_ok in H as (ids' & Hids & H). apply rbind_ok in H as ([] & Hv%valid_profile_ok & H).
  apply IH in H as (H1 & H2 & H3 & H4 & H5).
  assert (∀ i, i ∈ mutation_target p → (i ∉ ids) ∧ i ∈ ids') as Hp.
  { unfold mutation_target. destruct (pmu_profile_id p) as [i|], (pmu_expected_version p); try done;
      [|intros i Hi; inversion Hi].
    case_bool_decide; [done|]. injection Hids as <-. simpl. set_solver. }
  assert (ids ⊆ ids') as Hsub.
  { destruct (pmu_profile_id p) as [i|], (pmu_expected_version p); try done; [|by injection Hids as <-].
    case_bool_decide; [done|]. injection Hids as <-. set_solver. }
  split_and!.
  - constructor; [exact Hv|done].
  - simpl. constructor; [|done]. intros (q & Hq & Hin)%list_elem_of_fmap. apply (H3 q Hin). set_solver.
  - intros q [->|Hq]%elem_of_cons; [done|]. specialize (H3 q Hq). set_solver.
  - apply NoDup_app. split_and!; [|intros i Hi Hin; by destruct (H5 i Hin (proj2 (Hp i Hi)))|done].
    unfold mutation_target. destruct (pmu_profile_id p); simpl; [apply NoDup_singleton|constructor].
  - intros i [Hi|Hi]%elem_of_app; [by apply Hp|]. specialize (H5 i Hi). set_solver.
Qed.

Lemma run_mcp_import_op_preserves (P : DB → Prop) installation op :
  (∀ r, mir_status r = "previewed" → stmt_preserves P (insert_import r)) →
  (∀ i v f, import_update f → stmt_preserves P (update_imports (previewed_at i v) f)) →
  (∀ r, profile_row_valid r → stmt_preserves P (insert_mcp_profile r)) →
  (∀ q f, keeps mpr_id f → (∀ r, profile_row_valid (f r)) →
    stmt_preserves P (sql_update db_mcp_profiles with_mcp_profiles q f)) →
  (∀ r, stmt_preserves P (insert_mcp_binding r)) →
  preserves P (run_mcp_import_op installation op).
Proof.
  intros Hi Hu Hp Hq Hb.
  assert (∀ A (m : M A), readonly m → preserves P m) as Hr by (intros; by apply preserves_readonly).
  destruct op as [i|i v r p|i v r|i v c|i v]; simpl; (apply preserves_bind; [|intros; apply preserves_ret]).
  - unfold create_mcp_bundle_import_audit.
    preserves_tac; by apply Hi.
  - unfold update_mcp_bundle_import_preview.
    preserves_tac; apply Hu; auto with cocli.
  - unfold complete_mcp_bundle_import_audit.
    preserves_tac; apply Hu; auto with cocli.
  - unfold commit_mcp_bundle_import. apply preserves_bind; [apply Hr; auto with cocli|]. intros cur.
    destruct (bool_decide _); [apply preserves_ret|]. destruct (_ || _); [apply preserves_throw|].
    apply preserves_bind; [apply preserves_uuid_display|]. intros show.
    apply preserves_check. intros [] Hc. apply preserves_bind; [apply preserves_lift|]. intros _.
    apply preserves_bind; [|intros; apply Hr; auto with cocli]. apply preserves_transaction.
    unfold validate_bundle_commit_input in Hc. apply rbind_ok in Hc as ([] & Hc & _).
    apply validate_import_profiles_ok in Hc as [Hvalid _]. rewrite Forall_forall in Hvalid.
    assert (∀ sh now acc, preserves P (import_profiles sh now acc (bic_profiles c))) as Himport.
    { intros. apply import_profiles_preserves; intros p **; [by apply Hp, Hvalid|].
      apply Hq; [done|]. intros ?. by apply Hvalid. }
    assert (∀ sh now ids acc, preserves P (import_bindings installation sh now ids acc (bic_bindings c)))
      as Hbind by (intros; by apply import_bindings_preserves).
    unfold commit_body. preserves_tac; try (apply Hu; auto with cocli).
  - unfold cancel_mcp_bundle_import_audit.
    preserves_tac; apply Hu; auto with cocli.
Qed.

Lemma run_mcp_import_op_schema installation op : preserves schema_ok (run_mcp_import_op installation op).
Proof.
  apply run_mcp_import_op_preserves; auto with cocli.
  - intros r Hr. apply insert_import_ok. rewrite Hr. by exists ImportPreviewed.
  - intros. by apply update_imports_ok.
  - intros. by apply update_mcp_profiles_ok.
Qed.

Lemma run_mcp_import_op_outside (P : DB → Prop) installation op :
  (∀ f db, P db → P (with_mcp_tables f db)) → preserves P (run_mcp_import_op installation op).
Proof.
  intros HP. apply run_mcp_import_op_preserves; intros; intros db db' x Hdb E.
  - unfold insert_import in E. inv_stmt. by apply HP.
  - unfold update_imports in E. inv_stmt. by apply HP.
  - unfold insert_mcp_profile in E. inv_stmt. by apply HP.
  - injection E as <- _. by apply HP.
  - unfold insert_mcp_binding in E. inv_stmt. by apply HP.
Qed.

Lemma run_mcp_import_op_data installation op : preserves mcp_data_ok (run_mcp_import_op installation op).
Proof.
  apply run_mcp_import_op_preserves; intros.
  - intros db db' x [H1 H2 H3] E. unfold insert_import in E. inv_stmt. by split.
  - intros db db' x [H1 H2 H3] E. unfold update_imports in E. inv_stmt. by split.
  - by apply insert_mcp_profile_data.
  - by apply update_mcp_profiles_data.
  - intros db db' x [H1 H2 H3] E. unfold insert_mcp_binding in E. inv_stmt. by split.
Qed.

(** An import never writes plans, approvals or apply runs. *)
Definition authority (db : DB) := (db_mcp_plans db, db_mcp_decisions db, db_mcp_runs db).

Lemma run_mcp_import_op_authority installation op x :
  preserves (λ db, authority db = x) (run_mcp_import_op installation op).
Proof.
  apply run_mcp_import_op_preserves; intros; intros db db' y <- E.
  - unfold insert_import in E. by inv_stmt.
  - unfold update_imports in E. by inv_stmt.
  - unfold insert_mcp_profile in E. by inv_stmt.
  - by injection E as <- _.
  - unfold insert_mcp_binding in E. by inv_stmt.
Qed.

(** ** The life of an import *)

Record import_evolves (r r' : McpImportRow) : Prop := {
  ie_identity : import_identity r' = import_identity r;
  ie_version : r' = r ∨ mir_version r < mir_version r';
  ie_final : mir_status r ≠ "previewed" → r' = r;
}.

#[export] Instance import_evolves_preorder : PreOrder import_evolves.
Proof.
  split.
  - intros r. by split; [|left|].
  - intros r1 r2 r3 [I1 V1 F1] [I2 V2 F2]. split; [congruence| |].
    + destruct V1 as [->|?]; [done|]. destruct V2 as [->|?]; [by right|right; lia].
    + intros H. rewrite (F1 H) in *. auto.
Qed.

Definition imports_evolve (db db' : DB) : Prop :=
  ∀ r, r ∈ db_mcp_imports db → ∃ r', r' ∈ db_mcp_imports db' ∧ import_evolves r r'.

Lemma run_mcp_import_op_evolves installation op db0 :
  preserves (imports_evolve db0) (run_mcp_import_op installation op).
Proof.
  apply run_mcp_import_op_preserves; intros; intros db db' y Hdb E r0 Hr0;
    destruct (Hdb r0 Hr0) as (r1 & Hr1 & He).
  - unfold insert_import in E. inv_stmt. exists r1. split; [|done]. apply elem_of_app. by left.
  - unfold update_imports in E. inv_stmt. exists (if previewed_at i v r1 then f r1 else r1). split.
    + apply list_elem_of_fmap. by exists r1.
    + etrans; [exact He|]. destruct (previewed_at i v r1) eqn:Ep; [|done].
      destruct H as [Hid Hf]. split; [apply Hid|apply Hf|]. unfold previewed_at in Ep. bsimp.
      match goal with H : str_eqb _ _ = true |- _ => by apply str_eqb_eq in H end.
  - unfold insert_mcp_profile in E. inv_stmt. by exists r1.
  - injection E as <- _. by exists r1.
  - unfold insert_mcp_binding in E. inv_stmt. by exists r1.
Qed.

(** ** What a commit writes *)

Definition carries (p : McpBundleImportProfileMutation) (r : McpProfileRow) : Prop :=
  mpr_name r = pmu_name p ∧ mpr_description r = pmu_description p ∧ mpr_servers r = pmu_servers p ∧
  (∀ i, pmu_profile_id p = Some i → mpr_id r = i).

Lemma update_where_elem {A} (p : A → bool) (f : A → A) (l : list A) x :
  x ∈ l → p x = false → x ∈ update_where p f l.
Proof. intros Hx Hp. apply list_elem_of_fmap. exists x. by rewrite Hp. Qed.

Lemma count_where_pos {A} (p : A → bool) (l : list A) :
  count_where p l ≠ 0 → ∃ x, x ∈ l ∧ p x = true.
Proof.
  unfold count_where. intros H. destruct (bfilter p l) as [|x l'] eqn:E; [done|].
  exists x. apply elem_of_bfilter. rewrite E. set_solver.
Qed.

Lemma import_profile_spec show now acc p e w w' acc' :
  import_profile show now acc p e w = (w', Ok acc') →
  (∃ r, r ∈ db_mcp_profiles (w_db w') ∧ carries p r ∧
        im_profile_ids acc' = <[pmu_profile_ref p := mpr_id r]> (im_profile_ids acc) ∧
        (pmu_profile_id p = None → ∃ n, mpr_id r = env_uuid e n)) ∧
  (∀ r, r ∈ db_mcp_profiles (w_db w) → pmu_profile_id p ≠ Some (mpr_id r) → r ∈ db_mcp_profiles (w_db w')).
Proof.
  unfold import_profile. intros H. destruct (pmu_profile_id p) as [i|] eqn:Ep; inv_run.
  - case_match; inv_run. match goal with H : sql_update _ _ _ _ _ = _ |- _ => injection H as Hdb Hn end.
    bsimp. match type of Hn with count_where ?q _ = _ => assert (∃ r, r ∈ db_mcp_profiles (w_db w) ∧ q r = true)
      as (r & Hr & Hat) by (apply count_where_pos; lia) end.
    assert (mpr_id r = i) as Hid by (unfold profile_at in Hat; bsimp; by apply N.eqb_eq).
    split.
    + exists (set_imported_profile p now r). rewrite <- Hdb. split_and!.
      * apply list_elem_of_fmap. exists r. by rewrite Hat.
      * split_and!; [done..|]. simpl. congruence.
      * simpl. by rewrite Hid.
      * done.
    + intros r' Hr' Hne. rewrite <- Hdb. apply update_where_elem; [done|]. unfold profile_at.
      destruct (N.eqb_spec (mpr_id r') i) as [E|]; [congruence|done].
  - match goal with H : insert_mcp_profile _ _ = _ |- _ => unfold insert_mcp_profile in H end. inv_stmt.
    match goal with H : _ = w_db w' |- _ => rename H into Hdb end.
    split.
    + eexists (mkProfileRow _ _ _ _ _ _ _). rewrite <- Hdb. split_and!.
      * apply elem_of_app. right. by apply list_elem_of_singleton.
      * unfold carries. rewrite Ep. by split_and!.
      * done.
      * intros _. by eexists.
    + intros r Hr _. rewrite <- Hdb. apply elem_of_app. by left.
Qed.

Lemma elem_of_targets i l :
  i ∈ concat (map mutation_target l) → ∃ p, p ∈ l ∧ pmu_profile_id p = Some i.
Proof.
  induction l as [|p l IH]; simpl; [intros H; inversion H|]. intros [Hi|Hi]%elem_of_app.
  - exists p. split; [set_solver|]. unfold mutation_target in Hi. destruct (pmu_profile_id p); set_solver.
  - destruct (IH Hi) as (q & Hq & E). exists q. split; [set_solver|done].
Qed.

Section Commit.
Context (e : Env).

(** Drawn identifiers are not among those that the import names. *)
Definition unnamed (l : list McpBundleImportProfileMutation) : Prop :=
  ∀ n p i, p ∈ l → pmu_profile_id p = Some i → env_uuid e n ≠ i.

Lemma import_profiles_spec show now acc l w w' acc' :
  unnamed l → NoDup (map pmu_profile_ref l) → NoDup (concat (map mutation_target l)) →
  import_profiles show now acc l e w = (w', Ok acc') →
  (∀ p, p ∈ l → ∃ r, r ∈ db_mcp_profiles (w_db w') ∧ carries p r ∧
                    im_profile_ids acc' !! pmu_profile_ref p = Some (mpr_id r)) ∧
  (∀ r, r ∈ db_mcp_profiles (w_db w) → mpr_id r ∉ concat (map mutation_target l) →
        r ∈ db_mcp_profiles (w_db w')) ∧
  (∀ k, k ∉ map pmu_profile_ref l → im_profile_ids acc' !! k = im_profile_ids acc !! k).
Proof.
  revert acc w. induction l as [|p l IH]; intros acc w Hu Hrefs Hids H; simpl in *.
  { unfold ret in H. simplify_eq. split_and!; [intros p Hp; inversion Hp|done..]. }
  apply bind_ok in H as (w1 & acc1 & H1%import_profile_spec & H).
  destruct H1 as ((r & Hr & Hc & Hm & Hfresh) & Hkeep).
  apply NoDup_cons in Hrefs as [Hp Hrefs]. apply NoDup_app in Hids as (Hp1 & Hpl & Hids).
  destruct (IH acc1 w1) as (I1 & I2 & I3); [|done..|].
  { intros n q i Hq. apply (Hu n q i). set_solver. }
  assert (mpr_id r ∉ concat (map mutation_target l)) as Hnot.
  { destruct (pmu_profile_id p) as [i|] eqn:Ei.
    - rewrite (proj2 (proj2 (proj2 Hc)) i Ei). apply Hpl. unfold mutation_target. rewrite Ei. set_solver.
    - destruct (Hfresh eq_refl) as [n ->]. intros (q & Hq & E)%elem_of_targets.
      apply (Hu n q _ (list_elem_of_further _ _ _ Hq) E). done. }
  split_and!.
  - intros q [->|Hq]%elem_of_cons; [|by apply I1]. exists r. split_and!; [by apply I2|done|].
    rewrite I3 by done. by rewrite Hm, lookup_insert_eq.
  - intros x Hx Hn. apply I2; [|set_solver]. apply Hkeep; [done|]. intros E. apply Hn.
    unfold mutation_target. rewrite E. set_solver.
  - intros k Hk. rewrite I3 by set_solver. rewrite Hm, lookup_insert_ne; [done|]. set_solver.
Qed.

Lemma import_binding_spec installation show now ids created b w w' created' :
  import_binding installation show now ids created b e w = (w', Ok created') →
  (∃ profile_id r, ids !! bmu_profile_ref b = Some profile_id ∧ r ∈ db_mcp_bindings (w_db w') ∧
     mcp_binding_key r = (profile_id, as_str (bmu_target_type b), bmu_target_id b)) ∧
  db_mcp_bindings (w_db w) ⊆ db_mcp_bindings (w_db w') ∧
  db_mcp_profiles (w_db w') = db_mcp_profiles (w_db w).
Proof.
  intros H. unfold import_binding in H. apply bind_ok in H as (w1 & pid & H1 & H).
  apply lift_ok in H1 as [-> H1]. destruct (ids !! bmu_profile_ref b) as [i|] eqn:Ei; [|done].
  injection H1 as ->. apply bind_ok in H as (w1 & u & H1 & H).
  assert (w_db w1 = w_db w) as Hw1.
  { assert (readonly (validate_import_binding_target installation (bmu_target_type b) (bmu_target_id b))) as Hr.
    { unfold validate_import_binding_target, machine_target_matches, workspace_target_exists,
        agent_target_exists. destruct (bmu_target_type b); repeat (case_match || apply readonly_bind || intros);
        auto with cocli. }
    specialize (Hr e w). by rewrite H1 in Hr. }
  rewrite <- Hw1. clear H1 Hw1. inv_run. case_match; inv_run.
  - split; [|by split_and!; same_db]. match goal with H : true = exists_row _ _ |- _ => symmetry in H;
      apply exists_row_true in H as (r & Hr & Hk) end.
    exists pid, r. same_db. split_and!; [done..|]. unfold is_mcp_binding in Hk. bsimp. unfold mcp_binding_key.
    repeat match goal with H : str_eqb _ _ = true |- _ => apply str_eqb_eq in H; rewrite H end.
    by match goal with H : (_ =? _)%N = true |- _ => apply N.eqb_eq in H; rewrite H end.
  - match goal with H : insert_mcp_binding _ _ = _ |- _ => unfold insert_mcp_binding in H end. inv_stmt.
    match goal with H : with_mcp_bindings _ _ = w_db w' |- _ => rewrite <- H; clear H end.
    match goal with H : w_db _ = w_db w1 |- _ => rewrite <- H end. split_and!.
    + exists pid. eexists (mkMcpBindingRow _ _ _ _ _ _ _). split_and!; [done| |done].
      apply elem_of_app. right. by apply list_elem_of_singleton.
    + intros r Hr. apply elem_of_app. by left.
    + done.
Qed.

Lemma import_bindings_spec installation show now ids created l w w' created' :
  import_bindings installation show now ids created l e w = (w', Ok created') →
  (∀ b, b ∈ l → ∃ profile_id r, ids !! bmu_profile_ref b = Some profile_id ∧
     r ∈ db_mcp_bindings (w_db w') ∧
     mcp_binding_key r = (profile_id, as_str (bmu_target_type b), bmu_target_id b)) ∧
  db_mcp_bindings (w_db w) ⊆ db_mcp_bindings (w_db w') ∧
  db_mcp_profiles (w_db w') = db_mcp_profiles (w_db w).
Proof.
  revert created w. induction l as [|b l IH]; intros created w H; simpl in *.
  { unfold ret in H. simplify_eq. split_and!; [intros b Hb; inversion Hb|done..]. }
  apply bind_ok in H as (w1 & c1 & (H1 & H2 & H3)%import_binding_spec & H).
  apply IH in H as (I1 & I2 & I3). split_and!; [|set_solver|congruence].
  intros q [->|Hq]%elem_of_cons; [|by apply I1]. destruct H1 as (i & r & ? & ? & ?).
  exists i, r. set_solver.
Qed.

Lemma import_audit_row r audit : import_audit_from_row r = Ok audit → mia_row audit = r ∧ mir_status r = as_str (mia_status audit).
Proof.
  unfold import_audit_from_row. destruct (negb _); [done|]. intros (s & Hs & [= <-])%rbind_ok. split; [done|].
  cbn [mia_status]. symmetry. by apply as_str_parse.
Qed.

Lemma require_import_row id w w' audit :
  require_import id e w = (w', Ok audit) →
  w_db w' = w_db w ∧ mia_row audit ∈ db_mcp_imports (w_db w) ∧ mir_id (mia_row audit) = id ∧
  mir_status (mia_row audit) = as_str (mia_status audit).
Proof.
  intros H. pose proof (readonly_require_import id e w) as Hw. rewrite H in Hw.
  split; [exact Hw|]. clear Hw. unfold require_import, get_mcp_bundle_import_audit, decode_import in H.
  inv_run. case_match; inv_run.
  match goal with H : import_audit_from_row _ = Ok _ |- _ => apply import_audit_row in H as [Hrow Hst] end.
  match goal with H : _ = head _ |- _ => symmetry in H; apply head_Some_elem_of, elem_of_bfilter in H as [Hin Hid] end.
  simplify_eq/=. unfold import_is in Hid. apply N.eqb_eq in Hid. by subst.
Qed.
(** The import tables across the loops of a commit. *)
Lemma import_loops_keep_imports show now acc l x :
  preserves (λ db, db_mcp_imports db = x) (import_profiles show now acc l).
Proof.
  apply import_profiles_preserves; intros; intros db db' y <- E.
  - unfold insert_mcp_profile in E. by inv_stmt.
  - by injection E as <- _.
Qed.

Lemma import_bindings_keep_imports installation show now ids acc l x :
  preserves (λ db, db_mcp_imports db = x) (import_bindings installation show now ids acc l).
Proof.
  apply import_bindings_preserves. intros r db db' y <- E. unfold insert_mcp_binding in E. by inv_stmt.
Qed.

Lemma update_imports_spec p f db db' n :
  update_imports p f db = Ok (db', n) →
  db_mcp_imports db' = update_where p f (db_mcp_imports db) ∧ n = count_where p (db_mcp_imports db) ∧
  db_mcp_profiles db' = db_mcp_profiles db ∧ db_mcp_bindings db' = db_mcp_bindings db.
Proof. unfold update_imports. intros E. by inv_stmt. Qed.

Lemma update_where_same {A} (p : A → bool) (l : list A) : update_where p (λ x, x) l = l.
Proof. unfold update_where. rewrite <- (map_id l) at 2. apply map_ext. intros x. by destruct (p x). Qed.

Lemma commit_body_spec installation id v input w w' :
  unnamed (bic_profiles input) → NoDup (map pmu_profile_ref (bic_profiles input)) →
  NoDup (concat (map mutation_target (bic_profiles input))) →
  commit_body installation id v input e w = (w', Ok tt) →
  (∃ r now, db_mcp_imports (w_db w') =
              update_where (previewed_at id v) (set_committed r now) (db_mcp_imports (w_db w))) ∧
  (∃ x, x ∈ db_mcp_imports (w_db w) ∧ previewed_at id v x = true) ∧
  ∀ p, p ∈ bic_profiles input → ∃ r, r ∈ db_mcp_profiles (w_db w') ∧ carries p r ∧
    ∀ b, b ∈ bic_bindings input → bmu_profile_ref b = pmu_profile_ref p →
      ∃ br, br ∈ db_mcp_bindings (w_db w') ∧
        mcp_binding_key br = (mpr_id r, as_str (bmu_target_type b), bmu_target_id b).
Proof.
  intros Hu Hrefs Hids H. unfold commit_body in H.
  apply bind_ok in H as (w1 & n & (_ & H1 & _)%execute_ok & H).
  apply update_imports_spec in H1 as (Hi1 & -> & _). rewrite update_where_same in Hi1.
  destruct (count_where _ _ =? 0) eqn:En; [done|]. bsimp.
  apply bind_ok in H as (w2 & now & [= <- _] & H). apply bind_ok in H as (w2 & show & [= <- _] & H).
  apply bind_ok in H as (w3 & imported & H3 & H). apply bind_ok in H as (w4 & bs & H4 & H).
  apply bind_ok in H as (w5 & u & H5 & H). apply bind_ok in H as (w6 & k & (_ & H6 & _)%execute_ok & H).
  destruct (k =? 0); [done|]. injection H as <-.
  apply update_imports_spec in H6 as (Hi6 & _ & Hp6 & Hb6).
  pose proof (readonly_ensure_import "result" no_rebindings (import_result imported bs) e w4) as Hw5.
  rewrite H5 in Hw5. simpl in Hw5.
  pose proof (import_loops_keep_imports show now (mkImported ∅ [] []) (bic_profiles input) _ e (tick w1) eq_refl) as K3.
  rewrite H3 in K3. simpl in K3.
  pose proof (import_bindings_keep_imports installation show now (im_profile_ids imported) []
    (bic_bindings input) _ e w3 eq_refl) as K4. rewrite H4 in K4. simpl in K4.
  apply import_profiles_spec in H3 as (P1 & _ & _); [|done..].
  apply import_bindings_spec in H4 as (B1 & _ & B3).
  split_and!.
  - eexists _, _. rewrite Hi6, Hw5, K4, K3. simpl. by rewrite Hi1.
  - by apply count_where_pos.
  - intros p Hp. destruct (P1 p Hp) as (r & Hr & Hc & Hm). exists r. rewrite Hp6, Hb6, Hw5, B3.
    split_and!; [done..|]. intros b Hb Href. destruct (B1 b Hb) as (i & br & Hi & Hbr & Hk).
    exists br. split; [done|]. rewrite Href, Hm in Hi. injection Hi as <-. done.
Qed.
End Commit.

Lemma same_set_iff {A} `{EqDecision A} (l1 l2 : list A) :
  same_set l1 l2 = true → ∀ x, x ∈ l1 ↔ x ∈ l2.
Proof.
  unfold same_set. rewrite andb_true_iff, !forallb_forall. intros [H1 H2] x.
  split; intros Hx%list_elem_of_In; [apply H1 in Hx|apply H2 in Hx]; by apply bool_decide_eq_true in Hx.
Qed.

Lemma commit_matches_ok audit input :
  validate_commit_matches_audit audit input = Ok tt →
  (∀ x, x ∈ map bp_profile_ref (gb_profiles (mir_bundle audit)) ↔
        x ∈ map pmu_profile_ref (bic_profiles input)) ∧
  (∀ b, b ∈ bic_bindings input →
     map_get (bmu_target_ref b) (rb_targets (mir_rebindings audit)) = Some (bmu_target_id b)).
Proof.
  unfold validate_commit_matches_audit. case_match eqn:E1; [done|]. case_match; [done|].
  case_match eqn:E3; [done|]. intros _. bsimp. split; [by apply same_set_iff|].
  intros b Hb. rewrite existsb_false in E3. specialize (E3 b Hb). by bsimp.
Qed.

(** A commit of a previewed import takes effect once and entirely. The audit becomes committed,
    one version further. The profiles written are those of the bundle, each as the commit gives it,
    updated in place where it names a profile. Each binding of the commit then links its profile
    to the target that the previewed rebindings give. Plans, approvals and runs are as before. *)
Theorem bundle_import_commits installation id v input e w w' audit cur :
  schema_ok (w_db w) → cur ∈ db_mcp_imports (w_db w) → mir_id cur = id → mir_status cur = "previewed" →
  unnamed e (bic_profiles input) →
  commit_mcp_bundle_import installation id v input e w = (w', Ok audit) →
  (mia_status audit = ImportCommitted ∧ mir_version (mia_row audit) = mir_version cur + 1 ∧
   mir_bundle (mia_row audit) = mir_bundle cur) ∧
  authority (w_db w') = authority (w_db w) ∧
  (∀ x, x ∈ map bp_profile_ref (gb_profiles (mir_bundle cur)) ↔
        x ∈ map pmu_profile_ref (bic_profiles input)) ∧
  ∀ p, p ∈ bic_profiles input → ∃ r, r ∈ db_mcp_profiles (w_db w') ∧ carries p r ∧
    ∀ b, b ∈ bic_bindings input → bmu_profile_ref b = pmu_profile_ref p →
      map_get (bmu_target_ref b) (rb_targets (mir_rebindings cur)) = Some (bmu_target_id b) ∧
      ∃ br, br ∈ db_mcp_bindings (w_db w') ∧
        mcp_binding_key br = (mpr_id r, as_str (bmu_target_type b), bmu_target_id b).
Proof.
  intros Hok Hcur Hid Hst Hu H.
  pose proof (run_mcp_import_op_authority installation (CommitImport id v input) _ e w eq_refl) as Hauth.
  simpl in Hauth. unfold bind at 1 in Hauth. rewrite H in Hauth. simpl in Hauth.
  unfold commit_mcp_bundle_import in H. apply bind_ok in H as (w1 & a & Ha & H).
  apply require_import_row in Ha as (Hw1 & Ha & Haid & Hast).
  assert (mia_row a = cur) as Hac.
  { eapply NoDup_key_eq; [exact (mo_imports _ (so_mcp _ Hok))|done..|congruence]. }
  rewrite Hac in *. case_bool_decide as Hc; [rewrite Hc in Hast; by rewrite Hst in Hast|].
  destruct (_ || _) eqn:Ev; [done|]. apply orb_false_iff in Ev as [_ Ev]. bsimp.
  apply bind_ok in H as (w2 & show & [= <- _] & H).
  apply bind_ok in H as (w2 & [] & [-> Hv]%lift_ok & H).
  apply bind_ok in H as (w3 & [] & [-> Hm]%lift_ok & H).
  apply bind_ok in H as (w4 & [] & (w5 & Hbody & Hw4)%transaction_ok & H).
  apply require_import_row in H as (Hw' & Hin & Hrid & Hrst). rewrite Hw4 in *.
  apply rbind_ok in Hv as ([] & Hv%validate_import_profiles_ok & _). destruct Hv as (_ & Hrefs & _ & Hids & _).
  apply commit_matches_ok in Hm as [Hmatch Htarget].
  apply commit_body_spec in Hbody as ((r & now & Himp) & _ & Hprof); [|done..].
  simpl in *. rewrite Hw1 in *. rewrite Himp in Hin.
  apply elem_of_update_where in Hin as (x & Hx & Hrow).
  assert (x = cur) as ->.
  { eapply NoDup_key_eq; [exact (mo_imports _ (so_mcp _ Hok))|done..|].
    rewrite Hrow in Hrid. destruct (previewed_at id v x); simpl in Hrid; congruence. }
  assert (previewed_at id v cur = true) as Hat.
  { unfold previewed_at, import_is. rewrite Hst, str_eqb_refl, andb_true_r. apply andb_true_iff.
    split; [by apply N.eqb_eq|lia]. }
  rewrite Hat in Hrow. rewrite Hrow in *. rewrite Hw'. split_and!; [|done|done|congruence|done|].
  - by destruct (mia_status audit).
  - intros p Hp. destruct (Hprof p Hp) as (row & Hr & Hcarry & Hb). exists row.
    split_and!; [done..|]. intros b Hb' Href. split; [by apply Htarget|by apply Hb].
Qed.

Module ImportDemo.
Definition unhashed : McpGovernanceBundle :=
  mkBundle 2 "alice" (mkProvenance "cocli" "1" ∅)
    [mkBundleProfile "profile:dev" "Dev tools" None 1 [DesiredDemo.github true]]
    [mkBundleBinding "profile:dev" Machine "target:1"] [] [] "".
Definition bundle : McpGovernanceBundle :=
  with_hash unhashed (mcp_bundle_content_hash str_rev demo_to_json unhashed).
Definition rebindings : McpBundleRebindings := mkRebindings [("target:1", "machine-1")] [] [] [] [].
Definition op : McpImportOp := CreateImport (mkNewImport bundle "ada" rebindings JNull).
Definition world : World := (run_mcp_import_op "machine-1" op (demo_env 100) start).1.
Definition commit : McpBundleImportCommit :=
  mkImportCommit [mkProfileMutation "profile:dev" None None "Dev tools" None [DesiredDemo.github true]]
    [mkBindingMutation "profile:dev" "target:1" Machine "machine-1"].
Definition row : McpImportRow :=
  mkImportRow 101 (gb_content_hash bundle) 2 "ada" "previewed" 1 bundle rebindings JNull None 2 2 None.
End ImportDemo.

Example import_demo : db_mcp_imports (w_db ImportDemo.world) = [ImportDemo.row].
Proof. vm_compute. reflexivity. Qed.

Lemma bundle_import_commits_witness :
  match commit_mcp_bundle_import "machine-1" 101 1 ImportDemo.commit (demo_env 200) ImportDemo.world with
  | (w', Ok audit) => mia_status audit = ImportCommitted ∧
      ∃ r, r ∈ db_mcp_profiles (w_db w') ∧ mpr_name r = "Dev tools" ∧ length (db_mcp_bindings (w_db w')) = 1%nat
  | _ => False
  end.
Proof.
  destruct (commit_mcp_bundle_import "machine-1" 101 1 ImportDemo.commit (demo_env 200) ImportDemo.world)
    as [w' [audit|x]] eqn:E; [|by vm_compute in E].
  destruct (bundle_import_commits "machine-1" 101 1 ImportDemo.commit (demo_env 200) ImportDemo.world w' audit
    ImportDemo.row) as ((Hs & _) & _ & _ & Hp).
  - apply (run_mcp_import_op_schema "machine-1" ImportDemo.op). apply schema_ok_empty.
  - rewrite import_demo. by apply list_elem_of_singleton.
  - reflexivity.
  - reflexivity.
  - intros n p i Hp%list_elem_of_singleton. by subst.
  - exact E.
  - split; [exact Hs|]. destruct (Hp _ (list_elem_of_here _ _)) as (r & Hr & Hc & _).
    exists r. split; [exact Hr|]. split; [apply Hc|]. vm_compute in E. by injection E as <- _.
Defined.
