(* ===== verification/StoreSkillPlans.v ===== *)
(** * Skill profiles, bindings, snapshots and plans

    [crates/cocli-store/src/skill_governance.rs], the desired state and the plans made from it:
    versioned profiles, their bindings to scopes, lock snapshots, and plans that are approved,
    rejected or marked stale with an audit row per transition. The file holds the tables and the
    helpers that the other files on skill governance share. The history of a plan is shown to be
    complete: its audit rows lead from the draft to its present status, one version at a time. *)
From S2P Require Import Prelude SkillGovernanceTypes StoreTypes StoreDb StoreSchema.

(** ** Tables *)

Definition sg_profiles (db : DB) : list SkillProfileRow :=
  skill_profiles (skill_governance_tables db).
Definition sg_bindings (db : DB) : list SkillProfileBindingRow :=
  skill_profile_bindings (skill_governance_tables db).
Definition sg_snapshots (db : DB) : list SkillLockSnapshotRow :=
  skill_lock_snapshots (skill_governance_tables db).
Definition sg_plans (db : DB) : list SkillGovernancePlanRow :=
  skill_governance_plans (skill_governance_tables db).
Definition sg_plan_audit (db : DB) : list SkillGovernancePlanAuditRow :=
  skill_governance_plan_audit (skill_governance_tables db).
Definition sg_locks (db : DB) : list SkillGovernanceScopedLockRow :=
  skill_governance_scoped_locks (skill_governance_tables db).
Definition sg_runs (db : DB) : list SkillGovernanceApplyRunRow :=
  skill_governance_apply_runs (skill_governance_tables db).
Definition sg_actions (db : DB) : list SkillGovernanceApplyActionRow :=
  skill_governance_apply_actions (skill_governance_tables db).
Definition sg_audit (db : DB) : list SkillGovernanceApplyAuditRow :=
  skill_governance_apply_audit (skill_governance_tables db).
Definition sg_artifacts (db : DB) : list SkillGovernanceManagedArtifactRow :=
  skill_governance_managed_artifacts (skill_governance_tables db).
Definition sg_materializations (db : DB) : list SkillGovernanceMaterializationRow :=
  skill_governance_materializations (skill_governance_tables db).
Definition sg_adoptions (db : DB) : list SkillGovernanceAdoptionAuditRow :=
  skill_governance_adoption_audit (skill_governance_tables db).
Definition sg_lockfiles (db : DB) : list SkillGovernanceWorkspaceLockfileRow :=
  skill_governance_workspace_lockfiles (skill_governance_tables db).
Definition sg_references (db : DB) : list SkillGovernanceGcReferenceRow :=
  skill_governance_gc_references (skill_governance_tables db).

Definition with_sg_profiles (f : list SkillProfileRow → list SkillProfileRow) : DB → DB :=
  with_skill_governance_tables (λ t, mkSkillGovernanceTables (f (skill_profiles t))
    (skill_profile_bindings t) (skill_lock_snapshots t) (skill_governance_plans t)
    (skill_governance_plan_audit t) (skill_governance_scoped_locks t)
    (skill_governance_apply_runs t) (skill_governance_apply_actions t)
    (skill_governance_apply_audit t) (skill_governance_managed_artifacts t)
    (skill_governance_materializations t) (skill_governance_adoption_audit t)
    (skill_governance_workspace_lockfiles t) (skill_governance_gc_references t)).
Definition with_sg_bindings (f : list SkillProfileBindingRow → list SkillProfileBindingRow) : DB → DB :=
  with_skill_governance_tables (λ t, mkSkillGovernanceTables (skill_profiles t) (f
    (skill_profile_bindings t)) (skill_lock_snapshots t) (skill_governance_plans t)
    (skill_governance_plan_audit t) (skill_governance_scoped_locks t)
    (skill_governance_apply_runs t) (skill_governance_apply_actions t)
    (skill_governance_apply_audit t) (skill_governance_managed_artifacts t)
    (skill_governance_materializations t) (skill_governance_adoption_audit t)
    (skill_governance_workspace_lockfiles t) (skill_governance_gc_references t)).
Definition with_sg_snapshots (f : list SkillLockSnapshotRow → list SkillLockSnapshotRow) : DB → DB :=
  with_skill_governance_tables (λ t, mkSkillGovernanceTables (skill_profiles t)
    (skill_profile_bindings t) (f (skill_lock_snapshots t)) (skill_governance_plans t)
    (skill_governance_plan_audit t) (skill_governance_scoped_locks t)
    (skill_governance_apply_runs t) (skill_governance_apply_actions t)
    (skill_governance_apply_audit t) (skill_governance_managed_artifacts t)
    (skill_governance_materializations t) (skill_governance_adoption_audit t)
    (skill_governance_workspace_lockfiles t) (skill_governance_gc_references t)).
Definition with_sg_plans (f : list SkillGovernancePlanRow → list SkillGovernancePlanRow) : DB → DB :=
  with_skill_governance_tables (λ t, mkSkillGovernanceTables (skill_profiles t)
    (skill_profile_bindings t) (skill_lock_snapshots t) (f (skill_governance_plans t))
    (skill_governance_plan_audit t) (skill_governance_scoped_locks t)
    (skill_governance_apply_runs t) (skill_governance_apply_actions t)
    (skill_governance_apply_audit t) (skill_governance_managed_artifacts t)
    (skill_governance_materializations t) (skill_governance_adoption_audit t)
    (skill_governance_workspace_lockfiles t) (skill_governance_gc_references t)).
Definition with_sg_plan_audit (f : list SkillGovernancePlanAuditRow → list SkillGovernancePlanAuditRow) : DB → DB :=
  with_skill_governance_tables (λ t, mkSkillGovernanceTables (skill_profiles t)
    (skill_profile_bindings t) (skill_lock_snapshots t) (skill_governance_plans t) (f
    (skill_governance_plan_audit t)) (skill_governance_scoped_locks t)
    (skill_governance_apply_runs t) (skill_governance_apply_actions t)
    (skill_governance_apply_audit t) (skill_governance_managed_artifacts t)
    (skill_governance_materializations t) (skill_governance_adoption_audit t)
    (skill_governance_workspace_lockfiles t) (skill_governance_gc_references t)).
Definition with_sg_locks (f : list SkillGovernanceScopedLockRow → list SkillGovernanceScopedLockRow) : DB → DB :=
  with_skill_governance_tables (λ t, mkSkillGovernanceTables (skill_profiles t)
    (skill_profile_bindings t) (skill_lock_snapshots t) (skill_governance_plans t)
    (skill_governance_plan_audit t) (f (skill_governance_scoped_locks t))
    (skill_governance_apply_runs t) (skill_governance_apply_actions t)
    (skill_governance_apply_audit t) (skill_governance_managed_artifacts t)
    (skill_governance_materializations t) (skill_governance_adoption_audit t)
    (skill_governance_workspace_lockfiles t) (skill_governance_gc_references t)).
Definition with_sg_runs (f : list SkillGovernanceApplyRunRow → list SkillGovernanceApplyRunRow) : DB → DB :=
  with_skill_governance_tables (λ t, mkSkillGovernanceTables (skill_profiles t)
    (skill_profile_bindings t) (skill_lock_snapshots t) (skill_governance_plans t)
    (skill_governance_plan_audit t) (skill_governance_scoped_locks t) (f
    (skill_governance_apply_runs t)) (skill_governance_apply_actions t)
    (skill_governance_apply_audit t) (skill_governance_managed_artifacts t)
    (skill_governance_materializations t) (skill_governance_adoption_audit t)
    (skill_governance_workspace_lockfiles t) (skill_governance_gc_references t)).
Definition with_sg_actions (f : list SkillGovernanceApplyActionRow → list SkillGovernanceApplyActionRow) : DB → DB :=
  with_skill_governance_tables (λ t, mkSkillGovernanceTables (skill_profiles t)
    (skill_profile_bindings t) (skill_lock_snapshots t) (skill_governance_plans t)
    (skill_governance_plan_audit t) (skill_governance_scoped_locks t)
    (skill_governance_apply_runs t) (f (skill_governance_apply_actions t))
    (skill_governance_apply_audit t) (skill_governance_managed_artifacts t)
    (skill_governance_materializations t) (skill_governance_adoption_audit t)
    (skill_governance_workspace_lockfiles t) (skill_governance_gc_references t)).
Definition with_sg_audit (f : list SkillGovernanceApplyAuditRow → list SkillGovernanceApplyAuditRow) : DB → DB :=
  with_skill_governance_tables (λ t, mkSkillGovernanceTables (skill_profiles t)
    (skill_profile_bindings t) (skill_lock_snapshots t) (skill_governance_plans t)
    (skill_governance_plan_audit t) (skill_governance_scoped_locks t)
    (skill_governance_apply_runs t) (skill_governance_apply_actions t) (f
    (skill_governance_apply_audit t)) (skill_governance_managed_artifacts t)
    (skill_governance_materializations t) (skill_governance_adoption_audit t)
    (skill_governance_workspace_lockfiles t) (skill_governance_gc_references t)).
Definition with_sg_artifacts (f : list SkillGovernanceManagedArtifactRow → list SkillGovernanceManagedArtifactRow) : DB → DB :=
  with_skill_governance_tables (λ t, mkSkillGovernanceTables (skill_profiles t)
    (skill_profile_bindings t) (skill_lock_snapshots t) (skill_governance_plans t)
    (skill_governance_plan_audit t) (skill_governance_scoped_locks t)
    (skill_governance_apply_runs t) (skill_governance_apply_actions t)
    (skill_governance_apply_audit t) (f (skill_governance_managed_artifacts t))
    (skill_governance_materializations t) (skill_governance_adoption_audit t)
    (skill_governance_workspace_lockfiles t) (skill_governance_gc_references t)).
Definition with_sg_materializations (f : list SkillGovernanceMaterializationRow → list SkillGovernanceMaterializationRow) : DB → DB :=
  with_skill_governance_tables (λ t, mkSkillGovernanceTables (skill_profiles t)
    (skill_profile_bindings t) (skill_lock_snapshots t) (skill_governance_plans t)
    (skill_governance_plan_audit t) (skill_governance_scoped_locks t)
    (skill_governance_apply_runs t) (skill_governance_apply_actions t)
    (skill_governance_apply_audit t) (skill_governance_managed_artifacts t) (f
    (skill_governance_materializations t)) (skill_governance_adoption_audit t)
    (skill_governance_workspace_lockfiles t) (skill_governance_gc_references t)).
Definition with_sg_adoptions (f : list SkillGovernanceAdoptionAuditRow → list SkillGovernanceAdoptionAuditRow) : DB → DB :=
  with_skill_governance_tables (λ t, mkSkillGovernanceTables (skill_profiles t)
    (skill_profile_bindings t) (skill_lock_snapshots t) (skill_governance_plans t)
    (skill_governance_plan_audit t) (skill_governance_scoped_locks t)
    (skill_governance_apply_runs t) (skill_governance_apply_actions t)
    (skill_governance_apply_audit t) (skill_governance_managed_artifacts t)
    (skill_governance_materializations t) (f (skill_governance_adoption_audit t))
    (skill_governance_workspace_lockfiles t) (skill_governance_gc_references t)).
Definition with_sg_lockfiles (f : list SkillGovernanceWorkspaceLockfileRow → list SkillGovernanceWorkspaceLockfileRow) : DB → DB :=
  with_skill_governance_tables (λ t, mkSkillGovernanceTables (skill_profiles t)
    (skill_profile_bindings t) (skill_lock_snapshots t) (skill_governance_plans t)
    (skill_governance_plan_audit t) (skill_governance_scoped_locks t)
    (skill_governance_apply_runs t) (skill_governance_apply_actions t)
    (skill_governance_apply_audit t) (skill_governance_managed_artifacts t)
    (skill_governance_materializations t) (skill_governance_adoption_audit t) (f
    (skill_governance_workspace_lockfiles t)) (skill_governance_gc_references t)).
Definition with_sg_references (f : list SkillGovernanceGcReferenceRow → list SkillGovernanceGcReferenceRow) : DB → DB :=
  with_skill_governance_tables (λ t, mkSkillGovernanceTables (skill_profiles t)
    (skill_profile_bindings t) (skill_lock_snapshots t) (skill_governance_plans t)
    (skill_governance_plan_audit t) (skill_governance_scoped_locks t)
    (skill_governance_apply_runs t) (skill_governance_apply_actions t)
    (skill_governance_apply_audit t) (skill_governance_managed_artifacts t)
    (skill_governance_materializations t) (skill_governance_adoption_audit t)
    (skill_governance_workspace_lockfiles t) (f (skill_governance_gc_references t))).

(** ** Shared helpers *)

(** [row.map(decode).transpose()] and [rows.into_iter().map(decode).collect()]. *)
Definition decode_option {A B} (decode : A → M B) (row : option A) : M (option B) :=
  match row with
  | None => ret None
  | Some r => let! v := decode r in ret (Some v)
  end.
Fixpoint decode_all {A B} (decode : A → M B) (rows : list A) : M (list B) :=
  match rows with
  | [] => ret []
  | r :: rows' => let! v := decode r in let! vs := decode_all decode rows' in ret (v :: vs)
  end.

(** [....await?.ok_or(StoreError::SkillGovernanceNotFound { entity, id })]. *)
Definition require {A} (entity : string) (id : Uuid) (m : M (option A)) : M A :=
  let! found := m in
  lift (ok_or found (SkillGovernanceNotFound entity id)).

(** The error of an update or deletion that found no row. *)
Definition missing_row {A B} (entity : string) (id : Uuid) (expected_version : Z) (version : A → Z)
    (m : M (option A)) : M B :=
  let! found := m in
  match found with
  | Some current => throw (SkillGovernanceVersionConflict entity id (version current) expected_version)
  | None => throw (SkillGovernanceNotFound entity id)
  end.

Definition scope_ok (s : string) : bool := is_ok (parse (A := SkillGovernanceScope) s).
Definition plan_status_ok (s : string) : bool := is_ok (parse (A := SkillGovernancePlanStatus) s).

(** ** Profiles *)

Definition profile_entity : string := "skill profile".
Definition profile_is (id : Uuid) (r : SkillProfileRow) : bool := (skp_id r =? id)%N.
Definition skill_profile_at (id : Uuid) (version : Z) (r : SkillProfileRow) : bool :=
  profile_is id r && (skp_version r =? version).

Definition has_skill_profile (db : DB) (id : Uuid) : bool := exists_row (profile_is id) (sg_profiles db).

Definition insert_skill_profile (r : SkillProfileRow) (db : DB) : result (DB * unit) SqlError :=
  try! _ <- guard (negb (has_skill_profile db (skp_id r))) UniqueViolation;
  Ok (with_sg_profiles (λ l, l ++ [r])%list db, tt).

Definition forget_profile (dead : Uuid → bool) (s : SkillLockSnapshotRow) : SkillLockSnapshotRow :=
  mkSkillLockSnapshot (sls_id s) (sls_scope s) (sls_scope_id s) (forget dead (sls_profile_id s))
    (sls_snapshot s) (sls_observation_hash s) (sls_desired_hash s) (sls_lock_hash s)
    (sls_created_at s).

(** [DELETE FROM skill_profiles WHERE id = ? AND version = ?]: bindings cascade, snapshots keep
    a null reference. *)
Definition delete_skill_profile_row (id : Uuid) (version : Z) (db : DB) : result (DB * Z) SqlError :=
  let p := skill_profile_at id version in
  let dead i := exists_row (λ r, profile_is i r && p r) (sg_profiles db) in
  Ok (with_sg_snapshots (map (forget_profile dead))
        (with_sg_bindings (delete_where (λ b, dead (spb_profile_id b)))
          (with_sg_profiles (delete_where p) db)),
      count_where p (sg_profiles db)).

Definition skill_profile_from_row (r : SkillProfileRow) : M SkillProfile :=
  let! document := json_from_str (skp_document r) in
  ret (mkSkillProfile (skp_id r) document (skp_version r) (skp_created_at r) (skp_updated_at r)).

Definition get_skill_profile (profile_id : Uuid) : M (option SkillProfile) :=
  let! row := fetch_optional (λ db, bfilter (profile_is profile_id) (sg_profiles db)) in
  decode_option skill_profile_from_row row.

(** [ORDER BY updated_at DESC, id]. *)
Definition profile_recent (a b : SkillProfileRow) : comparison :=
  then_cmp (Z.compare (skp_updated_at b) (skp_updated_at a)) (N.compare (skp_id a) (skp_id b)).

Definition list_skill_profiles : M (list SkillProfile) :=
  let! rows := fetch (λ db, sort_by profile_recent (sg_profiles db)) in
  decode_all skill_profile_from_row rows.

Definition create_skill_profile (document : Json) : M SkillProfile :=
  let! id := new_v4 in
  let! now := utc_now in
  let! text := json_to_string document in
  execute (insert_skill_profile (mkSkillProfile id text 1 now now)) ;;
  require profile_entity id (get_skill_profile id).

(** [SET document_json, version = version + 1, updated_at]. *)
Definition set_document (text : string) (now : Time) (r : SkillProfileRow) : SkillProfileRow :=
  mkSkillProfile (skp_id r) text (skp_version r + 1) (skp_created_at r) now.

Definition update_skill_profile (profile_id : Uuid) (document : Json) (expected_version : Z)
    : M SkillProfile :=
  let! text := json_to_string document in
  let! now := utc_now in
  let! changed := execute (sql_update sg_profiles with_sg_profiles
    (λ _, skill_profile_at profile_id expected_version) (set_document text now)) in
  if changed =? 0 then
    missing_row profile_entity profile_id expected_version skp_version (get_skill_profile profile_id)
  else require profile_entity profile_id (get_skill_profile profile_id).

Definition delete_skill_profile (profile_id : Uuid) (expected_version : Z) : M bool :=
  let! current := require profile_entity profile_id (get_skill_profile profile_id) in
  if negb (skp_version current =? expected_version) then
    throw (SkillGovernanceVersionConflict profile_entity profile_id (skp_version current) expected_version)
  else
    let! changed := execute (delete_skill_profile_row profile_id expected_version) in
    if changed =? 0 then
      missing_row profile_entity profile_id expected_version skp_version (get_skill_profile profile_id)
    else ret (0 <? changed).

(** ** Bindings *)

Definition binding_entity : string := "skill profile binding".
Definition binding_is (id : Uuid) (r : SkillProfileBindingRow) : bool := (spb_id r =? id)%N.
Definition binds (scope scope_id : string) (profile_id : Uuid) (r : SkillProfileBindingRow) : bool :=
  str_eqb (spb_scope r) scope && str_eqb (spb_scope_id r) scope_id && (spb_profile_id r =? profile_id)%N.

Definition insert_skill_binding (r : SkillProfileBindingRow) (db : DB) : result (DB * unit) SqlError :=
  try! _ <- guard (scope_ok (spb_scope r)) CheckViolation;
  try! _ <- guard (negb (exists_row (λ old, binding_is (spb_id r) old ||
                     binds (spb_scope r) (spb_scope_id r) (spb_profile_id r) old) (sg_bindings db)))
                  UniqueViolation;
  try! _ <- guard (has_skill_profile db (spb_profile_id r)) ForeignKeyViolation;
  Ok (with_sg_bindings (λ l, l ++ [r])%list db, tt).

Definition skill_profile_binding_from_row (r : SkillProfileBindingRow) : M SkillProfileBinding :=
  let! scope := lift (parse (spb_scope r)) in
  ret (mkSkillProfileBinding (spb_id r) scope (spb_scope_id r) (spb_profile_id r) (spb_version r)
         (spb_created_at r) (spb_updated_at r)).

Definition get_skill_profile_binding (binding_id : Uuid) : M (option SkillProfileBinding) :=
  let! row := fetch_optional (λ db, bfilter (binding_is binding_id) (sg_bindings db)) in
  decode_option skill_profile_binding_from_row row.

Definition select_binding_for_profile (scope : SkillGovernanceScope) (scope_id : string)
    (profile_id : Uuid) : M (option SkillProfileBinding) :=
  let! row := fetch_optional (λ db, bfilter (binds (as_str scope) scope_id profile_id) (sg_bindings db)) in
  decode_option skill_profile_binding_from_row row.

(** The transaction of a binding: the row that exists, or the identifier of the new one. *)
Definition bind_body (scope : SkillGovernanceScope) (scope_id : string) (profile_id : Uuid) (now : Time)
    : M (SkillProfileBinding + Uuid) :=
  let! version := fetch_optional (λ db, map skp_version (bfilter (profile_is profile_id) (sg_profiles db))) in
  match version with
  | None => throw (SkillGovernanceNotFound profile_entity profile_id)
  | Some _ =>
      let! existing := select_binding_for_profile scope scope_id profile_id in
      match existing with
      | Some existing => ret (inl existing)
      | None =>
          let! id := new_v4 in
          execute (insert_skill_binding (mkSkillProfileBinding id (as_str scope) scope_id profile_id 1 now now)) ;;
          ret (inr id)
      end
  end.

Definition bind_skill_profile (scope : SkillGovernanceScope) (scope_id : string) (profile_id : Uuid)
    : M SkillProfileBinding :=
  let! now := utc_now in
  let! outcome := transaction (bind_body scope scope_id profile_id now) in
  match outcome with
  | inl existing => ret existing
  | inr id => require binding_entity id (get_skill_profile_binding id)
  end.

Definition created_order (a b : SkillProfileBindingRow) : comparison :=
  then_cmp (Z.compare (spb_created_at a) (spb_created_at b)) (N.compare (spb_id a) (spb_id b)).

Definition list_skill_profile_bindings (scope : option SkillGovernanceScope) : M (list SkillProfileBinding) :=
  let! rows := match scope with
    | Some scope => fetch (λ db, sort_by (λ a b, then_cmp (String.compare (spb_scope_id a) (spb_scope_id b))
                                            (created_order a b))
                             (bfilter (λ b, str_eqb (spb_scope b) (as_str scope)) (sg_bindings db)))
    | None => fetch (λ db, sort_by (λ a b, then_cmp (String.compare (spb_scope a) (spb_scope b))
                              (then_cmp (String.compare (spb_scope_id a) (spb_scope_id b)) (created_order a b)))
                       (sg_bindings db))
    end in
  decode_all skill_profile_binding_from_row rows.

Definition list_skill_profile_bindings_for_scope (scope : SkillGovernanceScope) (scope_id : string)
    : M (list SkillProfileBinding) :=
  let! rows := fetch (λ db, sort_by created_order
    (bfilter (λ b, str_eqb (spb_scope b) (as_str scope) && str_eqb (spb_scope_id b) scope_id) (sg_bindings db))) in
  decode_all skill_profile_binding_from_row rows.

Definition unbind_skill_profile (binding_id : Uuid) (expected_version : Z) : M bool :=
  let! current := require binding_entity binding_id (get_skill_profile_binding binding_id) in
  if negb (spb_version current =? expected_version) then
    throw (SkillGovernanceVersionConflict binding_entity binding_id (spb_version current) expected_version)
  else
    let! changed := execute (sql_delete sg_bindings with_sg_bindings
      (λ b, binding_is binding_id b && (spb_version b =? expected_version))) in
    if changed =? 0 then
      missing_row binding_entity binding_id expected_version spb_version (get_skill_profile_binding binding_id)
    else ret (0 <? changed).

(** ** Lock snapshots *)

Definition insert_snapshot (r : SkillLockSnapshotRow) (db : DB) : result (DB * unit) SqlError :=
  try! _ <- guard (scope_ok (sls_scope r)) CheckViolation;
  try! _ <- guard (negb (exists_row (λ old, sls_id old =? sls_id r)%N (sg_snapshots db))) UniqueViolation;
  try! _ <- guard (null_or (has_skill_profile db) (sls_profile_id r)) ForeignKeyViolation;
  Ok (with_sg_snapshots (λ l, l ++ [r])%list db, tt).

Definition skill_lock_snapshot_from_row (r : SkillLockSnapshotRow) : M SkillLockSnapshot :=
  let! scope := lift (parse (sls_scope r)) in
  let! snapshot := json_from_str (sls_snapshot r) in
  ret (mkSkillLockSnapshot (sls_id r) scope (sls_scope_id r) (sls_profile_id r) snapshot
         (sls_observation_hash r) (sls_desired_hash r) (sls_lock_hash r) (sls_created_at r)).

Definition get_skill_lock_snapshot (snapshot_id : Uuid) : M (option SkillLockSnapshot) :=
  let! row := fetch_optional (λ db, bfilter (λ s, sls_id s =? snapshot_id)%N (sg_snapshots db)) in
  decode_option skill_lock_snapshot_from_row row.

Definition create_skill_lock_snapshot (input : NewSkillLockSnapshot) : M SkillLockSnapshot :=
  let! id := new_v4 in
  let! text := json_to_string (nls_snapshot input) in
  let! now := utc_now in
  execute (insert_snapshot (mkSkillLockSnapshot id (as_str (nls_scope input)) (nls_scope_id input)
    (nls_profile_id input) text (nls_observation_hash input) (nls_desired_hash input)
    (nls_lock_hash input) now)) ;;
  require "skill lock snapshot" id (get_skill_lock_snapshot id).

Definition list_skill_lock_snapshots (scope : SkillGovernanceScope) (scope_id : string)
    : M (list SkillLockSnapshot) :=
  let! rows := fetch (λ db, sort_by (λ a b, then_cmp (Z.compare (sls_created_at b) (sls_created_at a))
                                      (N.compare (sls_id a) (sls_id b)))
    (bfilter (λ s, str_eqb (sls_scope s) (as_str scope) && str_eqb (sls_scope_id s) scope_id) (sg_snapshots db))) in
  decode_all skill_lock_snapshot_from_row rows.

(** ** Plans *)

Definition plan_entity : string := "skill governance plan".
Definition skill_plan_is (id : Uuid) (r : SkillGovernancePlanRow) : bool := (sgp_id r =? id)%N.
Definition has_skill_plan (db : DB) (id : Uuid) : bool := exists_row (skill_plan_is id) (sg_plans db).

Definition insert_skill_plan (r : SkillGovernancePlanRow) (db : DB) : result (DB * unit) SqlError :=
  try! _ <- guard (scope_ok (sgp_scope r) && plan_status_ok (sgp_status r) && (0 <? sgp_version r)) CheckViolation;
  try! _ <- guard (negb (has_skill_plan db (sgp_id r))) UniqueViolation;
  Ok (with_sg_plans (λ l, l ++ [r])%list db, tt).

Definition insert_plan_audit (r : SkillGovernancePlanAuditRow) (db : DB) : result (DB * unit) SqlError :=
  try! _ <- guard (bool_decide (spa_action r ∈ ["approve"; "reject"; "stale"]) &&
                   plan_status_ok (spa_from_status r) && plan_status_ok (spa_to_status r) &&
                   (0 <? spa_from_version r) && (0 <? spa_to_version r)) CheckViolation;
  try! _ <- guard (negb (exists_row (λ old, spa_id old =? spa_id r)%N (sg_plan_audit db))) UniqueViolation;
  try! _ <- guard (has_skill_plan db (spa_plan_id r)) ForeignKeyViolation;
  Ok (with_sg_plan_audit (λ l, l ++ [r])%list db, tt).

Definition skill_governance_plan_from_row (r : SkillGovernancePlanRow) : M SkillGovernancePlan :=
  let! scope := lift (parse (sgp_scope r)) in
  let! plan := json_from_str (sgp_plan r) in
  let! status := lift (parse (sgp_status r)) in
  ret (mkSkillGovernancePlan (sgp_id r) scope (sgp_scope_id r) plan (sgp_observation_hash r)
         (sgp_desired_hash r) status (sgp_version r) (sgp_created_at r) (sgp_updated_at r)).

Definition get_skill_governance_plan (plan_id : Uuid) : M (option SkillGovernancePlan) :=
  let! row := fetch_optional (λ db, bfilter (skill_plan_is plan_id) (sg_plans db)) in
  decode_option skill_governance_plan_from_row row.

Definition create_skill_governance_plan (scope : SkillGovernanceScope) (scope_id : string) (plan : Json)
    (observation_hash desired_hash : string) : M SkillGovernancePlan :=
  let! id := new_v4 in
  let! now := utc_now in
  let! text := json_to_string plan in
  execute (insert_skill_plan (mkSkillGovernancePlan id (as_str scope) scope_id text observation_hash
    desired_hash "draft" 1 now now)) ;;
  require plan_entity id (get_skill_governance_plan id).

Definition list_skill_governance_plans (scope : SkillGovernanceScope) (scope_id : string)
    : M (list SkillGovernancePlan) :=
  let! rows := fetch (λ db, sort_by (λ a b, then_cmp (Z.compare (sgp_updated_at b) (sgp_updated_at a))
                                      (N.compare (sgp_id a) (sgp_id b)))
    (bfilter (λ p, str_eqb (sgp_scope p) (as_str scope) && str_eqb (sgp_scope_id p) scope_id) (sg_plans db))) in
  decode_all skill_governance_plan_from_row rows.

Definition skill_governance_plan_audit_from_row (r : SkillGovernancePlanAuditRow) : M SkillGovernancePlanAudit :=
  let! from_status := lift (parse (spa_from_status r)) in
  let! to_status := lift (parse (spa_to_status r)) in
  ret (mkSkillGovernancePlanAudit (spa_id r) (spa_plan_id r) (spa_action r) from_status to_status
         (spa_from_version r) (spa_to_version r) (spa_created_at r)).

Definition list_skill_governance_plan_audit (plan_id : Uuid) : M (list SkillGovernancePlanAudit) :=
  let! rows := fetch (λ db, sort_by (λ a b, then_cmp (Z.compare (spa_created_at a) (spa_created_at b))
                                      (N.compare (spa_id a) (spa_id b)))
    (bfilter (λ a, spa_plan_id a =? plan_id)%N (sg_plan_audit db))) in
  decode_all skill_governance_plan_audit_from_row rows.

Definition valid_transition (from to_status : SkillGovernancePlanStatus) : bool :=
  match to_status with
  | PlanApproved | PlanRejected => bool_decide (from = PlanDraft)
  | PlanStale => bool_decide (from ∈ [PlanDraft; PlanApproved])
  | PlanDraft => false
  end.

(** [SET status, version, updated_at]. *)
Definition set_plan_status (status : string) (version : Z) (now : Time) (r : SkillGovernancePlanRow)
    : SkillGovernancePlanRow :=
  mkSkillGovernancePlan (sgp_id r) (sgp_scope r) (sgp_scope_id r) (sgp_plan r)
    (sgp_observation_hash r) (sgp_desired_hash r) status version (sgp_created_at r) now.

Definition transition_body (plan_id : Uuid) (expected_version : Z) (action : string)
    (to_status : SkillGovernancePlanStatus) : M unit :=
  let! current := require plan_entity plan_id (get_skill_governance_plan plan_id) in
  if negb (sgp_version current =? expected_version) then
    throw (SkillGovernanceVersionConflict plan_entity plan_id (sgp_version current) expected_version)
  else if negb (valid_transition (sgp_status current) to_status) then
    throw (SkillGovernanceTransitionConflict plan_id (as_str (sgp_status current)) (as_str to_status))
  else
    let! now := utc_now in
    let to_version := sgp_version current + 1 in
    let! changed := execute (sql_update sg_plans with_sg_plans
      (λ _ r, skill_plan_is plan_id r && (sgp_version r =? sgp_version current) &&
              str_eqb (sgp_status r) (as_str (sgp_status current)))
      (set_plan_status (as_str to_status) to_version now)) in
    if changed =? 0 then
      throw (SkillGovernanceVersionConflict plan_entity plan_id (sgp_version current) expected_version)
    else
      let! audit_id := new_v4 in
      execute (insert_plan_audit (mkSkillGovernancePlanAudit audit_id plan_id action
        (as_str (sgp_status current)) (as_str to_status) (sgp_version current) to_version now)).

Definition transition_skill_governance_plan (plan_id : Uuid) (expected_version : Z) (action : string)
    (to_status : SkillGovernancePlanStatus) : M SkillGovernancePlan :=
  transaction (transition_body plan_id expected_version action to_status) ;;
  require plan_entity plan_id (get_skill_governance_plan plan_id).

Definition approve_skill_governance_plan (plan_id : Uuid) (expected_version : Z) : M SkillGovernancePlan :=
  transition_skill_governance_plan plan_id expected_version "approve" PlanApproved.
Definition reject_skill_governance_plan (plan_id : Uuid) (expected_version : Z) : M SkillGovernancePlan :=
  transition_skill_governance_plan plan_id expected_version "reject" PlanRejected.
Definition mark_skill_governance_plan_stale (plan_id : Uuid) (expected_version : Z) : M SkillGovernancePlan :=
  transition_skill_governance_plan plan_id expected_version "stale" PlanStale.

(** The operations that change these tables. *)
Inductive SkillPlanOp : Type :=
  | CreateSkillProfile (document : Json)
  | UpdateSkillProfile (profile_id : Uuid) (document : Json) (expected_version : Z)
  | DeleteSkillProfile (profile_id : Uuid) (expected_version : Z)
  | BindSkillProfile (scope : SkillGovernanceScope) (scope_id : string) (profile_id : Uuid)
  | UnbindSkillProfile (binding_id : Uuid) (expected_version : Z)
  | CreateLockSnapshot (input : NewSkillLockSnapshot)
  | CreateSkillPlan (scope : SkillGovernanceScope) (scope_id : string) (plan : Json)
      (observation_hash desired_hash : string)
  | ApproveSkillPlan (plan_id : Uuid) (expected_version : Z)
  | RejectSkillPlan (plan_id : Uuid) (expected_version : Z)
  | MarkSkillPlanStale (plan_id : Uuid) (expected_version : Z).

Definition run_skill_plan_op (op : SkillPlanOp) : M unit :=
  match op with
  | CreateSkillProfile d => create_skill_profile d ;; ret tt
  | UpdateSkillProfile p d v => update_skill_profile p d v ;; ret tt
  | DeleteSkillProfile p v => delete_skill_profile p v ;; ret tt
  | BindSkillProfile s i p => bind_skill_profile s i p ;; ret tt
  | UnbindSkillProfile b v => unbind_skill_profile b v ;; ret tt
  | CreateLockSnapshot i => create_skill_lock_snapshot i ;; ret tt
  | CreateSkillPlan s i p o d => create_skill_governance_plan s i p o d ;; ret tt
  | ApproveSkillPlan p v => approve_skill_governance_plan p v ;; ret tt
  | RejectSkillPlan p v => reject_skill_governance_plan p v ;; ret tt
  | MarkSkillPlanStale p v => mark_skill_governance_plan_stale p v ;; ret tt
  end.

(** ** The schema *)

Lemma skill_governance_frame db db' :
  schema_ok db → db' = with_skill_governance_tables (λ _, skill_governance_tables db') db →
  skill_governance_ok (skill_governance_tables db') → schema_ok db'.
Proof. intros Hok -> Hg. frame_tac Hok. Qed.

Ltac sg_unfold :=
  unfold sg_profiles, sg_bindings, sg_snapshots, sg_plans, sg_plan_audit, sg_locks, sg_runs,
    sg_actions, sg_audit, sg_artifacts, sg_materializations, sg_adoptions, sg_lockfiles,
    sg_references in *.

Ltac sg_frame Hok :=
  refine (skill_governance_frame _ _ Hok eq_refl _);
  let H := fresh in pose proof (so_skill_governance _ Hok) as H; destruct H; split;
  sg_unfold;
  cbn [with_sg_profiles with_sg_bindings with_sg_snapshots with_sg_plans with_sg_plan_audit
    with_sg_locks with_sg_runs with_sg_actions with_sg_audit with_sg_artifacts
    with_sg_materializations with_sg_adoptions with_sg_lockfiles with_sg_references
    with_skill_governance_tables skill_governance_tables skill_profiles skill_profile_bindings skill_lock_snapshots
    skill_governance_plans skill_governance_plan_audit skill_governance_scoped_locks
    skill_governance_apply_runs skill_governance_apply_actions skill_governance_apply_audit
    skill_governance_managed_artifacts skill_governance_materializations
    skill_governance_adoption_audit skill_governance_workspace_lockfiles
    skill_governance_gc_references] in *; try assumption.

(** A new row whose key no row has. *)
Ltac new_key H := apply NoDup_map_snoc; [assumption|]; eapply exists_key_false; [|exact H]; cbv beta.

Lemma has_skill_profile_true db id :
  has_skill_profile db id = true ↔ id ∈ map skp_id (sg_profiles db).
Proof. apply (exists_row_key skp_id (λ j, (j =? id)%N)). intros j. apply (N.eqb_eq j id). Qed.
Lemma has_skill_plan_true db id : has_skill_plan db id = true ↔ id ∈ map sgp_id (sg_plans db).
Proof. apply (exists_row_key sgp_id (λ j, (j =? id)%N)). intros j. apply (N.eqb_eq j id). Qed.
Lemma scope_ok_true s : scope_ok s = true ↔ persisted SkillGovernanceScope s.
Proof. unfold scope_ok. by rewrite persisted_parse. Qed.
Lemma plan_status_ok_true s : plan_status_ok s = true ↔ persisted SkillGovernancePlanStatus s.
Proof. unfold plan_status_ok. by rewrite persisted_parse. Qed.

Lemma absent_or_in_mono (l l' : list Uuid) o : l ⊆ l' → absent_or_in l o → absent_or_in l' o.
Proof. destruct o; simpl; [set_solver|done]. Qed.

Lemma insert_skill_profile_ok r : stmt_preserves schema_ok (insert_skill_profile r).
Proof.
  intros db db' [] Hok H. unfold insert_skill_profile in H. inv_stmt. sg_frame Hok.
  - new_key Hguard. intros x Hx. unfold profile_is. by rewrite Hx, N.eqb_refl.
  - eapply Forall_impl; [exact go_binding_rows|]. rewrite map_app. set_solver.
  - eapply Forall_impl; [exact go_snapshot_rows|]. rewrite map_app. intros s [Hs ?]. split; [|done].
    eapply absent_or_in_mono; [|exact Hs]. set_solver.
Qed.

Lemma update_skill_profiles_ok p f :
  keeps skp_id f → stmt_preserves schema_ok (sql_update sg_profiles with_sg_profiles p f).
Proof.
  intros Hf db db' n Hok [= <- _]. sg_frame Hok; by rewrite map_update_where.
Qed.

Lemma delete_skill_profile_row_ok id v : stmt_preserves schema_ok (delete_skill_profile_row id v).
Proof.
  intros db db' n Hok H. unfold delete_skill_profile_row in H. injection H as <- _.
  set (dead := λ i, exists_row _ _).
  assert (∀ i, dead i = false → i ∈ map skp_id (sg_profiles db) →
    i ∈ map skp_id (delete_where (skill_profile_at id v) (sg_profiles db))) as Hlive.
  { intros i Hd (r & -> & Hr)%list_elem_of_fmap. apply list_elem_of_fmap. exists r. split; [done|].
    apply elem_of_delete_where. split; [done|]. unfold dead in Hd. rewrite exists_row_false in Hd.
    specialize (Hd r Hr). unfold profile_is in Hd. by rewrite N.eqb_refl in Hd. }
  sg_frame Hok; auto with cocli.
  - eapply Forall_kept; [exact go_binding_rows|]. intros b _ Hb [Hin Hp]. split; [by apply Hlive|done].
  - rewrite map_map. exact go_snapshots.
  - apply Forall_map. eapply Forall_impl; [exact go_snapshot_rows|]. intros s [Hs Hsc]. split; [|done].
    simpl. destruct (sls_profile_id s) as [i|]; simpl in *; [|done]. destruct (dead i) eqn:Hd; [done|].
    by apply Hlive.
Qed.

Lemma insert_skill_binding_ok r : stmt_preserves schema_ok (insert_skill_binding r).
Proof.
  intros db db' [] Hok H. unfold insert_skill_binding in H. inv_stmt. sg_frame Hok.
  - new_key Hguard0. intros x Hx. unfold binding_is. by rewrite Hx, N.eqb_refl.
  - new_key Hguard0. intros x [= H1 H2 H3]. unfold binds.
    by rewrite H1, H2, H3, N.eqb_refl, !str_eqb_refl, orb_true_r.
  - apply Forall_snoc; [done|]. split; [by apply has_skill_profile_true|by apply scope_ok_true].
Qed.

Lemma delete_skill_bindings_ok p : stmt_preserves schema_ok (sql_delete sg_bindings with_sg_bindings p).
Proof. intros db db' n Hok [= <- _]. sg_frame Hok; auto with cocli. by apply Forall_delete_where. Qed.

Lemma insert_snapshot_ok r : stmt_preserves schema_ok (insert_snapshot r).
Proof.
  intros db db' [] Hok H. unfold insert_snapshot in H. inv_stmt. sg_frame Hok.
  - new_key Hguard0. intros x Hx. by rewrite Hx, N.eqb_refl.
  - apply Forall_snoc; [done|]. split; [|by apply scope_ok_true].
    destruct (sls_profile_id r); simpl in *; [by apply has_skill_profile_true|done].
Qed.

Lemma insert_skill_plan_ok r : stmt_preserves schema_ok (insert_skill_plan r).
Proof.
  intros db db' [] Hok H. unfold insert_skill_plan in H. inv_stmt. sg_frame Hok.
  - new_key Hguard0. intros x Hx. unfold skill_plan_is. by rewrite Hx, N.eqb_refl.
  - apply Forall_snoc; [done|]. split_and!; [by apply scope_ok_true|by apply plan_status_ok_true|lia].
  - eapply Forall_impl; [exact go_plan_audit_rows|]. rewrite map_app. set_solver.
  - eapply Forall_impl; [exact go_run_rows|]. rewrite map_app. intros x (?&?&?&Hp&?&?&?).
    split_and!; try done. eapply absent_or_in_mono; [|exact Hp]. set_solver.
Qed.

Lemma update_skill_plans_ok p f :
  keeps sgp_id f → keeps sgp_scope f →
  (∀ db r, r ∈ sg_plans db → p db r = true → 0 < sgp_version r → persisted SkillGovernancePlanStatus (sgp_status (f r)) ∧ 0 < sgp_version (f r)) →
  stmt_preserves schema_ok (sql_update sg_plans with_sg_plans p f).
Proof.
  intros Hid Hs Hf db db' n Hok [= <- _]. sg_frame Hok; rewrite ?map_update_where; try done.
  apply list.Forall_forall. intros x Hx. apply elem_of_update_where in Hx as (y & Hy & ->).
  rewrite list.Forall_forall in go_plan_rows. destruct (go_plan_rows y Hy) as (H1 & H2 & H3).
  destruct (p db y) eqn:Ep; [|done]. rewrite Hs. split; [done|]. by apply (Hf db).
Qed.

Lemma insert_plan_audit_ok r : stmt_preserves schema_ok (insert_plan_audit r).
Proof.
  intros db db' [] Hok H. unfold insert_plan_audit in H. inv_stmt. sg_frame Hok.
  - new_key Hguard0. intros x Hx. by rewrite Hx, N.eqb_refl.
  - apply Forall_snoc; [done|]. by apply has_skill_plan_true.
Qed.
#[export] Hint Resolve insert_skill_profile_ok delete_skill_profile_row_ok insert_skill_binding_ok
  delete_skill_bindings_ok insert_snapshot_ok insert_skill_plan_ok insert_plan_audit_ok : cocli.

Lemma readonly_decode_option {A B} (d : A → M B) o :
  (∀ r, readonly (d r)) → readonly (decode_option d o).
Proof. intros Hd. destruct o; simpl; [|auto with cocli]. apply readonly_bind; auto with cocli. Qed.
Lemma readonly_require {A} entity id (m : M (option A)) : readonly m → readonly (require entity id m).
Proof. intros Hm. apply readonly_bind; auto with cocli. Qed.
Lemma readonly_missing_row {A B} entity id v ver (m : M (option A)) :
  readonly m → readonly (missing_row (B := B) entity id v ver m).
Proof. intros Hm. apply readonly_bind; [done|]. intros [x|]; auto with cocli. Qed.
Lemma readonly_fetch_optional {A} (q : DB → list A) : readonly (fetch_optional q).
Proof. apply readonly_fetch. Qed.

Ltac readonly_tac :=
  repeat first
    [ progress intros
    | solve [auto 2 with cocli nocore]
    | apply readonly_fetch_optional
    | apply readonly_decode_option | apply readonly_require | apply readonly_missing_row
    | apply readonly_bind
    | progress (case_match; simplify_eq) ].

Lemma readonly_get_skill_profile id : readonly (get_skill_profile id).
Proof. unfold get_skill_profile, skill_profile_from_row. readonly_tac. Qed.
Lemma readonly_get_skill_profile_binding id : readonly (get_skill_profile_binding id).
Proof. unfold get_skill_profile_binding, skill_profile_binding_from_row. readonly_tac. Qed.
Lemma readonly_select_binding s i p : readonly (select_binding_for_profile s i p).
Proof. unfold select_binding_for_profile, skill_profile_binding_from_row. readonly_tac. Qed.
Lemma readonly_get_skill_lock_snapshot id : readonly (get_skill_lock_snapshot id).
Proof. unfold get_skill_lock_snapshot, skill_lock_snapshot_from_row. readonly_tac. Qed.
Lemma readonly_get_skill_governance_plan id : readonly (get_skill_governance_plan id).
Proof. unfold get_skill_governance_plan, skill_governance_plan_from_row. readonly_tac. Qed.
#[export] Hint Resolve readonly_get_skill_profile readonly_get_skill_profile_binding
  readonly_select_binding readonly_get_skill_lock_snapshot readonly_get_skill_governance_plan
  readonly_require readonly_missing_row : cocli.

(** What a read by key returns, or that no row has the key. *)
Lemma read_row {A B} (tab : DB → list A) (p : A → bool) (d : A → M B) e w w' found :
  (∀ r, readonly (d r)) →
  bind (fetch_optional (λ db, bfilter p (tab db))) (decode_option d) e w = (w', Ok found) →
  w_db w' = w_db w ∧
  match found with
  | Some x => ∃ r w1, r ∈ tab (w_db w) ∧ p r = true ∧ d r e w1 = (w', Ok x)
  | None => ∀ r, r ∈ tab (w_db w) → p r = false
  end.
Proof.
  intros Hd H. apply bind_ok in H as (w1 & o & [Hw1 ->]%fetch_optional_ok & H).
  destruct (head _) as [r|] eqn:Er; simpl in H.
  - apply bind_ok in H as (w2 & x & Hx & [= <- <-]). pose proof (Hd r e w1) as Hw2. rewrite Hx in Hw2.
    split; [by simpl in *; congruence|]. apply head_Some_elem_of, elem_of_bfilter in Er as [Hin Hp].
    by exists r, w1.
  - injection H as <- <-. split; [done|]. intros r Hr. apply head_None in Er.
    destruct (p r) eqn:Ep; [|done].
    assert (r ∈ bfilter p (tab (w_db w))) as Hin by (by apply elem_of_bfilter).
    rewrite Er in Hin. by inversion Hin.
Qed.

Lemma require_row {A B} (tab : DB → list A) (p : A → bool) (d : A → M B) entity id e w w' x :
  (∀ r, readonly (d r)) →
  require entity id (bind (fetch_optional (λ db, bfilter p (tab db))) (decode_option d)) e w = (w', Ok x) →
  w_db w' = w_db w ∧ ∃ r w1, r ∈ tab (w_db w) ∧ p r = true ∧ d r e w1 = (w', Ok x).
Proof.
  intros Hd H. apply bind_ok in H as (w1 & o & Ho & [-> H]%lift_ok).
  apply read_row in Ho as [Hw Ho]; [|done]. destruct o as [y|]; [|done]. injection H as ->. by split.
Qed.

(** *** Transitions of plans *)

Definition audits_of (plan_id : Uuid) (l : list SkillGovernancePlanAuditRow) : list SkillGovernancePlanAuditRow :=
  bfilter (λ a, spa_plan_id a =? plan_id)%N l.

(** The audit rows lead from one status and version to another, in order. *)
Inductive plan_path : string → Z → list SkillGovernancePlanAuditRow → string → Z → Prop :=
  | path_done status version : plan_path status version [] status version
  | path_step from version to_ a l status' version' :
      spa_from_status a = as_str from → spa_to_status a = as_str to_ →
      valid_transition from to_ = true →
      spa_from_version a = version → spa_to_version a = version + 1 →
      plan_path (as_str to_) (version + 1) l status' version' →
      plan_path (as_str from) version (a :: l) status' version'.

Definition plan_history_ok (db : DB) : Prop :=
  (∀ p, p ∈ sg_plans db → plan_path "draft" 1 (audits_of (sgp_id p) (sg_plan_audit db)) (sgp_status p) (sgp_version p)) ∧
  (∀ i, i ∉ map sgp_id (sg_plans db) → audits_of i (sg_plan_audit db) = []).

Lemma plan_path_snoc s v l from v' a to_ :
  plan_path s v l (as_str from) v' →
  spa_from_status a = as_str from → spa_to_status a = as_str to_ → valid_transition from to_ = true →
  spa_from_version a = v' → spa_to_version a = v' + 1 →
  plan_path s v (l ++ [a]) (as_str to_) (v' + 1).
Proof.
  intros Hp H1 H2 H3 H4 H5. remember (as_str from) as st eqn:Est. induction Hp; subst; simpl.
  - eapply path_step; [done..|]. constructor.
  - eapply path_step; [done..|]. by apply IHHp.
Qed.

(** The audit of a plan lists as many changes as its version counts. *)
Lemma plan_path_length s v l s' v' : plan_path s v l s' v' → v' = v + Z.of_nat (length l).
Proof. induction 1; simpl; lia. Qed.

Lemma update_where_same_rows {A} (p q : A → bool) (f : A → A) (l : list A) :
  (∀ x, x ∈ l → p x = q x) → update_where p f l = update_where q f l.
Proof.
  intros H. apply map_ext_in. intros x Hx%list_elem_of_In. by rewrite H.
Qed.

Lemma with_sg_plans_ext f g db : f (sg_plans db) = g (sg_plans db) → with_sg_plans f db = with_sg_plans g db.
Proof. unfold with_sg_plans, with_skill_governance_tables, sg_plans. by intros ->. Qed.

Lemma insert_plan_audit_spec r db db' u :
  insert_plan_audit r db = Ok (db', u) → db' = with_sg_plan_audit (λ l, l ++ [r])%list db.
Proof. unfold insert_plan_audit. intros H. by inv_stmt. Qed.

Lemma transition_body_spec plan_id v action to_ e w w' :
  schema_ok (w_db w) → transition_body plan_id v action to_ e w = (w', Ok tt) →
  ∃ p from now i, p ∈ sg_plans (w_db w) ∧ sgp_id p = plan_id ∧ sgp_version p = v ∧
    sgp_status p = as_str from ∧ valid_transition from to_ = true ∧
    w_db w' = with_sg_plan_audit (λ l, l ++
        [mkSkillGovernancePlanAudit i plan_id action (as_str from) (as_str to_) v (v + 1) now])%list
      (with_sg_plans (update_where (skill_plan_is plan_id) (set_plan_status (as_str to_) (v + 1) now)) (w_db w)).
Proof.
  intros Hok H. unfold transition_body in H. apply bind_ok in H as (w1 & cur & Hcur & H).
  apply (require_row sg_plans) in Hcur as [Hw1 (p & w2 & Hp & Hid & Hdec)];
    [|unfold skill_governance_plan_from_row; readonly_tac].
  assert (sgp_version cur = sgp_version p ∧ sgp_status p = as_str (sgp_status cur)) as [Hv Hst].
  { unfold skill_governance_plan_from_row in Hdec. inv_run. split; [done|]. symmetry. by apply as_str_parse. }
  case_match eqn:Ev; [done|]. case_match eqn:Et; [done|]. bsimp.
  apply bind_ok in H as (w3 & now & [= <- _] & H).
  apply bind_ok in H as (w4 & n & (_ & Hdb & _)%execute_ok & H).
  apply sql_update_ok in Hdb as [Hdb _].
  destruct (n =? 0); [done|]. apply bind_ok in H as (w5 & i & [= <- _] & H).
  apply execute_ok in H as (_ & H%insert_plan_audit_spec & _). cbn [w_db tick] in *.
  exists p, (sgp_status cur), now, i. apply N.eqb_eq in Hid as Hid'. split_and!; [done..|congruence|done|done|].
  rewrite H, Hdb, Hw1, Ev. f_equal. apply with_sg_plans_ext, update_where_same_rows.
  intros x Hx. unfold skill_plan_is. destruct (N.eqb_spec (sgp_id x) plan_id) as [Hxi|]; [|done].
  assert (x = p) as -> by (eapply (NoDup_key_eq sgp_id);
    [exact (go_plans _ (so_skill_governance _ Hok))|done..|congruence]).
  rewrite Hst, str_eqb_refl. simpl. lia.
Qed.

(** An operation keeps what its statements and its transition keep. *)
Lemma run_skill_plan_op_preserves (P : DB → Prop) op :
  (∀ r, stmt_preserves P (insert_skill_profile r)) →
  (∀ p f, keeps skp_id f → stmt_preserves P (sql_update sg_profiles with_sg_profiles p f)) →
  (∀ i v, stmt_preserves P (delete_skill_profile_row i v)) →
  (∀ r, stmt_preserves P (insert_skill_binding r)) →
  (∀ p, stmt_preserves P (sql_delete sg_bindings with_sg_bindings p)) →
  (∀ r, stmt_preserves P (insert_snapshot r)) →
  (∀ r, sgp_status r = "draft" → sgp_version r = 1 → stmt_preserves P (insert_skill_plan r)) →
  (∀ i v a s, preserves P (transaction (transition_body i v a s))) →
  preserves P (run_skill_plan_op op).
Proof.
  intros H1 H2 H3 H4 H5 H6 H7 H8.
  assert (∀ A (m : M A), readonly m → preserves P m) as Hr by (intros; by apply preserves_readonly).
  assert (∀ i v a s, preserves P (transition_skill_governance_plan i v a s)) as Ht.
  { intros. apply preserves_bind; [apply H8|]. intros. apply Hr. auto with cocli. }
  destruct op; simpl; (apply preserves_bind; [|intros; apply preserves_ret]);
    unfold create_skill_profile, update_skill_profile, delete_skill_profile, bind_skill_profile, bind_body,
      unbind_skill_profile, create_skill_lock_snapshot, create_skill_governance_plan,
      approve_skill_governance_plan, reject_skill_governance_plan, mark_skill_governance_plan_stale;
    preserves_tac; by (apply H2 || apply H7 || (apply Hr; auto with cocli)).
Qed.

Lemma transition_body_schema i v a s : preserves schema_ok (transition_body i v a s).
Proof.
  unfold transition_body. apply preserves_bind; [apply preserves_readonly; auto with cocli|]. intros cur.
  preserves_tac. apply update_skill_plans_ok; [done..|]. intros db r _ Hp Hv. bsimp.
  cbn [set_plan_status sgp_status sgp_version]. split; [by exists s|lia].
Qed.

Lemma run_skill_plan_op_schema op : preserves schema_ok (run_skill_plan_op op).
Proof.
  apply run_skill_plan_op_preserves; auto with cocli.
  - intros. by apply update_skill_profiles_ok.
  - intros. apply preserves_transaction, transition_body_schema.
Qed.

Lemma run_skill_plan_op_outside (P : DB → Prop) op :
  (∀ f db, P db → P (with_skill_governance_tables f db)) → preserves P (run_skill_plan_op op).
Proof.
  intros HP.
  assert (∀ r, stmt_preserves P (insert_plan_audit r)) as Ha.
  { intros r db db' x Hdb ->%insert_plan_audit_spec. by apply HP. }
  assert (∀ p f, stmt_preserves P (sql_update sg_plans with_sg_plans p f)) as Hu.
  { intros p f db db' x Hdb [-> _]%sql_update_ok. by apply HP. }
  apply run_skill_plan_op_preserves; intros; try (intros db db' x Hdb E).
  - unfold insert_skill_profile in E. inv_stmt. by apply HP.
  - apply sql_update_ok in E as [-> _]. by apply HP.
  - unfold delete_skill_profile_row in E. injection E as <- _. by apply HP, HP, HP.
  - unfold insert_skill_binding in E. inv_stmt. by apply HP.
  - apply sql_delete_ok in E as [-> _]. by apply HP.
  - unfold insert_snapshot in E. inv_stmt. by apply HP.
  - unfold insert_skill_plan in E. inv_stmt. by apply HP.
  - apply preserves_transaction. unfold transition_body.
    apply preserves_bind; [apply preserves_readonly; auto with cocli|]. preserves_tac; auto.
Qed.

(** ** The history of a plan *)

Definition plans_inv (db : DB) : Prop := schema_ok db ∧ plan_history_ok db.

Lemma audits_of_snoc i a l :
  audits_of i (l ++ [a]) = if (spa_plan_id a =? i)%N then (audits_of i l ++ [a])%list else audits_of i l.
Proof.
  unfold audits_of. rewrite bfilter_app. simpl. destruct (_ =? _)%N; [done|]. by rewrite app_nil_r.
Qed.

Lemma transition_history i v a s :
  preserves plans_inv (transaction (transition_body i v a s)).
Proof.
  apply preserves_transaction_ok. intros e w w' [] [Hok [Hh Hn]] H. split.
  { pose proof (transition_body_schema i v a s e w Hok) as Hs. by rewrite H in Hs. }
  apply transition_body_spec in H as (p & from & now & j & Hp & <- & <- & Hst & Hvt & Hdb); [|done].
  rewrite Hdb. split.
  - intros q Hq. simpl in Hq. apply elem_of_update_where in Hq as (x & Hx & ->).
    cbn [sg_plan_audit with_sg_plan_audit with_sg_plans with_skill_governance_tables skill_governance_tables
      skill_governance_plan_audit]. rewrite audits_of_snoc. cbn [spa_plan_id]. unfold skill_plan_is.
    destruct (N.eqb_spec (sgp_id x) (sgp_id p)) as [E|E].
    + assert (x = p) as -> by (eapply (NoDup_key_eq sgp_id);
        [exact (go_plans _ (so_skill_governance _ Hok))|done..]).
      cbn [set_plan_status sgp_id sgp_status sgp_version]. rewrite N.eqb_refl.
      eapply plan_path_snoc; [|done..]. rewrite <- Hst. by apply Hh.
    + rewrite (proj2 (N.eqb_neq _ _)) by congruence. by apply Hh.
  - intros k Hk. cbn [sg_plan_audit with_sg_plan_audit with_sg_plans with_skill_governance_tables
      skill_governance_tables skill_governance_plan_audit]. rewrite audits_of_snoc. cbn [spa_plan_id].
    assert (k ∉ map sgp_id (sg_plans (w_db w))) as Hk'.
    { intros Hin. apply Hk. cbn [sg_plans with_sg_plan_audit with_sg_plans with_skill_governance_tables
        skill_governance_tables skill_governance_plans]. by rewrite map_update_where. }
    rewrite (proj2 (N.eqb_neq _ _)); [by apply Hn|]. intros <-. apply Hk'. by apply list_elem_of_fmap_2.
Qed.

Lemma run_skill_plan_op_history op : preserves plans_inv (run_skill_plan_op op).
Proof.
  assert (∀ A (s : DB → result (DB * A) SqlError), stmt_preserves schema_ok s →
    (∀ db db' x, s db = Ok (db', x) → sg_plans db' = sg_plans db ∧ sg_plan_audit db' = sg_plan_audit db) →
    stmt_preserves plans_inv s) as Hframe.
  { intros A s Hs Hsame db db' x [Hok Hh] E. split; [by eapply Hs|].
    destruct (Hsame db db' x E) as [H1 H2]. unfold plan_history_ok. by rewrite H1, H2. }
  apply run_skill_plan_op_preserves; intros.
  - apply Hframe; auto with cocli. intros db db' x E. unfold insert_skill_profile in E. by inv_stmt.
  - apply Hframe; [by apply update_skill_profiles_ok|]. by intros db db' x [-> _]%sql_update_ok.
  - apply Hframe; auto with cocli. intros db db' x E. unfold delete_skill_profile_row in E.
    by injection E as <- _.
  - apply Hframe; auto with cocli. intros db db' x E. unfold insert_skill_binding in E. by inv_stmt.
  - apply Hframe; auto with cocli. by intros db db' x [-> _]%sql_delete_ok.
  - apply Hframe; auto with cocli. intros db db' x E. unfold insert_snapshot in E. by inv_stmt.
  - intros db db' x [Hok [Hh Hn]] E. split; [by eapply insert_skill_plan_ok|].
    unfold insert_skill_plan in E. inv_stmt. rewrite <- not_true_iff_false, has_skill_plan_true in Hguard0.
    split.
    + intros p [Hp| ->%list_elem_of_singleton]%elem_of_app; [by apply Hh|].
      rewrite H, H0, Hn by done. constructor.
    + intros i Hi. apply Hn. intros Hin. apply Hi.
      change (i ∈ map sgp_id (sg_plans db ++ [r])%list). rewrite map_app. set_solver.
  - apply transition_history.
Qed.
