(* ===== verification/StoreSkillRuns.v ===== *)
(** * Scoped locks and apply runs of skill governance

    [crates/cocli-store/src/skill_governance.rs], what protects and records an apply: one lease
    per scope, taken over when it expired; runs and the journal of their actions; an audit row
    for each change. The file shows that the lease excludes and fences, that a run or action is
    created once per key, and that the audit is complete: the version of each lock, run and
    action is the number of its audit rows. *)
From S2P Require Import Prelude SkillGovernanceTypes StoreTypes StoreDb StoreSchema StoreSkillPlans.

(** ** The audit *)

Definition positive_or_null (o : option Z) : bool := match o with Some v => 0 <? v | None => true end.

Definition insert_apply_audit_row (r : SkillGovernanceApplyAuditRow) (db : DB)
    : result (DB * unit) SqlError :=
  try! _ <- guard (bool_decide (sau_entity_type r ∈ ["lock"; "run"; "action"; "recovery"]) &&
                   positive_or_null (sau_from_version r) && positive_or_null (sau_to_version r)) CheckViolation;
  try! _ <- guard (negb (exists_row (λ old, sau_id old =? sau_id r)%N (sg_audit db))) UniqueViolation;
  Ok (with_sg_audit (λ l, l ++ [r])%list db, tt).

Definition insert_skill_governance_apply_audit (entity_type : string) (entity_id : Uuid)
    (action : string) (from_status to_status : option string) (from_version to_version : option Z)
    (evidence : Json) : M unit :=
  let! id := new_v4 in
  let! text := json_to_string evidence in
  let! now := utc_now in
  execute (insert_apply_audit_row (mkApplyAudit id entity_type entity_id action from_status to_status
    from_version to_version text now)).

Definition json_object : Json := JObject [].

Definition skill_governance_apply_audit_from_row (r : SkillGovernanceApplyAuditRow)
    : M SkillGovernanceApplyAudit :=
  let! evidence := json_from_str (sau_evidence r) in
  ret (mkApplyAudit (sau_id r) (sau_entity_type r) (sau_entity_id r) (sau_action r)
         (sau_from_status r) (sau_to_status r) (sau_from_version r) (sau_to_version r) evidence
         (sau_created_at r)).

Definition list_skill_governance_apply_audit (entity_type : string) (entity_id : Uuid)
    : M (list SkillGovernanceApplyAudit) :=
  let! rows := fetch (λ db, sort_by (λ a b, then_cmp (Z.compare (sau_created_at a) (sau_created_at b))
                                      (N.compare (sau_id a) (sau_id b)))
    (bfilter (λ a, str_eqb (sau_entity_type a) entity_type && (sau_entity_id a =? entity_id)%N) (sg_audit db))) in
  decode_all skill_governance_apply_audit_from_row rows.

(** ** Scoped locks *)

Definition lock_entity : string := "skill governance scoped lock".
Definition lock_is (id : Uuid) (r : SkillGovernanceScopedLockRow) : bool := (slk_id r =? id)%N.
Definition unreleased (r : SkillGovernanceScopedLockRow) : bool := bool_decide (slk_released_at r = None).
Definition holds_scope (scope scope_id : string) (r : SkillGovernanceScopedLockRow) : bool :=
  str_eqb (slk_scope r) scope && str_eqb (slk_scope_id r) scope_id && unreleased r.

Definition insert_lock (r : SkillGovernanceScopedLockRow) (db : DB) : result (DB * unit) SqlError :=
  try! _ <- guard (scope_ok (slk_scope r) && (0 <? slk_version r)) CheckViolation;
  try! _ <- guard (negb (exists_row (λ old, lock_is (slk_id r) old ||
                     unreleased r && holds_scope (slk_scope r) (slk_scope_id r) old) (sg_locks db)))
                  UniqueViolation;
  Ok (with_sg_locks (λ l, l ++ [r])%list db, tt).

Definition skill_governance_scoped_lock_from_row (r : SkillGovernanceScopedLockRow)
    : M SkillGovernanceScopedLock :=
  let! scope := lift (parse (slk_scope r)) in
  ret (mkScopedLock (slk_id r) scope (slk_scope_id r) (slk_owner r) (slk_process_id r) (slk_run_id r)
         (slk_lease_nonce r) (slk_lease_expires_at r) (slk_acquired_at r) (slk_renewed_at r)
         (slk_released_at r) (slk_takeover_count r) (slk_previous_owner r) (slk_previous_run_id r)
         (slk_taken_over_at r) (slk_version r) (slk_created_at r) (slk_updated_at r)).

Definition get_skill_governance_lock (lock_id : Uuid) : M (option SkillGovernanceScopedLock) :=
  let! row := fetch_optional (λ db, bfilter (lock_is lock_id) (sg_locks db)) in
  decode_option skill_governance_scoped_lock_from_row row.

Definition select_active_lock (scope scope_id : string) : M (option SkillGovernanceScopedLock) :=
  let! row := fetch_optional (λ db, bfilter (holds_scope scope scope_id) (sg_locks db)) in
  decode_option skill_governance_scoped_lock_from_row row.

(** [SET owner, process_id, run_id, lease_nonce, lease_expires_at, acquired_at, renewed_at,
    takeover_count = takeover_count + 1, previous_owner, previous_run_id, taken_over_at,
    version = version + 1, updated_at]. *)
Definition take_over (owner : string) (process_id : option Z) (run_id : option Uuid) (nonce : string)
    (expires now : Time) (previous_owner : string) (previous_run : option Uuid)
    (r : SkillGovernanceScopedLockRow) : SkillGovernanceScopedLockRow :=
  mkScopedLock (slk_id r) (slk_scope r) (slk_scope_id r) owner process_id run_id nonce expires now now
    (slk_released_at r) (slk_takeover_count r + 1) (Some previous_owner) previous_run (Some now)
    (slk_version r + 1) (slk_created_at r) now.

Definition acquire_body (scope : SkillGovernanceScope) (scope_id owner : string) (process_id : option Z)
    (run_id : option Uuid) (nonce : string) (expires now : Time) : M (Uuid * bool) :=
  let! row := select_active_lock (as_str scope) scope_id in
  match row with
  | Some current =>
      if now <? slk_lease_expires_at current then
        throw (SkillGovernanceLockHeld (as_str scope) scope_id (slk_owner current) (slk_lease_expires_at current))
      else
        execute (sql_update sg_locks with_sg_locks
          (λ _ r, lock_is (slk_id current) r && (slk_version r =? slk_version current) && unreleased r &&
                  (slk_lease_expires_at r <=? now))
          (take_over owner process_id run_id nonce expires now (slk_owner current) (slk_run_id current))) ;;
        insert_skill_governance_apply_audit "lock" (slk_id current) "takeover_stale" (Some "expired")
          (Some "active") (Some (slk_version current)) (Some (slk_version current + 1)) json_object ;;
        ret (slk_id current, true)
  | None =>
      let! id := new_v4 in
      execute (insert_lock (mkScopedLock id (as_str scope) scope_id owner process_id run_id nonce expires
        now now None 0 None None None 1 now now)) ;;
      insert_skill_governance_apply_audit "lock" id "acquire" None (Some "active") None (Some 1) json_object ;;
      ret (id, false)
  end.

Definition acquire_skill_governance_lock (scope : SkillGovernanceScope) (scope_id owner : string)
    (process_id : option Z) (run_id : option Uuid) (lease_nonce : string) (lease_expires_at : Time)
    : M SkillGovernanceLeaseAcquire :=
  let! now := utc_now in
  let! outcome := transaction (acquire_body scope scope_id owner process_id run_id lease_nonce
                                 lease_expires_at now) in
  let! lock := require lock_entity outcome.1 (get_skill_governance_lock outcome.1) in
  ret (mkLeaseAcquire lock outcome.2).

Definition lock_version_error_in_transaction {A} (lock_id : Uuid) (expected_version : Z) : M A :=
  missing_row lock_entity lock_id expected_version slk_version (get_skill_governance_lock lock_id).

(** [WHERE id = ? AND version = ? AND lease_nonce = ? AND released_at IS NULL]. *)
Definition lease_at (lock_id : Uuid) (version : Z) (nonce : string) (r : SkillGovernanceScopedLockRow) : bool :=
  lock_is lock_id r && (slk_version r =? version) && str_eqb (slk_lease_nonce r) nonce && unreleased r.

(** A change of a lease that the caller holds, with its audit row. *)
Definition lease_body (lock_id : Uuid) (expected_version : Z) (nonce : string)
    (f : SkillGovernanceScopedLockRow → SkillGovernanceScopedLockRow) (action to_status : string)
    (evidence : Json) : M unit :=
  let! changed := execute (sql_update sg_locks with_sg_locks (λ _, lease_at lock_id expected_version nonce) f) in
  if changed =? 0 then lock_version_error_in_transaction lock_id expected_version
  else insert_skill_governance_apply_audit "lock" lock_id action (Some "active") (Some to_status)
         (Some expected_version) (Some (expected_version + 1)) evidence.

(** [SET lease_expires_at, renewed_at, version = version + 1, updated_at]. *)
Definition renewed (expires now : Time) (r : SkillGovernanceScopedLockRow) : SkillGovernanceScopedLockRow :=
  mkScopedLock (slk_id r) (slk_scope r) (slk_scope_id r) (slk_owner r) (slk_process_id r) (slk_run_id r)
    (slk_lease_nonce r) expires (slk_acquired_at r) now (slk_released_at r) (slk_takeover_count r)
    (slk_previous_owner r) (slk_previous_run_id r) (slk_taken_over_at r) (slk_version r + 1)
    (slk_created_at r) now.

(** [SET run_id, lease_expires_at, renewed_at, version = version + 1, updated_at]. *)
Definition attached (run_id : Uuid) (expires now : Time) (r : SkillGovernanceScopedLockRow)
    : SkillGovernanceScopedLockRow :=
  mkScopedLock (slk_id r) (slk_scope r) (slk_scope_id r) (slk_owner r) (slk_process_id r) (Some run_id)
    (slk_lease_nonce r) expires (slk_acquired_at r) now (slk_released_at r) (slk_takeover_count r)
    (slk_previous_owner r) (slk_previous_run_id r) (slk_taken_over_at r) (slk_version r + 1)
    (slk_created_at r) now.

(** [SET released_at, version = version + 1, updated_at]. *)
Definition released (now : Time) (r : SkillGovernanceScopedLockRow) : SkillGovernanceScopedLockRow :=
  mkScopedLock (slk_id r) (slk_scope r) (slk_scope_id r) (slk_owner r) (slk_process_id r) (slk_run_id r)
    (slk_lease_nonce r) (slk_lease_expires_at r) (slk_acquired_at r) (slk_renewed_at r) (Some now)
    (slk_takeover_count r) (slk_previous_owner r) (slk_previous_run_id r) (slk_taken_over_at r)
    (slk_version r + 1) (slk_created_at r) now.

Definition renew_skill_governance_lock (lock_id : Uuid) (expected_version : Z) (lease_nonce : string)
    (lease_expires_at : Time) : M SkillGovernanceScopedLock :=
  let! now := utc_now in
  transaction (lease_body lock_id expected_version lease_nonce (renewed lease_expires_at now) "renew"
                 "active" json_object) ;;
  require lock_entity lock_id (get_skill_governance_lock lock_id).

Definition attach_skill_governance_lock_run (lock_id : Uuid) (expected_version : Z) (lease_nonce : string)
    (run_id : Uuid) (lease_expires_at : Time) : M SkillGovernanceScopedLock :=
  let! now := utc_now in
  let! show := uuid_display in
  transaction (lease_body lock_id expected_version lease_nonce (attached run_id lease_expires_at now)
                 "attach_run" "active" (JObject [("runId", JString (show run_id))])) ;;
  require lock_entity lock_id (get_skill_governance_lock lock_id).

Definition release_skill_governance_lock (lock_id : Uuid) (expected_version : Z) (lease_nonce : string)
    : M SkillGovernanceScopedLock :=
  let! now := utc_now in
  transaction (lease_body lock_id expected_version lease_nonce (released now) "release" "released"
                 json_object) ;;
  require lock_entity lock_id (get_skill_governance_lock lock_id).

(** ** Apply runs *)

Definition run_entity : string := "skill governance apply run".
Definition apply_run_is (id : Uuid) (r : SkillGovernanceApplyRunRow) : bool := (sar_id r =? id)%N.
Definition has_idempotency_key (scope scope_id key : string) (r : SkillGovernanceApplyRunRow) : bool :=
  str_eqb (sar_scope r) scope && str_eqb (sar_scope_id r) scope_id && str_eqb (sar_idempotency_key r) key.
Definition has_lock (db : DB) (id : Uuid) : bool := exists_row (lock_is id) (sg_locks db).
Definition has_apply_run (db : DB) (id : Uuid) : bool := exists_row (apply_run_is id) (sg_runs db).

Definition insert_apply_run (r : SkillGovernanceApplyRunRow) (db : DB) : result (DB * unit) SqlError :=
  try! _ <- guard (scope_ok (sar_scope r) &&
                   is_ok (parse (A := SkillGovernanceApplyRunStatus) (sar_status r)) &&
                   is_ok (parse (A := SkillGovernanceRecoveryStatus) (sar_recovery_status r)) &&
                   (0 <=? sar_attempts r) && (0 <? sar_version r)) CheckViolation;
  try! _ <- guard (negb (exists_row (λ old, apply_run_is (sar_id r) old ||
                     has_idempotency_key (sar_scope r) (sar_scope_id r) (sar_idempotency_key r) old)
                     (sg_runs db))) UniqueViolation;
  try! _ <- guard (null_or (has_skill_plan db) (sar_plan_id r) && null_or (has_lock db) (sar_lock_id r))
                  ForeignKeyViolation;
  Ok (with_sg_runs (λ l, l ++ [r])%list db, tt).

Definition skill_governance_apply_run_from_row (r : SkillGovernanceApplyRunRow) : M SkillGovernanceApplyRun :=
  let! scope := lift (parse (sar_scope r)) in
  let! status := lift (parse (sar_status r)) in
  let! recovery_status := lift (parse (sar_recovery_status r)) in
  let! evidence := json_from_str (sar_evidence r) in
  ret (mkApplyRun (sar_id r) scope (sar_scope_id r) (sar_plan_id r) (sar_lock_id r)
         (sar_idempotency_key r) (sar_nonce r) status recovery_status (sar_attempts r)
         (sar_observation_hash r) (sar_desired_hash r) (sar_lock_hash r) (sar_backup_path r)
         (sar_quarantine_path r) evidence (sar_last_error r) (sar_version r) (sar_started_at r)
         (sar_completed_at r) (sar_created_at r) (sar_updated_at r)).

Definition get_skill_governance_apply_run (run_id : Uuid) : M (option SkillGovernanceApplyRun) :=
  let! row := fetch_optional (λ db, bfilter (apply_run_is run_id) (sg_runs db)) in
  decode_option skill_governance_apply_run_from_row row.

Definition get_skill_governance_apply_run_by_idempotency (scope : SkillGovernanceScope)
    (scope_id idempotency_key : string) : M (option SkillGovernanceApplyRun) :=
  let! row := fetch_optional (λ db, bfilter (has_idempotency_key (as_str scope) scope_id idempotency_key)
                                      (sg_runs db)) in
  decode_option skill_governance_apply_run_from_row row.

Definition list_skill_governance_apply_runs (scope : SkillGovernanceScope) (scope_id : string)
    : M (list SkillGovernanceApplyRun) :=
  let! rows := fetch (λ db, sort_by (λ a b, then_cmp (Z.compare (sar_updated_at b) (sar_updated_at a))
                                      (N.compare (sar_id a) (sar_id b)))
    (bfilter (λ r, str_eqb (sar_scope r) (as_str scope) && str_eqb (sar_scope_id r) scope_id) (sg_runs db))) in
  decode_all skill_governance_apply_run_from_row rows.

Definition create_run_body (id : Uuid) (now : Time) (input : NewSkillGovernanceApplyRun) (text : string) : M unit :=
  execute (insert_apply_run (mkApplyRun id (as_str (nar_scope input)) (nar_scope_id input)
    (nar_plan_id input) (nar_lock_id input) (nar_idempotency_key input) (nar_nonce input) "pending"
    "not_required" 0 (nar_observation_hash input) (nar_desired_hash input) (nar_lock_hash input)
    (nar_backup_path input) (nar_quarantine_path input) text None 1 None None now now)) ;;
  insert_skill_governance_apply_audit "run" id "create" None (Some "pending") None (Some 1) (nar_evidence input).

Definition create_skill_governance_apply_run (input : NewSkillGovernanceApplyRun) : M SkillGovernanceApplyRun :=
  let! existing := get_skill_governance_apply_run_by_idempotency (nar_scope input) (nar_scope_id input)
                     (nar_idempotency_key input) in
  match existing with
  | Some existing =>
      if negb (str_eqb (sar_nonce existing) (nar_nonce input)) ||
         negb (str_eqb (sar_observation_hash existing) (nar_observation_hash input)) ||
         negb (str_eqb (sar_desired_hash existing) (nar_desired_hash input)) ||
         negb (str_eqb (sar_lock_hash existing) (nar_lock_hash input))
      then throw (SkillGovernanceIdempotencyConflict run_entity (sar_id existing))
      else ret existing
  | None =>
      let! id := new_v4 in
      let! now := utc_now in
      let! text := json_to_string (nar_evidence input) in
      transaction (create_run_body id now input text) ;;
      require run_entity id (get_skill_governance_apply_run id)
  end.

Definition ends_run (s : SkillGovernanceApplyRunStatus) : bool :=
  bool_decide (s ∈ [RunSucceeded; RunFailed; RunRolledBack; RunRecoveryRequired]).

(** [SET status, recovery_status, attempts = attempts + ?, evidence_json, backup_path =
    COALESCE(?, backup_path), quarantine_path = COALESCE(..), last_error, started_at,
    completed_at, version = version + 1, updated_at]. *)
Definition set_run (status recovery : string) (attempts : Z) (text : string) (backup quarantine : option string)
    (error : option string) (started completed : option Time) (now : Time) (r : SkillGovernanceApplyRunRow)
    : SkillGovernanceApplyRunRow :=
  mkApplyRun (sar_id r) (sar_scope r) (sar_scope_id r) (sar_plan_id r) (sar_lock_id r)
    (sar_idempotency_key r) (sar_nonce r) status recovery (sar_attempts r + attempts)
    (sar_observation_hash r) (sar_desired_hash r) (sar_lock_hash r) (coalesce backup (sar_backup_path r))
    (coalesce quarantine (sar_quarantine_path r)) text error (sar_version r + 1) started completed
    (sar_created_at r) now.

Definition run_transition_body (run_id : Uuid) (expected_version : Z) (current : SkillGovernanceApplyRun)
    (to_status : SkillGovernanceApplyRunStatus) (recovery : SkillGovernanceRecoveryStatus)
    (backup quarantine : option string) (evidence : Json) (text : string) (error : option string)
    (now : Time) : M unit :=
  let started := if bool_decide (to_status = RunRunning) then Some now else sar_started_at current in
  let completed := if ends_run to_status then Some now else sar_completed_at current in
  let attempts := if bool_decide (to_status = RunRunning) then 1 else 0 in
  let! changed := execute (sql_update sg_runs with_sg_runs
    (λ _ r, apply_run_is run_id r && (sar_version r =? expected_version))
    (set_run (as_str to_status) (as_str recovery) attempts text backup quarantine error started completed now)) in
  if changed =? 0 then
    throw (SkillGovernanceVersionConflict run_entity run_id (sar_version current) expected_version)
  else insert_skill_governance_apply_audit "run" run_id "transition" (Some (as_str (sar_status current)))
         (Some (as_str to_status)) (Some (sar_version current)) (Some (sar_version current + 1)) evidence.

Definition transition_skill_governance_apply_run (run_id : Uuid) (expected_version : Z)
    (to_status : SkillGovernanceApplyRunStatus) (recovery : SkillGovernanceRecoveryStatus)
    (backup quarantine : option string) (evidence : Json) (last_error : option string)
    : M SkillGovernanceApplyRun :=
  let! current := require run_entity run_id (get_skill_governance_apply_run run_id) in
  if negb (sar_version current =? expected_version) then
    throw (SkillGovernanceVersionConflict run_entity run_id (sar_version current) expected_version)
  else
    let! now := utc_now in
    let! text := json_to_string evidence in
    transaction (run_transition_body run_id expected_version current to_status recovery backup quarantine
                   evidence text last_error now) ;;
    require run_entity run_id (get_skill_governance_apply_run run_id).

(** ** Apply actions *)

Definition action_entity : string := "skill governance apply action".
Definition apply_action_is (id : Uuid) (r : SkillGovernanceApplyActionRow) : bool := (saa_id r =? id)%N.
Definition has_action_key (run_id : Uuid) (key : string) (r : SkillGovernanceApplyActionRow) : bool :=
  (saa_run_id r =? run_id)%N && str_eqb (saa_action_key r) key.

Definition insert_apply_action (r : SkillGovernanceApplyActionRow) (db : DB) : result (DB * unit) SqlError :=
  try! _ <- guard ((0 <=? saa_sequence r) && is_ok (parse (A := SkillGovernanceApplyActionStatus) (saa_status r)) &&
                   (0 <=? saa_attempts r) && (0 <? saa_version r)) CheckViolation;
  try! _ <- guard (negb (exists_row (λ old, apply_action_is (saa_id r) old ||
                     (saa_run_id old =? saa_run_id r)%N && (saa_sequence old =? saa_sequence r) ||
                     has_action_key (saa_run_id r) (saa_action_key r) old) (sg_actions db))) UniqueViolation;
  try! _ <- guard (has_apply_run db (saa_run_id r)) ForeignKeyViolation;
  Ok (with_sg_actions (λ l, l ++ [r])%list db, tt).

Definition skill_governance_apply_action_from_row (r : SkillGovernanceApplyActionRow)
    : M SkillGovernanceApplyAction :=
  let! status := lift (parse (saa_status r)) in
  let! evidence := json_from_str (saa_evidence r) in
  ret (mkApplyAction (saa_id r) (saa_run_id r) (saa_sequence r) (saa_action_key r) status (saa_attempts r)
         (saa_request_hash r) (saa_result_hash r) (saa_backup_path r) (saa_quarantine_path r) evidence
         (saa_last_error r) (saa_version r) (saa_started_at r) (saa_completed_at r) (saa_created_at r)
         (saa_updated_at r)).

Definition get_skill_governance_apply_action (action_id : Uuid) : M (option SkillGovernanceApplyAction) :=
  let! row := fetch_optional (λ db, bfilter (apply_action_is action_id) (sg_actions db)) in
  decode_option skill_governance_apply_action_from_row row.

Definition get_skill_governance_apply_action_by_key (run_id : Uuid) (action_key : string)
    : M (option SkillGovernanceApplyAction) :=
  let! row := fetch_optional (λ db, bfilter (has_action_key run_id action_key) (sg_actions db)) in
  decode_option skill_governance_apply_action_from_row row.

Definition list_skill_governance_apply_actions (run_id : Uuid) : M (list SkillGovernanceApplyAction) :=
  let! rows := fetch (λ db, sort_by (λ a b, then_cmp (Z.compare (saa_sequence a) (saa_sequence b))
                                      (N.compare (saa_id a) (saa_id b)))
    (bfilter (λ a, saa_run_id a =? run_id)%N (sg_actions db))) in
  decode_all skill_governance_apply_action_from_row rows.

Definition create_action_body (id : Uuid) (now : Time) (input : NewSkillGovernanceApplyAction) (text : string) : M unit :=
  execute (insert_apply_action (mkApplyAction id (naa_run_id input) (naa_sequence input)
    (naa_action_key input) "pending" 0 (naa_request_hash input) None (naa_backup_path input)
    (naa_quarantine_path input) text None 1 None None now now)) ;;
  insert_skill_governance_apply_audit "action" id "create" None (Some "pending") None (Some 1) (naa_evidence input).

Definition create_skill_governance_apply_action (input : NewSkillGovernanceApplyAction)
    : M SkillGovernanceApplyAction :=
  let! existing := get_skill_governance_apply_action_by_key (naa_run_id input) (naa_action_key input) in
  match existing with
  | Some existing =>
      if negb (saa_sequence existing =? naa_sequence input) ||
         negb (str_eqb (saa_request_hash existing) (naa_request_hash input))
      then throw (SkillGovernanceIdempotencyConflict action_entity (saa_id existing))
      else ret existing
  | None =>
      let! id := new_v4 in
      let! now := utc_now in
      let! text := json_to_string (naa_evidence input) in
      transaction (create_action_body id now input text) ;;
      require action_entity id (get_skill_governance_apply_action id)
  end.

Definition ends_action (s : SkillGovernanceApplyActionStatus) : bool :=
  bool_decide (s ∈ [ActionVerified; ActionFailed; ActionSkipped; ActionRolledBack; ActionRecoveryRequired]).

(** [SET status, attempts = attempts + ?, result_hash, evidence_json, backup_path = COALESCE(..),
    quarantine_path = COALESCE(..), last_error, started_at, completed_at,
    version = version + 1, updated_at]. *)
Definition set_action (status : string) (attempts : Z) (result_hash : option string) (text : string)
    (backup quarantine : option string) (error : option string) (started completed : option Time)
    (now : Time) (r : SkillGovernanceApplyActionRow) : SkillGovernanceApplyActionRow :=
  mkApplyAction (saa_id r) (saa_run_id r) (saa_sequence r) (saa_action_key r) status
    (saa_attempts r + attempts) (saa_request_hash r) result_hash (coalesce backup (saa_backup_path r))
    (coalesce quarantine (saa_quarantine_path r)) text error (saa_version r + 1) started completed
    (saa_created_at r) now.

Definition action_transition_body (action_id : Uuid) (expected_version : Z)
    (current : SkillGovernanceApplyAction) (to_status : SkillGovernanceApplyActionStatus)
    (result_hash backup quarantine : option string) (evidence : Json) (text : string)
    (error : option string) (now : Time) : M unit :=
  let started := if bool_decide (to_status = ActionPreflight) then Some now else saa_started_at current in
  let completed := if ends_action to_status then Some now else saa_completed_at current in
  let attempts := if bool_decide (to_status = ActionPreflight) then 1 else 0 in
  let! changed := execute (sql_update sg_actions with_sg_actions
    (λ _ r, apply_action_is action_id r && (saa_version r =? expected_version))
    (set_action (as_str to_status) attempts result_hash text backup quarantine error started completed now)) in
  if changed =? 0 then
    throw (SkillGovernanceVersionConflict action_entity action_id (saa_version current) expected_version)
  else insert_skill_governance_apply_audit "action" action_id "transition"
         (Some (as_str (saa_status current))) (Some (as_str to_status)) (Some (saa_version current))
         (Some (saa_version current + 1)) evidence.

Definition transition_skill_governance_apply_action (action_id : Uuid) (expected_version : Z)
    (to_status : SkillGovernanceApplyActionStatus) (result_hash backup quarantine : option string)
    (evidence : Json) (last_error : option string) : M SkillGovernanceApplyAction :=
  let! current := require action_entity action_id (get_skill_governance_apply_action action_id) in
  if negb (saa_version current =? expected_version) then
    throw (SkillGovernanceVersionConflict action_entity action_id (saa_version current) expected_version)
  else
    let! now := utc_now in
    let! text := json_to_string evidence in
    transaction (action_transition_body action_id expected_version current to_status result_hash backup
                   quarantine evidence text last_error now) ;;
    require action_entity action_id (get_skill_governance_apply_action action_id).

(** The operations that change these tables. *)
Inductive SkillRunOp : Type :=
  | AcquireLock (scope : SkillGovernanceScope) (scope_id owner : string) (process_id : option Z)
      (run_id : option Uuid) (lease_nonce : string) (lease_expires_at : Time)
  | RenewLock (lock_id : Uuid) (expected_version : Z) (lease_nonce : string) (lease_expires_at : Time)
  | AttachLockRun (lock_id : Uuid) (expected_version : Z) (lease_nonce : string) (run_id : Uuid)
      (lease_expires_at : Time)
  | ReleaseLock (lock_id : Uuid) (expected_version : Z) (lease_nonce : string)
  | CreateApplyRun (input : NewSkillGovernanceApplyRun)
  | TransitionApplyRun (run_id : Uuid) (expected_version : Z) (to_status : SkillGovernanceApplyRunStatus)
      (recovery : SkillGovernanceRecoveryStatus) (backup quarantine : option string) (evidence : Json)
      (last_error : option string)
  | CreateApplyAction (input : NewSkillGovernanceApplyAction)
  | TransitionApplyAction (action_id : Uuid) (expected_version : Z)
      (to_status : SkillGovernanceApplyActionStatus) (result_hash backup quarantine : option string)
      (evidence : Json) (last_error : option string).

Definition run_skill_run_op (op : SkillRunOp) : M unit :=
  match op with
  | AcquireLock s i o p r n t => acquire_skill_governance_lock s i o p r n t ;; ret tt
  | RenewLock l v n t => renew_skill_governance_lock l v n t ;; ret tt
  | AttachLockRun l v n r t => attach_skill_governance_lock_run l v n r t ;; ret tt
  | ReleaseLock l v n => release_skill_governance_lock l v n ;; ret tt
  | CreateApplyRun i => create_skill_governance_apply_run i ;; ret tt
  | TransitionApplyRun r v s rs b q e x => transition_skill_governance_apply_run r v s rs b q e x ;; ret tt
  | CreateApplyAction i => create_skill_governance_apply_action i ;; ret tt
  | TransitionApplyAction a v s h b q e x => transition_skill_governance_apply_action a v s h b q e x ;; ret tt
  end.

(** ** The schema *)

Lemma has_lock_true db id : has_lock db id = true ↔ id ∈ map slk_id (sg_locks db).
Proof. apply (exists_row_key slk_id (λ j, (j =? id)%N)). intros j. apply (N.eqb_eq j id). Qed.
Lemma has_apply_run_true db id : has_apply_run db id = true ↔ id ∈ map sar_id (sg_runs db).
Proof. apply (exists_row_key sar_id (λ j, (j =? id)%N)). intros j. apply (N.eqb_eq j id). Qed.

Lemma null_or_in p ids o : (∀ i, p i = true → i ∈ ids) → null_or p o = true → absent_or_in ids o.
Proof. destruct o; simpl; auto. Qed.

Lemma insert_apply_audit_row_ok r : stmt_preserves schema_ok (insert_apply_audit_row r).
Proof.
  intros db db' [] Hok H. unfold insert_apply_audit_row in H. inv_stmt. sg_frame Hok.
  new_key Hguard0. intros x Hx. by rewrite Hx, N.eqb_refl.
Qed.

Lemma insert_lock_ok r : stmt_preserves schema_ok (insert_lock r).
Proof.
  intros db db' [] Hok H. unfold insert_lock in H. inv_stmt. sg_frame Hok.
  - new_key Hguard0. intros x Hx. unfold lock_is. by rewrite Hx, N.eqb_refl.
  - rewrite omap_app. cbn. unfold active_lock_key at 2. destruct (slk_released_at r) eqn:Er; [by rewrite app_nil_r|].
    apply NoDup_app. split_and!; [done| |apply NoDup_singleton]. intros k (x & Hx & Hk)%list_elem_of_omap.
    rewrite list_elem_of_singleton. intros ->. unfold active_lock_key in Hk.
    destruct (slk_released_at x) eqn:Ex; [done|]. injection Hk as H1 H2.
    rewrite exists_row_false in Hguard0. specialize (Hguard0 x Hx). unfold unreleased, holds_scope in Hguard0.
    rewrite Er, H1, H2, !str_eqb_refl in Hguard0. unfold unreleased in Hguard0.
    by rewrite Ex, !bool_decide_eq_true_2, orb_true_r in Hguard0.
  - apply Forall_snoc; [done|]. split; [by apply scope_ok_true|lia].
  - eapply Forall_impl; [exact go_run_rows|]. rewrite map_app. intros x (?&?&?&?&Hl&?&?).
    split_and!; try done. eapply absent_or_in_mono; [|exact Hl]. set_solver.
Qed.

(** A change of a lock: one version further, never released back to active. *)
Definition lock_change (f : SkillGovernanceScopedLockRow → SkillGovernanceScopedLockRow) : Prop :=
  keeps slk_id f ∧ keeps slk_scope f ∧ keeps slk_scope_id f ∧
  ∀ r, slk_version (f r) = slk_version r + 1 ∧
       (slk_released_at (f r) = slk_released_at r ∨ is_Some (slk_released_at (f r))).

Lemma active_keys_update p f l :
  lock_change f → omap active_lock_key (update_where p f l) `sublist_of` omap active_lock_key l.
Proof.
  intros (_ & Hs & Hi & Hr). induction l as [|x l IH]; simpl; [done|].
  destruct (p x); [|by destruct (active_lock_key x); [apply sublist_skip|]].
  assert (active_lock_key (f x) = active_lock_key x ∨ active_lock_key (f x) = None) as [-> | ->].
  { unfold active_lock_key. rewrite Hs, Hi. destruct (Hr x) as [_ [->|[t ->]]]; [by left|by right]. }
  - by destruct (active_lock_key x); [apply sublist_skip|].
  - by destruct (active_lock_key x); [apply sublist_cons|].
Qed.

Lemma update_locks_ok p f : lock_change f → stmt_preserves schema_ok (sql_update sg_locks with_sg_locks p f).
Proof.
  intros Hf db db' n Hok [-> _]%sql_update_ok. pose proof Hf as (Hid & Hs & Hi & Hr).
  sg_frame Hok; rewrite ?map_update_where; try done.
  - eapply sublist_NoDup; [exact go_active_locks|by apply active_keys_update].
  - apply Forall_update_where; [done|]. intros r _ [H1 H2]. rewrite Hs. destruct (Hr r) as [-> _].
    split; [done|lia].
Qed.

Lemma insert_apply_run_ok r : stmt_preserves schema_ok (insert_apply_run r).
Proof.
  intros db db' [] Hok H. unfold insert_apply_run in H. inv_stmt. sg_frame Hok.
  - new_key Hguard0. intros x Hx. unfold apply_run_is. by rewrite Hx, N.eqb_refl.
  - new_key Hguard0. intros x [= H1' H2' H3']. unfold has_idempotency_key.
    by rewrite H1', H2', H3', !str_eqb_refl, orb_true_r.
  - apply Forall_snoc; [done|]. split_and!; try lia; try (by apply scope_ok_true); try (by apply persisted_parse).
    + eapply null_or_in; [|done]. intros i. apply has_skill_plan_true.
    + eapply null_or_in; [|done]. intros i. apply has_lock_true.
  - eapply Forall_impl; [exact go_action_rows|]. rewrite map_app. set_solver.
Qed.

Definition run_key (r : SkillGovernanceApplyRunRow) :=
  (sar_id r, sar_scope r, sar_scope_id r, sar_plan_id r, sar_lock_id r, sar_idempotency_key r, sar_nonce r,
   sar_observation_hash r, sar_desired_hash r, sar_lock_hash r, sar_created_at r).

Definition run_change (f : SkillGovernanceApplyRunRow → SkillGovernanceApplyRunRow) : Prop :=
  keeps run_key f ∧
  ∀ r, sar_version (f r) = sar_version r + 1 ∧ sar_attempts r ≤ sar_attempts (f r) ∧
       persisted SkillGovernanceApplyRunStatus (sar_status (f r)) ∧
       persisted SkillGovernanceRecoveryStatus (sar_recovery_status (f r)).

Lemma set_run_change st rc n t b q x t1 t2 now :
  0 ≤ n → run_change (set_run (as_str (A := SkillGovernanceApplyRunStatus) st)
                        (as_str (A := SkillGovernanceRecoveryStatus) rc) n t b q x t1 t2 now).
Proof.
  intros Hn. split; [done|]. intros r. cbn [set_run sar_version sar_attempts sar_status sar_recovery_status].
  split_and!; [done|lia|by exists st|by exists rc].
Qed.

Lemma update_runs_ok p f : run_change f → stmt_preserves schema_ok (sql_update sg_runs with_sg_runs p f).
Proof.
  intros [Hk Hf] db db' n Hok [-> _]%sql_update_ok.
  assert (keeps sar_id f) as Hid by (intros r; by injection (Hk r)).
  assert (keeps idempotency_index f) as Hix by (intros r; unfold idempotency_index; injection (Hk r); congruence).
  sg_frame Hok; rewrite ?map_update_where; try done.
  apply Forall_update_where; [done|]. intros r _ (H1&H2&H3&H4&H5&H6&H7). injection (Hk r). intros.
  destruct (Hf r) as (Hv & Ha & Hs & Hr). split_and!; [congruence|done|done|congruence|congruence|lia|lia].
Qed.

Lemma insert_apply_action_ok r : stmt_preserves schema_ok (insert_apply_action r).
Proof.
  intros db db' [] Hok H. unfold insert_apply_action in H. inv_stmt. sg_frame Hok.
  - new_key Hguard0. intros x Hx. unfold apply_action_is. by rewrite Hx, N.eqb_refl.
  - new_key Hguard0. intros x [= H1' H2']. by rewrite H1', H2', N.eqb_refl, Z.eqb_refl, orb_true_r.
  - new_key Hguard0. intros x [= H1' H2']. unfold has_action_key.
    by rewrite H1', H2', N.eqb_refl, str_eqb_refl, !orb_true_r.
  - apply Forall_snoc; [done|]. split_and!; [by apply has_apply_run_true|by apply persisted_parse|lia|lia].
Qed.

Definition action_key_of (r : SkillGovernanceApplyActionRow) :=
  (saa_id r, saa_run_id r, saa_sequence r, saa_action_key r, saa_request_hash r, saa_created_at r).

Definition action_change (f : SkillGovernanceApplyActionRow → SkillGovernanceApplyActionRow) : Prop :=
  keeps action_key_of f ∧
  ∀ r, saa_version (f r) = saa_version r + 1 ∧ saa_attempts r ≤ saa_attempts (f r) ∧
       persisted SkillGovernanceApplyActionStatus (saa_status (f r)).

Lemma set_action_change st n h t b q x t1 t2 now :
  0 ≤ n → action_change (set_action (as_str (A := SkillGovernanceApplyActionStatus) st) n h t b q x t1 t2 now).
Proof.
  intros Hn. split; [done|]. intros r. cbn [set_action saa_version saa_attempts saa_status].
  split_and!; [done|lia|by exists st].
Qed.

Lemma update_actions_ok p f :
  action_change f → stmt_preserves schema_ok (sql_update sg_actions with_sg_actions p f).
Proof.
  intros [Hk Hf] db db' n Hok [-> _]%sql_update_ok.
  assert (keeps saa_id f) as Hid by (intros r; by injection (Hk r)).
  assert (keeps action_sequence_key f) as Hsk by (intros r; unfold action_sequence_key; injection (Hk r); congruence).
  assert (keeps action_name_key f) as Hnk by (intros r; unfold action_name_key; injection (Hk r); congruence).
  sg_frame Hok; rewrite ?map_update_where; try done.
  apply Forall_update_where; [done|]. intros r _ (H1&H2&H3&H4). injection (Hk r). intros.
  destruct (Hf r) as (Hv & Ha & Hs). split_and!; [congruence|done|lia|lia].
Qed.
#[export] Hint Resolve insert_apply_audit_row_ok insert_lock_ok insert_apply_run_ok insert_apply_action_ok : cocli.

Lemma readonly_get_lock id : readonly (get_skill_governance_lock id).
Proof. unfold get_skill_governance_lock, skill_governance_scoped_lock_from_row. readonly_tac. Qed.
Lemma readonly_select_active_lock s i : readonly (select_active_lock s i).
Proof. unfold select_active_lock, skill_governance_scoped_lock_from_row. readonly_tac. Qed.
Lemma readonly_lock_version_error {A} i v : readonly (lock_version_error_in_transaction (A := A) i v).
Proof. apply readonly_missing_row, readonly_get_lock. Qed.
Lemma readonly_get_apply_run id : readonly (get_skill_governance_apply_run id).
Proof. unfold get_skill_governance_apply_run, skill_governance_apply_run_from_row. readonly_tac. Qed.
Lemma readonly_get_apply_run_by_key s i k : readonly (get_skill_governance_apply_run_by_idempotency s i k).
Proof.
  unfold get_skill_governance_apply_run_by_idempotency, skill_governance_apply_run_from_row. readonly_tac.
Qed.
Lemma readonly_get_apply_action id : readonly (get_skill_governance_apply_action id).
Proof. unfold get_skill_governance_apply_action, skill_governance_apply_action_from_row. readonly_tac. Qed.
Lemma readonly_get_apply_action_by_key r k : readonly (get_skill_governance_apply_action_by_key r k).
Proof.
  unfold get_skill_governance_apply_action_by_key, skill_governance_apply_action_from_row. readonly_tac.
Qed.
#[export] Hint Resolve readonly_get_lock readonly_select_active_lock readonly_lock_version_error
  readonly_get_apply_run readonly_get_apply_run_by_key readonly_get_apply_action
  readonly_get_apply_action_by_key : cocli.

(** An operation keeps what the successful runs of its transaction keep. *)
Lemma run_skill_run_op_preserves (P : DB → Prop) op :
  (∀ s i o p r n t now, preserves P (transaction (acquire_body s i o p r n t now))) →
  (∀ i v n f a s j, lock_change f → preserves P (transaction (lease_body i v n f a s j))) →
  (∀ i now x t, preserves P (transaction (create_run_body i now x t))) →
  (∀ i v c s rc b q j t x now, sar_version c = v → preserves P (transaction (run_transition_body i v c s rc b q j t x now))) →
  (∀ i now x t, preserves P (transaction (create_action_body i now x t))) →
  (∀ i v c s h b q j t x now, saa_version c = v → preserves P (transaction (action_transition_body i v c s h b q j t x now))) →
  preserves P (run_skill_run_op op).
Proof.
  intros H1 H2 H3 H4 H5 H6.
  assert (∀ A (m : M A), readonly m → preserves P m) as Hr by (intros; by apply preserves_readonly).
  assert (∀ A B (m : M A) (k : A → M B), preserves P m → (∀ a, readonly (k a)) → preserves P (bind m k)) as Hl.
  { intros. apply preserves_bind; auto. }
  assert (∀ A (m : M A) (k : A → M unit), readonly m → (∀ a, preserves P (k a)) → preserves P (bind m k)) as Hb.
  { intros. apply preserves_bind; auto. }
  destruct op; simpl; (apply preserves_bind; [|intros; apply preserves_ret]).
  - unfold acquire_skill_governance_lock. apply preserves_bind; [apply preserves_utc_now|]. intros now.
    apply Hl; [apply H1|]. intros a. apply readonly_bind; auto with cocli.
  - unfold renew_skill_governance_lock. apply preserves_bind; [apply preserves_utc_now|]. intros now.
    apply Hl; [apply H2|auto with cocli]. split_and!; try done. intros x. split; [done|by left].
  - unfold attach_skill_governance_lock_run. apply preserves_bind; [apply preserves_utc_now|]. intros now.
    apply preserves_bind; [apply preserves_uuid_display|]. intros show.
    apply Hl; [apply H2|auto with cocli]. split_and!; try done. intros x. split; [done|by left].
  - unfold release_skill_governance_lock. apply preserves_bind; [apply preserves_utc_now|]. intros now.
    apply Hl; [apply H2|auto with cocli]. split_and!; try done. intros x. split; [done|by right].
  - unfold create_skill_governance_apply_run. apply preserves_bind; [apply Hr; auto with cocli|]. intros [x|].
    + destruct (_ || _); [apply preserves_throw|apply preserves_ret].
    + apply preserves_bind; [apply preserves_new_v4|]. intros id. apply preserves_bind; [apply preserves_utc_now|].
      intros now. apply preserves_bind; [apply preserves_json_to_string|]. intros t.
      apply Hl; [apply H3|auto with cocli].
  - unfold transition_skill_governance_apply_run. apply preserves_bind; [apply Hr; auto with cocli|]. intros cur.
    destruct (negb _) eqn:Ev; [apply preserves_throw|]. bsimp. apply preserves_bind; [apply preserves_utc_now|].
    intros now. apply preserves_bind; [apply preserves_json_to_string|]. intros t.
    apply Hl; [by apply H4|auto with cocli].
  - unfold create_skill_governance_apply_action. apply preserves_bind; [apply Hr; auto with cocli|]. intros [x|].
    + destruct (_ || _); [apply preserves_throw|apply preserves_ret].
    + apply preserves_bind; [apply preserves_new_v4|]. intros id. apply preserves_bind; [apply preserves_utc_now|].
      intros now. apply preserves_bind; [apply preserves_json_to_string|]. intros t.
      apply Hl; [apply H5|auto with cocli].
  - unfold transition_skill_governance_apply_action. apply preserves_bind; [apply Hr; auto with cocli|]. intros cur.
    destruct (negb _) eqn:Ev; [apply preserves_throw|]. bsimp. apply preserves_bind; [apply preserves_utc_now|].
    intros now. apply preserves_bind; [apply preserves_json_to_string|]. intros t.
    apply Hl; [by apply H6|auto with cocli].
Qed.

Lemma take_over_change o p r n t now po pr : lock_change (take_over o p r n t now po pr).
Proof. split_and!; try done. intros x. split; [done|by left]. Qed.

(** *** What the statements keep, the transactions keep *)

Section Bodies.
Context (P : DB → Prop).
Context (H1 : ∀ r, stmt_preserves P (insert_apply_audit_row r)) (H2 : ∀ r, stmt_preserves P (insert_lock r)).
Context (H3 : ∀ p f, lock_change f → stmt_preserves P (sql_update sg_locks with_sg_locks p f)).
Context (H4 : ∀ r, stmt_preserves P (insert_apply_run r)).
Context (H5 : ∀ p f, run_change f → stmt_preserves P (sql_update sg_runs with_sg_runs p f)).
Context (H6 : ∀ r, stmt_preserves P (insert_apply_action r)).
Context (H7 : ∀ p f, action_change f → stmt_preserves P (sql_update sg_actions with_sg_actions p f)).

Lemma insert_audit_keeps t i a s1 s2 v1 v2 j :
  preserves P (insert_skill_governance_apply_audit t i a s1 s2 v1 v2 j).
Proof. unfold insert_skill_governance_apply_audit. preserves_tac. Qed.
#[local] Hint Resolve insert_audit_keeps : cocli.

Lemma acquire_body_keeps s i o p r n t now : preserves P (acquire_body s i o p r n t now).
Proof.
  unfold acquire_body. apply preserves_bind; [apply preserves_readonly; auto with cocli|].
  preserves_tac. apply H3, take_over_change.
Qed.
Lemma lease_body_keeps i v n f a s j : lock_change f → preserves P (lease_body i v n f a s j).
Proof.
  intros Hf. unfold lease_body. apply preserves_bind; [by apply preserves_execute, H3|]. intros k.
  destruct (k =? 0); [apply preserves_readonly; auto with cocli|auto with cocli].
Qed.
Lemma create_run_body_keeps i now x t : preserves P (create_run_body i now x t).
Proof. unfold create_run_body. preserves_tac. Qed.
Lemma run_transition_body_keeps i v c s rc b q j t x now :
  preserves P (run_transition_body i v c s rc b q j t x now).
Proof. unfold run_transition_body. preserves_tac; by apply H5, set_run_change. Qed.
Lemma create_action_body_keeps i now x t : preserves P (create_action_body i now x t).
Proof. unfold create_action_body. preserves_tac. Qed.
Lemma action_transition_body_keeps i v c s h b q j t x now :
  preserves P (action_transition_body i v c s h b q j t x now).
Proof. unfold action_transition_body. preserves_tac; by apply H7, set_action_change. Qed.

Lemma run_skill_run_op_statements op : preserves P (run_skill_run_op op).
Proof.
  apply run_skill_run_op_preserves; intros; apply preserves_transaction.
  - apply acquire_body_keeps.
  - by apply lease_body_keeps.
  - apply create_run_body_keeps.
  - apply run_transition_body_keeps.
  - apply create_action_body_keeps.
  - apply action_transition_body_keeps.
Qed.
End Bodies.

Ltac schema_statements := auto with cocli; intros;
  first [by apply update_locks_ok|by apply update_runs_ok|by apply update_actions_ok].

Lemma run_skill_run_op_schema op : preserves schema_ok (run_skill_run_op op).
Proof. apply run_skill_run_op_statements; schema_statements. Qed.

Lemma run_skill_run_op_outside (P : DB → Prop) op :
  (∀ f db, P db → P (with_skill_governance_tables f db)) → preserves P (run_skill_run_op op).
Proof.
  intros HP. apply run_skill_run_op_statements; intros; intros db db' x Hdb E.
  - unfold insert_apply_audit_row in E. inv_stmt. by apply HP.
  - unfold insert_lock in E. inv_stmt. by apply HP.
  - apply sql_update_ok in E as [-> _]. by apply HP.
  - unfold insert_apply_run in E. inv_stmt. by apply HP.
  - apply sql_update_ok in E as [-> _]. by apply HP.
  - unfold insert_apply_action in E. inv_stmt. by apply HP.
  - apply sql_update_ok in E as [-> _]. by apply HP.
Qed.

(** ** The audit is complete *)

Definition audit_of (entity_type : string) (id : Uuid) (a : SkillGovernanceApplyAuditRow) : bool :=
  str_eqb (sau_entity_type a) entity_type && (sau_entity_id a =? id)%N.
Definition audit_count (entity_type : string) (id : Uuid) (l : list SkillGovernanceApplyAuditRow) : Z :=
  count_where (audit_of entity_type id) l.

(** The version of each row counts the audit rows of its entity. *)
Definition versions_audited {A} (entity_type : string) (id : A → Uuid) (version : A → Z) (rows : list A)
    (audit : list SkillGovernanceApplyAuditRow) : Prop :=
  (∀ r, r ∈ rows → version r = audit_count entity_type (id r) audit) ∧
  (∀ i, i ∉ map id rows → audit_count entity_type i audit = 0).

Lemma audit_count_snoc t i l a :
  audit_count t i (l ++ [a]) = audit_count t i l + (if audit_of t i a then 1 else 0).
Proof.
  unfold audit_count, count_where. rewrite bfilter_app, length_app. simpl.
  destruct (audit_of t i a); simpl; lia.
Qed.

Section Audited.
Context {A : Type} (entity_type : string) (id : A → Uuid) (version : A → Z).

Lemma audited_other rows audit a :
  sau_entity_type a ≠ entity_type → versions_audited entity_type id version rows audit →
  versions_audited entity_type id version rows (audit ++ [a]).
Proof.
  intros Ha [H1 H2]. assert (∀ i, audit_of entity_type i a = false) as Hn.
  { intros i. unfold audit_of. destruct (str_eqb _ _) eqn:E; [|done]. by apply str_eqb_eq in E. }
  split; intros; rewrite audit_count_snoc, Hn, Z.add_0_r; auto.
Qed.

Lemma audited_insert rows audit a r :
  sau_entity_type a = entity_type → sau_entity_id a = id r → version r = 1 → id r ∉ map id rows →
  versions_audited entity_type id version rows audit →
  versions_audited entity_type id version (rows ++ [r]) (audit ++ [a]).
Proof.
  intros Ht Hi Hv Hnew [H1 H2]. assert (∀ i, audit_of entity_type i a = (id r =? i)%N) as Ha.
  { intros i. unfold audit_of. by rewrite Ht, Hi, str_eqb_refl. }
  split.
  - intros x [Hx| ->%list_elem_of_singleton]%elem_of_app; rewrite audit_count_snoc, Ha.
    + destruct (N.eqb_spec (id r) (id x)) as [E|]; [|rewrite H1 by done; lia].
      destruct Hnew. rewrite E. by apply list_elem_of_fmap_2.
    + rewrite N.eqb_refl, H2 by done. lia.
  - intros i Hni. rewrite map_app in Hni. rewrite audit_count_snoc, Ha, H2 by set_solver.
    destruct (N.eqb_spec (id r) i) as [<-|]; [set_solver|done].
Qed.

Lemma audited_update rows audit a p f x0 :
  NoDup (map id rows) → keeps id f → (∀ x, version (f x) = version x + 1) →
  (∀ x, p x = true → id x = id x0) → x0 ∈ rows → p x0 = true →
  sau_entity_type a = entity_type → sau_entity_id a = id x0 →
  versions_audited entity_type id version rows audit →
  versions_audited entity_type id version (update_where p f rows) (audit ++ [a]).
Proof.
  intros Hnd Hid Hf Hp Hx0 Hpx0 Ht Hi [H1 H2].
  assert (∀ i, audit_of entity_type i a = (id x0 =? i)%N) as Ha.
  { intros i. unfold audit_of. by rewrite Ht, Hi, str_eqb_refl. }
  split.
  - intros y Hy. apply elem_of_update_where in Hy as (x & Hx & ->). rewrite audit_count_snoc, Ha.
    destruct (p x) eqn:Ep.
    + rewrite Hid, Hf, (Hp x Ep), N.eqb_refl, (H1 x Hx), (Hp x Ep). done.
    + destruct (N.eqb_spec (id x0) (id x)) as [E|]; [|rewrite H1 by done; lia].
      rewrite (NoDup_key_eq id rows x0 x) in Hpx0 by done. congruence.
  - intros i Hni. rewrite map_update_where in Hni by done. rewrite audit_count_snoc, Ha, H2 by done.
    destruct (N.eqb_spec (id x0) i) as [<-|]; [|done]. destruct Hni. by apply list_elem_of_fmap_2.
Qed.
End Audited.

Record audited (db : DB) : Prop := {
  au_locks : versions_audited "lock" slk_id slk_version (sg_locks db) (sg_audit db);
  au_runs : versions_audited "run" sar_id sar_version (sg_runs db) (sg_audit db);
  au_actions : versions_audited "action" saa_id saa_version (sg_actions db) (sg_audit db);
}.
Definition runs_inv (db : DB) : Prop := schema_ok db ∧ audited db.

Lemma insert_audit_spec t i a s1 s2 v1 v2 j e w w' u :
  insert_skill_governance_apply_audit t i a s1 s2 v1 v2 j e w = (w', Ok u) →
  ∃ r, sau_entity_type r = t ∧ sau_entity_id r = i ∧ w_db w' = with_sg_audit (λ l, l ++ [r])%list (w_db w).
Proof.
  unfold insert_skill_governance_apply_audit. intros H.
  apply bind_ok in H as (w1 & x & [= <- _] & H). apply bind_ok in H as (w2 & y & [= <- _] & H).
  apply bind_ok in H as (w3 & now & [= <- _] & H). apply execute_ok in H as (_ & H & _).
  unfold insert_apply_audit_row in H. inv_stmt. eexists. split_and!; [| |symmetry; eassumption || done]; done.
Qed.

(** A change of one row with its audit row, and a new row with its audit row. *)
Ltac step_ok H := let w := fresh "w" in let x := fresh "x" in let Hx := fresh "Hx" in
  apply bind_ok in H as (w & x & Hx & H).

Lemma count_positive {A} (p : A → bool) (l : list A) : count_where p l ≠ 0 → ∃ x, x ∈ l ∧ p x = true.
Proof.
  unfold count_where. intros H. destruct (bfilter p l) as [|x l'] eqn:E; [done|].
  exists x. apply elem_of_bfilter. rewrite E. set_solver.
Qed.

Lemma lease_body_spec i v n f a s j e w w' u :
  lease_body i v n f a s j e w = (w', Ok u) →
  ∃ r x, x ∈ sg_locks (w_db w) ∧ lease_at i v n x = true ∧ sau_entity_type r = "lock" ∧ sau_entity_id r = i ∧
    w_db w' = with_sg_audit (λ l, l ++ [r])%list (with_sg_locks (update_where (lease_at i v n) f) (w_db w)).
Proof.
  unfold lease_body. intros H. step_ok H. apply execute_ok in Hx as (_ & [Hdb Hn]%sql_update_ok & _).
  destruct (x =? 0) eqn:E.
  - unfold lock_version_error_in_transaction, missing_row in H. step_ok H. by destruct x0.
  - bsimp. apply insert_audit_spec in H as (r & Ht & Hi & ->). rewrite Hdb.
    destruct (count_positive (lease_at i v n) (sg_locks (w_db w))) as (y & Hy & Hl); [lia|]. by exists r, y.
Qed.

Lemma lease_at_id i v n x : lease_at i v n x = true → slk_id x = i.
Proof. unfold lease_at, lock_is. intros H. bsimp. by apply N.eqb_eq. Qed.

Lemma with_sg_locks_ext f g db : f (sg_locks db) = g (sg_locks db) → with_sg_locks f db = with_sg_locks g db.
Proof. unfold with_sg_locks, with_skill_governance_tables, sg_locks. by intros ->. Qed.

Lemma audited_lock_update db p f x r :
  schema_ok db → lock_change f → (∀ y, p y = true → slk_id y = slk_id x) → x ∈ sg_locks db → p x = true →
  sau_entity_type r = "lock" → sau_entity_id r = slk_id x → audited db →
  audited (with_sg_audit (λ l, l ++ [r])%list (with_sg_locks (update_where p f) db)).
Proof.
  intros Hok (Hid & _ & _ & Hf) Hp Hx Hpx Ht Hi [H1 H2 H3]. split.
  - apply (audited_update _ _ _ _ _ _ _ _ x); try done.
    + exact (go_locks _ (so_skill_governance _ Hok)).
    + intros y. apply Hf.
  - apply audited_other; [by rewrite Ht|done].
  - apply audited_other; [by rewrite Ht|done].
Qed.

(** What an insertion adds, and that its identifier is new. *)
Lemma insert_lock_spec r db db' u :
  insert_lock r db = Ok (db', u) →
  (slk_id r ∉ map slk_id (sg_locks db)) ∧ db' = with_sg_locks (λ l, l ++ [r])%list db.
Proof.
  unfold insert_lock. intros H. inv_stmt. split; [|done]. eapply exists_key_false; [|exact Hguard0].
  intros x Hx. simpl. unfold lock_is. by rewrite Hx, N.eqb_refl.
Qed.
Lemma insert_apply_run_spec r db db' u :
  insert_apply_run r db = Ok (db', u) →
  (sar_id r ∉ map sar_id (sg_runs db)) ∧ db' = with_sg_runs (λ l, l ++ [r])%list db.
Proof.
  unfold insert_apply_run. intros H. inv_stmt. split; [|done]. eapply exists_key_false; [|exact Hguard0].
  intros x Hx. simpl. unfold apply_run_is. by rewrite Hx, N.eqb_refl.
Qed.
Lemma insert_apply_action_spec r db db' u :
  insert_apply_action r db = Ok (db', u) →
  (saa_id r ∉ map saa_id (sg_actions db)) ∧ db' = with_sg_actions (λ l, l ++ [r])%list db.
Proof.
  unfold insert_apply_action. intros H. inv_stmt. split; [|done]. eapply exists_key_false; [|exact Hguard0].
  intros x Hx. simpl. unfold apply_action_is. by rewrite Hx, N.eqb_refl.
Qed.

(** A transaction that keeps the schema keeps the audit complete when its successful runs do. *)
Lemma audited_transaction {A} (m : M A) :
  preserves schema_ok m →
  (∀ e w w' a, schema_ok (w_db w) → audited (w_db w) → m e w = (w', Ok a) → audited (w_db w')) →
  preserves runs_inv (transaction m).
Proof.
  intros Hs Ha. apply preserves_transaction_ok. intros e w w' a [Hok Hau] H. split; [|by eapply Ha].
  specialize (Hs e w Hok). by rewrite H in Hs.
Qed.

Lemma lease_body_audited i v n f a s j :
  lock_change f → preserves runs_inv (transaction (lease_body i v n f a s j)).
Proof.
  intros Hf. apply audited_transaction; [by apply lease_body_keeps; schema_statements|].
  intros e w w' u Hok Ha H. apply lease_body_spec in H as (r & x & Hx & Hl & Ht & Hi & ->).
  eapply (audited_lock_update _ _ _ x); try done.
  - intros y Hy. rewrite (lease_at_id _ _ _ _ Hl). by eapply lease_at_id.
  - by rewrite (lease_at_id _ _ _ _ Hl).
Qed.

Lemma select_active_lock_spec scope scope_id e w w' o :
  select_active_lock scope scope_id e w = (w', Ok o) →
  w_db w' = w_db w ∧
  match o with
  | Some l => ∃ x, x ∈ sg_locks (w_db w) ∧ holds_scope scope scope_id x = true ∧ slk_id l = slk_id x ∧
                slk_version l = slk_version x ∧ slk_lease_expires_at l = slk_lease_expires_at x
  | None => ∀ x, x ∈ sg_locks (w_db w) → holds_scope scope scope_id x = false
  end.
Proof.
  intros H. apply (read_row sg_locks) in H as [Hw H];
    [|unfold skill_governance_scoped_lock_from_row; readonly_tac].
  split; [done|]. destruct o as [l|]; [|done]. destruct H as (x & w1 & Hx & Hp & Hd). exists x.
  unfold skill_governance_scoped_lock_from_row in Hd. inv_run. by split_and!.
Qed.

(** Taking the lease of a scope: a lease that expired is taken over, one that did not excludes. *)
Lemma acquire_body_spec s i o p r n t now e w w' out :
  schema_ok (w_db w) → acquire_body s i o p r n t now e w = (w', Ok out) →
  ∃ a, sau_entity_type a = "lock" ∧ sau_entity_id a = out.1 ∧
  ((out.2 = true ∧ ∃ x po pr, x ∈ sg_locks (w_db w) ∧ holds_scope (as_str s) i x = true ∧ slk_id x = out.1 ∧
      slk_lease_expires_at x ≤ now ∧
      w_db w' = with_sg_audit (λ l, l ++ [a])%list (with_sg_locks (update_where (lock_is (slk_id x))
                  (take_over o p r n t now po pr)) (w_db w))) ∨
   (out.2 = false ∧ (∀ x, x ∈ sg_locks (w_db w) → holds_scope (as_str s) i x = false) ∧
      (out.1 ∉ map slk_id (sg_locks (w_db w))) ∧
      w_db w' = with_sg_audit (λ l, l ++ [a])%list (with_sg_locks (λ l, l ++
        [mkScopedLock out.1 (as_str s) i o p r n t now now None 0 None None None 1 now now])%list (w_db w)))).
Proof.
  intros Hok H. unfold acquire_body in H. step_ok H. apply select_active_lock_spec in Hx as [Hw0 Hx].
  destruct x as [cur|].
  - destruct Hx as (y & Hy & Hh & Hid & Hv & He). case_match eqn:El; [done|]. bsimp.
    step_ok H. apply execute_ok in Hx as (_ & [Hdb _]%sql_update_ok & _).
    step_ok H. apply insert_audit_spec in Hx as (a & Ht & Hi & Hdb2). injection H as <- <-.
    exists a. split_and!; [done..|]. left. split; [done|]. exists y, (slk_owner cur), (slk_run_id cur).
    split_and!; [done..|lia|]. rewrite Hdb2, Hdb, Hw0, Hid. f_equal.
    apply (with_sg_locks_ext _ _), update_where_same_rows. intros z Hz. unfold lock_is.
    destruct (N.eqb_spec (slk_id z) (slk_id y)) as [E|]; [|done].
    assert (z = y) as -> by (by eapply (NoDup_key_eq slk_id); [exact (go_locks _ (so_skill_governance _ Hok))|..]).
    unfold holds_scope in Hh. bsimp. rewrite Hv, Z.eqb_refl, H0. simpl. lia.
  - step_ok H. injection Hx0 as <- <-. step_ok H. apply execute_ok in Hx0 as (_ & Hins & _).
    step_ok H. apply insert_audit_spec in Hx0 as (a & Ht & Hi & Hdb2). injection H as <- <-.
    exists a. split_and!; [done..|]. right.
    apply insert_lock_spec in Hins as [Hnew Hdb]. cbn [w_db tick] in *. rewrite Hw0 in *.
    split_and!; [done..|]. by rewrite Hdb2, Hdb.
Qed.

Lemma acquire_body_audited s i o p r n t now :
  preserves runs_inv (transaction (acquire_body s i o p r n t now)).
Proof.
  apply audited_transaction; [by apply acquire_body_keeps; schema_statements|].
  intros e w w' out Hok Ha H.
  apply acquire_body_spec in H as (a & Ht & Hi & [(_ & x & po & pr & Hx & _ & Hid & _ & ->)|(_ & _ & Hnew & ->)]); [| |done].
  - eapply (audited_lock_update _ _ _ x); try done.
    + apply take_over_change.
    + intros y Hy. by apply N.eqb_eq.
    + unfold lock_is. by rewrite N.eqb_refl.
    + congruence.
  - destruct Ha as [A1 A2 A3]. split.
    + by apply audited_insert.
    + apply audited_other; [by rewrite Ht|done].
    + apply audited_other; [by rewrite Ht|done].
Qed.

Lemma create_run_body_audited i now x t : preserves runs_inv (transaction (create_run_body i now x t)).
Proof.
  apply audited_transaction; [by apply create_run_body_keeps; schema_statements|].
  intros e w w' u Hok [A1 A2 A3] H. unfold create_run_body in H. step_ok H.
  apply execute_ok in Hx as (_ & [Hnew Hdb]%insert_apply_run_spec & _).
  apply insert_audit_spec in H as (a & Ht & Hi & ->). rewrite Hdb. split.
  - apply audited_other; [by rewrite Ht|done].
  - by apply audited_insert.
  - apply audited_other; [by rewrite Ht|done].
Qed.

Lemma create_action_body_audited i now x t : preserves runs_inv (transaction (create_action_body i now x t)).
Proof.
  apply audited_transaction; [by apply create_action_body_keeps; schema_statements|].
  intros e w w' u Hok [A1 A2 A3] H. unfold create_action_body in H. step_ok H.
  apply execute_ok in Hx as (_ & [Hnew Hdb]%insert_apply_action_spec & _).
  apply insert_audit_spec in H as (a & Ht & Hi & ->). rewrite Hdb. split.
  - apply audited_other; [by rewrite Ht|done].
  - apply audited_other; [by rewrite Ht|done].
  - by apply audited_insert.
Qed.

Lemma run_transition_body_audited i v c s rc b q j t x now :
  preserves runs_inv (transaction (run_transition_body i v c s rc b q j t x now)).
Proof.
  apply audited_transaction; [by apply run_transition_body_keeps; schema_statements|].
  intros e w w' u Hok [A1 A2 A3] H. unfold run_transition_body in H. step_ok H.
  apply execute_ok in Hx as (_ & [Hdb Hn]%sql_update_ok & _). case_match; [done|]. bsimp.
  apply insert_audit_spec in H as (a & Ht & Hi & ->). rewrite Hdb.
  destruct (count_positive (λ r, apply_run_is i r && (sar_version r =? v)) (sg_runs (w_db w))) as (y & Hy & Hp); [lia|].
  assert (sar_id y = i) as Hyi by (bsimp; by apply N.eqb_eq). split.
  - apply audited_other; [by rewrite Ht|done].
  - apply (audited_update _ _ _ _ _ _ _ _ y); try done.
    + exact (go_runs _ (so_skill_governance _ Hok)).
    + intros z Hz. bsimp. rewrite Hyi. by apply N.eqb_eq.
    + congruence.
  - apply audited_other; [by rewrite Ht|done].
Qed.

Lemma action_transition_body_audited i v c s h b q j t x now :
  preserves runs_inv (transaction (action_transition_body i v c s h b q j t x now)).
Proof.
  apply audited_transaction; [by apply action_transition_body_keeps; schema_statements|].
  intros e w w' u Hok [A1 A2 A3] H. unfold action_transition_body in H. step_ok H.
  apply execute_ok in Hx as (_ & [Hdb Hn]%sql_update_ok & _). case_match; [done|]. bsimp.
  apply insert_audit_spec in H as (a & Ht & Hi & ->). rewrite Hdb.
  destruct (count_positive (λ r, apply_action_is i r && (saa_version r =? v)) (sg_actions (w_db w))) as (y & Hy & Hp); [lia|].
  assert (saa_id y = i) as Hyi by (bsimp; by apply N.eqb_eq). split.
  - apply audited_other; [by rewrite Ht|done].
  - apply audited_other; [by rewrite Ht|done].
  - apply (audited_update _ _ _ _ _ _ _ _ y); try done.
    + exact (go_actions _ (so_skill_governance _ Hok)).
    + intros z Hz. bsimp. rewrite Hyi. by apply N.eqb_eq.
    + congruence.
Qed.

Lemma run_skill_run_op_audited op : preserves runs_inv (run_skill_run_op op).
Proof.
  apply run_skill_run_op_preserves; intros.
  - apply acquire_body_audited.
  - by apply lease_body_audited.
  - apply create_run_body_audited.
  - apply run_transition_body_audited.
  - apply create_action_body_audited.
  - apply action_transition_body_audited.
Qed.

(** ** The lease *)

(** Every lock of the first database is in the second, at the same or a later version. *)
Definition locks_evolve (db db' : DB) : Prop :=
  ∀ x, x ∈ sg_locks db → ∃ x', x' ∈ sg_locks db' ∧ slk_id x' = slk_id x ∧ slk_version x ≤ slk_version x'.

#[export] Instance locks_evolve_preorder : PreOrder locks_evolve.
Proof.
  split.
  - intros db x Hx. exists x. split_and!; [done..|lia].
  - intros d1 d2 d3 H1 H2 x Hx. destruct (H1 x Hx) as (y & Hy & Hyi & Hyv).
    destruct (H2 y Hy) as (z & Hz & Hzi & Hzv). exists z. split_and!; [done|congruence|lia].
Qed.

Lemma run_skill_run_op_locks op db0 : preserves (locks_evolve db0) (run_skill_run_op op).
Proof.
  apply run_skill_run_op_statements; intros; intros db db' u Hdb E; (etrans; [exact Hdb|]); intros y Hy.
  - unfold insert_apply_audit_row in E. inv_stmt. exists y. split_and!; [done..|lia].
  - apply insert_lock_spec in E as [_ ->]. exists y. split_and!; [|done|lia]. apply elem_of_app. by left.
  - apply sql_update_ok in E as [-> _]. destruct H as (Hid & _ & _ & Hv).
    exists (if p db y then f y else y). split_and!.
    + apply list_elem_of_fmap. by exists y.
    + by destruct (p db y).
    + destruct (p db y); [|lia]. destruct (Hv y) as [-> _]. lia.
  - apply insert_apply_run_spec in E as [_ ->]. exists y. split_and!; [done..|lia].
  - apply sql_update_ok in E as [-> _]. exists y. split_and!; [done..|lia].
  - apply insert_apply_action_spec in E as [_ ->]. exists y. split_and!; [done..|lia].
  - apply sql_update_ok in E as [-> _]. exists y. split_and!; [done..|lia].
Qed.

(** An operation on a lease whose version passed on fails and changes nothing. *)
Lemma lease_body_stale i v n f a s j e w :
  (∀ x, x ∈ sg_locks (w_db w) → slk_id x = i → v < slk_version x) →
  ∃ w' err, transaction (lease_body i v n f a s j) e w = (w', Err err) ∧ w_db w' = w_db w.
Proof.
  intros Hv. destruct (transaction (lease_body i v n f a s j) e w) as [w' [u|err]] eqn:E.
  - apply transaction_ok in E as (w1 & H & _). apply lease_body_spec in H as (r & x & Hx & Hl & _).
    specialize (Hv x Hx (lease_at_id _ _ _ _ Hl)). unfold lease_at in Hl. bsimp. lia.
  - exists w', err. split; [done|]. by eapply transaction_atomic.
Qed.

Lemma bind_err_db {A B} (m : M A) (k : A → M B) e w :
  (∃ w' err, m e w = (w', Err err) ∧ w_db w' = w_db w) →
  ∃ w' err, bind m k e w = (w', Err err) ∧ w_db w' = w_db w.
Proof. intros (w' & err & H & Hw). exists w', err. unfold bind. by rewrite H. Qed.

Lemma bind_now {B} (k : Time → M B) e w : bind utc_now k e w = k (env_now e (w_ctr w)) e (tick w).
Proof. done. Qed.

Lemma bind_display {B} (k : (Uuid → string) → M B) e w : bind uuid_display k e w = k (env_uuid_string e) e w.
Proof. done. Qed.

Lemma lease_stale_ops i v n e w :
  (∀ x, x ∈ sg_locks (w_db w) → slk_id x = i → v < slk_version x) →
  (∀ t, ∃ w' err, renew_skill_governance_lock i v n t e w = (w', Err err) ∧ w_db w' = w_db w) ∧
  (∀ r t, ∃ w' err, attach_skill_governance_lock_run i v n r t e w = (w', Err err) ∧ w_db w' = w_db w) ∧
  (∃ w' err, release_skill_governance_lock i v n e w = (w', Err err) ∧ w_db w' = w_db w).
Proof.
  intros Hv. split_and!; intros;
    unfold renew_skill_governance_lock, attach_skill_governance_lock_run, release_skill_governance_lock.
  - rewrite bind_now. apply (bind_err_db _ _ _ (tick w)). by apply (lease_body_stale _ _ _ _ _ _ _ _ (tick w)).
  - rewrite bind_now, bind_display. apply (bind_err_db _ _ _ (tick w)).
    by apply (lease_body_stale _ _ _ _ _ _ _ _ (tick w)).
  - rewrite bind_now. apply (bind_err_db _ _ _ (tick w)). by apply (lease_body_stale _ _ _ _ _ _ _ _ (tick w)).
Qed.

Lemma NoDup_omap_eq {A K} (f : A → option K) (l : list A) x y k :
  NoDup (omap f l) → x ∈ l → y ∈ l → f x = Some k → f y = Some k → x = y.
Proof.
  induction l as [|z l IH]; intros Hnd Hx Hy Hfx Hfy; [by inversion Hx|]. simpl in Hnd.
  assert (∀ u, u ∈ l → f u = Some k → f z = Some k → False) as Hone.
  { intros u Hu Hfu Hfz. rewrite Hfz in Hnd. apply NoDup_cons in Hnd as [Hnd _]. apply Hnd.
    apply list_elem_of_omap. by exists u. }
  apply elem_of_cons in Hx as [->|Hx]; apply elem_of_cons in Hy as [->|Hy]; [done|exfalso; eauto|exfalso; eauto|].
  apply IH; try done. destruct (f z); [by apply NoDup_cons in Hnd as [_ ?]|done].
Qed.

Lemma holds_scope_key s i x : holds_scope s i x = true → active_lock_key x = Some (s, i).
Proof.
  unfold holds_scope, unreleased, active_lock_key. intros H. bsimp. rewrite H0.
  repeat match goal with H : str_eqb _ _ = true |- _ => apply str_eqb_eq in H as -> end. done.
Qed.

(** The leases of a scope that are not released are one. *)
Lemma active_lock_unique db s i x y :
  schema_ok db → x ∈ sg_locks db → y ∈ sg_locks db → holds_scope s i x = true → holds_scope s i y = true → x = y.
Proof.
  intros Hok Hx Hy Hhx%holds_scope_key Hhy%holds_scope_key.
  by eapply NoDup_omap_eq; [exact (go_active_locks _ (so_skill_governance _ Hok))|..].
Qed.

(** What a caller that acquires a lease has: no live lease excluded it, and the one row of the
    scope that is not released is its own, a version past any version seen before. *)
Lemma acquire_spec s i o p r n t e w w' lease :
  schema_ok (w_db w) → acquire_skill_governance_lock s i o p r n t e w = (w', Ok lease) →
  (∀ x, x ∈ sg_locks (w_db w) → holds_scope (as_str s) i x = true → slk_lease_expires_at x ≤ env_now e (w_ctr w)) ∧
  ∃ x, x ∈ sg_locks (w_db w') ∧ holds_scope (as_str s) i x = true ∧
    slk_id x = slk_id (sla_lock lease) ∧ slk_version x = slk_version (sla_lock lease) ∧
    slk_owner x = o ∧ slk_lease_nonce x = n ∧ slk_lease_expires_at x = t ∧
    (∀ y, y ∈ sg_locks (w_db w) → slk_id y = slk_id x → slk_version y < slk_version x).
Proof.
  intros Hok H. unfold acquire_skill_governance_lock in H. step_ok H. injection Hx as <- <-.
  step_ok H. apply transaction_ok in Hx as (w2 & Hb & Hw2). step_ok H. injection H as <- <-.
  apply (require_row sg_locks) in Hx as [Hw3 (y & w4 & Hy & Hyi & Hd)];
    [|unfold skill_governance_scoped_lock_from_row; readonly_tac].
  unfold lock_is in Hyi. apply N.eqb_eq in Hyi.
  assert (slk_id x0 = slk_id y ∧ slk_version x0 = slk_version y) as [Ei Ev].
  { unfold skill_governance_scoped_lock_from_row in Hd. inv_run. done. }
  apply acquire_body_spec in Hb as (a & _ & _ & Hb); [|done]. cbn [w_db tick] in *.
  rewrite Hw2 in *. destruct Hb as [(_ & z & po & pr & Hz & Hh & Hzi & Hexp & Hdb)|(_ & Hnone & Hnew & Hdb)].
  - split.
    { intros u Hu Hhu. by rewrite (active_lock_unique _ _ _ u z Hok Hu Hz Hhu Hh). }
    rewrite Hdb in Hy. simpl in Hy. apply elem_of_update_where in Hy as (u & Hu & ->).
    assert (u = z) as ->.
    { eapply (NoDup_key_eq slk_id); [exact (go_locks _ (so_skill_governance _ Hok))|done..|].
      destruct (lock_is (slk_id z) u); simpl in Hyi; congruence. }
    unfold lock_is in *. rewrite N.eqb_refl in *.
    exists (take_over o p r n t (env_now e (w_ctr w)) po pr z). rewrite Hw3, Hdb. split_and!; try done.
    + apply list_elem_of_fmap. exists z. by rewrite N.eqb_refl.
    + intros u' Hu' E. rewrite (NoDup_key_eq slk_id _ u' z (go_locks _ (so_skill_governance _ Hok)) Hu' Hz E).
      simpl. lia.
  - split; [intros u Hu Hhu; by rewrite Hnone in Hhu|].
    exists (mkScopedLock x.1 (as_str s) i o p r n t (env_now e (w_ctr w)) (env_now e (w_ctr w)) None 0 None None None
      1 (env_now e (w_ctr w)) (env_now e (w_ctr w))).
    assert (y = mkScopedLock x.1 (as_str s) i o p r n t (env_now e (w_ctr w)) (env_now e (w_ctr w)) None 0 None None None
      1 (env_now e (w_ctr w)) (env_now e (w_ctr w))) as ->.
    { rewrite Hdb in Hy. simpl in Hy. apply elem_of_app in Hy as [Hy|Hy%list_elem_of_singleton]; [|done].
      destruct Hnew. rewrite <- Hyi. by apply list_elem_of_fmap_2. }
    rewrite Hw3, Hdb. split_and!; try done.
    + apply elem_of_app. right. by apply list_elem_of_singleton.
    + unfold holds_scope, unreleased. cbn [slk_scope slk_scope_id slk_released_at]. by rewrite !str_eqb_refl.
    + intros u Hu E. destruct Hnew. simpl in E. rewrite <- E. by apply list_elem_of_fmap_2.
Qed.

(** The row of a lease that is taken over stays the row of the scope. *)
Lemma acquire_keeps_holder s i o p r n t e w w' lease x :
  schema_ok (w_db w) → acquire_skill_governance_lock s i o p r n t e w = (w', Ok lease) →
  x ∈ sg_locks (w_db w) → holds_scope (as_str s) i x = true →
  ∃ z, z ∈ sg_locks (w_db w') ∧ slk_id z = slk_id x ∧ holds_scope (as_str s) i z = true.
Proof.
  intros Hok H Hx Hh. unfold acquire_skill_governance_lock in H. step_ok H. injection Hx0 as <- <-.
  step_ok H. apply transaction_ok in Hx0 as (w2 & Hb & Hw2). step_ok H. injection H as <- <-.
  apply (require_row sg_locks) in Hx0 as [Hw3 _]; [|unfold skill_governance_scoped_lock_from_row; readonly_tac].
  apply acquire_body_spec in Hb as (a & _ & _ & Hb); [|done]. cbn [w_db tick] in *. rewrite Hw3, Hw2.
  destruct Hb as [(_ & z & po & pr & Hz & Hhz & _ & _ & ->)|(_ & Hnone & _)]; [|by rewrite Hnone in Hh].
  assert (z = x) as -> by (by eapply active_lock_unique).
  exists (take_over o p r n t (env_now e (w_ctr w)) po pr x). split_and!; [|done|exact Hhz].
  apply list_elem_of_fmap. exists x. unfold lock_is. by rewrite N.eqb_refl.
Qed.
