(* ===== verification/StoreSkillArtifacts.v ===== *)
(** * Managed artifacts, materializations, lockfiles and references

    [crates/cocli-store/src/skill_governance.rs], what is on disk and who owns it: immutable
    artifacts, the places they are materialized at with their ownership, adoption with its
    audit, the lockfiles of workspaces and the references that protect artifacts and
    materializations from collection. The file shows that the preview of a collection lists
    exactly what may be deleted, and that what the program does not own stays. *)
From S2P Require Import Prelude SkillGovernanceTypes StoreTypes StoreDb StoreSchema StoreSkillPlans.

(** ** Managed artifacts *)

Definition artifact_entity : string := "skill governance managed artifact".
Definition artifact_is (id : Uuid) (r : SkillGovernanceManagedArtifactRow) : bool := (sma_id r =? id)%N.
Definition has_artifact_key (key : string) (r : SkillGovernanceManagedArtifactRow) : bool :=
  str_eqb (sma_artifact_key r) key.
Definition has_artifact (db : DB) (id : Uuid) : bool := exists_row (artifact_is id) (sg_artifacts db).

Definition insert_artifact (r : SkillGovernanceManagedArtifactRow) (db : DB) : result (DB * unit) SqlError :=
  try! _ <- guard ((0 <? sma_schema_version r) && (sma_version r =? 1)) CheckViolation;
  try! _ <- guard (negb (exists_row (λ old, artifact_is (sma_id r) old ||
                     has_artifact_key (sma_artifact_key r) old) (sg_artifacts db))) UniqueViolation;
  Ok (with_sg_artifacts (λ l, l ++ [r])%list db, tt).

Definition skill_governance_managed_artifact_from_row (r : SkillGovernanceManagedArtifactRow)
    : M SkillGovernanceManagedArtifact :=
  let! source_provenance := json_from_str (sma_source_provenance r) in
  let! artifact := json_from_str (sma_artifact r) in
  let! metadata := json_from_str (sma_metadata r) in
  ret (mkManagedArtifact (sma_id r) (sma_artifact_key r) (sma_artifact_kind r) source_provenance
         (sma_content_digest r) (sma_manifest_digest r) (sma_schema_version r) (sma_revision r)
         (sma_store_relative_path r) artifact metadata (sma_version r) (sma_created_at r)).

Definition get_skill_governance_managed_artifact (artifact_id : Uuid)
    : M (option SkillGovernanceManagedArtifact) :=
  let! row := fetch_optional (λ db, bfilter (artifact_is artifact_id) (sg_artifacts db)) in
  decode_option skill_governance_managed_artifact_from_row row.

Definition get_skill_governance_managed_artifact_by_key (artifact_key : string)
    : M (option SkillGovernanceManagedArtifact) :=
  let! row := fetch_optional (λ db, bfilter (has_artifact_key artifact_key) (sg_artifacts db)) in
  decode_option skill_governance_managed_artifact_from_row row.

Definition artifact_order (a b : SkillGovernanceManagedArtifactRow) : comparison :=
  then_cmp (String.compare (sma_artifact_key a) (sma_artifact_key b)) (N.compare (sma_id a) (sma_id b)).

Definition list_skill_governance_managed_artifacts : M (list SkillGovernanceManagedArtifact) :=
  let! rows := fetch (λ db, sort_by artifact_order (sg_artifacts db)) in
  decode_all skill_governance_managed_artifact_from_row rows.

Definition same_artifact (x : SkillGovernanceManagedArtifact) (input : NewSkillGovernanceManagedArtifact) : bool :=
  str_eqb (sma_artifact_kind x) (nma_artifact_kind input) &&
  bool_decide (sma_source_provenance x = nma_source_provenance input) &&
  str_eqb (sma_content_digest x) (nma_content_digest input) &&
  str_eqb (sma_manifest_digest x) (nma_manifest_digest input) &&
  (sma_schema_version x =? nma_schema_version input) && str_eqb (sma_revision x) (nma_revision input) &&
  str_eqb (sma_store_relative_path x) (nma_store_relative_path input) &&
  bool_decide (sma_artifact x = nma_artifact input) && bool_decide (sma_metadata x = nma_metadata input).

Definition create_skill_governance_managed_artifact (input : NewSkillGovernanceManagedArtifact)
    : M SkillGovernanceManagedArtifact :=
  let! existing := get_skill_governance_managed_artifact_by_key (nma_artifact_key input) in
  match existing with
  | Some existing =>
      if negb (same_artifact existing input) then
        throw (SkillGovernanceIdempotencyConflict artifact_entity (sma_id existing))
      else ret existing
  | None =>
      let! id := new_v4 in
      let! provenance := json_to_string (nma_source_provenance input) in
      let! artifact := json_to_string (nma_artifact input) in
      let! metadata := json_to_string (nma_metadata input) in
      let! now := utc_now in
      execute (insert_artifact (mkManagedArtifact id (nma_artifact_key input) (nma_artifact_kind input)
        provenance (nma_content_digest input) (nma_manifest_digest input) (nma_schema_version input)
        (nma_revision input) (nma_store_relative_path input) artifact metadata 1 now)) ;;
      require artifact_entity id (get_skill_governance_managed_artifact id)
  end.

(** ** References *)

Definition refers_to (target_type : string) (target_id : Uuid) (r : SkillGovernanceGcReferenceRow) : bool :=
  str_eqb (sgr_target_type r) target_type && (sgr_target_id r =? target_id)%N.

Definition has_skill_governance_gc_reference (target_type : string) (target_id : Uuid) : M bool :=
  fetch (λ db, exists_row (refers_to target_type target_id) (sg_references db)).

Definition materializes (artifact_id : Uuid) (m : SkillGovernanceMaterializationRow) : bool :=
  (smt_artifact_id m =? artifact_id)%N.

(** The rows of the materializations that a statement deletes go with their adoption audit. *)
Definition delete_materializations (dead : SkillGovernanceMaterializationRow → bool) (db : DB) : DB :=
  with_sg_adoptions (delete_where (λ a, exists_row (λ m, (smt_id m =? sad_materialization_id a)%N && dead m)
                                          (sg_materializations db)))
    (with_sg_materializations (delete_where dead) db).

(** [DELETE FROM skill_governance_managed_artifacts WHERE id = ? AND version = ?]: the
    materializations of the artifact cascade. *)
Definition delete_artifact_row (id : Uuid) (version : Z) (db : DB) : result (DB * Z) SqlError :=
  let p a := artifact_is id a && (sma_version a =? version) in
  let dead m := exists_row (λ a, materializes (sma_id a) m && p a) (sg_artifacts db) in
  Ok (with_sg_artifacts (delete_where p) (delete_materializations dead db), count_where p (sg_artifacts db)).

Definition delete_skill_governance_managed_artifact (artifact_id : Uuid) (expected_version : Z) : M bool :=
  let! current := require artifact_entity artifact_id (get_skill_governance_managed_artifact artifact_id) in
  if negb (sma_version current =? expected_version) then
    throw (SkillGovernanceVersionConflict artifact_entity artifact_id (sma_version current) expected_version)
  else
    let! materialized := fetch (λ db, exists_row (materializes artifact_id) (sg_materializations db)) in
    if materialized then throw (SkillGovernanceDeleteConflict artifact_entity artifact_id "materialized")
    else
      let! referenced := has_skill_governance_gc_reference "managed_artifact" artifact_id in
      if referenced then throw (SkillGovernanceDeleteConflict artifact_entity artifact_id "referenced")
      else
        let! changed := execute (delete_artifact_row artifact_id expected_version) in
        ret (0 <? changed).

(** ** Materializations *)

Definition materialization_entity : string := "skill governance materialization".
Definition materialization_is (id : Uuid) (r : SkillGovernanceMaterializationRow) : bool := (smt_id r =? id)%N.
Definition targets (scope scope_id path : string) (r : SkillGovernanceMaterializationRow) : bool :=
  str_eqb (smt_scope r) scope && str_eqb (smt_scope_id r) scope_id && str_eqb (smt_target_path r) path.

Definition insert_materialization (r : SkillGovernanceMaterializationRow) (db : DB) : result (DB * unit) SqlError :=
  try! _ <- guard (scope_ok (smt_scope r) &&
                   is_ok (parse (A := SkillGovernanceMaterializationRootKind) (smt_root_kind r)) &&
                   is_ok (parse (A := SkillGovernanceInstallationMode) (smt_installation_mode r)) &&
                   is_ok (parse (A := SkillGovernanceMaterializationOwnership) (smt_ownership r)) &&
                   is_ok (parse (A := SkillGovernanceVerifyStatus) (smt_verify_status r)) &&
                   (0 <? smt_version r)) CheckViolation;
  try! _ <- guard (negb (exists_row (λ old, materialization_is (smt_id r) old ||
                     targets (smt_scope r) (smt_scope_id r) (smt_target_path r) old) (sg_materializations db)))
                  UniqueViolation;
  try! _ <- guard (has_artifact db (smt_artifact_id r)) ForeignKeyViolation;
  Ok (with_sg_materializations (λ l, l ++ [r])%list db, tt).

(** An [UPDATE] that sets [artifact_id]. *)
Definition update_materialization (artifact_id : Uuid) (p : SkillGovernanceMaterializationRow → bool)
    (f : SkillGovernanceMaterializationRow → SkillGovernanceMaterializationRow) (db : DB)
    : result (DB * Z) SqlError :=
  try! _ <- guard (negb (exists_row p (sg_materializations db)) || has_artifact db artifact_id) ForeignKeyViolation;
  Ok (with_sg_materializations (update_where p f) db, count_where p (sg_materializations db)).

Definition skill_governance_materialization_from_row (r : SkillGovernanceMaterializationRow)
    : M SkillGovernanceMaterialization :=
  let! scope := lift (parse (smt_scope r)) in
  let! root_kind := lift (parse (smt_root_kind r)) in
  let! installation_mode := lift (parse (smt_installation_mode r)) in
  let! ownership := lift (parse (smt_ownership r)) in
  let! verify_status := lift (parse (smt_verify_status r)) in
  let! receipt := json_from_str (smt_receipt r) in
  ret (mkMaterialization (smt_id r) (smt_artifact_id r) scope (smt_scope_id r) (smt_target_path r)
         (smt_target_runtime r) root_kind installation_mode ownership (smt_content_digest r)
         (smt_expected_destination r) (smt_expected_fingerprint r) verify_status receipt (smt_version r)
         (smt_adopted_at r) (smt_created_at r) (smt_updated_at r)).

Definition get_skill_governance_materialization (materialization_id : Uuid)
    : M (option SkillGovernanceMaterialization) :=
  let! row := fetch_optional (λ db, bfilter (materialization_is materialization_id) (sg_materializations db)) in
  decode_option skill_governance_materialization_from_row row.

Definition get_skill_governance_materialization_for_target (scope : SkillGovernanceScope)
    (scope_id target_path : string) : M (option SkillGovernanceMaterialization) :=
  let! row := fetch_optional (λ db, bfilter (targets (as_str scope) scope_id target_path) (sg_materializations db)) in
  decode_option skill_governance_materialization_from_row row.

Definition list_skill_governance_materializations (scope : SkillGovernanceScope) (scope_id : string)
    : M (list SkillGovernanceMaterialization) :=
  let! rows := fetch (λ db, sort_by (λ a b, then_cmp (String.compare (smt_target_path a) (smt_target_path b))
                                      (N.compare (smt_id a) (smt_id b)))
    (bfilter (λ m, str_eqb (smt_scope m) (as_str scope) && str_eqb (smt_scope_id m) scope_id)
       (sg_materializations db))) in
  decode_all skill_governance_materialization_from_row rows.

(** The comparison of [create_skill_governance_materialization]: scope and path are the key. *)
Definition same_materialization (x : SkillGovernanceMaterialization) (input : NewSkillGovernanceMaterialization)
    : bool :=
  (smt_artifact_id x =? nmt_artifact_id input)%N &&
  str_eqb (smt_target_runtime x) (nmt_target_runtime input) &&
  bool_decide (smt_root_kind x = nmt_root_kind input) &&
  bool_decide (smt_installation_mode x = nmt_installation_mode input) &&
  str_eqb (smt_content_digest x) (nmt_content_digest input) &&
  str_eqb (smt_expected_destination x) (nmt_expected_destination input) &&
  str_eqb (smt_expected_fingerprint x) (nmt_expected_fingerprint input) &&
  bool_decide (smt_verify_status x = nmt_verify_status input) &&
  bool_decide (smt_ownership x = nmt_ownership input) && bool_decide (smt_receipt x = nmt_receipt input).

Definition materialization_matches_input (x : SkillGovernanceMaterialization)
    (input : NewSkillGovernanceMaterialization) : bool :=
  same_materialization x input && bool_decide (smt_scope x = nmt_scope input) &&
  str_eqb (smt_scope_id x) (nmt_scope_id input) && str_eqb (smt_target_path x) (nmt_target_path input).

(** [get_skill_governance_managed_artifact(..).await?.is_none()] refused. *)
Definition require_artifact (artifact_id : Uuid) : M unit :=
  require artifact_entity artifact_id (get_skill_governance_managed_artifact artifact_id) ;; ret tt.

Definition create_skill_governance_materialization (input : NewSkillGovernanceMaterialization)
    : M SkillGovernanceMaterialization :=
  require_artifact (nmt_artifact_id input) ;;
  let! existing := get_skill_governance_materialization_for_target (nmt_scope input) (nmt_scope_id input)
                     (nmt_target_path input) in
  match existing with
  | Some existing =>
      if negb (same_materialization existing input) then
        throw (SkillGovernanceIdempotencyConflict materialization_entity (smt_id existing))
      else ret existing
  | None =>
      let! id := new_v4 in
      let! now := utc_now in
      let! text := json_to_string (nmt_receipt input) in
      execute (insert_materialization (mkMaterialization id (nmt_artifact_id input) (as_str (nmt_scope input))
        (nmt_scope_id input) (nmt_target_path input) (nmt_target_runtime input) (as_str (nmt_root_kind input))
        (as_str (nmt_installation_mode input)) (as_str (nmt_ownership input)) (nmt_content_digest input)
        (nmt_expected_destination input) (nmt_expected_fingerprint input) (as_str (nmt_verify_status input))
        text 1 (if bool_decide (nmt_ownership input = Adopted) then Some now else None) now now)) ;;
      require materialization_entity id (get_skill_governance_materialization id)
  end.

(** [SET] every column but the key, [version = version + 1]. *)
Definition set_materialization (input : NewSkillGovernanceMaterialization) (text : string)
    (adopted_at : option Time) (now : Time) (r : SkillGovernanceMaterializationRow)
    : SkillGovernanceMaterializationRow :=
  mkMaterialization (smt_id r) (nmt_artifact_id input) (smt_scope r) (smt_scope_id r) (smt_target_path r)
    (nmt_target_runtime input) (as_str (nmt_root_kind input)) (as_str (nmt_installation_mode input))
    (as_str (nmt_ownership input)) (nmt_content_digest input) (nmt_expected_destination input)
    (nmt_expected_fingerprint input) (as_str (nmt_verify_status input)) text (smt_version r + 1) adopted_at
    (smt_created_at r) now.

Definition exchangeable (a b : SkillGovernanceMaterializationOwnership) : bool :=
  match a, b with Managed, Adopted | Adopted, Managed => true | _, _ => false end.

Definition upsert_skill_governance_materialization (input : NewSkillGovernanceMaterialization)
    (expected_version : option Z) : M SkillGovernanceMaterialization :=
  require_artifact (nmt_artifact_id input) ;;
  let! existing := get_skill_governance_materialization_for_target (nmt_scope input) (nmt_scope_id input)
                     (nmt_target_path input) in
  match existing with
  | None =>
      match expected_version with
      | Some expected => throw (SkillGovernanceVersionConflict materialization_entity 0%N 0 expected)
      | None => create_skill_governance_materialization input
      end
  | Some current =>
      match expected_version with
      | None =>
          if negb (materialization_matches_input current input) then
            throw (SkillGovernanceVersionConflict materialization_entity (smt_id current) (smt_version current) 0)
          else ret current
      | Some expected =>
          if negb (smt_version current =? expected) then
            throw (SkillGovernanceVersionConflict materialization_entity (smt_id current) (smt_version current) expected)
          else if negb (bool_decide (smt_ownership current = nmt_ownership input)) &&
                  negb (exchangeable (smt_ownership current) (nmt_ownership input)) then
            throw (SkillGovernanceDeleteConflict materialization_entity (smt_id current) "ownership")
          else
            let! now := utc_now in
            let adopted_at := match nmt_ownership input with
                              | Adopted => coalesce (smt_adopted_at current) (Some now)
                              | _ => None
                              end in
            let! text := json_to_string (nmt_receipt input) in
            let! changed := execute (update_materialization (nmt_artifact_id input)
              (λ r, materialization_is (smt_id current) r && (smt_version r =? smt_version current))
              (set_materialization input text adopted_at now)) in
            if changed =? 0 then
              throw (SkillGovernanceVersionConflict materialization_entity (smt_id current)
                       (smt_version current) (smt_version current))
            else require materialization_entity (smt_id current)
                   (get_skill_governance_materialization (smt_id current))
      end
  end.

Definition delete_materialization_row (id : Uuid) (version : Z) (db : DB) : result (DB * Z) SqlError :=
  let p m := materialization_is id m && (smt_version m =? version) in
  Ok (delete_materializations p db, count_where p (sg_materializations db)).

Definition delete_skill_governance_materialization_if_safe (materialization_id : Uuid) (expected_version : Z)
    (observed_fingerprint : option string) : M bool :=
  let! current := require materialization_entity materialization_id
                    (get_skill_governance_materialization materialization_id) in
  if negb (smt_version current =? expected_version) then
    throw (SkillGovernanceVersionConflict materialization_entity materialization_id (smt_version current) expected_version)
  else if bool_decide (smt_ownership current ∈ [Foreign; Unmanaged]) then
    throw (SkillGovernanceDeleteConflict materialization_entity materialization_id "ownership")
  else if match observed_fingerprint with
          | Some observed => negb (str_eqb observed (smt_expected_fingerprint current))
          | None => false
          end then
    throw (SkillGovernanceDeleteConflict materialization_entity materialization_id "fingerprint")
  else
    let! referenced := has_skill_governance_gc_reference "materialization" materialization_id in
    if referenced then throw (SkillGovernanceDeleteConflict materialization_entity materialization_id "referenced")
    else
      let! changed := execute (delete_materialization_row materialization_id expected_version) in
      ret (0 <? changed).

(** ** Adoption *)

Definition insert_adoption (r : SkillGovernanceAdoptionAuditRow) (db : DB) : result (DB * unit) SqlError :=
  try! _ <- guard (str_eqb (sad_action r) "adopt" &&
                   is_ok (parse (A := SkillGovernanceMaterializationOwnership) (sad_from_ownership r)) &&
                   is_ok (parse (A := SkillGovernanceMaterializationOwnership) (sad_to_ownership r)) &&
                   (0 <? sad_from_version r) && (0 <? sad_to_version r)) CheckViolation;
  try! _ <- guard (negb (exists_row (λ old, sad_id old =? sad_id r)%N (sg_adoptions db))) UniqueViolation;
  try! _ <- guard (exists_row (materialization_is (sad_materialization_id r)) (sg_materializations db))
                  ForeignKeyViolation;
  Ok (with_sg_adoptions (λ l, l ++ [r])%list db, tt).

(** [SET ownership = 'adopted', receipt_json, adopted_at, version, updated_at]. *)
Definition set_adopted (text : string) (version : Z) (now : Time) (r : SkillGovernanceMaterializationRow)
    : SkillGovernanceMaterializationRow :=
  mkMaterialization (smt_id r) (smt_artifact_id r) (smt_scope r) (smt_scope_id r) (smt_target_path r)
    (smt_target_runtime r) (smt_root_kind r) (smt_installation_mode r) "adopted" (smt_content_digest r)
    (smt_expected_destination r) (smt_expected_fingerprint r) (smt_verify_status r) text version (Some now)
    (smt_created_at r) now.

Definition adopt_body (materialization_id : Uuid) (expected_version : Z)
    (current : SkillGovernanceMaterialization) (text : string) (now : Time) : M unit :=
  let to_version := smt_version current + 1 in
  let! changed := execute (sql_update sg_materializations with_sg_materializations
    (λ _ r, materialization_is materialization_id r && (smt_version r =? expected_version))
    (set_adopted text to_version now)) in
  if changed =? 0 then
    throw (SkillGovernanceVersionConflict materialization_entity materialization_id (smt_version current) expected_version)
  else
    let! id := new_v4 in
    execute (insert_adoption (mkAdoptionAudit id materialization_id "adopt" (as_str (smt_ownership current))
      "adopted" (smt_version current) to_version text now)).

Definition adopt_skill_governance_materialization (materialization_id : Uuid) (expected_version : Z)
    (receipt : Json) : M SkillGovernanceMaterialization :=
  let! current := require materialization_entity materialization_id
                    (get_skill_governance_materialization materialization_id) in
  if negb (smt_version current =? expected_version) then
    throw (SkillGovernanceVersionConflict materialization_entity materialization_id (smt_version current) expected_version)
  else
    let! now := utc_now in
    let! text := json_to_string receipt in
    transaction (adopt_body materialization_id expected_version current text now) ;;
    require materialization_entity materialization_id (get_skill_governance_materialization materialization_id).

Definition skill_governance_adoption_audit_from_row (r : SkillGovernanceAdoptionAuditRow)
    : M SkillGovernanceAdoptionAudit :=
  let! from_ownership := lift (parse (sad_from_ownership r)) in
  let! to_ownership := lift (parse (sad_to_ownership r)) in
  let! receipt := json_from_str (sad_receipt r) in
  ret (mkAdoptionAudit (sad_id r) (sad_materialization_id r) (sad_action r) from_ownership to_ownership
         (sad_from_version r) (sad_to_version r) receipt (sad_created_at r)).

Definition list_skill_governance_adoption_audit (materialization_id : Uuid)
    : M (list SkillGovernanceAdoptionAudit) :=
  let! rows := fetch (λ db, sort_by (λ a b, then_cmp (Z.compare (sad_created_at a) (sad_created_at b))
                                      (N.compare (sad_id a) (sad_id b)))
    (bfilter (λ a, sad_materialization_id a =? materialization_id)%N (sg_adoptions db))) in
  decode_all skill_governance_adoption_audit_from_row rows.

(** ** Workspace lockfiles *)

Definition lockfile_entity : string := "skill governance workspace lockfile".
Definition lockfile_is (workspace_id path : string) (r : SkillGovernanceWorkspaceLockfileRow) : bool :=
  str_eqb (swl_workspace_id r) workspace_id && str_eqb (swl_lockfile_path r) path.
Definition lockfile_at (id : Uuid) (version : Z) (r : SkillGovernanceWorkspaceLockfileRow) : bool :=
  (swl_id r =? id)%N && (swl_version r =? version).

Definition insert_lockfile (r : SkillGovernanceWorkspaceLockfileRow) (db : DB) : result (DB * unit) SqlError :=
  try! _ <- guard (negb (exists_row (λ old, (swl_id old =? swl_id r)%N ||
                     lockfile_is (swl_workspace_id r) (swl_lockfile_path r) old) (sg_lockfiles db)))
                  UniqueViolation;
  Ok (with_sg_lockfiles (λ l, l ++ [r])%list db, tt).

Definition skill_governance_workspace_lockfile_from_row (r : SkillGovernanceWorkspaceLockfileRow)
    : M SkillGovernanceWorkspaceLockfile :=
  let! document := json_from_str (swl_document r) in
  let! last_receipt := json_from_str (swl_last_receipt r) in
  let! restore_metadata := json_from_str (swl_restore_metadata r) in
  ret (mkWorkspaceLockfile (swl_id r) (swl_workspace_id r) (swl_lockfile_path r) (swl_lock_hash r)
         (swl_expected_disk_fingerprint r) (swl_expected_disk_hash r) document (swl_last_backup_path r)
         (swl_last_backup_hash r) last_receipt restore_metadata (swl_version r) (swl_created_at r)
         (swl_updated_at r)).

Definition get_skill_governance_workspace_lockfile (workspace_id lockfile_path : string)
    : M (option SkillGovernanceWorkspaceLockfile) :=
  let! row := fetch_optional (λ db, bfilter (lockfile_is workspace_id lockfile_path) (sg_lockfiles db)) in
  decode_option skill_governance_workspace_lockfile_from_row row.

(** What a caller writes to a lockfile record. *)
Record LockfileContent := mkLockfileContent {
  lfc_lock_hash : string;
  lfc_disk_fingerprint : string;
  lfc_disk_hash : string;
  lfc_document : Json;
  lfc_backup_path : option string;
  lfc_backup_hash : option string;
  lfc_receipt : Json;
  lfc_restore_metadata : Json;
}.

(** [SET] the content, [version = version + 1]. *)
Definition set_lockfile (c : LockfileContent) (document receipt restore : string) (now : Time)
    (r : SkillGovernanceWorkspaceLockfileRow) : SkillGovernanceWorkspaceLockfileRow :=
  mkWorkspaceLockfile (swl_id r) (swl_workspace_id r) (swl_lockfile_path r) (lfc_lock_hash c)
    (lfc_disk_fingerprint c) (lfc_disk_hash c) document (lfc_backup_path c) (lfc_backup_hash c) receipt
    restore (swl_version r + 1) (swl_created_at r) now.

(** What follows the read of an upsert: [rows_affected] of the [UPDATE] is not looked at. *)
Definition write_lockfile (workspace_id path : string) (c : LockfileContent) (expected_version : option Z)
    (existing : option SkillGovernanceWorkspaceLockfile) : M SkillGovernanceWorkspaceLockfile :=
  let! now := utc_now in
  let! document := json_to_string (lfc_document c) in
  let! receipt := json_to_string (lfc_receipt c) in
  let! restore := json_to_string (lfc_restore_metadata c) in
  match existing, expected_version with
  | Some current, Some expected =>
      if swl_version current =? expected then
        execute (sql_update sg_lockfiles with_sg_lockfiles (λ _, lockfile_at (swl_id current) expected)
                   (set_lockfile c document receipt restore now)) ;;
        require lockfile_entity 0%N (get_skill_governance_workspace_lockfile workspace_id path)
      else throw (SkillGovernanceVersionConflict lockfile_entity (swl_id current) (swl_version current) expected)
  | Some current, None => ret current
  | None, Some expected => throw (SkillGovernanceVersionConflict lockfile_entity 0%N 0 expected)
  | None, None =>
      let! id := new_v4 in
      execute (insert_lockfile (mkWorkspaceLockfile id workspace_id path (lfc_lock_hash c)
        (lfc_disk_fingerprint c) (lfc_disk_hash c) document (lfc_backup_path c) (lfc_backup_hash c) receipt
        restore 1 now now)) ;;
      require lockfile_entity 0%N (get_skill_governance_workspace_lockfile workspace_id path)
  end.

Definition upsert_skill_governance_workspace_lockfile (workspace_id lockfile_path : string)
    (c : LockfileContent) (expected_version : option Z) : M SkillGovernanceWorkspaceLockfile :=
  let! existing := get_skill_governance_workspace_lockfile workspace_id lockfile_path in
  write_lockfile workspace_id lockfile_path c expected_version existing.

Definition delete_skill_governance_workspace_lockfile (workspace_id lockfile_path : string)
    (expected_version : Z) : M bool :=
  let! current := require lockfile_entity 0%N (get_skill_governance_workspace_lockfile workspace_id lockfile_path) in
  if negb (swl_version current =? expected_version) then
    throw (SkillGovernanceVersionConflict lockfile_entity (swl_id current) (swl_version current) expected_version)
  else
    let! changed := execute (sql_delete sg_lockfiles with_sg_lockfiles (lockfile_at (swl_id current) expected_version)) in
    ret (0 <? changed).

(** ** References and the collection *)

Definition reference_entity : string := "skill governance gc reference".
Definition is_reference (source_type : string) (source_id : Uuid) (target_type : string) (target_id : Uuid)
    (kind : string) (r : SkillGovernanceGcReferenceRow) : bool :=
  str_eqb (sgr_source_type r) source_type && (sgr_source_id r =? source_id)%N &&
  str_eqb (sgr_target_type r) target_type && (sgr_target_id r =? target_id)%N &&
  str_eqb (sgr_reference_kind r) kind.

Definition insert_reference (r : SkillGovernanceGcReferenceRow) (db : DB) : result (DB * unit) SqlError :=
  try! _ <- guard (bool_decide (sgr_target_type r ∈ ["managed_artifact"; "materialization"])) CheckViolation;
  try! _ <- guard (negb (exists_row (λ old, (sgr_id old =? sgr_id r)%N ||
                     is_reference (sgr_source_type r) (sgr_source_id r) (sgr_target_type r) (sgr_target_id r)
                       (sgr_reference_kind r) old) (sg_references db))) UniqueViolation;
  Ok (with_sg_references (λ l, l ++ [r])%list db, tt).

Definition skill_governance_gc_reference_from_row (r : SkillGovernanceGcReferenceRow)
    : M SkillGovernanceGcReference :=
  let! metadata := json_from_str (sgr_metadata r) in
  ret (mkGcReference (sgr_id r) (sgr_source_type r) (sgr_source_id r) (sgr_target_type r) (sgr_target_id r)
         (sgr_reference_kind r) metadata (sgr_created_at r)).

Definition get_skill_governance_gc_reference (source_type : string) (source_id : Uuid) (target_type : string)
    (target_id : Uuid) (reference_kind : string) : M (option SkillGovernanceGcReference) :=
  let! row := fetch_optional (λ db, bfilter (is_reference source_type source_id target_type target_id
                                               reference_kind) (sg_references db)) in
  decode_option skill_governance_gc_reference_from_row row.

Definition create_skill_governance_gc_reference (input : NewSkillGovernanceGcReference)
    : M SkillGovernanceGcReference :=
  let get := get_skill_governance_gc_reference (ngr_source_type input) (ngr_source_id input)
               (ngr_target_type input) (ngr_target_id input) (ngr_reference_kind input) in
  let! existing := get in
  match existing with
  | Some existing =>
      if negb (bool_decide (sgr_metadata existing = ngr_metadata input)) then
        throw (SkillGovernanceIdempotencyConflict reference_entity (sgr_id existing))
      else ret existing
  | None =>
      let! id := new_v4 in
      let! text := json_to_string (ngr_metadata input) in
      let! now := utc_now in
      execute (insert_reference (mkGcReference id (ngr_source_type input) (ngr_source_id input)
        (ngr_target_type input) (ngr_target_id input) (ngr_reference_kind input) text now)) ;;
      require reference_entity id get
  end.

(** The two queries of the preview. *)
Definition collectable_artifact (db : DB) (a : SkillGovernanceManagedArtifactRow) : bool :=
  negb (exists_row (refers_to "managed_artifact" (sma_id a)) (sg_references db)) &&
  negb (exists_row (materializes (sma_id a)) (sg_materializations db)).
Definition collectable_materialization (db : DB) (m : SkillGovernanceMaterializationRow) : bool :=
  negb (exists_row (refers_to "materialization" (smt_id m)) (sg_references db)) &&
  negb (bool_decide (smt_ownership m ∈ ["foreign"; "unmanaged"])).

Definition materialization_order (a b : SkillGovernanceMaterializationRow) : comparison :=
  then_cmp (String.compare (smt_scope a) (smt_scope b))
    (then_cmp (String.compare (smt_scope_id a) (smt_scope_id b))
      (then_cmp (String.compare (smt_target_path a) (smt_target_path b)) (N.compare (smt_id a) (smt_id b)))).

Definition preview_skill_governance_gc : M (list SkillGovernanceGcCandidate) :=
  let! artifacts := fetch (λ db, map sma_id (sort_by artifact_order (bfilter (collectable_artifact db) (sg_artifacts db)))) in
  let! materializations := fetch (λ db, map smt_id (sort_by materialization_order
                             (bfilter (collectable_materialization db) (sg_materializations db)))) in
  ret (map (λ id, mkGcCandidate "managed_artifact" id "unreferenced") artifacts ++
       map (λ id, mkGcCandidate "materialization" id "unreferenced") materializations)%list.

(** The operations that change these tables. *)
Inductive SkillArtifactOp : Type :=
  | CreateArtifact (input : NewSkillGovernanceManagedArtifact)
  | DeleteArtifact (artifact_id : Uuid) (expected_version : Z)
  | CreateMaterialization (input : NewSkillGovernanceMaterialization)
  | UpsertMaterialization (input : NewSkillGovernanceMaterialization) (expected_version : option Z)
  | DeleteMaterialization (materialization_id : Uuid) (expected_version : Z) (observed : option string)
  | AdoptMaterialization (materialization_id : Uuid) (expected_version : Z) (receipt : Json)
  | UpsertLockfile (workspace_id lockfile_path : string) (c : LockfileContent) (expected_version : option Z)
  | DeleteLockfile (workspace_id lockfile_path : string) (expected_version : Z)
  | CreateReference (input : NewSkillGovernanceGcReference).

Definition run_skill_artifact_op (op : SkillArtifactOp) : M unit :=
  match op with
  | CreateArtifact i => create_skill_governance_managed_artifact i ;; ret tt
  | DeleteArtifact a v => delete_skill_governance_managed_artifact a v ;; ret tt
  | CreateMaterialization i => create_skill_governance_materialization i ;; ret tt
  | UpsertMaterialization i v => upsert_skill_governance_materialization i v ;; ret tt
  | DeleteMaterialization m v o => delete_skill_governance_materialization_if_safe m v o ;; ret tt
  | AdoptMaterialization m v r => adopt_skill_governance_materialization m v r ;; ret tt
  | UpsertLockfile w p c v => upsert_skill_governance_workspace_lockfile w p c v ;; ret tt
  | DeleteLockfile w p v => delete_skill_governance_workspace_lockfile w p v ;; ret tt
  | CreateReference i => create_skill_governance_gc_reference i ;; ret tt
  end.


(** ** The schema *)

Lemma has_artifact_true db id : has_artifact db id = true ↔ id ∈ map sma_id (sg_artifacts db).
Proof. apply (exists_row_key sma_id (λ j, (j =? id)%N)). intros j. apply (N.eqb_eq j id). Qed.
Lemma has_materialization_true db id :
  exists_row (materialization_is id) (sg_materializations db) = true ↔ id ∈ map smt_id (sg_materializations db).
Proof. apply (exists_row_key smt_id (λ j, (j =? id)%N)). intros j. apply (N.eqb_eq j id). Qed.

Lemma insert_artifact_ok r : stmt_preserves schema_ok (insert_artifact r).
Proof.
  intros db db' [] Hok H. unfold insert_artifact in H. inv_stmt. sg_frame Hok.
  - new_key Hguard0. intros x Hx. unfold artifact_is. by rewrite Hx, N.eqb_refl.
  - new_key Hguard0. intros x Hx. unfold has_artifact_key. by rewrite Hx, str_eqb_refl, orb_true_r.
  - apply Forall_snoc; [done|lia].
  - eapply Forall_impl; [exact go_materialization_rows|]. rewrite map_app. set_solver.
Qed.

(** The cascade keeps each adoption record with its materialization. *)
Lemma kept_adoptions (dead : SkillGovernanceMaterializationRow → bool) ms
    (adoptions : list SkillGovernanceAdoptionAuditRow) :
  Forall (λ a, sad_materialization_id a ∈ map smt_id ms) adoptions →
  Forall (λ a, sad_materialization_id a ∈ map smt_id (delete_where dead ms))
    (delete_where (λ a, exists_row (λ m, (smt_id m =? sad_materialization_id a)%N && dead m) ms) adoptions).
Proof.
  intros H. eapply Forall_kept; [exact H|]. intros a _ Hd (m & Hm & Hin)%list_elem_of_fmap.
  apply list_elem_of_fmap. exists m. split; [done|]. apply elem_of_delete_where. split; [done|].
  rewrite exists_row_false in Hd. specialize (Hd m Hin). rewrite Hm, N.eqb_refl in Hd. done.
Qed.

Lemma delete_artifact_row_ok i v : stmt_preserves schema_ok (delete_artifact_row i v).
Proof.
  intros db db' n Hok H. unfold delete_artifact_row, delete_materializations in H. injection H as <- _.
  set (p := λ a, artifact_is i a && (sma_version a =? v)). set (dead := λ m, exists_row _ _).
  sg_frame Hok; auto with cocli.
  - by apply Forall_delete_where.
  - eapply Forall_kept; [exact go_materialization_rows|]. intros m _ Hd ((a & Ha & Hin)%list_elem_of_fmap & Hr).
    split; [|exact Hr]. apply list_elem_of_fmap. exists a. split; [done|].
    apply elem_of_delete_where. split; [done|]. unfold dead in Hd. rewrite exists_row_false in Hd.
    specialize (Hd a Hin). unfold materializes in Hd. by rewrite Ha, N.eqb_refl in Hd.
  - by apply kept_adoptions.
Qed.

Lemma insert_materialization_ok r : stmt_preserves schema_ok (insert_materialization r).
Proof.
  intros db db' [] Hok H. unfold insert_materialization in H. inv_stmt. sg_frame Hok.
  - new_key Hguard0. intros x Hx. unfold materialization_is. by rewrite Hx, N.eqb_refl.
  - new_key Hguard0. intros x [= K1 K2 K3]. unfold targets. by rewrite K1, K2, K3, !str_eqb_refl, orb_true_r.
  - apply Forall_snoc; [done|]. split; [by apply has_artifact_true|]. rewrite !persisted_parse.
    unfold scope_ok in *. split_and!; try done; lia.
  - eapply Forall_impl; [exact go_adoption_rows|]. rewrite map_app. set_solver.
Qed.

(** What an [UPDATE] of a materialization keeps, and the values it may set. *)
Definition materialization_change (f : SkillGovernanceMaterializationRow → SkillGovernanceMaterializationRow) : Prop :=
  keeps smt_id f ∧ keeps target_key f ∧
  ∀ m, (persisted SkillGovernanceMaterializationRootKind (smt_root_kind m) →
        persisted SkillGovernanceMaterializationRootKind (smt_root_kind (f m))) ∧
       (persisted SkillGovernanceInstallationMode (smt_installation_mode m) →
        persisted SkillGovernanceInstallationMode (smt_installation_mode (f m))) ∧
       persisted SkillGovernanceMaterializationOwnership (smt_ownership (f m)) ∧
       (persisted SkillGovernanceVerifyStatus (smt_verify_status m) →
        persisted SkillGovernanceVerifyStatus (smt_verify_status (f m))).

Lemma changed_materializations p f (artifacts : list Uuid) l :
  materialization_change f →
  (∀ m, m ∈ l → p m = true → 0 < smt_version m → 0 < smt_version (f m)) →
  (∀ m, m ∈ l → p m = true → smt_artifact_id m ∈ artifacts → smt_artifact_id (f m) ∈ artifacts) →
  Forall (λ m, smt_artifact_id m ∈ artifacts ∧ persisted SkillGovernanceScope (smt_scope m) ∧
      persisted SkillGovernanceMaterializationRootKind (smt_root_kind m) ∧
      persisted SkillGovernanceInstallationMode (smt_installation_mode m) ∧
      persisted SkillGovernanceMaterializationOwnership (smt_ownership m) ∧
      persisted SkillGovernanceVerifyStatus (smt_verify_status m) ∧ 0 < smt_version m) l →
  Forall (λ m, smt_artifact_id m ∈ artifacts ∧ persisted SkillGovernanceScope (smt_scope m) ∧
      persisted SkillGovernanceMaterializationRootKind (smt_root_kind m) ∧
      persisted SkillGovernanceInstallationMode (smt_installation_mode m) ∧
      persisted SkillGovernanceMaterializationOwnership (smt_ownership m) ∧
      persisted SkillGovernanceVerifyStatus (smt_verify_status m) ∧ 0 < smt_version m) (update_where p f l).
Proof.
  intros (_ & Hk & Hf) Hv Ha Hall. apply list.Forall_forall. intros x (m & Hm & ->)%elem_of_update_where.
  rewrite list.Forall_forall in Hall. destruct (Hall m Hm) as (A1 & A2 & A3 & A4 & A5 & A6 & A7).
  destruct (p m) eqn:Ep; [|done]. destruct (Hf m) as (F1 & F2 & F3 & F4).
  assert (smt_scope (f m) = smt_scope m) as -> by (specialize (Hk m); unfold target_key in Hk; congruence).
  split_and!; auto.
Qed.

Lemma update_materialization_ok a p f :
  materialization_change f → (∀ m, smt_artifact_id (f m) = a) →
  (∀ m, p m = true → 0 < smt_version m → 0 < smt_version (f m)) →
  stmt_preserves schema_ok (update_materialization a p f).
Proof.
  intros Hf Ha Hv db db' n Hok H. unfold update_materialization in H.
  destruct (negb _ || _) eqn:Hg; simpl in H; [|done]. injection H as <- _.
  destruct Hf as (Hid & Hkey & Hrest) eqn:E. clear E. sg_frame Hok; rewrite ?map_update_where; try done.
  apply changed_materializations; try done; [by auto|].
  intros m Hm Hp _. rewrite Ha. apply orb_true_iff in Hg as [Hg|Hg]; [|by apply has_artifact_true].
  apply negb_true_iff in Hg. rewrite exists_row_false in Hg. by rewrite (Hg m Hm) in Hp.
Qed.

Lemma update_materializations_ok p f :
  materialization_change f → keeps smt_artifact_id f →
  (∀ db m, p db m = true → 0 < smt_version m → 0 < smt_version (f m)) →
  stmt_preserves schema_ok (sql_update sg_materializations with_sg_materializations p f).
Proof.
  intros Hf Ha Hv db db' n Hok [-> _]%sql_update_ok.
  destruct Hf as (Hid & Hkey & Hrest) eqn:E. clear E. sg_frame Hok; rewrite ?map_update_where; try done.
  apply changed_materializations; try done; [by eauto|]. intros m _ _. by rewrite Ha.
Qed.

Lemma delete_materialization_row_ok i v : stmt_preserves schema_ok (delete_materialization_row i v).
Proof.
  intros db db' n Hok H. unfold delete_materialization_row, delete_materializations in H. injection H as <- _.
  sg_frame Hok; auto with cocli.
  - by apply Forall_delete_where.
  - by apply kept_adoptions.
Qed.

Lemma insert_adoption_ok r : stmt_preserves schema_ok (insert_adoption r).
Proof.
  intros db db' [] Hok H. unfold insert_adoption in H. inv_stmt. sg_frame Hok.
  - new_key Hguard0. intros x Hx. by rewrite Hx, N.eqb_refl.
  - apply Forall_snoc; [done|]. by apply has_materialization_true.
Qed.

Lemma insert_lockfile_ok r : stmt_preserves schema_ok (insert_lockfile r).
Proof.
  intros db db' [] Hok H. unfold insert_lockfile in H. inv_stmt. sg_frame Hok.
  - new_key Hguard. intros x Hx. by rewrite Hx, N.eqb_refl.
  - new_key Hguard. intros x [= K1 K2]. unfold lockfile_is. by rewrite K1, K2, !str_eqb_refl, orb_true_r.
Qed.

Lemma update_lockfiles_ok p f : keeps swl_id f → keeps lockfile_key f →
  stmt_preserves schema_ok (sql_update sg_lockfiles with_sg_lockfiles p f).
Proof. intros H1 H2 db db' n Hok [-> _]%sql_update_ok. sg_frame Hok; by rewrite map_update_where. Qed.

Lemma delete_lockfiles_ok p : stmt_preserves schema_ok (sql_delete sg_lockfiles with_sg_lockfiles p).
Proof. intros db db' n Hok [-> _]%sql_delete_ok. sg_frame Hok; auto with cocli. Qed.

Lemma insert_reference_ok r : stmt_preserves schema_ok (insert_reference r).
Proof.
  intros db db' [] Hok H. unfold insert_reference in H. inv_stmt. sg_frame Hok.
  - new_key Hguard0. intros x Hx. by rewrite Hx, N.eqb_refl.
  - new_key Hguard0. intros x [= K1 K2 K3 K4 K5]. unfold is_reference.
    by rewrite K1, K2, K3, K4, K5, !N.eqb_refl, !str_eqb_refl, orb_true_r.
Qed.
#[export] Hint Resolve insert_artifact_ok delete_artifact_row_ok insert_materialization_ok
  delete_materialization_row_ok insert_adoption_ok insert_lockfile_ok delete_lockfiles_ok
  insert_reference_ok : cocli.

(** ** What the operations preserve *)

Lemma readonly_get_managed_artifact i : readonly (get_skill_governance_managed_artifact i).
Proof. unfold get_skill_governance_managed_artifact, skill_governance_managed_artifact_from_row. readonly_tac. Qed.
Lemma readonly_get_managed_artifact_by_key k : readonly (get_skill_governance_managed_artifact_by_key k).
Proof.
  unfold get_skill_governance_managed_artifact_by_key, skill_governance_managed_artifact_from_row. readonly_tac.
Qed.
Lemma readonly_materialization_from_row r : readonly (skill_governance_materialization_from_row r).
Proof. unfold skill_governance_materialization_from_row. readonly_tac. Qed.
#[export] Hint Resolve readonly_get_managed_artifact readonly_get_managed_artifact_by_key
  readonly_materialization_from_row : cocli.
Lemma readonly_get_materialization i : readonly (get_skill_governance_materialization i).
Proof. unfold get_skill_governance_materialization. readonly_tac. Qed.
Lemma readonly_get_materialization_for_target s i p :
  readonly (get_skill_governance_materialization_for_target s i p).
Proof. unfold get_skill_governance_materialization_for_target. readonly_tac. Qed.
Lemma readonly_get_lockfile w p : readonly (get_skill_governance_workspace_lockfile w p).
Proof. unfold get_skill_governance_workspace_lockfile, skill_governance_workspace_lockfile_from_row. readonly_tac. Qed.
Lemma readonly_get_reference a b c d k : readonly (get_skill_governance_gc_reference a b c d k).
Proof. unfold get_skill_governance_gc_reference, skill_governance_gc_reference_from_row. readonly_tac. Qed.
Lemma readonly_has_reference t i : readonly (has_skill_governance_gc_reference t i).
Proof. apply readonly_fetch. Qed.
#[export] Hint Resolve readonly_get_materialization readonly_get_materialization_for_target
  readonly_get_lockfile readonly_get_reference readonly_has_reference : cocli.
Lemma readonly_require_artifact i : readonly (require_artifact i).
Proof. unfold require_artifact. readonly_tac. Qed.
#[export] Hint Resolve readonly_require_artifact : cocli.

Lemma as_str_inj {A} `{PersistedEnumLaws A} (x y : A) : as_str x = as_str y → x = y.
Proof. intros E. pose proof (parse_as_str x) as Hx. rewrite E, parse_as_str in Hx. congruence. Qed.

(** A materialization has a date of adoption exactly when it is adopted. *)
Definition adoption_dated (m : SkillGovernanceMaterializationRow) : Prop :=
  smt_ownership m = as_str Adopted ↔ is_Some (smt_adopted_at m).

(** What the [UPDATE] of an upsert does to a row. *)
Definition materialization_upsert (a : Uuid)
    (f : SkillGovernanceMaterializationRow → SkillGovernanceMaterializationRow) : Prop :=
  materialization_change f ∧ (∀ m, smt_artifact_id (f m) = a) ∧
  (∀ m, smt_version (f m) = smt_version m + 1) ∧ ∀ m, adoption_dated (f m).

Lemma set_materialization_upsert input text at_ now :
  (nmt_ownership input = Adopted ↔ is_Some at_) →
  materialization_upsert (nmt_artifact_id input) (set_materialization input text at_ now).
Proof.
  intros Hat. split; [|split_and!; try done].
  - split_and!; [done..|]. intros m.
    cbn [set_materialization smt_root_kind smt_installation_mode smt_ownership smt_verify_status].
    split_and!; [intros _; by exists (nmt_root_kind input)|intros _; by exists (nmt_installation_mode input)
      |by exists (nmt_ownership input)|intros _; by exists (nmt_verify_status input)].
  - intros m. unfold adoption_dated. cbn [set_materialization smt_ownership smt_adopted_at].
    rewrite <- Hat. split; [apply as_str_inj|by intros ->].
Qed.

Lemma set_adopted_change text v now : materialization_change (set_adopted text v now).
Proof.
  split_and!; [done..|]. intros m. split_and!; [done..| |done]. by exists Adopted.
Qed.

#[local] Hint Resolve preserves_readonly : cocli.

Section ArtifactOps.
Context (P : DB → Prop).
Context (Hia : ∀ r, stmt_preserves P (insert_artifact r)).
Context (Hda : ∀ i v, preserves P (delete_skill_governance_managed_artifact i v)).
Context (Him : ∀ r, adoption_dated r → stmt_preserves P (insert_materialization r)).
Context (Hum : ∀ input v, preserves P (upsert_skill_governance_materialization input v)).
Context (Hdm : ∀ i v o, preserves P (delete_skill_governance_materialization_if_safe i v o)).
Context (Hil : ∀ r, stmt_preserves P (insert_lockfile r)).
Context (Hul : ∀ p f, keeps swl_id f → keeps lockfile_key f →
  stmt_preserves P (sql_update sg_lockfiles with_sg_lockfiles p f)).
Context (Hdl : ∀ p, stmt_preserves P (sql_delete sg_lockfiles with_sg_lockfiles p)).
Context (Hir : ∀ r, stmt_preserves P (insert_reference r)).

Lemma create_artifact_preserves i : preserves P (create_skill_governance_managed_artifact i).
Proof.
  unfold create_skill_governance_managed_artifact. preserves_tac; auto.
Qed.

Lemma create_materialization_preserves i : preserves P (create_skill_governance_materialization i).
Proof.
  unfold create_skill_governance_materialization.
  apply preserves_bind; [apply preserves_readonly; auto with cocli|]. intros _.
  apply preserves_bind; [apply preserves_readonly; auto with cocli|]. intros [x|]; [preserves_tac|].
  apply preserves_bind; [preserves_tac|]. intros id. apply preserves_bind; [preserves_tac|]. intros now.
  apply preserves_bind; [preserves_tac|]. intros text.
  apply preserves_bind; [|intros; apply preserves_readonly; auto with cocli].
  apply preserves_execute, Him. unfold adoption_dated. cbn [smt_ownership smt_adopted_at].
  case_bool_decide as E; [rewrite E; split; by eauto|]. split; [by intros ?%as_str_inj|by intros []].
Qed.

Lemma upsert_lockfile_preserves w p c v : preserves P (upsert_skill_governance_workspace_lockfile w p c v).
Proof.
  unfold upsert_skill_governance_workspace_lockfile, write_lockfile.
  preserves_tac; auto; by apply Hul.
Qed.

Lemma run_skill_artifact_op_preserves op :
  (∀ m v r, op = AdoptMaterialization m v r → preserves P (adopt_skill_governance_materialization m v r)) →
  preserves P (run_skill_artifact_op op).
Proof.
  intros Had. destruct op; simpl; (apply preserves_bind; [|intros; apply preserves_ret]).
  - apply create_artifact_preserves.
  - apply Hda.
  - apply create_materialization_preserves.
  - apply Hum.
  - apply Hdm.
  - by eapply Had.
  - apply upsert_lockfile_preserves.
  - unfold delete_skill_governance_workspace_lockfile. preserves_tac; auto.
  - unfold create_skill_governance_gc_reference. preserves_tac; auto.
Qed.
End ArtifactOps.

(** The operations that check before they change, from their statements. *)
Section ArtifactStatements.
Context (P : DB → Prop).
Context (Hda : ∀ i v, stmt_preserves P (delete_artifact_row i v)).
Context (Him : ∀ r, adoption_dated r → stmt_preserves P (insert_materialization r)).
Context (Hum : ∀ a p f, materialization_upsert a f → stmt_preserves P (update_materialization a p f)).
Context (Hdm : ∀ i v, stmt_preserves P (delete_materialization_row i v)).

Lemma delete_managed_artifact_preserves i v : preserves P (delete_skill_governance_managed_artifact i v).
Proof.
  unfold delete_skill_governance_managed_artifact. preserves_tac; auto.
Qed.

Lemma upsert_materialization_preserves i v : preserves P (upsert_skill_governance_materialization i v).
Proof.
  unfold upsert_skill_governance_materialization.
  apply preserves_bind; [apply preserves_readonly; auto with cocli|]. intros _.
  apply preserves_bind; [apply preserves_readonly; auto with cocli|].
  intros [x|]; destruct v as [v|]; [|preserves_tac|preserves_tac|by apply create_materialization_preserves].
  case_match; [preserves_tac|]. case_match; [preserves_tac|].
  apply preserves_bind; [preserves_tac|]. intros now. apply preserves_bind; [preserves_tac|]. intros text.
  apply preserves_bind; [|intros n; preserves_tac; apply preserves_readonly; auto with cocli].
  apply preserves_execute, Hum, set_materialization_upsert.
  destruct (nmt_ownership i); [by split; [|intros []]| |by split; [|intros []]..].
  split; [intros _|done]. destruct (smt_adopted_at x); eauto.
Qed.

Lemma delete_materialization_preserves i v o : preserves P (delete_skill_governance_materialization_if_safe i v o).
Proof.
  unfold delete_skill_governance_materialization_if_safe.
  preserves_tac; auto.
Qed.

End ArtifactStatements.

Lemma adopt_preserves (P : DB → Prop) i v r :
  (∀ t now, stmt_preserves P (sql_update sg_materializations with_sg_materializations
    (λ _ m, materialization_is i m && (smt_version m =? v)) (set_adopted t (v + 1) now))) →
  (∀ a, stmt_preserves P (insert_adoption a)) →
  preserves P (adopt_skill_governance_materialization i v r).
Proof.
  intros Had Hia. unfold adopt_skill_governance_materialization, adopt_body.
  apply preserves_bind; [apply preserves_readonly; auto with cocli|]. intros cur.
  case_match; [preserves_tac|]. bsimp. replace (smt_version cur) with v by lia.
  preserves_tac; auto; apply preserves_readonly; auto with cocli.
Qed.

Lemma run_skill_artifact_op_statements (P : DB → Prop) op :
  (∀ r, stmt_preserves P (insert_artifact r)) →
  (∀ i v, stmt_preserves P (delete_artifact_row i v)) →
  (∀ r, adoption_dated r → stmt_preserves P (insert_materialization r)) →
  (∀ a p f, materialization_upsert a f → stmt_preserves P (update_materialization a p f)) →
  (∀ i v, stmt_preserves P (delete_materialization_row i v)) →
  (∀ i v t now, stmt_preserves P (sql_update sg_materializations with_sg_materializations
    (λ _ r, materialization_is i r && (smt_version r =? v)) (set_adopted t (v + 1) now))) →
  (∀ r, stmt_preserves P (insert_adoption r)) →
  (∀ r, stmt_preserves P (insert_lockfile r)) →
  (∀ p f, keeps swl_id f → keeps lockfile_key f →
    stmt_preserves P (sql_update sg_lockfiles with_sg_lockfiles p f)) →
  (∀ p, stmt_preserves P (sql_delete sg_lockfiles with_sg_lockfiles p)) →
  (∀ r, stmt_preserves P (insert_reference r)) →
  preserves P (run_skill_artifact_op op).
Proof.
  intros. apply run_skill_artifact_op_preserves; intros; auto.
  - by apply delete_managed_artifact_preserves.
  - by apply upsert_materialization_preserves.
  - by apply delete_materialization_preserves.
  - by apply adopt_preserves.
Qed.

Lemma run_skill_artifact_op_schema op : preserves schema_ok (run_skill_artifact_op op).
Proof.
  apply run_skill_artifact_op_statements; intros; auto with cocli.
  - destruct H as (Hc & Ha & Hv & _). apply update_materialization_ok; try done. intros m _. rewrite Hv. lia.
  - apply update_materializations_ok; [apply set_adopted_change|done|].
    intros db m Hp Hm. bsimp. cbn [set_adopted smt_version]. lia.
  - by apply update_lockfiles_ok.
Qed.

Lemma run_skill_artifact_op_outside (P : DB → Prop) op :
  (∀ f db, P db → P (with_skill_governance_tables f db)) → preserves P (run_skill_artifact_op op).
Proof.
  intros HP. apply run_skill_artifact_op_statements; intros; intros db db' x Hdb E.
  - unfold insert_artifact in E. inv_stmt. by apply HP.
  - unfold delete_artifact_row in E. injection E as <- _. by apply HP, HP, HP.
  - unfold insert_materialization in E. inv_stmt. by apply HP.
  - unfold update_materialization in E. destruct (negb _ || _); simpl in E; [|done]. injection E as <- _. by apply HP.
  - unfold delete_materialization_row in E. injection E as <- _. by apply HP, HP.
  - apply sql_update_ok in E as [-> _]. by apply HP.
  - unfold insert_adoption in E. inv_stmt. by apply HP.
  - unfold insert_lockfile in E. inv_stmt. by apply HP.
  - apply sql_update_ok in E as [-> _]. by apply HP.
  - apply sql_delete_ok in E as [-> _]. by apply HP.
  - unfold insert_reference in E. inv_stmt. by apply HP.
Qed.

(** ** Dates of adoption *)

Definition adoptions_dated (db : DB) : Prop := Forall adoption_dated (sg_materializations db).

Lemma run_skill_artifact_op_dated op : preserves adoptions_dated (run_skill_artifact_op op).
Proof.
  unfold adoptions_dated.
  apply run_skill_artifact_op_statements; intros; intros db db' x Hdb E.
  - unfold insert_artifact in E. by inv_stmt.
  - unfold delete_artifact_row in E. injection E as <- _. by apply Forall_delete_where.
  - unfold insert_materialization in E. inv_stmt. by apply Forall_snoc.
  - unfold update_materialization in E. destruct (negb _ || _); simpl in E; [|done]. injection E as <- _.
    destruct H as (_ & _ & _ & Hd). apply Forall_update_where; [done|]. intros m _ _. apply Hd.
  - unfold delete_materialization_row in E. injection E as <- _. by apply Forall_delete_where.
  - apply sql_update_ok in E as [-> _]. apply Forall_update_where; [done|]. intros m _ _. split; by eauto.
  - unfold insert_adoption in E. by inv_stmt.
  - unfold insert_lockfile in E. by inv_stmt.
  - by apply sql_update_ok in E as [-> _].
  - by apply sql_delete_ok in E as [-> _].
  - unfold insert_reference in E. by inv_stmt.
Qed.

(** ** What the program does not own *)

(** The row of a materialization, when it is read. *)
Lemma read_materialization i e w w' cur :
  require materialization_entity i (get_skill_governance_materialization i) e w = (w', Ok cur) →
  ∃ m, m ∈ sg_materializations (w_db w) ∧ smt_id m = i ∧ smt_id cur = i ∧ smt_version cur = smt_version m ∧
    smt_ownership m = as_str (smt_ownership cur) ∧ smt_expected_fingerprint cur = smt_expected_fingerprint m.
Proof.
  intros H. apply (require_row sg_materializations) in H as [_ (m & w1 & Hm & Hp%N.eqb_eq & Hd)]; [|auto with cocli].
  exists m. unfold skill_governance_materialization_from_row in Hd. inv_run. split_and!; try done.
  symmetry. by apply as_str_parse.
Qed.

Lemma read_target s i p e w w' cur :
  get_skill_governance_materialization_for_target s i p e w = (w', Ok (Some cur)) →
  ∃ m, m ∈ sg_materializations (w_db w) ∧ smt_id m = smt_id cur ∧ smt_version cur = smt_version m ∧
    smt_ownership m = as_str (smt_ownership cur).
Proof.
  intros H. apply (read_row sg_materializations) in H as [_ (m & w1 & Hm & _ & Hd)]; [|auto with cocli].
  exists m. unfold skill_governance_materialization_from_row in Hd. inv_run. split_and!; try done.
  symmetry. by apply as_str_parse.
Qed.

(** The database has not changed. *)
Ltac done_db :=
  unfold throw, ret; cbn [fst];
  repeat match goal with E : w_db ?w = w_db _ |- context [w_db ?w] => rewrite E end; assumption.

Section Spared.
Context (id : Uuid) (key : string * string * string) (ow : SkillGovernanceMaterializationOwnership).
Context (How : ow = Foreign ∨ ow = Unmanaged).

(** The materialization is there, at its place, with its owner. *)
Definition spared (db : DB) : Prop :=
  schema_ok db ∧ ∃ m, m ∈ sg_materializations db ∧ smt_id m = id ∧ target_key m = key ∧ smt_ownership m = as_str ow.

Lemma spared_same_id db m m' : spared db → m' ∈ sg_materializations db → smt_id m' = id →
  m = m' → target_key m = key ∧ smt_ownership m = as_str ow.
Proof.
  intros (Hok & x & Hx & Hi & Hk & Ho) Hm' Hid ->.
  by assert (m' = x) as -> by (eapply (NoDup_key_eq smt_id);
    [exact (go_materializations _ (so_skill_governance _ Hok))|done|done|congruence]).
Qed.

Lemma spared_stmt {A} (s : DB → result (DB * A) SqlError) :
  stmt_preserves schema_ok s →
  (∀ db db' x m, schema_ok db → s db = Ok (db', x) → m ∈ sg_materializations db → smt_id m = id →
     smt_ownership m = as_str ow → ∃ m', m' ∈ sg_materializations db' ∧ smt_id m' = id ∧
       target_key m' = target_key m ∧ smt_ownership m' = as_str ow) →
  stmt_preserves spared s.
Proof.
  intros Hs Hk db db' x [Hok (m & Hm & Hi & Hkey & Ho)] E. split; [by eapply Hs|].
  destruct (Hk db db' x m Hok E Hm Hi Ho) as (m' & ? & ? & Hk' & ?). exists m'. split_and!; congruence.
Qed.

Lemma delete_artifact_spares i v : preserves spared (delete_skill_governance_managed_artifact i v).
Proof.
  intros e w Hw. unfold delete_skill_governance_managed_artifact.
  apply readonly_then; [auto with cocli|done|]. intros w1 cur E1 _. case_match; [done_db|].
  apply readonly_then; [auto with cocli|done_db|]. intros w2 b E2 [_ ->]%fetch_ok.
  case_match eqn:Em; [done_db|].
  apply readonly_then; [auto with cocli|done_db|]. intros w3 r E3 _. case_match; [done_db|].
  apply execute_then; [done_db|]. intros db' n w4 E <-. change (spared (w_db w4)). rewrite E3, E2, E1 in E. rewrite E1 in Em.
  destruct Hw as [Hok (m & Hm & Hrest)]. split; [by eapply delete_artifact_row_ok|].
  unfold delete_artifact_row in E. injection E as <- _. exists m. split; [|done].
  apply elem_of_delete_where. split; [done|]. apply exists_row_false. intros a _.
  rewrite exists_row_false in Em. specialize (Em m Hm). unfold materializes, artifact_is in *.
  destruct (N.eqb_spec (smt_artifact_id m) (sma_id a)) as [Ea|]; [|done]. simpl. by rewrite <- Ea, Em.
Qed.

Lemma delete_materialization_spares i v o : preserves spared (delete_skill_governance_materialization_if_safe i v o).
Proof.
  intros e w Hw. unfold delete_skill_governance_materialization_if_safe.
  apply readonly_then; [auto with cocli|done|]. intros w1 cur E1 Hr. apply read_materialization in Hr as (m & Hm & Hmi & _ & _ & Hmo & _).
  do 2 (case_match; [done_db|]). case_match eqn:Hf; [done_db|].
  apply readonly_then; [auto with cocli|done_db|]. intros w2 r E2 _. destruct r; [done_db|].
  apply execute_then; [done_db|]. intros db' n w4 E <-. change (spared (w_db w4)). rewrite E2, E1 in E.
  destruct Hw as [Hok (x & Hx & Hxi & Hk & Ho)]. split; [by eapply delete_materialization_row_ok|].
  unfold delete_materialization_row in E. injection E as <- _. exists x. split_and!; try done.
  apply elem_of_delete_where. split; [done|]. unfold materialization_is.
  destruct (N.eqb_spec (smt_id x) i) as [Ei|]; [|done]. exfalso.
  assert (x = m) as -> by (eapply (NoDup_key_eq smt_id);
    [exact (go_materializations _ (so_skill_governance _ Hok))|done|done|congruence]).
  rewrite Hmo in Ho. apply as_str_inj in Ho. rewrite Ho in H0. case_bool_decide as Hn; [done|].
  apply Hn. destruct How as [->| ->]; set_solver.
Qed.

Lemma upsert_spares input v : preserves spared (upsert_skill_governance_materialization input v).
Proof.
  intros e w Hw. unfold upsert_skill_governance_materialization.
  apply readonly_then; [auto with cocli|done|]. intros w1 [] E1 _.
  apply readonly_then; [auto with cocli|done_db|]. intros w2 [cur|] E2 Hr; destruct v as [v|];
    [|case_match; done_db|done_db|].
  - apply read_target in Hr as (m & Hm & Hmi & Hmv & Hmo).
    case_match; [done_db|]. case_match eqn:Ex; [done_db|].
    apply readonly_then; [auto with cocli|done_db|]. intros w3 now E3 _.
    apply readonly_then; [auto with cocli|done_db|]. intros w4 text E4 _.
    apply execute_then; [done_db|]. intros db' n w5 E <-.
    assert (spared (w_db w5)) as Hw5; [|].
    2:{ destruct (n =? 0); [exact Hw5|]. apply (preserves_readonly spared); [auto with cocli|exact Hw5]. }
    rewrite E4, E3, E2, E1 in E.
    set (at_ := match nmt_ownership input with Adopted => _ | _ => _ end) in *.
    assert (materialization_upsert (nmt_artifact_id input) (set_materialization input text at_ now)) as Hu.
    { apply set_materialization_upsert. unfold at_.
      destruct (nmt_ownership input); [by split; [|intros []]| |by split; [|intros []]..].
      split; [intros _|done]. destruct (smt_adopted_at cur); eauto. }
    destruct Hu as (Hc & Ha & Hv & _). destruct Hw as [Hok (x & Hx & Hxi & Hk & Ho)]. split.
    { eapply update_materialization_ok; [exact Hc|exact Ha| |exact Hok|exact E]. intros y _. rewrite Hv. lia. }
    unfold update_materialization in E. destruct (negb _ || _) eqn:Hg; simpl in E; [|done]. injection E as <- _.
    set (p := λ r, materialization_is (smt_id cur) r && (smt_version r =? smt_version cur)).
    exists (if p x then set_materialization input text at_ now x else x). split.
    { apply list_elem_of_fmap. by exists x. }
    destruct (p x) eqn:Ep; [|done]. split_and!; [done|done|]. unfold p, materialization_is in Ep. apply andb_true_iff in Ep as [Ep%N.eqb_eq _].
    assert (x = m) as -> by (eapply (NoDup_key_eq smt_id);
      [exact (go_materializations _ (so_skill_governance _ Hok))|done|by rewrite <- E1|congruence]).
    cbn [set_materialization smt_ownership]. rewrite Hmo in Ho. apply as_str_inj in Ho. rewrite Ho in Ex.
    apply andb_false_iff in Ex as [Ex|Ex]; apply negb_false_iff in Ex.
    + apply bool_decide_eq_true in Ex. by rewrite Ex.
    + by destruct How as [Hx1|Hx1]; rewrite Hx1 in Ex.
  - apply create_materialization_preserves; [|done_db]. intros r _.
    apply spared_stmt; [auto with cocli|]. intros db db' x m Hok E Hm Hi Ho. exists m.
    unfold insert_materialization in E. inv_stmt. split_and!; try done. apply elem_of_app. by left.
Qed.

(** Only its adoption takes it. *)
Lemma run_skill_artifact_op_spares op :
  (∀ v r, op ≠ AdoptMaterialization id v r) → preserves spared (run_skill_artifact_op op).
Proof.
  intros Hop.
  assert (∀ {A} (s : DB → result (DB * A) SqlError), stmt_preserves schema_ok s →
    (∀ db db' x, s db = Ok (db', x) → ∀ m, m ∈ sg_materializations db → m ∈ sg_materializations db') →
    stmt_preserves spared s) as Hs.
  { intros A s Hok Hm. apply spared_stmt; [done|]. intros db db' x m _ E Hin ? ?. exists m. by eauto. }
  apply run_skill_artifact_op_preserves; intros.
  - apply Hs; auto with cocli. intros db db' x E. unfold insert_artifact in E. by inv_stmt.
  - apply delete_artifact_spares.
  - apply Hs; auto with cocli. intros db db' x E. unfold insert_materialization in E. inv_stmt.
    intros m Hm. apply elem_of_app. by left.
  - apply upsert_spares.
  - apply delete_materialization_spares.
  - apply Hs; auto with cocli. intros db db' x E. unfold insert_lockfile in E. by inv_stmt.
  - apply Hs; [by apply update_lockfiles_ok|]. by intros db db' x [-> _]%sql_update_ok.
  - apply Hs; auto with cocli. by intros db db' x [-> _]%sql_delete_ok.
  - apply Hs; auto with cocli. intros db db' x E. unfold insert_reference in E. by inv_stmt.
  - subst op. assert (m ≠ id) as Hne by (intros ->; by eapply Hop).
    apply adopt_preserves.
    + intros t now. apply spared_stmt.
      { apply update_materializations_ok; [apply set_adopted_change|done|]. intros db x Hp Hx. bsimp.
        cbn [set_adopted smt_version]. lia. }
      intros db db' x y _ [-> _]%sql_update_ok Hy Hyi Ho. exists y. split_and!; try done.
      apply list_elem_of_fmap. exists y. split; [|done]. unfold materialization_is.
      by rewrite (proj2 (N.eqb_neq _ _)) by congruence.
    + intros a. apply Hs; auto with cocli. intros db db' x E. unfold insert_adoption in E. by inv_stmt.
Qed.
End Spared.

(** ** The collection *)

Lemma head_bfilter_unique {A} (p : A → bool) (l : list A) r :
  r ∈ l → p r = true → (∀ x, x ∈ l → p x = true → x = r) → head (bfilter p l) = Some r.
Proof.
  intros Hr Hp Hu. destruct (bfilter p l) as [|x l'] eqn:E.
  - assert (r ∈ bfilter p l) as Hin by (by apply elem_of_bfilter). rewrite E in Hin. inversion Hin.
  - assert (x ∈ bfilter p l) as [Hx Hpx]%elem_of_bfilter by (rewrite E; set_solver). simpl. f_equal. auto.
Qed.

Lemma count_where_positive {A} (p : A → bool) (l : list A) x : x ∈ l → p x = true → (0 <? count_where p l) = true.
Proof.
  intros Hx Hp. unfold count_where. assert (x ∈ bfilter p l) as Hin by (by apply elem_of_bfilter).
  destruct (bfilter p l); [inversion Hin|]. apply Z.ltb_lt. cbn [length]. lia.
Qed.

(** The row decodes, and the values with it. *)
Definition decodes {A B} (d : A → M B) (e : Env) (r : A) : Prop := ∃ x, ∀ w, d r e w = (w, Ok x).

Lemma require_run {A B} (tab : DB → list A) (p : A → bool) (d : A → M B) entity id e w r x :
  fault_free e → r ∈ tab (w_db w) → p r = true → (∀ y, y ∈ tab (w_db w) → p y = true → y = r) →
  (∀ w, d r e w = (w, Ok x)) →
  require entity id (bind (fetch_optional (λ db, bfilter p (tab db))) (decode_option d)) e w = (tick w, Ok x).
Proof.
  intros Hff Hr Hp Hu Hd. unfold require, bind, fetch_optional. rewrite fetch_run by done.
  rewrite (head_bfilter_unique p _ r) by done. simpl. unfold bind. by rewrite Hd.
Qed.

(** Deleting an artifact of the present version, on every branch. *)
Lemma delete_artifact_run a e w :
  schema_ok (w_db w) → fault_free e → a ∈ sg_artifacts (w_db w) →
  decodes skill_governance_managed_artifact_from_row e a →
  (delete_skill_governance_managed_artifact (sma_id a) (sma_version a) e w).2 =
    if exists_row (materializes (sma_id a)) (sg_materializations (w_db w)) then
      Err (SkillGovernanceDeleteConflict artifact_entity (sma_id a) "materialized")
    else if exists_row (refers_to "managed_artifact" (sma_id a)) (sg_references (w_db w)) then
      Err (SkillGovernanceDeleteConflict artifact_entity (sma_id a) "referenced")
    else Ok true.
Proof.
  intros Hok Hff Ha [x Hd].
  assert (sma_version x = sma_version a) as Hv.
  { specialize (Hd start). unfold skill_governance_managed_artifact_from_row in Hd. by inv_run. }
  unfold delete_skill_governance_managed_artifact, bind, get_skill_governance_managed_artifact.
  rewrite (require_run sg_artifacts _ _ _ _ _ _ a x); [|done|done|apply N.eqb_refl| |done].
  2:{ intros y Hy Hi%N.eqb_eq. by eapply (NoDup_key_eq sma_id); [exact (go_artifacts _ (so_skill_governance _ Hok))|..]. }
  rewrite Hv, Z.eqb_refl. cbn [negb]. rewrite fetch_run by done. cbn [tick w_db].
  destruct (exists_row (materializes _) _); [done|]. unfold has_skill_governance_gc_reference.
  rewrite fetch_run by done. cbn [tick w_db]. destruct (exists_row (refers_to _ _) _); [done|].
  rewrite execute_run by done. unfold delete_artifact_row. cbn [snd ret]. f_equal.
  apply (count_where_positive _ _ a); [done|]. unfold artifact_is. by rewrite N.eqb_refl, Z.eqb_refl.
Qed.

Lemma delete_materialization_run m e w :
  schema_ok (w_db w) → fault_free e → m ∈ sg_materializations (w_db w) →
  decodes skill_governance_materialization_from_row e m →
  (delete_skill_governance_materialization_if_safe (smt_id m) (smt_version m)
     (Some (smt_expected_fingerprint m)) e w).2 =
    if bool_decide (smt_ownership m ∈ ["foreign"; "unmanaged"]) then
      Err (SkillGovernanceDeleteConflict materialization_entity (smt_id m) "ownership")
    else if exists_row (refers_to "materialization" (smt_id m)) (sg_references (w_db w)) then
      Err (SkillGovernanceDeleteConflict materialization_entity (smt_id m) "referenced")
    else Ok true.
Proof.
  intros Hok Hff Hm [x Hd].
  assert (smt_version x = smt_version m ∧ smt_expected_fingerprint x = smt_expected_fingerprint m ∧
          smt_ownership m = as_str (smt_ownership x)) as (Hv & Hf & Ho).
  { specialize (Hd start). unfold skill_governance_materialization_from_row in Hd. inv_run. split_and!; [done..|].
    symmetry. by apply as_str_parse. }
  assert (bool_decide (smt_ownership x ∈ [Foreign; Unmanaged]) =
          bool_decide (smt_ownership m ∈ ["foreign"; "unmanaged"])) as Hown.
  { rewrite Ho. by destruct (smt_ownership x). }
  unfold delete_skill_governance_materialization_if_safe, bind, get_skill_governance_materialization.
  rewrite (require_run sg_materializations _ _ _ _ _ _ m x); [|done|done|apply N.eqb_refl| |done].
  2:{ intros y Hy Hi%N.eqb_eq.
      by eapply (NoDup_key_eq smt_id); [exact (go_materializations _ (so_skill_governance _ Hok))|..]. }
  rewrite Hv, Z.eqb_refl, Hown, Hf, str_eqb_refl. cbn [negb].
  clear Hown. destruct (bool_decide _); [done|]. unfold has_skill_governance_gc_reference.
  rewrite fetch_run by done. cbn [tick w_db]. destruct (exists_row (refers_to _ _) _); [done|].
  rewrite execute_run by done. unfold delete_materialization_row. cbn [snd ret]. f_equal.
  apply (count_where_positive _ _ m); [done|]. unfold materialization_is. by rewrite N.eqb_refl, Z.eqb_refl.
Qed.

Definition artifact_candidate (a : SkillGovernanceManagedArtifactRow) : SkillGovernanceGcCandidate :=
  mkGcCandidate "managed_artifact" (sma_id a) "unreferenced".
Definition materialization_candidate (m : SkillGovernanceMaterializationRow) : SkillGovernanceGcCandidate :=
  mkGcCandidate "materialization" (smt_id m) "unreferenced".

Lemma preview_run e w :
  fault_free e → preview_skill_governance_gc e w = (tick (tick w), Ok
    (map artifact_candidate (sort_by artifact_order (bfilter (collectable_artifact (w_db w)) (sg_artifacts (w_db w)))) ++
     map materialization_candidate (sort_by materialization_order
       (bfilter (collectable_materialization (w_db w)) (sg_materializations (w_db w)))))%list).
Proof.
  intros Hff. unfold preview_skill_governance_gc, bind. rewrite !fetch_run by done. cbn [tick w_db].
  unfold ret. by rewrite !map_map.
Qed.

Lemma elem_of_candidates {A} (id : A → Uuid) (kind : string) cmp (p : A → bool) (l : list A) (x : A) :
  NoDup (map id l) → x ∈ l →
  (mkGcCandidate kind (id x) "unreferenced" ∈
     map (λ y, mkGcCandidate kind (id y) "unreferenced") (sort_by cmp (bfilter p l)) ↔ p x = true).
Proof.
  intros Hnd Hx. rewrite list_elem_of_fmap. split.
  - intros (y & [= E] & Hy). rewrite sort_by_perm in Hy. apply elem_of_bfilter in Hy as [Hy Hp].
    by rewrite (NoDup_key_eq id _ x y Hnd Hx Hy E).
  - intros Hp. exists x. split; [done|]. rewrite sort_by_perm. by apply elem_of_bfilter.
Qed.

(** The preview of a collection lists exactly what can be deleted: without
    faults the preview succeeds, and an artifact or a materialization whose row decodes is a
    candidate if and only if deleting it now, at its version and unchanged on disk, succeeds. *)
Theorem gc_preview_exact e w :
  schema_ok (w_db w) → fault_free e →
  ∃ w' candidates, preview_skill_governance_gc e w = (w', Ok candidates) ∧
    (∀ a, a ∈ sg_artifacts (w_db w) → decodes skill_governance_managed_artifact_from_row e a →
      (artifact_candidate a ∈ candidates ↔
       (delete_skill_governance_managed_artifact (sma_id a) (sma_version a) e w).2 = Ok true)) ∧
    (∀ m, m ∈ sg_materializations (w_db w) → decodes skill_governance_materialization_from_row e m →
      (materialization_candidate m ∈ candidates ↔
       (delete_skill_governance_materialization_if_safe (smt_id m) (smt_version m)
          (Some (smt_expected_fingerprint m)) e w).2 = Ok true)).
Proof.
  intros Hok Hff. eexists _, _. split; [by apply preview_run|].
  destruct (so_skill_governance _ Hok) as []. split.
  - intros a Ha Hd. rewrite delete_artifact_run by done. rewrite elem_of_app.
    unfold artifact_candidate at 1 2. rewrite (elem_of_candidates sma_id) by done.
    assert (∀ l, artifact_candidate a ∉ map materialization_candidate l) as Hother.
    { intros l (m & [=] & _)%list_elem_of_fmap. }
    unfold collectable_artifact. specialize (Hother (sort_by materialization_order
      (bfilter (collectable_materialization (w_db w)) (sg_materializations (w_db w))))).
    unfold artifact_candidate in Hother.
    destruct (exists_row (materializes _) _), (exists_row (refers_to _ _) _); naive_solver.
  - intros m Hm Hd. rewrite delete_materialization_run by done. rewrite elem_of_app.
    assert (∀ l, materialization_candidate m ∉ map artifact_candidate l) as Hother.
    { intros l (a & [=] & _)%list_elem_of_fmap. }
    specialize (Hother (sort_by artifact_order (bfilter (collectable_artifact (w_db w)) (sg_artifacts (w_db w))))).
    unfold materialization_candidate in *. rewrite (elem_of_candidates smt_id) by done.
    unfold collectable_materialization.
    destruct (bool_decide _), (exists_row (refers_to _ _) _); naive_solver.
Qed.

(** *** Concrete inputs *)
Module ArtifactDemo.

Definition new_artifact (key : string) : NewSkillGovernanceManagedArtifact :=
  mkNewManagedArtifact key "skill" JNull "sha" "manifest" 1 "r1" "skills/x" JNull JNull.
Definition new_materialization (artifact_id : Uuid) (path : string)
    (ownership : SkillGovernanceMaterializationOwnership) : NewSkillGovernanceMaterialization :=
  mkNewMaterialization artifact_id ScopeMachine "m1" path "claude" RootMachine CopyMode ownership "sha" path
    "fp" VerifyVerified JNull.

(** Two artifacts, the second materialized under two owners. *)
Definition stocked : World :=
  ((create_skill_governance_managed_artifact (new_artifact "a") ;;
    let! b := create_skill_governance_managed_artifact (new_artifact "b") in
    create_skill_governance_materialization (new_materialization (sma_id b) "/x" Managed) ;;
    create_skill_governance_materialization (new_materialization (sma_id b) "/y" Foreign)) (demo_env 100) start).1.

Definition lockfile (hash : string) : LockfileContent :=
  mkLockfileContent hash "fp" "disk" JNull None None JNull JNull.

(** A writer reads the lockfile, another one completes its update, the first one writes. *)
Definition lockfile_race : M SkillGovernanceWorkspaceLockfile :=
  upsert_skill_governance_workspace_lockfile "ws" "skills.lock" (lockfile "base") None ;;
  let! stale := get_skill_governance_workspace_lockfile "ws" "skills.lock" in
  upsert_skill_governance_workspace_lockfile "ws" "skills.lock" (lockfile "theirs") (Some 1) ;;
  write_lockfile "ws" "skills.lock" (lockfile "mine") (Some 1) stale.
End ArtifactDemo.

Lemma gc_preview_exact_witness :
  ∃ w' candidates, preview_skill_governance_gc (demo_env 500) ArtifactDemo.stocked = (w', Ok candidates) ∧
    (∀ m, m ∈ sg_materializations (w_db ArtifactDemo.stocked) →
       decodes skill_governance_materialization_from_row (demo_env 500) m →
      (materialization_candidate m ∈ candidates ↔
       (delete_skill_governance_materialization_if_safe (smt_id m) (smt_version m)
          (Some (smt_expected_fingerprint m)) (demo_env 500) ArtifactDemo.stocked).2 = Ok true)) ∧
    length candidates = 2%nat.
Proof.
  destruct (gc_preview_exact (demo_env 500) ArtifactDemo.stocked) as (w' & cs & Hp & _ & Hm).
  { unfold ArtifactDemo.stocked.
    apply (preserves_bind schema_ok); [|..|apply schema_ok_empty].
    - by apply create_artifact_preserves; auto with cocli.
    - intros _. apply preserves_bind; [by apply create_artifact_preserves; auto with cocli|]. intros b.
      apply preserves_bind; [|intros _]; apply create_materialization_preserves; auto with cocli. }
  { by intros n. }
  exists w', cs. split_and!; [done|done|]. vm_compute in Hp. by injection Hp as _ <-.
Defined.

(** ** A lockfile update that is lost

    [upsert_skill_governance_workspace_lockfile] compares the version of the row it has read and
    ignores how many rows its [UPDATE ... AND version = ?] changed. *)

(** Two writers expect the same version; the one that comes second writes nothing and is told
    that it succeeded, with the lockfile of the other one. *)
Theorem lockfile_update_lost :
  match (ArtifactDemo.lockfile_race (demo_env 100) start).2 with
  | Ok lockfile => swl_lock_hash lockfile = "theirs" ∧ swl_version lockfile = 2
  | Err _ => False
  end.
Proof. by vm_compute. Qed.

(** ** An artifact that is deleted with a materialization

    The checks of [delete_skill_governance_managed_artifact] and its [DELETE] are statements of
    their own, and the materializations cascade on their artifact. *)

(** The checks pass, a foreign materialization is recorded, the artifact is deleted. *)
Definition artifact_deletion_race : M (bool * bool * Z) :=
  let! artifact := create_skill_governance_managed_artifact (ArtifactDemo.new_artifact "a") in
  let id := sma_id artifact in
  let! materialized := fetch (λ db, exists_row (materializes id) (sg_materializations db)) in
  let! referenced := has_skill_governance_gc_reference "managed_artifact" id in
  create_skill_governance_materialization (ArtifactDemo.new_materialization id "/theirs" Foreign) ;;
  let! changed := execute (delete_artifact_row id (sma_version artifact)) in
  ret (materialized, referenced, changed).

Theorem artifact_deletion_takes_foreign :
  match artifact_deletion_race (demo_env 100) start with
  | (w, Ok (materialized, referenced, changed)) =>
      materialized = false ∧ referenced = false ∧ changed = 1 ∧ sg_materializations (w_db w) = []
  | _ => False
  end.
Proof. by vm_compute. Qed.
