(* ===== verification/Store.v ===== *)
(** * The store as a whole

    The state-changing operations of [crates/cocli-store/src/lib.rs] that are modelled, as one
    type, and the invariants of every database they can produce: the schema, the default
    channel of each agent, the numbering of messages and the acyclicity of task
    dependencies; then the invariants of the governance tables, which operations on the other
    tables leave alone: valid MCP profiles, runs and imports that only move on, plans and
    leases of skills whose history is complete. *)
From S2P Require Import Prelude StoreTypes StoreDb StoreSchema StoreAgents.
From S2P Require Import StoreMessages StoreDeliveries StoreTasks StoreWorkspaces StoreMemory.
From S2P Require Import StoreHistory StoreSkills StoreMcp StoreMcpApply StoreMcpBundle.
From S2P Require Import SkillGovernanceTypes StoreSkillPlans StoreSkillRuns StoreSkillArtifacts.

Inductive StoreOp : Type :=
  | CreateChannel (name : string)
  | UpdateChannelProfile (channel_id : Uuid) (description goal : option string)
  | CreateAgent (channel_id : Uuid) (name runtime : string) (model : option string)
      (status : AgentStatus)
  | CreateStandaloneAgent (name runtime : string) (model : option string) (status : AgentStatus)
      (created_by_agent_id created_by_channel_id : option Uuid)
  | UpdateAgentProfile (agent_id : Uuid) (description instructions : option string)
  | SetAgentStatus (agent_id : Uuid) (status : AgentStatus)
  | SetAgentLifecycleStatus (agent_id : Uuid) (status : AgentLifecycleStatus)
  | AddAgentToChannel (channel_id agent_id : Uuid) (role delivery_policy : option string)
      (created_by_agent_id created_by_channel_id : option Uuid)
  | RemoveAgentFromChannel (channel_id agent_id : Uuid)
  | EnsureDirectChannel (agent_id : Uuid)
  | DeleteChannel (channel_id : Uuid)
  | DeleteAgent (agent_id : Uuid)
  | AppendMessage (channel_id : Uuid) (agent_id : option Uuid) (role : MessageRole) (content : string)
  | ConsumeInbox (agent_id : Uuid) (limit : Z)
  | SetWorkingState (agent_id : Uuid) (summary : string) (channel_name : option string)
      (task_number : option Z) (next_step_hint : option string)
  | ClearWorkingState (agent_id : Uuid)
  | OnDeliveries (max_attempts : Z) (op : DeliveryOp)
  | OnTasks (op : TaskOp)
  | OnWorkspaces (installation_id : string) (op : WorkspaceOp)
  | OnMemory (op : MemoryOp)
  | OnHistory (op : HistoryOp)
  | OnSkills (op : SkillOp)
  | OnMcp (installation_id : string) (op : McpOp)
  | OnMcpRuns (op : McpRunOp)
  | OnMcpImports (installation_id : string) (op : McpImportOp)
  | OnSkillPlans (op : SkillPlanOp)
  | OnSkillRuns (op : SkillRunOp)
  | OnSkillArtifacts (op : SkillArtifactOp).

Definition run_store_op (op : StoreOp) : M unit :=
  match op with
  | CreateChannel n => create_channel n ;; ret tt
  | UpdateChannelProfile c d g => update_channel_profile c d g ;; ret tt
  | CreateAgent c n r m s => create_agent c n r m s ;; ret tt
  | CreateStandaloneAgent n r m s ba bc => create_standalone_agent n r m s ba bc ;; ret tt
  | UpdateAgentProfile a d i => update_agent_profile a d i ;; ret tt
  | SetAgentStatus a s => set_agent_status a s ;; ret tt
  | SetAgentLifecycleStatus a s => set_agent_lifecycle_status a s ;; ret tt
  | AddAgentToChannel c a r p ba bc => add_agent_to_channel c a r p ba bc ;; ret tt
  | RemoveAgentFromChannel c a => remove_agent_from_channel c a
  | EnsureDirectChannel a => ensure_direct_channel_for_agent a ;; ret tt
  | DeleteChannel c => delete_channel c
  | DeleteAgent a => delete_agent a
  | AppendMessage c a r t => append_message c a r t ;; ret tt
  | ConsumeInbox a n => consume_agent_inbox a n ;; ret tt
  | SetWorkingState a s c t h => set_working_state a s c t h ;; ret tt
  | ClearWorkingState a => clear_working_state a ;; ret tt
  | OnDeliveries n op => run_delivery_op n op
  | OnTasks op => run_task_op op
  | OnWorkspaces i op => run_workspace_op i op
  | OnMemory op => run_memory_op op
  | OnHistory op => run_history_op op
  | OnSkills op => run_skill_op op
  | OnMcp i op => run_mcp_op i op
  | OnMcpRuns op => run_mcp_run_op op
  | OnMcpImports i op => run_mcp_import_op i op
  | OnSkillPlans op => run_skill_plan_op op
  | OnSkillRuns op => run_skill_run_op op
  | OnSkillArtifacts op => run_skill_artifact_op op
  end.

(** Operations issued one after the other, each in its own environment, succeeding or not. *)
Definition run_store (ops : list (Env * StoreOp)) : World :=
  fold_left (λ w '(e, op), (run_store_op op e w).1) ops start.

Lemma run_store_ind (P : DB → Prop) (ops : list (Env * StoreOp)) :
  P empty_db → (∀ op, preserves P (run_store_op op)) → P (w_db (run_store ops)).
Proof.
  intros H0 Hop. unfold run_store.
  assert (P (w_db start)) as H by done. revert H. generalize start.
  induction ops as [|[e op] ops IH]; intros w Hw; simpl; [done|]. apply IH. by apply Hop.
Qed.

(** A statement that does not touch the tables [P] reads keeps [P]. *)
Ltac stmt_frame :=
  let db := fresh in let db' := fresh in let Hframe := fresh "Hframe" in
  let Estmt := fresh "Estmt" in
  intros db db' ? Hframe Estmt;
  unfold insert_channel_or_nothing, insert_channel, insert_agent, upsert_member,
    insert_delivery_or_ignore, insert_delivery, upsert_cursor, upsert_working, insert_task,
    insert_dependency_or_ignore, update_claim, default_agent_channel, update_agent_channel,
    sql_update, sql_delete in Estmt;
  inv_stmt; try (exact Hframe); repeat case_match; simplify_eq; inv_stmt; exact Hframe.

Ltac op_frame :=
  preserves_tac;
  first [ solve [stmt_frame]
        | apply reserve_candidates_preserves; intros; solve [stmt_frame]
        | idtac ].

(** Operations on tables that [P] does not read. *)
Ltac outside_op :=
  first [ by apply run_workspace_op_outside | by apply run_memory_op_outside
        | by apply run_history_op_outside | by apply run_skill_op_outside
        | by apply run_mcp_op_outside | by apply run_mcp_run_op_outside
        | by apply run_mcp_import_op_outside | by apply run_skill_plan_op_outside
        | by apply run_skill_run_op_outside | by apply run_skill_artifact_op_outside ].

(** *** Schema *)

Lemma run_store_op_schema op : preserves schema_ok (run_store_op op).
Proof.
  destruct op; simpl; auto with cocli; try (apply preserves_bind; auto with cocli).
  - apply run_delivery_op_schema.
  - apply run_task_op_schema.
  - apply run_workspace_op_schema.
  - apply run_memory_op_schema.
  - apply run_history_op_schema.
  - apply run_skill_op_schema.
  - apply run_mcp_op_schema.
  - apply run_mcp_run_op_schema.
  - apply run_mcp_import_op_schema.
  - apply run_skill_plan_op_schema.
  - apply run_skill_run_op_schema.
  - apply run_skill_artifact_op_schema.
Qed.

(** *** Default channel *)

Lemma run_delivery_op_frame (P : DB → Prop) n op :
  (∀ s p, stmt_preserves P (sql_update delivery_queue with_deliveries p s)) →
  (∀ p, stmt_preserves P (sql_delete delivery_queue with_deliveries p)) →
  (∀ r, stmt_preserves P (insert_delivery r)) →
  (∀ r, stmt_preserves P (insert_delivery_or_ignore r)) →
  (∀ a s t, stmt_preserves P (upsert_cursor a s t)) →
  (∀ i c a r t now, stmt_preserves P (insert_message i c a r t now)) →
  preserves P (run_delivery_op n op).
Proof.
  intros Hu Hd Hi Hio Hc Hm.
  destruct op; simpl;
    unfold enqueue_deliveries, append_user_message_with_deliveries, reserve_due_deliveries,
      decode_deliveries, reserve_delivery, nudge_agent_deliveries, defer_delivery,
      release_in_flight_deliveries, complete_delivery, upsert_inbox_cursor;
    preserves_tac; auto; apply reserve_candidates_preserves; auto.
Qed.

Lemma run_task_op_frame (P : DB → Prop) op :
  (∀ id c m t a t1 t2, stmt_preserves P (insert_task id c m t a t1 t2)) →
  (∀ p f, stmt_preserves P (sql_update tasks with_tasks p f)) →
  (∀ p, stmt_preserves P (sql_delete task_dependencies with_dependencies p)) →
  (∀ c t d, preserves P (add_task_dependency c t d)) →
  preserves P (run_task_op op).
Proof.
  intros Hi Hu Hd Ha.
  assert (∀ c n a now, stmt_preserves P (update_claim c n a now)) as Hc.
  { intros c n a now db db' k HP H. unfold update_claim in H. destruct (negb _ || _); [|done].
    exact (Hu _ _ db db' k HP H). }
  destruct op; simpl; [apply preserves_bind; [|intros; apply preserves_ret].. |apply Ha|
    apply preserves_bind; [|intros; apply preserves_ret]].
  - by apply create_task_preserves.
  - by apply claim_task_preserves.
  - by apply unclaim_task_preserves.
  - by apply update_task_status_preserves.
  - by apply remove_task_dependency_preserves.
Qed.

Ltac frame_ops :=
  first [ apply run_delivery_op_frame; intros; first [solve [auto with cocli] | solve [stmt_frame]]
        | apply run_task_op_frame; intros; first [solve [auto with cocli] | solve [stmt_frame]] ].

Lemma add_task_dependency_frame (P : DB → Prop) c t d :
  (∀ row, stmt_preserves P (insert_dependency_or_ignore row)) → preserves P (add_task_dependency c t d).
Proof. intros H. unfold add_task_dependency, insert_task_dependency. preserves_tac. Qed.

Lemma insert_message_default i c a r t now :
  stmt_preserves default_is_member (insert_message i c a r t now).
Proof. intros db db' row H [_ ->]%insert_message_fields. exact H. Qed.

Lemma add_task_dependency_default c t d : preserves default_is_member (add_task_dependency c t d).
Proof. apply add_task_dependency_frame. intros row. stmt_frame. Qed.
#[export] Hint Resolve insert_message_default add_task_dependency_default : cocli.

Lemma run_store_op_default op : preserves default_is_member (run_store_op op).
Proof.
  destruct op; simpl; auto with cocli;
    try (apply preserves_bind; [|intros; apply preserves_ret]; solve [auto with cocli]).
  all: unfold append_message, consume_agent_inbox, default_channel_for_agent, decode_messages,
    upsert_inbox_cursor, set_working_state, get_working_state, clear_working_state.
  all: first [outside_op | frame_ops | op_frame].
Qed.

(** *** Message numbers *)

(** The messages of a channel, in insertion order, are numbered 1, 2, 3, ... *)
Definition in_chan (c : Uuid) (r : MessageRow) : bool := (mr_channel_id r =? c)%N.
Definition numbered (db : DB) : Prop :=
  ∀ c, map mr_seq (bfilter (in_chan c) (messages db)) =
       map Z.of_nat (seq 1 (length (bfilter (in_chan c) (messages db)))).

Lemma max_key_fold {A} (key : A → Z) (l : list A) (z0 : Z) (n : nat) :
  map key l = map Z.of_nat (seq 1 n) → z0 ≤ Z.of_nat n → 0 ≤ z0 →
  fold_right (λ x, Z.max (key x)) z0 l = if decide (n = 0%nat) then z0 else Z.of_nat n.
Proof.
  intros Hmap Hz Hz0.
  assert (∀ l m k, map key l = map Z.of_nat (seq m k) → (m + k = S n)%nat → k ≠ 0%nat →
    fold_right (λ x, Z.max (key x)) z0 l = Z.of_nat n) as Hgen.
  { clear Hmap l. induction l as [|x l IH]; intros m [|k] Hmap Hsum Hk; try done.
    simpl in Hmap. injection Hmap as Hx Hl. simpl. destruct k as [|k].
    - destruct l; [|done]. simpl. lia.
    - rewrite (IH (S m) (S k)); [lia|done|lia|done]. }
  case_decide as Hn; [|by apply (Hgen l 1%nat n)]. subst n. by destruct l.
Qed.

Lemma max_key_numbered {A} (key : A → Z) (l : list A) :
  map key l = map Z.of_nat (seq 1 (length l)) → max_key key l = Z.of_nat (length l).
Proof.
  intros Hmap. unfold max_key. destruct l as [|x l]; [done|].
  rewrite (max_key_fold key (x :: l) (key x) (length (x :: l)));
    [by rewrite decide_False| |..]; simpl in *; injection Hmap as Hx Hl; [congruence|lia|lia].
Qed.

Lemma insert_message_numbered i c a r t now : stmt_preserves numbered (insert_message i c a r t now).
Proof.
  intros db db' row Hn [-> ->]%insert_message_fields c'. simpl. rewrite bfilter_app. simpl.
  unfold in_chan at 2 4. simpl. destruct (N.eqb_spec c c') as [->|Hne].
  - fold (in_chan c'). rewrite max_key_numbered by apply Hn.
    rewrite map_app, length_app, (Hn c'), seq_app, map_app. simpl. repeat f_equal. lia.
  - rewrite app_nil_r. apply Hn.
Qed.

Lemma bfilter_ext {A} (p q : A → bool) (l : list A) :
  (∀ x, p x = q x) → bfilter p l = bfilter q l.
Proof. intros H. induction l as [|x l IH]; simpl; [done|]. by rewrite H, IH. Qed.

Lemma bfilter_delete_where {A} (p q : A → bool) (l : list A) :
  bfilter p (delete_where q l) = bfilter (λ x, negb (q x) && p x) l.
Proof. unfold delete_where. by rewrite <- bfilter_andb. Qed.

Lemma delete_agents_numbered dead db : numbered db → numbered (delete_agents dead db).
Proof.
  intros Hn c. simpl. rewrite bfilter_map_same by done. rewrite map_map, length_map. apply Hn.
Qed.

Lemma delete_channels_numbered dead db : numbered db → numbered (delete_channels dead db).
Proof.
  intros Hn%(delete_agents_numbered (agent_in dead db)) c.
  unfold delete_channels. set (db1 := delete_agents _ _) in *. simpl. rewrite bfilter_delete_where.
  destruct (dead c) eqn:Hd.
  - rewrite bfilter_none; [done|]. intros r _. unfold in_chan.
    destruct (N.eqb_spec (mr_channel_id r) c) as [->|]; [by rewrite Hd|by rewrite andb_false_r].
  - rewrite (bfilter_ext _ (in_chan c)); [apply Hn|]. intros r. unfold in_chan.
    destruct (N.eqb_spec (mr_channel_id r) c) as [->|]; [by rewrite Hd|by rewrite andb_false_r].
Qed.

Lemma delete_statement P (f : DB → DB) : (∀ db, P db → P (f db)) →
  stmt_preserves P (λ db, Ok (f db, tt)).
Proof. intros H db db' u Hdb [= <- _]. auto. Qed.

Lemma add_task_dependency_numbered c t d : preserves numbered (add_task_dependency c t d).
Proof. apply add_task_dependency_frame. intros row. stmt_frame. Qed.
#[export] Hint Resolve insert_message_numbered add_task_dependency_numbered
  delete_agents_numbered delete_channels_numbered : cocli.
#[export] Hint Extern 4 (stmt_preserves _ (λ db, Ok (_ db, tt))) => apply delete_statement : cocli.

Ltac unfold_agent_ops :=
  unfold create_channel, update_channel_profile, get_channel, create_agent,
    create_standalone_agent, update_agent_profile, set_agent_status, set_agent_lifecycle_status,
    add_agent_to_channel, get_channel_agent, remove_agent_from_channel, delete_channel,
    ensure_fallback, move_default, ensure_direct_channel_for_agent,
    get_direct_channel_for_agent, delete_agent, insert_channel_agent_membership,
    append_message, consume_agent_inbox, default_channel_for_agent, decode_messages,
    upsert_inbox_cursor, set_working_state, get_working_state, clear_working_state.

Ltac store_frame := first [ outside_op | frame_ops | unfold_agent_ops; op_frame ].

Lemma run_store_op_numbered op : preserves numbered (run_store_op op).
Proof.
  destruct op; simpl; store_frame.
Qed.

(** *** Task dependencies *)

Lemma delete_dependencies_acyclic p :
  stmt_preserves acyclic (sql_delete task_dependencies with_dependencies p).
Proof.
  intros db db' n Hac [= <- _]. eapply acyclic_mono; [|exact Hac].
  intros c t d (row & [Hr _]%elem_of_delete_where & Hk). by exists row.
Qed.

Lemma delete_agents_acyclic dead db : acyclic db → acyclic (delete_agents dead db).
Proof. by apply acyclic_same. Qed.

Lemma delete_channels_acyclic dead db : acyclic db → acyclic (delete_channels dead db).
Proof.
  apply acyclic_mono. intros c t d (row & [Hr _]%elem_of_delete_where & Hk). by exists row.
Qed.

Lemma insert_message_acyclic i c a r t now : stmt_preserves acyclic (insert_message i c a r t now).
Proof. intros db db' row H [_ ->]%insert_message_fields. exact H. Qed.

#[export] Hint Resolve delete_dependencies_acyclic delete_agents_acyclic delete_channels_acyclic
  insert_message_acyclic add_task_dependency_acyclic : cocli.

Lemma run_store_op_acyclic op : preserves acyclic (run_store_op op).
Proof.
  destruct op; simpl; store_frame.
Qed.

Lemma empty_acyclic : acyclic empty_db.
Proof.
  assert (∀ c x y, ¬ depends empty_db c x y) as H by (intros c x y (row & Hr & _); inversion Hr).
  intros c t Hp. inversion Hp; by eapply H.
Qed.

(** ** The invariants of reachable databases *)


Lemma sort_numbered c db :
  numbered db → channel_messages c db = bfilter (in_chan c) (messages db).
Proof.
  intros Hn. unfold channel_messages. apply sort_by_sorted_id. unfold sorted_by.
  fold (in_chan c). specialize (Hn c). revert Hn.
  generalize (bfilter (in_chan c) (messages db)) as l. intros l. generalize 1%nat as m.
  induction l as [|x l IH]; intros m Hl; [constructor|].
  simpl in Hl. injection Hl as Hx Hl. constructor; [by eapply IH|].
  apply Forall_forall. intros y Hy. apply cmp_le_true. unfold seq_cmp, on_cmp.
  assert (mr_seq y ∈ map mr_seq l) as Hin by (by apply list_elem_of_fmap_2).
  rewrite Hl in Hin. apply list_elem_of_fmap in Hin as (k & Hk & Hin%elem_of_seq).
  rewrite Z.compare_le_iff. lia.
Qed.

(** C28 (invariant). The messages of a channel are numbered without gaps: in every reachable
    database, [list_messages] without faults succeeds and returns the messages of the
    channel in the order they were appended, with sequence numbers 1, 2, 3, ... *)
Theorem messages_numbered_consecutively (ops : list (Env * StoreOp)) (e : Env) (c : Uuid) :
  fault_free e →
  ∃ w' ms, list_messages c e (run_store ops) = (w', Ok ms) ∧
    map msg_id ms = map mr_id (bfilter (in_chan c) (messages (w_db (run_store ops)))) ∧
    map msg_seq ms = map Z.of_nat (seq 1 (length ms)).
Proof.
  intros Hff.
  assert (numbered (w_db (run_store ops))) as Hn.
  { apply run_store_ind; [by intros c'|apply run_store_op_numbered]. }
  assert (schema_ok (w_db (run_store ops))) as Hok.
  { apply run_store_ind; [apply schema_ok_empty|apply run_store_op_schema]. }
  set (w := run_store ops) in *. set (rows := bfilter (in_chan c) (messages (w_db w))).
  assert (∃ ms, collect_results message_try_from rows = Ok ms) as [ms Hms].
  { destruct (so_messages _ Hok) as (_ & _ & Hall). rewrite Forall_forall in Hall.
    assert (∀ r, r ∈ rows → ∃ m, message_try_from r = Ok m) as Hdec.
    { intros r [Hr _]%elem_of_bfilter. destruct (Hall r Hr) as [_ [s Hs]].
      unfold message_try_from. rewrite Hs, parse_as_str. by eexists. }
    induction rows as [|r rows IH]; [by exists []|]. simpl.
    destruct (Hdec r) as [m ->]; [set_solver|]. simpl.
    destruct IH as [ms ->]; [set_solver|]. by eexists. }
  exists (tick w), ms. split_and!.
  - unfold list_messages, decode_messages, bind. rewrite fetch_run by done.
    rewrite sort_numbered by done. unfold lift. fold rows. by rewrite Hms.
  - apply collect_results_Forall2 in Hms. induction Hms as [|r m rs ms' Hm _ IH]; simpl; [done|].
    f_equal; [|done]. unfold message_try_from, rbind in Hm. by destruct (parse (mr_role r)); simplify_eq.
  - apply collect_results_Forall2 in Hms as HF. rewrite <- (Forall2_length _ _ _ HF).
    specialize (Hn c). fold rows in Hn. rewrite <- Hn. clear -HF.
    induction HF as [|r m rs ms' Hm _ IH]; simpl; [done|]. f_equal; [|done].
    unfold message_try_from, rbind in Hm. by destruct (parse (mr_role r)); simplify_eq.
Qed.

(** A history with two messages in one channel. *)
Definition demo_history : list (Env * StoreOp) :=
  [(demo_env 100, CreateChannel "general"); (demo_env 200, CreateAgent 100 "ada" "claude" None Running);
   (demo_env 300, AppendMessage 100 None User "one");
   (demo_env 400, OnDeliveries 3 (OpAppendUser 100 "two"))].

Lemma messages_numbered_consecutively_witness :
  ∃ w' ms, list_messages 100 (demo_env 900) (run_store demo_history) = (w', Ok ms) ∧
    map msg_seq ms = [1; 2].
Proof.
  destruct (messages_numbered_consecutively demo_history (demo_env 900) 100) as (w' & ms & H1 & H2 & H3).
  { by intros n. }
  exists w', ms. split; [exact H1|]. rewrite H3.
  assert (length ms = length (map msg_id ms)) as -> by (by rewrite length_map).
  rewrite H2. vm_compute. reflexivity.
Defined.

(** Task dependencies are acyclic in every database reached by operations
    that run one after the other. *)
Theorem dependencies_acyclic (ops : list (Env * StoreOp)) : acyclic (w_db (run_store ops)).
Proof. apply run_store_ind; [apply empty_acyclic|apply run_store_op_acyclic]. Qed.

(** ** Memory documents *)

Section MemoryInvariant.
Context (show : Uuid → string) `{!UuidDisplay show}.

Lemma insert_message_memory i c a r t now :
  stmt_preserves (memory_inv show) (insert_message i c a r t now).
Proof. intros db db' row H [_ ->]%insert_message_fields. exact H. Qed.
Lemma delete_agents_memory dead db : memory_inv show db → memory_inv show (delete_agents dead db).
Proof. done. Qed.
Lemma delete_channels_memory dead db : memory_inv show db → memory_inv show (delete_channels dead db).
Proof. done. Qed.
Lemma add_task_dependency_memory c t d : preserves (memory_inv show) (add_task_dependency c t d).
Proof. apply add_task_dependency_frame. intros row. stmt_frame. Qed.
#[local] Hint Resolve insert_message_memory delete_agents_memory delete_channels_memory
  add_task_dependency_memory : cocli.

Lemma run_other_op_memory op :
  (∀ m, op ≠ OnMemory m) → preserves (memory_inv show) (run_store_op op).
Proof.
  intros Hm. destruct op; simpl; (by destruct (Hm op)) || store_frame.
Qed.

Lemma run_store_op_memory op e w :
  env_uuid_string e = show → memory_inv show (w_db w) →
  memory_inv show (w_db (run_store_op op e w).1).
Proof.
  intros He Hw. destruct op; (by apply run_memory_op_inv) || by apply run_other_op_memory.
Qed.

Lemma empty_memory_inv : memory_inv show empty_db.
Proof. split; [split; constructor|]. intros ns. by split. Qed.
End MemoryInvariant.



(** ** The skill library *)

Definition skills_described (db : DB) : Prop := library_ok (skill_tables db).

Lemma insert_message_skills i c a r t now :
  stmt_preserves skills_described (insert_message i c a r t now).
Proof. intros db db' row H [_ ->]%insert_message_fields. exact H. Qed.
Lemma delete_agents_skills dead db : skills_described db → skills_described (delete_agents dead db).
Proof.
  intros [He Hf Hi]. split; [exact He|exact Hf|].
  intros i [Hin _]%elem_of_delete_where. by apply Hi.
Qed.
Lemma delete_channels_skills dead db : skills_described db → skills_described (delete_channels dead db).
Proof. apply delete_agents_skills. Qed.
Lemma add_task_dependency_skills c t d : preserves skills_described (add_task_dependency c t d).
Proof. apply add_task_dependency_frame. intros row. stmt_frame. Qed.
#[export] Hint Resolve insert_message_skills delete_agents_skills delete_channels_skills
  add_task_dependency_skills : cocli.

Lemma run_store_op_skills op : preserves skills_inv (run_store_op op).
Proof.
  assert ((∀ s, op ≠ OnSkills s) → preserves skills_described (run_store_op op)) as Hother.
  { intros Hs. destruct op; simpl; (by destruct (Hs op)) || store_frame. }
  pose proof (run_store_op_schema op) as Hschema. intros e w [Hok Hlib].
  destruct op; try (split; [by apply Hschema|by apply Hother]). by apply run_skill_op_inv.
Qed.

(** In every reachable database each skill of the library says what it holds:
    its file count and byte total are those of its stored files, within 50 MiB; every stored
    file has its declared size, and every stored path, of files and of installs, is one that
    stays inside its directory. *)
Theorem skill_library_reachable_ok (ops : list (Env * StoreOp)) :
  library_ok (skill_tables (w_db (run_store ops))).
Proof.
  assert (skills_inv (w_db (run_store ops))) as [_ H]; [|done].
  apply run_store_ind; [|apply run_store_op_skills].
  split; [apply schema_ok_empty|]. split; simpl; intros x Hx; inversion Hx.
Qed.
