(* ===== verification/StoreGovernance.v ===== *)
(** * Governance of MCP servers and skills, in any history of the store

    What [crates/cocli-store] keeps of the two governance systems, whatever operations the
    program issues and in whatever order: the validity of MCP data up to the desired state that is
    resolved from it, how runs and imports may change, the complete history of skill plans, leases
    and runs, the exclusion of earlier holders of a lease, and what collection may take. *)
From S2P Require Import Prelude Mcp McpGovernance McpApply SkillGovernanceTypes McpRows.
From S2P Require Import StoreTypes StoreDb StoreSchema StoreAgents StoreMessages StoreTasks StoreWorkspaces.
From S2P Require Import StoreMcp StoreMcpApply StoreMcpBundle.
From S2P Require Import StoreSkillPlans StoreSkillRuns StoreSkillArtifacts Store.

(** ** Operations on other tables *)

Definition is_mcp_op (op : StoreOp) : bool :=
  match op with OnMcp _ _ | OnMcpRuns _ | OnMcpImports _ _ => true | _ => false end.
Definition is_skill_governance_op (op : StoreOp) : bool :=
  match op with OnSkillPlans _ | OnSkillRuns _ | OnSkillArtifacts _ => true | _ => false end.

Section Elsewhere.
Context (t : McpTables) (g : SkillGovernanceTables).

Definition mcp_is (db : DB) : Prop := mcp_tables db = t.
Definition skill_governance_is (db : DB) : Prop := skill_governance_tables db = g.

Lemma insert_message_mcp i c a r text now : stmt_preserves mcp_is (insert_message i c a r text now).
Proof. intros db db' row H [_ ->]%insert_message_fields. exact H. Qed.
Lemma insert_message_skill_governance i c a r text now :
  stmt_preserves skill_governance_is (insert_message i c a r text now).
Proof. intros db db' row H [_ ->]%insert_message_fields. exact H. Qed.
Lemma delete_agents_mcp dead db : mcp_is db → mcp_is (delete_agents dead db).
Proof. done. Qed.
Lemma delete_agents_skill_governance dead db :
  skill_governance_is db → skill_governance_is (delete_agents dead db).
Proof. done. Qed.
Lemma delete_channels_mcp dead db : mcp_is db → mcp_is (delete_channels dead db).
Proof. done. Qed.
Lemma delete_channels_skill_governance dead db :
  skill_governance_is db → skill_governance_is (delete_channels dead db).
Proof. done. Qed.
Lemma add_task_dependency_mcp c n d : preserves mcp_is (add_task_dependency c n d).
Proof. apply add_task_dependency_frame. intros row. stmt_frame. Qed.
Lemma add_task_dependency_skill_governance c n d : preserves skill_governance_is (add_task_dependency c n d).
Proof. apply add_task_dependency_frame. intros row. stmt_frame. Qed.
#[local] Hint Resolve insert_message_mcp insert_message_skill_governance delete_agents_mcp
  delete_agents_skill_governance delete_channels_mcp delete_channels_skill_governance
  add_task_dependency_mcp add_task_dependency_skill_governance : cocli.

Lemma other_op_mcp op : is_mcp_op op = false → preserves mcp_is (run_store_op op).
Proof. intros Hop. destruct op; try discriminate Hop; simpl; store_frame. Qed.
Lemma other_op_skill_governance op :
  is_skill_governance_op op = false → preserves skill_governance_is (run_store_op op).
Proof. intros Hop. destruct op; try discriminate Hop; simpl; store_frame. Qed.
End Elsewhere.

(** A property of well-formed databases that reads one of the two groups of tables. *)
Lemma store_op_mcp (P : DB → Prop) op :
  (∀ db db', mcp_tables db' = mcp_tables db → P db → P db') →
  (∀ i o, op = OnMcp i o → preserves (λ db, schema_ok db ∧ P db) (run_mcp_op i o)) →
  (∀ o, op = OnMcpRuns o → preserves (λ db, schema_ok db ∧ P db) (run_mcp_run_op o)) →
  (∀ i o, op = OnMcpImports i o → preserves (λ db, schema_ok db ∧ P db) (run_mcp_import_op i o)) →
  preserves (λ db, schema_ok db ∧ P db) (run_store_op op).
Proof.
  intros Hext H1 H2 H3. destruct (is_mcp_op op) eqn:Hop.
  { destruct op; try discriminate Hop; simpl; eauto. }
  intros e w [Hok HP]. split; [by apply run_store_op_schema|].
  eapply Hext; [|exact HP]. by apply (other_op_mcp (mcp_tables (w_db w)) op Hop e w).
Qed.

Lemma store_op_skill_governance (P : DB → Prop) op :
  (∀ db db', skill_governance_tables db' = skill_governance_tables db → P db → P db') →
  (∀ o, op = OnSkillPlans o → preserves (λ db, schema_ok db ∧ P db) (run_skill_plan_op o)) →
  (∀ o, op = OnSkillRuns o → preserves (λ db, schema_ok db ∧ P db) (run_skill_run_op o)) →
  (∀ o, op = OnSkillArtifacts o → preserves (λ db, schema_ok db ∧ P db) (run_skill_artifact_op o)) →
  preserves (λ db, schema_ok db ∧ P db) (run_store_op op).
Proof.
  intros Hext H1 H2 H3. destruct (is_skill_governance_op op) eqn:Hop.
  { destruct op; try discriminate Hop; simpl; eauto. }
  intros e w [Hok HP]. split; [by apply run_store_op_schema|].
  eapply Hext; [|exact HP].
  by apply (other_op_skill_governance (skill_governance_tables (w_db w)) op Hop e w).
Qed.

(** A later database of the same history. *)
Lemma run_store_later (P : DB → Prop) ops later :
  P (w_db (run_store ops)) → (∀ x, x ∈ later → preserves P (run_store_op x.2)) →
  P (w_db (run_store (ops ++ later))).
Proof.
  unfold run_store. rewrite fold_left_app. generalize (fold_left (λ w '(e, op), (run_store_op op e w).1) ops start).
  induction later as [|[e op] later IH]; intros w Hw Hop; simpl; [done|]. apply IH.
  - apply (Hop (e, op)); [set_solver|done].
  - intros x Hx. apply Hop. set_solver.
Qed.

Lemma run_store_schema ops : schema_ok (w_db (run_store ops)).
Proof. apply run_store_ind; [apply schema_ok_empty|apply run_store_op_schema]. Qed.

(** The three groups of tables of skill governance; each family of operations writes one. *)
Definition plan_group (db : DB) := (sg_plans db, sg_plan_audit db).
Definition run_group (db : DB) := (sg_locks db, sg_runs db, sg_actions db, sg_audit db).
Definition artifact_group (db : DB) :=
  (sg_artifacts db, sg_materializations db, sg_adoptions db, sg_lockfiles db, sg_references db).

Lemma plan_op_groups op x y : preserves (λ db, run_group db = x ∧ artifact_group db = y) (run_skill_plan_op op).
Proof.
  apply run_skill_plan_op_preserves; intros; try (intros db db' u Hdb E).
  - unfold insert_skill_profile in E. by inv_stmt.
  - by apply sql_update_ok in E as [-> _].
  - unfold delete_skill_profile_row in E. by injection E as <- _.
  - unfold insert_skill_binding in E. by inv_stmt.
  - by apply sql_delete_ok in E as [-> _].
  - unfold insert_snapshot in E. by inv_stmt.
  - unfold insert_skill_plan in E. by inv_stmt.
  - apply preserves_transaction. unfold transition_body.
    apply preserves_bind; [apply preserves_readonly; auto with cocli|]. preserves_tac.
    + intros db db' u Hdb [-> _]%sql_update_ok. exact Hdb.
    + intros db db' u Hdb ->%insert_plan_audit_spec. exact Hdb.
Qed.

Lemma run_op_groups op x y : preserves (λ db, plan_group db = x ∧ artifact_group db = y) (run_skill_run_op op).
Proof.
  apply run_skill_run_op_statements; intros; intros db db' u Hdb E.
  - unfold insert_apply_audit_row in E. by inv_stmt.
  - by apply insert_lock_spec in E as [_ ->].
  - by apply sql_update_ok in E as [-> _].
  - by apply insert_apply_run_spec in E as [_ ->].
  - by apply sql_update_ok in E as [-> _].
  - by apply insert_apply_action_spec in E as [_ ->].
  - by apply sql_update_ok in E as [-> _].
Qed.

Lemma artifact_op_groups op x y : preserves (λ db, plan_group db = x ∧ run_group db = y) (run_skill_artifact_op op).
Proof.
  apply run_skill_artifact_op_statements; intros; intros db db' u Hdb E.
  - unfold insert_artifact in E. by inv_stmt.
  - unfold delete_artifact_row in E. by injection E as <- _.
  - unfold insert_materialization in E. by inv_stmt.
  - unfold update_materialization in E. destruct (negb _ || _); simpl in E; [|done]. by injection E as <- _.
  - unfold delete_materialization_row in E. by injection E as <- _.
  - by apply sql_update_ok in E as [-> _].
  - unfold insert_adoption in E. by inv_stmt.
  - unfold insert_lockfile in E. by inv_stmt.
  - by apply sql_update_ok in E as [-> _].
  - by apply sql_delete_ok in E as [-> _].
  - unfold insert_reference in E. by inv_stmt.
Qed.

(** A property that reads one group is kept by the operations on the others. *)
Lemma kept_by_groups {A G G'} (P : DB → Prop) (g : DB → G) (g' : DB → G') (m : M A) :
  (∀ x y, preserves (λ db, g db = x ∧ g' db = y) m) → (∀ db db', g db' = g db → P db → P db') →
  preserves schema_ok m → preserves (λ db, schema_ok db ∧ P db) m.
Proof.
  intros Hm Hext Hs. apply preserves_and; [done|]. intros e w HP. eapply Hext; [|exact HP].
  by apply (Hm (g (w_db w)) (g' (w_db w)) e w).
Qed.

Lemma kept_by_groups' {A G G'} (P : DB → Prop) (g : DB → G) (g' : DB → G') (m : M A) :
  (∀ x y, preserves (λ db, g db = x ∧ g' db = y) m) → (∀ db db', g' db' = g' db → P db → P db') →
  preserves schema_ok m → preserves (λ db, schema_ok db ∧ P db) m.
Proof.
  intros Hm. apply (kept_by_groups P g' g). intros x y e w [H1 H2]. by destruct (Hm y x e w).
Qed.

Lemma store_op_plan_history op : preserves plans_inv (run_store_op op).
Proof.
  assert (∀ db db', plan_group db' = plan_group db → plan_history_ok db → plan_history_ok db') as Hext.
  { intros db db' [= E1 E2]. unfold plan_history_ok. by rewrite E1, E2. }
  apply store_op_skill_governance; intros.
  - apply (Hext db); [|done]. unfold plan_group, sg_plans, sg_plan_audit. congruence.
  - apply run_skill_plan_op_history.
  - eapply kept_by_groups; [apply run_op_groups|exact Hext|apply run_skill_run_op_schema].
  - eapply kept_by_groups; [apply artifact_op_groups|exact Hext|apply run_skill_artifact_op_schema].
Qed.

Lemma store_op_audited op : preserves runs_inv (run_store_op op).
Proof.
  assert (∀ db db', run_group db' = run_group db → audited db → audited db') as Hext.
  { intros db db' [= E1 E2 E3 E4] [H1 H2 H3]. split; congruence. }
  apply store_op_skill_governance; intros.
  - apply (Hext db); [|done]. unfold run_group, sg_locks, sg_runs, sg_actions, sg_audit. congruence.
  - eapply kept_by_groups; [apply plan_op_groups|exact Hext|apply run_skill_plan_op_schema].
  - apply run_skill_run_op_audited.
  - eapply kept_by_groups'; [apply artifact_op_groups|exact Hext|apply run_skill_artifact_op_schema].
Qed.

Lemma store_op_locks db0 op : preserves (λ db, schema_ok db ∧ locks_evolve db0 db) (run_store_op op).
Proof.
  assert (∀ db db', run_group db' = run_group db → locks_evolve db0 db → locks_evolve db0 db') as Hext.
  { intros db db' [= E1 E2 E3 E4]. unfold locks_evolve. by rewrite E1. }
  apply store_op_skill_governance; intros.
  - apply (Hext db); [|done]. unfold run_group, sg_locks, sg_runs, sg_actions, sg_audit. congruence.
  - eapply kept_by_groups; [apply plan_op_groups|exact Hext|apply run_skill_plan_op_schema].
  - apply preserves_and; [apply run_skill_run_op_schema|apply run_skill_run_op_locks].
  - eapply kept_by_groups'; [apply artifact_op_groups|exact Hext|apply run_skill_artifact_op_schema].
Qed.

Lemma store_op_materializations (P : DB → Prop) op :
  (∀ db db', artifact_group db' = artifact_group db → P db → P db') →
  (∀ o, op = OnSkillArtifacts o → preserves (λ db, schema_ok db ∧ P db) (run_skill_artifact_op o)) →
  preserves (λ db, schema_ok db ∧ P db) (run_store_op op).
Proof.
  intros Hext Hop. apply store_op_skill_governance; intros; auto.
  - apply (Hext db); [|done]. unfold artifact_group, sg_artifacts, sg_materializations, sg_adoptions,
      sg_lockfiles, sg_references. congruence.
  - eapply kept_by_groups'; [apply plan_op_groups|exact Hext|apply run_skill_plan_op_schema].
  - eapply kept_by_groups'; [apply run_op_groups|exact Hext|apply run_skill_run_op_schema].
Qed.

(** *** The MCP tables *)

Lemma mcp_op_groups i op x y :
  preserves (λ db, db_mcp_runs db = x ∧ db_mcp_imports db = y) (run_mcp_op i op).
Proof.
  apply run_mcp_op_preserves; intros; intros db db' u Hdb E.
  - unfold insert_mcp_profile in E. by inv_stmt.
  - by apply sql_update_ok in E as [-> _].
  - unfold delete_mcp_profile_row in E. by injection E as <- _.
  - unfold insert_mcp_binding in E. by inv_stmt.
  - by apply sql_delete_ok in E as [-> _].
  - unfold upsert_mcp_plan in E. by inv_stmt.
  - unfold insert_mcp_decision in E. by inv_stmt.
Qed.

Definition desired_group (db : DB) := (db_mcp_profiles db, db_mcp_bindings db, db_mcp_plans db, db_mcp_decisions db).
Lemma mcp_run_op_groups op x y :
  preserves (λ db, desired_group db = x ∧ db_mcp_imports db = y) (run_mcp_run_op op).
Proof.
  apply run_mcp_run_op_preserves; intros; intros db db' u Hdb E.
  - unfold insert_mcp_run in E. by inv_stmt.
  - by apply sql_update_ok in E as [-> _].
Qed.

Lemma store_op_mcp_data op : preserves (λ db, schema_ok db ∧ mcp_data_ok db) (run_store_op op).
Proof.
  assert (∀ db db', desired_group db' = desired_group db → mcp_data_ok db → mcp_data_ok db') as Hext.
  { intros db db' [= E1 E2 E3 E4] [H1 H2 H3]. split; congruence. }
  apply store_op_mcp; intros.
  - apply (Hext db); [|done]. unfold desired_group, db_mcp_profiles, db_mcp_bindings, db_mcp_plans, db_mcp_decisions.
    congruence.
  - apply preserves_and; [apply run_mcp_op_schema|apply run_mcp_op_data].
  - eapply kept_by_groups; [apply mcp_run_op_groups|exact Hext|apply run_mcp_run_op_schema].
  - apply preserves_and; [apply run_mcp_import_op_schema|apply run_mcp_import_op_data].
Qed.

Lemma store_op_runs_evolve db0 op : preserves (λ db, schema_ok db ∧ runs_evolve db0 db) (run_store_op op).
Proof.
  assert (∀ db db', db_mcp_runs db' = db_mcp_runs db → runs_evolve db0 db → runs_evolve db0 db') as Hext.
  { intros db db' E. unfold runs_evolve. by rewrite E. }
  apply store_op_mcp; intros.
  - apply (Hext db); [|done]. unfold db_mcp_runs. congruence.
  - eapply kept_by_groups; [apply mcp_op_groups|exact Hext|apply run_mcp_op_schema].
  - intros e w Hw. by apply (run_mcp_run_op_evolved db0).
  - apply preserves_and; [apply run_mcp_import_op_schema|]. intros e w Hw.
    eapply Hext; [|exact Hw].
    pose proof (run_mcp_import_op_authority i o (authority (w_db w)) e w eq_refl) as Ha. by injection Ha.
Qed.

Lemma store_op_imports_evolve db0 op : preserves (λ db, schema_ok db ∧ imports_evolve db0 db) (run_store_op op).
Proof.
  assert (∀ db db', db_mcp_imports db' = db_mcp_imports db → imports_evolve db0 db → imports_evolve db0 db') as Hext.
  { intros db db' E. unfold imports_evolve. by rewrite E. }
  apply store_op_mcp; intros.
  - apply (Hext db); [|done]. unfold db_mcp_imports. congruence.
  - eapply kept_by_groups'; [apply mcp_op_groups|exact Hext|apply run_mcp_op_schema].
  - eapply kept_by_groups'; [apply mcp_run_op_groups|exact Hext|apply run_mcp_run_op_schema].
  - apply preserves_and; [apply run_mcp_import_op_schema|apply run_mcp_import_op_evolves].
Qed.

(** ** MCP governance in any history *)

Lemma valid_row_profile show rfc r :
  profile_row_valid r → validate_mcp_profile (profile_from_row show rfc r) = Ok tt.
Proof. done. Qed.

(** C19 (safety). Nothing that looks like a credential gets from the store into a desired state: in
    every history of the store, the profiles that are read resolve, with any bindings and for any
    target, to servers whose identity, tools and definition carry no such text, whose secrets are
    approved opaque references and whose tools are not both allowed and denied. *)
Theorem desired_state_reachable_clean ops e w' profiles bindings target state server :
  list_mcp_profiles e (run_store ops) = (w', Ok profiles) →
  resolve_mcp_desired_state profiles bindings target = Some state →
  server ∈ st_servers state →
  server_clean (es_desired server) ∧ ∃ p, p ∈ profiles ∧ pf_id p ∈ es_source_profile_ids server.
Proof.
  intros Hl. apply effective_servers_clean.
  assert (schema_ok (w_db (run_store ops)) ∧ mcp_data_ok (w_db (run_store ops))) as [_ [Hv _ _]].
  { apply (run_store_ind (λ db, schema_ok db ∧ mcp_data_ok db)); [|apply store_op_mcp_data].
    split; [apply schema_ok_empty|]. split; constructor. }
  unfold list_mcp_profiles in Hl. inv_run.
  subst. intros p (r & -> & Hr)%list_elem_of_fmap. rewrite elem_of_sort_by in Hr.
  apply valid_row_profile. rewrite list.Forall_forall in Hv. by apply Hv.
Qed.


(** An approval is executed by one run: once a run exists for a plan and an approval,
    whatever happened since, asking for a run of the same approval yields that run, with what has
    been recorded of it, and changes nothing. *)
Theorem approval_executed_once ops later r input e w' run :
  r ∈ db_mcp_runs (w_db (run_store ops)) → mcp_run_key r = (nmr_plan_id input, nmr_approval_id input) →
  create_mcp_apply_run input e (run_store (ops ++ later)) = (w', Ok run) →
  run_evolves r (mar_row run) ∧ w_db w' = w_db (run_store (ops ++ later)).
Proof.
  intros Hr Hk Hc.
  assert (schema_ok (w_db (run_store (ops ++ later))) ∧
          runs_evolve (w_db (run_store ops)) (w_db (run_store (ops ++ later)))) as [Hok He].
  { apply (run_store_later (λ x, schema_ok x ∧ runs_evolve (w_db (run_store ops)) x));
      [split; [apply run_store_schema|done]|]. intros x _. apply store_op_runs_evolve. }
  destruct (He r Hr) as (r' & Hr' & Hev).
  destruct (create_run_once input e _ w' run Hok Hc) as (_ & _ & Hu).
  destruct (Hu r' Hr') as [Hdb Hrow]; [|by rewrite Hrow].
  rewrite <- Hk. destruct Hev as [Hid _ _ _ _]. unfold run_identity in Hid. unfold mcp_run_key. congruence.
Qed.

(** ** Skill governance in any history *)

(** The history of a plan is complete: in every history of the store, the audit
    rows of a plan lead, in order and one version at a time, through transitions the state machine
    allows, from the draft at version 1 to its present status and version; so its version counts
    them. *)
Theorem plan_history_complete ops p :
  p ∈ sg_plans (w_db (run_store ops)) →
  let audits := audits_of (sgp_id p) (sg_plan_audit (w_db (run_store ops))) in
  plan_path "draft" 1 audits (sgp_status p) (sgp_version p) ∧
  sgp_version p = 1 + Z.of_nat (length audits).
Proof.
  intros Hp audits. assert (plans_inv (w_db (run_store ops))) as [_ [Hh _]].
  { apply run_store_ind; [|apply store_op_plan_history]. split; [apply schema_ok_empty|].
    split; [|done]. intros q Hq. inversion Hq. }
  specialize (Hh p Hp). split; [exact Hh|]. by eapply plan_path_length.
Qed.

(** Every change of a lock, of an apply run and of an action is audited: in every
    history of the store, the version of each of them is the number of its audit rows. *)
Theorem apply_history_audited ops : audited (w_db (run_store ops)).
Proof.
  assert (runs_inv (w_db (run_store ops))) as [_ H]; [|exact H].
  apply run_store_ind; [|apply store_op_audited]. split; [apply schema_ok_empty|].
  split; (split; [intros r Hr; inversion Hr|done]).
Qed.

Lemma run_store_snoc ops e op : run_store (ops ++ [(e, op)]) = (run_store_op op e (run_store ops)).1.
Proof. unfold run_store. by rewrite fold_left_app. Qed.

(** C17 (safety). A lease excludes, and a lease that was taken over is dead: in any history of the
    store, a caller that acquires the lease of a scope finds every unreleased lease of the scope
    expired and becomes its one unreleased holder; and whoever held the scope before, with a
    version it had seen, can never again renew, attach a run to or release its lease, whatever
    happens later: each attempt fails and changes nothing. *)
Theorem lease_takeover_fences ops e s i o p r n t w' lease x v later :
  acquire_skill_governance_lock s i o p r n t e (run_store ops) = (w', Ok lease) →
  x ∈ sg_locks (w_db (run_store ops)) → holds_scope (as_str s) i x = true → v ≤ slk_version x →
  let w2 := run_store ((ops ++ [(e, OnSkillRuns (AcquireLock s i o p r n t))]) ++ later) in
  slk_lease_expires_at x ≤ env_now e (w_ctr (run_store ops)) ∧
  (∃ y, y ∈ sg_locks (w_db w') ∧ slk_id y = slk_id (sla_lock lease) ∧ slk_owner y = o ∧ slk_lease_nonce y = n ∧
    ∀ z, z ∈ sg_locks (w_db w') → holds_scope (as_str s) i z = true → z = y) ∧
  (∀ nonce e2,
    (∀ until, ∃ w3 err, renew_skill_governance_lock (slk_id x) v nonce until e2 w2 = (w3, Err err) ∧ w_db w3 = w_db w2) ∧
    (∀ run until, ∃ w3 err,
       attach_skill_governance_lock_run (slk_id x) v nonce run until e2 w2 = (w3, Err err) ∧ w_db w3 = w_db w2) ∧
    ∃ w3 err, release_skill_governance_lock (slk_id x) v nonce e2 w2 = (w3, Err err) ∧ w_db w3 = w_db w2).
Proof.
  intros Ha Hx Hh Hv w2. pose proof (run_store_schema ops) as Hok.
  assert (run_store (ops ++ [(e, OnSkillRuns (AcquireLock s i o p r n t))]) = w') as Hw'.
  { rewrite run_store_snoc. simpl. unfold bind. by rewrite Ha. }
  pose proof (run_store_schema (ops ++ [(e, OnSkillRuns (AcquireLock s i o p r n t))])) as Hok'. rewrite Hw' in Hok'.
  destruct (acquire_spec _ _ _ _ _ _ _ _ _ _ _ Hok Ha) as (Hexp & y & Hy & Hhy & Hid & _ & Ho & Hn & _ & Hnew).
  split; [by apply Hexp|]. split.
  { exists y. split_and!; try done. intros z Hz Hhz. by eapply active_lock_unique. }
  assert (schema_ok (w_db w2) ∧ locks_evolve (w_db w') (w_db w2)) as [Hok2 Hev].
  { unfold w2. apply (run_store_later (λ db, schema_ok db ∧ locks_evolve (w_db w') db)).
    - rewrite Hw'. by split.
    - intros z _. apply store_op_locks. }
  assert (slk_id y = slk_id x) as Hyx.
  { destruct (acquire_keeps_holder _ _ _ _ _ _ _ _ _ _ _ x Hok Ha Hx Hh) as (z & Hz & Hzi & Hzh).
    rewrite <- Hzi. f_equal. by apply (active_lock_unique (w_db w') (as_str s) i). }
  intros nonce e2. apply lease_stale_ops. intros z Hz Hzi.
  destruct (Hev y Hy) as (y2 & Hy2 & Hyi2 & Hyv2).
  assert (z = y2) as -> by (eapply (NoDup_key_eq slk_id); [exact (go_locks _ (so_skill_governance _ Hok2))|done..|congruence]).
  specialize (Hnew x Hx (eq_sym Hyx)). lia.
Qed.

(** C18 (safety). Collection never takes what the program does not own: in any history of the store,
    a materialization that belongs to someone else or to nobody stays where it is, with its owner,
    until it is itself adopted: no deletion, update, cascade or other operation removes it. *)
Theorem foreign_materialization_kept ops later m ow :
  m ∈ sg_materializations (w_db (run_store ops)) → smt_ownership m = as_str ow →
  ow = Foreign ∨ ow = Unmanaged →
  (∀ x v receipt, x ∈ later → x.2 ≠ OnSkillArtifacts (AdoptMaterialization (smt_id m) v receipt)) →
  ∃ m', m' ∈ sg_materializations (w_db (run_store (ops ++ later))) ∧ smt_id m' = smt_id m ∧
    target_key m' = target_key m ∧ smt_ownership m' = smt_ownership m.
Proof.
  intros Hm Ho How Hlater. rewrite Ho.
  enough (spared (smt_id m) (target_key m) ow (w_db (run_store (ops ++ later)))) as [_ H] by exact H.
  apply run_store_later.
  - split; [apply run_store_schema|]. by exists m.
  - intros x Hx. apply store_op_materializations.
    + intros db db' [= E1 E2 E3 E4 E5]. by rewrite E2.
    + intros o E. apply run_skill_artifact_op_spares; [done|]. intros v r ->. by eapply Hlater.
Qed.

(** In every history of the store, a materialization carries a date of adoption
    exactly when its ownership is adopted. *)
Theorem adoption_dates_reachable ops m :
  m ∈ sg_materializations (w_db (run_store ops)) →
  (smt_ownership m = as_str Adopted ↔ is_Some (smt_adopted_at m)).
Proof.
  intros Hm.
  assert (schema_ok (w_db (run_store ops)) ∧ adoptions_dated (w_db (run_store ops))) as [_ H].
  { apply (run_store_ind (λ db, schema_ok db ∧ adoptions_dated db)).
    - split; [apply schema_ok_empty|constructor].
    - intros op. apply store_op_materializations.
      + intros db db' [= E1 E2 E3 E4 E5]. unfold adoptions_dated. by rewrite E2.
      + intros o _. apply preserves_and; [apply run_skill_artifact_op_schema|apply run_skill_artifact_op_dated]. }
  unfold adoptions_dated in H. rewrite list.Forall_forall in H. by apply H.
Qed.

(** ** Concrete histories *)
Module GovernanceDemo.

(** A profile, a plan with its approval and its run. *)
Definition mcp_history : list (Env * StoreOp) :=
  [(demo_env 100, OnMcp "m1" (CreateProfile (mkNewProfile "prod-ops" None [DesiredDemo.github true])));
   (demo_env 200, OnMcp "m1" (SavePlan demo_mcp_plan));
   (demo_env 300, OnMcp "m1" (RecordDecision (mkNewDecision "plan-1" DecisionApproved "plan-hash"
                    "observed" "config" "ada" None (Some 1000))));
   (demo_env 400, OnMcpRuns (CreateRun (demo_new_run 306)))].
(** The profile is deleted, the run recovers. *)
Definition mcp_later : list (Env * StoreOp) :=
  [(demo_env 500, OnMcp "m1" (DeleteProfile 100 1));
   (demo_env 600, OnMcpRuns (ManualRecovery 410 "ada" "disk full"))].

(** A plan that was approved and went stale; a lease that was taken; a foreign materialization. *)
Definition skill_history : list (Env * StoreOp) :=
  [(demo_env 100, OnSkillPlans (CreateSkillPlan ScopeMachine "m1" JNull "observed" "desired"));
   (demo_env 200, OnSkillRuns (AcquireLock ScopeMachine "m1" "first" None None "n1" 10));
   (demo_env 300, OnSkillArtifacts (CreateArtifact (ArtifactDemo.new_artifact "a")));
   (demo_env 400, OnSkillArtifacts (CreateMaterialization (ArtifactDemo.new_materialization 315 "/x" Foreign)));
   (demo_env 500, OnSkillPlans (ApproveSkillPlan 100 1));
   (demo_env 600, OnSkillPlans (MarkSkillPlanStale 100 2))].
(** Attempts to delete the materialization and its artifact, and a renewal by the first holder. *)
Definition skill_later : list (Env * StoreOp) :=
  [(demo_env 700, OnSkillArtifacts (DeleteMaterialization 421 1 None));
   (demo_env 800, OnSkillArtifacts (DeleteArtifact 315 1));
   (demo_env 900, OnSkillRuns (RenewLock 207 1 "n1" 99))].
End GovernanceDemo.

Lemma desired_state_reachable_clean_witness :
  match list_mcp_profiles (demo_env 900) (run_store GovernanceDemo.mcp_history) with
  | (_, Ok profiles) =>
      match resolve_mcp_desired_state profiles [DesiredDemo.bind "b1" "0010011" Machine "m1"] DesiredDemo.target with
      | Some state => ∃ server, server ∈ st_servers state ∧ server_clean (es_desired server)
      | None => False
      end
  | _ => False
  end.
Proof.
  destruct (list_mcp_profiles (demo_env 900) (run_store GovernanceDemo.mcp_history)) as [w' [profiles|x]] eqn:E;
    [|by vm_compute in E].
  destruct (resolve_mcp_desired_state profiles _ _) as [state|] eqn:Er;
    [|vm_compute in E; injection E as _ <-; by vm_compute in Er].
  assert (∃ server, server ∈ st_servers state) as [server Hs].
  { assert (∃ s l, st_servers state = s :: l) as (s & l & ->); [|exists s; apply list_elem_of_here].
    vm_compute in E. injection E as _ <-. vm_compute in Er. injection Er as <-. by eexists _, _. }
  exists server. split; [exact Hs|].
  by apply (desired_state_reachable_clean _ _ _ _ _ _ _ _ E Er Hs).
Defined.

Lemma approval_executed_once_witness :
  match create_mcp_apply_run (demo_new_run 306) (demo_env 900)
          (run_store (GovernanceDemo.mcp_history ++ GovernanceDemo.mcp_later)) with
  | (_, Ok run) => mrr_id (mar_row run) = 410%N ∧ mar_status run = ApplyRecoveryRequired
  | _ => False
  end.
Proof.
  destruct (create_mcp_apply_run _ _ _) as [w' [run|x]] eqn:E; [|by vm_compute in E].
  destruct (db_mcp_runs (w_db (run_store GovernanceDemo.mcp_history))) as [|r l] eqn:Er; [by vm_compute in Er|].
  destruct (approval_executed_once GovernanceDemo.mcp_history GovernanceDemo.mcp_later r (demo_new_run 306)
    (demo_env 900) w' run) as [[Hid _ _ _ _] _].
  - rewrite Er. apply list_elem_of_here.
  - vm_compute in Er. by injection Er as <- _.
  - exact E.
  - split; [|vm_compute in E; by injection E as _ <-].
    assert (mrr_id (mar_row run) = mrr_id r) as -> by (unfold run_identity in Hid; congruence).
    vm_compute in Er. by injection Er as <- _.
Defined.

Lemma plan_history_complete_witness :
  ∃ p, p ∈ sg_plans (w_db (run_store GovernanceDemo.skill_history)) ∧ sgp_status p = "stale" ∧
    sgp_version p = 1 + Z.of_nat (length (audits_of (sgp_id p)
      (sg_plan_audit (w_db (run_store GovernanceDemo.skill_history))))).
Proof.
  destruct (sg_plans (w_db (run_store GovernanceDemo.skill_history))) as [|p l] eqn:Ep; [by vm_compute in Ep|].
  exists p. split; [apply list_elem_of_here|]. split; [vm_compute in Ep; by injection Ep as <- _|].
  apply (plan_history_complete GovernanceDemo.skill_history p). rewrite Ep. apply list_elem_of_here.
Defined.

Lemma lease_takeover_fences_witness :
  let e := demo_env 1000 in
  let w2 := run_store ((GovernanceDemo.skill_history ++ [(e, OnSkillRuns
              (AcquireLock ScopeMachine "m1" "second" None None "n2" 500))]) ++ GovernanceDemo.skill_later) in
  ∃ w3 err, release_skill_governance_lock 207 1 "n1" (demo_env 2000) w2 = (w3, Err err) ∧ w_db w3 = w_db w2.
Proof.
  intros e w2.
  destruct (acquire_skill_governance_lock ScopeMachine "m1" "second" None None "n2" 500 e
    (run_store GovernanceDemo.skill_history)) as [w' [lease|x]] eqn:E; [|by vm_compute in E].
  destruct (sg_locks (w_db (run_store GovernanceDemo.skill_history))) as [|x l] eqn:El; [by vm_compute in El|].
  assert (slk_id x = 207%N ∧ holds_scope (as_str ScopeMachine) "m1" x = true ∧ 1 ≤ slk_version x) as (Hi & Hh & Hv).
  { vm_compute in El. injection El as <- _. clear. split_and!; [reflexivity|vm_compute; reflexivity|vm_compute; discriminate]. }
  destruct (lease_takeover_fences GovernanceDemo.skill_history e ScopeMachine "m1" "second" None None "n2" 500 w'
    lease x 1 GovernanceDemo.skill_later E) as (_ & _ & H); [rewrite El; apply list_elem_of_here|exact Hh|exact Hv|].
  rewrite Hi in H. exact (proj2 (proj2 (H "n1" (demo_env 2000)))).
Defined.

Lemma foreign_materialization_kept_witness :
  ∃ m, m ∈ sg_materializations (w_db (run_store (GovernanceDemo.skill_history ++ GovernanceDemo.skill_later))) ∧
    smt_id m = 421%N ∧ smt_ownership m = "foreign".
Proof.
  destruct (sg_materializations (w_db (run_store GovernanceDemo.skill_history))) as [|m l] eqn:Em; [by vm_compute in Em|].
  assert (smt_id m = 421%N ∧ smt_ownership m = as_str Foreign) as [Hi Ho].
  { vm_compute in Em. injection Em as <- _. clear. split; vm_compute; reflexivity. }
  destruct (foreign_materialization_kept GovernanceDemo.skill_history GovernanceDemo.skill_later m Foreign)
    as (m' & Hm' & Hi' & _ & Ho').
  - rewrite Em. apply list_elem_of_here.
  - exact Ho.
  - by left.
  - intros y v receipt Hy E. unfold GovernanceDemo.skill_later in Hy.
    repeat (apply elem_of_cons in Hy as [->|Hy]; [discriminate E|]). inversion Hy.
  - exists m'. split; [exact Hm'|]. rewrite Hi', Ho', Hi, Ho. by split.
Defined.

Lemma adoption_dates_reachable_witness :
  ∃ m, m ∈ sg_materializations (w_db (run_store GovernanceDemo.skill_history)) ∧
    (smt_ownership m = as_str Adopted ↔ is_Some (smt_adopted_at m)).
Proof.
  destruct (sg_materializations (w_db (run_store GovernanceDemo.skill_history))) as [|m l] eqn:Em; [by vm_compute in Em|].
  exists m. split; [apply list_elem_of_here|]. apply (adoption_dates_reachable GovernanceDemo.skill_history). rewrite Em. apply list_elem_of_here.
Defined.
