(* ===== verification/Coordinator.v ===== *)
(** * The delivery coordinator

    [crates/cocli-api/src/lib.rs], [DeliveryCoordinator]: it reserves due deliveries, hands
    each to the runtime, and settles the outcome in the store: a reply completes the
    delivery, a failure defers it with an exponential backoff, an attempt whose effect is
    unknown exhausts it. The runtime is the trait [RuntimeService]; what it does with an
    attempt is a parameter. *)
From S2P Require Import Prelude StoreTypes StoreDb StoreSchema StoreAgents.
From S2P Require Import StoreMessages StoreDeliveries.

(** ** Configuration and backoff *)

(** Durations in nanoseconds. *)
Abbreviation Duration := Z.
Definition from_secs (s : Z) : Duration := s * 10 ^ 9.

(** [Duration::MAX]: [u64::MAX] seconds and 999,999,999 nanoseconds. *)
Definition DURATION_MAX : Duration := u64_max * 10 ^ 9 + 999999999.

(** [Duration::saturating_mul]. *)
Definition duration_saturating_mul (d : Duration) (n : Z) : Duration := Z.min DURATION_MAX (d * n).

(** [chrono::Duration::from_std]: at most [i64::MAX] milliseconds. *)
Definition chrono_from_std (d : Duration) : option Duration :=
  if d <=? i64_max * 10 ^ 6 then Some d else None.

Record DeliveryConfig := mkDeliveryConfig {
  batch_size : Z;
  max_attempts : Z;
  poll_interval : Duration;
  attempt_timeout : Duration;
  base_backoff : Duration;
  max_backoff : Duration;
}.

Definition default_config : DeliveryConfig :=
  {| batch_size := 32; max_attempts := 10; poll_interval := from_secs 3;
     attempt_timeout := from_secs (3 * 60); base_backoff := from_secs 2;
     max_backoff := from_secs (5 * 60) |}.

(** [1_u32 << exponent] panics (or wraps) from 32 on: the exponent is at most 8. *)
Definition backoff_exponent (attempts : Z) : Z := as_u32 (Z.min (i64_saturating_sub attempts 1) 8).

Definition backoff (config : DeliveryConfig) (attempts : Z) : Duration :=
  Z.min (duration_saturating_mul (base_backoff config) (Z.shiftl 1 (backoff_exponent attempts)))
    (max_backoff config).

(** ** Attempts *)

Inductive RuntimeError : Type :=
  | RuntimeDelivery (text : string)
  | RuntimeUnsupported (text : string)
  | RuntimeBusy (text : string)
  | RuntimeNotFound (text : string).

(** Its [Display]. *)
Definition runtime_error_text (e : RuntimeError) : string :=
  match e with
  | RuntimeDelivery t | RuntimeUnsupported t | RuntimeBusy t | RuntimeNotFound t => t
  end.

(** What became of the task of one attempt: [reply] returned in time; the timeout struck and
    [stop] returned; or the task panicked or was cancelled. *)
Inductive AttemptEvent : Type :=
  | Replied (r : result string RuntimeError)
  | TimedOut (stop : result unit RuntimeError)
  | TaskFailed (error : string).

Inductive DeliveryAttemptError : Type :=
  | Retryable (e : RuntimeError)
  | Indeterminate (text : string).

Definition attempt_result (ev : AttemptEvent) : result string DeliveryAttemptError :=
  match ev with
  | Replied (Ok content) => Ok content
  | Replied (Err e) => Err (Retryable e)
  | TimedOut (Ok _) => Err (Retryable (RuntimeDelivery
      "durable delivery attempt timed out; runtime was stopped before retry"))
  | TimedOut (Err stop_error) => Err (Indeterminate
      ("durable delivery attempt timed out and runtime stop failed; refusing automatic retry: "
         +:+ runtime_error_text stop_error))
  | TaskFailed error => Err (Retryable (RuntimeDelivery
      ("durable delivery runtime task failed: " +:+ error)))
  end.

(** The runtime's behaviour on an attempt of a delivery. *)
Class RuntimeService := attempt : Delivery → Agent → Message → AttemptEvent.

Section Coordinator.
Context (config : DeliveryConfig) {runtime : RuntimeService}.

(** First loop of [process]: deliveries whose agent or message is gone are skipped. The
    attempts run concurrently; their results are settled afterwards in batch order. *)
Fixpoint spawn_all (deliveries : list Delivery)
    : M (list (Delivery * result string DeliveryAttemptError)) :=
  match deliveries with
  | [] => ret []
  | d :: rest =>
      let! agent := get_agent (dl_agent_id d) in
      match agent with
      | None => spawn_all rest
      | Some agent =>
          let! message := get_message (dl_message_id d) in
          match message with
          | None => spawn_all rest
          | Some message =>
              let! completed := spawn_all rest in
              ret ((d, attempt_result (attempt d agent message)) :: completed)
          end
      end
  end.

(** The body of the last loop, with the reply it pushes. *)
Definition settle (d : Delivery) (r : result string DeliveryAttemptError) : M (option Message) :=
  match r with
  | Ok content => let! reply := complete_delivery d content in ret (Some reply)
  | Err (Retryable error) =>
      let! now := utc_now in
      let next_attempt_at := now + default (from_secs (5 * 60))
                                     (chrono_from_std (backoff config (dl_attempts d))) in
      defer_delivery (dl_id d) (runtime_error_text error) next_attempt_at (max_attempts config) ;;
      ret None
  | Err (Indeterminate error) =>
      let! now := utc_now in
      defer_delivery (dl_id d) error now (dl_attempts d) ;;
      ret None
  end.

Fixpoint settle_all (completed : list (Delivery * result string DeliveryAttemptError))
    : M (list Message) :=
  match completed with
  | [] => ret []
  | (d, r) :: rest =>
      let! reply := settle d r in
      let! replies := settle_all rest in
      ret (match reply with Some m => m :: replies | None => replies end)
  end.

Definition process (deliveries : list Delivery) : M (list Message) :=
  let! completed := spawn_all deliveries in
  settle_all completed.

Definition dispatch_due : M unit :=
  let! now := utc_now in
  let! reserved := reserve_due_deliveries (batch_size config) (max_attempts config) now in
  process reserved ;;
  ret tt.

(** The reservation loop of [dispatch_message]. *)
Fixpoint reserve_queued (now : Time) (queued : list Delivery) : M (list Delivery) :=
  match queued with
  | [] => ret []
  | d :: rest =>
      let! o := reserve_delivery (dl_id d) (max_attempts config) now in
      let! reserved := reserve_queued now rest in
      ret (match o with Some d' => d' :: reserved | None => reserved end)
  end.

Definition dispatch_message (message_id : Uuid) : M (list Message) :=
  let! queued := list_message_deliveries message_id in
  let! now := utc_now in
  let! reserved := reserve_queued now queued in
  process reserved.
End Coordinator.

(** ** Backoff *)

(** The retry delay grows and is capped: for the attempt numbers a reserved
    delivery can have (1 and up) the shift never leaves the range of [u32], the delay is
    the base doubled with every attempt until the ninth, never more than the configured
    maximum, never smaller for a later attempt, and the default configuration always
    yields a delay that [chrono] accepts. *)
Theorem backoff_grows_and_is_capped (config : DeliveryConfig) (k k' : Z) :
  1 ≤ k → k ≤ k' → k' ≤ i64_max → 0 ≤ base_backoff config → base_backoff config ≤ DURATION_MAX →
  0 ≤ backoff_exponent k ≤ 8 ∧
  backoff config k = Z.min (Z.min DURATION_MAX (base_backoff config * 2 ^ Z.min (k - 1) 8))
                       (max_backoff config) ∧
  backoff config k ≤ backoff config k' ≤ max_backoff config ∧
  chrono_from_std (backoff default_config k) = Some (backoff default_config k).
Proof.
  intros H1 H2 H3 H4 H5.
  assert (∀ a, 1 ≤ a → a ≤ i64_max → backoff_exponent a = Z.min (a - 1) 8) as Hexp.
  { intros a Ha Ha'. unfold backoff_exponent, as_u32. rewrite Z.mod_small; ilia. }
  assert (∀ c a, 1 ≤ a → a ≤ i64_max →
    backoff c a = Z.min (Z.min DURATION_MAX (base_backoff c * 2 ^ Z.min (a - 1) 8)) (max_backoff c))
    as Hb.
  { intros c a Ha Ha'. unfold backoff, duration_saturating_mul. rewrite Hexp by lia.
    rewrite Z.shiftl_mul_pow2, Z.mul_1_l by lia. done. }
  rewrite !Hb, Hexp by lia. split_and!; [lia|lia|reflexivity| |lia|].
  - assert (2 ^ Z.min (k - 1) 8 ≤ 2 ^ Z.min (k' - 1) 8) by (apply Z.pow_le_mono_r; lia). nia.
  - unfold chrono_from_std. rewrite (proj2 (Z.leb_le _ _)); [reflexivity|].
    etransitivity; [apply Z.le_min_r|vm_compute; discriminate].
Qed.

Lemma backoff_grows_and_is_capped_witness :
  backoff default_config 3 = from_secs 8 ∧ backoff default_config 3 ≤ backoff default_config 40.
Proof.
  destruct (backoff_grows_and_is_capped default_config 3 40) as (_ & _ & [H _] & _);
    [lia|lia|ilia|vm_compute; discriminate|vm_compute; discriminate|].
  split; [vm_compute; reflexivity|exact H].
Defined.

(** ** Settling a batch *)

Lemma get_agent_run e w a :
  fault_free e → schema_ok (w_db w) → a ∈ agent_ids (w_db w) →
  ∃ agent, get_agent a e w = (tick w, Ok (Some agent)) ∧ ag_id agent = a.
Proof.
  intros Hff Hok (r & -> & Hr)%list_elem_of_fmap. unfold get_agent, bind, fetch_optional.
  rewrite fetch_run by done.
  assert (r ∈ bfilter (λ x, ar_id x =? ar_id r)%N (agents (w_db w))) as Hin.
  { apply elem_of_bfilter. by rewrite N.eqb_refl. }
  destruct (bfilter _ (agents (w_db w))) as [|x l] eqn:E; [set_solver|].
  assert (x ∈ agents (w_db w) ∧ (ar_id x =? ar_id r)%N = true) as [Hx Hid%N.eqb_eq].
  { apply (elem_of_bfilter (λ x, ar_id x =? ar_id r)%N). rewrite E. set_solver. }
  destruct (so_agents _ Hok) as [_ Hall]. rewrite Forall_forall in Hall.
  destruct (Hall x Hx) as (_ & [s Hs] & [l' Hl]).
  eexists. cbn [head transpose]. unfold lift, agent_try_from.
  rewrite Hs, Hl, !parse_as_str. split; [reflexivity|exact Hid].
Qed.

Lemma get_message_run e w i :
  fault_free e → schema_ok (w_db w) → i ∈ message_ids (w_db w) →
  ∃ m, get_message i e w = (tick w, Ok (Some m)) ∧ msg_id m = i.
Proof.
  intros Hff Hok (r & -> & Hr)%list_elem_of_fmap. unfold get_message, bind, fetch_optional.
  rewrite fetch_run by done.
  assert (r ∈ bfilter (λ x, mr_id x =? mr_id r)%N (messages (w_db w))) as Hin.
  { apply elem_of_bfilter. by rewrite N.eqb_refl. }
  destruct (bfilter _ (messages (w_db w))) as [|x l] eqn:E; [set_solver|].
  assert (x ∈ messages (w_db w) ∧ (mr_id x =? mr_id r)%N = true) as [Hx Hid%N.eqb_eq].
  { apply (elem_of_bfilter (λ x, mr_id x =? mr_id r)%N). rewrite E. set_solver. }
  destruct (so_messages _ Hok) as (_ & _ & Hall). rewrite Forall_forall in Hall.
  destruct (Hall x Hx) as (_ & [s Hs]).
  eexists. cbn [head transpose]. unfold lift, message_try_from. rewrite Hs, parse_as_str.
  split; [reflexivity|exact Hid].
Qed.

(** The worker's copy of a delivery agrees with its row, which is in flight and attempted. *)
Definition held (db : DB) (d : Delivery) : Prop :=
  ∃ r, delivery_at db (dl_id d) = Some r ∧ dr_state r = "in_flight" ∧
       dr_attempts r = dl_attempts d ∧ 1 ≤ dl_attempts d ∧ dr_agent_id r = dl_agent_id d ∧
       dr_message_id r = dl_message_id d ∧ dr_channel_id r = dl_channel_id d.

(** Message identifiers drawn from now on are new. *)
Definition fresh_messages (e : Env) (w : World) : Prop :=
  (∀ i j, env_uuid e i = env_uuid e j → i = j) ∧
  ∀ n, (w_ctr w ≤ n)%nat → (env_uuid e n ∉ message_ids (w_db w)).

(** The abstract state the outcome of an attempt leads to. *)
Definition outcome (config : DeliveryConfig) (d : Delivery)
    (r : result string DeliveryAttemptError) : option (DeliveryState * Z) :=
  match r with
  | Ok _ => None
  | Err (Retryable _) =>
      Some (if Z.max (max_attempts config) 1 <=? dl_attempts d then Exhausted else Pending,
            dl_attempts d)
  | Err (Indeterminate _) => Some (Exhausted, dl_attempts d)
  end.

Lemma held_refs db d : schema_ok db → held db d →
  dl_agent_id d ∈ agent_ids db ∧ dl_channel_id d ∈ channel_ids db ∧ dl_message_id d ∈ message_ids db.
Proof.
  intros Hok (r & Hr & _ & _ & _ & <- & <- & <-). apply delivery_at_id in Hr as [_ Hr].
  destruct (so_deliveries _ Hok) as (_ & _ & Hall). rewrite Forall_forall in Hall.
  by destruct (Hall r Hr) as (? & ? & ? & _).
Qed.

Section Settle.
Context (config : DeliveryConfig) {runtime : RuntimeService} (e : Env) (Hff : fault_free e).

(** The effect of settling one delivery: only its row changes, to the outcome. *)
Record settled (d : Delivery) (v : option (DeliveryState * Z)) (w w' : World) : Prop := {
  st_schema : schema_ok (w_db w');
  st_fresh : fresh_messages e w';
  st_view : dview (w_db w') (dl_id d) = v;
  st_others id : id ≠ dl_id d → delivery_at (w_db w') id = delivery_at (w_db w) id;
}.

Lemma defer_run d x t n w :
  schema_ok (w_db w) → held (w_db w) d → fresh_messages e w →
  ∃ w' o, defer_delivery (dl_id d) x t n e w = (w', Ok o) ∧
    settled d (Some (if Z.max n 1 <=? dl_attempts d then Exhausted else Pending, dl_attempts d)) w w'.
Proof.
  intros Hok (r & Hr & Hst & Hatt & _) [Hinj Hfresh].
  pose proof (defer_schema (dl_id d) x t n e w Hok) as Hok'.
  set (w1 := mkWorld (with_deliveries (update_where (λ r, (dr_id r =? dl_id d)%N &&
    str_eqb (dr_state r) "in_flight") (defer_row (Z.max n 1) t x (env_now e (w_ctr w)))) (w_db w))
    (S (S (w_ctr w)))).
  assert (defer_delivery (dl_id d) x t n e w = get_delivery (dl_id d) e w1) as Hrun.
  { unfold defer_delivery, bind, utc_now. by rewrite execute_run. }
  rewrite Hrun in *.
  assert (∀ id, delivery_at (w_db w1) id = (λ r, if (dr_id r =? dl_id d)%N &&
    str_eqb (dr_state r) "in_flight" then defer_row (Z.max n 1) t x (env_now e (w_ctr w)) r else r)
    <$> delivery_at (w_db w) id) as Hat.
  { intros id. apply (delivery_at_update (λ r, (dr_id r =? dl_id d)%N &&
      str_eqb (dr_state r) "in_flight")). done. }
  assert (delivery_at (w_db w1) (dl_id d) =
    Some (defer_row (Z.max n 1) t x (env_now e (w_ctr w)) r)) as Hme.
  { rewrite Hat, Hr. apply delivery_at_id in Hr as [Hid _]. simpl.
    by rewrite Hid, N.eqb_refl, Hst. }
  pose proof (get_delivery_readonly (dl_id d) e w1) as Hro.
  assert (∃ w' o, get_delivery (dl_id d) e w1 = (w', Ok o) ∧ w_db w' = w_db w1 ∧
    w_ctr w' = S (w_ctr w1)) as (w' & o & Hget & Hdb & Hctr).
  { unfold get_delivery, bind, fetch_optional. rewrite fetch_run by done.
    fold (delivery_at (w_db w1) (dl_id d)). rewrite Hme. cbn [transpose]. unfold lift, delivery_try_from.
    cbn [dr_state defer_row]. destruct (_ <=? _); eexists (tick w1), _; done. }
  rewrite Hget in *. exists w', o. split; [done|]. simpl in Hok'. split.
  - done.
  - split; [done|]. intros k Hk. rewrite Hdb. apply Hfresh. rewrite Hctr in Hk. simpl in Hk. lia.
  - unfold dview. rewrite Hdb, Hme. cbn [dr_state defer_row dr_attempts]. rewrite Hatt.
    by destruct (_ <=? _).
  - intros id Hid. rewrite Hdb, Hat. destruct (delivery_at (w_db w) id) as [r'|] eqn:E; [|done].
    apply delivery_at_id in E as [<- _]. simpl.
    by rewrite (proj2 (N.eqb_neq _ _) Hid).
Qed.

Lemma upsert_cursor_total a s now db :
  a ∈ agent_ids db → ∃ db', upsert_cursor a s now db = Ok (db', tt) ∧
    delivery_queue db' = delivery_queue db ∧ messages db' = messages db ∧
    channels db' = channels db ∧ agents db' = agents db.
Proof.
  intros Ha%has_agent_true. unfold upsert_cursor.
  destruct (exists_row _ _); [by eexists|]. rewrite Ha. by eexists.
Qed.

Lemma complete_run d t w :
  schema_ok (w_db w) → held (w_db w) d → fresh_messages e w →
  ∃ w' m, complete_delivery d t e w = (w', Ok m) ∧ settled d None w w'.
Proof.
  intros Hok Hheld [Hinj Hfresh]. destruct (held_refs _ _ Hok Hheld) as (Ha & Hc & _).
  destruct Hheld as (r & Hr & Hst & _).
  pose proof (complete_schema d t e w Hok) as Hok'.
  pose proof (so_deliveries _ Hok) as (Hnd & _ & _).
  set (p := λ r, (dr_id r =? dl_id d)%N && str_eqb (dr_state r) "in_flight").
  assert (count_where p (delivery_queue (w_db w)) = 1) as Hcount.
  { apply (count_by_id (λ r, str_eqb (dr_state r) "in_flight") _ _ r); [done|done|by rewrite Hst]. }
  destruct (upsert_cursor_total (dl_agent_id d) (dl_seq d) (env_now e (S (S (w_ctr w))))
    (with_deliveries (delete_where p) (w_db w)) Ha) as (db1 & Hcur & Hq & Hm & Hch & Hag).
  assert (has_channel db1 (dl_channel_id d) = true) as Hc1.
  { apply has_channel_true. unfold channel_ids. by rewrite Hch. }
  assert (has_agent db1 (dl_agent_id d) = true) as Ha1.
  { apply has_agent_true. unfold agent_ids. by rewrite Hag. }
  assert (has_message db1 (env_uuid e (S (S (S (S (w_ctr w)))))) = false) as Hm1.
  { apply not_true_iff_false. rewrite has_message_true. unfold message_ids. rewrite Hm.
    apply Hfresh. lia. }
  assert (∃ m db', complete_delivery d t e w =
      (mkWorld db' (S (S (S (S (S (S (S (S (w_ctr w)))))))) ), Ok m) ∧
    delivery_queue db' = delete_where p (delivery_queue (w_db w)) ∧
    message_ids db' = (message_ids (w_db w) ++ [env_uuid e (S (S (S (S (w_ctr w)))))])%list)
    as (m & db' & Hrun & Hq' & Hm').
  { unfold complete_delivery, bind at 1. rewrite transaction_run by done.
    unfold bind at 1. rewrite execute_run by done. unfold sql_delete. fold p. cbn [w_db tick].
    rewrite Hcount. simpl. unfold bind at 1, utc_now. unfold bind at 1, upsert_inbox_cursor.
    rewrite execute_run by done. simpl. fold p. rewrite Hcur. unfold bind, new_v4. simpl.
    rewrite execute_run by done. simpl. unfold insert_message. rewrite Hm1, Hc1. simpl.
    rewrite Ha1. simpl. eexists _, _. split; [reflexivity|]. simpl. split; [done|].
    unfold message_ids. simpl. by rewrite map_app, Hm. }
  rewrite Hrun in *. eexists _, m. split; [reflexivity|].
  assert (∀ id, delivery_at db' id = delivery_at (with_deliveries (delete_where p) (w_db w)) id) as Hat.
  { intros id. unfold delivery_at. by rewrite Hq'. }
  split; [done| | |]; simpl in *.
  - split; [done|]. intros k Hk Hin. simpl in *. rewrite Hm' in Hin.
    apply elem_of_app in Hin as [Hin|Hin%list_elem_of_singleton].
    + eapply (Hfresh k); [lia|exact Hin].
    + apply Hinj in Hin. lia.
  - unfold dview. rewrite Hat, delivery_at_delete, Hr by done. apply delivery_at_id in Hr as [Hid _].
    unfold p. by rewrite Hid, Hst, N.eqb_refl.
  - intros id Hid. rewrite Hat, delivery_at_delete by done.
    destruct (delivery_at (w_db w) id) as [r'|] eqn:Er; [|done].
    apply delivery_at_id in Er as [<- _]. unfold p. by rewrite (proj2 (N.eqb_neq _ _) Hid).
Qed.

Lemma settle_run d r w :
  schema_ok (w_db w) → held (w_db w) d → fresh_messages e w →
  ∃ w' o, settle config d r e w = (w', Ok o) ∧ settled d (outcome config d r) w w'.
Proof.
  intros Hok Hheld Hfresh.
  assert (schema_ok (w_db (tick w)) ∧ held (w_db (tick w)) d ∧ fresh_messages e (tick w))
    as (Hok1 & Hheld1 & Hfresh1).
  { destruct Hfresh as [Hinj Hf]. split_and!; [done|done|]. split; [done|].
    intros n Hn. apply Hf. simpl in Hn. lia. }
  destruct r as [content|[error|error]]; simpl.
  - destruct (complete_run d content w Hok Hheld Hfresh) as (w' & m & Hrun & Hset).
    exists w', (Some m). split; [|done]. unfold bind. by rewrite Hrun.
  - unfold bind at 1, utc_now.
    match goal with |- context [defer_delivery _ ?x ?t ?n] =>
      destruct (defer_run d x t n (tick w) Hok1 Hheld1 Hfresh1) as (w' & o & Hrun & Hset) end.
    exists w', None. split; [unfold bind; by rewrite Hrun|]. by destruct Hset.
  - unfold bind at 1, utc_now.
    match goal with |- context [defer_delivery _ ?x ?t ?n] =>
      destruct (defer_run d x t n (tick w) Hok1 Hheld1 Hfresh1) as (w' & o & Hrun & Hset) end.
    exists w', None. split; [unfold bind; by rewrite Hrun|].
    destruct Hset as [? ? Hv ?]. split; [done|done| |done]. rewrite Hv.
    destruct Hheld as (r & _ & _ & _ & Hatt & _).
    destruct (Z.leb_spec (Z.max (dl_attempts d) 1) (dl_attempts d)); [done|lia].
Qed.

Lemma settle_all_run completed w :
  schema_ok (w_db w) → fresh_messages e w → NoDup (map (λ c, dl_id c.1) completed) →
  (∀ d r, (d, r) ∈ completed → held (w_db w) d) →
  ∃ w' replies, settle_all config completed e w = (w', Ok replies) ∧
    (∀ d r, (d, r) ∈ completed → dview (w_db w') (dl_id d) = outcome config d r) ∧
    (∀ id, id ∉ map (λ c, dl_id c.1) completed → delivery_at (w_db w') id = delivery_at (w_db w) id).
Proof.
  revert w. induction completed as [|[d r] rest IH]; intros w Hok Hfresh Hnd Hheld; simpl.
  { eexists w, []. split; [done|]. set_solver. }
  apply NoDup_cons in Hnd as [Hd Hnd].
  destruct (settle_run d r w Hok) as (w1 & o & Hrun & [Hok1 Hfresh1 Hview Hoth]);
    [apply (Hheld d r); set_solver|done|].
  destruct (IH w1) as (w2 & replies & Hrest & Hviews & Hothers); [done|done|done| |].
  { intros d' r' Hin. destruct (Hheld d' r') as (row & Hrow & Hk); [set_solver|].
    exists row. rewrite Hoth; [done|]. intros Heq. apply Hd. simpl. rewrite <- Heq.
    apply list_elem_of_fmap. by exists (d', r'). }
  exists w2, (match o with Some m => m :: replies | None => replies end).
  split_and!.
  - unfold bind. by rewrite Hrun, Hrest.
  - intros d' r' [[= -> ->]|Hin]%elem_of_cons; [|by apply Hviews].
    rewrite <- Hview. unfold dview. by rewrite (Hothers (dl_id d) Hd).
  - intros id Hid. rewrite Hothers, Hoth; set_solver.
Qed.

(** An attempt of [d]: what the runtime makes of its message for its agent. *)
Definition attempted (d : Delivery) (r : result string DeliveryAttemptError) : Prop :=
  ∃ agent message, ag_id agent = dl_agent_id d ∧ msg_id message = dl_message_id d ∧
    r = attempt_result (attempt d agent message).

(** Every delivery of the batch is attempted: its agent and message exist. *)
Lemma spawn_all_run ds w :
  schema_ok (w_db w) → (∀ d, d ∈ ds → held (w_db w) d) →
  ∃ w' completed, spawn_all ds e w = (w', Ok completed) ∧ w_db w' = w_db w ∧
    (w_ctr w ≤ w_ctr w')%nat ∧ map fst completed = ds ∧
    Forall (λ c, attempted c.1 c.2) completed.
Proof.
  revert w. induction ds as [|d ds IH]; intros w Hok Hheld; simpl.
  { eexists w, []. split_and!; done || lia || constructor. }
  destruct (held_refs (w_db w) d Hok) as (Ha & _ & Hm); [apply Hheld; set_solver|].
  destruct (get_agent_run e w _ Hff Hok Ha) as (agent & Hagent & Hid).
  destruct (get_message_run e (tick w) _ Hff Hok Hm) as (message & Hmessage & Hmid).
  destruct (IH (tick (tick w))) as (w' & completed & Hrun & Hdb & Hctr & Hfst & Hatt).
  { done. } { intros d' Hd'. apply Hheld. set_solver. }
  eexists w', (_ :: completed). unfold bind at 1. rewrite Hagent. unfold bind at 1. rewrite Hmessage.
  unfold bind. rewrite Hrun. split_and!; [reflexivity|done| |simpl; by rewrite Hfst|].
  - simpl in Hctr. lia.
  - constructor; [by exists agent, message|exact Hatt].
Qed.
End Settle.

(** C22 (liveness). The coordinator settles every delivery it was handed: without store
    faults, processing a batch of in-flight deliveries returns, and then each of them is
    where its own attempt puts it: gone (the runtime replied), pending again (a retryable
    failure with budget left) or exhausted (budget spent, or an attempt whose effect is
    unknown); none is left in flight, and no other delivery changed. *)
Theorem process_settles_batch (config : DeliveryConfig) (runtime : RuntimeService) (e : Env)
    (w : World) (ds : list Delivery) :
  fault_free e → schema_ok (w_db w) → fresh_messages e w → NoDup (map dl_id ds) →
  (∀ d, d ∈ ds → held (w_db w) d) →
  ∃ w' replies, process config ds e w = (w', Ok replies) ∧
    (∀ d, d ∈ ds → ∃ r, attempted d r ∧ dview (w_db w') (dl_id d) = outcome config d r ∧
                        ∀ k, dview (w_db w') (dl_id d) ≠ Some (InFlight, k)) ∧
    (∀ id, id ∉ map dl_id ds → delivery_at (w_db w') id = delivery_at (w_db w) id).
Proof.
  intros Hff Hok [Hinj Hfresh] Hnd Hheld.
  destruct (spawn_all_run e Hff ds w Hok Hheld) as (w1 & completed & Hspawn & Hdb & Hctr & Hfst & Hatt).
  assert (map (λ c, dl_id c.1) completed = map dl_id ds) as Hids
    by (by rewrite <- Hfst, map_map).
  destruct (settle_all_run config e Hff completed w1) as (w2 & replies & Hsettle & Hviews & Hothers).
  - by rewrite Hdb.
  - split; [done|]. intros n Hn. rewrite Hdb. apply Hfresh. lia.
  - by rewrite Hids.
  - intros d r Hin. rewrite Hdb. apply Hheld. rewrite <- Hfst. apply list_elem_of_fmap.
    by exists (d, r).
  - exists w2, replies. split_and!.
    + unfold process, bind. by rewrite Hspawn.
    + intros d Hd. rewrite <- Hfst in Hd. apply list_elem_of_fmap in Hd as ([d' r] & -> & Hin).
      rewrite Forall_forall in Hatt. exists r. cbn [fst]. split; [exact (Hatt (d', r) Hin)|].
      rewrite (Hviews d' r Hin). split; [done|]. intros k.
      destruct r as [|[|]]; simpl; [done| |done]. by destruct (_ <=? _).
    + intros id Hid. rewrite Hothers by (by rewrite Hids). by rewrite Hdb.
Qed.

(** A runtime that answers every message. *)
Definition echo_runtime : RuntimeService := λ _ _ m, Replied (Ok ("re: " +:+ msg_content m)).

Definition held_world : World :=
  (reserve_due_deliveries 5 3 1000 (demo_env 2000) queued_world).1.
Definition held_delivery : Delivery :=
  match delivery_queue (w_db held_world) with
  | r :: _ => match delivery_try_from r with Ok d => d | Err _ => in_flight_delivery end
  | [] => in_flight_delivery
  end.

Lemma process_settles_batch_witness :
  ∃ w' replies, process (runtime := echo_runtime) default_config [held_delivery] (demo_env 7000)
                  held_world = (w', Ok replies) ∧
    (∀ k, dview (w_db w') (dl_id held_delivery) ≠ Some (InFlight, k)).
Proof.
  destruct (process_settles_batch default_config echo_runtime (demo_env 7000) held_world
    [held_delivery]) as (w' & replies & Hrun & Hviews & _).
  - by intros n.
  - apply reserve_due_schema, queued_schema.
  - split; [simpl; lia|]. intros n _ Hin.
    assert (message_ids (w_db held_world) = [1011%N]) as Hids by (vm_compute; reflexivity).
    rewrite Hids in Hin. apply list_elem_of_singleton in Hin. simpl in Hin. lia.
  - vm_compute. constructor; [|constructor]. intros H. inversion H.
  - intros d Hd. inversion Hd as [|? ? ? Hy]; subst; [|inversion Hy].
    eexists. split; [vm_compute; reflexivity|]. split_and!; vm_compute; (reflexivity || discriminate).
  - exists w', replies. split; [exact Hrun|]. destruct (Hviews held_delivery) as (r & _ & _ & H); [constructor|].
    exact H.
Defined.

(** Two user messages queued for the same agent, both reserved; the failing environment
    loses the connection at the settlement of the first. *)
Definition two_held_world : World :=
  (reserve_due_deliveries 5 3 99999 (demo_env 3000)
    (append_user_message_with_deliveries 100 "again" (demo_env 2500) queued_world).1).1.
Definition two_held : list Delivery :=
  match collect_results delivery_try_from (delivery_queue (w_db two_held_world)) with
  | Ok ds => ds
  | Err _ => []
  end.
Definition failing_env : Env :=
  let lost := (w_ctr two_held_world + 4)%nat in
  mkEnv (env_now (demo_env 0)) (env_uuid (demo_env 8000)) (λ n, (lost =? n)%nat)
    (env_uuid_string (demo_env 0)) (env_is_dir (demo_env 0)) (env_is_file (demo_env 0))
    (env_to_json (demo_env 0)) (env_from_json (demo_env 0)) (env_uuid_simple (demo_env 0))
    (env_date (demo_env 0)) (env_sum_f64 (demo_env 0)) (env_rfc3339 (demo_env 0))
    (env_parse_uuid (demo_env 0)) (env_sha256 (demo_env 0)).

(** One store failure strands the rest of a batch: when the settlement of a
    delivery fails, [process] returns at once, and the deliveries behind it stay in flight
    although their attempts are over and their replies were computed; no reservation hands
    them out again. *)
Theorem settle_failure_strands_batch :
  ∃ d1 d2 w',
    two_held = [d1; d2] ∧
    process (runtime := echo_runtime) default_config two_held failing_env two_held_world
      = (w', Err (Sqlx IoFault)) ∧
    dview (w_db w') (dl_id d1) = Some (InFlight, 1) ∧
    dview (w_db w') (dl_id d2) = Some (InFlight, 1) ∧
    (reserve_due_deliveries 100 3 999999999 (demo_env 9000) w').2 = Ok [].
Proof.
  do 3 eexists. split_and!; try (vm_compute; reflexivity).
Qed.
