(* ===== verification/Api.v ===== *)
(** * Requests: errors and the handler monad

    [crates/cocli-api/src/lib.rs], what every HTTP handler shares: the error it answers with, the
    mapping of store and runtime errors to it, and the state a handler acts on, which is the
    store and the calls it makes to the runtime; and a logic for what holds whenever a handler
    calls the runtime. *)
From S2P Require Import Prelude StoreTypes StoreDb StoreSchema Coordinator.

Inductive StatusCode : Type :=
  | BAD_REQUEST | UNAUTHORIZED | FORBIDDEN | NOT_FOUND | CONFLICT | UNPROCESSABLE_ENTITY
  | INTERNAL_SERVER_ERROR | BAD_GATEWAY.

#[export] Instance StatusCode_eq_dec : EqDecision StatusCode.
Proof. solve_decision. Defined.

(** What an error is answered with: a [message], given by what it is the text of, or the [body] of
    [ApiError::json]. *)
Inductive ErrorText : Type :=
  | Text (message : string)
  | Body (body : Json)
  | StoreText (error : StoreError)
  | RuntimeText (error : RuntimeError).

Record ApiError := mkApiError { ae_status : StatusCode; ae_message : ErrorText }.

Definition bad_request (message : string) : ApiError := mkApiError BAD_REQUEST (Text message).
Definition not_found (message : string) : ApiError := mkApiError NOT_FOUND (Text message).
Definition conflict (message : string) : ApiError := mkApiError CONFLICT (Text message).
Definition api_json (status : StatusCode) (body : Json) : ApiError := mkApiError status (Body body).

(** [impl From<StoreError> for ApiError]: the status of the errors that are answered as such
    ([McpProfileBindingNotFound], which no operation of the store returns, is left out). *)
Definition store_error_status (error : StoreError) : option StatusCode :=
  match error with
  | TaskNotFound _ => Some NOT_FOUND
  | TaskAlreadyClaimed _ | TaskUnmetDependencies _ | InvalidTaskTransition _ _ | TaskDependencyCycle =>
      Some CONFLICT
  | TaskDependencySelf => Some BAD_REQUEST
  | InvalidMemoryType _ | InvalidMemoryTopic _ | InvalidMemoryDescription _ | MemoryMoveSameNamespace =>
      Some BAD_REQUEST
  | MemoryTopicTooLarge _ _ | MemoryNamespaceFull _ _ | MemoryIndexFull _ _ => Some UNPROCESSABLE_ENTITY
  | SkillLibraryNotFound _ | SkillInstallNotFound _ => Some NOT_FOUND
  | WorkspaceNotFound _ | WorkspaceBindingNotFound _ => Some NOT_FOUND
  | InvalidWorkspacePortableLocator _ _ => Some BAD_REQUEST
  | McpProfileNotFound _ | McpPlanNotFound _ | McpApplyRunNotFound _ | McpBundleImportNotFound _ =>
      Some NOT_FOUND
  | McpProfileVersionConflict _ _ _ | McpProfileBindingVersionConflict _ _ _ | McpBundleImportConflict _ =>
      Some CONFLICT
  | InvalidMcpProfile _ | InvalidMcpBindingTarget _ | InvalidMcpPlanDecision _ | InvalidMcpApplyRun _
  | InvalidMcpBundleImport _ => Some BAD_REQUEST
  | SkillNameConflict _ | SkillAlreadyInstalled _ _ => Some CONFLICT
  | SkillGovernanceNotFound _ _ => Some NOT_FOUND
  | SkillGovernanceVersionConflict _ _ _ _ | SkillGovernanceTransitionConflict _ _ _
  | SkillGovernanceLockHeld _ _ _ _ | SkillGovernanceIdempotencyConflict _ _ => Some CONFLICT
  | InvalidSkillName _ | InvalidSkillFilePath _ | InvalidSkillFileSize _ _ _ => Some BAD_REQUEST
  | SkillLibraryTooLarge _ _ => Some UNPROCESSABLE_ENTITY
  | _ => None
  end.

Definition from_store_error (error : StoreError) : ApiError :=
  match store_error_status error with
  | Some status => mkApiError status (StoreText error)
  | None => mkApiError INTERNAL_SERVER_ERROR (Text "local store request failed")
  end.

Definition from_runtime_error (error : RuntimeError) : ApiError :=
  mkApiError match error with
             | RuntimeDelivery _ => BAD_GATEWAY
             | RuntimeUnsupported _ => UNPROCESSABLE_ENTITY
             | RuntimeBusy _ => CONFLICT
             | RuntimeNotFound _ => NOT_FOUND
             end (RuntimeText error).

(** ** Handlers *)

(** A handler acts on the store and on the runtime, whose calls are recorded, each with the
    database it is made on. *)
Section Handler.
Context {Call : Type}.

Record ApiState := mkApiState { as_world : World; as_calls : list (DB * Call) }.

Definition as_db (s : ApiState) : DB := w_db (as_world s).

Definition H (A : Type) : Type := Env → ApiState → ApiState * result A ApiError.

Definition hret {A} (a : A) : H A := λ _ s, (s, Ok a).
Definition hthrow {A} (x : ApiError) : H A := λ _ s, (s, Err x).
Definition hbind {A B} (m : H A) (k : A → H B) : H B := λ e s,
  let '(s', r) := m e s in match r with Ok a => k a e s' | Err x => (s', Err x) end.

(** [state.store.operation(..).await?]. *)
Definition on_store {A} (m : M A) : H A := λ e s,
  let '(w, r) := m e (as_world s) in
  (mkApiState w (as_calls s), match r with Ok a => Ok a | Err x => Err (from_store_error x) end).

(** A call to the runtime, which answers with what it does as its [n]th call. *)
Definition call {A} (c : Call) (answer : nat → A) : H A := λ _ s,
  (mkApiState (as_world s) (as_calls s ++ [(as_db s, c)]), Ok (answer (length (as_calls s)))).

(** [.ok_or_else(..)?] and [?] on a runtime result. *)
Definition hsome {A} (x : ApiError) (o : option A) : H A :=
  match o with Some a => hret a | None => hthrow x end.
Definition from_runtime {A} (r : result A RuntimeError) : H A :=
  match r with Ok a => hret a | Err x => hthrow (from_runtime_error x) end.
End Handler.
Arguments ApiState : clear implicits.
Arguments H : clear implicits.

Declare Scope api_scope.
Delimit Scope api_scope with api.
Notation "'do!' x := m 'in' k" := (hbind m (λ x, k))
  (at level 10, x name, m at level 100, k at level 200) : api_scope.
Notation "m ;!; k" := (hbind m (λ _, k)) (at level 100, k at level 200, right associativity) : api_scope.

(** ** What holds at a call *)

Section HandlerFacts.
Context {Call : Type}.
Implicit Types s : ApiState Call.

Lemma hbind_ok {A B} (m : H Call A) (k : A → H Call B) e s s' b :
  hbind m k e s = (s', Ok b) ↔ ∃ s1 a, m e s = (s1, Ok a) ∧ k a e s1 = (s', Ok b).
Proof.
  unfold hbind. destruct (m e s) as [s1 [a|x]]; split.
  - intros Hk. by exists s1, a.
  - by intros (? & ? & [= <- <-] & ?).
  - done.
  - by intros (? & ? & ? & ?).
Qed.

Lemma on_store_ok {A} (m : M A) e s s' a :
  on_store m e s = (s', Ok a) ↔ ∃ w, m e (as_world s) = (w, Ok a) ∧ s' = mkApiState w (as_calls s).
Proof.
  unfold on_store. destruct (m e (as_world s)) as [w [b|x]]; naive_solver.
Qed.

(** The calls that were made between two states. *)
Definition new_calls s s' : list (DB * Call) := drop (length (as_calls s)) (as_calls s').

(** Run from [s], every call of the handler, with the database it is made on, satisfies [C], and
    the handler ends in a state that satisfies [Q] with its answer. *)
Definition wp {A} (C : DB → Call → Prop) (m : H Call A) (e : Env) s
    (Q : result A ApiError → ApiState Call → Prop) : Prop :=
  (∃ new, as_calls (m e s).1 = (as_calls s ++ new)%list ∧ Forall (λ x, C x.1 x.2) new) ∧
  Q (m e s).2 (m e s).1.

Context (C : DB → Call → Prop) (e : Env).

Lemma wp_calls {A} (m : H Call A) s Q :
  wp C m e s Q → Forall (λ x, C x.1 x.2) (new_calls s (m e s).1) ∧ Q (m e s).2 (m e s).1.
Proof.
  intros [(new & Hn & HC) HQ]. split; [|done]. unfold new_calls. by rewrite Hn, drop_app_length.
Qed.

Lemma wp_mono {A} (m : H Call A) s (Q Q' : result A ApiError → ApiState Call → Prop) :
  wp C m e s Q → (∀ r s', Q r s' → Q' r s') → wp C m e s Q'.
Proof. intros [Hc HQ] Hm. split; auto. Qed.

Lemma wp_ret {A} (a : A) s (Q : result A ApiError → ApiState Call → Prop) :
  Q (Ok a) s → wp C (hret a) e s Q.
Proof. intros HQ. split; [|done]. exists []. by rewrite app_nil_r. Qed.
Lemma wp_throw {A} x s (Q : result A ApiError → ApiState Call → Prop) :
  Q (Err x) s → wp C (hthrow x) e s Q.
Proof. intros HQ. split; [|done]. exists []. by rewrite app_nil_r. Qed.

Lemma wp_bind {A B} (m : H Call A) (k : A → H Call B) s (Q : result B ApiError → ApiState Call → Prop) :
  wp C m e s (λ r s', match r with Ok a => wp C (k a) e s' Q | Err x => Q (Err x) s' end) →
  wp C (hbind m k) e s Q.
Proof.
  intros [(new & Hn & HC) HQ]. unfold wp, hbind. destruct (m e s) as [s1 [a|x]]; simpl in *; [|by eauto].
  destruct HQ as [(new' & Hn' & HC') HQ]. split; [|done]. exists (new ++ new')%list.
  rewrite Hn', Hn, app_assoc. split; [done|]. by apply Forall_app.
Qed.

(** A store operation: what it leaves and answers. *)
Lemma wp_store {A} (m : M A) s (Q : result A ApiError → ApiState Call → Prop) :
  (∀ w a, m e (as_world s) = (w, Ok a) → Q (Ok a) (mkApiState w (as_calls s))) →
  (∀ w x, m e (as_world s) = (w, Err x) → Q (Err (from_store_error x)) (mkApiState w (as_calls s))) →
  wp C (on_store m) e s Q.
Proof.
  intros Hok Herr. unfold wp, on_store. destruct (m e (as_world s)) as [w [a|x]]; simpl;
    (split; [exists []; by rewrite app_nil_r|auto]).
Qed.

Lemma wp_store_readonly {A} (m : M A) s (Q : result A ApiError → ApiState Call → Prop) :
  readonly m →
  (∀ w a, w_db w = as_db s → m e (as_world s) = (w, Ok a) → Q (Ok a) (mkApiState w (as_calls s))) →
  (∀ x s', as_db s' = as_db s → Q (Err x) s') →
  wp C (on_store m) e s Q.
Proof.
  intros Hm Hok Herr. specialize (Hm e (as_world s)). apply wp_store; intros w x E; rewrite E in Hm; auto.
Qed.

Lemma wp_call {A} c (answer : nat → A) s (Q : result A ApiError → ApiState Call → Prop) :
  C (as_db s) c → (∀ a s', as_world s' = as_world s → Q (Ok a) s') → wp C (call c answer) e s Q.
Proof.
  intros Hc HQ. split; [|by apply HQ]. exists [(as_db s, c)]. split; [done|]. by repeat constructor.
Qed.

Lemma wp_hsome {A} x (o : option A) s (Q : result A ApiError → ApiState Call → Prop) :
  (∀ a, o = Some a → Q (Ok a) s) → Q (Err x) s → wp C (hsome x o) e s Q.
Proof. intros Hs Hn. destruct o; [by apply wp_ret, Hs|by apply wp_throw]. Qed.

Lemma wp_from_runtime {A} (r : result A RuntimeError) s (Q : result A ApiError → ApiState Call → Prop) :
  (∀ a, r = Ok a → Q (Ok a) s) → (∀ x, Q (Err x) s) → wp C (from_runtime r) e s Q.
Proof. intros Ho He. destruct r; [by apply wp_ret, Ho|by apply wp_throw]. Qed.
End HandlerFacts.

(** ** Conflicts that are answered as failures

    A write that names a stale version, and a deletion that is refused, are errors of their own in
    the store; the mapping does not know them. *)
Theorem conflicts_answered_as_failures path entity id reason current attempted :
  ae_status (from_store_error (MemoryVersionConflict path current attempted)) = INTERNAL_SERVER_ERROR ∧
  ae_status (from_store_error (SkillGovernanceDeleteConflict entity id reason)) = INTERNAL_SERVER_ERROR ∧
  ae_status (from_store_error (SkillGovernanceVersionConflict entity id current attempted)) = CONFLICT.
Proof. done. Qed.
