(* ===== verification/McpApi.v ===== *)
(** * Plans, approvals and applies over HTTP

    [crates/cocli-api/src/mcp_http.rs], the handlers that decide when a configuration is changed:
    plans are created from the current state, approved or rejected against it, applied under an
    approval and rolled back. The runtime is the trait [RuntimeService] as these handlers use it:
    each call is answered by a parameter, and an apply is a program that journals what it does
    through the sink it is given. The lock per plan that [apply_plan] and [rollback_apply_run] hold
    excludes nothing in a model where a handler runs to its end. *)
From stdpp Require Import pretty.
From S2P Require Import Prelude Text Mcp McpGovernance McpPlan McpRows.
From S2P Require Import StoreTypes StoreDb StoreSchema StoreAgents StoreWorkspaces StoreMcp.
From S2P Require Import McpPreflight McpApply StoreMcpApply StoreSkillPlans Store StoreGovernance Coordinator Api.
Open Scope api_scope.

(** ** The runtime *)

Inductive McpCall : Type :=
  | InspectMcp
  | InspectCapabilities
  | PreflightMcp (plan : McpPlan)
  | ApplyMcp (request : McpApplyExecutionRequest)
  | RollbackMcp (request : McpRollbackExecutionRequest).

(** An apply: it finishes, or journals an entry and goes on with what the sink answered. *)
Inductive ApplyProgram : Type :=
  | Finish (r : result McpApplyExecutionResult RuntimeError)
  | Journal (run_id : string) (entry : McpApplyJournalEntry) (k : result unit RuntimeError → ApplyProgram).

(** What the runtime does as its [n]th call. *)
Class McpRuntime := {
  rt_inspect : nat → result McpInventory RuntimeError;
  rt_capabilities : nat → result McpCapabilitySnapshot RuntimeError;
  rt_preflight : McpPlan → nat → result McpPreflightReport RuntimeError;
  rt_apply : McpApplyExecutionRequest → nat → ApplyProgram;
  rt_rollback : McpRollbackExecutionRequest → nat → result McpRollbackExecutionResult RuntimeError;
}.

(** ** Targets *)

Record TargetInput := mkTargetInput { ti_workspace_id : option Uuid; ti_agent_id : option Uuid }.

Inductive ApprovalStatus : Type := ApprovalPending | ApprovalApproved | ApprovalRejected | ApprovalStale | ApprovalExpired.

#[export] Instance ApprovalStatus_eq_dec : EqDecision ApprovalStatus.
Proof. solve_decision. Defined.

Record McpPlanView := mkPlanView {
  pv_plan : McpPlan;
  pv_decision : option McpPlanDecision;
  pv_approval_status : ApprovalStatus;
  pv_stale_reasons : list string;
  pv_approved_but_not_applied : bool;
}.

Definition pending_view (plan : McpPlan) : McpPlanView := mkPlanView plan None ApprovalPending [] false.

Record ApprovePlanRequest := mkApproveRequest {
  apr_plan_hash : string; apr_actor : string; apr_expires_at : Time }.
Record RejectPlanRequest := mkRejectRequest {
  rjr_plan_hash : string; rjr_actor : string; rjr_reason : string }.
Record ApplyPlanRequest := mkApplyRequest {
  alr_plan_hash : string; alr_observation_hash : string; alr_config_hash : string;
  alr_actor : string; alr_confirm_high_risk : bool }.

(** ** The summary of an inventory *)

#[export] Instance McpDiagnosticSeverity_eq_dec : EqDecision McpDiagnosticSeverity.
Proof. solve_decision. Defined.

Record McpDoctorSummary := mkDoctorSummary {
  mds_status : string;
  mds_runtime_count : nat;
  mds_server_count : nat;
  mds_observation_count : nat;
  mds_diagnostic_count : nat;
  mds_error_count : nat;
  mds_warning_count : nat;
}.

Record McpDoctorReport := mkDoctorReport { drp_summary : McpDoctorSummary; drp_inventory : McpInventory }.

Definition doctor_report (inventory : McpInventory) : McpDoctorReport :=
  let runtimes := bfilter (λ r, negb (str_eqb r "") && negb (str_eqb r "aggregate" || str_eqb r "machine"))
    (map ob_runtime (inv_observations inventory) ++ map dg_runtime (inv_diagnostics inventory))%list in
  let count severity := length (bfilter (λ d, bool_decide (dg_severity d = severity)) (inv_diagnostics inventory)) in
  let error_count := count SeverityError in
  let warning_count := count SeverityWarning in
  let status := if (0 <? error_count)%nat then "error" else if (0 <? warning_count)%nat then "warning" else "ok" in
  mkDoctorReport (mkDoctorSummary status (size (list_to_set (C := gset string) runtimes))
    (length (inv_servers inventory)) (length (inv_observations inventory)) (length (inv_diagnostics inventory))
    error_count warning_count) inventory.

Section Handlers.
Context (installation_id : string) {runtime : McpRuntime}.

Abbreviation handler := (H McpCall).

Definition inspect_mcp : handler McpInventory := do! r := call InspectMcp rt_inspect in from_runtime r.
Definition inspect_mcp_capabilities : handler McpCapabilitySnapshot :=
  do! r := call InspectCapabilities rt_capabilities in from_runtime r.
Definition preflight_mcp (plan : McpPlan) : handler McpPreflightReport :=
  do! r := call (PreflightMcp plan) (rt_preflight plan) in from_runtime r.
Definition rollback_mcp (request : McpRollbackExecutionRequest) : handler McpRollbackExecutionResult :=
  do! r := call (RollbackMcp request) (rt_rollback request) in from_runtime r.

(** [StoreMcpApplyJournalSink::checkpoint]. *)
Definition sink_checkpoint (run_id : string) (entry : McpApplyJournalEntry)
    : handler (result unit RuntimeError) :=
  do! id := on_store (parse_uuid run_id) in
  match id with
  | None => hret (Err (RuntimeDelivery "MCP journal run identifier is invalid"))
  | Some id => λ e s,
      let '(w, r) := checkpoint_mcp_apply_run id (je_phase entry) entry None None e (as_world s) in
      (mkApiState w (as_calls s),
       Ok match r with Ok _ => Ok tt | Err _ => Err (RuntimeDelivery "MCP journal checkpoint failed") end)
  end.

Fixpoint run_program (p : ApplyProgram) : handler (result McpApplyExecutionResult RuntimeError) :=
  match p with
  | Finish r => hret r
  | Journal run_id entry k => do! answer := sink_checkpoint run_id entry in run_program (k answer)
  end.

Definition apply_mcp (request : McpApplyExecutionRequest)
    : handler (result McpApplyExecutionResult RuntimeError) :=
  do! p := call (ApplyMcp request) (rt_apply request) in run_program p.

(** ** State and hashes *)

Definition validate_target (target : TargetInput) : handler unit :=
  match ti_workspace_id target with
  | None => hret tt
  | Some id => do! w := on_store (get_workspace id) in
               match w with Some _ => hret tt | None => hthrow (not_found "Workspace not found") end
  end ;!;
  match ti_agent_id target with
  | None => hret tt
  | Some id => do! a := on_store (get_agent id) in
               match a with Some _ => hret tt | None => hthrow (not_found "Agent not found") end
  end.

(** The resolution panics nowhere: [None] does not occur. *)
Definition resolve_state (target : TargetInput) : handler McpEffectiveDesiredState :=
  validate_target target ;!;
  do! profiles := on_store list_mcp_profiles in
  do! bindings := on_store (list_mcp_profile_bindings None) in
  do! show := on_store uuid_display in
  hsome (mkApiError INTERNAL_SERVER_ERROR (Api.Text "panic"))
    (resolve_mcp_desired_state profiles bindings
       (mkDesiredTarget installation_id (show <$> ti_workspace_id target) (show <$> ti_agent_id target))).

Definition require_plan (plan_id : string) : handler McpPlan :=
  do! plan := on_store (get_mcp_plan plan_id) in hsome (not_found "MCP plan not found") plan.

(** [.as_deref().map(Uuid::parse_str).transpose()]. *)
Definition parse_target (text : option string) (refused : string) : handler (option Uuid) :=
  match text with
  | None => hret None
  | Some text => do! id := on_store (parse_uuid text) in
                 match id with Some id => hret (Some id) | None => hthrow (bad_request refused) end
  end.

Definition current_hashes (plan : McpPlan) : handler (string * string * string) :=
  do! workspace_id := parse_target (dt_workspace_id (pl_target plan)) "persisted MCP Workspace target is invalid" in
  do! agent_id := parse_target (dt_agent_id (pl_target plan)) "persisted MCP Agent target is invalid" in
  do! effective := resolve_state (mkTargetInput workspace_id agent_id) in
  do! inventory := inspect_mcp in
  do! capabilities := inspect_mcp_capabilities in
  do! sha256 := on_store sha256_digest in
  do! to_string := on_store json_text in
  hret (hash_mcp_observation sha256 to_string inventory, hash_mcp_config sha256 to_string effective,
        cs_hash capabilities).

(** ** Inventory, profiles and bindings *)

Definition machine_mcp_doctor : handler McpDoctorReport := do! inventory := inspect_mcp in hret (doctor_report inventory).

Definition list_profiles : handler (list McpProfile) := on_store list_mcp_profiles.
Definition create_profile (input : NewMcpProfile) : handler McpProfile := on_store (create_mcp_profile input).
Definition get_profile (profile_id : Uuid) : handler McpProfile :=
  do! profile := on_store (get_mcp_profile profile_id) in hsome (not_found "MCP profile not found") profile.
Definition update_profile (profile_id : Uuid) (input : UpdateMcpProfile) : handler McpProfile :=
  on_store (update_mcp_profile profile_id input).
Definition delete_profile (profile_id : Uuid) (expected_version : Z) : handler Uuid :=
  do! deleted := on_store (delete_mcp_profile profile_id expected_version) in
  if deleted : bool then hret profile_id else hthrow (not_found "MCP profile not found").

Definition list_bindings : handler (list McpProfileBinding) := on_store (list_mcp_profile_bindings None).
Definition create_binding (profile_id : Uuid) (target_type : McpBindingTargetType) (target_id : option string)
    : handler McpProfileBinding :=
  do! target_id := match target_type with
                   | Machine => hret (default installation_id target_id)
                   | _ => hsome (bad_request "targetId is required for this target type") target_id
                   end in
  on_store (create_mcp_profile_binding installation_id (mkNewBinding profile_id target_type target_id)).
Definition delete_binding (binding_id : Uuid) (expected_version : Z) : handler Uuid :=
  do! deleted := on_store (delete_mcp_profile_binding binding_id expected_version) in
  if deleted : bool then hret binding_id else hthrow (not_found "MCP profile binding not found").

Definition effective_state (target : TargetInput) : handler McpEffectiveDesiredState := resolve_state target.

(** ** Plans and decisions *)

Definition create_plan (target : TargetInput) : handler McpPlanView :=
  do! effective := resolve_state target in
  do! inventory := inspect_mcp in
  do! id := on_store new_v4 in
  do! show := on_store uuid_display in
  do! now := on_store utc_now in
  do! rfc := on_store rfc3339 in
  do! sha256 := on_store sha256_digest in
  do! to_string := on_store json_text in
  let plan := generate_mcp_plan sha256 to_string (show id) (rfc now) effective inventory in
  do! capabilities := inspect_mcp_capabilities in
  let plan := bind_mcp_plan_capabilities sha256 to_string plan capabilities in
  on_store (save_mcp_plan plan) ;!;
  hret (pending_view plan).

Definition preflight_plan (plan_id : string) : handler McpPreflightReport :=
  do! plan := require_plan plan_id in preflight_mcp plan.

Definition drift (observation_hash config_hash capability_hash : string) (plan : McpPlan) : list string :=
  (if negb (str_eqb observation_hash (pl_observation_hash plan)) then ["observation_drift"] else []) ++
  (if negb (str_eqb config_hash (pl_config_hash plan)) then ["desired_config_drift"] else []) ++
  (if negb (str_eqb capability_hash (pl_capability_hash plan)) then ["adapter_capability_or_version_drift"] else []).

Definition approval_mismatches (decision : McpPlanDecision) (plan : McpPlan) : list string :=
  (if negb (str_eqb (mpd_plan_hash decision) (pl_plan_hash plan)) then ["plan_hash_changed"] else []) ++
  (if negb (str_eqb (mpd_observation_hash decision) (pl_observation_hash plan))
   then ["approval_base_observation_mismatch"] else []) ++
  (if negb (str_eqb (mpd_config_hash decision) (pl_config_hash plan))
   then ["approval_base_config_mismatch"] else []).

Definition plan_view (plan : McpPlan) : handler McpPlanView :=
  do! decision := on_store (get_mcp_plan_decision (pl_id plan)) in
  match decision with
  | None =>
      do! hashes := current_hashes plan in
      let '(o, c, k) := hashes in
      let stale_reasons := drift o c k plan in
      hret (mkPlanView plan None (if bool_decide (stale_reasons = []) then ApprovalPending else ApprovalStale)
              stale_reasons false)
  | Some decision =>
      if bool_decide (mpd_decision decision = DecisionRejected) then
        hret (mkPlanView plan (Some decision) ApprovalRejected [] false)
      else
        do! hashes := current_hashes plan in
        let '(o, c, k) := hashes in
        do! expired := match mpd_expires_at decision with
                       | Some expires_at => do! now := on_store utc_now in hret (expires_at <=? now)
                       | None => hret false
                       end in
        let stale_reasons := dedup (sort_by String.compare (approval_mismatches decision plan ++
          drift o c k plan ++ (if expired then ["approval_expired"] else []))) in
        let approval_status := if expired then ApprovalExpired
          else if bool_decide (stale_reasons = []) then ApprovalApproved else ApprovalStale in
        hret (mkPlanView plan (Some decision) approval_status stale_reasons
                (bool_decide (approval_status = ApprovalApproved)))
  end.

Definition get_plan (plan_id : string) : handler McpPlanView :=
  do! plan := require_plan plan_id in plan_view plan.

Definition approve_plan (plan_id : string) (request : ApprovePlanRequest) : handler McpPlanView :=
  do! plan := require_plan plan_id in
  if negb (str_eqb (apr_plan_hash request) (pl_plan_hash plan)) then hthrow (conflict "MCP plan hash is stale")
  else
    do! hashes := current_hashes plan in
    let '(o, c, k) := hashes in
    if negb (str_eqb o (pl_observation_hash plan)) || negb (str_eqb c (pl_config_hash plan)) ||
       negb (str_eqb k (pl_capability_hash plan)) then
      hthrow (conflict "MCP plan observation or desired configuration is stale")
    else
      on_store (record_mcp_plan_decision (mkNewDecision (pl_id plan) DecisionApproved (pl_plan_hash plan)
        (pl_observation_hash plan) (pl_config_hash plan) (apr_actor request) None
        (Some (apr_expires_at request)))) ;!;
      plan_view plan.

Definition reject_plan (plan_id : string) (request : RejectPlanRequest) : handler McpPlanView :=
  do! plan := require_plan plan_id in
  if negb (str_eqb (rjr_plan_hash request) (pl_plan_hash plan)) then hthrow (conflict "MCP plan hash is stale")
  else
    on_store (record_mcp_plan_decision (mkNewDecision (pl_id plan) DecisionRejected (pl_plan_hash plan)
      (pl_observation_hash plan) (pl_config_hash plan) (rjr_actor request) (Some (rjr_reason request)) None)) ;!;
    plan_view plan.

(** ** Apply *)

Definition is_active_apply_status (status : McpApplyRunStatus) : bool :=
  match status with
  | ApplyPending | ApplyRunning | ApplyPreflight | ApplyLocked | ApplyBackedUp | ApplyWritten
  | ApplyReloadPending | ApplyReloaded | ApplyRecoveryRequired => true
  | _ => false
  end.

Definition valid_apply_approval (plan : McpPlan) (request : ApplyPlanRequest) : handler McpPlanDecision :=
  if trim_is_empty (alr_actor request) then hthrow (bad_request "apply actor is required")
  else if negb (str_eqb (alr_plan_hash request) (pl_plan_hash plan)) ||
          negb (str_eqb (alr_observation_hash request) (pl_observation_hash plan)) ||
          negb (str_eqb (alr_config_hash request) (pl_config_hash plan)) then
    hthrow (conflict "MCP apply request does not match the persisted plan hashes")
  else
    do! found := on_store (get_mcp_plan_decision (pl_id plan)) in
    do! decision := hsome (conflict "MCP plan has no approval") found in
    if negb (bool_decide (mpd_decision decision = DecisionApproved)) then
      hthrow (conflict "MCP plan was not approved")
    else if negb (str_eqb (mpd_plan_hash decision) (pl_plan_hash plan)) ||
            negb (str_eqb (mpd_observation_hash decision) (pl_observation_hash plan)) ||
            negb (str_eqb (mpd_config_hash decision) (pl_config_hash plan)) then
      hthrow (conflict "MCP approval hashes are stale")
    else
      match mpd_expires_at decision with
      | None => hthrow (conflict "MCP approval is expired")
      | Some expiry =>
          do! now := on_store utc_now in
          if expiry <=? now then hthrow (conflict "MCP approval is expired") else hret decision
      end.

(** The run had started to change something. *)
Definition wrote_something (phase : McpApplyJournalPhase) : bool :=
  match phase with BackedUp | Written | ReloadPending | Reloaded | PhaseVerified => true | _ => false end.

Definition is_recovering (existing : option McpApplyRun) : bool :=
  match existing with
  | Some run => is_active_apply_status (mar_status run) &&
                existsb (λ entry, wrote_something (je_phase entry)) (mrr_journal (mar_row run))
  | None => false
  end.

Definition preflight_entry (run : McpRunRow) (action : McpPreflightAction) : McpApplyJournalEntry :=
  mkJournal (last_sequence (mrr_journal run) + 1) (pf_action_index action) (pf_runtime action)
    (pf_server_id action) (pf_idempotency_key action) Preflight (as_u32 (Z.max (mrr_attempt run + 1) 1))
    (pf_expected_source_hash action) (pf_expected_schema_hash action) None (pf_reason action) [].

Fixpoint checkpoint_actions (preflight : McpPreflightReport) (actions : list McpPreflightAction)
    (next : McpApplyRun) : handler McpApplyRun :=
  match actions with
  | [] => hret next
  | action :: rest =>
      do! next := on_store (checkpoint_mcp_apply_run (mrr_id (mar_row next)) Preflight
                    (preflight_entry (mar_row next) action) (Some preflight) None) in
      checkpoint_actions preflight rest next
  end.

Definition checkpoint_preflight (run : McpApplyRun) (preflight : McpPreflightReport) : handler McpApplyRun :=
  checkpoint_actions preflight (pr_actions preflight) run.

Definition failed_execution (run : McpApplyRun) (error : RuntimeError) : McpApplyExecutionResult :=
  let '(status, reason) := match error with
    | RuntimeUnsupported _ => (VerificationBlocked, "Runtime apply adapter is unsupported")
    | _ => (VerificationFailed, "Runtime apply adapter failed")
    end in
  mkExecutionResult [] []
    (mkVerification status (mrr_observation_hash (mar_row run))
       [reason +:+ "; no configuration success was recorded"] ∅ UnknownEffect)
    (mrr_journal (mar_row run)).

Definition high_risk (plan : McpPlan) : bool :=
  existsb (λ action, risk_level High <=? risk_level (pa_risk action)) (pl_actions plan).

(** The run to go on with: the interrupted one of the same actor, or a new one. *)
Definition claim_run (plan : McpPlan) (decision : McpPlanDecision) (request : ApplyPlanRequest)
    (existing : option McpApplyRun) : handler McpApplyRun :=
  match existing with
  | Some run =>
      if negb (str_eqb (mrr_actor (mar_row run)) (alr_actor request)) then
        hthrow (conflict "interrupted MCP apply must be resumed by the original actor")
      else hret run
  | None => on_store (create_mcp_apply_run (mkNewRun (pl_id plan) (mpd_id decision) (pl_plan_hash plan)
              (pl_observation_hash plan) (pl_config_hash plan) (pl_capability_hash plan) (alr_actor request)
              (alr_confirm_high_risk request)))
  end.

(** From the claimed run to the completed one. *)
Definition execute_run (plan : McpPlan) (request : ApplyPlanRequest) (preflight : McpPreflightReport)
    (run : McpApplyRun) : handler McpApplyRun :=
  do! run := checkpoint_preflight run preflight in
  do! show := on_store uuid_display in
  do! outcome := apply_mcp (mkExecutionRequest (show (mrr_id (mar_row run))) plan (alr_actor request)
                   (alr_confirm_high_risk request) (pl_capability_hash plan) (mrr_journal (mar_row run))) in
  let execution := match outcome with Ok result => result | Err error => failed_execution run error end in
  on_store (complete_mcp_apply_run (mrr_id (mar_row run)) execution).

Definition drifted_reason : string :=
  "observation or desired configuration drifted during an interrupted apply".

(** What follows the approval and the run it may have: [existing] is active. *)
Definition apply_approved (plan : McpPlan) (decision : McpPlanDecision) (request : ApplyPlanRequest)
    (existing : option McpApplyRun) : handler McpApplyRun :=
  do! hashes := current_hashes plan in
  let '(observation_hash, config_hash, capability_hash) := hashes in
  let recovering := is_recovering existing in
  let observation_drift := negb (str_eqb observation_hash (pl_observation_hash plan)) in
  if negb (str_eqb config_hash (pl_config_hash plan)) ||
     negb (str_eqb capability_hash (pl_capability_hash plan)) || (observation_drift && negb recovering) then
    match existing with
    | Some run => on_store (mark_mcp_apply_recovery_required (mrr_id (mar_row run)) drifted_reason)
    | None => hthrow (conflict "MCP observation or desired configuration drifted after approval")
    end
  else if high_risk plan && negb (alr_confirm_high_risk request) then
    hthrow (bad_request "high-risk MCP plan requires explicit second confirmation")
  else
    do! preflight := preflight_mcp plan in
    if existsb (λ reason, negb (str_eqb reason "observation_drift") || negb recovering)
         (pr_stale_reasons preflight) then
      hthrow (conflict "MCP adapter preflight is stale; regenerate and approve the plan")
    else
      do! run := claim_run plan decision request existing in
      execute_run plan request preflight run.

Definition apply_plan (plan_id : string) (request : ApplyPlanRequest) : handler McpApplyRun :=
  do! plan := require_plan plan_id in
  do! decision := valid_apply_approval plan request in
  do! existing := on_store (get_mcp_apply_run_for_approval (pl_id plan) (mpd_id decision)) in
  match existing with
  | Some run => if is_active_apply_status (mar_status run) then apply_approved plan decision request (Some run)
                else hret run
  | None => apply_approved plan decision request None
  end.

(** ** Rollback and recovery *)

Definition get_apply_run (run_id : Uuid) : handler McpApplyRun :=
  do! run := on_store (get_mcp_apply_run run_id) in hsome (not_found "MCP apply run not found") run.

(** The backups of the actions, then those of the journal with another id, newest first. *)
Definition add_backup (backups : list McpBackupDescriptor) (backup : McpBackupDescriptor)
    : list McpBackupDescriptor :=
  if existsb (λ existing, str_eqb (bk_id existing) (bk_id backup)) backups then backups
  else (backups ++ [backup])%list.
Definition run_backups (run : McpRunRow) : list McpBackupDescriptor :=
  reverse (fold_left add_backup (omap je_backup (mrr_journal run)) (omap ar_backup (mrr_actions run))).

Definition has_backup {A} (backup : A → option McpBackupDescriptor) (a : A) : bool :=
  match backup a with Some _ => true | None => false end.

(** The entry that starts a rollback: of the first action with a backup, or of the journal. *)
Definition rolling_back_entry (show : Uuid → string) (run : McpRunRow) : option McpApplyJournalEntry :=
  let first_action := find (has_backup ar_backup) (mrr_actions run) in
  let first_journal := find (has_backup je_backup) (mrr_journal run) in
  let pick {B} (f : McpApplyActionResult → B) (g : McpApplyJournalEntry → B) : option B :=
    match first_action with Some a => Some (f a) | None => g <$> first_journal end in
  let action_index := pick ar_action_index je_action_index in
  (λ index, mkJournal (last_sequence (mrr_journal run) + 1) index (default "" (pick ar_runtime je_runtime))
     (default "" (pick ar_server_id je_server_id))
     ("rollback:" +:+ show (mrr_id run) +:+ ":" +:+ pretty index) RollingBack
     (as_u32 (Z.max (mrr_attempt run) 1))
     (coalesce (first_action ≫= ar_before_source_hash) (first_journal ≫= je_expected_source_hash)) None
     (coalesce (first_action ≫= ar_backup) (first_journal ≫= je_backup))
     "compensating rollback started under the apply plan lock" []) <$> action_index.

Definition unfinished_status (status : McpApplyRunStatus) : bool :=
  match status with ApplyPending | ApplyRunning | ApplyPreflight | ApplyLocked => true | _ => false end.

Definition rollback_apply_run (run_id : Uuid) (requested_actor : option string) : handler McpApplyRun :=
  get_apply_run run_id ;!;
  do! run := get_apply_run run_id in
  if unfinished_status (mar_status run) then hthrow (conflict "MCP apply run must finish before rollback")
  else if bool_decide (mar_rollback_status run = Some ApplyRolledBack) then hret run
  else
    let backups := run_backups (mar_row run) in
    if bool_decide (backups = []) then hthrow (conflict "MCP apply run has no restorable backup")
    else
      let actor := default (mrr_actor (mar_row run)) requested_actor in
      if trim_is_empty actor then hthrow (bad_request "rollback actor is required")
      else
        do! show := on_store uuid_display in
        do! rolling_back := hsome (conflict "MCP apply run has no restorable action")
                              (rolling_back_entry show (mar_row run)) in
        on_store (checkpoint_mcp_apply_run (mrr_id (mar_row run)) RollingBack rolling_back None None) ;!;
        do! result := rollback_mcp (mkRollbackRequest (show (mrr_id (mar_row run))) actor backups) in
        on_store (complete_mcp_rollback (mrr_id (mar_row run)) actor result).

Definition record_manual_recovery (run_id : Uuid) (requested_actor : option string) (reason : string)
    : handler McpApplyRun :=
  let actor := default "desktop-user" requested_actor in
  if trim_is_empty actor || trim_is_empty reason then
    hthrow (bad_request "manual recovery actor and reason are required")
  else on_store (record_mcp_manual_recovery run_id actor reason).
End Handlers.

(** ** The store under a run *)

(** Only the table of runs has changed, and the runs only as they may. *)
Definition run_progress (db db' : DB) : Prop :=
  evolved db db' ∧ ∃ runs, db' = with_mcp_runs (λ _, runs) db.

Lemma run_progress_refl db : schema_ok db → run_progress db db.
Proof.
  intros Hok. split; [by split|]. exists (db_mcp_runs db). unfold with_mcp_runs, with_mcp_tables.
  by destruct db as [????????????? [] ?].
Qed.

Lemma run_op_progress db op e w :
  run_progress db (w_db w) → run_progress db (w_db (run_mcp_run_op op e w).1).
Proof.
  intros [He Hr]. split; [by apply run_mcp_run_op_evolved|]. clear He. revert e w Hr.
  apply (run_mcp_run_op_preserves (λ db', ∃ runs, db' = with_mcp_runs (λ _, runs) db)).
  - intros r db1 db2 u [runs ->] E. unfold insert_mcp_run in E. inv_stmt. by eexists.
  - intros p f _ db1 db2 n [runs ->] [= <- _]. by eexists.
Qed.

(** An operation on runs, as the handlers call it. *)
Lemma run_op_step {A} db (m : M A) op e w w' r :
  run_mcp_run_op op = (m ;; ret tt) → m e w = (w', r) →
  run_progress db (w_db w) → run_progress db (w_db w').
Proof.
  intros Hop E Hw. apply (run_op_progress _ op e) in Hw. rewrite Hop in Hw. unfold bind in Hw.
  rewrite E in Hw. by destruct r.
Qed.

Lemma run_progress_tables db db' :
  run_progress db db' →
  db_mcp_plans db' = db_mcp_plans db ∧ db_mcp_decisions db' = db_mcp_decisions db.
Proof. by intros [_ [runs ->]]. Qed.

(** A run that is read after progress is the run of that id that was there before. *)
Lemma run_progress_row db db' r r' :
  run_progress db db' → r ∈ db_mcp_runs db → r' ∈ db_mcp_runs db' → mrr_id r' = mrr_id r →
  run_evolves r r'.
Proof.
  intros [[Hok He] _] Hr Hr' Hid. destruct (He r Hr) as (x & Hx & Hev).
  replace r' with x; [done|]. eapply (NoDup_key_eq mrr_id); [exact (mo_runs _ (so_mcp _ Hok))|done..|].
  pose proof (ev_identity _ _ Hev) as Hi. unfold run_identity in Hi. congruence.
Qed.

Lemma checkpoint_row run_id phase entry pf reason e w w' run :
  checkpoint_mcp_apply_run run_id phase entry pf reason e w = (w', Ok run) →
  mar_row run ∈ db_mcp_runs (w_db w') ∧ mrr_id (mar_row run) = run_id.
Proof.
  intros Hc. unfold checkpoint_mcp_apply_run, checkpoint_write in Hc. inv_run.
  destruct (match reason with Some _ => _ | None => _ end); [done|]. inv_run.
  destruct (_ && _); [done|]. inv_run.
  match goal with H : require_run _ _ _ = (w', _) |- _ => apply require_run_row in H as (Hw & Hin & Hid) end.
  by rewrite Hw.
Qed.

(** ** Handlers that only look *)

Lemma newest_decision_gt a b :
  newest_decision a b = Gt ↔
  mdr_decided_at a < mdr_decided_at b ∨ mdr_decided_at a = mdr_decided_at b ∧ (mdr_id a < mdr_id b)%N.
Proof.
  unfold newest_decision, then_cmp.
  destruct (Z.compare_spec (mdr_decided_at b) (mdr_decided_at a)) as [E|E|E]; [|split; [done|lia]|split; [lia|done]].
  rewrite N.compare_gt_iff. lia.
Qed.

#[local] Instance newest_decision_total : TotalCmp newest_decision.
Proof.
  split.
  - intros x y. unfold newest_decision.
    rewrite (Z.compare_antisym (mdr_decided_at y)), (N.compare_antisym (mdr_id y)).
    by destruct (mdr_decided_at y ?= mdr_decided_at x).
  - intros x y z. rewrite !newest_decision_gt. lia.
Qed.

Lemma readonly_transpose {A B} (f : A → result B StoreError) row : readonly (transpose f row).
Proof. destruct row; simpl; auto with cocli. Qed.
Lemma readonly_get_agent id : readonly (get_agent id).
Proof. apply readonly_bind; [apply readonly_fetch|apply readonly_transpose]. Qed.
Lemma readonly_get_workspace id : readonly (get_workspace id).
Proof.
  apply readonly_bind; [apply readonly_fetch|]. intros [r|]; [|apply readonly_ret].
  apply readonly_bind; [|auto with cocli]. unfold workspace_from_row. atomic_tac.
Qed.
Lemma readonly_list_mcp_profiles : readonly list_mcp_profiles.
Proof. unfold list_mcp_profiles. atomic_tac. Qed.
Lemma readonly_list_mcp_bindings id : readonly (list_mcp_profile_bindings id).
Proof. unfold list_mcp_profile_bindings. atomic_tac. Qed.
Lemma readonly_get_mcp_plan id : readonly (get_mcp_plan id).
Proof. apply readonly_fetch. Qed.
Lemma readonly_get_mcp_plan_decision id : readonly (get_mcp_plan_decision id).
Proof. unfold get_mcp_plan_decision. apply readonly_bind; [apply readonly_fetch|]. atomic_tac. Qed.
Lemma readonly_get_run_for_approval p a : readonly (get_mcp_apply_run_for_approval p a).
Proof. apply readonly_bind; [apply readonly_fetch|auto with cocli]. Qed.
#[local] Hint Resolve readonly_get_agent readonly_get_workspace readonly_list_mcp_profiles
  readonly_list_mcp_bindings readonly_get_mcp_plan readonly_get_mcp_plan_decision
  readonly_get_run_for_approval : cocli.

Section Facts.
Context (installation_id : string) {runtime : McpRuntime} (e : Env).
Implicit Types (s : ApiState McpCall) (db : DB) (C : DB → McpCall → Prop).

(** The calls that look at the runtime are allowed. *)
Definition allows_looking C : Prop := ∀ db, C db InspectMcp ∧ C db InspectCapabilities.

(** The handler makes calls only where [L] has them allowed, and leaves the store as it is. *)
Definition quiet {A} (L : (DB → McpCall → Prop) → Prop) (m : H McpCall A) : Prop :=
  ∀ C s, L C → wp C m e s (λ _ s', as_db s' = as_db s).

(** It looks at the store and the runtime; it looks at the store only. *)
Abbreviation observing := (quiet allows_looking).
Abbreviation silent := (quiet (λ _, True)).

Section Quiet.
Context (L : (DB → McpCall → Prop) → Prop).

Lemma wp_quiet {A} C (m : H McpCall A) s (Q : result A ApiError → ApiState McpCall → Prop) :
  quiet L m → L C →
  (∀ a s', as_db s' = as_db s → m e s = (s', Ok a) → Q (Ok a) s') →
  (∀ x s', as_db s' = as_db s → Q (Err x) s') → wp C m e s Q.
Proof.
  intros Hm HC Hok Herr. destruct (Hm C s HC) as [Hcalls Hdb]. split; [done|].
  destruct (m e s) as [s' [a|x]]; simpl in *; auto.
Qed.

Lemma quiet_ret {A} (a : A) : quiet L (hret a).
Proof. intros C s HC. by apply wp_ret. Qed.
Lemma quiet_throw {A} x : quiet (A := A) L (hthrow x).
Proof. intros C s HC. by apply wp_throw. Qed.
Lemma quiet_hsome {A} x (o : option A) : quiet L (hsome x o).
Proof. destruct o; [apply quiet_ret|apply quiet_throw]. Qed.
Lemma quiet_from_runtime {A} (r : result A RuntimeError) : quiet L (from_runtime r).
Proof. destruct r; [apply quiet_ret|apply quiet_throw]. Qed.
Lemma quiet_bind {A B} (m : H McpCall A) (k : A → H McpCall B) :
  quiet L m → (∀ a, quiet L (k a)) → quiet L (hbind m k).
Proof.
  intros Hm Hk C s HC. apply wp_bind, wp_quiet; [done|done| |done].
  intros a s' Hs' _. apply wp_quiet; [apply Hk|done| |]; congruence.
Qed.
Lemma quiet_store {A} (m : M A) : readonly m → quiet L (on_store m).
Proof. intros Hm C s HC. by apply wp_store_readonly. Qed.
Lemma quiet_call {A} c (answer : nat → A) : (∀ C, L C → ∀ db, C db c) → quiet L (call c answer).
Proof. intros Hc C s HC. apply wp_call; [by apply Hc|]. intros a s'. unfold as_db. by intros ->. Qed.
End Quiet.

Lemma observing_inspect : observing inspect_mcp.
Proof. apply quiet_bind; [apply quiet_call; intros C HC db; apply HC|apply quiet_from_runtime]. Qed.
Lemma observing_capabilities : observing inspect_mcp_capabilities.
Proof. apply quiet_bind; [apply quiet_call; intros C HC db; apply HC|apply quiet_from_runtime]. Qed.

(** A handler made of reads. *)
Ltac look :=
  repeat first
    [ apply quiet_ret | apply quiet_throw | apply quiet_hsome | apply observing_inspect
    | apply observing_capabilities
    | apply quiet_store; [solve [auto with cocli]]
    | apply quiet_bind; [|intros ?] | case_match ].

Lemma silent_require_plan plan_id : silent (require_plan plan_id).
Proof. unfold require_plan. look. Qed.
Lemma silent_approval plan request : silent (valid_apply_approval plan request).
Proof. unfold valid_apply_approval. look. Qed.
Lemma observing_resolve_state target : observing (resolve_state installation_id target).
Proof. unfold resolve_state, validate_target. look. Qed.
Lemma observing_current_hashes plan : observing (current_hashes installation_id plan).
Proof.
  unfold current_hashes, parse_target.
  repeat first [apply observing_resolve_state | progress look].
Qed.

(** *** Approvals *)

(** The decision that counts for a plan is its newest. *)
Definition newest_for db (plan_id : string) (row : McpDecisionRow) : Prop :=
  row ∈ db_mcp_decisions db ∧ mdr_plan_id row = plan_id ∧
  ∀ row', row' ∈ db_mcp_decisions db → mdr_plan_id row' = plan_id → cmp_le newest_decision row row' = true.

(** The newest decision on the plan approves exactly this plan, and is not over. *)
Record approval_holds db (plan : McpPlan) (decision : McpPlanDecision) (now : Time) : Prop := {
  ah_newest : ∃ row, newest_for db (pl_id plan) row ∧ decision_from_row row = Ok decision;
  ah_approved : mpd_decision decision = DecisionApproved;
  ah_plan : mpd_plan_hash decision = pl_plan_hash plan;
  ah_observation : mpd_observation_hash decision = pl_observation_hash plan;
  ah_config : mpd_config_hash decision = pl_config_hash plan;
  ah_expiry : ∃ expiry, mpd_expires_at decision = Some expiry ∧ now < expiry;
}.

(** The request names the plan as it is stored, and who asks. *)
Record request_matches (plan : McpPlan) (request : ApplyPlanRequest) : Prop := {
  rm_actor : trim_is_empty (alr_actor request) = false;
  rm_plan : alr_plan_hash request = pl_plan_hash plan;
  rm_observation : alr_observation_hash request = pl_observation_hash plan;
  rm_config : alr_config_hash request = pl_config_hash plan;
}.

Ltac str_eqs := bsimp; repeat match goal with H : str_eqb _ _ = true |- _ => apply str_eqb_eq in H end.

Lemma require_plan_ok plan_id s s' plan :
  require_plan plan_id e s = (s', Ok plan) → plan ∈ db_mcp_plans (as_db s) ∧ pl_id plan = plan_id.
Proof.
  unfold require_plan. intros (s1 & o & Ho & Hk)%hbind_ok. apply on_store_ok in Ho as (w & Hw & ->).
  destruct o as [p|]; [|done]. injection Hk as _ ->. unfold get_mcp_plan in Hw. inv_run.
  match goal with H : Some _ = head _ |- _ => symmetry in H; apply head_Some_elem_of, elem_of_bfilter in H as [? ?] end.
  by str_eqs.
Qed.

Lemma get_decision_newest plan_id w w' decision :
  get_mcp_plan_decision plan_id e w = (w', Ok (Some decision)) →
  ∃ row, newest_for (w_db w) plan_id row ∧ decision_from_row row = Ok decision.
Proof.
  unfold get_mcp_plan_decision. intros Hd. inv_run. case_match; inv_run. exists m.
  split; [|done]. match goal with H : Some _ = head _ |- _ => symmetry in H;
    destruct (sort_by_head newest_decision _ _ H) as [Hin Hle] end.
  apply elem_of_bfilter in Hin as [? Hid]. split_and!; [done|by str_eqs|]. intros row' Hr' Hid'.
  apply Hle, elem_of_bfilter. by rewrite Hid', str_eqb_refl.
Qed.

Lemma valid_apply_approval_ok plan request s s' decision :
  valid_apply_approval plan request e s = (s', Ok decision) →
  request_matches plan request ∧ ∃ n, approval_holds (as_db s) plan decision (env_now e n).
Proof.
  unfold valid_apply_approval. destruct (trim_is_empty _) eqn:Ea; [done|].
  destruct (_ || _) eqn:Eh; [done|]. intros (s1 & o & Ho & Hk)%hbind_ok.
  apply on_store_ok in Ho as (w & Hw & ->). destruct o as [d|]; [|done]. cbn [hsome] in Hk.
  apply hbind_ok in Hk as (? & ? & [= <- <-] & Hk).
  apply get_decision_newest in Hw. destruct (negb (bool_decide _)) eqn:Ed; [done|].
  destruct (_ || _) eqn:Em in Hk; [done|]. destruct (mpd_expires_at d) as [expiry|] eqn:Ex; [|done].
  apply hbind_ok in Hk as (s2 & now & Hn & Hk). apply on_store_ok in Hn as (w' & Hn & ->).
  destruct (expiry <=? now) eqn:El; [done|]. injection Hk as _ ->. inv_run. str_eqs.
  split; [by split|]. exists (w_ctr w). split; [done..|]. by exists expiry.
Qed.

(** *** Runs *)

Section Runs.
Context (db0 : DB) (C : DB → McpCall → Prop).

(** The rule of an operation on runs: it makes progress, whether it answers or fails. *)
Lemma wp_run_op {A} (m : M A) op s (Q : result A ApiError → ApiState McpCall → Prop) :
  run_mcp_run_op op = (m ;; ret tt) → run_progress db0 (as_db s) →
  (∀ w a, m e (as_world s) = (w, Ok a) → run_progress db0 (w_db w) → Q (Ok a) (mkApiState w (as_calls s))) →
  (∀ x s', run_progress db0 (as_db s') → Q (Err x) s') →
  wp C (on_store m) e s Q.
Proof.
  intros Hop Hs Hok Herr. apply wp_store; intros w x E; pose proof (run_op_step _ _ _ _ _ _ _ Hop E Hs); auto.
Qed.

Lemma run_progress_schema db : run_progress db0 db → schema_ok db.
Proof. by intros [[? _] _]. Qed.

(** A checkpoint answers the run it was for. *)
Lemma checkpoint_same run_id phase entry pf reason w w' run row :
  schema_ok (w_db w) → row ∈ db_mcp_runs (w_db w) → mrr_id row = run_id →
  checkpoint_mcp_apply_run run_id phase entry pf reason e w = (w', Ok run) →
  mar_row run ∈ db_mcp_runs (w_db w') ∧ run_evolves row (mar_row run).
Proof.
  intros Hok Hin <- Hc. destruct (checkpoint_row _ _ _ _ _ _ _ _ _ Hc) as [Hin' Hid]. split; [done|].
  eapply run_progress_row; [|done..].
  by apply (run_op_step _ _ (Checkpoint (mrr_id row) phase entry pf reason) _ _ _ _ eq_refl Hc), run_progress_refl.
Qed.

Lemma wp_checkpoint_actions preflight actions next s (Q : result McpApplyRun ApiError → ApiState McpCall → Prop) :
  run_progress db0 (as_db s) → mar_row next ∈ db_mcp_runs (as_db s) →
  (∀ run s', run_progress db0 (as_db s') → mar_row run ∈ db_mcp_runs (as_db s') →
    run_evolves (mar_row next) (mar_row run) → Q (Ok run) s') →
  (∀ x s', run_progress db0 (as_db s') → Q (Err x) s') →
  wp C (checkpoint_actions preflight actions next) e s Q.
Proof.
  revert next s. induction actions as [|action actions IH]; intros next s Hs Hin Hok Herr; simpl.
  { apply wp_ret, Hok; done. }
  apply wp_bind. eapply (wp_run_op _ (Checkpoint _ _ _ _ _)); [done|done| |done]. intros w run E Hp.
  destruct (checkpoint_same _ _ _ _ _ _ _ _ (mar_row next) (run_progress_schema _ Hs) Hin eq_refl E) as [Hin' He].
  apply IH; [done|done| |done]. intros run' s' Hs' Hr' He'. apply Hok; [done|done|by etrans].
Qed.

Lemma wp_run_program p s (Q : result (result McpApplyExecutionResult RuntimeError) ApiError → ApiState McpCall → Prop) :
  run_progress db0 (as_db s) → (∀ r s', run_progress db0 (as_db s') → Q r s') →
  wp C (run_program p) e s Q.
Proof.
  revert s. induction p as [r|run_id entry k IH]; intros s Hs HQ; simpl; [by apply wp_ret, HQ|].
  apply wp_bind. unfold sink_checkpoint. apply wp_bind.
  apply wp_store_readonly; [auto with cocli| |intros x s' Hx; apply HQ; by rewrite Hx].
  intros w [id|] Hw _; [|apply wp_ret, IH; [|done]; unfold as_db at 1; cbn; by rewrite Hw].
  destruct (checkpoint_mcp_apply_run id (je_phase entry) entry None None e w) as [w' r] eqn:E.
  eassert (run_progress db0 (w_db w')) as Hp.
  { eapply (run_op_step _ _ (Checkpoint _ _ _ _ _) e w); [done|exact E|]. by rewrite Hw. }
  unfold wp at 1. cbn [as_world]. rewrite E. cbn [fst snd as_calls].
  split; [exists []; by rewrite app_nil_r|]. by apply IH.
Qed.
End Runs.

(** A run that an approval did not have is created by the actor who asks. *)
Lemma create_run_actor input w w' run :
  create_mcp_apply_run input e w = (w', Ok run) →
  (nmr_plan_id input, nmr_approval_id input) ∉ map mcp_run_key (db_mcp_runs (w_db w)) →
  mrr_actor (mar_row run) = nmr_actor input.
Proof.
  unfold create_mcp_apply_run. destruct (_ || _); [done|]. intros H Hnew. inv_run.
  match goal with H : get_mcp_apply_run_for_approval _ _ _ _ = _ |- _ =>
    apply get_run_for_approval_ok in H as [Hw1 Hfound] end.
  case_match; inv_run.
  - destruct Hfound as [Hin Hk]. destruct Hnew. rewrite <- Hk. by apply list_elem_of_fmap_2.
  - match goal with H : require_run _ _ _ = _ |- _ => apply require_run_row in H as (Hw & Hin & Hid) end.
    match goal with H : insert_mcp_run _ _ = _ |- _ => by rewrite (insert_mcp_run_only _ _ _ _ _ H Hin Hid) end.
Qed.

(** *** What an apply needs *)

(** An interrupted run of the plan and approval, that had started to change something. *)
Definition resumes db (plan_id : string) (decision : McpPlanDecision) : Prop :=
  ∃ run, mar_row run ∈ db_mcp_runs db ∧ mcp_run_key (mar_row run) = (plan_id, mpd_id decision) ∧
         is_recovering (Some run) = true.

(** The desired configuration of the store, and the adapters, are those the plan was made for; so
    is what was observed, unless an interrupted run is gone on with. *)
Definition still_current s (plan : McpPlan) (decision : McpPlanDecision) : Prop :=
  ∃ s1 s2 observation, as_db s1 = as_db s ∧
    current_hashes installation_id plan e s1 =
      (s2, Ok (observation, pl_config_hash plan, pl_capability_hash plan)) ∧
    (observation = pl_observation_hash plan ∨ resumes (as_db s) (pl_id plan) decision).

(** The run that the call is made for is stored, and is the one of this plan, approval and actor. *)
Record run_of db (plan_id : string) (decision : McpPlanDecision) (actor : string) (row : McpRunRow) : Prop := {
  ro_stored : row ∈ db_mcp_runs db;
  ro_key : mcp_run_key row = (plan_id, mpd_id decision);
  ro_actor : mrr_actor row = actor;
}.

(** All that holds when the configuration is changed by a request that came in at [s]: on the
    database [db] of the moment, by a call of [req]. *)
Record apply_authorized s (plan_id : string) (request : ApplyPlanRequest) db (req : McpApplyExecutionRequest)
    (decision : McpPlanDecision) (row : McpRunRow) : Prop := {
  aa_plan : xr_plan req ∈ db_mcp_plans db ∧ pl_id (xr_plan req) = plan_id;
  aa_request : request_matches (xr_plan req) request;
  aa_approval : ∃ n, approval_holds db (xr_plan req) decision (env_now e n);
  aa_current : still_current s (xr_plan req) decision;
  aa_risk : high_risk (xr_plan req) = true → alr_confirm_high_risk request = true;
  aa_run : run_of db plan_id decision (alr_actor request) row;
  aa_call : xr_run_id req = env_uuid_string e (mrr_id row) ∧ xr_actor req = alr_actor request ∧
            xr_confirm_high_risk req = alr_confirm_high_risk request ∧
            xr_resume_journal req = mrr_journal row;
}.

Definition apply_calls s (plan_id : string) (request : ApplyPlanRequest) db (c : McpCall) : Prop :=
  match c with
  | ApplyMcp req => ∃ decision row, apply_authorized s plan_id request db req decision row
  | RollbackMcp _ => False
  | _ => True
  end.

Lemma run_of_evolves db db' plan_id decision actor row row' :
  run_of db plan_id decision actor row → run_evolves row row' → row' ∈ db_mcp_runs db' →
  run_of db' plan_id decision actor row'.
Proof.
  intros [_ Hk Ha] [Hi _ _ _ _] Hr. unfold run_identity in Hi. injection Hi as ? Hp Hd ? ? ? ? Ha' ? ?.
  split; [done| |congruence]. by rewrite <- Hk, (surjective_pairing (mcp_run_key row')); cbn; rewrite Hp, Hd.
Qed.

Section Apply.
Context (s0 : ApiState McpCall) (plan : McpPlan) (request : ApplyPlanRequest) (decision : McpPlanDecision).
Context (Hschema : schema_ok (as_db s0)) (Hplan : plan ∈ db_mcp_plans (as_db s0)).
Context (Hrequest : request_matches plan request).
Context (Happroval : ∃ n, approval_holds (as_db s0) plan decision (env_now e n)).

Abbreviation allowed := (apply_calls s0 (pl_id plan) request).
Abbreviation progressed := (λ _ s', run_progress (as_db s0) (as_db s')).

Lemma wp_execute_run preflight run s :
  still_current s0 plan decision → (high_risk plan = true → alr_confirm_high_risk request = true) →
  run_progress (as_db s0) (as_db s) → run_of (as_db s) (pl_id plan) decision (alr_actor request) (mar_row run) →
  wp allowed (execute_run plan request preflight run) e s progressed.
Proof.
  intros Hcur Hrisk Hs Hrun. apply wp_bind. apply (wp_checkpoint_actions (as_db s0)); [done|apply Hrun| |done].
  intros run1 s1 Hs1 Hin1 He1. apply wp_bind, wp_store_readonly; [auto with cocli| |intros x s' ->; done].
  intros w show Hw Hshow. inv_run. apply wp_bind. unfold apply_mcp. apply wp_bind, wp_call.
  - destruct (run_progress_tables _ _ Hs1) as [Hps Hds]. cbn [apply_calls].
    change (as_db _) with (as_db s1) at 1. exists decision, (mar_row run1). split; cbn.
    + by rewrite Hps.
    + done.
    + destruct Happroval as (n & [(row & Hnew & Hrow) ? ? ? ? ?]). exists n. split; [|done..].
      exists row. split; [|done]. unfold newest_for in *. by rewrite Hds.
    + done.
    + done.
    + by eapply run_of_evolves.
    + done.
  - intros p s2 Hs2. apply (wp_run_program (as_db s0)); [unfold as_db at 2; by rewrite Hs2|].
    intros [outcome|x] s3 Hs3; [|done].
    by eapply (wp_run_op (as_db s0) _ _ (CompleteRun _ _)).
Qed.

(** What was read about the run of the approval. *)
Definition existing_run (existing : option McpApplyRun) : Prop :=
  match existing with
  | Some run => mar_row run ∈ db_mcp_runs (as_db s0) ∧ mcp_run_key (mar_row run) = (pl_id plan, mpd_id decision)
  | None => (pl_id plan, mpd_id decision) ∉ map mcp_run_key (db_mcp_runs (as_db s0))
  end.

Lemma wp_claim_run existing s (Q : result McpApplyRun ApiError → ApiState McpCall → Prop) :
  as_db s = as_db s0 → existing_run existing →
  (∀ run s', run_progress (as_db s0) (as_db s') →
    run_of (as_db s') (pl_id plan) decision (alr_actor request) (mar_row run) → Q (Ok run) s') →
  (∀ x s', run_progress (as_db s0) (as_db s') → Q (Err x) s') →
  wp allowed (claim_run plan decision request existing) e s Q.
Proof.
  intros Hs Hex Hok Herr.
  assert (run_progress (as_db s0) (as_db s)) as Hp by (rewrite Hs; by apply run_progress_refl).
  unfold claim_run. destruct existing as [run|].
  - destruct (negb _) eqn:Ea; [by apply wp_throw, Herr|]. str_eqs. destruct Hex as [Hin Hk].
    apply wp_ret, Hok; [done|]. split; [by rewrite Hs|done..].
  - eapply (wp_run_op (as_db s0) _ _ (CreateRun _)); [done|done| |done]. intros w run E Hw. apply Hok; [done|].
    assert (schema_ok (w_db (as_world s))) as Hok' by (unfold as_db in Hs; by rewrite Hs).
    destruct (create_run_once _ _ _ _ _ Hok' E) as (Hin & Hk & _). split; [done|done|].
    apply (create_run_actor _ _ _ _ E). unfold as_db in Hs. by rewrite Hs.
Qed.

Lemma wp_apply_approved existing s :
  as_db s = as_db s0 → existing_run existing →
  wp allowed (apply_approved installation_id plan decision request existing) e s progressed.
Proof.
  intros Hs Hex. pose proof (run_progress_refl _ Hschema) as Hrefl. unfold apply_approved.
  apply wp_bind, (wp_quiet allows_looking); [apply observing_current_hashes|done| |intros x s' ->; by rewrite Hs].
  intros [[observation config] capability] s1 Hs1 Hhash. rewrite Hs in Hs1.
  destruct (_ || _) eqn:Edrift.
  - destruct existing as [run|]; [|apply wp_throw; by rewrite Hs1].
    eapply (wp_run_op (as_db s0) _ _ (MarkRecoveryRequired _ _)); by rewrite ?Hs1.
  - destruct (high_risk plan && negb _) eqn:Erisk; [apply wp_throw; by rewrite Hs1|].
    apply wp_bind, wp_bind, wp_call; [done|]. intros a s2 Hs2.
    assert (as_db s2 = as_db s0) as Hdb2 by (unfold as_db at 1; by rewrite Hs2).
    apply wp_from_runtime; [|intros x; by rewrite Hdb2]. intros preflight _.
    destruct (existsb _ _); [apply wp_throw; by rewrite Hdb2|].
    apply wp_bind, wp_claim_run; [done|done| |done]. intros run s3 Hs3 Hrun. apply wp_execute_run; [|..|done|done].
    + str_eqs. subst. exists s, s1, observation. split_and!; [done..|].
      match goal with H : _ && negb (is_recovering _) = false |- _ =>
        apply andb_false_iff in H as [Ho|Hr] end; str_eqs; [by left|right].
      destruct existing as [x|]; [|done]. exists x. destruct Hex. done.
    + intros Hh. rewrite Hh in Erisk. by apply negb_false_iff in Erisk.
Qed.
End Apply.

Lemma wp_apply_plan plan_id request s :
  schema_ok (as_db s) →
  wp (apply_calls s plan_id request) (apply_plan installation_id plan_id request) e s
    (λ _ s', run_progress (as_db s) (as_db s')).
Proof.
  intros Hok. pose proof (run_progress_refl _ Hok) as Hrefl.
  apply wp_bind, (wp_quiet (λ _, True)); [apply silent_require_plan|done| |by intros x s' ->].
  intros plan s1 Hs1 Hplan. apply require_plan_ok in Hplan as [Hin <-].
  apply wp_bind, (wp_quiet (λ _, True)); [apply silent_approval|done| |intros x s' ->; by rewrite Hs1].
  intros decision s2 Hs2 Hd. apply valid_apply_approval_ok in Hd as [Hreq Happ]. rewrite Hs1 in Hs2, Happ.
  apply wp_bind, wp_store_readonly; [auto with cocli| |intros x s' ->; by rewrite Hs2].
  intros w existing Hw Hex. apply get_run_for_approval_ok in Hex as [_ Hex].
  change (w_db (as_world s2)) with (as_db s2) in Hex. rewrite Hs2 in Hw, Hex.
  destruct existing as [run|]; [destruct (is_active_apply_status _)|]; [|apply wp_ret|];
    try by apply wp_apply_approved.
  unfold as_db at 2. cbn. by rewrite Hw.
Qed.

(** C6 (safety). Whatever the request, the store and the runtime: when [apply_plan] changes a configuration, the
    plan is the stored one that was asked for, its newest decision approves it under the hashes of
    the plan and of the request and is not over, the desired configuration and the adapters are
    still those of the plan, as is the observation unless an interrupted run is resumed, a high
    risk is confirmed, and the run the call reports to is stored for this plan, approval and
    actor. *)
Theorem apply_needs_approval plan_id request s db req :
  schema_ok (as_db s) →
  (db, ApplyMcp req) ∈ new_calls s (apply_plan installation_id plan_id request e s).1 →
  ∃ decision row, apply_authorized s plan_id request db req decision row.
Proof.
  intros Hok Hin. destruct (wp_calls _ _ _ _ _ (wp_apply_plan plan_id request s Hok)) as [Hall _].
  by eapply Forall_forall in Hall; [|exact Hin].
Qed.

(** *** A finished run is answered again *)

Lemma newest_for_unique db plan_id row row' :
  schema_ok db → newest_for db plan_id row → newest_for db plan_id row' → row = row'.
Proof.
  intros Hok (Hin & Hp & Hle) (Hin' & Hp' & Hle').
  eapply (NoDup_key_eq mdr_id); [exact (mo_decisions _ (so_mcp _ Hok))|done..|].
  specialize (Hle _ Hin' Hp'). specialize (Hle' _ Hin Hp).
  apply cmp_le_true in Hle, Hle'. rewrite newest_decision_gt in Hle, Hle'. lia.
Qed.

Lemma get_run_decodes plan_id approval_id w w' run :
  get_mcp_apply_run_for_approval plan_id approval_id e w = (w', Ok (Some run)) →
  apply_run_from_row (mar_row run) = Ok run.
Proof.
  unfold get_mcp_apply_run_for_approval, decode_run. intros H. inv_run. case_match; inv_run.
  match goal with H : apply_run_from_row _ = Ok _ |- _ => by rewrite (apply_run_from_row_row _ _ H) end.
Qed.

Lemma get_run_unique plan_id approval_id w w' found run :
  schema_ok (w_db w) → get_mcp_apply_run_for_approval plan_id approval_id e w = (w', Ok found) →
  mar_row run ∈ db_mcp_runs (w_db w) → mcp_run_key (mar_row run) = (plan_id, approval_id) →
  apply_run_from_row (mar_row run) = Ok run → found = Some run.
Proof.
  intros Hok Hg Hin Hk Hrow. destruct (get_run_for_approval_ok _ _ _ _ _ _ Hg) as [_ Hf].
  destruct found as [x|].
  - destruct Hf as [Hx Hkx]. apply get_run_decodes in Hg.
    rewrite (NoDup_key_eq mcp_run_key _ _ _ (mo_run_keys _ (so_mcp _ Hok)) Hx Hin) in Hg; [|congruence]. congruence.
  - destruct Hf. rewrite <- Hk. by apply list_elem_of_fmap_2.
Qed.

Lemma decision_row_id row decision : decision_from_row row = Ok decision → mpd_id decision = mdr_id row.
Proof. unfold decision_from_row, rbind. case_match; [|done]. by intros [= <-]. Qed.

(** Once the run of the decision that counts is finished, asking again changes nothing: neither
    the runtime nor the store is touched, and the answer, if there is one, is that run. *)
Theorem finished_apply_is_answered plan_id request s drow run :
  schema_ok (as_db s) → newest_for (as_db s) plan_id drow →
  mar_row run ∈ db_mcp_runs (as_db s) → mcp_run_key (mar_row run) = (plan_id, mdr_id drow) →
  apply_run_from_row (mar_row run) = Ok run → is_active_apply_status (mar_status run) = false →
  let '(s', r) := apply_plan installation_id plan_id request e s in
  as_db s' = as_db s ∧ new_calls s s' = [] ∧ match r with Ok answer => answer = run | Err _ => True end.
Proof.
  intros Hok Hnew Hin Hkey Hrow Hdone.
  assert (wp (λ _ _, False) (apply_plan installation_id plan_id request) e s
    (λ r s', as_db s' = as_db s ∧ match r with Ok answer => answer = run | Err _ => True end)) as Hwp.
  { apply wp_bind, (wp_quiet (λ _, True)); [apply silent_require_plan|done| |done].
    intros plan s1 Hs1 Hplan. apply require_plan_ok in Hplan as [_ <-].
    apply wp_bind, (wp_quiet (λ _, True)); [apply silent_approval|done| |intros x s' ->; done].
    intros decision s2 Hs2 [_ [n Happ]]%valid_apply_approval_ok. rewrite Hs1 in Hs2, Happ.
    destruct (ah_newest _ _ _ _ Happ) as (row & Hnew' & Hrow').
    rewrite <- (newest_for_unique _ _ _ _ Hok Hnew Hnew') in Hrow'.
    apply wp_bind, wp_store_readonly; [auto with cocli| |intros x s' ->; by rewrite Hs2].
    intros w existing Hw Hex.
    assert (existing = Some run) as ->; [|by rewrite Hdone; apply wp_ret; rewrite <- Hs2].
    apply (get_run_unique _ _ _ _ _ _ (eq_ind_r schema_ok Hok Hs2) Hex); [by rewrite <- Hs2 in Hin| |done].
    by rewrite Hkey, (decision_row_id _ _ Hrow'). }
  destruct (wp_calls _ _ _ _ _ Hwp) as [Hcalls Hq]. destruct (apply_plan _ _ _ _ _) as [s' r]. simpl in *.
  destruct Hq as [Hdb Hr]. split_and!; [done| |done]. destruct (new_calls s s'); [done|]. by inversion Hcalls.
Qed.

(** *** Rollback *)

(** The backups that the results and the journal of a run name. *)
Definition stored_backups (row : McpRunRow) : list McpBackupDescriptor :=
  (omap ar_backup (mrr_actions row) ++ omap je_backup (mrr_journal row))%list.

Lemma add_backups_spec l acc :
  (∀ b, b ∈ fold_left add_backup l acc → b ∈ acc ∨ b ∈ l) ∧
  (∀ b, b ∈ acc ∨ b ∈ l → bk_id b ∈ map bk_id (fold_left add_backup l acc)).
Proof.
  revert acc. induction l as [|x l IH]; intros acc; simpl.
  - split; [auto|]. intros b [Hb|Hb]; [by apply list_elem_of_fmap_2|by apply elem_of_nil in Hb].
  - destruct (IH (add_backup acc x)) as [H1 H2]. unfold add_backup in *.
    destruct (existsb _ acc) eqn:E.
    + split; [set_solver|]. apply existsb_exists in E as (y & Hy%list_elem_of_In & Hid%str_eqb_eq).
      intros b [Hb|[->|Hb]%elem_of_cons]; [by apply H2; left| |by apply H2; right]. rewrite <- Hid. apply H2. by left.
    + split; [set_solver|]. intros b [Hb|[->|Hb]%elem_of_cons]; apply H2; set_solver.
Qed.

Lemma run_backups_spec row :
  (∀ b, b ∈ run_backups row → b ∈ stored_backups row) ∧
  (∀ b, b ∈ stored_backups row → bk_id b ∈ map bk_id (run_backups row)).
Proof.
  destruct (add_backups_spec (omap je_backup (mrr_journal row)) (omap ar_backup (mrr_actions row))) as [H1 H2].
  unfold run_backups, stored_backups. split; intros b.
  - rewrite reverse_Permutation, elem_of_app. auto.
  - rewrite reverse_Permutation, elem_of_app. auto.
Qed.

(** All that holds when a run is rolled back by a call of [req] on the database [db]: [run] is what
    was stored when the request came in at [s]. *)
Record rollback_authorized s (run_id : Uuid) db (req : McpRollbackExecutionRequest) (run : McpApplyRun) : Prop := {
  ra_stored : mar_row run ∈ db_mcp_runs (as_db s) ∧ mrr_id (mar_row run) = run_id;
  ra_finished : unfinished_status (mar_status run) = false;
  ra_first : mar_rollback_status run ≠ Some ApplyRolledBack;
  ra_backups : rr_backups req = run_backups (mar_row run) ∧ rr_backups req ≠ [];
  ra_own : ∀ b, b ∈ rr_backups req → b ∈ stored_backups (mar_row run);
  ra_all : ∀ b, b ∈ stored_backups (mar_row run) → bk_id b ∈ map bk_id (rr_backups req);
  ra_actor : trim_is_empty (rr_actor req) = false;
  ra_run : rr_run_id req = env_uuid_string e run_id;
  ra_journalled : mrr_status (mar_row run) ∉ ["completed"; "rolled_back"] →
    ∃ row entry, row ∈ db_mcp_runs db ∧ mrr_id row = run_id ∧
                 entry ∈ mrr_journal row ∧ je_phase entry = RollingBack;
}.

Definition rollback_calls s (run_id : Uuid) db (c : McpCall) : Prop :=
  match c with RollbackMcp req => ∃ run, rollback_authorized s run_id db req run | _ => False end.

Lemma readonly_fst {A} (m : M A) w w' r : readonly m → m e w = (w', r) → w_db w' = w_db w.
Proof. intros Hm E. specialize (Hm e w). by rewrite E in Hm. Qed.

(** The journal that a checkpoint writes has an entry of its phase. *)
Lemma checkpoint_entry journal entry :
  ∃ entry', entry' ∈ (if journal_has journal entry then journal else sort_journal (journal ++ [entry])%list) ∧
            je_phase entry' = je_phase entry.
Proof.
  destruct (journal_has journal entry) eqn:E.
  - apply existsb_exists in E as (x & Hx & Hs). exists x. split; [by apply list_elem_of_In|].
    unfold same_entry in Hs. by bsimp.
  - exists entry. split; [|done]. apply elem_of_sort_by, elem_of_app. right. apply list_elem_of_here.
Qed.

(** A checkpoint that is not refused by the status of the run has the run remember the phase. *)
Lemma checkpoint_remembered run_id phase entry pf w w' run row :
  schema_ok (w_db w) → row ∈ db_mcp_runs (w_db w) → mrr_id row = run_id →
  mrr_status row ∉ ["completed"; "rolled_back"] → phase = je_phase entry →
  checkpoint_mcp_apply_run run_id phase entry pf None e w = (w', Ok run) →
  ∃ row' entry', row' ∈ db_mcp_runs (w_db w') ∧ mrr_id row' = run_id ∧
                 entry' ∈ mrr_journal row' ∧ je_phase entry' = phase.
Proof.
  intros Hok Hin Hid Hst Hph Hc. unfold checkpoint_mcp_apply_run in Hc.
  apply bind_ok in Hc as (w1 & u & H1 & Hc). apply bind_ok in Hc as (w2 & u' & H2 & Hc).
  apply bind_ok in Hc as (w3 & cur & H3 & Hc). apply require_run_row in H3 as (Hw3 & Hcur & Hidc).
  assert (w_db w2 = w_db w) as Hw2.
  { transitivity (w_db w1); [|exact (readonly_fst _ _ _ _ (readonly_ensure_redacted _) H1)].
    refine (readonly_fst _ _ _ _ _ H2). destruct pf; auto with cocli. }
  destruct (_ && _) eqn:Eg; [done|]. unfold checkpoint_write in Hc. inv_run.
  match goal with H : sql_update _ _ _ _ _ = Ok _ |- _ => injection H as Hdb _ end.
  match goal with H : require_run _ _ _ = (w', _) |- _ => apply require_run_row in H as (Hw' & _ & _) end.
  rewrite Hw3, Hw2 in *.
  assert (mar_row cur = row) as Hrow by (eapply (NoDup_key_eq mrr_id);
    [exact (mo_runs _ (so_mcp _ Hok))|done..|congruence]). rewrite Hrow in *. clear Hrow.
  rewrite Hw', <- Hdb.
  assert (run_is run_id row && negb (status_in ["completed"; "rolled_back"] row) &&
          (bool_decide (mrr_completed_at row = None) || bool_decide (phase = RollingBack)) = true) as Hcond.
  { unfold run_is, status_in. rewrite Hid, N.eqb_refl, bool_decide_eq_false_2 by done.
    apply andb_false_iff in Eg as [Eg|Eg]; bsimp; apply orb_true_iff; rewrite !bool_decide_eq_true;
      [left; by apply eq_None_not_Some|right; by apply dec_stable]. }
  destruct (checkpoint_entry (mrr_journal row) entry) as (entry' & He' & Hp').
  eexists _, entry'. split_and!; [apply list_elem_of_fmap; exists row; split; [reflexivity|done]|..];
    cbn beta; rewrite ?Hcond; [done|done|congruence].
Qed.

Lemma get_run_stored run_id s s' run :
  get_apply_run run_id e s = (s', Ok run) →
  mar_row run ∈ db_mcp_runs (as_db s) ∧ mrr_id (mar_row run) = run_id.
Proof.
  unfold get_apply_run. intros (s1 & o & Ho & Hk)%hbind_ok. apply on_store_ok in Ho as (w & Hw & ->).
  destruct o as [x|]; [|done]. injection Hk as _ ->.
  assert (require_run run_id e (as_world s) = (w, Ok run)) as Hr.
  { unfold require_run. apply bind_ok. eexists _, _. by split; [exact Hw|]. }
  apply require_run_row in Hr. tauto.
Qed.

Lemma silent_get_run run_id : silent (get_apply_run run_id).
Proof. unfold get_apply_run. look. Qed.

End Facts.

(** ** A plan from its creation to its rollback *)
Module ApplyDemo.

Definition backup : McpBackupDescriptor :=
  mkBackup "backup-1" "codex" "/home/ada/.codex/config.toml" "/backups/1" "before" "before" "after" true.

Definition entry (sequence : Z) (phase : McpApplyJournalPhase) (backup : option McpBackupDescriptor)
    : McpApplyJournalEntry :=
  mkJournal sequence 0 "codex" "github" "key" phase 1 None None backup "" [].

(** The snapshot carries its hash, in the encoding of [demo_env]. *)
Definition snapshot : McpCapabilitySnapshot :=
  mkSnapshot (hash_mcp_capabilities str_rev demo_to_json (mkSnapshot "" "today" [])) "today" [].

(** A runtime with nothing configured, which backs up, writes and verifies. *)
#[export] Instance demo_runtime : McpRuntime := {|
  rt_inspect _ := Ok (mkInventory [] [] [] [] "today");
  rt_capabilities _ := Ok snapshot;
  rt_preflight plan _ := Ok (mkReport (pl_id plan) (pl_plan_hash plan) (pl_capability_hash plan)
    (pl_observation_hash plan) (pl_config_hash plan) [] [] true);
  rt_apply req _ :=
    Journal (xr_run_id req) (entry 1 BackedUp (Some backup)) (λ _,
    Journal (xr_run_id req) (entry 2 Written None) (λ _,
    Finish (Ok (mkExecutionResult [mkActionResult 0 "codex" "github" Applied "written"
                  (Some backup) (Some "before") (Some "after")] []
      (mkVerification Matched "observed" [] ∅ UnknownEffect) [entry 1 BackedUp (Some backup); entry 2 Written None]))));
  rt_rollback req _ := Ok (mkRollbackResult
    [mkActionResult 0 "codex" "github" RolledBack "restored" None None None]
    (mkVerification Matched "before" [] ∅ UnknownEffect));
|}.

(** A profile that is bound to the machine. *)
Definition desired : list (Env * StoreOp) :=
  [(demo_env 100, OnMcp "m1" (CreateProfile (mkNewProfile "prod-ops" None [DesiredDemo.github true])));
   (demo_env 200, OnMcp "m1" (CreateBinding (mkNewBinding 100 Machine "m1")))].

Definition machine : TargetInput := mkTargetInput None None.

(** The plan that the handler makes of it. *)
Definition plan : McpPlan :=
  match (create_plan "m1" machine (demo_env 300) (mkApiState (run_store desired) [])).2 with
  | Ok view => pv_plan view
  | Err _ => demo_mcp_plan
  end.

Definition approved : ApiState McpCall := mkApiState (run_store (desired ++
  [(demo_env 300, OnMcp "m1" (SavePlan plan));
   (demo_env 400, OnMcp "m1" (RecordDecision (mkNewDecision (pl_id plan) DecisionApproved (pl_plan_hash plan)
      (pl_observation_hash plan) (pl_config_hash plan) "ada" None (Some 1000))))])) [].

Definition request (confirm : bool) : ApplyPlanRequest :=
  mkApplyRequest (pl_plan_hash plan) (pl_observation_hash plan) (pl_config_hash plan) "ada" confirm.

Definition applied : ApiState McpCall * result McpApplyRun ApiError :=
  apply_plan "m1" (pl_id plan) (request true) (demo_env 500) approved.
End ApplyDemo.

Import ApplyDemo.

Lemma approved_schema : schema_ok (as_db ApplyDemo.approved).
Proof. apply run_store_schema. Qed.

(** The calls of the apply, and of a second request and a rollback that follow it. *)
Definition demo_calls (again : H McpCall McpApplyRun) : list McpCall :=
  map snd (new_calls ApplyDemo.applied.1 (again (demo_env 900) ApplyDemo.applied.1).1).

Example apply_session :
  match ApplyDemo.applied.2 with
  | Ok run => mar_status run = ApplyVerified ∧ mrr_actor (mar_row run) = "ada" ∧
      demo_calls (apply_plan "m1" (pl_id plan) (request true)) = [] ∧
      length (demo_calls (rollback_apply_run (mrr_id (mar_row run)) None)) = 1%nat
  | Err _ => False
  end ∧
  (apply_plan "m1" (pl_id plan) (request false) (demo_env 500) approved).2 =
    Err (bad_request "high-risk MCP plan requires explicit second confirmation").
Proof. vm_compute. repeat split; reflexivity. Qed.

Lemma some_apply (l : list (DB * McpCall)) :
  existsb (λ x, match x.2 with ApplyMcp _ => true | _ => false end) l = true →
  ∃ db req, (db, ApplyMcp req) ∈ l.
Proof.
  intros ([db c] & Hin%list_elem_of_In & Hc)%existsb_exists. destruct c; try done. by eexists _, _.
Qed.

Lemma apply_needs_approval_witness :
  ∃ db req decision row, (db, ApplyMcp req) ∈ new_calls approved
    (apply_plan "m1" (pl_id plan) (request true) (demo_env 500) approved).1 ∧
    apply_authorized "m1" (demo_env 500) approved (pl_id plan) (request true) db req decision row.
Proof.
  destruct (some_apply (new_calls approved
    (apply_plan "m1" (pl_id plan) (request true) (demo_env 500) approved).1)) as (db & req & Hin); [vm_compute; reflexivity|].
  destruct (apply_needs_approval "m1" (demo_env 500) (pl_id plan) (request true) approved db req
    approved_schema Hin) as (decision & row & Hauth).
  exists db, req, decision, row. split; [exact Hin|exact Hauth].
Defined.

(** What the demonstration leaves: well-formed tables, and the run and the decision in them. *)
Lemma applied_schema : schema_ok (as_db applied.1).
Proof.
  destruct (wp_calls _ _ _ _ _ (wp_apply_plan "m1" (demo_env 500) (pl_id plan) (request true) approved
    approved_schema)) as [_ H]. apply run_progress_schema in H. exact H.
Qed.

Lemma demo_newest db plan_id row :
  db_mcp_decisions db = [row] → mdr_plan_id row = plan_id → newest_for db plan_id row.
Proof.
  intros Hd Hp. split_and!; [rewrite Hd; apply list_elem_of_here|done|]. rewrite Hd.
  intros row' ->%list_elem_of_singleton _. apply cmp_le_refl, _.
Qed.

(** One decision on the plan and one run, of that decision, which is verified. *)
Lemma demo_run (s : ApiState McpCall) plan_id id :
  map (λ d, (mdr_plan_id d, mdr_id d)) (db_mcp_decisions (as_db s)) = [(plan_id, id)] →
  map (λ r, (mcp_run_key r, mrr_status r, mrr_rollback_status r)) (db_mcp_runs (as_db s)) =
    [((plan_id, id), "verified", None)] →
  ∃ drow run, newest_for (as_db s) plan_id drow ∧ mar_row run ∈ db_mcp_runs (as_db s) ∧
    mcp_run_key (mar_row run) = (plan_id, mdr_id drow) ∧ apply_run_from_row (mar_row run) = Ok run ∧
    mar_status run = ApplyVerified.
Proof.
  intros Hd Hr. destruct (db_mcp_decisions _) as [|drow [|? ?]] eqn:Ed; [done| |done]. injection Hd as Hp Hi.
  destruct (db_mcp_runs _) as [|row [|? ?]] eqn:Er; [done| |done]. injection Hr as Hk Hki Hst Hrb.
  exists drow, (mkMcpApplyRun row ApplyVerified None
    ((existsb (λ a, bool_decide (is_Some (ar_backup a))) (mrr_actions row) ||
      existsb (λ j, bool_decide (is_Some (je_backup j))) (mrr_journal row)) && true)).
  split_and!; [by apply demo_newest|apply list_elem_of_here| |by unfold apply_run_from_row; cbn; rewrite Hst, Hrb|done].
  cbn. unfold mcp_run_key. congruence.
Qed.

Lemma finished_apply_is_answered_witness :
  let '(s', r) := apply_plan "m1" (pl_id plan) (request true) (demo_env 900) applied.1 in
  as_db s' = as_db applied.1 ∧ new_calls applied.1 s' = [].
Proof.
  destruct (demo_run applied.1 (pl_id plan) 410) as (drow & run & Hnew & Hin & Hkey & Hrun & Hst);
    [vm_compute; reflexivity..|].
  pose proof (finished_apply_is_answered "m1" (demo_env 900) (pl_id plan) (request true) applied.1 drow run
    applied_schema Hnew Hin Hkey Hrun) as H.
  destruct (apply_plan _ _ _ _ _) as [s' r]. rewrite Hst in H. destruct (H eq_refl) as (H1 & H2 & _).
  split; [exact H1|exact H2].
Defined.

