(* ===== verification/McpApiBundle.v ===== *)
(** * Bundles over HTTP

    [crates/cocli-api/src/mcp_http.rs], the handlers of governance bundles: the export, the preview
    of an import against the profiles, runtimes and targets of the destination, and the commit of
    an import whose preview has nothing left to rebind. The bundle of a request is the outcome of
    [parse_mcp_governance_bundle], an argument; so is the pretty printer of JSON. *)
From stdpp Require Import pretty.
From S2P Require Import Prelude Text Mcp McpGovernance McpPlan McpPreflight McpBundle McpRows.
From S2P Require Import StoreTypes StoreDb StoreSchema StoreAgents StoreWorkspaces StoreMcp StoreMcpBundle.
From S2P Require Import Store Coordinator Api McpApi.
Open Scope api_scope.

#[export] Instance McpPortabilityClass_eq_dec : EqDecision McpPortabilityClass.
Proof. solve_decision. Defined.
#[export] Instance McpBundleDiagnostic_eq_dec : EqDecision McpBundleDiagnostic.
Proof. solve_decision. Defined.

(** ** JSON numbers: [Value::as_u64] *)

Definition digit_value (c : Ascii.ascii) : option N :=
  if is_ascii_digit c then Some (Ascii.N_of_ascii c - 48)%N else None.

Fixpoint read_digits (acc : N) (s : string) : option N :=
  match s with
  | "" => Some acc
  | String c s' => match digit_value c with Some d => read_digits (acc * 10 + d)%N s' | None => None end
  end.

Definition as_u64 (value : Json) : option Z :=
  match value with
  | JNumber text =>
      match read_digits 0 text with
      | Some n => if bool_decide (text = "") || (2 ^ 64 <=? Z.of_N n) then None else Some (Z.of_N n)
      | None => None
      end
  | _ => None
  end.

(** ** Errors *)

Definition bundle_error (error : McpBundleError) : ApiError :=
  mkApiError match error with
             | UnsupportedVersion _ | HashMismatch => CONFLICT
             | BundleTooLarge | TooDeep => UNPROCESSABLE_ENTITY
             | BundleInvalid _ => BAD_REQUEST
             end (Api.Text (bundle_error_text error)).

Definition from_bundle {Call A} (r : result A McpBundleError) : H Call A :=
  match r with Ok a => hret a | Err x => hthrow (bundle_error x) end.

(** ** Placeholders *)

Definition placeholder_open : string := "{{rebind:".

(** The loop goes on with a shorter rest: as many rounds as the text has bytes are enough. *)
Fixpoint placeholder_keys (rounds : nat) (rest : string) : list string :=
  match rounds with
  | O => []
  | S rounds' =>
      match split_once placeholder_open rest with
      | None => []
      | Some (_, after_start) =>
          match split_once "}}" after_start with
          | None => []
          | Some (key, rest') => key :: placeholder_keys rounds' rest'
          end
      end
  end.
Definition rebind_placeholders (value : string) : list string :=
  placeholder_keys (S (String.length value)) value.

(** [str::replace], for a pattern that is not empty: every occurrence, from the left. *)
Fixpoint replace_rounds (rounds : nat) (pattern replacement s : string) : string :=
  match rounds with
  | O => s
  | S rounds' =>
      match split_once pattern s with
      | None => s
      | Some (before, after) => before +:+ replacement +:+ replace_rounds rounds' pattern replacement after
      end
  end.
Definition replace (pattern replacement s : string) : string :=
  replace_rounds (S (String.length s)) pattern replacement s.

Fixpoint replace_keys (keys : list string) (replacements : list (string * string)) (next : string)
    : result string ApiError :=
  match keys with
  | [] => Ok next
  | key :: keys' =>
      match map_get key replacements with
      | None => Err (bad_request "machine-local rebinding is required")
      | Some replacement => replace_keys keys' replacements (replace (rebind_placeholder key) replacement next)
      end
  end.
Definition replace_rebind_placeholders (value : string) (replacements : list (string * string))
    : result string ApiError :=
  replace_keys (rebind_placeholders value) replacements value.

(** ** The commit of an import *)

Definition try_option {A B E} (f : A → result B E) (o : option A) : result (option B) E :=
  match o with None => Ok None | Some a => try! b <- f a; Ok (Some b) end.

Definition runtime_key (runtime : string) : string := "runtime:" +:+ runtime.

Definition rebind_secret_ref (rebindings : McpBundleRebindings) (r : McpSecretRef) : result McpSecretRef ApiError :=
  try! reference <- ok_or (map_get (sr_reference r) (rb_secret_refs rebindings))
                      (bad_request "secret rebinding is required");
  Ok (mkSecretRef (sr_location r) (sr_kind r) reference).

Definition rebind_definition (values : list (string * string)) (d : McpCanonicalDefinition)
    : result McpCanonicalDefinition ApiError :=
  try! command <- try_option (λ v, replace_rebind_placeholders v values) (def_command d);
  try! args <- collect_results (λ v, replace_rebind_placeholders v values) (def_args d);
  try! endpoint <- try_option (λ v, replace_rebind_placeholders v values) (def_endpoint d);
  Ok {| def_transport := def_transport d; def_command := command; def_args := args; def_endpoint := endpoint |}.

Definition rebind_desired_server (rebindings : McpBundleRebindings) (server : McpDesiredServer)
    : result McpDesiredServer ApiError :=
  try! runtime <- ok_or (map_get (runtime_key (ds_runtime server)) (rb_runtimes rebindings))
                    (bad_request "runtime rebinding is required");
  try! secret_refs <- collect_results (rebind_secret_ref rebindings) (ds_secret_refs server);
  try! definition <- try_option (rebind_definition (rb_machine_local_values rebindings)) (ds_definition server);
  Ok {| ds_server_id := ds_server_id server; ds_runtime := runtime; ds_alias := ds_alias server;
        ds_definition := definition; ds_desired_enabled := ds_desired_enabled server;
        ds_allow_tools := ds_allow_tools server; ds_deny_tools := ds_deny_tools server;
        ds_approval_mode := ds_approval_mode server; ds_risk_override := ds_risk_override server;
        ds_secret_refs := secret_refs |}.

Section Commit.
Context (parse : string → option Uuid) (rebindings : McpBundleRebindings).

Definition profile_mutation (profile : McpBundleProfile) : result McpBundleImportProfileMutation ApiError :=
  try! servers <- collect_results (rebind_desired_server rebindings) (bp_servers profile);
  try! target <- match map_get (bp_profile_ref profile) (rb_profiles rebindings) with
                 | Some target =>
                     try! id <- ok_or (parse (prb_profile_id target)) (bad_request "profile rebinding id must be a UUID");
                     Ok (Some id, Some (prb_expected_version target))
                 | None => Ok (None, None)
                 end;
  Ok (mkProfileMutation (bp_profile_ref profile) target.1 target.2 (bp_name profile) (bp_description profile) servers).

Definition binding_mutation (binding : McpBundleBinding) : result McpBundleImportBindingMutation ApiError :=
  try! target_id <- ok_or (map_get (bb_target_ref binding) (rb_targets rebindings))
                      (bad_request "binding target rebinding is required");
  Ok (mkBindingMutation (bb_profile_ref binding) (bb_target_ref binding) (bb_target_type binding) target_id).

Definition build_bundle_import_commit (bundle : McpGovernanceBundle) : result McpBundleImportCommit ApiError :=
  try! profiles <- collect_results profile_mutation (gb_profiles bundle);
  try! bindings <- collect_results binding_mutation (gb_relative_bindings bundle);
  Ok (mkImportCommit profiles bindings).
End Commit.

(** ** The preview of an import *)

Definition bundle_diagnostic (code : string) (classification : McpPortabilityClass)
    (profile_ref server_id field rebind_key : option string) (message : string) : McpBundleDiagnostic :=
  mkBundleDiagnostic code classification profile_ref server_id field rebind_key message.

(** [McpCapabilitySupport] derives [Ord]: the variants in the order they are declared in. *)
Definition support_rank (s : McpCapabilitySupport) : Z :=
  match s with Supported => 0 | ReadOnly => 1 | Unsupported => 2 | UnknownSupport => 3 end.

(** [{operation:?}]. *)
Definition operation_debug (o : McpCapabilityOperation) : string :=
  match o with
  | ReadDiscover => "ReadDiscover" | OpAddConfigure => "AddConfigure" | EnableDisable => "EnableDisable"
  | OpRemove => "Remove" | SecretReference => "SecretReference" | Reload => "Reload" | Verify => "Verify"
  | Rollback => "Rollback"
  end.

(** [collect::<BTreeMap<_, _>>()], then [get]: the last entry of a key is the one that is found. *)
Definition last_with {A} (p : A → bool) (l : list A) : option A := find p (reverse l).

Definition runtime_cap (caps : list McpRuntimeCapability) (runtime : string) : option McpRuntimeCapability :=
  last_with (λ c, str_eqb (rc_runtime c) runtime) caps.
Definition stored_profile (profiles : list McpProfile) (id : string) : option McpProfile :=
  last_with (λ p, str_eqb (pf_id p) id) profiles.

Section Preview.
Context (profiles : list McpProfile) (caps : list McpRuntimeCapability) (rebindings : McpBundleRebindings).

Definition actual_support (actual : McpRuntimeCapability) (operation : McpCapabilityOperation)
    : McpCapabilitySupport :=
  match find (λ '(o, _), bool_decide (o = operation)) (rc_operations actual) with
  | Some (_, detail) => cd_support detail
  | None => UnknownSupport
  end.

Definition expectation_diagnostics (expectation : McpBundleCapabilityExpectation) : list McpBundleDiagnostic :=
  let runtime := default (ce_runtime expectation)
                   (map_get (runtime_key (ce_runtime expectation)) (rb_runtimes rebindings)) in
  match runtime_cap caps runtime with
  | Some actual =>
      flat_map (λ '(operation, expected),
        if support_rank (actual_support actual operation) <? support_rank expected then
          [bundle_diagnostic "capability_mismatch" RequiresRebind None None
             (Some (runtime +:+ "." +:+ operation_debug operation)) (Some (runtime_key (ce_runtime expectation)))
             "destination runtime capability is weaker than the bundle expectation"]
        else []) (ce_operations expectation)
  | None =>
      [bundle_diagnostic "runtime_missing" RequiresRebind None None (Some "runtime")
         (Some (runtime_key (ce_runtime expectation))) "destination runtime installation is missing or unbound"]
  end.

(** The change of a profile, or the diagnostic that it has instead. *)
Definition profile_change (profile : McpBundleProfile) : Json + McpBundleDiagnostic :=
  let profile_ref := bp_profile_ref profile in
  let refused code message := inr (bundle_diagnostic code PortabilityBlocked (Some profile_ref) None
                                     (Some "profiles") (Some profile_ref) message) in
  match map_get profile_ref (rb_profiles rebindings) with
  | None => inl (JObject [("operation", JString "create"); ("profileRef", JString profile_ref)])
  | Some target =>
      match stored_profile profiles (prb_profile_id target) with
      | None => refused "profile_rebind_missing_target" "profile rebinding references a missing destination profile"
      | Some existing =>
          if pf_version existing =? prb_expected_version target then
            inl (JObject [("expectedVersion", JInt (prb_expected_version target)); ("operation", JString "update");
                          ("profileId", JString (prb_profile_id target)); ("profileRef", JString profile_ref)])
          else
            refused "profile_version_conflict" ("destination profile version " +:+ pretty (pf_version existing) +:+
              " does not match expected version " +:+ pretty (prb_expected_version target))
      end
  end.

(** [rebindings.runtimes.get(&runtime_key).or_else(|| rebindings.runtimes.get(&server.runtime))]. *)
Definition destination_runtime (server : McpDesiredServer) : option string :=
  match map_get (runtime_key (ds_runtime server)) (rb_runtimes rebindings) with
  | Some runtime => Some runtime
  | None => map_get (ds_runtime server) (rb_runtimes rebindings)
  end.

Definition runtime_diagnostics (profile_ref : string) (server : McpDesiredServer) : list McpBundleDiagnostic :=
  let report code classification message :=
    [bundle_diagnostic code classification (Some profile_ref) (Some (ds_server_id server)) (Some "runtime")
       (Some (runtime_key (ds_runtime server))) message] in
  match destination_runtime server with
  | None => report "runtime_rebind_missing" RequiresRebind "runtime must be explicitly rebound; names are not guessed"
  | Some runtime =>
      match runtime_cap caps runtime with
      | None => report "runtime_installation_missing" PortabilityBlocked
                  "rebound runtime is not installed or discoverable"
      | Some _ => []
      end
  end.

Definition is_key {A} (key : string) (l : list (string * A)) : bool :=
  match map_get key l with Some _ => true | None => false end.

Definition secret_diagnostics (profile_ref : string) (server : McpDesiredServer) : list McpBundleDiagnostic :=
  flat_map (λ secret_ref,
    if is_key (sr_reference secret_ref) (rb_secret_refs rebindings) then []
    else [bundle_diagnostic "secret_ref_rebind_missing" RequiresRebind (Some profile_ref)
            (Some (ds_server_id server)) (Some ("secretRefs." +:+ sr_location secret_ref))
            (Some (sr_reference secret_ref)) "secret reference must be explicitly rebound on import"])
    (ds_secret_refs server).

Definition local_diagnostics (profile_ref : string) (server : McpDesiredServer) : list McpBundleDiagnostic :=
  flat_map (λ key,
    if is_key key (rb_machine_local_values rebindings) then []
    else [bundle_diagnostic "machine_local_rebind_missing" RequiresRebind (Some profile_ref)
            (Some (ds_server_id server)) (Some "definition") (Some key)
            "machine-local command, argument, or endpoint requires explicit rebinding"])
    (flat_map rebind_placeholders (server_values server)).

Definition server_diagnostics (profile_ref : string) (server : McpDesiredServer) : list McpBundleDiagnostic :=
  (runtime_diagnostics profile_ref server ++ secret_diagnostics profile_ref server ++
   local_diagnostics profile_ref server)%list.

Definition profile_diagnostics (profile : McpBundleProfile) : list McpBundleDiagnostic :=
  (match profile_change profile with inl _ => [] | inr d => [d] end ++
   flat_map (server_diagnostics (bp_profile_ref profile)) (bp_servers profile))%list.

Definition profile_changes (bundle : McpGovernanceBundle) : list Json :=
  omap (λ profile, match profile_change profile with inl change => Some change | inr _ => None end)
    (gb_profiles bundle).

Definition binding_change (binding : McpBundleBinding) : Json :=
  let target_id := map_get (bb_target_ref binding) (rb_targets rebindings) in
  JObject [("operation", JString (match target_id with Some _ => "bind" | None => "missing_target_rebind" end));
           ("profileRef", JString (bb_profile_ref binding));
           ("targetId", match target_id with Some id => JString id | None => JNull end);
           ("targetRef", JString (bb_target_ref binding)); ("targetType", target_type_json (bb_target_type binding))].
End Preview.

(** The diagnostics of the bundle itself that matter to an import. *)
Definition kept_portability (bundle : McpGovernanceBundle) : list McpBundleDiagnostic :=
  bfilter (λ d, bool_decide (bd_classification d = PortabilityBlocked) ||
                bool_decide (bd_classification d = MachineLocal)) (gb_portability bundle).

Definition blocking (d : McpBundleDiagnostic) : bool :=
  bool_decide (bd_classification d = PortabilityBlocked) || contains "_missing" (bd_code d) ||
  contains "_mismatch" (bd_code d) || contains "_conflict" (bd_code d).

Definition blocking_count (diagnostics : list McpBundleDiagnostic) : nat := length (bfilter blocking diagnostics).

Definition preview_json (bundle : McpGovernanceBundle) (diagnostics : list McpBundleDiagnostic)
    (profile_changes binding_changes : list Json) : Json :=
  JObject [("applyImported", JBool false); ("approvalImported", JBool false);
           ("bindingChanges", JArray binding_changes);
           ("blockingCount", JInt (Z.of_nat (blocking_count diagnostics)));
           ("bundleHash", JString (gb_content_hash bundle)); ("capabilityExpectationOnly", JBool true);
           ("diagnostics", json_list bundle_diagnostic_json diagnostics);
           ("profileChanges", JArray profile_changes); ("schemaVersion", JInt (gb_schema_version bundle))].

(** [Value::get]. *)
Definition json_get (key : string) (value : Json) : option Json :=
  match value with JObject fields => map_get key fields | _ => None end.

Definition import_preview_can_commit (preview : Json) : bool :=
  match json_get "blockingCount" preview ≫= as_u64 with Some count => count =? 0 | None => false end.

Record BundleExportView := mkExportView {
  bev_bundle : McpGovernanceBundle;
  bev_diagnostics : list McpBundleDiagnostic;
  bev_dry_run : bool;
  bev_filename : string;
  bev_file_content : string;
}.

Record BundleImportView := mkImportView {
  biv_audit : McpBundleImportAudit;
  biv_preview : Json;
  biv_can_commit : bool;
}.

(** ** Handlers *)

(** [Uuid::parse_str] as a function. *)
Definition uuid_parser : M (string → option Uuid) := λ e w, (w, Ok (env_parse_uuid e)).

Section BundleHandlers.
Context (installation_id : string) (to_string_pretty : Json → string) {runtime : McpRuntime}.

Abbreviation handler := (H McpCall).

Definition export_bundle_view (actor : string) (include_capability_expectations dry_run : bool)
    : handler BundleExportView :=
  do! profiles := on_store list_mcp_profiles in
  do! bindings := on_store (list_mcp_profile_bindings None) in
  do! capabilities := if include_capability_expectations
                      then (do! snapshot := inspect_mcp_capabilities in hret (Some snapshot)) else hret None in
  do! sha256 := on_store sha256_digest in
  do! to_vec := on_store json_text in
  do! bundle := from_bundle (export_mcp_governance_bundle sha256 to_vec profiles bindings capabilities actor) in
  (** [&bundle.content_hash[..12]] panics on a shorter text. *)
  if (String.length (gb_content_hash bundle) <? 12)%nat then
    hthrow (mkApiError INTERNAL_SERVER_ERROR (Api.Text "panic"))
  else
    hret (mkExportView bundle (gb_portability bundle) dry_run
            ("cocli-mcp-governance-" +:+ String.substring 0 12 (gb_content_hash bundle) +:+ ".json")
            (to_string_pretty (bundle_json bundle))).

Definition export_bundle_preview (actor : string) (include_capability_expectations : bool) :=
  export_bundle_view actor include_capability_expectations true.
Definition export_bundle (actor : string) (include_capability_expectations : bool) :=
  export_bundle_view actor include_capability_expectations false.

Definition bundle_target_exists (target_type : McpBindingTargetType) (target_id : string) : handler bool :=
  match target_type with
  | Machine => hret (str_eqb target_id installation_id)
  | Mcp.Workspace =>
      do! id := on_store (parse_uuid target_id) in
      match id with
      | None => hret false
      | Some id => do! w := on_store (get_workspace id) in hret (bool_decide (is_Some w) : bool)
      end
  | AgentTarget =>
      do! id := on_store (parse_uuid target_id) in
      match id with
      | None => hret false
      | Some id => do! a := on_store (get_agent id) in hret (bool_decide (is_Some a) : bool)
      end
  end.

Definition binding_diagnostics (rebindings : McpBundleRebindings) (binding : McpBundleBinding)
    : handler (list McpBundleDiagnostic) :=
  let report code classification message :=
    [bundle_diagnostic code classification (Some (bb_profile_ref binding)) None (Some "binding.target")
       (Some (bb_target_ref binding)) message] in
  match map_get (bb_target_ref binding) (rb_targets rebindings) with
  | None => hret (report "target_rebind_missing" RequiresRebind "binding target must be explicitly rebound")
  | Some target_id =>
      do! exists_ := bundle_target_exists (bb_target_type binding) target_id in
      hret (if negb exists_ then
              report "target_missing" PortabilityBlocked
                "rebound target is not part of the destination ownership model"
            else [])
  end.

Fixpoint all_binding_diagnostics (rebindings : McpBundleRebindings) (bindings : list McpBundleBinding)
    : handler (list McpBundleDiagnostic) :=
  match bindings with
  | [] => hret []
  | binding :: bindings' =>
      do! first := binding_diagnostics rebindings binding in
      do! rest := all_binding_diagnostics rebindings bindings' in
      hret (first ++ rest)%list
  end.

Definition build_bundle_import_preview (bundle : McpGovernanceBundle) (rebindings : McpBundleRebindings)
    : handler Json :=
  do! profiles := on_store list_mcp_profiles in
  do! capabilities := inspect_mcp_capabilities in
  let caps := cs_runtimes capabilities in
  do! targets := all_binding_diagnostics rebindings (gb_relative_bindings bundle) in
  let diagnostics := dedup (sort_by diagnostic_order
    (kept_portability bundle ++
     flat_map (expectation_diagnostics caps rebindings) (gb_capability_expectations bundle) ++
     flat_map (profile_diagnostics profiles caps rebindings) (gb_profiles bundle) ++ targets)%list) in
  hret (preview_json bundle diagnostics (profile_changes profiles rebindings bundle)
          (map (binding_change rebindings) (gb_relative_bindings bundle))).

Definition import_bundle_preview (parsed : result McpGovernanceBundle McpBundleError) (actor : string)
    (rebindings : McpBundleRebindings) : handler BundleImportView :=
  do! bundle := from_bundle parsed in
  do! preview := build_bundle_import_preview bundle rebindings in
  do! audit := on_store (create_mcp_bundle_import_audit (mkNewImport bundle actor rebindings preview)) in
  hret (mkImportView audit preview (import_preview_can_commit preview)).

Definition require_audit (audit_id : Uuid) : handler McpBundleImportAudit :=
  do! audit := on_store (get_mcp_bundle_import_audit audit_id) in
  hsome (not_found "MCP bundle import audit not found") audit.

(** The view of an audit that cannot be committed (any more). *)
Definition settled_view (audit : McpBundleImportAudit) : BundleImportView :=
  mkImportView audit (mir_preview (mia_row audit)) false.

Definition get_bundle_import (audit_id : Uuid) : handler BundleImportView :=
  do! audit := require_audit audit_id in
  if bool_decide (mia_status audit = ImportCommitted) then hret (settled_view audit)
  else hret (mkImportView audit (mir_preview (mia_row audit)) (import_preview_can_commit (mir_preview (mia_row audit)))).

Definition rebind_bundle_import (audit_id : Uuid) (expected_version : Z) (rebindings : McpBundleRebindings)
    : handler BundleImportView :=
  do! audit := require_audit audit_id in
  do! preview := build_bundle_import_preview (mir_bundle (mia_row audit)) rebindings in
  do! audit := on_store (update_mcp_bundle_import_preview audit_id expected_version rebindings preview) in
  hret (mkImportView audit preview (import_preview_can_commit preview)).

Definition cancel_bundle_import (audit_id : Uuid) (expected_version : Z) (actor : string)
    : handler BundleImportView :=
  if trim_is_empty actor then hthrow (bad_request "import actor is required")
  else
    do! audit := on_store (cancel_mcp_bundle_import_audit audit_id expected_version) in
    hret (settled_view audit).

Definition commit_bundle_import (audit_id : Uuid) (expected_version : Z) (actor : string)
    : handler BundleImportView :=
  do! audit := require_audit audit_id in
  if bool_decide (mia_status audit = ImportCommitted) then hret (settled_view audit)
  else if negb (str_eqb (mir_actor (mia_row audit)) actor) then
    hthrow (conflict "MCP bundle import must be committed by the preview actor")
  else if negb (bool_decide (mia_status audit = ImportPreviewed)) ||
          negb (mir_version (mia_row audit) =? expected_version) then
    hthrow (conflict "MCP bundle import audit version changed before commit")
  else
    let bundle := mir_bundle (mia_row audit) in
    let rebindings := mir_rebindings (mia_row audit) in
    do! sha256 := on_store sha256_digest in
    do! to_vec := on_store json_text in
    from_bundle (validate_mcp_governance_bundle sha256 to_vec bundle) ;!;
    do! preview := build_bundle_import_preview bundle rebindings in
    if negb (import_preview_can_commit preview) then
      hthrow (conflict "MCP bundle import has unresolved rebinding or compatibility diagnostics")
    else
      do! parse := on_store uuid_parser in
      do! commit := match build_bundle_import_commit parse rebindings bundle with
                    | Ok commit => hret commit
                    | Err x => hthrow x
                    end in
      do! audit := on_store (commit_mcp_bundle_import installation_id audit_id expected_version commit) in
      hret (settled_view audit).
End BundleHandlers.

(** ** Numbers that are printed are read back *)

Lemma digit_value_pretty d : (d < 10)%N → digit_value (pretty_N_char d) = Some d.
Proof.
  intros Hd. assert (d = 0 ∨ d = 1 ∨ d = 2 ∨ d = 3 ∨ d = 4 ∨ d = 5 ∨ d = 6 ∨ d = 7 ∨ d = 8 ∨ d = 9)%N as H by lia.
  by decompose [or] H; subst.
Qed.

Lemma read_digits_go n s : read_digits 0 (pretty_N_go n s) = read_digits n s.
Proof.
  revert s. induction (N.lt_wf_0 n) as [n _ IH]. intros s. destruct (decide (0 < n)%N) as [Hn|Hn].
  - rewrite pretty_N_go_step by done. rewrite IH by (apply N.div_lt; lia). cbn [read_digits].
    rewrite digit_value_pretty by (apply N.mod_lt; lia). f_equal. pose proof (N.div_mod n 10). lia.
  - assert (n = 0)%N as -> by lia. by rewrite pretty_N_go_0.
Qed.

Lemma read_digits_pretty n : read_digits 0 (pretty n) = Some n.
Proof.
  unfold pretty, pretty_N. case_decide as Hn; [by subst|]. by rewrite read_digits_go.
Qed.

(** A count is zero for the commit exactly when it is. *)
Lemma count_is_zero (n : nat) :
  match as_u64 (JInt (Z.of_nat n)) with Some count => count =? 0 | None => false end = true ↔ n = 0%nat.
Proof.
  unfold as_u64, JInt. assert (pretty (Z.of_nat n) = pretty (N.of_nat n)) as ->.
  { unfold pretty at 1, pretty_Z. by destruct n. }
  rewrite read_digits_pretty. case_bool_decide as He.
  - exfalso. pose proof (read_digits_pretty (N.of_nat n)) as H. rewrite He in H. injection H as H.
    by rewrite <- H in He.
  - simpl. destruct (_ <=? _) eqn:El; bsimp; [split; [done|lia]|]. rewrite Z.eqb_eq. lia.
Qed.

Lemma can_commit_iff bundle diagnostics pc bc :
  import_preview_can_commit (preview_json bundle diagnostics pc bc) = true ↔
  ∀ d, d ∈ diagnostics → blocking d = false.
Proof.
  trans (blocking_count diagnostics = 0%nat); [exact (count_is_zero _)|]. unfold blocking_count. rewrite length_zero_iff_nil. split.
  - intros Hn d Hd. destruct (blocking d) eqn:Eb; [|done].
    assert (d ∈ bfilter blocking diagnostics) as Hin by by apply elem_of_bfilter. rewrite Hn in Hin. by inversion Hin.
  - intros Hall. destruct (bfilter blocking diagnostics) as [|d l] eqn:E; [done|].
    assert (d ∈ bfilter blocking diagnostics) as [Hin Hb]%elem_of_bfilter by (rewrite E; apply list_elem_of_here).
    by rewrite Hall in Hb.
Qed.

(** ** A clean preview can be committed *)

Lemma elem_of_flat_map {A B} (f : A → list B) (l : list A) y : y ∈ flat_map f l ↔ ∃ x, x ∈ l ∧ y ∈ f x.
Proof. rewrite list_elem_of_In, in_flat_map. by setoid_rewrite list_elem_of_In. Qed.

Lemma collect_results_total {A B E} (f : A → result B E) (l : list A) :
  (∀ x, x ∈ l → ∃ y, f x = Ok y) → ∃ ys, collect_results f l = Ok ys.
Proof.
  induction l as [|x l IH]; intros Hf; simpl; [by eexists|].
  destruct (Hf x (list_elem_of_here _ _)) as [y ->]. destruct IH as [ys ->]; [|by eexists].
  intros z Hz. apply Hf. by apply list_elem_of_further.
Qed.

Lemma is_key_get {A} key (l : list (string * A)) : is_key key l = true ↔ ∃ a, map_get key l = Some a.
Proof. unfold is_key. destruct (map_get key l); naive_solver. Qed.

(** What the rebindings of an import have to name. *)
Section Complete.
Context (rebindings : McpBundleRebindings).

Record server_rebound (server : McpDesiredServer) : Prop := {
  sv_secrets : ∀ r, r ∈ ds_secret_refs server → is_key (sr_reference r) (rb_secret_refs rebindings) = true;
  sv_locals : ∀ v key, v ∈ server_values server → key ∈ rebind_placeholders v →
    is_key key (rb_machine_local_values rebindings) = true;
  sv_runtime : ∃ name, destination_runtime rebindings server = Some name;
}.

(** The runtime is rebound under the key that the commit asks for. *)
Definition runtime_keyed (server : McpDesiredServer) : Prop :=
  is_key (runtime_key (ds_runtime server)) (rb_runtimes rebindings) = true.

Lemma replace_keys_total keys replacements next :
  (∀ key, key ∈ keys → is_key key replacements = true) → ∃ text, replace_keys keys replacements next = Ok text.
Proof.
  revert next. induction keys as [|key keys IH]; intros next Hk; simpl; [by eexists|].
  destruct (proj1 (is_key_get _ _) (Hk key (list_elem_of_here _ _))) as [r ->]. apply IH.
  intros k Hin. apply Hk. by apply list_elem_of_further.
Qed.

Lemma try_option_total {A B E} (f : A → result B E) (o : option A) :
  (∀ a, o = Some a → ∃ b, f a = Ok b) → ∃ b, try_option f o = Ok b.
Proof. intros Hf. destruct o as [a|]; simpl; [|by eexists]. destruct (Hf a eq_refl) as [b ->]. by eexists. Qed.

Lemma rebind_server_total server :
  server_rebound server → runtime_keyed server → ∃ rebound, rebind_desired_server rebindings server = Ok rebound.
Proof.
  intros [Hs Hl _] Hr. unfold rebind_desired_server. destruct (proj1 (is_key_get _ _) Hr) as [name ->]. simpl.
  destruct (collect_results_total (rebind_secret_ref rebindings) (ds_secret_refs server)) as [refs ->].
  { intros r Hin. unfold rebind_secret_ref. destruct (proj1 (is_key_get _ _) (Hs r Hin)) as [x ->]. by eexists. }
  simpl.
  destruct (try_option_total (rebind_definition (rb_machine_local_values rebindings)) (ds_definition server))
    as [d ->]; [|by eexists].
  intros d Hd. unfold server_values, definition_values in Hl. rewrite Hd in Hl. unfold rebind_definition.
  destruct (try_option_total (λ v, replace_rebind_placeholders v (rb_machine_local_values rebindings)) (def_command d))
    as [c ->].
  { intros v Hv. apply replace_keys_total. intros key Hk. apply (Hl v key); [|done]. rewrite Hv. set_solver. }
  simpl.
  destruct (collect_results_total (λ v, replace_rebind_placeholders v (rb_machine_local_values rebindings)) (def_args d))
    as [a ->].
  { intros v Hv. apply replace_keys_total. intros key Hk. apply (Hl v key); [|done]. set_solver. }
  simpl.
  destruct (try_option_total (λ v, replace_rebind_placeholders v (rb_machine_local_values rebindings)) (def_endpoint d))
    as [p ->]; [|by eexists].
  intros v Hv. apply replace_keys_total. intros key Hk. apply (Hl v key); [|done]. rewrite Hv. set_solver.
Qed.
End Complete.

Section PreviewFacts.
Context (installation_id : string) {runtime : McpRuntime} (e : Env).
Implicit Types s : ApiState McpCall.

(** Nothing of an import is left open, on the store and the runtimes of the moment. *)
Record import_complete s (caps : list McpRuntimeCapability) (bundle : McpGovernanceBundle)
    (rebindings : McpBundleRebindings) : Prop := {
  ic_servers : ∀ p server, p ∈ gb_profiles bundle → server ∈ bp_servers p → server_rebound rebindings server;
  ic_runtimes : ∀ p server name, p ∈ gb_profiles bundle → server ∈ bp_servers p →
    destination_runtime rebindings server = Some name → ∃ c, c ∈ caps ∧ rc_runtime c = name;
  ic_profiles : ∀ p target, p ∈ gb_profiles bundle → map_get (bp_profile_ref p) (rb_profiles rebindings) = Some target →
    ∃ row, row ∈ db_mcp_profiles (as_db s) ∧ env_uuid_string e (mpr_id row) = prb_profile_id target ∧
           mpr_version row = prb_expected_version target;
  ic_targets : ∀ b, b ∈ gb_relative_bindings bundle → ∃ target_id s1 s2,
    map_get (bb_target_ref b) (rb_targets rebindings) = Some target_id ∧ as_db s1 = as_db s ∧
    bundle_target_exists installation_id (bb_target_type b) target_id e s1 = (s2, Ok true);
}.

Lemma last_with_elem {A} (p : A → bool) (l : list A) x : last_with p l = Some x → x ∈ l ∧ p x = true.
Proof.
  intros [Hin Hp]%find_Some. split; [|done]. by rewrite reverse_Permutation in Hin.
Qed.


Lemma clean_runtime caps rebindings ref server :
  (∀ d, d ∈ runtime_diagnostics caps rebindings ref server → blocking d = false) →
  ∃ name c, destination_runtime rebindings server = Some name ∧ c ∈ caps ∧ rc_runtime c = name.
Proof.
  unfold runtime_diagnostics. intros Hc. destruct (destination_runtime rebindings server) as [name|].
  - destruct (runtime_cap caps name) as [c|] eqn:E.
    + apply last_with_elem in E as [? Hn]. exists name, c. split_and!; [done..|by apply str_eqb_eq].
    + by specialize (Hc _ (list_elem_of_here _ _)).
  - by specialize (Hc _ (list_elem_of_here _ _)).
Qed.

Lemma clean_server caps rebindings ref server :
  (∀ d, d ∈ server_diagnostics caps rebindings ref server → blocking d = false) →
  server_rebound rebindings server ∧
  ∀ name, destination_runtime rebindings server = Some name → ∃ c, c ∈ caps ∧ rc_runtime c = name.
Proof.
  unfold server_diagnostics. intros Hc.
  destruct (clean_runtime caps rebindings ref server) as (name & c & Hn & Hin & Hname); [intros; apply Hc; set_solver|].
  split; [split|].
  - intros r Hr. destruct (is_key _ _) eqn:E; [done|]. exfalso.
    enough (∃ d, d ∈ secret_diagnostics rebindings ref server ∧ blocking d = true) as (d & Hd & Hb).
    { rewrite Hc in Hb; [done|set_solver]. }
    eexists. split; [apply elem_of_flat_map; exists r; split; [done|]; rewrite E; apply list_elem_of_here|done].
  - intros v key Hv Hk. destruct (is_key _ _) eqn:E; [done|]. exfalso.
    enough (∃ d, d ∈ local_diagnostics rebindings ref server ∧ blocking d = true) as (d & Hd & Hb).
    { rewrite Hc in Hb; [done|set_solver]. }
    eexists. split; [apply elem_of_flat_map; exists key; split; [apply elem_of_flat_map; by exists v|
      rewrite E; apply list_elem_of_here]|done].
  - by exists name.
  - intros name' Hn'. exists c. split; [done|congruence].
Qed.

Lemma clean_profile profiles caps rebindings p target :
  (∀ d, d ∈ profile_diagnostics profiles caps rebindings p → blocking d = false) →
  map_get (bp_profile_ref p) (rb_profiles rebindings) = Some target →
  ∃ existing, existing ∈ profiles ∧ pf_id existing = prb_profile_id target ∧
              pf_version existing = prb_expected_version target.
Proof.
  unfold profile_diagnostics, profile_change. intros Hc Ht. rewrite Ht in Hc.
  destruct (stored_profile profiles (prb_profile_id target)) as [x|] eqn:E.
  - apply last_with_elem in E as [Hin Hid]. exists x. split_and!; [done|by apply str_eqb_eq|].
    destruct (pf_version x =? prb_expected_version target) eqn:Ev; [by bsimp|].
    by specialize (Hc _ (list_elem_of_here _ _)).
  - by specialize (Hc _ (list_elem_of_here _ _)).
Qed.

Lemma silent_target_exists t id : quiet e (λ _, True) (bundle_target_exists installation_id t id).
Proof.
  unfold bundle_target_exists. destruct t; [apply quiet_ret|..];
    (apply quiet_bind; [apply quiet_store; auto with cocli|]; intros [u|]; [|apply quiet_ret];
     apply quiet_bind; [|intros; apply quiet_ret]; apply quiet_store).
  - apply readonly_get_workspace.
  - apply readonly_get_agent.
Qed.

Lemma silent_binding_diagnostic rebindings b :
  quiet e (λ _, True) (binding_diagnostics installation_id rebindings b).
Proof.
  unfold binding_diagnostics. destruct (map_get _ _); [|apply quiet_ret].
  apply quiet_bind; [apply silent_target_exists|intros; apply quiet_ret].
Qed.

Lemma silent_binding_diagnostics rebindings bindings :
  quiet e (λ _, True) (all_binding_diagnostics installation_id rebindings bindings).
Proof.
  induction bindings as [|b bindings IH]; simpl; [apply quiet_ret|].
  apply quiet_bind; [apply silent_binding_diagnostic|intros; apply quiet_bind; [done|intros; apply quiet_ret]].
Qed.

Lemma quiet_db {A} (m : H McpCall A) s s' r : quiet e (λ _, True) m → m e s = (s', r) → as_db s' = as_db s.
Proof. intros Hm E. destruct (Hm (λ _ _, True) s I) as [_ H]. by rewrite E in H. Qed.

Lemma clean_bindings rebindings bindings s s' ds b :
  all_binding_diagnostics installation_id rebindings bindings e s = (s', Ok ds) →
  (∀ d, d ∈ ds → blocking d = false) → b ∈ bindings → ∃ target_id s1 s2,
    map_get (bb_target_ref b) (rb_targets rebindings) = Some target_id ∧ as_db s1 = as_db s ∧
    bundle_target_exists installation_id (bb_target_type b) target_id e s1 = (s2, Ok true).
Proof.
  revert s ds. induction bindings as [|b' bindings IH]; intros s ds; simpl; [by intros _ _ ?%elem_of_nil|].
  intros (s1 & first & Hf & Hk)%hbind_ok Hc. apply hbind_ok in Hk as (s2 & rest & Hr & [= <- <-]).
  intros [->|Hb]%elem_of_cons.
  - unfold binding_diagnostics in Hf. destruct (map_get _ _) as [id|].
    + apply hbind_ok in Hf as (s3 & x & Hx & [= <- <-]). exists id, s, s3. split_and!; [done..|].
      destruct x; [done|]. simpl in Hc. by specialize (Hc _ (list_elem_of_here _ _)).
    + injection Hf as <- <-. by specialize (Hc _ (list_elem_of_here _ _)).
  - destruct (IH s1 rest Hr) as (id & s3 & s4 & Hg & Hd & He); [intros; apply Hc; set_solver|done|].
    exists id, s3, s4. split_and!; [done| |done]. rewrite Hd.
    exact (quiet_db _ _ _ _ (silent_binding_diagnostic rebindings b') Hf).
Qed.

Lemma list_profiles_rows w w' profiles p :
  list_mcp_profiles e w = (w', Ok profiles) → p ∈ profiles →
  ∃ row, row ∈ db_mcp_profiles (w_db w) ∧ pf_id p = env_uuid_string e (mpr_id row) ∧ pf_version p = mpr_version row.
Proof.
  unfold list_mcp_profiles. intros Hl Hp. inv_run. subst profiles.
  apply list_elem_of_fmap in Hp as (row & -> & Hrow). exists row. by rewrite elem_of_sort_by in Hrow.
Qed.

Lemma inspect_same_db s s' snapshot : inspect_mcp_capabilities e s = (s', Ok snapshot) → as_db s' = as_db s.
Proof.
  unfold inspect_mcp_capabilities. intros (s1 & r & Hc & Hk)%hbind_ok. injection Hc as <- <-.
  destruct (rt_capabilities _); [|done]. by injection Hk as <- _.
Qed.

(** A preview that can be committed leaves nothing open. *)
Lemma clean_preview_complete bundle rebindings s s' preview :
  build_bundle_import_preview installation_id bundle rebindings e s = (s', Ok preview) →
  import_preview_can_commit preview = true → ∃ caps, import_complete s caps bundle rebindings.
Proof.
  intros Hb Hc. apply hbind_ok in Hb as (s1 & profiles & Hp & Hb). apply on_store_ok in Hp as (w & Hp & ->).
  apply hbind_ok in Hb as (s2 & snapshot & Hs & Hb). apply hbind_ok in Hb as (s3 & targets & Ht & Hb).
  injection Hb as <- <-. rewrite can_commit_iff in Hc. setoid_rewrite elem_of_dedup in Hc.
  setoid_rewrite elem_of_sort_by in Hc. exists (cs_runtimes snapshot).
  assert (∀ p, p ∈ gb_profiles bundle → ∀ d,
    d ∈ profile_diagnostics profiles (cs_runtimes snapshot) rebindings p → blocking d = false) as Hprof.
  { intros p Hin d Hd. apply Hc. rewrite !elem_of_app. right. right. left. apply elem_of_flat_map. by exists p. }
  assert (as_db s2 = as_db s) as Hdb.
  { rewrite (inspect_same_db _ _ _ Hs). pose proof (readonly_list_mcp_profiles e (as_world s)) as H. by rewrite Hp in H. }
  assert (∀ p server, p ∈ gb_profiles bundle → server ∈ bp_servers p → ∀ d,
    d ∈ server_diagnostics (cs_runtimes snapshot) rebindings (bp_profile_ref p) server → blocking d = false) as Hserver.
  { intros p server Hin Hsv d Hd. apply (Hprof p Hin), elem_of_app. right. apply elem_of_flat_map. by exists server. }
  split.
  - intros p server Hin Hsv. exact (proj1 (clean_server _ _ _ _ (Hserver p server Hin Hsv))).
  - intros p server name Hin Hsv. exact (proj2 (clean_server _ _ _ _ (Hserver p server Hin Hsv)) name).
  - intros p target Hin Hg. destruct (clean_profile _ _ _ _ _ (Hprof p Hin) Hg) as (x & Hx & Hid & Hv).
    destruct (list_profiles_rows _ _ _ _ Hp Hx) as (row & Hrow & Hid' & Hv'). exists row. split_and!; [done|congruence..].
  - intros b Hin. destruct (clean_bindings _ _ _ _ _ b Ht) as (id & a1 & a2 & ? & Ha & ?); [|done|].
    { intros d Hd. apply Hc. rewrite !elem_of_app. auto. }
    exists id, a1, a2. by rewrite Ha.
Qed.


(** ** What a commit needs *)

Lemma observing_preview bundle rebindings :
  quiet e allows_looking (build_bundle_import_preview installation_id bundle rebindings).
Proof.
  apply quiet_bind; [apply quiet_store, readonly_list_mcp_profiles|]. intros profiles.
  apply quiet_bind; [apply observing_capabilities|]. intros snapshot.
  apply quiet_bind; [|intros; apply quiet_ret]. intros C s _. by apply silent_binding_diagnostics.
Qed.

Lemma require_audit_row audit_id s s' audit :
  require_audit audit_id e s = (s', Ok audit) →
  as_db s' = as_db s ∧ mia_row audit ∈ db_mcp_imports (as_db s) ∧ mir_id (mia_row audit) = audit_id ∧
  mir_status (mia_row audit) = as_str (mia_status audit).
Proof.
  unfold require_audit. intros (s1 & o & Ho & Hk)%hbind_ok. apply on_store_ok in Ho as (w & Hw & ->).
  destruct o as [x|]; [|done]. injection Hk as <- ->.
  assert (require_import audit_id e (as_world s) = (w, Ok audit)) as Hr.
  { unfold require_import. apply bind_ok. eexists _, _. by split; [exact Hw|]. }
  pose proof (readonly_require_import audit_id e (as_world s)) as Hdb. rewrite Hr in Hdb.
  apply require_import_row in Hr. unfold as_db. cbn in *. tauto.
Qed.

(** The import is stored as previewed, at this version and by this actor, its bundle is valid and
    its rebindings leave nothing open. *)
Record committable s (audit_id : Uuid) (expected_version : Z) (actor : string) (row : McpImportRow) : Prop := {
  cm_stored : row ∈ db_mcp_imports (as_db s) ∧ mir_id row = audit_id;
  cm_status : mir_status row = as_str ImportPreviewed;
  cm_version : mir_version row = expected_version;
  cm_actor : mir_actor row = actor;
  cm_valid : validate_mcp_governance_bundle (env_sha256 e) (env_to_json e) (mir_bundle row) = Ok tt;
  cm_complete : ∃ caps, import_complete s caps (mir_bundle row) (mir_rebindings row);
}.

Lemma import_complete_db s s1 caps bundle rebindings :
  as_db s1 = as_db s → import_complete s1 caps bundle rebindings → import_complete s caps bundle rebindings.
Proof. intros Hs [H1 H2 H3 H4]. rewrite Hs in *. split; [done..|]. intros b Hb. destruct (H4 b Hb) as (i & a & c & ? & Ha & ?).
  exists i, a, c. by rewrite Ha. Qed.

End PreviewFacts.

(** ** An import from its preview to its commit *)
Module BundleApiDemo.

Definition server : McpDesiredServer :=
  with_definition (DesiredDemo.github true)
    (mkDefinition Stdio (Some "{{rebind:machine-local:command}}") ["--root={{rebind:machine-local:root}}"] None).
Definition unhashed : McpGovernanceBundle :=
  mkBundle 2 "alice" (mkProvenance "cocli" "1" ∅)
    [mkBundleProfile "profile:dev" "Dev tools" None 1 [server]]
    [mkBundleBinding "profile:dev" Machine "target:1"]
    [mkExpectation "codex" "codex-native" None "1" [(OpAddConfigure, Supported)]] [] "".
Definition bundle : McpGovernanceBundle :=
  with_hash unhashed (mcp_bundle_content_hash str_rev demo_to_json unhashed).

(** Everything rebound, the runtime under the given key. *)
Definition rebindings (key : string) : McpBundleRebindings :=
  mkRebindings [("target:1", "m1")] [(key, "codex")] [("env://GITHUB_AUTH", "env://CI_AUTH")]
    [("machine-local:command", "/opt/gh"); ("machine-local:root", "/srv")] [].

(** A runtime that supports the addition of servers as given. *)
Definition with_support (support : McpCapabilitySupport) : McpRuntime := {|
  rt_inspect := @rt_inspect ApplyDemo.demo_runtime;
  rt_capabilities _ := Ok (mkSnapshot "adapters" "today"
    [mkCapability "codex" "codex-native" None (Some "1.0") "1" "/w/.codex/config.toml" "mcp_servers" NewSessionOnly
       [(OpAddConfigure, mkDetail support "probed" [])]]);
  rt_preflight := @rt_preflight ApplyDemo.demo_runtime;
  rt_apply := @rt_apply ApplyDemo.demo_runtime;
  rt_rollback := @rt_rollback ApplyDemo.demo_runtime;
|}.

(** The preview of the import, then its commit. *)
Definition previewed (support : McpCapabilitySupport) (key : string) :=
  @import_bundle_preview "m1" (with_support support) (Ok bundle) "ada" (rebindings key) (demo_env 100)
    (mkApiState start []).
Definition committed (support : McpCapabilitySupport) (key : string) :=
  match previewed support key with
  | (s, Ok view) => let row := mia_row (biv_audit view) in
      (biv_can_commit view,
       @commit_bundle_import "m1" (with_support support) (mir_id row) (mir_version row) "ada" (demo_env 200) s)
  | (s, Err x) => (false, (s, Err x))
  end.
End BundleApiDemo.
Import BundleApiDemo.

Lemma read_show_bits p : read_bits (show_positive p) = Some p.
Proof.
  assert (∀ c s, s ≠ "" → read_bits (String c s) = if Ascii.eqb c (Ascii.ascii_of_N 49) then xI <$> read_bits s
    else if Ascii.eqb c (Ascii.ascii_of_N 48) then xO <$> read_bits s else None) as Hstep by by intros c [].
  assert (∀ p, show_positive p ≠ "") as Hne by by intros [].
  induction p as [p IH|p IH|]; [..|done]; cbn [show_positive];
    (rewrite append_cons, append_nil_l, Hstep, IH by apply Hne); done.
Qed.
Lemma read_show_uuid id : read_uuid (show_uuid id) = Some id.
Proof.
  destruct id as [|p]; [done|]. unfold read_uuid, show_uuid. rewrite read_show_bits.
  by destruct p as [[]|[]|].
Qed.

(** The whole import: previewed as committable, and committed. *)
Example import_session :
  (committed Supported "runtime:codex").1 = true ∧
  match (committed Supported "runtime:codex").2.2 with
  | Ok view => mia_status (biv_audit view) = ImportCommitted
  | Err _ => False
  end.
Proof. vm_compute. split; reflexivity. Qed.


(** *** A preview that promises too much

    The preview finds the runtime of a server under its bare name too, the commit under the key
    [runtime:..] only: it is refused after a preview that calls it committable. *)
Theorem bare_runtime_key_refused :
  (committed Supported "codex").1 = true ∧
  (committed Supported "codex").2.2 = Err (bad_request "runtime rebinding is required").
Proof. vm_compute. split; reflexivity. Qed.

(** *** Capabilities are compared the wrong way round

    [Supported] is the least of the variants, so that the test [actual < expected] is for a
    destination that is stronger than the bundle expects. Whatever the destination supports, an
    expectation that everything is supported is never reported as missed; an expectation that
    something is unsupported is, by a runtime that supports it. *)
Theorem weaker_capability_accepted caps rebindings expectation :
  (∀ x, x ∈ ce_operations expectation → x.2 = Supported) →
  (∀ d, d ∈ expectation_diagnostics caps rebindings expectation → bd_code d ≠ "capability_mismatch") ∧
  (committed Unsupported "runtime:codex").1 = true ∧
  map bd_code (expectation_diagnostics
    [mkCapability "codex" "codex-native" None None "1" "" "" NewSessionOnly
       [(OpAddConfigure, mkDetail Supported "" [])]] (BundleApiDemo.rebindings "runtime:codex")
    (mkExpectation "codex" "codex-native" None "1" [(OpAddConfigure, Unsupported)])) = ["capability_mismatch"].
Proof.
  intros Hall. split_and!; [|vm_compute; reflexivity..]. intros d Hd. unfold expectation_diagnostics in Hd.
  destruct (runtime_cap _ _) as [actual|]; [|by apply list_elem_of_singleton in Hd as ->].
  apply elem_of_flat_map in Hd as ([o x] & Hin & Hd). specialize (Hall _ Hin). simpl in Hall. subst x.
  destruct (actual_support actual o); by apply elem_of_nil in Hd.
Qed.

Lemma weaker_capability_accepted_witness :
  ∀ d, d ∈ expectation_diagnostics [] (BundleApiDemo.rebindings "runtime:codex")
    (mkExpectation "codex" "codex-native" None "1" [(OpAddConfigure, Supported)]) → bd_code d ≠ "capability_mismatch".
Proof.
  apply (weaker_capability_accepted []). intros x ->%list_elem_of_singleton. reflexivity.
Defined.
