(* ===== verification/Sha256.v ===== *)
(** * SHA-256

    [sha256_hex] of [crates/cocli-api/src/skill_governance.rs], the hash that names contents,
    lockfiles and plans of skills: written out in the source, on [u32] words with wrapping
    arithmetic. It is modelled as it is written, and proved equal to a definition of the
    standard on bits, in which the words of the schedule and of the rounds are recursive
    equations instead of an array and eight variables that are overwritten. *)
From Stdlib Require Import ZArith.
From S2P Require Import Prelude.

(** ** Words: [u32] *)

Definition w32 (z : Z) : Z := z mod 2 ^ 32.
Definition wrapping_add (a b : Z) : Z := w32 (a + b).
Definition rotate_right (x n : Z) : Z := Z.lor (Z.shiftr x n) (w32 (Z.shiftl x (32 - n))).
(** [!x]. *)
Definition not32 (x : Z) : Z := Z.lxor x (2 ^ 32 - 1).

(** ** The code *)

Definition INITIAL : list Z :=
  [0x6a09e667; 0xbb67ae85; 0x3c6ef372; 0xa54ff53a; 0x510e527f; 0x9b05688c; 0x1f83d9ab; 0x5be0cd19].

(** As the rows of the source. *)
Definition K : list Z := concat
  [[0x428a2f98; 0x71374491; 0xb5c0fbcf; 0xe9b5dba5; 0x3956c25b; 0x59f111f1; 0x923f82a4];
   [0xab1c5ed5; 0xd807aa98; 0x12835b01; 0x243185be; 0x550c7dc3; 0x72be5d74; 0x80deb1fe];
   [0x9bdc06a7; 0xc19bf174; 0xe49b69c1; 0xefbe4786; 0x0fc19dc6; 0x240ca1cc; 0x2de92c6f];
   [0x4a7484aa; 0x5cb0a9dc; 0x76f988da; 0x983e5152; 0xa831c66d; 0xb00327c8; 0xbf597fc7];
   [0xc6e00bf3; 0xd5a79147; 0x06ca6351; 0x14292967; 0x27b70a85; 0x2e1b2138; 0x4d2c6dfc];
   [0x53380d13; 0x650a7354; 0x766a0abb; 0x81c2c92e; 0x92722c85; 0xa2bfe8a1; 0xa81a664b];
   [0xc24b8b70; 0xc76c51a3; 0xd192e819; 0xd6990624; 0xf40e3585; 0x106aa070; 0x19a4c116];
   [0x1e376c08; 0x2748774c; 0x34b0bcb5; 0x391c0cb3; 0x4ed8aa4a; 0x5b9cca4f; 0x682e6ff3];
   [0x748f82ee; 0x78a5636f; 0x84c87814; 0x8cc70208; 0x90befffa; 0xa4506ceb; 0xbef9a3f7];
   [0xc67178f2]].

(** An index into an array; those of the code are in range. *)
Definition at_ (l : list Z) (i : nat) : Z := nth i l 0.

(** [while bytes.len() % 64 != 56 { bytes.push(0) }]: 64 rounds are enough. *)
Fixpoint push_zeros (rounds : nat) (bytes : list Z) : list Z :=
  match rounds with
  | O => bytes
  | S rounds' => if (length bytes mod 64 =? 56)%nat then bytes else push_zeros rounds' (bytes ++ [0])
  end.

(** [u64::to_be_bytes] and [u32::from_be_bytes]. *)
Definition to_be_bytes (n : Z) : list Z :=
  map (λ i, Z.land (Z.shiftr n (8 * i)) 255) [7; 6; 5; 4; 3; 2; 1; 0].
Definition from_be_bytes (a b c d : Z) : Z :=
  Z.lor (Z.lor (Z.shiftl a 24) (Z.shiftl b 16)) (Z.lor (Z.shiftl c 8) d).

Definition padded (input : list Z) : list Z :=
  let bit_len := (Z.of_nat (length input) * 8) mod 2 ^ 64 in
  push_zeros 64 (input ++ [0x80]) ++ to_be_bytes bit_len.

(** [chunks_exact(64)], for as many chunks as there are. *)
Fixpoint chunks_exact (count : nat) (bytes : list Z) : list (list Z) :=
  match count with
  | O => []
  | S count' => take 64 bytes :: chunks_exact count' (drop 64 bytes)
  end.

Definition small_s0 (x : Z) : Z := Z.lxor (Z.lxor (rotate_right x 7) (rotate_right x 18)) (Z.shiftr x 3).
Definition small_s1 (x : Z) : Z := Z.lxor (Z.lxor (rotate_right x 17) (rotate_right x 19)) (Z.shiftr x 10).

(** The first sixteen words, the others zero. *)
Definition chunk_words (chunk : list Z) : list Z :=
  map (λ index, from_be_bytes (at_ chunk (index * 4)) (at_ chunk (index * 4 + 1))
                  (at_ chunk (index * 4 + 2)) (at_ chunk (index * 4 + 3))) (seq 0 16) ++ replicate 48 0.

Definition extend_word (words : list Z) (index : nat) : list Z :=
  let s0 := small_s0 (at_ words (index - 15)) in
  let s1 := small_s1 (at_ words (index - 2)) in
  <[index := wrapping_add (wrapping_add (wrapping_add (at_ words (index - 16)) s0) (at_ words (index - 7))) s1]> words.

Definition schedule (chunk : list Z) : list Z := fold_left extend_word (seq 16 48) (chunk_words chunk).

(** The variables [a] to [h]. *)
Record Vars := mkVars { va : Z; vb : Z; vc : Z; vd : Z; ve : Z; vf : Z; vg : Z; vh : Z }.

Definition big_s0 (x : Z) : Z := Z.lxor (Z.lxor (rotate_right x 2) (rotate_right x 13)) (rotate_right x 22).
Definition big_s1 (x : Z) : Z := Z.lxor (Z.lxor (rotate_right x 6) (rotate_right x 11)) (rotate_right x 25).
Definition choice (e f g : Z) : Z := Z.lxor (Z.land e f) (Z.land (not32 e) g).
Definition majority (a b c : Z) : Z := Z.lxor (Z.lxor (Z.land a b) (Z.land a c)) (Z.land b c).

Definition round (words : list Z) (v : Vars) (index : nat) : Vars :=
  let temp1 := wrapping_add (wrapping_add (wrapping_add (wrapping_add (vh v) (big_s1 (ve v)))
                 (choice (ve v) (vf v) (vg v))) (at_ K index)) (at_ words index) in
  let temp2 := wrapping_add (big_s0 (va v)) (majority (va v) (vb v) (vc v)) in
  mkVars (wrapping_add temp1 temp2) (va v) (vb v) (vc v) (wrapping_add (vd v) temp1) (ve v) (vf v) (vg v).

Definition vars_of (state : list Z) : Vars :=
  mkVars (at_ state 0) (at_ state 1) (at_ state 2) (at_ state 3) (at_ state 4) (at_ state 5) (at_ state 6) (at_ state 7).
Definition list_of (v : Vars) : list Z := [va v; vb v; vc v; vd v; ve v; vf v; vg v; vh v].

Definition compress (state : list Z) (chunk : list Z) : list Z :=
  let words := schedule chunk in
  zip_with wrapping_add state (list_of (fold_left (round words) (seq 0 64) (vars_of state))).

Definition digest_words (input : list Z) : list Z :=
  let bytes := padded input in
  fold_left compress (chunks_exact (length bytes / 64) bytes) INITIAL.

(** [write!(.., "{word:08x}")]. *)
Definition hex_digit (n : Z) : Ascii.ascii :=
  Ascii.ascii_of_N (Z.to_N (if n <? 10 then 48 + n else 87 + n)).
Definition hex_word (word : Z) : string :=
  fold_right (λ i s, String (hex_digit (Z.land (Z.shiftr word (4 * i)) 15)) s) "" [7; 6; 5; 4; 3; 2; 1; 0].

Definition string_bytes (s : string) : list Z :=
  (fix go s := match s with "" => [] | String c s' => Z.of_N (Ascii.N_of_ascii c) :: go s' end) s.

Definition sha256_hex (input : list Z) : string :=
  fold_right (λ word s, hex_word word +:+ s) "" (digest_words input).

(** The vectors of the standard. *)
Example sha256_empty :
  sha256_hex [] = "e3b0c44298fc1c149afbf4c8996fb92427ae41e4649b934ca495991b7852b855".
Proof. vm_compute. reflexivity. Qed.
Example sha256_abc :
  sha256_hex (string_bytes "abc") = "ba7816bf8f01cfea414140de5dae2223b00361a396177a9cb410ff61f20015ad".
Proof. vm_compute. reflexivity. Qed.
Example sha256_two_blocks :
  sha256_hex (string_bytes "abcdbcdecdefdefgefghfghighijhijkijkljklmklmnlmnomnopnopq") =
  "248d6a61d20638b8e5c026930c3e6039a33ce45964ff2167f6ecedd419db06c1".
Proof. vm_compute. reflexivity. Qed.

(** ** The standard: FIPS 180-4, on bits *)
Module Standard.

(** The number whose bits below [n] are those of [f]. *)
Fixpoint of_bits (n : nat) (f : Z → bool) : Z :=
  match n with
  | O => 0
  | S n' => Z.lor (of_bits n' f) (if f (Z.of_nat n') then 2 ^ Z.of_nat n' else 0)
  end.
Definition word (f : Z → bool) : Z := of_bits 32 f.
Definition bits3 (f : bool → bool → bool → bool) (x y z : Z) : Z :=
  word (λ i, f (Z.testbit x i) (Z.testbit y i) (Z.testbit z i)).

(** 2.2.2, 3.2: rotation, shift; 4.1.2: the functions. *)
Definition ROTR (n x : Z) : Z := word (λ i, Z.testbit x ((i + n) mod 32)).
Definition SHR (n x : Z) : Z := word (λ i, Z.testbit x (i + n)).
Definition xor3 : Z → Z → Z → Z := bits3 (λ a b c, xorb (xorb a b) c).
Definition Ch : Z → Z → Z → Z := bits3 (λ a b c, if a then b else c).
Definition Maj : Z → Z → Z → Z := bits3 (λ a b c, (a && b) || (a && c) || (b && c)).
Definition Sigma0 (x : Z) : Z := xor3 (ROTR 2 x) (ROTR 13 x) (ROTR 22 x).
Definition Sigma1 (x : Z) : Z := xor3 (ROTR 6 x) (ROTR 11 x) (ROTR 25 x).
Definition sigma0 (x : Z) : Z := xor3 (ROTR 7 x) (ROTR 18 x) (SHR 3 x).
Definition sigma1 (x : Z) : Z := xor3 (ROTR 17 x) (ROTR 19 x) (SHR 10 x).

(** 5.1.1: a one, then as few zeros as bring the length to 448 modulo 512, then the length in 64 bits. *)
Definition zeros (l : nat) : nat := Z.to_nat ((55 - Z.of_nat l) mod 64).
Definition length_bytes (l : nat) : list Z :=
  map (λ i, (8 * Z.of_nat l) / 2 ^ (8 * i) mod 256) [7; 6; 5; 4; 3; 2; 1; 0].
Definition pad (m : list Z) : list Z := m ++ [0x80] ++ replicate (zeros (length m)) 0 ++ length_bytes (length m).

(** 5.2.1: word [t] of block [i]. *)
Definition M_ (bytes : list Z) (i t : nat) : Z :=
  let b k := at_ bytes (64 * i + 4 * t + k) in b 0%nat * 2 ^ 24 + b 1%nat * 2 ^ 16 + b 2%nat * 2 ^ 8 + b 3%nat.

(** 6.2.2: the schedule, for [t] with that many steps of recursion. *)
Fixpoint W_ (steps : nat) (m : nat → Z) (t : nat) : Z :=
  match steps with
  | O => 0
  | S n => if (t <? 16)%nat then m t
           else (sigma1 (W_ n m (t - 2)) + W_ n m (t - 7) + sigma0 (W_ n m (t - 15)) + W_ n m (t - 16)) mod 2 ^ 32
  end.
Definition W (m : nat → Z) (t : nat) : Z := W_ (S t) m t.

Fixpoint rounds (w : nat → Z) (v : Vars) (t : nat) : Vars :=
  match t with
  | O => v
  | S n =>
      let 'mkVars a b c d e f g h := rounds w v n in
      let T1 := (h + Sigma1 e + Ch e f g + at_ K n + w n) mod 2 ^ 32 in
      let T2 := (Sigma0 a + Maj a b c) mod 2 ^ 32 in
      mkVars ((T1 + T2) mod 2 ^ 32) a b c ((d + T1) mod 2 ^ 32) e f g
  end.

Definition add8 (l l' : list Z) : list Z := zip_with (λ x y, (x + y) mod 2 ^ 32) l l'.

Fixpoint H_ (bytes : list Z) (i : nat) : list Z :=
  match i with
  | O => INITIAL
  | S n => add8 (H_ bytes n) (list_of (rounds (W (M_ bytes n)) (vars_of (H_ bytes n)) 64))
  end.

Definition digest (m : list Z) : list Z := H_ (pad m) (length (pad m) / 64).
End Standard.

(** ** Bits of words *)

Definition is_word (x : Z) : Prop := 0 ≤ x < 2 ^ 32.
Definition is_byte (x : Z) : Prop := 0 ≤ x < 256.

Lemma word_high x i : is_word x → 32 ≤ i → Z.testbit x i = false.
Proof.
  intros [H0 H1] Hi. destruct (decide (x = 0)) as [->|Hx]; [apply Z.testbit_0_l|].
  apply Z.bits_above_log2; [lia|]. apply Z.log2_lt_pow2; [lia|]. eapply Z.lt_le_trans; [exact H1|].
  apply Z.pow_le_mono_r; lia.
Qed.

Lemma bits_word x : 0 ≤ x → (∀ i, 32 ≤ i → Z.testbit x i = false) → is_word x.
Proof.
  intros H0 Hb. split; [done|]. destruct (decide (x = 0)) as [->|Hx]; [lia|].
  destruct (Z.lt_ge_cases x (2 ^ 32)) as [|Hge]; [done|]. exfalso.
  assert (32 ≤ Z.log2 x) as Hl by (apply Z.log2_le_pow2; lia).
  specialize (Hb _ Hl). by rewrite Z.bit_log2 in Hb by lia.
Qed.

Lemma word_ext x y :
  is_word x → is_word y → (∀ i, 0 ≤ i < 32 → Z.testbit x i = Z.testbit y i) → x = y.
Proof.
  intros Hx Hy Hb. apply Z.bits_inj'. intros i Hi. destruct (Z.lt_ge_cases i 32); [by apply Hb|].
  by rewrite !word_high.
Qed.

Lemma of_bits_spec n f i : 0 ≤ i → Z.testbit (Standard.of_bits n f) i = f i && (i <? Z.of_nat n).
Proof.
  intros Hi. induction n as [|n IH]; cbn [Standard.of_bits].
  - rewrite Z.testbit_0_l. destruct (Z.ltb_spec i (Z.of_nat 0)); [lia|]. by rewrite andb_false_r.
  - rewrite Z.lor_spec, IH. destruct (f (Z.of_nat n)) eqn:E.
    + rewrite Z.pow2_bits_eqb by lia. destruct (Z.eqb_spec (Z.of_nat n) i) as [<-|Hne].
      * rewrite E. destruct (Z.ltb_spec (Z.of_nat n) (Z.of_nat (S n))); [|lia]. by rewrite orb_true_r.
      * rewrite orb_false_r. f_equal. destruct (Z.ltb_spec i (Z.of_nat n)), (Z.ltb_spec i (Z.of_nat (S n))); lia.
    + rewrite Z.testbit_0_l, orb_false_r. destruct (decide (i = Z.of_nat n)) as [->|Hne].
      * by rewrite E.
      * f_equal. destruct (Z.ltb_spec i (Z.of_nat n)), (Z.ltb_spec i (Z.of_nat (S n))); lia.
Qed.

Lemma of_bits_nonneg n f : 0 ≤ Standard.of_bits n f.
Proof.
  induction n as [|n IH]; cbn [Standard.of_bits]; [lia|]. apply Z.lor_nonneg. split; [done|].
  destruct (f _); [|lia]. apply Z.pow_nonneg. lia.
Qed.

Lemma is_word_word f : is_word (Standard.word f).
Proof.
  apply bits_word; [apply of_bits_nonneg|]. intros i Hi. unfold Standard.word. rewrite of_bits_spec by lia.
  destruct (Z.ltb_spec i (Z.of_nat 32)); [lia|]. apply andb_false_r.
Qed.
Lemma word_spec f i : 0 ≤ i < 32 → Z.testbit (Standard.word f) i = f i.
Proof.
  intros Hi. unfold Standard.word. rewrite of_bits_spec by lia.
  destruct (Z.ltb_spec i (Z.of_nat 32)); [|lia]. apply andb_true_r.
Qed.

Lemma is_word_w32 z : is_word (w32 z).
Proof. apply Z.mod_pos_bound. lia. Qed.
Lemma w32_word x : is_word x → w32 x = x.
Proof. apply Z.mod_small. Qed.
Lemma w32_bit z i : 0 ≤ i < 32 → Z.testbit (w32 z) i = Z.testbit z i.
Proof. intros Hi. unfold w32. apply Z.mod_pow2_bits_low. lia. Qed.

Lemma is_word_lxor x y : is_word x → is_word y → is_word (Z.lxor x y).
Proof.
  intros Hx Hy. apply bits_word; [apply Z.lxor_nonneg; unfold is_word in *; lia|].
  intros i Hi. by rewrite Z.lxor_spec, !word_high.
Qed.
Lemma is_word_land x y : is_word x → is_word y → is_word (Z.land x y).
Proof.
  intros Hx Hy. apply bits_word; [apply Z.land_nonneg; unfold is_word in *; lia|].
  intros i Hi. by rewrite Z.land_spec, !word_high.
Qed.
Lemma is_word_lor x y : is_word x → is_word y → is_word (Z.lor x y).
Proof.
  intros Hx Hy. apply bits_word; [apply Z.lor_nonneg; unfold is_word in *; lia|].
  intros i Hi. by rewrite Z.lor_spec, !word_high.
Qed.
Lemma is_word_shiftr x n : is_word x → 0 ≤ n → is_word (Z.shiftr x n).
Proof.
  intros Hx Hn. apply bits_word; [apply Z.shiftr_nonneg; unfold is_word in *; lia|].
  intros i Hi. rewrite Z.shiftr_spec by lia. apply word_high; [done|lia].
Qed.
Lemma is_word_not x : is_word x → is_word (not32 x).
Proof. intros Hx. apply is_word_lxor; [done|]. split; lia. Qed.
Lemma is_word_rotate x n : is_word x → 0 ≤ n → is_word (rotate_right x n).
Proof. intros Hx Hn. apply is_word_lor; [by apply is_word_shiftr|apply is_word_w32]. Qed.

Create HintDb sha.
#[local] Hint Resolve is_word_w32 is_word_lxor is_word_land is_word_lor is_word_shiftr is_word_not
  is_word_rotate is_word_word : sha.
#[local] Hint Extern 5 (_ ≤ _) => lia : sha.
#[local] Hint Extern 5 (is_word _) => unfold wrapping_add : sha.

Lemma not32_bit x i : 0 ≤ i < 32 → Z.testbit (not32 x) i = negb (Z.testbit x i).
Proof.
  intros Hi. unfold not32. rewrite Z.lxor_spec. change (2 ^ 32 - 1) with (Z.ones 32).
  rewrite Z.ones_spec_low by lia. apply xorb_true_r.
Qed.

(** ** The operations are those of the standard *)

Lemma rotate_right_standard x n : is_word x → 0 < n < 32 → rotate_right x n = Standard.ROTR n x.
Proof.
  intros Hx Hn. apply word_ext; [auto with sha|apply is_word_word|]. intros i Hi. unfold rotate_right, Standard.ROTR.
  rewrite word_spec, Z.lor_spec, w32_bit, Z.shiftr_spec, Z.shiftl_spec by lia.
  destruct (Z.lt_ge_cases (i + n) 32).
  - rewrite Z.mod_small by lia. rewrite (Z.testbit_neg_r x (i - (32 - n))) by lia. apply orb_false_r.
  - rewrite (word_high x (i + n)) by done. simpl. f_equal.
    rewrite <- (Z.mod_small (i - (32 - n)) 32) by lia. replace (i + n) with (i - (32 - n) + 1 * 32) by lia.
    by rewrite Z.mod_add.
Qed.

Lemma shiftr_standard x n : is_word x → 0 ≤ n → Z.shiftr x n = Standard.SHR n x.
Proof.
  intros Hx Hn. apply word_ext; [auto with sha|apply is_word_word|]. intros i Hi. unfold Standard.SHR.
  by rewrite word_spec, Z.shiftr_spec by lia.
Qed.

Lemma xor3_standard x y z : is_word x → is_word y → is_word z → Z.lxor (Z.lxor x y) z = Standard.xor3 x y z.
Proof.
  intros Hx Hy Hz. apply word_ext; [auto with sha|apply is_word_word|]. intros i Hi.
  unfold Standard.xor3, Standard.bits3. by rewrite word_spec, !Z.lxor_spec by lia.
Qed.

Lemma choice_standard x y z : is_word x → is_word y → is_word z → choice x y z = Standard.Ch x y z.
Proof.
  intros Hx Hy Hz. apply word_ext; [unfold choice; auto with sha|apply is_word_word|]. intros i Hi.
  unfold choice, Standard.Ch, Standard.bits3. rewrite word_spec, Z.lxor_spec, !Z.land_spec, not32_bit by lia.
  by destruct (Z.testbit x i), (Z.testbit y i), (Z.testbit z i).
Qed.

Lemma majority_standard x y z : is_word x → is_word y → is_word z → majority x y z = Standard.Maj x y z.
Proof.
  intros Hx Hy Hz. apply word_ext; [unfold majority; auto with sha|apply is_word_word|]. intros i Hi.
  unfold majority, Standard.Maj, Standard.bits3. rewrite word_spec, !Z.lxor_spec, !Z.land_spec by lia.
  by destruct (Z.testbit x i), (Z.testbit y i), (Z.testbit z i).
Qed.

Lemma functions_standard x :
  is_word x → small_s0 x = Standard.sigma0 x ∧ small_s1 x = Standard.sigma1 x ∧
              big_s0 x = Standard.Sigma0 x ∧ big_s1 x = Standard.Sigma1 x.
Proof.
  intros Hx. unfold small_s0, small_s1, big_s0, big_s1, Standard.sigma0, Standard.sigma1, Standard.Sigma0, Standard.Sigma1.
  rewrite <- !rotate_right_standard, <- !shiftr_standard, !xor3_standard by (auto with sha; lia). done.
Qed.

(** ** Padding *)

Lemma push_zeros_least rounds j bytes :
  (j ≤ rounds)%nat → ((length bytes + j) mod 64 = 56)%nat →
  (∀ i, (i < j)%nat → ((length bytes + i) mod 64 ≠ 56)%nat) →
  push_zeros rounds bytes = (bytes ++ replicate j 0)%list.
Proof.
  revert rounds bytes. induction j as [|j IH]; intros rounds bytes Hr Hj Hi.
  - rewrite app_nil_r. destruct rounds as [|rounds]; [done|]. cbn [push_zeros].
    rewrite Nat.add_0_r in Hj. by rewrite Hj.
  - destruct rounds as [|rounds]; [lia|]. cbn [push_zeros].
    destruct (Nat.eqb_spec (length bytes mod 64) 56) as [E|_].
    { exfalso. apply (Hi 0%nat); [lia|]. by rewrite Nat.add_0_r. }
    rewrite IH; [by rewrite <- app_assoc|lia|..].
    + rewrite length_app. simpl. by replace (length bytes + 1 + j)%nat with (length bytes + S j)%nat by lia.
    + intros i Hlt. rewrite length_app. simpl. replace (length bytes + 1 + i)%nat with (length bytes + S i)%nat by lia.
      apply Hi. lia.
Qed.

(** The zeros of the standard are the least number that brings the length to 448 modulo 512. *)
Lemma zeros_least l :
  (Standard.zeros l ≤ 63)%nat ∧ ((l + 1 + Standard.zeros l) mod 64 = 56)%nat ∧
  ∀ i, (i < Standard.zeros l)%nat → ((l + 1 + i) mod 64 ≠ 56)%nat.
Proof.
  unfold Standard.zeros. pose proof (Z.mod_pos_bound (55 - Z.of_nat l) 64 ltac:(lia)) as Ha.
  pose proof (Z.div_mod (55 - Z.of_nat l) 64 ltac:(lia)) as Hq.
  set (a := (55 - Z.of_nat l) mod 64) in *. set (q := (55 - Z.of_nat l) / 64) in *.
  split_and!; [lia| |intros i Hi Hm].
  - apply Nat2Z.inj. rewrite Nat2Z.inj_mod, !Nat2Z.inj_add, Z2Nat.id by lia.
    replace (Z.of_nat l + Z.of_nat 1 + a) with (56 + - q * 64) by lia. by rewrite Z.mod_add.
  - apply (f_equal Z.of_nat) in Hm. rewrite Nat2Z.inj_mod, !Nat2Z.inj_add in Hm.
    pose proof (Z.div_mod (Z.of_nat l + Z.of_nat 1 + Z.of_nat i) 64 ltac:(lia)) as Hd.
    change (Z.of_nat 64) with 64 in Hm. rewrite Hm in Hd. lia.
Qed.

Lemma land_byte n i : 0 ≤ i → Z.land (Z.shiftr n (8 * i)) 255 = n / 2 ^ (8 * i) mod 256.
Proof.
  intros Hi. change 255 with (Z.ones 8). rewrite Z.land_ones, Z.shiftr_div_pow2 by lia. done.
Qed.

Lemma to_be_bytes_standard l : 8 * Z.of_nat l < 2 ^ 64 → to_be_bytes ((Z.of_nat l * 8) mod 2 ^ 64) = Standard.length_bytes l.
Proof.
  intros Hl. rewrite Z.mod_small by lia. rewrite Z.mul_comm. unfold to_be_bytes, Standard.length_bytes.
  cbn [map]. by rewrite !land_byte by lia.
Qed.

Lemma padded_standard input : 8 * Z.of_nat (length input) < 2 ^ 64 → padded input = Standard.pad input.
Proof.
  intros Hl. unfold padded, Standard.pad. rewrite to_be_bytes_standard by done.
  destruct (zeros_least (length input)) as (Hle & Hmod & Hmin).
  rewrite (push_zeros_least 64 (Standard.zeros (length input))); [by rewrite <- !app_assoc|lia|..];
    rewrite length_app; done.
Qed.

Lemma pad_length m : (length (Standard.pad m) mod 64 = 0)%nat.
Proof.
  unfold Standard.pad. destruct (zeros_least (length m)) as (_ & Hmod & _).
  rewrite !length_app, length_replicate. cbn [length Standard.length_bytes map].
  rewrite Nat.add_assoc, Nat.add_assoc, Nat.Div0.add_mod, Hmod. done.
Qed.

Lemma pad_bytes m : Forall is_byte m → Forall is_byte (Standard.pad m).
Proof.
  intros Hm. unfold Standard.pad. rewrite !Forall_app. split_and!; [done| | |].
  - repeat constructor; lia.
  - apply Forall_replicate. split; lia.
  - apply Forall_map, Forall_true. intros i. apply Z.mod_pos_bound. lia.
Qed.

(** ** Words of a block *)

Lemma lor_add a b k : 0 ≤ k → 0 ≤ b < 2 ^ k → Z.lor (Z.shiftl a k) b = a * 2 ^ k + b.
Proof.
  intros Hk Hb. rewrite <- Z.shiftl_mul_pow2 by done. pose proof (Z.add_lor_land (Z.shiftl a k) b) as Hadd.
  enough (Z.land (Z.shiftl a k) b = 0) by lia. apply Z.bits_inj'. intros i Hi.
  rewrite Z.land_spec, Z.testbit_0_l. destruct (Z.lt_ge_cases i k).
  - by rewrite Z.shiftl_spec_low.
  - rewrite <- (Z.mod_small b (2 ^ k)) by done. rewrite Z.mod_pow2_bits_high by lia. apply andb_false_r.
Qed.

Lemma from_be_bytes_standard a b c d :
  is_byte a → is_byte b → is_byte c → is_byte d →
  from_be_bytes a b c d = a * 2 ^ 24 + b * 2 ^ 16 + c * 2 ^ 8 + d ∧ is_word (from_be_bytes a b c d).
Proof.
  unfold is_byte. intros Ha Hb Hc Hd.
  assert (from_be_bytes a b c d = a * 2 ^ 24 + b * 2 ^ 16 + c * 2 ^ 8 + d) as ->.
  { unfold from_be_bytes. rewrite (lor_add c d 8) by lia. rewrite <- Z.lor_assoc.
    rewrite (lor_add b (c * 2 ^ 8 + d) 16) by lia. rewrite (lor_add a _ 24) by lia. lia. }
  split; [done|]. unfold is_word. lia.
Qed.

(** The byte of a block. *)
Lemma at_block bytes i k :
  (k < 64)%nat → at_ (take 64 (drop (64 * i) bytes)) k = at_ bytes (64 * i + k).
Proof.
  intros Hk. unfold at_. rewrite !nth_lookup. rewrite lookup_take_lt, lookup_drop by done. done.
Qed.

Lemma at_byte bytes k : Forall is_byte bytes → is_byte (at_ bytes k).
Proof.
  intros Hb. unfold at_. rewrite nth_lookup. destruct (bytes !! k) eqn:E; simpl; [|split; lia].
  by eapply Forall_lookup in Hb.
Qed.

Lemma chunk_words_standard bytes i t :
  Forall is_byte bytes → (t < 16)%nat →
  at_ (chunk_words (take 64 (drop (64 * i) bytes))) t = Standard.M_ bytes i t ∧ is_word (Standard.M_ bytes i t).
Proof.
  intros Hb Ht. unfold chunk_words, at_ at 1. rewrite nth_lookup, lookup_app_l by (rewrite length_map, length_seq; lia).
  rewrite list_lookup_fmap, lookup_seq_lt by lia. cbn [fmap option_fmap option_map default].
  rewrite !at_block by lia. unfold Standard.M_.
  replace (64 * i + 4 * t + 0)%nat with (64 * i + t * 4)%nat by lia.
  replace (64 * i + 4 * t + 1)%nat with (64 * i + (t * 4 + 1))%nat by lia.
  replace (64 * i + 4 * t + 2)%nat with (64 * i + (t * 4 + 2))%nat by lia.
  replace (64 * i + 4 * t + 3)%nat with (64 * i + (t * 4 + 3))%nat by lia.
  change (0 + t)%nat with t.
  destruct (from_be_bytes_standard (at_ bytes (64 * i + t * 4)) (at_ bytes (64 * i + (t * 4 + 1)))
    (at_ bytes (64 * i + (t * 4 + 2))) (at_ bytes (64 * i + (t * 4 + 3)))) as [E Hw]; [by apply at_byte..|].
  rewrite E in Hw. split; [exact E|exact Hw].
Qed.

(** ** The schedule *)

Lemma W_unfold n m t :
  Standard.W_ (S n) m t = if (t <? 16)%nat then m t
    else (Standard.sigma1 (Standard.W_ n m (t - 2)) + Standard.W_ n m (t - 7) +
          Standard.sigma0 (Standard.W_ n m (t - 15)) + Standard.W_ n m (t - 16)) mod 2 ^ 32.
Proof. reflexivity. Qed.

Lemma W_steps n n' m t : (t < n)%nat → (t < n')%nat → Standard.W_ n m t = Standard.W_ n' m t.
Proof.
  revert n' t. induction n as [|n IH]; intros n' t Hn Hn'; [lia|]. destruct n' as [|n']; [lia|]. rewrite !W_unfold.
  destruct (t <? 16)%nat eqn:E; [done|]. apply Nat.ltb_ge in E.
  rewrite (IH n' (t - 2)%nat), (IH n' (t - 7)%nat), (IH n' (t - 15)%nat), (IH n' (t - 16)%nat) by lia. reflexivity.
Qed.

#[local] Opaque Standard.sigma0 Standard.sigma1 Z.modulo Z.pow Z.add.

Lemma W_is m t n : (t < n)%nat → Standard.W m t = Standard.W_ n m t.
Proof. intros Hn. exact (W_steps (S t) n m t (Nat.lt_succ_diag_r t) Hn). Qed.

Lemma W_low m t : (t < 16)%nat → Standard.W m t = m t.
Proof. intros Ht. apply Nat.ltb_lt in Ht. rewrite (W_is m t (S t)) by lia. rewrite W_unfold, Ht. reflexivity. Qed.

Lemma W_eq m t :
  (16 ≤ t)%nat → Standard.W m t = (Standard.sigma1 (Standard.W m (t - 2)) + Standard.W m (t - 7) +
    Standard.sigma0 (Standard.W m (t - 15)) + Standard.W m (t - 16)) mod 2 ^ 32.
Proof.
  intros Ht. rewrite (W_is m t (S t)) by lia. rewrite W_unfold.
  rewrite (proj2 (Nat.ltb_ge t 16) Ht), !(W_is m (t - _) t) by lia. reflexivity.
Qed.

Lemma W_word m t : (∀ t, (t < 16)%nat → is_word (m t)) → is_word (Standard.W m t).
Proof.
  intros Hm. destruct (t <? 16)%nat eqn:E.
  - apply Nat.ltb_lt in E. rewrite W_low by done. by apply Hm.
  - apply Nat.ltb_ge in E. rewrite W_eq by done. apply is_word_w32.
Qed.

#[local] Transparent Z.modulo Z.pow Z.add.

Lemma wrapping_add4 a b c d : wrapping_add (wrapping_add (wrapping_add a b) c) d = (a + b + c + d) mod 2 ^ 32.
Proof.
  unfold wrapping_add, w32.
  rewrite !Z.add_mod_idemp_l by lia. rewrite <- (Z.add_assoc _ c d), Z.add_mod_idemp_l by lia.
  f_equal. lia.
Qed.

Lemma at_insert l i x t : (i < length l)%nat → at_ (<[i := x]> l) t = if (t =? i)%nat then x else at_ l t.
Proof.
  intros Hi. unfold at_. rewrite !nth_lookup. destruct (Nat.eqb_spec t i) as [->|Hne].
  - by rewrite list_lookup_insert_eq.
  - by rewrite list_lookup_insert_ne.
Qed.

(** The array after the words below [16 + n] are filled. *)
Lemma schedule_upto words m n :
  (∀ t, (t < 16)%nat → at_ words t = m t ∧ is_word (m t)) → length words = 64%nat → (n ≤ 48)%nat →
  length (fold_left extend_word (seq 16 n) words) = 64%nat ∧
  ∀ t, (t < 16 + n)%nat → at_ (fold_left extend_word (seq 16 n) words) t = Standard.W m t.
Proof.
  intros Hm Hl. induction n as [|n IH]; intros Hn.
  - split; [done|]. intros t Ht. rewrite W_low by lia. apply Hm. lia.
  - destruct IH as [IHl IH]; [lia|]. rewrite seq_S, fold_left_app. cbn [fold_left].
    set (ws := fold_left extend_word (seq 16 n) words) in *. unfold extend_word.
    split; [by rewrite length_insert|]. intros t Ht. rewrite at_insert by lia.
    destruct (Nat.eqb_spec t (16 + n)) as [->|Hne]; [|apply IH; lia].
    rewrite wrapping_add4, !IH, (W_eq m (16 + n)) by lia.
    destruct (functions_standard (Standard.W m (16 + n - 15))) as (-> & _ & _ & _); [apply W_word; intros; by apply Hm|].
    destruct (functions_standard (Standard.W m (16 + n - 2))) as (_ & -> & _ & _); [apply W_word; intros; by apply Hm|].
    f_equal. lia.
Qed.

(** ** The rounds *)

Record vars_ok (v : Vars) : Prop := {
  vo_a : is_word (va v); vo_b : is_word (vb v); vo_c : is_word (vc v); vo_d : is_word (vd v);
  vo_e : is_word (ve v); vo_f : is_word (vf v); vo_g : is_word (vg v); vo_h : is_word (vh v);
}.

Lemma wrapping_add5 a b c d x :
  wrapping_add (wrapping_add (wrapping_add (wrapping_add a b) c) d) x = (a + b + c + d + x) mod 2 ^ 32.
Proof.
  change (w32 (wrapping_add (wrapping_add (wrapping_add a b) c) d + x) = (a + b + c + d + x) mod 2 ^ 32).
  rewrite wrapping_add4. unfold w32. apply Z.add_mod_idemp_l. lia.
Qed.

(** A round of the code, on words, is a step of the standard. *)
Lemma round_standard words w v t :
  vars_ok v → at_ words t = w t →
  round words v t =
    (let 'mkVars a b c d e f g h := v in
     let T1 := (h + Standard.Sigma1 e + Standard.Ch e f g + at_ K t + w t) mod 2 ^ 32 in
     let T2 := (Standard.Sigma0 a + Standard.Maj a b c) mod 2 ^ 32 in
     mkVars ((T1 + T2) mod 2 ^ 32) a b c ((d + T1) mod 2 ^ 32) e f g) ∧
  vars_ok (round words v t).
Proof.
  intros [Ha Hb Hc Hd He Hf Hg Hh] Hw. destruct v as [a b c d e f g h]. cbn [va vb vc vd ve vf vg vh] in *.
  split; [|split; cbn [round va vb vc vd ve vf vg vh]; auto with sha].
  unfold round. cbn [va vb vc vd ve vf vg vh]. rewrite (wrapping_add5 h _ _ _ (at_ words t)), Hw.
  destruct (functions_standard e He) as (_ & _ & _ & ->). destruct (functions_standard a Ha) as (_ & _ & -> & _).
  rewrite choice_standard, majority_standard by done. unfold wrapping_add, w32. reflexivity.
Qed.

Lemma rounds_standard words w v n :
  vars_ok v → (∀ t, (t < n)%nat → at_ words t = w t) →
  fold_left (round words) (seq 0 n) v = Standard.rounds w v n ∧ vars_ok (Standard.rounds w v n).
Proof.
  intros Hv. induction n as [|n IH]; intros Hw; [done|]. destruct IH as [IH Hok]; [intros; apply Hw; lia|].
  rewrite seq_S, fold_left_app, IH. cbn [fold_left]. rewrite Nat.add_0_l.
  destruct (round_standard words w (Standard.rounds w v n) n Hok) as [E Hok']; [apply Hw; lia|].
  rewrite E in Hok' |- *. cbn [Standard.rounds]. split; [reflexivity|exact Hok'].
Qed.

(** ** Blocks *)

Lemma chunks_exact_snoc n bytes :
  chunks_exact (S n) bytes = (chunks_exact n bytes ++ [take 64 (drop (64 * n) bytes)])%list.
Proof.
  revert bytes. induction n as [|n IH]; intros bytes; [done|].
  change (chunks_exact (S (S n)) bytes) with (take 64 bytes :: chunks_exact (S n) (drop 64 bytes)).
  rewrite IH. cbn [chunks_exact app]. rewrite drop_drop.
  by replace (64 + 64 * n)%nat with (64 * S n)%nat by lia.
Qed.

Definition state_ok (state : list Z) : Prop := length state = 8%nat ∧ Forall is_word state.

Lemma state_vars state : state_ok state → vars_ok (vars_of state).
Proof.
  intros [Hl Hw]. do 9 (destruct state as [|? state]; try done).
  repeat match goal with H : Forall _ (_ :: _) |- _ => inversion_clear H end. by split.
Qed.

Lemma Forall_zip_words l l' : Forall is_word (zip_with wrapping_add l l').
Proof. revert l'. induction l as [|x l IH]; intros [|y l']; constructor; [apply is_word_w32|apply IH]. Qed.

Lemma compress_standard state bytes i :
  state_ok state → Forall is_byte bytes →
  compress state (take 64 (drop (64 * i) bytes)) =
    Standard.add8 state (list_of (Standard.rounds (Standard.W (Standard.M_ bytes i)) (vars_of state) 64)) ∧
  state_ok (compress state (take 64 (drop (64 * i) bytes))).
Proof.
  intros Hs Hb. unfold compress. set (chunk := take 64 (drop (64 * i) bytes)).
  destruct (schedule_upto (chunk_words chunk) (Standard.M_ bytes i) 48) as [_ Hsched]; [|done|lia|].
  { intros t Ht. by apply chunk_words_standard. }
  destruct (rounds_standard (schedule chunk) (Standard.W (Standard.M_ bytes i)) (vars_of state) 64) as [E _];
    [by apply state_vars|intros t Ht; apply Hsched; lia|].
  rewrite E. split; [reflexivity|]. destruct Hs as [Hl _]. split.
  - by rewrite length_zip_with, Hl.
  - apply Forall_zip_words.
Qed.

Lemma INITIAL_ok : state_ok INITIAL.
Proof. split; [reflexivity|]. repeat constructor; by vm_compute. Qed.

Lemma fold_standard bytes n :
  Forall is_byte bytes →
  fold_left compress (chunks_exact n bytes) INITIAL = Standard.H_ bytes n ∧ state_ok (Standard.H_ bytes n).
Proof.
  intros Hb. induction n as [|n [IH Hok]]; [split; [reflexivity|exact INITIAL_ok]|].
  rewrite chunks_exact_snoc, fold_left_app, IH. cbn [fold_left].
  destruct (compress_standard (Standard.H_ bytes n) bytes n Hok Hb) as [E Hok'].
  rewrite E in Hok' |- *. cbn [Standard.H_]. split; [reflexivity|exact Hok'].
Qed.

(** The text of words decides them: eight lower-case digits a word, most significant first. *)
Definition unhex_digit (c : Ascii.ascii) : Z :=
  let n := Z.of_N (Ascii.N_of_ascii c) in if n <? 58 then n - 48 else n - 87.
Fixpoint unhex (acc : Z) (s : string) : Z :=
  match s with "" => acc | String c s' => unhex (acc * 16 + unhex_digit c) s' end.

Lemma unhex_hex_digit n : 0 ≤ n < 16 → unhex_digit (hex_digit n) = n.
Proof.
  intros Hn. assert (∃ k, (k < 16)%nat ∧ n = Z.of_nat k) as (k & Hk & ->) by (exists (Z.to_nat n); lia).
  clear Hn. do 16 (destruct k as [|k]; [reflexivity|]). lia.
Qed.

Lemma nibble x i : 0 ≤ i → Z.land (Z.shiftr x (4 * i)) 15 = x / 2 ^ (4 * i) mod 16.
Proof. intros Hi. change 15 with (Z.ones 4). rewrite Z.land_ones, Z.shiftr_div_pow2 by lia. done. Qed.

Lemma div_16 x i j : 0 ≤ i → j = i + 1 → x / 2 ^ (4 * j) * 16 + x / 2 ^ (4 * i) mod 16 = x / 2 ^ (4 * i).
Proof.
  intros Hi ->. replace (4 * (i + 1)) with (4 * i + 4) by lia. rewrite Z.pow_add_r by lia. change (2 ^ 4) with 16.
  rewrite <- Z.div_div by lia. pose proof (Z.div_mod (x / 2 ^ (4 * i)) 16 ltac:(lia)). lia.
Qed.

Lemma unhex_hex_word x s : is_word x → unhex 0 (hex_word x) = x ∧ String.length (hex_word x +:+ s) = (8 + String.length s)%nat.
Proof.
  intros Hx. split; [|reflexivity]. unfold hex_word. cbn [fold_right unhex].
  rewrite !unhex_hex_digit by (rewrite nibble by lia; apply Z.mod_pos_bound; lia). rewrite !nibble by lia.
  assert (x / 2 ^ (4 * 8) = 0) as H8 by (apply Z.div_small; exact Hx).
  rewrite <- H8 at 1. rewrite (div_16 x 7 8), (div_16 x 6 7), (div_16 x 5 6), (div_16 x 4 5), (div_16 x 3 4), (div_16 x 2 3),
    (div_16 x 1 2), (div_16 x 0 1) by lia. apply Z.div_1_r.
Qed.

Lemma hex_length words :
  Forall is_word words → String.length (fold_right (λ word s, hex_word word +:+ s) "" words) = (8 * length words)%nat.
Proof.
  induction 1 as [|x words Hx _ IH]; [done|]. cbn [fold_right length].
  destruct (unhex_hex_word x (fold_right (λ word s, hex_word word +:+ s) "" words) Hx) as [_ ->]. lia.
Qed.

Lemma hex_word_app_inj x y s s' : hex_word x +:+ s = hex_word y +:+ s' → hex_word x = hex_word y ∧ s = s'.
Proof. unfold hex_word. cbn [fold_right String.append]. intros H. injection H as H1 H2 H3 H4 H5 H6 H7 H8 H9.
  by rewrite H1, H2, H3, H4, H5, H6, H7, H8. Qed.

Lemma hex_inj words words' :
  Forall is_word words → Forall is_word words' → length words = length words' →
  fold_right (λ word s, hex_word word +:+ s) "" words = fold_right (λ word s, hex_word word +:+ s) "" words' →
  words = words'.
Proof.
  intros Hw. revert words'. induction Hw as [|x words Hx _ IH]; intros [|y words'] Hw' Hl E; try done.
  inversion_clear Hw' as [|? ? Hy Hws]. cbn [fold_right] in E. apply hex_word_app_inj in E as [E ->%IH]; [|done|by injection Hl].
  f_equal. destruct (unhex_hex_word x "" Hx) as [<- _], (unhex_hex_word y "" Hy) as [<- _]. by rewrite E.
Qed.

Definition hashable (input : list Z) : Prop := Forall is_byte input ∧ 8 * Z.of_nat (length input) < 2 ^ 64.

Lemma digest_words_standard input :
  hashable input → digest_words input = Standard.digest input ∧ state_ok (digest_words input).
Proof.
  intros [Hb Hl]. unfold digest_words, Standard.digest. rewrite padded_standard by done.
  destruct (fold_standard (Standard.pad input) (length (Standard.pad input) / 64)) as [-> Hok];
    [by apply pad_bytes|done].
Qed.

(** C16 (equivalence). The hash the code computes is that of the standard: for every input of bytes whose length
    in bits is below 2^64, the eight words are those of the recursive definition on bits, no byte
    of the padded input is left out of the blocks, and the text has 64 characters and is that of
    another input exactly when the standard's digests are equal. *)
Theorem sha256_standard input :
  hashable input →
  digest_words input = Standard.digest input ∧
  (length (padded input) = 64 * (length (padded input) / 64))%nat ∧
  String.length (sha256_hex input) = 64%nat ∧
  ∀ input', hashable input' → sha256_hex input' = sha256_hex input ↔ Standard.digest input' = Standard.digest input.
Proof.
  intros Hin. destruct (digest_words_standard input Hin) as [E [H8 Hw]]. split_and!; [done|..].
  - rewrite padded_standard by apply Hin.
    pose proof (Nat.div_mod_eq (length (Standard.pad input)) 64) as Hd. rewrite pad_length in Hd. lia.
  - unfold sha256_hex. by rewrite hex_length, H8.
  - intros input' Hin'. destruct (digest_words_standard input' Hin') as [E' [H8' Hw']]. rewrite <- E, <- E'. split.
    + apply hex_inj; [done..|congruence].
    + unfold sha256_hex. by intros ->.
Qed.

Lemma sha256_standard_witness :
  digest_words (string_bytes "abc") = Standard.digest (string_bytes "abc") ∧
  (length (padded (string_bytes "abc")) = 64 * (length (padded (string_bytes "abc")) / 64))%nat ∧
  String.length (sha256_hex (string_bytes "abc")) = 64%nat ∧
  ∀ input', hashable input' →
    sha256_hex input' = sha256_hex (string_bytes "abc") ↔ Standard.digest input' = Standard.digest (string_bytes "abc").
Proof.
  apply (sha256_standard (string_bytes "abc")). split; [repeat constructor; by vm_compute|by vm_compute].
Defined.
