(* ===== verification/SkillGovernance.v ===== *)
(** * The skill resolver and planner

    [crates/cocli-api/src/skill_governance.rs]: the desired skills of the profiles bound to a
    machine, a workspace and an agent are resolved into one effective state, written down as a
    lockfile, compared with what was observed, and the differences become a dry-run plan. The
    code has no state and no input or output but [Path::canonicalize]: it is a set of functions,
    and every value that is compared later is named by the SHA-256 of its canonical JSON.

    A [BTreeMap] is a [gmap] whose iteration is in key order. The parameters are the text
    [serde_json] prints, the [url] crate, the text of a UUID and of an instant, and the file
    system. *)
From stdpp Require Import pretty.
From S2P Require Import Prelude Protocol AgentWorkspace Text Mcp Sha256.

(** ** Data *)

Definition SKILL_GOVERNANCE_SCHEMA_VERSION : Z := 1.

Inductive GovernanceScope : Type := GMachine | GWorkspace | GAgent.
#[export] Instance GovernanceScope_eq_dec : EqDecision GovernanceScope.
Proof. solve_decision. Defined.
Definition scope_as_str (s : GovernanceScope) : string :=
  match s with GMachine => "machine" | GWorkspace => "workspace" | GAgent => "agent" end.
Definition priority (s : GovernanceScope) : Z :=
  match s with GMachine => 0 | GWorkspace => 1 | GAgent => 2 end.
(** The derived order is that of the declaration. *)
Definition scope_cmp : GovernanceScope → GovernanceScope → comparison := on_cmp priority Z.compare.
#[export] Instance GovernanceScope_countable : Countable GovernanceScope :=
  inj_countable' priority (λ n, if n =? 0 then GMachine else if n =? 1 then GWorkspace else GAgent)
    (λ s, match s with GMachine | GWorkspace | GAgent => eq_refl end).

Inductive InstallationMode : Type := ModeCopy | ModeSymlink | ModeNative | ModeManual.
#[export] Instance InstallationMode_eq_dec : EqDecision InstallationMode.
Proof. solve_decision. Defined.
Definition mode_as_str (m : InstallationMode) : string :=
  match m with ModeCopy => "copy" | ModeSymlink => "symlink" | ModeNative => "native" | ModeManual => "manual" end.

Inductive UpdatePolicy : Type := UpdatePinned | UpdateManual | UpdateTrackRevision.
#[export] Instance UpdatePolicy_eq_dec : EqDecision UpdatePolicy.
Proof. solve_decision. Defined.

Inductive RiskPolicy : Type := RiskTrusted | RiskAllowlisted | RiskApprovalRequired | RiskBlocked.
#[export] Instance RiskPolicy_eq_dec : EqDecision RiskPolicy.
Proof. solve_decision. Defined.

Record DesiredSkillSource := {
  dss_kind : string;
  dss_location : string;
  dss_subpath : option string;
  dss_credential_ref : option string;
}.

Record DesiredSkill := {
  dk_logical_identity : string;
  dk_source : DesiredSkillSource;
  dk_version : option string;
  dk_resolved_revision : option string;
  dk_content_digest : string;
  dk_manifest_digest : string;
  dk_target_runtime : string;
  dk_install_scope : GovernanceScope;
  dk_installation_mode : InstallationMode;
  dk_enabled : bool;
  dk_update_policy : UpdatePolicy;
  dk_allowed_sources : list string;
  dk_risk_policy : RiskPolicy;
  dk_expected_destination : option string;
}.

Record SkillProfileDocument := {
  spd_schema_version : Z;
  spd_name : string;
  spd_description : string;
  spd_skills : list DesiredSkill;
}.

Record BoundProfile := {
  bdp_binding_id : Uuid;
  bdp_profile_id : Uuid;
  bdp_profile_name : string;
  bdp_scope : GovernanceScope;
  bdp_document : SkillProfileDocument;
}.

Record EffectiveDesiredSkill := {
  eds_desired : DesiredSkill;
  eds_identity_fingerprint : string;
  eds_source_provenance : string;
  eds_owner_binding_id : Uuid;
  eds_owner_profile_id : Uuid;
  eds_owner_profile_name : string;
  eds_owner_scope : GovernanceScope;
}.

Record DesiredConflict := {
  dcf_logical_identity : string;
  dcf_scope : GovernanceScope;
  dcf_binding_ids : list Uuid;
  dcf_profile_ids : list Uuid;
  dcf_reason : string;
}.

Record EffectiveDesiredState := {
  eff_schema_version : Z;
  eff_desired_config_hash : string;
  eff_skills : list EffectiveDesiredSkill;
  eff_conflicts : list DesiredConflict;
}.

Record LockfileOrigin := { lo_observation_hash : string; lo_desired_config_hash : string }.

Record SkillLockEntry := {
  le_logical_identity : string;
  le_identity_fingerprint : string;
  le_source_provenance : string;
  le_resolved_revision : option string;
  le_version : option string;
  le_content_digest : string;
  le_manifest_digest : string;
  le_target_runtime : string;
  le_scope : GovernanceScope;
  le_installation_mode : InstallationMode;
  le_enabled : bool;
  le_update_policy : UpdatePolicy;
  le_allowed_sources : list string;
  le_risk_policy : RiskPolicy;
  le_expected_destination : string;
  le_expected_fingerprint : string;
}.

Record SkillLockfileContent := {
  lc_schema_version : Z;
  lc_generated_from : LockfileOrigin;
  lc_entries : list SkillLockEntry;
}.

Record SkillLockfilePreview := {
  lp_observed_at : Time;
  lp_snapshot_hash : string;
  lp_desired_config_hash : string;
  lp_lockfile_hash : string;
  lp_content : SkillLockfileContent;
  lp_serialized : string;
}.

Record ObservedSkill := {
  os_logical_identity : string;
  os_runtime : string;
  os_scope : GovernanceScope;
  os_scope_id : option string;
  os_source_provenance : option string;
  os_version : option string;
  os_content_digest : option string;
  os_manifest_digest : option string;
  os_installation_mode : option InstallationMode;
  os_destination : option string;
  os_fingerprint : string;
  os_enabled : option bool;
  os_shadowed : bool;
  os_broken_symlink : bool;
  os_evidence_status : string;
  os_evidence_source : string;
  os_session_effective : string;
  os_session_reason : string;
  os_observed_at : Time;
  os_supported : bool;
}.

Record ObservationDiagnostic := {
  od_fingerprint : string;
  od_runtime : string;
  od_subject : string;
  od_stage : string;
  od_error_type : string;
  od_message : string;
  od_observed_at : Time;
}.

Record GovernanceObservation := {
  go_observed_at : Time;
  go_snapshot_hash : string;
  go_skills : list ObservedSkill;
  go_diagnostics : list ObservationDiagnostic;
}.

Inductive DriftKind : Type :=
  | DriftMissing | DriftExtra | DriftVersionMismatch | DriftContentMismatch | DriftManifestMismatch
  | DriftSourceMismatch | DriftModeMismatch | DriftShadowed | DriftBrokenSymlink
  | DriftUnknownEvidence | DriftUnsupported | DriftEnabledMismatch.
#[export] Instance DriftKind_eq_dec : EqDecision DriftKind.
Proof. solve_decision. Defined.
(** [{:?}]. *)
Definition drift_debug (k : DriftKind) : string :=
  match k with
  | DriftMissing => "Missing" | DriftExtra => "Extra" | DriftVersionMismatch => "VersionMismatch"
  | DriftContentMismatch => "ContentMismatch" | DriftManifestMismatch => "ManifestMismatch"
  | DriftSourceMismatch => "SourceMismatch" | DriftModeMismatch => "ModeMismatch"
  | DriftShadowed => "Shadowed" | DriftBrokenSymlink => "BrokenSymlink"
  | DriftUnknownEvidence => "UnknownEvidence" | DriftUnsupported => "Unsupported"
  | DriftEnabledMismatch => "EnabledMismatch"
  end.

Record SkillDrift := {
  dr_fingerprint : string;
  dr_skill_fingerprint : string;
  dr_kind : DriftKind;
  dr_logical_identity : string;
  dr_runtime : string;
  dr_scope : GovernanceScope;
  dr_installation_mode : option InstallationMode;
  dr_risk_policy : option RiskPolicy;
  dr_reason : string;
  dr_expected : option string;
  dr_actual : option string;
}.

Inductive PlanActionKind : Type :=
  | ActInstall | ActUpdate | ActEnable | ActDisable | ActRemove | ActRelinkCopy
  | ActLockfileUpdate | ActManual | ActUnsupported.
#[export] Instance PlanActionKind_eq_dec : EqDecision PlanActionKind.
Proof. solve_decision. Defined.
(** The derived order is that of the declaration. *)
Definition action_rank (a : PlanActionKind) : Z :=
  match a with
  | ActInstall => 0 | ActUpdate => 1 | ActEnable => 2 | ActDisable => 3 | ActRemove => 4
  | ActRelinkCopy => 5 | ActLockfileUpdate => 6 | ActManual => 7 | ActUnsupported => 8
  end.

Inductive PlanRisk : Type := RiskLow | RiskMedium | RiskHigh.
#[export] Instance PlanRisk_eq_dec : EqDecision PlanRisk.
Proof. solve_decision. Defined.

Record PlanAction := {
  pa_action : PlanActionKind;
  pa_runtime : string;
  pa_scope : GovernanceScope;
  pa_target : string;
  pa_skill_fingerprint : string;
  pa_before : string;
  pa_after : string;
  pa_risk : PlanRisk;
  pa_reason : string;
  pa_evidence : string;
  pa_expected_observation_hash : string;
  pa_expected_config_hash : string;
  pa_expected_lock_hash : string;
  pa_approval_required : bool;
  pa_blocked : bool;
}.

Record DryRunPlanContent := {
  dpc_schema_version : Z;
  dpc_observation_hash : string;
  dpc_desired_config_hash : string;
  dpc_lockfile_hash : string;
  dpc_actions : list PlanAction;
}.

Record DryRunPlanPreview := {
  dpp_plan_hash : string;
  dpp_dry_run : bool;
  dpp_content : DryRunPlanContent;
}.

(** ** Serialisation: [#[derive(Serialize)]]

    The fields in the order of the declaration, which is that of the text [to_string_pretty]
    writes; [to_value] puts them in key order. *)

Definition scope_json (s : GovernanceScope) : Json := JString (scope_as_str s).
Definition mode_json (m : InstallationMode) : Json := JString (mode_as_str m).
Definition update_policy_json (p : UpdatePolicy) : Json :=
  JString match p with
  | UpdatePinned => "pinned" | UpdateManual => "manual" | UpdateTrackRevision => "track_revision" end.
Definition risk_policy_json (p : RiskPolicy) : Json :=
  JString match p with
  | RiskTrusted => "trusted" | RiskAllowlisted => "allowlisted"
  | RiskApprovalRequired => "approval_required" | RiskBlocked => "blocked" end.
Definition action_kind_json (a : PlanActionKind) : Json :=
  JString match a with
  | ActInstall => "install" | ActUpdate => "update" | ActEnable => "enable" | ActDisable => "disable"
  | ActRemove => "remove" | ActRelinkCopy => "relink_copy" | ActLockfileUpdate => "lockfile_update"
  | ActManual => "manual" | ActUnsupported => "unsupported" end.
Definition plan_risk_json (r : PlanRisk) : Json :=
  JString match r with RiskLow => "low" | RiskMedium => "medium" | RiskHigh => "high" end.

Definition desired_source_json (s : DesiredSkillSource) : Json :=
  JObject (field "kind" (JString (dss_kind s)) ++ field "location" (JString (dss_location s)) ++
    field_some "subpath" JString (dss_subpath s) ++ field_some "credentialRef" JString (dss_credential_ref s)).

Definition desired_fields (d : DesiredSkill) : list (string * Json) :=
  field "logicalIdentity" (JString (dk_logical_identity d)) ++
  field "source" (desired_source_json (dk_source d)) ++
  field_some "version" JString (dk_version d) ++
  field_some "resolvedRevision" JString (dk_resolved_revision d) ++
  field "contentDigest" (JString (dk_content_digest d)) ++
  field "manifestDigest" (JString (dk_manifest_digest d)) ++
  field "targetRuntime" (JString (dk_target_runtime d)) ++
  field "installScope" (scope_json (dk_install_scope d)) ++
  field "installationMode" (mode_json (dk_installation_mode d)) ++
  field "enabled" (JBool (dk_enabled d)) ++
  field "updatePolicy" (update_policy_json (dk_update_policy d)) ++
  field "allowedSources" (json_list JString (dk_allowed_sources d)) ++
  field "riskPolicy" (risk_policy_json (dk_risk_policy d)) ++
  field_some "expectedDestination" JString (dk_expected_destination d).
Definition desired_skill_json (d : DesiredSkill) : Json := JObject (desired_fields d).

Definition lock_entry_json (e : SkillLockEntry) : Json :=
  JObject (field "logicalIdentity" (JString (le_logical_identity e)) ++
    field "identityFingerprint" (JString (le_identity_fingerprint e)) ++
    field "sourceProvenance" (JString (le_source_provenance e)) ++
    field_some "resolvedRevision" JString (le_resolved_revision e) ++
    field_some "version" JString (le_version e) ++
    field "contentDigest" (JString (le_content_digest e)) ++
    field "manifestDigest" (JString (le_manifest_digest e)) ++
    field "targetRuntime" (JString (le_target_runtime e)) ++
    field "scope" (scope_json (le_scope e)) ++
    field "installationMode" (mode_json (le_installation_mode e)) ++
    field "enabled" (JBool (le_enabled e)) ++
    field "updatePolicy" (update_policy_json (le_update_policy e)) ++
    field "allowedSources" (json_list JString (le_allowed_sources e)) ++
    field "riskPolicy" (risk_policy_json (le_risk_policy e)) ++
    field "expectedDestination" (JString (le_expected_destination e)) ++
    field "expectedFingerprint" (JString (le_expected_fingerprint e))).

Definition lockfile_json (c : SkillLockfileContent) : Json :=
  JObject (field "schemaVersion" (JInt (lc_schema_version c)) ++
    field "generatedFrom" (JObject
      [("observationHash", JString (lo_observation_hash (lc_generated_from c)));
       ("desiredConfigHash", JString (lo_desired_config_hash (lc_generated_from c)))]) ++
    field "entries" (json_list lock_entry_json (lc_entries c))).

Definition plan_action_json (a : PlanAction) : Json :=
  JObject
    [("action", action_kind_json (pa_action a)); ("runtime", JString (pa_runtime a)); ("scope", scope_json (pa_scope a));
     ("target", JString (pa_target a)); ("skillFingerprint", JString (pa_skill_fingerprint a));
     ("before", JString (pa_before a)); ("after", JString (pa_after a)); ("risk", plan_risk_json (pa_risk a));
     ("reason", JString (pa_reason a)); ("evidence", JString (pa_evidence a));
     ("expectedObservationHash", JString (pa_expected_observation_hash a));
     ("expectedConfigHash", JString (pa_expected_config_hash a));
     ("expectedLockHash", JString (pa_expected_lock_hash a));
     ("approvalRequired", JBool (pa_approval_required a)); ("blocked", JBool (pa_blocked a))].

Definition plan_json (c : DryRunPlanContent) : Json :=
  JObject
    [("schemaVersion", JInt (dpc_schema_version c)); ("observationHash", JString (dpc_observation_hash c));
     ("desiredConfigHash", JString (dpc_desired_config_hash c)); ("lockfileHash", JString (dpc_lockfile_hash c));
     ("actions", json_list plan_action_json (dpc_actions c))].

(** ** The parameters *)

(** [serde_json]: the two writers, which report an error. *)
Class SerdeJson := {
  to_vec : Json → option string;
  to_string_pretty : Json → option string;
}.

(** The [url] crate. *)
Class UrlCrate := {
  Url : Type;
  url_parse : string → option Url;
  url_username : Url → string;
  url_password : Url → option string;
  url_query : Url → option string;
  url_without_fragment : Url → Url;
  url_to_string : Url → string;
}.

(** The text of a UUID and of an instant, as [serde] writes them. *)
Class Texts := { uuid_text : Uuid → string; time_text : Time → string }.

(** ** Strings of the standard library *)

Definition eq_ignore_ascii_case (a b : string) : bool := str_eqb (to_ascii_lowercase a) (to_ascii_lowercase b).

(** [str::replace] of a character by a character. *)
Fixpoint replace_char (from to : Ascii.ascii) (s : string) : string :=
  match s with
  | "" => ""
  | String c s' => String (if Ascii.eqb c from then to else c) (replace_char from to s')
  end.

(** [trim_end_matches('/')]. *)
Fixpoint trim_start_slashes (s : string) : string :=
  match s with
  | String c s' => if Ascii.eqb c (Ascii.ascii_of_N 47) then trim_start_slashes s' else s
  | "" => ""
  end.
Definition trim_end_slashes (s : string) : string := str_rev (trim_start_slashes (str_rev s)).

(** [String::from_utf8_lossy]: each maximal invalid sequence becomes U+FFFD; [pending] are the
    bytes of the character that is being read, the last one first, and [expect] the ranges of
    those still to come. *)
Fixpoint lossy (pending : string) (expect : list (N * N)) (s : string) : string :=
  let replaced := bytes [239; 191; 189]%N in
  match s, expect with
  | "", [] => ""
  | "", _ :: _ => replaced
  | String c s', [] => match utf8_lead c with
                       | Some [] => String c (lossy "" [] s')
                       | Some e => lossy (String c "") e s'
                       | None => replaced +:+ lossy "" [] s'
                       end
  | String c s', (lo, hi) :: e =>
      if in_range lo hi c then
        match e with
        | [] => str_rev (String c pending) +:+ lossy "" [] s'
        | _ => lossy (String c pending) e s'
        end
      else replaced +:+ match utf8_lead c with
                        | Some [] => String c (lossy "" [] s')
                        | Some e' => lossy (String c "") e' s'
                        | None => replaced +:+ lossy "" [] s'
                        end
  end.
Definition from_utf8_lossy (s : string) : string := lossy "" [] s.

(** The text of a path. *)
Definition component_text (c : Component) : string :=
  match c with RootDir => "" | CurDir => "." | ParentDir => ".." | Normal name => name end.
Definition path_text (p : path) : string :=
  match p with
  | [RootDir] => "/"
  | _ => String.concat "/" (map component_text p)
  end.

(** ** Normal forms *)

Section SkillGovernance.
Context {serde : SerdeJson} {urls : UrlCrate} {texts : Texts} {F : Type} {files : FileSystem F} (fs : F).

(** A [serde_json::Map] keeps its fields in key order. *)
Definition to_map (fields : list (string * Json)) : Json :=
  JObject (sort_by (on_cmp fst String.compare) fields).

(** [serde_json::to_value] of what a [Serialize] emits: every object becomes a map. *)
Fixpoint to_value (emitted : Json) : Json :=
  match emitted with
  | JObject values => to_map (map (λ kv, (kv.1, to_value kv.2)) values)
  | JArray values => JArray (map to_value values)
  | other => other
  end.

Fixpoint canonical_json (value : Json) : Json :=
  match value with
  | JObject values => to_map (map (λ kv, (kv.1, canonical_json kv.2)) values)
  | JArray values => JArray (map canonical_json values)
  | other => other
  end.

Definition canonical_hash (value : Json) : result string string :=
  match to_vec (canonical_json (to_value value)) with
  | Some text => Ok ("sha256:" +:+ sha256_hex (string_bytes text))
  | None => Err "serialize governance value"
  end.

Definition normalize_logical_identity (value : string) : string :=
  replace_char (Ascii.ascii_of_N 95) (Ascii.ascii_of_N 45) (to_ascii_lowercase (trim value)).

Definition normalize_step (normalized : path) (component : Component) : path :=
  match component with
  | CurDir => normalized
  | ParentDir => default normalized (pop normalized)
  | other => join normalized [other]
  end.
Definition normalize_local_path (p : path) : path :=
  match canonicalize fs p with
  | Ok real => real
  | Err _ => fold_left normalize_step p []
  end.

Definition rejected_component (c : Component) : bool :=
  match c with ParentDir | RootDir => true | _ => false end.
Definition normal_name (c : Component) : option string :=
  match c with Normal name => Some name | _ => None end.
Definition normalize_relative_path (text : string) : result string string :=
  let p := components text in
  if is_absolute_path p || existsb rejected_component p then Err "SkillProfile source subpath is invalid"
  else Ok (String.concat "/" (omap normal_name p)).

Definition normalize_location (kind location : string) : result string string :=
  if existsb (str_eqb kind) ["git"; "http"; "https"] then
    try! url <- ok_or (url_parse (trim location)) "SkillProfile source URL is invalid" ;
    if negb (str_is_empty (url_username url)) || bool_decide (is_Some (url_password url)) ||
       bool_decide (is_Some (url_query url))
    then Err "source credentials must use an opaque credentialRef"
    else Ok (trim_end_slashes (url_to_string (url_without_fragment url)))
  else if str_eqb kind "local" then
    Ok (from_utf8_lossy (path_text (normalize_local_path (components (trim location)))))
  else Err "SkillProfile source kind is unsupported".

Definition normalize_source (source : DesiredSkillSource) : result string string :=
  let kind := to_ascii_lowercase (trim (dss_kind source)) in
  try! location <- normalize_location kind (dss_location source) ;
  try! subpath <- match dss_subpath source with
                  | Some path => normalize_relative_path path
                  | None => Ok ""
                  end ;
  Ok (kind +:+ ":" +:+ location +:+ "#" +:+ subpath).

(** [split(':').next()] is never [None]. *)
Definition lockfile_source_provenance (provenance : string) : string :=
  let kind := match split_once ":" provenance with Some (kind, _) => kind | None => provenance end in
  kind +:+ ":sha256:" +:+ sha256_hex (string_bytes provenance).

Definition validate_credential_ref (reference : string) : result unit string :=
  if trim_is_empty reference || (200 <? String.length reference)%nat || contains "@" reference ||
     contains "?" reference || contains "#" reference || existsb (λ w, contains w reference) whitespace
  then Err "credentialRef must be an opaque secret-store reference"
  else Ok tt.

Definition desired_identity_fingerprint (desired : DesiredSkill) : result string string :=
  try! source <- normalize_source (dk_source desired) ;
  canonical_hash (JArray [JString (normalize_logical_identity (dk_logical_identity desired)); JString source;
                          JString (trim (dk_content_digest desired)); JString (trim (dk_manifest_digest desired))]).

(** ** Profiles *)

(** The key of a skill in a profile and in a layer. *)
Definition desired_key (d : DesiredSkill) : string * string :=
  (normalize_logical_identity (dk_logical_identity d), to_ascii_lowercase (dk_target_runtime d)).

Definition incomplete (d : DesiredSkill) : bool :=
  trim_is_empty (dk_logical_identity d) || trim_is_empty (dk_target_runtime d) ||
  trim_is_empty (dk_content_digest d) || trim_is_empty (dk_manifest_digest d).

Definition outside_allowlist (d : DesiredSkill) : bool :=
  match dk_allowed_sources d with
  | [] => false
  | allowed => negb (existsb (λ a, eq_ignore_ascii_case a (dss_kind (dk_source d))) allowed)
  end.

Fixpoint validate_skills (logical_ids : gset (string * string)) (skills : list DesiredSkill) : result unit string :=
  match skills with
  | [] => Ok tt
  | skill :: rest =>
      if incomplete skill then Err "SkillProfile contains an incomplete desired skill"
      else if bool_decide (desired_key skill ∈ logical_ids) then
        Err "SkillProfile contains a duplicate logical identity for one runtime"
      else
        try! _source <- normalize_source (dk_source skill) ;
        try! _reference <- match dss_credential_ref (dk_source skill) with
                           | Some reference => validate_credential_ref reference
                           | None => Ok tt
                           end ;
        if outside_allowlist skill then Err "SkillProfile source is outside its allowlist"
        else validate_skills ({[desired_key skill]} ∪ logical_ids) rest
  end.

Definition validate_profile_document (document : SkillProfileDocument) : result unit string :=
  if negb (spd_schema_version document =? SKILL_GOVERNANCE_SCHEMA_VERSION) then
    Err "unsupported SkillProfile schema version"
  else if trim_is_empty (spd_name document) || (120 <? String.length (spd_name document))%nat then
    Err "SkillProfile name is invalid"
  else validate_skills ∅ (spd_skills document).

(** ** Resolution *)

(** [for x in l { state = f(state, x)? }]. *)
Fixpoint try_for {A S E} (f : S → A → result S E) (state : S) (l : list A) : result S E :=
  match l with
  | [] => Ok state
  | x :: l' => try! state' <- f state x ; try_for f state' l'
  end.

(** The entries of a [BTreeMap], in key order. *)
Definition in_key_order `{Countable Key} {V} (cmp : Key → Key → comparison) (m : gmap Key V) : list (Key * V) :=
  sort_by (on_cmp fst cmp) (map_to_list m).
Definition key_cmp : string * string → string * string → comparison := pair_cmp String.compare String.compare.

Abbreviation Candidate := (BoundProfile * DesiredSkill)%type.
Abbreviation Layer := (gmap (string * string) (list Candidate)).

(** [layer.entry(key).or_default().push(..)]. *)
Definition or_default_push `{Countable Key} {V} (m : gmap Key (list V)) (k : Key) (v : V) : gmap Key (list V) :=
  <[k := (default [] (m !! k) ++ [v])%list]> m.

(** The candidates of the profiles of a priority, in their order. *)
Definition layer_candidates (profiles : list BoundProfile) (p : Z) : list Candidate :=
  concat (map (λ profile, map (pair profile) (spd_skills (bdp_document profile)))
              (bfilter (λ profile, priority (bdp_scope profile) =? p) profiles)).
Definition layer_of (profiles : list BoundProfile) (p : Z) : Layer :=
  fold_left (λ layer c, or_default_push layer (desired_key c.2) c) (layer_candidates profiles p) ∅.

Record Resolution := mkResolution {
  rsn_effective : gmap (string * string) EffectiveDesiredSkill;
  rsn_conflicts : list DesiredConflict;
}.

Definition desired_conflict_of (key : string * string) (candidates : list Candidate) (scope : GovernanceScope) : DesiredConflict :=
  {| dcf_logical_identity := key.1;
     dcf_scope := scope;
     dcf_binding_ids := map (λ c, bdp_binding_id c.1) candidates;
     dcf_profile_ids := map (λ c, bdp_profile_id c.1) candidates;
     dcf_reason := "same-layer desired state conflict; no value was selected" |}.

Definition effective_skill (c : Candidate) : result EffectiveDesiredSkill string :=
  try! fingerprint <- desired_identity_fingerprint c.2 ;
  try! provenance <- normalize_source (dk_source c.2) ;
  Ok {| eds_desired := c.2;
        eds_identity_fingerprint := fingerprint;
        eds_source_provenance := provenance;
        eds_owner_binding_id := bdp_binding_id c.1;
        eds_owner_profile_id := bdp_profile_id c.1;
        eds_owner_profile_name := bdp_profile_name c.1;
        eds_owner_scope := bdp_scope c.1 |}.

(** The body of the loop over a layer; the candidates of an entry are never empty. *)
Definition resolve_entry (r : Resolution) (entry : (string * string) * list Candidate) : result Resolution string :=
  let '(key, candidates) := entry in
  match candidates with
  | [] => Ok r
  | first :: _ =>
      try! variants <- collect_results (λ c, canonical_hash (desired_skill_json c.2)) candidates ;
      if (1 <? size (list_to_set variants : gset string))%nat then
        Ok (mkResolution (delete key (rsn_effective r))
              (rsn_conflicts r ++ [desired_conflict_of key candidates (bdp_scope first.1)])%list)
      else
        try! skill <- effective_skill first ;
        Ok (mkResolution (<[key := skill]> (rsn_effective r)) (rsn_conflicts r))
  end.

Definition resolve_layer (profiles : list BoundProfile) (r : Resolution) (p : Z) : result Resolution string :=
  try_for resolve_entry r (in_key_order key_cmp (layer_of profiles p)).

Definition effective_skill_json (s : EffectiveDesiredSkill) : Json :=
  JObject (desired_fields (eds_desired s) ++
    field "identityFingerprint" (JString (eds_identity_fingerprint s)) ++
    field "sourceProvenance" (JString (eds_source_provenance s)) ++
    field "ownerBindingId" (JString (uuid_text (eds_owner_binding_id s))) ++
    field "ownerProfileId" (JString (uuid_text (eds_owner_profile_id s))) ++
    field "ownerProfileName" (JString (eds_owner_profile_name s)) ++
    field "ownerScope" (scope_json (eds_owner_scope s)))%list.
Definition desired_conflict_json (c : DesiredConflict) : Json :=
  JObject
    [("logicalIdentity", JString (dcf_logical_identity c)); ("scope", scope_json (dcf_scope c));
     ("bindingIds", json_list (λ u, JString (uuid_text u)) (dcf_binding_ids c));
     ("profileIds", json_list (λ u, JString (uuid_text u)) (dcf_profile_ids c));
     ("reason", JString (dcf_reason c))].

Definition desired_conflict_order : DesiredConflict → DesiredConflict → comparison :=
  on_cmp (λ c, (dcf_scope c, dcf_logical_identity c)) (pair_cmp scope_cmp String.compare).

Definition resolve_effective_desired (profiles : list BoundProfile) : result EffectiveDesiredState string :=
  try! _valid <- collect_results (λ p, validate_profile_document (bdp_document p)) profiles ;
  try! r <- try_for (resolve_layer profiles) (mkResolution ∅ []) [0; 1; 2] ;
  let skills := map snd (in_key_order key_cmp (rsn_effective r)) in
  let conflicts := sort_by desired_conflict_order (rsn_conflicts r) in
  try! desired_config_hash <- canonical_hash
    (JArray [JInt SKILL_GOVERNANCE_SCHEMA_VERSION; json_list effective_skill_json skills;
             json_list desired_conflict_json conflicts]) ;
  Ok {| eff_schema_version := SKILL_GOVERNANCE_SCHEMA_VERSION;
        eff_desired_config_hash := desired_config_hash;
        eff_skills := skills;
        eff_conflicts := conflicts |}.

(** ** The lockfile *)

Definition lock_entry (skill : EffectiveDesiredSkill) : SkillLockEntry :=
  let d := eds_desired skill in
  {| le_logical_identity := normalize_logical_identity (dk_logical_identity d);
     le_identity_fingerprint := eds_identity_fingerprint skill;
     le_source_provenance := lockfile_source_provenance (eds_source_provenance skill);
     le_resolved_revision := dk_resolved_revision d;
     le_version := dk_version d;
     le_content_digest := dk_content_digest d;
     le_manifest_digest := dk_manifest_digest d;
     le_target_runtime := to_ascii_lowercase (dk_target_runtime d);
     le_scope := dk_install_scope d;
     le_installation_mode := dk_installation_mode d;
     le_enabled := dk_enabled d;
     le_update_policy := dk_update_policy d;
     le_allowed_sources := dk_allowed_sources d;
     le_risk_policy := dk_risk_policy d;
     le_expected_destination :=
       to_ascii_lowercase (dk_target_runtime d) +:+ ":" +:+ scope_as_str (dk_install_scope d) +:+ ":" +:+
       normalize_logical_identity (dk_logical_identity d);
     le_expected_fingerprint := eds_identity_fingerprint skill |}.

Definition target_cmp3 : string * GovernanceScope * string → string * GovernanceScope * string → comparison :=
  pair_cmp (pair_cmp String.compare scope_cmp) String.compare.
Definition lock_order : SkillLockEntry → SkillLockEntry → comparison :=
  on_cmp (λ e, (le_target_runtime e, le_scope e, le_logical_identity e)) target_cmp3.

Definition build_lockfile_preview (effective : EffectiveDesiredState) (observation_hash : string) (observed_at : Time)
    : result SkillLockfilePreview string :=
  let content :=
    {| lc_schema_version := SKILL_GOVERNANCE_SCHEMA_VERSION;
       lc_generated_from := {| lo_observation_hash := observation_hash;
                               lo_desired_config_hash := eff_desired_config_hash effective |};
       lc_entries := sort_by lock_order (map lock_entry (eff_skills effective)) |} in
  try! lockfile_hash <- canonical_hash (lockfile_json content) ;
  try! serialized <- ok_or (to_string_pretty (lockfile_json content)) "serialize Skill lockfile preview" ;
  Ok {| lp_observed_at := observed_at;
        lp_snapshot_hash := observation_hash;
        lp_desired_config_hash := eff_desired_config_hash effective;
        lp_lockfile_hash := lockfile_hash;
        lp_content := content;
        lp_serialized := serialized +:+ bytes [10%N] |}.

(** ** The observation *)

(** [Vec::dedup_by]: an element is dropped when it is the same as the last one kept. *)
Fixpoint dedup_after {A} (same : A → A → bool) (kept : A) (l : list A) : list A :=
  match l with
  | [] => []
  | x :: l' => if same x kept then dedup_after same kept l' else x :: dedup_after same x l'
  end.
Definition dedup_by {A} (same : A → A → bool) (l : list A) : list A :=
  match l with [] => [] | x :: l' => x :: dedup_after same x l' end.

Definition observed_skill_json (s : ObservedSkill) : Json :=
  JObject (field "logicalIdentity" (JString (os_logical_identity s)) ++
    field "runtime" (JString (os_runtime s)) ++ field "scope" (scope_json (os_scope s)) ++
    field_some "scopeId" JString (os_scope_id s) ++
    field "sourceProvenance" (json_option JString (os_source_provenance s)) ++
    field "version" (json_option JString (os_version s)) ++
    field "contentDigest" (json_option JString (os_content_digest s)) ++
    field "manifestDigest" (json_option JString (os_manifest_digest s)) ++
    field "installationMode" (json_option mode_json (os_installation_mode s)) ++
    field "destination" (json_option JString (os_destination s)) ++
    field "fingerprint" (JString (os_fingerprint s)) ++
    field "enabled" (json_option JBool (os_enabled s)) ++
    field "shadowed" (JBool (os_shadowed s)) ++ field "brokenSymlink" (JBool (os_broken_symlink s)) ++
    field "evidenceStatus" (JString (os_evidence_status s)) ++
    field "evidenceSource" (JString (os_evidence_source s)) ++
    field "sessionEffective" (JString (os_session_effective s)) ++
    field "sessionReason" (JString (os_session_reason s)) ++
    field "observedAt" (JString (time_text (os_observed_at s))) ++
    field "supported" (JBool (os_supported s)))%list.

Definition observation_diagnostic_json (d : ObservationDiagnostic) : Json :=
  JObject
    [("fingerprint", JString (od_fingerprint d)); ("runtime", JString (od_runtime d));
     ("subject", JString (od_subject d)); ("stage", JString (od_stage d));
     ("errorType", JString (od_error_type d)); ("message", JString (od_message d));
     ("observedAt", JString (time_text (od_observed_at d)))].

Definition value_without_observed_at (emitted : Json) : Json :=
  match to_value emitted with
  | JObject fields => JObject (bfilter (λ kv, negb (str_eqb kv.1 "observedAt")) fields)
  | value => value
  end.

Definition observed_order : ObservedSkill → ObservedSkill → comparison :=
  on_cmp (λ s, (os_runtime s, os_scope s, default "" (os_scope_id s), os_logical_identity s, os_fingerprint s))
    (pair_cmp (pair_cmp (pair_cmp (pair_cmp String.compare scope_cmp) String.compare) String.compare) String.compare).
Definition same_observed (l r : ObservedSkill) : bool :=
  str_eqb (os_runtime l) (os_runtime r) && bool_decide (os_scope l = os_scope r) &&
  bool_decide (os_scope_id l = os_scope_id r) && str_eqb (os_logical_identity l) (os_logical_identity r) &&
  str_eqb (os_fingerprint l) (os_fingerprint r).

Definition finalize_observation (observed_at : Time) (skills : list ObservedSkill)
    (diagnostics : list ObservationDiagnostic) : result GovernanceObservation string :=
  let skills := dedup_by same_observed (sort_by observed_order skills) in
  let diagnostics := dedup_by (λ l r, str_eqb (od_fingerprint l) (od_fingerprint r))
                       (sort_by (on_cmp od_fingerprint String.compare) diagnostics) in
  let hash_skills := map (λ s, value_without_observed_at (observed_skill_json s)) skills in
  let hash_diagnostics := map (λ d, value_without_observed_at (observation_diagnostic_json d)) diagnostics in
  try! snapshot_hash <- canonical_hash (JArray [JArray hash_skills; JArray hash_diagnostics]) ;
  Ok {| go_observed_at := observed_at;
        go_snapshot_hash := snapshot_hash;
        go_skills := skills;
        go_diagnostics := diagnostics |}.

(** ** Drift *)

Definition bool_text (b : bool) : string := if b then "true" else "false".

Definition expected_summary (kind : DriftKind) (expected : SkillLockEntry) : string :=
  match kind with
  | DriftVersionMismatch => default "" (le_version expected)
  | DriftContentMismatch => le_content_digest expected
  | DriftManifestMismatch => le_manifest_digest expected
  | DriftSourceMismatch => le_source_provenance expected
  | DriftModeMismatch => mode_as_str (le_installation_mode expected)
  | DriftEnabledMismatch => bool_text (le_enabled expected)
  | _ => le_expected_fingerprint expected
  end.
Definition actual_summary (kind : DriftKind) (skill : ObservedSkill) : string :=
  match kind with
  | DriftVersionMismatch => default "" (os_version skill)
  | DriftContentMismatch => default "" (os_content_digest skill)
  | DriftManifestMismatch => default "" (os_manifest_digest skill)
  | DriftSourceMismatch => default "" (os_source_provenance skill)
  | DriftModeMismatch => match os_installation_mode skill with Some m => mode_as_str m | None => "unknown" end
  | DriftEnabledMismatch => match os_enabled skill with Some b => bool_text b | None => "unknown" end
  | _ => os_fingerprint skill
  end.

(** What [push_drift] pushes. *)
Definition push_drift (kind : DriftKind) (expected : SkillLockEntry) (actual : option ObservedSkill) (reason : string)
    : SkillDrift :=
  let expected_text := expected_summary kind expected in
  let actual_text := actual_summary kind <$> actual in
  let basis := drift_debug kind +:+ "|" +:+ le_target_runtime expected +:+ "|" +:+ scope_as_str (le_scope expected) +:+
               "|" +:+ le_logical_identity expected +:+ "|" +:+ expected_text +:+ "|" +:+ default "" actual_text in
  {| dr_fingerprint := "sha256:" +:+ sha256_hex (string_bytes basis);
     dr_skill_fingerprint := le_expected_fingerprint expected;
     dr_kind := kind;
     dr_logical_identity := le_logical_identity expected;
     dr_runtime := le_target_runtime expected;
     dr_scope := le_scope expected;
     dr_installation_mode := Some (le_installation_mode expected);
     dr_risk_policy := Some (le_risk_policy expected);
     dr_reason := reason;
     dr_expected := Some expected_text;
     dr_actual := actual_text |}.

Definition drift_rank (kind : DriftKind) : Z :=
  match kind with
  | DriftUnsupported => 0 | DriftUnknownEvidence => 1 | DriftBrokenSymlink => 2 | DriftMissing => 3
  | DriftExtra => 4 | DriftSourceMismatch => 5 | DriftVersionMismatch => 6 | DriftContentMismatch => 7
  | DriftManifestMismatch => 8 | DriftModeMismatch => 9 | DriftEnabledMismatch => 10 | DriftShadowed => 11
  end.

Abbreviation Target := (string * GovernanceScope * string)%type.
Definition observed_key (s : ObservedSkill) : Target :=
  (to_ascii_lowercase (os_runtime s), os_scope s, normalize_logical_identity (os_logical_identity s)).
Definition expected_key (e : SkillLockEntry) : Target :=
  (to_ascii_lowercase (le_target_runtime e), le_scope e, normalize_logical_identity (le_logical_identity e)).

Definition candidate_order : ObservedSkill → ObservedSkill → comparison :=
  on_cmp (λ s, (os_fingerprint s, default "" (os_source_provenance s))) (pair_cmp String.compare String.compare).
Definition observed_by_key (observed : list ObservedSkill) : gmap Target (list ObservedSkill) :=
  sort_by candidate_order <$> fold_left (λ m s, or_default_push m (observed_key s) s) observed ∅.

(** [iter().position(p)]. *)
Fixpoint position {A} (p : A → bool) (l : list A) : option nat :=
  match l with
  | [] => None
  | x :: l' => if p x then Some O else S <$> position p l'
  end.

Definition is_exactly (o : option string) (s : string) : bool := bool_decide (o = Some s).
Definition fingerprint_is (expected : SkillLockEntry) (a : ObservedSkill) : bool :=
  str_eqb (os_fingerprint a) (le_expected_fingerprint expected).
Definition digests_are (expected : SkillLockEntry) (a : ObservedSkill) : bool :=
  is_exactly (os_content_digest a) (le_content_digest expected) &&
  is_exactly (os_manifest_digest a) (le_manifest_digest expected).
Definition selected (expected : SkillLockEntry) (candidates : list ObservedSkill) : nat :=
  match position (fingerprint_is expected) candidates with
  | Some i => i
  | None => default O (position (digests_are expected) candidates)
  end.

Definition drift_if (b : bool) (kind : DriftKind) (e : SkillLockEntry) (a : ObservedSkill) (reason : string)
    : list SkillDrift :=
  if b then [push_drift kind e (Some a) reason] else [].
(** [is_some_and(|x| x != expected)]. *)
Definition differs `{EqDecision V} (o : option V) (v : V) : bool :=
  match o with Some x => negb (bool_decide (x = v)) | None => false end.

Definition evidenced (a : ObservedSkill) : bool :=
  existsb (str_eqb (os_evidence_status a)) ["runtime_discovered"; "session_effective"].
Definition entry_drift (e : SkillLockEntry) (a : ObservedSkill) : list SkillDrift :=
  drift_if (negb (os_supported a)) DriftUnsupported e a "runtime has no supported governance contract" ++
  drift_if (negb (evidenced a)) DriftUnknownEvidence e a
    "current evidence cannot prove runtime or session effectiveness" ++
  drift_if (os_shadowed a) DriftShadowed e a "skill is shadowed by a higher-priority search path" ++
  drift_if (os_broken_symlink a) DriftBrokenSymlink e a "skill symlink target is unavailable" ++
  drift_if (match os_version a with
            | Some version => negb (bool_decide (le_version e = Some version)) | None => false end)
    DriftVersionMismatch e a "resolved version differs from the lockfile" ++
  drift_if (bool_decide (os_content_digest a = None) || bool_decide (os_manifest_digest a = None))
    DriftUnknownEvidence e a "content or manifest digest is unavailable; automatic action is blocked" ++
  drift_if (differs (os_content_digest a) (le_content_digest e)) DriftContentMismatch e a
    "content digest differs from the lockfile" ++
  drift_if (differs (os_manifest_digest a) (le_manifest_digest e)) DriftManifestMismatch e a
    "manifest digest differs from the lockfile" ++
  drift_if (differs (lockfile_source_provenance <$> os_source_provenance a) (le_source_provenance e))
    DriftSourceMismatch e a "source provenance differs from the lockfile" ++
  drift_if (differs (os_installation_mode a) (le_installation_mode e)) DriftModeMismatch e a
    "installation mode differs from the lockfile" ++
  drift_if (differs (os_enabled a) (le_enabled e)) DriftEnabledMismatch e a
    "enabled state differs from desired state".

Abbreviation Unmatched := (gmap Target (list ObservedSkill)).

(** The body of the loop over the lockfile; [None] is the panic of [candidates.remove]. *)
Definition compare_entry (unmatched : Unmatched) (e : SkillLockEntry) : option (Unmatched * list SkillDrift) :=
  let key := expected_key e in
  match unmatched !! key with
  | None => Some (unmatched, [push_drift DriftMissing e None "desired skill is not present"])
  | Some candidates =>
      let i := selected e candidates in
      actual ← candidates !! i;
      let rest := delete i candidates in
      let unmatched' := match rest with [] => delete key unmatched | _ => <[key := rest]> unmatched end in
      Some (unmatched', entry_drift e actual)
  end.
Fixpoint compare_entries (unmatched : Unmatched) (entries : list SkillLockEntry)
    : option (Unmatched * list SkillDrift) :=
  match entries with
  | [] => Some (unmatched, [])
  | e :: entries' =>
      '(unmatched1, d1) ← compare_entry unmatched e;
      '(unmatched2, d2) ← compare_entries unmatched1 entries';
      Some (unmatched2, (d1 ++ d2)%list)
  end.

Definition extra_entry (key : Target) (a : ObservedSkill) : SkillLockEntry :=
  {| le_logical_identity := key.2;
     le_identity_fingerprint := os_fingerprint a;
     le_source_provenance := default "" (lockfile_source_provenance <$> os_source_provenance a);
     le_resolved_revision := None;
     le_version := None;
     le_content_digest := "";
     le_manifest_digest := "";
     le_target_runtime := key.1.1;
     le_scope := key.1.2;
     le_installation_mode := default ModeManual (os_installation_mode a);
     le_enabled := default false (os_enabled a);
     le_update_policy := UpdateManual;
     le_allowed_sources := [];
     le_risk_policy := RiskBlocked;
     le_expected_destination := default "" (os_destination a);
     le_expected_fingerprint := os_fingerprint a |}.
Definition extra_drift (key : Target) (a : ObservedSkill) : list SkillDrift :=
  drift_if true DriftExtra (extra_entry key a) a "observed skill is not present in desired state" ++
  drift_if (os_shadowed a) DriftShadowed (extra_entry key a) a
    "additional observed skill is shadowed by another candidate".

Definition drift_order : SkillDrift → SkillDrift → comparison :=
  on_cmp (λ d, (dr_runtime d, dr_scope d, dr_logical_identity d, drift_rank (dr_kind d)))
    (pair_cmp target_cmp3 Z.compare).
Definition same_drift (l r : SkillDrift) : bool := str_eqb (dr_fingerprint l) (dr_fingerprint r).

Definition compare_drift (observed : list ObservedSkill) (lockfile : SkillLockfileContent) : option (list SkillDrift) :=
  '(unmatched, drift) ← compare_entries (observed_by_key observed) (lc_entries lockfile);
  let extras := concat (map (λ kc, concat (map (extra_drift kc.1) kc.2)) (in_key_order target_cmp3 unmatched)) in
  Some (dedup_by same_drift (sort_by drift_order (drift ++ extras)%list)).

(** ** The plan *)

Definition kind_action (d : SkillDrift) : PlanActionKind * PlanRisk * bool * bool :=
  match dr_kind d with
  | DriftMissing => (ActInstall, RiskMedium, false, false)
  | DriftExtra => (ActRemove, RiskHigh, true, false)
  | DriftVersionMismatch | DriftContentMismatch | DriftManifestMismatch | DriftSourceMismatch =>
      (ActUpdate, RiskHigh, true, false)
  | DriftModeMismatch | DriftBrokenSymlink => (ActRelinkCopy, RiskHigh, true, false)
  | DriftEnabledMismatch =>
      (if is_exactly (dr_expected d) "false" then ActDisable else ActEnable, RiskLow, false, false)
  | DriftShadowed => (ActManual, RiskMedium, false, true)
  | DriftUnknownEvidence => (ActManual, RiskMedium, false, true)
  | DriftUnsupported => (ActUnsupported, RiskMedium, false, true)
  end.

Definition plan_action (d : SkillDrift) (observation_hash desired_config_hash lockfile_hash : string) : PlanAction :=
  let '(action, risk, approval_required, blocked) := kind_action d in
  let '(risk, approval_required) :=
    if bool_decide (dr_scope d = GMachine) then (RiskHigh, true) else (risk, approval_required) in
  let '(action, risk, approval_required, blocked) :=
    match dr_installation_mode d with
    | Some ModeManual | Some ModeNative => (ActManual, RiskMedium, false, true)
    | _ => (action, risk, approval_required, blocked)
    end in
  let '(action, risk, approval_required, blocked) :=
    match dr_risk_policy d with
    | Some RiskBlocked => (ActManual, risk, false, true)
    | Some RiskApprovalRequired => (action, RiskHigh, true, blocked)
    | _ => (action, risk, approval_required, blocked)
    end in
  {| pa_action := action;
     pa_runtime := dr_runtime d;
     pa_scope := dr_scope d;
     pa_target := dr_logical_identity d;
     pa_skill_fingerprint := dr_skill_fingerprint d;
     pa_before := default "absent" (dr_actual d);
     pa_after := default "absent" (dr_expected d);
     pa_risk := risk;
     pa_reason := dr_reason d;
     pa_evidence := match dr_kind d with
                    | DriftUnknownEvidence | DriftUnsupported => "insufficient evidence"
                    | _ => "inventory/desired/lock comparison"
                    end;
     pa_expected_observation_hash := observation_hash;
     pa_expected_config_hash := desired_config_hash;
     pa_expected_lock_hash := lockfile_hash;
     pa_approval_required := if blocked then false else approval_required;
     pa_blocked := blocked |}.

Definition drift_target (d : SkillDrift) : Target := (dr_runtime d, dr_scope d, dr_logical_identity d).
Definition action_target (a : PlanAction) : Target := (pa_runtime a, pa_scope a, pa_target a).

(** [collect()] into a [BTreeMap]: the last item of a target wins. *)
Definition block_target (m : gmap Target bool) (d : SkillDrift) : gmap Target bool :=
  match dr_kind d with
  | DriftUnsupported => <[drift_target d := true]> m
  | DriftUnknownEvidence => <[drift_target d := false]> m
  | _ => m
  end.
Definition blocked_targets (drift : list SkillDrift) : gmap Target bool := fold_left block_target drift ∅.

Definition block_action (a : PlanAction) (unsupported : bool) : PlanAction :=
  {| pa_action := if unsupported then ActUnsupported else ActManual;
     pa_runtime := pa_runtime a;
     pa_scope := pa_scope a;
     pa_target := pa_target a;
     pa_skill_fingerprint := pa_skill_fingerprint a;
     pa_before := pa_before a;
     pa_after := pa_after a;
     pa_risk := RiskMedium;
     pa_reason := pa_reason a +:+ "; automatic action blocked by insufficient runtime/session evidence";
     pa_evidence := "insufficient evidence";
     pa_expected_observation_hash := pa_expected_observation_hash a;
     pa_expected_config_hash := pa_expected_config_hash a;
     pa_expected_lock_hash := pa_expected_lock_hash a;
     pa_approval_required := false;
     pa_blocked := true |}.

Definition lockfile_action (observation_hash desired_config_hash lockfile_hash : string) : PlanAction :=
  {| pa_action := ActLockfileUpdate;
     pa_runtime := "governance";
     pa_scope := GWorkspace;
     pa_target := "workspace lockfile preview";
     pa_skill_fingerprint := lockfile_hash;
     pa_before := "previous lock snapshot";
     pa_after := lockfile_hash;
     pa_risk := RiskLow;
     pa_reason := "desired state or resolved observation changed";
     pa_evidence := "deterministic lockfile preview";
     pa_expected_observation_hash := observation_hash;
     pa_expected_config_hash := desired_config_hash;
     pa_expected_lock_hash := lockfile_hash;
     pa_approval_required := false;
     pa_blocked := false |}.

Definition plan_action_order : PlanAction → PlanAction → comparison :=
  on_cmp (λ a, (action_target a, action_rank (pa_action a), pa_skill_fingerprint a))
    (pair_cmp (pair_cmp target_cmp3 Z.compare) String.compare).

Definition planned_action (drift : list SkillDrift) (observation_hash desired_config_hash lockfile_hash : string)
    (d : SkillDrift) : PlanAction :=
  let action := plan_action d observation_hash desired_config_hash lockfile_hash in
  match blocked_targets drift !! action_target action with
  | Some unsupported => block_action action unsupported
  | None => action
  end.

Definition build_dry_run_plan (drift : list SkillDrift) (observation_hash desired_config_hash lockfile_hash : string)
    (lockfile_changed : bool) : result DryRunPlanPreview string :=
  let actions := map (planned_action drift observation_hash desired_config_hash lockfile_hash) drift in
  let actions := if lockfile_changed
                 then (actions ++ [lockfile_action observation_hash desired_config_hash lockfile_hash])%list
                 else actions in
  let content :=
    {| dpc_schema_version := SKILL_GOVERNANCE_SCHEMA_VERSION;
       dpc_observation_hash := observation_hash;
       dpc_desired_config_hash := desired_config_hash;
       dpc_lockfile_hash := lockfile_hash;
       dpc_actions := sort_by plan_action_order actions |} in
  try! plan_hash <- canonical_hash (plan_json content) ;
  Ok {| dpp_plan_hash := plan_hash; dpp_dry_run := true; dpp_content := content |}.

Definition stale_plan_reasons (expected : DryRunPlanContent)
    (observation_hash desired_config_hash lockfile_hash : string) : list string :=
  (if str_eqb (dpc_observation_hash expected) observation_hash then [] else ["observation_hash_changed"]) ++
  (if str_eqb (dpc_desired_config_hash expected) desired_config_hash then [] else ["desired_config_hash_changed"]) ++
  (if str_eqb (dpc_lockfile_hash expected) lockfile_hash then [] else ["lockfile_hash_changed"]).

(** ** What a plan may do *)

(** Evidence that blocks a target. *)
Definition withheld (d : SkillDrift) : bool :=
  match dr_kind d with DriftUnsupported | DriftUnknownEvidence => true | _ => false end.

Lemma blocked_targets_spec drift t :
  is_Some (blocked_targets drift !! t) ↔ ∃ d, d ∈ drift ∧ drift_target d = t ∧ withheld d = true.
Proof.
  unfold blocked_targets.
  enough (∀ m : gmap Target bool, is_Some (fold_left block_target drift m !! t) ↔
      is_Some (m !! t) ∨ ∃ d, d ∈ drift ∧ drift_target d = t ∧ withheld d = true) as H.
  { split; [intros [[? Hm]|?]%H; [by rewrite lookup_empty in Hm|done]|intros Hd; apply H; by right]. }
  induction drift as [|d drift IH]; intros m; cbn [fold_left]; [set_solver|]. rewrite IH. clear IH.
  assert (∀ b, is_Some (<[drift_target d := b]> m !! t) ↔ is_Some (m !! t) ∨ drift_target d = t) as Hins.
  { intros b. rewrite lookup_insert_is_Some. destruct (decide (drift_target d = t)); naive_solver. }
  assert (is_Some (block_target m d !! t) ↔ is_Some (m !! t) ∨ (drift_target d = t ∧ withheld d = true)) as ->.
  { unfold block_target, withheld. destruct (dr_kind d); rewrite ?Hins; naive_solver. }
  setoid_rewrite elem_of_cons. naive_solver.
Qed.

(** An action that is not blocked is never for a target without evidence, a mode the engine does
    not materialise or a policy that forbids it. *)
Record unblocked_action (drift : list SkillDrift) (d : SkillDrift) (a : PlanAction) : Prop := {
  ua_target : action_target a = drift_target d;
  ua_evidence : ∀ d', d' ∈ drift → drift_target d' = drift_target d → withheld d' = false;
  ua_mode : dr_installation_mode d ≠ Some ModeManual ∧ dr_installation_mode d ≠ Some ModeNative;
  ua_policy : dr_risk_policy d ≠ Some RiskBlocked;
  ua_shadowed : dr_kind d ≠ DriftShadowed;
  ua_action : pa_action a = (kind_action d).1.1.1;
  ua_approval : pa_approval_required a = true ↔
    dr_scope d = GMachine ∨ dr_risk_policy d = Some RiskApprovalRequired ∨
    (dr_kind d ≠ DriftMissing ∧ dr_kind d ≠ DriftEnabledMismatch);
  ua_risk : pa_approval_required a = true ↔ pa_risk a = RiskHigh;
}.

Lemma plan_action_target d oh ch lh : action_target (plan_action d oh ch lh) = drift_target d.
Proof.
  unfold plan_action. destruct (kind_action d) as [[[action risk] approval] blocked].
  case_bool_decide; destruct (dr_installation_mode d) as [[]|], (dr_risk_policy d) as [[]|]; reflexivity.
Qed.

Lemma plan_action_unblocked d oh ch lh :
  pa_blocked (plan_action d oh ch lh) = false →
  (dr_installation_mode d ≠ Some ModeManual ∧ dr_installation_mode d ≠ Some ModeNative) ∧
  dr_risk_policy d ≠ Some RiskBlocked ∧ withheld d = false ∧ dr_kind d ≠ DriftShadowed ∧
  pa_action (plan_action d oh ch lh) = (kind_action d).1.1.1 ∧
  (pa_approval_required (plan_action d oh ch lh) = true ↔
    dr_scope d = GMachine ∨ dr_risk_policy d = Some RiskApprovalRequired ∨
    (dr_kind d ≠ DriftMissing ∧ dr_kind d ≠ DriftEnabledMismatch)) ∧
  (pa_approval_required (plan_action d oh ch lh) = true ↔ pa_risk (plan_action d oh ch lh) = RiskHigh).
Proof.
  unfold plan_action, kind_action, withheld. destruct d as [fp sfp kind li rt scope mode policy reason ex ac].
  cbn. intros Hb.
  destruct mode as [[]|], policy as [[]|], kind, scope; cbn in *; try discriminate Hb;
    (split_and!; [done..| |]; split; intros; (reflexivity || congruence || auto; try naive_solver)).
Qed.

Lemma planned_action_unblocked drift d oh ch lh :
  d ∈ drift → pa_blocked (planned_action drift oh ch lh d) = false →
  unblocked_action drift d (planned_action drift oh ch lh d).
Proof.
  intros Hd. unfold planned_action. rewrite plan_action_target.
  destruct (blocked_targets drift !! drift_target d) as [u|] eqn:E; [done|]. intros Hb.
  destruct (plan_action_unblocked d oh ch lh Hb) as (Hm & Hp & Hk & Hs & Ha & Happ & Hr). split; try done.
  - apply plan_action_target.
  - intros d' Hd' Ht. apply not_true_iff_false. intros Hbl. apply (eq_None_not_Some (blocked_targets drift !! drift_target d)); [done|].
    apply blocked_targets_spec. eauto.
Qed.

(** C14 (safety). A plan proposes only what the evidence and the policies allow: it has one action for each
    drift (and the lockfile update when the lockfile changed), an action that is not blocked is for
    a target none of whose drifts is unsupported or without evidence, whose mode is copied or linked
    and whose policy does not forbid it, and it needs approval exactly when it is of high risk: on
    the machine, under a policy that asks for it, or replacing what is there. *)
Theorem plan_actions_allowed drift oh ch lh changed plan :
  build_dry_run_plan drift oh ch lh changed = Ok plan →
  length (dpc_actions (dpp_content plan)) = (length drift + if changed then 1 else 0)%nat ∧
  (∀ d, d ∈ drift → ∃ a, a ∈ dpc_actions (dpp_content plan) ∧ action_target a = drift_target d) ∧
  ∀ a, a ∈ dpc_actions (dpp_content plan) → pa_blocked a = false →
    (changed = true ∧ a = lockfile_action oh ch lh) ∨ ∃ d, d ∈ drift ∧ unblocked_action drift d a.
Proof.
  unfold build_dry_run_plan. destruct (canonical_hash _) as [h|e]; cbn; [|done]. intros [= <-]. cbn. split_and!.
  - rewrite length_sort_by. destruct changed; rewrite ?length_app, length_map; cbn; lia.
  - intros d Hd. exists (planned_action drift oh ch lh d). split.
    + rewrite elem_of_sort_by. assert (planned_action drift oh ch lh d ∈ map (planned_action drift oh ch lh) drift)
        by (apply list_elem_of_fmap; eauto). destruct changed; set_solver.
    + unfold planned_action. rewrite plan_action_target. destruct (blocked_targets drift !! _);
        [exact (plan_action_target d oh ch lh)|apply plan_action_target].
  - intros a Ha Hb. rewrite elem_of_sort_by in Ha.
    assert (a ∈ map (planned_action drift oh ch lh) drift ∨ changed = true ∧ a = lockfile_action oh ch lh) as [Hin|?]
      by (destruct changed; set_solver); [|by left].
    right. apply list_elem_of_fmap in Hin as (d & -> & Hd). exists d. split; [done|]. by apply planned_action_unblocked.
Qed.

(** ** What the comparison reports *)

(** The observed skills that are still in the map. *)
Definition remaining (m : Unmatched) : list ObservedSkill := concat (map snd (map_to_list m)).

(** Every list of the map is that of its key, and none is empty. *)
Definition keyed (m : Unmatched) : Prop :=
  ∀ k l, m !! k = Some l → l ≠ [] ∧ Forall (λ a, observed_key a = k) l.

Lemma remaining_lookup m k l : m !! k = Some l → remaining m ≡ₚ (l ++ remaining (delete k m))%list.
Proof.
  intros Hk. unfold remaining. rewrite <- (insert_delete_id m k l Hk) at 1.
  rewrite map_to_list_insert by apply lookup_delete_eq. done.
Qed.

Lemma remaining_insert m k l : remaining (<[k := l]> m) ≡ₚ (l ++ remaining (delete k m))%list.
Proof.
  rewrite (remaining_lookup (<[k := l]> m) k l) by apply lookup_insert_eq. by rewrite delete_insert_eq.
Qed.

Lemma elem_of_remaining m a : keyed m → a ∈ remaining m ↔ ∃ l, m !! observed_key a = Some l ∧ a ∈ l.
Proof.
  intros Hm. unfold remaining. rewrite list_elem_of_In, in_concat. split.
  - intros (l & Hl%list_elem_of_In & Ha%list_elem_of_In). apply list_elem_of_fmap in Hl as ([k l'] & -> & Hkl).
    apply elem_of_map_to_list in Hkl. destruct (Hm _ _ Hkl) as [_ Hk]. rewrite Forall_forall in Hk.
    exists l'. by rewrite (Hk a Ha).
  - intros (l & Hl & Ha). exists l. rewrite <- !list_elem_of_In. split; [|done].
    apply list_elem_of_fmap. exists (observed_key a, l). split; [done|]. by apply elem_of_map_to_list.
Qed.

Lemma observed_by_key_spec observed :
  keyed (observed_by_key observed) ∧ remaining (observed_by_key observed) ≡ₚ observed.
Proof.
  unfold observed_by_key.
  enough (∀ m, keyed m → let m' := fold_left (λ m s, or_default_push m (observed_key s) s) observed m in
            keyed m' ∧ remaining m' ≡ₚ (remaining m ++ observed)%list) as Hfold.
  { destruct (Hfold ∅) as [Hk Hr]; [intros k l Hl; by rewrite lookup_empty in Hl|].
    set (m' := fold_left _ observed ∅) in *. split.
    - intros k l. rewrite lookup_fmap_Some. intros (l' & <- & Hl'). destruct (Hk _ _ Hl') as [Hne Hall].
      rewrite sort_by_nil, sort_by_perm. done.
    - transitivity (remaining m'); [|exact Hr]. unfold remaining. rewrite map_to_list_fmap. clear Hr.
      generalize (map_to_list m'). intros l. induction l as [|[k x] l IH]; [done|]. cbn. rewrite sort_by_perm. by f_equiv. }
  induction observed as [|a observed IH]; intros m Hm; cbn [fold_left]; [by rewrite app_nil_r|].
  destruct (IH (or_default_push m (observed_key a) a)) as [Hk Hr].
  { intros k l. unfold or_default_push. destruct (decide (k = observed_key a)) as [->|Hne].
    - rewrite lookup_insert_eq. intros [= <-]. split; [by destruct (default [] _)|].
      apply Forall_app. split; [|by constructor]. destruct (m !! observed_key a) as [l|] eqn:E; [|done].
      by apply (Hm _ _ E).
    - rewrite lookup_insert_ne by done. apply Hm. }
  split; [done|]. rewrite Hr. unfold or_default_push. rewrite remaining_insert.
  destruct (m !! observed_key a) as [l|] eqn:E; cbn [default].
  - rewrite (remaining_lookup m _ _ E). solve_Permutation.
  - rewrite delete_id by done. cbn [app]. solve_Permutation.
Qed.

Lemma position_Some {A} (p : A → bool) l i : position p l = Some i → ∃ x, l !! i = Some x ∧ p x = true.
Proof.
  revert i. induction l as [|x l IH]; intros i; cbn; [done|]. destruct (p x) eqn:E.
  - intros [= <-]. eauto.
  - intros (j & Hj & ->)%fmap_Some. by apply IH.
Qed.

Lemma position_None {A} (p : A → bool) l : position p l = None → ∀ x, x ∈ l → p x = false.
Proof.
  induction l as [|y l IH]; cbn; [set_solver|]. destruct (p y) eqn:E; [done|].
  intros H%fmap_None x [->|Hx]%elem_of_cons; [done|]. by apply IH.
Qed.

Definition same_fingerprint (e : SkillLockEntry) (a : ObservedSkill) : Prop := os_fingerprint a = le_expected_fingerprint e.
Definition same_digests (e : SkillLockEntry) (a : ObservedSkill) : Prop :=
  os_content_digest a = Some (le_content_digest e) ∧ os_manifest_digest a = Some (le_manifest_digest e).

(** The candidate that is taken: of the expected fingerprint if there is one, else of the expected
    digests if there is one. *)
Definition preferred (e : SkillLockEntry) (candidates : list ObservedSkill) (a : ObservedSkill) : Prop :=
  a ∈ candidates ∧
  ((∃ b, b ∈ candidates ∧ same_fingerprint e b) → same_fingerprint e a) ∧
  ((∃ b, b ∈ candidates ∧ same_digests e b) → same_fingerprint e a ∨ same_digests e a).

Lemma selected_preferred e candidates :
  candidates ≠ [] → ∃ a, candidates !! selected e candidates = Some a ∧ preferred e candidates a.
Proof.
  intros Hne. unfold selected.
  destruct (position (fingerprint_is e) candidates) as [i|] eqn:E1.
  { apply position_Some in E1 as (a & Ha & Hp%str_eqb_eq). exists a. split; [done|].
    split; [by eapply list_elem_of_lookup_2|]. auto. }
  pose proof (position_None _ _ E1) as H1. cbn in H1.
  assert (¬ ∃ b, b ∈ candidates ∧ same_fingerprint e b) as Hno.
  { intros (b & Hb & Hf%str_eqb_eq). specialize (H1 b Hb). unfold fingerprint_is in H1. by rewrite Hf in H1. }
  destruct (position (digests_are e) candidates) as [i|] eqn:E2; cbn [default].
  - apply position_Some in E2 as (a & Ha & [Hc Hm]%andb_true_iff). exists a. split; [done|].
    split; [by eapply list_elem_of_lookup_2|]. split; [done|]. intros _. right.
    apply bool_decide_eq_true in Hc, Hm. done.
  - pose proof (position_None _ _ E2) as H2. destruct candidates as [|a candidates]; [done|]. exists a.
    split; [done|]. split; [apply list_elem_of_here|]. split; [done|]. intros (b & Hb & Hc & Hm). exfalso.
    specialize (H2 b Hb). unfold digests_are, is_exactly in H2. rewrite Hc, Hm, !bool_decide_eq_true_2 in H2; done.
Qed.

Lemma compare_entry_spec m e :
  keyed m →
  ∃ m' ds, compare_entry m e = Some (m', ds) ∧ keyed m' ∧ dom m' ⊆ dom m ∧
    ((m !! expected_key e = None ∧ m' = m ∧ ds = [push_drift DriftMissing e None "desired skill is not present"]) ∨
     ∃ a, observed_key a = expected_key e ∧ preferred e (default [] (m !! expected_key e)) a ∧
          remaining m ≡ₚ a :: remaining m' ∧ ds = entry_drift e a).
Proof.
  intros Hm. unfold compare_entry. destruct (m !! expected_key e) as [candidates|] eqn:E; [|by eauto 10].
  destruct (Hm _ _ E) as [Hne Hkeys]. destruct (selected_preferred e candidates Hne) as (a & Ha & Hp).
  rewrite Ha. cbn [mbind option_bind default].
  assert (observed_key a = expected_key e) as Hka.
  { rewrite Forall_forall in Hkeys. apply Hkeys. by eapply list_elem_of_lookup_2. }
  assert (candidates ≡ₚ a :: delete (selected e candidates) candidates) as Hperm by by apply delete_Permutation.
  pose proof (remaining_lookup m _ _ E) as Hr. rewrite Hperm in Hr.
  assert (Forall (λ b, observed_key b = expected_key e) (delete (selected e candidates) candidates)) as Hrest.
  { rewrite Hperm in Hkeys. by inversion_clear Hkeys. }
  destruct (delete (selected e candidates) candidates) as [|b rest] eqn:Ed.
  - eexists _, _. split; [done|]. split_and!; [|set_solver|right; exists a; done].
    intros k l [Hk Hl]%lookup_delete_Some. by apply Hm.
  - eexists _, _. split; [done|]. split_and!.
    + intros k l. destruct (decide (k = expected_key e)) as [->|Hk].
      * rewrite lookup_insert_eq. by intros [= <-].
      * rewrite lookup_insert_ne by done. apply Hm.
    + rewrite dom_insert. assert (expected_key e ∈ dom m) by (apply elem_of_dom; eauto). set_solver.
    + right. exists a. split_and!; [done..| |done]. rewrite remaining_insert. exact Hr.
Qed.

(** What is reported for an entry of the lockfile and the skill it was matched with. *)
Definition pair_drift (p : SkillLockEntry * option ObservedSkill) : list SkillDrift :=
  match p.2 with
  | Some a => entry_drift p.1 a
  | None => [push_drift DriftMissing p.1 None "desired skill is not present"]
  end.

Record matching (observed : list ObservedSkill) (entries : list SkillLockEntry)
    (matched : list (SkillLockEntry * option ObservedSkill)) (extras : list ObservedSkill) : Prop := {
  mt_entries : map fst matched = entries;
  mt_observed : (omap snd matched ++ extras)%list ≡ₚ observed;
  mt_keys : ∀ e a, (e, Some a) ∈ matched → observed_key a = expected_key e;
  mt_missing : ∀ e a, (e, None) ∈ matched → a ∈ extras → observed_key a ≠ expected_key e;
}.

Lemma compare_entries_spec entries m :
  keyed m →
  ∃ m' matched, compare_entries m entries = Some (m', concat (map pair_drift matched)) ∧ keyed m' ∧ dom m' ⊆ dom m ∧
    matching (remaining m) entries matched (remaining m').
Proof.
  revert m. induction entries as [|e entries IH]; intros m Hm; cbn [compare_entries].
  { exists m, []. split_and!; [done..|]. split; [done|done|set_solver..]. }
  destruct (compare_entry_spec m e Hm) as (m1 & d1 & E1 & Hm1 & Hd1 & Hcase). rewrite E1. cbn [mbind option_bind].
  destruct (IH m1 Hm1) as (m' & matched & E2 & Hm' & Hd2 & [He Ho Hk Hmiss]). rewrite E2. cbn [mbind option_bind].
  destruct Hcase as [(Hnone & -> & ->)|(a & Hka & _ & Hr & ->)].
  - exists m', ((e, None) :: matched). split_and!; [done|done|set_solver|]. split; [by cbn; f_equal|done| |].
    + intros e' a' [?|?]%elem_of_cons; [done|by apply Hk].
    + intros e' a' [[= ->]|?]%elem_of_cons Ha; [|by apply Hmiss]. intros Heq.
      apply elem_of_remaining in Ha as (l & Hl & _); [|done]. rewrite Heq in Hl.
      assert (expected_key e ∈ dom m) as [? Hs]%elem_of_dom by (apply Hd2, elem_of_dom; eauto). congruence.
  - exists m', ((e, Some a) :: matched). split_and!; [done|done|set_solver|]. split; [by cbn; f_equal| | |].
    + cbn. by rewrite Hr, Ho.
    + intros e' a' [[= -> ->]|?]%elem_of_cons; [done|by apply Hk].
    + intros e' a' [?|?]%elem_of_cons; [done|by apply Hmiss].
Qed.

Lemma dedup_after_spec kept l :
  (∀ d, d ∈ dedup_after same_drift kept l → d ∈ l) ∧
  ∀ d, d ∈ l → ∃ d', (d' = kept ∨ d' ∈ dedup_after same_drift kept l) ∧ dr_fingerprint d' = dr_fingerprint d.
Proof.
  revert kept. induction l as [|x l IH]; intros kept; cbn; [set_solver|].
  destruct (same_drift x kept) eqn:E.
  - apply str_eqb_eq in E. destruct (IH kept) as [H1 H2]. split; [set_solver|].
    intros d [->|Hd]%elem_of_cons; [exists kept; auto|by apply H2].
  - destruct (IH x) as [H1 H2]. split; [set_solver|].
    intros d [->|Hd]%elem_of_cons; [exists x; set_solver|]. destruct (H2 d Hd) as (d' & Hd' & Hf). exists d'. set_solver.
Qed.

Lemma dedup_by_spec l :
  (∀ d, d ∈ dedup_by same_drift l → d ∈ l) ∧
  ∀ d, d ∈ l → ∃ d', d' ∈ dedup_by same_drift l ∧ dr_fingerprint d' = dr_fingerprint d.
Proof.
  destruct l as [|x l]; cbn; [set_solver|]. destruct (dedup_after_spec x l) as [H1 H2]. split; [set_solver|].
  intros d [->|Hd]%elem_of_cons; [set_solver|]. destruct (H2 d Hd) as (d' & Hd' & Hf). exists d'. set_solver.
Qed.

(** The drifts of a matching. *)
Definition reported (matched : list (SkillLockEntry * option ObservedSkill)) (extras : list ObservedSkill) : list SkillDrift :=
  concat (map pair_drift matched) ++ concat (map (λ a, extra_drift (observed_key a) a) extras).

Lemma compare_drift_spec observed lockfile :
  ∃ drift matched extras, compare_drift observed lockfile = Some drift ∧
    matching observed (lc_entries lockfile) matched extras ∧
    (∀ d, d ∈ drift → d ∈ reported matched extras) ∧
    (∀ d, d ∈ reported matched extras → ∃ d', d' ∈ drift ∧ dr_fingerprint d' = dr_fingerprint d).
Proof.
  destruct (observed_by_key_spec observed) as [Hk Hr].
  destruct (compare_entries_spec (lc_entries lockfile) _ Hk) as (m' & matched & E & Hk' & _ & [He Ho Hkeys Hmiss]).
  set (extras := concat (map (λ kc, concat (map (extra_drift kc.1) kc.2)) (in_key_order target_cmp3 m'))).
  exists (dedup_by same_drift (sort_by drift_order (concat (map pair_drift matched) ++ extras)%list)), matched, (remaining m').
  split; [unfold compare_drift; by rewrite E|].
  split; [split; [done|by rewrite Ho|done|done]|].
  assert (∀ d, d ∈ extras ↔ d ∈ concat (map (λ a, extra_drift (observed_key a) a) (remaining m'))) as Hextras.
  { intros d. unfold extras, in_key_order. rewrite !elem_of_concat_map. split.
    - intros ([k l] & Hkl & (a & Ha & Hd)%elem_of_concat_map). rewrite elem_of_sort_by, elem_of_map_to_list in Hkl.
      destruct (Hk' _ _ Hkl) as [_ Hall]. rewrite Forall_forall in Hall. specialize (Hall a Ha). cbn [fst snd] in *. subst k.
      exists a. split; [|done]. apply elem_of_remaining; eauto.
    - intros (a & (l & Hl & Ha)%elem_of_remaining & Hd); [|done]. exists (observed_key a, l).
      rewrite elem_of_sort_by, elem_of_map_to_list, elem_of_concat_map. eauto. }
  destruct (dedup_by_spec (sort_by drift_order (concat (map pair_drift matched) ++ extras)%list)) as [H1 H2].
  assert (∀ d, d ∈ reported matched (remaining m') ↔ d ∈ sort_by drift_order (concat (map pair_drift matched) ++ extras)%list) as Hrep.
  { intros d. rewrite elem_of_sort_by. unfold reported. by rewrite !elem_of_app, Hextras. }
  setoid_rewrite Hrep. done.
Qed.

(** An observed skill that is what the lockfile says, and proved to be. *)
Record as_locked (e : SkillLockEntry) (a : ObservedSkill) : Prop := {
  al_key : observed_key a = expected_key e;
  al_supported : os_supported a = true;
  al_evidence : os_evidence_status a = "runtime_discovered" ∨ os_evidence_status a = "session_effective";
  al_visible : os_shadowed a = false ∧ os_broken_symlink a = false;
  al_version : ∀ v, os_version a = Some v → le_version e = Some v;
  al_digests : same_digests e a;
  al_source : ∀ s, os_source_provenance a = Some s → lockfile_source_provenance s = le_source_provenance e;
  al_mode : ∀ m, os_installation_mode a = Some m → m = le_installation_mode e;
  al_enabled : ∀ b, os_enabled a = Some b → b = le_enabled e;
}.

Lemma drift_if_nil b kind e a reason : drift_if b kind e a reason = [] ↔ b = false.
Proof. by destruct b. Qed.
Lemma differs_false `{EqDecision V} (o : option V) v : differs o v = false ↔ ∀ x, o = Some x → x = v.
Proof.
  destruct o as [x|]; cbn; [|naive_solver]. rewrite negb_false_iff, bool_decide_eq_true. naive_solver.
Qed.

Lemma entry_drift_nil e a : observed_key a = expected_key e → entry_drift e a = [] ↔ as_locked e a.
Proof.
  intros Hk. unfold entry_drift. rewrite !app_nil, !drift_if_nil, !differs_false, !negb_false_iff, orb_false_iff,
    !bool_decide_eq_false.
  assert (evidenced a = true ↔ os_evidence_status a = "runtime_discovered" ∨ os_evidence_status a = "session_effective") as ->.
  { unfold evidenced. cbn. rewrite !orb_true_iff, !str_eqb_eq. naive_solver. }
  assert (match os_version a with Some version => negb (bool_decide (le_version e = Some version)) | None => false end = false
          ↔ ∀ v, os_version a = Some v → le_version e = Some v) as ->.
  { destruct (os_version a); [|naive_solver]. rewrite negb_false_iff, bool_decide_eq_true. naive_solver. }
  split.
  - intros (H1 & H2 & H3 & H4 & H5 & [H6 H7] & H8 & H9 & H10 & H11 & H12). split; try done.
    + destruct (os_content_digest a) as [c|] eqn:Ec, (os_manifest_digest a) as [m|] eqn:Em; try done.
      split; [rewrite Ec, (H8 c)|rewrite Em, (H9 m)]; done.
    + intros s Hs. apply H10. by rewrite Hs.
  - intros [_ H1 H2 [H3 H4] H5 [Hc Hm] H10 H11 H12]. rewrite Hc, Hm. split_and!; try done; try congruence.
    intros x. destruct (os_source_provenance a) as [s|] eqn:E; cbn; [|done]. intros [= <-]. by apply H10.
Qed.

(** ** Resolution *)

(** All candidates of a list want the same thing. *)
Definition agreed (cs : list Candidate) : Prop :=
  ∃ h, ∀ c, c ∈ cs → canonical_hash (desired_skill_json c.2) = Ok h.

(** What a layer leaves for a key: the first candidate when all agree, nothing otherwise. *)
Definition settled (cs : list Candidate) (o : option EffectiveDesiredSkill) : Prop :=
  (agreed cs ∧ ∃ c s, head cs = Some c ∧ effective_skill c = Ok s ∧ o = Some s) ∨ (¬ agreed cs ∧ o = None).

Lemma variants_agree cs variants :
  cs ≠ [] → collect_results (λ c : Candidate, canonical_hash (desired_skill_json c.2)) cs = Ok variants →
  (1 <? size (list_to_set variants : gset string))%nat = false ↔ agreed cs.
Proof.
  intros Hne Hv%collect_results_Forall2. rewrite Nat.ltb_ge. split.
  - intros Hs. destruct cs as [|c cs]; [done|]. inversion Hv as [|? v ? vs Hc Hcs]; subst. exists v.
    intros c' Hc'. apply list_elem_of_lookup in Hc' as [i Hi].
    destruct (Forall2_lookup_l _ _ _ _ _ Hv Hi) as (v' & Hv' & ->). f_equal.
    apply (size_singleton_inv (list_to_set (v :: vs) : gset string)); [| |set_solver].
    + apply Nat.le_antisymm; [done|]. apply Nat.le_succ_l, Nat.neq_0_lt_0, size_non_empty_iff. set_solver.
    + apply elem_of_list_to_set. by eapply list_elem_of_lookup_2.
  - intros [h Hh]. transitivity (size ({[h]} : gset string)); [|by rewrite size_singleton].
    apply subseteq_size. intros v Hin%elem_of_list_to_set. apply list_elem_of_lookup in Hin as [i Hi].
    destruct (Forall2_lookup_r _ _ _ _ _ Hv Hi) as (c & Hc & E).
    rewrite (Hh c) in E by (by eapply list_elem_of_lookup_2). set_solver.
Qed.

Lemma resolve_entry_spec r k cs r' :
  cs ≠ [] → resolve_entry r (k, cs) = Ok r' →
  settled cs (rsn_effective r' !! k) ∧ (∀ k', k' ≠ k → rsn_effective r' !! k' = rsn_effective r !! k') ∧
  ∀ x, x ∈ rsn_conflicts r' ↔ x ∈ rsn_conflicts r ∨
    (¬ agreed cs ∧ ∃ c, head cs = Some c ∧ x = desired_conflict_of k cs (bdp_scope c.1)).
Proof.
  intros Hne. unfold resolve_entry. destruct cs as [|c cs]; [done|].
  destruct (collect_results _ _) as [variants|e] eqn:Ev; cbn [rbind]; [|done].
  pose proof (variants_agree _ _ Hne Ev) as Hag. destruct (1 <? _)%nat.
  - assert (¬ agreed (c :: cs)) as Hno by (intros H%Hag; done). intros [= <-]. cbn. split_and!.
    + right. by rewrite lookup_delete_eq.
    + intros k' Hk'. by rewrite lookup_delete_ne.
    + intros x. rewrite elem_of_app, list_elem_of_singleton. naive_solver.
  - assert (agreed (c :: cs)) as Hyes by by apply Hag.
    destruct (effective_skill c) as [s|e] eqn:Es; cbn [rbind]; [|done]. intros [= <-]. cbn. split_and!.
    + left. split; [done|]. exists c, s. by rewrite lookup_insert_eq.
    + intros k' Hk'. by rewrite lookup_insert_ne.
    + intros x. naive_solver.
Qed.

Lemma resolve_entries_spec l r r' :
  NoDup (map fst l) → (∀ k cs, (k, cs) ∈ l → cs ≠ []) → try_for resolve_entry r l = Ok r' →
  (∀ k, k ∉ map fst l → rsn_effective r' !! k = rsn_effective r !! k) ∧
  (∀ k cs, (k, cs) ∈ l → settled cs (rsn_effective r' !! k)) ∧
  ∀ x, x ∈ rsn_conflicts r' ↔ x ∈ rsn_conflicts r ∨
    ∃ k cs c, (k, cs) ∈ l ∧ ¬ agreed cs ∧ head cs = Some c ∧ x = desired_conflict_of k cs (bdp_scope c.1).
Proof.
  revert r. induction l as [|[k cs] l IH]; intros r Hnd Hne; cbn [try_for].
  { intros [= <-]. set_solver. }
  destruct (resolve_entry r (k, cs)) as [r1|e] eqn:E; cbn [rbind]; [|done]. intros Hl.
  inversion_clear Hnd as [|? ? Hk Hnd']. cbn [map fst] in Hk.
  destruct (resolve_entry_spec r k cs r1) as (Hs & Ho & Hc); [by eapply Hne, list_elem_of_here|done|].
  destruct (IH r1 Hnd') as (IH1 & IH2 & IH3); [intros; eapply Hne; by right|done|]. split_and!.
  - intros k' Hk'. cbn in Hk'. rewrite IH1, Ho by set_solver. done.
  - intros k' cs' [[= -> ->]|Hin]%elem_of_cons; [|by apply IH2]. by rewrite IH1.
  - intros x. rewrite IH3, Hc. setoid_rewrite elem_of_cons. split.
    + intros [[?|(Hno & c & Hh & ->)]|(k' & cs' & c & ? & ?)]; [by left|right; exists k, cs, c; auto|right; exists k', cs', c; auto].
    + intros [?|(k' & cs' & c & [[= -> ->]|?] & Hno & Hh & ->)]; [by left; left|left; right; eauto|right; exists k', cs', c; auto].
Qed.

(** The candidates of a key in a layer, and in the highest layer that has any. *)
Definition layer_at (profiles : list BoundProfile) (p : Z) (k : string * string) : list Candidate :=
  bfilter (λ c, bool_decide (desired_key c.2 = k)) (layer_candidates profiles p).
Definition top_candidates (profiles : list BoundProfile) (k : string * string) : list Candidate :=
  match layer_at profiles 2 k, layer_at profiles 1 k with
  | [], [] => layer_at profiles 0 k
  | [], cs => cs
  | cs, _ => cs
  end.

Lemma layer_of_spec profiles p k :
  layer_of profiles p !! k = match layer_at profiles p k with [] => None | cs => Some cs end.
Proof.
  unfold layer_of, layer_at.
  enough (∀ (l : list Candidate) (m : Layer), fold_left (λ layer c, or_default_push layer (desired_key c.2) c) l m !! k =
      match bfilter (λ c, bool_decide (desired_key c.2 = k)) l with
      | [] => m !! k | cs => Some (default [] (m !! k) ++ cs)%list end) as H.
  { rewrite H, lookup_empty. by destruct (bfilter _ _). }
  induction l as [|c l IH]; intros m; [done|]. cbn [fold_left bfilter]. rewrite IH. unfold or_default_push.
  case_bool_decide as E; [subst k; rewrite lookup_insert_eq|by rewrite lookup_insert_ne].
  destruct (bfilter _ l); cbn; [done|]. by rewrite <- app_assoc.
Qed.

Lemma resolve_layer_spec profiles r p r' :
  resolve_layer profiles r p = Ok r' →
  (∀ k, match layer_at profiles p k with
        | [] => rsn_effective r' !! k = rsn_effective r !! k
        | cs => settled cs (rsn_effective r' !! k)
        end) ∧
  ∀ x, x ∈ rsn_conflicts r' ↔ x ∈ rsn_conflicts r ∨
    ∃ k c, ¬ agreed (layer_at profiles p k) ∧ head (layer_at profiles p k) = Some c ∧
           x = desired_conflict_of k (layer_at profiles p k) (bdp_scope c.1).
Proof.
  unfold resolve_layer. set (l := in_key_order key_cmp (layer_of profiles p)). intros Hl.
  assert (∀ k cs, (k, cs) ∈ l ↔ cs = layer_at profiles p k ∧ cs ≠ []) as Hin.
  { intros k cs. unfold l, in_key_order. rewrite elem_of_sort_by, elem_of_map_to_list, layer_of_spec.
    destruct (layer_at profiles p k); naive_solver. }
  destruct (resolve_entries_spec l r r') as (H1 & H2 & H3); [| |done|].
  - unfold l, in_key_order. rewrite sort_by_perm. apply NoDup_fst_map_to_list.
  - intros k cs [_ H]%Hin. done.
  - split.
    + intros k. destruct (layer_at profiles p k) as [|c cs] eqn:E.
      * apply H1. intros ([k' cs] & -> & [-> Hne]%Hin)%list_elem_of_fmap. done.
      * apply H2, Hin. by rewrite E.
    + intros x. rewrite H3. f_equiv. split.
      * intros (k & cs & c & [-> Hne]%Hin & Hno & Hh & ->). by exists k, c.
      * intros (k & c & Hno & Hh & ->). exists k, (layer_at profiles p k), c. split_and!; try done.
        apply Hin. split; [done|]. by destruct (layer_at profiles p k).
Qed.

Lemma settled_agrees cs o : settled cs o → cs ≠ [] →
  ∀ s, o = Some s ↔ agreed cs ∧ ∃ c, head cs = Some c ∧ effective_skill c = Ok s.
Proof.
  intros [(Ha & c & s' & Hc & Hs' & ->)|[Hno ->]] Hne s; [|naive_solver]. split.
  - intros [= <-]. eauto.
  - intros (_ & c' & Hc' & Hs). congruence.
Qed.

Lemma resolve_layers_spec profiles r :
  try_for (resolve_layer profiles) (mkResolution ∅ []) [0; 1; 2] = Ok r →
  (∀ k s, rsn_effective r !! k = Some s ↔
    agreed (top_candidates profiles k) ∧ ∃ c, head (top_candidates profiles k) = Some c ∧ effective_skill c = Ok s) ∧
  ∀ x, x ∈ rsn_conflicts r ↔ ∃ p k c, p ∈ [0; 1; 2] ∧ ¬ agreed (layer_at profiles p k) ∧
    head (layer_at profiles p k) = Some c ∧ x = desired_conflict_of k (layer_at profiles p k) (bdp_scope c.1).
Proof.
  cbn [try_for]. destruct (resolve_layer profiles _ 0) as [r0|] eqn:E0; cbn [rbind]; [|done].
  destruct (resolve_layer profiles r0 1) as [r1|] eqn:E1; cbn [rbind]; [|done].
  destruct (resolve_layer profiles r1 2) as [r2|] eqn:E2; cbn [rbind]; [|done]. intros [= <-].
  apply resolve_layer_spec in E0 as [L0 C0], E1 as [L1 C1], E2 as [L2 C2]. split.
  - intros k s. specialize (L0 k); specialize (L1 k); specialize (L2 k). unfold top_candidates.
    destruct (layer_at profiles 2 k) eqn:T2; [|by apply settled_agrees].
    destruct (layer_at profiles 1 k) eqn:T1; rewrite L2; [|by apply settled_agrees].
    destruct (layer_at profiles 0 k) eqn:T0; rewrite L1; [|by apply settled_agrees].
    rewrite L0. cbn. rewrite lookup_empty. naive_solver.
  - intros x. rewrite C2, C1, C0. cbn. split.
    + intros [[[Hx%not_elem_of_nil|(k & c & ?)]|(k & c & ?)]|(k & c & ?)]; [done|exists 0, k, c|exists 1, k, c|exists 2, k, c];
        split_and!; try done; set_solver.
    + intros (p & k & c & Hp & H). assert (p = 0 ∨ p = 1 ∨ p = 2) as [-> | [-> | ->]] by set_solver; eauto 10.
Qed.

Lemma layer_at_key profiles p k c : c ∈ layer_at profiles p k → desired_key c.2 = k ∧ c ∈ layer_candidates profiles p.
Proof. intros [H Hk]%elem_of_bfilter. by apply bool_decide_eq_true in Hk. Qed.

Lemma top_candidates_key profiles k c : head (top_candidates profiles k) = Some c → desired_key c.2 = k.
Proof.
  intros Hc%head_Some_elem_of. unfold top_candidates in Hc.
  destruct (layer_at profiles 2 k) eqn:E2, (layer_at profiles 1 k) eqn:E1; try rewrite <- E1 in Hc;
    try rewrite <- E2 in Hc; by apply layer_at_key in Hc as [? _].
Qed.

Lemma effective_skill_desired c s : effective_skill c = Ok s → eds_desired s = c.2.
Proof.
  unfold effective_skill. destruct (desired_identity_fingerprint _), (normalize_source _); cbn; try done. by intros [= <-].
Qed.

Lemma resolve_keys profiles st :
  resolve_effective_desired profiles = Ok st →
  NoDup (map (λ s, desired_key (eds_desired s)) (eff_skills st)) ∧
  (∀ s, s ∈ eff_skills st ↔ ∃ k, agreed (top_candidates profiles k) ∧
     ∃ c, head (top_candidates profiles k) = Some c ∧ effective_skill c = Ok s) ∧
  ∀ x, x ∈ eff_conflicts st ↔ ∃ p k c, p ∈ [0; 1; 2] ∧ ¬ agreed (layer_at profiles p k) ∧
    head (layer_at profiles p k) = Some c ∧ x = desired_conflict_of k (layer_at profiles p k) (bdp_scope c.1).
Proof.
  unfold resolve_effective_desired. destruct (collect_results _ _); cbn [rbind]; [|done].
  destruct (try_for _ _ _) as [r|] eqn:Er; cbn [rbind]; [|done].
  destruct (canonical_hash _) as [h|]; cbn [rbind]; [|done]. intros [= <-]. cbn [eff_skills eff_conflicts].
  destruct (resolve_layers_spec profiles r Er) as [Hk Hc].
  assert (∀ k s, (k, s) ∈ in_key_order key_cmp (rsn_effective r) ↔ rsn_effective r !! k = Some s) as Hin.
  { intros k s. unfold in_key_order. by rewrite elem_of_sort_by, elem_of_map_to_list. }
  split_and!.
  - assert (map (λ s, desired_key (eds_desired s)) (map snd (in_key_order key_cmp (rsn_effective r)))
            = map fst (in_key_order key_cmp (rsn_effective r))) as ->.
    { rewrite map_map. apply map_ext_in. intros [k s] Hks%list_elem_of_In%Hin%Hk.
      destruct Hks as (_ & c & Hhd & Hs). cbn [fst snd]. rewrite (effective_skill_desired _ _ Hs). by eapply top_candidates_key. }
    unfold in_key_order. rewrite sort_by_perm. apply NoDup_fst_map_to_list.
  - intros s. rewrite list_elem_of_fmap. split.
    + intros ([k s'] & -> & H%Hin%Hk). by exists k.
    + intros (k & H%Hk). exists (k, s). by rewrite Hin.
  - intros x. rewrite elem_of_sort_by. apply Hc.
Qed.

(** C13 (functional). The effective state is decided by precedence: for every key the candidates of the highest
    layer (agent, then workspace, then machine) that has any decide; when they all want the same
    the first of them is in force, with the fingerprint and provenance computed from it, otherwise
    nothing is, not even what a lower layer wanted; a conflict is reported for every layer that
    disagrees, and no key is in force twice. *)
Theorem resolution_by_precedence profiles st :
  resolve_effective_desired profiles = Ok st →
  (∀ s, s ∈ eff_skills st ↔ ∃ k c, head (top_candidates profiles k) = Some c ∧
     agreed (top_candidates profiles k) ∧ effective_skill c = Ok s) ∧
  NoDup (map (λ s, desired_key (eds_desired s)) (eff_skills st)) ∧
  ∀ x, x ∈ eff_conflicts st ↔ ∃ p k c, p ∈ [0; 1; 2] ∧ ¬ agreed (layer_at profiles p k) ∧
    head (layer_at profiles p k) = Some c ∧ x = desired_conflict_of k (layer_at profiles p k) (bdp_scope c.1).
Proof.
  intros (Hnd & Hs & Hc)%resolve_keys. split_and!; [|done|done]. intros s. rewrite Hs. naive_solver.
Qed.

(** ** Normal forms are normal *)

Definition norm_char (c : Ascii.ascii) : Ascii.ascii :=
  if Ascii.eqb (ascii_lower c) (Ascii.ascii_of_N 95) then Ascii.ascii_of_N 45 else ascii_lower c.

Lemma normalize_is_smap s : normalize_logical_identity s = smap norm_char (trim s).
Proof.
  unfold normalize_logical_identity. induction (trim s) as [|c t IH]; [done|].
  cbn [to_ascii_lowercase replace_char smap]. by rewrite IH.
Qed.
Lemma lowercase_is_smap s : to_ascii_lowercase s = smap ascii_lower s.
Proof. induction s as [|c t IH]; [done|]. cbn. by rewrite IH. Qed.

Lemma smap_idemp f s : (∀ c, f (f c) = f c) → smap f (smap f s) = smap f s.
Proof. intros Hf. induction s as [|c s IH]; [done|]. cbn. by rewrite Hf, IH. Qed.

Lemma norm_char_ok : keeps_white norm_char ∧ ∀ c, norm_char (norm_char c) = norm_char c.
Proof. split; intros [[] [] [] [] [] [] [] []]; by vm_compute. Qed.
Lemma ascii_lower_idemp c : ascii_lower (ascii_lower c) = ascii_lower c.
Proof. destruct c as [[] [] [] [] [] [] [] []]; by vm_compute. Qed.

Lemma normalize_idemp s : normalize_logical_identity (normalize_logical_identity s) = normalize_logical_identity s.
Proof.
  rewrite !normalize_is_smap, trim_smap by apply norm_char_ok. apply smap_idemp, norm_char_ok.
Qed.
Lemma lowercase_idemp s : to_ascii_lowercase (to_ascii_lowercase s) = to_ascii_lowercase s.
Proof. rewrite !lowercase_is_smap. apply smap_idemp, ascii_lower_idemp. Qed.

(** ** The lockfile of an effective state, compared *)

Lemma lock_entry_key s :
  expected_key (lock_entry s) =
  ((desired_key (eds_desired s)).2, dk_install_scope (eds_desired s), (desired_key (eds_desired s)).1).
Proof.
  unfold expected_key, lock_entry, desired_key. cbn [le_target_runtime le_scope le_logical_identity fst snd].
  by rewrite lowercase_idemp, normalize_idemp.
Qed.

Lemma lockfile_keys profiles st oh at_time preview :
  resolve_effective_desired profiles = Ok st → build_lockfile_preview st oh at_time = Ok preview →
  NoDup (map expected_key (lc_entries (lp_content preview))).
Proof.
  intros (Hnd & _ & _)%resolve_keys. unfold build_lockfile_preview.
  destruct (canonical_hash _), (to_string_pretty _); cbn; try done. intros [= <-]. cbn [lp_content lc_entries].
  rewrite sort_by_perm, map_map.
  apply (NoDup_fmap_1 (λ t : Target, (t.2, t.1.1))). rewrite <- list_fmap_compose.
  eapply eq_ind; [exact Hnd|]. apply list_fmap_ext. intros i sk _. cbn [compose]. rewrite lock_entry_key. by destruct (desired_key (eds_desired sk)).
Qed.

Lemma NoDup_map_NoDup {A B} (f : A → B) (l : list A) : NoDup (map f l) → NoDup l.
Proof. apply (NoDup_fmap_1 f). Qed.

Lemma as_locked_keys es xs : Forall2 as_locked es xs → map expected_key es = map observed_key xs.
Proof. induction 1 as [|e a es xs [Hea] _ IH]; [done|]. cbn. by rewrite Hea, IH. Qed.

(** When every entry has its skill and nothing else is there, the matching finds it. *)
Section AsLocked.
Context observed entries matched extras actuals (Hnd : NoDup (map expected_key entries))
  (Hmt : matching observed entries matched extras) (Hall : Forall2 as_locked entries actuals) (Hp : actuals ≡ₚ observed).

Lemma observed_keys_distinct : NoDup (map observed_key observed).
Proof using Hnd Hall Hp.
  rewrite <- Hp, <- (as_locked_keys _ _ Hall). exact Hnd.
Qed.

Lemma entry_observed e : e ∈ entries → ∃ a, a ∈ observed ∧ as_locked e a.
Proof using Hall Hp.
  intros [i Hi]%list_elem_of_lookup. destruct (Forall2_lookup_l _ _ _ _ _ Hall Hi) as (a & Ha & Hl).
  exists a. split; [|done]. rewrite <- Hp. by eapply list_elem_of_lookup_2.
Qed.

Lemma matched_entry e o : (e, o) ∈ matched → e ∈ entries.
Proof using Hmt. intros H. rewrite <- (mt_entries _ _ _ _ Hmt). apply list_elem_of_fmap. by exists (e, o). Qed.
Lemma matched_observed e a : (e, Some a) ∈ matched → a ∈ observed.
Proof using Hmt.
  intros H. rewrite <- (mt_observed _ _ _ _ Hmt), elem_of_app. left. apply list_elem_of_omap. by exists (e, Some a).
Qed.
Lemma matched_once e o o' : (e, o) ∈ matched → (e, o') ∈ matched → o = o'.
Proof using Hmt Hnd.
  intros H1 H2. assert ((e, o) = (e, o')) as [= ->]; [|done].
  apply (NoDup_key_eq fst matched); try done. apply (NoDup_map_NoDup expected_key). by rewrite (mt_entries _ _ _ _ Hmt).
Qed.

Lemma matched_as_locked e o : (e, o) ∈ matched → ∃ a, o = Some a ∧ as_locked e a.
Proof using All.
  intros Heo. destruct (entry_observed e) as (a & Ha & Hl); [by eapply matched_entry|]. destruct o as [a'|].
  - exists a'. split; [done|]. assert (a' = a) as ->; [|done].
    apply (NoDup_key_eq observed_key observed); [apply observed_keys_distinct|by eapply matched_observed|done|].
    rewrite (mt_keys _ _ _ _ Hmt _ _ Heo). symmetry. apply Hl.
  - exfalso. rewrite <- (mt_observed _ _ _ _ Hmt), elem_of_app in Ha. destruct Ha as [Ha|Ha].
    + apply list_elem_of_omap in Ha as ([e' o'] & Heo' & Hs). cbn in Hs. subst o'.
      assert (e' = e) as ->; [|by pose proof (matched_once _ _ _ Heo Heo')].
      apply (NoDup_key_eq expected_key entries); [done|by eapply matched_entry..|].
      rewrite <- (mt_keys _ _ _ _ Hmt _ _ Heo'). apply Hl.
    + apply (mt_missing _ _ _ _ Hmt e a); [done|done|]. apply Hl.
Qed.

Lemma nothing_extra : extras = [].
Proof using All.
  apply elem_of_nil_inv. intros a Hex. pose proof (mt_observed _ _ _ _ Hmt) as Ho.
  assert (a ∈ observed) as Ha by (rewrite <- Ho; set_solver).
  assert (a ∈ actuals) as [i Hi]%list_elem_of_lookup by by rewrite Hp.
  destruct (Forall2_lookup_r _ _ _ _ _ Hall Hi) as (e & Hei & Hl).
  assert (e ∈ map fst matched) as ([e' o] & Heq & Heo)%list_elem_of_fmap
    by (rewrite (mt_entries _ _ _ _ Hmt); by eapply list_elem_of_lookup_2).
  cbn in Heq. subst e'. destruct (matched_as_locked e o) as (a' & -> & Hl'); [done|].
  assert (a' = a) as ->.
  { apply (NoDup_key_eq observed_key observed); [apply observed_keys_distinct|by eapply matched_observed|done|].
    rewrite (al_key _ _ Hl), (al_key _ _ Hl'). done. }
  assert (NoDup (omap snd matched ++ extras)) as Hdup by (rewrite Ho; eapply NoDup_map_NoDup, observed_keys_distinct).
  apply NoDup_app in Hdup as (_ & Hdisj & _). apply (Hdisj a); [|done]. apply list_elem_of_omap. by exists (e, Some a).
Qed.
End AsLocked.

Lemma reported_nil matched extras :
  reported matched extras = [] ↔ extras = [] ∧ ∀ e o, (e, o) ∈ matched → pair_drift (e, o) = [].
Proof.
  unfold reported. rewrite app_nil. split.
  - intros [H1 H2]. split.
    + destruct extras; [done|]. done.
    + intros e o H. destruct (pair_drift (e, o)) as [|d l] eqn:E; [done|].
      assert (d ∈ concat (map pair_drift matched)) as Hd by (apply elem_of_concat_map; exists (e, o); rewrite E; set_solver).
      rewrite H1 in Hd. set_solver.
  - intros [-> H]. split; [|done]. induction matched as [|[e o] matched IH]; [done|]. cbn.
    rewrite IH, app_nil_r; [apply H|intros; apply H]; set_solver.
Qed.

Lemma no_drift_reported observed lockfile :
  ∃ drift matched extras, compare_drift observed lockfile = Some drift ∧
    matching observed (lc_entries lockfile) matched extras ∧ (drift = [] ↔ reported matched extras = []).
Proof.
  destruct (compare_drift_spec observed lockfile) as (drift & matched & extras & E & Hmt & H1 & H2).
  exists drift, matched, extras. split_and!; [done|done|]. split.
  - intros ->. destruct (reported matched extras) as [|d l]; [done|]. destruct (H2 d) as (d' & Hd' & _); set_solver.
  - intros Hr. rewrite Hr in H1. destruct drift as [|d l]; [done|]. specialize (H1 d). set_solver.
Qed.

(** C12 (equivalence). The comparison is exact: with the lockfile the code builds from resolved profiles, the
    comparison does not panic, and no drift is reported exactly when the observed skills are one
    for each entry, each supported, evidenced at run time, neither shadowed nor broken, with the
    digests of the lockfile and nothing known about it that differs, and nothing else is there. *)
Theorem no_drift_iff_as_locked profiles st oh at_time preview observed :
  resolve_effective_desired profiles = Ok st → build_lockfile_preview st oh at_time = Ok preview →
  is_Some (compare_drift observed (lp_content preview)) ∧
  (compare_drift observed (lp_content preview) = Some [] ↔
   ∃ actuals, Forall2 as_locked (lc_entries (lp_content preview)) actuals ∧ actuals ≡ₚ observed).
Proof.
  intros Hst Hpr. pose proof (lockfile_keys _ _ _ _ _ Hst Hpr) as Hnd.
  destruct (no_drift_reported observed (lp_content preview)) as (drift & matched & extras & E & Hmt & Hnil).
  rewrite E. split; [by eexists|].
  assert (drift = [] ↔ ∃ actuals, Forall2 as_locked (lc_entries (lp_content preview)) actuals ∧ actuals ≡ₚ observed) as <-;
    [|split; [by intros [= ->]|by intros ->]].
  rewrite Hnil, reported_nil. split.
  - intros [-> Hp]. exists (omap snd matched). destruct Hmt as [<- Ho Hk _]. rewrite app_nil_r in Ho. split; [|done].
    clear -Hp Hk. induction matched as [|[e o] matched IH]; [constructor|]. cbn.
    pose proof (Hp e o (list_elem_of_here _ _)) as Hd. destruct o as [a|]; [|done]. constructor.
    + apply entry_drift_nil; [|done]. apply Hk, list_elem_of_here.
    + apply IH; intros; [apply Hk|apply Hp]; by right.
  - intros (actuals & Hall & Hperm). split; [by eapply nothing_extra|]. intros e o H.
    destruct (matched_as_locked _ _ _ _ _ Hnd Hmt Hall Hperm e o H) as (a & -> & Hl). apply entry_drift_nil; [apply Hl|done].
Qed.

(** ** Removal *)

Lemma drift_if_elem b kind e a reason d : d ∈ drift_if b kind e a reason → d = push_drift kind e (Some a) reason.
Proof. destruct b; cbn; set_solver. Qed.

Lemma entry_drift_kind e a d : d ∈ entry_drift e a → dr_kind d ≠ DriftExtra.
Proof.
  unfold entry_drift. rewrite !elem_of_app.
  intros [Hd|[Hd|[Hd|[Hd|[Hd|[Hd|[Hd|[Hd|[Hd|[Hd|Hd]]]]]]]]]]; apply drift_if_elem in Hd as ->; done.
Qed.

(** What is not in the lockfile is reported with the policy that blocks. *)
Lemma extra_blocked observed lockfile drift d :
  compare_drift observed lockfile = Some drift → d ∈ drift → dr_kind d = DriftExtra → dr_risk_policy d = Some RiskBlocked.
Proof.
  intros E Hd Hk. destruct (compare_drift_spec observed lockfile) as (drift' & matched & extras & E' & _ & H1 & _).
  rewrite E in E'. injection E' as <-. apply H1 in Hd. unfold reported in Hd. rewrite elem_of_app in Hd.
  destruct Hd as [([e [a|]] & _ & Hd)%elem_of_concat_map|(a & _ & Hd)%elem_of_concat_map].
  - by apply entry_drift_kind in Hd.
  - cbn in Hd. apply list_elem_of_singleton in Hd as ->. done.
  - unfold extra_drift in Hd. rewrite elem_of_app in Hd.
    destruct Hd as [Hd|Hd]; apply drift_if_elem in Hd as ->; done.
Qed.

Lemma planned_extra drift d oh ch lh :
  (dr_kind d = DriftExtra → dr_risk_policy d = Some RiskBlocked) →
  pa_action (planned_action drift oh ch lh d) ≠ ActRemove ∧
  (dr_kind d = DriftExtra → pa_blocked (planned_action drift oh ch lh d) = true).
Proof.
  intros Hp. unfold planned_action. destruct (blocked_targets drift !! _) as [[]|]; [done..|].
  unfold plan_action, kind_action. destruct d as [fp sfp kind li rt scope mode policy reason ex ac]. cbn in *.
  destruct kind; try specialize (Hp eq_refl); subst; case_bool_decide; destruct mode as [[]|];
    try destruct policy as [[]|]; cbn; try done; by destruct (is_exactly _ _).
Qed.


(** ** The snapshot hash *)

(** An observation without the time it was made at. *)
Definition untimed (s : ObservedSkill) : ObservedSkill :=
  {| os_logical_identity := os_logical_identity s; os_runtime := os_runtime s; os_scope := os_scope s;
     os_scope_id := os_scope_id s; os_source_provenance := os_source_provenance s; os_version := os_version s;
     os_content_digest := os_content_digest s; os_manifest_digest := os_manifest_digest s;
     os_installation_mode := os_installation_mode s; os_destination := os_destination s;
     os_fingerprint := os_fingerprint s; os_enabled := os_enabled s; os_shadowed := os_shadowed s;
     os_broken_symlink := os_broken_symlink s; os_evidence_status := os_evidence_status s;
     os_evidence_source := os_evidence_source s; os_session_effective := os_session_effective s;
     os_session_reason := os_session_reason s; os_observed_at := 0; os_supported := os_supported s |}.
Definition untimed_diagnostic (d : ObservationDiagnostic) : ObservationDiagnostic :=
  {| od_fingerprint := od_fingerprint d; od_runtime := od_runtime d; od_subject := od_subject d;
     od_stage := od_stage d; od_error_type := od_error_type d; od_message := od_message d; od_observed_at := 0 |}.

(** Removing a field before the map is built. *)
Lemma value_without_observed_at_fields fields :
  NoDup (map fst fields) →
  value_without_observed_at (JObject fields) =
  to_map (bfilter (λ kv, negb (str_eqb kv.1 "observedAt")) (map (λ kv, (kv.1, to_value kv.2)) fields)).
Proof.
  intros Hnd. unfold value_without_observed_at. cbn [to_value]. unfold to_map. f_equal. symmetry. apply sort_by_bfilter; [apply _|].
  intros x y Hx Hy E. apply (NoDup_key_eq fst (map (λ kv, (kv.1, to_value kv.2)) fields)); try done.
  - rewrite map_map. exact Hnd.
  - by apply (sc_eq (cmp := String.compare)).
Qed.

Lemma untimed_json s :
  value_without_observed_at (observed_skill_json (untimed s)) = value_without_observed_at (observed_skill_json s).
Proof.
  unfold observed_skill_json. rewrite !value_without_observed_at_fields.
  - rewrite !map_app, !bfilter_app. f_equal.
  - destruct (os_scope_id s); apply (bool_decide_unpack _); vm_compute; exact I.
  - unfold untimed. cbn [os_scope_id]. destruct (os_scope_id s); apply (bool_decide_unpack _); vm_compute; exact I.
Qed.
Lemma untimed_diagnostic_json d :
  value_without_observed_at (observation_diagnostic_json (untimed_diagnostic d)) =
  value_without_observed_at (observation_diagnostic_json d).
Proof. reflexivity. Qed.

Lemma dedup_by_map {A B} (f : A → B) sa sb l :
  (∀ x y, sb (f x) (f y) = sa x y) → dedup_by sb (map f l) = map f (dedup_by sa l).
Proof.
  intros Hs. destruct l as [|x l]; [done|]. cbn. f_equal. revert x.
  induction l as [|y l IH]; intros x; [done|]. cbn. rewrite Hs. destruct (sa y x); [apply IH|]. cbn. by rewrite IH.
Qed.

#[local] Instance scope_cmp_total : TotalCmp scope_cmp.
Proof. unfold scope_cmp. apply _. Qed.
#[local] Instance observed_order_total : TotalCmp observed_order.
Proof. unfold observed_order. apply _. Qed.

(** The snapshot hash names what was observed, not when or in which order: two observations of
    the same skills and diagnostics, in any order and at any times, have the same hash, as long as
    the key that orders the skills (and the fingerprint of the diagnostics) tells them apart. *)
Theorem snapshot_hash_stable t1 t2 skills1 skills2 diagnostics1 diagnostics2 o1 o2 :
  finalize_observation t1 skills1 diagnostics1 = Ok o1 → finalize_observation t2 skills2 diagnostics2 = Ok o2 →
  map untimed skills1 ≡ₚ map untimed skills2 → map untimed_diagnostic diagnostics1 ≡ₚ map untimed_diagnostic diagnostics2 →
  (∀ x y, x ∈ skills1 → y ∈ skills1 → observed_order x y = Eq → untimed x = untimed y) →
  (∀ x y, x ∈ diagnostics1 → y ∈ diagnostics1 → od_fingerprint x = od_fingerprint y →
     untimed_diagnostic x = untimed_diagnostic y) →
  go_snapshot_hash o1 = go_snapshot_hash o2.
Proof.
  intros H1 H2 Hs Hd Hks Hkd. unfold finalize_observation in H1, H2.
  set (od_cmp := on_cmp od_fingerprint String.compare) in *. set (od_same := λ l r, str_eqb (od_fingerprint l) (od_fingerprint r)) in *.
  assert (∀ l, map (λ s, value_without_observed_at (observed_skill_json s)) (dedup_by same_observed (sort_by observed_order l)) =
     map (λ s, value_without_observed_at (observed_skill_json s)) (dedup_by same_observed (sort_by observed_order (map untimed l)))) as Es.
  { intros l. rewrite (sort_by_map observed_order observed_order untimed), (dedup_by_map untimed same_observed) by done. rewrite map_map.
    apply map_ext. intros s. by rewrite untimed_json. }
  assert (∀ l, map (λ s, value_without_observed_at (observation_diagnostic_json s)) (dedup_by od_same (sort_by od_cmp l)) =
     map (λ s, value_without_observed_at (observation_diagnostic_json s)) (dedup_by od_same (sort_by od_cmp (map untimed_diagnostic l)))) as Ed.
  { intros l. rewrite (sort_by_map od_cmp od_cmp untimed_diagnostic), (dedup_by_map untimed_diagnostic od_same) by done. rewrite map_map.
    apply map_ext. intros s. by rewrite untimed_diagnostic_json. }
  rewrite Es, Ed in H1, H2.
  rewrite <- (sort_by_perm_on observed_order (map untimed skills1) (map untimed skills2)),
    <- (sort_by_perm_on od_cmp (map untimed_diagnostic diagnostics1) (map untimed_diagnostic diagnostics2)) in H2; try done.
  - destruct (canonical_hash _) as [h|e]; cbn in H1, H2; [|done]. injection H1 as <-. injection H2 as <-. done.
  - intros x y (x' & -> & Hx)%list_elem_of_fmap (y' & -> & Hy)%list_elem_of_fmap Hc. apply Hkd; try done.
    apply (sc_eq (cmp := String.compare)). exact Hc.
  - intros x y (x' & -> & Hx)%list_elem_of_fmap (y' & -> & Hy)%list_elem_of_fmap Hc. by apply Hks.
Qed.
End SkillGovernance.

(** ** A concrete run *)
Module SkillDemo.

(** A text of JSON that keeps of the strings of an object its content digest only, URLs without parts, numbers for
    texts, an empty file system. *)
Fixpoint json_text (v : Json) : string :=
  match v with
  | JString s => s
  | JArray l => String.concat "," (map json_text l)
  | JObject l => String.concat "" (map (λ kv,
      let text := json_text kv.2 in
      match kv.2 with JString _ => if str_eqb kv.1 "contentDigest" then text else "" | _ => text end) l)
  | _ => "-"
  end.
#[local] Instance demo_serde : SerdeJson := {| to_vec v := Some (json_text v); to_string_pretty v := Some (json_text v) |}.
#[local] Instance demo_urls : UrlCrate :=
  {| Url := string; url_parse s := if contains "://" s then Some s else None; url_username _ := "";
     url_password _ := None; url_query _ := None; url_without_fragment s := s; url_to_string s := s |}.
#[local] Instance demo_texts : Texts := {| uuid_text u := pretty u; time_text t := pretty t |}.
#[local] Instance demo_files : FileSystem unit := {|
  canonicalize _ _ := Err (mkIoError NotFound "absent");
  read_dir _ _ := Err (mkIoError NotFound "absent");
  read_file _ _ := Err (mkIoError NotFound "absent");
  path_exists _ _ := false;
  remove_dir_all fs _ := (fs, Err (mkIoError NotFound "absent"));
  remove_file fs _ := (fs, Err (mkIoError NotFound "absent"));
  path_debug _ := "";
|}.

Definition skill (name digest : string) : DesiredSkill :=
  {| dk_logical_identity := name;
     dk_source := {| dss_kind := "Git"; dss_location := " https://example.com/skills/ "; dss_subpath := Some "./a//b";
                     dss_credential_ref := None |};
     dk_version := None; dk_resolved_revision := None; dk_content_digest := digest; dk_manifest_digest := "m";
     dk_target_runtime := "Codex"; dk_install_scope := GWorkspace; dk_installation_mode := ModeCopy; dk_enabled := true;
     dk_update_policy := UpdatePinned; dk_allowed_sources := ["git"]; dk_risk_policy := RiskTrusted;
     dk_expected_destination := None |}.
Definition profile (id : N) (scope : GovernanceScope) (skills : list DesiredSkill) : BoundProfile :=
  {| bdp_binding_id := id; bdp_profile_id := id; bdp_profile_name := "p"; bdp_scope := scope;
     bdp_document := {| spd_schema_version := 1; spd_name := "p"; spd_description := ""; spd_skills := skills |} |}.

(** The machine wants two skills, two profiles of the workspace disagree about one of them, and the
    agent has its own version of the other. *)
Definition profiles : list BoundProfile :=
  [profile 1 GMachine [skill "Code_Review " "c1"; skill "lint" "l1"]; profile 2 GWorkspace [skill "lint" "l2"];
   profile 3 GWorkspace [skill "Lint" "l3"]; profile 4 GAgent [skill "code-review" "c4"]].

Definition empty_state : EffectiveDesiredState :=
  {| eff_schema_version := 0; eff_desired_config_hash := ""; eff_skills := []; eff_conflicts := [] |}.
Definition state : EffectiveDesiredState :=
  Eval vm_compute in
  match resolve_effective_desired tt profiles with Ok st => st | Err _ => empty_state end.
Lemma state_ok : resolve_effective_desired tt profiles = Ok state.
Proof. vm_compute. reflexivity. Qed.

Example state_skills :
  map (λ s, (dk_content_digest (eds_desired s), eds_source_provenance s, eds_owner_scope s)) (eff_skills state) =
    [("c4", "git:https://example.com/skills#a/b", GAgent)] ∧
  map (λ c, (dcf_logical_identity c, dcf_scope c, dcf_binding_ids c)) (eff_conflicts state) =
    [("lint", GWorkspace, [2; 3]%N)].
Proof. vm_compute. split; reflexivity. Qed.

Lemma resolution_by_precedence_witness :
  (∀ s, s ∈ eff_skills state ↔ ∃ k c, head (top_candidates profiles k) = Some c ∧
     agreed (top_candidates profiles k) ∧ effective_skill tt c = Ok s) ∧
  NoDup (map (λ s, desired_key (eds_desired s)) (eff_skills state)) ∧
  ∀ x, x ∈ eff_conflicts state ↔ ∃ p k c, p ∈ [0; 1; 2] ∧ ¬ agreed (layer_at profiles p k) ∧
    head (layer_at profiles p k) = Some c ∧ x = desired_conflict_of k (layer_at profiles p k) (bdp_scope c.1).
Proof. exact (resolution_by_precedence tt profiles state state_ok). Defined.

Definition no_preview : SkillLockfilePreview :=
  {| lp_observed_at := 0; lp_snapshot_hash := ""; lp_desired_config_hash := ""; lp_lockfile_hash := "";
     lp_content := {| lc_schema_version := 0;
                      lc_generated_from := {| lo_observation_hash := ""; lo_desired_config_hash := "" |};
                      lc_entries := [] |};
     lp_serialized := "" |}.
Definition preview : SkillLockfilePreview :=
  Eval vm_compute in
  match build_lockfile_preview state "obs" 7 with Ok p => p | Err _ => no_preview end.
Lemma preview_ok : build_lockfile_preview state "obs" 7 = Ok preview.
Proof. vm_compute. reflexivity. Qed.

Definition seen (name : string) (at_time : Time) (supported : bool) (status : string) : ObservedSkill :=
  {| os_logical_identity := name; os_runtime := "CODEX"; os_scope := GWorkspace; os_scope_id := None;
     os_source_provenance := None; os_version := None; os_content_digest := Some "c4"; os_manifest_digest := Some "m";
     os_installation_mode := Some ModeCopy; os_destination := None; os_fingerprint := name; os_enabled := Some true;
     os_shadowed := false; os_broken_symlink := false; os_evidence_status := status; os_evidence_source := "";
     os_session_effective := ""; os_session_reason := ""; os_observed_at := at_time; os_supported := supported |}.
Definition good (at_time : Time) : ObservedSkill := seen "Code_Review" at_time true "runtime_discovered".
Definition extra (at_time : Time) : ObservedSkill := seen "stray" at_time true "runtime_discovered".

Lemma no_drift_iff_as_locked_witness :
  is_Some (compare_drift [good 5] (lp_content preview)) ∧
  (compare_drift [good 5] (lp_content preview) = Some [] ↔
   ∃ actuals, Forall2 as_locked (lc_entries (lp_content preview)) actuals ∧ actuals ≡ₚ [good 5]).
Proof. exact (no_drift_iff_as_locked tt profiles state "obs" 7 preview [good 5] state_ok preview_ok). Defined.

(** And the state is as locked. *)
Example no_drift_now : compare_drift [good 5] (lp_content preview) = Some [].
Proof. vm_compute. reflexivity. Qed.

(** An extra skill, and a missing one. *)
Definition demo_drift : list SkillDrift := Eval vm_compute in
  default [] (compare_drift [extra 5] (lp_content preview)).
Lemma drift_ok : compare_drift [extra 5] (lp_content preview) = Some demo_drift.
Proof. vm_compute. reflexivity. Qed.
Example drift_kinds : map (λ d, (dr_kind d, dr_logical_identity d)) demo_drift =
  [(DriftMissing, "code-review"); (DriftExtra, "stray")].
Proof. vm_compute. reflexivity. Qed.

Definition no_plan : DryRunPlanPreview :=
  {| dpp_plan_hash := ""; dpp_dry_run := false;
     dpp_content := {| dpc_schema_version := 0; dpc_observation_hash := ""; dpc_desired_config_hash := "";
                       dpc_lockfile_hash := ""; dpc_actions := [] |} |}.
Definition plan : DryRunPlanPreview :=
  Eval vm_compute in
  match build_dry_run_plan demo_drift "obs" "cfg" "lock" true with Ok p => p | Err _ => no_plan end.
Lemma plan_ok : build_dry_run_plan demo_drift "obs" "cfg" "lock" true = Ok plan.
Proof. vm_compute. reflexivity. Qed.
Example plan_kinds : map (λ a, (pa_action a, pa_target a, pa_blocked a)) (dpc_actions (dpp_content plan)) =
  [(ActInstall, "code-review", false); (ActManual, "stray", true);
   (ActLockfileUpdate, "workspace lockfile preview", false)].
Proof. vm_compute. reflexivity. Qed.

Lemma plan_actions_allowed_witness :
  length (dpc_actions (dpp_content plan)) = (length demo_drift + if true then 1 else 0)%nat ∧
  (∀ d, d ∈ demo_drift → ∃ a, a ∈ dpc_actions (dpp_content plan) ∧ action_target a = drift_target d) ∧
  ∀ a, a ∈ dpc_actions (dpp_content plan) → pa_blocked a = false →
    (true = true ∧ a = lockfile_action "obs" "cfg" "lock") ∨ ∃ d, d ∈ demo_drift ∧ unblocked_action demo_drift d a.
Proof. exact (plan_actions_allowed demo_drift "obs" "cfg" "lock" true plan plan_ok). Defined.


Definition no_observation : GovernanceObservation :=
  {| go_observed_at := 0; go_snapshot_hash := ""; go_skills := []; go_diagnostics := [] |}.
Definition observed (at_time : Time) (skills : list ObservedSkill) : GovernanceObservation :=
  match finalize_observation at_time skills [] with Ok o => o | Err _ => no_observation end.
Lemma snapshot_hash_stable_witness :
  go_snapshot_hash (observed 5 [good 5; extra 5]) = go_snapshot_hash (observed 9 [extra 9; good 9]).
Proof.
  apply (snapshot_hash_stable 5 9 [good 5; extra 5] [extra 9; good 9] [] []).
  - vm_compute. reflexivity.
  - vm_compute. reflexivity.
  - apply Permutation_swap.
  - constructor.
  - intros x y [->|Hx]%elem_of_cons [->|Hy]%elem_of_cons; try reflexivity;
      try (apply list_elem_of_singleton in Hx as ->); try (apply list_elem_of_singleton in Hy as ->); try reflexivity; discriminate.
  - intros x y Hx. destruct (not_elem_of_nil x Hx).
Defined.

(** A skill of an unsupported runtime without evidence at run time: the second reason hides the
    first, and every action of the target is one for the user instead of an unsupported one. *)
Definition unsupported_drift : list SkillDrift :=
  Eval vm_compute in default [] (compare_drift [seen "Code_Review" 5 false "machine_discovered"] (lp_content preview)).
Example unsupported_reported_as_manual :
  map dr_kind unsupported_drift = [DriftUnsupported; DriftUnknownEvidence] ∧
  map (λ d, pa_action (plan_action d "obs" "cfg" "lock")) unsupported_drift = [ActUnsupported; ActManual] ∧
  map (λ d, pa_action (planned_action unsupported_drift "obs" "cfg" "lock" d)) unsupported_drift = [ActManual; ActManual].
Proof. vm_compute. split_and!; reflexivity. Qed.
End SkillDemo.
