(* ===== verification/SkillApi.v ===== *)
(** * Skill profiles, lockfiles and plans over HTTP

    [crates/cocli-api/src/skill_governance_http.rs], every handler: profiles and their bindings,
    the effective desired state, previews of the lockfile, plans and the decisions on them. The
    handlers compose the resolver and planner ([SkillGovernance]) with the operations of the store
    ([StoreSkillPlans]). What is observed of the machine ([skill_http::governance_observation])
    is a parameter: the answer to a call, which may differ each time. So are the decoders
    [serde] derives for what the store keeps as JSON, and the file system at each moment. *)
From stdpp Require Import pretty.
From S2P Require Import Prelude Text StoreTypes SkillGovernanceTypes StoreDb StoreSchema StoreSkillPlans Coordinator.
From S2P Require Import Api AgentWorkspace Mcp Sha256 SkillGovernance.

Open Scope api_scope.

(** ** Data *)

Record ProfileView := mkProfileView {
  pv_id : Uuid;
  pv_version : Z;
  pv_created_at : Time;
  pv_updated_at : Time;
  pv_document : SkillProfileDocument;
}.

Record UpdateProfileRequest := { upr_expected_version : Z; upr_document : SkillProfileDocument }.
Record BindProfileRequest := { bpr_profile_id : Uuid; bpr_scope : GovernanceScope; bpr_scope_id : string }.
Record BindingQuery := { bq_scope : option GovernanceScope; bq_scope_id : option string }.
Record DesiredTarget := mkDesiredTarget { tg_workspace_id : option string; tg_agent_id : option string }.

Record GovernancePreviewRequest := {
  gpr_scope : GovernanceScope;
  gpr_scope_id : string;
  gpr_workspace_id : option string;
  gpr_agent_id : option string;
  gpr_force : bool;
}.

Record LockPreviewResponse := {
  lpr_snapshot : SkillLockSnapshot;
  lpr_preview : SkillLockfilePreview;
  lpr_drift : list SkillDrift;
  lpr_previous_lock_hash : option string;
  lpr_lockfile_changed : bool;
  lpr_lockfile_boundary : string;
  lpr_writes_real_directories : bool;
}.

Record PlanResponse := {
  plr_plan : SkillGovernancePlan;
  plr_preview : DryRunPlanPreview;
  plr_drift : list SkillDrift;
  plr_lock_snapshot_id : Uuid;
  plr_lockfile_changed : bool;
  plr_applied : bool;
}.

Record PlanDecisionResponse := {
  pdr_plan : SkillGovernancePlan;
  pdr_applied : bool;
  pdr_dry_run : bool;
  pdr_stale_reasons : list string;
}.

Definition to_store_scope (s : GovernanceScope) : SkillGovernanceScope :=
  match s with GMachine => ScopeMachine | GWorkspace => ScopeWorkspace | GAgent => ScopeAgent end.
Definition from_store_scope (s : SkillGovernanceScope) : GovernanceScope :=
  match s with ScopeMachine => GMachine | ScopeWorkspace => GWorkspace | ScopeAgent => GAgent end.

(** The one thing these handlers ask for outside the store. *)
Inductive SkillCall : Type := Observe (force : bool).

(** The derived decoders of what is stored. *)
Class SkillDecode := {
  decode_document : Json → option SkillProfileDocument;
  decode_preview : Json → option DryRunPlanPreview;
  decode_context : Json → option DesiredTarget;
}.

(** [Value::get] of an object. *)
Definition value_get (key : string) (value : Json) : option Json :=
  match value with JObject fields => snd <$> find (λ kv, str_eqb kv.1 key) fields | _ => None end.

(** ** The handlers *)

Section SkillApi.
Context {serde : SerdeJson} {urls : UrlCrate} {texts : Texts} {decoders : SkillDecode}
  {F : Type} {files : FileSystem F} (fs : nat → F)
  (observe : nat → DB → bool → result GovernanceObservation ApiError).

Abbreviation Handler := (H SkillCall).

(** [.map_err(ApiError::bad_request)?]. *)
Definition or_bad_request {A} (r : result A string) : Handler A :=
  match r with Ok a => hret a | Err message => hthrow (bad_request message) end.
Definition or_error {A} (r : result A ApiError) : Handler A :=
  match r with Ok a => hret a | Err x => hthrow x end.

(** The file system of the moment. *)
Definition files_now : Handler F := λ _ s, (s, Ok (fs (w_ctr (as_world s)))).

Definition governance_observation (force : bool) : Handler GovernanceObservation := λ e s,
  hbind (call (Observe force) (λ n, observe n (as_db s) force)) or_error e s.

Definition normalized_scope_id (scope : GovernanceScope) (value : string) : result string ApiError :=
  if bool_decide (scope = GMachine) then Ok "machine"
  else
    let value := trim value in
    if str_is_empty value || (200 <? String.length value)%nat then Err (bad_request "governance scopeId is invalid")
    else Ok value.

(** *** Serialisation of what is stored and answered *)

Definition profile_document_json (d : SkillProfileDocument) : Json :=
  JObject [("schemaVersion", JInt (spd_schema_version d)); ("name", JString (spd_name d));
           ("description", JString (spd_description d)); ("skills", json_list desired_skill_json (spd_skills d))].

Definition lock_preview_json (p : SkillLockfilePreview) : Json :=
  JObject [("observedAt", JString (time_text (lp_observed_at p))); ("snapshotHash", JString (lp_snapshot_hash p));
           ("desiredConfigHash", JString (lp_desired_config_hash p)); ("lockfileHash", JString (lp_lockfile_hash p));
           ("content", lockfile_json (lp_content p)); ("serialized", JString (lp_serialized p))].

Definition drift_kind_json (k : DriftKind) : Json :=
  JString match k with
  | DriftMissing => "missing" | DriftExtra => "extra" | DriftVersionMismatch => "version_mismatch"
  | DriftContentMismatch => "content_mismatch" | DriftManifestMismatch => "manifest_mismatch"
  | DriftSourceMismatch => "source_mismatch" | DriftModeMismatch => "mode_mismatch"
  | DriftShadowed => "shadowed" | DriftBrokenSymlink => "broken_symlink"
  | DriftUnknownEvidence => "unknown_evidence" | DriftUnsupported => "unsupported"
  | DriftEnabledMismatch => "enabled_mismatch" end.
Definition skill_drift_json (d : SkillDrift) : Json :=
  JObject (field "fingerprint" (JString (dr_fingerprint d)) ++
    field "skillFingerprint" (JString (dr_skill_fingerprint d)) ++ field "kind" (drift_kind_json (dr_kind d)) ++
    field "logicalIdentity" (JString (dr_logical_identity d)) ++ field "runtime" (JString (dr_runtime d)) ++
    field "scope" (scope_json (dr_scope d)) ++ field_some "installationMode" mode_json (dr_installation_mode d) ++
    field_some "riskPolicy" risk_policy_json (dr_risk_policy d) ++ field "reason" (JString (dr_reason d)) ++
    field_some "expected" JString (dr_expected d) ++ field_some "actual" JString (dr_actual d))%list.

Definition plan_preview_json (p : DryRunPlanPreview) : Json :=
  JObject [("planHash", JString (dpp_plan_hash p)); ("dryRun", JBool (dpp_dry_run p)); ("content", plan_json (dpp_content p))].

Definition skill_plan_json (p : SkillGovernancePlan) : Json :=
  JObject [("id", JString (uuid_text (sgp_id p))); ("scope", JString (as_str (sgp_scope p)));
           ("scopeId", JString (sgp_scope_id p)); ("plan", sgp_plan p);
           ("observationHash", JString (sgp_observation_hash p)); ("desiredHash", JString (sgp_desired_hash p));
           ("status", JString (as_str (sgp_status p))); ("version", JInt (sgp_version p));
           ("createdAt", JString (time_text (sgp_created_at p))); ("updatedAt", JString (time_text (sgp_updated_at p)))].

(** *** Profiles *)

Definition profile_view (profile : SkillProfile) : Handler ProfileView :=
  do! document := hsome (bad_request "stored SkillProfile document is invalid") (decode_document (skp_document profile)) in
  hret (mkProfileView (skp_id profile) (skp_version profile) (skp_created_at profile) (skp_updated_at profile) document).

Fixpoint profile_views (profiles : list SkillProfile) : Handler (list ProfileView) :=
  match profiles with
  | [] => hret []
  | p :: rest => do! view := profile_view p in do! views := profile_views rest in hret (view :: views)
  end.

Definition list_profiles : Handler (list ProfileView) :=
  do! profiles := on_store list_skill_profiles in profile_views profiles.

Definition require_profile (profile_id : Uuid) : Handler SkillProfile :=
  do! profile := on_store (get_skill_profile profile_id) in hsome (not_found "SkillProfile not found") profile.
Definition require_skill_plan (plan_id : Uuid) : Handler SkillGovernancePlan :=
  do! plan := on_store (get_skill_governance_plan plan_id) in hsome (not_found "skill governance plan not found") plan.

Definition create_profile (document : SkillProfileDocument) : Handler ProfileView :=
  do! now := files_now in
  or_bad_request (validate_profile_document now document) ;!;
  do! profile := on_store (create_skill_profile (to_value (profile_document_json document))) in
  profile_view profile.

Definition get_profile (profile_id : Uuid) : Handler ProfileView :=
  do! profile := require_profile profile_id in profile_view profile.

Definition update_profile (profile_id : Uuid) (request : UpdateProfileRequest) : Handler ProfileView :=
  do! now := files_now in
  or_bad_request (validate_profile_document now (upr_document request)) ;!;
  do! profile := on_store (update_skill_profile profile_id (to_value (profile_document_json (upr_document request)))
                             (upr_expected_version request)) in
  profile_view profile.

Definition delete_profile (profile_id : Uuid) (expected_version : Z) : Handler unit :=
  on_store (delete_skill_profile profile_id expected_version) ;!; hret tt.

(** *** Bindings *)

Definition bind_profile (request : BindProfileRequest) : Handler SkillProfileBinding :=
  do! scope_id := or_error (normalized_scope_id (bpr_scope request) (bpr_scope_id request)) in
  on_store (bind_skill_profile (to_store_scope (bpr_scope request)) scope_id (bpr_profile_id request)).

Definition list_bindings (query : BindingQuery) : Handler (list SkillProfileBinding) :=
  match bq_scope query, bq_scope_id query with
  | Some scope, Some scope_id =>
      do! scope_id := or_error (normalized_scope_id scope scope_id) in
      on_store (list_skill_profile_bindings_for_scope (to_store_scope scope) scope_id)
  | scope, _ => on_store (list_skill_profile_bindings (to_store_scope <$> scope))
  end.

Definition unbind_profile (binding_id : Uuid) (expected_version : Z) : Handler unit :=
  on_store (unbind_skill_profile binding_id expected_version) ;!; hret tt.

(** *** The desired state *)

Definition binding_applies (target : DesiredTarget) (b : SkillProfileBinding) : bool :=
  match spb_scope b with
  | ScopeMachine => str_eqb (spb_scope_id b) "machine"
  | ScopeWorkspace => bool_decide (tg_workspace_id target = Some (spb_scope_id b))
  | ScopeAgent => bool_decide (tg_agent_id target = Some (spb_scope_id b))
  end.

Definition bound_profile (binding : SkillProfileBinding) : Handler BoundProfile :=
  do! profile := require_profile (spb_profile_id binding) in
  do! document := hsome (bad_request "stored SkillProfile document is invalid") (decode_document (skp_document profile)) in
  hret {| bdp_binding_id := spb_id binding; bdp_profile_id := skp_id profile; bdp_profile_name := spd_name document;
          bdp_scope := from_store_scope (spb_scope binding); bdp_document := document |}.
Fixpoint bound_profiles (bindings : list SkillProfileBinding) : Handler (list BoundProfile) :=
  match bindings with
  | [] => hret []
  | b :: rest => do! first := bound_profile b in do! others := bound_profiles rest in hret (first :: others)
  end.

Definition load_effective_desired (target : DesiredTarget) : Handler EffectiveDesiredState :=
  do! bindings := on_store (list_skill_profile_bindings None) in
  do! bound := bound_profiles (bfilter (binding_applies target) bindings) in
  do! now := files_now in
  or_bad_request (resolve_effective_desired now bound).

Definition effective_desired (target : DesiredTarget) : Handler EffectiveDesiredState := load_effective_desired target.
Definition skill_evidence (force : bool) : Handler GovernanceObservation := governance_observation force.

(** *** Lockfile previews *)

Definition desired_target (r : GovernancePreviewRequest) : DesiredTarget :=
  mkDesiredTarget
    (match gpr_workspace_id r with
     | Some id => Some id
     | None => if bool_decide (gpr_scope r = GWorkspace) then Some (gpr_scope_id r) else None
     end)
    (match gpr_agent_id r with
     | Some id => Some id
     | None => if bool_decide (gpr_scope r = GAgent) then Some (gpr_scope_id r) else None
     end).

Definition observation_matches_scope (scope : GovernanceScope) (scope_id : string) (skill : ObservedSkill) : bool :=
  bool_decide (os_scope skill = scope) && bool_decide (os_scope_id skill = Some scope_id).

(** [scoped_effective.skills.retain(..)]. *)
Definition scoped (scope : GovernanceScope) (effective : EffectiveDesiredState) : EffectiveDesiredState :=
  {| eff_schema_version := eff_schema_version effective;
     eff_desired_config_hash := eff_desired_config_hash effective;
     eff_skills := bfilter (λ s, bool_decide (dk_install_scope (eds_desired s) = scope)) (eff_skills effective);
     eff_conflicts := eff_conflicts effective |}.

(** A panic of the comparison, which [compare_drift_spec] excludes. *)
Definition comparison_panic : ApiError := mkApiError INTERNAL_SERVER_ERROR (Text "panic").

Definition generate_lock_preview (request : GovernancePreviewRequest) : Handler LockPreviewResponse :=
  do! scope_id := or_error (normalized_scope_id (gpr_scope request) (gpr_scope_id request)) in
  do! snapshots := on_store (list_skill_lock_snapshots (to_store_scope (gpr_scope request)) scope_id) in
  do! observation := governance_observation (gpr_force request) in
  do! effective := load_effective_desired (desired_target request) in
  match eff_conflicts effective with
  | _ :: _ =>
      hthrow (api_json CONFLICT (JObject [("error", JString "effective desired state has same-layer conflicts");
                                      ("conflicts", json_list desired_conflict_json (eff_conflicts effective))]))
  | [] =>
      do! preview := or_bad_request (build_lockfile_preview (scoped (gpr_scope request) effective)
                                       (go_snapshot_hash observation) (go_observed_at observation)) in
      do! drift := hsome comparison_panic
        (compare_drift (bfilter (observation_matches_scope (gpr_scope request) scope_id) (go_skills observation))
           (lp_content preview)) in
      do! snapshot := on_store (create_skill_lock_snapshot
        {| nls_scope := to_store_scope (gpr_scope request); nls_scope_id := scope_id; nls_profile_id := None;
           nls_snapshot := to_value (lock_preview_json preview);
           nls_observation_hash := lp_snapshot_hash preview;
           nls_desired_hash := lp_desired_config_hash preview;
           nls_lock_hash := lp_lockfile_hash preview |}) in
      let previous_lock_hash := sls_lock_hash <$> head snapshots in
      hret {| lpr_snapshot := snapshot;
              lpr_preview := preview;
              lpr_drift := drift;
              lpr_previous_lock_hash := previous_lock_hash;
              lpr_lockfile_changed := match previous_lock_hash with
                                      | None => true
                                      | Some hash => negb (str_eqb hash (lp_lockfile_hash preview))
                                      end;
              lpr_lockfile_boundary := if bool_decide (gpr_scope request = GWorkspace)
                                       then "workspace_candidate" else "store_only";
              lpr_writes_real_directories := false |}
  end.

Definition lockfile_preview (request : GovernancePreviewRequest) : Handler LockPreviewResponse :=
  generate_lock_preview request.

Definition list_lock_snapshots (scope : GovernanceScope) (scope_id : string) : Handler (list SkillLockSnapshot) :=
  do! scope_id := or_error (normalized_scope_id scope scope_id) in
  on_store (list_skill_lock_snapshots (to_store_scope scope) scope_id).

(** *** Plans *)

Definition stored_document (request : GovernancePreviewRequest) (scope_id : string) (lock : LockPreviewResponse)
    (preview : DryRunPlanPreview) : Json :=
  to_value (JObject
    [("schemaVersion", JInt 1); ("dryRun", JBool true); ("applied", JBool false);
     ("scope", scope_json (gpr_scope request)); ("scopeId", JString scope_id);
     ("workspaceId", json_option JString (tg_workspace_id (desired_target request)));
     ("agentId", json_option JString (tg_agent_id (desired_target request)));
     ("lockSnapshotId", JString (uuid_text (sls_id (lpr_snapshot lock))));
     ("lockfileChanged", JBool (lpr_lockfile_changed lock)); ("drift", json_list skill_drift_json (lpr_drift lock));
     ("preview", plan_preview_json preview)]).

Definition generate_plan (request : GovernancePreviewRequest) : Handler PlanResponse :=
  do! lock := generate_lock_preview request in
  do! preview := or_bad_request (build_dry_run_plan (lpr_drift lock) (lp_snapshot_hash (lpr_preview lock))
    (lp_desired_config_hash (lpr_preview lock)) (lp_lockfile_hash (lpr_preview lock)) (lpr_lockfile_changed lock)) in
  do! scope_id := or_error (normalized_scope_id (gpr_scope request) (gpr_scope_id request)) in
  do! plan := on_store (create_skill_governance_plan (to_store_scope (gpr_scope request)) scope_id
    (stored_document request scope_id lock preview) (dpc_observation_hash (dpp_content preview))
    (dpc_desired_config_hash (dpp_content preview))) in
  hret {| plr_plan := plan; plr_preview := preview; plr_drift := lpr_drift lock;
          plr_lock_snapshot_id := sls_id (lpr_snapshot lock); plr_lockfile_changed := lpr_lockfile_changed lock;
          plr_applied := false |}.

Definition list_plans (scope : GovernanceScope) (scope_id : string) : Handler (list SkillGovernancePlan) :=
  do! scope_id := or_error (normalized_scope_id scope scope_id) in
  on_store (list_skill_governance_plans (to_store_scope scope) scope_id).
Definition get_skill_plan (plan_id : Uuid) : Handler SkillGovernancePlan := require_skill_plan plan_id.
Definition get_plan_audit (plan_id : Uuid) : Handler (list SkillGovernancePlanAudit) :=
  require_skill_plan plan_id ;!; on_store (list_skill_governance_plan_audit plan_id).

Definition parse_plan_context (value : Json) : result DesiredTarget ApiError :=
  ok_or (decode_context value) (bad_request "stored governance plan context is invalid").
Definition parse_plan_preview (value : Json) : result DryRunPlanPreview ApiError :=
  try! preview <- ok_or (value_get "preview" value) (bad_request "stored governance plan has no preview") ;
  ok_or (decode_preview preview) (bad_request "stored governance plan preview is invalid").

Definition approve_plan (plan_id : Uuid) (expected_version : Z) : Handler PlanDecisionResponse :=
  do! plan := require_skill_plan plan_id in
  if negb (bool_decide (sgp_status plan = PlanDraft)) then hthrow (conflict "only draft governance plans can be approved")
  else
    do! context := or_error (parse_plan_context (sgp_plan plan)) in
    do! observation := governance_observation true in
    do! effective := load_effective_desired context in
    do! current_lock := or_bad_request (build_lockfile_preview effective (go_snapshot_hash observation)
                                          (go_observed_at observation)) in
    do! expected := or_error (parse_plan_preview (sgp_plan plan)) in
    let stale_reasons := stale_plan_reasons (dpp_content expected) (go_snapshot_hash observation)
                           (eff_desired_config_hash effective) (lp_lockfile_hash current_lock) in
    match stale_reasons with
    | _ :: _ =>
        do! stale := on_store (mark_skill_governance_plan_stale plan_id expected_version) in
        hthrow (api_json CONFLICT (JObject [("error", JString "governance plan is stale"); ("plan", skill_plan_json stale);
                                        ("staleReasons", json_list JString stale_reasons)]))
    | [] =>
        do! approved := on_store (approve_skill_governance_plan plan_id expected_version) in
        hret {| pdr_plan := approved; pdr_applied := false; pdr_dry_run := true; pdr_stale_reasons := stale_reasons |}
    end.

Definition reject_plan (plan_id : Uuid) (expected_version : Z) : Handler PlanDecisionResponse :=
  do! current := require_skill_plan plan_id in
  if negb (bool_decide (sgp_status current = PlanDraft)) then hthrow (conflict "only draft governance plans can be rejected")
  else
    do! plan := on_store (reject_skill_governance_plan plan_id expected_version) in
    hret {| pdr_plan := plan; pdr_applied := false; pdr_dry_run := true; pdr_stale_reasons := [] |}.

(** ** Decisions on plans *)

(** What a transition of a plan does to the database. *)
Definition transitioned (plan_id : Uuid) (version : Z) (action : string) (to_ : SkillGovernancePlanStatus) (db db' : DB)
    : Prop :=
  ∃ p from now i, p ∈ sg_plans db ∧ sgp_id p = plan_id ∧ sgp_version p = version ∧ sgp_status p = as_str from ∧
    valid_transition from to_ = true ∧
    db' = with_sg_plan_audit (λ l, l ++
        [mkSkillGovernancePlanAudit i plan_id action (as_str from) (as_str to_) version (version + 1) now])%list
      (with_sg_plans (update_where (skill_plan_is plan_id) (set_plan_status (as_str to_) (version + 1) now)) db).

Lemma transition_outcome plan_id v action to_ e w w' r :
  schema_ok (w_db w) → transition_skill_governance_plan plan_id v action to_ e w = (w', r) →
  transitioned plan_id v action to_ (w_db w) (w_db w') ∨ (w_db w' = w_db w ∧ is_ok r = false).
Proof.
  intros Hok. unfold transition_skill_governance_plan, bind.
  destruct (transaction _ e w) as [w1 [[]|x]] eqn:Et.
  - intros Hr. left. assert (w_db w' = w_db w1) as ->.
    { pose proof (readonly_require plan_entity plan_id _ (readonly_get_skill_governance_plan plan_id) e w1) as Hro.
      by rewrite Hr in Hro. }
    apply transaction_ok in Et as (w2 & Hb & ->). by apply transition_body_spec in Hb.
  - intros [= <- <-]. right. split; [|done]. pose proof (transaction_atomic (transition_body plan_id v action to_) e w) as Ha.
    by eapply Ha.
Qed.

Definition any_call (_ : DB) (_ : SkillCall) : Prop := True.
Abbreviation run := (wp any_call).

(** The rules of the operations of these handlers. *)
Section Rules.
Context (e : Env).
Implicit Types s : ApiState SkillCall.

Lemma run_or_bad_request {A} (r : result A string) s Q :
  (∀ a, r = Ok a → Q (Ok a) s) → (∀ x, Q (Err x) s) → run (or_bad_request r) e s Q.
Proof. intros Ho He. destruct r; [by apply wp_ret, Ho|by apply wp_throw]. Qed.
Lemma run_or_error {A} (r : result A ApiError) s Q :
  (∀ a, r = Ok a → Q (Ok a) s) → (∀ x, Q (Err x) s) → run (or_error r) e s Q.
Proof. intros Ho He. destruct r; [by apply wp_ret, Ho|by apply wp_throw]. Qed.
Lemma run_files_now s Q : Q (Ok (fs (w_ctr (as_world s)))) s → run files_now e s Q.
Proof. intros HQ. split; [|done]. exists []. by rewrite app_nil_r. Qed.

Lemma run_observation force s Q :
  (∀ o s', as_world s' = as_world s → observe (length (as_calls s)) (as_db s) force = Ok o → Q (Ok o) s') →
  (∀ x s', as_world s' = as_world s → Q (Err x) s') →
  run (governance_observation force) e s Q.
Proof.
  intros Ho He. unfold wp, governance_observation, hbind, call.
  destruct (observe (length (as_calls s)) (as_db s) force) as [o|x] eqn:E; cbn;
    (split; [exists [(as_db s, Observe force)]; split; [done|by repeat constructor]|]); [by apply Ho|by apply He].
Qed.

(** An operation that only reads leaves the database, whatever it answers. *)
Definition reads {A} (m : Handler A) : Prop :=
  ∀ s, run m e s (λ _ s', as_db s' = as_db s).

Lemma run_reads {A} (m : Handler A) s (Q : result A ApiError → ApiState SkillCall → Prop) :
  reads m → (∀ a s', as_db s' = as_db s → m e s = (s', Ok a) → Q (Ok a) s') →
  (∀ x s', as_db s' = as_db s → Q (Err x) s') → run m e s Q.
Proof.
  intros Hm Ho He. destruct (Hm s) as [Hc Hdb]. split; [done|]. destruct (m e s) as [s' [a|x]] eqn:E; cbn in *; auto.
Qed.

Lemma reads_bind {A B} (m : Handler A) (k : A → Handler B) : reads m → (∀ a, reads (k a)) → reads (hbind m k).
Proof.
  intros Hm Hk s. apply wp_bind. apply run_reads; [done| |done].
  intros a s' Hs' _. eapply wp_mono; [apply Hk|]. cbn. congruence.
Qed.
Lemma reads_store {A} (m : M A) : readonly m → reads (on_store m).
Proof. intros Hm s. apply wp_store_readonly; [done| |]; auto. Qed.
Lemma reads_hsome {A} x (o : option A) : reads (hsome x o).
Proof. intros s. by apply wp_hsome. Qed.
Lemma reads_ret {A} (a : A) : reads (hret a).
Proof. intros s. by apply wp_ret. Qed.
Lemma reads_or_bad_request {A} (r : result A string) : reads (or_bad_request r).
Proof. intros s. by apply run_or_bad_request. Qed.
Lemma reads_or_error {A} (r : result A ApiError) : reads (or_error r).
Proof. intros s. by apply run_or_error. Qed.
Lemma reads_files_now : reads files_now.
Proof. intros s. by apply run_files_now. Qed.
Lemma reads_observation force : reads (governance_observation force).
Proof. intros s. apply run_observation; intros ? ? Hw; unfold as_db; by rewrite Hw. Qed.
End Rules.

Lemma readonly_decode_all {A B} (d : A → M B) rows : (∀ r, readonly (d r)) → readonly (decode_all d rows).
Proof. intros Hd. induction rows as [|r rows IH]; cbn [decode_all]; readonly_tac. Qed.
Lemma readonly_list_skill_profile_bindings o : readonly (list_skill_profile_bindings o).
Proof.
  apply readonly_bind; [destruct o; readonly_tac|]. intros rows. apply readonly_decode_all.
  unfold skill_profile_binding_from_row. readonly_tac.
Qed.
Lemma readonly_list_skill_lock_snapshots scope scope_id : readonly (list_skill_lock_snapshots scope scope_id).
Proof.
  apply readonly_bind; [readonly_tac|]. intros rows. apply readonly_decode_all.
  unfold skill_lock_snapshot_from_row. readonly_tac.
Qed.

Lemma reads_require_profile e id : reads e (require_profile id).
Proof. apply reads_bind; [apply reads_store; auto with cocli|]. intros o. apply reads_hsome. Qed.

Lemma reads_bound_profiles e l : reads e (bound_profiles l).
Proof.
  induction l as [|b l IH]; [apply reads_ret|]. apply reads_bind.
  - apply reads_bind; [apply reads_require_profile|]. intros p. apply reads_bind; [apply reads_hsome|]. intros d. apply reads_ret.
  - intros first. apply reads_bind; [done|]. intros others. apply reads_ret.
Qed.

Lemma reads_load_effective_desired e target : reads e (load_effective_desired target).
Proof.
  apply reads_bind; [apply reads_store, readonly_list_skill_profile_bindings|]. intros bindings.
  apply reads_bind; [apply reads_bound_profiles|]. intros bound.
  apply reads_bind; [apply reads_files_now|]. intros now. apply reads_or_bad_request.
Qed.

Lemma run_transition plan_id v action to_ e s Q :
  schema_ok (as_db s) →
  (∀ a s', transitioned plan_id v action to_ (as_db s) (as_db s') → Q (Ok a) s') →
  (∀ x s', transitioned plan_id v action to_ (as_db s) (as_db s') ∨ as_db s' = as_db s → Q (Err x) s') →
  run (on_store (transition_skill_governance_plan plan_id v action to_)) e s Q.
Proof.
  intros Hok Ho He. apply wp_store; intros w x Hx; apply transition_outcome in Hx as [Ht|[Hw Hf]]; try done; auto.
Qed.

(** What a plan is decided against: its own row, and the state recomputed on the same database. *)
Record decided_against (e : Env) (s : ApiState SkillCall) (plan_id : Uuid) (context : DesiredTarget)
    (expected : DryRunPlanPreview) (observation : GovernanceObservation) (effective : EffectiveDesiredState)
    (lock : SkillLockfilePreview) : Prop := {
  da_row : ∃ row document, row ∈ sg_plans (as_db s) ∧ sgp_id row = plan_id ∧ sgp_status row = as_str PlanDraft ∧
    env_from_json e (sgp_plan row) = Some document ∧ decode_context document = Some context ∧
    parse_plan_preview document = Ok expected;
  da_observation : observe (length (as_calls s)) (as_db s) true = Ok observation;
  da_effective : ∃ s1 s2, as_db s1 = as_db s ∧ load_effective_desired context e s1 = (s2, Ok effective);
  da_lock : build_lockfile_preview effective (go_snapshot_hash observation) (go_observed_at observation) = Ok lock;
}.

Lemma require_skill_plan_ok plan_id e s Q :
  (∀ plan row s', as_db s' = as_db s → as_calls s' = as_calls s → row ∈ sg_plans (as_db s) → sgp_id row = plan_id →
     sgp_status row = as_str (sgp_status plan) → env_from_json e (sgp_plan row) = Some (sgp_plan plan) →
     Q (Ok plan) s') →
  (∀ x s', as_db s' = as_db s → Q (Err x) s') →
  run (require_skill_plan plan_id) e s Q.
Proof.
  intros Ho He. apply wp_bind, wp_store_readonly; [auto with cocli| |by auto].
  intros w [plan|] Hw Hrun; apply wp_hsome; auto; [|done]. intros p [= <-].
  apply (read_row sg_plans) in Hrun as [_ (row & w1 & Hin & Hid & Hdec)];
    [|unfold skill_governance_plan_from_row; readonly_tac].
  unfold skill_governance_plan_from_row in Hdec.
  assert (sgp_status row = as_str (sgp_status plan) ∧ env_from_json e (sgp_plan row) = Some (sgp_plan plan)) as [Hst Hj].
  { inv_run. split; [symmetry; by apply as_str_parse|]. unfold json_from_str in *. cbn.
    destruct (env_from_json e (sgp_plan row)); simplify_eq. done. }
  by eapply Ho; try done; apply N.eqb_eq.
Qed.

Lemma stale_plan_reasons_nil expected oh ch lh :
  stale_plan_reasons expected oh ch lh = [] ↔
  dpc_observation_hash expected = oh ∧ dpc_desired_config_hash expected = ch ∧ dpc_lockfile_hash expected = lh.
Proof.
  unfold stale_plan_reasons. rewrite <- !str_eqb_eq.
  destruct (str_eqb _ oh), (str_eqb _ ch), (str_eqb _ lh); cbn; naive_solver.
Qed.

Definition approve_outcome (plan_id : Uuid) (version : Z) (e : Env) (s : ApiState SkillCall)
    (r : result PlanDecisionResponse ApiError) (s' : ApiState SkillCall) : Prop :=
  (as_db s' = as_db s ∧ is_ok r = false) ∨
  ∃ context expected observation effective lock,
    decided_against e s plan_id context expected observation effective lock ∧
    let current := dpc_observation_hash (dpp_content expected) = go_snapshot_hash observation ∧
                   dpc_desired_config_hash (dpp_content expected) = eff_desired_config_hash effective ∧
                   dpc_lockfile_hash (dpp_content expected) = lp_lockfile_hash lock in
    (current ∧ transitioned plan_id version "approve" PlanApproved (as_db s) (as_db s')) ∨
    (¬ current ∧ is_ok r = false ∧ transitioned plan_id version "stale" PlanStale (as_db s) (as_db s')).

Lemma approve_plan_run plan_id version e s :
  schema_ok (as_db s) → run (approve_plan plan_id version) e s (approve_outcome plan_id version e s).
Proof.
  intros Hok. assert (∀ x s', as_db s' = as_db s → approve_outcome plan_id version e s (Err x) s') as Herr by (by left).
  apply wp_bind, require_skill_plan_ok; [|done]. intros plan row s1 Hs1 Hc1 Hrow Hid Hst Hj.
  case_bool_decide as Hdraft; cbn [negb]; [|by apply wp_throw, Herr].
  apply wp_bind, run_or_error; [|by auto]. intros context Hctx. unfold parse_plan_context, ok_or in Hctx.
  destruct (decode_context (sgp_plan plan)) as [c|] eqn:Ec; [injection Hctx as ->|done].
  apply wp_bind, run_observation; [|intros x s2 Hw; apply Herr; unfold as_db in *; congruence].
  intros observation s2 Hw2 Hobs. assert (as_db s2 = as_db s) as Hs2 by (unfold as_db in *; congruence).
  apply wp_bind, run_reads; [apply reads_load_effective_desired| |intros; apply Herr; congruence].
  intros effective s3 Hs3 Heff. apply wp_bind, run_or_bad_request; [|intros; apply Herr; congruence]. intros lock Hlock.
  apply wp_bind, run_or_error; [|intros; apply Herr; congruence]. intros expected Hexp.
  assert (decided_against e s plan_id context expected observation effective lock) as Hda.
  { split; [|by rewrite <- Hc1, <- Hs1|by exists s2, s3|done]. exists row, (sgp_plan plan). by rewrite <- Hdraft. }
  assert (as_db s3 = as_db s) as Hs3' by congruence.
  assert (∀ r s', (let current := _ in (current ∧ transitioned plan_id version "approve" PlanApproved (as_db s) (as_db s')) ∨
    (¬ current ∧ is_ok r = false ∧ transitioned plan_id version "stale" PlanStale (as_db s) (as_db s'))) →
    approve_outcome plan_id version e s r s') as Hdec by (intros r s' H'; right; by exists context, expected, observation, effective, lock).
  rewrite <- Hs3' in Hok. destruct (stale_plan_reasons _ _ _ _) as [|reason reasons] eqn:Er.
  - apply stale_plan_reasons_nil in Er.
    apply wp_bind, run_transition; [done| |]; rewrite Hs3'.
    + intros a s' Ht. apply wp_ret, Hdec. auto.
    + intros x s' [Ht|Hs']; [apply Hdec; auto|by apply Herr].
  - assert (¬ stale_plan_reasons (dpp_content expected) (go_snapshot_hash observation)
      (eff_desired_config_hash effective) (lp_lockfile_hash lock) = []) as Hne by by rewrite Er.
    rewrite stale_plan_reasons_nil in Hne.
    apply wp_bind, run_transition; [done| |]; rewrite Hs3'.
    + intros a s' Ht. apply wp_throw, Hdec. auto.
    + intros x s' [Ht|Hs']; [apply Hdec; auto|by apply Herr].
Qed.

(** C10 (safety). Whatever a decision to approve leaves and answers: the plan becomes approved only if it was a
    draft at the version of the request and the hashes it was made for are those of the state
    recomputed at that moment (what is observed, the effective desired state of its context, the
    lockfile of that state); when one of them differs it becomes stale and the answer is an error;
    otherwise nothing is stored. *)
Theorem approval_needs_current_state plan_id version e s :
  schema_ok (as_db s) →
  approve_outcome plan_id version e s (approve_plan plan_id version e s).2 (approve_plan plan_id version e s).1.
Proof. intros Hok. apply (approve_plan_run plan_id version e s Hok). Qed.

(** ** Plans that are made *)

Lemma create_snapshot_ok input e w w' snapshot :
  create_skill_lock_snapshot input e w = (w', Ok snapshot) →
  ∃ row, w_db w' = with_sg_snapshots (λ l, l ++ [row])%list (w_db w) ∧
    sls_scope row = as_str (nls_scope input) ∧ sls_scope_id row = nls_scope_id input ∧
    sls_lock_hash row = nls_lock_hash input ∧ sls_observation_hash row = nls_observation_hash input ∧
    sls_desired_hash row = nls_desired_hash input.
Proof.
  unfold create_skill_lock_snapshot. intros H. apply bind_ok in H as (w1 & id & [= <- _] & H).
  apply bind_ok in H as (w2 & text & [= <- _] & H). apply bind_ok in H as (w3 & now & [= <- _] & H).
  apply bind_ok in H as (w4 & u & (_ & Hi & _)%execute_ok & H).
  pose proof (readonly_require "skill lock snapshot" id _ (readonly_get_skill_lock_snapshot id) e w4) as Hro. rewrite H in Hro.
  cbn in Hro. rewrite Hro. unfold insert_snapshot in Hi. inv_stmt. eexists. split; [done|]. by cbn.
Qed.

Lemma create_plan_ok scope scope_id document oh dh e w w' plan :
  create_skill_governance_plan scope scope_id document oh dh e w = (w', Ok plan) →
  ∃ row, w_db w' = with_sg_plans (λ l, l ++ [row])%list (w_db w) ∧ sgp_plan row = env_to_json e document ∧
    sgp_scope row = as_str scope ∧ sgp_scope_id row = scope_id ∧ sgp_status row = as_str PlanDraft ∧ sgp_version row = 1 ∧
    sgp_observation_hash row = oh ∧ sgp_desired_hash row = dh.
Proof.
  unfold create_skill_governance_plan. intros H. apply bind_ok in H as (w1 & id & [= <- _] & H).
  apply bind_ok in H as (w2 & now & [= <- _] & H). apply bind_ok in H as (w3 & text & [= <- <-] & H).
  apply bind_ok in H as (w4 & u & (_ & Hi & _)%execute_ok & H).
  pose proof (readonly_require plan_entity id _ (readonly_get_skill_governance_plan id) e w4) as Hro. rewrite H in Hro.
  cbn in Hro. rewrite Hro. unfold insert_skill_plan in Hi. inv_stmt. eexists. split; [done|]. by cbn.
Qed.

Definition preview_outcome (request : GovernancePreviewRequest) (e : Env) (s : ApiState SkillCall)
    (r : result LockPreviewResponse ApiError) (s' : ApiState SkillCall) : Prop :=
  match r with
  | Err _ => as_db s' = as_db s ∨ ∃ row, as_db s' = with_sg_snapshots (λ l, l ++ [row])%list (as_db s)
  | Ok lock =>
      ∃ scope_id observation effective s1 s2 row,
        normalized_scope_id (gpr_scope request) (gpr_scope_id request) = Ok scope_id ∧
        observe (length (as_calls s)) (as_db s) (gpr_force request) = Ok observation ∧
        as_db s1 = as_db s ∧ load_effective_desired (desired_target request) e s1 = (s2, Ok effective) ∧
        eff_conflicts effective = [] ∧
        build_lockfile_preview (scoped (gpr_scope request) effective) (go_snapshot_hash observation)
          (go_observed_at observation) = Ok (lpr_preview lock) ∧
        compare_drift (bfilter (observation_matches_scope (gpr_scope request) scope_id) (go_skills observation))
          (lp_content (lpr_preview lock)) = Some (lpr_drift lock) ∧
        as_db s' = with_sg_snapshots (λ l, l ++ [row])%list (as_db s) ∧
        sls_lock_hash row = lp_lockfile_hash (lpr_preview lock) ∧ sls_scope_id row = scope_id ∧
        sls_scope row = as_str (to_store_scope (gpr_scope request))
  end.

Lemma create_snapshot_any input e w w' r :
  create_skill_lock_snapshot input e w = (w', r) →
  w_db w' = w_db w ∨ ∃ row, w_db w' = with_sg_snapshots (λ l, l ++ [row])%list (w_db w).
Proof.
  intros H. replace w' with (create_skill_lock_snapshot input e w).1 by (by rewrite H). clear H.
  unfold create_skill_lock_snapshot, bind, new_v4, json_to_string, utc_now, execute. cbn.
  destruct (env_fault e _); [by left|]. destruct (insert_snapshot _ _) as [[db []]|x] eqn:Ei; [|by left].
  right. rewrite (readonly_require _ _ _ (readonly_get_skill_lock_snapshot _)). cbn.
  unfold insert_snapshot in Ei. inv_stmt. by eexists.
Qed.

Lemma generate_lock_preview_run request e s :
  run (generate_lock_preview request) e s (preview_outcome request e s).
Proof.
  assert (∀ x s', as_db s' = as_db s → preview_outcome request e s (Err x) s') as Herr by (by left).
  apply wp_bind, run_or_error; [|by auto]. intros scope_id Hid.
  apply wp_bind, wp_store_readonly; [apply readonly_list_skill_lock_snapshots| |by auto]. intros w snapshots Hw _.
  apply wp_bind, run_observation; [|intros x s' Hs'; apply Herr; unfold as_db in *; cbn in *; congruence].
  intros observation s1 Hs1 Hobs. assert (as_db s1 = as_db s) as Hdb1 by (unfold as_db in *; cbn in *; congruence).
  apply wp_bind, run_reads; [apply reads_load_effective_desired| |intros; apply Herr; congruence].
  intros effective s2 Hs2 Heff. assert (as_db s2 = as_db s) as Hdb2 by congruence.
  destruct (eff_conflicts effective) as [|c cs] eqn:Ec; [|by apply wp_throw, Herr].
  apply wp_bind, run_or_bad_request; [|by auto]. intros preview Hp.
  apply wp_bind, wp_hsome; [|by auto]. intros drift Hd. apply wp_bind, wp_store.
  - intros w' snapshot (row & Hrow & H1 & H2 & H3 & _)%create_snapshot_ok. apply wp_ret.
    exists scope_id, observation, effective, s1, s2, row. cbn [lpr_preview lpr_drift]. split_and!; try done.
    + unfold as_db in *. cbn in *. by rewrite Hw in Hobs.
    + unfold as_db in *. cbn. by rewrite Hrow, Hdb2.
  - intros w' x Hx%create_snapshot_any. unfold preview_outcome, as_db in *. cbn. by rewrite <- Hdb2.
Qed.

End SkillApi.

(** ** A concrete run *)
Module SkillApiDemo.
#[local] Existing Instance SkillDemo.demo_serde.
#[local] Existing Instance SkillDemo.demo_urls.
#[local] Existing Instance SkillDemo.demo_texts.
#[local] Existing Instance SkillDemo.demo_files.

(** A skill for the workspace and one for its agents. *)
Definition in_scope (scope : GovernanceScope) (d : DesiredSkill) : DesiredSkill :=
  {| dk_logical_identity := dk_logical_identity d; dk_source := dk_source d; dk_version := dk_version d;
     dk_resolved_revision := dk_resolved_revision d; dk_content_digest := dk_content_digest d;
     dk_manifest_digest := dk_manifest_digest d; dk_target_runtime := dk_target_runtime d; dk_install_scope := scope;
     dk_installation_mode := dk_installation_mode d; dk_enabled := dk_enabled d; dk_update_policy := dk_update_policy d;
     dk_allowed_sources := dk_allowed_sources d; dk_risk_policy := dk_risk_policy d;
     dk_expected_destination := dk_expected_destination d |}.
Definition document (skills : list DesiredSkill) : SkillProfileDocument :=
  {| spd_schema_version := 1; spd_name := "team"; spd_description := ""; spd_skills := skills |}.
Definition one : list DesiredSkill := [in_scope GWorkspace (SkillDemo.skill "lint" "c1")].
Definition both : list DesiredSkill := (one ++ [in_scope GAgent (SkillDemo.skill "helper" "c2")])%list.

(** The text of a document tells its kind only: there is one profile and one plan. *)
Definition kind_text (v : Json) : string :=
  match value_get "preview" v, value_get "skills" v with Some _, _ => "plan" | _, Some _ => "profile" | _, _ => "other" end.
Definition kind_value (s : string) : option Json :=
  Some (if str_eqb s "plan" then JObject [("preview", JNull)] else JNull).
Definition env : Env :=
  mkEnv (λ n, Z.of_nat n) (λ n, N.of_nat n) (λ _, false) show_uuid (λ _ _, false) (λ _ _, false) kind_text kind_value
    show_uuid demo_date (fold_right N.add 0%N) demo_rfc3339 read_uuid str_rev.
Definition decoders (skills : list DesiredSkill) (preview : DryRunPlanPreview) : SkillDecode :=
  {| decode_document _ := Some (document skills); decode_preview _ := Some preview;
     decode_context _ := Some (mkDesiredTarget (Some "w1") None) |}.

(** Nothing is installed. *)
Definition nothing_observed (n : nat) (db : DB) (force : bool) : result GovernanceObservation ApiError :=
  Ok {| go_observed_at := 7; go_snapshot_hash := "obs"; go_skills := []; go_diagnostics := [] |}.
Definition no_files (n : nat) : unit := tt.

Definition request : GovernancePreviewRequest :=
  {| gpr_scope := GWorkspace; gpr_scope_id := "w1"; gpr_workspace_id := None; gpr_agent_id := None; gpr_force := false |}.

(** A profile is created and bound to the workspace, and a plan is made for it. *)
Definition bound_state (skills : list DesiredSkill) : ApiState SkillCall :=
  let d := decoders skills SkillDemo.no_plan in
  let s := (create_profile (decoders := d) no_files (document skills) env (mkApiState start [])).1 in
  (bind_profile {| bpr_profile_id := 0; bpr_scope := GWorkspace; bpr_scope_id := " w1 " |} env s).1.
Definition planned (skills : list DesiredSkill) : ApiState SkillCall * result PlanResponse ApiError :=
  generate_plan (decoders := decoders skills SkillDemo.no_plan) no_files nothing_observed request env (bound_state skills).
Definition plan_preview (skills : list DesiredSkill) : DryRunPlanPreview :=
  match (planned skills).2 with Ok a => plr_preview a | Err _ => SkillDemo.no_plan end.
Definition plan_id (skills : list DesiredSkill) : Uuid :=
  match (planned skills).2 with Ok a => sgp_id (plr_plan a) | Err _ => 0%N end.
Definition approved (skills : list DesiredSkill) : ApiState SkillCall * result PlanDecisionResponse ApiError :=
  approve_plan (decoders := decoders skills (plan_preview skills)) no_files nothing_observed (plan_id skills) 1 env
    (planned skills).1.

(** With the skill of the workspace alone the plan is approved at once. *)
Example workspace_plan_approved :
  is_ok (approved one).2 = true ∧ map sgp_status (sg_plans (as_db (approved one).1)) = ["approved"].
Proof. vm_compute. split; reflexivity. Qed.

(** With a skill for agents in the same profile it never is: the plan was made for the lockfile of
    its scope, and the decision compares it with the lockfile of all scopes. Nothing has changed in
    between. *)
Example plan_with_other_scope_refused :
  is_ok (planned both).2 = true ∧ map sgp_status (sg_plans (as_db (planned both).1)) = ["draft"] ∧
  match (approved both).2 with
  | Err (mkApiError CONFLICT (Body body)) => value_get "staleReasons" body
  | _ => None
  end = Some (JArray [JString "lockfile_hash_changed"]) ∧
  map sgp_status (sg_plans (as_db (approved both).1)) = ["stale"].
Proof. vm_compute. split_and!; reflexivity. Qed.

(** A scope identifier with blanks around it: the plan is stored under the trimmed one, but the
    bindings are looked up under the one of the request, so nothing is desired. *)
Definition padded_request : GovernancePreviewRequest :=
  {| gpr_scope := GWorkspace; gpr_scope_id := " w1"; gpr_workspace_id := None; gpr_agent_id := None; gpr_force := false |}.
Definition lock_of (request : GovernancePreviewRequest) : option (string * list string) :=
  match (generate_lock_preview (decoders := decoders both SkillDemo.no_plan) no_files nothing_observed request env
           (bound_state both)).2 with
  | Ok lock => Some (sls_scope_id (lpr_snapshot lock), map le_logical_identity (lc_entries (lp_content (lpr_preview lock))))
  | Err _ => None
  end.
Example padded_scope_has_no_skills :
  lock_of request = Some ("w1", ["lint"]) ∧ lock_of padded_request = Some ("w1", []).
Proof. vm_compute. split; reflexivity. Qed.

(** *** Witnesses *)

(** The same state by the operations of the store. *)
Definition decided_state : ApiState SkillCall :=
  let run_op w op := (run_skill_plan_op op env w).1 in
  mkApiState (fold_left run_op
    [CreateSkillProfile (to_value (profile_document_json (document one))); BindSkillProfile ScopeWorkspace "w1" 0;
     CreateSkillPlan ScopeWorkspace "w1" (JObject [("preview", JNull)]) "obs" ""] start) [].
Definition decided_plan : Uuid := default 0%N (sgp_id <$> head (sg_plans (as_db decided_state))).

Lemma decided_schema : schema_ok (as_db decided_state).
Proof.
  unfold decided_state, as_db. cbn [fold_left as_world]. do 3 apply run_skill_plan_op_schema. apply schema_ok_empty.
Qed.

Lemma approval_needs_current_state_witness :
  let run_of := approve_plan (decoders := decoders one (plan_preview one)) no_files nothing_observed decided_plan 1 env
                  decided_state in
  is_ok run_of.2 = true ∧
  approve_outcome (decoders := decoders one (plan_preview one)) no_files nothing_observed decided_plan 1 env decided_state
    run_of.2 run_of.1.
Proof.
  split; [vm_compute; reflexivity|].
  exact (approval_needs_current_state (decoders := decoders one (plan_preview one)) no_files nothing_observed decided_plan 1 env
    decided_state decided_schema).
Defined.

Definition no_answer : PlanResponse :=
  {| plr_plan := mkSkillGovernancePlan 0 ScopeMachine "" JNull "" "" PlanDraft 0 0 0; plr_preview := SkillDemo.no_plan;
     plr_drift := []; plr_lock_snapshot_id := 0; plr_lockfile_changed := false; plr_applied := false |}.
Definition answer : PlanResponse := match (planned one).2 with Ok a => a | Err _ => no_answer end.

End SkillApiDemo.
